(* ===== verification/_CoqProject ===== *)
-Q . S2P
Prelude.v
GoStrings.v
GoNet.v
Json.v
Config.v
Rule.v
FakeIP.v
RouteTable.v
Router.v
RouterPlatform.v
Outbound.v
DnsResolver.v
HostRoute.v
Forwarder.v
GeoIP.v
Socks5.v
Tun.v
Encoding.v
WGDevice.v
VPN.v
VPNProofs.v
GoBytes.v
Checksum.v
Offload.v
GRO.v
OffloadProofs.v
GROProofs.v
GROInv.v
GROSteps.v
GRORoundtrip.v
OffloadSample.v
TcpBind.v
TcpBindProofs.v
TcpBindOwned.v
TcpBindSample.v
RateLimiter.v
Replay.v
WGCrypto.v
WGCookie.v
AllowedIPs.v
AllowedIPsProofs.v
WGState.v
Handshake.v
HandshakeProofs.v
WGPeer.v
WGRecv.v
Device.v
UAPI.v
WGInv.v
WGInvSession.v
WGInvOps.v
WGInvDevice.v
WGTunnel.v
WGRun.v
UAPIProofs.v
WGInstance.v
WGSample.v
Totp.v
Corplink.v
CorplinkProofs.v
CorplinkSample.v
SystemDNS.v
SystemDNSSample.v
Daemon.v
DaemonProofs.v
DaemonVPN.v
DaemonSample.v
