(* ===== verification/Prelude.v ===== *)
(** * ECorpLink: a verification development

    ECorpLink is a corporate VPN client in Go. A privileged daemon
    (cmd/ecorplink-daemon) logs in to the company's server (internal/corplink),
    gets a WireGuard configuration and hands it to the connection manager
    (internal/vpn), which runs a user-space WireGuard device (wireguard-go, kept
    in the repository with changes of its own) behind a TUN device of its own.
    Packets an application sends into that TUN device go through the traffic
    forwarder (internal/forwarder), which decides by the user's rules
    (internal/rule) and by the VPN server's routes whether a connection leaves
    through WireGuard or directly through a physical interface
    (internal/outbound). Names are captured by a DNS server that answers with
    fake addresses (internal/fakeip), so that rules can speak of names; host
    routes (internal/forwarder) and capture routes (internal/router) bring the
    traffic of the system to the TUN device or keep it away.

    ** Parts of the development

    Foundations
    - this file: the [error] and [result] types, the error monads' notations,
      lemmas on lists, options, maps and intervals shared by the components;
    - GoStrings.v, GoNet.v, Json.v, Encoding.v, GoBytes.v: what the program uses
      of [strings], [strconv], [net], [net/netip], [encoding/json],
      [encoding/hex], [encoding/base64] and [encoding/binary], as executable
      definitions with their lemmas (parsers against printers, masks against
      prefixes).

    The client (src/internal)
    - Config.v (config/config.go, recommended.go), Rule.v (rule/rule.go,
      adapter.go), GeoIP.v (geoip), FakeIP.v (fakeip/pool.go, server.go),
      DnsResolver.v (dns/resolver.go), Outbound.v (outbound/direct.go),
      RouteTable.v (routetable), Router.v (router/router.go) and
      RouterPlatform.v (the three platforms' routers), HostRoute.v (the
      persisted host routes), Forwarder.v (forwarder/forwarder.go, dialer.go,
      tcp.go, dns.go), Socks5.v (socks5proxy), Tun.v (tun), WGDevice.v
      (wgdevice/device.go);
    - VPN.v (vpn/manager.go) composes them the way [Connect], [Disconnect] and
      the runtime operations do; VPNProofs.v has its invariant over histories.

    The tunnel (src/wireguard-go)
    - Replay.v (replay), RateLimiter.v (ratelimiter), WGCrypto.v (the key types,
      message formats, key derivation and time stamps), WGCookie.v
      (device/cookie.go), AllowedIPs.v and AllowedIPsProofs.v
      (device/allowedips.go);
    - WGState.v (the records of a device and the monad of its operations),
      Handshake.v (noise-protocol.go), WGPeer.v (peer.go, timers.go, send.go),
      WGRecv.v (receive.go), Device.v (device.go, tun.go), UAPI.v (uapi.go);
    - WGInv.v, WGInvSession.v, WGInvOps.v, WGInvDevice.v: the invariant [sound]
      of a device and its preservation; WGRun.v: runs of a device under any
      sequence of events; HandshakeProofs.v, WGTunnel.v, UAPIProofs.v: two
      devices, or the device and its client, against each other; WGInstance.v:
      the device as the [WireGuard] interface that WGDevice.v and VPN.v are
      proved against; WGSample.v: concrete devices;
    - Checksum.v (tun/checksum.go), Offload.v and GRO.v (tun/offload_linux.go,
      [Write] and [handleVirtioRead] of tun_linux.go), with OffloadProofs.v and
      GROProofs.v, GROInv.v, GROSteps.v, GRORoundtrip.v, OffloadSample.v.
    - TcpBind.v (conn/bind_tcp.go, the marks of mark_unix.go), TcpBindProofs.v,
      TcpBindOwned.v, TcpBindSample.v: WireGuard over TCP.

    The daemon (src/cmd/ecorplink-daemon, src/internal/corplink)
    - Totp.v (totp.go, wgkey.go, the password encryption of api.go), Corplink.v
      (the company's server as a client sees it: session.go, api.go, auth.go,
      vpn.go, manager.go), CorplinkProofs.v, CorplinkSample.v;
    - SystemDNS.v (system_dns*.go: the system's resolver on three platforms),
      SystemDNSSample.v;
    - Daemon.v (main.go, connection_supervisor.go): requests, the building of a
      connection and its two goroutines as threads of a machine over the
      interface [VPNManager]; DaemonProofs.v: what holds of every run;
      DaemonVPN.v: VPN.v as the manager, with the laws the daemon relies on, and
      SystemDNS.v as its DNS; DaemonSample.v: a daemon that runs.

    ** State and operations

    A struct is a record with the source's field names, a method a function from
    the state before to the state after with its result. A mutex makes what it
    protects one step. Errors are values: [result A] where nothing else is left
    behind, a state monad that keeps the state on an error where the code leaves
    work half done (the [M] of VPN.v, the [WG] operations of WGState.v). Objects
    reached by several pointers live in one place (a store of peers and keypairs
    in WGState.v, the forwarder's engine and route table in VPN.v). Machine
    integers are [Z] or [N] with the wrap-around written out ([u8], [u16],
    [u32], [u64]); [time.Time] is a number of nanoseconds.

    What is not in src/ is a parameter, gathered in a type class with the laws
    that its documentation states: Unicode's case tables ([Unicode]), DNS
    messages ([DNSLib]), the GeoIP reader, cryptography ([Crypto]), sockets
    ([Bind]), the system's commands and interfaces ([OS], [exec]), the byte
    order of the machine ([NativeEndian]). Components that meet through a Go
    interface meet through a class here as well: [Router] with [RouterLaws]
    between the route manager and the platforms, the host routes of the
    forwarder, [WireGuard] between VPN.v and the device.

    ** What the theorems show

    - Safety of the tunnel: nonces are never reused, keys of both ends agree,
      transport data is accepted for live sessions of running peers only, a
      removed peer leaves nothing behind, the anti-replay window is exact, the
      allowed IPs are longest-prefix matching, cookies and rate limits protect
      the handshake; and no event leaves a device stuck.
    - Policy: what the manager's forwarder decides for a destination is what the
      mode, the server's routes and the user's rules say, after any history; the
      rule engine is first match; fake addresses lead back to their names.
    - Cleanliness: after a disconnect or a failed connect no device, listener
      or host route is left; only own routes are removed, also after a restart.
    - Offload: splitting a large packet gives the packets that would have been
      sent one by one, with valid checksums; merging a batch and splitting it
      again carries exactly what the batch carried; the fast checksum is RFC
      1071's.
    - Transport over TCP: packets come out as they were sent, in order and whole,
      and closing the bind leaves no connection behind.
    - The daemon: one connection is current at a time, a disconnect is final,
      the reconnect loop gives up, the system's DNS is given back.
    - The account: a session survives a restart, logs show no sensitive member,
      one-time codes are those of RFC 6238.
    - Configuration: a configuration that loads is valid, and its rules compile.
    The manifest beside this development names the theorem of each property;
    comments [C1], [C2], ... mark them in the files.

    ** Fuel and bounds

    Recursion that is not structural runs on fuel that the definition itself
    computes from its input: [sum_blocks] on the length of the bytes, the
    parsers of GoNet.v and Encoding.v on the length of the string, the loop of
    [SendStagedPackets] on twice the number of staged containers and three more;
    the drawing of an unused index in [NewIndexForHandshake] on [draws], which
    [generator_ok] makes sufficient for the entropy at hand. The theorems
    [device_never_stuck] and [keeps] show that no operation of the device runs
    out of its fuel.

    ** Not modelled

    The interaction with the operating system: opening TUN devices, sockets and
    pipes, ioctls, netlink and route sockets, the service managers, the window
    of the GUI. The network stacks of gVisor that netstack and the forwarder are
    built on, and the relaying of bytes over them. Cryptography, DNS and GeoIP
    encodings beyond what the code relies on. Goroutines are interleaved in
    whole operations: a data race within one is not a behaviour of the model.
*)
From Stdlib Require Export ZArith Lia Ascii String.
From stdpp Require Export base list gmap strings numbers sorting.
Open Scope Z_scope.
(** Comparisons stay folded until both sides are known. *)
#[global] Arguments Nat.ltb !_ !_ / : simpl nomatch.
#[global] Arguments Nat.leb !_ !_ / : simpl nomatch.

(** ** Errors and fallible computations

    A Go [error] is kept as the format string of the [fmt.Errorf] call that
    built it, the rendered arguments and, for [%w], the wrapped cause. *)
Inductive error : Type :=
| Errorf (format : string) (args : list string)
| Wrapf (format : string) (args : list string) (cause : error).

(** [errors.Is err target] for a sentinel [target] compared by identity. *)
Fixpoint errors_Is (e target : error) : bool :=
  match e, target with
  | Errorf f a, Errorf g b => bool_decide (f = g) && bool_decide (a = b)
  | Wrapf _ _ c, _ => errors_Is c target
  | _, _ => false
  end.

Inductive result (A : Type) : Type :=
| Ok (a : A)
| Err (e : error).
Arguments Ok {A} _.
Arguments Err {A} _.

#[export] Instance result_ret : MRet result := fun A a => Ok a.
#[export] Instance result_bind : MBind result :=
  fun A B f m => match m with Ok a => f a | Err e => Err e end.
#[export] Instance result_fmap : FMap result :=
  fun A B f m => match m with Ok a => Ok (f a) | Err e => Err e end.

Definition is_ok {A} (r : result A) : bool :=
  match r with Ok _ => true | Err _ => false end.

(** A loop that appends the converted elements and returns the first error. *)
Fixpoint mapR {A B} (f : A -> result B) (l : list A) : result (list B) :=
  match l with
  | [] => Ok []
  | x :: l' => y ← f x; ys ← mapR f l'; Ok (y :: ys)
  end.

(** ** Machine integers: the value of a Go conversion to a [w]-bit type *)
Definition u8 (z : Z) : Z := z mod 2 ^ 8.
Definition u16 (z : Z) : Z := z mod 2 ^ 16.
Definition u32 (z : Z) : Z := z mod 2 ^ 32.
Definition u64 (z : Z) : Z := z mod 2 ^ 64.

(** Conversion to [int64]. *)
Definition i64 (z : Z) : Z := let u := u64 z in if u <? 2 ^ 63 then u else u - 2 ^ 64.

(** A byte slice: every element is in range. *)
Definition is_byte (b : Z) : Prop := 0 <= b < 256.
Definition bytes_ok (l : list Z) : Prop := Forall is_byte l.

(** ** Automation *)
Create HintDb s2.

Lemma Ok_inj {A} (a b : A) : Ok a = Ok b -> a = b.
Proof. by intros [= ->]. Qed.

Lemma is_ok_true {A} (r : result A) : is_ok r = true <-> exists a, r = Ok a.
Proof. destruct r; cbn; split; [eauto | done.. | by intros [? [=]]]. Qed.

(** [rinv H] decomposes a successful computation [m >>= f = Ok b] in [H]. *)
Lemma bind_Ok {A B} (m : result A) (f : A -> result B) b :
  (m ≫= f) = Ok b -> exists a, m = Ok a /\ f a = Ok b.
Proof. destruct m; [eauto | done]. Qed.

Ltac rinv H :=
  let a := fresh "a" in let E := fresh "E" in
  apply bind_Ok in H; destruct H as [a [E H]]; simplify_eq/=.

(** Linear arithmetic with divisions and remainders by constants. *)
Ltac div_lia := Z.to_euclidean_division_equations; lia.

(** Case analysis on the scrutinee of a [match]/[if] of the goal. *)
Ltac case_match_goal :=
  match goal with
  | |- context [match ?x with _ => _ end] => destruct x eqn:?
  end.

Lemma mapR_Ok {A B} (f : A -> result B) l ys :
  mapR f l = Ok ys <-> Forall2 (fun x y => f x = Ok y) l ys.
Proof.
  revert ys. induction l as [|x l IH]; intros ys; cbn.
  - split; [intros [= <-]; constructor | by inversion 1].
  - split.
    + intros H. rinv H. rinv H. constructor; [done | by apply IH].
    + inversion 1 as [|? ? ? ? Hx Hl]; simplify_eq. rewrite Hx. cbn.
      by rewrite (proj2 (IH _) Hl).
Qed.

Lemma mapR_is_ok {A B} (f : A -> result B) l :
  is_ok (mapR f l) = forallb (fun x => is_ok (f x)) l.
Proof.
  induction l as [|x l IH]; [done |]. cbn. destruct (f x); [|done].
  cbn. destruct (mapR f l); cbn in *; by rewrite <- IH.
Qed.

Lemma mapR_length {A B} (f : A -> result B) l ys :
  mapR f l = Ok ys -> length ys = length l.
Proof. intros H%mapR_Ok. symmetry. by eapply Forall2_length. Qed.

(** ** Ranges of the wrap functions *)
Lemma u8_range z : 0 <= u8 z < 256.
Proof. by apply Z.mod_pos_bound. Qed.
Lemma u16_range z : 0 <= u16 z < 65536.
Proof. by apply Z.mod_pos_bound. Qed.
Lemma u32_range z : 0 <= u32 z < 4294967296.
Proof. by apply Z.mod_pos_bound. Qed.
Lemma u64_range z : 0 <= u64 z < 18446744073709551616.
Proof. by apply Z.mod_pos_bound. Qed.
Lemma u8_small z : 0 <= z < 256 -> u8 z = z.
Proof. intros. by apply Z.mod_small. Qed.
Lemma u32_small z : 0 <= z < 4294967296 -> u32 z = z.
Proof. intros. by apply Z.mod_small. Qed.
Lemma u64_small z : 0 <= z < 18446744073709551616 -> u64 z = z.
Proof. intros. by apply Z.mod_small. Qed.
Lemma i64_small z : - 2 ^ 63 <= z < 2 ^ 63 -> i64 z = z.
Proof.
  intros Hz. unfold i64, u64. destruct (decide (0 <= z)).
  - rewrite Z.mod_small by lia. by rewrite (proj2 (Z.ltb_lt _ _)) by lia.
  - replace (z mod 2 ^ 64) with (z + 2 ^ 64); [rewrite (proj2 (Z.ltb_ge _ _)) by lia; lia|].
    apply (Z.mod_unique z (2 ^ 64) (-1)); lia.
Qed.
#[export] Hint Resolve u8_range u16_range u32_range u64_range : s2.

(** ** Searching a list in order *)

(** The first element satisfying [p]: the shape of every rule or route scan. *)
Fixpoint find_first {A} (p : A -> bool) (l : list A) : option A :=
  match l with
  | [] => None
  | x :: l' => if p x then Some x else find_first p l'
  end.

Lemma find_first_Some {A} (p : A -> bool) l x :
  find_first p l = Some x <->
  exists i, l !! i = Some x /\ p x = true /\
    forall j y, (j < i)%nat -> l !! j = Some y -> p y = false.
Proof.
  induction l as [|z l IH]; cbn.
  - split; [done | intros (i & ? & _); by destruct i].
  - destruct (p z) eqn:Hz.
    + split.
      * intros [= ->]. exists 0%nat. repeat split; [done..|]. lia.
      * intros ([|i] & Hl & Hp & Hlt); [cbn in Hl; congruence|].
        by rewrite (Hlt 0%nat z ltac:(lia) eq_refl) in Hz.
    + rewrite IH. split.
      * intros (i & Hl & Hp & Hlt). exists (S i). repeat split; [done..|].
        intros [|j] y Hj Hy; cbn in Hy; [congruence|].
        apply (Hlt j); [lia | done].
      * intros ([|i] & Hl & Hp & Hlt); [cbn in Hl; congruence|].
        exists i. repeat split; [done..|].
        intros j y Hj Hy. apply (Hlt (S j)); [lia | done].
Qed.

Lemma find_first_None {A} (p : A -> bool) l :
  find_first p l = None <-> Forall (fun x => p x = false) l.
Proof.
  induction l as [|z l IH]; cbn; [by split|].
  rewrite Forall_cons. destruct (p z); [split; [done | intros [Hz _]; discriminate Hz]|].
  rewrite IH. split; [done | by intros [_ ?]].
Qed.

Lemma find_first_app {A} (p : A -> bool) l1 l2 :
  find_first p (l1 ++ l2) =
  match find_first p l1 with Some x => Some x | None => find_first p l2 end.
Proof. induction l1 as [|z l IH]; cbn; [done|]. by destruct (p z). Qed.

Lemma find_first_elem {A} (p : A -> bool) l x :
  find_first p l = Some x -> x ∈ l /\ p x = true.
Proof.
  intros (i & Hi & Hp & _)%find_first_Some.
  split; [by eapply list_elem_of_lookup_2 | done].
Qed.

(** ** First occurrences, in order: the [seen] loops of the Go code *)
Fixpoint dedup_with {A} `{Countable A} (seen : gset A) (l : list A) : list A :=
  match l with
  | [] => []
  | x :: l' =>
      if bool_decide (x ∈ seen) then dedup_with seen l'
      else x :: dedup_with ({[x]} ∪ seen) l'
  end.

Lemma elem_of_dedup_with {A} `{Countable A} (seen : gset A) l x :
  x ∈ dedup_with seen l <-> x ∈ l /\ x ∉ seen.
Proof.
  revert seen. induction l as [|y l IH]; intros seen; cbn.
  { by rewrite elem_of_nil; split; [|intros []]. }
  rewrite elem_of_cons. case_bool_decide as Hy; rewrite ?elem_of_cons, IH.
  - split; [tauto|]. by intros [[->|] ?].
  - rewrite not_elem_of_union, not_elem_of_singleton.
    destruct (decide (x = y)) as [->|]; tauto.
Qed.

Lemma NoDup_dedup_with {A} `{Countable A} (seen : gset A) l :
  NoDup (dedup_with seen l).
Proof.
  revert seen. induction l as [|y l IH]; intros seen; cbn; [constructor|].
  case_bool_decide; [done|]. constructor; [|done].
  rewrite elem_of_dedup_with, not_elem_of_union, not_elem_of_singleton. tauto.
Qed.

(** ** Sorting

    [sort.Slice] is not stable: all that is known of its result is that it is a
    sorted permutation. Clients are proved against these laws. *)
Definition strict_weak {A} (less : A -> A -> bool) : Prop :=
  (forall x, less x x = false) /\
  (forall x y z, less x y = true -> less y z = true -> less x z = true) /\
  (forall x y z, less x y = false -> less y z = false -> less x z = false).

Class SliceSort := {
  sort_Slice : forall {A : Type}, (A -> A -> bool) -> list A -> list A;
  sort_Slice_perm : forall {A} (less : A -> A -> bool) l, sort_Slice less l ≡ₚ l;
  sort_Slice_sorted : forall {A} (less : A -> A -> bool) l,
    strict_weak less -> StronglySorted (fun x y => less y x = false) (sort_Slice less l)
}.

Fixpoint insert_by {A} (less : A -> A -> bool) (x : A) (l : list A) : list A :=
  match l with
  | [] => [x]
  | y :: l' => if less y x then y :: insert_by less x l' else x :: l
  end.
Fixpoint insertion_sort {A} (less : A -> A -> bool) (l : list A) : list A :=
  match l with [] => [] | x :: l' => insert_by less x (insertion_sort less l') end.

Lemma insert_by_perm {A} (less : A -> A -> bool) x l : insert_by less x l ≡ₚ x :: l.
Proof.
  induction l as [|y l IH]; cbn; [done|]. destruct (less y x); [|done].
  rewrite IH. apply Permutation_swap.
Qed.
Lemma insertion_sort_perm {A} (less : A -> A -> bool) l : insertion_sort less l ≡ₚ l.
Proof. induction l as [|x l IH]; cbn; [done|]. by rewrite insert_by_perm, IH. Qed.

Lemma insert_by_sorted {A} (less : A -> A -> bool) x l :
  strict_weak less -> StronglySorted (fun a b => less b a = false) l ->
  StronglySorted (fun a b => less b a = false) (insert_by less x l).
Proof.
  intros (Hirr & Htr & Hneg). induction 1 as [|y l Hl IH Hy]; cbn; [by repeat constructor|].
  destruct (less y x) eqn:E; constructor; [done| |by constructor|].
  - rewrite insert_by_perm. constructor; [|done].
    destruct (less x y) eqn:E'; [|done].
    specialize (Htr _ _ _ E E'). by rewrite Hirr in Htr.
  - constructor; [done|]. eapply Forall_impl; [exact Hy|]. intros z Hz. by apply (Hneg z y x).
Qed.

Lemma insertion_sort_sorted {A} (less : A -> A -> bool) l :
  strict_weak less -> StronglySorted (fun a b => less b a = false) (insertion_sort less l).
Proof.
  intros Hw. induction l as [|x l IH]; cbn; [constructor | by apply insert_by_sorted].
Qed.

(** One sort that meets the laws. *)
Definition insertion_SliceSort : SliceSort := {|
  sort_Slice := @insertion_sort;
  sort_Slice_perm := @insertion_sort_perm;
  sort_Slice_sorted := @insertion_sort_sorted
|}.
