(* ===== verification/GoStrings.v ===== *)
(** * The functions of Go's [strings] and [strconv] packages that the program uses

    A Go string is a sequence of bytes, here a [string].  The functions are
    computable definitions with the lemmas the components apply to them. The
    conversions of non-ASCII letters go through Unicode's case tables, which
    are a parameter ([Unicode]); everything the functions do on ASCII text is
    defined here. *)
From S2P Require Import Prelude.
Open Scope string_scope.
Open Scope list_scope.
Open Scope Z_scope.

(** Concatenation computes on a known first byte. *)
#[global] Arguments String.append !_ _ / : simpl nomatch.

(** ** Bytes *)
Definition byte_of (c : ascii) : Z := Z.of_N (N_of_ascii c).
Definition of_byte (b : Z) : ascii := ascii_of_N (Z.to_N b).

Fixpoint all_chars (p : ascii -> bool) (s : string) : bool :=
  match s with
  | EmptyString => true
  | String c s' => p c && all_chars p s'
  end.

Fixpoint map_chars (f : ascii -> ascii) (s : string) : string :=
  match s with
  | EmptyString => EmptyString
  | String c s' => String (f c) (map_chars f s')
  end.

Definition is_ascii (s : string) : bool := all_chars (fun c => byte_of c <? 128) s.

(** ** Letter case *)
Definition is_upper_char (c : ascii) : bool := (65 <=? byte_of c) && (byte_of c <=? 90).
Definition is_lower_char (c : ascii) : bool := (97 <=? byte_of c) && (byte_of c <=? 122).
Definition lower_char (c : ascii) : ascii :=
  if is_upper_char c then of_byte (byte_of c + 32) else c.
Definition upper_char (c : ascii) : ascii :=
  if is_lower_char c then of_byte (byte_of c - 32) else c.

(** The case mappings and simple folding of text with a non-ASCII rune. *)
Class Unicode := {
  uni_lower : string -> string;
  uni_upper : string -> string;
  uni_equal_fold : string -> string -> bool
}.

(** Case tables that know no letter outside ASCII. *)
Definition ascii_only : Unicode := {|
  uni_lower := fun s => s;
  uni_upper := fun s => s;
  uni_equal_fold := fun s t => bool_decide (s = t)
|}.

Definition ToLower `{Unicode} (s : string) : string :=
  if is_ascii s then map_chars lower_char s else uni_lower s.
Definition ToUpper `{Unicode} (s : string) : string :=
  if is_ascii s then map_chars upper_char s else uni_upper s.

(** [strings.EqualFold]: byte by byte until one of the strings shows a byte
    of a non-ASCII rune. *)
Fixpoint EqualFold `{Unicode} (s t : string) : bool :=
  match s, t with
  | String a s', String b t' =>
      if (128 <=? byte_of a) || (128 <=? byte_of b) then uni_equal_fold s t
      else if bool_decide (lower_char a = lower_char b) then EqualFold s' t'
      else false
  | EmptyString, EmptyString => true
  | _, _ => false
  end.

(** ** Prefixes, suffixes and substrings *)
Fixpoint sdrop (n : nat) (s : string) : string :=
  match n, s with
  | O, _ => s
  | S n', String _ s' => sdrop n' s'
  | S _, EmptyString => EmptyString
  end.
Fixpoint stake (n : nat) (s : string) : string :=
  match n, s with
  | O, _ => EmptyString
  | S n', String c s' => String c (stake n' s')
  | S _, EmptyString => EmptyString
  end.

Fixpoint HasPrefix (s p : string) {struct p} : bool :=
  match p, s with
  | EmptyString, _ => true
  | String a p', String b s' => bool_decide (a = b) && HasPrefix s' p'
  | String _ _, EmptyString => false
  end.
Definition HasSuffix (s p : string) : bool :=
  (String.length p <=? String.length s)%nat &&
  bool_decide (sdrop (String.length s - String.length p) s = p).
Fixpoint Contains (s sub : string) : bool :=
  HasPrefix s sub ||
  match s with EmptyString => false | String _ s' => Contains s' sub end.
Definition TrimPrefix (s p : string) : string :=
  if HasPrefix s p then sdrop (String.length p) s else s.
Definition TrimSuffix (s p : string) : string :=
  if HasSuffix s p then stake (String.length s - String.length p) s else s.

Fixpoint rev_append_string (s acc : string) : string :=
  match s with
  | EmptyString => acc
  | String c s' => rev_append_string s' (String c acc)
  end.
Definition srev (s : string) : string := rev_append_string s "".
#[global] Arguments srev : simpl never.

(** ** Splitting and joining *)

(** [strings.Cut] for a non-empty separator. *)
Fixpoint Cut (s sep : string) : option (string * string) :=
  if HasPrefix s sep then Some ("", sdrop (String.length sep) s)
  else match s with
       | EmptyString => None
       | String c s' =>
           match Cut s' sep with
           | Some (a, b) => Some (String c a, b)
           | None => None
           end
       end.

(** [strings.SplitN s sep n] for [n > 0]. *)
Fixpoint SplitN (s sep : string) (n : nat) : list string :=
  match n with
  | O => []
  | 1%nat => [s]
  | S n' => match Cut s sep with
            | Some (a, b) => a :: SplitN b sep n'
            | None => [s]
            end
  end.
(** A string has at most one piece more than it has bytes. *)
Definition Split (s sep : string) : list string := SplitN s sep (S (String.length s)).

Fixpoint Join (l : list string) (sep : string) : string :=
  match l with
  | [] => ""
  | [s] => s
  | s :: l' => s +:+ sep +:+ Join l' sep
  end.

(** [strings.ReplaceAll] for a non-empty [old]. *)
Definition ReplaceAll (s old new : string) : string := Join (Split s old) new.

(** ** White space *)
Definition str_of_bytes (l : list Z) : string :=
  fold_right (fun b s => String (of_byte b) s) "" l.

(** The UTF-8 encodings of the runes for which [unicode.IsSpace] holds. *)
Definition space_seqs : list string :=
  map str_of_bytes
    ([[9]; [10]; [11]; [12]; [13]; [32]; [194; 133]; [194; 160]; [225; 154; 128]] ++
     map (fun k => [226; 128; k])
       [128; 129; 130; 131; 132; 133; 134; 135; 136; 137; 138; 168; 169; 175] ++
     [[226; 129; 159]; [227; 128; 128]]).
Definition space_seqs_rev : list string := Eval vm_compute in map srev space_seqs.

Fixpoint strip (fuel : nat) (seqs : list string) (s : string) : string :=
  match fuel with
  | O => s
  | S f => match find_first (HasPrefix s) seqs with
           | Some q => strip f seqs (sdrop (String.length q) s)
           | None => s
           end
  end.
Definition strip_all (seqs : list string) (s : string) : string :=
  strip (S (String.length s)) seqs s.

Definition TrimSpaceLeft (s : string) : string := strip_all space_seqs s.
Definition TrimSpaceRight (s : string) : string := srev (strip_all space_seqs_rev (srev s)).
Definition TrimSpace (s : string) : string := TrimSpaceRight (TrimSpaceLeft s).

(** [strings.Fields] on the pieces between white space. *)
Fixpoint fields_go (fuel : nat) (cur s : string) : list string :=
  match fuel with
  | O => []
  | S f =>
      match find_first (HasPrefix s) space_seqs with
      | Some q =>
          let rest := fields_go f "" (sdrop (String.length q) s) in
          if bool_decide (cur = "") then rest else srev cur :: rest
      | None =>
          match s with
          | EmptyString => if bool_decide (cur = "") then [] else [srev cur]
          | String c s' => fields_go f (String c cur) s'
          end
      end
  end.
Definition Fields (s : string) : list string := fields_go (S (String.length s)) "" s.

(** ** Decimal numbers *)
Definition is_digit (c : ascii) : bool := (48 <=? byte_of c) && (byte_of c <=? 57).
Definition digit_val (c : ascii) : Z := byte_of c - 48.
Definition digit_char (d : Z) : ascii := of_byte (48 + d).

Fixpoint parse_digits (acc : Z) (s : string) : option Z :=
  match s with
  | EmptyString => Some acc
  | String c s' => if is_digit c then parse_digits (acc * 10 + digit_val c) s' else None
  end.
(** [strconv.ParseUint s 10 bits], any error being [None]. *)
Definition ParseUint (s : string) (bits : Z) : option Z :=
  if bool_decide (s = "") then None
  else match parse_digits 0 s with
       | Some n => if n <? 2 ^ bits then Some n else None
       | None => None
       end.
(** [strconv.Atoi] on a 64-bit platform. *)
Definition Atoi (s : string) : option Z :=
  let '(neg, body) :=
    match s with
    | String "-" s' => (true, s')
    | String "+" s' => (false, s')
    | _ => (false, s)
    end in
  match ParseUint body 64 with
  | Some n => if neg then (if n <=? 2 ^ 63 then Some (- n) else None)
              else (if n <? 2 ^ 63 then Some n else None)
  | None => None
  end.

Fixpoint utoa_go (fuel : nat) (z : Z) (acc : string) : string :=
  let acc' := String (digit_char (z mod 10)) acc in
  match fuel with
  | O => acc'
  | S f => if z <? 10 then acc' else utoa_go f (z / 10) acc'
  end.
(** [strconv.Itoa] and [%d]; a 64-bit number has at most twenty digits. *)
Definition utoa (z : Z) : string := utoa_go 20 z "".
Definition itoa (z : Z) : string := if z <? 0 then "-" +:+ utoa (- z) else utoa z.

(** ** Lemmas: bytes and case *)
Lemma byte_of_range c : 0 <= byte_of c < 256.
Proof. unfold byte_of. pose proof (N_ascii_bounded c). lia. Qed.
#[export] Hint Resolve byte_of_range : s2.

Lemma byte_of_of_byte b : 0 <= b < 256 -> byte_of (of_byte b) = b.
Proof. intros. unfold byte_of, of_byte. rewrite N_ascii_embedding; lia. Qed.

Lemma of_byte_byte_of c : of_byte (byte_of c) = c.
Proof. unfold byte_of, of_byte. rewrite N2Z.id. apply ascii_N_embedding. Qed.

(** A decidable property of every byte is settled by evaluation. *)
Lemma ascii_forall (P : ascii -> Prop) {D : forall c, Decision (P c)} :
  forallb (fun n => bool_decide (P (ascii_of_nat n))) (seq 0 256) = true ->
  forall c, P c.
Proof.
  intros Hall c. rewrite forallb_forall in Hall. rewrite <- (ascii_nat_embedding c).
  apply (bool_decide_eq_true_1 _), Hall, in_seq.
  pose proof (nat_ascii_bounded c). lia.
Qed.
Ltac every_byte := apply (ascii_forall _); by vm_compute.

Lemma lower_char_idemp : forall c, lower_char (lower_char c) = lower_char c.
Proof. every_byte. Qed.
Lemma upper_char_idemp : forall c, upper_char (upper_char c) = upper_char c.
Proof. every_byte. Qed.
Lemma lower_upper_char : forall c, lower_char (upper_char c) = lower_char c.
Proof. every_byte. Qed.
Lemma lower_char_ascii : forall c, (byte_of (lower_char c) <? 128) = (byte_of c <? 128).
Proof. every_byte. Qed.
Lemma upper_char_ascii : forall c, (byte_of (upper_char c) <? 128) = (byte_of c <? 128).
Proof. every_byte. Qed.

Lemma all_chars_map f p s :
  (forall c, p (f c) = p c) -> all_chars p (map_chars f s) = all_chars p s.
Proof. intros Hp. induction s as [|c s IH]; cbn; [done|]. by rewrite Hp, IH. Qed.

Lemma map_chars_comp f g h s :
  (forall c, f (g c) = h c) -> map_chars f (map_chars g s) = map_chars h s.
Proof. intros Hf. induction s as [|c s IH]; cbn; [done|]. by rewrite Hf, IH. Qed.

Lemma map_chars_length f s : String.length (map_chars f s) = String.length s.
Proof. induction s as [|c s IH]; cbn; [done|]. by rewrite IH. Qed.

Lemma map_chars_app f s t : map_chars f (s +:+ t) = map_chars f s +:+ map_chars f t.
Proof. induction s as [|c s IH]; cbn; [done|]. by rewrite IH. Qed.

Lemma all_chars_app p s t : all_chars p (s +:+ t) = all_chars p s && all_chars p t.
Proof. induction s as [|c s IH]; cbn; [done|]. by rewrite IH, andb_assoc. Qed.

Section with_unicode.
Context {U : Unicode}.

Lemma ToLower_ascii s : is_ascii s = true -> ToLower s = map_chars lower_char s.
Proof. unfold ToLower. by intros ->. Qed.
Lemma ToUpper_ascii s : is_ascii s = true -> ToUpper s = map_chars upper_char s.
Proof. unfold ToUpper. by intros ->. Qed.
Lemma is_ascii_ToLower s : is_ascii s = true -> is_ascii (ToLower s) = true.
Proof.
  intros H. rewrite ToLower_ascii by done. unfold is_ascii in *.
  by rewrite all_chars_map by apply lower_char_ascii.
Qed.
Lemma is_ascii_ToUpper s : is_ascii s = true -> is_ascii (ToUpper s) = true.
Proof.
  intros H. rewrite ToUpper_ascii by done. unfold is_ascii in *.
  by rewrite all_chars_map by apply upper_char_ascii.
Qed.
Lemma ToLower_idemp s : is_ascii s = true -> ToLower (ToLower s) = ToLower s.
Proof.
  intros H. rewrite (ToLower_ascii (ToLower s)) by by apply is_ascii_ToLower.
  rewrite ToLower_ascii by done. apply map_chars_comp, lower_char_idemp.
Qed.
Lemma ToLower_ToUpper s : is_ascii s = true -> ToLower (ToUpper s) = ToLower s.
Proof.
  intros H. rewrite (ToLower_ascii (ToUpper s)) by by apply is_ascii_ToUpper.
  rewrite (ToUpper_ascii s), (ToLower_ascii s) by done.
  apply map_chars_comp, lower_upper_char.
Qed.
Lemma EqualFold_ascii s t :
  is_ascii s = true -> is_ascii t = true ->
  EqualFold s t = bool_decide (ToLower s = ToLower t).
Proof.
  intros Hs Ht. rewrite !ToLower_ascii by done.
  revert t Ht. induction s as [|a s IH]; intros [|b t] Ht; [done..|].
  unfold is_ascii in *. cbn in Hs, Ht |- *.
  apply andb_true_iff in Hs as [Ha Hs]. apply andb_true_iff in Ht as [Hb Ht].
  rewrite (proj2 (Z.leb_gt _ _)) by (apply Z.ltb_lt; done).
  rewrite (proj2 (Z.leb_gt _ _)) by (apply Z.ltb_lt; done).
  cbn. rewrite IH by done. repeat case_bool_decide; try done; congruence.
Qed.
End with_unicode.

(** ** Lemmas: prefixes, suffixes, pieces *)
Lemma sappend_nil_r s : s +:+ "" = s.
Proof. induction s as [|c s IH]; cbn; [done|]. by rewrite IH. Qed.
Lemma sappend_assoc s t u : (s +:+ t) +:+ u = s +:+ (t +:+ u).
Proof. induction s as [|c s IH]; cbn; [done|]. by rewrite IH. Qed.
Lemma slength_app s t : String.length (s +:+ t) = (String.length s + String.length t)%nat.
Proof. induction s as [|c s IH]; cbn; [done|]. by rewrite IH. Qed.
Lemma sappend_inj_l s t u : s +:+ t = s +:+ u -> t = u.
Proof. induction s as [|c s IH]; cbn; [done|]. intros [= ?]. by apply IH. Qed.

Lemma stake_sdrop n s : stake n s +:+ sdrop n s = s.
Proof. revert s. induction n as [|n IH]; intros [|c s]; cbn; [done..|]. by rewrite IH. Qed.
Lemma sdrop_app s t : sdrop (String.length s) (s +:+ t) = t.
Proof. induction s as [|c s IH]; cbn; done. Qed.
Lemma stake_app s t : stake (String.length s) (s +:+ t) = s.
Proof. induction s as [|c s IH]; cbn; [by destruct t|]. by rewrite IH. Qed.
Lemma sdrop_length n s : String.length (sdrop n s) = (String.length s - n)%nat.
Proof. revert s. induction n as [|n IH]; intros [|c s]; cbn; [done..|]. apply IH. Qed.

Lemma HasPrefix_spec s p : HasPrefix s p = true <-> exists t, s = p +:+ t.
Proof.
  revert s. induction p as [|a p IH]; intros s; cbn; [by split; [exists s|]|].
  destruct s as [|b s]; cbn.
  - split; [done | by intros [t [=]]].
  - rewrite andb_true_iff, bool_decide_eq_true, IH. split.
    + intros (-> & t & ->). eauto.
    + intros (t & [= -> ->]). eauto.
Qed.

Lemma HasSuffix_spec s p : HasSuffix s p = true <-> exists t, s = t +:+ p.
Proof.
  unfold HasSuffix. rewrite andb_true_iff, bool_decide_eq_true, Nat.leb_le. split.
  - intros [_ H]. exists (stake (String.length s - String.length p) s).
    rewrite <- H at 2. by rewrite stake_sdrop.
  - intros (t & ->). rewrite slength_app. split; [lia|].
    replace (_ + _ - _)%nat with (String.length t) by lia. apply sdrop_app.
Qed.

Lemma Contains_spec s p : Contains s p = true <-> exists t u, s = t +:+ p +:+ u.
Proof.
  induction s as [|c s IH]; cbn; rewrite orb_true_iff, HasPrefix_spec.
  - split.
    + intros [[t ->]|[=]]. by exists "", t.
    + intros ([|] & u & [=]). left. eauto.
  - rewrite IH. split.
    + intros [[t ->]|(t & u & ->)]; [by exists "", t | by exists (String c t), u].
    + intros ([|d t] & u & E); [left; eauto|]. injection E as -> ->. right. eauto.
Qed.

Lemma TrimSuffix_app s p : TrimSuffix (s +:+ p) p = s.
Proof.
  unfold TrimSuffix. rewrite (proj2 (HasSuffix_spec _ _)) by eauto.
  rewrite slength_app. replace (_ + _ - _)%nat with (String.length s) by lia.
  apply stake_app.
Qed.
Lemma TrimSuffix_no s p : HasSuffix s p = false -> TrimSuffix s p = s.
Proof. unfold TrimSuffix. by intros ->. Qed.
Lemma TrimPrefix_app s p : TrimPrefix (p +:+ s) p = s.
Proof.
  unfold TrimPrefix. rewrite (proj2 (HasPrefix_spec _ _)) by eauto. apply sdrop_app.
Qed.

Lemma rev_append_string_app s acc : rev_append_string s acc = srev s +:+ acc.
Proof.
  unfold srev. revert acc. induction s as [|c s IH]; intros acc; cbn; [done|].
  rewrite IH, (IH (String c "")), sappend_assoc. done.
Qed.
Lemma srev_cons c s : srev (String c s) = srev s +:+ String c "".
Proof. unfold srev at 1. cbn. apply rev_append_string_app. Qed.
Lemma srev_app s t : srev (s +:+ t) = srev t +:+ srev s.
Proof.
  induction s as [|c s IH]; cbn; [by rewrite sappend_nil_r|].
  rewrite !srev_cons, IH, sappend_assoc. done.
Qed.
Lemma srev_involutive s : srev (srev s) = s.
Proof. induction s as [|c s IH]; [done|]. rewrite srev_cons, srev_app, IH. done. Qed.
Lemma srev_length s : String.length (srev s) = String.length s.
Proof.
  induction s as [|c s IH]; [done|]. rewrite srev_cons, slength_app, IH. cbn. lia.
Qed.

(** *** [Cut] finds the first occurrence of the separator. *)
Lemma Cut_Some s sep a b : Cut s sep = Some (a, b) -> s = a +:+ sep +:+ b.
Proof.
  revert a. induction s as [|c s IH]; intros a; cbn.
  - destruct (HasPrefix "" sep) eqn:E; [|done]. intros [= <- <-].
    apply HasPrefix_spec in E as [t E]. destruct sep; [|done].
    destruct t; [done | discriminate E].
  - destruct (HasPrefix (String c s) sep) eqn:E.
    + intros [= <- <-]. apply HasPrefix_spec in E as [t ->]. cbn.
      by rewrite sdrop_app.
    + destruct (Cut s sep) as [[a' b']|]; [|done]. intros [= <- <-]. cbn.
      by rewrite <- (IH a').
Qed.

Definition no_char (d : ascii) (s : string) : bool :=
  all_chars (fun c => bool_decide (c <> d)) s.

Lemma Cut_char_app d a b :
  no_char d a = true -> Cut (a +:+ String d b) (String d "") = Some (a, b).
Proof.
  unfold no_char. induction a as [|c a IH]; cbn; intros H.
  - rewrite bool_decide_eq_true_2 by done. cbn. by destruct b.
  - apply andb_true_iff in H as [Hc%bool_decide_eq_true H].
    rewrite bool_decide_eq_false_2 by congruence. cbn. by rewrite IH.
Qed.

Lemma Cut_char_None d s : Cut s (String d "") = None <-> no_char d s = true.
Proof.
  unfold no_char. induction s as [|c s IH]; cbn; [done|].
  destruct (decide (c = d)) as [->|Hc].
  - rewrite !(bool_decide_eq_true_2 (d = d)) by done. cbn.
    rewrite bool_decide_eq_false_2 by tauto. done.
  - rewrite (bool_decide_eq_false_2 (d = c)) by congruence. cbn.
    rewrite bool_decide_eq_true_2 by done. cbn. rewrite <- IH.
    destruct (Cut s _) as [[??]|]; done.
Qed.

Lemma Cut_char_Some d s a b :
  Cut s (String d "") = Some (a, b) -> s = a +:+ String d b /\ no_char d a = true.
Proof.
  intros H. split; [by apply Cut_Some in H|]. revert a b H. unfold no_char.
  induction s as [|c s IH]; cbn; intros a b; [done|].
  destruct (decide (d = c)) as [->|Hc].
  - rewrite bool_decide_eq_true_2 by done. cbn. by intros [= <- <-].
  - rewrite bool_decide_eq_false_2 by done. cbn.
    destruct (Cut s _) as [[a' b']|]; [|done]. intros [= <- <-]. cbn.
    rewrite bool_decide_eq_true_2 by congruence. by eapply IH.
Qed.

(** *** Trimming *)
Lemma strip_suffix fuel seqs s : exists t, s = t +:+ strip fuel seqs s.
Proof.
  revert s. induction fuel as [|f IH]; intros s; cbn; [by exists ""|].
  destruct (find_first _ _) as [q|] eqn:E; [|by exists ""].
  apply find_first_elem in E as [_ [t ->]%HasPrefix_spec].
  rewrite sdrop_app. destruct (IH t) as [t' E]. exists (q +:+ t').
  by rewrite sappend_assoc, <- E.
Qed.

Lemma strip_none fuel seqs s :
  find_first (HasPrefix s) seqs = None -> strip fuel seqs s = s.
Proof. destruct fuel; cbn; [done|]. by intros ->. Qed.

Lemma strip_done fuel seqs s :
  Forall (fun q => q <> "") seqs -> (String.length s < fuel)%nat ->
  find_first (HasPrefix (strip fuel seqs s)) seqs = None.
Proof.
  intros Hne. revert s. induction fuel as [|f IH]; intros s Hf; [lia|]. cbn.
  destruct (find_first (HasPrefix s) seqs) as [q|] eqn:E; [|done].
  apply find_first_elem in E as [Hq [t ->]%HasPrefix_spec].
  rewrite sdrop_app. apply IH. rewrite slength_app in Hf.
  rewrite Forall_forall in Hne. specialize (Hne q Hq). destruct q; [done|].
  cbn in Hf. lia.
Qed.

(** No space sequence starts a string if none starts a longer one. *)
Lemma no_seq_prefix seqs s t :
  find_first (HasPrefix (s +:+ t)) seqs = None -> find_first (HasPrefix s) seqs = None.
Proof.
  rewrite !find_first_None, !Forall_forall. intros H q Hq.
  apply not_true_is_false. intros [u ->]%HasPrefix_spec.
  specialize (H q Hq). apply not_true_iff_false in H. apply H, HasPrefix_spec.
  exists (u +:+ t). by rewrite sappend_assoc.
Qed.

Lemma space_seqs_ne : Forall (fun q => q <> "") space_seqs.
Proof. by repeat constructor. Qed.
Lemma space_seqs_rev_ne : Forall (fun q => q <> "") space_seqs_rev.
Proof. by repeat constructor. Qed.

(** A string that neither starts nor ends with white space. *)
Definition trimmed (s : string) : Prop :=
  find_first (HasPrefix s) space_seqs = None /\ find_first (HasPrefix (srev s)) space_seqs_rev = None.

Lemma TrimSpace_trimmed s : trimmed (TrimSpace s).
Proof.
  unfold trimmed, TrimSpace, TrimSpaceRight. rewrite srev_involutive. split.
  - destruct (strip_suffix (S (String.length (srev (TrimSpaceLeft s))))
      space_seqs_rev (srev (TrimSpaceLeft s))) as [t Ht].
    apply (no_seq_prefix _ _ (srev t)). unfold strip_all. rewrite <- srev_app, <- Ht.
    rewrite srev_involutive. apply strip_done; [apply space_seqs_ne | lia].
  - apply strip_done; [apply space_seqs_rev_ne | lia].
Qed.

Lemma TrimSpace_id s : trimmed s -> TrimSpace s = s.
Proof.
  intros [Hl Hr]. unfold TrimSpace, TrimSpaceLeft, TrimSpaceRight, strip_all.
  rewrite (strip_none _ space_seqs s) by done.
  rewrite (strip_none _ space_seqs_rev (srev s)) by done. apply srev_involutive.
Qed.

Lemma TrimSpace_idemp s : TrimSpace (TrimSpace s) = TrimSpace s.
Proof. apply TrimSpace_id, TrimSpace_trimmed. Qed.

(** What is trimmed away is a prefix and a suffix. *)
Lemma TrimSpace_infix s : exists t u, s = t +:+ TrimSpace s +:+ u.
Proof.
  unfold TrimSpace, TrimSpaceRight, strip_all at 1.
  destruct (strip_suffix (S (String.length s)) space_seqs s) as [t Ht].
  set (l := TrimSpaceLeft s). change (strip _ space_seqs s) with l in Ht.
  destruct (strip_suffix (S (String.length (srev l))) space_seqs_rev (srev l)) as [u Hu].
  exists t, (srev u). rewrite <- srev_app, <- Hu, srev_involutive. done.
Qed.

Lemma no_char_app d s t : no_char d (s +:+ t) = no_char d s && no_char d t.
Proof. apply all_chars_app. Qed.

Lemma TrimSpace_no_char d s : no_char d s = true -> no_char d (TrimSpace s) = true.
Proof.
  destruct (TrimSpace_infix s) as (t & u & E). rewrite E at 1.
  rewrite !no_char_app, !andb_true_iff. tauto.
Qed.

(** *** Decimal round trip *)
Lemma digit_char_val d : 0 <= d < 10 -> is_digit (digit_char d) = true /\ digit_val (digit_char d) = d.
Proof.
  intros. unfold is_digit, digit_val, digit_char. rewrite byte_of_of_byte by lia.
  split; [apply andb_true_iff; split; apply Z.leb_le|]; lia.
Qed.

Lemma parse_digits_nonneg s acc n : 0 <= acc -> parse_digits acc s = Some n -> 0 <= n.
Proof.
  revert acc. induction s as [|c s IH]; intros acc Ha; cbn; [by intros [= <-]|].
  destruct (is_digit c) eqn:Hc; [|done]. apply IH.
  unfold is_digit, digit_val in *. apply andb_true_iff in Hc as [?%Z.leb_le _]. lia.
Qed.

Lemma parse_utoa_go fuel z acc :
  0 <= z < 10 ^ (Z.of_nat fuel + 1) ->
  parse_digits 0 (utoa_go fuel z acc) = parse_digits z acc.
Proof.
  revert z acc. induction fuel as [|f IH]; intros z acc Hz; cbn.
  - change (10 ^ _) with 10 in Hz. rewrite Z.mod_small by lia.
    destruct (digit_char_val z) as [-> ->]; [lia|]. f_equal.
  - destruct (Z.ltb_spec z 10) as [Hs|Hs]; cbn.
    + rewrite Z.mod_small by lia. destruct (digit_char_val z) as [-> ->]; [lia|]. done.
    + rewrite IH.
      * cbn. destruct (digit_char_val (z mod 10)) as [-> ->]; [apply Z.mod_pos_bound; lia|].
        f_equal. rewrite (Z.div_mod z 10) at 3 by lia. lia.
      * split; [apply Z.div_pos; lia|]. apply Z.div_lt_upper_bound; [lia|].
        rewrite Nat2Z.inj_succ in Hz. rewrite <- Z.pow_succ_r by lia.
        replace (Z.succ (Z.of_nat f + 1)) with (Z.succ (Z.of_nat f) + 1) by lia. lia.
Qed.

Lemma utoa_go_ne fuel z acc : utoa_go fuel z acc <> "".
Proof.
  revert z acc. induction fuel as [|f IH]; intros z acc; cbn; [done|].
  by destruct (z <? 10).
Qed.

Lemma utoa_go_digits fuel z acc :
  0 <= z -> all_chars is_digit acc = true -> all_chars is_digit (utoa_go fuel z acc) = true.
Proof.
  revert z acc. induction fuel as [|f IH]; intros z acc Hz Ha; cbn.
  - destruct (digit_char_val (z mod 10)) as [-> _]; [apply Z.mod_pos_bound; lia|done].
  - assert (all_chars is_digit (String (digit_char (z mod 10)) acc) = true) as Hd.
    { cbn. destruct (digit_char_val (z mod 10)) as [-> _]; [apply Z.mod_pos_bound; lia|done]. }
    destruct (z <? 10); [done|]. apply IH; [apply Z.div_pos; lia | done].
Qed.

Lemma utoa_digits z : 0 <= z -> all_chars is_digit (utoa z) = true.
Proof. intros. by apply utoa_go_digits. Qed.

Lemma ParseUint_utoa z bits :
  0 <= bits <= 64 -> 0 <= z < 2 ^ bits -> ParseUint (utoa z) bits = Some z.
Proof.
  intros Hb Hz. unfold ParseUint, utoa.
  rewrite bool_decide_eq_false_2 by apply utoa_go_ne.
  rewrite parse_utoa_go; cbn.
  - by rewrite (proj2 (Z.ltb_lt _ _)) by lia.
  - split; [lia|]. apply Z.lt_le_trans with (2 ^ bits); [lia|].
    transitivity (2 ^ 64); [apply Z.pow_le_mono_r; lia | by vm_compute].
Qed.

Lemma Atoi_utoa z : 0 <= z < 2 ^ 63 -> Atoi (utoa z) = Some z.
Proof.
  intros Hz. unfold Atoi.
  assert (all_chars is_digit (utoa z) = true) as Hd by (apply utoa_digits; lia).
  assert ((match utoa z with
           | String "-" s' => (true, s')
           | String "+" s' => (false, s')
           | _ => (false, utoa z)
           end) = (false, utoa z)) as ->.
  { revert Hd. destruct (utoa z) as [|[[] [] [] [] [] [] [] []] s]; intros Hd;
      first [reflexivity | discriminate Hd]. }
  rewrite ParseUint_utoa by lia. by rewrite (proj2 (Z.ltb_lt _ _)) by lia.
Qed.

(** *** Pieces of a string with known separators *)
Lemma SplitN_one s sep : SplitN s sep 1 = [s].
Proof. by destruct s. Qed.
Lemma SplitN_3 d a b c :
  no_char d a = true -> no_char d b = true ->
  SplitN (a +:+ String d (b +:+ String d c)) (String d "") 3 = [a; b; c].
Proof.
  intros Ha Hb. cbn [SplitN]. rewrite Cut_char_app by done. by rewrite Cut_char_app.
Qed.

Lemma TrimSuffix_snoc s d : TrimSuffix (s +:+ String d "") (String d "") = s.
Proof. apply TrimSuffix_app. Qed.

Lemma map_chars_snoc_inv f s t d :
  map_chars f s = t +:+ String d "" -> exists s' c, s = s' +:+ String c "" /\ f c = d /\ map_chars f s' = t.
Proof.
  revert t. induction s as [|c s IH]; intros t; cbn; [by destruct t|].
  destruct t as [|e t]; cbn.
  - intros [= Hc Hs]. destruct s; [|done]. by exists "", c.
  - intros [= Hc Hs]. destruct (IH t Hs) as (s' & c' & -> & Hf & Hm).
    exists (String c s'), c'. cbn. by rewrite Hc, Hm.
Qed.

(** Trimming one trailing byte commutes with a byte mapping that keeps it. *)
Lemma TrimSuffix_map f d s :
  (forall c, f c = d <-> c = d) ->
  TrimSuffix (map_chars f s) (String d "") = map_chars f (TrimSuffix s (String d "")).
Proof.
  intros Hf. destruct (HasSuffix s (String d "")) eqn:E.
  - apply HasSuffix_spec in E as [t ->]. rewrite map_chars_app. cbn.
    rewrite (proj2 (Hf d) eq_refl). by rewrite !TrimSuffix_snoc.
  - rewrite (TrimSuffix_no s) by done. apply TrimSuffix_no, not_true_is_false.
    intros [t Ht]%HasSuffix_spec.
    apply map_chars_snoc_inv in Ht as (s' & c & -> & ->%Hf & _).
    by rewrite (proj2 (HasSuffix_spec _ _)) in E by eauto.
Qed.

Lemma is_ascii_TrimSuffix s p : is_ascii s = true -> is_ascii (TrimSuffix s p) = true.
Proof.
  unfold TrimSuffix. destruct (HasSuffix s p); [|done]. unfold is_ascii.
  intros H. rewrite <- (stake_sdrop (String.length s - String.length p) s), all_chars_app in H.
  by apply andb_true_iff in H as [].
Qed.

Lemma upper_char_dot c : upper_char c = "."%char <-> c = "."%char.
Proof. revert c. every_byte. Qed.
Lemma lower_char_dot c : lower_char c = "."%char <-> c = "."%char.
Proof. revert c. every_byte. Qed.
