(* ===== verification/GoNet.v ===== *)
(** * The part of Go's [net] and [net/netip] packages that the program uses

    Addresses as byte sequences of length 4 or 16 (a nil [net.IP] is the empty
    sequence), their parsers and printers, CIDR masks and membership, and the
    host:port syntax. *)
From S2P Require Import Prelude GoStrings.
Open Scope string_scope.
Open Scope list_scope.
Open Scope Z_scope.

(** ** Addresses *)
Definition IP := list Z.
Record IPNet := mkIPNet { net_IP : IP; net_Mask : list Z }.
#[export] Instance IPNet_eq_dec : EqDecision IPNet.
Proof. solve_decision. Defined.

Definition v4InV6Prefix : list Z := [0; 0; 0; 0; 0; 0; 0; 0; 0; 0; 255; 255].

Definition is_v4 (ip : IP) : bool := (length ip =? 4)%nat.
Definition is_v6len (ip : IP) : bool := (length ip =? 16)%nat.
(** [IP.To4]; nil is the empty list. *)
Definition To4 (ip : IP) : IP :=
  if is_v4 ip then ip
  else if is_v6len ip && bool_decide (take 12 ip = v4InV6Prefix) then drop 12 ip
  else [].
Definition To16 (ip : IP) : IP :=
  if is_v4 ip then v4InV6Prefix ++ ip else if is_v6len ip then ip else [].

Definition IP_Equal (ip x : IP) : bool :=
  if (length ip =? length x)%nat then bool_decide (ip = x)
  else if is_v4 ip && is_v6len x then
    bool_decide (take 12 x = v4InV6Prefix) && bool_decide (ip = drop 12 x)
  else if is_v6len ip && is_v4 x then
    bool_decide (take 12 ip = v4InV6Prefix) && bool_decide (drop 12 ip = x)
  else false.

(** ** Masks *)
Definition mask_byte (k : nat) : Z := 255 - Z.shiftr 255 (Z.of_nat k).
Fixpoint mask_bytes (len n : nat) : list Z :=
  match len with
  | O => []
  | S len' => if (8 <=? n)%nat then 255 :: mask_bytes len' (n - 8)
              else mask_byte n :: mask_bytes len' 0
  end.
(** [net.CIDRMask]; nil when the arguments are out of range. *)
Definition CIDRMask (ones bits : Z) : list Z :=
  if negb ((bits =? 32) || (bits =? 128)) then []
  else if (ones <? 0) || (bits <? ones) then []
  else mask_bytes (Z.to_nat (bits / 8)) (Z.to_nat ones).

Fixpoint land_bytes (a b : list Z) : list Z :=
  match a, b with
  | x :: a', y :: b' => Z.land x y :: land_bytes a' b'
  | _, _ => []
  end.
(** [IP.Mask] *)
Definition IP_Mask (ip : IP) (mask : list Z) : IP :=
  let mask := if (length mask =? 16)%nat && is_v4 ip && bool_decide (take 12 mask = replicate 12 255)
              then drop 12 mask else mask in
  let ip := if (length mask =? 4)%nat && is_v6len ip && bool_decide (take 12 ip = v4InV6Prefix)
            then drop 12 ip else ip in
  if (length ip =? length mask)%nat then land_bytes ip mask else [].

(** [simpleMaskLength]: the number of leading ones of a contiguous mask. *)
Definition byte_ones (b : Z) : option nat :=
  find_first (fun k => mask_byte k =? b) (seq 0 9).
Fixpoint simpleMaskLength (m : list Z) : option nat :=
  match m with
  | [] => Some O
  | v :: m' =>
      if v =? 255 then n ← simpleMaskLength m'; Some (8 + n)%nat
      else n ← byte_ones v;
           if forallb (fun x => x =? 0) m' then Some n else None
  end.
(** [IPMask.Size] *)
Definition IPMask_Size (m : list Z) : Z * Z :=
  match simpleMaskLength m with
  | Some n => (Z.of_nat n, 8 * Z.of_nat (length m))
  | None => (0, 0)
  end.

(** ** Membership *)
Definition networkNumberAndMask (n : IPNet) : IP * list Z :=
  let ip4 := To4 (net_IP n) in
  let ip := match ip4 with [] => net_IP n | _ => ip4 end in
  let m := net_Mask n in
  if negb (is_v4 ip || is_v6len ip) then ([], [])
  else if (length m =? 4)%nat then (if is_v4 ip then (ip, m) else ([], []))
  else if (length m =? 16)%nat then (if is_v4 ip then (ip, drop 12 m) else (ip, m))
  else ([], []).

Definition IPNet_Contains (n : IPNet) (ip : IP) : bool :=
  let '(nn, m) := networkNumberAndMask n in
  let ip := match To4 ip with [] => ip | x => x end in
  (length ip =? length nn)%nat && bool_decide (land_bytes nn m = land_bytes ip m).

(** ** Parsing *)
Fixpoint parseIPv4Fields (s : string) (pos : nat) (val : Z) (digLen : nat) : option (list Z) :=
  match s with
  | EmptyString => if (pos =? 3)%nat && (0 <? digLen)%nat then Some [val] else None
  | String c s' =>
      if is_digit c then
        if (digLen =? 1)%nat && (val =? 0) then None
        else let val := val * 10 + digit_val c in
             if 255 <? val then None else parseIPv4Fields s' pos val (S digLen)
      else if bool_decide (c = "."%char) then
        if (digLen =? 0)%nat || (pos =? 3)%nat then None
        else rest ← parseIPv4Fields s' (S pos) 0 O; Some (val :: rest)
      else None
  end.
Definition parseIPv4 (s : string) : option (list Z) := parseIPv4Fields s 0 0 0.

Definition hex_val (c : ascii) : option Z :=
  let b := byte_of c in
  if (48 <=? b) && (b <=? 57) then Some (b - 48)
  else if (97 <=? b) && (b <=? 102) then Some (b - 87)
  else if (65 <=? b) && (b <=? 70) then Some (b - 55)
  else None.
(** The hexadecimal digits a group starts with: their number, their value and
    the rest; a fifth digit is an error. *)
Fixpoint hex_group (s : string) (off : nat) (acc : Z) : option (nat * Z * string) :=
  match s with
  | String c s' =>
      match hex_val c with
      | Some d => if (3 <? off)%nat then None else hex_group s' (S off) (acc * 16 + d)
      | None => Some (off, acc, s)
      end
  | EmptyString => Some (off, acc, s)
  end.

(** The loop of [parseIPv6]: [ip] holds the bytes read so far, [ell] the
    position of the ellipsis. The result is the bytes, the ellipsis and the
    text that is left. *)
Fixpoint parseIPv6_loop (fuel : nat) (s : string) (ip : list Z) (ell : option nat)
  : option (list Z * option nat * string) :=
  match fuel with
  | O => Some (ip, ell, s)
  | S f =>
      if (16 <=? length ip)%nat then Some (ip, ell, s) else
      '(off, acc, r) ← hex_group s 0 0;
      if (off =? 0)%nat then None
      else match r with
      | String "." _ =>
          if bool_decide (ell = None) && negb (length ip =? 12)%nat then None
          else if (16 <? length ip + 4)%nat then None
          else v4 ← parseIPv4 s; Some (ip ++ v4, ell, "")
      | EmptyString => Some (ip ++ [acc / 256; acc mod 256], ell, "")
      | String ":" EmptyString => None
      | String ":" r' =>
          let ip := ip ++ [acc / 256; acc mod 256] in
          match r' with
          | String ":" r'' =>
              if bool_decide (ell = None) then
                match r'' with
                | EmptyString => Some (ip, Some (length ip), "")
                | _ => parseIPv6_loop f r'' ip (Some (length ip))
                end
              else None
          | _ => parseIPv6_loop f r' ip ell
          end
      | _ => None
      end
  end.

(** The end of [parseIPv6]: no text may be left, and the ellipsis stands for
    at least one group of zeros. *)
Definition parseIPv6_finish (ip : list Z) (ell : option nat) (rest : string) : option (list Z) :=
  if negb (bool_decide (rest = "")) then None
  else if (length ip <? 16)%nat then
    e ← ell; Some (take e ip ++ replicate (16 - length ip) 0 ++ drop e ip)
  else if bool_decide (ell = None) then Some ip else None.

(** [netip.parseIPv6] for an address without a zone. A group takes two bytes,
    so eight rounds fill the address. *)
Definition parseIPv6 (s : string) : option (list Z) :=
  if HasPrefix s "::" then
    let s := sdrop 2 s in
    if bool_decide (s = "") then Some (replicate 16 0)
    else '(ip, ell, rest) ← parseIPv6_loop 9 s [] (Some O); parseIPv6_finish ip ell rest
  else '(ip, ell, rest) ← parseIPv6_loop 9 s [] None; parseIPv6_finish ip ell rest.

(** [netip.ParseAddr], an address with a zone being rejected as the callers
    [net.ParseIP] and [net.ParseCIDR] do: the first of [.], [:] and [%]
    decides the syntax. *)
Fixpoint first_of (l : list ascii) (s : string) : option ascii :=
  match s with
  | EmptyString => None
  | String c s' => if bool_decide (c ∈ l) then Some c else first_of l s'
  end.
Definition ParseAddr (s : string) : option (list Z) :=
  match first_of ["."%char; ":"%char; "%"%char] s with
  | Some c =>
      if bool_decide (c = "."%char) then parseIPv4 s
      else if bool_decide (c = ":"%char) then (if no_char "%" s then parseIPv6 s else None)
      else None
  | None => None
  end.
(** [net.ParseIP] *)
Definition ParseIP (s : string) : IP :=
  match ParseAddr s with Some a => To16 a | None => [] end.

Definition dtoi (s : string) : option Z :=
  if bool_decide (s = "") then None else parse_digits 0 s.

(** [net.ParseCIDR] *)
Definition ParseCIDR (s : string) : result (IP * IPNet) :=
  let bad := Err (Errorf "invalid CIDR address" [s]) in
  match Cut s "/" with
  | None => bad
  | Some (addr, mask) =>
      match ParseAddr addr, dtoi mask with
      | Some a, Some n =>
          let bits := 8 * Z.of_nat (length a) in
          if bits <? n then bad
          else let m := CIDRMask n bits in
               Ok (To16 a, mkIPNet (IP_Mask (To16 a) m) m)
      | _, _ => bad
      end
  end.

(** ** Printing *)
Definition hex_digit (d : Z) : ascii := of_byte (if d <? 10 then 48 + d else 87 + d).
Definition hex2 (b : Z) : string := String (hex_digit (b / 16)) (String (hex_digit (b mod 16)) "").
Definition hexString (l : list Z) : string := fold_right (fun b s => hex2 b +:+ s) "" l.
(** [appendHex]: no leading zeros. *)
Definition hex16 (x : Z) : string :=
  let d k := String (hex_digit (Z.shiftr x (4 * k) mod 16)) "" in
  (if 4096 <=? x then d 3 else "") +:+ (if 256 <=? x then d 2 else "") +:+
  (if 16 <=? x then d 1 else "") +:+ d 0.

Definition v4_string (ip : list Z) : string := Join (map utoa ip) ".".
Fixpoint words16 (l : list Z) : list Z :=
  match l with
  | a :: b :: l' => 256 * a + b :: words16 l'
  | _ => []
  end.
Fixpoint zero_run (l : list Z) : nat :=
  match l with
  | x :: l' => if x =? 0 then S (zero_run l') else O
  | [] => O
  end.
(** The first longest run of at least two zero groups: start and length. *)
Definition longest_zeros (ws : list Z) : nat * nat :=
  fold_left (fun best i =>
      let n := zero_run (drop i ws) in
      if (2 <=? n)%nat && (snd best <? n)%nat then (i, n) else best)
    (seq 0 8) (9, 0)%nat.
Definition v6_string (ip : list Z) : string :=
  let ws := words16 ip in
  let '(z, n) := longest_zeros ws in
  if (n =? 0)%nat then Join (map hex16 ws) ":"
  else Join (map hex16 (take z ws)) ":" +:+ "::" +:+ Join (map hex16 (drop (z + n) ws)) ":".

(** [IP.String] *)
Definition IP_String (ip : IP) : string :=
  match ip with
  | [] => "<nil>"
  | _ =>
      if negb (is_v4 ip || is_v6len ip) then "?" +:+ hexString ip
      else match To4 ip with [] => v6_string ip | p4 => v4_string p4 end
  end.

(** [IPNet.String] *)
Definition IPNet_String (n : IPNet) : string :=
  let '(nn, m) := networkNumberAndMask n in
  match nn, m with
  | [], _ | _, [] => "<nil>"
  | _, _ => match simpleMaskLength m with
            | Some l => IP_String nn +:+ "/" +:+ utoa (Z.of_nat l)
            | None => IP_String nn +:+ "/" +:+ hexString m
            end
  end.

(** ** Kinds of addresses *)
Definition IPv6loopback : IP := replicate 15 0 ++ [1].
Definition IsUnspecified (ip : IP) : bool :=
  IP_Equal ip [0; 0; 0; 0] || IP_Equal ip (replicate 16 0).
Definition IsLoopback (ip : IP) : bool :=
  match To4 ip with
  | [] => IP_Equal ip IPv6loopback
  | b :: _ => b =? 127
  end.
Definition IsMulticast (ip : IP) : bool :=
  match To4 ip with
  | [] => is_v6len ip && (default 0 (ip !! 0%nat) =? 255)
  | b :: _ => Z.land b 240 =? 224
  end.
Definition IsLinkLocalUnicast (ip : IP) : bool :=
  match To4 ip with
  | b0 :: b1 :: _ => (b0 =? 169) && (b1 =? 254)
  | _ => is_v6len ip && (default 0 (ip !! 0%nat) =? 254) &&
         (Z.land (default 0 (ip !! 1%nat)) 192 =? 128)
  end.
Definition IsGlobalUnicast (ip : IP) : bool :=
  (is_v4 ip || is_v6len ip) && negb (IP_Equal ip [255; 255; 255; 255]) &&
  negb (IsUnspecified ip) && negb (IsLoopback ip) && negb (IsMulticast ip) &&
  negb (IsLinkLocalUnicast ip).

Example parse_v4 : ParseAddr "192.168.1.10" = Some [192; 168; 1; 10].
Proof. reflexivity. Qed.
Example parse_v6 : ParseAddr "fe80::1:ff" = Some [254; 128; 0; 0; 0; 0; 0; 0; 0; 0; 0; 0; 0; 1; 0; 255].
Proof. reflexivity. Qed.
Example parse_v6_tail : ParseAddr "::ffff:1.2.3.4" = Some (v4InV6Prefix ++ [1; 2; 3; 4]).
Proof. reflexivity. Qed.
Example parse_bad : map ParseAddr ["1.2.3"; "01.2.3.4"; "1.2.3.4."; "1::2::3"; "fe80::1%en0"; "x"] = replicate 6 None.
Proof. reflexivity. Qed.
Example print_v6 : map (fun s => IP_String (ParseIP s)) ["::"; "2001:db8:0:0:1:0:0:1"; "1:2:3:4:5:6:7:8"; "1.2.3.4"; "fe80::"]
  = ["::"; "2001:db8::1:0:0:1"; "1:2:3:4:5:6:7:8"; "1.2.3.4"; "fe80::"].
Proof. reflexivity. Qed.
Example parse_cidr : (fun r => IPNet_String (snd r)) <$> ParseCIDR "10.1.2.3/12" = Ok "10.0.0.0/12".
Proof. reflexivity. Qed.

(** ** Byte sequences as big-endian numbers *)
Fixpoint be_val (l : list Z) : Z :=
  match l with
  | [] => 0
  | x :: l' => x * 2 ^ (8 * Z.of_nat (length l')) + be_val l'
  end.

Lemma be_val_range l : bytes_ok l -> 0 <= be_val l < 2 ^ (8 * Z.of_nat (length l)).
Proof.
  induction 1 as [|x l Hx Hl IH]; cbn [be_val length]; [cbn; lia|].
  unfold is_byte in Hx. rewrite Nat2Z.inj_succ.
  replace (8 * Z.succ (Z.of_nat (length l))) with (8 + 8 * Z.of_nat (length l)) by lia.
  rewrite Z.pow_add_r by lia. change (2 ^ 8) with 256. nia.
Qed.

(** Bytes and prefix lengths of a byte are finitely many. *)
Lemma byte_forall (P : Z -> Prop) {D : forall b, Decision (P b)} :
  forallb (fun b => bool_decide (P (Z.of_nat b))) (seq 0 256) = true ->
  forall b, is_byte b -> P b.
Proof.
  intros H b Hb. unfold is_byte in Hb. rewrite forallb_forall in H.
  rewrite <- (Z2Nat.id b) by lia.
  apply (bool_decide_eq_true_1 _), H, in_seq. lia.
Qed.

Lemma land_255 b : is_byte b -> Z.land b 255 = b.
Proof. revert b. apply (byte_forall _). by vm_compute. Qed.

Lemma land_mask_byte k b :
  (k <= 8)%nat -> is_byte b ->
  Z.land b (mask_byte k) = 2 ^ (8 - Z.of_nat k) * (b / 2 ^ (8 - Z.of_nat k)).
Proof.
  intros Hk Hb. revert b Hb.
  assert (forall b, is_byte b -> Forall (fun k => Z.land b (mask_byte k) =
    2 ^ (8 - Z.of_nat k) * (b / 2 ^ (8 - Z.of_nat k))) (seq 0 9)) as H.
  { apply (byte_forall _). by vm_compute. }
  intros b Hb. specialize (H b Hb). rewrite Forall_forall in H.
  apply H, elem_of_seq. lia.
Qed.

Lemma mask_bytes_length len n : length (mask_bytes len n) = len.
Proof.
  revert n. induction len as [|len IH]; intros n; cbn; [done|].
  destruct (8 <=? n)%nat; cbn; by rewrite IH.
Qed.

Lemma land_bytes_length a m : length (land_bytes a m) = Nat.min (length a) (length m).
Proof. revert m. induction a as [|x a IH]; intros [|y m]; cbn; auto. Qed.

Lemma land_bytes_zeros a len :
  length a = len -> land_bytes a (mask_bytes len 0) = replicate len 0.
Proof.
  revert a. induction len as [|len IH]; intros [|x a] H; cbn in *; try done.
  rewrite IH by lia. f_equal. apply Z.land_0_r.
Qed.

Lemma div_split_eq a0 va b0 vb p q r :
  0 < p -> 0 < q -> 0 <= va < p * q -> 0 <= vb < p * q -> r = p * q ->
  (a0 * r + va) / p = (b0 * r + vb) / p <-> a0 = b0 /\ va / p = vb / p.
Proof.
  intros Hp Hq Ha Hb ->.
  replace (a0 * (p * q) + va) with (va + (a0 * q) * p) by ring.
  replace (b0 * (p * q) + vb) with (vb + (b0 * q) * p) by ring.
  rewrite !Z.div_add by lia.
  assert (0 <= va / p < q) by (split; [apply Z.div_pos | apply Z.div_lt_upper_bound]; lia).
  assert (0 <= vb / p < q) by (split; [apply Z.div_pos | apply Z.div_lt_upper_bound]; lia).
  generalize dependent (va / p). generalize dependent (vb / p). intros B HB A HA.
  split; [|by intros [-> ->]]. intros E.
  assert (a0 = b0) as ->; [|split; lia].
  destruct (Z.lt_trichotomy a0 b0) as [?|[?|?]]; [|done|]; nia.
Qed.

(** Two addresses agree under a mask of [k] ones exactly when their first [k]
    bits agree. *)
Lemma land_mask_bytes_eq len k a b :
  (k <= 8 * len)%nat -> length a = len -> length b = len -> bytes_ok a -> bytes_ok b ->
  land_bytes a (mask_bytes len k) = land_bytes b (mask_bytes len k) <->
  be_val a / 2 ^ (8 * Z.of_nat len - Z.of_nat k) = be_val b / 2 ^ (8 * Z.of_nat len - Z.of_nat k).
Proof.
  revert k a b. induction len as [|len IH];
    intros k [|x a] [|y b] Hk Ha Hb Oa Ob; cbn in Ha, Hb; try done.
  injection Ha as Ha. injection Hb as Hb. unfold bytes_ok in *.
  apply Forall_cons in Oa as [Ox Oa]. apply Forall_cons in Ob as [Oy Ob].
  pose proof (be_val_range a Oa) as Ra. pose proof (be_val_range b Ob) as Rb.
  cbn [be_val mask_bytes]. rewrite Ha, Hb in *.
  destruct (Nat.leb_spec 8 k) as [H8|H8]; cbn [land_bytes].
  - rewrite !land_255 by done.
    rewrite (div_split_eq x (be_val a) y (be_val b)
      (2 ^ (8 * Z.of_nat (S len) - Z.of_nat k)) (2 ^ (Z.of_nat k - 8))
      (2 ^ (8 * Z.of_nat len))).
    + replace (8 * Z.of_nat (S len) - Z.of_nat k) with (8 * Z.of_nat len - Z.of_nat (k - 8)) by lia.
      rewrite <- IH by (done || lia). split; [by intros [= -> ->] | by intros [-> ->]].
    + apply Z.pow_pos_nonneg; lia.
    + apply Z.pow_pos_nonneg; lia.
    + rewrite <- Z.pow_add_r by lia.
      by replace (8 * Z.of_nat (S len) - Z.of_nat k + (Z.of_nat k - 8)) with (8 * Z.of_nat len) by lia.
    + rewrite <- Z.pow_add_r by lia.
      by replace (8 * Z.of_nat (S len) - Z.of_nat k + (Z.of_nat k - 8)) with (8 * Z.of_nat len) by lia.
    + rewrite <- Z.pow_add_r by lia. f_equal. lia.
  - rewrite !land_mask_byte by (done || lia). rewrite !land_bytes_zeros by done.
    replace (8 * Z.of_nat (S len) - Z.of_nat k)
      with (8 * Z.of_nat len + (8 - Z.of_nat k)) by lia.
    rewrite Z.pow_add_r by lia.
    assert (0 < 2 ^ (8 - Z.of_nat k)) by (apply Z.pow_pos_nonneg; lia).
    assert (0 < 2 ^ (8 * Z.of_nat len)) by (apply Z.pow_pos_nonneg; lia).
    rewrite <- !Z.div_div by lia.
    rewrite (Z.add_comm (x * _)), (Z.add_comm (y * _)).
    rewrite !Z.div_add by lia. rewrite !(Z.div_small (be_val _)) by lia.
    rewrite !Z.add_0_l. split; [|by intros ->]. intros [= H'].
    by apply Z.mul_reg_l in H'; [|lia].
Qed.

Lemma land_bytes_idemp a m : land_bytes (land_bytes a m) m = land_bytes a m.
Proof.
  revert m. induction a as [|x a IH]; intros [|y m]; cbn; [done..|].
  by rewrite IH, <- Z.land_assoc, Z.land_diag.
Qed.

Lemma is_byte_mask k : is_byte (mask_byte k).
Proof.
  unfold mask_byte, is_byte. rewrite Z.shiftr_div_pow2 by lia.
  assert (0 < 2 ^ Z.of_nat k) by (apply Z.pow_pos_nonneg; lia).
  assert (0 <= 255 / 2 ^ Z.of_nat k <= 255); [|lia].
  split; [apply Z.div_pos; lia|]. apply Z.div_le_upper_bound; [lia|]. nia.
Qed.

Lemma land_byte x y : is_byte x -> is_byte y -> is_byte (Z.land x y).
Proof.
  unfold is_byte. intros Hx Hy.
  assert (0 <= Z.land x y) by (apply Z.land_nonneg; lia).
  rewrite <- (Z.mod_small x 256), <- (Z.mod_small y 256) by lia.
  change 256 with (2 ^ 8). rewrite <- !Z.land_ones by lia.
  rewrite <- Z.land_assoc, (Z.land_comm (Z.ones 8)), <- Z.land_assoc, Z.land_diag.
  rewrite Z.land_assoc, Z.land_ones by lia. apply Z.mod_pos_bound. lia.
Qed.

Lemma bytes_ok_mask len k : bytes_ok (mask_bytes len k).
Proof.
  revert k. induction len as [|len IH]; intros k; cbn [mask_bytes]; [constructor|].
  destruct (8 <=? k)%nat; constructor; [by unfold is_byte; lia | apply IH | apply is_byte_mask | apply IH].
Qed.

Lemma bytes_ok_land a m : bytes_ok a -> bytes_ok m -> bytes_ok (land_bytes a m).
Proof.
  intros Ha. revert m. induction Ha as [|x a Hx Ha IH]; intros [|y m] Hm; cbn; try constructor.
  - apply land_byte; [done|]. by inversion Hm.
  - apply IH. by inversion Hm.
Qed.

(** *** [simpleMaskLength] recovers the length of a CIDR mask *)
Lemma simpleMaskLength_mask_bytes len k :
  (k <= 8 * len)%nat -> simpleMaskLength (mask_bytes len k) = Some k.
Proof.
  revert k. induction len as [|len IH]; intros k Hk.
  { by replace k with 0%nat by lia. }
  cbn [mask_bytes]. destruct (Nat.leb_spec 8 k) as [H8|H8]; cbn [simpleMaskLength].
  - rewrite Z.eqb_refl, IH by lia. cbn. f_equal. lia.
  - assert (forallb (fun x => x =? 0) (mask_bytes len 0) = true) as H0.
    { clear. induction len as [|len IH]; cbn; [done | by rewrite IH]. }
    rewrite H0. destruct k as [|[|[|[|[|[|[|[|k]]]]]]]]; try done. lia.
Qed.

Lemma CIDRMask_mask_bytes n len :
  (len = 4 \/ len = 16)%nat -> 0 <= n <= 8 * Z.of_nat len ->
  CIDRMask n (8 * Z.of_nat len) = mask_bytes len (Z.to_nat n).
Proof.
  intros Hlen Hn. unfold CIDRMask.
  rewrite (proj2 (Z.ltb_ge _ _)), (proj2 (Z.ltb_ge _ _)) by lia.
  replace (8 * Z.of_nat len / 8) with (Z.of_nat len) by (rewrite Z.mul_comm, Z.div_mul; lia).
  rewrite Nat2Z.id. by destruct Hlen as [-> | ->].
Qed.

(** *** Parsed addresses are well formed *)
Definition ip_ok (ip : IP) : Prop := (length ip = 4 \/ length ip = 16)%nat /\ bytes_ok ip.

Lemma digit_val_range c : is_digit c = true -> 0 <= digit_val c < 10.
Proof.
  unfold is_digit, digit_val. rewrite andb_true_iff, !Z.leb_le. lia.
Qed.

Lemma parseIPv4Fields_ok s pos val dl l :
  (pos <= 3)%nat -> 0 <= val < 256 -> parseIPv4Fields s pos val dl = Some l ->
  length l = (4 - pos)%nat /\ bytes_ok l.
Proof.
  revert pos val dl l. induction s as [|c s IH]; intros pos val dl l Hp Hv; cbn.
  - destruct (Nat.eqb_spec pos 3) as [->|]; destruct dl; cbn; try done.
    intros [= <-]. split; [done|]. constructor; [unfold is_byte; lia | constructor].
  - destruct (is_digit c) eqn:Hd.
    + destruct ((dl =? 1)%nat && (val =? 0)); [done|].
      destruct (Z.ltb_spec 255 (val * 10 + digit_val c)) as [|Hle]; [done|].
      apply IH; [done|]. apply digit_val_range in Hd. lia.
    + case_bool_decide; [|done].
      destruct ((dl =? 0)%nat || (pos =? 3)%nat) eqn:E; [done|].
      apply orb_false_iff in E as [_ E%Nat.eqb_neq]. intros Hb.
      apply bind_Some in Hb as (r & Hr & [= <-]).
      apply IH in Hr as [Hl Ho]; [|lia..]. cbn. split; [lia|]. by constructor.
Qed.

Lemma parseIPv4_ok s l : parseIPv4 s = Some l -> length l = 4%nat /\ bytes_ok l.
Proof. intros H. apply parseIPv4Fields_ok in H; [done | lia..]. Qed.

Lemma hex_val_range c d : hex_val c = Some d -> 0 <= d < 16.
Proof.
  unfold hex_val. repeat (case_match; [intros [= <-];
    match goal with H : _ && _ = true |- _ => apply andb_true_iff in H as [?%Z.leb_le ?%Z.leb_le]; lia end|]).
  done.
Qed.

Lemma hex_group_range s off acc o v r :
  0 <= acc < 16 ^ Z.of_nat off -> (off <= 4)%nat ->
  hex_group s off acc = Some (o, v, r) -> 0 <= v < 65536.
Proof.
  revert off acc. induction s as [|c s IH]; intros off acc Ha Ho; cbn;
    assert (16 ^ Z.of_nat off <= 16 ^ 4) as H4 by (apply Z.pow_le_mono_r; lia);
    change (16 ^ 4) with 65536 in H4.
  - intros [= <- <- <-]. lia.
  - destruct (hex_val c) as [d|] eqn:Hd; [|intros [= <- <- <-]; lia].
    destruct (Nat.ltb_spec 3 off) as [|Hle]; [done|]. apply IH; [|lia].
    apply hex_val_range in Hd. rewrite Nat2Z.inj_succ, Z.pow_succ_r by lia. lia.
Qed.

Lemma bytes_ok_word v : 0 <= v < 65536 -> bytes_ok [v / 256; v mod 256].
Proof.
  intros. constructor; [|constructor; [|constructor]]; unfold is_byte.
  - split; [apply Z.div_pos | apply Z.div_lt_upper_bound]; lia.
  - apply Z.mod_pos_bound. lia.
Qed.

Lemma parseIPv6_loop_ok fuel s ip ell ip' ell' r :
  bytes_ok ip -> (length ip <= 16)%nat -> Nat.Even (length ip) ->
  (forall e, ell = Some e -> (e <= length ip)%nat) ->
  parseIPv6_loop fuel s ip ell = Some (ip', ell', r) ->
  bytes_ok ip' /\ (length ip' <= 16)%nat /\
  (forall e, ell' = Some e -> (e <= length ip')%nat).
Proof.
  revert s ip ell. induction fuel as [|f IH]; intros s ip ell Ho Hl Hev He.
  { cbn. by intros [= <- <- <-]. }
  cbn [parseIPv6_loop].
  destruct (Nat.leb_spec 16 (length ip)) as [H16|H16]; [by intros [= <- <- <-]|].
  intros Hb. apply bind_Some in Hb as ([[off acc] t] & Hg & Hb).
  assert (bytes_ok [acc / 256; acc mod 256]) as Hw.
  { apply bytes_ok_word. eapply hex_group_range; [|..|exact Hg]; cbn; lia. }
  assert (bytes_ok (ip ++ [acc / 256; acc mod 256])) as Ho' by by apply Forall_app.
  assert (length (ip ++ [acc / 256; acc mod 256]) = (length ip + 2)%nat) as Hl'
    by apply length_app.
  assert (length ip + 2 <= 16)%nat by (destruct Hev as [m Hm]; lia).
  assert (Nat.Even (length ip + 2)) by (destruct Hev as [m Hm]; exists (S m); lia).
  assert (forall s' ell0, (forall e, ell0 = Some e -> (e <= length ip + 2)%nat) ->
    parseIPv6_loop f s' (ip ++ [acc / 256; acc mod 256]) ell0 = Some (ip', ell', r) ->
    bytes_ok ip' /\ (length ip' <= 16)%nat /\
    (forall e, ell' = Some e -> (e <= length ip')%nat)) as Hrec.
  { intros s' ell0 Hell. apply IH; rewrite ?Hl'; done. }
  assert (forall e, ell = Some e -> (e <= length ip + 2)%nat) as He'.
  { intros e Hee. specialize (He e Hee). lia. }
  destruct (off =? 0)%nat; [done|].
  destruct t as [|c t].
  { injection Hb as <- <- <-. rewrite Hl'. split; [done|]. split; [lia | done]. }
  destruct (decide (c = "."%char)) as [->|Hdot].
  { case_match; [done|]. case_match eqn:Hroom; [done|]. apply Nat.ltb_ge in Hroom.
    apply bind_Some in Hb as (v4 & [H4 O4]%parseIPv4_ok & [= <- <- <-]).
    rewrite length_app, H4. split; [by apply Forall_app|]. split; [lia|].
    intros e Hee. specialize (He e Hee). lia. }
  destruct (decide (c = ":"%char)) as [->|Hcol].
  - destruct t as [|c2 t]; [done|].
    destruct (decide (c2 = ":"%char)) as [->|Hc2].
    + case_bool_decide; [|done]. destruct t as [|c3 t].
      * injection Hb as <- <- <-. rewrite Hl'. split; [done|]. split; [lia|].
        intros e [= <-]. lia.
      * apply Hrec in Hb; [done|]. rewrite Hl'. intros e [= <-]. lia.
    + apply (Hrec (String c2 t) ell); [done|]. rewrite <- Hb.
      by destruct c2 as [[] [] [] [] [] [] [] []].
  - exfalso. by destruct c as [[] [] [] [] [] [] [] []].
Qed.

Lemma bytes_ok_replicate n : bytes_ok (replicate n 0).
Proof. apply Forall_replicate. unfold is_byte. lia. Qed.

Lemma parseIPv6_finish_ok ip ell rest a :
  bytes_ok ip -> (length ip <= 16)%nat -> (forall e, ell = Some e -> (e <= length ip)%nat) ->
  parseIPv6_finish ip ell rest = Some a -> ip_ok a.
Proof.
  intros Ho Hlen He. unfold parseIPv6_finish, ip_ok.
  case_match; [done|]. destruct (Nat.ltb_spec (length ip) 16) as [Hlt|Hge].
  - intros H'. apply bind_Some in H' as (e & -> & [= <-]).
    specialize (He e eq_refl).
    rewrite !length_app, length_replicate, length_take, length_drop.
    split; [lia|]. unfold bytes_ok. rewrite !Forall_app. repeat split;
      [by apply Forall_take | apply bytes_ok_replicate | by apply Forall_drop].
  - case_match; [|done]. intros [= <-]. split; [lia | done].
Qed.

Lemma parseIPv6_run_ok s ell a :
  (ell = None \/ ell = Some O) ->
  ('(ip, ell, rest) ← parseIPv6_loop 9 s [] ell; parseIPv6_finish ip ell rest) = Some a ->
  ip_ok a.
Proof.
  intros Hell H. apply bind_Some in H as ([[ip ell'] r] & Hl & Hf).
  apply parseIPv6_loop_ok in Hl as (Ho & Hlen & He).
  - by eapply parseIPv6_finish_ok.
  - constructor.
  - cbn. lia.
  - by exists 0%nat.
  - destruct Hell as [-> | ->]; intros e [= <-]; cbn; lia.
Qed.

Lemma ParseAddr_ok s a : ParseAddr s = Some a -> ip_ok a.
Proof.
  unfold ParseAddr. intros Hp.
  assert (parseIPv4 s = Some a \/ parseIPv6 s = Some a) as [H|H].
  { destruct (first_of _ s) as [c|]; [|done].
    case_bool_decide; [by left|]. case_bool_decide; [|done].
    destruct (no_char _ s); [by right | done]. }
  { apply parseIPv4_ok in H as []. split; auto. }
  unfold parseIPv6 in H. case_match; [case_match|].
  - injection H as <-. split; [by right | apply (bytes_ok_replicate 16)].
  - eapply parseIPv6_run_ok; [|exact H]. auto.
  - eapply parseIPv6_run_ok; [|exact H]. auto.
Qed.

Lemma v4InV6Prefix_ok : bytes_ok v4InV6Prefix.
Proof. repeat constructor; unfold is_byte; lia. Qed.

Lemma To16_ok ip : ip_ok ip -> ip_ok (To16 ip) /\ length (To16 ip) = 16%nat.
Proof.
  intros [Hl Ho]. unfold To16, is_v4, is_v6len. destruct Hl as [Hl|Hl]; rewrite Hl; cbn.
  - split; [|by rewrite Hl]. split; [cbn; lia|].
    apply (Forall_app _ v4InV6Prefix). split; [apply v4InV6Prefix_ok | done].
  - split; [split; [by right | done] | done].
Qed.

Lemma To4_length ip : To4 ip = [] \/ length (To4 ip) = 4%nat.
Proof.
  unfold To4, is_v4, is_v6len. destruct (Nat.eqb_spec (length ip) 4); [by right|].
  destruct (Nat.eqb_spec (length ip) 16) as [H|]; [|by left]. cbn.
  case_bool_decide; [|by left]. right. rewrite length_drop, H. done.
Qed.

Lemma To4_ok ip : bytes_ok ip -> bytes_ok (To4 ip).
Proof.
  unfold To4, is_v4, is_v6len. intros H. destruct (_ =? _)%nat; [done|].
  destruct (_ && _); [by apply Forall_drop | constructor].
Qed.

Lemma To4_v4 a : length a = 4%nat -> To4 a = a.
Proof. unfold To4, is_v4. by intros ->. Qed.
Lemma To4_To16 a : length a = 4%nat -> To4 (To16 a) = a.
Proof.
  intros H. unfold To16, is_v4. rewrite H. cbn -[v4InV6Prefix].
  unfold To4, is_v4, is_v6len. rewrite length_app, H. done.
Qed.

(** ** Networks

    [cidr_net len k base]: the network of a CIDR of [k] bits over addresses of
    [len] bytes, in the form [ParseCIDR] builds. *)
Definition cidr_net (len k : nat) (base : list Z) : IPNet :=
  mkIPNet (land_bytes base (mask_bytes len k)) (mask_bytes len k).

(** The value of an address's first [k] bits. *)
Definition prefix_val (k : nat) (ip : list Z) : Z :=
  be_val ip / 2 ^ (8 * Z.of_nat (length ip) - Z.of_nat k).

Lemma IPNet_Contains_v4 k base ip :
  length base = 4%nat -> (k <= 32)%nat -> bytes_ok base -> bytes_ok ip ->
  IPNet_Contains (cidr_net 4 k base) ip = true <->
  length (To4 ip) = 4%nat /\ prefix_val k (To4 ip) = prefix_val k base.
Proof.
  intros Hb Hk Ob Oi. unfold IPNet_Contains, networkNumberAndMask, cidr_net. cbn [net_IP net_Mask].
  assert (length (land_bytes base (mask_bytes 4 k)) = 4%nat) as Hl
    by by rewrite land_bytes_length, mask_bytes_length, Hb.
  rewrite To4_v4 by done.
  destruct (land_bytes base (mask_bytes 4 k)) as [|x l] eqn:E; [done|]. rewrite <- E in *.
  unfold is_v4, is_v6len. rewrite Hl, mask_bytes_length. cbn [Nat.eqb orb negb].
  rewrite Hl, andb_true_iff, bool_decide_eq_true, Nat.eqb_eq, land_bytes_idemp.
  destruct (To4_length ip) as [H4|H4].
  - rewrite H4. split; [|by intros []]. intros [H' Hm].
    (* an address that is not v4 has another length *)
    unfold To4, is_v4 in H4. rewrite (proj2 (Nat.eqb_eq _ _) H') in H4.
    by rewrite H4 in H'.
  - destruct (To4 ip) as [|y t] eqn:Et; [done|]. rewrite <- Et in *.
    unfold prefix_val. rewrite H4, Hb.
    rewrite (land_mask_bytes_eq 4 k base (To4 ip)) by (done || by apply To4_ok).
    split; intros [? ?]; by split.
Qed.

Lemma IPNet_Contains_v6 k base ip :
  length base = 16%nat -> (k <= 128)%nat -> bytes_ok base -> bytes_ok ip ->
  To4 (net_IP (cidr_net 16 k base)) = [] ->
  IPNet_Contains (cidr_net 16 k base) ip = true <->
  To4 ip = [] /\ length ip = 16%nat /\ prefix_val k ip = prefix_val k base.
Proof.
  intros Hb Hk Ob Oi. unfold IPNet_Contains, networkNumberAndMask, cidr_net. cbn [net_IP net_Mask].
  assert (length (land_bytes base (mask_bytes 16 k)) = 16%nat) as Hl
    by by rewrite land_bytes_length, mask_bytes_length, Hb.
  intros ->. unfold is_v4, is_v6len. rewrite Hl, mask_bytes_length. cbn [Nat.eqb orb negb].
  rewrite andb_true_iff, bool_decide_eq_true, Nat.eqb_eq, land_bytes_idemp, Hl.
  destruct (To4_length ip) as [H4|H4].
  - rewrite H4. split.
    + intros [H' Hm]. repeat split; [done|]. unfold prefix_val. rewrite H', Hb.
      by rewrite (land_mask_bytes_eq 16 k base ip) in Hm.
    + intros (_ & H' & Hm). split; [done|]. unfold prefix_val in Hm. rewrite H', Hb in Hm.
      by rewrite (land_mask_bytes_eq 16 k base ip).
  - destruct (To4 ip) as [|y t] eqn:Et; [done|]. rewrite <- Et in *. rewrite Et.
    split; [intros [H' _]; rewrite <- Et in H'; lia | by intros []].
Qed.

(** What a successful [ParseCIDR] returns. *)
Lemma ParseCIDR_Ok s ip net :
  ParseCIDR s = Ok (ip, net) ->
  exists a n, ParseAddr (default s (fst <$> Cut s "/")) = Some a /\ ip_ok a /\
    (n <= 8 * length a)%nat /\ ip = To16 a /\
    net_Mask net = mask_bytes (length a) n /\ net_IP net = IP_Mask (To16 a) (net_Mask net).
Proof.
  unfold ParseCIDR. destruct (Cut s "/") as [[addr mask]|]; [|done]. cbn [default fmap option_fmap option_map fst].
  destruct (ParseAddr addr) as [a|] eqn:Ha; [|done].
  destruct (dtoi mask) as [n|] eqn:Hn; [|done].
  destruct (Z.ltb_spec (8 * Z.of_nat (length a)) n) as [|Hle]; [done|]. intros [= <- <-].
  pose proof (ParseAddr_ok _ _ Ha) as Hok.
  assert (0 <= n) as Hn0.
  { unfold dtoi in Hn. case_bool_decide; [done|].
    apply (parse_digits_nonneg mask 0); [lia | done]. }
  exists a, (Z.to_nat n). rewrite CIDRMask_mask_bytes by (destruct Hok; lia || tauto).
  repeat split; try done; try apply Hok. lia.
Qed.

(** The network of a dotted-quad CIDR is the 4-byte one. *)
Lemma ParseCIDR_v4 s ip net a :
  ParseCIDR s = Ok (ip, net) -> ParseAddr (default s (fst <$> Cut s "/")) = Some a ->
  length a = 4%nat ->
  exists k, (k <= 32)%nat /\ net = cidr_net 4 k a.
Proof.
  intros (a' & k & Ha & Hok & Hk & -> & Hm & Hi)%ParseCIDR_Ok Ha' Hl.
  rewrite Ha in Ha'. injection Ha' as ->. rewrite Hl in *. exists k. split; [lia|].
  destruct net as [i m]. cbn [net_Mask net_IP] in Hm, Hi. subst i m. unfold cidr_net. f_equal.
  unfold IP_Mask. rewrite mask_bytes_length. cbn [Nat.eqb andb].
  pose proof (proj2 (To16_ok _ Hok)) as H16. unfold is_v6len. rewrite H16.
  assert (To16 a = v4InV6Prefix ++ a) as -> by (unfold To16, is_v4; by rewrite Hl).
  rewrite take_app_length', drop_app_length' by done.
  rewrite mask_bytes_length, bool_decide_eq_true_2 by done. cbn [Nat.eqb andb]. by rewrite Hl.
Qed.

(** ** 32-bit words ([encoding/binary.BigEndian]) *)
Definition put_be32 (n : Z) : list Z :=
  [u8 (Z.shiftr n 24); u8 (Z.shiftr n 16); u8 (Z.shiftr n 8); u8 n].

Lemma put_be32_length n : length (put_be32 n) = 4%nat.
Proof. done. Qed.
Lemma put_be32_ok n : bytes_ok (put_be32 n).
Proof. repeat constructor; unfold is_byte; apply u8_range. Qed.
Lemma be_val_put_be32 n : 0 <= n < 2 ^ 32 -> be_val (put_be32 n) = n.
Proof.
  intros Hn. unfold put_be32, u8. cbn -[Z.pow Z.mul]. rewrite !Z.shiftr_div_pow2 by lia.
  change (2 ^ (8 * Z.of_nat 3)) with 16777216. change (2 ^ (8 * Z.of_nat 2)) with 65536.
  change (2 ^ (8 * Z.of_nat 1)) with 256. change (2 ^ (8 * Z.of_nat 0)) with 1.
  change (2 ^ 24) with 16777216. change (2 ^ 16) with 65536. change (2 ^ 8) with 256.
  change (2 ^ 32) with 4294967296 in Hn.
  change 16777216 with (256 * 256 * 256) at 1. change 65536 with (256 * 256) at 1.
  rewrite <- !Z.div_div by lia. div_lia.
Qed.

Lemma be_val_inj a b :
  length a = length b -> bytes_ok a -> bytes_ok b -> be_val a = be_val b -> a = b.
Proof.
  revert b. induction a as [|x a IH]; intros [|y b] Hl Ha Hb; try done. cbn [be_val].
  injection Hl as Hl. apply Forall_cons in Ha as [Hx Ha]. apply Forall_cons in Hb as [Hy Hb].
  pose proof (be_val_range a Ha). pose proof (be_val_range b Hb). rewrite Hl in *. intros E.
  assert (x = y) as -> by nia. f_equal. apply IH; [done..|lia].
Qed.

Lemma put_be32_be_val a : length a = 4%nat -> bytes_ok a -> put_be32 (be_val a) = a.
Proof.
  intros Hl Ha. pose proof (be_val_range a Ha) as Hr. rewrite Hl in Hr.
  apply be_val_inj; [done | apply put_be32_ok | done | by apply be_val_put_be32].
Qed.

(** The value of a masked address: its low bits are cleared. *)
Lemma be_val_land_mask len k a :
  (k <= 8 * len)%nat -> length a = len -> bytes_ok a ->
  be_val (land_bytes a (mask_bytes len k)) =
  2 ^ (8 * Z.of_nat len - Z.of_nat k) * (be_val a / 2 ^ (8 * Z.of_nat len - Z.of_nat k)).
Proof.
  revert k a. induction len as [|len IH]; intros k [|x a] Hk Ha Oa; cbn in Ha; try done.
  { cbn. by replace k with 0%nat by lia. }
  injection Ha as Ha. apply Forall_cons in Oa as [Ox Oa].
  pose proof (be_val_range a Oa) as Ra. cbn [be_val mask_bytes].
  destruct (Nat.leb_spec 8 k) as [H8|H8]; cbn [land_bytes be_val];
    rewrite land_bytes_length, mask_bytes_length, Ha, Nat.min_id.
  - rewrite land_255, IH by (done || lia).
    replace (8 * Z.of_nat (S len) - Z.of_nat k) with (8 * Z.of_nat len - Z.of_nat (k - 8)) by lia.
    set (p := 8 * Z.of_nat len - Z.of_nat (k - 8)).
    replace (8 * Z.of_nat len) with ((Z.of_nat k - 8) + p) by lia.
    rewrite Z.pow_add_r by lia. rewrite Z.mul_assoc, (Z.add_comm (_ * _) (be_val a)).
    rewrite Z.div_add by (apply Z.pow_nonzero; lia). ring.
  - rewrite land_mask_byte, land_bytes_zeros by (done || lia).
    assert (be_val (replicate len 0) = 0) as ->.
    { clear. induction len as [|len IH]; [done|]. cbn. by rewrite IH. }
    rewrite Ha in Ra.
    replace (8 * Z.of_nat (S len) - Z.of_nat k) with (8 * Z.of_nat len + (8 - Z.of_nat k)) by lia.
    rewrite Z.pow_add_r by lia.
    assert (0 < 2 ^ (8 - Z.of_nat k)) by (apply Z.pow_pos_nonneg; lia).
    assert (0 < 2 ^ (8 * Z.of_nat len)) by (apply Z.pow_pos_nonneg; lia).
    rewrite <- Z.div_div by lia. rewrite (Z.add_comm (x * _)).
    rewrite Z.div_add, (Z.div_small (be_val a)) by lia. rewrite Z.add_0_l. ring.
Qed.

(** ** host:port *)

(** Cutting at the last occurrence of a byte. *)
Fixpoint CutLast (s : string) (d : ascii) : option (string * string) :=
  match s with
  | EmptyString => None
  | String c s' =>
      match CutLast s' d with
      | Some (a, b) => Some (String c a, b)
      | None => if bool_decide (c = d) then Some ("", s') else None
      end
  end.
Definition has_char (d : ascii) (s : string) : bool := negb (no_char d s).

(** [net.SplitHostPort] *)
Definition SplitHostPort (hostport : string) : result (string * string) :=
  let addrErr why := Err (Errorf why [hostport]) in
  match CutLast hostport ":" with
  | None => addrErr "missing port in address"
  | Some (before, port) =>
      match hostport with
      | String "[" rest =>
          match Cut hostport "]" with
          | None => addrErr "missing ']' in address"
          | Some (opened, after) =>
              (* the closing bracket is followed by the last colon *)
              if bool_decide (after = ":" +:+ port) then
                let host := sdrop 1 opened in
                if has_char "[" (host +:+ "]:" +:+ port) then addrErr "unexpected '[' in address"
                else if has_char "]" port then addrErr "unexpected ']' in address"
                else Ok (host, port)
              else if HasPrefix after ":" then addrErr "too many colons in address"
              else addrErr "missing port in address"
          end
      | _ =>
          if has_char ":" before then addrErr "too many colons in address"
          else if has_char "[" hostport then addrErr "unexpected '[' in address"
          else if has_char "]" hostport then addrErr "unexpected ']' in address"
          else Ok (before, port)
      end
  end.

(** [net.JoinHostPort] *)
Definition JoinHostPort (host port : string) : string :=
  if has_char ":" host then "[" +:+ host +:+ "]:" +:+ port else host +:+ ":" +:+ port.

(** [netip.ParseAddrPort]; an address with a zone is rejected here, where the
    library keeps it as an address equal to no address without that zone. *)
Record AddrPort := mkAddrPort { ap_Addr : list Z; ap_Port : Z }.
#[export] Instance AddrPort_eq_dec : EqDecision AddrPort.
Proof. solve_decision. Defined.
Definition ParseAddrPort (s : string) : option AddrPort :=
  '(ip, port) ← CutLast s ":";
  if bool_decide (ip = "") || bool_decide (port = "") then None
  else
    '(ip, v6) ← (if HasPrefix ip "[" then
                   if (String.length ip <? 2)%nat || negb (HasSuffix ip "]") then None
                   else Some (TrimSuffix (sdrop 1 ip) "]", true)
                 else Some (ip, false));
    p ← ParseUint port 16;
    a ← ParseAddr ip;
    if v6 && is_v4 a then None
    else if negb v6 && negb (is_v4 a) then None
    else Some (mkAddrPort a p).

Definition Addr_IsUnspecified (a : list Z) : bool :=
  bool_decide (a = [0; 0; 0; 0]) || bool_decide (a = replicate 16 0).
(** [netip.AddrFromSlice] followed by [Unmap]. *)
Definition AddrFromSlice_Unmap (ip : IP) : option (list Z) :=
  match To4 ip with
  | [] => if is_v6len ip then Some ip else None
  | a => Some a
  end.

Lemma CutLast_app d a b : no_char d b = true -> CutLast (a +:+ String d b) d = Some (a, b).
Proof.
  intros Hb. assert (CutLast b d = None) as Hn.
  { revert Hb. unfold no_char. induction b as [|c b IH]; cbn; [done|].
    intros [Hc%bool_decide_eq_true Hb]%andb_true_iff. rewrite IH by done.
    by rewrite bool_decide_eq_false_2. }
  induction a as [|c a IH]; cbn.
  - by rewrite Hn, bool_decide_eq_true_2.
  - by rewrite IH.
Qed.

(** A host without brackets and a port without punctuation survive the trip. *)
Lemma SplitHostPort_JoinHostPort host port :
  no_char "[" host = true -> no_char "]" host = true ->
  no_char "[" port = true -> no_char "]" port = true -> no_char ":" port = true ->
  SplitHostPort (JoinHostPort host port) = Ok (host, port).
Proof.
  intros Ho Hc Po Pc Pp. unfold SplitHostPort, JoinHostPort, has_char.
  destruct (no_char ":" host) eqn:Hh; cbn [negb].
  - change (":" +:+ port) with (String ":" port). rewrite CutLast_app by done.
    assert (no_char "[" (host +:+ String ":" port) = true) as H1.
    { rewrite no_char_app, Ho. unfold no_char in *. cbn. by rewrite Po. }
    assert (no_char "]" (host +:+ String ":" port) = true) as H2.
    { rewrite no_char_app, Hc. unfold no_char in *. cbn. by rewrite Pc. }
    rewrite H1, H2, Hh. cbn [negb].
    destruct (host +:+ String ":" port) as [|c t] eqn:E; [done|].
    destruct (decide (c = "["%char)) as [->|Hne].
    { unfold no_char in H1. cbn in H1. done. }
    by destruct c as [[] [] [] [] [] [] [] []].
  - assert ("[" +:+ host +:+ "]:" +:+ port = ("[" +:+ host +:+ "]") +:+ String ":" port) as E.
    { cbn. by rewrite !sappend_assoc. }
    rewrite E, CutLast_app by done. rewrite <- E. cbn [String.append].
    assert (Cut (String "[" (host +:+ String "]" (String ":" port))) "]"
            = Some (String "[" host, String ":" port)) as ->.
    { apply (Cut_char_app "]" (String "[" host)). unfold no_char in *. cbn. by rewrite Hc. }
    rewrite bool_decide_eq_true_2 by done. cbn [sdrop].
    rewrite no_char_app, Ho, Pc. unfold no_char in *. cbn. by rewrite Po.
Qed.

(** ** Dotted quads: printing and parsing *)

(** The digits of a byte, whatever follows them. *)
Lemma parseIPv4Fields_byte b r pos :
  is_byte b -> parseIPv4Fields (utoa b +:+ r) pos 0 0 = parseIPv4Fields r pos b (String.length (utoa b)).
Proof.
  unfold is_byte. intros Hb. assert (exists n, (n < 256)%nat /\ b = Z.of_nat n) as (n & Hn & ->).
  { exists (Z.to_nat b). lia. }
  clear Hb. do 256 (destruct n as [|n]; [reflexivity|]). lia.
Qed.

Lemma utoa_byte_length b : is_byte b -> (0 < String.length (utoa b))%nat.
Proof. revert b. apply (byte_forall _). by vm_compute. Qed.

Lemma ParseAddr_v4_string a : length a = 4%nat -> bytes_ok a -> ParseAddr (v4_string a) = Some a.
Proof.
  intros Hl Ha. destruct a as [|a [|b [|c [|d [|]]]]]; try done.
  repeat (apply Forall_cons in Ha as [? Ha]).
  assert (parseIPv4 (v4_string [a; b; c; d]) = Some [a; b; c; d]) as Hp.
  { unfold parseIPv4, v4_string. cbn [map Join].
    assert (forall x r pos, is_byte x -> (pos < 3)%nat ->
      parseIPv4Fields (utoa x +:+ "." +:+ r) pos 0 0 =
      (rest ← parseIPv4Fields r (S pos) 0 0; Some (x :: rest))) as Hstep.
    { intros x r pos Hx Hpos. rewrite parseIPv4Fields_byte by done.
      pose proof (utoa_byte_length x Hx). cbn [String.append parseIPv4Fields].
      change (is_digit ".") with false. cbn match.
      rewrite bool_decide_eq_true_2 by done.
      destruct (Nat.eqb_spec (String.length (utoa x)) 0); [lia|].
      destruct (Nat.eqb_spec pos 3); [lia|]. done. }
    rewrite !Hstep by (done || lia).
    rewrite <- (sappend_nil_r (utoa d)), parseIPv4Fields_byte by done.
    pose proof (utoa_byte_length d ltac:(done)).
    destruct (String.length (utoa d)); [lia | done]. }
  unfold ParseAddr. unfold v4_string in *. cbn [map Join] in *.
  assert (forall s t, all_chars is_digit s = true ->
    first_of ["."%char; ":"%char; "%"%char] (s +:+ String "." t) = Some "."%char) as Hf.
  { intros s t. induction s as [|x s IH]; cbn [all_chars String.append first_of].
    - intros _. by rewrite bool_decide_eq_true_2 by apply list_elem_of_here.
    - intros [Hx Hs]%andb_true_iff. rewrite bool_decide_eq_false_2; [by apply IH|].
      rewrite !elem_of_cons, elem_of_nil. intros [-> |[-> |[-> |[]]]]; discriminate Hx. }
  change (utoa a +:+ "." +:+ utoa b +:+ "." +:+ utoa c +:+ "." +:+ utoa d)
    with (utoa a +:+ String "." (utoa b +:+ "." +:+ utoa c +:+ "." +:+ utoa d)) in *.
  rewrite Hf by (apply utoa_digits; unfold is_byte in *; lia).
  by rewrite bool_decide_eq_true_2.
Qed.

Lemma IP_String_v4 ip : ip <> [] -> To4 ip <> [] -> IP_String ip = v4_string (To4 ip).
Proof.
  intros Hn H4. unfold IP_String.
  assert (is_v4 ip || is_v6len ip = true) as Hlen.
  { unfold To4 in H4. destruct (is_v4 ip); [done|]. by destruct (is_v6len ip). }
  destruct ip as [|x l] eqn:E; [done|]. rewrite <- E in *. rewrite Hlen. cbn [negb].
  by destruct (To4 ip).
Qed.

(** The text of an IPv4 address is read back as that address. *)
Lemma ParseIP_IP_String ip :
  bytes_ok ip -> To4 ip <> [] -> To4 (ParseIP (IP_String ip)) = To4 ip.
Proof.
  intros Ho H4. assert (ip <> []) as Hn by (intros ->; done).
  rewrite IP_String_v4 by done. unfold ParseIP.
  destruct (To4_length ip) as [|Hl]; [done|].
  rewrite ParseAddr_v4_string by (done || by apply To4_ok). by apply To4_To16.
Qed.

(** ** The text of an IPv4 network *)
Lemma v4_string_plain d a :
  bytes_ok a -> is_digit d = false -> d <> "."%char -> no_char d (v4_string a) = true.
Proof.
  intros Ha Hd Hp.
  assert (forall x, is_byte x -> no_char d (utoa x) = true) as Hx.
  { intros x Hx. unfold is_byte in Hx. pose proof (utoa_digits x ltac:(lia)) as H. revert H.
    unfold no_char. generalize (utoa x). intros s. induction s as [|c s IH]; cbn; [done|].
    intros [Hc Hs]%andb_true_iff. rewrite bool_decide_eq_true_2; [by apply IH | by intros ->; rewrite Hc in Hd]. }
  unfold v4_string. induction Ha as [|x l Hxb Hl IH]; [done|]. destruct l as [|y l].
  - cbn [map Join]. by apply Hx.
  - cbn [map Join] in *. rewrite !no_char_app, Hx by done. unfold no_char at 1. cbn [all_chars].
    rewrite bool_decide_eq_true_2 by congruence. exact IH.
Qed.

Lemma dtoi_utoa z : 0 <= z < 10 ^ 20 -> dtoi (utoa z) = Some z.
Proof.
  intros Hz. unfold dtoi. rewrite bool_decide_eq_false_2 by apply utoa_go_ne.
  unfold utoa. rewrite parse_utoa_go; [done|].
  split; [lia|]. apply Z.lt_le_trans with (10 ^ 20); [lia | by vm_compute].
Qed.

Lemma IP_Mask_To16 a k : length a = 4%nat ->
  IP_Mask (To16 a) (mask_bytes 4 k) = land_bytes a (mask_bytes 4 k).
Proof.
  intros Hl. unfold IP_Mask. rewrite mask_bytes_length. cbn [Nat.eqb andb].
  assert (To16 a = v4InV6Prefix ++ a) as -> by (unfold To16, is_v4; by rewrite Hl).
  unfold is_v6len. rewrite length_app, Hl. cbn [length v4InV6Prefix Nat.add Nat.eqb andb].
  rewrite take_app_length', drop_app_length' by done. rewrite bool_decide_eq_true_2 by done.
  rewrite !mask_bytes_length. cbn [Nat.eqb andb]. by rewrite Hl.
Qed.
Lemma IP_Mask_v4 a k : length a = 4%nat -> IP_Mask a (mask_bytes 4 k) = land_bytes a (mask_bytes 4 k).
Proof.
  intros Hl. unfold IP_Mask, is_v6len. rewrite !mask_bytes_length. cbn [Nat.eqb andb]. cbn zeta.
  rewrite !mask_bytes_length, Hl. cbn [Nat.eqb andb]. by rewrite Hl.
Qed.
Lemma To4_mapped a : length a = 4%nat -> To4 (v4InV6Prefix ++ a) = a.
Proof. intros Hl. rewrite <- (To4_To16 a Hl) at 2. unfold To16, is_v4. by rewrite Hl. Qed.
Lemma ParseCIDR_v4_string a k : length a = 4%nat -> bytes_ok a -> (k <= 32)%nat ->
  ParseCIDR (v4_string a +:+ "/" +:+ utoa (Z.of_nat k)) = Ok (To16 a, cidr_net 4 k a).
Proof.
  intros Hl Ha Hk. unfold ParseCIDR.
  change ("/" +:+ utoa (Z.of_nat k)) with (String "/" (utoa (Z.of_nat k))).
  rewrite Cut_char_app by (apply v4_string_plain; done).
  rewrite ParseAddr_v4_string by done.
  rewrite dtoi_utoa by (split; [lia|]; transitivity 100; [lia | by vm_compute]).
  rewrite Hl. change (8 * Z.of_nat 4) with 32. rewrite (proj2 (Z.ltb_ge _ _)) by lia.
  pose proof (CIDRMask_mask_bytes (Z.of_nat k) 4 (or_introl eq_refl) ltac:(lia)) as Hm.
  change (8 * Z.of_nat 4) with 32 in Hm. rewrite Hm, Nat2Z.id.
  by rewrite IP_Mask_To16.
Qed.
Lemma IPNet_String_v4 i k : length (To4 i) = 4%nat -> (k <= 32)%nat ->
  IPNet_String (mkIPNet i (mask_bytes 4 k)) = v4_string (To4 i) +:+ "/" +:+ utoa (Z.of_nat k).
Proof.
  intros Hl Hk. unfold IPNet_String, networkNumberAndMask. cbn [net_IP net_Mask].
  destruct (To4 i) as [|x l] eqn:E; [done|]. rewrite <- E in *.
  unfold is_v4, is_v6len. rewrite Hl, mask_bytes_length. cbn [Nat.eqb orb negb].
  rewrite E. destruct (mask_bytes 4 k) as [|y m] eqn:Em.
  { pose proof (mask_bytes_length 4 k) as H. by rewrite Em in H. }
  rewrite <- Em, simpleMaskLength_mask_bytes by lia. rewrite <- E in *.
  rewrite IP_String_v4; [by rewrite To4_v4 | by rewrite E | by rewrite To4_v4, E].
Qed.
Lemma cidr_net_size k a : (k <= 32)%nat -> IPMask_Size (net_Mask (cidr_net 4 k a)) = (Z.of_nat k, 32).
Proof.
  intros Hk. unfold IPMask_Size, cidr_net. cbn [net_Mask].
  by rewrite simpleMaskLength_mask_bytes, mask_bytes_length by lia.
Qed.
