(* ===== verification/Json.v ===== *)
(** * JSON values and Go's decoding of them into existing values

    [encoding/json] as the configuration uses it: a parsed JSON value is merged
    into a Go value, so a key that is absent and a [null] leave the field as it
    was.  Text is parsed elsewhere; numbers keep their literal. *)
From S2P Require Import Prelude GoStrings.
Open Scope string_scope.
Open Scope list_scope.
Open Scope Z_scope.

Inductive json : Type :=
| JNull
| JBool (b : bool)
| JNum (literal : string)
| JStr (s : string)
| JArr (l : list json)
| JObj (kvs : list (string * json)).

(** A decoder merges a JSON value into the old value of the target. *)
Definition decoder (A : Type) := A -> json -> result A.
Definition type_error {A} (what : string) : result A :=
  Err (Errorf "json: cannot unmarshal into Go value" [what]).

Definition dec_string : decoder string := fun old j =>
  match j with JNull => Ok old | JStr s => Ok s | _ => type_error "string" end.
Definition dec_bool : decoder bool := fun old j =>
  match j with JNull => Ok old | JBool b => Ok b | _ => type_error "bool" end.
Definition dec_int : decoder Z := fun old j =>
  match j with
  | JNull => Ok old
  | JNum lit => match Atoi lit with Some n => Ok n | None => type_error "int" end
  | _ => type_error "int"
  end.

(** An array refills a slice from its start: an element decodes into the one
    that is there, or into the zero value past the end. *)
Fixpoint dec_elems {A} (d : decoder A) (zero : A) (old : list A) (l : list json) : result (list A) :=
  match l with
  | [] => Ok []
  | j :: l' =>
      a ← d (default zero (head old)) j;
      rest ← dec_elems d zero (tail old) l';
      Ok (a :: rest)
  end.
Definition dec_slice {A} (d : decoder A) (zero : A) : decoder (list A) := fun old j =>
  match j with
  | JNull => Ok []
  | JArr l => dec_elems d zero old l
  | _ => type_error "slice"
  end.

Section struct.
Context {U : Unicode} {A : Type}.
(** A field: its JSON name and the decoder of the struct through it. *)
Definition field := (string * decoder A)%type.
Definition find_field (fields : list field) (key : string) : option field :=
  match find_first (fun f : field => bool_decide (f.1 = key)) fields with
  | Some f => Some f
  | None => find_first (fun f : field => EqualFold f.1 key) fields
  end.
Fixpoint dec_members (fields : list field) (old : A) (kvs : list (string * json)) : result A :=
  match kvs with
  | [] => Ok old
  | (k, v) :: kvs' =>
      match find_field fields k with
      | Some f => a ← f.2 old v; dec_members fields a kvs'
      | None => dec_members fields old kvs'
      end
  end.
Definition dec_struct (fields : list field) : decoder A := fun old j =>
  match j with
  | JNull => Ok old
  | JObj kvs => dec_members fields old kvs
  | _ => type_error "struct"
  end.
End struct.
Arguments field : clear implicits.

(** The decoder of a struct through one field. *)
Definition via {A B} (get : A -> B) (set : B -> A -> A) (d : decoder B) : decoder A :=
  fun a j => b ← d (get a) j; Ok (set b a).

(** A property every field decoder preserves holds of the decoded struct. *)
Lemma dec_members_inv {U : Unicode} {A} (P : A -> Prop) (fields : list (field A)) :
  Forall (fun f => forall a j a', P a -> f.2 a j = Ok a' -> P a') fields ->
  forall kvs a a', P a -> dec_members fields a kvs = Ok a' -> P a'.
Proof.
  intros HF kvs. rewrite Forall_forall in HF.
  induction kvs as [|[k v] kvs IH]; intros a a' Ha; cbn; [by intros [= <-]|].
  destruct (find_field fields k) as [f|] eqn:Hf; [|by apply IH].
  intros H. rinv H. eapply IH; [|exact H]. eapply HF; [|exact Ha|exact E].
  unfold find_field in Hf. destruct (find_first _ fields) eqn:E1; simplify_eq;
    eapply find_first_elem; eassumption.
Qed.

Lemma dec_struct_inv {U : Unicode} {A} (P : A -> Prop) (fields : list (field A)) :
  Forall (fun f => forall a j a', P a -> f.2 a j = Ok a' -> P a') fields ->
  forall j a a', P a -> dec_struct fields a j = Ok a' -> P a'.
Proof.
  intros HF j a a' Ha. destruct j; cbn; try done; [by intros [= <-]|].
  by apply dec_members_inv.
Qed.
