(* ===== verification/Config.v ===== *)
(** * internal/config: the configuration file and its rule objects

    [config.go] and [recommended.go].  The configuration records, their
    defaults, the merge of a parsed configuration file into the defaults with
    its validation, and the conversion of the editable rule objects into the
    strings the rule engine reads. *)
From S2P Require Import Prelude GoStrings GoNet Json.
Open Scope string_scope.
Open Scope list_scope.
Open Scope Z_scope.

(** ** Data *)
Record TUNConfig := mkTUNConfig { Name : string; tun_IP : string; Mask : Z; MTU : Z }.
Record FakeIPConfig := mkFakeIPConfig { Pool : string }.
Record DNSConfig := mkDNSConfig {
  Upstream : list string; Hijack : list string; SystemHijack : bool }.
Record SOCKS5Config := mkSOCKS5Config { socks_Enabled : bool; BindHost : string; Port : Z }.
Record GeoIPConfig := mkGeoIPConfig { geoip_File : string }.
Record OutboundConfig := mkOutboundConfig { Interface : string }.
Record CorplinkConfig := mkCorplinkConfig {
  CompanyName : string; Platform : string; InsecureSkipVerify : bool; DebugHTTPBody : bool }.
Record LogConfig := mkLogConfig {
  Level : string; log_File : string; MaxSize : string; MaxAge : Z }.
Record RuleConfig := mkRuleConfig {
  ID : string; Enabled : bool; Type_ : string; Value : string; Policy : string;
  Group : string; Comment : string }.
Abbreviation RuleList := (list RuleConfig).
Record Config := mkConfig {
  TUN : TUNConfig; FakeIP : FakeIPConfig; DNS : DNSConfig; SOCKS5 : SOCKS5Config;
  GeoIP : GeoIPConfig; DirectOutbound : OutboundConfig; Corplink : CorplinkConfig;
  Log : LogConfig; Rules : RuleList }.

Definition zeroRuleConfig : RuleConfig := mkRuleConfig "" false "" "" "" "" "".

(** ** Defaults *)
Definition defaultTunName (goos : string) : string :=
  if bool_decide (goos = "darwin") then "utun"
  else if bool_decide (goos = "windows") then "ECorpLink"
  else "ecorplink0".

Definition DefaultConfig (goos : string) : Config := {|
  TUN := mkTUNConfig (defaultTunName goos) "172.30.77.1" 30 1420;
  FakeIP := mkFakeIPConfig "198.18.0.0/15";
  DNS := mkDNSConfig ["223.5.5.5:53"; "223.6.6.6:53"] ["0.0.0.0:53"] true;
  SOCKS5 := mkSOCKS5Config false "127.0.0.1" 1080;
  GeoIP := mkGeoIPConfig "";
  DirectOutbound := mkOutboundConfig "";
  Corplink := mkCorplinkConfig "" "" true false;
  Log := mkLogConfig "info" "~/.ecorplink/ecorplink.log" "100MB" 7;
  Rules := [mkRuleConfig "geoip_cn" true "GEOIP" "CN" "DIRECT" "" ""]
|}.

(** ** Rule strings *)
Section rules.
Context {U : Unicode}.

Definition ParseRuleString (s : string) : result (list string) :=
  match SplitN s "," 3 with
  | [p0; p1; p2] =>
      let ruleType := TrimSpace p0 in
      let value := TrimSpace p1 in
      let action := TrimSpace p2 in
      if bool_decide (value = "") then Err (Errorf "invalid rule %q: value is empty" [s])
      else if bool_decide (action = "") then Err (Errorf "invalid rule %q: action is empty" [s])
      else
        _ ← (if bool_decide (ruleType ∈ ["DOMAIN"; "DOMAIN-SUFFIX"; "DOMAIN-KEYWORD"]) then Ok tt
             else if bool_decide (ruleType = "GEOIP") then Ok tt
             else if bool_decide (ruleType = "IP-CIDR") then
               match ParseCIDR value with
               | Err e => Err (Wrapf "invalid rule %q: bad CIDR %q: %w" [s; value] e)
               | Ok _ => Ok tt
               end
             else Err (Errorf "invalid rule %q: unknown type %q" [s; ruleType]));
        let upper := ToUpper action in
        if negb (bool_decide (upper = "DIRECT")) && negb (bool_decide (upper = "VPN")) &&
           negb (HasPrefix upper "DIRECT")
        then Err (Errorf "invalid rule %q: action must be DIRECT or VPN, got %q" [s; action])
        else Ok [ruleType; value; action]
  | _ => Err (Errorf "invalid rule %q: expected TYPE,VALUE,ACTION" [s])
  end.

Definition ToRuleString (r : RuleConfig) : result string :=
  let ruleType := ToUpper (TrimSpace (Type_ r)) in
  let value := TrimSpace (Value r) in
  let policy := ToUpper (TrimSpace (Policy r)) in
  let policy := if bool_decide (policy = "") then "DIRECT" else policy in
  if negb (bool_decide (policy = "DIRECT")) && negb (bool_decide (policy = "VPN")) then
    Err (Errorf "policy must be DIRECT or VPN, got %q" [policy])
  else
    let raw := ruleType +:+ "," +:+ value +:+ "," +:+ policy in
    _ ← ParseRuleString raw; Ok raw.

Definition RuleConfig_Validate (r : RuleConfig) : result unit :=
  _ ← ToRuleString r; Ok tt.

(** The loop of [EnabledStrings] from index [i] on. *)
Fixpoint EnabledStrings_from (i : Z) (rl : RuleList) : result (list string) :=
  match rl with
  | [] => Ok []
  | rule :: rl' =>
      if negb (Enabled rule) then EnabledStrings_from (i + 1) rl'
      else match ToRuleString rule with
           | Err e => Err (Wrapf "rule[%d]: %w" [itoa i] e)
           | Ok s => out ← EnabledStrings_from (i + 1) rl'; Ok (s :: out)
           end
  end.
Definition EnabledStrings (rl : RuleList) : result (list string) := EnabledStrings_from 0 rl.
Definition RuleStrings (c : Config) : result (list string) := EnabledStrings (Rules c).

(** ** Decoding *)
Definition dec_RuleConfig : decoder RuleConfig := dec_struct [
  ("id", via ID (fun v r => mkRuleConfig v (Enabled r) (Type_ r) (Value r) (Policy r) (Group r) (Comment r)) dec_string);
  ("enabled", via Enabled (fun v r => mkRuleConfig (ID r) v (Type_ r) (Value r) (Policy r) (Group r) (Comment r)) dec_bool);
  ("type", via Type_ (fun v r => mkRuleConfig (ID r) (Enabled r) v (Value r) (Policy r) (Group r) (Comment r)) dec_string);
  ("value", via Value (fun v r => mkRuleConfig (ID r) (Enabled r) (Type_ r) v (Policy r) (Group r) (Comment r)) dec_string);
  ("policy", via Policy (fun v r => mkRuleConfig (ID r) (Enabled r) (Type_ r) (Value r) v (Group r) (Comment r)) dec_string);
  ("group", via Group (fun v r => mkRuleConfig (ID r) (Enabled r) (Type_ r) (Value r) (Policy r) v (Comment r)) dec_string);
  ("comment", via Comment (fun v r => mkRuleConfig (ID r) (Enabled r) (Type_ r) (Value r) (Policy r) (Group r) v) dec_string)].

(** The normalisation of one decoded rule object, at index [i]. *)
Definition fill_rule (i : Z) (rule : RuleConfig) : RuleConfig :=
  mkRuleConfig (if bool_decide (ID rule = "") then "rule_" +:+ itoa (i + 1) else ID rule)
    (Enabled rule) (Type_ rule) (Value rule)
    (if bool_decide (Policy rule = "") then "DIRECT" else Policy rule)
    (Group rule) (Comment rule).
Fixpoint fill_rules (i : Z) (objects : list RuleConfig) : result RuleList :=
  match objects with
  | [] => Ok []
  | rule :: objects' =>
      let rule := fill_rule i rule in
      match RuleConfig_Validate rule with
      | Err e => Err (Wrapf "rule[%d]: %w" [itoa i] e)
      | Ok _ => rest ← fill_rules (i + 1) objects'; Ok (rule :: rest)
      end
  end.
(** [RuleList.UnmarshalJSON]: replaces the list. *)
Definition RuleList_UnmarshalJSON (data : json) : result RuleList :=
  objects ← dec_slice dec_RuleConfig zeroRuleConfig [] data;
  fill_rules 0 objects.

Definition dec_TUN : decoder TUNConfig := dec_struct [
  ("name", via Name (fun v r => mkTUNConfig v (tun_IP r) (Mask r) (MTU r)) dec_string);
  ("ip", via tun_IP (fun v r => mkTUNConfig (Name r) v (Mask r) (MTU r)) dec_string);
  ("mask", via Mask (fun v r => mkTUNConfig (Name r) (tun_IP r) v (MTU r)) dec_int);
  ("mtu", via MTU (fun v r => mkTUNConfig (Name r) (tun_IP r) (Mask r) v) dec_int)].
Definition dec_FakeIP : decoder FakeIPConfig := dec_struct [
  ("pool", via Pool (fun v _ => mkFakeIPConfig v) dec_string)].
Definition dec_DNS : decoder DNSConfig := dec_struct [
  ("upstream", via Upstream (fun v r => mkDNSConfig v (Hijack r) (SystemHijack r)) (dec_slice dec_string ""));
  ("hijack", via Hijack (fun v r => mkDNSConfig (Upstream r) v (SystemHijack r)) (dec_slice dec_string ""));
  ("system_hijack", via SystemHijack (fun v r => mkDNSConfig (Upstream r) (Hijack r) v) dec_bool)].
Definition dec_SOCKS5 : decoder SOCKS5Config := dec_struct [
  ("enabled", via socks_Enabled (fun v r => mkSOCKS5Config v (BindHost r) (Port r)) dec_bool);
  ("bind_host", via BindHost (fun v r => mkSOCKS5Config (socks_Enabled r) v (Port r)) dec_string);
  ("port", via Port (fun v r => mkSOCKS5Config (socks_Enabled r) (BindHost r) v) dec_int)].
Definition dec_GeoIP : decoder GeoIPConfig := dec_struct [
  ("file", via geoip_File (fun v _ => mkGeoIPConfig v) dec_string)].
Definition dec_Outbound : decoder OutboundConfig := dec_struct [
  ("interface", via Interface (fun v _ => mkOutboundConfig v) dec_string)].
Definition dec_Corplink : decoder CorplinkConfig := dec_struct [
  ("company_name", via CompanyName (fun v r => mkCorplinkConfig v (Platform r) (InsecureSkipVerify r) (DebugHTTPBody r)) dec_string);
  ("platform", via Platform (fun v r => mkCorplinkConfig (CompanyName r) v (InsecureSkipVerify r) (DebugHTTPBody r)) dec_string);
  ("insecure_skip_verify", via InsecureSkipVerify (fun v r => mkCorplinkConfig (CompanyName r) (Platform r) v (DebugHTTPBody r)) dec_bool);
  ("debug_http_body", via DebugHTTPBody (fun v r => mkCorplinkConfig (CompanyName r) (Platform r) (InsecureSkipVerify r) v) dec_bool)].
Definition dec_Log : decoder LogConfig := dec_struct [
  ("level", via Level (fun v r => mkLogConfig v (log_File r) (MaxSize r) (MaxAge r)) dec_string);
  ("file", via log_File (fun v r => mkLogConfig (Level r) v (MaxSize r) (MaxAge r)) dec_string);
  ("max_size", via MaxSize (fun v r => mkLogConfig (Level r) (log_File r) v (MaxAge r)) dec_string);
  ("max_age", via MaxAge (fun v r => mkLogConfig (Level r) (log_File r) (MaxSize r) v) dec_int)].
Definition dec_Config : decoder Config := dec_struct [
  ("tun", via TUN (fun v c => mkConfig v (FakeIP c) (DNS c) (SOCKS5 c) (GeoIP c) (DirectOutbound c) (Corplink c) (Log c) (Rules c)) dec_TUN);
  ("fakeip", via FakeIP (fun v c => mkConfig (TUN c) v (DNS c) (SOCKS5 c) (GeoIP c) (DirectOutbound c) (Corplink c) (Log c) (Rules c)) dec_FakeIP);
  ("dns", via DNS (fun v c => mkConfig (TUN c) (FakeIP c) v (SOCKS5 c) (GeoIP c) (DirectOutbound c) (Corplink c) (Log c) (Rules c)) dec_DNS);
  ("socks5", via SOCKS5 (fun v c => mkConfig (TUN c) (FakeIP c) (DNS c) v (GeoIP c) (DirectOutbound c) (Corplink c) (Log c) (Rules c)) dec_SOCKS5);
  ("geoip", via GeoIP (fun v c => mkConfig (TUN c) (FakeIP c) (DNS c) (SOCKS5 c) v (DirectOutbound c) (Corplink c) (Log c) (Rules c)) dec_GeoIP);
  ("direct_outbound", via DirectOutbound (fun v c => mkConfig (TUN c) (FakeIP c) (DNS c) (SOCKS5 c) (GeoIP c) v (Corplink c) (Log c) (Rules c)) dec_Outbound);
  ("corplink", via Corplink (fun v c => mkConfig (TUN c) (FakeIP c) (DNS c) (SOCKS5 c) (GeoIP c) (DirectOutbound c) v (Log c) (Rules c)) dec_Corplink);
  ("log", via Log (fun v c => mkConfig (TUN c) (FakeIP c) (DNS c) (SOCKS5 c) (GeoIP c) (DirectOutbound c) (Corplink c) v (Rules c)) dec_Log);
  ("rules", via Rules (fun v c => mkConfig (TUN c) (FakeIP c) (DNS c) (SOCKS5 c) (GeoIP c) (DirectOutbound c) (Corplink c) (Log c) v)
              (fun _ j => RuleList_UnmarshalJSON j))].

(** ** Validation and loading *)
Definition SOCKS5_Validate (c : SOCKS5Config) : result unit :=
  if negb (socks_Enabled c) then Ok tt
  else if bool_decide (TrimSpace (BindHost c) = "") then
    Err (Errorf "socks5 bind_host must not be empty" [])
  else if (Port c <? 1) || (65535 <? Port c) then
    Err (Errorf "socks5 port must be between 1 and 65535" [])
  else Ok tt.

(** [encoding/json]'s parser of text. *)
Context (json_parse : string -> option json).

Definition json_Unmarshal_Config (data : string) (cfg : Config) : result Config :=
  match json_parse data with
  | None => Err (Errorf "json: invalid syntax" [])
  | Some j => dec_Config cfg j
  end.

Definition set_tun_name (n : string) (c : Config) : Config :=
  mkConfig (mkTUNConfig n (tun_IP (TUN c)) (Mask (TUN c)) (MTU (TUN c)))
    (FakeIP c) (DNS c) (SOCKS5 c) (GeoIP c) (DirectOutbound c) (Corplink c) (Log c) (Rules c).

Definition mergeAndValidate (goos : string) (cfg : Config) (data : string) : result Config :=
  match json_Unmarshal_Config data cfg with
  | Err e => Err (Wrapf "parse config: %w" [] e)
  | Ok cfg =>
      let cfg := if bool_decide (goos = "darwin") && negb (HasPrefix (Name (TUN cfg)) "utun")
                 then set_tun_name "utun" cfg else cfg in
      _ ← SOCKS5_Validate (SOCKS5 cfg);
      _ ← RuleStrings cfg;
      Ok cfg
  end.

Definition LoadConfigFromBytes (goos : string) (data : string) : result Config :=
  mergeAndValidate goos (DefaultConfig goos) data.

(** The file system [LoadConfig] reads: the content of each file, [None] where
    there is no such file and [Some (Err e)] where it cannot be read. *)
Definition LoadConfig (goos : string) (fs : string -> option (result string)) (path : string)
  : result Config :=
  let path := if bool_decide (path = "") then
                default "" (find_first (fun p => bool_decide (is_Some (fs p)))
                              ["config.json"; ".ecorplink.json"])
              else path in
  if bool_decide (path = "") then Ok (DefaultConfig goos)
  else match fs path with
       | None => Err (Wrapf "read config %q: %w" [path] (Errorf "file does not exist" []))
       | Some (Err e) => Err (Wrapf "read config %q: %w" [path] e)
       | Some (Ok data) => mergeAndValidate goos (DefaultConfig goos) data
       end.

(** [RecommendedRules] over the embedded rule file. *)
Definition RecommendedRules (recommendedRulesJSON : string) : result RuleList :=
  match json_parse recommendedRulesJSON with
  | None => Err (Wrapf "parse recommended rules: %w" [] (Errorf "json: invalid syntax" []))
  | Some j => match RuleList_UnmarshalJSON j with
              | Err e => Err (Wrapf "parse recommended rules: %w" [] e)
              | Ok r => Ok r
              end
  end.
End rules.

(** ** Lemmas *)
Section lemmas.
Context {U : Unicode}.

Lemma EnabledStrings_from_Ok i rl out :
  EnabledStrings_from i rl = Ok out <->
  Forall2 (fun r s => ToRuleString r = Ok s) (filter (fun r => Enabled r = true) rl) out.
Proof.
  revert i out. induction rl as [|r rl IH]; intros i out; cbn [EnabledStrings_from].
  { split; [by intros [= <-] | by inversion 1]. }
  rewrite filter_cons. destruct (Enabled r); cbn -[filter]; [|apply IH].
  split.
  - destruct (ToRuleString r) as [s|] eqn:Hr; [|done]. intros H. rinv H.
    constructor; [done | by apply IH in E].
  - inversion 1 as [|? s ? out' Hs Hrest]; subst. rewrite Hs. cbn.
    by rewrite (proj2 (IH _ _) Hrest).
Qed.

Lemma EnabledStrings_from_is_ok i rl :
  is_ok (EnabledStrings_from i rl) = true <->
  Forall (fun r => Enabled r = true -> is_ok (ToRuleString r) = true) rl.
Proof.
  revert i. induction rl as [|r rl IH]; intros i; cbn; [by split|].
  rewrite Forall_cons. destruct (Enabled r); cbn.
  - destruct (ToRuleString r) as [s|]; cbn.
    + rewrite <- (IH (i + 1)). destruct (EnabledStrings_from (i + 1) rl); cbn; tauto.
    + split; [done | intros [H _]; by specialize (H eq_refl)].
  - rewrite IH. split; [intros H; by split | by intros []].
Qed.

Lemma RuleConfig_Validate_is_ok r : is_ok (RuleConfig_Validate r) = is_ok (ToRuleString r).
Proof. unfold RuleConfig_Validate. by destruct (ToRuleString r). Qed.

Lemma fill_rules_Ok i objects rl :
  fill_rules i objects = Ok rl -> Forall (fun r => is_ok (ToRuleString r) = true) rl.
Proof.
  revert i rl. induction objects as [|o objects IH]; intros i rl; cbn; [by intros [= <-]|].
  destruct (RuleConfig_Validate _) eqn:Hv; [|done]. intros H. rinv H.
  constructor; [|by eapply IH]. rewrite <- RuleConfig_Validate_is_ok.
  unfold fill_rule in *. by rewrite Hv.
Qed.

(** What [ToRuleString] returns is what [ParseRuleString] accepts. *)
Lemma ToRuleString_Ok r raw :
  ToRuleString r = Ok raw ->
  exists policy, (policy = "DIRECT" \/ policy = "VPN") /\
    raw = ToUpper (TrimSpace (Type_ r)) +:+ "," +:+ TrimSpace (Value r) +:+ "," +:+ policy /\
    exists toks, ParseRuleString raw = Ok toks.
Proof.
  unfold ToRuleString.
  set (p := if bool_decide _ then "DIRECT" else _).
  destruct (negb (bool_decide (p = "DIRECT")) && negb (bool_decide (p = "VPN"))) eqn:E; [done|].
  intros H. rinv H. exists p. split; [|by eauto].
  apply andb_false_iff in E as [E|E]; apply negb_false_iff, bool_decide_eq_true in E; auto.
Qed.

(** A rule string that passes: its three tokens. *)
Lemma ParseRuleString_Ok s toks :
  ParseRuleString s = Ok toks ->
  exists p0 p1 p2, SplitN s "," 3 = [p0; p1; p2] /\
    toks = [TrimSpace p0; TrimSpace p1; TrimSpace p2] /\
    TrimSpace p1 <> "" /\ TrimSpace p2 <> "" /\
    (TrimSpace p0 ∈ ["DOMAIN"; "DOMAIN-SUFFIX"; "DOMAIN-KEYWORD"; "GEOIP"] \/
     TrimSpace p0 = "IP-CIDR" /\ is_ok (ParseCIDR (TrimSpace p1)) = true) /\
    (ToUpper (TrimSpace p2) = "VPN" \/ HasPrefix (ToUpper (TrimSpace p2)) "DIRECT" = true).
Proof.
  unfold ParseRuleString.
  destruct (SplitN s "," 3) as [|p0 [|p1 [|p2 [|]]]] eqn:Hs; try done.
  case_bool_decide as Hv; [done|]. case_bool_decide as Ha; [done|].
  intros H. apply bind_Ok in H as ([] & Ht & H).
  exists p0, p1, p2. split; [done|].
  destruct (_ && _ && _) eqn:Hact; [done|]. injection H as <-.
  split; [done|]. split; [done|]. split; [done|]. split.
  - destruct (bool_decide_reflect (TrimSpace p0 ∈ ["DOMAIN"; "DOMAIN-SUFFIX"; "DOMAIN-KEYWORD"])) as [H1|H1]; [left; rewrite !elem_of_cons in *; tauto|].
    destruct (bool_decide_reflect (TrimSpace p0 = "GEOIP")) as [H2|H2]; [left; rewrite !elem_of_cons; tauto|].
    destruct (bool_decide_reflect (TrimSpace p0 = "IP-CIDR")) as [H3|H3]; [|done]. right. split; [done|].
    revert Ht. by destruct (ParseCIDR _).
  - apply andb_false_iff in Hact as [Hact|Hact]; [apply andb_false_iff in Hact as [Hact|Hact]|];
      apply negb_false_iff in Hact; try apply bool_decide_eq_true in Hact; rewrite ?Hact; auto.
Qed.

Lemma SOCKS5_Validate_Ok c :
  SOCKS5_Validate c = Ok tt <->
  (socks_Enabled c = true -> TrimSpace (BindHost c) <> "" /\ 1 <= Port c <= 65535).
Proof.
  unfold SOCKS5_Validate. destruct (socks_Enabled c); cbn; [|by split].
  case_bool_decide as HB; [split; [done | intros H; by destruct (H eq_refl)]|].
  destruct (Z.ltb_spec (Port c) 1); cbn;
    [split; [done | intros H'; destruct (H' eq_refl); lia]|].
  destruct (Z.ltb_spec 65535 (Port c));
    [split; [done | intros H'; destruct (H' eq_refl); lia] | by split].
Qed.
End lemmas.

(** ** Properties *)
Section properties.
Context {U : Unicode} (json_parse : string -> option json).

(** [RuleList.UnmarshalJSON] only accepts rule lists that convert: whatever
    it decodes, [EnabledStrings] of the result never reports an error, whichever
    rules the user enables or disables afterwards. *)
Theorem unmarshalled_rules_convert data rl (flags : RuleConfig -> bool) :
  RuleList_UnmarshalJSON data = Ok rl ->
  exists out, EnabledStrings
    (map (fun r => mkRuleConfig (ID r) (flags r) (Type_ r) (Value r) (Policy r) (Group r) (Comment r)) rl)
    = Ok out.
Proof.
  intros H. unfold RuleList_UnmarshalJSON in H. rinv H. apply fill_rules_Ok in H.
  apply is_ok_true, EnabledStrings_from_is_ok, Forall_map.
  eapply Forall_impl; [exact H|]. by intros r Hr _.
Qed.

Lemma mergeAndValidate_Ok goos cfg data c :
  mergeAndValidate json_parse goos cfg data = Ok c ->
  (goos = "darwin" -> HasPrefix (Name (TUN c)) "utun" = true) /\
  SOCKS5_Validate (SOCKS5 c) = Ok tt /\ is_ok (RuleStrings c) = true.
Proof.
  unfold mergeAndValidate. destruct (json_Unmarshal_Config _ _ _) as [c0|]; [|done].
  remember (if _ : bool then _ else c0) as c1 eqn:Hc. intros H.
  apply bind_Ok in H as ([] & Hs & H). apply bind_Ok in H as (out & Hr & [= <-]).
  split; [|by rewrite Hr]. intros ->. subst c1.
  by destruct (HasPrefix (Name (TUN c0)) "utun") eqn:E1.
Qed.

Lemma mergeAndValidate_unchanged goos cfg data :
  json_Unmarshal_Config json_parse data cfg = Ok cfg ->
  (goos = "darwin" -> HasPrefix (Name (TUN cfg)) "utun" = true) ->
  SOCKS5_Validate (SOCKS5 cfg) = Ok tt -> is_ok (RuleStrings cfg) = true ->
  mergeAndValidate json_parse goos cfg data = Ok cfg.
Proof.
  intros Hu Ht Hs [out Hr]%is_ok_true. unfold mergeAndValidate. rewrite Hu.
  assert (bool_decide (goos = "darwin") && negb (HasPrefix (Name (TUN cfg)) "utun") = false) as ->.
  { case_bool_decide; [|done]. by rewrite Ht. }
  by rewrite Hs, Hr.
Qed.


(** Loading the empty JSON object, or no file at all, gives exactly the
    defaults, on every platform. *)
Theorem LoadConfig_defaults goos fs path data :
  json_parse data = Some (JObj []) ->
  fs path = Some (Ok data) -> path <> "" ->
  LoadConfig json_parse goos fs path = Ok (DefaultConfig goos) /\
  LoadConfig json_parse goos (fun _ => None) "" = Ok (DefaultConfig goos).
Proof.
  intros Hj Hf Hp. split; [|done]. unfold LoadConfig.
  rewrite (bool_decide_eq_false_2 (path = "")) by done.
  rewrite bool_decide_eq_false_2 by done. rewrite Hf.
  apply mergeAndValidate_unchanged; [|by intros ->|done..].
  unfold json_Unmarshal_Config. by rewrite Hj.
Qed.
End properties.

Lemma unmarshalled_rules_convert_witness :
  let _ := ascii_only in
  let data := JArr [JObj [("type", JStr "domain-suffix"); ("value", JStr " a.com "); ("enabled", JBool false)]] in
  RuleList_UnmarshalJSON data = Ok [mkRuleConfig "rule_1" false "domain-suffix" " a.com " "DIRECT" "" ""] /\
  exists out, EnabledStrings [mkRuleConfig "rule_1" true "domain-suffix" " a.com " "DIRECT" "" ""] = Ok out.
Proof.
  cbn zeta. split; [reflexivity|].
  exact (@unmarshalled_rules_convert ascii_only
    (JArr [JObj [("type", JStr "domain-suffix"); ("value", JStr " a.com "); ("enabled", JBool false)]])
    [mkRuleConfig "rule_1" false "domain-suffix" " a.com " "DIRECT" "" ""] (fun _ => true) eq_refl).
Defined.


Lemma LoadConfig_defaults_witness :
  LoadConfig (U := ascii_only) (fun _ => Some (JObj [])) "linux" (fun _ => Some (Ok "{}")) "c.json"
  = Ok (DefaultConfig "linux").
Proof.
  refine (proj1 (@LoadConfig_defaults ascii_only (fun _ => Some (JObj [])) "linux"
    (fun _ => Some (Ok "{}")) "c.json" "{}" eq_refl eq_refl _)); discriminate.
Defined.
