(* ===== verification/Rule.v ===== *)
(** * internal/rule: the routing rule engine

    [rule.go] and [adapter.go].  Rule strings are compiled to entries; a query
    returns the action of the first matching entry, the user's rules before the
    rules injected at run time.  [dom_matches] and [ip_matches] are the
    declarative meaning of one entry; the theorems show that the engine
    computes the first match under that meaning. *)
From S2P Require Import Prelude GoStrings GoNet Json Config.
Open Scope string_scope.
Open Scope list_scope.
Open Scope Z_scope.

(** ** Data *)
Inductive ActionType := ActionDirect | ActionVPN.
Record Action := mkAction { act_Type : ActionType; act_Outbound : string }.
Inductive ruleKind := kindDomain | kindDomainSuffix | kindDomainKeyword | kindGeoIP | kindIPCIDR.
Record entry := mkEntry {
  kind : ruleKind; value : string; network : option IPNet; action : Action }.
(** The GeoIP lookup is an interface value, [None] when nil. *)
Definition GeoIPDB := IP -> result string.
Record Engine := mkEngine { rules : list entry; runtimeRules : list entry; geoip : option GeoIPDB }.

#[export] Instance ActionType_eq_dec : EqDecision ActionType.
Proof. solve_decision. Defined.
#[export] Instance Action_eq_dec : EqDecision Action.
Proof. solve_decision. Defined.

Definition DIRECT : Action := mkAction ActionDirect "DIRECT".
Definition VPN : Action := mkAction ActionVPN "VPN".

Section engine.
Context {U : Unicode}.

(** ** Compiling rules *)
Definition parseAction (s : string) : result Action :=
  let upper := ToUpper (TrimSpace s) in
  if bool_decide (upper = "VPN") then Ok (mkAction ActionVPN "VPN")
  else if bool_decide (upper = "DIRECT") || HasPrefix upper "DIRECT" then
    Ok (mkAction ActionDirect "DIRECT")
  else Err (Errorf "action must be DIRECT or VPN, got %q" [s]).

Definition parseRule (s : string) : result entry :=
  match SplitN s "," 3 with
  | [p0; p1; p2] =>
      let typ := ToUpper (TrimSpace p0) in
      let value := TrimSpace p1 in
      let actionStr := TrimSpace p2 in
      match parseAction actionStr with
      | Err e => Err (Wrapf "rule: %q: %w" [s] e)
      | Ok action =>
          if bool_decide (typ = "DOMAIN") then Ok (mkEntry kindDomain (ToLower value) None action)
          else if bool_decide (typ = "DOMAIN-SUFFIX") then
            Ok (mkEntry kindDomainSuffix (ToLower value) None action)
          else if bool_decide (typ = "DOMAIN-KEYWORD") then
            Ok (mkEntry kindDomainKeyword (ToLower value) None action)
          else if bool_decide (typ = "GEOIP") then
            Ok (mkEntry kindGeoIP (ToUpper value) None action)
          else if bool_decide (typ = "IP-CIDR") then
            match ParseCIDR value with
            | Err e => Err (Wrapf "rule: invalid CIDR %q: %w" [value] e)
            | Ok (_, network) => Ok (mkEntry kindIPCIDR "" (Some network) action)
            end
          else Err (Errorf "rule: unknown rule type %q" [typ])
      end
  | _ => Err (Errorf "rule: invalid format %q (want TYPE,value,action)" [s])
  end.

Definition NewEngine (ruleStrings : list string) (geoip : option GeoIPDB) : result Engine :=
  rules ← mapR parseRule ruleStrings; Ok (mkEngine rules [] geoip).

(** ** Runtime rules *)
Definition InjectRules (e : Engine) (ruleStrings : list string) : Engine * option error :=
  match mapR parseRule ruleStrings with
  | Err err => (e, Some err)
  | Ok entries => (mkEngine (rules e) entries (geoip e), None)
  end.
Definition ClearInjectedRules (e : Engine) : Engine := mkEngine (rules e) [] (geoip e).

(** ** Matching *)
Fixpoint matchDomainInList (rules : list entry) (d : string) : option Action :=
  match rules with
  | [] => None
  | r :: rules' =>
      let next := matchDomainInList rules' d in
      match kind r with
      | kindDomain => if bool_decide (d = value r) then Some (action r) else next
      | kindDomainSuffix =>
          if bool_decide (d = value r) || HasSuffix d ("." +:+ value r)
          then Some (action r) else next
      | kindDomainKeyword => if Contains d (value r) then Some (action r) else next
      | _ => next
      end
  end.

(** A [None] network is a nil pointer, which only a CIDR entry dereferences;
    [parseRule] never builds such an entry. *)
Fixpoint matchIPInList (rules : list entry) (ip : IP) (geoip : option GeoIPDB) : option Action :=
  match rules with
  | [] => None
  | r :: rules' =>
      let next := matchIPInList rules' ip geoip in
      match kind r with
      | kindGeoIP =>
          match geoip with
          | None => next
          | Some country =>
              match country ip with
              | Err _ => next
              | Ok cc => if EqualFold cc (value r) then Some (action r) else next
              end
          end
      | kindIPCIDR =>
          match network r with
          | Some n => if IPNet_Contains n ip then Some (action r) else next
          | None => next
          end
      | _ => next
      end
  end.

Definition MatchDomain (e : Engine) (domain : string) : option Action :=
  let d := ToLower (TrimSuffix domain ".") in
  match matchDomainInList (rules e) d with
  | Some a => Some a
  | None => matchDomainInList (runtimeRules e) d
  end.

Definition MatchIP (e : Engine) (ip : IP) : option Action :=
  match matchIPInList (rules e) ip (geoip e) with
  | Some a => Some a
  | None => matchIPInList (runtimeRules e) ip (geoip e)
  end.

(** [MatcherAdapter.MatchDomain] *)
Definition MatcherAdapter_MatchDomain (e : Engine) (domain : string) : bool :=
  match MatchDomain e domain with Some _ => true | None => false end.

(** ** Specification of one entry *)
Definition dom_matches (r : entry) (d : string) : Prop :=
  match kind r with
  | kindDomain => d = value r
  | kindDomainSuffix => d = value r \/ exists sub, d = sub +:+ "." +:+ value r
  | kindDomainKeyword => exists pre post, d = pre +:+ value r +:+ post
  | _ => False
  end.
Definition ip_matches (g : option GeoIPDB) (r : entry) (ip : IP) : Prop :=
  match kind r with
  | kindGeoIP => exists country cc, g = Some country /\ country ip = Ok cc /\ EqualFold cc (value r) = true
  | kindIPCIDR => exists n, network r = Some n /\ IPNet_Contains n ip = true
  | _ => False
  end.

(** The first entry, in order, that matches. *)
Definition first_match (P : entry -> Prop) (l : list entry) (a : option Action) : Prop :=
  match a with
  | Some act => exists i r, l !! i = Some r /\ action r = act /\ P r /\
      forall j r', (j < i)%nat -> l !! j = Some r' -> ~ P r'
  | None => Forall (fun r => ~ P r) l
  end.

(** ** The scans compute the first match *)
Definition dom_matchb (d : string) (r : entry) : bool :=
  match kind r with
  | kindDomain => bool_decide (d = value r)
  | kindDomainSuffix => bool_decide (d = value r) || HasSuffix d ("." +:+ value r)
  | kindDomainKeyword => Contains d (value r)
  | _ => false
  end.
Definition ip_matchb (g : option GeoIPDB) (ip : IP) (r : entry) : bool :=
  match kind r with
  | kindGeoIP =>
      match g with
      | Some country => match country ip with Ok cc => EqualFold cc (value r) | Err _ => false end
      | None => false
      end
  | kindIPCIDR => match network r with Some n => IPNet_Contains n ip | None => false end
  | _ => false
  end.

Lemma dom_matchb_spec d r : dom_matchb d r = true <-> dom_matches r d.
Proof.
  unfold dom_matchb, dom_matches. destruct (kind r).
  - apply bool_decide_eq_true.
  - by rewrite orb_true_iff, bool_decide_eq_true, HasSuffix_spec.
  - apply Contains_spec.
  - done.
  - done.
Qed.
Lemma ip_matchb_spec g ip r : ip_matchb g ip r = true <-> ip_matches g r ip.
Proof.
  unfold ip_matchb, ip_matches. destruct (kind r); try done.
  - destruct g as [country|]; [|by split; [|intros (?&?&?&?)]].
    split.
    + destruct (country ip) as [cc|] eqn:E; [|done]. eauto.
    + by intros (? & cc & [= <-] & -> & ?).
  - destruct (network r) as [n|]; [|by split; [|intros (?&?&?)]].
    split; [by eauto | by intros (? & [= <-] & ?)].
Qed.

Lemma matchDomainInList_find l d : matchDomainInList l d = action <$> find_first (dom_matchb d) l.
Proof.
  induction l as [|r l IH]; [done|]. cbn -[String.append]. unfold dom_matchb at 1.
  destruct (kind r); try done; rewrite IH; repeat case_match; done.
Qed.
Lemma matchIPInList_find l ip g : matchIPInList l ip g = action <$> find_first (ip_matchb g ip) l.
Proof.
  induction l as [|r l IH]; [done|]. cbn. unfold ip_matchb at 1.
  destruct (kind r); try done; rewrite IH; repeat case_match; done.
Qed.

Lemma find_first_match (P : entry -> Prop) (p : entry -> bool) l :
  (forall r, p r = true <-> P r) -> first_match P l (action <$> find_first p l).
Proof.
  intros Hp. destruct (find_first p l) as [r|] eqn:E; cbn.
  - apply find_first_Some in E as (i & Hi & Hr & Hlt).
    exists i, r. split; [done|]. split; [done|]. split; [by apply Hp|].
    intros j r' Hj Hr' HP%Hp. by rewrite (Hlt j r' Hj Hr') in HP.
  - apply find_first_None in E. eapply Forall_impl; [exact E|].
    intros r Hr HP%Hp. congruence.
Qed.

(** Both lists are scanned as one. *)
Lemma MatchDomain_find e d :
  MatchDomain e d =
  action <$> find_first (dom_matchb (ToLower (TrimSuffix d "."))) (rules e ++ runtimeRules e).
Proof.
  unfold MatchDomain. rewrite !matchDomainInList_find, find_first_app.
  by destruct (find_first _ (rules e)).
Qed.
Lemma MatchIP_find e ip :
  MatchIP e ip = action <$> find_first (ip_matchb (geoip e) ip) (rules e ++ runtimeRules e).
Proof.
  unfold MatchIP. rewrite !matchIPInList_find, find_first_app.
  by destruct (find_first _ (rules e)).
Qed.
End engine.

(** ** Theorems: matching *)
Section theorems.
Context {U : Unicode}.

(** The query text the engine compares against. *)
Definition normalize (d : string) : string := ToLower (TrimSuffix d ".").

Lemma MatchDomain_normalize e d d' : normalize d = normalize d' -> MatchDomain e d = MatchDomain e d'.
Proof. unfold normalize. rewrite !MatchDomain_find. by intros ->. Qed.

Lemma normalize_ToUpper d : is_ascii d = true -> normalize (ToUpper d) = normalize d.
Proof.
  intros Ha. unfold normalize. rewrite ToUpper_ascii by done.
  rewrite TrimSuffix_map by apply upper_char_dot.
  rewrite <- ToUpper_ascii by by apply is_ascii_TrimSuffix.
  by apply ToLower_ToUpper, is_ascii_TrimSuffix.
Qed.

Lemma normalize_dot d : HasSuffix d "." = false -> normalize (d +:+ ".") = normalize d.
Proof. intros H. unfold normalize. by rewrite TrimSuffix_snoc, TrimSuffix_no. Qed.

Lemma first_match_app P l1 l2 a :
  first_match P l1 (Some a) -> first_match P (l1 ++ l2) (Some a).
Proof.
  intros (i & r & Hi & Ha & HP & Hlt). exists i, r.
  pose proof (lookup_lt_Some _ _ _ Hi).
  split; [by rewrite lookup_app_l|]. split; [done|]. split; [done|].
  intros j r' Hj Hr'. rewrite lookup_app_l in Hr' by lia. by eapply Hlt.
Qed.

(** *** Compilation of the configuration's rules *)
Lemma ParseRuleString_parseRule s toks :
  ParseRuleString s = Ok toks -> exists e, parseRule s = Ok e.
Proof.
  intros (p0 & p1 & p2 & Hs & -> & Hv & Ha & Ht & Hact)%ParseRuleString_Ok.
  unfold parseRule. rewrite Hs.
  assert (exists a, parseAction (TrimSpace p2) = Ok a) as [a ->].
  { unfold parseAction. rewrite TrimSpace_idemp. destruct Hact as [-> | ->].
    - by eauto.
    - rewrite orb_true_r. case_bool_decide; eauto. }
  assert (ToUpper (TrimSpace p0) = TrimSpace p0) as ->.
  { destruct Ht as [Ht|[-> _]]; [|done]. rewrite !elem_of_cons in Ht.
    destruct Ht as [-> |[-> |[-> |[-> |Hn]]]]; try done. by apply not_elem_of_nil in Hn. }
  destruct Ht as [Ht|[-> Hc]].
  - rewrite !elem_of_cons in Ht.
    destruct Ht as [-> |[-> |[-> |[-> |Hn]]]]; cbn; eauto.
    by apply not_elem_of_nil in Hn.
  - cbn. destruct (ParseCIDR (TrimSpace p1)) as [[? n]|]; [eauto | done].
Qed.

Lemma ToRuleString_parseRule r raw :
  ToRuleString r = Ok raw -> exists e, parseRule raw = Ok e.
Proof.
  intros (policy & _ & -> & toks & Hp)%ToRuleString_Ok. by eapply ParseRuleString_parseRule.
Qed.

Lemma mapR_exists {A B} (f : A -> result B) l :
  Forall (fun x => exists y, f x = Ok y) l -> exists ys, mapR f l = Ok ys.
Proof.
  induction 1 as [|x l [y Hy] _ [ys Hys]]; cbn; [by eauto|]. rewrite Hy. cbn. rewrite Hys. by eauto.
Qed.

Lemma parseRule_action s p0 p1 p2 e :
  SplitN s "," 3 = [p0; p1; p2] -> parseRule s = Ok e ->
  parseAction (TrimSpace p2) = Ok (action e).
Proof.
  intros Hs. unfold parseRule. rewrite Hs.
  destruct (parseAction (TrimSpace p2)) as [a|]; [|done].
  repeat case_bool_decide; try by intros [= <-].
  destruct (ParseCIDR _) as [[? ?]|]; by intros [= <-].
Qed.
End theorems.

(** ** Properties *)
Section properties.
Context {U : Unicode}.

(** C29: A domain query returns the action of the first entry, in the order of
    the user's rules followed by the injected ones, that matches the
    lower-cased name without its trailing dot: an equal name for DOMAIN, the
    name or a name ending in a dot and the value for DOMAIN-SUFFIX, a
    substring for DOMAIN-KEYWORD; it returns nothing only when no entry
    matches. *)
Theorem MatchDomain_first_match e d :
  first_match (fun r => dom_matches r (ToLower (TrimSuffix d "."))) (rules e ++ runtimeRules e)
    (MatchDomain e d).
Proof. rewrite MatchDomain_find. apply find_first_match. intros r. apply dom_matchb_spec. Qed.

(** C30: An address query returns the action of the first entry, user's rules
    first, that matches: a GEOIP entry when the database knows the address
    and its country is the entry's under case folding (an entry is skipped
    when there is no database or the lookup fails), an IP-CIDR entry when
    its network contains the address. *)
Theorem MatchIP_first_match e ip :
  first_match (fun r => ip_matches (geoip e) r ip) (rules e ++ runtimeRules e) (MatchIP e ip).
Proof. rewrite MatchIP_find. apply find_first_match. intros r. apply ip_matchb_spec. Qed.

(** A compiled IP-CIDR rule over a dotted-quad prefix matches an address
    exactly when the address is IPv4 (in 4-byte or IPv4-mapped form) and its
    first [k] bits are the prefix's, [k] being the prefix length. *)
Theorem IPCIDR_matches_prefix s r g ip p0 p1 p2 a :
  SplitN s "," 3 = [p0; p1; p2] ->
  parseRule s = Ok r -> kind r = kindIPCIDR ->
  ParseAddr (default (TrimSpace p1) (fst <$> Cut (TrimSpace p1) "/")) = Some a ->
  length a = 4%nat -> bytes_ok ip ->
  exists k, (k <= 32)%nat /\
    (ip_matches g r ip <-> length (To4 ip) = 4%nat /\ prefix_val k (To4 ip) = prefix_val k a).
Proof.
  intros Hs Hp Hk Ha Hl Hb. unfold parseRule in Hp. rewrite Hs in Hp.
  destruct (parseAction _); [|done].
  repeat (case_bool_decide; [by simplify_eq|]). case_bool_decide; [|done].
  destruct (ParseCIDR (TrimSpace p1)) as [[i n]|] eqn:Hc; [|done]. injection Hp as <-.
  destruct (ParseCIDR_v4 _ _ _ _ Hc Ha Hl) as (k & Hk32 & ->).
  exists k. split; [done|]. pose proof (ParseAddr_ok _ _ Ha) as [_ Hab].
  rewrite <- IPNet_Contains_v4 by done. unfold ip_matches. cbn. split.
  - by intros (? & [= <-] & ?).
  - eauto.
Qed.

(** For an ASCII name, upper- or lower-casing the query never changes the
    answer, and neither does one trailing dot. *)
Theorem MatchDomain_insensitive e d :
  is_ascii d = true ->
  MatchDomain e (ToUpper d) = MatchDomain e d /\
  (HasSuffix d "." = false -> MatchDomain e (d +:+ ".") = MatchDomain e d).
Proof.
  intros Ha. split; [by apply MatchDomain_normalize, normalize_ToUpper|].
  intros Hd. by apply MatchDomain_normalize, normalize_dot.
Qed.

(** C40: Rule injection is all or nothing and never overrides the user.
    [InjectRules] reports an error exactly when some string does not compile,
    and then the engine is unchanged; otherwise the injected list is exactly
    the compiled strings. Either way, and after [ClearInjectedRules], a query
    that a user rule answers gets that same answer. *)
Theorem InjectRules_atomic e rs e' err :
  InjectRules e rs = (e', err) ->
  match err with
  | Some _ => e' = e /\ Exists (fun s => is_ok (parseRule s) = false) rs
  | None => Forall2 (fun s r => parseRule s = Ok r) rs (runtimeRules e') /\
            rules e' = rules e /\ geoip e' = geoip e
  end /\
  (forall d a, matchDomainInList (rules e) (ToLower (TrimSuffix d ".")) = Some a ->
     MatchDomain e' d = Some a /\ MatchDomain (ClearInjectedRules e') d = Some a) /\
  (forall ip a, matchIPInList (rules e) ip (geoip e) = Some a ->
     MatchIP e' ip = Some a /\ MatchIP (ClearInjectedRules e') ip = Some a).
Proof.
  unfold InjectRules. intros H.
  assert (rules e' = rules e /\ geoip e' = geoip e) as [Hr Hg]
    by (destruct (mapR _ _); simplify_eq; done).
  split; [|split].
  - destruct (mapR parseRule rs) as [l|x] eqn:E; simplify_eq.
    + apply mapR_Ok in E. done.
    + split; [done|]. pose proof (mapR_is_ok parseRule rs) as Hok. rewrite E in Hok. cbn in Hok.
      apply Exists_exists. symmetry in Hok.
      assert (~ forall x, x ∈ rs -> is_ok (parseRule x) = true) as Hn.
      { intros Hall. apply not_true_iff_false in Hok. apply Hok, forallb_forall.
        intros y Hy. by apply Hall, list_elem_of_In. }
      destruct (decide (Exists (fun s => is_ok (parseRule s) = false) rs)) as [Hex|Hex];
        [by apply Exists_exists in Hex|].
      apply not_Exists_Forall in Hex; [|apply _]. rewrite Forall_forall in Hex.
      exfalso. apply Hn. intros y Hy. by apply not_false_iff_true, Hex.
  - intros d a Ha. unfold MatchDomain. cbn. by rewrite Hr, Ha.
  - intros ip a Ha. unfold MatchIP. cbn. by rewrite Hr, Hg, Ha.
Qed.

(** The engine compiles every rule the configuration accepts: if
    [RuleStrings] succeeds then [NewEngine] succeeds on its result, with one
    entry per enabled rule, in order, and nothing injected. *)
Theorem config_rules_compile c l g :
  RuleStrings c = Ok l ->
  exists e, NewEngine l g = Ok e /\ runtimeRules e = [] /\ geoip e = g /\
    Forall2 (fun r en => exists raw, ToRuleString r = Ok raw /\ parseRule raw = Ok en)
      (filter (fun r => Enabled r = true) (Rules c)) (rules e).
Proof.
  intros Hl%EnabledStrings_from_Ok.
  destruct (mapR_exists parseRule l) as [es Hes].
  { clear -Hl. induction Hl as [|r s rs ss Hr _ IH]; constructor; [|done].
    by eapply ToRuleString_parseRule. }
  exists (mkEngine es [] g). unfold NewEngine. rewrite Hes. split; [done|].
  split; [done|]. split; [done|]. cbn. apply mapR_Ok in Hes.
  clear -Hl Hes. revert es Hes.
  induction Hl as [|r s rs ss Hr _ IH]; intros es Hes; inversion Hes; subst; constructor; eauto.
Qed.

(** The policy of a rule object is the policy its compiled entry applies,
    provided its type and value hold no comma: VPN when the policy reads VPN,
    DIRECT when it reads DIRECT or is empty. *)
Theorem rule_policy_preserved r raw e :
  no_char "," (ToUpper (TrimSpace (Type_ r))) = true ->
  no_char "," (TrimSpace (Value r)) = true ->
  ToRuleString r = Ok raw -> parseRule raw = Ok e ->
  action e = if bool_decide (ToUpper (TrimSpace (Policy r)) = "VPN") then VPN else DIRECT.
Proof.
  intros Ht Hv. unfold ToRuleString.
  set (p := if bool_decide _ then "DIRECT" else _).
  destruct (_ && _) eqn:E; [done|]. intros H. apply bind_Ok in H as (toks & _ & [= <-]).
  intros Hp. eapply parseRule_action in Hp; [|by apply SplitN_3].
  assert (bool_decide (ToUpper (TrimSpace (Policy r)) = "VPN") = bool_decide (p = "VPN")) as ->.
  { subst p. case_bool_decide as H1; [by rewrite H1|].
    case_bool_decide as H2; [by case_bool_decide|]. case_bool_decide; done. }
  assert (p = "DIRECT" \/ p = "VPN") as [Hp'|Hp'].
  { apply andb_false_iff in E as [E|E]; apply negb_false_iff, bool_decide_eq_true in E; auto. }
  - rewrite Hp' in Hp |- *. assert (parseAction (TrimSpace "DIRECT") = Ok DIRECT) as Hd by by vm_compute.
    rewrite Hd in Hp. by injection Hp as <-.
  - rewrite Hp' in Hp |- *. assert (parseAction (TrimSpace "VPN") = Ok VPN) as Hd by by vm_compute.
    rewrite Hd in Hp. by injection Hp as <-.
Qed.
End properties.

(** The comma is the one way a rule object can be compiled to another
    policy than the one it states: the value of this rule reads "a,DIRECT", its
    policy VPN, the object is accepted, and its entry sends the name "a" DIRECT. *)
Theorem comma_value_overrides_policy :
  let _ := ascii_only in
  let r := mkRuleConfig "x" true "DOMAIN" "a,DIRECT" "VPN" "" "" in
  RuleConfig_Validate r = Ok tt /\
  exists raw e, ToRuleString r = Ok raw /\ parseRule raw = Ok e /\ action e = DIRECT /\ dom_matches e "a".
Proof.
  cbn zeta. split; [reflexivity|].
  exists "DOMAIN,a,DIRECT,VPN", (mkEntry kindDomain "a" None DIRECT).
  split; [reflexivity|]. split; [reflexivity|]. split; reflexivity.
Qed.

Lemma IPCIDR_matches_prefix_witness :
  let _ := ascii_only in
  exists k, (k <= 32)%nat /\
    (ip_matches None (mkEntry kindIPCIDR "" (Some (mkIPNet [10; 64; 0; 0] [255; 192; 0; 0])) VPN) [10; 65; 1; 2] <->
     length (To4 [10; 65; 1; 2]) = 4%nat /\ prefix_val k (To4 [10; 65; 1; 2]) = prefix_val k [10; 64; 3; 0]).
Proof.
  cbn zeta. apply (@IPCIDR_matches_prefix ascii_only "IP-CIDR,10.64.3.0/10,VPN" _ None [10; 65; 1; 2]
    "IP-CIDR" "10.64.3.0/10" "VPN" [10; 64; 3; 0]); try reflexivity.
  repeat constructor; intros [=].
Defined.

Lemma MatchDomain_insensitive_witness :
  let _ := ascii_only in
  let e := mkEngine [mkEntry kindDomainSuffix "corp.cn" None VPN] [] None in
  MatchDomain e (ToUpper "git.Corp.cn") = MatchDomain e "git.Corp.cn" /\
  (HasSuffix "git.Corp.cn" "." = false -> MatchDomain e ("git.Corp.cn" +:+ ".") = MatchDomain e "git.Corp.cn").
Proof. cbn zeta. apply (@MatchDomain_insensitive ascii_only). reflexivity. Defined.

Lemma InjectRules_atomic_witness :
  let _ := ascii_only in
  let e := mkEngine [mkEntry kindDomain "a.cn" None DIRECT] [] None in
  MatchDomain (mkEngine (rules e) [mkEntry kindDomain "a.cn" None VPN] None) "A.cn" = Some DIRECT.
Proof.
  cbn zeta. refine (proj1 (proj1 (proj2 (@InjectRules_atomic ascii_only
    (mkEngine [mkEntry kindDomain "a.cn" None DIRECT] [] None) ["DOMAIN,a.cn,VPN"]
    (mkEngine [mkEntry kindDomain "a.cn" None DIRECT] [mkEntry kindDomain "a.cn" None VPN] None)
    None _)) "A.cn" DIRECT _)); reflexivity.
Defined.

Lemma config_rules_compile_witness :
  let _ := ascii_only in
  exists e, NewEngine ["GEOIP,CN,DIRECT"] None = Ok e /\ runtimeRules e = [] /\ geoip e = None /\
    Forall2 (fun r en => exists raw, ToRuleString r = Ok raw /\ parseRule raw = Ok en)
      (filter (fun r => Enabled r = true) (Rules (DefaultConfig "linux"))) (rules e).
Proof.
  cbn zeta. apply (@config_rules_compile ascii_only (DefaultConfig "linux")). reflexivity.
Defined.

Lemma rule_policy_preserved_witness :
  let _ := ascii_only in
  let r := mkRuleConfig "x" true "domain" "A.cn " "vpn" "" "" in
  action (mkEntry kindDomain "a.cn" None VPN) =
  if bool_decide (ToUpper (TrimSpace (Policy r)) = "VPN") then VPN else DIRECT.
Proof.
  cbn zeta. apply (@rule_policy_preserved ascii_only (mkRuleConfig "x" true "domain" "A.cn " "vpn" "" "")
    "DOMAIN,A.cn,VPN"); reflexivity.
Defined.
