(* ===== verification/FakeIP.v ===== *)
(** * internal/fakeip: the fake address pool and the DNS server over it

    [pool.go] and [server.go].  The pool hands out the addresses of a CIDR in
    circular order and keeps the two maps between names and offsets; its
    invariant [pool_ok] says that the maps are inverse to each other and that
    the 32-bit arithmetic never leaves the CIDR. A method holds the pool's
    mutex from start to end, so it is one step. DNS messages are those of an
    external library: [DNSLib] is what the server uses of it. *)
From S2P Require Import Prelude GoStrings GoNet.
Open Scope string_scope.
Open Scope list_scope.
Open Scope Z_scope.

(** ** The pool *)
Record Pool := mkPool {
  cidr : IPNet;
  base : Z;
  size : Z;
  next : Z;
  domainToOffset : gmap string Z;
  offsetToDomain : gmap Z string;
  (** Whether an [OnAssign] callback is installed. *)
  OnAssign : bool }.

(** A 4-byte address; [encoding/binary] panics on anything else, and every
    caller has checked [To4]. *)
Definition ipToUint32 (ip : IP) : Z := be_val (To4 ip).
Definition uint32ToIP (n : Z) : IP := put_be32 n.

Definition NewPool (s : string) : result Pool :=
  match ParseCIDR s with
  | Err e => Err (Wrapf "fakeip: invalid CIDR %q: %w" [s] e)
  | Ok (_, ipNet) =>
      if bool_decide (To4 (net_IP ipNet) = []) then Err (Errorf "fakeip: CIDR %q is not IPv4" [s])
      else
        let '(ones, bits) := IPMask_Size (net_Mask ipNet) in
        if negb (bits =? 32) then Err (Errorf "fakeip: CIDR %q is not IPv4" [s])
        else if 32 <=? ones then Err (Errorf "fakeip: CIDR %q has no usable IPs (prefix >= 32)" [s])
        else
          let networkAddr := ipToUint32 (To4 (net_IP ipNet)) in
          let base := u32 (networkAddr + 1) in
          let size := u32 (u32 (Z.shiftl 1 (32 - ones)) - 2) in
          if size =? 0 then Err (Errorf "fakeip: CIDR %q has no usable IPs" [s])
          else Ok (mkPool ipNet base size 0 ∅ ∅ false)
  end.

(** [Assign] returns the new pool, the address and the [OnAssign] call it
    starts. *)
Definition Assign (p : Pool) (domain : string) : Pool * IP * option (string * IP) :=
  match domainToOffset p !! domain with
  | Some offset => (p, uint32ToIP (u32 (base p + offset)), None)
  | None =>
      let offset := next p in
      let next' := u32 (next p + 1) mod size p in
      let d2o := match offsetToDomain p !! offset with
                 | Some oldDomain => delete oldDomain (domainToOffset p)
                 | None => domainToOffset p
                 end in
      let ip := uint32ToIP (u32 (base p + offset)) in
      (mkPool (cidr p) (base p) (size p) next' (<[domain := offset]> d2o)
         (<[offset := domain]> (offsetToDomain p)) (OnAssign p),
       ip, if OnAssign p then Some (domain, ip) else None)
  end.

Definition Lookup (p : Pool) (ip : IP) : option string :=
  let ip4 := To4 ip in
  if bool_decide (ip4 = []) then None
  else
    let ipUint := ipToUint32 ip4 in
    if (ipUint <? base p) || (u32 (base p + size p) <=? ipUint) then None
    else offsetToDomain p !! u32 (ipUint - base p).

Definition InPool (p : Pool) (ip : IP) : bool := IPNet_Contains (cidr p) ip.

(** ** The DNS server *)
Section server.
Context {U : Unicode}.

(** The [miekg/dns] message type and the operations used of it. *)
Class DNSLib := {
  Msg : Type;
  (** the request as far as it could be read, and the error if any *)
  Unpack : list Z -> Msg * option error;
  Question : Msg -> list (string * Z);
  SetReply : Msg -> Msg;
  SetRcode : Msg -> Z -> Msg;
  (** a reply whose answer section is the given A records: name, class, TTL, address *)
  SetAnswer : Msg -> list (string * Z * Z * IP) -> Msg;
  Pack : Msg -> result (list Z)
}.
Context {L : DNSLib}.

Definition TypeA : Z := 1.
Definition TypeAAAA : Z := 28.
Definition ClassINET : Z := 1.
Definition RcodeServerFailure : Z := 2.

(** Where a forwarded query goes: the upstream interface, or the direct
    exchange with the first configured address through [dialFn] or the
    library's client. A connection is what the two later calls get. *)
Record dial_ops := mkDialOps {
  conn : Type;
  dial : string -> result conn;
  WriteMsg : conn -> Msg -> result unit;
  ReadMsg : conn -> result Msg }.
Record Server := mkServer {
  matcher : string -> bool;
  upstream : option (Msg -> result Msg);
  upstreamAddrs : list string;
  fakeAllA : bool;
  dialFn : option dial_ops }.
Context (client_Exchange : Msg -> string -> result Msg).

Definition NewServer (matcher : string -> bool) (upstream : option (Msg -> result Msg))
    (upstreamAddrs : list string) : Server :=
  mkServer matcher upstream upstreamAddrs false None.
Definition SetFakeAllA (s : Server) (enabled : bool) : Server :=
  mkServer (matcher s) (upstream s) (upstreamAddrs s) enabled (dialFn s).
Definition SetDialFn (s : Server) (fn : option dial_ops) : Server :=
  mkServer (matcher s) (upstream s) (upstreamAddrs s) (fakeAllA s) fn.

(** Response bytes and the error reported with them. *)
Definition reply := (list Z * option error)%type.
Definition pack_reply (m : Msg) : reply :=
  match Pack m with Ok b => (b, None) | Err e => ([], Some e) end.

Definition packServfail (req : Msg) : list Z :=
  match Pack (SetRcode req RcodeServerFailure) with Ok b => b | Err _ => [] end.
Definition servfail (req : Msg) (what : string) (e : error) : reply :=
  (packServfail req, Some (Wrapf what [] e)).

Definition forward (s : Server) (req : Msg) : reply :=
  match upstream s with
  | Some exchange =>
      match exchange req with
      | Err e => servfail req "fakeip: upstream exchange: %w" e
      | Ok resp => pack_reply resp
      end
  | None =>
      match upstreamAddrs s with
      | addr :: _ =>
          match dialFn s with
          | Some ops =>
              match dial ops addr with
              | Err e => servfail req "fakeip: direct DNS exchange dial: %w" e
              | Ok c =>
                  match WriteMsg ops c req with
                  | Err e => servfail req "fakeip: direct DNS exchange write: %w" e
                  | Ok _ =>
                      match ReadMsg ops c with
                      | Err e => servfail req "fakeip: direct DNS exchange read: %w" e
                      | Ok resp => pack_reply resp
                      end
                  end
              end
          | None =>
              match client_Exchange req addr with
              | Err e => servfail req "fakeip: direct DNS exchange: %w" e
              | Ok resp => pack_reply resp
              end
          end
      | [] => (packServfail req, None)
      end
  end.

Definition HandleDNS (s : Server) (p : Pool) (raw : list Z) : Pool * reply :=
  let '(req, err) := Unpack raw in
  match err with
  | Some e => (p, servfail req "fakeip: unpack DNS message: %w" e)
  | None =>
      match Question req with
      | [] => (p, (packServfail req, None))
      | (q_Name, q_Qtype) :: _ =>
          let domain := ToLower (TrimSuffix q_Name ".") in
          if fakeAllA s || matcher s domain then
            if q_Qtype =? TypeA then
              let '(p, ip, _) := Assign p domain in
              (p, pack_reply (SetAnswer (SetReply req) [(q_Name, ClassINET, 1, ip)]))
            else if q_Qtype =? TypeAAAA then
              (p, pack_reply (SetAnswer (SetReply req) []))
            else (p, forward s req)
          else (p, forward s req)
      end
  end.
End server.

(** ** The pool's invariant *)
Record pool_ok (p : Pool) : Prop := mkPoolOk {
  ok_geometry : exists k a, (k <= 30)%nat /\ length a = 4%nat /\ bytes_ok a /\
    cidr p = cidr_net 4 k a /\
    base p = 2 ^ (32 - Z.of_nat k) * (be_val a / 2 ^ (32 - Z.of_nat k)) + 1 /\
    size p = 2 ^ (32 - Z.of_nat k) - 2;
  ok_next : 0 <= next p < size p;
  ok_inverse : forall d o, domainToOffset p !! d = Some o <-> offsetToDomain p !! o = Some d;
  ok_range : forall o d, offsetToDomain p !! o = Some d -> 0 <= o < size p }.

(** The pool's addresses lie strictly inside the CIDR, in 32 bits. *)
Lemma pool_bounds p : pool_ok p -> 1 <= base p /\ 2 <= size p /\ base p + size p < 2 ^ 32.
Proof.
  intros [(k & a & Hk & Hl & Hb & _ & -> & ->) _ _ _].
  pose proof (be_val_range a Hb) as Hr. rewrite Hl in Hr.
  change (8 * Z.of_nat 4) with 32 in Hr.
  assert (2 ^ 2 <= 2 ^ (32 - Z.of_nat k)) as Hp by (apply Z.pow_le_mono_r; lia).
  change (2 ^ 2) with 4 in Hp.
  set (q := 2 ^ (32 - Z.of_nat k)) in *.
  assert (be_val a / q < 2 ^ Z.of_nat k) as Hd.
  { apply Z.div_lt_upper_bound; [lia|]. unfold q. rewrite <- Z.pow_add_r by lia.
    replace (32 - Z.of_nat k + Z.of_nat k) with 32 by lia. lia. }
  assert (0 <= be_val a / q) by (apply Z.div_pos; lia).
  assert (q * 2 ^ Z.of_nat k = 2 ^ 32) as Hq.
  { unfold q. rewrite <- Z.pow_add_r by lia. f_equal. lia. }
  nia.
Qed.

Lemma pool_address p o :
  pool_ok p -> 0 <= o < size p -> u32 (base p + o) = base p + o.
Proof. intros Hp Ho. apply pool_bounds in Hp. apply u32_small. lia. Qed.

Lemma uint32ToIP_val p o :
  pool_ok p -> 0 <= o < size p -> be_val (uint32ToIP (u32 (base p + o))) = base p + o.
Proof.
  intros Hp Ho. rewrite pool_address by done. apply pool_bounds in Hp.
  apply be_val_put_be32. lia.
Qed.

Lemma Lookup_offset p o :
  pool_ok p -> 0 <= o < size p ->
  Lookup p (uint32ToIP (u32 (base p + o))) = offsetToDomain p !! o.
Proof.
  intros Hp Ho. unfold Lookup, ipToUint32. rewrite To4_v4 by apply put_be32_length.
  rewrite bool_decide_eq_false_2 by done.
  rewrite To4_v4 by apply put_be32_length.
  rewrite uint32ToIP_val by done.
  pose proof (pool_bounds p Hp).
  assert (u32 (base p + size p) = base p + size p) as -> by (apply u32_small; lia).
  rewrite (proj2 (Z.ltb_ge _ _)), (proj2 (Z.leb_gt _ _)) by lia. cbn [orb].
  f_equal. rewrite u32_small by lia. lia.
Qed.

Lemma InPool_offset p o :
  pool_ok p -> 0 <= o < size p -> InPool p (uint32ToIP (u32 (base p + o))) = true.
Proof.
  intros Hp Ho. pose proof (uint32ToIP_val p o Hp Ho) as Hv.
  destruct Hp as [(k & a & Hk & Hl & Hb & Hc & Hbase & Hsize) _ _ _].
  unfold InPool. rewrite Hc. apply IPNet_Contains_v4; [done|lia|done|apply put_be32_ok|].
  rewrite To4_v4 by apply put_be32_length. split; [done|].
  unfold prefix_val. rewrite Hv, Hl, put_be32_length, Hbase.
  change (8 * Z.of_nat 4) with 32.
  set (q := 2 ^ (32 - Z.of_nat k)) in *.
  assert (0 < q) by (apply Z.pow_pos_nonneg; lia).
  rewrite <- Z.add_assoc, (Z.mul_comm q), Z.div_add_l by lia.
  rewrite (Z.div_small (1 + o)) by lia. lia.
Qed.

Definition Assign_pool (p : Pool) (d : string) : Pool := fst (fst (Assign p d)).
Definition Assign_ip (p : Pool) (d : string) : IP := snd (fst (Assign p d)).

(** A pool without names, of the geometry of [p]. *)
Lemma NewPool_spec s p :
  NewPool s = Ok p ->
  pool_ok p /\ domainToOffset p = ∅ /\ offsetToDomain p = ∅ /\ next p = 0.
Proof.
  unfold NewPool. destruct (ParseCIDR s) as [[ip net]|] eqn:Hc; [|done].
  pose proof Hc as (a & k & Ha & Hok & Hk & -> & Hm & Hi)%ParseCIDR_Ok.
  case_bool_decide; [done|].
  assert (IPMask_Size (net_Mask net) = (Z.of_nat k, 8 * Z.of_nat (length a))) as ->.
  { unfold IPMask_Size. rewrite Hm, simpleMaskLength_mask_bytes, mask_bytes_length by done. done. }
  destruct (Z.eqb_spec (8 * Z.of_nat (length a)) 32) as [H32|]; cbn [negb]; [|done].
  destruct (Z.leb_spec 32 (Z.of_nat k)) as [|Hk32]; [done|].
  assert (length a = 4%nat) as Hl by lia.
  destruct (ParseCIDR_v4 _ _ _ _ Hc Ha Hl) as (k' & Hk' & Hnet).
  assert (k' = k) as ->.
  { rewrite Hnet in Hm. cbn [cidr_net net_Mask] in Hm. rewrite Hl in Hm.
    assert (simpleMaskLength (mask_bytes 4 k') = simpleMaskLength (mask_bytes 4 k)) as E by by rewrite Hm.
    rewrite !simpleMaskLength_mask_bytes in E by lia. by injection E. }
  set (size' := u32 (u32 _ - 2)). set (base' := u32 _).
  destruct (Z.eqb_spec size' 0) as [|Hsz]; [done|]. intros [= <-]. cbn.
  split; [|done].
  assert (2 ^ (32 - Z.of_nat k) <= 2 ^ 32) as Hle by (apply Z.pow_le_mono_r; lia).
  assert (2 <= 2 ^ (32 - Z.of_nat k)) as Hge.
  { change 2 with (2 ^ 1) at 1. apply Z.pow_le_mono_r; lia. }
  assert (size' = 2 ^ (32 - Z.of_nat k) - 2) as Hs.
  { unfold size'. rewrite Z.shiftl_mul_pow2, Z.mul_1_l by lia. unfold u32.
    destruct (decide (k = 0%nat)) as [->|]; [done|].
    assert (2 ^ (32 - Z.of_nat k) <= 2 ^ 31) by (apply Z.pow_le_mono_r; lia).
    change (2 ^ 31) with 2147483648 in *. change (2 ^ 32) with 4294967296 in *.
    rewrite (Z.mod_small (2 ^ _)) by lia. apply Z.mod_small. lia. }
  destruct Hok as [_ Hb].
  assert (To4 (net_IP net) = land_bytes a (mask_bytes 4 k)) as H4.
  { rewrite Hnet. apply To4_v4. cbn [cidr_net net_IP].
    by rewrite land_bytes_length, mask_bytes_length, Hl. }
  pose proof (be_val_land_mask 4 k a ltac:(lia) Hl Hb) as Hv.
  change (8 * Z.of_nat 4) with 32 in Hv.
  pose proof (be_val_range a Hb) as Hr. rewrite Hl in Hr.
  change (2 ^ (8 * Z.of_nat 4)) with 4294967296 in Hr.
  assert (base' = 2 ^ (32 - Z.of_nat k) * (be_val a / 2 ^ (32 - Z.of_nat k)) + 1) as Hbase.
  { unfold base', ipToUint32. rewrite H4, To4_v4, Hv by
      by rewrite land_bytes_length, mask_bytes_length, Hl.
    apply u32_small. pose proof (Z.mul_div_le (be_val a) (2 ^ (32 - Z.of_nat k))).
    assert (0 <= be_val a / 2 ^ (32 - Z.of_nat k)) by (apply Z.div_pos; lia).
    assert (2 ^ (32 - Z.of_nat k) * (be_val a / 2 ^ (32 - Z.of_nat k)) <> 4294967295); [|nia].
    intros Heq. assert (2 ^ (32 - Z.of_nat k) = 2 * 2 ^ (31 - Z.of_nat k)) as H2.
    { rewrite <- Z.pow_succ_r by lia. f_equal. lia. }
    rewrite H2 in Heq at 1. lia. }
  split; cbn; try done.
  - exists k, a. repeat split; try done.
    assert (k <> 31%nat) by (intros ->; by rewrite Hs in Hsz). lia.
  - rewrite Hs in Hsz |- *. lia.
Qed.

Lemma Assign_pool_fresh p d :
  domainToOffset p !! d = None ->
  Assign_pool p d =
  mkPool (cidr p) (base p) (size p) (u32 (next p + 1) mod size p)
    (<[d := next p]> (match offsetToDomain p !! next p with
                      | Some old => delete old (domainToOffset p)
                      | None => domainToOffset p end))
    (<[next p := d]> (offsetToDomain p)) (OnAssign p).
Proof. intros H. unfold Assign_pool, Assign. by rewrite H. Qed.

Lemma Assign_pool_known p d o :
  domainToOffset p !! d = Some o -> Assign p d = (p, uint32ToIP (u32 (base p + o)), None).
Proof. intros H. unfold Assign. by rewrite H. Qed.

Lemma Assign_pool_ok p d : pool_ok p -> pool_ok (Assign_pool p d).
Proof.
  intros Hp. destruct (domainToOffset p !! d) as [o|] eqn:Hd.
  { unfold Assign_pool. by rewrite (Assign_pool_known _ _ o). }
  rewrite Assign_pool_fresh by done. pose proof (pool_bounds p Hp) as Hb.
  destruct Hp as [Hgeo Hnext Hinv Hrange]. split; cbn; [done|..].
  - apply Z.mod_pos_bound. lia.
  - intros d' o'. rewrite !lookup_insert_Some. destruct (offsetToDomain p !! next p) as [old|] eqn:Ho.
    + rewrite lookup_delete_Some, Hinv. apply Hinv in Ho as Ho'.
      split.
      * intros [[-> <-]|(Hne & Hold & Hd')]; [by left|]. right. split; [|done].
        intros <-. congruence.
      * intros [[<- ->]|(Hne & Hd')]; [by left|]. right.
        apply Hinv in Hd' as Hd''. repeat split; [congruence| |done]. intros ->. congruence.
    + rewrite Hinv. split.
      * intros [[-> <-]|(Hne & Hd')]; [by left|]. right. split; [|done]. intros <-. congruence.
      * intros [[<- ->]|(Hne & Hd')]; [by left|]. right. apply Hinv in Hd' as Hd''.
        split; [congruence | done].
  - intros o' d'. rewrite lookup_insert_Some. intros [[<- _]|[_ Ho]]; [lia | by eapply Hrange].
Qed.

(** The address of a name is that of its offset. *)
Lemma Assign_ip_offset p d :
  pool_ok p -> exists o, 0 <= o < size p /\ domainToOffset (Assign_pool p d) !! d = Some o /\
    Assign_ip p d = uint32ToIP (u32 (base p + o)).
Proof.
  intros Hp. destruct (domainToOffset p !! d) as [o|] eqn:Hd.
  - exists o. unfold Assign_pool, Assign_ip. rewrite (Assign_pool_known _ _ o) by done. cbn.
    split; [|done]. eapply ok_range; [done|]. by apply ok_inverse.
  - exists (next p). rewrite Assign_pool_fresh by done. cbn. rewrite lookup_insert_eq.
    split; [by apply ok_next|]. split; [done|]. unfold Assign_ip, Assign. by rewrite Hd.
Qed.

Lemma Assign_geometry p d :
  cidr (Assign_pool p d) = cidr p /\ base (Assign_pool p d) = base p /\ size (Assign_pool p d) = size p.
Proof. unfold Assign_pool, Assign. by destruct (domainToOffset p !! d). Qed.

(** ** Circular reuse

    [remaining p o]: how many allocations leave the slot [o] alone. *)
Definition remaining (p : Pool) (o : Z) : Z := (o - next p) mod size p.

Lemma Assign_keeps p d o d' :
  pool_ok p -> domainToOffset p !! d = Some o -> 0 < remaining p o ->
  domainToOffset (Assign_pool p d') !! d = Some o /\
  remaining p o - 1 <= remaining (Assign_pool p d') o.
Proof.
  intros Hp Hd Hr. destruct (domainToOffset p !! d') as [o'|] eqn:Hd'.
  { unfold Assign_pool. rewrite (Assign_pool_known _ _ o') by done. cbn. split; [done | lia]. }
  rewrite Assign_pool_fresh by done. pose proof (pool_bounds p Hp) as Hb.
  pose proof (ok_next p Hp) as Hn. unfold remaining in *. cbn [domainToOffset next size].
  assert (o <> next p) as Ho by (intros ->; rewrite Z.sub_diag, Z.mod_0_l in Hr; lia).
  split.
  - rewrite lookup_insert_ne by congruence.
    destruct (offsetToDomain p !! next p) as [old|] eqn:Hold; [|done].
    rewrite lookup_delete_ne; [done|]. intros ->. apply (ok_inverse p Hp) in Hold. congruence.
  - rewrite u32_small by lia. rewrite Zminus_mod_idemp_r.
    replace (o - (next p + 1)) with ((o - next p) - 1) by lia.
    rewrite <- (Zminus_mod_idemp_l (o - next p) 1 (size p)).
    pose proof (Z.mod_pos_bound (o - next p) (size p) ltac:(lia)).
    rewrite (Z.mod_small ((o - next p) mod size p - 1) (size p)) by lia. lia.
Qed.

Lemma Assign_all_keeps ds p d o :
  pool_ok p -> domainToOffset p !! d = Some o -> Z.of_nat (length ds) <= remaining p o ->
  domainToOffset (fold_left Assign_pool ds p) !! d = Some o /\
  pool_ok (fold_left Assign_pool ds p) /\
  base (fold_left Assign_pool ds p) = base p /\ size (fold_left Assign_pool ds p) = size p.
Proof.
  revert p. induction ds as [|d' ds IH]; intros p Hp Hd Hr; cbn [fold_left length] in *; [done|].
  destruct (Assign_keeps p d o d' Hp Hd) as [Hd' Hr']; [lia|].
  destruct (Assign_geometry p d') as (_ & Hb & Hs).
  rewrite <- Hb, <- Hs. apply IH; [by apply Assign_pool_ok | done | lia].
Qed.

(** ** Properties *)

(** [NewPool] accepts exactly what it can serve: a pool it returns is empty,
    well formed, and covers the addresses of an IPv4 CIDR of at most 30 bits
    from the one after the network address to the one before the broadcast
    address, without 32-bit overflow. *)
Theorem NewPool_ok s p :
  NewPool s = Ok p ->
  pool_ok p /\ domainToOffset p = ∅ /\ offsetToDomain p = ∅ /\ next p = 0 /\
  2 <= size p /\ base p + size p < 2 ^ 32.
Proof.
  intros (Hp & Hd & Ho & Hn)%NewPool_spec. pose proof (pool_bounds p Hp). tauto.
Qed.

(** C18: In every pool reached from [NewPool] by any sequence of [Assign]s, the two
    maps are inverse to each other, and the address assigned to a name lies in
    the CIDR, is neither its network nor its broadcast address, and looks up to
    that name; assigning the name again changes nothing, returns the same
    address and starts no callback. *)
Theorem Assign_Lookup_roundtrip s p0 ds d :
  NewPool s = Ok p0 ->
  let p := fold_left Assign_pool ds p0 in
  let '(p', ip, _) := Assign p d in
  pool_ok p' /\ InPool p' ip = true /\ base p0 <= be_val ip < base p0 + size p0 /\
  Lookup p' ip = Some d /\ Assign p' d = (p', ip, None).
Proof.
  intros (Hp0 & _)%NewPool_spec. cbn zeta.
  assert (forall ds p0, pool_ok p0 -> pool_ok (fold_left Assign_pool ds p0) /\
    base (fold_left Assign_pool ds p0) = base p0 /\ size (fold_left Assign_pool ds p0) = size p0) as Hall.
  { clear. induction ds as [|d ds IH]; intros p Hp; cbn; [done|].
    destruct (Assign_geometry p d) as (_ & Hb & Hs). rewrite <- Hb, <- Hs.
    by apply IH, Assign_pool_ok. }
  destruct (Hall ds p0 Hp0) as (Hp & <- & <-). clear Hall Hp0.
  set (p := fold_left Assign_pool ds p0) in *. clearbody p.
  pose proof (Assign_pool_ok p d Hp) as Hp'.
  destruct (Assign_ip_offset p d Hp) as (o & Ho & Hd & Hip).
  destruct (Assign_geometry p d) as (_ & Hb & Hs). rewrite <- Hs in Ho. rewrite <- Hb in Hip.
  unfold Assign_pool, Assign_ip in *. destruct (Assign p d) as [[p' ip] ev]. cbn in *. subst ip.
  split; [done|]. split; [by apply InPool_offset|].
  split; [rewrite uint32ToIP_val by done; lia|].
  split; [rewrite Lookup_offset by done; by apply ok_inverse|].
  by apply Assign_pool_known.
Qed.

(** A name keeps its address for the next [size - 1] assignments, whatever
    names they are for: after a fresh assignment and fewer than [size] further
    ones, the address still looks up to the name, and assigning the name again
    returns the same address. *)
Theorem Assign_sticky p d ds :
  pool_ok p -> domainToOffset p !! d = None -> Z.of_nat (length ds) < size p ->
  let '(p1, ip, _) := Assign p d in
  let p2 := fold_left Assign_pool ds p1 in
  Assign p2 d = (p2, ip, None) /\ Lookup p2 ip = Some d.
Proof.
  intros Hp Hd Hlen. pose proof (Assign_pool_ok p d Hp) as Hp1.
  destruct (Assign_ip_offset p d Hp) as (o & Ho & Hd1 & Hip).
  destruct (Assign_geometry p d) as (_ & Hb & Hs).
  assert (o = next p) as ->.
  { rewrite Assign_pool_fresh in Hd1 by done. cbn in Hd1. rewrite lookup_insert_eq in Hd1. congruence. }
  assert (remaining (Assign_pool p d) (next p) = size p - 1) as Hr.
  { rewrite Assign_pool_fresh by done. unfold remaining. cbn. pose proof (pool_bounds p Hp).
    rewrite u32_small by (pose proof (ok_next p Hp); lia). rewrite Zminus_mod_idemp_r.
    replace (next p - (next p + 1)) with (-1) by lia.
    rewrite <- (Z_mod_plus_full (-1) 1), Z.mod_small; lia. }
  destruct (Assign_all_keeps ds _ d (next p) Hp1 Hd1) as (Hd2 & Hp2 & Hb2 & Hs2); [lia|].
  unfold Assign_ip in Hip. change (Assign_pool p d) with (fst (fst (Assign p d))) in *.
  destruct (Assign p d) as [[p1 ip] ev]. cbn in *. subst ip.
  rewrite <- Hb, <- Hb2. split; [by apply Assign_pool_known|].
  rewrite Lookup_offset; [by apply ok_inverse | done | lia].
Qed.

(** Eviction is first-in-first-out: assigning a name that is already in the
    pool does not protect it. In a pool of two addresses, after [a], [b] and
    [a] again, the next new name takes the address of [a], the most recently
    used name, while [b] keeps its own. *)
Theorem eviction_ignores_use :
  exists p0, NewPool "198.18.0.0/30" = Ok p0 /\
  let p := fold_left Assign_pool ["a"; "b"; "a"] p0 in
  Assign_ip p "c" = Assign_ip p "a" /\
  Lookup (Assign_pool p "c") (Assign_ip p "a") = Some "c" /\
  Lookup (Assign_pool p "c") (Assign_ip p "b") = Some "b".
Proof. eexists. split; [reflexivity|]. by vm_compute. Qed.

Section dns_properties.
Context {U : Unicode} {L : DNSLib} (client_Exchange : Msg -> string -> result Msg).

(** C39: The DNS server answers by the first question alone. A matched A query
    (every A query under [SetFakeAllA]) is answered with one A record of TTL 1
    whose address is in the pool and maps back to the queried name; a matched
    AAAA query with an empty answer; neither consults an upstream. Any other
    well-formed query is forwarded, an unreadable one and one without a
    question get SERVFAIL, and none of these changes the pool. The pool's
    invariant is kept in every case. *)
Theorem HandleDNS_answers s p raw :
  pool_ok p ->
  let '(p', r) := HandleDNS client_Exchange s p raw in
  let '(req, err) := Unpack raw in
  pool_ok p' /\
  match err, Question req with
  | Some e, _ => p' = p /\ r = (packServfail req, Some (Wrapf "fakeip: unpack DNS message: %w" [] e))
  | None, [] => p' = p /\ r = (packServfail req, None)
  | None, (name, qtype) :: _ =>
      let domain := ToLower (TrimSuffix name ".") in
      if fakeAllA s || matcher s domain then
        if qtype =? TypeA then
          exists ip, r = pack_reply (SetAnswer (SetReply req) [(name, ClassINET, 1, ip)]) /\
            InPool p' ip = true /\ Lookup p' ip = Some domain
        else if qtype =? TypeAAAA then p' = p /\ r = pack_reply (SetAnswer (SetReply req) [])
        else p' = p /\ r = forward client_Exchange s req
      else p' = p /\ r = forward client_Exchange s req
  end.
Proof.
  intros Hp. unfold HandleDNS. destruct (Unpack raw) as [req [e|]]; [done|].
  destruct (Question req) as [|[name qtype] rest]; [done|]. cbn zeta.
  destruct (fakeAllA s || matcher s _); [|done].
  destruct (qtype =? TypeA); [|by destruct (qtype =? TypeAAAA)].
  set (d := ToLower _). pose proof (Assign_pool_ok p d Hp) as Hp'.
  destruct (Assign_ip_offset p d Hp) as (o & Ho & Hd & Hip).
  destruct (Assign_geometry p d) as (_ & Hb & Hs). rewrite <- Hs in Ho. rewrite <- Hb in Hip.
  unfold Assign_pool, Assign_ip in *. destruct (Assign p d) as [[p' ip] ev]. cbn in *. subst ip.
  split; [done|]. eexists. split; [done|]. split; [by apply InPool_offset|].
  rewrite Lookup_offset by done. by apply ok_inverse.
Qed.

(** A forwarded query that gets no response is answered with SERVFAIL and
    the cause: [forward] reports no error only for the packed response of the
    upstream it is configured with, or when no upstream is configured. *)
Theorem forward_servfail s req b :
  forward client_Exchange s req = (b, None) ->
  (exists resp, Pack resp = Ok b /\
     match upstream s with
     | Some exchange => exchange req = Ok resp
     | None => exists addr rest, upstreamAddrs s = addr :: rest /\
         match dialFn s with
         | Some ops => exists c, dial ops addr = Ok c /\ WriteMsg ops c req = Ok tt /\ ReadMsg ops c = Ok resp
         | None => client_Exchange req addr = Ok resp
         end
     end) \/
  (upstream s = None /\ upstreamAddrs s = [] /\ b = packServfail req).
Proof.
  unfold forward, pack_reply, servfail.
  destruct (upstream s) as [ex|].
  { destruct (ex req) as [resp|] eqn:E; [|done]. destruct (Pack resp) eqn:Ep; [|done].
    intros [= <-]. left. eauto. }
  destruct (upstreamAddrs s) as [|addr rest]; [intros [= <-]; by right|].
  destruct (dialFn s) as [ops|].
  - destruct (dial ops addr) as [c|] eqn:Ed; [|done].
    destruct (WriteMsg ops c req) as [[]|] eqn:Ew; [|done].
    destruct (ReadMsg ops c) as [resp|] eqn:Er; [|done]. destruct (Pack resp) eqn:Ep; [|done].
    intros [= <-]. left. exists resp. split; [done|]. exists addr, rest. split; [done|]. eauto.
  - destruct (client_Exchange req addr) as [resp|] eqn:Er; [|done].
    destruct (Pack resp) eqn:Ep; [|done]. intros [= <-]. left. exists resp. eauto.
Qed.
End dns_properties.

(** ** Witnesses *)
Definition pool30 : Pool :=
  mkPool (mkIPNet [198; 18; 0; 0] [255; 255; 255; 252]) 3323068417 2 0 ∅ ∅ false.

Lemma NewPool_ok_witness : pool_ok pool30 /\ base pool30 + size pool30 < 2 ^ 32.
Proof.
  destruct (NewPool_ok "198.18.0.0/30" pool30) as (Hok & _ & _ & _ & _ & Hb); [reflexivity|].
  exact (conj Hok Hb).
Defined.

Lemma Assign_Lookup_roundtrip_witness :
  let '(p', ip, _) := Assign (fold_left Assign_pool ["a"; "b"] pool30) "c" in Lookup p' ip = Some "c".
Proof.
  exact (proj1 (proj2 (proj2 (proj2 (Assign_Lookup_roundtrip "198.18.0.0/30" pool30 ["a"; "b"] "c" eq_refl))))).
Defined.

Lemma Assign_sticky_witness :
  let '(p1, ip, _) := Assign pool30 "a" in Assign (Assign_pool p1 "b") "a" = (Assign_pool p1 "b", ip, None).
Proof.
  exact (proj1 (Assign_sticky pool30 "a" ["b"] (proj1 (NewPool_spec "198.18.0.0/30" pool30 eq_refl))
    eq_refl eq_refl)).
Defined.

(** A message library whose messages are their question sections. *)
Definition toy_dns : DNSLib := {|
  Msg := list (string * Z);
  Unpack := fun raw => (map (fun b => ("a.cn.", b)) raw, None);
  Question := fun m => m;
  SetReply := fun m => m;
  SetRcode := fun m _ => m;
  SetAnswer := fun m _ => m;
  Pack := fun m => Ok (map snd m)
|}.

Lemma HandleDNS_answers_witness :
  let _ := ascii_only in let _ := toy_dns in
  exists ip, Lookup (fst (HandleDNS (fun m _ => Ok m) (mkServer (fun _ => true) None [] false None) pool30 [1])) ip
    = Some "a.cn".
Proof.
  cbn zeta.
  destruct (@HandleDNS_answers ascii_only toy_dns (fun m _ => Ok m)
    (mkServer (fun _ => true) None [] false None) pool30 [1]
    (proj1 (NewPool_spec "198.18.0.0/30" pool30 eq_refl))) as (_ & ip & _ & _ & H).
  exists ip. exact H.
Defined.

Lemma forward_servfail_witness :
  let _ := toy_dns in
  exists resp, Pack resp = Ok [1] /\ resp = [("a.cn.", 1)].
Proof.
  cbn zeta.
  destruct (@forward_servfail toy_dns (fun m _ => Ok m)
    (mkServer (fun _ => true) (Some (fun m => Ok m)) [] false None) [("a.cn.", 1)] [1] eq_refl)
    as [(resp & Hp & Hr)|(H & _)]; [|discriminate H].
  exists resp. split; [exact Hp|]. by injection Hr.
Defined.
