(* ===== verification/RouteTable.v ===== *)
(** * internal/routetable: the cached system route table

    [table.go], [routetable.go] and the three [fetch_*.go].  A table is its
    entries, longest prefix first; the cache around it refetches when the copy
    is older than its time to live.  The kernel's route messages are data given
    to [fetchEntries]. *)
From S2P Require Import Prelude GoStrings GoNet.
Open Scope string_scope.
Open Scope list_scope.
Open Scope Z_scope.

(** ** The table *)
Record Entry := mkEntry { Dest : IPNet; Gateway : IP; Iface : string }.
Definition Table := list Entry.

Definition ones_of (e : Entry) : Z := fst (IPMask_Size (net_Mask (Dest e))).

Definition replace `{SliceSort} (entries : list Entry) : Table :=
  sort_Slice (fun a b => ones_of b <? ones_of a) entries.

Definition Table_Lookup (t : Table) (ip : IP) : result (string * IP) :=
  match find_first (fun e => IPNet_Contains (Dest e) ip) t with
  | Some e => Ok (Iface e, Gateway e)
  | None => Err (Errorf "routetable: no route for %s" [IP_String ip])
  end.

(** [Table.Entries]: a copy. *)
Definition Table_Entries (t : Table) : list Entry := t.

(** ** The cache

    Times are nanoseconds on the monotonic clock; [None] is the zero
    [time.Time], from which [time.Since] is the largest duration. *)
Definition maxDuration : Z := 2 ^ 63 - 1.
Definition Since (now : Z) (t : option Z) : Z :=
  match t with None => maxDuration | Some t => Z.min maxDuration (now - t) end.

Record RouteTable := mkRouteTable {
  skipIface : string;
  ttl : Z;
  table : Table;
  lastFetch : option Z;
  watching : bool;      (** [stopWatch] is set *)
  onRefresh : bool      (** a refresh callback is registered *) }.

Definition New (skipIface : string) (ttl : Z) : RouteTable :=
  mkRouteTable skipIface ttl [] None false false.
Definition OnRefresh (rt : RouteTable) : RouteTable :=
  mkRouteTable (skipIface rt) (ttl rt) (table rt) (lastFetch rt) (watching rt) true.
Definition SetSkipIface (rt : RouteTable) (name : string) : RouteTable :=
  mkRouteTable name (ttl rt) (table rt) None (watching rt) (onRefresh rt).
Definition Stop (rt : RouteTable) : bool := watching rt.
Definition stale (rt : RouteTable) (now : Z) : bool := ttl rt <=? Since now (lastFetch rt).

(** What one refresh leaves: the table, whether the callback ran, the error. *)
Record refreshed := mkRefreshed { rf_table : RouteTable; rf_callback : bool; rf_error : option error }.

Section cache.
Context {S : SliceSort}.
(** The operating system's answer to [fetchEntries], at the time it is asked. *)
Context (fetch : string -> result (list Entry)).

(** [now] is read by [time.Since], [now'] by [time.Now] after the fetch. *)
Definition refresh (rt : RouteTable) (now now' : Z) : refreshed :=
  if negb (stale rt now) then mkRefreshed rt false None
  else match fetch (skipIface rt) with
       | Err e => mkRefreshed rt false (Some e)
       | Ok entries =>
           mkRefreshed (mkRouteTable (skipIface rt) (ttl rt) (replace entries) (Some now')
                          (watching rt) (onRefresh rt)) (onRefresh rt) None
       end.

(** The lookup's own staleness test is at [t0]; a refresh tests again. *)
Definition freshen (rt : RouteTable) (t0 now now' : Z) : RouteTable :=
  if stale rt t0 then rf_table (refresh rt now now') else rt.
Definition Lookup (rt : RouteTable) (t0 now now' : Z) (ip : IP) : RouteTable * result (string * IP) :=
  let rt := freshen rt t0 now now' in (rt, Table_Lookup (table rt) ip).
Definition Entries (rt : RouteTable) (t0 now now' : Z) : RouteTable * list Entry :=
  let rt := freshen rt t0 now now' in (rt, Table_Entries (table rt)).

(** [Start]: a first fetch, then the watcher; a watcher that cannot start
    leaves the time to live as the only trigger. *)
Definition Start (rt : RouteTable) (now now' : Z) (watcher_starts : bool) : RouteTable * option error :=
  let r := refresh rt now now' in
  match rf_error r with
  | Some e => (rt, Some e)
  | None =>
      let rt := rf_table r in
      if watcher_starts then
        (mkRouteTable (skipIface rt) (ttl rt) (table rt) (lastFetch rt) true (onRefresh rt), None)
      else (rt, None)
  end.
(** The watcher's callback. *)
Definition on_change (rt : RouteTable) (now now' : Z) : refreshed :=
  refresh (mkRouteTable (skipIface rt) (ttl rt) (table rt) None (watching rt) (onRefresh rt)) now now'.
End cache.

(** ** Fetching: macOS *)
Inductive rib_addr := Inet4Addr (ip : list Z) | OtherAddr.
Record RouteMessage := mkRouteMessage { Flags : Z; Index : Z; Addrs : list (option rib_addr) }.
Definition RTF_UP : Z := 1.
Definition RTAX_DST : nat := 0.
Definition RTAX_GATEWAY : nat := 1.
Definition RTAX_NETMASK : nat := 2.

Definition inet4_at (rm : RouteMessage) (i : nat) : option (list Z) :=
  match Addrs rm !! i with Some (Some (Inet4Addr a)) => Some a | _ => None end.

Definition darwin_entry (ifaceByIndex : gmap Z string) (skipIface : string) (rm : RouteMessage)
  : option Entry :=
  if Z.land (Flags rm) RTF_UP =? 0 then None
  else
    let ifName := default "" (ifaceByIndex !! Index rm) in
    if bool_decide (ifName = "") || bool_decide (ifName = skipIface) then None
    else match inet4_at rm RTAX_DST with
         | None => None
         | Some dst =>
             let mask := default [255; 255; 255; 255] (inet4_at rm RTAX_NETMASK) in
             Some (mkEntry (mkIPNet (IP_Mask dst mask) mask) (default [] (inet4_at rm RTAX_GATEWAY)) ifName)
         end.

(** The messages of the routing information base; [None] is a message of
    another type. *)
Definition fetchEntries_darwin (rib : result (result (list (option RouteMessage))))
    (interfaces : list (Z * string)) (skipIface : string) : result (list Entry) :=
  match rib with
  | Err e => Err e
  | Ok (Err e) => Err e
  | Ok (Ok msgs) =>
      let ifaceByIndex := fold_left (fun m p => <[p.1 := p.2]> m) interfaces (∅ : gmap Z string) in
      Ok (omap (fun msg => rm ← msg; darwin_entry ifaceByIndex skipIface rm) msgs)
  end.

(** ** Fetching: Linux *)
Record NetlinkMessage := mkNetlinkMessage {
  nl_Type : Z; nl_DataLen : Z; nl_Family : Z; nl_Dst_len : Z;
  nl_attrs : result (list (Z * list Z)) }.
Definition RTM_NEWROUTE : Z := 24.
Definition SizeofRtMsg : Z := 12.
Definition AF_INET : Z := 2.
Definition RTA_DST : Z := 1.
Definition RTA_OIF : Z := 4.
Definition RTA_GATEWAY : Z := 5.

Fixpoint le_val (l : list Z) : Z :=
  match l with [] => 0 | b :: l' => b + 256 * le_val l' end.
(** The loop over the attributes; the index attribute has four bytes. *)
Fixpoint scan_attrs (attrs : list (Z * list Z)) (dst gw : IP) (ifIndex : Z) : IP * IP * Z :=
  match attrs with
  | [] => (dst, gw, ifIndex)
  | (t, v) :: attrs' =>
      if t =? RTA_DST then scan_attrs attrs' v gw ifIndex
      else if t =? RTA_GATEWAY then scan_attrs attrs' dst v ifIndex
      else if t =? RTA_OIF then scan_attrs attrs' dst gw (le_val (take 4 v))
      else scan_attrs attrs' dst gw ifIndex
  end.

Definition IPv4zero : IP := v4InV6Prefix ++ [0; 0; 0; 0].

Definition linux_entry (InterfaceByIndex : Z -> option string) (skipIface : string)
    (msg : NetlinkMessage) : option Entry :=
  if negb (nl_Type msg =? RTM_NEWROUTE) then None
  else if nl_DataLen msg <? SizeofRtMsg then None
  else if negb (nl_Family msg =? AF_INET) then None
  else match nl_attrs msg with
       | Err _ => None
       | Ok attrs =>
           let '(dst, gw, ifIndex) := scan_attrs attrs [] [] 0 in
           match InterfaceByIndex ifIndex with
           | None => None
           | Some name =>
               if bool_decide (name = skipIface) then None
               else
                 let dst := match dst with [] => IPv4zero | _ => dst end in
                 let mask := CIDRMask (nl_Dst_len msg) 32 in
                 Some (mkEntry (mkIPNet (To4 (IP_Mask dst mask)) mask) gw name)
           end
       end.
Definition fetchEntries_linux (rib : result (result (list NetlinkMessage)))
    (InterfaceByIndex : Z -> option string) (skipIface : string) : result (list Entry) :=
  match rib with
  | Err e => Err e
  | Ok (Err e) => Err e
  | Ok (Ok msgs) => Ok (omap (linux_entry InterfaceByIndex skipIface) msgs)
  end.

(** ** Fetching: Windows *)
Record MibRow := mkMibRow {
  InterfaceIndex : Z; PrefixLength : Z; Prefix_Family : Z; Prefix_bytes : list Z;
  NextHop_Family : Z; NextHop_bytes : list Z }.
Definition windows_entry (InterfaceByIndex : Z -> option string) (skipIface : string) (row : MibRow)
  : option Entry :=
  match InterfaceByIndex (InterfaceIndex row) with
  | None => None
  | Some name =>
      if bool_decide (name = skipIface) then None
      else
        let ip := if Prefix_Family row =? AF_INET then Prefix_bytes row else [0; 0; 0; 0] in
        let mask := CIDRMask (PrefixLength row) 32 in
        let gw := if NextHop_Family row =? AF_INET then NextHop_bytes row else [0; 0; 0; 0] in
        Some (mkEntry (mkIPNet (IP_Mask ip mask) mask) gw name)
  end.
Definition fetchEntries_windows (table : result (list MibRow))
    (InterfaceByIndex : Z -> option string) (skipIface : string) : result (list Entry) :=
  match table with
  | Err e => Err e
  | Ok rows => Ok (omap (windows_entry InterfaceByIndex skipIface) rows)
  end.

(** ** Lemmas *)
Lemma strict_weak_key {A} (key : A -> Z) : strict_weak (fun a b => key b <? key a).
Proof.
  repeat split; intros; rewrite ?Z.ltb_lt, ?Z.ltb_ge, ?Z.ltb_irrefl in *; lia || done.
Qed.

Lemma replace_perm {S : SliceSort} l : replace l ≡ₚ l.
Proof. apply sort_Slice_perm. Qed.

Lemma replace_sorted {S : SliceSort} l : StronglySorted (fun a b => ones_of b <= ones_of a) (replace l).
Proof.
  pose proof (sort_Slice_sorted _ l (strict_weak_key ones_of)) as H.
  unfold replace. induction H as [|x t Ht IH Hx]; constructor; [done|].
  eapply Forall_impl; [exact Hx|]. intros y Hy. by apply Z.ltb_ge.
Qed.

(** In a descending table the first match is a longest one. *)
Lemma Table_Lookup_sorted t ip :
  StronglySorted (fun a b => ones_of b <= ones_of a) t ->
  match Table_Lookup t ip with
  | Ok (iface, gw) => exists e, e ∈ t /\ IPNet_Contains (Dest e) ip = true /\
      Iface e = iface /\ Gateway e = gw /\
      forall e', e' ∈ t -> IPNet_Contains (Dest e') ip = true -> ones_of e' <= ones_of e
  | Err _ => forall e, e ∈ t -> IPNet_Contains (Dest e) ip = false
  end.
Proof.
  unfold Table_Lookup. induction 1 as [|x t Ht IH Hx]; cbn; [by intros e H%elem_of_nil|].
  destruct (IPNet_Contains (Dest x) ip) eqn:E.
  - exists x. split; [by apply list_elem_of_here|]. repeat split; [done|].
    intros e' [->|He']%elem_of_cons _; [lia|]. rewrite Forall_forall in Hx. by apply Hx.
  - destruct (find_first _ t) as [e|] eqn:Ef; cbn in *.
    + destruct IH as (e0 & He0 & Hc & Hi & Hg & Hmax). exists e0.
      split; [by apply list_elem_of_further|]. repeat split; [done..|].
      intros e' [->|He']%elem_of_cons Hc'; [congruence | by apply Hmax].
    + intros e [->|He]%elem_of_cons; [done | by apply IH].
Qed.

Lemma not_skipped_darwin m s rm e : darwin_entry m s rm = Some e -> Iface e <> s.
Proof.
  unfold darwin_entry. case_match; [done|]. case_match eqn:E; [done|].
  apply orb_false_iff in E as [_ E%bool_decide_eq_false].
  destruct (inet4_at rm RTAX_DST); [|done]. by intros [= <-].
Qed.
Lemma not_skipped_linux f s m e : linux_entry f s m = Some e -> Iface e <> s.
Proof.
  unfold linux_entry. repeat (case_match; [done|]).
  destruct (nl_attrs m) as [attrs|]; [|done].
  destruct (scan_attrs attrs [] [] 0) as [[d g] i]. destruct (f i); [|done].
  case_bool_decide; [done|]. by intros [= <-].
Qed.
Lemma not_skipped_windows f s r e : windows_entry f s r = Some e -> Iface e <> s.
Proof.
  unfold windows_entry. destruct (f _); [|done]. case_bool_decide; [done|]. by intros [= <-].
Qed.

Lemma Forall_omap {A B} (f : A -> option B) (P : B -> Prop) l :
  (forall x y, f x = Some y -> P y) -> Forall P (omap f l).
Proof.
  intros H. apply Forall_forall. intros y (x & _ & Hx)%list_elem_of_omap. by eapply H.
Qed.

(** The cache's invariant: a table that was fetched and not invalidated has no
    route of the skipped interface. *)
Definition skip_ok (rt : RouteTable) : Prop :=
  lastFetch rt <> None -> Forall (fun e => Iface e <> skipIface rt) (table rt).

Section cache_lemmas.
Context {S : SliceSort} (fetch : string -> result (list Entry)).
Context (fetch_skips : forall s l, fetch s = Ok l -> Forall (fun e => Iface e <> s) l).

Lemma stale_invalid rt now : ttl rt <= maxDuration -> lastFetch rt = None -> stale rt now = true.
Proof. intros Ht Hl. unfold stale, Since. rewrite Hl. by apply Z.leb_le. Qed.

Lemma refresh_skip_ok rt now now' : skip_ok rt -> skip_ok (rf_table (refresh fetch rt now now')).
Proof.
  intros Hok. unfold refresh. destruct (negb _); [done|].
  destruct (fetch (skipIface rt)) as [l|e] eqn:E; [|done]. intros _. cbn.
  unfold replace. rewrite sort_Slice_perm. by apply fetch_skips.
Qed.
Lemma freshen_skip_ok rt t0 now now' : skip_ok rt -> skip_ok (freshen fetch rt t0 now now').
Proof. intros H. unfold freshen. destruct (stale rt t0); [by apply refresh_skip_ok | done]. Qed.
Lemma freshen_skipIface rt t0 now now' : skipIface (freshen fetch rt t0 now now') = skipIface rt.
Proof.
  unfold freshen, refresh. destruct (stale rt t0); [|done]. destruct (negb _); [done|].
  by destruct (fetch _).
Qed.
End cache_lemmas.

(** ** Properties *)

(** C33: The route table answers by longest prefix: after [replace entries], a
    lookup returns the interface and gateway of an entry whose destination
    contains the address and whose mask is at least as long as that of every
    entry that contains it, and fails only when none does. It holds for every
    sorting algorithm, stable or not. *)
Theorem Lookup_longest_prefix {S : SliceSort} entries ip :
  match Table_Lookup (replace entries) ip with
  | Ok (iface, gw) => exists e, e ∈ entries /\ IPNet_Contains (Dest e) ip = true /\
      Iface e = iface /\ Gateway e = gw /\
      forall e', e' ∈ entries -> IPNet_Contains (Dest e') ip = true -> ones_of e' <= ones_of e
  | Err _ => forall e, e ∈ entries -> IPNet_Contains (Dest e) ip = false
  end.
Proof.
  pose proof (Table_Lookup_sorted (replace entries) ip (replace_sorted entries)) as H.
  destruct (Table_Lookup (replace entries) ip) as [[iface gw]|e].
  - setoid_rewrite (replace_perm entries) in H. done.
  - intros e'. rewrite <- (replace_perm entries). apply H.
Qed.

(** A lookup never answers from a table older than the time to live: either
    the table was fetched less than [ttl] before one of the lookup's two clock
    readings, or it was fetched by this very lookup, or this lookup tried to
    fetch, failed, and left the old table in place. *)
Theorem Lookup_fresh {S : SliceSort} fetch rt t0 now now' ip rt' r :
  Lookup fetch rt t0 now now' ip = (rt', r) ->
  (exists t, lastFetch rt = Some t /\ (t0 - t < ttl rt \/ now - t < ttl rt) /\ rt' = rt) \/
  (lastFetch rt' = Some now' /\ exists l, fetch (skipIface rt) = Ok l /\ table rt' = replace l) \/
  (is_ok (fetch (skipIface rt)) = false /\ rt' = rt) \/
  maxDuration < ttl rt.
Proof.
  unfold Lookup. intros [= <- _].
  destruct (Z.ltb_spec maxDuration (ttl rt)) as [|Httl]; [tauto|].
  assert (forall t, stale rt t = false -> exists t1, lastFetch rt = Some t1 /\ t - t1 < ttl rt) as Hst.
  { intros t Ht. unfold stale, Since in Ht. apply Z.leb_gt in Ht.
    destruct (lastFetch rt) as [t1|]; [|lia]. exists t1. split; [done | lia]. }
  unfold freshen, refresh. destruct (stale rt t0) eqn:E0.
  - destruct (stale rt now) eqn:E1; cbn.
    + destruct (fetch (skipIface rt)) as [l|e]; cbn; [right; left|]; eauto 10.
    + destruct (Hst now E1) as (t1 & Ht1 & Hlt). left. eauto.
  - destruct (Hst t0 E0) as (t1 & Ht1 & Hlt). left. eauto.
Qed.

(** Changing the interface to skip takes effect at once: after
    [SetSkipIface], and from then on through any number of lookups whose
    fetches succeed, no lookup answers with that interface, provided the
    operating system's fetch leaves it out. *)
Theorem SetSkipIface_effective {S : SliceSort} fetch rt name t0 now now' ip l :
  (forall s l, fetch s = Ok l -> Forall (fun e => Iface e <> s) l) ->
  ttl rt <= maxDuration -> fetch name = Ok l ->
  let '(rt', r) := Lookup fetch (SetSkipIface rt name) t0 now now' ip in
  skip_ok rt' /\
  (forall iface gw, r = Ok (iface, gw) -> iface <> name) /\
  forall t0 now now' ip iface gw,
    snd (Lookup fetch rt' t0 now now' ip) = Ok (iface, gw) -> iface <> name.
Proof.
  intros Hfetch Httl Hl. unfold Lookup.
  set (rt0 := SetSkipIface rt name).
  assert (forall rt, lastFetch rt <> None -> skip_ok rt -> skipIface rt = name ->
    forall ip iface gw, Table_Lookup (table rt) ip = Ok (iface, gw) -> iface <> name) as Hans.
  { intros rt1 Hlf Hok Hs ip1 iface gw. unfold Table_Lookup.
    destruct (find_first _ _) as [e|] eqn:E; [|done]. intros [= <- <-].
    apply find_first_elem in E as [He _]. specialize (Hok Hlf). rewrite Forall_forall in Hok.
    rewrite <- Hs. by apply Hok. }
  assert (freshen fetch rt0 t0 now now' = rf_table (refresh fetch rt0 now now')) as ->.
  { unfold freshen. by rewrite stale_invalid. }
  assert (lastFetch (rf_table (refresh fetch rt0 now now')) = Some now' /\
          skipIface (rf_table (refresh fetch rt0 now now')) = name /\
          ttl (rf_table (refresh fetch rt0 now now')) = ttl rt) as (Hlf & Hs & Ht).
  { unfold refresh. rewrite stale_invalid by done. cbn. by rewrite Hl. }
  assert (skip_ok (rf_table (refresh fetch rt0 now now'))) as Hok.
  { apply refresh_skip_ok; [done|]. by intros []. }
  set (rt1 := rf_table _) in *. clearbody rt1. split; [done|]. split.
  - intros iface gw. by apply Hans; [rewrite Hlf|..].
  - intros t1 n n' ip1 iface gw. cbn. apply Hans.
    + unfold freshen, refresh. destruct (stale rt1 t1); [|by rewrite Hlf].
      destruct (negb _); [by cbn; rewrite Hlf|]. destruct (fetch (skipIface rt1)); cbn; by rewrite ?Hlf.
    + by apply freshen_skip_ok.
    + by rewrite freshen_skipIface.
Qed.

(** On all three platforms the fetched entries leave out the interface to
    skip, so the hypothesis under which [SetSkipIface] is effective holds of
    the code's own fetch functions. *)
Theorem fetchEntries_skip rib_d ifs rib_l rows byIndex s l :
  fetchEntries_darwin rib_d ifs s = Ok l \/ fetchEntries_linux rib_l byIndex s = Ok l \/
  fetchEntries_windows rows byIndex s = Ok l ->
  Forall (fun e => Iface e <> s) l.
Proof.
  intros [H|[H|H]].
  - unfold fetchEntries_darwin in H. destruct rib_d as [[msgs|]|]; [|done..].
    injection H as <-. apply Forall_omap. intros [rm|]; [|done]. intros e. apply not_skipped_darwin.
  - unfold fetchEntries_linux in H. destruct rib_l as [[msgs|]|]; [|done..].
    injection H as <-. apply Forall_omap. intros m e. apply not_skipped_linux.
  - unfold fetchEntries_windows in H. destruct rows as [rs|]; [|done].
    injection H as <-. apply Forall_omap. intros m e. apply not_skipped_windows.
Qed.

(** ** Witnesses *)
Definition lan : Entry := mkEntry (mkIPNet [192; 168; 0; 0] [255; 255; 0; 0]) [192; 168; 0; 1] "en0".

Lemma Lookup_fresh_witness :
  let fetch := fun _ => Ok [lan] in
  let rt := New "utun3" 5 in
  lastFetch (fst (Lookup (S := insertion_SliceSort) fetch rt 10 10 11 [192; 168; 1; 1])) = Some 11.
Proof.
  cbn zeta.
  destruct (@Lookup_fresh insertion_SliceSort (fun _ => Ok [lan]) (New "utun3" 5) 10 10 11 [192; 168; 1; 1] _ _ eq_refl)
    as [(t & H & _)|[[H _]|[[H _]|H]]]; [discriminate H | exact H | discriminate H | discriminate H].
Defined.

Lemma fetchEntries_skip_witness :
  Forall (fun e => Iface e <> "utun3")
    [mkEntry (mkIPNet [10; 0; 0; 0] [255; 0; 0; 0]) [] "en0"].
Proof.
  apply (fetchEntries_skip
    (Ok (Ok [Some (mkRouteMessage 1 4 [Some (Inet4Addr [10; 1; 0; 0]); None; Some (Inet4Addr [255; 0; 0; 0])]); None;
             Some (mkRouteMessage 1 5 [Some (Inet4Addr [10; 2; 0; 0])])]))
    [(4, "en0"); (5, "utun3")] (Err (Errorf "" [])) (Err (Errorf "" [])) (fun _ => None)).
  left. reflexivity.
Defined.

Lemma SetSkipIface_effective_witness :
  let fetch := fun s => Ok (if bool_decide (s = "en0") then [] else [lan]) in
  let rt := mkRouteTable "utun3" 5 [lan] (Some 10) true false in
  snd (Lookup (S := insertion_SliceSort) fetch (SetSkipIface rt "en0") 11 11 12 [192; 168; 1; 1])
    <> Ok ("en0", [192; 168; 0; 1]).
Proof.
  cbn zeta. intros H.
  refine (proj1 (proj2 (@SetSkipIface_effective insertion_SliceSort
    (fun s => Ok (if bool_decide (s = "en0") then [] else [lan]))
    (mkRouteTable "utun3" 5 [lan] (Some 10) true false) "en0" 11 11 12 [192; 168; 1; 1] [] _ _ _))
    "en0" [192; 168; 0; 1] H eq_refl).
  - intros s l [= <-]. case_bool_decide as Hs; [constructor|].
    constructor; [|constructor]. intros He. apply Hs. by rewrite <- He.
  - discriminate.
  - reflexivity.
Defined.
