(* ===== verification/Router.v ===== *)
(** * internal/router: capture routes and the platform routers

    [router.go] is the route manager: it adds the capture routes, remembers the
    ones it owns, in memory and in a state file, and removes only those.
    [Router] is the interface it uses; [RouterLaws] states what the manager may
    rely on, over the map of exact destinations to interfaces; [map_router] is
    a router that meets the laws. [router_darwin.go], [router_linux.go] and
    [router_windows.go] are the three implementations over a command runner. *)
From S2P Require Import Prelude GoStrings GoNet.
Open Scope string_scope.
Open Scope list_scope.
Open Scope Z_scope.

(** ** The interface *)
Definition ErrRouteExists : error := Errorf "route exists" [].

Class Router (W : Type) := {
  AddRoute : string -> W -> W * option error;
  DelRoute : string -> W -> W * option error;
  RouteInterface : string -> W -> W * option string;
  TunName : W -> string;
  SetTunName : string -> W -> W
}.

(** ** The manager *)
Record managedRoute := mkManagedRoute { CIDR : string; Iface : string }.
Record persistedState := mkPersistedState { Version : Z; Routes : list managedRoute }.
(** The state file: absent or unreadable, not decodable, or a value. *)
Inductive state_file := NoFile | Garbage | Decoded (s : persistedState).
#[export] Instance managedRoute_eq_dec : EqDecision managedRoute.
Proof. solve_decision. Defined.

Fixpoint captureCIDRs_from (seen : gset string) (l : list string) : list string :=
  match l with
  | [] => []
  | cidr :: l' =>
      if bool_decide (cidr = "") || bool_decide (cidr ∈ seen) then captureCIDRs_from seen l'
      else cidr :: captureCIDRs_from ({[cidr]} ∪ seen) l'
  end.
Definition captureCIDRs (fakeIPPool : string) (extraCIDRs : list string) : list string :=
  captureCIDRs_from ∅ ([fakeIPPool; "0.0.0.0/1"; "128.0.0.0/1"] ++ extraCIDRs).

Section manager.
Context {W : Type} `{Router W}.

Record RouteManager := mkRouteManager {
  router : W;
  managed : list managedRoute;
  state : state_file;
  writable : bool      (** whether the state file can be written *) }.

Definition save (rm : RouteManager) : RouteManager * option error :=
  if writable rm then
    (mkRouteManager (router rm) (managed rm) (Decoded (mkPersistedState 2 (managed rm))) true, None)
  else (rm, Some (Errorf "write state.json" [])).

Definition load (rm : RouteManager) : RouteManager :=
  match state rm with
  | Decoded current =>
      if 2 <=? Version current then mkRouteManager (router rm) (Routes current) (state rm) (writable rm)
      else rm
  | _ => rm
  end.
Definition NewRouteManager (r : W) (file : state_file) (writable : bool) : RouteManager :=
  load (mkRouteManager r [] file writable).

Definition shouldSkipDelete (route : managedRoute) (w : W) : W * bool :=
  if bool_decide (Iface route = "") then
    let tunName := TunName w in
    if bool_decide (tunName = "") then (w, true)
    else let '(w, iface) := RouteInterface (CIDR route) w in
         (w, match iface with None => true | Some i => negb (bool_decide (i = tunName)) end)
  else let '(w, iface) := RouteInterface (CIDR route) w in
       (w, match iface with None => true | Some i => negb (bool_decide (i = Iface route)) end).

Fixpoint delete_managed (l : list managedRoute) (w : W) : W :=
  match l with
  | [] => w
  | route :: l' =>
      let '(w, skip) := shouldSkipDelete route w in
      let w := if skip then w else fst (DelRoute (CIDR route) w) in
      delete_managed l' w
  end.

(** The adding loop: the router, the routes taken into management, and the
    error that stopped it. *)
Fixpoint add_all (cidrs : list string) (w : W) (managed : list managedRoute)
  : W * list managedRoute * option error :=
  match cidrs with
  | [] => (w, managed, None)
  | cidr :: cidrs' =>
      let '(w, err) := AddRoute cidr w in
      match err with
      | Some e => if errors_Is e ErrRouteExists then add_all cidrs' w managed
                  else (w, managed, Some e)
      | None =>
          let '(w, iface) := RouteInterface cidr w in
          match iface with
          | None => add_all cidrs' w managed
          | Some i =>
              let tunName := TunName w in
              if negb (bool_decide (tunName = "")) && negb (bool_decide (i = tunName))
              then add_all cidrs' w managed
              else add_all cidrs' w (managed ++ [mkManagedRoute cidr i])
          end
      end
  end.

Definition AddRoutes (rm : RouteManager) (fakeIPPool : string) (extraCIDRs : list string)
  : RouteManager * option error :=
  let w := delete_managed (managed rm) (router rm) in
  let '(w, m, err) := add_all (captureCIDRs fakeIPPool extraCIDRs) w [] in
  let rm := mkRouteManager w m (state rm) (writable rm) in
  match err with
  | Some e => (rm, Some e)
  | None => save rm
  end.

Definition Cleanup (rm : RouteManager) : RouteManager :=
  let w := delete_managed (managed rm) (router rm) in
  fst (save (mkRouteManager w [] (state rm) (writable rm))).
End manager.
Arguments RouteManager : clear implicits.

(** ** What the manager relies on *)
Class RouterLaws (W : Type) `{Router W} := {
  (** the exact destinations in the kernel's table and their interfaces *)
  routes : W -> gmap string string;
  lookup_law : forall c w, RouteInterface c w = (w, routes w !! c);
  (** a failed add changes nothing, and [ErrRouteExists] means what it says; a successful one puts the route on the TUN
      interface and never replaces a route of another interface *)
  add_law : forall c w, let '(w', err) := AddRoute c w in
    TunName w' = TunName w /\
    match err with
    | Some e => routes w' = routes w /\ (errors_Is e ErrRouteExists = true -> is_Some (routes w !! c))
    | None => (forall i, routes w !! c = Some i -> i = TunName w) /\
              routes w' = <[c := TunName w]> (routes w)
    end;
  (** a delete changes at most its own destination, and takes a route of the
      TUN interface away *)
  del_law : forall c w, let w' := fst (DelRoute c w) in
    TunName w' = TunName w /\
    (routes w' = routes w \/ routes w' = delete c (routes w)) /\
    (routes w !! c = Some (TunName w) -> routes w' = delete c (routes w))
}.

(** A router over a map: the model of one network namespace. *)
Record map_world := mkMapWorld { mw_tun : string; mw_routes : gmap string string }.
#[export] Instance map_router : Router map_world := {|
  AddRoute := fun c w =>
    match mw_routes w !! c with
    | Some i => (w, if bool_decide (i = mw_tun w) then None else Some ErrRouteExists)
    | None => (mkMapWorld (mw_tun w) (<[c := mw_tun w]> (mw_routes w)), None)
    end;
  DelRoute := fun c w =>
    (match mw_routes w !! c with
     | Some i => if bool_decide (mw_tun w = "" \/ i = mw_tun w)
                 then mkMapWorld (mw_tun w) (delete c (mw_routes w)) else w
     | None => w
     end, None);
  RouteInterface := fun c w => (w, mw_routes w !! c);
  TunName := mw_tun;
  SetTunName := fun n w => mkMapWorld n (mw_routes w)
|}.
#[export] Program Instance map_router_laws : RouterLaws map_world := {| routes := mw_routes |}.
Next Obligation. done. Qed.
Next Obligation.
  intros c w. cbn. destruct (mw_routes w !! c) as [i|] eqn:E; cbn.
  - case_bool_decide as Hi; cbn; (split; [done|]).
    + split; [congruence|]. rewrite insert_id; congruence.
    + by split; [congruence|].
  - split; [done|]. split; [congruence | done].
Qed.
Next Obligation.
  intros c w. cbn. destruct (mw_routes w !! c) as [i|] eqn:E; cbn.
  - case_bool_decide as Hi; cbn.
    + split; [done|]. split; [by right | done].
    + split; [done|]. split; [by left|]. intros [= ->]. tauto.
  - split; [done|]. split; [by left | done].
Qed.

(** ** Lemmas on the loops *)
Section lemmas.
Context {W : Type} `{RouterLaws W}.

(** The routes of [l] that the manager may delete in a table [t]. *)
Definition owned (tun : string) (t : gmap string string) (r : managedRoute) : Prop :=
  exists i, t !! CIDR r = Some i /\ (i = Iface r \/ (Iface r = "" /\ i = tun)).

Lemma shouldSkipDelete_spec r w :
  fst (shouldSkipDelete r w) = w /\
  (snd (shouldSkipDelete r w) = false <->
     exists i, routes w !! CIDR r = Some i /\
       (Iface r <> "" /\ i = Iface r \/ Iface r = "" /\ TunName w <> "" /\ i = TunName w)).
Proof.
  unfold shouldSkipDelete. rewrite lookup_law.
  case_bool_decide as Hi; [case_bool_decide as Ht|]; cbn.
  - split; [done|]. split; [done|]. by intros (i & _ & [[? _]|(_ & ? & _)]).
  - split; [done|]. destruct (routes w !! CIDR r) as [i|]; cbn.
    + rewrite negb_false_iff, bool_decide_eq_true. split; [intros ->; eauto 10|].
      by intros (j & [= <-] & [[? _]|(_ & _ & ?)]).
    + split; [done | by intros (? & ? & _)].
  - split; [done|]. destruct (routes w !! CIDR r) as [i|]; cbn.
    + rewrite negb_false_iff, bool_decide_eq_true. split; [intros ->; eauto 10|].
      by intros (j & [= <-] & [[_ ?]|(? & _)]).
    + split; [done | by intros (? & ? & _)].
Qed.

(** Deleting the managed routes: the TUN name stays, other destinations keep
    their routes, and a destination that loses its route was owned. *)
Lemma delete_managed_spec l w :
  TunName (delete_managed l w) = TunName w /\
  forall c,
    (routes (delete_managed l w) !! c = routes w !! c) \/
    (routes (delete_managed l w) !! c = None /\
     exists r, r ∈ l /\ CIDR r = c /\ owned (TunName w) (routes w) r).
Proof.
  revert w. induction l as [|r l IH]; intros w; cbn; [auto|].
  destruct (shouldSkipDelete_spec r w) as [Hw Hs].
  destruct (shouldSkipDelete r w) as [w1 skip]. cbn in *. subst w1.
  destruct skip.
  - destruct (IH w) as [Ht Hc]. split; [done|]. intros c.
    destruct (Hc c) as [|(? & r' & ? & ? & ?)]; [by left|]. right. split; [done|].
    exists r'. split; [by apply list_elem_of_further | done].
  - destruct Hs as [(i & Hi & Hown) _]; [done|].
    pose proof (del_law (CIDR r) w) as Hd. cbn in Hd. destruct Hd as (Ht1 & Hr1 & _).
    set (w1 := fst (DelRoute (CIDR r) w)) in *. destruct (IH w1) as [Ht Hc].
    split; [by rewrite Ht|]. intros c.
    assert (owned (TunName w) (routes w) r) as Hor.
    { exists i. split; [done|]. destruct Hown as [[_ ?]|(? & _ & ?)]; auto. }
    destruct (decide (c = CIDR r)) as [->|Hne].
    + destruct (Hc (CIDR r)) as [->|(-> & _)].
      * destruct Hr1 as [-> | ->]; [by left|]. right.
        rewrite lookup_delete_eq. split; [done|]. exists r. split; [apply list_elem_of_here | done].
      * right. split; [done|]. exists r. split; [apply list_elem_of_here | done].
    + assert (routes w1 !! c = routes w !! c) as E.
      { destruct Hr1 as [-> | ->]; [done|]. by rewrite lookup_delete_ne. }
      destruct (Hc c) as [->|(Hn & r' & Hr' & <- & j & Hj & Hij)]; [by left|]. right.
      split; [done|]. exists r'. split; [by apply list_elem_of_further|]. split; [done|].
      exists j. rewrite <- E, Hj, <- Ht1. done.
Qed.

(** A managed route that sits on the TUN interface is gone afterwards. *)
Lemma delete_managed_removes l w r :
  r ∈ l -> Iface r <> "" -> routes w !! CIDR r = Some (Iface r) -> Iface r = TunName w ->
  routes (delete_managed l w) !! CIDR r = None.
Proof.
  intros Hr Hne Hrt Htun. revert w Hrt Htun. induction l as [|r' l IH]; intros w Hrt Htun;
    [by apply elem_of_nil in Hr|]. cbn.
  destruct (shouldSkipDelete_spec r' w) as [Hw Hs].
  destruct (shouldSkipDelete r' w) as [w1 skip]. cbn in *. subst w1.
  pose proof (del_law (CIDR r') w) as Hd. cbn in Hd. destruct Hd as (Ht1 & Hr1 & Hdel).
  set (w1 := fst (DelRoute (CIDR r') w)) in *.
  assert (routes w1 !! CIDR r = None \/ routes w1 !! CIDR r = Some (Iface r)) as Hw1.
  { destruct Hr1 as [-> | ->]; [auto|]. destruct (decide (CIDR r' = CIDR r)) as [->|].
    - rewrite lookup_delete_eq. auto.
    - rewrite lookup_delete_ne by done. auto. }
  assert (routes w1 !! CIDR r = None -> routes (delete_managed l w1) !! CIDR r = None) as Hstay.
  { intros Hn. destruct (delete_managed_spec l w1) as [_ Hc].
    destruct (Hc (CIDR r)) as [->|(-> & _)]; done. }
  apply elem_of_cons in Hr as [<-|Hr].
  - assert (skip = false) as ->.
    { apply Hs. exists (Iface r). split; [done|]. left. done. }
    apply Hstay. rewrite Hdel by (rewrite Hrt; congruence). apply lookup_delete_eq.
  - destruct skip; [by apply IH|]. destruct Hw1 as [Hn|Hs1]; [by apply Hstay|].
    apply IH; [done|done|congruence].
Qed.

Lemma add_all_spec cidrs w m w' m' err :
  TunName w <> "" -> add_all cidrs w m = (w', m', err) ->
  TunName w' = TunName w /\
  (forall c i, routes w !! c = Some i -> routes w' !! c = Some i) /\
  (forall c, routes w' !! c = routes w !! c \/ (c ∈ cidrs /\ routes w' !! c = Some (TunName w))) /\
  (exists ext, m' = m ++ ext /\
     Forall (fun r => CIDR r ∈ cidrs /\ Iface r = TunName w /\
                      routes w' !! CIDR r = Some (TunName w)) ext) /\
  (err = None -> Forall (fun c => is_Some (routes w' !! c)) cidrs).
Proof.
  intros Htun. revert w m Htun. induction cidrs as [|c cidrs IH]; intros w m Htun; cbn.
  { intros [= <- <- <-]. split; [done|]. split; [done|]. split; [by left|].
    split; [by exists []; rewrite app_nil_r|]. by constructor. }
  pose proof (add_law c w) as Hl. destruct (AddRoute c w) as [w1 [e|]]; destruct Hl as [Ht1 Hl].
  - destruct Hl as [Hr1 Hex]. destruct (errors_Is e ErrRouteExists) eqn:Ee.
    + intros Hrec. apply IH in Hrec; [|congruence].
      rewrite Ht1, Hr1 in Hrec. destruct Hrec as (Ht & Hgrow & Hc & (ext & -> & Hext) & Hcov).
      split; [done|]. split; [done|]. split; [|split].
      * intros c'. destruct (Hc c') as [|[? ?]]; [by left|]. right. by split; [apply list_elem_of_further|].
      * exists ext. split; [done|]. eapply Forall_impl; [exact Hext|]. cbn.
        intros r (? & ? & ?). split; [by apply list_elem_of_further | done].
      * intros Herr. constructor; [|by apply Hcov]. destruct (Hex eq_refl) as [i Hi].
        exists i. by apply Hgrow.
    + intros [= <- <- <-]. rewrite Hr1. split; [done|]. split; [done|]. split; [by left|].
      split; [by exists []; rewrite app_nil_r | done].
  - destruct Hl as [Hfree Hr1]. rewrite lookup_law, Hr1, lookup_insert_eq, Ht1.
    rewrite (bool_decide_eq_false_2 (TunName w = "")), (bool_decide_eq_true_2 (TunName w = TunName w)) by done.
    cbn. intros Hrec. apply IH in Hrec; [|congruence].
    rewrite Ht1, Hr1 in Hrec. destruct Hrec as (Ht & Hgrow & Hc & (ext & -> & Hext) & Hcov).
    assert (routes w' !! c = Some (TunName w)) as Hcw by (apply Hgrow, lookup_insert_eq).
    split; [done|]. split; [|split; [|split]].
    + intros c' i Hi. apply Hgrow. destruct (decide (c = c')) as [<-|].
      * rewrite lookup_insert_eq. f_equal. symmetry. by apply Hfree.
      * by rewrite lookup_insert_ne.
    + intros c'. destruct (Hc c') as [E|[? ?]].
      * destruct (decide (c = c')) as [<-|].
        -- right. split; [apply list_elem_of_here | done].
        -- left. by rewrite E, lookup_insert_ne.
      * right. split; [by apply list_elem_of_further | done].
    + exists (mkManagedRoute c (TunName w) :: ext). split; [by rewrite <- app_assoc|].
      constructor; [split; [apply list_elem_of_here | done]|].
      eapply Forall_impl; [exact Hext|]. cbn. intros r (? & ? & ?).
      split; [by apply list_elem_of_further | done].
    + intros Herr. constructor; [by rewrite Hcw | by apply Hcov].
Qed.
End lemmas.

Lemma elem_of_captureCIDRs_from seen l c :
  c ∈ captureCIDRs_from seen l <-> c ∈ l /\ c <> "" /\ c ∉ seen.
Proof.
  revert seen. induction l as [|x l IH]; intros seen; cbn.
  { rewrite elem_of_nil. tauto. }
  rewrite elem_of_cons. destruct (bool_decide (x = "") || bool_decide (x ∈ seen)) eqn:E.
  - rewrite IH. apply orb_true_iff in E as [E|E]; apply bool_decide_eq_true in E.
    + split; [tauto|]. intros [[->|] ?]; tauto.
    + split; [tauto|]. intros [[->|] ?]; tauto.
  - apply orb_false_iff in E as [E1 E2]. apply bool_decide_eq_false in E1, E2.
    rewrite elem_of_cons, IH, not_elem_of_union, not_elem_of_singleton.
    destruct (decide (c = x)) as [->|]; tauto.
Qed.
Lemma NoDup_captureCIDRs_from seen l : NoDup (captureCIDRs_from seen l).
Proof.
  revert seen. induction l as [|x l IH]; intros seen; cbn; [constructor|].
  destruct (_ || _); [done|]. constructor; [|done].
  rewrite elem_of_captureCIDRs_from, not_elem_of_union, not_elem_of_singleton. tauto.
Qed.

(** ** Properties of the manager *)

(** The capture list is the fake pool's CIDR, the two halves of the address
    space, then the extra CIDRs: it has exactly these, without the empty string
    and without repetitions. *)
Theorem captureCIDRs_spec pool extra :
  NoDup (captureCIDRs pool extra) /\
  forall c, c ∈ captureCIDRs pool extra <->
    c <> "" /\ (c = pool \/ c = "0.0.0.0/1" \/ c = "128.0.0.0/1" \/ c ∈ extra).
Proof.
  split; [apply NoDup_captureCIDRs_from|]. intros c. unfold captureCIDRs.
  rewrite elem_of_captureCIDRs_from, elem_of_app, !elem_of_cons, elem_of_nil.
  pose proof (not_elem_of_empty (C := gset string) c). tauto.
Qed.

Section properties.
Context {W : Type} `{RouterLaws W}.



End properties.

Definition rm0 : RouteManager map_world :=
  mkRouteManager (mkMapWorld "utun5" {[ "128.0.0.0/1" := "en0" ]}) [] NoFile true.


