(* ===== verification/RouterPlatform.v ===== *)
(** * internal/router: the three platform routers

    [router_darwin.go], [router_linux.go], [router_windows.go] and
    [ipversion.go].  Each runs the system's route command and reads its output;
    running a command is [exec], a function of the argument list and the state
    of the system that returns the output and whether the command failed. *)
From S2P Require Import Prelude GoStrings GoNet Router.
Open Scope string_scope.
Open Scope list_scope.
Open Scope Z_scope.

Definition nl : string := String (ascii_of_nat 10) "".

(** ** ipversion.go *)
Definition isIPv6 (ipStr : string) : bool :=
  let ip := ParseIP ipStr in
  if bool_decide (ip = []) then false else bool_decide (To4 ip = []).
Definition routePrefix (ipStr : string) : string := if isIPv6 ipStr then "/128" else "/32".

(** ** Reading [route get] *)
Fixpoint pad_parts (fuel : nat) (parts : list string) : list string :=
  match fuel with
  | O => parts
  | S f => if (length parts <? 4)%nat then pad_parts f (parts ++ ["0"]) else parts
  end.
Definition normalizeDarwinRouteDest (routeDest : string) : string :=
  let '(ipPart, prefix) := match Cut routeDest "/" with
                           | Some (before, after) => (before, "/" +:+ after)
                           | None => (routeDest, "")
                           end in
  let parts := Split ipPart "." in
  if (4 <=? length parts)%nat then routeDest
  else Join (pad_parts 4 parts) "." +:+ prefix.
Definition normalizeDarwinRouteIP (ip : string) : string := normalizeDarwinRouteDest ip.

Definition IPv4Mask (a b c d : Z) : list Z := [a; b; c; d].
Definition routeDestinationMaskMatchesCIDR (routeDest routeMask : string) (ipNet : IPNet) : bool :=
  let destIP := ParseIP (normalizeDarwinRouteIP routeDest) in
  let maskIP := ParseIP (normalizeDarwinRouteIP routeMask) in
  if bool_decide (destIP = []) || bool_decide (maskIP = []) then false
  else
    let mask := drop 12 maskIP in
    let routeNet := mkIPNet (IP_Mask (To4 destIP) mask) mask in
    let '(routeOnes, routeBits) := IPMask_Size (net_Mask routeNet) in
    let '(ones, bits) := IPMask_Size (net_Mask ipNet) in
    (routeBits =? bits) && (routeOnes =? ones) && IP_Equal (net_IP routeNet) (net_IP ipNet).

Definition routeDestinationMatchesCIDR (routeDest : string) (ipNet : IPNet) : bool :=
  let '(ones, bits) := IPMask_Size (net_Mask ipNet) in
  if negb (bits =? 32) then false
  else if bool_decide (routeDest = "default") then ones =? 0
  else
    let ip := ParseIP routeDest in
    if negb (Contains routeDest "/") && negb (bool_decide (ip = [])) then
      (ones =? 32) && IP_Equal ip (net_IP ipNet)
    else
      match ParseCIDR (normalizeDarwinRouteDest routeDest) with
      | Err _ => false
      | Ok (_, routeNet) =>
          let '(routeOnes, routeBits) := IPMask_Size (net_Mask routeNet) in
          (routeBits =? 32) && (routeOnes =? ones) && IP_Equal (net_IP routeNet) (net_IP ipNet)
      end.

(** One line of the output updates (destination, mask, interface). *)
Definition route_get_line (acc : string * string * string) (line : string) : string * string * string :=
  let '(dest, mask, iface) := acc in
  let line := TrimSpace line in
  let after p := TrimSpace (TrimPrefix line p) in
  if HasPrefix line "destination:" then (after "destination:", mask, iface)
  else if HasPrefix line "mask:" then (dest, after "mask:", iface)
  else if HasPrefix line "interface:" then (dest, mask, after "interface:")
  else acc.
Definition parseDarwinRouteGet (out : string) (ipNet : IPNet) : option string :=
  let '(routeDest, routeMask, iface) := fold_left route_get_line (Split out nl) ("", "", "") in
  if bool_decide (routeDest = "") || bool_decide (iface = "") then None
  else if negb (bool_decide (routeMask = "")) && routeDestinationMaskMatchesCIDR routeDest routeMask ipNet
  then Some iface
  else if negb (routeDestinationMatchesCIDR routeDest ipNet) then None
  else Some iface.

Section commands.
Context {U : Unicode} {K : Type}.
(** [exec.Command(args).CombinedOutput()] (or [Run]): output and error. *)
Context (exec : list string -> K -> K * (string * option error)).

(** ** macOS *)

Definition darwin_RouteInterface (cidr : string) (k : K) : K * option string :=
  match ParseCIDR cidr with
  | Err _ => (k, None)
  | Ok (_, ipNet) =>
      if bool_decide (To4 (net_IP ipNet) = []) then (k, None)
      else
        let '(k, (out, err)) := exec ["route"; "-n"; "get"; IP_String (net_IP ipNet)] k in
        match err with
        | Some _ => (k, None)
        | None => (k, parseDarwinRouteGet out ipNet)
        end
  end.
(** (owned, exists) *)
Definition existingRouteOwnedByTun (tunName cidr : string) (k : K) : K * (bool * bool) :=
  let '(k, iface) := darwin_RouteInterface cidr k in
  match iface with
  | None => (k, (false, false))
  | Some i => (k, (bool_decide (i = tunName), true))
  end.
Definition darwin_AddRoute (tunName cidr : string) (k : K) : K * option error :=
  let '(k, (owned, present)) := existingRouteOwnedByTun tunName cidr k in
  if present then (k, if negb owned then Some ErrRouteExists else None)
  else
    let '(k, (out, err)) := exec ["route"; "add"; "-net"; cidr; "-interface"; tunName] k in
    match err with
    | Some e => (k, Some (if Contains out "File exists" then ErrRouteExists
                          else Wrapf "route add %s: %s: %w" [cidr; out] e))
    | None => (k, None)
    end.
Definition darwin_DelRoute (tunName cidr : string) (k : K) : K * option error :=
  if bool_decide (tunName = "") && (bool_decide (cidr = "0.0.0.0/1") || bool_decide (cidr = "128.0.0.0/1"))
  then (k, None)
  else
    let '(k, foreign) :=
      if negb (bool_decide (tunName = "")) then
        let '(k, (owned, present)) := existingRouteOwnedByTun tunName cidr k in
        (k, present && negb owned)
      else (k, false) in
    if foreign then (k, None)
    else (fst (exec ["route"; "delete"; "-net"; cidr] k), None).

(** ** Linux *)
Fixpoint field_after_dev (fields : list string) : option string :=
  match fields with
  | [] => None
  | f :: rest =>
      match rest with
      | [] => None
      | g :: _ => if bool_decide (f = "dev") then Some g else field_after_dev rest
      end
  end.
Definition linux_RouteInterface (cidr : string) (k : K) : K * option string :=
  match ParseCIDR cidr with
  | Err _ => (k, None)
  | Ok (ip, _) =>
      let '(k, (out, err)) := exec ["ip"; "-o"; "route"; "get"; IP_String ip] k in
      match err with
      | Some _ => (k, None)
      | None => (k, field_after_dev (Fields out))
      end
  end.
Definition linux_AddRoute (tunName cidr : string) (k : K) : K * option error :=
  let '(k, (out, err)) := exec ["ip"; "route"; "add"; cidr; "dev"; tunName; "metric"; "1"] k in
  match err with
  | Some e =>
      (k, Some (if Contains out "File exists" || Contains out "RTNETLINK answers: File exists"
                then ErrRouteExists else Wrapf "ip route add %s: %s: %w" [cidr; out] e))
  | None => (k, None)
  end.
Definition linux_DelRoute (tunName cidr : string) (k : K) : K * option error :=
  let '(k, foreign) :=
    if negb (bool_decide (tunName = "")) then
      let '(k, iface) := linux_RouteInterface cidr k in
      (k, match iface with Some i => negb (bool_decide (i = tunName)) | None => false end)
    else (k, false) in
  if foreign then (k, None)
  else (fst (exec ["ip"; "route"; "del"; cidr] k), None).

(** ** Windows *)
Definition powershell (script : string) (k : K) : K * (string * option error) :=
  exec ["powershell"; "-NoProfile"; "-Command"; script] k.
Definition windows_RouteInterface (cidr : string) (k : K) : K * option string :=
  match ParseCIDR cidr with
  | Err _ => (k, None)
  | Ok _ =>
      let script := "$route = Get-NetRoute -DestinationPrefix '" +:+ cidr +:+
        "' -ErrorAction SilentlyContinue | Sort-Object RouteMetric | Select-Object -First 1; if ($route) { (Get-NetAdapter -InterfaceIndex $route.InterfaceIndex).Name }" in
      let '(k, (out, err)) := powershell script k in
      match err with
      | Some _ => (k, None)
      | None => let iface := TrimSpace out in
                (k, if bool_decide (iface = "") then None else Some iface)
      end
  end.
Definition getInterfaceIndex (name : string) (k : K) : K * result Z :=
  let '(k, (out, err)) := powershell ("(Get-NetAdapter -Name '" +:+ name +:+ "').ifIndex") k in
  match err with
  | Some e => (k, Err e)
  | None =>
      match Atoi (TrimSpace out) with
      | Some idx => (k, Ok idx)
      | None => (k, Err (Wrapf "parse iface index %q: %w" [out] (Errorf "strconv.Atoi" [TrimSpace out])))
      end
  end.
Definition windows_AddRoute (tunName cidr : string) (k : K) : K * option error :=
  let '(k, idx) := getInterfaceIndex tunName k in
  match idx with
  | Err e => (k, Some (Wrapf "router: get iface index %s: %w" [tunName] e))
  | Ok idx =>
      if negb (length (Split cidr "/") =? 2)%nat then (k, Some (Errorf "router: invalid CIDR %s" [cidr]))
      else
        let script := "New-NetRoute -DestinationPrefix '" +:+ cidr +:+ "' -InterfaceIndex " +:+
          itoa idx +:+ " -RouteMetric 1 -PolicyStore ActiveStore" in
        let '(k, (out, err)) := powershell script k in
        match err with
        | Some e =>
            (k, Some (if Contains out "already exists" || Contains out "Instance MSFT_NetRoute already exists"
                      then ErrRouteExists else Wrapf "New-NetRoute %s: %s: %w" [cidr; out] e))
        | None => (k, None)
        end
  end.
Definition windows_DelRoute (tunName cidr : string) (k : K) : K * option error :=
  let '(k, foreign) :=
    if negb (bool_decide (tunName = "")) then
      let '(k, iface) := windows_RouteInterface cidr k in
      (k, match iface with Some i => negb (EqualFold i tunName) | None => false end)
    else (k, false) in
  if foreign then (k, None)
  else (fst (powershell ("Remove-NetRoute -DestinationPrefix '" +:+ cidr +:+
               "' -Confirm:$false -ErrorAction SilentlyContinue") k), None).
End commands.

(** The system state of a platform router: the TUN name it holds and the rest. *)
Definition darwin_router {K} (exec : list string -> K -> K * (string * option error)) : Router (string * K) := {|
  AddRoute := fun c w => let '(k, e) := darwin_AddRoute exec (fst w) c (snd w) in ((fst w, k), e);
  DelRoute := fun c w => let '(k, e) := darwin_DelRoute exec (fst w) c (snd w) in ((fst w, k), e);
  RouteInterface := fun c w => let '(k, i) := darwin_RouteInterface exec c (snd w) in ((fst w, k), i);
  TunName := fst;
  SetTunName := fun n w => (n, snd w)
|}.
Definition linux_router {K} (exec : list string -> K -> K * (string * option error)) : Router (string * K) := {|
  AddRoute := fun c w => let '(k, e) := linux_AddRoute exec (fst w) c (snd w) in ((fst w, k), e);
  DelRoute := fun c w => let '(k, e) := linux_DelRoute exec (fst w) c (snd w) in ((fst w, k), e);
  RouteInterface := fun c w => let '(k, i) := linux_RouteInterface exec c (snd w) in ((fst w, k), i);
  TunName := fst;
  SetTunName := fun n w => (n, snd w)
|}.
Definition windows_router {U : Unicode} {K} (exec : list string -> K -> K * (string * option error)) : Router (string * K) := {|
  AddRoute := fun c w => let '(k, e) := windows_AddRoute exec (fst w) c (snd w) in ((fst w, k), e);
  DelRoute := fun c w => let '(k, e) := windows_DelRoute exec (fst w) c (snd w) in ((fst w, k), e);
  RouteInterface := fun c w => let '(k, i) := windows_RouteInterface exec c (snd w) in ((fst w, k), i);
  TunName := fst;
  SetTunName := fun n w => (n, snd w)
|}.

Example route_get_parse :
  parseDarwinRouteGet ("   route to: 10.0.0.0" +:+ nl +:+ "destination: 10" +:+ nl +:+ "       mask: 255.0.0.0" +:+ nl +:+
    "  interface: utun5" +:+ nl) (mkIPNet [10; 0; 0; 0] [255; 0; 0; 0]) = Some "utun5".
Proof. reflexivity. Qed.
Example route_get_default :
  parseDarwinRouteGet ("destination: default" +:+ nl +:+ "mask: default" +:+ nl +:+ "interface: en0") (mkIPNet [10; 0; 0; 0] [255; 0; 0; 0]) = None.
Proof. reflexivity. Qed.

(** ** Properties *)

(** No platform router touches a route of another interface. With a TUN name
    set, if the system reports that the destination belongs to an interface
    other than the TUN, [DelRoute] runs no delete command: the only command run
    is the query, and no error is reported. On macOS [AddRoute] likewise runs
    no add command and reports [ErrRouteExists]. (On Windows interface names
    are compared under case folding.) *)
Theorem platform_routers_spare_foreign {U : Unicode} {K}
    (exec : list string -> K -> K * (string * option error)) tunName cidr k :
  tunName <> "" ->
  (forall k1 i, darwin_RouteInterface exec cidr k = (k1, Some i) -> i <> tunName ->
     darwin_DelRoute exec tunName cidr k = (k1, None) /\
     darwin_AddRoute exec tunName cidr k = (k1, Some ErrRouteExists)) /\
  (forall k1 i, linux_RouteInterface exec cidr k = (k1, Some i) -> i <> tunName ->
     linux_DelRoute exec tunName cidr k = (k1, None)) /\
  (forall k1 i, windows_RouteInterface exec cidr k = (k1, Some i) -> EqualFold i tunName = false ->
     windows_DelRoute exec tunName cidr k = (k1, None)).
Proof.
  intros Ht. split; [|split]; intros k1 i Hi Hne.
  - unfold darwin_DelRoute, darwin_AddRoute, existingRouteOwnedByTun. rewrite Hi.
    rewrite (bool_decide_eq_false_2 (tunName = "")), (bool_decide_eq_false_2 (i = tunName)) by done. done.
  - unfold linux_DelRoute. rewrite Hi.
    rewrite (bool_decide_eq_false_2 (tunName = "")), (bool_decide_eq_false_2 (i = tunName)) by done. done.
  - unfold windows_DelRoute. rewrite Hi, Hne.
    by rewrite (bool_decide_eq_false_2 (tunName = "")) by done.
Qed.

Lemma platform_routers_spare_foreign_witness :
  let exec := fun (args : list string) (log : list (list string)) =>
    (log ++ [args], ("10.0.0.0 via 192.168.0.1 dev eth0 src 192.168.0.9", None)) in
  linux_DelRoute exec "ecorplink0" "10.0.0.0/8" [] = ([["ip"; "-o"; "route"; "get"; "10.0.0.0"]], None).
Proof.
  cbn zeta.
  refine (proj1 (proj2 (@platform_routers_spare_foreign ascii_only _ (fun (args : list string) (log : list (list string)) =>
    (log ++ [args], ("10.0.0.0 via 192.168.0.1 dev eth0 src 192.168.0.9", None))) "ecorplink0" "10.0.0.0/8" [] _))
    _ "eth0" _ _); [discriminate | reflexivity | discriminate].
Defined.
