(* ===== verification/Outbound.v ===== *)
(** * internal/outbound: the interface-bound direct dialer

    [direct.go] and [default_interface_darwin.go].  What the operating system
    reports about interfaces is a value of [OS]; a dialer is described by the
    interface it is bound to and by the resolver it uses. *)
From S2P Require Import Prelude GoStrings GoNet.
Open Scope string_scope.
Open Scope list_scope.
Open Scope Z_scope.

(** ** Interfaces *)
Record NetInterface := mkNetInterface { if_Index : Z; if_Name : string; if_Flags : Z }.
Definition FlagUp : Z := 1.
(** An interface address: the two kinds that carry an IP, or another kind. *)
Inductive Addr := AddrIPNet (n : IPNet) | AddrIPAddr (ip : IP) | AddrOther.
Definition addr_IP (a : Addr) : IP :=
  match a with AddrIPNet n => net_IP n | AddrIPAddr ip => ip | AddrOther => [] end.

Record OS := mkOS {
  Interfaces : result (list NetInterface);
  Addrs : NetInterface -> result (list Addr);
  InterfaceByName : string -> result NetInterface;
  (** output of [route -n get default] on macOS; other platforms give no interface *)
  route_get_default : result string;
  darwin : bool }.

Definition vpnPrefixes : list string :=
  ["anpi"; "awdl"; "bridge"; "br-"; "docker"; "gif"; "llw"; "lo";
   "p2p"; "stf"; "tap"; "tun"; "utun"; "vboxnet"; "veth"; "virbr"; "vmnet"].

Definition usableDirectIPv4 (ip : IP) : bool :=
  let ip4 := To4 ip in
  negb (bool_decide (ip4 = [])) && IsGlobalUnicast ip4 && negb (IsLoopback ip4) &&
  negb (IsLinkLocalUnicast ip4) && negb (IsUnspecified ip4).

Definition isPhysicalWithAddrs (iface : NetInterface) (addrs : list Addr) : bool :=
  if Z.land (if_Flags iface) FlagUp =? 0 then false
  else if existsb (fun prefix => HasPrefix (if_Name iface) prefix) vpnPrefixes then false
  else existsb (fun addr => usableDirectIPv4 (addr_IP addr)) addrs.
Definition isPhysical (os : OS) (iface : NetInterface) : bool :=
  match Addrs os iface with Err _ => false | Ok addrs => isPhysicalWithAddrs iface addrs end.

Fixpoint selectPhysicalInterface (ifaces : list NetInterface)
    (addrs : NetInterface -> result (list Addr)) : result NetInterface :=
  match ifaces with
  | [] => Err (Errorf "outbound: no suitable physical interface found" [])
  | iface :: ifaces' =>
      match addrs iface with
      | Err _ => selectPhysicalInterface ifaces' addrs
      | Ok ifaceAddrs =>
          if isPhysicalWithAddrs iface ifaceAddrs then Ok iface
          else selectPhysicalInterface ifaces' addrs
      end
  end.

Fixpoint parseRouteInterface_lines (lines : list string) : string :=
  match lines with
  | [] => ""
  | line :: lines' =>
      let line := TrimSpace line in
      if HasPrefix line "interface:" then TrimSpace (TrimPrefix line "interface:")
      else parseRouteInterface_lines lines'
  end.
Definition parseRouteInterface (out : string) : string :=
  parseRouteInterface_lines (Split out (String (ascii_of_nat 10) "")).

(** [None] inside [Ok] is the nil interface. *)
Definition defaultRouteInterface (os : OS) : result (option NetInterface) :=
  if darwin os then
    match route_get_default os with
    | Err e => Err e
    | Ok out =>
        let name := parseRouteInterface out in
        if bool_decide (name = "") then Ok None
        else i ← InterfaceByName os name; Ok (Some i)
    end
  else Ok None.

Definition detectPhysicalInterface (os : OS) : result NetInterface :=
  let fallback :=
    match Interfaces os with
    | Err e => Err (Wrapf "outbound: failed to list interfaces: %w" [] e)
    | Ok ifaces => selectPhysicalInterface ifaces (Addrs os)
    end in
  match defaultRouteInterface os with
  | Ok (Some iface) => if isPhysical os iface then Ok iface else fallback
  | _ => fallback
  end.

(** ** The dialer *)
Record Direct := mkDirect {
  IfaceName : string;
  iface : option NetInterface;
  upstream : list string }.

Definition NewDirect (ifaceName : string) (upstream : list string) : Direct :=
  mkDirect ifaceName None upstream.

Definition Init (os : OS) (d : Direct) : Direct * option error :=
  if negb (bool_decide (IfaceName d = "")) then
    match InterfaceByName os (IfaceName d) with
    | Err e => (d, Some (Wrapf "outbound: interface %q not found: %w" [IfaceName d] e))
    | Ok i => (mkDirect (IfaceName d) (Some i) (upstream d), None)
    end
  else
    match detectPhysicalInterface os with
    | Err e => (d, Some e)
    | Ok i => (mkDirect (IfaceName d) (Some i) (upstream d), None)
    end.

Definition refreshAutoIface (os : OS) (d : Direct) : Direct :=
  if negb (bool_decide (IfaceName d = "")) then d
  else match detectPhysicalInterface os with
       | Err _ => d
       | Ok i => mkDirect (IfaceName d) (Some i) (upstream d)
       end.

Definition ResolvedIfaceName (os : OS) (d : Direct) : Direct * string :=
  let d := refreshAutoIface os d in
  (d, match iface d with Some i => if_Name i | None => IfaceName d end).
Definition currentIface (os : OS) (d : Direct) : Direct * option NetInterface :=
  let d := refreshAutoIface os d in (d, iface d).

(** The resolver of a dialer: the system's, or an upstream asked through a
    dialer bound to an interface. *)
Inductive resolver := SystemResolver | UpstreamResolver (bound : option NetInterface) (addr : string).
(** A [net.Dialer]: the interface its sockets are bound to, and its resolver. *)
Record NetDialer := mkNetDialer { bound : option NetInterface; dial_resolver : resolver }.

Definition Dialer (os : OS) (d : Direct) : Direct * NetDialer :=
  let '(d, i) := currentIface os d in (d, mkNetDialer i SystemResolver).
Definition Resolver (os : OS) (d : Direct) (upstreamAddr : string) : Direct * resolver :=
  if bool_decide (upstreamAddr = "") || bool_decide (upstreamAddr = "SYSTEM") then (d, SystemResolver)
  else let '(d, dialer) := Dialer os d in (d, UpstreamResolver (bound dialer) upstreamAddr).
Definition DialerWithDNS (os : OS) (d : Direct) : Direct * NetDialer :=
  let '(d, i) := currentIface os d in
  match i with
  | None => (d, mkNetDialer None SystemResolver)
  | Some _ =>
      match find_first (fun u => negb (bool_decide (u = "")) && negb (bool_decide (u = "SYSTEM"))) (upstream d) with
      | Some u => let '(d, r) := Resolver os d u in (d, mkNetDialer i r)
      | None => (d, mkNetDialer i SystemResolver)
      end
  end.

(** ** Lemmas *)
Definition physical (os : OS) (i : NetInterface) : Prop :=
  Z.land (if_Flags i) FlagUp <> 0 /\
  (forall p, p ∈ vpnPrefixes -> HasPrefix (if_Name i) p = false) /\
  exists addrs a, Addrs os i = Ok addrs /\ a ∈ addrs /\ usableDirectIPv4 (addr_IP a) = true.

Lemma isPhysical_spec os i : isPhysical os i = true <-> physical os i.
Proof.
  unfold isPhysical, isPhysicalWithAddrs, physical.
  destruct (Addrs os i) as [addrs|]; [|by split; [|intros (_ & _ & ? & ? & ? & _)]].
  destruct (Z.eqb_spec (Z.land (if_Flags i) FlagUp) 0); [by split; [|intros []]|].
  destruct (existsb _ vpnPrefixes) eqn:E.
  - split; [done|]. intros (_ & Hno & _). apply existsb_exists in E as (p & Hp & HP).
    by rewrite Hno in HP by by apply list_elem_of_In.
  - rewrite existsb_exists. split.
    + intros (a & Ha & Hu). split; [done|]. split.
      * intros p Hp. apply not_true_is_false. intros HP.
        apply not_true_iff_false in E. apply E, existsb_exists. exists p. by rewrite <- list_elem_of_In.
      * exists addrs, a. by rewrite list_elem_of_In.
    + intros (_ & _ & ? & a & [= <-] & Ha & Hu). exists a. by rewrite <- list_elem_of_In.
Qed.

Lemma selectPhysicalInterface_find os ifaces :
  selectPhysicalInterface ifaces (Addrs os) =
  match find_first (isPhysical os) ifaces with
  | Some i => Ok i
  | None => Err (Errorf "outbound: no suitable physical interface found" [])
  end.
Proof.
  induction ifaces as [|i ifaces IH]; [done|]. cbn. unfold isPhysical at 1.
  destruct (Addrs os i); [|done]. by destruct (isPhysicalWithAddrs i a).
Qed.

Lemma detectPhysicalInterface_physical os i : detectPhysicalInterface os = Ok i -> physical os i.
Proof.
  assert (match Interfaces os with
    | Err e => Err (Wrapf "outbound: failed to list interfaces: %w" [] e)
    | Ok ifaces => selectPhysicalInterface ifaces (Addrs os)
    end = Ok i -> physical os i) as Hf.
  { destruct (Interfaces os) as [l|]; [|done]. rewrite selectPhysicalInterface_find.
    destruct (find_first _ l) as [j|] eqn:E; [|done]. intros [= <-].
    apply find_first_elem in E as [_ E]. by apply isPhysical_spec. }
  unfold detectPhysicalInterface. cbn zeta.
  destruct (defaultRouteInterface os) as [[j|]|]; try done.
  destruct (isPhysical os j) eqn:E; [|done]. intros [= <-]. by apply isPhysical_spec.
Qed.

(** ** Properties *)

(** An automatic direct outbound never binds to a tunnel. Whatever the system
    reports, if detection succeeds then [Dialer], [DialerWithDNS] and the DNS
    queries of the latter are all bound to the same interface, which is up, has
    a usable IPv4 address and none of the virtual-interface name prefixes; and
    detection fails only if the listing fails or no listed interface
    qualifies. *)
Theorem auto_outbound_physical os d :
  IfaceName d = "" ->
  match detectPhysicalInterface os with
  | Ok i =>
      physical os i /\
      snd (Dialer os d) = mkNetDialer (Some i) SystemResolver /\
      snd (ResolvedIfaceName os d) = if_Name i /\
      bound (snd (DialerWithDNS os d)) = Some i /\
      (forall b addr, dial_resolver (snd (DialerWithDNS os d)) = UpstreamResolver b addr ->
         b = Some i /\ addr ∈ upstream d)
  | Err _ => forall ifaces, Interfaces os = Ok ifaces -> Forall (fun i => ~ physical os i) ifaces
  end.
Proof.
  intros Hd. destruct (detectPhysicalInterface os) as [i|e] eqn:E.
  - split; [by apply detectPhysicalInterface_physical|].
    assert (refreshAutoIface os d = mkDirect (IfaceName d) (Some i) (upstream d)) as Hr.
    { unfold refreshAutoIface. by rewrite bool_decide_eq_true_2, E. }
    assert (refreshAutoIface os (mkDirect (IfaceName d) (Some i) (upstream d)) =
            mkDirect (IfaceName d) (Some i) (upstream d)) as Hr2.
    { unfold refreshAutoIface. cbn. by rewrite bool_decide_eq_true_2, E. }
    unfold Dialer, ResolvedIfaceName, DialerWithDNS, Resolver, Dialer, currentIface.
    rewrite Hr. cbn. split; [done|]. split; [done|].
    destruct (find_first _ (upstream d)) as [u|] eqn:Eu; cbn; [|done].
    apply find_first_elem in Eu as [Hu Hne]. apply andb_true_iff in Hne as [H1 H2].
    apply negb_true_iff in H1, H2. rewrite H1, H2. cbn. rewrite Hr2. cbn.
    split; [done|]. by intros b addr [= <- <-].
  - intros ifaces Hi. unfold detectPhysicalInterface in E. rewrite Hi in E. cbn zeta in E.
    rewrite selectPhysicalInterface_find in E.
    assert (find_first (isPhysical os) ifaces = None) as Hn.
    { destruct (find_first (isPhysical os) ifaces); [|done].
      destruct (defaultRouteInterface os) as [[j|]|]; [destruct (isPhysical os j)|..]; done. }
    apply find_first_None in Hn. eapply Forall_impl; [exact Hn|]. intros j Hj Hp%isPhysical_spec.
    congruence.
Qed.

Lemma auto_outbound_physical_witness :
  let os := mkOS (Ok [mkNetInterface 1 "lo0" 1; mkNetInterface 4 "utun3" 1; mkNetInterface 5 "en0" 1])
    (fun _ => Ok [AddrIPNet (mkIPNet [192; 168; 1; 7] [255; 255; 255; 0])])
    (fun _ => Err (Errorf "" [])) (Err (Errorf "" [])) false in
  snd (ResolvedIfaceName os (NewDirect "" ["SYSTEM"; "223.5.5.5:53"])) = "en0".
Proof.
  cbn zeta. exact (proj1 (proj2 (proj2 (auto_outbound_physical
    (mkOS (Ok [mkNetInterface 1 "lo0" 1; mkNetInterface 4 "utun3" 1; mkNetInterface 5 "en0" 1])
    (fun _ => Ok [AddrIPNet (mkIPNet [192; 168; 1; 7] [255; 255; 255; 0])])
    (fun _ => Err (Errorf "" [])) (Err (Errorf "" [])) false)
    (NewDirect "" ["SYSTEM"; "223.5.5.5:53"]) eq_refl)))).
Defined.
