(* ===== verification/DnsResolver.v ===== *)
(** * internal/dns: the caching resolver of watched domains

    [resolver.go]: one cache per domain, resolution through the cache, and the
    periodic refresh that reports changes.  Times are nanoseconds, [None] the
    zero time; what a DNS query answers is a parameter. *)
From S2P Require Import Prelude GoStrings GoNet.
Open Scope string_scope.
Open Scope list_scope.
Open Scope Z_scope.

(** ** One cache *)
Record Cache := mkCache {
  Domain : string; IPs : list string; CachedAt : option Z; TTL : Z; Refresh : Z }.

Definition NewCache (domain : string) (ttl refresh : Z) : Cache := mkCache domain [] None ttl refresh.
Definition Cache_Set (c : Cache) (ips : list string) (now : Z) : Cache :=
  mkCache (Domain c) ips (Some now) (TTL c) (Refresh c).
(** [time.Since] of the zero time is the largest duration. *)
Definition age (c : Cache) (now : Z) : Z :=
  match CachedAt c with None => 2 ^ 63 - 1 | Some t => Z.min (2 ^ 63 - 1) (now - t) end.
Definition Cache_Get (c : Cache) (now : Z) : option (list string) :=
  if TTL c <? age c now then None else Some (IPs c).

(** (added, removed): both keep the order and the repetitions of their list. *)
Definition Diff (c : Cache) (newIPs : list string) : list string * list string :=
  let oldSet : gset string := list_to_set (IPs c) in
  let newSet : gset string := list_to_set newIPs in
  (filter (fun ip => ip ∉ oldSet) newIPs, filter (fun ip => ip ∉ newSet) (IPs c)).

(** ** The resolver *)
Record Resolver := mkResolver {
  caches : gmap string Cache;
  resolver : string;
  refreshInterval : Z;
  ticking : bool;       (** the ticker exists *)
  stopped : bool        (** [stop] is closed *) }.

Definition NewResolver (resolver : string) (refreshInterval : Z) : Resolver :=
  mkResolver ∅ resolver (if refreshInterval <=? 0 then 120000000000 else refreshInterval) false false.
Definition AddDomain (r : Resolver) (domain : string) (ttl refresh : Z) : Resolver :=
  mkResolver (<[domain := NewCache domain ttl refresh]> (caches r)) (resolver r) (refreshInterval r)
    (ticking r) (stopped r).
Definition GetCache (r : Resolver) (domain : string) : option Cache := caches r !! domain.
(** [Start]: whether this call starts the refresh loop. *)
Definition Start (r : Resolver) : Resolver * bool :=
  if ticking r then (r, false)
  else (mkResolver (caches r) (resolver r) (refreshInterval r) true (stopped r), true).
Definition Stop (r : Resolver) : Resolver :=
  mkResolver (caches r) (resolver r) (refreshInterval r) (ticking r) true.

Section resolve.
(** The two ways to ask: the configured server, and the system. *)
Context (lookup_via : string -> string -> result (list IP)) (LookupIP : string -> result (list IP)).

Definition Resolve (r : Resolver) (domain : string) (now : Z) : result (list string) :=
  match (c ← GetCache r domain; Cache_Get c now) with
  | Some cached => Ok cached
  | None =>
      ips ← (if negb (bool_decide (resolver r = "")) then lookup_via (resolver r) domain
             else LookupIP domain);
      Ok (map IP_String ips)
  end.

(** One domain of [refreshAll]: the resolver, and the change reported. *)
Definition refresh_one (r : Resolver) (d : string) (now : Z)
  : Resolver * option (string * list string * list string) :=
  match Resolve r d now with
  | Err _ => (r, None)
  | Ok ips =>
      match caches r !! d with
      | None => (r, None)
      | Some c =>
          let '(added, removed) := Diff c ips in
          if (0 <? length added)%nat || (0 <? length removed)%nat || negb (length ips =? length (IPs c))%nat
          then (mkResolver (<[d := Cache_Set c ips now]> (caches r)) (resolver r) (refreshInterval r)
                  (ticking r) (stopped r), Some (d, added, removed))
          else (r, None)
      end
  end.
(** [refreshAll] over the domains in the map's iteration order. *)
Fixpoint refreshAll (r : Resolver) (domains : list string) (now : Z)
  : Resolver * list (string * list string * list string) :=
  match domains with
  | [] => (r, [])
  | d :: domains' =>
      let '(r, ev) := refresh_one r d now in
      let '(r, evs) := refreshAll r domains' now in
      (r, match ev with Some e => e :: evs | None => evs end)
  end.
End resolve.

(** ** Lemmas *)
Lemma elem_of_Diff c ips x :
  (x ∈ fst (Diff c ips) <-> x ∈ ips /\ x ∉ IPs c) /\
  (x ∈ snd (Diff c ips) <-> x ∈ IPs c /\ x ∉ ips).
Proof.
  unfold Diff. cbn. rewrite !list_elem_of_filter, !elem_of_list_to_set. tauto.
Qed.

Lemma Diff_empty c ips :
  Diff c ips = ([], []) <-> forall x, x ∈ ips <-> x ∈ IPs c.
Proof.
  split.
  - intros H x. pose proof (elem_of_Diff c ips x) as [Ha Hr]. rewrite H in Ha, Hr. cbn in *.
    rewrite elem_of_nil in Ha, Hr. destruct (decide (x ∈ ips)), (decide (x ∈ IPs c)); tauto.
  - intros H. destruct (Diff c ips) as [a r] eqn:E. f_equal.
    + apply elem_of_nil_inv. intros x Hx. pose proof (elem_of_Diff c ips x) as [Ha _].
      rewrite E in Ha. specialize (H x). tauto.
    + apply elem_of_nil_inv. intros x Hx. pose proof (elem_of_Diff c ips x) as [_ Hr].
      rewrite E in Hr. specialize (H x). tauto.
Qed.

(** ** Properties *)

(** A refresh reports exactly the change: when a domain whose cache has
    expired resolves to new addresses, the reported additions are the new
    addresses that were not cached, the removals the cached ones that are gone,
    and the cache then holds the new list and is fresh for its time to live;
    when the query fails, or the cache is still fresh, nothing changes. *)
Theorem refresh_one_reports lookup_via LookupIP r d now c r' ev :
  caches r !! d = Some c -> 0 <= TTL c ->
  refresh_one lookup_via LookupIP r d now = (r', ev) ->
  match ev with
  | Some (d', added, removed) =>
      d' = d /\ exists ips, Resolve lookup_via LookupIP r d now = Ok ips /\
        (forall x, x ∈ added <-> x ∈ ips /\ x ∉ IPs c) /\
        (forall x, x ∈ removed <-> x ∈ IPs c /\ x ∉ ips) /\
        forall t, now <= t <= now + TTL c -> Resolve lookup_via LookupIP r' d t = Ok ips
  | None =>
      r' = r /\ (is_ok (Resolve lookup_via LookupIP r d now) = false \/
        exists ips, Resolve lookup_via LookupIP r d now = Ok ips /\ forall x, x ∈ ips <-> x ∈ IPs c)
  end.
Proof.
  intros Hc Httl. unfold refresh_one.
  destruct (Resolve lookup_via LookupIP r d now) as [ips|e] eqn:Er; [|intros [= <- <-]; auto].
  rewrite Hc. destruct (Diff c ips) as [added removed] eqn:Ed.
  destruct (_ || _) eqn:Ec.
  - intros [= <- <-]. split; [done|]. exists ips. split; [done|].
    pose proof (fun x => elem_of_Diff c ips x) as Hx. rewrite Ed in Hx. cbn in Hx.
    split; [apply Hx|]. split; [apply Hx|].
    intros t Ht. unfold Resolve, GetCache. cbn. rewrite lookup_insert_eq. cbn.
    unfold Cache_Get, age. cbn. rewrite (proj2 (Z.ltb_ge _ _)) by lia. done.
  - intros [= <- <-]. split; [done|]. right. exists ips. split; [done|].
    apply Diff_empty. rewrite Ed. apply orb_false_iff in Ec as [Ec _].
    apply orb_false_iff in Ec as [Ea Eb]. destruct added; [|done]. by destruct removed.
Qed.

(** A cache whose addresses do not change is never renewed: once it has
    expired, a refresh that resolves to the same list leaves the cache as it is,
    so every later [Resolve] within the whole life of the resolver still misses
    it and asks the network again. *)
Theorem unchanged_cache_stays_expired lookup_via LookupIP r d now c later :
  caches r !! d = Some c -> Cache_Get c now = None -> now <= later ->
  Resolve lookup_via LookupIP r d now = Ok (IPs c) ->
  let r' := fst (refresh_one lookup_via LookupIP r d now) in
  r' = r /\ Cache_Get c later = None /\
  Resolve lookup_via LookupIP r' d later =
    (ips ← (if negb (bool_decide (resolver r = "")) then lookup_via (resolver r) d else LookupIP d);
     Ok (map IP_String ips)).
Proof.
  intros Hc Hg Hl Hr. unfold refresh_one. rewrite Hr, Hc.
  assert (Diff c (IPs c) = ([], [])) as -> by by apply Diff_empty.
  rewrite Nat.eqb_refl. cbn. split; [done|].
  assert (Cache_Get c later = None) as Hg'.
  { unfold Cache_Get, age in *. destruct (Z.ltb_spec (TTL c) (match CachedAt c with None => 2 ^ 63 - 1 | Some t => Z.min (2 ^ 63 - 1) (now - t) end)) as [Hlt|]; [|done].
    rewrite (proj2 (Z.ltb_lt _ _)); [done|]. destruct (CachedAt c); lia. }
  split; [done|]. unfold Resolve, GetCache. rewrite Hc. cbn. by rewrite Hg'.
Qed.

Lemma refresh_one_reports_witness :
  let r := AddDomain (NewResolver "" 0) "vpn.cn" 60 30 in
  let lookup := fun _ => Ok [[10; 0; 0; 1]] in
  Resolve (fun _ => lookup) lookup (fst (refresh_one (fun _ => lookup) lookup r "vpn.cn" 1000)) "vpn.cn" 1060
    = Ok ["10.0.0.1"].
Proof.
  cbn zeta.
  destruct (refresh_one_reports (fun _ _ => Ok [[10; 0; 0; 1]]) (fun _ => Ok [[10; 0; 0; 1]])
    (AddDomain (NewResolver "" 0) "vpn.cn" 60 30) "vpn.cn" 1000 (NewCache "vpn.cn" 60 30) _ _
    eq_refl ltac:(discriminate) eq_refl) as (_ & ips & Hips & _ & _ & Ht).
  assert (ips = ["10.0.0.1"]) as -> by (injection Hips as <-; reflexivity).
  apply (Ht 1060). split; discriminate.
Defined.

Lemma unchanged_cache_stays_expired_witness :
  let c := mkCache "vpn.cn" ["10.0.0.1"] (Some 0) 60 30 in
  let r := mkResolver {[ "vpn.cn" := c ]} "" 120000000000 true false in
  fst (refresh_one (fun _ _ => Ok [[10; 0; 0; 1]]) (fun _ => Ok [[10; 0; 0; 1]]) r "vpn.cn" 61) = r.
Proof.
  cbn zeta.
  refine (proj1 (unchanged_cache_stays_expired (fun _ _ => Ok [[10; 0; 0; 1]]) (fun _ => Ok [[10; 0; 0; 1]])
    (mkResolver {[ "vpn.cn" := mkCache "vpn.cn" ["10.0.0.1"] (Some 0) 60 30 ]} "" 120000000000 true false)
    "vpn.cn" 61 (mkCache "vpn.cn" ["10.0.0.1"] (Some 0) 60 30) 100 _ _ _ _));
    first [reflexivity | discriminate].
Defined.
