(* ===== verification/HostRoute.v ===== *)
(** * internal/forwarder: host route exceptions

    [host_route_state.go], [route_exception_darwin.go] and
    [route_exception_fallback.go].  A host route exempts one address from the
    capture routes; the addresses are persisted so that a later process can take
    the routes down.  [K] is the state of the system under the commands, the
    state file is part of [host_world]; the order of the addresses in the file
    is that of a map iteration and is never observed. *)
From S2P Require Import Prelude GoStrings GoNet.
Open Scope string_scope.
Open Scope list_scope.
Open Scope Z_scope.

(** ** The state file *)
Inductive host_file := NoHostFile | BadHostFile | HostList (ips : list string).
Record host_world (K : Type) := mkHostWorld {
  kernel : K;
  hfile : host_file;
  hwritable : bool    (** whether [os.WriteFile] succeeds; its error is ignored *) }.
Arguments mkHostWorld {K}.
Arguments kernel {K}.
Arguments hfile {K}.
Arguments hwritable {K}.

Definition is_ipv4_text (ip : string) : bool := negb (bool_decide (To4 (ParseIP ip) = [])).

Section state.
Context {K : Type}.
Implicit Types w : host_world K.

Definition loadPersistedHostRoutesLocked w : gset string :=
  match hfile w with
  | HostList l => list_to_set (List.filter is_ipv4_text l)
  | _ => ∅
  end.
Definition savePersistedHostRoutesLocked (routes : gset string) w : host_world K :=
  if hwritable w then mkHostWorld (kernel w) (HostList (elements routes)) true else w.

Definition rememberHostRoute (ip : IP) w : host_world K :=
  if bool_decide (ip = []) || bool_decide (To4 ip = []) then w
  else savePersistedHostRoutesLocked ({[IP_String ip]} ∪ loadPersistedHostRoutesLocked w) w.
Definition forgetHostRoute (ip : string) w : host_world K :=
  savePersistedHostRoutesLocked (loadPersistedHostRoutesLocked w ∖ {[ip]}) w.
End state.

(** ** The platform's commands *)
Record host_ops (K : Type) := mkHostOps {
  addScopedHostRoute : string -> string -> host_world K -> host_world K * option error;
  addHostRoute : string -> string -> IP -> host_world K -> host_world K * option error;
  deleteHostRoute : string -> host_world K -> host_world K;
  (** (current, known) *)
  hostRouteCurrent : string -> string -> IP -> host_world K -> host_world K * (bool * bool);
  scopedHostRouteCurrent : string -> string -> host_world K -> host_world K * (bool * bool);
  AddScopedHostRoute : string -> string -> host_world K -> host_world K * option error }.
Arguments addScopedHostRoute {K}.
Arguments addHostRoute {K}.
Arguments deleteHostRoute {K}.
Arguments hostRouteCurrent {K}.
Arguments scopedHostRouteCurrent {K}.
Arguments AddScopedHostRoute {K}.

(** Everywhere but on macOS the exceptions are no-ops. *)
Definition fallback_ops (K : Type) : host_ops K := {|
  addScopedHostRoute := fun _ _ w => (w, None);
  addHostRoute := fun _ _ _ w => (w, None);
  deleteHostRoute := fun _ w => w;
  hostRouteCurrent := fun _ _ _ w => (w, (false, false));
  scopedHostRouteCurrent := fun _ _ w => (w, (false, false));
  AddScopedHostRoute := fun _ _ w => (w, None)
|}.

Definition newline : string := String (ascii_of_nat 10) "".

Fixpoint gateway_line (lines : list string) : IP :=
  match lines with
  | [] => []
  | line :: lines' =>
      let line := TrimSpace line in
      if negb (HasPrefix line "gateway:") then gateway_line lines'
      else ParseIP (TrimSpace (TrimPrefix line "gateway:"))
  end.
Definition parseRouteGateway (out : string) : IP := gateway_line (Split out newline).
Fixpoint interface_line (lines : list string) : string :=
  match lines with
  | [] => ""
  | line :: lines' =>
      let line := TrimSpace line in
      if HasPrefix line "interface:" then TrimSpace (TrimPrefix line "interface:") else interface_line lines'
  end.
Definition parseRouteInterface (out : string) : string := interface_line (Split out newline).

Definition usable_gateway (gateway : IP) : bool :=
  negb (bool_decide (gateway = [])) && negb (bool_decide (To4 gateway = [])) && negb (IsUnspecified gateway).
Definition routeOutputNeedsReplace (out iface : string) (gateway : IP) : bool :=
  let gotIface := parseRouteInterface out in
  if negb (bool_decide (gotIface = "")) && negb (bool_decide (gotIface = iface)) then true
  else
    let gotGateway := parseRouteGateway out in
    if negb (usable_gateway gateway) then false
    else bool_decide (gotGateway = []) || negb (IP_Equal gotGateway gateway).

Definition isTunnelInterface (iface : string) : bool :=
  HasPrefix iface "utun" || HasPrefix iface "tun" || HasPrefix iface "tap".

Section darwin.
Context {K : Type}.
Context (exec : list string -> K -> K * (string * option error)).
(** The addresses of an interface; other kinds of addresses are left out. *)
Context (iface_addrs : string -> K -> option (list IPNet)).
Implicit Types w : host_world K.

Definition run (args : list string) w : host_world K * (string * option error) :=
  let '(k, r) := exec args (kernel w) in (mkHostWorld k (hfile w) (hwritable w), r).

Definition gatewayReachableOnInterface (gateway : IP) (ifaceName : string) w : bool :=
  if bool_decide (gateway = []) || bool_decide (To4 gateway = []) then false
  else match iface_addrs ifaceName (kernel w) with
       | None => false
       | Some nets => existsb (fun n => negb (bool_decide (To4 (net_IP n) = [])) && IPNet_Contains n gateway) nets
       end.
Definition darwin_deleteHostRoute (ip : string) w : host_world K :=
  fst (run ["route"; "delete"; "-host"; ip] w).
Definition darwin_hostRouteCurrent (ip iface : string) (gateway : IP) w : host_world K * (bool * bool) :=
  let '(w, (out, err)) := run ["route"; "-n"; "get"; ip] w in
  match err with
  | Some _ => (w, (false, false))
  | None => (w, (negb (routeOutputNeedsReplace out iface gateway), true))
  end.
Definition routeNeedsReplace (ip iface : string) (gateway : IP) w : host_world K * bool :=
  let '(w, (current, ok)) := darwin_hostRouteCurrent ip iface gateway w in
  (w, ok && negb current).
Definition scopedGateway (ip iface : string) w : host_world K * result IP :=
  let '(w, (out, err)) := run ["route"; "-n"; "get"; ip; "-ifscope"; iface] w in
  match err with
  | Some e => (w, Err (Wrapf "route get %s ifscope %s: %s: %w" [ip; iface; out] e))
  | None => (w, Ok (parseRouteGateway out))
  end.
Definition defaultGatewayForInterface (iface : string) w : host_world K * result IP :=
  let '(w, (out, err)) := run ["route"; "-n"; "get"; "default"] w in
  match err with
  | Some e => (w, Err (Wrapf "route get default: %s: %w" [out] e))
  | None =>
      let gotIface := parseRouteInterface out in
      if negb (bool_decide (gotIface = "")) && negb (bool_decide (gotIface = iface)) then (w, Ok [])
      else (w, Ok (parseRouteGateway out))
  end.

(** The gateway of an interface: the scoped default route's, or, when that is
    not on the interface's networks, the default route's if it uses it. *)
Definition scoped_default_gateway (iface : string) w : host_world K * result IP :=
  let '(w, r) := scopedGateway "default" iface w in
  match r with
  | Err e => (w, Err e)
  | Ok gateway =>
      if negb (bool_decide (gateway = [])) && negb (gatewayReachableOnInterface gateway iface w) then
        let '(w, fallback) := defaultGatewayForInterface iface w in
        (w, Ok (match fallback with Ok g => g | Err _ => [] end))
      else (w, Ok gateway)
  end.

Definition replace_stale (ip iface : string) (gateway : IP) w : host_world K :=
  let '(w, needs) := routeNeedsReplace ip iface gateway w in
  if needs then forgetHostRoute ip (darwin_deleteHostRoute ip w) else w.

Definition darwin_addHostRoute (ip iface : string) (gateway : IP) w : host_world K * option error :=
  if negb (is_ipv4_text ip) then (w, None)
  else
    let w := replace_stale ip iface gateway w in
    let args := if usable_gateway gateway then ["add"; "-host"; ip; IP_String gateway]
                else ["add"; "-host"; ip; "-interface"; iface] in
    let '(w, (out, err)) := run ("route" :: args) w in
    let failed out e := Wrapf "route %v: %s: %w" (args ++ [out]) e in
    match err with
    | None => (w, None)
    | Some e =>
        if Contains out "File exists" then
          let '(w, (_, delErr)) := run ["route"; "delete"; "-host"; ip] w in
          match delErr with
          | Some de => (w, Some (Wrapf "route delete %s (before retry): %w" [ip] de))
          | None =>
              let '(w, (out, err)) := run ("route" :: args) w in
              match err with None => (w, None) | Some e => (w, Some (failed out e)) end
          end
        else (w, Some (failed out e))
    end.

Definition darwin_addScopedHostRoute (ip iface : string) w : host_world K * option error :=
  let '(w, r) := scoped_default_gateway iface w in
  match r with
  | Err e => (w, Some e)
  | Ok gateway =>
      if bool_decide (gateway = []) && negb (isTunnelInterface iface) then
        (w, Some (Errorf "no gateway for physical iface %s" [iface]))
      else darwin_addHostRoute ip iface gateway (replace_stale ip iface gateway w)
  end.
Definition darwin_scopedHostRouteCurrent (ip iface : string) w : host_world K * (bool * bool) :=
  let '(w, r) := scoped_default_gateway iface w in
  match r with
  | Err _ => (w, (false, false))
  | Ok gateway => darwin_hostRouteCurrent ip iface gateway w
  end.
Definition darwin_AddScopedHostRoute (ip iface : string) w : host_world K * option error :=
  let '(w, err) := darwin_addScopedHostRoute ip iface w in
  match err with
  | Some e => (w, Some e)
  | None =>
      let parsed := ParseIP ip in
      (if bool_decide (parsed = []) then w else rememberHostRoute parsed w, None)
  end.

Definition darwin_ops : host_ops K := {|
  addScopedHostRoute := darwin_addScopedHostRoute;
  addHostRoute := darwin_addHostRoute;
  deleteHostRoute := darwin_deleteHostRoute;
  hostRouteCurrent := darwin_hostRouteCurrent;
  scopedHostRouteCurrent := darwin_scopedHostRouteCurrent;
  AddScopedHostRoute := darwin_AddScopedHostRoute
|}.
End darwin.

(** ** Cleanup *)
Section cleanup.
Context {K : Type} (ops : host_ops K).
Implicit Types w : host_world K.

Definition CleanupPersistedHostRoutes w : host_world K :=
  let w := foldl (fun w ip => deleteHostRoute ops ip w) w (elements (loadPersistedHostRoutesLocked w)) in
  savePersistedHostRoutesLocked ∅ w.

Fixpoint cleanup_ips (seen : gset string) (ips : list IP) w : host_world K :=
  match ips with
  | [] => w
  | ip :: ips' =>
      if bool_decide (ip = []) || bool_decide (To4 ip = []) then cleanup_ips seen ips' w
      else
        let key := IP_String ip in
        if bool_decide (key ∈ seen) then cleanup_ips seen ips' w
        else cleanup_ips ({[key]} ∪ seen) ips' (forgetHostRoute key (deleteHostRoute ops key w))
  end.
Definition CleanupHostRoutesByIP (ips : list IP) w : host_world K := cleanup_ips ∅ ips w.
End cleanup.

(** ** Lemmas: the file as a set *)
Section lemmas.
Context {K : Type}.
Implicit Types w : host_world K.

Definition valid_routes (routes : gset string) : Prop := forall x, x ∈ routes -> is_ipv4_text x = true.

Lemma load_valid w : valid_routes (loadPersistedHostRoutesLocked w).
Proof.
  intros x. unfold loadPersistedHostRoutesLocked. destruct (hfile w); try set_solver.
  rewrite elem_of_list_to_set, list_elem_of_In, filter_In. tauto.
Qed.

Lemma load_save routes w :
  hwritable w = true -> valid_routes routes ->
  loadPersistedHostRoutesLocked (savePersistedHostRoutesLocked routes w) = routes.
Proof.
  intros Hw Hv. unfold savePersistedHostRoutesLocked, loadPersistedHostRoutesLocked. rewrite Hw. cbn.
  apply set_eq. intros x. rewrite elem_of_list_to_set, list_elem_of_In, filter_In, <- list_elem_of_In, elem_of_elements.
  split; [tauto|]. intros Hx. split; [done | by apply Hv].
Qed.

Lemma save_writable routes w : hwritable (savePersistedHostRoutesLocked routes w) = hwritable w.
Proof. unfold savePersistedHostRoutesLocked. destruct (hwritable w) eqn:E; done. Qed.

Lemma is_ipv4_text_IP_String ip : bytes_ok ip -> To4 ip <> [] -> is_ipv4_text (IP_String ip) = true.
Proof.
  intros Ho H4. unfold is_ipv4_text. rewrite ParseIP_IP_String by done.
  by rewrite bool_decide_eq_false_2.
Qed.

Lemma load_remember ip w :
  hwritable w = true -> bytes_ok ip -> To4 ip <> [] ->
  loadPersistedHostRoutesLocked (rememberHostRoute ip w) =
  {[IP_String ip]} ∪ loadPersistedHostRoutesLocked w.
Proof.
  intros Hw Ho H4. unfold rememberHostRoute. assert (ip <> []) by (intros ->; done).
  rewrite !bool_decide_eq_false_2 by done. cbn. apply load_save; [done|].
  intros x [->%elem_of_singleton|Hx]%elem_of_union;
    [by apply is_ipv4_text_IP_String | by eapply load_valid].
Qed.

Lemma load_forget ip w :
  hwritable w = true ->
  loadPersistedHostRoutesLocked (forgetHostRoute ip w) = loadPersistedHostRoutesLocked w ∖ {[ip]}.
Proof.
  intros Hw. apply load_save; [done|]. intros x [Hx _]%elem_of_difference. by eapply load_valid.
Qed.

Lemma remember_writable ip w : hwritable (rememberHostRoute ip w) = hwritable w.
Proof. unfold rememberHostRoute. destruct (_ || _); [done | apply save_writable]. Qed.
Lemma forget_writable ip w : hwritable (forgetHostRoute ip w) = hwritable w.
Proof. apply save_writable. Qed.
End lemmas.

(** ** The interface the forwarder is proved against

    A command changes at most the record of its own address, by forgetting it. *)
Definition only_forgets {K} (ip : string) (w w' : host_world K) : Prop :=
  hwritable w' = hwritable w /\
  (hwritable w = true ->
   loadPersistedHostRoutesLocked w ∖ {[ip]} ⊆ loadPersistedHostRoutesLocked w' /\
   loadPersistedHostRoutesLocked w' ⊆ loadPersistedHostRoutesLocked w).
Definition same_records {K} (w w' : host_world K) : Prop := hfile w' = hfile w /\ hwritable w' = hwritable w.

Class HostOpsLaws {K} (ops : host_ops K) := {
  law_add : forall ip i g w, only_forgets ip w (fst (addHostRoute ops ip i g w));
  law_scoped : forall ip i w, only_forgets ip w (fst (addScopedHostRoute ops ip i w));
  law_delete : forall ip w, same_records w (deleteHostRoute ops ip w);
  law_current : forall ip i g w, same_records w (fst (hostRouteCurrent ops ip i g w));
  law_scoped_current : forall ip i w, same_records w (fst (scopedHostRouteCurrent ops ip i w))
}.

Section only_forgets.
Context {K : Type}.
Implicit Types w : host_world K.

Lemma same_records_load w w' :
  same_records w w' -> loadPersistedHostRoutesLocked w' = loadPersistedHostRoutesLocked w.
Proof. intros [H _]. unfold loadPersistedHostRoutesLocked. by rewrite H. Qed.
Lemma same_records_refl w : same_records w w.
Proof. done. Qed.
Lemma same_records_trans w1 w2 w3 : same_records w1 w2 -> same_records w2 w3 -> same_records w1 w3.
Proof. intros [? ?] [? ?]. split; congruence. Qed.

Lemma same_only_forgets ip w w' : same_records w w' -> only_forgets ip w w'.
Proof.
  intros H. split; [apply H|]. intros _. rewrite (same_records_load w w') by done. set_solver.
Qed.
Lemma only_forgets_refl ip w : only_forgets ip w w.
Proof. by apply same_only_forgets. Qed.
Lemma only_forgets_trans ip w1 w2 w3 :
  only_forgets ip w1 w2 -> only_forgets ip w2 w3 -> only_forgets ip w1 w3.
Proof.
  intros [Hw1 H1] [Hw2 H2]. split; [congruence|]. intros Hw.
  destruct (H1 Hw) as [A B]. destruct H2 as [C D]; [congruence|]. split; set_solver.
Qed.
Lemma forget_only_forgets ip w : only_forgets ip w (forgetHostRoute ip w).
Proof.
  split; [apply forget_writable|]. intros Hw. rewrite load_forget by done. set_solver.
Qed.
End only_forgets.
#[export] Hint Resolve same_records_refl only_forgets_refl same_only_forgets forget_only_forgets : s2.

#[export] Instance fallback_laws K : HostOpsLaws (fallback_ops K).
Proof. split; intros; cbn; auto with s2. Qed.

Section darwin_laws.
Context {K : Type} (exec : list string -> K -> K * (string * option error))
  (iface_addrs : string -> K -> option (list IPNet)).
Implicit Types w : host_world K.

Lemma run_same args w : same_records w (fst (run exec args w)).
Proof. unfold run. by destruct (exec args (kernel w)). Qed.
Lemma darwin_current_same ip i g w : same_records w (fst (darwin_hostRouteCurrent exec ip i g w)).
Proof.
  unfold darwin_hostRouteCurrent. pose proof (run_same ["route"; "-n"; "get"; ip] w) as H.
  destruct (run _ _ w) as [w1 [out [e|]]]; done.
Qed.
Lemma darwin_delete_same ip w : same_records w (darwin_deleteHostRoute exec ip w).
Proof. apply run_same. Qed.
Lemma scoped_default_gateway_same i w : same_records w (fst (scoped_default_gateway exec iface_addrs i w)).
Proof.
  unfold scoped_default_gateway, scopedGateway.
  pose proof (run_same ["route"; "-n"; "get"; "default"; "-ifscope"; i] w) as H1.
  destruct (run _ _ w) as [w1 [out [e|]]]; [done|]. cbn [fst] in H1.
  destruct (_ && _); [|done]. unfold defaultGatewayForInterface.
  pose proof (run_same ["route"; "-n"; "get"; "default"] w1) as H2.
  destruct (run _ _ w1) as [w2 [out2 [e|]]]; cbn in *;
    [|destruct (_ && _); cbn]; by eapply same_records_trans.
Qed.
Lemma replace_stale_forgets ip i g w : only_forgets ip w (replace_stale exec ip i g w).
Proof.
  unfold replace_stale, routeNeedsReplace. pose proof (darwin_current_same ip i g w) as H.
  destruct (darwin_hostRouteCurrent exec ip i g w) as [w1 [c k]]. cbn in H.
  destruct (k && negb c); [|by apply same_only_forgets].
  eapply only_forgets_trans; [|apply forget_only_forgets].
  apply same_only_forgets. eapply same_records_trans; [exact H | apply darwin_delete_same].
Qed.
Lemma darwin_add_forgets ip i g w : only_forgets ip w (fst (darwin_addHostRoute exec ip i g w)).
Proof.
  unfold darwin_addHostRoute. destruct (negb _); [apply only_forgets_refl|].
  eapply only_forgets_trans; [apply (replace_stale_forgets ip i g)|].
  set (w0 := replace_stale _ _ _ _ _). set (args := if usable_gateway g then _ else _).
  apply same_only_forgets. cbn zeta. pose proof (run_same ("route" :: args) w0) as H1.
  destruct (run exec ("route" :: args) w0) as [w1 [out [e|]]]; [|done]. cbn [fst] in H1.
  destruct (Contains out "File exists"); [|done].
  pose proof (run_same ["route"; "delete"; "-host"; ip] w1) as H2.
  destruct (run exec ["route"; "delete"; "-host"; ip] w1) as [w2 [out2 [e2|]]]; cbn [fst] in H2.
  - by eapply same_records_trans.
  - pose proof (run_same ("route" :: args) w2) as H3.
    destruct (run exec ("route" :: args) w2) as [w3 [out3 [e3|]]]; cbn [fst] in *;
      eapply same_records_trans; [exact H1 | by eapply same_records_trans | exact H1 | by eapply same_records_trans].
Qed.
Lemma darwin_scoped_forgets ip i w : only_forgets ip w (fst (darwin_addScopedHostRoute exec iface_addrs ip i w)).
Proof.
  unfold darwin_addScopedHostRoute. pose proof (scoped_default_gateway_same i w) as H.
  destruct (scoped_default_gateway exec iface_addrs i w) as [w1 [g|e]]; cbn in H;
    [|by apply same_only_forgets].
  destruct (_ && _); [by apply same_only_forgets|].
  eapply only_forgets_trans; [by apply same_only_forgets|].
  eapply only_forgets_trans; [apply (replace_stale_forgets ip i g) | apply darwin_add_forgets].
Qed.

#[export] Instance darwin_laws : HostOpsLaws (darwin_ops exec iface_addrs).
Proof.
  split; intros; cbn.
  - apply darwin_add_forgets.
  - apply darwin_scoped_forgets.
  - apply darwin_delete_same.
  - apply darwin_current_same.
  - unfold darwin_scopedHostRouteCurrent. pose proof (scoped_default_gateway_same i w) as H.
    destruct (scoped_default_gateway exec iface_addrs i w) as [w1 [g|e]]; [|done].
    eapply same_records_trans; [exact H | apply darwin_current_same].
Qed.
End darwin_laws.

(** ** Properties *)

(** The persisted host routes behave as a set that survives restarts: with a
    writable file, remembering an IPv4 address adds exactly its text,
    forgetting removes exactly the given text, every stored text reads back as
    an IPv4 address, and an address that is not IPv4 is never recorded. *)
Theorem persisted_routes_set {K} (w : host_world K) ip text :
  hwritable w = true -> bytes_ok ip ->
  loadPersistedHostRoutesLocked (rememberHostRoute ip w) =
    (if bool_decide (To4 ip = []) then loadPersistedHostRoutesLocked w
     else {[IP_String ip]} ∪ loadPersistedHostRoutesLocked w) /\
  loadPersistedHostRoutesLocked (forgetHostRoute text w) = loadPersistedHostRoutesLocked w ∖ {[text]} /\
  (forall x, x ∈ loadPersistedHostRoutesLocked (rememberHostRoute ip w) -> To4 (ParseIP x) <> []).
Proof.
  intros Hw Ho. split; [|split].
  - case_bool_decide as H4; [|by apply load_remember].
    unfold rememberHostRoute. by rewrite (bool_decide_eq_true_2 (To4 ip = [])), orb_true_r.
  - by apply load_forget.
  - intros x Hx%load_valid. unfold is_ipv4_text in Hx. by apply negb_true_iff, bool_decide_eq_false in Hx.
Qed.

Definition delete_all {K} (ops : host_ops K) (ips : list string) (w : host_world K) : host_world K :=
  foldl (fun w ip => deleteHostRoute ops ip w) w ips.

(** Cleaning up at start takes down every persisted route: the delete command
    runs once for each recorded address, for no other, and afterwards nothing
    is recorded; no address is recorded twice. *)
Theorem CleanupPersistedHostRoutes_complete {K} (ops : host_ops K) `{!HostOpsLaws ops} (w : host_world K) :
  hwritable w = true ->
  exists ips, NoDup ips /\ (forall x, x ∈ ips <-> x ∈ loadPersistedHostRoutesLocked w) /\
    kernel (CleanupPersistedHostRoutes ops w) = kernel (delete_all ops ips w) /\
    loadPersistedHostRoutesLocked (CleanupPersistedHostRoutes ops w) = ∅.
Proof.
  intros Hw. exists (elements (loadPersistedHostRoutesLocked w)).
  split; [apply NoDup_elements|]. split; [intros x; apply elem_of_elements|].
  unfold CleanupPersistedHostRoutes, delete_all.
  assert (forall ips w, same_records w (foldl (fun w ip => deleteHostRoute ops ip w) w ips)) as Hs.
  { clear w Hw. induction ips as [|ip ips IH]; intros w; cbn; [done|].
    eapply same_records_trans; [apply law_delete | apply IH]. }
  set (w1 := foldl _ w _). assert (hwritable w1 = true) as Hw1 by (unfold w1; etransitivity; [apply Hs | done]).
  split; [unfold savePersistedHostRoutesLocked; by rewrite Hw1|].
  apply load_save; [done|]. intros x Hx. set_solver.
Qed.

Lemma persisted_routes_set_witness :
  let w := mkHostWorld tt (HostList ["1.1.1.1"; "bogus"]) true in
  loadPersistedHostRoutesLocked (rememberHostRoute [8; 8; 8; 8] w) = {["8.8.8.8"; "1.1.1.1"]}.
Proof.
  cbn zeta. etransitivity.
  - apply (proj1 (persisted_routes_set (mkHostWorld tt (HostList ["1.1.1.1"; "bogus"]) true) [8; 8; 8; 8] ""
      eq_refl ltac:(repeat constructor; discriminate))).
  - vm_compute. reflexivity.
Defined.

Lemma CleanupPersistedHostRoutes_complete_witness :
  loadPersistedHostRoutesLocked
    (CleanupPersistedHostRoutes (fallback_ops unit) (mkHostWorld tt (HostList ["1.1.1.1"]) true)) = ∅.
Proof.
  destruct (CleanupPersistedHostRoutes_complete (fallback_ops unit) (mkHostWorld tt (HostList ["1.1.1.1"]) true) eq_refl)
    as (_ & _ & _ & _ & H). exact H.
Defined.
