(* ===== verification/Forwarder.v ===== *)
(** * internal/forwarder: the traffic forwarder

    [forwarder.go], [dialer.go], [tcp.go], [udp.go], [dns.go] and the helpers
    they use, without the gVisor stack itself.  [resolve] decides where a
    connection goes and which host routes are added on the way; its result is a
    target and a description of the dialer. The environment [Env] is what one
    call sees of the operating system: interfaces, the route fetch, the clock. *)
From S2P Require Import Prelude GoStrings GoNet Rule FakeIP RouteTable Outbound HostRoute.
Open Scope string_scope.
Open Scope list_scope.
Open Scope Z_scope.

(** ** Data *)
Record Config := mkConfig {
  TUNName : string; TUNIP : string; TUNMask : Z; TUNMTU : Z; MaxConns : Z;
  UpstreamDNS : string; DefaultDNS : string; DNSHijack : list string }.

Record Env := mkEnv {
  os : OS;
  fetch : string -> result (list RouteTable.Entry);
  clock : Z * Z * Z   (** the three clock readings of a route table lookup *) }.

(** What a dial through host routes makes sure of before it connects. *)
Inductive ensure_kind := EnsureDefault | EnsureScoped (outbound : string).
(** The dialer under it: an outbound's, or one whose resolver asks [upstream]
    through the DIRECT outbound at dial time. *)
Inductive base_dialer := BaseDialer (d : NetDialer) | RouteDNSDialer (upstream : string).
Inductive packetDialer (V : Type) :=
| PlainDialer
| BoundDialer (d : NetDialer)
| HostRouteDialer (base : base_dialer) (ensure : ensure_kind)
| VPNDialer (v : V).
Arguments PlainDialer {V}.
Arguments BoundDialer {V} d.
Arguments HostRouteDialer {V} base ensure.
Arguments VPNDialer {V} v.

Record Forwarder (K V : Type) := mkForwarder {
  config : Config;
  closed : bool;
  connCount : Z;
  pool : option Pool;
  engine : option Engine;
  outbounds : gmap string Direct;
  routeTable : option RouteTable;
  ifaceCache : gmap string Direct;
  routeCache : gset string;
  dnsHijack : list AddrPort;
  vpnOutbound : option V;
  defaultVPN : bool;
  hosts : host_world K }.
Arguments mkForwarder {K V}.
Arguments config {K V}.
Arguments closed {K V}.
Arguments connCount {K V}.
Arguments pool {K V}.
Arguments engine {K V}.
Arguments outbounds {K V}.
Arguments routeTable {K V}.
Arguments ifaceCache {K V}.
Arguments routeCache {K V}.
Arguments dnsHijack {K V}.
Arguments vpnOutbound {K V}.
Arguments defaultVPN {K V}.
Arguments hosts {K V}.

(** [strings.Replace value old new 1] for a non-empty [old]. *)
Definition ReplaceFirst (s old new : string) : string :=
  match Cut s old with Some (a, b) => a +:+ new +:+ b | None => s end.

Definition parseDNSHijack (values : list string) : list AddrPort :=
  omap (fun value =>
    let value := match Cut value "://" with Some (_, after) => after | None => value end in
    ParseAddrPort (ReplaceFirst value "any" "0.0.0.0")) values.

Section forwarder.
Context {U : Unicode} {S : SliceSort} {K V : Type} (ops : host_ops K).
Implicit Types f : Forwarder K V.

(** ** Updates *)
Definition set_outbounds f x := mkForwarder (config f) (closed f) (connCount f) (pool f) (engine f) x (routeTable f) (ifaceCache f) (routeCache f) (dnsHijack f) (vpnOutbound f) (defaultVPN f) (hosts f).
Definition set_table f rt ic rc := mkForwarder (config f) (closed f) (connCount f) (pool f) (engine f) (outbounds f) rt ic rc (dnsHijack f) (vpnOutbound f) (defaultVPN f) (hosts f).
Definition set_ifaceCache f x := set_table f (routeTable f) x (routeCache f).
Definition set_hosts f rc (w : host_world K) := mkForwarder (config f) (closed f) (connCount f) (pool f) (engine f) (outbounds f) (routeTable f) (ifaceCache f) rc (dnsHijack f) (vpnOutbound f) (defaultVPN f) w.
Definition SetVPNOutbound f (d : option V) := mkForwarder (config f) (closed f) (connCount f) (pool f) (engine f) (outbounds f) (routeTable f) (ifaceCache f) (routeCache f) (dnsHijack f) d (defaultVPN f) (hosts f).
Definition SetDefaultVPN f (v : bool) := mkForwarder (config f) (closed f) (connCount f) (pool f) (engine f) (outbounds f) (routeTable f) (ifaceCache f) (routeCache f) (dnsHijack f) (vpnOutbound f) v (hosts f).

(** [NewForwarder]: the route table's refresh callback becomes the forwarder's. *)
Definition NewForwarder (cfg : Config) (p : option Pool) (e : option Engine)
    (outs : gmap string Direct) (rt : option RouteTable) (w : host_world K) : Forwarder K V :=
  mkForwarder cfg false 0 p e outs (OnRefresh <$> rt) ∅ ∅ (parseDNSHijack (DNSHijack cfg)) None false w.

Definition shouldHijackDNS f (ip : IP) (port : Z) : bool :=
  match dnsHijack f with
  | [] => false
  | hijacks =>
      match AddrFromSlice_Unmap ip with
      | None => false
      | Some addr =>
          let target := mkAddrPort addr port in
          existsb (fun hijack => bool_decide (hijack = target) ||
            (Addr_IsUnspecified (ap_Addr hijack) && (ap_Port hijack =? ap_Port target))) hijacks
      end
  end.

(** ** Route table, interfaces and host routes *)

(** [routeTable.Lookup]; a refresh flushes both caches before the answer. *)
Definition rt_Lookup (env : Env) f (rt : RouteTable.RouteTable) (ip : IP)
  : Forwarder K V * result (string * IP) :=
  let '(t0, now, now') := clock env in
  let r := if RouteTable.stale rt t0 then RouteTable.refresh (fetch env) rt now now'
           else mkRefreshed rt false None in
  let f := if rf_callback r then set_table f (Some (rf_table r)) ∅ ∅
           else set_table f (Some (rf_table r)) (ifaceCache f) (routeCache f) in
  (f, Table_Lookup (RouteTable.table (rf_table r)) ip).

Definition dialerForIface (env : Env) f (ifaceName : string) : Forwarder K V * NetDialer :=
  match ifaceCache f !! ifaceName with
  | Some d =>
      let '(d, dialer) := Dialer (os env) d in
      (set_ifaceCache f (<[ifaceName := d]> (ifaceCache f)), dialer)
  | None =>
      let '(d, _) := Init (os env) (NewDirect ifaceName []) in
      let '(d, dialer) := Dialer (os env) d in
      (set_ifaceCache f (<[ifaceName := d]> (ifaceCache f)), dialer)
  end.

(** The common shape of the two [ensure*HostRoute]: skip a cached route that is
    current, otherwise add it, cache and persist it. *)
Definition ensure_with (current : string -> host_world K -> host_world K * (bool * bool))
    (add : string -> host_world K -> host_world K * option error) f (ip : IP) : Forwarder K V :=
  if bool_decide (ip = []) || bool_decide (To4 ip = []) then f
  else
    let key := IP_String ip in
    let '(f, done) :=
      if bool_decide (key ∈ routeCache f) then
        let '(w, (cur, ok)) := current key (hosts f) in
        if ok && cur then (set_hosts f (routeCache f) w, true)
        else (set_hosts f (routeCache f ∖ {[key]}) w, false)
      else (f, false) in
    if done then f
    else
      let '(w, err) := add key (hosts f) in
      match err with
      | Some _ => set_hosts f (routeCache f) w
      | None => set_hosts f ({[key]} ∪ routeCache f) (rememberHostRoute ip w)
      end.
Definition ensureHostRoute f (ip : IP) (iface : string) (gateway : IP) : Forwarder K V :=
  ensure_with (fun key => hostRouteCurrent ops key iface gateway)
    (fun key => addHostRoute ops key iface gateway) f ip.
Definition ensureScopedHostRoute f (ip : IP) (iface : string) : Forwarder K V :=
  ensure_with (fun key => scopedHostRouteCurrent ops key iface)
    (fun key => addScopedHostRoute ops key iface) f ip.

Definition ensureDefaultHostRoute (env : Env) f (ip : IP) : Forwarder K V :=
  if bool_decide (ip = []) || bool_decide (To4 ip = []) then f
  else match routeTable f with
       | None => f
       | Some rt =>
           let '(f, r) := rt_Lookup env f rt ip in
           match r with
           | Err _ => f
           | Ok (iface, gateway) => ensureHostRoute f ip iface gateway
           end
       end.

(** [ob.ResolvedIfaceName()] of the outbound with this name. *)
Definition resolved_iface (env : Env) f (name : string) (ob : Direct) : Forwarder K V * string :=
  let '(ob, i) := ResolvedIfaceName (os env) ob in (set_outbounds f (<[name := ob]> (outbounds f)), i).

Definition ensureOutboundDNSRoute (env : Env) f (name : string) (ob : Direct) : Forwarder K V :=
  match SplitHostPort (UpstreamDNS (config f)) with
  | Err _ => f
  | Ok (host, _) =>
      let ip := ParseIP host in
      if bool_decide (ip = []) then f
      else let '(f, i) := resolved_iface env f name ob in ensureScopedHostRoute f ip i
  end.

(** ** The decision *)

(** The outbound a DIRECT action uses: its own, else the one named DIRECT. *)
Definition direct_outbound f (name : string) : option (string * Direct) :=
  match outbounds f !! name with
  | Some ob => Some (name, ob)
  | None => ob ← outbounds f !! "DIRECT"; Some ("DIRECT", ob)
  end.

Definition actionToTarget (env : Env) f (act : Action) (host port : string)
  : Forwarder K V * result (string * packetDialer V) :=
  match act_Type act with
  | ActionDirect =>
      match direct_outbound f (act_Outbound act) with
      | None => (f, Err (Errorf "outbound %q not found" [act_Outbound act]))
      | Some (name, ob) =>
          let '(ob, baseDialer) := DialerWithDNS (os env) ob in
          let f := set_outbounds f (<[name := ob]> (outbounds f)) in
          let ip := ParseIP host in
          if negb (bool_decide (ip = [])) then
            let '(f, i) := resolved_iface env f name ob in
            (ensureScopedHostRoute f ip i, Ok (JoinHostPort host port, BoundDialer baseDialer))
          else
            (ensureOutboundDNSRoute env f name ob,
             Ok (JoinHostPort host port, HostRouteDialer (BaseDialer baseDialer) (EnsureScoped name)))
      end
  | ActionVPN =>
      match vpnOutbound f with
      | Some vpn => (f, Ok (JoinHostPort host port, VPNDialer vpn))
      | None =>
          match outbounds f !! "DIRECT" with
          | None => (f, Err (Errorf "no VPN outbound and no DIRECT outbound" []))
          | Some ob =>
              let '(ob, d) := DialerWithDNS (os env) ob in
              (set_outbounds f (<["DIRECT" := ob]> (outbounds f)), Ok (JoinHostPort host port, BoundDialer d))
          end
      end
  end.

Definition defaultDomainTarget f (domain port : string) : string * packetDialer V :=
  (JoinHostPort domain port,
   HostRouteDialer (if negb (bool_decide (DefaultDNS (config f) = ""))
                    then RouteDNSDialer (DefaultDNS (config f))
                    else BaseDialer (mkNetDialer None SystemResolver)) EnsureDefault).

Definition vpnAction : Action := mkAction ActionVPN "VPN".

(** A name that no rule decides: the VPN in full-tunnel mode, else the system's route. *)
Definition defaultDomain (env : Env) f (domain port : string)
  : Forwarder K V * result (string * packetDialer V) :=
  if defaultVPN f then actionToTarget env f vpnAction domain port
  else (f, Ok (defaultDomainTarget f domain port)).

Definition resolve (env : Env) f (dstIP : IP) (dstPort : Z)
  : Forwarder K V * result (string * packetDialer V) :=
  let port := itoa dstPort in
  let in_pool := match pool f with Some p => InPool p dstIP | None => false end in
  if in_pool then
    match (p ← pool f; FakeIP.Lookup p dstIP) with
    | None => (f, Err (Errorf "fakeip: no mapping for %s" [IP_String dstIP]))
    | Some domain =>
        match engine f with
        | Some e =>
            match MatchDomain e domain with
            | None => defaultDomain env f domain port
            | Some act => actionToTarget env f act domain port
            end
        | None => defaultDomain env f domain port
        end
    end
  else
    match (e ← engine f; MatchIP e dstIP) with
    | Some act => actionToTarget env f act (IP_String dstIP) port
    | None =>
        if defaultVPN f then actionToTarget env f vpnAction (IP_String dstIP) port
        else match routeTable f with
             | Some rt =>
                 let '(f, r) := rt_Lookup env f rt dstIP in
                 match r with
                 | Err e => (f, Err (Wrapf "no route for %s: %w" [IP_String dstIP] e))
                 | Ok (ifaceName, gateway) =>
                     let f := ensureHostRoute f dstIP ifaceName gateway in
                     let '(f, d) := dialerForIface env f ifaceName in
                     (f, Ok (JoinHostPort (IP_String dstIP) port, BoundDialer d))
                 end
             | None => (f, Ok (JoinHostPort (IP_String dstIP) port, PlainDialer))
             end
    end.

(** ** Dialing through host routes ([ensureResolvedHostRoutes]) *)
Definition run_ensure (env : Env) (k : ensure_kind) f (ip : IP) : Forwarder K V :=
  match k with
  | EnsureDefault => ensureDefaultHostRoute env f ip
  | EnsureScoped name =>
      match outbounds f !! name with
      | Some ob => let '(f, i) := resolved_iface env f name ob in ensureScopedHostRoute f ip i
      | None => f
      end
  end.
Definition ensureResolvedHostRoutes (env : Env) (k : ensure_kind) f (address : string)
    (lookup : string -> result (list IP)) : Forwarder K V * option error :=
  match SplitHostPort address with
  | Err e => (f, Some e)
  | Ok (host, _) =>
      let ip := ParseIP host in
      if negb (bool_decide (ip = [])) then (run_ensure env k f ip, None)
      else match lookup host with
           | Err e => (f, Some e)
           | Ok addrs =>
               (foldl (fun f a => if bool_decide (a = []) then f else run_ensure env k f a) f addrs, None)
           end
  end.

(** ** Closing *)
Definition Close f : Forwarder K V :=
  let w := foldl (fun w ip => forgetHostRoute ip (deleteHostRoute ops ip w)) (hosts f) (elements (routeCache f)) in
  mkForwarder (config f) true (connCount f) (pool f) (engine f) (outbounds f) (routeTable f) (ifaceCache f)
    (routeCache f) (dnsHijack f) (vpnOutbound f) (defaultVPN f) w.

(** ** Packets from the TUN device *)
Definition byte_at (pkt : list Z) (i : nat) : Z := default 0 (pkt !! i).
(** The destination of an ICMP echo request, [None] for anything else. *)
Definition icmp_echo_dst (pkt : list Z) : option IP :=
  if (length pkt <? 20)%nat then None
  else
    let ihl := (Z.to_nat (Z.land (byte_at pkt 0) 15) * 4)%nat in
    if (ihl <? 20)%nat || (length pkt <? ihl + 8)%nat then None
    else if negb (byte_at pkt ihl =? 8) then None
    else Some (take 4 (drop 16 pkt)).
Definition handleICMPv4 (env : Env) f (pkt : list Z) : Forwarder K V :=
  match icmp_echo_dst pkt with
  | None => f
  | Some dstIP =>
      match engine f with
      | None => ensureDefaultHostRoute env f dstIP
      | Some e =>
          match MatchIP e dstIP with
          | None => ensureDefaultHostRoute env f dstIP
          | Some act =>
              match act_Type act with
              | ActionDirect =>
                  match direct_outbound f (act_Outbound act) with
                  | Some (name, ob) =>
                      let '(f, i) := resolved_iface env f name ob in ensureScopedHostRoute f dstIP i
                  | None => f
                  end
              | ActionVPN => f
              end
          end
      end
  end.
(** One packet of [tunReadLoop]: what is done with it. *)
Inductive inbound := Ignored | ICMP | InjectIPv4 | InjectIPv6.
Definition classify (pkt : list Z) : inbound :=
  if (length pkt =? 0)%nat then Ignored
  else if (20 <=? length pkt)%nat && (Z.shiftr (byte_at pkt 0) 4 =? 4) && (byte_at pkt 9 =? 1) then ICMP
  else
    let v := Z.land (Z.shiftr (byte_at pkt 0) 4) 15 in
    if v =? 4 then InjectIPv4 else if v =? 6 then InjectIPv6 else Ignored.
Definition mtu_of f : Z := if TUNMTU (config f) =? 0 then 1420 else TUNMTU (config f).

(** ** DNS over TCP ([handleDNSTCP]): the framing of query and response *)
Definition read_dns_frame (stream : list Z) : option (list Z * list Z) :=
  match stream with
  | hi :: lo :: rest =>
      let n := Z.to_nat (256 * hi + lo) in
      if (length rest <? n)%nat then None else Some (take n rest, drop n rest)
  | _ => None
  end.
Definition write_dns_frame (resp : list Z) : list Z :=
  let n := u16 (Z.of_nat (length resp)) in u8 (Z.shiftr n 8) :: u8 n :: resp.

(** ** Connection accounting *)
Definition trackConn f : Forwarder K V * bool :=
  let add n := mkForwarder (config f) (closed f) (connCount f + n) (pool f) (engine f) (outbounds f) (routeTable f) (ifaceCache f) (routeCache f) (dnsHijack f) (vpnOutbound f) (defaultVPN f) (hosts f) in
  if MaxConns (config f) <=? 0 then (f, true)
  else if MaxConns (config f) <? connCount (add 1) then (f, false)
  else (add 1, true).
Definition untrackConn f : Forwarder K V :=
  if 0 <? MaxConns (config f) then
    mkForwarder (config f) (closed f) (connCount f - 1) (pool f) (engine f) (outbounds f) (routeTable f) (ifaceCache f) (routeCache f) (dnsHijack f) (vpnOutbound f) (defaultVPN f) (hosts f)
  else f.

(** ** Dispatch of a new connection ([handleTCP], [handleUDP], [dispatch*]) *)
Inductive dispatched :=
| ToDNSServer
| Rejected
| Unresolved (e : error)
| Dial (target : string) (d : packetDialer V).
Definition dispatch (env : Env) f (dstIP : IP) (dstPort : Z) : Forwarder K V * dispatched :=
  if shouldHijackDNS f dstIP dstPort then (f, ToDNSServer)
  else
    let '(f, ok) := trackConn f in
    if negb ok then (f, Rejected)
    else
      let '(f, r) := resolve env f dstIP dstPort in
      match r with
      | Err e => (untrackConn f, Unresolved e)
      | Ok (target, d) => (f, Dial target d)
      end.
End forwarder.

(** ** The policy of a destination

    [policy]: the action of the rule that decides the destination, by name for
    an address of the fake pool and by address otherwise; [effective] adds the
    full-tunnel default. *)
Section policy.
Context {U : Unicode} {S : SliceSort} {K V : Type}.
Implicit Types f : Forwarder K V.

Definition fake_name f (ip : IP) : option string := p ← pool f; FakeIP.Lookup p ip.
Definition in_pool f (ip : IP) : bool := match pool f with Some p => InPool p ip | None => false end.
Definition policy f (ip : IP) : option Action :=
  if in_pool f ip then d ← fake_name f ip; e ← engine f; MatchDomain e d
  else e ← engine f; MatchIP e ip.
Definition effective f (ip : IP) : option ActionType :=
  match policy f ip with
  | Some a => Some (act_Type a)
  | None => if defaultVPN f then Some ActionVPN else None
  end.
Definition target_of f (ip : IP) (port : Z) : option string :=
  if in_pool f ip then d ← fake_name f ip; Some (JoinHostPort d (itoa port))
  else Some (JoinHostPort (IP_String ip) (itoa port)).
Definition is_vpn_dialer (d : packetDialer V) : bool := match d with VPNDialer _ => true | _ => false end.

Context (ops : host_ops K).

Lemma actionToTarget_Ok env f act host port f' t d :
  actionToTarget ops env f act host port = (f', Ok (t, d)) ->
  t = JoinHostPort host port /\
  (forall v, d = VPNDialer v -> act_Type act = ActionVPN /\ vpnOutbound f = Some v) /\
  (act_Type act = ActionVPN -> forall v, vpnOutbound f = Some v -> d = VPNDialer v).
Proof.
  unfold actionToTarget. destruct (act_Type act).
  - destruct (direct_outbound f (act_Outbound act)) as [[name ob]|]; [|done].
    destruct (DialerWithDNS (os env) ob) as [ob' base].
    destruct (negb _).
    + destruct (resolved_iface _ _ _ _) as [f1 i]. by intros [= <- <- <-].
    + by intros [= <- <- <-].
  - destruct (vpnOutbound f) as [v|].
    + intros [= <- <- <-]. split; [done|]. split; [|by intros _ v' [= <-]]. by intros v' [= <-].
    + destruct (outbounds f !! "DIRECT") as [ob|]; [|done].
      destruct (DialerWithDNS (os env) ob) as [ob' base]. by intros [= <- <- <-].
Qed.

Lemma actionToTarget_policy env f act host port f' t d (eff : option ActionType) :
  actionToTarget ops env f act host port = (f', Ok (t, d)) -> eff = Some (act_Type act) ->
  Some (JoinHostPort host port) = Some t /\
  (forall v, d = VPNDialer v -> eff = Some ActionVPN /\ vpnOutbound f = Some v) /\
  (eff = Some ActionVPN -> forall v, vpnOutbound f = Some v -> d = VPNDialer v).
Proof.
  intros (-> & H1 & H2)%actionToTarget_Ok ->. split; [done|]. split.
  - intros v Hv. destruct (H1 v Hv) as [-> ?]. done.
  - intros [= Ha]. by apply H2.
Qed.

(** What a successful [resolve] did, in terms of the policy. *)
Lemma resolve_Ok env f ip port f' t d :
  resolve ops env f ip port = (f', Ok (t, d)) ->
  target_of f ip port = Some t /\
  (forall v, d = VPNDialer v -> effective f ip = Some ActionVPN /\ vpnOutbound f = Some v) /\
  (effective f ip = Some ActionVPN -> forall v, vpnOutbound f = Some v -> d = VPNDialer v).
Proof.
  unfold resolve, target_of, effective, policy, fake_name, in_pool.
  set (inp := match pool f with Some p => InPool p ip | None => false end).
  destruct inp.
  - destruct (p ← pool f; FakeIP.Lookup p ip) as [domain|]; [|done].
    cbn [mbind option_bind]. unfold defaultDomain, defaultDomainTarget.
    destruct (engine f) as [e|]; cbn [mbind option_bind];
      [destruct (MatchDomain e domain) as [act|]|]; [|destruct (defaultVPN f)..].
    all: try solve [intros H; by eapply actionToTarget_policy in H].
    all: cbn; by intros [= <- <- <-].
  - destruct (e ← engine f; MatchIP e ip) as [act|];
      [intros H; by eapply actionToTarget_policy in H|].
    destruct (defaultVPN f); [intros H; by eapply actionToTarget_policy in H|].
    destruct (routeTable f) as [rt|]; [|by intros [= <- <- <-]].
    destruct (rt_Lookup env f rt ip) as [f1 [[i g]|]]; [|done].
    destruct (dialerForIface env _ i) as [f2 nd]. by intros [= <- <- <-].
Qed.
End policy.

(** ** The cache of host routes is persisted *)
Section cache.
Context {U : Unicode} {S : SliceSort} {K V : Type} (ops : host_ops K) {L : HostOpsLaws ops}.
Implicit Types f : Forwarder K V.

Definition cache_ok f : Prop :=
  hwritable (hosts f) = true /\ routeCache f ⊆ loadPersistedHostRoutesLocked (hosts f).

Lemma ensure_with_ok cur add f ip :
  (forall key w, same_records w (fst (cur key w))) ->
  (forall key w, only_forgets key w (fst (add key w))) ->
  bytes_ok ip -> cache_ok f -> cache_ok (ensure_with cur add f ip).
Proof.
  intros Hcur Hadd Hb Hok. pose proof Hok as [Hw Hc]. unfold ensure_with.
  destruct (decide (ip = [])) as [He|He]; [by rewrite (bool_decide_eq_true_2 (ip = []))|].
  destruct (decide (To4 ip = [])) as [H4|H4];
    [by rewrite (bool_decide_eq_true_2 (To4 ip = [])), orb_true_r|].
  rewrite !bool_decide_eq_false_2 by done. cbn [orb].
  set (key := IP_String ip).
  assert (forall f1, hwritable (hosts f1) = true ->
    routeCache f1 ∖ {[key]} ⊆ loadPersistedHostRoutesLocked (hosts f1) -> key ∉ routeCache f1 ->
    cache_ok (let '(w, err) := add key (hosts f1) in
      match err with
      | Some _ => set_hosts f1 (routeCache f1) w
      | None => set_hosts f1 ({[key]} ∪ routeCache f1) (rememberHostRoute ip w)
      end)) as Hrest.
  { intros f1 Hw1 Hc1 Hk. destruct (Hadd key (hosts f1)) as [Hw2 Hf].
    destruct (Hf Hw1) as [Hsub _]. destruct (add key (hosts f1)) as [w [e|]]; cbn [fst] in *;
      (split; cbn; [rewrite ?remember_writable; congruence|]).
    - set_solver.
    - rewrite load_remember by (done || congruence). set_solver. }
  case_bool_decide as Hin.
  - pose proof (Hcur key (hosts f)) as Hs. destruct (cur key (hosts f)) as [w [c k]]. cbn [fst] in Hs.
    pose proof (same_records_load _ _ Hs) as Hl. destruct Hs as [_ Hw2].
    destruct (k && c).
    + split; cbn; [congruence | by rewrite Hl].
    + apply Hrest; cbn; [congruence|rewrite Hl|]; set_solver.
  - apply Hrest; [done|set_solver|done].
Qed.

Lemma ensureHostRoute_ok f ip i g : bytes_ok ip -> cache_ok f -> cache_ok (ensureHostRoute ops f ip i g).
Proof. intros. apply ensure_with_ok; auto using law_current, law_add. Qed.
Lemma ensureScopedHostRoute_ok f ip i : bytes_ok ip -> cache_ok f -> cache_ok (ensureScopedHostRoute ops f ip i).
Proof. intros. apply ensure_with_ok; auto using law_scoped_current, law_scoped. Qed.

Lemma rt_Lookup_ok env f rt ip : cache_ok f -> cache_ok (fst (rt_Lookup env f rt ip)).
Proof.
  intros [Hw Hc]. unfold rt_Lookup. destruct (clock env) as [[t0 n] n'].
  destruct (rf_callback _); (split; [done|]); cbn; [set_solver | done].
Qed.
Lemma resolved_iface_ok env f n ob : cache_ok f -> cache_ok (fst (resolved_iface env f n ob)).
Proof. unfold resolved_iface. by destruct (ResolvedIfaceName (os env) ob). Qed.
Lemma dialerForIface_ok env f i : cache_ok f -> cache_ok (fst (dialerForIface env f i)).
Proof.
  unfold dialerForIface. destruct (ifaceCache f !! i) as [d|].
  - by destruct (Dialer (os env) d).
  - destruct (Init (os env) _) as [d e]. by destruct (Dialer (os env) d).
Qed.
Lemma ensureDefaultHostRoute_ok env f ip :
  bytes_ok ip -> cache_ok f -> cache_ok (ensureDefaultHostRoute ops env f ip).
Proof.
  intros Hb Hf. unfold ensureDefaultHostRoute. destruct (_ || _); [done|].
  destruct (routeTable f) as [rt|]; [|done]. pose proof (rt_Lookup_ok env f rt ip Hf) as H.
  destruct (rt_Lookup env f rt ip) as [f1 [[i g]|]]; [by apply ensureHostRoute_ok | done].
Qed.
Lemma ParseIP_bytes s : bytes_ok (ParseIP s).
Proof.
  unfold ParseIP. destruct (ParseAddr s) eqn:E; [|constructor].
  apply ParseAddr_ok in E. apply To16_ok in E as [[_ ?] _]. done.
Qed.
Lemma ensureOutboundDNSRoute_ok env f n ob : cache_ok f -> cache_ok (ensureOutboundDNSRoute ops env f n ob).
Proof.
  intros Hf. unfold ensureOutboundDNSRoute. destruct (SplitHostPort _) as [[h p]|]; [|done].
  case_bool_decide; [done|]. pose proof (resolved_iface_ok env f n ob Hf) as H'.
  destruct (resolved_iface env f n ob) as [f1 i]. by apply ensureScopedHostRoute_ok; [apply ParseIP_bytes|].
Qed.
Lemma actionToTarget_ok env f a h p : cache_ok f -> cache_ok (fst (actionToTarget ops env f a h p)).
Proof.
  intros Hf. unfold actionToTarget. destruct (act_Type a).
  - destruct (direct_outbound f _) as [[n ob]|]; [|done].
    destruct (DialerWithDNS (os env) ob) as [ob' nd].
    set (f1 := set_outbounds f _). assert (cache_ok f1) as H1 by done. destruct (negb _).
    + pose proof (resolved_iface_ok env f1 n ob' H1) as H'.
      destruct (resolved_iface env f1 n ob') as [f2 i].
      by apply ensureScopedHostRoute_ok; [apply ParseIP_bytes|].
    + by apply ensureOutboundDNSRoute_ok.
  - destruct (vpnOutbound f); [done|]. destruct (outbounds f !! "DIRECT") as [ob|]; [|done].
    by destruct (DialerWithDNS (os env) ob).
Qed.
Lemma defaultDomain_ok env f d p : cache_ok f -> cache_ok (fst (defaultDomain ops env f d p)).
Proof. intros Hf. unfold defaultDomain. destruct (defaultVPN f); [by apply actionToTarget_ok | done]. Qed.
Lemma resolve_ok env f ip port : bytes_ok ip -> cache_ok f -> cache_ok (fst (resolve ops env f ip port)).
Proof.
  intros Hb Hf. unfold resolve. cbn zeta. destruct (match pool f with Some p => _ | None => _ end).
  - destruct (p ← pool f; FakeIP.Lookup p ip); [|done].
    destruct (engine f) as [e|]; [destruct (MatchDomain e s)|];
      auto using actionToTarget_ok, defaultDomain_ok.
  - destruct (e ← engine f; MatchIP e ip); [by apply actionToTarget_ok|].
    destruct (defaultVPN f); [by apply actionToTarget_ok|].
    destruct (routeTable f) as [rt|]; [|done]. pose proof (rt_Lookup_ok env f rt ip Hf) as H.
    destruct (rt_Lookup env f rt ip) as [f1 [[i g]|]]; [|done]. cbn [fst] in H.
    pose proof (dialerForIface_ok env _ i (ensureHostRoute_ok f1 ip i g Hb H)) as H2.
    by destruct (dialerForIface env _ i).
Qed.
Lemma run_ensure_ok env k f ip : bytes_ok ip -> cache_ok f -> cache_ok (run_ensure ops env k f ip).
Proof.
  intros Hb Hf. destruct k as [|n]; cbn; [by apply ensureDefaultHostRoute_ok|].
  destruct (outbounds f !! n) as [ob|]; [|done]. pose proof (resolved_iface_ok env f n ob Hf) as H'.
  destruct (resolved_iface env f n ob) as [f1 i]. by apply ensureScopedHostRoute_ok.
Qed.
Lemma ensureResolved_ok env k f addr lookup :
  (forall h l, lookup h = Ok l -> Forall bytes_ok l) -> cache_ok f ->
  cache_ok (fst (ensureResolvedHostRoutes ops env k f addr lookup)).
Proof.
  intros Hl Hf. unfold ensureResolvedHostRoutes. destruct (SplitHostPort addr) as [[h p]|]; [|done].
  destruct (negb _); [apply run_ensure_ok; [apply ParseIP_bytes | done]|].
  destruct (lookup h) as [l|] eqn:E; [|done]. specialize (Hl h l E). clear E. cbn [fst].
  revert f Hf. induction Hl as [|a l Ha _ IH]; intros f Hf; cbn; [done|].
  apply IH. case_bool_decide; [done | by apply run_ensure_ok].
Qed.
Lemma handleICMPv4_ok env f pkt : bytes_ok pkt -> cache_ok f -> cache_ok (handleICMPv4 ops env f pkt).
Proof.
  intros Hb Hf. unfold handleICMPv4. destruct (icmp_echo_dst pkt) as [ip|] eqn:E; [|done].
  assert (bytes_ok ip) as Hip.
  { unfold icmp_echo_dst in E. repeat (case_match; try done). injection E as <-.
    by apply Forall_take, Forall_drop. }
  destruct (engine f) as [e|]; [|by apply ensureDefaultHostRoute_ok].
  destruct (MatchIP e ip) as [a|]; [|by apply ensureDefaultHostRoute_ok].
  destruct (act_Type a); [|done]. destruct (direct_outbound f _) as [[n ob]|]; [|done].
  pose proof (resolved_iface_ok env f n ob Hf) as H'.
  destruct (resolved_iface env f n ob) as [f1 i]. by apply ensureScopedHostRoute_ok.
Qed.
End cache.

(** ** Traffic changes neither the rules nor the mode *)
Section mode.
Context {U : Unicode} {S : SliceSort} {K V : Type} (ops : host_ops K).
Implicit Types f : Forwarder K V.

Definition mode_of f := (engine f, defaultVPN f, vpnOutbound f, pool f).

Lemma ensure_with_mode cur add f ip : mode_of (ensure_with cur add f ip) = mode_of f.
Proof.
  unfold ensure_with. destruct (_ || _); [done|]. cbn zeta. destruct (bool_decide _).
  - destruct (cur _ _) as [w [c k]]. destruct (k && c); [done|]. by destruct (add _ _) as [w2 [e|]].
  - by destruct (add _ _) as [w2 [e|]].
Qed.
Lemma rt_Lookup_mode env f rt ip : mode_of (fst (rt_Lookup env f rt ip)) = mode_of f.
Proof. unfold rt_Lookup. destruct (clock env) as [[t0 n] n']. by destruct (rf_callback _). Qed.
Lemma resolved_iface_mode env f n ob : mode_of (fst (resolved_iface env f n ob)) = mode_of f.
Proof. unfold resolved_iface. by destruct (ResolvedIfaceName (os env) ob). Qed.
Lemma ensureDefaultHostRoute_mode env f ip : mode_of (ensureDefaultHostRoute ops env f ip) = mode_of f.
Proof.
  unfold ensureDefaultHostRoute. destruct (_ || _); [done|]. destruct (routeTable f) as [rt|]; [|done].
  pose proof (rt_Lookup_mode env f rt ip) as H. destruct (rt_Lookup env f rt ip) as [f1 [[i g]|]]; [|done].
  cbn [fst] in H. rewrite <- H. apply ensure_with_mode.
Qed.
Lemma dialerForIface_mode env f i : mode_of (fst (dialerForIface env f i)) = mode_of f.
Proof.
  unfold dialerForIface. destruct (ifaceCache f !! i) as [d|].
  - by destruct (Dialer (os env) d).
  - destruct (Init (os env) _) as [d e]. by destruct (Dialer (os env) d).
Qed.
Lemma ensureScoped_after_mode env f n ob ip :
  mode_of (let '(f, i) := resolved_iface env f n ob in ensureScopedHostRoute ops f ip i) = mode_of f.
Proof.
  pose proof (resolved_iface_mode env f n ob) as H. destruct (resolved_iface env f n ob) as [f1 i].
  cbn [fst] in H. rewrite <- H. apply ensure_with_mode.
Qed.
Lemma ensureOutboundDNSRoute_mode env f n ob : mode_of (ensureOutboundDNSRoute ops env f n ob) = mode_of f.
Proof.
  unfold ensureOutboundDNSRoute. destruct (SplitHostPort _) as [[h p]|]; [|done].
  case_bool_decide; [done|]. apply ensureScoped_after_mode.
Qed.
Lemma actionToTarget_mode env f a h p : mode_of (fst (actionToTarget ops env f a h p)) = mode_of f.
Proof.
  unfold actionToTarget. destruct (act_Type a).
  - destruct (direct_outbound f _) as [[n ob]|]; [|done].
    destruct (DialerWithDNS (os env) ob) as [ob' nd]. destruct (negb _).
    + pose proof (resolved_iface_mode env (set_outbounds f (<[n:=ob']> (outbounds f))) n ob') as H.
      destruct (resolved_iface env _ n ob') as [f2 i]. cbn [fst] in *.
      etransitivity; [apply ensure_with_mode | exact H].
    + cbn [fst]. by rewrite ensureOutboundDNSRoute_mode.
  - destruct (vpnOutbound f); [done|]. destruct (outbounds f !! "DIRECT") as [ob|]; [|done].
    by destruct (DialerWithDNS (os env) ob).
Qed.
Lemma resolve_mode env f ip port : mode_of (fst (resolve ops env f ip port)) = mode_of f.
Proof.
  unfold resolve, defaultDomain. cbn zeta. destruct (match pool f with Some p => _ | None => _ end).
  - destruct (p ← pool f; FakeIP.Lookup p ip); [|done].
    destruct (engine f) as [e|]; [destruct (MatchDomain e s)|];
      first [apply actionToTarget_mode | destruct (defaultVPN f); [apply actionToTarget_mode | done]].
  - destruct (e ← engine f; MatchIP e ip); [apply actionToTarget_mode|].
    destruct (defaultVPN f); [apply actionToTarget_mode|].
    destruct (routeTable f) as [rt|]; [|done]. pose proof (rt_Lookup_mode env f rt ip) as H.
    destruct (rt_Lookup env f rt ip) as [f1 [[i g]|]]; [|done]. cbn [fst] in *.
    pose proof (dialerForIface_mode env (ensureHostRoute ops f1 ip i g) i) as H2.
    destruct (dialerForIface env _ i). cbn [fst] in *. rewrite H2, <- H. apply ensure_with_mode.
Qed.
Lemma dispatch_mode env f ip port : mode_of (fst (dispatch ops env f ip port)) = mode_of f.
Proof.
  unfold dispatch, trackConn, untrackConn. destruct (shouldHijackDNS f ip port); [done|].
  destruct (MaxConns (config f) <=? 0); cbn [negb].
  - pose proof (resolve_mode env f ip port) as H. destruct (resolve ops env f ip port) as [f1 [[t d]|e]]; cbn [fst] in *; [done|].
    by destruct (0 <? MaxConns (config f1)).
  - cbn [connCount]. destruct (MaxConns (config f) <? connCount f + 1); [done|]. cbn [negb].
    match goal with |- context [resolve ops env ?g ip port] => pose proof (resolve_mode env g ip port) as H end.
    destruct (resolve ops env _ ip port) as [f1 [[t d]|e]]; cbn [fst] in *; [done|].
    by destruct (0 <? MaxConns (config f1)).
Qed.
Lemma handleICMPv4_mode env f pkt : mode_of (handleICMPv4 ops env f pkt) = mode_of f.
Proof.
  unfold handleICMPv4. destruct (icmp_echo_dst pkt) as [ip|]; [|done].
  destruct (engine f) as [e|]; [|apply ensureDefaultHostRoute_mode].
  destruct (MatchIP e ip) as [a|]; [|apply ensureDefaultHostRoute_mode].
  destruct (act_Type a); [|done]. destruct (direct_outbound f _) as [[n ob]|]; [|done].
  apply ensureScoped_after_mode.
Qed.
End mode.

(** ** Connection accounting under concurrency

    [trackConn] adds, compares and perhaps undoes in separate atomic steps, so
    any number of connections may be between the two. [conns] is one phase per
    goroutine. *)
Inductive phase :=
| Idle
| Added (n : Z)      (** after [connCount.Add(1)] returned [n] *)
| Active             (** [trackConn] returned true *)
| Finished.
Record tracker := mkTracker { count : Z; conns : list phase }.

Inductive track_step (maxConns : Z) : tracker -> tracker -> Prop :=
| step_add t i : conns t !! i = Some Idle ->
    track_step maxConns t (mkTracker (count t + 1) (<[i := Added (count t + 1)]> (conns t)))
| step_accept t i n : conns t !! i = Some (Added n) -> n <= maxConns ->
    track_step maxConns t (mkTracker (count t) (<[i := Active]> (conns t)))
| step_reject t i n : conns t !! i = Some (Added n) -> maxConns < n ->
    track_step maxConns t (mkTracker (count t - 1) (<[i := Finished]> (conns t)))
| step_untrack t i : conns t !! i = Some Active ->
    track_step maxConns t (mkTracker (count t - 1) (<[i := Finished]> (conns t))).

(** How much one goroutine adds to the counter, and to the connections that are
    or will be active. *)
Definition counted (p : phase) : Z := match p with Added _ | Active => 1 | _ => 0 end.
Definition admitted (maxConns : Z) (p : phase) : Z :=
  match p with Active => 1 | Added n => if n <=? maxConns then 1 else 0 | _ => 0 end.
Definition is_active (p : phase) : Z := match p with Active => 1 | _ => 0 end.
Fixpoint total {A} (w : A -> Z) (l : list A) : Z :=
  match l with [] => 0 | x :: l' => w x + total w l' end.

Lemma total_insert {A} (w : A -> Z) l i x y :
  l !! i = Some x -> total w (<[i := y]> l) = total w l - w x + w y.
Proof.
  revert i. induction l as [|z l IH]; intros [|i] Hi; cbn in *; try done.
  - injection Hi as ->. lia.
  - rewrite IH by done. lia.
Qed.
Lemma total_mono {A} (w v : A -> Z) l : (forall x, w x <= v x) -> total w l <= total v l.
Proof. intros H. induction l as [|x l IH]; cbn; [lia|]. specialize (H x). lia. Qed.
Lemma total_zero {A} (w : A -> Z) l x : (w x = 0) -> Forall (fun y => y = x) l -> total w l = 0.
Proof. intros Hx. induction 1 as [|y l -> _ IH]; cbn; lia. Qed.

Definition tracker_ok (maxConns : Z) (t : tracker) : Prop :=
  count t = total counted (conns t) /\ total (admitted maxConns) (conns t) <= maxConns.

Lemma track_step_ok m t t' : tracker_ok m t -> track_step m t t' -> tracker_ok m t'.
Proof.
  intros [Hc Ha] Hs. destruct Hs as [t i Hi|t i n Hi Hn|t i n Hi Hn|t i Hi];
    unfold tracker_ok in *; cbn [count conns];
    rewrite (total_insert counted _ _ _ _ Hi), (total_insert (admitted m) _ _ _ _ Hi); cbn [counted admitted].
  - split; [lia|]. destruct (Z.leb_spec (count t + 1) m); [|lia].
    assert (total (admitted m) (conns t) <= total counted (conns t)); [|lia].
    apply total_mono. intros [|n| |]; cbn; try lia. destruct (n <=? m); lia.
  - rewrite (proj2 (Z.leb_le _ _)) by lia. split; lia.
  - rewrite (proj2 (Z.leb_gt _ _)) by lia. split; lia.
  - split; lia.
Qed.

(** ** Properties *)

(** C16: The VPN carries exactly the traffic the policy sends there. When [resolve]
    succeeds, the dialer is the VPN's if and only if the VPN is connected and
    the effective policy of the destination is VPN: the action of the first
    rule matching the destination (by the recorded name for a fake address, by
    address otherwise), or, if none matches, VPN in full-tunnel mode and not
    otherwise. The target is the recorded name for a fake address and the
    address itself otherwise, never a fake address. *)
Theorem resolve_policy {U : Unicode} {S : SliceSort} {K V} (ops : host_ops K) env
    (f : Forwarder K V) ip port f' t d :
  resolve ops env f ip port = (f', Ok (t, d)) ->
  (is_vpn_dialer d = true <-> effective f ip = Some ActionVPN /\ is_Some (vpnOutbound f)) /\
  target_of f ip port = Some t /\
  (forall v, d = VPNDialer v -> vpnOutbound f = Some v).
Proof.
  intros (Ht & Hv & Hb)%resolve_Ok. split; [|split; [done|]].
  - split.
    + destruct d as [| | |v]; try done. intros _. destruct (Hv v eq_refl) as [-> ->]. by eauto.
    + intros [He [v Hs]]. by rewrite (Hb He v Hs).
  - intros v Hd. by apply Hv.
Qed.

(** A fake address without a recorded name is refused: nothing is dialed and
    the forwarder's state does not change. *)
Theorem resolve_unknown_fake {U : Unicode} {S : SliceSort} {K V} (ops : host_ops K) env
    (f : Forwarder K V) ip port :
  in_pool f ip = true -> fake_name f ip = None ->
  resolve ops env f ip port = (f, Err (Errorf "fakeip: no mapping for %s" [IP_String ip])).
Proof. unfold in_pool, fake_name, resolve. intros -> ->. done. Qed.


(** However the steps of concurrent connections interleave, at most [maxConns]
    connections are active at any moment, the counter always equals the number
    of connections between their increment and their decrement, and once all
    have finished it is back to zero. *)
Theorem active_conns_bounded m t n :
  0 < m ->
  rtc (track_step m) (mkTracker 0 (replicate n Idle)) t ->
  total is_active (conns t) <= m /\ count t = total counted (conns t) /\
  (Forall (fun p => p = Finished) (conns t) -> count t = 0).
Proof.
  intros Hm Hr. assert (tracker_ok m t) as [Hc Ha].
  { assert (tracker_ok m (mkTracker 0 (replicate n Idle))) as H0.
    { split; cbn; rewrite (total_zero _ _ Idle); try done; try lia; by apply Forall_replicate. }
    revert H0. induction Hr as [|t1 t2 t3 Hs _ IH]; [done|]. intros H0. by apply IH, (track_step_ok m t1). }
  split; [|split; [done|]].
  - etransitivity; [|exact Ha]. apply total_mono. intros [|k| |]; cbn; try lia. destruct (k <=? m); lia.
  - intros Hf. rewrite Hc. by apply (total_zero _ _ Finished).
Qed.

(** The framing of DNS over TCP is lossless: a response of fewer than 65536
    bytes is written so that reading one frame back gives exactly that response
    and leaves what follows. *)
Theorem dns_frame_roundtrip resp rest :
  Z.of_nat (length resp) < 65536 ->
  read_dns_frame (write_dns_frame resp ++ rest) = Some (resp, rest).
Proof.
  intros Hl. unfold write_dns_frame. set (n := Z.of_nat (length resp)) in *.
  assert (u16 n = n) as Hu by (apply Z.mod_small; change (2 ^ 16) with 65536; lia).
  cbn zeta. rewrite Hu. cbn [app read_dns_frame].
  assert (256 * u8 (Z.shiftr n 8) + u8 n = n) as ->.
  { unfold u8. rewrite Z.shiftr_div_pow2 by lia. change (2 ^ 8) with 256.
    rewrite (Z.mod_small (n / 256)); [|split; [apply Z.div_pos|apply Z.div_lt_upper_bound]; lia].
    pose proof (Z.div_mod n 256). lia. }
  unfold n. rewrite Nat2Z.id, length_app.
  destruct (Nat.ltb_spec (length resp + length rest) (length resp)); [lia|].
  by rewrite take_app_length, drop_app_length.
Qed.

(** ** Witnesses *)
Definition no_env : Env :=
  mkEnv (mkOS (Ok []) (fun _ => Ok []) (fun _ => Err (Errorf "" [])) (Err (Errorf "" [])) false)
    (fun _ => Ok []) (0, 0, 0).
Definition fwd0 : Forwarder unit nat :=
  mkForwarder (mkConfig "utun5" "" 30 0 2 "" "" []) false 0 (Some (Assign_pool pool30 "git.corp.cn"))
    (Some (mkEngine [Rule.mkEntry kindDomainSuffix "corp.cn" None VPN] [] None)) ∅ None ∅ ∅ [] (Some 7%nat) false
    (mkHostWorld tt NoHostFile true).

Lemma resolve_policy_witness :
  let _ := ascii_only in let _ := insertion_SliceSort in
  effective fwd0 [198; 18; 0; 1] = Some ActionVPN /\ target_of fwd0 [198; 18; 0; 1] 443 = Some "git.corp.cn:443".
Proof.
  cbn zeta.
  destruct (@resolve_policy ascii_only insertion_SliceSort unit nat (fallback_ops unit) no_env fwd0 [198; 18; 0; 1] 443
    fwd0 "git.corp.cn:443" (VPNDialer 7%nat) ltac:(vm_compute; reflexivity)) as (H & Ht & _).
  split; [exact (proj1 (proj1 H eq_refl)) | exact Ht].
Defined.

Lemma resolve_unknown_fake_witness :
  let _ := ascii_only in let _ := insertion_SliceSort in
  resolve (fallback_ops unit) no_env fwd0 [198; 18; 0; 2] 80 =
    (fwd0, Err (Errorf "fakeip: no mapping for %s" ["198.18.0.2"])).
Proof.
  cbn zeta. apply (@resolve_unknown_fake ascii_only insertion_SliceSort); vm_compute; reflexivity.
Defined.


Lemma active_conns_bounded_witness :
  let t := mkTracker 2 [Added 2; Added 1] in total is_active (conns t) <= 1.
Proof.
  cbn zeta. refine (proj1 (active_conns_bounded 1 (mkTracker 2 [Added 2; Added 1]) 2 _ _)); [reflexivity|].
  eapply rtc_l; [apply (step_add 1 _ 1%nat); reflexivity|].
  eapply rtc_l; [apply (step_add 1 _ 0%nat); reflexivity|]. apply rtc_refl.
Defined.

Lemma dns_frame_roundtrip_witness : read_dns_frame (write_dns_frame [1; 2; 3] ++ [9]) = Some ([1; 2; 3], [9]).
Proof. apply dns_frame_roundtrip. reflexivity. Defined.
