(* ===== verification/GeoIP.v ===== *)
(** * internal/geoip: the country database

    [geoip.go] and [embed.go].  A [maxminddb] reader is a parameter: its lookup
    gives the [country.iso_code] of the record found, [""] when there is none. *)
From S2P Require Import Prelude GoStrings GoNet Rule.
Open Scope string_scope.
Open Scope list_scope.
Open Scope Z_scope.

Section geoip.
(** [*maxminddb.Reader] and its [Lookup] into the country record. *)
Context {Reader : Type} (reader_Lookup : Reader -> IP -> result string).
Context (maxminddb_Open : string -> result Reader).
(** [maxminddb.FromBytes] of the embedded database, [None] when it is empty. *)
Context (embedded : option (result Reader)).

Record DB := mkDB { reader : option Reader }.

Definition openEmbedded : result DB :=
  match embedded with
  | None => Ok (mkDB None)
  | Some (Err e) => Err e
  | Some (Ok r) => Ok (mkDB (Some r))
  end.
Definition Open_ (path : string) : result DB :=
  if bool_decide (path = "") then openEmbedded
  else match maxminddb_Open path with
       | Err e => Err (Wrapf "geoip: open %q: %w" [path] e)
       | Ok r => Ok (mkDB (Some r))
       end.
Definition Country (db : DB) (ip : IP) : result string :=
  match reader db with
  | None => Ok ""
  | Some r =>
      match reader_Lookup r ip with
      | Err e => Err (Wrapf "geoip: lookup %v: %w" [IP_String ip] e)
      | Ok code => Ok code
      end
  end.
Definition IsChina (db : DB) (ip : IP) : bool :=
  match Country db ip with
  | Err _ => false
  | Ok cc => bool_decide (cc = "CN")
  end.

(** The database as the rule engine sees it. *)
Definition as_GeoIPDB (db : DB) : GeoIPDB := Country db.
End geoip.
