(* ===== verification/Socks5.v ===== *)
(** * internal/socks5proxy: the local SOCKS5 listener

    [server.go] without the protocol, which go-socks5 serves: [Start] checks
    the configuration and listens, [Close] stops listening once. [listeners]
    holds the addresses this process listens on. *)
From S2P Require Import Prelude GoStrings GoNet.
From S2P Require Config.
Open Scope string_scope.
Open Scope list_scope.
Open Scope Z_scope.

Record Config := mkConfig { Enabled : bool; BindHost : string; Port : Z }.
(** [stopped] is the state of [once]; [Addr] is what the kernel bound, which
    differs from the configured address when the port is 0. *)
Record Server := mkServer { listener : string; stopped : bool }.

Section socks5.
(** [net.Listen "tcp" addr]: the bound address. *)
Context (Listen : string -> gset string -> result string).

Definition Start (cfg : Config) (listeners : gset string) : gset string * result (option Server) :=
  if negb (Enabled cfg) then (listeners, Ok None)
  else if bool_decide (BindHost cfg = "") then (listeners, Err (Errorf "socks5 bind host is empty" []))
  else if (Port cfg <? 0) || (65535 <? Port cfg) then
    (listeners, Err (Errorf "socks5 port must be between 0 and 65535" []))
  else
    let addr := JoinHostPort (BindHost cfg) (itoa (Port cfg)) in
    match Listen addr listeners with
    | Err e => (listeners, Err (Wrapf "listen socks5 %s: %w" [addr] e))
    | Ok ln => ({[ln]} ∪ listeners, Ok (Some (mkServer ln false)))
    end.

Definition Addr (s : option Server) : string :=
  match s with None => "" | Some s => listener s end.

Definition Close (s : option Server) (listeners : gset string) : option Server * gset string :=
  match s with
  | None => (None, listeners)
  | Some s =>
      if stopped s then (Some s, listeners)
      else (Some (mkServer (listener s) true), listeners ∖ {[listener s]})
  end.
End socks5.

(** [net.Listen] never hands out an address that is already bound. *)
Definition fresh_listener (Listen : string -> gset string -> result string) : Prop :=
  forall addr l ln, Listen addr l = Ok ln -> ln ∉ l.

Lemma Start_Close Listen cfg l l' s :
  fresh_listener Listen -> Start Listen cfg l = (l', Ok s) ->
  snd (Close s l') = l /\ Close (fst (Close s l')) (snd (Close s l')) = Close s l'.
Proof.
  unfold Start. intros Hf. destruct (negb (Enabled cfg)); [by intros [= <- <-]|].
  destruct (bool_decide _); [done|]. destruct (_ || _); [done|].
  destruct (Listen _ l) as [ln|e] eqn:E; [|done]. apply Hf in E. intros [= <- <-]. cbn.
  split; [set_solver | done].
Qed.
