(* ===== verification/Tun.v ===== *)
(** * internal/tun: the TUN device

    [tun.go] and the address configuration of [tun_darwin.go], [tun_linux.go],
    [tun_windows.go] and [tun_fallback.go]. The kernel's device is a parameter:
    [CreateTUN] opens one and gives its actual name, commands run through [Run]. *)
From S2P Require Import Prelude GoStrings GoNet.
Open Scope string_scope.
Open Scope list_scope.
Open Scope Z_scope.

Record Config := mkConfig { Name : string; cfg_IP : string; Mask : Z; MTU : Z }.
Record Device := mkDevice { dev_Name : string; config : Config }.

(** [peerIP[3]++] on a byte. *)
Definition next_ip (ip : IP) : IP := alter (fun b => u8 (b + 1)) 3%nat ip.

Definition PeerIP (d : Device) : string :=
  let ip := To4 (ParseIP (cfg_IP (config d))) in
  if bool_decide (ip = []) then "" else IP_String (next_ip ip).

(** The operating systems with a configuration of their own. *)
Inductive goos := Darwin | Linux | Windows | Other.

Section tun.
(** The kernel: the open devices, and the commands run so far, last first. *)
Record world := mkWorld { open_devs : gset string; ran : list (list string) }.
Context (CreateTUN : string -> Z -> gset string -> result string).
(** Whether a command fails, given those that ran before. *)
Context (fails : list string -> list (list string) -> option error).

Definition Run (cmd : list string) (w : world) : world * option error :=
  (mkWorld (open_devs w) (cmd :: ran w), fails cmd (ran w)).

Definition invalid_ip (d : Device) : error := Errorf "invalid IPv4 address: %s" [cfg_IP (config d)].
Definition darwin_configureIP (d : Device) (w : world) : world * option error :=
  let ip := To4 (ParseIP (cfg_IP (config d))) in
  if bool_decide (ip = []) then (w, Some (invalid_ip d))
  else Run ["ifconfig"; dev_Name d; "inet"; IP_String ip; IP_String (next_ip ip);
            "netmask"; IP_String (CIDRMask (Mask (config d)) 32); "up"] w.
Definition linux_configureIP (d : Device) (w : world) : world * option error :=
  let ip := To4 (ParseIP (cfg_IP (config d))) in
  if bool_decide (ip = []) then (w, Some (invalid_ip d))
  else
    let '(w, err) := Run ["ip"; "addr"; "add"; IP_String ip +:+ "/" +:+ itoa (Mask (config d));
                          "dev"; dev_Name d] w in
    match err with
    | Some e => (w, Some e)
    | None => Run ["ip"; "link"; "set"; "dev"; dev_Name d; "up"] w
    end.
(** The metric is best effort. *)
Definition windows_configureIP (d : Device) (w : world) : world * option error :=
  let ip := To4 (ParseIP (cfg_IP (config d))) in
  if bool_decide (ip = []) then (w, Some (invalid_ip d))
  else
    let '(w, err) := Run ["netsh"; "interface"; "ip"; "set"; "address"; "name=" +:+ dev_Name d;
                          "static"; IP_String ip; IP_String (CIDRMask (Mask (config d)) 32)] w in
    match err with
    | Some e => (w, Some (Wrapf "set address: %w" [] e))
    | None =>
        let '(w, _) := Run ["netsh"; "interface"; "ip"; "set"; "interface";
                            "interface=" +:+ dev_Name d; "metric=9999"] w in
        (w, None)
    end.
(** Elsewhere there is nothing to configure. *)
Definition configureIP (os : goos) (d : Device) (w : world) : world * option error :=
  match os with
  | Darwin => darwin_configureIP d w
  | Linux => linux_configureIP d w
  | Windows => windows_configureIP d w
  | Other => (w, None)
  end.

Definition Close (d : Device) (w : world) : world := mkWorld (open_devs w ∖ {[dev_Name d]}) (ran w).
Definition NewDevice (os : goos) (cfg : Config) (w : world) : world * result Device :=
  match CreateTUN (Name cfg) (MTU cfg) (open_devs w) with
  | Err e => (w, Err (Wrapf "create tun: %w" [] e))
  | Ok name =>
      let w := mkWorld ({[name]} ∪ open_devs w) (ran w) in
      let d := mkDevice name cfg in
      let '(w, err) := configureIP os d w in
      match err with
      | Some e => (Close d w, Err (Wrapf "configure tun ip: %w" [] e))
      | None => (w, Ok d)
      end
  end.

(** ** Lemmas *)
Lemma configureIP_open os d w : open_devs (fst (configureIP os d w)) = open_devs w.
Proof.
  unfold configureIP, darwin_configureIP, linux_configureIP, windows_configureIP. destruct os; cbn; repeat case_match_goal; try done;
  repeat match goal with H : Run _ _ = (_, _) |- _ => injection H as <- <- end; done.
Qed.

(** A device that cannot be configured is closed again; the kernel never names
    a new device after an open one. *)
Lemma NewDevice_open os cfg w w' r :
  (forall n m l name, CreateTUN n m l = Ok name -> name ∉ l) ->
  NewDevice os cfg w = (w', r) ->
  match r with
  | Ok d => open_devs w' = {[dev_Name d]} ∪ open_devs w /\ dev_Name d ∉ open_devs w
  | Err _ => open_devs w' = open_devs w
  end.
Proof.
  intros Hf. unfold NewDevice. destruct (CreateTUN _ _ _) as [name|e] eqn:E; [|by intros [= <- <-]].
  apply Hf in E. pose proof (configureIP_open os (mkDevice name cfg) (mkWorld ({[name]} ∪ open_devs w) (ran w))) as Ho.
  destruct (configureIP _ _ _) as [w1 err]. cbn in Ho. destruct err; intros [= <- <-]; cbn; rewrite Ho; set_solver.
Qed.
End tun.
