(* ===== verification/Encoding.v ===== *)
(** * Go's [encoding/hex] and [encoding/base64] as the program uses them *)
From S2P Require Import Prelude GoStrings GoNet.
Open Scope string_scope.
Open Scope list_scope.
Open Scope Z_scope.

(** ** Hexadecimal: [hex.EncodeToString] is [hexString] of GoNet *)
Fixpoint hex_DecodeString (s : string) : option (list Z) :=
  match s with
  | EmptyString => Some []
  | String a (String b s') =>
      x ← hex_val a; y ← hex_val b; l ← hex_DecodeString s'; Some (16 * x + y :: l)
  | _ => None
  end.

Lemma hex_digit_val d : 0 <= d < 16 -> hex_val (hex_digit d) = Some d.
Proof.
  intros Hd. assert (is_byte d) as Hb by (unfold is_byte; lia). revert d Hb Hd.
  apply (byte_forall (fun d => 0 <= d < 16 -> hex_val (hex_digit d) = Some d)). by vm_compute.
Qed.
Lemma hexString_cons b l :
  hexString (b :: l) = String (hex_digit (b / 16)) (String (hex_digit (b mod 16)) (hexString l)).
Proof. done. Qed.
Lemma hex_roundtrip l : bytes_ok l -> hex_DecodeString (hexString l) = Some l.
Proof.
  induction 1 as [|b l Hb _ IH]; [done|]. unfold is_byte in Hb.
  rewrite hexString_cons. cbn [hex_DecodeString]. rewrite !hex_digit_val, IH by div_lia.
  cbn -[Z.div Z.modulo Z.mul]. do 2 f_equal. div_lia.
Qed.
Lemma hex_digit_plain d : 0 <= d < 16 ->
  hex_digit d <> ascii_of_nat 10 /\ hex_digit d <> ascii_of_nat 13 /\ hex_digit d <> "="%char.
Proof.
  intros Hd. assert (is_byte d) as Hb by (unfold is_byte; lia). revert d Hb Hd.
  apply (byte_forall (fun d => 0 <= d < 16 -> hex_digit d <> ascii_of_nat 10 /\ hex_digit d <> ascii_of_nat 13 /\ hex_digit d <> "="%char)). by vm_compute.
Qed.

(** ** Base64, standard alphabet with padding *)
Definition b64_val (c : ascii) : option Z :=
  let b := byte_of c in
  if (65 <=? b) && (b <=? 90) then Some (b - 65)
  else if (97 <=? b) && (b <=? 122) then Some (b - 71)
  else if (48 <=? b) && (b <=? 57) then Some (b + 4)
  else if b =? 43 then Some 62
  else if b =? 47 then Some 63
  else None.
Definition b64_char (v : Z) : ascii :=
  of_byte (if v <? 26 then v + 65 else if v <? 52 then v + 71 else if v <? 62 then v - 4
           else if v =? 62 then 43 else 47).

(** The decoder skips line breaks anywhere. *)
Definition is_crlf (c : ascii) : bool := (byte_of c =? 10) || (byte_of c =? 13).
Fixpoint strip_crlf (s : string) : string :=
  match s with
  | EmptyString => ""
  | String c s' => if is_crlf c then strip_crlf s' else String c (strip_crlf s')
  end.
(** Quanta of four characters; padding only at the end, and unused bits of the
    last quantum are ignored. *)
Fixpoint b64_quanta (s : string) : option (list Z) :=
  match s with
  | EmptyString => Some []
  | String a (String b (String c (String d s'))) =>
      x ← b64_val a; y ← b64_val b;
      match bool_decide (c = "="%char), bool_decide (d = "="%char) with
      | true, true => if bool_decide (s' = "") then Some [4 * x + y / 16] else None
      | true, false => None
      | false, true =>
          z ← b64_val c;
          if bool_decide (s' = "") then Some [4 * x + y / 16; 16 * (y mod 16) + z / 4] else None
      | false, false =>
          z ← b64_val c; w ← b64_val d; l ← b64_quanta s';
          Some (4 * x + y / 16 :: 16 * (y mod 16) + z / 4 :: 64 * (z mod 4) + w :: l)
      end
  | _ => None
  end.
Definition StdEncoding_DecodeString (s : string) : option (list Z) := b64_quanta (strip_crlf s).

Fixpoint StdEncoding_EncodeToString (l : list Z) : string :=
  match l with
  | [] => ""
  | [a] => String (b64_char (a / 4)) (String (b64_char (16 * (a mod 4))) "==")
  | [a; b] => String (b64_char (a / 4)) (String (b64_char (16 * (a mod 4) + b / 16))
                (String (b64_char (4 * (b mod 16))) "="))
  | a :: b :: c :: l' =>
      String (b64_char (a / 4)) (String (b64_char (16 * (a mod 4) + b / 16))
        (String (b64_char (4 * (b mod 16) + c / 64)) (String (b64_char (c mod 64))
          (StdEncoding_EncodeToString l'))))
  end.

Lemma b64_char_spec v : 0 <= v < 64 ->
  b64_val (b64_char v) = Some v /\ b64_char v <> "="%char /\ is_crlf (b64_char v) = false.
Proof.
  intros Hv. assert (is_byte v) as Hb by (unfold is_byte; lia). revert v Hb Hv.
  apply (byte_forall (fun v => 0 <= v < 64 ->
    b64_val (b64_char v) = Some v /\ b64_char v <> "="%char /\ is_crlf (b64_char v) = false)). by vm_compute.
Qed.

Lemma b64_char_crlf v : 0 <= v < 64 -> is_crlf (b64_char v) = false.
Proof. intros Hv. apply (b64_char_spec v Hv). Qed.

Ltac bytes_inv :=
  repeat match goal with
  | H : bytes_ok (_ :: _) |- _ => apply Forall_cons in H as [? H]
  | H : Forall is_byte (_ :: _) |- _ => apply Forall_cons in H as [? H]
  end.

Lemma three_ind {A} (P : list A -> Prop) :
  P [] -> (forall a, P [a]) -> (forall a b, P [a; b]) ->
  (forall a b c l, P l -> P (a :: b :: c :: l)) -> forall l, P l.
Proof.
  intros H0 H1 H2 H3. fix IH 1. intros [|a [|b [|c l]]]; [done | apply H1 | apply H2 | apply H3, IH].
Qed.

Lemma pack_div k u v : 0 <= v < k -> (k * u + v) / k = u.
Proof. intros Hv. symmetry. apply (Z.div_unique _ _ _ v); lia. Qed.
Lemma pack_mod k u v : 0 <= v < k -> (k * u + v) mod k = v.
Proof. intros Hv. symmetry. apply (Z.mod_unique _ _ u); lia. Qed.

(** Decoding a full quantum of three bytes. *)
Lemma b64_quanta_cons a b c s : is_byte a -> is_byte b -> is_byte c ->
  b64_quanta (String (b64_char (a / 4)) (String (b64_char (16 * (a mod 4) + b / 16))
    (String (b64_char (4 * (b mod 16) + c / 64)) (String (b64_char (c mod 64)) s)))) =
  (fun l => a :: b :: c :: l) <$> b64_quanta s.
Proof.
  unfold is_byte. intros Ha Hb Hc.
  destruct (b64_char_spec (a / 4)) as (V1 & _ & _); [div_lia|].
  destruct (b64_char_spec (16 * (a mod 4) + b / 16)) as (V2 & _ & _); [div_lia|].
  destruct (b64_char_spec (4 * (b mod 16) + c / 64)) as (V3 & N3 & _); [div_lia|].
  destruct (b64_char_spec (c mod 64)) as (V4 & N4 & _); [div_lia|].
  cbn [b64_quanta]. rewrite V1, V2, V3, V4, (bool_decide_eq_false_2 _ N3), (bool_decide_eq_false_2 _ N4).
  clear V1 V2 V3 V4 N3 N4. cbn [mbind option_bind]. destruct (b64_quanta s) as [l|]; [|done].
  cbn [fmap option_fmap option_map mbind option_bind].
  rewrite !pack_div, !pack_mod, <- !Z.div_mod by div_lia. done.
Qed.

(** The text has no line breaks. *)
Lemma strip_encoded l : bytes_ok l ->
  strip_crlf (StdEncoding_EncodeToString l) = StdEncoding_EncodeToString l.
Proof.
  induction l as [|a|a b|a b c l IH] using three_ind; intros Ho; [done|..];
    bytes_inv; unfold is_byte in *;
    cbn [StdEncoding_EncodeToString strip_crlf];
    rewrite !b64_char_crlf by div_lia; by rewrite ?IH.
Qed.

Lemma base64_roundtrip l : bytes_ok l -> StdEncoding_DecodeString (StdEncoding_EncodeToString l) = Some l.
Proof.
  intros Hl. unfold StdEncoding_DecodeString. rewrite strip_encoded by done. revert Hl.
  induction l as [|a|a b|a b c l IH] using three_ind; intros Ho; [done|..];
    bytes_inv.
  - unfold is_byte in *. destruct (b64_char_spec (a / 4)) as (V1 & _ & _); [div_lia|].
    destruct (b64_char_spec (16 * (a mod 4))) as (V2 & _ & _); [div_lia|].
    cbn [StdEncoding_EncodeToString b64_quanta]. rewrite V1, V2. clear V1 V2. cbn -[Z.div Z.modulo Z.mul].
    rewrite <- (Z.add_0_r (16 * (a mod 4))), pack_div, <- Z.div_mod by lia. done.
  - unfold is_byte in *. destruct (b64_char_spec (a / 4)) as (V1 & _ & _); [div_lia|].
    destruct (b64_char_spec (16 * (a mod 4) + b / 16)) as (V2 & _ & _); [div_lia|].
    destruct (b64_char_spec (4 * (b mod 16))) as (V3 & N3 & _); [div_lia|].
    cbn [StdEncoding_EncodeToString b64_quanta]. rewrite V1, V2, V3, (bool_decide_eq_false_2 _ N3).
    clear V1 V2 V3 N3. cbn -[Z.div Z.modulo Z.mul]. rewrite !pack_div, !pack_mod, <- Z.div_mod by div_lia.
    rewrite <- (Z.add_0_r (4 * (b mod 16))), pack_div, <- Z.div_mod by lia. done.
  - cbn [StdEncoding_EncodeToString]. rewrite b64_quanta_cons, IH by done. done.
Qed.
