(* ===== verification/WGDevice.v ===== *)
(** * internal/wgdevice: the user-space WireGuard device

    [device.go] and [outbound.go]: what the configuration is turned into for
    wireguard-go, and how its counters are read back. wireguard-go is seen
    through the interface [WireGuard]; UAPI.v models the configuration
    protocol behind [IpcSet] and [IpcGet]. *)
From S2P Require Import Prelude GoStrings GoNet Encoding.
Open Scope string_scope.
Open Scope list_scope.
Open Scope Z_scope.

(** A [netip.Addr]: its bytes, [[]] being the zero value. *)
Definition Addr := list Z.
Definition Addr_IsValid (a : Addr) : bool := negb (bool_decide (a = [])).
(** [netip.Addr.String]: an IPv4 address in IPv6 form keeps its prefix. *)
Definition Addr_String (a : Addr) : string :=
  if bool_decide (a = []) then "invalid IP"
  else if (length a =? 16)%nat && bool_decide (take 12 a = v4InV6Prefix)
  then "::ffff:" +:+ v4_string (drop 12 a) else IP_String a.

Record Config := mkConfig {
  PrivateKeyB64 : string; ServerPublicKeyB64 : string; ServerEndpoint : string;
  ProtocolMode : Z; VpnIP : Addr; DNSServers : list Addr; FallbackDNS : Addr; MTU : Z }.
Record Stats := mkStats { TxBytes : Z; RxBytes : Z; LastHandshakeSec : Z }.

Inductive bind_kind := TCPBind | DefaultBind.

(** What wgdevice uses of wireguard-go; [IpcSet] and [Up] leave a device that
    may have failed, [Close] stops it. *)
Class WireGuard := {
  Dev : Type;
  Net : Type;
  CreateNetTUN : list Addr -> list Addr -> Z -> result Net;
  NewDevice : Net -> bind_kind -> Dev;
  IpcSet : string -> Dev -> Dev * option error;
  Up : Dev -> Dev * option error;
  Close : Dev -> Dev;
  IpcGet : Dev -> result string }.

Definition nl : string := String (ascii_of_nat 10) "".

Definition buildIPC (privKey serverPubKey : list Z) (endpoint : string) : string :=
  "private_key=" +:+ hexString privKey +:+ nl +:+
  "replace_peers=true" +:+ nl +:+
  "public_key=" +:+ hexString serverPubKey +:+ nl +:+
  "endpoint=" +:+ endpoint +:+ nl +:+
  "persistent_keepalive_interval=25" +:+ nl +:+
  "replace_allowed_ips=true" +:+ nl +:+
  "allowed_ip=0.0.0.0/0" +:+ nl +:+
  "allowed_ip=::/0" +:+ nl +:+
  nl.

Section device.
Context {WG : WireGuard}.

Record Device := mkDevice { dev : Dev; tnet : Net }.

(** The result, and the device left behind closed when configuring it fails. *)
Definition New (cfg : Config) : result Device * option Dev :=
  let mtu := if MTU cfg =? 0 then 1420 else MTU cfg in
  match StdEncoding_DecodeString (PrivateKeyB64 cfg) with
  | None => (Err (Errorf "decode private key" []), None)
  | Some privKeyBytes =>
      match StdEncoding_DecodeString (ServerPublicKeyB64 cfg) with
      | None => (Err (Errorf "decode server public key" []), None)
      | Some pubKeyBytes =>
          let dnsServers :=
            if bool_decide (DNSServers cfg = []) && Addr_IsValid (FallbackDNS cfg)
            then [FallbackDNS cfg] else DNSServers cfg in
          match CreateNetTUN [VpnIP cfg] dnsServers mtu with
          | Err e => (Err (Wrapf "create netstack tun: %w" [] e), None)
          | Ok tnet =>
              let bind := if ProtocolMode cfg =? 1 then TCPBind else DefaultBind in
              let d := NewDevice tnet bind in
              let '(d, err) := IpcSet (buildIPC privKeyBytes pubKeyBytes (ServerEndpoint cfg)) d in
              match err with
              | Some e => (Err (Wrapf "wg ipc set: %w" [] e), Some (Close d))
              | None =>
                  let '(d, err) := Up d in
                  match err with
                  | Some e => (Err (Wrapf "wg up: %w" [] e), Some (Close d))
                  | None => (Ok (mkDevice d tnet), None)
                  end
              end
          end
      end
  end.

Definition Device_Close (d : Device) : Device := mkDevice (Close (dev d)) (tnet d).

(** One line of the counters; [strconv.ParseInt] in base 10 is [Atoi] here.
    The sums are of type [int64]. *)
Definition stats_line (s : Stats) (line : string) : Stats :=
  match Cut line "=" with
  | None => s
  | Some (k, v) =>
      match Atoi (TrimSpace v) with
      | None => s
      | Some n =>
          if bool_decide (k = "tx_bytes") then mkStats (i64 (TxBytes s + n)) (RxBytes s) (LastHandshakeSec s)
          else if bool_decide (k = "rx_bytes") then mkStats (TxBytes s) (i64 (RxBytes s + n)) (LastHandshakeSec s)
          else if bool_decide (k = "last_handshake_time_sec") then
            mkStats (TxBytes s) (RxBytes s) (if LastHandshakeSec s <? n then n else LastHandshakeSec s)
          else s
      end
  end.
Definition parse_stats (out : string) : Stats := foldl stats_line (mkStats 0 0 0) (Split out nl).
Definition GetStats (d : Device) : Stats * option error :=
  match IpcGet (dev d) with
  | Err e => (mkStats 0 0 0, Some (Wrapf "ipc get: %w" [] e))
  | Ok out => (parse_stats out, None)
  end.
End device.
