(* ===== verification/VPN.v ===== *)
(** * internal/vpn: the connection manager

    [manager.go]: the life cycle of a connection. [Connect] builds the rule
    engine, the WireGuard device, the route table, the TUN device, the fake IP
    pool, the direct outbound, the forwarder, the SOCKS5 listener and the
    capture routes, in that order; [cleanupLocked] takes them down; the runtime
    operations change the rules and the listener of a live connection.

    The state an operation leaves when it stops half-way is part of the model:
    operations run in the monad [M], which keeps the manager's state on error.
    Objects that the code shares by pointer are kept in one place or written
    together: the engine of the manager is the forwarder's ([put_engine]), the
    route table of the manager is the forwarder's ([put_rt]), and the DNS server
    reads both pool and engine of the forwarder ([dns_server]). *)
From S2P Require Import Prelude GoStrings GoNet.
From S2P Require Config Rule FakeIP RouteTable Router Outbound HostRoute Forwarder Socks5 Tun WGDevice.
Open Scope string_scope.
Open Scope list_scope.
Open Scope Z_scope.

(** ** Data *)
Record ConnectConfig := mkConnectConfig {
  WG : WGDevice.Config;
  SplitRoutes : list string;
  DomainSuffixes : list string;
  PhysicalIface : string;
  ServerIP : string;
  FollowSplitRoutes : bool }.
Record Status := mkStatus {
  Connected : bool; Reconnecting : bool; NodeName : string; VpnIP : string;
  DNS : string; Protocol : string; ConnectedAt : Z }.
Definition zeroStatus : Status := mkStatus false false "" "" "" "" 0.

(** ** Pure helpers *)
Definition firstNonSystem (upstream : list string) : string :=
  default "" (find_first (fun u => negb (bool_decide (u = "")) && negb (bool_decide (u = "SYSTEM"))) upstream).

Definition isTunnelIface (name : string) : bool :=
  HasPrefix name "utun" || HasPrefix name "tun" || HasPrefix name "tap".

Definition splitMoreSpecific (n : IPNet) : list string :=
  let '(ones, bits) := IPMask_Size (net_Mask n) in
  if negb (bits =? 32) || (32 <=? ones) then []
  else
    let ip := To4 (net_IP n) in
    if bool_decide (ip = []) || (nth 0 ip 0 =? 127) || (224 <=? nth 0 ip 0) then []
    else
      let childMask := CIDRMask (ones + 1) 32 in
      let first := mkIPNet (IP_Mask ip childMask) childMask in
      let step := u32 (Z.shiftl 1 (u32 (32 - (ones + 1)))) in
      let secondIP := u32 (be_val ip + step) in
      let second := mkIPNet (v4InV6Prefix ++ put_be32 secondIP) childMask in
      [IPNet_String first; IPNet_String second].

(** The loop of [RefinedCaptureCIDRs], [seen] being its map. *)
Fixpoint add_unseen (seen : gset string) (cidrs : list string) : gset string * list string :=
  match cidrs with
  | [] => (seen, [])
  | cidr :: l =>
      if bool_decide (cidr ∈ seen) then add_unseen seen l
      else let '(seen, out) := add_unseen ({[cidr]} ∪ seen) l in (seen, cidr :: out)
  end.
Fixpoint refined_from (seen : gset string) (entries : list RouteTable.Entry) (tunName : string) : list string :=
  match entries with
  | [] => []
  | e :: l =>
      if bool_decide (To4 (net_IP (RouteTable.Dest e)) = []) then refined_from seen l tunName
      else if bool_decide (RouteTable.Iface e = tunName) || negb (isTunnelIface (RouteTable.Iface e)) then
        refined_from seen l tunName
      else
        let '(seen, out) := add_unseen seen (splitMoreSpecific (RouteTable.Dest e)) in
        out ++ refined_from seen l tunName
  end.
Definition RefinedCaptureCIDRs (entries : list RouteTable.Entry) (tunName : string) : list string :=
  refined_from ∅ entries tunName.

(** (dead, the new [lastRxBytes]) *)
Definition evaluateConnectionDead (now connectedAt lastHandshakeSec rxBytes lastRxBytes : Z) : bool * Z :=
  if lastHandshakeSec =? 0 then
    if (0 <? connectedAt) && (90 <? now - connectedAt) then (true, rxBytes) else (false, rxBytes)
  else
    let age := now - lastHandshakeSec in
    if age <=? 300 then (false, rxBytes) else (rxBytes =? lastRxBytes, rxBytes).

(** The rules a mode injects. *)
Definition injected_rules (follow : bool) (routes suffixes : list string) : list string :=
  if follow then
    map (fun cidr => "IP-CIDR," +:+ cidr +:+ ",VPN") routes ++
    map (fun suffix => "DOMAIN-SUFFIX," +:+ suffix +:+ ",VPN") suffixes
  else ["IP-CIDR,0.0.0.0/0,VPN"].

(** [vpnResolver.Resolve] over the tunnel's resolver; [[]] is the nil address. *)
Definition vpnResolver_Resolve (LookupIPAddr : string -> result (list IP)) (name : string) : result IP :=
  let ip := ParseIP name in
  if negb (bool_decide (ip = [])) then Ok ip
  else match LookupIPAddr name with
       | Err e => Err e
       | Ok addrs =>
           match find_first (fun a => negb (bool_decide (a = []))) addrs with
           | Some a => Ok a
           | None => Err (Errorf "resolve %s: no addresses" [name])
           end
       end.

(** ** The manager *)
Section manager.
Context {U : Unicode} {S : SliceSort} {WGo : WGDevice.WireGuard} {K RK W : Type} {HR : Router.Router W}.
(** The platform: host route commands, the router over the kernel's table, the
    TUN driver and its commands, the network stack's listeners. *)
Context (ops : HostRoute.host_ops K).
Context (NewPlatformRouter : string -> RK -> W) (router_kernel : W -> RK).
Context (goos : Tun.goos) (CreateTUN : string -> Z -> gset string -> result string)
  (tun_fails : list string -> list (list string) -> option error).
Context (Listen : string -> gset string -> result string).

Abbreviation Fwd := (Forwarder.Forwarder K WGDevice.Device).

(** What outlives a connection. The host routes are the forwarder's and the
    routing table the route manager's while these exist. *)
Record World := mkWorld {
  host_routes : HostRoute.host_world K;
  routes : RK;
  routes_file : Router.state_file;
  routes_writable : bool;
  tuns : Tun.world;
  listeners : gset string;
  wg_closed : list WGDevice.Device   (** the WireGuard devices closed so far *) }.

Record Manager := mkManager {
  cfg : Config.Config;
  active : bool;
  reconnecting : bool;
  currentFollowSplitRoutes : bool;
  status : Status;
  lastSplitRoutes : list string;
  lastDomainSuffixes : list string;
  lastRxBytes : Z;
  tunDev : option Tun.Device;
  wgDev : option WGDevice.Device;
  fwd : option Fwd;
  eng : option Rule.Engine;
  rt : option RouteTable.RouteTable;
  rm : option (Router.RouteManager W);
  socks5 : option Socks5.Server;
  world : World }.

Definition New (c : Config.Config) (w : World) : Manager :=
  mkManager c false false false zeroStatus [] [] 0 None None None None None None None w.

(** *** Updates *)
Definition set_cfg m x := mkManager x (active m) (reconnecting m) (currentFollowSplitRoutes m) (status m) (lastSplitRoutes m) (lastDomainSuffixes m) (lastRxBytes m) (tunDev m) (wgDev m) (fwd m) (eng m) (rt m) (rm m) (socks5 m) (world m).
Definition set_active m x s := mkManager (cfg m) x (reconnecting m) (currentFollowSplitRoutes m) s (lastSplitRoutes m) (lastDomainSuffixes m) (lastRxBytes m) (tunDev m) (wgDev m) (fwd m) (eng m) (rt m) (rm m) (socks5 m) (world m).
Definition set_reconnecting m x := mkManager (cfg m) (active m) x (currentFollowSplitRoutes m) (status m) (lastSplitRoutes m) (lastDomainSuffixes m) (lastRxBytes m) (tunDev m) (wgDev m) (fwd m) (eng m) (rt m) (rm m) (socks5 m) (world m).
Definition set_follow m x := mkManager (cfg m) (active m) (reconnecting m) x (status m) (lastSplitRoutes m) (lastDomainSuffixes m) (lastRxBytes m) (tunDev m) (wgDev m) (fwd m) (eng m) (rt m) (rm m) (socks5 m) (world m).
Definition set_last m r d := mkManager (cfg m) (active m) (reconnecting m) (currentFollowSplitRoutes m) (status m) r d (lastRxBytes m) (tunDev m) (wgDev m) (fwd m) (eng m) (rt m) (rm m) (socks5 m) (world m).
Definition set_rx m x := mkManager (cfg m) (active m) (reconnecting m) (currentFollowSplitRoutes m) (status m) (lastSplitRoutes m) (lastDomainSuffixes m) x (tunDev m) (wgDev m) (fwd m) (eng m) (rt m) (rm m) (socks5 m) (world m).
Definition set_tunDev m x w := mkManager (cfg m) (active m) (reconnecting m) (currentFollowSplitRoutes m) (status m) (lastSplitRoutes m) (lastDomainSuffixes m) (lastRxBytes m) x (wgDev m) (fwd m) (eng m) (rt m) (rm m) (socks5 m) w.
Definition set_wgDev m x := mkManager (cfg m) (active m) (reconnecting m) (currentFollowSplitRoutes m) (status m) (lastSplitRoutes m) (lastDomainSuffixes m) (lastRxBytes m) (tunDev m) x (fwd m) (eng m) (rt m) (rm m) (socks5 m) (world m).
Definition set_fwd m x w := mkManager (cfg m) (active m) (reconnecting m) (currentFollowSplitRoutes m) (status m) (lastSplitRoutes m) (lastDomainSuffixes m) (lastRxBytes m) (tunDev m) (wgDev m) x (eng m) (rt m) (rm m) (socks5 m) w.
Definition set_eng m f e := mkManager (cfg m) (active m) (reconnecting m) (currentFollowSplitRoutes m) (status m) (lastSplitRoutes m) (lastDomainSuffixes m) (lastRxBytes m) (tunDev m) (wgDev m) f e (rt m) (rm m) (socks5 m) (world m).
Definition set_rt m f r := mkManager (cfg m) (active m) (reconnecting m) (currentFollowSplitRoutes m) (status m) (lastSplitRoutes m) (lastDomainSuffixes m) (lastRxBytes m) (tunDev m) (wgDev m) f (eng m) r (rm m) (socks5 m) (world m).
Definition set_rm m x w := mkManager (cfg m) (active m) (reconnecting m) (currentFollowSplitRoutes m) (status m) (lastSplitRoutes m) (lastDomainSuffixes m) (lastRxBytes m) (tunDev m) (wgDev m) (fwd m) (eng m) (rt m) x (socks5 m) w.
Definition set_socks5 m x w := mkManager (cfg m) (active m) (reconnecting m) (currentFollowSplitRoutes m) (status m) (lastSplitRoutes m) (lastDomainSuffixes m) (lastRxBytes m) (tunDev m) (wgDev m) (fwd m) (eng m) (rt m) (rm m) x w.
Definition w_hosts w h := mkWorld h (routes w) (routes_file w) (routes_writable w) (tuns w) (listeners w) (wg_closed w).
Definition w_routes w k file b := mkWorld (host_routes w) k file b (tuns w) (listeners w) (wg_closed w).
Definition w_tuns w t := mkWorld (host_routes w) (routes w) (routes_file w) (routes_writable w) t (listeners w) (wg_closed w).
Definition w_listeners w l := mkWorld (host_routes w) (routes w) (routes_file w) (routes_writable w) (tuns w) l (wg_closed w).
Definition w_closed w d := mkWorld (host_routes w) (routes w) (routes_file w) (routes_writable w) (tuns w) (listeners w) (d :: wg_closed w).

(** Writes through the shared pointers. *)
Definition fwd_set_engine (e : Rule.Engine) (f : Fwd) : Fwd :=
  Forwarder.mkForwarder (Forwarder.config f) (Forwarder.closed f) (Forwarder.connCount f) (Forwarder.pool f) (Some e)
    (Forwarder.outbounds f) (Forwarder.routeTable f) (Forwarder.ifaceCache f) (Forwarder.routeCache f)
    (Forwarder.dnsHijack f) (Forwarder.vpnOutbound f) (Forwarder.defaultVPN f) (Forwarder.hosts f).
Definition put_engine m e := set_eng m (fwd_set_engine e <$> fwd m) (Some e).
(** A refresh also empties the forwarder's caches: it is the forwarder's callback. *)
Definition put_rt m (r : RouteTable.RouteTable) (refreshed : bool) :=
  set_rt m ((fun f => if refreshed then Forwarder.set_table f (Some r) ∅ ∅
                      else Forwarder.set_table f (Some r) (Forwarder.ifaceCache f) (Forwarder.routeCache f)) <$> fwd m) (Some r).
Definition fwd_default (v : bool) m :=
  set_fwd m ((fun f => Forwarder.SetDefaultVPN f v) <$> fwd m) (world m).

(** The DNS server behind the forwarder: the matcher adapter reads the shared
    engine, the pool is the forwarder's. *)
Definition dns_server {L : FakeIP.DNSLib} (hijack upstream : list string) (dial : FakeIP.dial_ops) (e : Rule.Engine)
  : FakeIP.Server :=
  let s := FakeIP.NewServer (Rule.MatcherAdapter_MatchDomain e) None upstream in
  let s := if (0 <? length hijack)%nat then FakeIP.SetFakeAllA s true else s in
  FakeIP.SetDialFn s (Some dial).

(** *** The monad: an error keeps the state reached *)
Definition M A := Manager -> Manager * result A.
Definition ret {A} (a : A) : M A := fun m => (m, Ok a).
Definition fail {A} (e : error) : M A := fun m => (m, Err e).
Definition bind {A B} (c : M A) (k : A -> M B) : M B :=
  fun m => let '(m, r) := c m in match r with Ok a => k a m | Err e => (m, Err e) end.
Definition gets {A} (f : Manager -> A) : M A := fun m => (m, Ok (f m)).
Definition modify (f : Manager -> Manager) : M unit := fun m => (f m, Ok tt).
Definition lift {A} (what : string) (r : result A) : M A :=
  match r with Ok a => ret a | Err e => fail (Wrapf what [] e) end.
Notation "x <~ c ;; k" := (bind c (fun x => k)) (at level 100, c at next level, right associativity).
Notation "c ;;; k" := (bind c (fun _ => k)) (at level 100, right associativity).

(** What a connection attempt sees of the outside: the country database, the
    forwarder's environment, the clock readings of the first fetch of the route
    table, whether its watcher starts, the network stack's refusal of an
    interface. *)
Record StartEnv := mkStartEnv {
  geoip_Open : string -> result Rule.GeoIPDB;
  fenv : Forwarder.Env;
  start_now : Z * Z;
  watcher_starts : bool;
  create_nic : option string }.

(** A host route through an interface; its failure is only logged. *)
Definition add_host_route (ip iface : string) : M unit :=
  modify (fun m => set_fwd m (fwd m)
    (w_hosts (world m) (fst (HostRoute.AddScopedHostRoute ops ip iface (host_routes (world m)))))).

Definition startSOCKS5Locked : M unit :=
  fun m =>
    let c := Config.SOCKS5 (cfg m) in
    let '(l, r) := Socks5.Start Listen
      (Socks5.mkConfig (Config.socks_Enabled c) (Config.BindHost c) (Config.Port c)) (listeners (world m)) in
    match r with
    | Err e => (set_socks5 m (socks5 m) (w_listeners (world m) l), Err (Wrapf "socks5: %w" [] e))
    | Ok srv => (set_socks5 m srv (w_listeners (world m) l), Ok tt)
    end.

Definition open_tun : M Tun.Device :=
  fun m =>
    let t := Config.TUN (cfg m) in
    let '(w, r) := Tun.NewDevice CreateTUN tun_fails goos
      (Tun.mkConfig (Config.Name t) (Config.tun_IP t) (Config.Mask t) (Config.MTU t)) (tuns (world m)) in
    match r with
    | Err e => (set_tunDev m (tunDev m) (w_tuns (world m) w), Err (Wrapf "create tun: %w" [] e))
    | Ok d => (set_tunDev m (Some d) (w_tuns (world m) w), Ok d)
    end.

Definition add_capture_routes (env : StartEnv) : M unit :=
  fun m =>
    let name := Config.Name (Config.TUN (cfg m)) in
    let mgr := Router.NewRouteManager (NewPlatformRouter name (routes (world m)))
                 (routes_file (world m)) (routes_writable (world m)) in
    let '(t0, now, now') := Forwarder.clock (fenv env) in
    match rt m with
    | None => (m, Ok tt)
    | Some r =>
        let r' := if RouteTable.stale r t0 then RouteTable.refresh (Forwarder.fetch (fenv env)) r now now'
                  else RouteTable.mkRefreshed r false None in
        let m := put_rt m (RouteTable.rf_table r') (RouteTable.rf_callback r') in
        let refined := RefinedCaptureCIDRs (RouteTable.Table_Entries (RouteTable.table (RouteTable.rf_table r'))) name in
        let '(mgr, err) := Router.AddRoutes mgr (Config.Pool (Config.FakeIP (cfg m))) refined in
        let m := set_rm m (Some mgr) (world m) in
        match err with
        | Some e => (m, Err (Wrapf "add routes: %w" [] e))
        | None => (m, Ok tt)
        end
    end.

(** Injection; a list that does not compile is logged and leaves the engine. *)
Definition inject (rules : list string) m : Manager :=
  match eng m with
  | Some e => if (0 <? length rules)%nat then put_engine m (fst (Rule.InjectRules e rules)) else m
  | None => m
  end.

(** *** Connecting *)
Definition startLocked (env : StartEnv) (nodeName : string) (cc : ConnectConfig) : M unit :=
  c <~ gets cfg ;;
  ruleStrings <~ lift "rules: %w" (Config.RuleStrings c) ;;
  geoDB <~ lift "geoip: %w" (geoip_Open env (Config.geoip_File (Config.GeoIP c))) ;;
  e <~ lift "rule engine: %w" (Rule.NewEngine ruleStrings (Some geoDB)) ;;
  modify (fun m => set_eng m (fwd m) (Some e)) ;;;
  (if negb (bool_decide (ServerIP cc = "")) && negb (bool_decide (PhysicalIface cc = ""))
   then add_host_route (ServerIP cc) (PhysicalIface cc) else ret tt) ;;;
  wg <~ lift "wg device: %w" (fst (WGDevice.New (WG cc))) ;;
  modify (fun m => set_wgDev m (Some wg)) ;;;
  let table := fst (RouteTable.Start (Forwarder.fetch (fenv env))
    (RouteTable.New (Config.Name (Config.TUN c)) 30000000000) (fst (start_now env)) (snd (start_now env))
    (watcher_starts env)) in
  modify (fun m => set_rt m (fwd m) (Some table)) ;;;
  tun <~ open_tun ;;
  (let actualName := Tun.dev_Name tun in
   if negb (bool_decide (actualName = "")) && negb (bool_decide (actualName = Config.Name (Config.TUN c)))
   then modify (fun m => let m := set_cfg m (Config.set_tun_name actualName (cfg m)) in
                         set_rt m (fwd m) (Some (RouteTable.SetSkipIface table actualName)))
   else ret tt) ;;;
  c <~ gets cfg ;;
  pool <~ lift "fakeip pool: %w" (FakeIP.NewPool (Config.Pool (Config.FakeIP c))) ;;
  let upstreams := Config.Upstream (Config.DNS c) in
  let os := Forwarder.os (fenv env) in
  let '(directOut, err) := Outbound.Init os (Outbound.NewDirect (Config.Interface (Config.DirectOutbound c)) upstreams) in
  (match err with Some e => fail (Wrapf "direct outbound init: %w" [] e) | None => ret tt end) ;;;
  let '(directOut, resolved) := Outbound.ResolvedIfaceName os directOut in
  let physIface := if bool_decide (resolved = "") then PhysicalIface cc else resolved in
  foldr (fun upstream rest =>
    (match SplitHostPort upstream with
     | Ok (host, _) => if bool_decide (ParseIP host = []) then ret tt else add_host_route host physIface
     | Err _ => ret tt
     end) ;;; rest) (ret tt) upstreams ;;;
  let pool := FakeIP.mkPool (FakeIP.cidr pool) (FakeIP.base pool) (FakeIP.size pool) (FakeIP.next pool)
                (FakeIP.domainToOffset pool) (FakeIP.offsetToDomain pool) true in
  let upstream := firstNonSystem upstreams in
  let t := Config.TUN c in
  let tunMTU := if (Config.MTU t =? 0) && (0 <? WGDevice.MTU (WG cc)) then WGDevice.MTU (WG cc) else Config.MTU t in
  let fwdCfg := Forwarder.mkConfig (Config.Name t) (Config.tun_IP t) (Config.Mask t) tunMTU 0
                  upstream upstream (Config.Hijack (Config.DNS c)) in
  (match create_nic env with
   | Some why => fail (Wrapf "forwarder: %w" [] (Errorf "create nic: %s" [why]))
   | None => ret tt
   end) ;;;
  modify (fun m =>
    let f := Forwarder.NewForwarder fwdCfg (Some pool) (eng m) {["DIRECT" := directOut]} (rt m) (host_routes (world m)) in
    set_fwd (set_rt m (fwd m) (RouteTable.OnRefresh <$> rt m)) (Some (Forwarder.SetVPNOutbound f (Some wg))) (world m)) ;;;
  startSOCKS5Locked ;;;
  add_capture_routes env ;;;
  modify (fun m => set_follow m (FollowSplitRoutes cc)) ;;;
  (if FollowSplitRoutes cc then ret tt else modify (fwd_default true)) ;;;
  modify (inject (injected_rules (FollowSplitRoutes cc) (SplitRoutes cc) (DomainSuffixes cc))).

(** *** Taking down

    The route table's watcher ends with it; traffic may have refreshed the
    forwarder's copy of the table since, only its presence matters here. *)
Definition close_socks5 m : Manager :=
  match socks5 m with
  | Some _ => set_socks5 m None (w_listeners (world m) (snd (Socks5.Close (socks5 m) (listeners (world m)))))
  | None => m
  end.
Definition clear_eng m : Manager :=
  match eng m with
  | Some e => let m := put_engine m (Rule.ClearInjectedRules e) in set_eng m (fwd m) None
  | None => m
  end.
(** [fwd.Close] also closes the TUN device it reads from. *)
Definition close_fwd m : Manager :=
  match fwd m with
  | Some f =>
      let f := Forwarder.Close ops (Forwarder.SetDefaultVPN f false) in
      let tuns := match tunDev m with Some d => Tun.Close d (tuns (world m)) | None => tuns (world m) end in
      set_fwd m None (w_tuns (w_hosts (world m) (Forwarder.hosts f)) tuns)
  | None => m
  end.
Definition close_rm m : Manager :=
  match rm m with
  | Some r =>
      let r := Router.Cleanup r in
      set_rm m None (w_routes (world m) (router_kernel (Router.router r)) (Router.state r) (Router.writable r))
  | None => m
  end.
Definition close_wg m : Manager :=
  match wgDev m with
  | Some d => let m := set_wgDev m None in set_fwd m (fwd m) (w_closed (world m) (WGDevice.Device_Close d))
  | None => m
  end.
Definition close_tun m : Manager :=
  match tunDev m with
  | Some d => set_tunDev m None (w_tuns (world m) (Tun.Close d (tuns (world m))))
  | None => m
  end.
Definition cleanupLocked m : Manager :=
  let m := close_socks5 m in
  let m := clear_eng m in
  let m := close_fwd m in
  let m := close_rm m in
  let m := close_wg m in
  let m := close_tun m in
  let m := set_rt m (fwd m) None in
  set_fwd m (fwd m) (w_hosts (world m) (HostRoute.CleanupPersistedHostRoutes ops (host_routes (world m)))).

(** *** The operations *)
Definition Connect (env : StartEnv) (now : Z) (nodeName : string) (cc : ConnectConfig) m : Manager * option error :=
  let m := if active m then cleanupLocked m else m in
  let '(m, r) := startLocked env nodeName cc m in
  match r with
  | Err e => (cleanupLocked m, Some e)
  | Ok _ =>
      let proto := if WGDevice.ProtocolMode (WG cc) =? 1 then "TCP" else "UDP" in
      let dns := match WGDevice.DNSServers (WG cc) with d :: _ => WGDevice.Addr_String d | [] => "" end in
      let m := set_last m (SplitRoutes cc) (DomainSuffixes cc) in
      (set_active m true (mkStatus true false nodeName (WGDevice.Addr_String (WGDevice.VpnIP (WG cc))) dns proto now), None)
  end.
Definition Disconnect m : Manager := set_active (cleanupLocked m) false zeroStatus.
Definition GetStatus m : Status :=
  let s := status m in
  mkStatus (Connected s) (reconnecting m) (NodeName s) (VpnIP s) (DNS s) (Protocol s) (ConnectedAt s).
Definition SetReconnecting (v : bool) m : Manager := set_reconnecting m v.
Definition GetStats m : WGDevice.Stats :=
  match wgDev m with
  | None => WGDevice.mkStats 0 0 0
  | Some d => fst (WGDevice.GetStats d)
  end.
Definition live m : bool := active m && bool_decide (is_Some (eng m)) && bool_decide (is_Some (fwd m)).
Definition clear_injected m : Manager :=
  match eng m with Some e => put_engine m (Rule.ClearInjectedRules e) | None => m end.
Definition SetFollowSplitRoutes (v : bool) m : Manager :=
  if negb (live m) then m
  else
    let m := clear_injected (set_follow m v) in
    let m := fwd_default (negb v) m in
    inject (injected_rules v (lastSplitRoutes m) (lastDomainSuffixes m)) m.
Definition UpdateSplitRoutes (routes suffixes : list string) m : Manager :=
  if negb (live m) then m
  else if bool_decide (routes = lastSplitRoutes m) && bool_decide (suffixes = lastDomainSuffixes m) then m
  else
    let m := set_last m routes suffixes in
    if negb (currentFollowSplitRoutes m) then m
    else inject (injected_rules true routes suffixes) (clear_injected m).
Definition UpdateSOCKS5 (c : Config.SOCKS5Config) m : Manager * option error :=
  let k := cfg m in
  let m := set_cfg m (Config.mkConfig (Config.TUN k) (Config.FakeIP k) (Config.DNS k) c (Config.GeoIP k)
             (Config.DirectOutbound k) (Config.Corplink k) (Config.Log k) (Config.Rules k)) in
  if negb (active m) then (m, None)
  else
    let m := close_socks5 m in
    if negb (Config.socks_Enabled c) then (m, None)
    else match wgDev m with
         | None => (m, Some (Errorf "wireguard device is not active" []))
         | Some _ =>
             let '(m, r) := startSOCKS5Locked m in
             (m, match r with Ok _ => None | Err e => Some e end)
         end.
Definition IsConnectionDead (now : Z) m : Manager * bool :=
  match wgDev m with
  | Some d =>
      if negb (active m) then (m, false)
      else
        let '(s, err) := WGDevice.GetStats d in
        match err with
        | Some _ => (set_rx m (WGDevice.RxBytes s), false)
        | None =>
            let '(dead, rx) := evaluateConnectionDead now (ConnectedAt (status m))
              (WGDevice.LastHandshakeSec s) (WGDevice.RxBytes s) (lastRxBytes m) in
            (set_rx m rx, dead)
        end
  | None => (m, false)
  end.
End manager.
