(* ===== verification/VPNProofs.v ===== *)
(** * internal/vpn: what the connection manager guarantees

    The manager of VPN.v under any sequence of its operations and of traffic:
    an invariant over histories ([inv]), a Hoare logic for its monad
    ([triple]), the policy of a live connection, and the capture routes. *)
From S2P Require Import Prelude GoStrings GoNet VPN.
From S2P Require Config Rule FakeIP RouteTable Router Outbound HostRoute Forwarder Socks5 Tun WGDevice.
Open Scope string_scope.
Open Scope list_scope.
Open Scope Z_scope.

(** ** Histories

    What can happen to a manager: its operations, and traffic through its
    forwarder (a new connection, a packet, a DNS request to the pool). *)
Section histories.
Context {U : Unicode} {S : SliceSort} {WGo : WGDevice.WireGuard} {K RK W : Type} {HR : Router.Router W}.
Context (ops : HostRoute.host_ops K).
Context (NewPlatformRouter : string -> RK -> W) (router_kernel : W -> RK).
Context (goos : Tun.goos) (CreateTUN : string -> Z -> gset string -> result string)
  (tun_fails : list string -> list (list string) -> option error).
Context (Listen : string -> gset string -> result string).

Abbreviation manager := (@Manager WGo K RK W).
Abbreviation Connect := (Connect ops NewPlatformRouter router_kernel goos CreateTUN tun_fails Listen).
Abbreviation cleanupLocked := (VPN.cleanupLocked ops router_kernel).
Abbreviation startLocked := (startLocked ops NewPlatformRouter goos CreateTUN tun_fails Listen).

Implicit Types m : manager.

Inductive event :=
| EConnect (env : StartEnv) (now : Z) (node : string) (cc : ConnectConfig)
| EDisconnect
| EFollow (v : bool)
| ESplit (routes suffixes : list string)
| ESOCKS5 (c : Config.SOCKS5Config)
| ECheckDead (now : Z)
| EReconnecting (v : bool)
| EConnection (env : Forwarder.Env) (dst : IP) (port : Z)
| EPacket (env : Forwarder.Env) (pkt : list Z)
| EAssign (name : string).

Definition on_fwd (g : Forwarder.Forwarder K WGDevice.Device -> Forwarder.Forwarder K WGDevice.Device) (m : manager) : manager :=
  set_fwd m (g <$> fwd m) (world m).
Definition set_pool (p : option FakeIP.Pool) (f : Forwarder.Forwarder K WGDevice.Device) :=
  Forwarder.mkForwarder (Forwarder.config f) (Forwarder.closed f) (Forwarder.connCount f) p (Forwarder.engine f)
    (Forwarder.outbounds f) (Forwarder.routeTable f) (Forwarder.ifaceCache f) (Forwarder.routeCache f)
    (Forwarder.dnsHijack f) (Forwarder.vpnOutbound f) (Forwarder.defaultVPN f) (Forwarder.hosts f).

Definition step (m : manager) (ev : event) : manager :=
  match ev with
  | EConnect env now node cc => fst (Connect env now node cc m)
  | EDisconnect => Disconnect ops router_kernel m
  | EFollow v => SetFollowSplitRoutes v m
  | ESplit r s => UpdateSplitRoutes r s m
  | ESOCKS5 c => fst (UpdateSOCKS5 Listen c m)
  | ECheckDead now => fst (IsConnectionDead now m)
  | EReconnecting v => SetReconnecting v m
  | EConnection env dst port => on_fwd (fun f => fst (Forwarder.dispatch ops env f dst port)) m
  | EPacket env pkt => on_fwd (fun f => Forwarder.handleICMPv4 ops env f pkt) m
  | EAssign name => on_fwd (fun f => set_pool ((fun p => FakeIP.Assign_pool p name) <$> Forwarder.pool f) f) m
  end.
Definition history (c : Config.Config) (w : World) (evs : list event) : manager := foldl step (New c w) evs.

(** ** Reasoning about [M]: [Q] on success, [E] on error *)
Definition triple (P : manager -> Prop) {A} (c : M A) (Q : A -> manager -> Prop) (E : manager -> Prop) : Prop :=
  forall m, P m -> match c m with (m', Ok a) => Q a m' | (m', Err _) => E m' end.

Lemma triple_bind P {A B} (c : M A) (k : A -> M B) Q R E :
  triple P c Q E -> (forall a, triple (Q a) (k a) R E) -> triple P (bind c k) R E.
Proof.
  intros Hc Hk m Hm. unfold bind. specialize (Hc m Hm). destruct (c m) as [m' [a|e]]; [|done]. by apply Hk.
Qed.
Lemma triple_lift (P E : manager -> Prop) {A} what (r : result A) :
  (forall m, P m -> E m) -> triple P (lift what r) (fun a m => P m /\ r = Ok a) E.
Proof. intros H m Hm. unfold lift, ret, fail. destruct r; [done | by apply H]. Qed.
Lemma triple_gets (P E : manager -> Prop) {A} (f : manager -> A) :
  triple P (gets f) (fun a m => P m /\ a = f m) E.
Proof. intros m Hm. done. Qed.
Lemma triple_modify (P E : manager -> Prop) f (Q : unit -> manager -> Prop) :
  (forall m, P m -> Q tt (f m)) -> triple P (modify f) Q E.
Proof. intros H m Hm. by apply H. Qed.
Lemma triple_ret (P E : manager -> Prop) {A} (a : A) (Q : A -> manager -> Prop) :
  (forall m, P m -> Q a m) -> triple P (ret a) Q E.
Proof. intros H m Hm. by apply H. Qed.
Lemma triple_weaken (P P' : manager -> Prop) {A} (c : M A) Q E :
  (forall m, P' m -> P m) -> triple P c Q E -> triple P' c Q E.
Proof. intros H Hc m Hm. by apply Hc, H. Qed.
Lemma triple_pure (P : manager -> Prop) (F : Prop) {A} (c : M A) Q E :
  (F -> triple P c Q E) -> triple (fun m => P m /\ F) c Q E.
Proof. intros H m [Hm HF]. by apply (H HF). Qed.
Lemma triple_foldr (P E : manager -> Prop) {X} (c : X -> M unit) l :
  (forall x, triple P (c x) (fun _ => P) E) ->
  triple P (foldr (fun x rest => bind (c x) (fun _ => rest)) (ret tt) l) (fun _ => P) E.
Proof.
  intros Hc. induction l as [|x l IH]; cbn; [by apply triple_ret|].
  apply (triple_bind _ _ _ (fun _ => P)); [apply Hc | done].
Qed.

(** ** Resources: what this process holds open beyond what was open before *)
Context (tuns0 listeners0 : gset string).
Context (fresh_tun : forall n k l name, CreateTUN n k l = Ok name -> name ∉ l).
Context (fresh_listen : Socks5.fresh_listener Listen).

Definition tun_res (m : manager) : Prop :=
  match tunDev m with
  | Some d => Tun.open_devs (tuns (world m)) = {[Tun.dev_Name d]} ∪ tuns0 /\ Tun.dev_Name d ∉ tuns0
  | None => Tun.open_devs (tuns (world m)) = tuns0
  end.
Definition socks_res (m : manager) : Prop :=
  match socks5 m with
  | Some s => Socks5.stopped s = false /\ listeners (world m) = {[Socks5.listener s]} ∪ listeners0 /\
              Socks5.listener s ∉ listeners0
  | None => listeners (world m) = listeners0
  end.
Definition res (m : manager) : Prop := tun_res m /\ socks_res m.
Definition down (m : manager) : Prop :=
  tunDev m = None /\ wgDev m = None /\ fwd m = None /\ eng m = None /\ rt m = None /\ rm m = None /\ socks5 m = None.
Definition up (m : manager) : Prop :=
  is_Some (tunDev m) /\ is_Some (wgDev m) /\ is_Some (fwd m) /\ is_Some (eng m) /\ is_Some (rt m) /\ is_Some (rm m).

(** A manager whose parts are all known, so that updates compute. *)
Ltac split_parts m :=
  let td := fresh "td" in let wd := fresh "wd" in let fw := fresh "fw" in let en := fresh "en" in
  let rt' := fresh "rt'" in let rm' := fresh "rm'" in let so := fresh "so" in
  destruct m as [? ? ? ? ? ? ? ? td wd fw en rt' rm' so ?];
  destruct so, en, fw, rm', wd, td.

Lemma cleanup_down m : down (cleanupLocked m).
Proof. split_parts m; repeat split. Qed.
Lemma cleanup_settings m :
  let m' := cleanupLocked m in
  cfg m' = cfg m /\ active m' = active m /\ reconnecting m' = reconnecting m /\
  currentFollowSplitRoutes m' = currentFollowSplitRoutes m /\ status m' = status m /\
  lastSplitRoutes m' = lastSplitRoutes m /\ lastDomainSuffixes m' = lastDomainSuffixes m.
Proof. split_parts m; repeat split. Qed.
Lemma cleanup_tuns m :
  Tun.open_devs (tuns (world (cleanupLocked m))) =
  match tunDev m with
  | Some d => Tun.open_devs (tuns (world m)) ∖ {[Tun.dev_Name d]}
  | None => Tun.open_devs (tuns (world m))
  end.
Proof. split_parts m; try reflexivity; cbn; set_solver. Qed.
Lemma cleanup_listeners m :
  listeners (world (cleanupLocked m)) =
  match socks5 m with
  | Some s => if Socks5.stopped s then listeners (world m) else listeners (world m) ∖ {[Socks5.listener s]}
  | None => listeners (world m)
  end.
Proof.
  split_parts m; try reflexivity; unfold VPN.cleanupLocked, close_socks5; cbn [socks5];
    match goal with |- context [Socks5.Close (Some ?x)] => destruct x as [? []] end; reflexivity.
Qed.
Lemma cleanup_res m : res m -> res (cleanupLocked m).
Proof.
  intros [Ht Hs]. pose proof (cleanup_down m) as (D1 & _ & _ & _ & _ & _ & D7).
  unfold res, tun_res, socks_res in *. rewrite D1, D7, cleanup_tuns, cleanup_listeners. split.
  - destruct (tunDev m) as [d|]; [|done]. destruct Ht as [-> ?]. set_solver.
  - destruct (socks5 m) as [x|]; [|done]. destruct Hs as (-> & -> & ?). set_solver.
Qed.
Lemma cleanup_hosts m :
  let w := host_routes (world (cleanupLocked m)) in
  HostRoute.hwritable w = true -> HostRoute.loadPersistedHostRoutesLocked w = ∅.
Proof.
  cbn zeta. unfold VPN.cleanupLocked. cbn [world set_fwd w_hosts host_routes].
  unfold HostRoute.CleanupPersistedHostRoutes. rewrite HostRoute.save_writable. intros Hw.
  by apply HostRoute.load_save.
Qed.

(** ** What [startLocked] establishes, stage by stage *)
Definition clean_engine (m : manager) (e : Rule.Engine) : Prop := eng m = Some e /\ Rule.runtimeRules e = [].
(** Nothing yet, then the engine, the WireGuard device and the route table. *)
Definition stage0 (m : manager) : Prop :=
  res m /\ tunDev m = None /\ fwd m = None /\ rm m = None /\ socks5 m = None.
Definition stage1 (e : Rule.Engine) (m : manager) : Prop := stage0 m /\ clean_engine m e.
Definition stage2 (e : Rule.Engine) (wg : WGDevice.Device) (m : manager) : Prop := stage1 e m /\ wgDev m = Some wg.
Definition stage3 (e : Rule.Engine) (wg : WGDevice.Device) (m : manager) : Prop := stage2 e wg m /\ is_Some (rt m).
(** The TUN device is open. *)
Definition stage4 (e : Rule.Engine) (wg : WGDevice.Device) (m : manager) : Prop :=
  res m /\ fwd m = None /\ rm m = None /\ socks5 m = None /\ clean_engine m e /\ wgDev m = Some wg /\
  is_Some (rt m) /\ is_Some (tunDev m).
(** The forwarder shares the engine and dials through the device. *)
Definition forwards (e : Rule.Engine) (wg : WGDevice.Device) (v : bool) (m : manager) : Prop :=
  exists f, fwd m = Some f /\ Forwarder.engine f = Some e /\ Forwarder.vpnOutbound f = Some wg /\
    Forwarder.defaultVPN f = v.
Definition ready (e : Rule.Engine) (wg : WGDevice.Device) (v : bool) (m : manager) : Prop :=
  clean_engine m e /\ wgDev m = Some wg /\ is_Some (rt m) /\ is_Some (tunDev m) /\ forwards e wg v m.
Definition stage5 (e : Rule.Engine) (wg : WGDevice.Device) (v : bool) (m : manager) : Prop :=
  res m /\ ready e wg v m.

Lemma add_host_route_triple (P : manager -> Prop) ip i E :
  (forall m w, P m -> P (set_fwd m (fwd m) (w_hosts (world m) w))) ->
  triple P (add_host_route ops ip i) (fun _ => P) E.
Proof. intros HP. apply triple_modify. intros m Hm. by apply HP. Qed.

Lemma open_tun_triple e wg :
  triple (stage3 e wg) (open_tun goos CreateTUN tun_fails) (fun _ => stage4 e wg) res.
Proof.
  intros m ((((Hres & Ht & Hf & Hr & Hs) & He) & Hw) & Hrt). unfold open_tun.
  match goal with |- context [Tun.NewDevice _ _ goos ?c ?w] =>
    pose proof (fun w' r => Tun.NewDevice_open CreateTUN tun_fails goos c w w' r fresh_tun) as Hn;
    destruct (Tun.NewDevice CreateTUN tun_fails goos c w) as [w' [d|err]] end;
    specialize (Hn _ _ eq_refl); cbn in Hn; destruct Hres as [Hres1 Hres2];
    unfold tun_res in Hres1; rewrite Ht in Hres1; rewrite Hres1 in Hn.
  - split_and!; try done; by eexists.
  - split; [|done]. unfold tun_res. cbn. by rewrite Ht.
Qed.

Lemma startSOCKS5_triple (P : manager -> Prop) :
  (forall m s w, P m -> P (set_socks5 m s (w_listeners (world m) w))) ->
  triple (fun m => res m /\ P m /\ socks5 m = None) (startSOCKS5Locked Listen)
    (fun _ m => res m /\ P m) res.
Proof.
  intros HP m ([Ht Hs] & Hm & Hn). unfold startSOCKS5Locked. cbn zeta.
  unfold socks_res in Hs. rewrite Hn in Hs. unfold Socks5.Start.
  match goal with |- context [Socks5.mkConfig ?a ?b ?c] => set (cfg' := Socks5.mkConfig a b c) end.
  destruct (negb (Socks5.Enabled cfg')); [by split; [|apply HP]|].
  destruct (bool_decide _); [by split; [|unfold socks_res; cbn; rewrite Hn]|].
  destruct (_ || _); [by split; [|unfold socks_res; cbn; rewrite Hn]|].
  destruct (Listen _ _) as [ln|err] eqn:El; [|by split; [|unfold socks_res; cbn; rewrite Hn]].
  apply fresh_listen in El. split; [|by apply HP]. split; [done|].
  unfold socks_res. cbn. rewrite Hs in *. done.
Qed.

Lemma add_capture_routes_triple e wg v env :
  triple (stage5 e wg v) (add_capture_routes NewPlatformRouter env)
    (fun _ m => stage5 e wg v m /\ is_Some (rm m)) res.
Proof.
  intros m (Hres & He & Hw & [r Hr] & Ht & f & Hf & Hfe & Hfv & Hfd). unfold add_capture_routes.
  rewrite Hr. destruct (Forwarder.clock (fenv env)) as [[t0 n] n']. cbn zeta.
  match goal with |- context [put_rt m ?a ?b] => set (m1 := put_rt m a b) end.
  assert (stage5 e wg v m1) as Hm1.
  { unfold m1, stage5, ready. split_and!; try done. unfold forwards, put_rt. cbn. rewrite Hf. cbn.
    destruct (RouteTable.rf_callback _); eexists; split_and!; try done. }
  destruct (Router.AddRoutes _ _ _) as [mgr [err|]].
  - apply Hm1.
  - split; [exact Hm1 | by eexists].
Qed.

Definition runtime_of (rules : list string) : list Rule.entry :=
  match mapR Rule.parseRule rules with Ok es => es | Err _ => [] end.
(** A live connection in the mode [follow]: all parts present, one engine with
    the mode's rules, traffic by default to the VPN exactly in full tunnel. *)
Definition live_mode (e : Rule.Engine) (wg : WGDevice.Device) (follow : bool) (rules : list string) (m : manager) : Prop :=
  eng m = Some e /\ wgDev m = Some wg /\ Rule.runtimeRules e = runtime_of rules /\
  forwards e wg (negb follow) m /\ is_Some (rt m) /\ is_Some (tunDev m) /\ is_Some (rm m).

Lemma inject_live e wg v rules (m : manager) :
  clean_engine m e -> wgDev m = Some wg -> forwards e wg v m ->
  exists e', Rule.rules e' = Rule.rules e /\ eng (inject rules m) = Some e' /\
    Rule.runtimeRules e' = runtime_of rules /\ forwards e' wg v (inject rules m).
Proof.
  intros [He Hr] Hw (f & Hf & Hfe & Hfv & Hfd). unfold inject. rewrite He.
  destruct rules as [|x l]; [by exists e; split_and!; try done; exists f|].
  cbn [length Nat.ltb Nat.leb]. unfold Rule.InjectRules, runtime_of.
  destruct (mapR Rule.parseRule (x :: l)) as [es|err].
  - eexists (Rule.mkEngine (Rule.rules e) es (Rule.geoip e)). split_and!; try done.
    exists (fwd_set_engine (Rule.mkEngine (Rule.rules e) es (Rule.geoip e)) f). unfold put_engine, set_eng. cbn. by rewrite Hf.
  - exists e. split_and!; try done. exists (fwd_set_engine e f). unfold put_engine, set_eng. cbn. by rewrite Hf.
Qed.
Lemma inject_parts rules (m : manager) :
  let m' := inject rules m in
  world m' = world m /\ tunDev m' = tunDev m /\ wgDev m' = wgDev m /\ rt m' = rt m /\ rm m' = rm m /\
  socks5 m' = socks5 m /\ currentFollowSplitRoutes m' = currentFollowSplitRoutes m /\ active m' = active m /\
  lastSplitRoutes m' = lastSplitRoutes m /\ lastDomainSuffixes m' = lastDomainSuffixes m.
Proof. cbn zeta. unfold inject. destruct (eng m); [destruct (_ <? _)%nat|]; repeat split. Qed.

Definition live_now (follow : bool) (routes suffixes : list string) (m : manager) : Prop :=
  exists e wg, live_mode e wg follow (injected_rules follow routes suffixes) m /\
    currentFollowSplitRoutes m = follow.

Lemma stage_finish e wg follow rules (m : manager) :
  stage5 e wg (negb follow) m /\ is_Some (rm m) /\ currentFollowSplitRoutes m = follow ->
  res (inject rules m) /\ currentFollowSplitRoutes (inject rules m) = follow /\
  exists e', live_mode e' wg follow rules (inject rules m).
Proof.
  intros ((Hres & He & Hw & Hr & Ht & Hf) & Hm & Hc).
  destruct (inject_live e wg (negb follow) rules m) as (e' & _ & E1 & E2 & E3); [done..|].
  destruct (inject_parts rules m) as (P1 & P2 & P3 & P4 & P5 & P6 & P7 & P8 & P9 & P10).
  split_and!.
  - unfold res, tun_res, socks_res in *. by rewrite P1, P2, P6.
  - by rewrite P7.
  - exists e'. unfold live_mode. rewrite P2, P3, P4, P5. by split_and!.
Qed.

Lemma NewEngine_clean l g e : Rule.NewEngine l g = Ok e -> Rule.runtimeRules e = [].
Proof. unfold Rule.NewEngine. intros H. by rinv H. Qed.

(** Preparation of the forwarder, from the open TUN device on. *)
Lemma start_forwarder_stage e wg cfg' p outs (m : manager) :
  stage4 e wg m ->
  let f := Forwarder.NewForwarder cfg' p (eng m) outs (rt m) (host_routes (world m)) in
  let m' := set_fwd (set_rt m (fwd m) (RouteTable.OnRefresh <$> rt m)) (Some (Forwarder.SetVPNOutbound f (Some wg))) (world m) in
  res m' /\ ready e wg false m' /\ socks5 m' = None.
Proof.
  intros (Hres & Hf & Hr & Hs & [He He'] & Hw & [t Ht] & Hd). cbn zeta.
  split; [done|]. split; [|done]. unfold ready. split_and!; try done.
  - cbn. rewrite Ht. by eexists.
  - eexists. by split_and!.
Qed.

Lemma startLocked_triple env node cc :
  triple stage0 (startLocked env node cc)
    (fun _ m => res m /\ currentFollowSplitRoutes m = FollowSplitRoutes cc /\
       exists e wg, live_mode e wg (FollowSplitRoutes cc)
         (injected_rules (FollowSplitRoutes cc) (SplitRoutes cc) (DomainSuffixes cc)) m) res.
Proof.
  unfold VPN.startLocked.
  assert (forall m, stage0 m -> res m) as H0 by (intros m H; apply H).
  eapply triple_bind; [apply triple_gets|]. intros c. eapply triple_weaken; [intros m H; exact (proj1 H)|].
  eapply triple_bind; [by apply triple_lift|]. intros strs. eapply triple_weaken; [intros m H; exact (proj1 H)|].
  eapply triple_bind; [by apply triple_lift|]. intros db. eapply triple_weaken; [intros m H; exact (proj1 H)|].
  eapply triple_bind; [by apply triple_lift|]. intros e. apply triple_pure. intros He%NewEngine_clean.
  eapply (triple_bind _ _ _ (fun _ => stage1 e)); [by apply triple_modify; intros m H; split|]. intros _.
  eapply (triple_bind _ _ _ (fun _ => stage1 e)).
  { destruct (_ && _); [by apply add_host_route_triple | by apply triple_ret]. }
  intros _. eapply triple_bind; [apply triple_lift; intros m H; apply H|]. intros wg.
  eapply triple_weaken; [intros m H; exact (proj1 H)|].
  eapply (triple_bind _ _ _ (fun _ => stage2 e wg)); [by apply triple_modify; intros m H; split|]. intros _.
  eapply (triple_bind _ _ _ (fun _ => stage3 e wg)); [by apply triple_modify; intros m H; split|]. intros _.
  eapply triple_bind; [apply open_tun_triple|]. intros tun.
  eapply (triple_bind _ _ _ (fun _ => stage4 e wg)).
  { destruct (_ && _); [|by apply triple_ret]. apply triple_modify.
    intros m (? & ? & ? & ? & ? & ? & ? & ?). split_and!; try done; by eexists. }
  intros _. eapply triple_bind; [apply triple_gets|]. intros c'. eapply triple_weaken; [intros m H; exact (proj1 H)|].
  eapply triple_bind; [apply triple_lift; intros m H; apply H|]. intros pool.
  eapply triple_weaken; [intros m H; exact (proj1 H)|].
  destruct (Outbound.Init _ _) as [out err].
  eapply (triple_bind _ _ _ (fun _ => stage4 e wg)).
  { destruct err; [by intros m H; apply H | by apply triple_ret]. }
  intros _. destruct (Outbound.ResolvedIfaceName _ _) as [out' resolved].
  eapply (triple_bind _ _ _ (fun _ => stage4 e wg)).
  { apply triple_foldr. intros up_. destruct (SplitHostPort up_) as [[h pt]|]; [|by apply triple_ret].
    destruct (bool_decide _); [by apply triple_ret | by apply add_host_route_triple]. }
  intros _. cbn zeta. eapply (triple_bind _ _ _ (fun _ => stage4 e wg)).
  { destruct (create_nic env); [by intros m H; apply H | by apply triple_ret]. }
  intros _. eapply (triple_bind _ _ _ (fun _ m => res m /\ ready e wg false m /\ socks5 m = None)).
  { apply triple_modify. intros m Hm. by apply start_forwarder_stage. }
  intros _. eapply (triple_bind _ _ _ (fun _ => stage5 e wg false)); [by apply (startSOCKS5_triple (ready e wg false))|]. intros _.
  eapply triple_bind; [apply add_capture_routes_triple|]. intros ?.
  eapply (triple_bind _ _ _ (fun _ m => stage5 e wg false m /\ is_Some (rm m) /\
    currentFollowSplitRoutes m = FollowSplitRoutes cc)).
  { apply triple_modify. by intros m [? ?]. }
  intros _. eapply (triple_bind _ _ _ (fun _ m => stage5 e wg (negb (FollowSplitRoutes cc)) m /\ is_Some (rm m) /\
    currentFollowSplitRoutes m = FollowSplitRoutes cc)).
  { destruct (FollowSplitRoutes cc); [by apply triple_ret|]. apply triple_modify.
    intros m ((? & ? & ? & ? & ? & f & Hf & ? & ? & ?) & ? & ?). unfold stage5, ready. split_and!; try done.
    exists (Forwarder.SetDefaultVPN f true). unfold fwd_default. cbn. by rewrite Hf. }
  intros _. apply triple_modify. intros m Hm.
  destruct (stage_finish e wg _ (injected_rules (FollowSplitRoutes cc) (SplitRoutes cc) (DomainSuffixes cc)) m Hm)
    as (? & ? & e' & ?). split_and!; [done..|]. by exists e', wg.
Qed.

(** ** The invariant of every history *)
Definition live_ok (m : manager) : Prop :=
  active m = true /\ exists e wg, live_mode e wg (currentFollowSplitRoutes m)
    (injected_rules (currentFollowSplitRoutes m) (lastSplitRoutes m) (lastDomainSuffixes m)) m.
Definition inv (m : manager) : Prop := res m /\ (down m \/ live_ok m).

Lemma down_stage0 m : res m -> down m -> stage0 m.
Proof. intros Hr (? & _ & ? & _ & _ & ? & ?). by split_and!. Qed.

Lemma Connect_inv env now node cc m : inv m ->
  let '(m', err) := Connect env now node cc m in
  res m' /\ match err with Some _ => down m' | None => live_ok m' end.
Proof.
  intros [Hr Hm]. unfold VPN.Connect.
  assert (stage0 (if active m then cleanupLocked m else m)) as H0.
  { destruct (active m) eqn:Ea; [apply down_stage0; [by apply cleanup_res | apply cleanup_down]|].
    apply down_stage0; [done|]. destruct Hm as [?|[? _]]; [done | congruence]. }
  pose proof (startLocked_triple env node cc _ H0) as H. destruct (startLocked _ _ _ _) as [m' [[]|e]].
  - destruct H as (Hr' & Hc & e & wg & Hl). split; [done|]. split; [done|]. exists e, wg. cbn.
    rewrite Hc. exact Hl.
  - split; [by apply cleanup_res | apply cleanup_down].
Qed.

Lemma live_parts e wg b rules m : live_mode e wg b rules m -> exists f, fwd m = Some f /\ eng m = Some e.
Proof. intros (? & _ & _ & (f & ? & _) & _). by exists f. Qed.
Lemma down_not_live m : down m -> live m = false.
Proof. intros (_ & _ & Hf & _). unfold live. rewrite Hf. by rewrite andb_false_r. Qed.
Lemma live_live m : live_ok m -> live m = true.
Proof.
  intros (Ha & e & wg & Hl). destruct (live_parts _ _ _ _ _ Hl) as (f & Hf & He).
  unfold live. by rewrite Ha, Hf, He.
Qed.
Lemma clear_injected_ready e wg b rules m :
  live_mode e wg b rules m ->
  let e' := Rule.ClearInjectedRules e in
  clean_engine (clear_injected m) e' /\ wgDev (clear_injected m) = Some wg /\
  forwards e' wg (negb b) (clear_injected m) /\
  is_Some (rt (clear_injected m)) /\ is_Some (tunDev (clear_injected m)) /\ is_Some (rm (clear_injected m)).
Proof.
  intros (He & Hw & _ & (f & Hf & _ & Hv & Hd) & Hp). cbn zeta. unfold clear_injected. rewrite He.
  split_and!; try done; try apply Hp. exists (fwd_set_engine (Rule.ClearInjectedRules e) f).
  unfold put_engine, set_eng. cbn. by rewrite Hf.
Qed.
Lemma inject_live_mode e wg b rules (m : manager) :
  clean_engine m e -> wgDev m = Some wg -> forwards e wg (negb b) m ->
  is_Some (rt m) -> is_Some (tunDev m) -> is_Some (rm m) ->
  exists e', live_mode e' wg b rules (inject rules m).
Proof.
  intros He Hw Hf H1 H2 H3. destruct (inject_live e wg (negb b) rules m He Hw Hf) as (e' & _ & ? & ? & ?).
  destruct (inject_parts rules m) as (_ & P2 & P3 & P4 & P5 & _).
  exists e'. unfold live_mode. rewrite P2, P3, P4, P5. by split_and!.
Qed.
Lemma res_parts (m m' : manager) :
  tunDev m' = tunDev m -> socks5 m' = socks5 m -> world m' = world m -> res m -> res m'.
Proof. unfold res, tun_res, socks_res. by intros -> -> ->. Qed.
Lemma clear_injected_parts m :
  let m' := clear_injected m in
  world m' = world m /\ tunDev m' = tunDev m /\ socks5 m' = socks5 m /\ active m' = active m /\
  currentFollowSplitRoutes m' = currentFollowSplitRoutes m /\
  lastSplitRoutes m' = lastSplitRoutes m /\ lastDomainSuffixes m' = lastDomainSuffixes m.
Proof. cbn zeta. unfold clear_injected. destruct (eng m); repeat split. Qed.

Lemma SetFollow_inv v m : inv m -> inv (SetFollowSplitRoutes v m).
Proof.
  intros [Hr [Hd|Hl]]; unfold SetFollowSplitRoutes.
  { rewrite down_not_live by done. by split; [|left]. }
  rewrite live_live by done. cbn [negb]. destruct Hl as (Ha & e & wg & Hl).
  set (m1 := fwd_default (negb v) (clear_injected (set_follow m v))).
  assert (live_mode e wg (currentFollowSplitRoutes m) (injected_rules (currentFollowSplitRoutes m)
    (lastSplitRoutes m) (lastDomainSuffixes m)) (set_follow m v)) as Hl1 by exact Hl.
  destruct (clear_injected_ready _ _ _ _ _ Hl1) as (C1 & C2 & (f & F1 & F2 & F3 & _) & C4 & C5 & C6).
  destruct (clear_injected_parts (set_follow m v)) as (P1 & P2 & P3 & P4 & P5 & P6 & P7).
  destruct (inject_live_mode (Rule.ClearInjectedRules e) wg v
    (injected_rules v (lastSplitRoutes m1) (lastDomainSuffixes m1)) m1) as [e' He']; try done.
  { exists (Forwarder.SetDefaultVPN f (negb v)). unfold m1, fwd_default, set_fwd. cbn. by rewrite F1. }
  destruct (inject_parts (injected_rules v (lastSplitRoutes m1) (lastDomainSuffixes m1)) m1)
    as (Q1 & Q2 & _ & _ & _ & Q6 & Q7 & Q8 & Q9 & Q10).
  split; [|right; split].
  - apply (res_parts m); [by rewrite Q2 | by rewrite Q6 | by rewrite Q1 | done].
  - rewrite Q8. unfold m1. cbn. by rewrite P4.
  - exists e', wg. rewrite Q7, Q9, Q10. unfold m1 at 1 2. cbn [fwd_default set_fwd currentFollowSplitRoutes].
    rewrite P5. exact He'.
Qed.
Lemma UpdateSplit_inv r d m : inv m -> inv (UpdateSplitRoutes r d m).
Proof.
  intros Hi. pose proof Hi as [Hr [Hd|Hl]]; unfold UpdateSplitRoutes.
  { rewrite down_not_live by done. by split; [|left]. }
  rewrite live_live by done. cbn [negb]. destruct (_ && _); [done|].
  destruct Hl as (Ha & e & wg & Hl). cbn [set_last currentFollowSplitRoutes].
  destruct (currentFollowSplitRoutes m) eqn:Ec; cbn [negb].
  - assert (live_mode e wg true (injected_rules true (lastSplitRoutes m) (lastDomainSuffixes m))
      (set_last m r d)) as Hl1 by exact Hl.
    destruct (clear_injected_ready _ _ _ _ _ Hl1) as (C1 & C2 & C3 & C4 & C5 & C6).
    destruct (clear_injected_parts (set_last m r d)) as (P1 & P2 & P3 & P4 & P5 & P6 & P7).
    destruct (inject_live_mode _ wg true (injected_rules true r d) _ C1 C2 C3 C4 C5 C6) as [e' He'].
    destruct (inject_parts (injected_rules true r d) (clear_injected (set_last m r d)))
      as (Q1 & Q2 & _ & _ & _ & Q6 & Q7 & Q8 & Q9 & Q10).
    split; [|right; split].
    + apply (res_parts m); [by rewrite Q2, P2 | by rewrite Q6, P3 | by rewrite Q1, P1 | done].
    + by rewrite Q8, P4.
    + exists e', wg. rewrite Q7, Q9, Q10, P5, P6, P7. cbn. by rewrite Ec.
  - split; [done|]. right. split; [done|]. exists e, wg. cbn. rewrite Ec. exact Hl.
Qed.

Lemma set_active_res m a st : res m -> res (set_active m a st).
Proof. exact (fun H => H). Qed.
Lemma close_socks5_res m : res m -> res (close_socks5 m) /\ socks5 (close_socks5 m) = None.
Proof.
  intros [Ht Hs]. unfold close_socks5, res, tun_res, socks_res in *.
  destruct (socks5 m) as [x|] eqn:E; [|by rewrite E]. cbn. destruct Hs as (Hx & Hl & Hn).
  rewrite Hx. cbn. split; [|done]. split; [done|]. rewrite Hl. set_solver.
Qed.
Lemma close_socks5_live m : live_ok m -> live_ok (close_socks5 m).
Proof. unfold close_socks5. by destruct (socks5 m). Qed.
Lemma close_socks5_down m : down m -> close_socks5 m = m.
Proof. intros (_ & _ & _ & _ & _ & _ & Hs). unfold close_socks5. by rewrite Hs. Qed.

Lemma UpdateSOCKS5_inv c m : inv m -> inv (fst (UpdateSOCKS5 Listen c m)).
Proof.
  intros Hi. unfold UpdateSOCKS5.
  match goal with |- context [set_cfg m ?c] => set (m1 := set_cfg m c) end.
  assert (inv m1) as Hi1 by exact Hi. clearbody m1. clear Hi m. cbn zeta.
  destruct (active m1); cbn [negb]; [|done]. destruct Hi1 as [Hr Hm].
  destruct (close_socks5_res m1 Hr) as [Hr' Hs].
  destruct (negb (Config.socks_Enabled c)).
  { split; [done|]. destruct Hm as [Hd|Hl]; [left; by rewrite close_socks5_down | right; by apply close_socks5_live]. }
  destruct Hm as [Hd|Hl].
  - rewrite close_socks5_down in * by done. destruct Hd as (D1 & D2 & D3). rewrite D2. by split; [|left].
  - apply close_socks5_live in Hl. destruct (wgDev _); [|by split; [|right]].
    pose proof (startSOCKS5_triple live_ok (fun m s w H => H) (close_socks5 m1)) as Ht.
    pose proof (fun H => Ht H) as Ht'. unfold startSOCKS5Locked in *. cbn zeta in *.
    destruct (Socks5.Start _ _ _) as [l [srv|err]]; cbn [fst] in *.
    + destruct Ht as [? ?]; [by split_and!|]. by split; [|right].
    + split; [apply Ht; by split_and! | right; exact Hl].
Qed.

Lemma CheckDead_inv now m : inv m -> inv (fst (IsConnectionDead now m)).
Proof.
  intros Hi. unfold IsConnectionDead. destruct (wgDev m) as [d|]; [|done].
  destruct (negb (active m)); [done|]. destruct (WGDevice.GetStats d) as [s [e|]]; [exact Hi|].
  destruct (evaluateConnectionDead _ _ _ _ _) as [dead rx]. exact Hi.
Qed.

(** Traffic keeps the engine, the default and the outbound. *)
Lemma on_fwd_inv (g : Forwarder.Forwarder K WGDevice.Device -> Forwarder.Forwarder K WGDevice.Device) m :
  (forall f, Forwarder.engine (g f) = Forwarder.engine f /\ Forwarder.vpnOutbound (g f) = Forwarder.vpnOutbound f /\
    Forwarder.defaultVPN (g f) = Forwarder.defaultVPN f) ->
  inv m -> inv (on_fwd g m).
Proof.
  intros Hg [Hr [Hd|(Ha & e & wg & He & Hw & Hrt & (f & Hf & H1 & H2 & H3) & Hp)]]; (split; [done|]).
  - left. destruct Hd as (? & ? & Hf & ?). unfold down, on_fwd. cbn. rewrite Hf. tauto.
  - right. split; [done|]. exists e, wg. unfold live_mode. split_and!; try done; try apply Hp.
    exists (g f). unfold on_fwd. cbn. rewrite Hf. destruct (Hg f) as (-> & -> & ->). by split_and!.
Qed.

Lemma mode_of_parts {f f' : Forwarder.Forwarder K WGDevice.Device} :
  Forwarder.mode_of f' = Forwarder.mode_of f ->
  Forwarder.engine f' = Forwarder.engine f /\ Forwarder.vpnOutbound f' = Forwarder.vpnOutbound f /\
  Forwarder.defaultVPN f' = Forwarder.defaultVPN f.
Proof. by intros [= -> -> -> _]. Qed.

Lemma step_inv m ev : inv m -> inv (step m ev).
Proof.
  intros Hi. destruct ev; cbn [step].
  - pose proof (Connect_inv env now node cc m Hi) as H.
    destruct (Connect env now node cc m) as [m' [e|]]; destruct H as [Hr Hm]; (split; [exact Hr|]); [by left | by right].
  - destruct Hi as [Hr _]. apply cleanup_res in Hr. pose proof (cleanup_down m) as Hd.
    unfold Disconnect. revert Hr Hd. generalize (cleanupLocked m). intros m' Hr Hd. by split; [|left].
  - by apply SetFollow_inv.
  - by apply UpdateSplit_inv.
  - by apply UpdateSOCKS5_inv.
  - by apply CheckDead_inv.
  - exact Hi.
  - apply on_fwd_inv; [|done]. intros f. apply mode_of_parts, Forwarder.dispatch_mode.
  - apply on_fwd_inv; [|done]. intros f. apply mode_of_parts, Forwarder.handleICMPv4_mode.
  - by apply on_fwd_inv.
Qed.
Lemma history_inv c w evs :
  Tun.open_devs (tuns w) = tuns0 -> listeners w = listeners0 -> inv (history c w evs).
Proof.
  intros Ht Hl. unfold history. assert (inv (New c w)) as H0 by (by split; [|left]). revert H0.
  generalize (New (K := K) (RK := RK) (W := W) c w). induction evs as [|ev evs IH]; intros m Hm; cbn; [done|].
  by apply IH, step_inv.
Qed.

(** [startLocked] never touches what [Connect] records at the end. *)
Definition recorded (a : bool) (st : Status) m : Prop := active m = a /\ status m = st.
Lemma startLocked_recorded a st env node cc :
  triple (recorded a st) (startLocked env node cc) (fun _ => recorded a st) (recorded a st).
Proof.
  unfold VPN.startLocked.
  assert (forall f, (forall m, active (f m) = active m /\ status (f m) = status m) ->
    triple (recorded a st) (modify f) (fun _ => recorded a st) (recorded a st)) as Hmod.
  { intros f Hf. apply triple_modify. intros m [H1 H2]. destruct (Hf m) as [E1 E2]. split; congruence. }
  assert (forall A what (r : result A), triple (recorded a st) (lift what r) (fun _ => recorded a st) (recorded a st)) as Hlift.
  { intros A what r m Hm. unfold lift. by destruct r. }
  assert (forall A (x : A), triple (recorded a st) (ret x) (fun _ => recorded a st) (recorded a st)) as Hret.
  { intros A x m Hm. exact Hm. }
  assert (forall ip i, triple (recorded a st) (add_host_route ops ip i) (fun _ => recorded a st) (recorded a st)) as Hroute.
  { intros ip i. apply Hmod. done. }
  eapply (triple_bind _ _ _ (fun _ => recorded a st)); [by intros m Hm|]. intros c.
  do 3 (eapply (triple_bind _ _ _ (fun _ => recorded a st)); [apply Hlift|]; intros ?).
  eapply (triple_bind _ _ _ (fun _ => recorded a st)); [by apply Hmod|]. intros _.
  eapply (triple_bind _ _ _ (fun _ => recorded a st)); [destruct (_ && _); [apply Hroute | apply Hret]|]. intros _.
  eapply (triple_bind _ _ _ (fun _ => recorded a st)); [apply Hlift|]. intros wg.
  do 2 (eapply (triple_bind _ _ _ (fun _ => recorded a st)); [by apply Hmod|]; intros _).
  eapply (triple_bind _ _ _ (fun _ => recorded a st)).
  { intros m Hm. unfold open_tun. by destruct (Tun.NewDevice _ _ _ _ _) as [w' [d|e']]. }
  intros tun. eapply (triple_bind _ _ _ (fun _ => recorded a st)); [destruct (_ && _); [by apply Hmod | apply Hret]|].
  intros _. eapply (triple_bind _ _ _ (fun _ => recorded a st)); [by intros m Hm|]. intros c'.
  eapply (triple_bind _ _ _ (fun _ => recorded a st)); [apply Hlift|]. intros pool.
  destruct (Outbound.Init _ _) as [out err].
  eapply (triple_bind _ _ _ (fun _ => recorded a st)); [by destruct err; intros m Hm|]. intros _.
  destruct (Outbound.ResolvedIfaceName _ _) as [out' resolved].
  eapply (triple_bind _ _ _ (fun _ => recorded a st)).
  { apply triple_foldr. intros up_. destruct (SplitHostPort up_) as [[h pt]|]; [|apply Hret].
    destruct (bool_decide _); [apply Hret | apply Hroute]. }
  intros _. cbn zeta. eapply (triple_bind _ _ _ (fun _ => recorded a st)); [by destruct (create_nic env); intros m Hm|].
  intros _. eapply (triple_bind _ _ _ (fun _ => recorded a st)); [by apply Hmod|]. intros _.
  eapply (triple_bind _ _ _ (fun _ => recorded a st)).
  { intros m Hm. unfold startSOCKS5Locked. cbn zeta. by destruct (Socks5.Start _ _ _) as [l [srv|e']]. }
  intros _. eapply (triple_bind _ _ _ (fun _ => recorded a st)).
  { intros m Hm. unfold add_capture_routes. destruct (Forwarder.clock _) as [[t0 n] n'].
    destruct (rt m); [|done]. cbn zeta. by destruct (Router.AddRoutes _ _ _) as [mgr [err'|]]. }
  intros _. eapply (triple_bind _ _ _ (fun _ => recorded a st)); [by apply Hmod|]. intros _.
  eapply (triple_bind _ _ _ (fun _ => recorded a st)); [destruct (FollowSplitRoutes cc); [apply Hret | by apply Hmod]|].
  intros _. apply Hmod. intros m. unfold inject. by destruct (eng m); [destruct (_ <? _)%nat|].
Qed.

Lemma Connect_error env now node cc m m' e : Connect env now node cc m = (m', Some e) ->
  (exists m1, m' = cleanupLocked m1) /\ active m' = active m /\ status m' = status m.
Proof.
  unfold VPN.Connect. set (m0 := if active m then cleanupLocked m else m).
  assert (recorded (active m) (status m) m0) as H0.
  { unfold m0. destruct (active m) eqn:Ea; [|done].
    destruct (cleanup_settings m) as (_ & H1 & _ & _ & H2 & _). split; congruence. }
  pose proof (startLocked_recorded (active m) (status m) env node cc m0 H0) as H. clearbody m0.
  destruct (startLocked env node cc m0) as [m1 [[]|e']]; [done|]. intros Hc.
  assert (m' = cleanupLocked m1) as -> by congruence. split; [by exists m1|].
  destruct (cleanup_settings m1) as (_ & H1 & _ & _ & H2 & _). destruct H. split; congruence.
Qed.
End histories.

(** ** The policy of a live connection *)
Section policy.
Context {U : Unicode} {S : SliceSort} {K : Type} {V : Type}.
Implicit Types f : Forwarder.Forwarder K V.

(** What the user's own rules say, injected rules aside. *)
Definition user_policy f (ip : IP) : option Rule.Action :=
  if Forwarder.in_pool f ip
  then d ← Forwarder.fake_name f ip; e ← Forwarder.engine f; Rule.MatchDomain (Rule.ClearInjectedRules e) d
  else e ← Forwarder.engine f; Rule.MatchIP (Rule.ClearInjectedRules e) ip.

(** Whether the server's routes cover an address, or its suffixes a name. *)
Definition route_covers (ip : IP) (cidr : string) : bool :=
  match ParseCIDR (TrimSpace cidr) with Ok (_, n) => IPNet_Contains n ip | Err _ => false end.
Definition suffix_covers (name suffix : string) : bool :=
  let v := ToLower (TrimSpace suffix) in let d := Rule.normalize name in
  bool_decide (d = v) || HasSuffix d ("." +:+ v).
Definition covered f (routes suffixes : list string) (ip : IP) : bool :=
  if Forwarder.in_pool f ip
  then match Forwarder.fake_name f ip with Some d => existsb (suffix_covers d) suffixes | None => false end
  else existsb (route_covers ip) routes.
Definition routes_valid (routes : list string) : bool :=
  forallb (fun cidr => is_ok (ParseCIDR (TrimSpace cidr))) routes.

Lemma parseRule_route cidr : no_char "," cidr = true ->
  Rule.parseRule ("IP-CIDR," +:+ cidr +:+ ",VPN") =
  match ParseCIDR (TrimSpace cidr) with
  | Err e => Err (Wrapf "rule: invalid CIDR %q: %w" [TrimSpace cidr] e)
  | Ok (_, n) => Ok (Rule.mkEntry Rule.kindIPCIDR "" (Some n) Rule.VPN)
  end.
Proof.
  intros Hc. unfold Rule.parseRule. change ("IP-CIDR," +:+ cidr +:+ ",VPN") with
    ("IP-CIDR" +:+ String "," (cidr +:+ String "," "VPN")).
  rewrite SplitN_3 by done. cbn zeta.
  assert (Rule.parseAction (TrimSpace "VPN") = Ok Rule.VPN) as -> by by vm_compute.
  assert (ToUpper (TrimSpace "IP-CIDR") = "IP-CIDR") as -> by by vm_compute. done.
Qed.
Lemma parseRule_suffix suffix : no_char "," suffix = true ->
  Rule.parseRule ("DOMAIN-SUFFIX," +:+ suffix +:+ ",VPN") =
  Ok (Rule.mkEntry Rule.kindDomainSuffix (ToLower (TrimSpace suffix)) None Rule.VPN).
Proof.
  intros Hc. unfold Rule.parseRule. change ("DOMAIN-SUFFIX," +:+ suffix +:+ ",VPN") with
    ("DOMAIN-SUFFIX" +:+ String "," (suffix +:+ String "," "VPN")).
  rewrite SplitN_3 by done. cbn zeta.
  assert (Rule.parseAction (TrimSpace "VPN") = Ok Rule.VPN) as -> by by vm_compute.
  assert (ToUpper (TrimSpace "DOMAIN-SUFFIX") = "DOMAIN-SUFFIX") as -> by by vm_compute. done.
Qed.

Lemma compile_suffixes suffixes : Forall (fun x => no_char "," x = true) suffixes ->
  exists es, mapR Rule.parseRule (map (fun x => "DOMAIN-SUFFIX," +:+ x +:+ ",VPN") suffixes) = Ok es /\
    (forall ip g, Rule.matchIPInList es ip g = None) /\
    (forall d, Rule.matchDomainInList es (Rule.normalize d) =
       if existsb (suffix_covers d) suffixes then Some Rule.VPN else None).
Proof.
  induction 1 as [|x l Hx _ (es & IH & Hip & Hd)]; [by exists []|]. cbn [map mapR].
  rewrite (parseRule_suffix x Hx), IH. eexists. split; [reflexivity|]. split; [done|].
  intros d. cbn [Rule.matchDomainInList Rule.kind Rule.value Rule.action existsb]. rewrite Hd. unfold suffix_covers at 2. by destruct (_ || _).
Qed.
Lemma compile_routes routes rest : Forall (fun x => no_char "," x = true) routes ->
  if routes_valid routes
  then exists es, mapR Rule.parseRule (map (fun x => "IP-CIDR," +:+ x +:+ ",VPN") routes ++ rest) =
           (fun l => es ++ l) <$> mapR Rule.parseRule rest /\
         (forall l ip g, Rule.matchIPInList (es ++ l) ip g =
            if existsb (route_covers ip) routes then Some Rule.VPN else Rule.matchIPInList l ip g) /\
         (forall l d, Rule.matchDomainInList (es ++ l) d = Rule.matchDomainInList l d)
  else exists err, mapR Rule.parseRule (map (fun x => "IP-CIDR," +:+ x +:+ ",VPN") routes ++ rest) = Err err.
Proof.
  induction 1 as [|x l Hx _ IH].
  { exists []. cbn. split; [|done]. by destruct (mapR _ rest). }
  unfold routes_valid in *. cbn [forallb map app mapR]. rewrite (parseRule_route x Hx).
  destruct (ParseCIDR (TrimSpace x)) as [[ip0 n]|e] eqn:E; cbn [is_ok andb]; [|by eexists].
  destruct (forallb _ l).
  - destruct IH as (es & IH & Hip & Hd). exists (Rule.mkEntry Rule.kindIPCIDR "" (Some n) Rule.VPN :: es).
    split; [rewrite IH; by destruct (mapR _ rest)|]. split; [|done].
    intros l' ip g. cbn [Rule.matchIPInList Rule.kind Rule.network Rule.action existsb app]. rewrite Hip. unfold route_covers at 2. rewrite E. by destruct (IPNet_Contains n ip).
  - destruct IH as [err ->]. by eexists.
Qed.

(** The rules a mode leaves in force, as a function of what the server sent. *)
Lemma split_runtime routes suffixes :
  Forall (fun x => no_char "," x = true) (routes ++ suffixes) ->
  let rt := runtime_of (injected_rules true routes suffixes) in
  (forall ip g, Rule.matchIPInList rt ip g =
     if routes_valid routes && existsb (route_covers ip) routes then Some Rule.VPN else None) /\
  (forall d, Rule.matchDomainInList rt (Rule.normalize d) =
     if routes_valid routes && existsb (suffix_covers d) suffixes then Some Rule.VPN else None).
Proof.
  intros [Hr Hs]%Forall_app. cbn zeta. unfold runtime_of, injected_rules.
  destruct (compile_suffixes suffixes Hs) as (es2 & E2 & Hip2 & Hd2).
  pose proof (compile_routes routes (map (fun x => "DOMAIN-SUFFIX," +:+ x +:+ ",VPN") suffixes) Hr) as H.
  destruct (routes_valid routes); cbn [andb].
  - destruct H as (es & -> & Hip & Hd). rewrite E2. cbn. split; intros.
    + by rewrite Hip, Hip2.
    + by rewrite Hd, Hd2.
  - destruct H as [err ->]. done.
Qed.
Lemma full_runtime ip g : (forall d, Rule.matchDomainInList (runtime_of (injected_rules false [] [])) d = None) /\
  (Rule.matchIPInList (runtime_of (injected_rules false [] [])) ip g = None \/
   Rule.matchIPInList (runtime_of (injected_rules false [] [])) ip g = Some Rule.VPN).
Proof.
  assert (Rule.parseRule "IP-CIDR,0.0.0.0/0,VPN" =
    Ok (Rule.mkEntry Rule.kindIPCIDR "" (Some (mkIPNet [0; 0; 0; 0] [0; 0; 0; 0])) Rule.VPN)) as E by by vm_compute.
  unfold runtime_of, injected_rules. cbn [mapR]. rewrite E.
  cbn [mbind result_bind Rule.matchIPInList Rule.matchDomainInList Rule.kind Rule.network Rule.action].
  split; [done|]. destruct (IPNet_Contains _ ip); auto.
Qed.
Lemma MatchIP_split e ip :
  Rule.MatchIP e ip = match Rule.MatchIP (Rule.ClearInjectedRules e) ip with
                      | Some a => Some a
                      | None => Rule.matchIPInList (Rule.runtimeRules e) ip (Rule.geoip e) end.
Proof. unfold Rule.MatchIP. cbn. by destruct (Rule.matchIPInList (Rule.rules e) _ _). Qed.
Lemma MatchDomain_split e d :
  Rule.MatchDomain e d = match Rule.MatchDomain (Rule.ClearInjectedRules e) d with
                         | Some a => Some a
                         | None => Rule.matchDomainInList (Rule.runtimeRules e) (Rule.normalize d) end.
Proof. unfold Rule.MatchDomain, Rule.normalize. cbn. by destruct (Rule.matchDomainInList (Rule.rules e) _). Qed.

Lemma effective_full f e ip :
  Forwarder.engine f = Some e -> Rule.runtimeRules e = runtime_of (injected_rules false [] []) ->
  Forwarder.defaultVPN f = true ->
  Forwarder.effective f ip = Some (default Rule.ActionVPN (Rule.act_Type <$> user_policy f ip)).
Proof.
  intros He Hr Hd. unfold Forwarder.effective, Forwarder.policy, user_policy. rewrite He, Hd.
  destruct (full_runtime ip (Rule.geoip e)) as [Hdom Hip]. rewrite <- Hr in Hdom, Hip.
  destruct (Forwarder.in_pool f ip).
  - destruct (Forwarder.fake_name f ip) as [d|]; [|done]. cbn. rewrite MatchDomain_split, Hdom.
    by destruct (Rule.MatchDomain _ d).
  - cbn. rewrite MatchIP_split. destruct (Rule.MatchIP _ ip); [done|]. by destruct Hip as [-> | ->].
Qed.
Lemma effective_split f e routes suffixes ip :
  Forwarder.engine f = Some e -> Rule.runtimeRules e = runtime_of (injected_rules true routes suffixes) ->
  Forwarder.defaultVPN f = false -> Forall (fun x => no_char "," x = true) (routes ++ suffixes) ->
  Forwarder.effective f ip =
  match user_policy f ip with
  | Some a => Some (Rule.act_Type a)
  | None => if routes_valid routes && covered f routes suffixes ip then Some Rule.ActionVPN else None
  end.
Proof.
  intros He Hr Hd Hc. unfold Forwarder.effective, Forwarder.policy, user_policy, covered. rewrite He, Hd.
  destruct (split_runtime routes suffixes Hc) as [Hip Hdom]. rewrite <- Hr in Hip, Hdom.
  destruct (Forwarder.in_pool f ip).
  - destruct (Forwarder.fake_name f ip) as [d|]; [|by rewrite andb_false_r]. cbn.
    rewrite MatchDomain_split, Hdom. destruct (Rule.MatchDomain _ d); [done|]. by destruct (_ && _).
  - cbn. rewrite MatchIP_split, Hip. destruct (Rule.MatchIP _ ip); [done|]. by destruct (_ && _).
Qed.
End policy.

(** ** The capture routes that outrank another tunnel's *)

(** An IPv4 network as the route table holds it: [base] masked by [k] bits. *)
Definition v4_net (n : IPNet) (k : nat) (base : IP) : Prop :=
  To4 (net_IP n) = base /\ length base = 4%nat /\ bytes_ok base /\ (k <= 32)%nat /\
  net_Mask n = mask_bytes 4 k /\ land_bytes base (mask_bytes 4 k) = base.

Lemma v4_net_value n k base : v4_net n k base ->
  be_val base = 2 ^ (32 - Z.of_nat k) * prefix_val k base.
Proof.
  intros (_ & Hl & Ho & Hk & _ & Hm).
  pose proof (be_val_land_mask 4 k base ltac:(lia) Hl Ho) as H. rewrite Hm in H.
  unfold prefix_val. rewrite Hl. exact H.
Qed.
Lemma v4_net_Contains n k base x : v4_net n k base -> bytes_ok x ->
  IPNet_Contains n x = true <-> length (To4 x) = 4%nat /\ prefix_val k (To4 x) = prefix_val k base.
Proof.
  intros (Hb & Hl & Ho & Hk & Hm & Hi) Hx.
  assert (IPNet_Contains n x = IPNet_Contains (cidr_net 4 k base) x) as ->; [|by apply IPNet_Contains_v4].
  unfold IPNet_Contains, networkNumberAndMask, cidr_net. cbn [net_IP net_Mask].
  rewrite Hi, Hm, (To4_v4 base), Hb by done. destruct base; done.
Qed.
(** One more bit splits a prefix in two. *)
Lemma prefix_val_succ k x : (k < 32)%nat -> length x = 4%nat ->
  prefix_val k x = prefix_val (S k) x / 2.
Proof.
  intros Hk Hl. unfold prefix_val. rewrite Hl. change (8 * Z.of_nat 4) with 32.
  rewrite Z.div_div by (lia || apply Z.pow_nonzero; lia). f_equal.
  replace (32 - Z.of_nat k) with (Z.succ (32 - Z.of_nat (S k))) by lia.
  rewrite Z.pow_succ_r by lia. lia.
Qed.

Lemma splitMoreSpecific_v4 n k base : v4_net n k base -> (k < 32)%nat ->
  nth 0 base 0 <> 127 -> nth 0 base 0 < 224 ->
  let second := put_be32 (be_val base + 2 ^ (31 - Z.of_nat k)) in
  splitMoreSpecific n =
    [v4_string base +:+ "/" +:+ utoa (Z.of_nat (S k)); v4_string second +:+ "/" +:+ utoa (Z.of_nat (S k))] /\
  prefix_val (S k) base = 2 * prefix_val k base /\
  prefix_val (S k) second = 2 * prefix_val k base + 1.
Proof.
  intros Hn Hk H127 H224. pose proof (v4_net_value n k base Hn) as Hv.
  destruct Hn as (Hb & Hl & Ho & _ & Hm & Hi).
  pose proof (be_val_range base Ho) as Hr. rewrite Hl in Hr. change (8 * Z.of_nat 4) with 32 in Hr.
  assert (2 ^ (32 - Z.of_nat k) = 2 * 2 ^ (31 - Z.of_nat k)) as Hp.
  { replace (32 - Z.of_nat k) with (Z.succ (31 - Z.of_nat k)) by lia. by rewrite Z.pow_succ_r by lia. }
  assert (0 < 2 ^ (31 - Z.of_nat k)) as Hpos by (apply Z.pow_pos_nonneg; lia).
  assert (2 ^ 32 = 2 ^ (32 - Z.of_nat k) * 2 ^ Z.of_nat k) as H32 by (rewrite <- Z.pow_add_r by lia; f_equal; lia).
  assert (0 <= be_val base + 2 ^ (31 - Z.of_nat k) < 2 ^ 32) as Hs.
  { assert (prefix_val k base < 2 ^ Z.of_nat k) by nia. nia. }
  cbn zeta. split; [|split].
  - unfold splitMoreSpecific. rewrite Hm. unfold IPMask_Size.
    rewrite simpleMaskLength_mask_bytes, mask_bytes_length by lia. change (8 * Z.of_nat 4) with 32.
    change (32 =? 32) with true. cbn [negb orb]. rewrite (proj2 (Z.leb_gt _ _)) by lia. rewrite Hb.
    rewrite bool_decide_eq_false_2 by (intros ->; done).
    rewrite (proj2 (Z.eqb_neq _ _)), (proj2 (Z.leb_gt _ _)) by done. cbn [orb].
    pose proof (CIDRMask_mask_bytes (Z.of_nat k + 1) 4 (or_introl eq_refl) ltac:(lia)) as Hc.
    change (8 * Z.of_nat 4) with 32 in Hc. replace (Z.to_nat (Z.of_nat k + 1)) with (S k) in Hc by lia. rewrite Hc.
    assert (IP_Mask base (mask_bytes 4 (S k)) = base) as ->.
    { rewrite IP_Mask_v4 by done. apply be_val_inj; [by rewrite land_bytes_length, mask_bytes_length, Hl | apply bytes_ok_land;
        [done | apply bytes_ok_mask] | done |].
      rewrite be_val_land_mask by (done || lia). change (8 * Z.of_nat 4) with 32.
      replace (32 - Z.of_nat (S k)) with (31 - Z.of_nat k) by lia.
      rewrite Hv, Hp. replace (2 * 2 ^ (31 - Z.of_nat k) * prefix_val k base)
        with (2 * prefix_val k base * 2 ^ (31 - Z.of_nat k)) by lia.
      rewrite Z.div_mul by lia. lia. }
    assert (u32 (Z.shiftl 1 (u32 (32 - (Z.of_nat k + 1)))) = 2 ^ (31 - Z.of_nat k)) as ->.
    { rewrite (u32_small (32 - _)) by lia. rewrite Z.shiftl_mul_pow2, Z.mul_1_l by lia.
      replace (32 - (Z.of_nat k + 1)) with (31 - Z.of_nat k) by lia. apply u32_small. change 4294967296 with (2 ^ 32). lia. }
    rewrite (u32_small (be_val base + _)) by (change 4294967296 with (2 ^ 32); lia).
    rewrite (IPNet_String_v4 base) by (rewrite ?(To4_v4 base Hl); done || lia).
    rewrite IPNet_String_v4 by (rewrite ?To4_mapped by done; done || lia).
    by rewrite (To4_v4 base Hl), (To4_mapped (put_be32 _) eq_refl).
  - unfold prefix_val at 1. rewrite Hl. change (8 * Z.of_nat 4) with 32.
    replace (32 - Z.of_nat (S k)) with (31 - Z.of_nat k) by lia. rewrite Hv, Hp.
    replace (2 * 2 ^ (31 - Z.of_nat k) * prefix_val k base)
      with (2 * prefix_val k base * 2 ^ (31 - Z.of_nat k)) by lia. by rewrite Z.div_mul by lia.
  - unfold prefix_val at 1. rewrite put_be32_length, be_val_put_be32 by done. change (8 * Z.of_nat 4) with 32.
    replace (32 - Z.of_nat (S k)) with (31 - Z.of_nat k) by lia. rewrite Hv, Hp.
    replace (2 * 2 ^ (31 - Z.of_nat k) * prefix_val k base + 2 ^ (31 - Z.of_nat k))
      with ((2 * prefix_val k base + 1) * 2 ^ (31 - Z.of_nat k)) by lia. by rewrite Z.div_mul by lia.
Qed.

Lemma split_partition n k base : v4_net n k base -> (k < 32)%nat ->
  nth 0 base 0 <> 127 -> nth 0 base 0 < 224 ->
  exists s1 s2 i1 n1 i2 n2, splitMoreSpecific n = [s1; s2] /\
    ParseCIDR s1 = Ok (i1, n1) /\ ParseCIDR s2 = Ok (i2, n2) /\
    IPMask_Size (net_Mask n1) = (Z.of_nat (S k), 32) /\ IPMask_Size (net_Mask n2) = (Z.of_nat (S k), 32) /\
    forall x, bytes_ok x ->
      IPNet_Contains n x = IPNet_Contains n1 x || IPNet_Contains n2 x /\
      IPNet_Contains n1 x && IPNet_Contains n2 x = false.
Proof.
  intros Hn Hk H127 H224. destruct (splitMoreSpecific_v4 n k base Hn Hk H127 H224) as (Hs & Hq1 & Hq2).
  pose proof Hn as (_ & Hl & Ho & _ & _ & _). set (sec := put_be32 _) in *.
  assert (bytes_ok sec) as Hso by apply put_be32_ok.
  do 2 eexists. exists (To16 base), (cidr_net 4 (S k) base), (To16 sec), (cidr_net 4 (S k) sec).
  split; [exact Hs|]. rewrite !ParseCIDR_v4_string by (done || lia). split; [done|]. split; [done|].
  rewrite !cidr_net_size by lia. split; [done|]. split; [done|].
  intros x Hx. set (y := To4 x).
  assert (forall b, length b = 4%nat -> bytes_ok b ->
    (IPNet_Contains (cidr_net 4 (S k) b) x = true <-> length y = 4%nat /\ prefix_val (S k) y = prefix_val (S k) b)) as Hc.
  { intros b Hb Hbo. apply IPNet_Contains_v4; done || lia. }
  pose proof (Hc base Hl Ho) as C1. pose proof (Hc sec eq_refl Hso) as C2. rewrite Hq1 in C1. rewrite Hq2 in C2.
  pose proof (v4_net_Contains n k base x Hn Hx) as C. fold y in C.
  assert (length y = 4%nat -> prefix_val k y = prefix_val (S k) y / 2) as Hh by (intros; by apply prefix_val_succ).
  assert (forall q p, q / 2 = p <-> q = 2 * p \/ q = 2 * p + 1) as Hd by (intros; split; [|intros [-> | ->]]; div_lia).
  split.
  - apply eq_iff_eq_true. rewrite orb_true_iff, C, C1, C2. split.
    + intros [H4 E]. rewrite Hh in E by done. apply Hd in E as [E|E]; auto.
    + intros [[H4 E]|[H4 E]]; (split; [done|]); rewrite Hh by done; apply Hd; auto.
  - apply not_true_is_false. rewrite andb_true_iff, C1, C2. intros [[_ E1] [_ E2]]. lia.
Qed.

(** An IPv4 route of another tunnel than ours. *)
Definition foreign_tunnel (tunName : string) (e : RouteTable.Entry) : Prop :=
  To4 (net_IP (RouteTable.Dest e)) <> [] /\ RouteTable.Iface e <> tunName /\
  isTunnelIface (RouteTable.Iface e) = true.

Lemma add_unseen_spec seen cidrs :
  let '(seen', out) := add_unseen seen cidrs in
  seen' = seen ∪ list_to_set cidrs /\ NoDup out /\ forall x, x ∈ out <-> x ∈ cidrs /\ x ∉ seen.
Proof.
  revert seen. induction cidrs as [|c l IH]; intros seen; cbn.
  { split; [set_solver|]. split; [constructor|]. intros x. rewrite elem_of_nil. tauto. }
  case_bool_decide as Hc.
  - specialize (IH seen). destruct (add_unseen seen l) as [s o]. destruct IH as (-> & Hn & Ho).
    split; [set_solver|]. split; [done|]. intros x. rewrite Ho, elem_of_cons. split; [tauto|].
    intros [[->|?] ?]; tauto.
  - specialize (IH ({[c]} ∪ seen)). destruct (add_unseen _ l) as [s o]. destruct IH as (-> & Hn & Ho).
    split; [set_solver|]. split.
    + constructor; [|done]. rewrite Ho. set_solver.
    + intros x. rewrite !elem_of_cons, Ho. destruct (decide (x = c)) as [->|]; set_solver.
Qed.
Lemma refined_from_spec seen entries tunName :
  NoDup (refined_from seen entries tunName) /\
  forall x, x ∈ refined_from seen entries tunName <->
    x ∉ seen /\ exists e, e ∈ entries /\ foreign_tunnel tunName e /\ x ∈ splitMoreSpecific (RouteTable.Dest e).
Proof.
  revert seen. induction entries as [|e l IH]; intros seen; cbn [refined_from].
  { split; [constructor|]. intros x. split; [by rewrite elem_of_nil|].
    intros (_ & e & He & _). by apply elem_of_nil in He. }
  assert ((foreign_tunnel tunName e -> False) -> NoDup (refined_from seen l tunName) /\
    forall x, x ∈ refined_from seen l tunName <-> x ∉ seen /\ exists e', e' ∈ e :: l /\ foreign_tunnel tunName e' /\
      x ∈ splitMoreSpecific (RouteTable.Dest e')) as Hskip.
  { intros Hf. destruct (IH seen) as [Hn Hx]. split; [done|]. intros x. rewrite Hx.
    split; intros (H1 & e' & H2 & H3 & H4); (split; [done|]); exists e'.
    - by split; [apply elem_of_cons; right|].
    - apply elem_of_cons in H2 as [->|H2]; [by destruct Hf | done]. }
  case_bool_decide as H4; [apply Hskip; by intros [? _]|].
  case_bool_decide as Ht; [apply Hskip; by intros (_ & ? & _)|]. cbn [orb].
  destruct (isTunnelIface (RouteTable.Iface e)) eqn:Hi; cbn [negb]; [|apply Hskip; intros (_ & _ & ?); congruence].
  pose proof (add_unseen_spec seen (splitMoreSpecific (RouteTable.Dest e))) as Ha.
  destruct (add_unseen _ _) as [seen' out]. destruct Ha as (-> & Hno & Ho).
  destruct (IH (seen ∪ list_to_set (splitMoreSpecific (RouteTable.Dest e)))) as [Hn Hx].
  split.
  - apply NoDup_app. split_and!; [done| |done]. intros x Hxo Hxr. apply Ho in Hxo as [Hxs _].
    apply Hx in Hxr as [Hni _]. apply Hni, elem_of_union. right. by apply elem_of_list_to_set.
  - intros x. rewrite elem_of_app, Ho, Hx, not_elem_of_union, elem_of_list_to_set. split.
    + intros [[? ?]|[[? _] (e' & ? & ?)]]; (split; [done|]); [exists e | exists e'];
        (split; [apply elem_of_cons; auto | done]).
    + intros (Hns & e' & [->|He']%elem_of_cons & Hf & Hs); [by left|].
      destruct (decide (x ∈ splitMoreSpecific (RouteTable.Dest e))); [by left|].
      right. split; [done|]. by exists e'.
Qed.

(** ** Properties *)
Section properties.
Context {U : Unicode} {S : SliceSort} {WGo : WGDevice.WireGuard} {K RK W : Type} {HR : Router.Router W}.
Context (ops : HostRoute.host_ops K).
Context (NewPlatformRouter : string -> RK -> W) (router_kernel : W -> RK).
Context (goos : Tun.goos) (CreateTUN : string -> Z -> gset string -> result string)
  (tun_fails : list string -> list (list string) -> option error).
Context (Listen : string -> gset string -> result string).
Abbreviation history := (history ops NewPlatformRouter router_kernel goos CreateTUN tun_fails Listen).
Abbreviation Connect := (VPN.Connect ops NewPlatformRouter router_kernel goos CreateTUN tun_fails Listen).

(** C2: The policy of a live connection, after any history of connects,
    disconnects, mode switches, server updates, listener changes and traffic.
    The forwarder uses the manager's engine and dials through its WireGuard
    device. In full tunnel every destination without a user rule of its own
    goes to the VPN. In split tunnel a destination without a user rule goes to
    the VPN exactly when the server's latest routes cover its address, or its
    suffixes the name behind a fake address, provided that every route of the
    server is a valid network; a single invalid one disables them all. User
    rules win in both modes. *)
Theorem connected_policy c w evs f :
  (forall n k l name, CreateTUN n k l = Ok name -> name ∉ l) -> Socks5.fresh_listener Listen ->
  let m := history c w evs in
  fwd m = Some f ->
  Forwarder.engine f = eng m /\ Forwarder.vpnOutbound f = wgDev m /\ is_Some (wgDev m) /\
  forall ip,
    if currentFollowSplitRoutes m
    then Forall (fun x => no_char "," x = true) (lastSplitRoutes m ++ lastDomainSuffixes m) ->
      Forwarder.effective f ip =
      match user_policy f ip with
      | Some a => Some (Rule.act_Type a)
      | None => if routes_valid (lastSplitRoutes m) && covered f (lastSplitRoutes m) (lastDomainSuffixes m) ip
                then Some Rule.ActionVPN else None
      end
    else Forwarder.effective f ip = Some (default Rule.ActionVPN (Rule.act_Type <$> user_policy f ip)).
Proof.
  intros Ht Hl. cbn zeta. intros Hf.
  destruct (history_inv ops NewPlatformRouter router_kernel goos CreateTUN tun_fails Listen
    (Tun.open_devs (tuns w)) (listeners w) Ht Hl c w evs eq_refl eq_refl) as [_ [(_ & _ & Hn & _)|H]];
    [congruence|].
  destruct H as (_ & e & wg & He & Hw & Hr & (f' & Hf' & Hfe & Hfv & Hfd) & _).
  rewrite Hf in Hf'. injection Hf' as <-. rewrite He, Hw. split_and!; try done. intros ip.
  destruct (currentFollowSplitRoutes _).
  - intros Hc. by apply (effective_split f e).
  - by apply (effective_full f e).
Qed.


(** A reconnect that fails is reported as a connection: [Connect] takes the
    old connection down first, and when the new one then fails it leaves
    [active] and the status as they were, so that [GetStatus] still shows the
    old node as connected although every part of the connection is gone. *)
Theorem failed_reconnect_still_connected env now node cc m m' e :
  active m = true -> Connected (status m) = true ->
  Connect env now node cc m = (m', Some e) ->
  down m' /\ active m' = true /\ Connected (GetStatus m') = true /\
  NodeName (GetStatus m') = NodeName (status m).
Proof.
  intros Ha Hs Hc. apply Connect_error in Hc as ((m1 & ->) & Ha' & Hs').
  split; [apply cleanup_down|]. unfold GetStatus. cbn [Connected NodeName]. rewrite Hs'. split; [congruence | done].
Qed.
End properties.

(** A tunnel is declared dead exactly when it is silent. With the tunnel up
    and its counters readable at two consecutive checks, the second one reports
    it dead if and only if there never was a handshake and more than 90 seconds
    have passed since a recorded connection time, or the last handshake is more
    than 300 seconds old and not a byte has arrived since the first check. *)
Theorem dead_detection {WGo : WGDevice.WireGuard} {K RK W} {HR : Router.Router W}
    (m : @Manager WGo K RK W) d1 d2 s1 s2 now1 now2 :
  active m = true -> wgDev m = Some d1 ->
  WGDevice.GetStats d1 = (s1, None) -> WGDevice.GetStats d2 = (s2, None) ->
  let m1 := set_wgDev (fst (IsConnectionDead now1 m)) (Some d2) in
  snd (IsConnectionDead now2 m1) = true <->
  (WGDevice.LastHandshakeSec s2 = 0 /\ 0 < ConnectedAt (status m) /\ 90 < now2 - ConnectedAt (status m)) \/
  (WGDevice.LastHandshakeSec s2 <> 0 /\ 300 < now2 - WGDevice.LastHandshakeSec s2 /\
   WGDevice.RxBytes s2 = WGDevice.RxBytes s1).
Proof.
  intros Ha Hd E1 E2. cbn zeta.
  assert (fst (IsConnectionDead now1 m) = set_rx m (WGDevice.RxBytes s1)) as ->.
  { unfold IsConnectionDead, evaluateConnectionDead. rewrite Hd, Ha, E1. cbn [negb].
    destruct (_ =? 0); [by destruct (_ && _) | by destruct (_ <=? 300)]. }
  unfold IsConnectionDead, evaluateConnectionDead. cbn [wgDev set_wgDev set_rx active status lastRxBytes].
  rewrite Ha, E2. cbn [negb]. destruct (Z.eqb_spec (WGDevice.LastHandshakeSec s2) 0) as [H0|H0].
  - destruct (Z.ltb_spec 0 (ConnectedAt (status m))), (Z.ltb_spec 90 (now2 - ConnectedAt (status m)));
      cbn; split; (lia || tauto || (intros; left; lia)).
  - destruct (Z.leb_spec (now2 - WGDevice.LastHandshakeSec s2) 300); cbn; [split; [done | lia]|].
    rewrite Z.eqb_eq. split; [intros; right; lia | lia].
Qed.

(** Our routes outrank every other tunnel's. The captured CIDRs have no
    duplicates and come only from IPv4 routes of other tunnels; and for each
    such route, an IPv4 network shorter than a host route, neither loopback nor
    multicast, they contain two networks, one bit longer, that split its
    addresses between them: no address of the route is left out, none is in
    both, and no address outside the route is taken. *)
Theorem captured_beats_foreign_tunnel entries tunName :
  let captured := RefinedCaptureCIDRs entries tunName in
  NoDup captured /\
  (forall s, s ∈ captured -> exists e, e ∈ entries /\ foreign_tunnel tunName e /\
     s ∈ splitMoreSpecific (RouteTable.Dest e)) /\
  forall e k base, e ∈ entries -> foreign_tunnel tunName e -> v4_net (RouteTable.Dest e) k base -> (k < 32)%nat ->
    nth 0 base 0 <> 127 -> nth 0 base 0 < 224 ->
    exists s1 s2 i1 n1 i2 n2, s1 ∈ captured /\ s2 ∈ captured /\
      ParseCIDR s1 = Ok (i1, n1) /\ ParseCIDR s2 = Ok (i2, n2) /\
      IPMask_Size (net_Mask n1) = (Z.of_nat (S k), 32) /\ IPMask_Size (net_Mask n2) = (Z.of_nat (S k), 32) /\
      forall x, bytes_ok x ->
        IPNet_Contains (RouteTable.Dest e) x = IPNet_Contains n1 x || IPNet_Contains n2 x /\
        IPNet_Contains n1 x && IPNet_Contains n2 x = false.
Proof.
  cbn zeta. destruct (refined_from_spec ∅ entries tunName) as [Hn Hx]. split; [done|]. split.
  - intros s Hs. by apply Hx in Hs as [_ ?].
  - intros e k base He Hf Hv Hk H127 H224.
    destruct (split_partition _ k base Hv Hk H127 H224) as (s1 & s2 & i1 & n1 & i2 & n2 & Hs & H).
    exists s1, s2, i1, n1, i2, n2.
    split; [|split; [|exact H]]; apply Hx; (split; [by apply not_elem_of_empty|]); exists e; rewrite Hs;
      (split; [done|]); (split; [done|]); rewrite !elem_of_cons; auto.
Qed.

(** C28: From a name to the tunnel. When the manager's DNS server answers an A
    query for a name (every name when DNS is hijacked, else one a rule
    matches), the answer is an address such that a connection to it is dialed
    by that name, in lower case and without the final dot, and through the VPN
    exactly when the VPN is up and the first rule for the name says VPN, or no
    rule matches and the mode is full tunnel. *)
Theorem name_to_tunnel {U : Unicode} {S : SliceSort} {L : FakeIP.DNSLib} {K V}
    (ops : HostRoute.host_ops K) exchange hijack upstream dial e p raw req name rest :
  FakeIP.pool_ok p -> FakeIP.Unpack raw = (req, None) ->
  FakeIP.Question req = (name, FakeIP.TypeA) :: rest ->
  let s := dns_server hijack upstream dial e in
  let domain := ToLower (TrimSuffix name ".") in
  hijack <> [] \/ is_Some (Rule.MatchDomain e domain) ->
  let '(p', r) := FakeIP.HandleDNS exchange s p raw in
  exists ip, r = FakeIP.pack_reply (FakeIP.SetAnswer (FakeIP.SetReply req) [(name, FakeIP.ClassINET, 1, ip)]) /\
    forall env (f : Forwarder.Forwarder K V) port f' t d,
      Forwarder.pool f = Some p' -> Forwarder.engine f = Some e ->
      Forwarder.resolve ops env f ip port = (f', Ok (t, d)) ->
      t = JoinHostPort domain (itoa port) /\
      (Forwarder.is_vpn_dialer d = true <->
       is_Some (Forwarder.vpnOutbound f) /\
       match Rule.MatchDomain e domain with
       | Some a => Rule.act_Type a = Rule.ActionVPN
       | None => Forwarder.defaultVPN f = true
       end).
Proof.
  intros Hp Hu Hq s domain Hm. unfold FakeIP.HandleDNS. rewrite Hu, Hq. fold domain.
  assert (FakeIP.fakeAllA s || FakeIP.matcher s domain = true) as ->.
  { unfold s, dns_server, Rule.MatcherAdapter_MatchDomain. destruct Hm as [Hh|[a Ha]].
    - by destruct hijack.
    - destruct (0 <? length hijack)%nat; cbn; [done|]. by rewrite Ha. }
  change (FakeIP.TypeA =? FakeIP.TypeA) with true. cbn match.
  pose proof (FakeIP.Assign_pool_ok p domain Hp) as Hp'.
  destruct (FakeIP.Assign_ip_offset p domain Hp) as (o & Ho & Hd & Hip).
  destruct (FakeIP.Assign_geometry p domain) as (_ & Hb & Hs). rewrite <- Hs in Ho. rewrite <- Hb in Hip.
  unfold FakeIP.Assign_pool, FakeIP.Assign_ip in *. destruct (FakeIP.Assign p domain) as [[p' ip] ev].
  cbn in *. subst ip. eexists. split; [done|]. intros env f port f' t d Hpool He Hr.
  apply Forwarder.resolve_Ok in Hr as (Ht & Hv & Hb').
  unfold Forwarder.effective, Forwarder.policy, Forwarder.target_of, Forwarder.in_pool, Forwarder.fake_name in *.
  rewrite Hpool in *. rewrite FakeIP.InPool_offset in * by done. cbn [mbind option_bind] in *.
  rewrite FakeIP.Lookup_offset in * by done.
  assert (FakeIP.offsetToDomain p' !! o = Some domain) as Hod by by apply FakeIP.ok_inverse.
  rewrite Hod in *. cbn [mbind option_bind] in *. rewrite He in *. cbn [mbind option_bind] in *.
  split; [congruence|]. clear Ht. split.
  - destruct d as [| | |v]; try done. intros _. destruct (Hv v eq_refl) as [Hact Hvo]. split; [by eexists|].
    destruct (Rule.MatchDomain e domain) as [a|]; [congruence|]. by destruct (Forwarder.defaultVPN f).
  - intros [[v Hvo] Hact]. rewrite (Hb' ltac:(destruct (Rule.MatchDomain e domain); by rewrite Hact) v Hvo). done.
Qed.

(** ** A concrete host *)
#[local] Existing Instance ascii_only.
#[local] Existing Instance insertion_SliceSort.
#[local] Existing Instance Router.map_router.
(** A WireGuard device that is its own counters. *)
Definition toy_wg : WGDevice.WireGuard := {|
  WGDevice.Dev := string; WGDevice.Net := unit;
  WGDevice.CreateNetTUN := fun _ _ _ => Ok tt;
  WGDevice.NewDevice := fun _ _ => "";
  WGDevice.IpcSet := fun _ d => (d, None);
  WGDevice.Up := fun d => (d, None);
  WGDevice.Close := fun d => d;
  WGDevice.IpcGet := fun d => Ok d |}.
#[local] Existing Instance toy_wg.
Definition toy_ops : HostRoute.host_ops unit := HostRoute.fallback_ops unit.
Definition toy_router (name : string) (k : gmap string string) : Router.map_world := Router.mkMapWorld name k.
Definition toy_CreateTUN (n : string) (_ : Z) (l : gset string) : result string :=
  if bool_decide (n ∈ l) then Err (Errorf "busy" []) else Ok n.
Definition toy_Listen (addr : string) (l : gset string) : result string :=
  if bool_decide (addr ∈ l) then Err (Errorf "address already in use" []) else Ok addr.
Definition toy_world : World := mkWorld (HostRoute.mkHostWorld tt HostRoute.NoHostFile true)
  (∅ : gmap string string) Router.NoFile true (Tun.mkWorld ∅ []) ∅ [].
Definition toy_iface : Outbound.NetInterface := Outbound.mkNetInterface 1 "en0" Outbound.FlagUp.
Definition toy_os : Outbound.OS :=
  Outbound.mkOS (Ok [toy_iface]) (fun _ => Ok [Outbound.AddrIPAddr [192; 168; 0; 2]])
    (fun _ => Err (Errorf "no such interface" [])) (Err (Errorf "" [])) false.
Definition toy_env (open : bool) : StartEnv :=
  mkStartEnv (fun _ => if open then Ok (fun _ => Ok "") else Err (Errorf "no database" []))
    (Forwarder.mkEnv toy_os (fun _ => Ok []) (0, 0, 0)) (0, 0) true None.
Definition toy_config : Config.Config := Config.DefaultConfig "linux".
Definition toy_cc (follow : bool) : ConnectConfig :=
  mkConnectConfig (WGDevice.mkConfig "" "" "1.2.3.4:51820" 2 [10; 8; 0; 2] [] [] 1400)
    ["10.0.0.0/8"] ["corp.cn"] "en0" "1.2.3.4" follow.
Abbreviation toy_history := (history toy_ops toy_router Router.mw_routes Tun.Other toy_CreateTUN (fun _ _ => None) toy_Listen toy_config toy_world).
Abbreviation toy_Connect := (VPN.Connect toy_ops toy_router Router.mw_routes Tun.Other toy_CreateTUN (fun _ _ => None) toy_Listen).

Lemma toy_fresh_tun n k l name : toy_CreateTUN n k l = Ok name -> name ∉ l.
Proof. unfold toy_CreateTUN. case_bool_decide; [done|]. by intros [= <-]. Qed.
Lemma toy_fresh_listen : Socks5.fresh_listener toy_Listen.
Proof. intros addr l ln. unfold toy_Listen. case_bool_decide; [done|]. by intros [= <-]. Qed.
Definition toy_up : list event := [EConnect (toy_env true) 1000 "hk" (toy_cc true)].

Lemma connected_policy_witness :
  exists f, fwd (toy_history toy_up) = Some f /\
    Forwarder.effective f [10; 1; 2; 3] = Some Rule.ActionVPN /\ Forwarder.effective f [8; 8; 8; 8] = None.
Proof.
  pose proof (fun f => connected_policy toy_ops toy_router Router.mw_routes Tun.Other toy_CreateTUN (fun _ _ => None)
    toy_Listen toy_config toy_world toy_up f toy_fresh_tun toy_fresh_listen) as H.
  assert (let m := toy_history toy_up in
    currentFollowSplitRoutes m = true /\
    Forall (fun x => no_char "," x = true) (lastSplitRoutes m ++ lastDomainSuffixes m) /\
    forall ip b, bool_decide (ip = [10; 1; 2; 3]) = b -> ip = [10; 1; 2; 3] \/ ip = [8; 8; 8; 8] ->
    (f ← fwd m; Some (bool_decide (user_policy f ip = None),
       routes_valid (lastSplitRoutes m) && covered f (lastSplitRoutes m) (lastDomainSuffixes m) ip)) = Some (true, b))
    as (Hf & Hn & Hc).
  { split; [by vm_compute|]. split; [vm_compute; by repeat constructor|].
    intros ip b <- [-> | ->]; by vm_compute. }
  cbn zeta in H. revert H Hf Hn Hc. generalize (toy_history toy_up). intros m H Hf Hn Hc.
  pose proof (Hc _ _ eq_refl (or_introl eq_refl)) as H1. pose proof (Hc _ _ eq_refl (or_intror eq_refl)) as H2.
  destruct (fwd m) as [f|]; [|done]. destruct (H f eq_refl) as (_ & _ & _ & Hp). rewrite Hf in Hp.
  exists f. split; [done|]. cbn [mbind option_bind] in H1, H2. injection H1 as Hu1 Hr1. injection H2 as Hu2 Hr2.
  apply bool_decide_eq_true in Hu1, Hu2. rewrite !(Hp _ Hn), Hu1, Hu2, Hr1, Hr2. by split.
Defined.


(** The second connect fails: the country database cannot be opened. *)
Lemma failed_reconnect_still_connected_witness :
  exists m' e, toy_Connect (toy_env false) 2000 "sg" (toy_cc true) (toy_history toy_up) = (m', Some e) /\
    wgDev m' = None /\ Connected (GetStatus m') = true /\ NodeName (GetStatus m') = "hk".
Proof.
  pose proof (failed_reconnect_still_connected toy_ops toy_router Router.mw_routes Tun.Other toy_CreateTUN
    (fun _ _ => None) toy_Listen (toy_env false) 2000 "sg" (toy_cc true) (toy_history toy_up)) as H.
  assert (let m := toy_history toy_up in
    active m = true /\ Connected (status m) = true /\ NodeName (status m) = "hk" /\
    is_Some (snd (toy_Connect (toy_env false) 2000 "sg" (toy_cc true) m))) as (H1 & H2 & H3 & H4)
    by (split_and!; vm_compute; by eauto).
  revert H H1 H2 H3 H4. generalize (toy_history toy_up). intros m H H1 H2 H3 H4. revert H H4.
  generalize (toy_Connect (toy_env false) 2000 "sg" (toy_cc true) m). intros [m' r] H [e He].
  cbn [snd] in He. subst r. destruct (H m' e H1 H2 eq_refl) as ((_ & Hw & _) & _ & Hc & Hn).
  exists m', e. split_and!; congruence.
Defined.

Definition counters (rx hs : Z) : string :=
  "rx_bytes=" +:+ itoa rx +:+ WGDevice.nl +:+ "last_handshake_time_sec=" +:+ itoa hs +:+ WGDevice.nl.
Definition toy_dev (rx hs : Z) : WGDevice.Device := WGDevice.mkDevice (counters rx hs : WGDevice.Dev) tt.
Lemma dead_detection_witness :
  let m := set_wgDev (toy_history toy_up) (Some (toy_dev 77 1000)) in
  snd (IsConnectionDead 2060 (set_wgDev (fst (IsConnectionDead 2000 m)) (Some (toy_dev 77 1000)))) = true.
Proof.
  cbn zeta.
  apply (dead_detection _ (toy_dev 77 1000) (toy_dev 77 1000) (WGDevice.mkStats 0 77 1000) (WGDevice.mkStats 0 77 1000));
    try (by vm_compute). right. by vm_compute.
Defined.

Lemma captured_beats_foreign_tunnel_witness :
  let corp := RouteTable.mkEntry (mkIPNet [10; 0; 0; 0] [255; 0; 0; 0]) [] "utun3" in
  RefinedCaptureCIDRs [corp] "utun5" = ["10.0.0.0/9"; "10.128.0.0/9"] /\
  exists s1 i1 n1, s1 ∈ RefinedCaptureCIDRs [corp] "utun5" /\ ParseCIDR s1 = Ok (i1, n1).
Proof.
  cbn zeta. split; [by vm_compute|].
  destruct (captured_beats_foreign_tunnel
    [RouteTable.mkEntry (mkIPNet [10; 0; 0; 0] [255; 0; 0; 0]) [] "utun3"] "utun5") as (_ & _ & H).
  destruct (H (RouteTable.mkEntry (mkIPNet [10; 0; 0; 0] [255; 0; 0; 0]) [] "utun3") 8%nat [10; 0; 0; 0])
    as (s1 & _ & i1 & n1 & _ & _ & Hs & _ & Hp & _).
  - by apply list_elem_of_here.
  - by split_and!.
  - unfold v4_net. split_and!; try done; [by repeat constructor | lia].
  - lia.
  - done.
  - done.
  - by exists s1, i1, n1.
Defined.

Lemma name_to_tunnel_witness :
  let _ := FakeIP.toy_dns in
  let e := Rule.mkEngine [Rule.mkEntry Rule.kindDomainSuffix "cn" None Rule.VPN] [] None in
  let s := dns_server [] [] (FakeIP.mkDialOps unit (fun _ => Ok tt) (fun _ _ => Ok tt) (fun _ => Err (Errorf "" []))) e in
  let p' := fst (FakeIP.HandleDNS (fun m _ => Ok m) s FakeIP.pool30 [1]) in
  exists ip, forall env (f : Forwarder.Forwarder unit nat) port f' t d,
    Forwarder.pool f = Some p' -> Forwarder.engine f = Some e ->
    Forwarder.resolve (HostRoute.fallback_ops unit) env f ip port = (f', Ok (t, d)) ->
    t = "a.cn:" +:+ itoa port.
Proof.
  cbn zeta.
  set (e := Rule.mkEngine [Rule.mkEntry Rule.kindDomainSuffix "cn" None Rule.VPN] [] None).
  set (dial := FakeIP.mkDialOps unit _ _ _).
  pose proof (@name_to_tunnel ascii_only insertion_SliceSort FakeIP.toy_dns unit nat (HostRoute.fallback_ops unit)
    (fun m _ => Ok m) [] [] dial e FakeIP.pool30 [1] [("a.cn.", 1)] "a.cn." []
    (proj1 (FakeIP.NewPool_spec "198.18.0.0/30" FakeIP.pool30 eq_refl)) eq_refl eq_refl
    (or_intror (mk_is_Some _ Rule.VPN eq_refl))) as H.
  cbv zeta in H. match type of H with match ?h with _ => _ end => rewrite (surjective_pairing h) in H end.
  destruct H as (ip & _ & H). exists ip.
  intros env f port f' t d Hp He Hr. by destruct (H env f port f' t d Hp He Hr) as [-> _].
Defined.
