(* ===== verification/GoBytes.v ===== *)
(** * Go's [encoding/binary] and [bytes]: fixed-width integers in byte slices *)
From S2P Require Import Prelude GoNet.
Open Scope Z_scope.

(** [binary.LittleEndian.PutUint*] of [n] bytes, and its inverse. *)
Fixpoint le_bytes (n : nat) (z : Z) : list Z :=
  match n with O => [] | S n => z mod 256 :: le_bytes n (z / 256) end.
Fixpoint le_val (l : list Z) : Z := match l with [] => 0 | b :: l => b + 256 * le_val l end.
Definition be_bytes (n : nat) (z : Z) : list Z := rev (le_bytes n z).

(** [b[off : off+n]] *)
Definition slice (off n : nat) (b : list Z) : list Z := take n (drop off b).

(** [bytes.Compare(a, b) > 0] *)
Fixpoint bytes_gt (a b : list Z) : bool :=
  match a, b with
  | x :: a, y :: b => if x =? y then bytes_gt a b else y <? x
  | _ :: _, [] => true
  | [], _ => false
  end.

(** Deciding that concrete bytes are in range. *)
Lemma bytes_decide l : forallb (fun b => (0 <=? b) && (b <? 256)) l = true -> bytes_ok l.
Proof. intros H%Is_true_true%forallb_True. eapply Forall_impl; [exact H|]. intros b Hb%Is_true_true. cbv beta in Hb. unfold is_byte. lia. Qed.

Lemma le_bytes_length n z : length (le_bytes n z) = n.
Proof. revert z. induction n as [|n IH]; intros z; cbn; [done|]. by rewrite IH. Qed.
Lemma le_bytes_ok n z : bytes_ok (le_bytes n z).
Proof.
  revert z. induction n as [|n IH]; intros z; cbn; constructor; [|apply IH].
  apply (Z.mod_pos_bound z 256). lia.
Qed.
Lemma le_val_bytes n z : 0 <= z < 2 ^ (8 * Z.of_nat n) -> le_val (le_bytes n z) = z.
Proof.
  revert z. induction n as [|n IH]; intros z Hz; cbn [le_bytes le_val]; [cbn in Hz; lia|].
  rewrite IH; [rewrite (Z.div_mod z 256) at 3; lia|].
  replace (8 * Z.of_nat (S n)) with (8 * Z.of_nat n + 8) in Hz by lia. rewrite Z.pow_add_r in Hz by lia.
  change (2 ^ 8) with 256 in Hz. split; [apply Z.div_pos; lia|]. apply Z.div_lt_upper_bound; lia.
Qed.
Lemma be_bytes_length n z : length (be_bytes n z) = n.
Proof. unfold be_bytes. by rewrite length_rev, le_bytes_length. Qed.
Lemma be_bytes_ok n z : bytes_ok (be_bytes n z).
Proof. unfold be_bytes. apply Forall_rev, le_bytes_ok. Qed.
Lemma be_val_snoc l b : be_val (l ++ [b]) = 256 * be_val l + b.
Proof.
  induction l as [|x l IH]; cbn [be_val app]; [cbn; lia|]. rewrite IH, length_app, Nat2Z.inj_add.
  rewrite (Z.mul_add_distr_l 8), Z.pow_add_r by lia. change (2 ^ (8 * Z.of_nat (length [b]))) with 256. ring.
Qed.
Lemma be_val_rev l : be_val (rev l) = le_val l.
Proof. induction l as [|x l IH]; cbn [rev le_val]; [done|]. rewrite be_val_snoc, IH. lia. Qed.
Lemma be_val_bytes n z : 0 <= z < 2 ^ (8 * Z.of_nat n) -> be_val (be_bytes n z) = z.
Proof. intros. unfold be_bytes. by rewrite be_val_rev, le_val_bytes. Qed.

Lemma slice_app n a b : length a = n -> slice 0 n (a ++ b) = a.
Proof. intros <-. unfold slice. by rewrite drop_0, take_app_length. Qed.
Lemma slice_skip off n a b : (length a <= off)%nat -> slice off n (a ++ b) = slice (off - length a) n b.
Proof. intros Hl. unfold slice. by rewrite drop_app_ge. Qed.
Lemma slice_all n a : length a = n -> slice 0 n a = a.
Proof. intros <-. unfold slice. by rewrite drop_0, take_ge. Qed.

(** Byte strings of one length compare as the numbers they encode. *)
Lemma bytes_gt_val a b : length a = length b -> bytes_ok a -> bytes_ok b ->
  bytes_gt a b = (be_val b <? be_val a).
Proof.
  revert b. induction a as [|x a IH]; intros [|y b] Hl Ha Hb; try done. injection Hl as Hl.
  apply Forall_cons in Ha as [Hx Ha]. apply Forall_cons in Hb as [Hy Hb]. cbn [bytes_gt be_val]. rewrite Hl.
  pose proof (be_val_range a Ha) as Ra. pose proof (be_val_range b Hb) as Rb. rewrite Hl in Ra.
  set (P := 2 ^ (8 * Z.of_nat (length b))) in *. destruct (Z.eqb_spec x y) as [->|].
  - rewrite IH by done. apply eq_bool_prop_intro. rewrite !Is_true_true, !Z.ltb_lt. lia.
  - apply eq_bool_prop_intro. rewrite !Is_true_true, !Z.ltb_lt. nia.
Qed.
Lemma bytes_gt_irrefl a : bytes_gt a a = false.
Proof. induction a as [|x a IH]; cbn; [done|]. by rewrite Z.eqb_refl. Qed.
