(* ===== verification/Checksum.v ===== *)
(** * wireguard-go/tun/checksum.go: the Internet checksum

    The unrolled 64-bit sum with its carry chain, in the machine's byte order,
    and the checksum of RFC 1071 it is proved equal to: 16-bit words in network
    order, added with end-around carry. *)
From S2P Require Import Prelude GoNet GoBytes.
Open Scope Z_scope.

(** [binary.NativeEndian]: whether the machine is big-endian. *)
Class NativeEndian := native_big : bool.

Section checksum.
Context {E : NativeEndian}.

Definition native_val (b : list Z) : Z := if native_big then be_val b else le_val b.
Definition native_bytes (n : nat) (z : Z) : list Z := if native_big then be_bytes n z else le_bytes n z.

(** [bits.Add64] *)
Definition Add64 (x y carry : Z) : Z * Z := (u64 (x + y + carry), (x + y + carry) / 2 ^ 64).

(** [k] words of 8 bytes, chained through the carry, and the carry added at the end. *)
Fixpoint add_words (k : nat) (ac carry : Z) (b : list Z) : Z * Z :=
  match k with
  | O => (ac, carry)
  | S k => let '(ac, carry) := Add64 ac (native_val (take 8 b)) carry in add_words k ac carry (drop 8 b)
  end.
Definition add_block (k : nat) (ac : Z) (b : list Z) : Z :=
  let '(ac, carry) := add_words k ac 0 b in u64 (ac + carry).
(** One word of [n] bytes, with its carry. *)
Definition add_word (n : nat) (ac : Z) (b : list Z) : Z :=
  let '(ac, carry) := Add64 ac (native_val (take n b)) 0 in u64 (ac + carry).

(** The loop over blocks of 128 bytes; each turn shortens [b]. *)
Fixpoint sum_blocks (fuel : nat) (ac : Z) (b : list Z) : Z * list Z :=
  match fuel with
  | O => (ac, b)
  | S fuel => if (128 <=? length b)%nat then sum_blocks fuel (add_block 16 ac b) (drop 128 b) else (ac, b)
  end.
(** [if len(b) >= n { add; b = b[n:] }] *)
Definition sum_if (n : nat) (add : Z -> list Z -> Z) (acb : Z * list Z) : Z * list Z :=
  let '(ac, b) := acb in if (n <=? length b)%nat then (add ac b, drop n b) else (ac, b).

Definition checksumNoFold (b : list Z) (initial : Z) : Z :=
  let ac := be_val (native_bytes 8 initial) in
  let st := sum_blocks (length b) ac b in
  let st := sum_if 64 (add_block 8) st in
  let st := sum_if 32 (add_block 4) st in
  let st := sum_if 16 (add_block 2) st in
  let st := sum_if 8 (add_word 8) st in
  let st := sum_if 4 (add_word 4) st in
  let '(ac, b) := sum_if 2 (add_word 2) st in
  let ac := if (length b =? 1)%nat then add_word 2 ac (take 1 b ++ [0]) else ac in
  be_val (native_bytes 8 ac).

Definition fold16 (ac : Z) : Z := Z.shiftr ac 16 + Z.land ac 65535.
Definition checksum (b : list Z) (initial : Z) : Z :=
  u16 (fold16 (fold16 (fold16 (fold16 (checksumNoFold b initial))))).

Definition pseudoHeaderChecksumNoFold (protocol : Z) (srcAddr dstAddr : list Z) (totalLen : Z) : Z :=
  let sum := checksumNoFold srcAddr 0 in
  let sum := checksumNoFold dstAddr sum in
  let sum := checksumNoFold [0; protocol] sum in
  checksumNoFold (be_bytes 2 totalLen) sum.
End checksum.

(** [^x] on [uint16] *)
Definition not16 (x : Z) : Z := 65535 - x.

(** ** The reference: RFC 1071 *)

(** The 16-bit words in network order; an odd last byte is padded with zero. *)
Fixpoint be_words (b : list Z) : list Z :=
  match b with
  | x :: y :: b => 256 * x + y :: be_words b
  | [x] => [256 * x]
  | [] => []
  end.
(** One's complement addition: the carry out is added back in. *)
Definition ocadd (a b : Z) : Z := let s := a + b in if s <? 65536 then s else s - 65535.
Definition rfc1071 (acc : Z) (b : list Z) : Z := fold_left ocadd (be_words b) acc.
(** A wide sum as a 16-bit one's complement number. *)
Definition oc16 (s : Z) : Z := if s =? 0 then 0 else (s - 1) mod 65535 + 1.

(** ** Sums as one's complement numbers

    Two non-negative numbers are the same one's complement number when they are
    congruent modulo 65535 and zero together. *)
Definition oceq (x y : Z) : Prop := 0 <= x /\ 0 <= y /\ x mod 65535 = y mod 65535 /\ (x = 0 <-> y = 0).
Definition sum16 (b : list Z) : Z := fold_right Z.add 0 (be_words b).

Lemma oceq_refl x : 0 <= x -> oceq x x.
Proof. by repeat split. Qed.
Lemma oceq_sym x y : oceq x y -> oceq y x.
Proof. intros (? & ? & ? & ?). by repeat split; try tauto. Qed.
Lemma oceq_trans x y z : oceq x y -> oceq y z -> oceq x z.
Proof. intros (? & ? & ? & ?) (? & ? & ? & ?). repeat split; try tauto. congruence. Qed.
Lemma oceq_add x x' y y' : oceq x x' -> oceq y y' -> oceq (x + y) (x' + y').
Proof.
  intros (? & ? & E1 & ?) (? & ? & E2 & ?). repeat split; [lia..| |lia|lia].
  by rewrite Z.add_mod, E1, E2, <- Z.add_mod by done.
Qed.
Lemma oceq_mul c x y : 0 < c -> oceq x y -> oceq (c * x) (c * y).
Proof.
  intros Hc (? & ? & E1 & ?). repeat split; [lia..| |nia|nia].
  by rewrite Z.mul_mod, E1, <- Z.mul_mod by done.
Qed.
(** Multiples of 65535 are invisible next to something that is not zero. *)
Lemma oceq_shift x k : 0 < x -> 0 <= k -> oceq (x + 65535 * k) x.
Proof.
  intros. repeat split; [lia..| |lia|lia].
  rewrite Z.add_mod, (Z.mul_comm 65535), Z_mod_mult, Z.add_0_r by done. apply Z.mod_mod. done.
Qed.
Lemma oceq_scale c x : 0 <= x -> 0 < c -> c mod 65535 = 1 -> oceq (c * x) x.
Proof.
  intros Hx Hc Hm. repeat split; [nia|lia| |nia|nia].
  by rewrite Z.mul_mod, Hm, Z.mul_1_l, Z.mod_mod by done.
Qed.

Lemma ocadd_oceq a b : 0 <= a < 65536 -> 0 <= b < 65536 ->
  0 <= ocadd a b < 65536 /\ oceq (ocadd a b) (a + b).
Proof.
  intros. unfold ocadd. destruct (Z.ltb_spec (a + b) 65536).
  - split; [lia|]. apply oceq_refl. lia.
  - split; [lia|]. apply oceq_sym. pose proof (oceq_shift (a + b - 65535) 1 ltac:(lia) ltac:(lia)) as Hs.
    by replace (a + b - 65535 + 65535 * 1) with (a + b) in Hs by lia.
Qed.
Lemma oc16_oceq s : 0 <= s -> 0 <= oc16 s < 65536 /\ oceq (oc16 s) s.
Proof.
  intros. unfold oc16. destruct (Z.eqb_spec s 0) as [->|]; [split; [lia|by apply oceq_refl]|].
  pose proof (Z.mod_pos_bound (s - 1) 65535 ltac:(lia)). split; [lia|].
  pose proof (Z.div_mod (s - 1) 65535 ltac:(lia)).
  apply oceq_sym. replace s with ((s - 1) mod 65535 + 1 + 65535 * ((s - 1) / 65535)) at 1 by lia.
  apply oceq_shift; [lia|]. apply Z.div_pos; lia.
Qed.
(** A 16-bit number is determined by its class. *)
Lemma oceq_unique x y : 0 <= x < 65536 -> 0 <= y < 65536 -> oceq x y -> x = y.
Proof.
  intros Hx Hy (_ & _ & Hm & Hz). destruct (decide (x = 65535)) as [->|]; [|destruct (decide (y = 65535)) as [->|]].
  - rewrite Z_mod_same_full in Hm. destruct (decide (y = 65535)); [done|]. rewrite (Z.mod_small y) in Hm by lia. lia.
  - rewrite Z_mod_same_full, (Z.mod_small x) in Hm by lia. lia.
  - rewrite !Z.mod_small in Hm by lia. done.
Qed.

Lemma pair_ind {A} (P : list A -> Prop) :
  P [] -> (forall x, P [x]) -> (forall x y l, P l -> P (x :: y :: l)) -> forall l, P l.
Proof.
  intros H0 H1 H2. fix IH 1. intros [|x [|y l]]; [exact H0 | exact (H1 x) | exact (H2 x y l (IH l))].
Qed.
Lemma sum16_nonneg b : bytes_ok b -> 0 <= sum16 b.
Proof.
  induction b as [|x|x y b IH] using pair_ind; intros Hb; unfold sum16; cbn; [lia| |].
  - apply Forall_cons in Hb as [[? ?] _]. lia.
  - apply Forall_cons in Hb as [[? ?] Hb]. apply Forall_cons in Hb as [[? ?] Hb].
    specialize (IH Hb). unfold sum16 in IH. lia.
Qed.
Lemma sum16_app a b : Nat.even (length a) = true -> sum16 (a ++ b) = sum16 a + sum16 b.
Proof.
  induction a as [|x|x y a IH] using pair_ind; intros Hl; [done..|]. cbn in Hl. specialize (IH Hl).
  unfold sum16 in *. cbn [app be_words fold_right]. rewrite IH. lia.
Qed.
Lemma sum16_pad x : sum16 [x; 0] = sum16 [x].
Proof. unfold sum16. cbn. lia. Qed.
Lemma rfc1071_oceq acc b : 0 <= acc < 65536 -> bytes_ok b ->
  0 <= rfc1071 acc b < 65536 /\ oceq (rfc1071 acc b) (acc + sum16 b).
Proof.
  revert acc. unfold rfc1071, sum16. induction b as [|x|x y b IH] using pair_ind; intros acc Ha Hb; cbn.
  - split; [lia|]. rewrite Z.add_0_r. apply oceq_refl. lia.
  - apply Forall_cons in Hb as [[? ?] _]. rewrite Z.add_0_r. apply ocadd_oceq; lia.
  - apply Forall_cons in Hb as [[? ?] Hb]. apply Forall_cons in Hb as [[? ?] Hb].
    destruct (ocadd_oceq acc (256 * x + y) Ha ltac:(lia)) as [Hr He].
    destruct (IH _ Hr Hb) as [Hr' He']. split; [done|]. eapply oceq_trans; [exact He'|].
    rewrite Z.add_assoc. apply oceq_add; [done|]. apply oceq_refl. by apply sum16_nonneg.
Qed.

(** ** The byte order of the machine *)
Lemma be_val_oceq b : bytes_ok b -> Nat.even (length b) = true -> oceq (be_val b) (sum16 b).
Proof.
  induction b as [|x|x y b IH] using pair_ind; intros Hb Hl; [by apply oceq_refl|done|]. cbn in Hl.
  apply Forall_cons in Hb as [[? ?] Hb]. apply Forall_cons in Hb as [[? ?] Hb]. specialize (IH Hb Hl).
  unfold sum16 in *. cbn [be_words fold_right be_val]. apply Nat.even_spec in Hl as [k Hk].
  replace (x * 2 ^ (8 * Z.of_nat (length (y :: b))) + (y * 2 ^ (8 * Z.of_nat (length b)) + be_val b))
    with (2 ^ (8 * Z.of_nat (length b)) * (256 * x + y) + be_val b).
  2: { cbn [length]. rewrite (Nat2Z.inj_succ (length b)), Z.mul_succ_r, Z.pow_add_r by lia. change (2 ^ 8) with 256. ring. }
  apply oceq_add; [|done]. rewrite Hk. replace (8 * Z.of_nat (2 * k)) with (16 * Z.of_nat k) by lia.
  rewrite Z.pow_mul_r by lia. change (2 ^ 16) with 65536. apply oceq_scale; [lia | by apply Z.pow_pos_nonneg; lia|].
  clear. induction k as [|k IH]; [done|]. rewrite Nat2Z.inj_succ, Z.pow_succ_r by lia.
  by rewrite Z.mul_mod, IH by done.
Qed.
Lemma le_val_oceq b : bytes_ok b -> Nat.even (length b) = true -> oceq (le_val b) (256 * sum16 b).
Proof.
  induction b as [|x|x y b IH] using pair_ind; intros Hb Hl; [by apply oceq_refl|done|]. cbn in Hl.
  apply Forall_cons in Hb as [[? ?] Hb]. apply Forall_cons in Hb as [[? ?] Hb]. specialize (IH Hb Hl).
  unfold sum16 in *. cbn [be_words fold_right le_val].
  set (s := fold_right Z.add 0 (be_words b)) in *.
  replace (x + 256 * (y + 256 * le_val b)) with (x + 256 * y + 65536 * le_val b) by ring.
  replace (256 * (256 * x + y + s)) with (65536 * x + 256 * y + 256 * s) by ring.
  apply oceq_add; [|].
  - apply oceq_add; [apply oceq_sym, oceq_scale; [lia|lia|done] | apply oceq_refl; lia].
  - eapply oceq_trans; [apply oceq_scale; [by destruct IH|lia|done]|done].
Qed.
Lemma le_val_range l : bytes_ok l -> 0 <= le_val l < 2 ^ (8 * Z.of_nat (length l)).
Proof. intros. rewrite <- be_val_rev, <- length_rev. by apply be_val_range, Forall_rev. Qed.

Section correct.
Context {E : NativeEndian}.

(** The factor by which the running sum differs from the sum in network order. *)
Definition order_factor : Z := if native_big then 1 else 256.
Lemma native_val_oceq b : bytes_ok b -> Nat.even (length b) = true ->
  oceq (native_val b) (order_factor * sum16 b).
Proof.
  intros. unfold native_val, order_factor. destruct native_big.
  - rewrite Z.mul_1_l. by apply be_val_oceq.
  - by apply le_val_oceq.
Qed.
Lemma native_val_range b n : bytes_ok b -> (length b <= n)%nat -> 0 <= native_val b < 2 ^ (8 * Z.of_nat n).
Proof.
  intros Hb Hn. assert (2 ^ (8 * Z.of_nat (length b)) <= 2 ^ (8 * Z.of_nat n)) by (apply Z.pow_le_mono_r; lia).
  unfold native_val. destruct native_big; [pose proof (be_val_range b Hb) | pose proof (le_val_range b Hb)]; lia.
Qed.
Lemma order_factor_pos : 0 < order_factor.
Proof. unfold order_factor. by destruct native_big. Qed.
(** Reading in network order what was written in the machine's order. *)
Lemma swap_oceq x : 0 <= x < 2 ^ 64 ->
  0 <= be_val (native_bytes 8 x) < 2 ^ 64 /\ oceq (be_val (native_bytes 8 x)) (order_factor * x).
Proof.
  intros Hx. unfold native_bytes, order_factor. destruct native_big.
  - rewrite be_val_bytes, Z.mul_1_l by done. split; [done|]. apply oceq_refl. lia.
  - pose proof (le_bytes_ok 8 x) as Hb. split; [exact (be_val_range _ Hb)|].
    pose proof (be_val_oceq _ Hb eq_refl) as H1. pose proof (le_val_oceq _ Hb eq_refl) as H2.
    rewrite le_val_bytes in H2 by done. eapply oceq_trans; [exact H1|].
    apply oceq_trans with (256 * (256 * sum16 (le_bytes 8 x))).
    + rewrite Z.mul_assoc. apply oceq_sym, oceq_scale; [|lia|done]. by destruct H1 as (? & ? & ?).
    + apply oceq_mul; [lia|]. by apply oceq_sym.
Qed.

(** ** The carry chain *)

(** A carry is never set on the largest sum, so adding it cannot wrap. *)
Definition chain_ok (ac carry : Z) : Prop :=
  0 <= ac < 2 ^ 64 /\ (carry = 0 \/ carry = 1 /\ ac <= 2 ^ 64 - 2).
Lemma Add64_chain x y c : chain_ok x c -> 0 <= y < 2 ^ 64 ->
  chain_ok (Add64 x y c).1 (Add64 x y c).2 /\ oceq ((Add64 x y c).1 + (Add64 x y c).2) (x + c + y).
Proof.
  intros [Hx Hc] Hy. unfold Add64, chain_ok, u64. cbn [fst snd].
  pose proof (Z.mod_pos_bound (x + y + c) (2 ^ 64) ltac:(lia)).
  pose proof (Z.div_mod (x + y + c) (2 ^ 64) ltac:(lia)) as Hd.
  assert ((x + y + c) / 2 ^ 64 = 0 \/ (x + y + c) / 2 ^ 64 = 1) by (assert (0 <= (x + y + c) / 2 ^ 64 < 2); [|lia];
    split; [apply Z.div_pos; lia | apply Z.div_lt_upper_bound; lia]).
  set (q := (x + y + c) / 2 ^ 64) in *. set (r := (x + y + c) mod 2 ^ 64) in *. split; [lia|].
  replace (x + c + y) with (r + 2 ^ 64 * q) by lia. apply oceq_add; [by apply oceq_refl; lia|].
  apply oceq_sym, oceq_scale; [lia..|done].
Qed.
Lemma add_words_chain k ac c b : chain_ok ac c -> bytes_ok b -> (8 * k <= length b)%nat ->
  chain_ok (add_words k ac c b).1 (add_words k ac c b).2 /\
  oceq ((add_words k ac c b).1 + (add_words k ac c b).2) (ac + c + order_factor * sum16 (take (8 * k) b)).
Proof.
  revert ac c b. induction k as [|k IH]; intros ac c b Hc Hb Hl.
  - cbn [add_words fst snd]. rewrite take_0. split; [done|]. unfold sum16. cbn. rewrite Z.mul_0_r, Z.add_0_r.
    destruct Hc. apply oceq_refl. lia.
  - cbn [add_words]. assert (length (take 8 b) = 8%nat) as H8 by (rewrite length_take; lia).
    pose proof (native_val_range (take 8 b) 8 (Forall_take _ _ _ Hb) ltac:(lia)) as Hr. change (8 * Z.of_nat 8) with 64 in Hr.
    destruct (Add64_chain ac (native_val (take 8 b)) c Hc Hr) as [Hc' He].
    destruct (Add64 ac (native_val (take 8 b)) c) as [ac' c'] eqn:EA. cbn [fst snd] in Hc', He.
    destruct (IH ac' c' (drop 8 b) Hc' (Forall_drop _ _ _ Hb) ltac:(rewrite length_drop; lia)) as [Hc'' He'].
    split; [done|]. eapply oceq_trans; [exact He'|].
    replace (8 * S k)%nat with (8 + 8 * k)%nat by lia. rewrite <- take_take_drop, sum16_app by by rewrite H8.
    rewrite Z.mul_add_distr_l, Z.add_assoc. apply oceq_add.
    + eapply oceq_trans; [exact He|]. apply oceq_add; [apply oceq_refl; destruct Hc; lia|].
      apply native_val_oceq; [by apply Forall_take | by rewrite H8].
    + apply oceq_refl. apply Z.mul_nonneg_nonneg; [pose proof order_factor_pos; lia|].
      by apply sum16_nonneg, Forall_take, Forall_drop.
Qed.

(** [ac] is the sum [s] of the words so far. *)
Definition represents (ac s : Z) : Prop := 0 <= ac < 2 ^ 64 /\ 0 <= s /\ oceq ac (order_factor * s).
(** [add] sums the first [n] bytes. *)
Definition adds (n : nat) (add : Z -> list Z -> Z) : Prop :=
  forall ac s b, represents ac s -> bytes_ok b -> (n <= length b)%nat -> represents (add ac b) (s + sum16 (take n b)).

Lemma chain_closed ac c x s t : chain_ok ac c -> oceq (ac + c) (x + order_factor * t) -> oceq x (order_factor * s) ->
  0 <= s -> 0 <= t -> represents (u64 (ac + c)) (s + t).
Proof.
  intros [Ha Hc] He Hx Hs Ht. unfold represents. rewrite u64_small by lia.
  split; [lia|]. split; [lia|]. eapply oceq_trans; [exact He|]. rewrite Z.mul_add_distr_l.
  apply oceq_add; [done|]. apply oceq_refl. pose proof order_factor_pos. nia.
Qed.
Lemma add_block_adds k : adds (8 * k) (add_block k).
Proof.
  intros ac s b (Ha & Hs & He) Hb Hl. unfold add_block.
  destruct (add_words_chain k ac 0 b) as [Hc Ho]; [by split; [|left]|done|done|].
  destruct (add_words k ac 0 b) as [ac' c']. rewrite Z.add_0_r in Ho.
  eapply chain_closed; [exact Hc|exact Ho|done|done|]. by apply sum16_nonneg, Forall_take.
Qed.
Lemma add_word_adds n : (n <= 8)%nat -> Nat.even n = true -> adds n (add_word n).
Proof.
  intros Hn He ac s b (Ha & Hs & Ho) Hb Hl. unfold add_word.
  assert (length (take n b) = n) as Hln by (rewrite length_take; lia).
  pose proof (native_val_range (take n b) 8 (Forall_take _ _ _ Hb) ltac:(lia)) as Hr.
  destruct (Add64_chain ac (native_val (take n b)) 0) as [Hc Hs']; [by split; [|left]|done|].
  destruct (Add64 ac (native_val (take n b)) 0) as [ac' c']. cbn [fst snd] in *. rewrite Z.add_0_r in Hs'.
  assert (bytes_ok (take n b)) as Hbt by by apply Forall_take.
  eapply chain_closed; [exact Hc| |exact Ho|done|by apply sum16_nonneg].
  eapply oceq_trans; [exact Hs'|]. apply oceq_add; [apply oceq_refl; lia|].
  apply native_val_oceq; [done | by rewrite Hln].
Qed.
Lemma sum_if_adds n add ac b s : adds n add -> Nat.even n = true -> represents ac s -> bytes_ok b ->
  exists t, represents (sum_if n add (ac, b)).1 (s + t) /\ bytes_ok (sum_if n add (ac, b)).2 /\
    t + sum16 (sum_if n add (ac, b)).2 = sum16 b /\
    length (sum_if n add (ac, b)).2 = (if (n <=? length b)%nat then length b - n else length b)%nat.
Proof.
  intros Ha Hn Hr Hb. unfold sum_if. destruct (Nat.leb_spec n (length b)); cbn [fst snd].
  - exists (sum16 (take n b)). split; [by apply Ha|]. split; [by apply Forall_drop|]. split; [|apply length_drop].
    rewrite <- sum16_app; [by rewrite take_drop|]. rewrite length_take, Nat.min_l; done.
  - exists 0. by rewrite Z.add_0_r.
Qed.
Lemma sum_blocks_adds fuel ac b s : (length b <= fuel)%nat -> represents ac s -> bytes_ok b ->
  exists t, represents (sum_blocks fuel ac b).1 (s + t) /\ bytes_ok (sum_blocks fuel ac b).2 /\
    t + sum16 (sum_blocks fuel ac b).2 = sum16 b /\ (length (sum_blocks fuel ac b).2 < 128)%nat.
Proof.
  revert ac b s. induction fuel as [|fuel IH]; intros ac b s Hf Hr Hb.
  { exists 0. destruct b; [|cbn in Hf; lia]. rewrite Z.add_0_r. cbn. split_and!; [done..|lia]. }
  cbn [sum_blocks]. destruct (Nat.leb_spec 128 (length b)); cbn [fst snd].
  2: { exists 0. rewrite Z.add_0_r. split_and!; [done..|lia]. }
  destruct (IH (add_block 16 ac b) (drop 128 b) (s + sum16 (take 128 b))) as (t & Ht & Hb' & Hs & Hl).
  { rewrite length_drop. lia. } { by apply (add_block_adds 16). } { by apply Forall_drop. }
  exists (sum16 (take 128 b) + t). rewrite Z.add_assoc. split_and!; [done..| |done].
  rewrite <- Z.add_assoc, Hs, <- sum16_app; [by rewrite take_drop|]. rewrite length_take, Nat.min_l; done.
Qed.

(** One conditional step of the tail: what was summed moves from the rest to the sum. *)
Ltac tail_step n :=
  match goal with
  | Hr : represents ?ac ?s, Hb : bytes_ok ?b |- context [sum_if n ?f (?ac, ?b)] =>
      let t := fresh "t" in let Hr' := fresh "Hr" in let Hb' := fresh "Hb" in
      let Hs := fresh "Hs" in let Hl := fresh "Hl" in
      destruct (sum_if_adds n f ac b s) as (t & Hr' & Hb' & Hs & Hl);
        [first [apply (add_block_adds (n / 8)) | apply add_word_adds; [lia | reflexivity]] | reflexivity | exact Hr | exact Hb |];
      destruct (sum_if n f (ac, b)) as [? ?]; cbn [fst snd] in Hr', Hb', Hs, Hl
  end.

Lemma checksumNoFold_oceq b initial : bytes_ok b -> 0 <= initial < 2 ^ 64 ->
  0 <= checksumNoFold b initial < 2 ^ 64 /\ oceq (checksumNoFold b initial) (initial + sum16 b).
Proof.
  intros Hb Hi. unfold checksumNoFold. destruct (swap_oceq initial Hi) as [Ha Ho].
  assert (represents (be_val (native_bytes 8 initial)) initial) as Hr0 by (split_and!; [lia..|exact Ho]).
  destruct (sum_blocks_adds (length b) (be_val (native_bytes 8 initial)) b initial ltac:(lia) Hr0 Hb) as (t & Hr & Hb1 & Hs & Hl).
  destruct (sum_blocks (length b) (be_val (native_bytes 8 initial)) b) as [ac b1]. cbn [fst snd] in Hr, Hb1, Hs, Hl.
  clear Hr0. rename Hb into Hb0. tail_step 64%nat. clear Hr Hb1. tail_step 32%nat. clear Hr0 Hb. tail_step 16%nat. clear Hr Hb1.
  tail_step 8%nat. clear Hr0 Hb. tail_step 4%nat. clear Hr Hb1. tail_step 2%nat. clear Hr0 Hb.
  assert (length l4 <= 1)%nat as Hlen.
  { repeat match goal with H : length _ = (if (?n <=? ?m)%nat then _ else _) |- _ => destruct (Nat.leb_spec n m) end; lia. }
  set (tot := initial + t + t0 + t1 + t2 + t3 + t4 + t5) in *.
  assert (represents (if (length l4 =? 1)%nat then add_word 2 z4 (take 1 l4 ++ [0]) else z4) (initial + sum16 b)) as (Hz & Hp & He).
  { replace (sum16 b) with (t + t0 + t1 + t2 + t3 + t4 + t5 + sum16 l4) by lia.
    destruct l4 as [|x [|]]; [| |cbn in Hlen; lia].
    - cbn [length Nat.eqb]. change (sum16 []) with 0. rewrite Z.add_0_r. subst tot.
      by replace (initial + (t + t0 + t1 + t2 + t3 + t4 + t5)) with (initial + t + t0 + t1 + t2 + t3 + t4 + t5) by lia.
    - cbn [length Nat.eqb take app]. rewrite <- sum16_pad.
      replace (initial + (t + t0 + t1 + t2 + t3 + t4 + t5 + sum16 [x; 0])) with (tot + sum16 (take 2 [x; 0])) by (subst tot; cbn [take]; lia).
      apply (add_word_adds 2); [lia|done|done| |cbn; lia]. apply Forall_cons in Hb1 as [? _].
      constructor; [done|]. constructor; [unfold is_byte; lia|constructor]. }
  set (acc := if (length l4 =? 1)%nat then _ else _) in *. destruct (swap_oceq acc Hz) as [Hr' Ho'].
  split; [exact Hr'|]. eapply oceq_trans; [exact Ho'|].
  apply oceq_trans with (order_factor * (order_factor * (initial + sum16 b))); [apply oceq_mul; [apply order_factor_pos|done]|].
  rewrite Z.mul_assoc. apply oceq_scale; [done|unfold order_factor; destruct native_big; lia|].
  unfold order_factor. by destruct native_big.
Qed.

(** ** Folding to 16 bits *)
Lemma fold16_alt x : fold16 x = x / 65536 + x mod 65536.
Proof. unfold fold16. rewrite Z.shiftr_div_pow2 by lia. change 65535 with (Z.ones 16). by rewrite Z.land_ones. Qed.
Lemma fold16_oceq x : 0 <= x -> oceq (fold16 x) x.
Proof.
  intros. rewrite fold16_alt. pose proof (Z.div_mod x 65536 ltac:(lia)) as Hd.
  pose proof (Z.mod_pos_bound x 65536 ltac:(lia)). assert (0 <= x / 65536) by (apply Z.div_pos; lia).
  rewrite Hd at 3. apply oceq_add; [apply oceq_sym, oceq_scale; [done|lia|done] | apply oceq_refl; lia].
Qed.
Lemma fold16_bound K x : 1 <= K -> 0 <= x <= 65536 * K + 65534 -> 0 <= fold16 x <= K + 65534.
Proof.
  intros HK Hx. rewrite fold16_alt. pose proof (Z.div_mod x 65536 ltac:(lia)).
  pose proof (Z.mod_pos_bound x 65536 ltac:(lia)). assert (0 <= x / 65536 <= K); [split|lia].
  - apply Z.div_pos; lia.
  - apply Z.lt_succ_r. apply Z.div_lt_upper_bound; lia.
Qed.
(** Four folds bring any 64-bit sum into 16 bits. *)
Lemma fold16_four x : 0 <= x < 2 ^ 64 ->
  0 <= fold16 (fold16 (fold16 (fold16 x))) < 65536 /\ oceq (fold16 (fold16 (fold16 (fold16 x)))) x.
Proof.
  intros Hx. assert (0 <= fold16 x <= 2 ^ 48 + 65534) as H1.
  { rewrite fold16_alt. pose proof (Z.div_mod x 65536 ltac:(lia)). pose proof (Z.mod_pos_bound x 65536 ltac:(lia)).
    assert (0 <= x / 65536 < 2 ^ 48) by (split; [apply Z.div_pos; lia | apply Z.div_lt_upper_bound; lia]). lia. }
  pose proof (fold16_bound (2 ^ 32) _ ltac:(lia) H1) as H2. pose proof (fold16_bound 65536 _ ltac:(lia) H2) as H3.
  pose proof (fold16_bound 1 _ ltac:(lia) H3) as H4. split; [lia|].
  pose proof (fold16_oceq x ltac:(lia)) as E1. pose proof (fold16_oceq _ (proj1 H1)) as E2.
  pose proof (fold16_oceq _ (proj1 H2)) as E3. pose proof (fold16_oceq _ (proj1 H3)) as E4.
  eapply oceq_trans; [exact E4|]. eapply oceq_trans; [exact E3|]. by eapply oceq_trans.
Qed.

Lemma checksum_oceq b initial : bytes_ok b -> 0 <= initial < 2 ^ 64 ->
  0 <= checksum b initial < 65536 /\ oceq (checksum b initial) (initial + sum16 b).
Proof.
  intros Hb Hi. unfold checksum. destruct (checksumNoFold_oceq b initial Hb Hi) as [Hr He].
  destruct (fold16_four _ Hr) as [Hf Hfe]. unfold u16. rewrite Z.mod_small by done. split; [done|].
  by eapply oceq_trans.
Qed.

(** C22: The unrolled checksum, on a machine of either byte order, is the checksum
    of RFC 1071 started with the folded initial sum: no carry is lost. *)
Theorem checksum_is_rfc1071 b initial : bytes_ok b -> 0 <= initial < 2 ^ 64 ->
  checksum b initial = rfc1071 (oc16 initial) b.
Proof.
  intros Hb Hi. destruct (checksum_oceq b initial Hb Hi) as [Hr He].
  destruct (oc16_oceq initial ltac:(lia)) as [Ho Hoe]. destruct (rfc1071_oceq _ b Ho Hb) as [Hr' He'].
  apply oceq_unique; [done..|]. eapply oceq_trans; [exact He|]. apply oceq_sym. eapply oceq_trans; [exact He'|].
  apply oceq_add; [done|]. apply oceq_refl. by apply sum16_nonneg.
Qed.
End correct.

Lemma checksum_is_rfc1071_witness :
  @checksum false (0x45 :: 0 :: 0 :: 0x73 :: replicate 140 0xff ++ [7]) 0x12345678 =
  rfc1071 (oc16 0x12345678) (0x45 :: 0 :: 0 :: 0x73 :: replicate 140 0xff ++ [7]).
Proof.
  apply (@checksum_is_rfc1071 false); [by apply bytes_decide | lia].
Defined.
