(* ===== verification/Offload.v ===== *)
(** * wireguard-go/tun/offload_linux.go: segmentation and receive offload

    The packets the Linux TUN device exchanges with a virtio header in front:
    [gsoSplit] and [handleVirtioRead] split what the kernel hands over; GRO.v has
    the way back. An output buffer is its bytes. *)
From S2P Require Import Prelude GoNet GoBytes Checksum.
Open Scope Z_scope.

(** [b[i]], in range by the length checks of the callers. *)
Definition at_ (b : list Z) (i : Z) : Z := b !!! Z.to_nat i.
(** [b[i:]] and [b[i:j]] *)
Definition from (i : Z) (b : list Z) : list Z := drop (Z.to_nat i) b.
Definition range (i j : Z) (b : list Z) : list Z := take (Z.to_nat (j - i)) (from i b).
Definition len (b : list Z) : Z := Z.of_nat (length b).
(** [copy(b[i:], src)] *)
Definition copy_at (i : Z) (src b : list Z) : list Z := list_inserts (Z.to_nat i) src b.
(** [binary.BigEndian] at an offset. *)
Definition get16 (b : list Z) (i : Z) : Z := be_val (range i (i + 2) b).
Definition get32 (b : list Z) (i : Z) : Z := be_val (range i (i + 4) b).
Definition put16 (i v : Z) (b : list Z) : list Z := copy_at i (be_bytes 2 v) b.
Definition put32 (i v : Z) (b : list Z) : list Z := copy_at i (be_bytes 4 v) b.

(** [None] is an index out of range of the bytes (Go also lets a slice end in the
    spare capacity behind them). *)
Definition guard_range (i j : Z) (b : list Z) : option unit :=
  if (0 <=? i) && (i <=? j) && (j <=? len b) then Some tt else None.

Definition tcpFlagsOffset : Z := 13.
Definition tcpFlagFIN : Z := 1.
Definition tcpFlagPSH : Z := 8.
Definition tcpFlagACK : Z := 16.
Definition ipv4FlagMoreFragments : Z := 0x20.
Definition ipv4SrcAddrOffset : Z := 12.
Definition ipv6SrcAddrOffset : Z := 8.
Definition maxUint16 : Z := 65535.
Definition udphLen : Z := 8.
Definition virtioNetHdrLen : Z := 10.
Definition IPPROTO_TCP : Z := 6.
Definition IPPROTO_UDP : Z := 17.
Definition VIRTIO_NET_HDR_F_NEEDS_CSUM : Z := 1.
Definition VIRTIO_NET_HDR_GSO_NONE : Z := 0.
Definition VIRTIO_NET_HDR_GSO_TCPV4 : Z := 1.
Definition VIRTIO_NET_HDR_GSO_TCPV6 : Z := 4.
Definition VIRTIO_NET_HDR_GSO_UDP_L4 : Z := 5.

Definition ErrShortBuffer : error := Errorf "short buffer" [].
Definition ErrTooManySegments : error := Errorf "too many segments" [].

Record virtioNetHdr := mkHdr {
  h_flags : Z; h_gsoType : Z; h_hdrLen : Z; h_gsoSize : Z; h_csumStart : Z; h_csumOffset : Z }.

Section virtio.
Context {E : NativeEndian}.

Definition hdr_decode (b : list Z) : result virtioNetHdr :=
  if len b <? virtioNetHdrLen then Err ErrShortBuffer
  else Ok (mkHdr (at_ b 0) (at_ b 1) (native_val (range 2 4 b)) (native_val (range 4 6 b))
                 (native_val (range 6 8 b)) (native_val (range 8 10 b))).
Definition hdr_bytes (v : virtioNetHdr) : list Z :=
  [h_flags v; h_gsoType v] ++ native_bytes 2 (h_hdrLen v) ++ native_bytes 2 (h_gsoSize v) ++
  native_bytes 2 (h_csumStart v) ++ native_bytes 2 (h_csumOffset v).
(** [v.encode(b[at:])] *)
Definition hdr_encode (v : virtioNetHdr) (i : Z) (b : list Z) : result (list Z) :=
  if len (from i b) <? virtioNetHdrLen then Err ErrShortBuffer else Ok (copy_at i (hdr_bytes v) b).

(** ** Splitting: from the kernel *)
Definition src_at (isV6 : bool) : Z := if isV6 then ipv6SrcAddrOffset else ipv4SrcAddrOffset.
Definition addr_len (isV6 : bool) : Z := if isV6 then 16 else 4.
Definition is_tcp_gso (v : virtioNetHdr) : bool :=
  (h_gsoType v =? VIRTIO_NET_HDR_GSO_TCPV4) || (h_gsoType v =? VIRTIO_NET_HDR_GSO_TCPV6).

(** One turn of the loop: segment [i], whose payload is [in[dataAt:segEnd]],
    written over [out]. *)
Definition gso_segment (inp : list Z) (hdr : virtioNetHdr) (isV6 : bool) (firstSeq : Z)
    (i dataAt segEnd : Z) (out : list Z) : option (Z * list Z) :=
  let iphLen := h_csumStart hdr in
  let segmentDataLen := segEnd - dataAt in
  let totalLen := h_hdrLen hdr + segmentDataLen in
  _ ← guard_range 0 iphLen inp;
  let out := copy_at 0 (range 0 iphLen inp) out in
  _ ← guard_range 4 6 out; _ ← guard_range 2 4 out;
  out ← (if isV6 then Some (put16 4 (u16 (totalLen - iphLen)) out)
         else
           let out := if 0 <? i then put16 4 (u16 (get16 out 4 + u16 i)) out else out in
           let out := put16 2 (u16 totalLen) out in
           _ ← guard_range 0 iphLen out; _ ← guard_range 10 12 out;
           Some (put16 10 (not16 (checksum (range 0 iphLen out) 0)) out));
  _ ← guard_range (h_csumStart hdr) (h_hdrLen hdr) out; _ ← guard_range (h_csumStart hdr) (h_hdrLen hdr) inp;
  let out := copy_at (h_csumStart hdr) (range (h_csumStart hdr) (h_hdrLen hdr) inp) out in
  out ← (if is_tcp_gso hdr then
           let seqAt := u16 (h_csumStart hdr + 4) in
           _ ← guard_range seqAt (seqAt + 4) out;
           let out := put32 seqAt (u32 (firstSeq + u16 (h_gsoSize hdr * u16 i))) out in
           if negb (segEnd =? len inp) then
             let flagsAt := u16 (h_csumStart hdr + tcpFlagsOffset) in
             _ ← guard_range flagsAt (flagsAt + 1) out;
             Some (copy_at flagsAt [Z.land (at_ out flagsAt) (255 - Z.lor tcpFlagFIN tcpFlagPSH)] out)
           else Some out
         else
           let lenAt := u16 (h_csumStart hdr + 4) in
           _ ← guard_range lenAt (lenAt + 2) out;
           Some (put16 lenAt (u16 (u16 segmentDataLen + u16 (h_hdrLen hdr - h_csumStart hdr))) out));
  _ ← guard_range (h_hdrLen hdr) (h_hdrLen hdr) out;
  let out := copy_at (h_hdrLen hdr) (range dataAt segEnd inp) out in
  let protocol := if is_tcp_gso hdr then IPPROTO_TCP else IPPROTO_UDP in
  let transportHeaderLen := u16 (h_hdrLen hdr - h_csumStart hdr) in
  let lenForPseudo := u16 (transportHeaderLen + segmentDataLen) in
  let s := src_at isV6 in let a := addr_len isV6 in
  _ ← guard_range (s + a) (s + a * 2) inp;
  let nofold := pseudoHeaderChecksumNoFold protocol (range s (s + a) inp) (range (s + a) (s + a * 2) inp) lenForPseudo in
  _ ← guard_range (h_csumStart hdr) totalLen out;
  let csum := not16 (checksum (range (h_csumStart hdr) totalLen out) nofold) in
  let csumAt := u16 (h_csumStart hdr + h_csumOffset hdr) in
  _ ← guard_range csumAt (csumAt + 2) out;
  Some (totalLen, put16 csumAt csum out).

(** The loop runs over the output buffers, whose packets start at [outOffset];
    the result is the count, the error and the sizes and buffers written. *)
Fixpoint gso_loop (inp : list Z) (hdr : virtioNetHdr) (isV6 : bool) (firstSeq outOffset i dataAt : Z)
    (outs : list (list Z)) : option (Z * option error * list (Z * list Z)) :=
  if negb (dataAt <? len inp) then Some (i, None, [])
  else
    match outs with
    | [] => Some (i - 1, Some ErrTooManySegments, [])
    | out :: outs =>
        let segEnd := Z.min (dataAt + h_gsoSize hdr) (len inp) in
        _ ← guard_range 0 outOffset out;
        '(size, seg) ← gso_segment inp hdr isV6 firstSeq i dataAt segEnd (from outOffset out);
        '(n, err, rest) ← gso_loop inp hdr isV6 firstSeq outOffset (i + 1) (dataAt + h_gsoSize hdr) outs;
        Some (n, err, (size, take (Z.to_nat outOffset) out ++ seg) :: rest)
    end.

Definition gsoSplit (inp : list Z) (hdr : virtioNetHdr) (outBuffs : list (list Z)) (outOffset : Z) (isV6 : bool)
    : option (Z * option error * list (Z * list Z)) :=
  inp ← (if isV6 then Some inp else _ ← guard_range 10 12 inp; Some (copy_at 10 [0; 0] inp));
  let csumAt := u16 (h_csumStart hdr + h_csumOffset hdr) in
  _ ← guard_range csumAt (csumAt + 2) inp;
  let inp := copy_at csumAt [0; 0] inp in
  firstSeq ← (if is_tcp_gso hdr then
                let seqAt := u16 (h_csumStart hdr + 4) in
                _ ← guard_range seqAt (seqAt + 4) inp; Some (get32 inp seqAt)
              else Some 0);
  gso_loop inp hdr isV6 firstSeq outOffset 0 (h_hdrLen hdr) outBuffs.

Definition gsoNoneChecksum (inp : list Z) (cSumStart cSumOffset : Z) : option (list Z) :=
  let cSumAt := u16 (cSumStart + cSumOffset) in
  _ ← guard_range cSumAt (cSumAt + 2) inp;
  let initial := get16 inp cSumAt in
  let inp := copy_at cSumAt [0; 0] inp in
  _ ← guard_range cSumStart (len inp) inp;
  Some (put16 cSumAt (not16 (checksum (from cSumStart inp) initial)) inp).

Definition set_hdrLen (n : Z) (v : virtioNetHdr) : virtioNetHdr :=
  mkHdr (h_flags v) (h_gsoType v) n (h_gsoSize v) (h_csumStart v) (h_csumOffset v).

(** The checks between the header and the split; [None] is an index out of range. *)
Definition virtio_checked (inp : list Z) (hdr : virtioNetHdr) : option (result (virtioNetHdr * bool)) :=
  _ ← guard_range 0 1 inp;
  let ipVersion := Z.shiftr (at_ inp 0) 4 in
  let udp := h_gsoType hdr =? VIRTIO_NET_HDR_GSO_UDP_L4 in
  let type_err := Err (Errorf "ip header version: %d, GSO type: %d" []) in
  if ((ipVersion =? 4) && negb (h_gsoType hdr =? VIRTIO_NET_HDR_GSO_TCPV4) && negb udp)
     || ((ipVersion =? 6) && negb (h_gsoType hdr =? VIRTIO_NET_HDR_GSO_TCPV6) && negb udp) then Some type_err
  else if negb ((ipVersion =? 4) || (ipVersion =? 6)) then Some (Err (Errorf "invalid ip header version: %d" []))
  else
    let hl := if udp then Ok (u16 (h_csumStart hdr + 8))
              else if len inp <=? u16 (h_csumStart hdr + 12) then Err (Errorf "packet is too short" [])
              else
                let tcpHLen := Z.shiftr (at_ inp (u16 (h_csumStart hdr + 12))) 4 * 4 in
                if (tcpHLen <? 20) || (60 <? tcpHLen) then Err (Errorf "tcp header len is invalid: %d" [])
                else Ok (u16 (h_csumStart hdr + tcpHLen)) in
    Some (hl ← hl;
          let hdr := set_hdrLen hl hdr in
          if len inp <? hl then Err (Errorf "length of packet (%d) < virtioNetHdr.hdrLen (%d)" [])
          else if hl <? h_csumStart hdr then Err (Errorf "virtioNetHdr.hdrLen (%d) < virtioNetHdr.csumStart (%d)" [])
          else if len inp <=? u16 (h_csumStart hdr + h_csumOffset hdr) + 1 then
            Err (Errorf "end of checksum offset (%d) exceeds packet length (%d)" [])
          else Ok (hdr, ipVersion =? 6)).

Definition handleVirtioRead (inp : list Z) (bufs : list (list Z)) (offset : Z)
    : option (Z * option error * list (Z * list Z)) :=
  match hdr_decode inp with
  | Err e => Some (0, Some e, [])
  | Ok hdr =>
      let inp := from virtioNetHdrLen inp in
      if h_gsoType hdr =? VIRTIO_NET_HDR_GSO_NONE then
        inp ← (if Z.land (h_flags hdr) VIRTIO_NET_HDR_F_NEEDS_CSUM =? 0 then Some inp
               else gsoNoneChecksum inp (h_csumStart hdr) (h_csumOffset hdr));
        buf ← head bufs;
        _ ← guard_range 0 offset buf;
        if len (from offset buf) <? len inp then
          Some (0, Some (Errorf "read len %d overflows bufs element len %d" []), [])
        else Some (1, None, [(len inp, copy_at offset inp buf)])
      else if negb (is_tcp_gso hdr || (h_gsoType hdr =? VIRTIO_NET_HDR_GSO_UDP_L4)) then
        Some (0, Some (Errorf "unsupported virtio GSO type: %d" []), [])
      else
        checked ← virtio_checked inp hdr;
        match checked with
        | Err e => Some (0, Some e, [])
        | Ok (hdr, isV6) => gsoSplit inp hdr bufs offset isV6
        end
  end.
End virtio.
