(* ===== verification/GRO.v ===== *)
(** * wireguard-go/tun/offload_linux.go: receive offload

    [tcpGRO], [udpGRO] and [handleGRO] merge the packets handed to the kernel, and
    [NativeTun.Write] writes what is left of them. A packet buffer is its bytes
    with the capacity of its array; the tables are maps from flows to their items
    in order, walked in the model's order of keys, in Go in any order. The pools
    that recycle slices of items are left out: a flow takes one of
    [IdealBatchSize] entries, and a batch has no more packets. *)
From S2P Require Import Prelude GoNet GoBytes Checksum Offload.
Open Scope Z_scope.

Record Buf := mkBuf { b_data : list Z; b_cap : Z }.
Definition set_data (d : list Z) (b : Buf) : Buf := mkBuf d (b_cap b).
#[export] Instance Buf_inhabited : Inhabited Buf := populate (mkBuf [] 0).

(** The flow keys; addresses are padded to 16 bytes. *)
Record tcpFlowKey := mkTcpKey {
  tk_srcAddr : list Z; tk_dstAddr : list Z; tk_srcPort : Z; tk_dstPort : Z; tk_rxAck : Z; tk_isV6 : bool }.
Record udpFlowKey := mkUdpKey {
  uk_srcAddr : list Z; uk_dstAddr : list Z; uk_srcPort : Z; uk_dstPort : Z; uk_isV6 : bool }.
#[export] Instance tcpFlowKey_eq : EqDecision tcpFlowKey.
Proof. solve_decision. Defined.
#[export] Instance tcpFlowKey_countable : Countable tcpFlowKey.
Proof.
  refine (inj_countable' (fun k => (tk_srcAddr k, tk_dstAddr k, tk_srcPort k, tk_dstPort k, tk_rxAck k, tk_isV6 k))
    (fun '(a, b, c, d, e, f) => mkTcpKey a b c d e f) _). by intros [].
Defined.
#[export] Instance udpFlowKey_eq : EqDecision udpFlowKey.
Proof. solve_decision. Defined.
#[export] Instance udpFlowKey_countable : Countable udpFlowKey.
Proof.
  refine (inj_countable' (fun k => (uk_srcAddr k, uk_dstAddr k, uk_srcPort k, uk_dstPort k, uk_isV6 k))
    (fun '(a, b, c, d, e) => mkUdpKey a b c d e) _). by intros [].
Defined.

Record tcpGROItem := mkTcpItem {
  ti_key : tcpFlowKey; ti_sentSeq : Z; ti_bufsIndex : nat; ti_numMerged : Z; ti_gsoSize : Z;
  ti_iphLen : Z; ti_tcphLen : Z; ti_pshSet : bool }.
Record udpGROItem := mkUdpItem {
  ui_key : udpFlowKey; ui_bufsIndex : nat; ui_numMerged : Z; ui_gsoSize : Z; ui_iphLen : Z;
  ui_cSumKnownInvalid : bool }.
Abbreviation tcpGROTable := (gmap tcpFlowKey (list tcpGROItem)).
Abbreviation udpGROTable := (gmap udpFlowKey (list udpGROItem)).
Definition newTCPGROTable : tcpGROTable := ∅.
Definition newUDPGROTable : udpGROTable := ∅.

(** [copy(key.srcAddr[:], addr)] into a zero array of 16 bytes. *)
Definition pad16 (a : list Z) : list Z := take 16 (a ++ replicate 16 0).

Definition newTCPFlowKey (pkt : list Z) (srcAddrOffset dstAddrOffset tcphOffset : Z) : tcpFlowKey :=
  let addrSize := dstAddrOffset - srcAddrOffset in
  mkTcpKey (pad16 (range srcAddrOffset dstAddrOffset pkt)) (pad16 (range dstAddrOffset (dstAddrOffset + addrSize) pkt))
    (get16 pkt tcphOffset) (get16 pkt (tcphOffset + 2)) (get32 pkt (tcphOffset + 8)) (addrSize =? 16).
Definition newUDPFlowKey (pkt : list Z) (srcAddrOffset dstAddrOffset udphOffset : Z) : udpFlowKey :=
  let addrSize := dstAddrOffset - srcAddrOffset in
  mkUdpKey (pad16 (range srcAddrOffset dstAddrOffset pkt)) (pad16 (range dstAddrOffset (dstAddrOffset + addrSize) pkt))
    (get16 pkt udphOffset) (get16 pkt (udphOffset + 2)) (addrSize =? 16).

(** ** The tables *)
Definition new_tcp_item (pkt : list Z) (srcAddrOffset dstAddrOffset tcphOffset tcphLen : Z) (bufsIndex : nat) : tcpGROItem :=
  mkTcpItem (newTCPFlowKey pkt srcAddrOffset dstAddrOffset tcphOffset) (get32 pkt (tcphOffset + 4)) bufsIndex 0
    (u16 (len (from (tcphOffset + tcphLen) pkt))) (u8 tcphOffset) (u8 tcphLen)
    (negb (Z.land (at_ pkt (tcphOffset + tcpFlagsOffset)) tcpFlagPSH =? 0)).
Definition tcp_insert (t : tcpGROTable) (pkt : list Z) (srcAddrOffset dstAddrOffset tcphOffset tcphLen : Z) (bufsIndex : nat)
    : tcpGROTable :=
  let item := new_tcp_item pkt srcAddrOffset dstAddrOffset tcphOffset tcphLen bufsIndex in
  <[ti_key item := default [] (t !! ti_key item) ++ [item]]> t.
(** The items of the packet's flow, or [None] and a new item. *)
Definition tcp_lookupOrInsert (t : tcpGROTable) (pkt : list Z) (srcAddrOffset dstAddrOffset tcphOffset tcphLen : Z)
    (bufsIndex : nat) : option (list tcpGROItem) * tcpGROTable :=
  match t !! newTCPFlowKey pkt srcAddrOffset dstAddrOffset tcphOffset with
  | Some items => (Some items, t)
  | None => (None, tcp_insert t pkt srcAddrOffset dstAddrOffset tcphOffset tcphLen bufsIndex)
  end.
Definition tcp_updateAt (t : tcpGROTable) (item : tcpGROItem) (i : nat) : tcpGROTable :=
  <[ti_key item := <[i := item]> (default [] (t !! ti_key item))]> t.
Definition tcp_deleteAt (t : tcpGROTable) (key : tcpFlowKey) (i : nat) : tcpGROTable :=
  let items := default [] (t !! key) in <[key := take i items ++ drop (S i) items]> t.

Definition udp_insert (u : udpGROTable) (pkt : list Z) (srcAddrOffset dstAddrOffset udphOffset : Z) (bufsIndex : nat)
    (cSumKnownInvalid : bool) : udpGROTable :=
  let key := newUDPFlowKey pkt srcAddrOffset dstAddrOffset udphOffset in
  let item := mkUdpItem key bufsIndex 0 (u16 (len (from (udphOffset + udphLen) pkt))) (u8 udphOffset) cSumKnownInvalid in
  <[key := default [] (u !! key) ++ [item]]> u.
Definition udp_lookupOrInsert (u : udpGROTable) (pkt : list Z) (srcAddrOffset dstAddrOffset udphOffset : Z)
    (bufsIndex : nat) : option (list udpGROItem) * udpGROTable :=
  match u !! newUDPFlowKey pkt srcAddrOffset dstAddrOffset udphOffset with
  | Some items => (Some items, u)
  | None => (None, udp_insert u pkt srcAddrOffset dstAddrOffset udphOffset bufsIndex false)
  end.
Definition udp_updateAt (u : udpGROTable) (item : udpGROItem) (i : nat) : udpGROTable :=
  <[ui_key item := <[i := item]> (default [] (u !! ui_key item))]> u.

(** ** Can two packets be merged? *)
Inductive canCoalesce := coalescePrepend | coalesceUnavailable | coalesceAppend.
Inductive coalesceResult :=
| coalesceInsufficientCap | coalescePSHEnding | coalesceItemInvalidCSum | coalescePktInvalidCSum | coalesceSuccess.
#[export] Instance coalesceResult_eq : EqDecision coalesceResult.
Proof. solve_decision. Defined.
Inductive groResult := groResultNoop | groResultTableInsert | groResultCoalesced.

Definition ipHeadersCanCoalesce (pktA pktB : list Z) : bool :=
  if (len pktA <? 9) || (len pktB <? 9) then false
  else if Z.shiftr (at_ pktA 0) 4 =? 6 then
    (at_ pktA 0 =? at_ pktB 0) && (Z.shiftr (at_ pktA 1) 4 =? Z.shiftr (at_ pktB 1) 4) && (at_ pktA 7 =? at_ pktB 7)
  else
    (at_ pktA 1 =? at_ pktB 1) && (Z.shiftr (at_ pktA 6) 5 =? Z.shiftr (at_ pktB 6) 5) && (at_ pktA 8 =? at_ pktB 8).

(** [bufs[i][bufsOffset:]] *)
Definition packet (bufs : list Buf) (offset : Z) (i : nat) : list Z := from offset (b_data (bufs !!! i)).

Definition udpPacketsCanCoalesce (pkt : list Z) (iphLen gsoSize : Z) (item : udpGROItem) (bufs : list Buf)
    (bufsOffset : Z) : canCoalesce :=
  let pktTarget := packet bufs bufsOffset (ui_bufsIndex item) in
  if negb (ipHeadersCanCoalesce pkt pktTarget) then coalesceUnavailable
  else if negb (len (from (u8 (iphLen + udphLen)) pktTarget) mod ui_gsoSize item =? 0) then coalesceUnavailable
  else if ui_gsoSize item <? gsoSize then coalesceUnavailable
  else coalesceAppend.

Definition tcpPacketsCanCoalesce (pkt : list Z) (iphLen tcphLen seq : Z) (pshSet : bool) (gsoSize : Z)
    (item : tcpGROItem) (bufs : list Buf) (bufsOffset : Z) : canCoalesce :=
  let pktTarget := packet bufs bufsOffset (ti_bufsIndex item) in
  if negb (tcphLen =? ti_tcphLen item) then coalesceUnavailable
  else if (20 <? tcphLen) && negb (bool_decide (range (u8 (iphLen + 20)) (u8 (iphLen + tcphLen)) pkt =
                                    range (u8 (ti_iphLen item + 20)) (u8 (iphLen + tcphLen)) pktTarget))
  then coalesceUnavailable
  else if negb (ipHeadersCanCoalesce pkt pktTarget) then coalesceUnavailable
  else
    let lhsLen := u16 (ti_gsoSize item + u16 (ti_numMerged item * ti_gsoSize item)) in
    if seq =? u32 (ti_sentSeq item + lhsLen) then
      if ti_pshSet item then coalesceUnavailable
      else if negb (len (from (u8 (iphLen + tcphLen)) pktTarget) mod ti_gsoSize item =? 0) then coalesceUnavailable
      else if ti_gsoSize item <? gsoSize then coalesceUnavailable
      else coalesceAppend
    else if u32 (seq + gsoSize) =? ti_sentSeq item then
      if pshSet then coalesceUnavailable
      else if gsoSize <? ti_gsoSize item then coalesceUnavailable
      else if (ti_gsoSize item <? gsoSize) && (0 <? ti_numMerged item) then coalesceUnavailable
      else coalescePrepend
    else coalesceUnavailable.

Section gro.
Context {E : NativeEndian}.

Definition checksumValid (pkt : list Z) (iphLen proto : Z) (isV6 : bool) : bool :=
  let s := src_at isV6 in let a := addr_len isV6 in
  let lenForPseudo := u16 (len pkt - iphLen) in
  let cSum := pseudoHeaderChecksumNoFold proto (range s (s + a) pkt) (range (s + a) (s + a * 2) pkt) lenForPseudo in
  not16 (checksum (from iphLen pkt) cSum) =? 0.

(** ** Merging *)
Definition udp_merged (item : udpGROItem) : udpGROItem :=
  mkUdpItem (ui_key item) (ui_bufsIndex item) (u16 (ui_numMerged item + 1)) (ui_gsoSize item) (ui_iphLen item)
    (ui_cSumKnownInvalid item).
Definition coalesceUDPPackets (pkt : list Z) (item : udpGROItem) (bufs : list Buf) (bufsOffset : Z) (isV6 : bool)
    : coalesceResult * udpGROItem * list Buf :=
  let idx := ui_bufsIndex item in
  let pktHead := packet bufs bufsOffset idx in
  let headersLen := u8 (ui_iphLen item + udphLen) in
  let coalescedLen := len pktHead + len pkt - headersLen in
  if b_cap (bufs !!! idx) - bufsOffset - bufsOffset <? coalescedLen then (coalesceInsufficientCap, item, bufs)
  else if (ui_numMerged item =? 0) && (ui_cSumKnownInvalid item || negb (checksumValid pktHead (ui_iphLen item) IPPROTO_UDP isV6))
  then (coalesceItemInvalidCSum, item, bufs)
  else if negb (checksumValid pkt (ui_iphLen item) IPPROTO_UDP isV6) then (coalescePktInvalidCSum, item, bufs)
  else (coalesceSuccess, udp_merged item, alter (fun b => set_data (b_data b ++ from headersLen pkt) b) idx bufs).

(** The item after a successful merge. *)
Definition tcp_merged (seq gsoSize : Z) (psh : bool) (item : tcpGROItem) : tcpGROItem :=
  mkTcpItem (ti_key item) seq (ti_bufsIndex item) (u16 (ti_numMerged item + 1))
    (if ti_gsoSize item <? gsoSize then gsoSize else ti_gsoSize item) (ti_iphLen item) (ti_tcphLen item) psh.
(** [pktHead[iphLen+tcpFlagsOffset] |= tcpFlagPSH] *)
Definition set_psh (i : Z) (b : list Z) : list Z := copy_at i [Z.lor (at_ b i) tcpFlagPSH] b.

Definition coalesceTCPPackets (mode : canCoalesce) (pkt : list Z) (pktBuffsIndex : nat) (gsoSize seq : Z) (pshSet : bool)
    (item : tcpGROItem) (bufs : list Buf) (bufsOffset : Z) (isV6 : bool) : coalesceResult * tcpGROItem * list Buf :=
  let idx := ti_bufsIndex item in
  let old := packet bufs bufsOffset idx in
  let headersLen := u8 (ti_iphLen item + ti_tcphLen item) in
  let coalescedLen := len old + len pkt - headersLen in
  let item_bad := (ti_numMerged item =? 0) && negb (checksumValid old (ti_iphLen item) IPPROTO_TCP isV6) in
  let pkt_bad := negb (checksumValid pkt (ti_iphLen item) IPPROTO_TCP isV6) in
  match mode with
  | coalescePrepend =>
      if b_cap (bufs !!! pktBuffsIndex) - bufsOffset - bufsOffset <? coalescedLen then (coalesceInsufficientCap, item, bufs)
      else if pshSet then (coalescePSHEnding, item, bufs)
      else if item_bad then (coalesceItemInvalidCSum, item, bufs)
      else if pkt_bad then (coalescePktInvalidCSum, item, bufs)
      else
        let merged := set_data (b_data (bufs !!! pktBuffsIndex) ++ from headersLen old) (bufs !!! pktBuffsIndex) in
        (coalesceSuccess, tcp_merged seq gsoSize (ti_pshSet item) item,
         <[pktBuffsIndex := bufs !!! idx]> (<[idx := merged]> bufs))
  | _ =>
      if b_cap (bufs !!! idx) - bufsOffset - bufsOffset <? coalescedLen then (coalesceInsufficientCap, item, bufs)
      else if item_bad then (coalesceItemInvalidCSum, item, bufs)
      else if pkt_bad then (coalescePktInvalidCSum, item, bufs)
      else
        let head := if pshSet then set_psh (bufsOffset + ti_iphLen item + tcpFlagsOffset) (b_data (bufs !!! idx))
                    else b_data (bufs !!! idx) in
        (coalesceSuccess, tcp_merged (ti_sentSeq item) gsoSize (ti_pshSet item || pshSet) item,
         alter (set_data (head ++ from headersLen pkt)) idx bufs)
  end.

(** [clear(bufs[i][offset-virtioNetHdrLen : offset])] *)
Definition clear_hdr (offset : Z) (i : nat) (bufs : list Buf) : list Buf :=
  alter (fun b => set_data (copy_at (offset - virtioNetHdrLen) (replicate 10 0) (b_data b)) b) i bufs.

(** What [tcpGRO] and [udpGRO] check of a packet before they look at the flow:
    the length of the IP header, and whether the packet can be a candidate. *)
Definition ip_header_len (pkt : list Z) (isV6 : bool) : Z := if isV6 then 40 else u8 (Z.land (at_ pkt 0) 0x0F * 4).
Definition length_field_ok (pkt : list Z) (isV6 : bool) : bool :=
  if isV6 then get16 pkt 4 =? len pkt - 40 else get16 pkt 2 =? len pkt.
Definition fragmented (pkt : list Z) (isV6 : bool) : bool :=
  negb isV6 && (negb (Z.land (at_ pkt 6) ipv4FlagMoreFragments =? 0) || negb (u8 (at_ pkt 6 * 8) =? 0) || negb (at_ pkt 7 =? 0)).

(** The first half of [tcpGRO]: header lengths, PSH, payload size and sequence number. *)
Definition tcp_candidate (pkt : list Z) (isV6 : bool) : option (Z * Z * bool * Z * Z) :=
  if maxUint16 <? len pkt then None
  else
    let iphLen := ip_header_len pkt isV6 in
    if negb (length_field_ok pkt isV6) then None
    else if len pkt <? iphLen then None
    else
      let tcphLen := u8 (Z.shiftr (at_ pkt (iphLen + 12)) 4 * 4) in
      if (tcphLen <? 20) || (60 <? tcphLen) then None
      else if len pkt <? iphLen + tcphLen then None
      else if fragmented pkt isV6 then None
      else
        let tcpFlags := at_ pkt (iphLen + tcpFlagsOffset) in
        if negb (tcpFlags =? tcpFlagACK) && negb (tcpFlags =? Z.lor tcpFlagACK tcpFlagPSH) then None
        else
          let gsoSize := u16 (len pkt - tcphLen - iphLen) in
          if gsoSize <? 1 then None
          else Some (iphLen, tcphLen, negb (tcpFlags =? tcpFlagACK), gsoSize, get32 pkt (iphLen + 4)).
(** The first half of [udpGRO]. *)
Definition udp_candidate (pkt : list Z) (isV6 : bool) : option (Z * Z) :=
  if maxUint16 <? len pkt then None
  else
    let iphLen := ip_header_len pkt isV6 in
    if negb (length_field_ok pkt isV6) then None
    else if len pkt <? iphLen then None
    else if len pkt <? iphLen + udphLen then None
    else if fragmented pkt isV6 then None
    else
      let gsoSize := u16 (len pkt - udphLen - iphLen) in
      if gsoSize <? 1 then None else Some (iphLen, gsoSize).

(** The loop over the [n] first items of the flow, from the last one down;
    [None] when the packet was not merged with any of them. *)
Fixpoint tcp_try (n : nat) (items : list tcpGROItem) (pkt : list Z) (pktI : nat) (iphLen tcphLen : Z) (pshSet : bool)
    (gsoSize seq : Z) (isV6 : bool) (offset : Z) (bufs : list Buf) (table : tcpGROTable)
    : option groResult * list Buf * tcpGROTable :=
  match n with
  | O => (None, bufs, table)
  | S n =>
      let again := tcp_try n items pkt pktI iphLen tcphLen pshSet gsoSize seq isV6 offset in
      match items !! n with
      | None => again bufs table
      | Some item =>
          let can := tcpPacketsCanCoalesce pkt (u8 iphLen) (u8 tcphLen) seq pshSet gsoSize item bufs offset in
          match can with
          | coalesceUnavailable => again bufs table
          | _ =>
              let '(result, item', bufs) := coalesceTCPPackets can pkt pktI gsoSize seq pshSet item bufs offset isV6 in
              match result with
              | coalesceSuccess => (Some groResultCoalesced, bufs, tcp_updateAt table item' n)
              | coalesceItemInvalidCSum =>
                  again (clear_hdr offset (ti_bufsIndex item) bufs) (tcp_deleteAt table (ti_key item) n)
              | coalescePktInvalidCSum => (Some groResultNoop, bufs, table)
              | _ => again bufs table
              end
          end
      end
  end.

Definition tcpGRO (bufs : list Buf) (offset : Z) (pktI : nat) (table : tcpGROTable) (isV6 : bool)
    : groResult * list Buf * tcpGROTable :=
  let pkt := packet bufs offset pktI in
  match tcp_candidate pkt isV6 with
  | None => (groResultNoop, bufs, table)
  | Some (iphLen, tcphLen, pshSet, gsoSize, seq) =>
      let src := src_at isV6 in let dst := src + addr_len isV6 in
      match tcp_lookupOrInsert table pkt src dst iphLen tcphLen pktI with
      | (None, table) => (groResultTableInsert, bufs, table)
      | (Some items, table) =>
          match tcp_try (length items) items pkt pktI iphLen tcphLen pshSet gsoSize seq isV6 offset bufs table with
          | (Some r, bufs, table) => (r, bufs, table)
          | (None, bufs, table) => (groResultTableInsert, bufs, tcp_insert table pkt src dst iphLen tcphLen pktI)
          end
      end
  end.

Definition udpGRO (bufs : list Buf) (offset : Z) (pktI : nat) (table : udpGROTable) (isV6 : bool)
    : groResult * list Buf * udpGROTable :=
  let pkt := packet bufs offset pktI in
  match udp_candidate pkt isV6 with
  | None => (groResultNoop, bufs, table)
  | Some (iphLen, gsoSize) =>
      let src := src_at isV6 in let dst := src + addr_len isV6 in
      match udp_lookupOrInsert table pkt src dst iphLen pktI with
      | (None, table) => (groResultTableInsert, bufs, table)
      | (Some items, table) =>
          let insert invalid := (groResultTableInsert, bufs, udp_insert table pkt src dst iphLen pktI invalid) in
          match last items with
          | None => insert false
          | Some item =>
              match udpPacketsCanCoalesce pkt (u8 iphLen) gsoSize item bufs offset with
              | coalesceAppend =>
                  let '(result, item, bufs) := coalesceUDPPackets pkt item bufs offset isV6 in
                  match result with
                  | coalesceSuccess => (groResultCoalesced, bufs, udp_updateAt table item (length items - 1))
                  | coalescePktInvalidCSum => insert true
                  | _ => insert false
                  end
              | _ => insert false
              end
          end
      end
  end.

(** ** Accounting: the headers of the merged packets *)
(** The IP header of the merged packet at [pkt]: its length and its checksum. *)
Definition account_ip (iphLen : Z) (isV6 : bool) (pkt : list Z) : list Z :=
  if isV6 then put16 4 (u16 (u16 (len pkt) - u16 iphLen)) pkt
  else
    let pkt := copy_at 10 [0; 0] pkt in
    let pkt := put16 2 (u16 (len pkt)) pkt in
    put16 10 (not16 (checksum (range 0 iphLen pkt) 0)) pkt.
(** The pseudo header checksum at the place of the transport checksum. *)
Definition account_csum (proto iphLen csumOffset : Z) (isV6 : bool) (pkt : list Z) : list Z :=
  let s := src_at isV6 in let a := addr_len isV6 in
  let psum := pseudoHeaderChecksumNoFold proto (range s (s + a) pkt) (range (s + a) (s + a * 2) pkt)
                (u16 (len pkt - iphLen)) in
  put16 (u16 (iphLen + csumOffset)) (checksum [] psum) pkt.
(** The packet at [offset] of a buffer, rewritten. *)
Definition on_packet (offset : Z) (f : list Z -> list Z) (d : list Z) : list Z :=
  take (Z.to_nat offset) d ++ f (from offset d).

Definition tcp_hdr (item : tcpGROItem) : virtioNetHdr :=
  mkHdr VIRTIO_NET_HDR_F_NEEDS_CSUM (if tk_isV6 (ti_key item) then VIRTIO_NET_HDR_GSO_TCPV6 else VIRTIO_NET_HDR_GSO_TCPV4)
    (u8 (ti_iphLen item + ti_tcphLen item)) (ti_gsoSize item) (ti_iphLen item) 16.
Definition account_tcp_item (offset : Z) (item : tcpGROItem) (bufs : list Buf) : result (list Buf) :=
  let idx := ti_bufsIndex item in
  if 0 <? ti_numMerged item then
    let isV6 := tk_isV6 (ti_key item) in
    let d := on_packet offset (account_ip (ti_iphLen item) isV6) (b_data (bufs !!! idx)) in
    d ← hdr_encode (tcp_hdr item) (offset - virtioNetHdrLen) d;
    let d := on_packet offset (account_csum IPPROTO_TCP (ti_iphLen item) 16 isV6) d in
    Ok (alter (set_data d) idx bufs)
  else Ok (clear_hdr offset idx bufs).

Definition udp_hdr (item : udpGROItem) : virtioNetHdr :=
  mkHdr VIRTIO_NET_HDR_F_NEEDS_CSUM VIRTIO_NET_HDR_GSO_UDP_L4 (u8 (ui_iphLen item + udphLen)) (ui_gsoSize item)
    (ui_iphLen item) 6.
Definition account_udp_item (offset : Z) (item : udpGROItem) (bufs : list Buf) : result (list Buf) :=
  let idx := ui_bufsIndex item in
  if 0 <? ui_numMerged item then
    let isV6 := uk_isV6 (ui_key item) in
    let d := on_packet offset (account_ip (ui_iphLen item) isV6) (b_data (bufs !!! idx)) in
    d ← hdr_encode (udp_hdr item) (offset - virtioNetHdrLen) d;
    let d := on_packet offset (fun pkt => put16 (ui_iphLen item + 4) (u16 (len (from (ui_iphLen item) pkt))) pkt) d in
    let d := on_packet offset (account_csum IPPROTO_UDP (ui_iphLen item) 6 isV6) d in
    Ok (alter (set_data d) idx bufs)
  else Ok (clear_hdr offset idx bufs).

(** The loops over the items of a table stop at the first error. *)
Fixpoint account {A} (f : A -> list Buf -> result (list Buf)) (items : list A) (bufs : list Buf) : list Buf * option error :=
  match items with
  | [] => (bufs, None)
  | item :: items => match f item bufs with Ok bufs => account f items bufs | Err e => (bufs, Some e) end
  end.
Definition table_items {K A} `{Countable K} (t : gmap K (list A)) : list A := concat (map_to_list t).*2.
Definition applyTCPCoalesceAccounting (bufs : list Buf) (offset : Z) (table : tcpGROTable) : list Buf * option error :=
  account (account_tcp_item offset) (table_items table) bufs.
Definition applyUDPCoalesceAccounting (bufs : list Buf) (offset : Z) (table : udpGROTable) : list Buf * option error :=
  account (account_udp_item offset) (table_items table) bufs.

(** ** A batch *)
Inductive groCandidateType := notGROCandidate | tcp4GROCandidate | tcp6GROCandidate | udp4GROCandidate | udp6GROCandidate.
Definition packetIsGROCandidate (b : list Z) (canUDPGRO : bool) : groCandidateType :=
  if len b <? 28 then notGROCandidate
  else if Z.shiftr (at_ b 0) 4 =? 4 then
    if negb (Z.land (at_ b 0) 0x0F =? 5) then notGROCandidate
    else if (at_ b 9 =? IPPROTO_TCP) && (40 <=? len b) then tcp4GROCandidate
    else if (at_ b 9 =? IPPROTO_UDP) && canUDPGRO then udp4GROCandidate
    else notGROCandidate
  else if Z.shiftr (at_ b 0) 4 =? 6 then
    if (at_ b 6 =? IPPROTO_TCP) && (60 <=? len b) then tcp6GROCandidate
    else if (at_ b 6 =? IPPROTO_UDP) && (48 <=? len b) && canUDPGRO then udp6GROCandidate
    else notGROCandidate
  else notGROCandidate.

Record groState := mkGro { g_bufs : list Buf; g_tcp : tcpGROTable; g_udp : udpGROTable; g_toWrite : list nat }.
(** One turn of the loop over the packets. *)
Definition gro_step (offset : Z) (canUDPGRO : bool) (i : nat) (st : groState) : groState :=
  let tcp isV6 := let '(r, bufs, t) := tcpGRO (g_bufs st) offset i (g_tcp st) isV6 in (r, mkGro bufs t (g_udp st) (g_toWrite st)) in
  let udp isV6 := let '(r, bufs, u) := udpGRO (g_bufs st) offset i (g_udp st) isV6 in (r, mkGro bufs (g_tcp st) u (g_toWrite st)) in
  let '(r, st) := match packetIsGROCandidate (packet (g_bufs st) offset i) canUDPGRO with
                  | tcp4GROCandidate => tcp false
                  | tcp6GROCandidate => tcp true
                  | udp4GROCandidate => udp false
                  | udp6GROCandidate => udp true
                  | notGROCandidate => (groResultNoop, st)
                  end in
  match r with
  | groResultNoop => mkGro (clear_hdr offset i (g_bufs st)) (g_tcp st) (g_udp st) (g_toWrite st ++ [i])
  | groResultTableInsert => mkGro (g_bufs st) (g_tcp st) (g_udp st) (g_toWrite st ++ [i])
  | groResultCoalesced => st
  end.
Definition ErrInvalidOffset : error := Errorf "invalid offset" [].
(** The packets from the [i]-th on. *)
Fixpoint gro_loop (n : nat) (offset : Z) (canUDPGRO : bool) (i : nat) (st : groState) : groState * option error :=
  match n with
  | O => (st, None)
  | S n =>
      if (offset <? virtioNetHdrLen) || (len (b_data (g_bufs st !!! i)) - 1 <? offset) then (st, Some ErrInvalidOffset)
      else gro_loop n offset canUDPGRO (S i) (gro_step offset canUDPGRO i st)
  end.
(** The buffers, the indices to write and the errors ([errors.Join]). *)
Definition handleGRO (bufs : list Buf) (offset : Z) (tcpTable : tcpGROTable) (udpTable : udpGROTable) (canUDPGRO : bool)
    (toWrite : list nat) : list Buf * list nat * list error :=
  match gro_loop (length bufs) offset canUDPGRO 0 (mkGro bufs tcpTable udpTable toWrite) with
  | (st, Some e) => (g_bufs st, g_toWrite st, [e])
  | (st, None) =>
      let '(bufs, errTCP) := applyTCPCoalesceAccounting (g_bufs st) offset (g_tcp st) in
      let '(bufs, errUDP) := applyUDPCoalesceAccounting bufs offset (g_udp st) in
      (bufs, g_toWrite st, option_list errTCP ++ option_list errUDP)
  end.

(** ** [NativeTun.Write] *)

(** What a write to the device file reports: the bytes taken, [EBADFD], or
    another error. It may depend on what was written before. *)
Inductive write_outcome := Written (n : Z) | WriteBadFd | WriteFailed (e : error).
Definition ErrClosed : error := Errorf "file already closed" [].
Fixpoint write_each (file_write : list (list Z) -> list Z -> write_outcome) (packets done : list (list Z))
    (total : Z) (errs : list error) : list (list Z) * Z * list error :=
  match packets with
  | [] => (done, total, errs)
  | p :: packets =>
      match file_write done p with
      | Written n => write_each file_write packets (done ++ [p]) (total + n) errs
      | WriteBadFd => (done ++ [p], total, [ErrClosed])
      | WriteFailed e => write_each file_write packets (done ++ [p]) total (errs ++ [e])
      end
  end.
(** The byte strings handed to the file, the total and the errors; the tables are
    empty at the start, since every call resets them at its end. *)
Definition NativeTun_Write (vnetHdr udpGSO : bool) (file_write : list (list Z) -> list Z -> write_outcome)
    (bufs : list Buf) (offset : Z) : list (list Z) * Z * list error :=
  let '(bufs, toWrite, err, offset) :=
    if vnetHdr then
      let '(bufs, toWrite, err) := handleGRO bufs offset newTCPGROTable newUDPGROTable udpGSO [] in
      (bufs, toWrite, err, offset - virtioNetHdrLen)
    else (bufs, seq 0 (length bufs), [], offset) in
  match err with
  | [] => write_each file_write (map (packet bufs offset) toWrite) [] 0 []
  | _ => ([], 0, err)
  end.
End gro.
