(* ===== verification/OffloadProofs.v ===== *)
(** * Splitting offloaded packets: proofs

    The bytes a segment is made of, and what [gsoSplit] promises: the segments
    carry the payload in order, and their lengths, identifiers, sequence numbers,
    flags and checksums are those of packets sent one by one. *)
From S2P Require Import Prelude GoNet GoBytes Checksum Offload GRO.
Open Scope Z_scope.

Create Rewrite HintDb len.
Create HintDb bytes.

(** ** Writing into a byte slice *)
Lemma len_nonneg b : 0 <= len b.
Proof. unfold len. lia. Qed.
Lemma copy_at_length i src b : length (copy_at i src b) = length b.
Proof. apply length_inserts. Qed.
Lemma len_copy_at i src b : len (copy_at i src b) = len b.
Proof. unfold len. by rewrite copy_at_length. Qed.
Lemma inserts_app_l n (src a b : list Z) : (n + length src <= length a)%nat ->
  list_inserts n src (a ++ b) = list_inserts n src a ++ b.
Proof.
  revert n. induction src as [|x src IH]; intros n H; cbn [list_inserts]; [done|]. cbn in H.
  rewrite IH by (cbn; lia). rewrite insert_app_l; [done|]. rewrite length_inserts. lia.
Qed.
Lemma inserts_app_r n (src a b : list Z) : list_inserts (length a + n) src (a ++ b) = a ++ list_inserts n src b.
Proof.
  revert n. induction src as [|x src IH]; intros n; cbn [list_inserts]; [done|].
  rewrite <- Nat.add_succ_r, IH. apply insert_app_r.
Qed.
Lemma inserts_head (src b : list Z) : (length src <= length b)%nat -> list_inserts 0 src b = src ++ drop (length src) b.
Proof.
  revert b. induction src as [|x src IH]; intros b H; [by rewrite drop_0|]. destruct b as [|y b]; cbn in H; [lia|].
  cbn [list_inserts length drop app]. change (y :: b) with ([y] ++ b). change 1%nat with (length [y] + 0)%nat.
  rewrite inserts_app_r, IH by lia. done.
Qed.
Lemma copy_at_app_l i src a b : 0 <= i -> i + len src <= len a -> copy_at i src (a ++ b) = copy_at i src a ++ b.
Proof. intros ? H. apply inserts_app_l. unfold len in H. lia. Qed.
Lemma copy_at_app_r i src a b : len a <= i -> copy_at i src (a ++ b) = a ++ copy_at (i - len a) src b.
Proof.
  intros H. unfold copy_at, len in *. replace (Z.to_nat i) with (length a + Z.to_nat (i - Z.of_nat (length a)))%nat by lia.
  apply inserts_app_r.
Qed.
Lemma copy_at_0 src b : len src <= len b -> copy_at 0 src b = src ++ drop (length src) b.
Proof. intros H. apply inserts_head. unfold len in H. lia. Qed.
(** In the middle: what is replaced has the same length. *)
Lemma copy_at_mid src a x b : length src = length x -> copy_at (len a) src (a ++ x ++ b) = a ++ src ++ b.
Proof.
  intros H. rewrite copy_at_app_r, Z.sub_diag by lia. rewrite copy_at_0.
  - rewrite H. by rewrite drop_app_length.
  - unfold len. rewrite length_app. lia.
Qed.
Lemma split_at i n b : 0 <= i -> i + Z.of_nat n <= len b ->
  exists a x c, b = a ++ x ++ c /\ len a = i /\ length x = n.
Proof.
  intros Hi Hn. unfold len in *. exists (take (Z.to_nat i) b), (take n (drop (Z.to_nat i) b)), (drop n (drop (Z.to_nat i) b)).
  rewrite !take_drop. split; [done|]. rewrite !length_take, length_drop. lia.
Qed.
Lemma range_app_l i j a b : 0 <= i -> j <= len a -> range i j (a ++ b) = range i j a.
Proof.
  intros Hi Hj. unfold range, from, len in *. destruct (decide (j <= i)).
  { by replace (Z.to_nat (j - i)) with 0%nat by lia; rewrite !take_0. }
  rewrite drop_app_le by lia. rewrite take_app_le; [done|]. rewrite length_drop. lia.
Qed.
Lemma range_app_r i j a b : len a <= i -> range i j (a ++ b) = range (i - len a) (j - len a) b.
Proof.
  intros Hi. unfold range, from, len in *. rewrite drop_app_ge by lia. f_equal; [lia|]. f_equal. lia.
Qed.
Lemma from_app_ge i a b : len a <= i -> from i (a ++ b) = from (i - len a) b.
Proof. intros. unfold from, len in *. rewrite drop_app_ge by lia. f_equal. lia. Qed.
Lemma from_0 b : from 0 b = b.
Proof. unfold from. by rewrite drop_0. Qed.
Lemma range_full a n : len a = n -> range 0 n a = a.
Proof. intros <-. unfold range, from, len. rewrite drop_0, take_ge; [done|lia]. Qed.
Lemma range_mid i a x b : len a = i -> range i (i + len x) (a ++ x ++ b) = x.
Proof.
  intros <-. rewrite range_app_r by lia. rewrite range_app_l by lia.
  replace (len a - len a) with 0 by lia. apply range_full. lia.
Qed.
Lemma len_app a b : len (a ++ b) = len a + len b.
Proof. unfold len. rewrite length_app. lia. Qed.
Lemma len_range i j b : 0 <= i <= j -> j <= len b -> len (range i j b) = j - i.
Proof. intros. unfold range, from, len in *. rewrite length_take, length_drop. lia. Qed.
Lemma len_from i b : 0 <= i <= len b -> len (from i b) = len b - i.
Proof. intros. unfold from, len in *. rewrite length_drop. lia. Qed.
Lemma bytes_copy_at i src b : bytes_ok src -> bytes_ok b -> bytes_ok (copy_at i src b).
Proof. intros. by apply Forall_inserts. Qed.
Lemma bytes_range i j b : bytes_ok b -> bytes_ok (range i j b).
Proof. intros. by apply Forall_take, Forall_drop. Qed.
Lemma bytes_from i b : bytes_ok b -> bytes_ok (from i b).
Proof. intros. by apply Forall_drop. Qed.
Lemma bytes_app a b : bytes_ok a -> bytes_ok b -> bytes_ok (a ++ b).
Proof. intros. by apply Forall_app. Qed.
Lemma guard_range_ok i j b : 0 <= i -> i <= j -> j <= len b -> guard_range i j b = Some tt.
Proof.
  intros. unfold guard_range.
  by rewrite (proj2 (Z.leb_le _ _)), (proj2 (Z.leb_le _ _)), (proj2 (Z.leb_le _ _)) by done.
Qed.

(** ** Reading back what was written *)
Lemma get_range_eq i n b : range i (i + n) b = take (Z.to_nat n) (from i b).
Proof. unfold range. f_equal. lia. Qed.
Lemma range_copy_same i src b : 0 <= i -> i + len src <= len b -> range i (i + len src) (copy_at i src b) = src.
Proof.
  intros Hi Hl. destruct (split_at i (length src) b Hi Hl) as (a & x & c & -> & <- & Hx).
  rewrite copy_at_mid by done. by apply range_mid.
Qed.
Lemma range_copy_other i j k src b : 0 <= i -> 0 <= k -> (j <= k \/ k + len src <= i) -> k + len src <= len b ->
  range i j (copy_at k src b) = range i j b.
Proof.
  intros Hi Hk Ho Hl. destruct (split_at k (length src) b Hk Hl) as (a & x & c & -> & Ha & Hx). subst k.
  rewrite copy_at_mid by done. destruct Ho as [Ho|Ho]; [by rewrite !range_app_l by lia|].
  assert (len src = len x) as Hsx by (unfold len; lia).
  rewrite !app_assoc, !range_app_r; rewrite ?len_app; [|lia..]. by rewrite Hsx.
Qed.
Lemma at_range b i : 0 <= i -> range i (i + 1) b = match b !! Z.to_nat i with Some x => [x] | None => [] end.
Proof.
  intros Hi. unfold range, from. replace (Z.to_nat (i + 1 - i)) with 1%nat by lia.
  destruct (b !! Z.to_nat i) as [x|] eqn:E; [by rewrite (drop_S _ _ _ E)|].
  rewrite drop_ge; [done|]. by apply lookup_ge_None.
Qed.
Lemma at_range_eq b b' i : 0 <= i < len b -> len b = len b' -> range i (i + 1) b = range i (i + 1) b' -> at_ b i = at_ b' i.
Proof.
  intros Hi Hl H. rewrite !at_range in H by lia. unfold at_, len in *.
  destruct (lookup_lt_is_Some_2 b (Z.to_nat i) ltac:(lia)) as [x Hx].
  destruct (lookup_lt_is_Some_2 b' (Z.to_nat i) ltac:(lia)) as [y Hy].
  rewrite Hx, Hy in H. rewrite !list_lookup_total_alt, Hx, Hy. by simplify_eq.
Qed.

Lemma sum16_be2 v : 0 <= v < 65536 -> sum16 (be_bytes 2 v) = v.
Proof. intros. unfold sum16, be_bytes. cbn. div_lia. Qed.
Lemma sum16_put16 i v b : 0 <= i -> Z.even i = true -> i + 2 <= len b -> 0 <= v < 65536 ->
  range i (i + 2) b = [0; 0] -> sum16 (put16 i v b) = sum16 b + v.
Proof.
  intros Hi He Hl Hv Hz. destruct (split_at i 2 b Hi Hl) as (a & x & c & -> & <- & Hx).
  assert (x = [0; 0]) as ->.
  { rewrite <- Hz. symmetry. replace (len a + 2) with (len a + len x) by (unfold len; rewrite Hx; done). by apply range_mid. }
  assert (Nat.even (length a) = true) as Ha.
  { unfold len in He. apply Z.even_spec in He as [k Hk]. apply Nat.even_spec. exists (Z.to_nat k). lia. }
  unfold put16. rewrite copy_at_mid by by rewrite be_bytes_length.
  rewrite !(sum16_app a) by done. rewrite (sum16_app (be_bytes 2 v)), (sum16_app [0; 0]) by by rewrite ?be_bytes_length.
  rewrite sum16_be2 by done. change (sum16 [0; 0]) with 0. lia.
Qed.
Lemma be_bytes_len n v : len (be_bytes n v) = Z.of_nat n.
Proof. unfold len. by rewrite be_bytes_length. Qed.
Lemma len_put16 i v b : len (put16 i v b) = len b.
Proof. apply len_copy_at. Qed.
Lemma len_put32 i v b : len (put32 i v b) = len b.
Proof. apply len_copy_at. Qed.
Lemma bytes_put16 i v b : bytes_ok b -> bytes_ok (put16 i v b).
Proof. intros. by apply bytes_copy_at; [apply be_bytes_ok|]. Qed.
Lemma bytes_put32 i v b : bytes_ok b -> bytes_ok (put32 i v b).
Proof. intros. by apply bytes_copy_at; [apply be_bytes_ok|]. Qed.
Lemma get16_put16 i v b : 0 <= i -> i + 2 <= len b -> 0 <= v < 65536 -> get16 (put16 i v b) i = v.
Proof.
  intros Hi Hl Hv. unfold get16, put16. pose proof (range_copy_same i (be_bytes 2 v) b Hi) as H.
  rewrite be_bytes_len in H. change (Z.of_nat 2) with 2 in H. rewrite H by lia. by apply be_val_bytes.
Qed.
Lemma get32_put32 i v b : 0 <= i -> i + 4 <= len b -> 0 <= v < 2 ^ 32 -> get32 (put32 i v b) i = v.
Proof.
  intros Hi Hl Hv. unfold get32, put32. pose proof (range_copy_same i (be_bytes 4 v) b Hi) as H.
  rewrite be_bytes_len in H. change (Z.of_nat 4) with 4 in H. rewrite H by lia. by apply be_val_bytes.
Qed.
Lemma range_put16 i j k v b : 0 <= i -> 0 <= k -> (j <= k \/ k + 2 <= i) -> k + 2 <= len b ->
  range i j (put16 k v b) = range i j b.
Proof. intros. apply range_copy_other; rewrite ?be_bytes_len; lia. Qed.
Lemma range_put32 i j k v b : 0 <= i -> 0 <= k -> (j <= k \/ k + 4 <= i) -> k + 4 <= len b ->
  range i j (put32 k v b) = range i j b.
Proof. intros. apply range_copy_other; rewrite ?be_bytes_len; lia. Qed.

#[export] Hint Rewrite len_copy_at len_put16 len_put32 len_app be_bytes_len : len.
#[export] Hint Resolve bytes_copy_at bytes_range bytes_from bytes_app bytes_put16 bytes_put32 be_bytes_ok : bytes.

(** ** One segment *)
Section split.
Context {E : NativeEndian}.

Definition seg_ip (ip : list Z) (isV6 : bool) (i total : Z) : list Z :=
  if isV6 then put16 4 (u16 (total - len ip)) ip
  else
    let ip := if 0 <? i then put16 4 (u16 (get16 ip 4 + u16 i)) ip else ip in
    let ip := put16 2 (u16 total) ip in
    put16 10 (not16 (checksum ip 0)) ip.
Definition seg_transport (t : list Z) (tcp last : bool) (seq plen : Z) : list Z :=
  if tcp then
    let t := put32 4 seq t in
    if last then t else copy_at 13 [Z.land (at_ t 13) (255 - Z.lor tcpFlagFIN tcpFlagPSH)] t
  else put16 4 (u16 (u16 plen + u16 (len t))) t.
Definition pseudo (tcp isV6 : bool) (inp : list Z) (n : Z) : Z :=
  let s := src_at isV6 in let a := addr_len isV6 in
  pseudoHeaderChecksumNoFold (if tcp then IPPROTO_TCP else IPPROTO_UDP) (range s (s + a) inp) (range (s + a) (s + a * 2) inp) n.

(** What the header of the kernel must say for a packet to be split. *)
Record splittable (inp : list Z) (hdr : virtioNetHdr) (isV6 : bool) : Prop := {
  sp_bytes : bytes_ok inp;
  sp_len : len inp <= 65535;
  sp_gso : 0 < h_gsoSize hdr;
  sp_ip : (if isV6 then 40 else 20) <= h_csumStart hdr;
  sp_hdr : h_hdrLen hdr <= len inp;
  sp_kind : if is_tcp_gso hdr then 20 <= h_hdrLen hdr - h_csumStart hdr /\ h_csumOffset hdr = 16
            else h_hdrLen hdr - h_csumStart hdr = 8 /\ h_csumOffset hdr = 6 }.

Definition segment (inp : list Z) (hdr : virtioNetHdr) (isV6 : bool) (firstSeq i : Z) (p : list Z) (last : bool) : list Z :=
  let ip := range 0 (h_csumStart hdr) inp in
  let t := range (h_csumStart hdr) (h_hdrLen hdr) inp in
  let t := seg_transport t (is_tcp_gso hdr) last (u32 (firstSeq + u16 (h_gsoSize hdr * u16 i))) (len p) in
  let csum := not16 (checksum (t ++ p) (pseudo (is_tcp_gso hdr) isV6 inp (u16 (len t + len p)))) in
  seg_ip ip isV6 i (h_hdrLen hdr + len p) ++ put16 (h_csumOffset hdr) csum t ++ p.

Lemma len_seg_ip ip (isV6 : bool) i total : len (seg_ip ip isV6 i total) = len ip.
Proof. unfold seg_ip. destruct isV6; [by autorewrite with len|]. destruct (0 <? i); by autorewrite with len. Qed.
Lemma len_seg_transport t tcp last seq plen : len (seg_transport t tcp last seq plen) = len t.
Proof. unfold seg_transport. destruct tcp; [destruct last|]; by autorewrite with len. Qed.

(** The IP header is prepared in the front of the buffer. *)
Lemma seg_ip_front (ip o : list Z) (isV6 : bool) i total : (if isV6 then 40 else 20) <= len ip ->
  (if isV6 then Some (put16 4 (u16 (total - len ip)) (ip ++ o))
   else
     let out := if 0 <? i then put16 4 (u16 (get16 (ip ++ o) 4 + u16 i)) (ip ++ o) else ip ++ o in
     let out := put16 2 (u16 total) out in
     _ ← guard_range 0 (len ip) out; _ ← guard_range 10 12 out;
     Some (put16 10 (not16 (checksum (range 0 (len ip) out) 0)) out)) = Some (seg_ip ip isV6 i total ++ o).
Proof.
  intros Hl. pose proof (len_nonneg o). unfold seg_ip. destruct isV6.
  { unfold put16. rewrite copy_at_app_l; [done|lia|]. rewrite be_bytes_len. lia. }
  cbn zeta. set (x := if 0 <? i then put16 4 (u16 (get16 (ip ++ o) 4 + u16 i)) (ip ++ o) else ip ++ o).
  set (y := if 0 <? i then put16 4 (u16 (get16 ip 4 + u16 i)) ip else ip).
  assert (x = y ++ o) as ->.
  { subst x y. destruct (0 <? i); [|done]. unfold get16, put16. rewrite range_app_l by lia.
    apply copy_at_app_l; [lia|]. rewrite be_bytes_len. lia. }
  assert (len y = len ip) as Hy by (subst y; destruct (0 <? i); by autorewrite with len).
  assert (put16 2 (u16 total) (y ++ o) = put16 2 (u16 total) y ++ o) as ->.
  { apply copy_at_app_l; [lia|]. rewrite be_bytes_len. lia. }
  set (w := put16 2 (u16 total) y). assert (len w = len ip) as Hw by by (subst w; rewrite len_put16).
  rewrite !guard_range_ok by (rewrite ?len_app; lia). cbn [mbind option_bind].
  rewrite range_app_l, (range_full w) by lia. f_equal. unfold put16. rewrite copy_at_app_l; [done|lia|].
  rewrite be_bytes_len. lia.
Qed.
(** The transport header behind it. *)
Lemma seg_transport_mid (ip t o : list Z) (tcp last : bool) seq plen hl : len ip + len t <= 65535 -> (if tcp then 20 else 8) <= len t ->
  hl = len ip + len t ->
  (if tcp then
     let seqAt := u16 (len ip + 4) in
     _ ← guard_range seqAt (seqAt + 4) (ip ++ t ++ o);
     let out := put32 seqAt seq (ip ++ t ++ o) in
     if negb last then
       let flagsAt := u16 (len ip + tcpFlagsOffset) in
       _ ← guard_range flagsAt (flagsAt + 1) out;
       Some (copy_at flagsAt [Z.land (at_ out flagsAt) (255 - Z.lor tcpFlagFIN tcpFlagPSH)] out)
     else Some out
   else
     let lenAt := u16 (len ip + 4) in
     _ ← guard_range lenAt (lenAt + 2) (ip ++ t ++ o);
     Some (put16 lenAt (u16 (u16 plen + u16 (hl - len ip))) (ip ++ t ++ o))) = Some (ip ++ seg_transport t tcp last seq plen ++ o).
Proof.
  intros Hip Ht ->. pose proof (len_nonneg o). pose proof (len_nonneg ip).
  assert (forall k, 0 <= k < len t -> u16 (len ip + k) = len ip + k) as Hu by (intros; unfold u16; rewrite Z.mod_small; lia).
  assert (forall k src x, 0 <= k -> k + len src <= len x -> copy_at (len ip + k) src (ip ++ x ++ o) = ip ++ copy_at k src x ++ o) as Hc.
  { intros k src x Hk Hx. rewrite copy_at_app_r by lia. replace (len ip + k - len ip) with k by lia.
    by rewrite copy_at_app_l by lia. }
  unfold seg_transport, tcpFlagsOffset. destruct tcp; cbn zeta.
  - rewrite !Hu by lia. rewrite !guard_range_ok by (autorewrite with len; lia). cbn [mbind option_bind].
    unfold put32. rewrite !(Hc 4) by (rewrite ?be_bytes_len; lia). fold (put32 4 seq t).
    destruct last; cbn [negb]; [done|].
    assert (at_ (ip ++ put32 4 seq t ++ o) (len ip + 13) = at_ (put32 4 seq t) 13) as ->.
    { unfold at_. unfold len. rewrite Z2Nat.inj_add, Nat2Z.id by lia. rewrite lookup_total_app_r by lia.
      rewrite Nat.add_comm, Nat.add_sub. rewrite lookup_total_app_l; [done|]. unfold put32. rewrite copy_at_length.
      unfold len in Ht. lia. }
    rewrite Hc; [done|lia|]. autorewrite with len. unfold len. cbn. unfold len in Ht. lia.
  - rewrite Hu by lia. rewrite guard_range_ok by (autorewrite with len; lia). cbn [mbind option_bind].
    unfold put16. rewrite Hc by (rewrite ?be_bytes_len; lia). replace (len ip + len t - len ip) with (len t) by lia. done.
Qed.

Lemma splittable_bounds inp hdr isV6 : splittable inp hdr isV6 ->
  20 <= h_csumStart hdr /\ src_at isV6 + addr_len isV6 * 2 <= h_csumStart hdr /\
  h_csumStart hdr + (if is_tcp_gso hdr then 20 else 8) <= h_hdrLen hdr /\ h_hdrLen hdr <= len inp <= 65535 /\
  0 <= h_csumOffset hdr /\ h_csumOffset hdr + 2 <= h_hdrLen hdr - h_csumStart hdr.
Proof.
  intros []. destruct isV6, (is_tcp_gso hdr); cbn [src_at addr_len] in *;
    unfold ipv4SrcAddrOffset, ipv6SrcAddrOffset; split_and!; lia.
Qed.
Lemma parts_of out n1 n2 n3 : 0 <= n1 -> 0 <= n2 -> 0 <= n3 -> n1 + n2 + n3 <= len out ->
  exists a b c, out = a ++ b ++ c ++ from (n1 + n2 + n3) out /\ len a = n1 /\ len b = n2 /\ len c = n3.
Proof.
  intros. exists (range 0 n1 out), (range n1 (n1 + n2) out), (range (n1 + n2) (n1 + n2 + n3) out).
  rewrite !len_range by lia. split; [|lia]. unfold range, from, len in *. rewrite drop_0.
  replace (Z.to_nat (n1 + n2 - n1)) with (Z.to_nat n2) by lia.
  replace (Z.to_nat (n1 + n2 + n3 - (n1 + n2))) with (Z.to_nat n3) by lia. replace (n1 - 0) with n1 by lia.
  rewrite <- (take_drop (Z.to_nat n1) out) at 1. f_equal.
  rewrite <- (take_drop (Z.to_nat n2) (drop _ out)) at 1. f_equal. rewrite drop_drop.
  replace (Z.to_nat n1 + Z.to_nat n2)%nat with (Z.to_nat (n1 + n2)) by lia.
  rewrite <- (take_drop (Z.to_nat n3) (drop _ out)) at 1. f_equal. rewrite drop_drop. f_equal. lia.
Qed.

Lemma gso_segment_eq inp hdr isV6 firstSeq i dataAt segEnd out :
  splittable inp hdr isV6 -> h_hdrLen hdr <= dataAt <= segEnd -> segEnd <= len inp ->
  h_hdrLen hdr + (segEnd - dataAt) <= len out ->
  gso_segment inp hdr isV6 firstSeq i dataAt segEnd out =
  Some (h_hdrLen hdr + (segEnd - dataAt),
        segment inp hdr isV6 firstSeq i (range dataAt segEnd inp) (segEnd =? len inp) ++
        from (h_hdrLen hdr + (segEnd - dataAt)) out).
Proof.
  intros Hs Hd He Ho. destruct (splittable_bounds _ _ _ Hs) as (Hst & Ha & Hth & Hhl & Hoff & Hoff'). destruct Hs as [Hb _ _ Hip _ _].
  set (st := h_csumStart hdr) in *. set (hl := h_hdrLen hdr) in *. remember (segEnd - dataAt) as n eqn:Hn.
  destruct (parts_of out st (hl - st) n) as (o1 & o2 & o3 & Hout & H1 & H2 & H3); [destruct (is_tcp_gso hdr); subst st hl; lia..|].
  replace (st + (hl - st) + n) with (hl + n) in Hout by lia. set (o4 := from (hl + n) out) in *. rewrite Hout. clear Hout Ho.
  assert (st <= hl) as Hle by (destruct (is_tcp_gso hdr); lia).
  unfold gso_segment. fold st hl. cbn zeta. rewrite <- Hn. rewrite (guard_range_ok 0 st inp) by lia. cbn [mbind option_bind].
  set (ip := range 0 st inp). assert (len ip = st) as Hlip by (subst ip; rewrite len_range; lia).
  assert (copy_at 0 ip (o1 ++ o2 ++ o3 ++ o4) = ip ++ (o2 ++ o3 ++ o4)) as ->.
  { apply (copy_at_mid ip []). unfold len in *. lia. }
  pose proof (len_nonneg o3). pose proof (len_nonneg o4).
  rewrite (guard_range_ok 4 6), (guard_range_ok 2 4) by (rewrite ?len_app; lia). cbn [mbind option_bind].
  pose proof (seg_ip_front ip (o2 ++ o3 ++ o4) isV6 i (hl + n) ltac:(rewrite Hlip; exact Hip)) as Hf.
  cbn zeta in Hf. rewrite Hlip in Hf. rewrite Hf. clear Hf. cbn [mbind option_bind].
  set (ip' := seg_ip ip isV6 i (hl + n)). assert (len ip' = st) as Hlip' by by (subst ip'; rewrite len_seg_ip).
  rewrite (guard_range_ok st hl), (guard_range_ok st hl) by (rewrite ?len_app; lia). cbn [mbind option_bind].
  set (t := range st hl inp). assert (len t = hl - st) as Hlt by (subst t; rewrite len_range; lia).
  assert (copy_at st t (ip' ++ o2 ++ o3 ++ o4) = ip' ++ t ++ (o3 ++ o4)) as ->.
  { rewrite <- Hlip'. apply copy_at_mid. unfold len in *. lia. }
  pose proof (seg_transport_mid ip' t (o3 ++ o4) (is_tcp_gso hdr) (segEnd =? len inp)
    (u32 (firstSeq + u16 (h_gsoSize hdr * u16 i))) n hl) as Hm. cbn zeta in Hm. rewrite Hlip' in Hm.
  rewrite Hm by (try lia; destruct (is_tcp_gso hdr); lia). clear Hm. cbn [mbind option_bind].
  set (t' := seg_transport t (is_tcp_gso hdr) (segEnd =? len inp) _ n).
  assert (len t' = hl - st) as Hlt' by by (subst t'; rewrite len_seg_transport).
  rewrite (guard_range_ok hl hl) by (rewrite ?len_app; lia). cbn [mbind option_bind].
  set (p := range dataAt segEnd inp). assert (len p = n) as Hlp by (subst p; rewrite len_range; lia).
  assert (copy_at hl p (ip' ++ t' ++ o3 ++ o4) = ip' ++ t' ++ p ++ o4) as ->.
  { rewrite (app_assoc ip' t'), (app_assoc ip' t'). replace hl with (len (ip' ++ t')) by (rewrite len_app; lia).
    apply copy_at_mid. unfold len in *. lia. }
  rewrite (guard_range_ok (src_at isV6 + addr_len isV6)) by (destruct isV6; cbn in *; unfold ipv4SrcAddrOffset, ipv6SrcAddrOffset in *; lia). cbn [mbind option_bind].
  rewrite (guard_range_ok st) by (rewrite ?len_app; lia). cbn [mbind option_bind].
  assert (range st (hl + n) (ip' ++ t' ++ p ++ o4) = t' ++ p) as ->.
  { rewrite (app_assoc t' p). replace (hl + n) with (st + len (t' ++ p)) by (rewrite len_app; lia). by apply range_mid. }
  replace (u16 (st + h_csumOffset hdr)) with (st + h_csumOffset hdr) by (unfold u16; rewrite Z.mod_small; lia).
  rewrite guard_range_ok by (rewrite ?len_app; lia). cbn [mbind option_bind].
  f_equal. f_equal. unfold segment. fold st hl ip t p. rewrite Hlp. fold t'.
  replace (u16 (u16 (hl - st) + n)) with (u16 (len t' + n)) by (rewrite Hlt'; unfold u16; rewrite (Z.mod_small (hl - st)) by lia; done).
  subst ip'. rewrite <- app_assoc. unfold put16 at 1. rewrite copy_at_app_r by (rewrite Hlip'; lia). f_equal.
  rewrite Hlip'. replace (st + h_csumOffset hdr - st) with (h_csumOffset hdr) by lia.
  rewrite copy_at_app_l by (rewrite ?be_bytes_len; lia). rewrite <- app_assoc.
  unfold pseudo, put16. rewrite Hlt'. done.
Qed.

(** ** The loop *)

(** The segments of a payload, from the [i]-th on. *)
Fixpoint segments (n : nat) (inp : list Z) (hdr : virtioNetHdr) (isV6 : bool) (firstSeq i : Z) (payload : list Z) : list (list Z) :=
  match n, payload with
  | O, _ | _, [] => []
  | S n, _ =>
      let rest := from (h_gsoSize hdr) payload in
      segment inp hdr isV6 firstSeq i (range 0 (h_gsoSize hdr) payload) (len rest =? 0)
        :: segments n inp hdr isV6 firstSeq (i + 1) rest
  end.
(** The packets a caller finds in the buffers. *)
Definition packets_read (offset : Z) (written : list (Z * list Z)) : list (list Z) :=
  map (fun sb => range offset (offset + sb.1) sb.2) written.

Lemma from_from i j b : 0 <= i -> 0 <= j -> from i (from j b) = from (j + i) b.
Proof. intros. unfold from. rewrite drop_drop. f_equal. lia. Qed.
Lemma len_from_max i b : 0 <= i -> len (from i b) = Z.max 0 (len b - i).
Proof. intros. unfold from, len. rewrite length_drop. lia. Qed.
Lemma from_all i b : len b <= i -> from i b = [].
Proof. intros. unfold from, len in *. apply drop_ge. lia. Qed.
Lemma range_from i n b : 0 <= i -> range i (i + n) b = range 0 n (from i b).
Proof. intros. unfold range. rewrite from_0. do 2 f_equal. lia. Qed.
Lemma range_min n b : 0 <= n -> range 0 n b = range 0 (Z.min n (len b)) b.
Proof.
  intros. unfold range, len. rewrite from_0. destruct (Z.le_ge_cases n (Z.of_nat (length b))).
  - by rewrite Z.min_l.
  - rewrite Z.min_r by done. rewrite !take_ge by lia. done.
Qed.
Lemma len_segment inp hdr isV6 firstSeq i p last : splittable inp hdr isV6 ->
  len (segment inp hdr isV6 firstSeq i p last) = h_hdrLen hdr + len p.
Proof.
  intros Hs. destruct (splittable_bounds _ _ _ Hs) as (? & _ & ? & ? & _). unfold segment.
  assert (h_csumStart hdr <= h_hdrLen hdr) by (destruct (is_tcp_gso hdr); lia).
  rewrite !len_app, len_put16, len_seg_ip, len_seg_transport, !len_range; lia.
Qed.

Lemma gso_loop_segments inp hdr isV6 firstSeq off i dataAt outs :
  splittable inp hdr isV6 -> h_hdrLen hdr <= dataAt -> 0 <= off ->
  Forall (fun o => off + h_hdrLen hdr + Z.min (h_gsoSize hdr) (len (from dataAt inp)) <= len o) outs ->
  let fits := len inp - dataAt <=? h_gsoSize hdr * Z.of_nat (length outs) in
  exists res, gso_loop inp hdr isV6 firstSeq off i dataAt outs =
    Some (if fits then i + Z.of_nat (length res) else i + Z.of_nat (length outs) - 1,
          if fits then None else Some ErrTooManySegments, res) /\
    packets_read off res = segments (length outs) inp hdr isV6 firstSeq i (from dataAt inp).
Proof.
  intros Hs Hd Hoff. destruct (splittable_bounds _ _ _ Hs) as (? & _ & ? & ? & _). pose proof (sp_gso _ _ _ Hs) as Hg.
  assert (h_csumStart hdr <= h_hdrLen hdr) by (destruct (is_tcp_gso hdr); lia).
  revert i dataAt Hd. induction outs as [|out outs IH]; intros i dataAt Hd Ho; cbn zeta; cbn [gso_loop length segments].
  - exists []. rewrite Z.mul_0_r, Z.add_0_r. destruct (Z.ltb_spec dataAt (len inp)), (Z.leb_spec (len inp - dataAt) 0); cbn [negb]; try lia; split; try done.
    by rewrite Z.add_0_r.
  - destruct (Z.ltb_spec dataAt (len inp)) as [Hlt|Hge]; cbn [negb].
    2: { exists []. rewrite (from_all dataAt) by lia. rewrite (proj2 (Z.leb_le _ _)) by nia. by rewrite Z.add_0_r. }
    apply Forall_cons in Ho as [Hout Ho]. rewrite len_from in Hout by lia.
    set (segEnd := Z.min (dataAt + h_gsoSize hdr) (len inp)).
    rewrite guard_range_ok by lia. cbn [mbind option_bind].
    rewrite gso_segment_eq by (try done; rewrite ?len_from; subst segEnd; lia). cbn [mbind option_bind].
    destruct (IH (i + 1) (dataAt + h_gsoSize hdr) ltac:(lia)) as (res & Hr & Hp).
    { eapply Forall_impl; [exact Ho|]. cbv beta. intros o. rewrite len_from by lia.
      intros Hl. assert (len (from (dataAt + h_gsoSize hdr) inp) <= len inp - dataAt); [|lia].
      unfold from, len in *. rewrite length_drop. lia. }
    cbn zeta in Hr. rewrite Hr. cbn [mbind option_bind]. eexists (_ :: res). split.
    + assert ((len inp - (dataAt + h_gsoSize hdr) <=? h_gsoSize hdr * Z.of_nat (length outs)) =
              (len inp - dataAt <=? h_gsoSize hdr * Z.of_nat (S (length outs)))) as ->.
      { apply eq_bool_prop_intro. rewrite !Is_true_true, !Z.leb_le. nia. }
      cbn [length]. replace (i + 1 + Z.of_nat (length res)) with (i + Z.of_nat (S (length res))) by lia.
      replace (i + 1 + Z.of_nat (length outs) - 1) with (i + Z.of_nat (S (length outs)) - 1) by lia. reflexivity.
    + cbn [packets_read map fst snd]. destruct (from dataAt inp) as [|x l] eqn:El.
      { assert (len (from dataAt inp) = 0) as Hz by by rewrite El. rewrite len_from in Hz; lia. }
      rewrite <- El. clear El. f_equal.
      * set (g := segment _ _ _ _ _ (range dataAt segEnd inp) _). assert (len g = h_hdrLen hdr + (segEnd - dataAt)) as Hlg.
        { subst g. rewrite len_segment, len_range by (try done; subst segEnd; lia). done. }
        rewrite <- Hlg. rewrite range_mid by (unfold len in *; rewrite length_take; lia). subst g. f_equal.
        -- replace segEnd with (dataAt + Z.min (h_gsoSize hdr) (len inp - dataAt)) by lia.
           rewrite range_from by lia. rewrite (range_min (h_gsoSize hdr)) by lia. by rewrite len_from by lia.
        -- rewrite from_from by lia. apply eq_bool_prop_intro. rewrite !Is_true_true, !Z.eqb_eq.
           rewrite len_from_max by lia. subst segEnd. lia.
      * rewrite from_from by lia. exact Hp.
Qed.

(** ** Checksums of a segment *)
Lemma pseudo_bound proto a b n : is_byte proto -> bytes_ok a -> bytes_ok b ->
  0 <= pseudoHeaderChecksumNoFold proto a b n < 2 ^ 64.
Proof.
  intros Hp Ha Hb. unfold pseudoHeaderChecksumNoFold. apply checksumNoFold_oceq; [apply be_bytes_ok|].
  apply checksumNoFold_oceq; [constructor; [unfold is_byte; lia|by constructor]|].
  apply checksumNoFold_oceq; [done|]. by apply checksumNoFold_oceq.
Qed.
Lemma not16_range b initial : bytes_ok b -> 0 <= initial < 2 ^ 64 -> 0 <= not16 (checksum b initial) < 65536.
Proof. intros Hb Hi. destruct (checksum_oceq b initial Hb Hi) as [? _]. unfold not16. lia. Qed.
(** With the complement of its checksum added, the sum is all ones. *)
Lemma checksum_complement b b' initial : bytes_ok b -> bytes_ok b' -> 0 <= initial < 2 ^ 64 ->
  sum16 b' = sum16 b + not16 (checksum b initial) -> checksum b' initial = 65535.
Proof.
  intros Hb Hb' Hi Hs. destruct (checksum_oceq b initial Hb Hi) as [Hr He].
  destruct (checksum_oceq b' initial Hb' Hi) as [Hr' He']. apply oceq_unique; [done|lia|].
  eapply oceq_trans; [exact He'|]. rewrite Hs. unfold not16.
  replace (initial + (sum16 b + (65535 - checksum b initial))) with (initial + sum16 b + (65535 - checksum b initial)) by lia.
  replace 65535 with (checksum b initial + (65535 - checksum b initial)) at 2 by lia.
  apply oceq_add; [by apply oceq_sym|]. apply oceq_refl. lia.
Qed.
Lemma checksumValid_alt pkt iphLen proto isV6 :
  checksumValid pkt iphLen proto isV6 =
  (checksum (from iphLen pkt) (pseudoHeaderChecksumNoFold proto
     (range (src_at isV6) (src_at isV6 + addr_len isV6) pkt)
     (range (src_at isV6 + addr_len isV6) (src_at isV6 + addr_len isV6 * 2) pkt) (u16 (len pkt - iphLen))) =? 65535).
Proof. unfold checksumValid, not16. apply eq_bool_prop_intro. rewrite !Is_true_true, !Z.eqb_eq. lia. Qed.

(** What is kept of the IP header, and what is set. *)
Lemma seg_ip_ok ip (isV6 : bool) k total : bytes_ok ip -> (if isV6 then 40 else 20) <= len ip -> 0 <= k < 65536 ->
  len ip <= total < 65536 -> (isV6 = false -> range 10 12 ip = [0; 0]) ->
  let s := seg_ip ip isV6 k total in
  bytes_ok s /\ range (src_at isV6) (src_at isV6 + addr_len isV6 * 2) s = range (src_at isV6) (src_at isV6 + addr_len isV6 * 2) ip /\
  if isV6 then get16 s 4 = total - len ip /\ range 0 4 s = range 0 4 ip /\ range 6 8 s = range 6 8 ip
  else checksum s 0 = 65535 /\ get16 s 2 = total /\ get16 s 4 = u16 (get16 ip 4 + k) /\
    range 0 2 s = range 0 2 ip /\ range 6 10 s = range 6 10 ip.
Proof.
  intros Hb Hl Hk Ht Hz. unfold seg_ip. destruct isV6; cbn zeta; cbn [src_at addr_len];
    unfold ipv6SrcAddrOffset, ipv4SrcAddrOffset.
  { split; [by apply bytes_put16|]. rewrite !range_put16 by lia.
    rewrite get16_put16; unfold u16; rewrite ?Z.mod_small; [|lia..]. done. }
  set (y := if 0 <? k then put16 4 (u16 (get16 ip 4 + u16 k)) ip else ip).
  assert (len y = len ip) as Hly by (subst y; destruct (0 <? k); by rewrite ?len_put16).
  assert (bytes_ok y) as Hby by (subst y; destruct (0 <? k); [by apply bytes_put16|done]).
  assert (forall i j, 0 <= i -> (j <= 4 \/ 6 <= i) -> range i j y = range i j ip) as Hry.
  { intros i j Hi Ho. subst y. destruct (0 <? k); [|done]. by rewrite range_put16 by lia. }
  assert (get16 y 4 = u16 (get16 ip 4 + k)) as Hid.
  { pose proof (u16_range (get16 ip 4 + u16 k)). subst y. destruct (Z.ltb_spec 0 k).
    - rewrite get16_put16 by lia. unfold u16. by rewrite (Z.mod_small k) by lia.
    - replace k with 0 by lia. rewrite Z.add_0_r. unfold get16, u16. rewrite Z.mod_small; [done|].
      pose proof (be_val_range (range 4 (4 + 2) ip) (bytes_range _ _ _ Hb)) as Hr.
      pose proof (len_range 4 (4 + 2) ip) as Hlr. unfold len in Hlr, Hl.
      replace (length (range 4 (4 + 2) ip)) with 2%nat in Hr by lia. exact Hr. }
  set (w := put16 2 (u16 total) y). assert (len w = len ip) as Hlw by by (subst w; rewrite len_put16).
  assert (bytes_ok w) as Hbw by by apply bytes_put16.
  assert (forall i j, 0 <= i -> (j <= 2 \/ 4 <= i) -> range i j w = range i j y) as Hrw.
  { intros i j Hi Ho. subst w. by rewrite range_put16 by lia. }
  assert (get16 w 2 = total) as Htot.
  { subst w. rewrite get16_put16; unfold u16; rewrite ?Z.mod_small; lia. }
  pose proof (not16_range w 0 Hbw ltac:(lia)) as Hn. set (c := not16 (checksum w 0)) in *.
  split; [by apply bytes_put16|]. split_and!.
  - rewrite range_put16 by lia. rewrite Hrw by lia. apply Hry; lia.
  - apply (checksum_complement w); [done|by apply bytes_put16|lia|]. fold c.
    apply sum16_put16; [lia|done|lia|done|]. change (10 + 2) with 12. rewrite Hrw, Hry by lia. by apply Hz.
  - unfold get16. rewrite range_put16 by lia. exact Htot.
  - unfold get16. rewrite range_put16 by lia. change (4 + 2) with 6. rewrite Hrw by lia. exact Hid.
  - rewrite range_put16, Hrw, Hry by lia. done.
  - rewrite range_put16, Hrw, Hry by lia. done.
Qed.
Lemma at_copy_other i k src b : 0 <= i < len b -> 0 <= k -> (i < k \/ k + len src <= i) -> k + len src <= len b ->
  at_ (copy_at k src b) i = at_ b i.
Proof.
  intros. apply at_range_eq; [by rewrite len_copy_at|by rewrite len_copy_at|]. apply range_copy_other; lia.
Qed.
Lemma at_copy_same i v b : 0 <= i < len b -> at_ (copy_at i [v] b) i = v.
Proof.
  intros Hi. pose proof (range_copy_same i [v] b) as H. change (len [v]) with 1 in H.
  specialize (H ltac:(lia) ltac:(lia)). rewrite at_range in H by lia. unfold at_. rewrite list_lookup_total_alt.
  destruct (_ !! _); by simplify_eq/=.
Qed.
(** What is kept of the transport header, and what is set. *)
Lemma seg_transport_ok t (tcp last : bool) seq plen : bytes_ok t -> (if tcp then 20 else 8) <= len t ->
  0 <= seq < 2 ^ 32 -> 0 <= plen -> plen + len t < 65536 ->
  let s := seg_transport t tcp last seq plen in
  bytes_ok s /\ range 0 4 s = range 0 4 t /\
  if tcp then
    get32 s 4 = seq /\ range 8 13 s = range 8 13 t /\ range 14 (len t) s = range 14 (len t) t /\
    at_ s 13 = if last then at_ t 13 else Z.land (at_ t 13) 0xf6
  else get16 s 4 = len t + plen /\ range 6 8 s = range 6 8 t.
Proof.
  intros Hb Hl Hs Hp Ht. unfold seg_transport. destruct tcp; cbn zeta.
  - set (w := put32 4 seq t). assert (len w = len t) as Hw by apply len_put32.
    assert (bytes_ok w) as Hbw by by apply bytes_put32.
    assert (get32 w 4 = seq) as Hg by (apply get32_put32; lia).
    assert (forall i j, 0 <= i -> (j <= 4 \/ 8 <= i) -> range i j w = range i j t) as Hr.
    { intros. subst w. by rewrite range_put32 by lia. }
    assert (at_ w 13 = at_ t 13) as Ha by (apply at_copy_other; rewrite ?be_bytes_len; lia).
    destruct last; [split_and!; try done; apply Hr; lia|].
    assert (is_byte (at_ w 13)) as Hby.
    { unfold at_. rewrite list_lookup_total_alt. destruct (w !! Z.to_nat 13) as [x|] eqn:Ew; cbn; [|unfold is_byte; cbn; lia].
      by eapply Forall_lookup_1 in Hbw. }
    change (255 - Z.lor tcpFlagFIN tcpFlagPSH) with 0xf6. rewrite <- Ha.
    split_and!; [apply bytes_copy_at; [constructor; [apply land_byte; [done|unfold is_byte; lia]|constructor]|done]|..].
    + rewrite range_copy_other by (change (len [_]) with 1; lia). apply Hr; lia.
    + unfold get32. by rewrite range_copy_other by (change (len [_]) with 1; lia).
    + rewrite range_copy_other by (change (len [_]) with 1; lia). apply Hr; lia.
    + rewrite range_copy_other by (change (len [_]) with 1; lia). apply Hr; lia.
    + apply at_copy_same. lia.
  - assert (0 <= u16 (u16 plen + u16 (len t)) < 65536) by apply u16_range. pose proof (len_nonneg t).
    assert (u16 (u16 plen + u16 (len t)) = len t + plen) as E1 by (unfold u16; rewrite !Z.mod_small; rewrite ?Z.mod_small; lia).
    rewrite E1. split_and!; [by apply bytes_put16|rewrite range_put16; [done|lia..]|apply get16_put16; lia|].
    rewrite range_put16; [done|lia..].
Qed.

(** A packet as it would have been sent on its own: segment [k], with the payload
    [p], of the packet [inp] of the kernel. *)
Record sent_alone (inp : list Z) (hdr : virtioNetHdr) (isV6 : bool) (k : Z) (p : list Z) (last : bool) (s : list Z) : Prop := {
  sa_bytes : bytes_ok s;
  sa_len : len s = h_hdrLen hdr + len p;
  sa_payload : from (h_hdrLen hdr) s = p;
  sa_csum : checksumValid s (h_csumStart hdr) (if is_tcp_gso hdr then IPPROTO_TCP else IPPROTO_UDP) isV6 = true;
  sa_ip : if isV6 then get16 s 4 = len s - h_csumStart hdr /\ range 0 4 s = range 0 4 inp /\ range 6 8 s = range 6 8 inp
          else checksum (range 0 (h_csumStart hdr) s) 0 = 65535 /\ get16 s 2 = len s /\ get16 s 4 = u16 (get16 inp 4 + k) /\
            range 0 2 s = range 0 2 inp /\ range 6 10 s = range 6 10 inp;
  sa_addrs : range (src_at isV6) (src_at isV6 + addr_len isV6 * 2) s = range (src_at isV6) (src_at isV6 + addr_len isV6 * 2) inp;
  sa_ports : range (h_csumStart hdr) (h_csumStart hdr + 4) s = range (h_csumStart hdr) (h_csumStart hdr + 4) inp;
  sa_transport :
    if is_tcp_gso hdr then
      get32 s (h_csumStart hdr + 4) = u32 (get32 inp (h_csumStart hdr + 4) + h_gsoSize hdr * k) /\
      range (h_csumStart hdr + 8) (h_csumStart hdr + 13) s = range (h_csumStart hdr + 8) (h_csumStart hdr + 13) inp /\
      at_ s (h_csumStart hdr + 13) = (if last then at_ inp (h_csumStart hdr + 13) else Z.land (at_ inp (h_csumStart hdr + 13)) 0xf6)
    else get16 s (h_csumStart hdr + 4) = len s - h_csumStart hdr }.

Lemma at_app_r a b i : 0 <= i -> at_ (a ++ b) (len a + i) = at_ b i.
Proof.
  intros. unfold at_, len. rewrite Z2Nat.inj_add, Nat2Z.id by lia. rewrite lookup_total_app_r by lia. f_equal. lia.
Qed.
Lemma at_app_l a b i : 0 <= i < len a -> at_ (a ++ b) i = at_ a i.
Proof. intros. unfold at_, len in *. apply lookup_total_app_l. lia. Qed.
Lemma range_range i j k l b : 0 <= i -> 0 <= k -> k <= l -> l <= j - i -> range k l (range i j b) = range (i + k) (i + l) b.
Proof.
  intros. unfold range, from. rewrite skipn_firstn_comm, drop_drop, take_take. f_equal; [lia|]. f_equal. lia.
Qed.
Lemma at_range_at i j b k : 0 <= i -> 0 <= k < j - i -> j <= len b -> at_ (range i j b) k = at_ b (i + k).
Proof.
  intros. unfold at_, range, from, len in *. rewrite !list_lookup_total_alt, lookup_take_lt, lookup_drop by lia. do 2 f_equal. lia.
Qed.

Lemma range_sub i j k l b b' : range i j b = range i j b' -> 0 <= i -> i <= k -> k <= l -> l <= j ->
  range k l b = range k l b'.
Proof.
  intros H ? ? ? ?. pose proof (range_range i j (k - i) (l - i) b ltac:(lia) ltac:(lia) ltac:(lia) ltac:(lia)) as R1.
  pose proof (range_range i j (k - i) (l - i) b' ltac:(lia) ltac:(lia) ltac:(lia) ltac:(lia)) as R2.
  rewrite H, R2 in R1. by replace (i + (k - i)) with k in R1 by lia; replace (i + (l - i)) with l in R1 by lia.
Qed.

(** A transport header whose checksum field, zero before, gets the complement of
    the sum: the header and payload then sum to all ones. *)
Lemma sealed_ok ip t p off ps : bytes_ok t -> bytes_ok p -> 0 <= off -> Z.even off = true -> off + 2 <= len t ->
  range off (off + 2) t = [0; 0] -> 0 <= ps < 2 ^ 64 ->
  let s := ip ++ put16 off (not16 (checksum (t ++ p) ps)) t ++ p in
  (forall i j, 0 <= i -> j <= len ip -> range i j s = range i j ip) /\
  (forall i j, 0 <= i -> i <= j -> j <= len t -> (j <= off \/ off + 2 <= i) ->
    range (len ip + i) (len ip + j) s = range i j t) /\
  from (len ip + len t) s = p /\ checksum (from (len ip) s) ps = 65535.
Proof.
  intros Hbt Hbp Ho He Hl Hz Hps. cbn zeta. assert (bytes_ok (t ++ p)) as Hb by by apply bytes_app.
  pose proof (not16_range (t ++ p) ps Hb Hps) as Hc. set (c := not16 (checksum (t ++ p) ps)) in *.
  pose proof (len_nonneg ip). pose proof (len_nonneg p). pose proof (len_nonneg t). split_and!.
  - intros. by rewrite range_app_l by lia.
  - intros i j ? ? ? ?. rewrite range_app_r by lia. rewrite range_app_l by (rewrite ?len_put16; lia).
    rewrite range_put16 by lia. f_equal; lia.
  - rewrite app_assoc. rewrite from_app_ge by (rewrite len_app, len_put16; lia).
    rewrite len_app, len_put16, Z.sub_diag. apply from_0.
  - rewrite from_app_ge, Z.sub_diag, from_0 by lia.
    apply (checksum_complement (t ++ p)); [done|by apply bytes_app; [apply bytes_put16|]|done|].
    fold c. unfold put16. rewrite <- copy_at_app_l by (rewrite ?be_bytes_len; lia).
    apply sum16_put16; [done|done|rewrite len_app; lia|done|]. by rewrite range_app_l by lia.
Qed.

Lemma src_range isV6 : 0 <= src_at isV6 /\ 0 <= addr_len isV6.
Proof. by destruct isV6. Qed.

(** The checksum is that of the pseudo header read back from the packet. *)
Lemma sealed_valid inp s st tcp isV6 n : range (src_at isV6) (src_at isV6 + addr_len isV6 * 2) s =
    range (src_at isV6) (src_at isV6 + addr_len isV6 * 2) inp -> len s = st + n ->
  checksum (from st s) (pseudo tcp isV6 inp (u16 n)) = 65535 ->
  checksumValid s st (if tcp then IPPROTO_TCP else IPPROTO_UDP) isV6 = true.
Proof.
  intros Ha Hl Hc. destruct (src_range isV6). rewrite checksumValid_alt. apply Z.eqb_eq. rewrite <- Hc. f_equal.
  unfold pseudo. f_equal; [..|f_equal; lia]; (eapply range_sub; [exact Ha|lia..]).
Qed.

Lemma segment_sent_alone inp hdr isV6 k p last : splittable inp hdr isV6 -> bytes_ok p ->
  0 <= k < 65536 -> 0 <= h_gsoSize hdr * k < 65536 -> h_hdrLen hdr + len p < 65536 ->
  (isV6 = false -> range 10 12 inp = [0; 0]) ->
  range (h_csumStart hdr + h_csumOffset hdr) (h_csumStart hdr + h_csumOffset hdr + 2) inp = [0; 0] ->
  sent_alone inp hdr isV6 k p last
    (segment inp hdr isV6 (get32 inp (h_csumStart hdr + 4)) k p last).
Proof.
  intros Hs Hbp Hk Hgk Hp Hz4 Hzt. pose proof (len_segment inp hdr isV6 (get32 inp (h_csumStart hdr + 4)) k p last Hs) as Hlen.
  destruct (splittable_bounds _ _ _ Hs) as (Hst & Ha & Hth & Hhl & Hoff & Hoff'). destruct Hs as [Hb _ Hg Hip _ Hkind].
  unfold segment in *. set (st := h_csumStart hdr) in *. set (hl := h_hdrLen hdr) in *. set (tcp := is_tcp_gso hdr) in *.
  assert (st <= hl) as Hle by (destruct tcp; lia). pose proof (len_nonneg p) as Hlp. destruct (src_range isV6) as [Hsrc Halen].
  assert (len (range 0 st inp) = st) as Hli by (rewrite len_range; lia).
  assert (len (range st hl inp) = hl - st) as Hlt by (rewrite len_range; lia).
  destruct (seg_ip_ok (range 0 st inp) isV6 k (hl + len p)) as (Hbi & Hai & Hipf);
    [by apply bytes_range|by rewrite Hli|done|lia|intros Hv; rewrite range_range by lia; by apply Hz4|].
  rewrite Hli in Hipf. rewrite (range_range 0) in Hai by lia.
  destruct (seg_transport_ok (range st hl inp) tcp last (u32 (get32 inp (st + 4) + u16 (h_gsoSize hdr * u16 k))) (len p))
    as (Hbt & Hpt & Htf); [by apply bytes_range|rewrite Hlt; destruct tcp; lia|apply u32_range|done|lia|].
  rewrite Hlt in Htf. rewrite (range_range st) in Hpt by (destruct tcp; lia).
  set (ip := seg_ip (range 0 st inp) isV6 k (hl + len p)) in *. assert (len ip = st) as Hlip by (subst ip; by rewrite len_seg_ip).
  set (t := seg_transport (range st hl inp) tcp last _ (len p)) in *.
  assert (len t = hl - st) as Hlt' by (subst t; by rewrite len_seg_transport).
  destruct (sealed_ok ip t p (h_csumOffset hdr) (pseudo tcp isV6 inp (u16 (len t + len p)))) as (Hri & Hrs & Hpay & Hsum);
    [done|done|done|by destruct tcp; destruct Hkind as [_ ->]|lia| | |].
  { rewrite <- Hzt. destruct tcp; destruct Hkind as [Hk1 ->].
    - destruct Htf as (_ & _ & Htr & _). rewrite (range_sub 14 (hl - st) 16 (16 + 2) _ _ Htr), range_range by lia. f_equal; lia.
    - destruct Htf as [_ Htr]. change (6 + 2) with 8. rewrite Htr, range_range by lia. f_equal; lia. }
  { apply pseudo_bound; [destruct tcp; by split|by apply bytes_range..]. }
  set (s := ip ++ put16 (h_csumOffset hdr) _ t ++ p) in *. rewrite Hlip, Hlt' in *. replace (st + (hl - st)) with hl in Hpay by lia.
  assert (range (src_at isV6) (src_at isV6 + addr_len isV6 * 2) s = range (src_at isV6) (src_at isV6 + addr_len isV6 * 2) inp) as Has.
  { rewrite Hri by lia. exact Hai. }
  split; try fold st; try fold hl; try fold tcp; [by apply bytes_app; [|apply bytes_app; [apply bytes_put16|]]|exact Hlen|exact Hpay| | |exact Has| |].
  - apply (sealed_valid inp s st tcp isV6 (hl - st + len p)); [done|lia|exact Hsum].
  - rewrite Hlen. unfold get16 in *. destruct isV6.
    { destruct Hipf as (H1 & H2 & H3). rewrite !Hri, H1, H2, H3, !(range_range 0) by lia. split_and!; [lia|done..]. }
    destruct Hipf as (H1 & H2 & H3 & H4 & H5). rewrite (Hri 0 st), (range_full ip) by lia.
    rewrite !Hri, H2, H3, H4, H5, !(range_range 0) by lia. done.
  - pose proof (Hrs 0 4) as H. rewrite Z.add_0_r in H. rewrite H, Hpt by (destruct tcp; destruct Hkind as [? ?]; lia). f_equal; lia.
  - rewrite Hlen. destruct tcp; destruct Hkind as [? Hoffs].
    + destruct Htf as (H1 & H2 & _ & H3). split_and!.
      * unfold get32 in *. rewrite <- Z.add_assoc, Hrs, H1 by lia. unfold u16.
        rewrite (Z.mod_small k), (Z.mod_small (h_gsoSize hdr * k)) by lia. by rewrite (Z.add_assoc st 4 4).
      * rewrite Hrs, H2, range_range by lia. done.
      * subst s. rewrite <- Hlip, at_app_r by lia. rewrite at_app_l by (rewrite len_put16; lia).
        unfold put16. rewrite at_copy_other by (rewrite ?be_bytes_len; lia). rewrite H3.
        rewrite at_range_at by lia. by rewrite Hlip.
    + destruct Htf as [H1 _]. unfold get16 in *. rewrite <- Z.add_assoc, Hrs, H1 by lia. lia.
Qed.

(** ** [gsoSplit] *)

(** The packet with the checksums that will be computed cleared. *)
Definition zeroed (inp : list Z) (hdr : virtioNetHdr) (isV6 : bool) : list Z :=
  copy_at (h_csumStart hdr + h_csumOffset hdr) [0; 0] (if isV6 then inp else copy_at 10 [0; 0] inp).
Lemma zeroed_ok inp hdr isV6 : splittable inp hdr isV6 ->
  splittable (zeroed inp hdr isV6) hdr isV6 /\ len (zeroed inp hdr isV6) = len inp /\
  (isV6 = false -> range 10 12 (zeroed inp hdr isV6) = [0; 0]) /\
  range (h_csumStart hdr + h_csumOffset hdr) (h_csumStart hdr + h_csumOffset hdr + 2) (zeroed inp hdr isV6) = [0; 0] /\
  forall i j, 0 <= i -> (j <= 10 \/ 12 <= i \/ isV6 = true) ->
    (j <= h_csumStart hdr + h_csumOffset hdr \/ h_csumStart hdr + h_csumOffset hdr + 2 <= i) ->
    range i j (zeroed inp hdr isV6) = range i j inp.
Proof.
  intros Hs. destruct (splittable_bounds _ _ _ Hs) as (Hst & _ & Hth & Hhl & Hoff & Hoff'). unfold zeroed.
  set (x := if isV6 then inp else copy_at 10 [0; 0] inp). assert (len x = len inp) as Hx by (subst x; destruct isV6; by rewrite ?len_copy_at).
  assert (bytes_ok [0; 0]) as H00 by by apply bytes_decide.
  assert (bytes_ok x) as Hbx by (subst x; destruct Hs, isV6; [done|by apply bytes_copy_at]).
  set (c := h_csumStart hdr + h_csumOffset hdr). pose proof (range_copy_same c [0; 0] x) as Hc. change (len [0; 0]) with 2 in Hc.
  assert (forall i j, 0 <= i -> (j <= c \/ c + 2 <= i) -> range i j (copy_at c [0; 0] x) = range i j x) as Hr.
  { intros i j Hi Ho. apply range_copy_other; subst c; change (len [0; 0]) with 2; lia. }
  split_and!.
  - destruct Hs. split; rewrite ?len_copy_at, ?Hx; try done. by apply bytes_copy_at.
  - by rewrite len_copy_at.
  - intros ->. rewrite Hr by (subst c; lia). subst x. apply (range_copy_same 10 [0; 0]); [lia|]. change (len [0; 0]) with 2. lia.
  - apply Hc; subst c; lia.
  - intros i j Hi Ho1 Ho2. rewrite Hr by done. subst x. destruct isV6; [done|].
    apply range_copy_other; change (len [0; 0]) with 2; [lia..| |lia]. destruct Ho1 as [|[|]]; [lia..|done].
Qed.
Lemma gsoSplit_loop inp hdr outs off isV6 : splittable inp hdr isV6 ->
  gsoSplit inp hdr outs off isV6 =
  gso_loop (zeroed inp hdr isV6) hdr isV6 (if is_tcp_gso hdr then get32 (zeroed inp hdr isV6) (h_csumStart hdr + 4) else 0)
    off 0 (h_hdrLen hdr) outs.
Proof.
  intros Hs. destruct (splittable_bounds _ _ _ Hs) as (Hst & _ & Hth & Hhl & Hoff & Hoff').
  destruct (zeroed_ok _ _ _ Hs) as (_ & Hl & _). unfold gsoSplit, zeroed in *.
  set (x := if isV6 then inp else copy_at 10 [0; 0] inp) in *. assert (len x = len inp) as Hx by by rewrite <- Hl, len_copy_at.
  assert ((if isV6 then Some inp else guard_range 10 12 inp ≫= (fun _ => Some (copy_at 10 [0; 0] inp))) = Some x) as ->.
  { subst x. destruct isV6; [done|]. by rewrite guard_range_ok by lia. }
  assert (u16 (h_csumStart hdr + h_csumOffset hdr) = h_csumStart hdr + h_csumOffset hdr) as Hu by (unfold u16; rewrite Z.mod_small; lia).
  cbn [mbind option_bind]. cbn zeta. rewrite Hu, (guard_range_ok (h_csumStart hdr + h_csumOffset hdr)) by lia. cbn [mbind option_bind].
  destruct (is_tcp_gso hdr); [|done]. assert (u16 (h_csumStart hdr + 4) = h_csumStart hdr + 4) as -> by (unfold u16; rewrite Z.mod_small; lia).
  by rewrite guard_range_ok by lia.
Qed.
Lemma sent_alone_zeroed inp hdr isV6 k p last s : splittable inp hdr isV6 ->
  sent_alone (zeroed inp hdr isV6) hdr isV6 k p last s -> sent_alone inp hdr isV6 k p last s.
Proof.
  intros Hs [H0 H1 H2 H3 H4 H5 H6 H7]. destruct (splittable_bounds _ _ _ Hs) as (Hst & Ha & Hth & Hhl & Hoff & Hoff').
  destruct (zeroed_ok _ _ _ Hs) as (_ & Hl & _ & _ & Hr). pose proof (sp_kind _ _ _ Hs) as Hk.
  split; [done|done|done|done| | | |].
  - unfold get16 in *. destruct isV6; [rewrite !Hr in H4 by lia; done|].
    rewrite (Hr 4), (Hr 0), (Hr 6) in H4 by lia. done.
  - rewrite H5. apply Hr; destruct isV6; cbn [src_at addr_len] in *; unfold ipv4SrcAddrOffset, ipv6SrcAddrOffset in *; first [lia | by auto].
  - rewrite H6. destruct (is_tcp_gso hdr); apply Hr; lia.
  - destruct (is_tcp_gso hdr); [|done]. destruct Hk as [Hk1 Hk2]. rewrite Hk2 in Hr. destruct H7 as (H7 & H8 & H9). split_and!.
    + unfold get32 in H7 at 2. by rewrite Hr in H7 by lia.
    + rewrite H8. apply Hr; lia.
    + rewrite H9. by rewrite (at_range_eq (zeroed inp hdr isV6) inp (h_csumStart hdr + 13)) by (try lia; apply Hr; lia).
Qed.

Lemma segments_nil n inp hdr isV6 fs i : segments n inp hdr isV6 fs i [] = [].
Proof. by destruct n. Qed.
Lemma segments_lookup n inp hdr isV6 fs i payload k s : 0 < h_gsoSize hdr ->
  segments n inp hdr isV6 fs i payload !! k = Some s ->
  h_gsoSize hdr * Z.of_nat k < len payload /\
  s = segment inp hdr isV6 fs (i + Z.of_nat k) (range 0 (h_gsoSize hdr) (from (h_gsoSize hdr * Z.of_nat k) payload))
        (len (from (h_gsoSize hdr * Z.of_nat (S k)) payload) =? 0).
Proof.
  intros Hg. revert i payload k. induction n as [|n IH]; intros i payload k; cbn [segments]; [done|].
  destruct payload as [|x l] eqn:El; [done|]. rewrite <- El in *. destruct k as [|k]; cbn [lookup list_lookup].
  - intros [= <-]. rewrite Z.mul_0_r, from_0, Z.add_0_r, Z.mul_1_r. split; [|done]. subst payload. unfold len. cbn. lia.
  - intros H. apply IH in H as [H1 ->]. rewrite len_from_max in H1 by lia. split; [lia|].
    rewrite !from_from by lia. replace (i + 1 + Z.of_nat k) with (i + Z.of_nat (S k)) by lia.
    replace (h_gsoSize hdr + h_gsoSize hdr * Z.of_nat k) with (h_gsoSize hdr * Z.of_nat (S k)) by lia.
    by replace (h_gsoSize hdr + h_gsoSize hdr * Z.of_nat (S k)) with (h_gsoSize hdr * Z.of_nat (S (S k))) by lia.
Qed.
(** With room for all of them, the segments carry the payload. *)
Lemma segments_payload n inp hdr isV6 fs i payload : splittable inp hdr isV6 ->
  len payload <= h_gsoSize hdr * Z.of_nat n ->
  concat (map (from (h_hdrLen hdr)) (segments n inp hdr isV6 fs i payload)) = payload /\
  (forall k, (k < length (segments n inp hdr isV6 fs i payload))%nat <-> h_gsoSize hdr * Z.of_nat k < len payload).
Proof.
  intros Hs. pose proof (sp_gso _ _ _ Hs) as Hg.
  revert i payload. induction n as [|n IH]; intros i payload Hl; cbn [segments].
  { destruct payload; [|unfold len in Hl; cbn in Hl; lia]. split; [done|]. intros k. unfold len. cbn. nia. }
  destruct payload as [|x l] eqn:El; [split; [done|]; intros k; unfold len; cbn; nia|]. rewrite <- El in *.
  assert (0 < len payload) as Hpos by (subst payload; unfold len; cbn; lia).
  destruct (IH (i + 1) (from (h_gsoSize hdr) payload)) as [IH1 IH2]; [rewrite len_from_max by lia; lia|].
  cbn [map concat length]. split.
  - rewrite IH1. pose proof (len_segment inp hdr isV6 fs i (range 0 (h_gsoSize hdr) payload) (len (from (h_gsoSize hdr) payload) =? 0) Hs) as Hls.
    unfold segment in *. set (ip := seg_ip _ _ _ _) in *. set (t := put16 (h_csumOffset hdr) _ _) in *.
    rewrite app_assoc, len_app in Hls. rewrite app_assoc, from_app_ge by lia.
    replace (h_hdrLen hdr - len (ip ++ t)) with 0 by lia. rewrite from_0. unfold range. rewrite from_0, Z.sub_0_r. apply take_drop.
  - intros [|k]; [split; intros; [lia|lia]|]. rewrite <- Nat.succ_lt_mono, IH2, len_from_max by lia. lia.
Qed.
(** Without, there is a segment for every buffer. *)
Lemma segments_full n inp hdr isV6 fs i payload : 0 < h_gsoSize hdr -> h_gsoSize hdr * Z.of_nat n < len payload ->
  length (segments n inp hdr isV6 fs i payload) = n.
Proof.
  intros Hg. revert i payload. induction n as [|n IH]; intros i payload Hl; cbn [segments]; [done|].
  destruct payload as [|x l] eqn:El; [unfold len in Hl; cbn in Hl; lia|]. rewrite <- El in *. cbn [length].
  rewrite IH; [done|]. rewrite len_from_max; lia.
Qed.
Lemma segment_seq inp hdr isV6 a b k p last : is_tcp_gso hdr = false -> segment inp hdr isV6 a k p last = segment inp hdr isV6 b k p last.
Proof. intros H. unfold segment. by rewrite H. Qed.

Lemma segments_sent_alone n inp hdr isV6 payload k s : splittable inp hdr isV6 -> payload = from (h_hdrLen hdr) inp ->
  let z := zeroed inp hdr isV6 in
  segments n z hdr isV6 (if is_tcp_gso hdr then get32 z (h_csumStart hdr + 4) else 0) 0 payload !! k = Some s ->
  let p := range 0 (h_gsoSize hdr) (from (h_gsoSize hdr * Z.of_nat k) payload) in
  sent_alone inp hdr isV6 (Z.of_nat k) p (len (from (h_gsoSize hdr * Z.of_nat (S k)) payload) =? 0) s.
Proof.
  intros Hs Hpl. cbn zeta. intros H. pose proof (sp_gso _ _ _ Hs) as Hg. apply segments_lookup in H as [Hk ->]; [|done].
  destruct (zeroed_ok _ _ _ Hs) as (Hz & Hlz & Hz4 & Hzt & _).
  destruct (splittable_bounds _ _ _ Hs) as (Hst & _ & Hth & Hhl & _). assert (0 <= h_hdrLen hdr) by (destruct (is_tcp_gso hdr); lia).
  assert (len payload = len inp - h_hdrLen hdr) as Hlp by (subst payload; rewrite len_from; lia).
  set (p := range 0 _ _). rewrite Z.add_0_l. apply sent_alone_zeroed; [done|].
  assert (segment (zeroed inp hdr isV6) hdr isV6 (if is_tcp_gso hdr then get32 (zeroed inp hdr isV6) (h_csumStart hdr + 4) else 0) (Z.of_nat k) p
    (len (from (h_gsoSize hdr * Z.of_nat (S k)) payload) =? 0) = segment (zeroed inp hdr isV6) hdr isV6 (get32 (zeroed inp hdr isV6) (h_csumStart hdr + 4)) (Z.of_nat k) p
    (len (from (h_gsoSize hdr * Z.of_nat (S k)) payload) =? 0)) as ->.
  { destruct (is_tcp_gso hdr) eqn:Et; [done|]. by apply segment_seq. }
  assert (len p <= len payload) as Hlpp.
  { subst p. unfold range, from, len. rewrite !length_take, !length_drop. lia. }
  apply segment_sent_alone; [done| |nia|nia|lia|done|done].
  subst p payload. apply bytes_range, bytes_from, bytes_from. by destruct Hs.
Qed.

(** What is written: segment [k] of the payload, for each [k] that has bytes. *)
Lemma gsoSplit_written inp hdr outs off isV6 : splittable inp hdr isV6 -> 0 <= off ->
  Forall (fun o => off + h_hdrLen hdr + Z.min (h_gsoSize hdr) (len inp - h_hdrLen hdr) <= len o) outs ->
  len inp - h_hdrLen hdr <= h_gsoSize hdr * Z.of_nat (length outs) ->
  let payload := from (h_hdrLen hdr) inp in
  exists written, gsoSplit inp hdr outs off isV6 = Some (Z.of_nat (length written), None, written) /\
    concat (map (from (h_hdrLen hdr)) (packets_read off written)) = payload /\
    (forall k, (k < length written)%nat <-> h_gsoSize hdr * Z.of_nat k < len payload) /\
    forall k s, packets_read off written !! k = Some s ->
      sent_alone inp hdr isV6 (Z.of_nat k) (range 0 (h_gsoSize hdr) (from (h_gsoSize hdr * Z.of_nat k) payload))
        (len (from (h_gsoSize hdr * Z.of_nat (S k)) payload) =? 0) s.
Proof.
  intros Hs Hoff Ho Hn. cbn zeta. rewrite gsoSplit_loop by done. destruct (zeroed_ok _ _ _ Hs) as (Hz & Hlz & _ & _ & Hr).
  destruct (splittable_bounds _ _ _ Hs) as (Hst & _ & Hth & Hhl & Hco & Hco'). pose proof (sp_gso _ _ _ Hs) as Hg.
  assert (h_csumStart hdr <= h_hdrLen hdr) by (destruct (is_tcp_gso hdr); lia).
  assert (from (h_hdrLen hdr) (zeroed inp hdr isV6) = from (h_hdrLen hdr) inp) as Hfz.
  { pose proof (Hr (h_hdrLen hdr) (len inp) ltac:(lia) ltac:(lia) ltac:(lia)) as H2. unfold range in H2.
    rewrite !take_ge in H2; [done|..]; unfold from, len in *; rewrite length_drop; lia. }
  assert (len (from (h_hdrLen hdr) inp) = len inp - h_hdrLen hdr) as Hlp by (rewrite len_from; lia).
  destruct (gso_loop_segments (zeroed inp hdr isV6) hdr isV6
    (if is_tcp_gso hdr then get32 (zeroed inp hdr isV6) (h_csumStart hdr + 4) else 0) off 0 (h_hdrLen hdr) outs) as (res & Hl & Hp);
    [done|lia|done|by rewrite Hfz, Hlp|].
  cbn zeta in Hl. rewrite Hlz, (proj2 (Z.leb_le _ _)) in Hl by done. rewrite Hfz in Hp. exists res.
  destruct (segments_payload (length outs) (zeroed inp hdr isV6) hdr isV6
    (if is_tcp_gso hdr then get32 (zeroed inp hdr isV6) (h_csumStart hdr + 4) else 0) 0 (from (h_hdrLen hdr) inp) Hz ltac:(lia)) as [Hpl Hcount].
  rewrite <- Hp in Hpl, Hcount. unfold packets_read in Hcount at 1. rewrite length_map in Hcount.
  split_and!; [exact Hl|exact Hpl|exact Hcount|]. intros k s Hk. rewrite Hp in Hk.
  exact (segments_sent_alone _ _ _ _ _ _ _ Hs eq_refl Hk).
Qed.


(** With too few buffers every buffer is filled, but the count that is reported
    with the error is one less: the last segment written is not announced. *)
Theorem gsoSplit_too_many inp hdr outs off isV6 : splittable inp hdr isV6 -> 0 <= off ->
  Forall (fun o => off + h_hdrLen hdr + Z.min (h_gsoSize hdr) (len inp - h_hdrLen hdr) <= len o) outs ->
  h_gsoSize hdr * Z.of_nat (length outs) < len inp - h_hdrLen hdr ->
  exists written, gsoSplit inp hdr outs off isV6 = Some (Z.of_nat (length outs) - 1, Some ErrTooManySegments, written) /\
    length written = length outs.
Proof.
  intros Hs Hoff Ho Hn. rewrite gsoSplit_loop by done. destruct (zeroed_ok _ _ _ Hs) as (Hz & Hlz & _).
  destruct (splittable_bounds _ _ _ Hs) as (Hst & _ & Hth & Hhl & _). pose proof (sp_gso _ _ _ Hs) as Hg.
  assert (h_csumStart hdr <= h_hdrLen hdr) by (destruct (is_tcp_gso hdr); lia).
  destruct (gso_loop_segments (zeroed inp hdr isV6) hdr isV6
    (if is_tcp_gso hdr then get32 (zeroed inp hdr isV6) (h_csumStart hdr + 4) else 0) off 0 (h_hdrLen hdr) outs) as (res & Hl & Hp);
    [done|lia|done|by rewrite len_from, Hlz by lia|].
  cbn zeta in Hl. rewrite Hlz, (proj2 (Z.leb_gt _ _)) in Hl by done. rewrite Z.add_0_l in Hl. exists res. split; [exact Hl|].
  assert (length (packets_read off res) = length outs) as Hlen; [|by unfold packets_read in Hlen; rewrite length_map in Hlen].
  rewrite Hp. apply segments_full; [done|]. rewrite len_from, Hlz; lia.
Qed.
End split.
