(* ===== verification/GROProofs.v ===== *)
(** * Receive offload: what the packets carry

    The content of a packet: the TCP bytes with their flow and sequence number,
    the UDP datagram with its flow, or the packet itself when it is no candidate;
    and what of a packet's header its content depends on. *)
From S2P Require Import Prelude GoNet GoBytes Checksum Offload GRO OffloadProofs.
Open Scope Z_scope.

Inductive datum :=
| TcpByte (flow : tcpFlowKey) (seq : Z) (byte : Z)
| UdpDatagram (flow : udpFlowKey) (payload : list Z)
| Whole (pkt : list Z).

Fixpoint tcp_data (flow : tcpFlowKey) (seq : Z) (payload : list Z) : list datum :=
  match payload with [] => [] | b :: l => TcpByte flow (u32 seq) b :: tcp_data flow (seq + 1) l end.

Definition ip_len (isV6 : bool) : Z := if isV6 then 40 else 20.
Definition tcp_key (isV6 : bool) (pkt : list Z) : tcpFlowKey :=
  newTCPFlowKey pkt (src_at isV6) (src_at isV6 + addr_len isV6) (ip_len isV6).
Definition udp_key (isV6 : bool) (pkt : list Z) : udpFlowKey :=
  newUDPFlowKey pkt (src_at isV6) (src_at isV6 + addr_len isV6) (ip_len isV6).

Definition tcp_content (isV6 : bool) (pkt : list Z) : list datum :=
  match tcp_candidate pkt isV6 with
  | Some (iphLen, tcphLen, _, _, seq) => tcp_data (tcp_key isV6 pkt) seq (from (iphLen + tcphLen) pkt)
  | None => [Whole pkt]
  end.
Definition udp_content (isV6 : bool) (pkt : list Z) : list datum :=
  match udp_candidate pkt isV6 with
  | Some (iphLen, _) => [UdpDatagram (udp_key isV6 pkt) (from (iphLen + udphLen) pkt)]
  | None => [Whole pkt]
  end.
Definition content (canUDPGRO : bool) (pkt : list Z) : list datum :=
  match packetIsGROCandidate pkt canUDPGRO with
  | tcp4GROCandidate => tcp_content false pkt
  | tcp6GROCandidate => tcp_content true pkt
  | udp4GROCandidate => udp_content false pkt
  | udp6GROCandidate => udp_content true pkt
  | notGROCandidate => [Whole pkt]
  end.

Lemma tcp_data_app f s a b : tcp_data f s (a ++ b) = tcp_data f s a ++ tcp_data f (s + len a) b.
Proof.
  revert s. induction a as [|x a IH]; intros s; cbn [app tcp_data]; [unfold len; cbn; by rewrite Z.add_0_r|].
  rewrite IH. do 3 f_equal. unfold len. cbn [length]. lia.
Qed.
Lemma tcp_data_mod f s s' l : u32 s = u32 s' -> tcp_data f s l = tcp_data f s' l.
Proof.
  revert s s'. induction l as [|x l IH]; intros s s' H; cbn; [done|]. rewrite H. f_equal. apply IH.
  unfold u32 in *. by rewrite (Z.add_mod s), (Z.add_mod s'), H by done.
Qed.

(** ** Shapes *)

(** The parts of the headers, but for the lengths, that make a packet one of the
    given version and protocol. *)
Definition ip_kind (isV6 : bool) (proto : Z) (pkt : list Z) : Prop :=
  if isV6 then Z.shiftr (at_ pkt 0) 4 = 6 /\ at_ pkt 6 = proto
  else Z.shiftr (at_ pkt 0) 4 = 4 /\ Z.land (at_ pkt 0) 0x0F = 5 /\ at_ pkt 9 = proto /\ fragmented pkt false = false.
Record tcp_shape (isV6 : bool) (tcphLen : Z) (pkt : list Z) : Prop := {
  tsh_bytes : bytes_ok pkt;
  tsh_kind : ip_kind isV6 IPPROTO_TCP pkt;
  tsh_tcph : Z.shiftr (at_ pkt (ip_len isV6 + 12)) 4 * 4 = tcphLen;
  tsh_bounds : 20 <= tcphLen <= 60;
  tsh_flags : at_ pkt (ip_len isV6 + 13) = tcpFlagACK \/ at_ pkt (ip_len isV6 + 13) = Z.lor tcpFlagACK tcpFlagPSH;
  tsh_len : ip_len isV6 + tcphLen < len pkt <= maxUint16 }.
Record udp_shape (isV6 : bool) (pkt : list Z) : Prop := {
  ush_bytes : bytes_ok pkt;
  ush_kind : ip_kind isV6 IPPROTO_UDP pkt;
  ush_len : ip_len isV6 + udphLen < len pkt <= maxUint16 }.

Lemma ip_len_cases isV6 : ip_len isV6 = 20 \/ ip_len isV6 = 40.
Proof. destruct isV6; [right|left]; done. Qed.
Lemma at_byte b i : bytes_ok b -> is_byte (at_ b i).
Proof.
  intros Hb. unfold at_. rewrite list_lookup_total_alt. destruct (b !! Z.to_nat i) as [x|] eqn:Ex; cbn; [|unfold is_byte; cbn; lia].
  by eapply Forall_lookup_1 in Hb.
Qed.
Lemma ip_header_len_kind isV6 proto pkt : ip_kind isV6 proto pkt -> ip_header_len pkt isV6 = ip_len isV6.
Proof. unfold ip_kind, ip_header_len. destruct isV6; [done|]. intros (_ & -> & _). done. Qed.
Lemma land_eq15 b : is_byte b -> (Z.land b 15 =? 5) = true -> Z.land b 15 = 5.
Proof. intros _. apply Z.eqb_eq. Qed.

Ltac ltb_done := repeat match goal with
  | |- context [?a <? ?b] => first [rewrite (proj2 (Z.ltb_ge a b)) by lia | rewrite (proj2 (Z.ltb_lt a b)) by lia]
  | |- context [?a <=? ?b] => first [rewrite (proj2 (Z.leb_gt a b)) by lia | rewrite (proj2 (Z.leb_le a b)) by lia]
  end.

Lemma packet_kind isV6 proto udp pkt : ip_kind isV6 proto pkt -> ip_len isV6 + (if proto =? 6 then 20 else 8) <= len pkt ->
  (proto = 6 \/ proto = 17 /\ udp = true) ->
  packetIsGROCandidate pkt udp =
  match isV6, proto =? 6 with
  | false, true => tcp4GROCandidate | true, true => tcp6GROCandidate
  | false, false => udp4GROCandidate | true, false => udp6GROCandidate
  end.
Proof.
  intros Hk Hl Hp. unfold packetIsGROCandidate, ip_kind, ip_len in *. destruct isV6.
  - destruct Hk as [-> ->]. destruct Hp as [-> | [-> ->]]; cbn in *; by ltb_done.
  - destruct Hk as (-> & -> & -> & _). destruct Hp as [-> | [-> ->]]; cbn in *; by ltb_done.
Qed.

Definition psh_of (isV6 : bool) (pkt : list Z) : bool := negb (at_ pkt (ip_len isV6 + 13) =? tcpFlagACK).
Definition tcp_seq (isV6 : bool) (pkt : list Z) : Z := get32 pkt (ip_len isV6 + 4).

Section shapes.
Variable udp : bool.

Lemma tcp_shape_candidate isV6 tcphLen pkt : tcp_shape isV6 tcphLen pkt -> length_field_ok pkt isV6 = true ->
  packetIsGROCandidate pkt udp = (if isV6 then tcp6GROCandidate else tcp4GROCandidate) /\
  tcp_candidate pkt isV6 = Some (ip_len isV6, tcphLen, psh_of isV6 pkt, len pkt - tcphLen - ip_len isV6, tcp_seq isV6 pkt).
Proof.
  intros [Hb Hk Ht Hbd Hf Hl] Hlf. unfold maxUint16 in Hl. pose proof (ip_len_cases isV6) as Hc. split.
  { rewrite (packet_kind isV6 IPPROTO_TCP) by (try done; cbn; lia || auto). by destruct isV6. }
  unfold tcp_candidate. rewrite (ip_header_len_kind _ _ _ Hk), Hlf, Ht. unfold maxUint16, tcpFlagsOffset. cbn [negb].
  assert (u8 tcphLen = tcphLen) as -> by (apply u8_small; lia).
  assert (u16 (len pkt - tcphLen - ip_len isV6) = len pkt - tcphLen - ip_len isV6) as -> by (unfold u16; rewrite Z.mod_small; lia).
  ltb_done. cbn [orb]. assert (fragmented pkt isV6 = false) as ->.
  { unfold ip_kind in Hk. destruct isV6; [done|]. by destruct Hk as (_ & _ & _ & ?). }
  unfold psh_of, tcp_seq. destruct Hf as [-> | ->]; done.
Qed.
Lemma tcp_shape_content isV6 tcphLen pkt : tcp_shape isV6 tcphLen pkt -> length_field_ok pkt isV6 = true ->
  content udp pkt = tcp_data (tcp_key isV6 pkt) (tcp_seq isV6 pkt) (from (ip_len isV6 + tcphLen) pkt).
Proof.
  intros Hs Hl. destruct (tcp_shape_candidate _ _ _ Hs Hl) as [H1 H2]. unfold content. rewrite H1.
  destruct isV6; unfold tcp_content; by rewrite H2.
Qed.
Lemma udp_shape_candidate isV6 pkt : udp_shape isV6 pkt -> length_field_ok pkt isV6 = true ->
  (udp = true -> packetIsGROCandidate pkt udp = (if isV6 then udp6GROCandidate else udp4GROCandidate)) /\
  udp_candidate pkt isV6 = Some (ip_len isV6, len pkt - udphLen - ip_len isV6).
Proof.
  intros [Hb Hk Hl] Hlf. unfold maxUint16, udphLen in *. pose proof (ip_len_cases isV6) as Hc. split.
  { intros ->. rewrite (packet_kind isV6 IPPROTO_UDP) by (try done; cbn; lia || auto). by destruct isV6. }
  unfold udp_candidate. rewrite (ip_header_len_kind _ _ _ Hk), Hlf. unfold maxUint16, udphLen. cbn [negb].
  assert (u16 (len pkt - 8 - ip_len isV6) = len pkt - 8 - ip_len isV6) as -> by (unfold u16; rewrite Z.mod_small; lia).
  ltb_done. assert (fragmented pkt isV6 = false) as ->; [|done].
  unfold ip_kind in Hk. destruct isV6; [done|]. by destruct Hk as (_ & _ & _ & ?).
Qed.
Lemma udp_shape_content isV6 pkt : udp = true -> udp_shape isV6 pkt -> length_field_ok pkt isV6 = true ->
  content udp pkt = [UdpDatagram (udp_key isV6 pkt) (from (ip_len isV6 + udphLen) pkt)].
Proof.
  intros Hu Hs Hl. destruct (udp_shape_candidate _ _ Hs Hl) as [H1 H2]. unfold content. rewrite H1 by done.
  destruct isV6; unfold udp_content; by rewrite H2.
Qed.

(** A candidate has the shape. *)
Lemma candidate_kind pkt c : packetIsGROCandidate pkt udp = c ->
  match c with
  | tcp4GROCandidate => ip_kind false IPPROTO_TCP pkt \/ fragmented pkt false = true
  | tcp6GROCandidate => ip_kind true IPPROTO_TCP pkt
  | udp4GROCandidate => udp = true /\ (ip_kind false IPPROTO_UDP pkt \/ fragmented pkt false = true)
  | udp6GROCandidate => udp = true /\ ip_kind true IPPROTO_UDP pkt
  | notGROCandidate => True
  end.
Proof.
  intros <-. unfold packetIsGROCandidate, ip_kind. destruct (len pkt <? 28); [done|].
  destruct (Z.eqb_spec (Z.shiftr (at_ pkt 0) 4) 4) as [H4|_].
  - destruct (Z.eqb_spec (Z.land (at_ pkt 0) 15) 5) as [H5|_]; cbn [negb]; [|done].
    destruct ((at_ pkt 9 =? IPPROTO_TCP) && (40 <=? len pkt)) eqn:Et.
    { apply andb_true_iff in Et as [Et%Z.eqb_eq _]. destruct (fragmented pkt false); [by right|by left]. }
    destruct ((at_ pkt 9 =? IPPROTO_UDP) && udp) eqn:Eu; [|done].
    apply andb_true_iff in Eu as [Eu%Z.eqb_eq ->]. split; [done|]. destruct (fragmented pkt false); [by right|by left].
  - destruct (Z.eqb_spec (Z.shiftr (at_ pkt 0) 4) 6) as [H6|_]; [|done].
    destruct ((at_ pkt 6 =? IPPROTO_TCP) && (60 <=? len pkt)) eqn:Et.
    { apply andb_true_iff in Et as [Et%Z.eqb_eq _]. auto. }
    destruct ((at_ pkt 6 =? IPPROTO_UDP) && (48 <=? len pkt) && udp) eqn:Eu; [|done].
    apply andb_true_iff in Eu as [[Eu%Z.eqb_eq _]%andb_true_iff ->]. auto.
Qed.
End shapes.

Lemma shiftr4_times4 b : is_byte b -> 0 <= Z.shiftr b 4 * 4 <= 60.
Proof. intros [? ?]. rewrite Z.shiftr_div_pow2 by lia. change (2 ^ 4) with 16. div_lia. Qed.
Lemma tcp_candidate_shape isV6 pkt iphLen tcphLen psh gso seq : bytes_ok pkt ->
  (ip_kind isV6 IPPROTO_TCP pkt \/ isV6 = false /\ fragmented pkt false = true) ->
  tcp_candidate pkt isV6 = Some (iphLen, tcphLen, psh, gso, seq) ->
  tcp_shape isV6 tcphLen pkt /\ length_field_ok pkt isV6 = true /\
  iphLen = ip_len isV6 /\ psh = psh_of isV6 pkt /\ gso = len pkt - tcphLen - ip_len isV6 /\ seq = tcp_seq isV6 pkt.
Proof.
  intros Hb Hk H. unfold tcp_candidate in H. unfold maxUint16, tcpFlagsOffset in H.
  destruct (Z.ltb_spec 65535 (len pkt)) as [|Hmax]; [done|].
  destruct (length_field_ok pkt isV6) eqn:Elf; cbn [negb] in H; [|done].
  destruct (len pkt <? ip_header_len pkt isV6) eqn:E1; [done|].
  destruct ((u8 (Z.shiftr (at_ pkt (ip_header_len pkt isV6 + 12)) 4 * 4) <? 20) || _) eqn:E2; [done|].
  apply orb_false_iff in E2 as [E2%Z.ltb_ge E2'%Z.ltb_ge].
  destruct (Z.ltb_spec (len pkt) (ip_header_len pkt isV6 + u8 (Z.shiftr (at_ pkt (ip_header_len pkt isV6 + 12)) 4 * 4))) as [|E3]; [done|].
  destruct (fragmented pkt isV6) eqn:Ef; [done|].
  destruct (negb (at_ pkt (ip_header_len pkt isV6 + 13) =? tcpFlagACK) && _) eqn:Eg; [done|].
  destruct Hk as [Hk|[-> Hf]]; [|congruence]. rewrite (ip_header_len_kind _ _ _ Hk) in *.
  pose proof (shiftr4_times4 _ (at_byte pkt (ip_len isV6 + 12) Hb)) as Hsh.
  rewrite (u8_small (Z.shiftr (at_ pkt (ip_len isV6 + 12)) 4 * 4)) in * by lia.
  set (th := Z.shiftr (at_ pkt (ip_len isV6 + 12)) 4 * 4) in *. pose proof (ip_len_cases isV6).
  assert (u16 (len pkt - th - ip_len isV6) = len pkt - th - ip_len isV6) as Hu by (unfold u16; rewrite Z.mod_small; lia).
  rewrite Hu in H. destruct (Z.ltb_spec (len pkt - th - ip_len isV6) 1); [done|]. simplify_eq. split; [|done].
  split; [done|done|done|lia| |unfold maxUint16; lia].
  destruct (Z.eqb_spec (at_ pkt (ip_len isV6 + 13)) tcpFlagACK); [by left|]. cbn [negb andb] in Eg.
  right. apply negb_false_iff, Z.eqb_eq in Eg. exact Eg.
Qed.
Lemma udp_candidate_shape isV6 pkt iphLen gso : bytes_ok pkt ->
  (ip_kind isV6 IPPROTO_UDP pkt \/ isV6 = false /\ fragmented pkt false = true) ->
  udp_candidate pkt isV6 = Some (iphLen, gso) ->
  udp_shape isV6 pkt /\ length_field_ok pkt isV6 = true /\ iphLen = ip_len isV6 /\ gso = len pkt - udphLen - ip_len isV6.
Proof.
  intros Hb Hk H. unfold udp_candidate in H. unfold maxUint16, udphLen in *.
  destruct (Z.ltb_spec 65535 (len pkt)) as [|Hmax]; [done|].
  destruct (length_field_ok pkt isV6) eqn:Elf; cbn [negb] in H; [|done].
  destruct (len pkt <? ip_header_len pkt isV6) eqn:E1; [done|].
  destruct (Z.ltb_spec (len pkt) (ip_header_len pkt isV6 + 8)) as [|E3]; [done|].
  destruct (fragmented pkt isV6) eqn:Ef; [done|].
  destruct Hk as [Hk|[-> Hf]]; [|congruence]. rewrite (ip_header_len_kind _ _ _ Hk) in *. pose proof (ip_len_cases isV6).
  assert (u16 (len pkt - 8 - ip_len isV6) = len pkt - 8 - ip_len isV6) as Hu by (unfold u16; rewrite Z.mod_small; lia).
  rewrite Hu in H. destruct (Z.ltb_spec (len pkt - 8 - ip_len isV6) 1); [done|]. simplify_eq. split; [|done].
  split; [done|done|]. unfold maxUint16, udphLen. lia.
Qed.

(** ** Packets with the same flow *)

(** What the content of a packet reads of its headers, but for the lengths, the
    sequence number and the flags. *)
Record flow_agree (isV6 tcp : bool) (p q : list Z) : Prop := {
  fa_ip : if isV6 then range 0 4 p = range 0 4 q /\ range 6 8 p = range 6 8 q
          else range 0 2 p = range 0 2 q /\ range 6 10 p = range 6 10 q;
  fa_addrs : range (src_at isV6) (src_at isV6 + addr_len isV6 * 2) p = range (src_at isV6) (src_at isV6 + addr_len isV6 * 2) q;
  fa_ports : range (ip_len isV6) (ip_len isV6 + 4) p = range (ip_len isV6) (ip_len isV6 + 4) q;
  fa_ack : tcp = true -> range (ip_len isV6 + 8) (ip_len isV6 + 13) p = range (ip_len isV6 + 8) (ip_len isV6 + 13) q }.

Lemma at_of_range i j k p q : range i j p = range i j q -> 0 <= i <= k -> k < j -> k < len p -> k < len q ->
  at_ p k = at_ q k.
Proof.
  intros H ? ? Hp Hq. pose proof (range_sub i j k (k + 1) _ _ H ltac:(lia) ltac:(lia) ltac:(lia) ltac:(lia)) as Hr.
  rewrite !at_range in Hr by lia. unfold at_, len in *.
  destruct (lookup_lt_is_Some_2 p (Z.to_nat k) ltac:(lia)) as [x Hx].
  destruct (lookup_lt_is_Some_2 q (Z.to_nat k) ltac:(lia)) as [y Hy].
  rewrite Hx, Hy in Hr. rewrite !list_lookup_total_alt, Hx, Hy. by simplify_eq.
Qed.
Lemma agree_kind isV6 tcp p q proto : flow_agree isV6 tcp p q -> 10 <= len p -> 10 <= len q ->
  ip_kind isV6 proto q -> ip_kind isV6 proto p.
Proof.
  intros [Hi _ _ _] Hp Hq. unfold ip_kind, fragmented. destruct isV6; destruct Hi as [H1 H2].
  - rewrite (at_of_range 0 4 0 _ _ H1), (at_of_range 6 8 6 _ _ H2) by lia. done.
  - rewrite (at_of_range 0 2 0 _ _ H1), (at_of_range 6 10 6 _ _ H2), (at_of_range 6 10 7 _ _ H2), (at_of_range 6 10 9 _ _ H2) by lia. done.
Qed.
Lemma agree_tcp_key isV6 p q : flow_agree isV6 true p q -> tcp_key isV6 p = tcp_key isV6 q.
Proof.
  intros [_ Ha Hp Hk]. specialize (Hk eq_refl). destruct (src_range isV6). pose proof (ip_len_cases isV6).
  unfold tcp_key, newTCPFlowKey, get16, get32.
  rewrite (range_sub _ _ (src_at isV6) (src_at isV6 + addr_len isV6) _ _ Ha) by lia.
  rewrite (range_sub _ _ (src_at isV6 + addr_len isV6) (src_at isV6 + addr_len isV6 + (src_at isV6 + addr_len isV6 - src_at isV6)) _ _ Ha) by lia.
  rewrite (range_sub _ _ (ip_len isV6) (ip_len isV6 + 2) _ _ Hp), (range_sub _ _ (ip_len isV6 + 2) (ip_len isV6 + 2 + 2) _ _ Hp) by lia.
  by rewrite (range_sub _ _ (ip_len isV6 + 8) (ip_len isV6 + 8 + 4) _ _ Hk) by lia.
Qed.
Lemma agree_udp_key isV6 tcp p q : flow_agree isV6 tcp p q -> udp_key isV6 p = udp_key isV6 q.
Proof.
  intros [_ Ha Hp _]. destruct (src_range isV6). pose proof (ip_len_cases isV6).
  unfold udp_key, newUDPFlowKey, get16.
  rewrite (range_sub _ _ (src_at isV6) (src_at isV6 + addr_len isV6) _ _ Ha) by lia.
  rewrite (range_sub _ _ (src_at isV6 + addr_len isV6) (src_at isV6 + addr_len isV6 + (src_at isV6 + addr_len isV6 - src_at isV6)) _ _ Ha) by lia.
  by rewrite (range_sub _ _ (ip_len isV6) (ip_len isV6 + 2) _ _ Hp), (range_sub _ _ (ip_len isV6 + 2) (ip_len isV6 + 2 + 2) _ _ Hp) by lia.
Qed.
Lemma agree_tcp_shape isV6 tcphLen p q : flow_agree isV6 true p q -> tcp_shape isV6 tcphLen q -> bytes_ok p ->
  ip_len isV6 + tcphLen < len p <= maxUint16 ->
  at_ p (ip_len isV6 + 13) = tcpFlagACK \/ at_ p (ip_len isV6 + 13) = Z.lor tcpFlagACK tcpFlagPSH ->
  tcp_shape isV6 tcphLen p.
Proof.
  intros Ha [Hb Hk Ht Hbd Hf Hl] Hbp Hlp Hfp. pose proof (ip_len_cases isV6). split; [done| |..|done|done|done].
  - eapply agree_kind; [exact Ha|lia|lia|done].
  - rewrite <- Ht. pose proof (fa_ack _ _ _ _ Ha eq_refl) as H12.
    by rewrite (at_of_range _ _ (ip_len isV6 + 12) _ _ H12) by lia.
Qed.
Lemma agree_udp_shape isV6 p q : flow_agree isV6 false p q -> udp_shape isV6 q -> bytes_ok p ->
  ip_len isV6 + udphLen < len p <= maxUint16 -> udp_shape isV6 p.
Proof.
  intros Ha [Hb Hk Hl] Hbp Hlp. pose proof (ip_len_cases isV6). unfold udphLen in *. split; [done| |done].
  eapply agree_kind; [exact Ha|lia|lia|done].
Qed.

Lemma agree_refl isV6 tcp p : flow_agree isV6 tcp p p.
Proof. by split; [destruct isV6|..]. Qed.
Lemma agree_trans isV6 tcp p q r : flow_agree isV6 tcp p q -> flow_agree isV6 tcp q r -> flow_agree isV6 tcp p r.
Proof.
  intros [H1 H2 H3 H4] [K1 K2 K3 K4]. split; [destruct isV6; destruct H1, K1; split; congruence|congruence..|].
  intros Ht. rewrite H4, K4; done.
Qed.
(** Enough: every range that is read is the same. *)
Lemma agree_ranges (isV6 tcp : bool) p q :
  (forall i j, 0 <= i -> (if isV6 then j <= 4 \/ 6 <= i else j <= 2 \/ 6 <= i /\ j <= 10 \/ 12 <= i) ->
    (j <= ip_len isV6 + 4 \/ tcp = true /\ ip_len isV6 + 8 <= i /\ j <= ip_len isV6 + 13) -> range i j p = range i j q) ->
  flow_agree isV6 tcp p q.
Proof.
  intros H. split.
  - destruct isV6; split; apply H; cbn; lia.
  - apply H; destruct isV6; cbn; unfold ipv4SrcAddrOffset, ipv6SrcAddrOffset; lia.
  - apply H; destruct isV6; cbn; lia.
  - intros ->. apply H; [destruct isV6; cbn; lia..|]. right. split_and!; [done|lia..].
Qed.
Lemma agree_app (isV6 tcp : bool) p x : ip_len isV6 + (if tcp then 20 else 8) <= len p -> flow_agree isV6 tcp (p ++ x) p.
Proof.
  intros Hl. apply agree_ranges. intros i j Hi _ Ho. apply range_app_l; [done|].
  destruct Ho as [Ho|(-> & _ & Ho)]; [destruct tcp; lia|lia].
Qed.
Lemma agree_put16 (isV6 tcp : bool) k v p : 0 <= k -> k + 2 <= len p ->
  (k = (if isV6 then 4 else 2) \/ isV6 = false /\ k = 10 \/ k = ip_len isV6 + 4 /\ tcp = false \/
   k = ip_len isV6 + 6 /\ tcp = false \/ k = ip_len isV6 + 16) ->
  flow_agree isV6 tcp (put16 k v p) p.
Proof.
  intros Hk Hl Hc. apply agree_ranges. intros i j Hi H1 H2. pose proof (ip_len_cases isV6). apply range_put16; [done|done| |done].
  destruct isV6, tcp; cbn in *; destruct Hc as [->|[[? ->]|[[-> ?]|[[-> ?]| ->]]]]; try done; lia.
Qed.
Lemma agree_psh isV6 p : ip_len isV6 + 14 <= len p -> flow_agree isV6 true (set_psh (ip_len isV6 + 13) p) p.
Proof.
  intros Hl. apply agree_ranges. intros i j Hi H1 H2. pose proof (ip_len_cases isV6). unfold set_psh.
  apply range_copy_other; change (len [_]) with 1; lia.
Qed.
Lemma agree_sent_alone `{NativeEndian} inp hdr isV6 k p last s : h_csumStart hdr = ip_len isV6 ->
  sent_alone inp hdr isV6 k p last s -> flow_agree isV6 (is_tcp_gso hdr) s inp.
Proof.
  intros Hc [_ _ _ _ Hi Ha Hp Ht]. rewrite Hc in *. split; [|done|done|].
  - destruct isV6; [by destruct Hi|]. by destruct Hi as (_ & _ & _ & ?).
  - intros E. rewrite E in Ht. by destruct Ht as (_ & ? & _).
Qed.
