(* ===== verification/GROInv.v ===== *)
(** * Receive offload: the invariant of a batch

    Every packet to be written is either plain or belongs to one item of the
    tables, and together they carry what the packets taken so far carried. *)
From stdpp Require Import functions.
From S2P Require Import Prelude GoNet GoBytes Checksum Offload GRO OffloadProofs GROProofs.
Open Scope Z_scope.

(** ** Items of both tables *)
Inductive item := Tcp (it : tcpGROItem) | Udp (it : udpGROItem).
Definition idx (x : item) : nat := match x with Tcp it => ti_bufsIndex it | Udp it => ui_bufsIndex it end.
Definition merged (x : item) : Z := match x with Tcp it => ti_numMerged it | Udp it => ui_numMerged it end.

(** The pieces of [n] bytes of a payload, the last one shorter. *)
Fixpoint pieces (fuel : nat) (n : Z) (l : list Z) : list (list Z) :=
  match fuel, l with O, _ | _, [] => [] | S f, _ => range 0 n l :: pieces f n (from n l) end.
Definition chunks (n : Z) (l : list Z) : list (list Z) := pieces (length l) n l.

(** [n] merges of [gso] bytes and a last part. *)
Definition payload_len (n gso l : Z) : Prop := exists tail, 0 < tail <= gso /\ l = n * gso + tail.
Definition tcp_ok (pkt : list Z) (it : tcpGROItem) : Prop :=
  let v6 := tk_isV6 (ti_key it) in
  tcp_shape v6 (ti_tcphLen it) pkt /\ ti_iphLen it = ip_len v6 /\ ti_key it = tcp_key v6 pkt /\
  ti_sentSeq it = tcp_seq v6 pkt /\ 0 < ti_gsoSize it <= 65535 /\ 0 <= ti_numMerged it /\
  payload_len (ti_numMerged it) (ti_gsoSize it) (len pkt - (ip_len v6 + ti_tcphLen it)) /\
  (ti_numMerged it = 0 -> length_field_ok pkt v6 = true).
Definition udp_ok (pkt : list Z) (it : udpGROItem) : Prop :=
  let v6 := uk_isV6 (ui_key it) in
  udp_shape v6 pkt /\ ui_iphLen it = ip_len v6 /\ ui_key it = udp_key v6 pkt /\
  0 < ui_gsoSize it <= 65535 /\ 0 <= ui_numMerged it /\
  payload_len (ui_numMerged it) (ui_gsoSize it) (len pkt - (ip_len v6 + udphLen)) /\
  (ui_numMerged it = 0 -> length_field_ok pkt v6 = true).
Definition item_ok (pkt : list Z) (x : item) : Prop := match x with Tcp it => tcp_ok pkt it | Udp it => udp_ok pkt it end.
Definition item_data (pkt : list Z) (x : item) : list datum :=
  match x with
  | Tcp it => tcp_data (ti_key it) (ti_sentSeq it) (from (ti_iphLen it + ti_tcphLen it) pkt)
  | Udp it => map (UdpDatagram (ui_key it)) (chunks (ui_gsoSize it) (from (ui_iphLen it + udphLen) pkt))
  end.

Lemma tcp_key_v6 isV6 pkt : tk_isV6 (tcp_key isV6 pkt) = isV6.
Proof. by destruct isV6. Qed.
Lemma udp_key_v6 isV6 pkt : uk_isV6 (udp_key isV6 pkt) = isV6.
Proof. by destruct isV6. Qed.

Lemma pieces_fuel f f' n l : 0 < n -> (length l <= f)%nat -> (length l <= f')%nat -> pieces f n l = pieces f' n l.
Proof.
  intros Hn. revert f' l. induction f as [|f IH]; intros [|f'] l H H'; destruct l as [|x l]; try done; cbn in H, H'; [lia..|].
  cbn [pieces]. f_equal. apply IH; unfold from; rewrite length_drop; cbn; lia.
Qed.
Lemma chunks_cons n l : 0 < n -> l <> [] -> chunks n l = range 0 n l :: chunks n (from n l).
Proof.
  intros Hn Hl. unfold chunks. destruct l as [|x l]; [done|]. cbn [length pieces]. f_equal.
  apply pieces_fuel; [done| |done]. unfold from. rewrite length_drop. cbn. lia.
Qed.
Lemma chunks_one n l : 0 < len l <= n -> chunks n l = [l].
Proof.
  intros Hl. rewrite chunks_cons; [|lia|intros ->; unfold len in Hl; cbn in Hl; lia].
  rewrite from_all by lia. rewrite range_min, Z.min_r by lia. by rewrite range_full.
Qed.
Lemma chunks_app n m a b : 0 < n -> 0 <= m -> len a = m * n -> 0 < len b <= n -> chunks n (a ++ b) = chunks n a ++ [b].
Proof.
  intros Hn Hm. revert a. pattern m. apply Z_lt_induction; [|done]. clear m Hm. intros m IH a Ha Hb.
  destruct (decide (a = [])) as [->|Hne]; [cbn [app]; by apply chunks_one|].
  assert (0 < len a) by (destruct a; [done|unfold len; cbn; lia]). assert (1 <= m) by nia. assert (n <= len a) by nia.
  rewrite (chunks_cons n (a ++ b)), (chunks_cons n a) by (try done; by destruct a). cbn [app]. f_equal.
  - by rewrite range_app_l by lia.
  - assert (from n (a ++ b) = from n a ++ b) as ->.
    { unfold from, len in *. by rewrite drop_app_le by lia. }
    apply (IH (m - 1)); [nia|rewrite len_from by lia; nia|done].
Qed.
Lemma chunks_lookup n l k c : 0 < n -> chunks n l !! k = Some c <-> n * Z.of_nat k < len l /\ c = range 0 n (from (n * Z.of_nat k) l).
Proof.
  intros Hn. revert l c. induction k as [|k IH]; intros l c.
  - destruct (decide (l = [])) as [->|Hne]; [cbn; unfold len; cbn; split; [done|lia]|].
    rewrite chunks_cons by done. cbn. rewrite Z.mul_0_r, from_0. assert (0 < len l) by (destruct l; [done|unfold len; cbn; lia]).
    split; [intros [= <-]; done|by intros [_ ->]].
  - destruct (decide (l = [])) as [->|Hne]; [cbn; unfold len; cbn; split; [done|lia]|].
    rewrite chunks_cons by done. cbn [lookup list_lookup]. rewrite IH, len_from_max, from_from by lia.
    replace (n + n * Z.of_nat k) with (n * Z.of_nat (S k)) by lia. split; (intros [? ->]; split; [lia|done]).
Qed.

(** ** The invariant *)
Section batch.
Context {E : NativeEndian} (udp : bool) (offset M : Z) (bufs0 : list Buf).

Definition wf_buf (b : Buf) : Prop :=
  bytes_ok (b_data b) /\ offset < len (b_data b) <= b_cap b /\ b_cap b <= M.
Definition cleared (b : Buf) : Prop := range (offset - virtioNetHdrLen) offset (b_data b) = replicate 10 0.
Definition input (j : nat) : list datum := content udp (packet bufs0 offset j).

Record Core (i : nat) (bufs : list Buf) (tw : list nat) (I : list item) (G : nat -> list datum) : Prop := {
  c_len : length bufs = length bufs0;
  c_wf : Forall wf_buf bufs;
  c_rest : forall j, (i <= j)%nat -> bufs !! j = bufs0 !! j;
  c_nodup : NoDup tw;
  c_lt : forall w, w ∈ tw -> (w < i)%nat /\ (w < length bufs)%nat;
  c_sum : concat (map G tw) ≡ₚ concat (map input (seq 0 i));
  c_own : NoDup (map idx I) /\ (forall x, x ∈ I -> idx x ∈ tw);
  c_items : forall x, x ∈ I -> item_ok (packet bufs offset (idx x)) x /\ merged x + 1 <= Z.of_nat i /\
    G (idx x) = item_data (packet bufs offset (idx x)) x;
  c_plain : forall w, w ∈ tw -> (forall x, x ∈ I -> idx x <> w) ->
    cleared (bufs !!! w) /\ G w = content udp (packet bufs offset w) }.

Lemma core_perm i bufs tw I I' G : I ≡ₚ I' -> Core i bufs tw I G -> Core i bufs tw I' G.
Proof.
  intros HI []. split; try done.
  - rewrite <- HI. destruct c_own0 as [? Ho]. split; [done|]. intros x Hx. apply Ho. by rewrite HI.
  - intros x Hx. apply c_items0. by rewrite HI.
  - intros w Hw Hn. apply c_plain0; [done|]. intros x Hx. apply Hn. by rewrite <- HI.
Qed.

Lemma packet_other bufs bufs' j : bufs' !! j = bufs !! j -> packet bufs' offset j = packet bufs offset j.
Proof. intros H. unfold packet. by rewrite !list_lookup_total_alt, H. Qed.
Lemma total_other (bufs bufs' : list Buf) j : bufs' !! j = bufs !! j -> bufs' !!! j = bufs !!! j.
Proof. intros H. by rewrite !list_lookup_total_alt, H. Qed.
Lemma map_ext_tw (G G' : nat -> list datum) tw : (forall w, w ∈ tw -> G' w = G w) -> map G' tw = map G tw.
Proof. intros H. apply map_ext_in. intros w Hw. apply H. by apply list_elem_of_In. Qed.
Lemma concat_snoc (G : nat -> list datum) tw i : concat (map G (tw ++ [i])) = concat (map G tw) ++ G i.
Proof. rewrite map_app, concat_app. cbn. by rewrite app_nil_r. Qed.
Lemma sum_inputs i : concat (map input (seq 0 (S i))) = concat (map input (seq 0 i)) ++ input i.
Proof. rewrite seq_S. apply concat_snoc. Qed.

(** Clearing the header in front of a packet leaves the packet. *)
Lemma clear_hdr_buf bufs w : 10 <= offset -> (w < length bufs)%nat -> Forall wf_buf bufs ->
  let bufs' := clear_hdr offset w bufs in
  length bufs' = length bufs /\ Forall wf_buf bufs' /\ (forall j, j <> w -> bufs' !! j = bufs !! j) /\
  cleared (bufs' !!! w) /\ packet bufs' offset w = packet bufs offset w.
Proof.
  intros Ho Hw Hwf. cbn zeta. unfold clear_hdr. destruct (lookup_lt_is_Some_2 _ _ Hw) as [b Hb].
  pose proof (Forall_lookup_1 _ _ _ _ Hwf Hb) as (Hbytes & Hl & Hc). unfold virtioNetHdrLen.
  assert (copy_at (offset - 10) (replicate 10 0) (b_data b) = take (Z.to_nat (offset - 10)) (b_data b) ++ replicate 10 0 ++ from offset (b_data b)) as Hcp.
  { destruct (split_at (offset - 10) 10 (b_data b)) as (a & x & c & -> & Ha & Hx); [lia..|].
    rewrite <- Ha at 1. rewrite copy_at_mid by done. unfold len in Ha.
    rewrite take_app_le by lia. rewrite take_ge by lia. f_equal. f_equal. rewrite app_assoc, from_app_ge.
    - replace (offset - len (a ++ x)) with 0 by (rewrite len_app; unfold len; lia). by rewrite from_0.
    - rewrite len_app. unfold len. lia. }
  assert (len (take (Z.to_nat (offset - 10)) (b_data b)) = offset - 10) as Hlt by (unfold len in *; rewrite length_take; lia).
  split_and!.
  - apply length_alter.
  - apply Forall_alter; [done|]. intros b' Hb' _. rewrite Hb in Hb'. injection Hb' as <-.
    split_and!; cbn [b_data b_cap set_data]; rewrite ?len_copy_at; [|lia..]. apply bytes_copy_at; [|done]. by apply bytes_decide.
  - intros j Hj. by apply list_lookup_alter_ne.
  - unfold cleared. rewrite list_lookup_total_alter_eq, list_lookup_total_alt, Hb by done. cbn [default b_data set_data id]. unfold virtioNetHdrLen.
    rewrite Hcp. pose proof (range_mid (offset - 10) _ (replicate 10 0) (from offset (b_data b)) Hlt) as H. 
    change (len (replicate 10 0)) with 10 in H. by replace (offset - 10 + 10) with offset in H by lia.
  - unfold packet. rewrite list_lookup_total_alter_eq, list_lookup_total_alt, Hb by done. cbn [default b_data set_data id].
    rewrite Hcp, app_assoc, from_app_ge by (rewrite len_app; change (len (replicate 10 0)) with 10; lia).
    rewrite len_app, Hlt. change (len (replicate 10 0)) with 10. replace (offset - (offset - 10 + 10)) with 0 by lia. apply from_0.
Qed.

Lemma upd_other (G : nat -> list datum) i c w : w <> i -> <[i := c]> G w = G w.
Proof. intros. by apply fn_lookup_insert_ne. Qed.
Lemma upd_same (G : nat -> list datum) i c : <[i := c]> G i = c.
Proof. apply fn_lookup_insert. Qed.

(** A packet that is taken as it is. *)
Lemma core_noop i bufs tw I G : 10 <= offset -> (i < length bufs)%nat -> Core i bufs tw I G ->
  Core (S i) (clear_hdr offset i bufs) (tw ++ [i]) I (<[i := input i]> G).
Proof.
  intros Ho Hi []. destruct (clear_hdr_buf bufs i Ho Hi c_wf0) as (Hl & Hwf & Hoth & Hcl & Hpk).
  assert (forall w, w ∈ tw -> w <> i) as Hne by (intros w Hw; apply c_lt0 in Hw; lia).
  assert (packet bufs offset i = packet bufs0 offset i) as Hin by (apply packet_other, c_rest0; lia).
  split; [congruence|done| | | | | | |].
  - intros j Hj. rewrite Hoth by lia. apply c_rest0. lia.
  - apply NoDup_app. split; [done|]. split; [|apply NoDup_singleton]. intros w Hw Hwi%list_elem_of_singleton. by apply Hne in Hw.
  - intros w [Hw|Hw%list_elem_of_singleton]%elem_of_app; [|split; lia]. apply c_lt0 in Hw. lia.
  - rewrite concat_snoc, sum_inputs, upd_same, (map_ext_tw G) by (intros; by apply upd_other, Hne). by rewrite c_sum0.
  - destruct c_own0. split; [done|]. intros x Hx. apply elem_of_app. left. auto.
  - intros x Hx. pose proof (Hne _ (proj2 c_own0 x Hx)). rewrite upd_other, (packet_other bufs) by (try apply Hoth; done).
    destruct (c_items0 x Hx) as (? & ? & ?). split_and!; [done|lia|done].
  - intros w [Hw|Hw%list_elem_of_singleton]%elem_of_app Hn; [|subst w].
    + pose proof (Hne w Hw). rewrite upd_other, (packet_other bufs), (total_other bufs) by (try apply Hoth; done). auto.
    + rewrite upd_same, Hpk, Hin. done.
Qed.
(** A packet that becomes an item. *)
Lemma core_insert i bufs tw I G x : (i < length bufs)%nat -> Core i bufs tw I G ->
  idx x = i -> merged x = 0 -> item_ok (packet bufs offset i) x -> input i = item_data (packet bufs offset i) x ->
  Core (S i) bufs (tw ++ [i]) (x :: I) (<[i := input i]> G).
Proof.
  intros Hi [] Hx Hm Hok Hd. assert (forall w, w ∈ tw -> w <> i) as Hne by (intros w Hw; apply c_lt0 in Hw; lia).
  split; [done|done| | | | | | |].
  - intros j Hj. apply c_rest0. lia.
  - apply NoDup_app. split; [done|]. split; [|apply NoDup_singleton]. intros w Hw Hwi%list_elem_of_singleton. by apply Hne in Hw.
  - intros w [Hw|Hw%list_elem_of_singleton]%elem_of_app; [|split; lia]. apply c_lt0 in Hw. lia.
  - rewrite concat_snoc, sum_inputs, upd_same, (map_ext_tw G) by (intros; by apply upd_other, Hne). by rewrite c_sum0.
  - destruct c_own0 as [Hn Ho]. split.
    + cbn. constructor; [|done]. intros (y & Hy & Hin)%list_elem_of_fmap. apply Ho in Hin. apply Hne in Hin. congruence.
    + intros y [->|Hy]%elem_of_cons; apply elem_of_app; [right; rewrite Hx; by apply list_elem_of_singleton | left; auto].
  - intros y [->|Hy]%elem_of_cons.
    + rewrite Hx, upd_same. split_and!; [done|lia|done].
    + pose proof (Hne _ (proj2 c_own0 y Hy)). rewrite upd_other by done.
      destruct (c_items0 y Hy) as (? & ? & ?). split_and!; [done|lia|done].
  - intros w [Hw|Hw%list_elem_of_singleton]%elem_of_app Hn; [|subst w].
    + rewrite upd_other by by apply Hne. apply c_plain0; [done|]. intros y Hy. apply Hn. by right.
    + exfalso. apply (Hn x); [by left|done].
Qed.
(** An item that was found to be bad is a plain packet again. *)
Lemma core_delete i bufs tw I G x : 10 <= offset -> Core i bufs tw (x :: I) G ->
  item_data (packet bufs offset (idx x)) x = content udp (packet bufs offset (idx x)) ->
  Core i (clear_hdr offset (idx x) bufs) tw I G.
Proof.
  intros Ho [] Hd. destruct c_own0 as [Hn Hown]. cbn in Hn. apply NoDup_cons in Hn as [Hnx Hn].
  assert (idx x ∈ tw) as Hxt by (apply Hown; by left). destruct (c_lt0 _ Hxt) as [Hxi Hxl].
  destruct (clear_hdr_buf bufs (idx x) Ho Hxl c_wf0) as (Hl & Hwf & Hoth & Hcl & Hpk).
  assert (forall y, y ∈ I -> idx y <> idx x) as Hne.
  { intros y Hy Heq. apply Hnx. rewrite <- Heq. apply list_elem_of_fmap. eauto. }
  split; [congruence|done| |done| |done| | |].
  - intros j Hj. rewrite Hoth by lia. auto.
  - intros w Hw. apply c_lt0 in Hw. lia.
  - split; [done|]. intros y Hy. apply Hown. by right.
  - intros y Hy. rewrite (packet_other bufs) by by apply Hoth, Hne. apply c_items0. by right.
  - intros w Hw Hno. destruct (decide (w = idx x)) as [->|Hwx].
    + split; [done|]. rewrite Hpk. destruct (c_items0 x) as (_ & _ & ->); [by left|done].
    + rewrite (packet_other bufs), (total_other bufs) by by apply Hoth. apply c_plain0; [done|].
      intros y [->|Hy]%elem_of_cons; [congruence|by apply Hno].
Qed.
(** A packet that was merged into an item. *)
Lemma core_merge i bufs bufs' tw I G x x' : (i < length bufs)%nat -> Core i bufs tw (x :: I) G ->
  length bufs' = length bufs -> Forall wf_buf bufs' -> (forall j, j <> idx x -> j <> i -> bufs' !! j = bufs !! j) ->
  idx x' = idx x -> merged x' = merged x + 1 -> item_ok (packet bufs' offset (idx x)) x' ->
  item_data (packet bufs' offset (idx x)) x' ≡ₚ item_data (packet bufs offset (idx x)) x ++ input i ->
  Core (S i) bufs' tw (x' :: I) (<[idx x := item_data (packet bufs' offset (idx x)) x']> G).
Proof.
  intros Hi [] Hl Hwf Hoth Hix Hm Hok Hd. destruct c_own0 as [Hn Hown]. pose proof Hn as Hn0. cbn in Hn. apply NoDup_cons in Hn as [Hnx Hn].
  assert (idx x ∈ tw) as Hxt by (apply Hown; by left). destruct (c_lt0 _ Hxt) as [Hxi Hxl].
  assert (forall y, y ∈ I -> idx y <> idx x) as Hne.
  { intros y Hy Heq. apply Hnx. rewrite <- Heq. apply list_elem_of_fmap. eauto. }
  assert (forall w, w ∈ tw -> w <> i) as Hni by (intros w Hw; apply c_lt0 in Hw; lia).
  destruct (c_items0 x) as (Hxok & Hxm & HxG); [by left|].
  split; [congruence|done| |done| | | | |].
  - intros j Hj. rewrite Hoth by lia. apply c_rest0. lia.
  - intros w Hw. apply c_lt0 in Hw. lia.
  - rewrite sum_inputs, <- c_sum0. apply list_elem_of_split in Hxt as (l1 & l2 & ->).
    apply NoDup_app in c_nodup0 as (_ & H12 & [H2 _]%NoDup_cons).
    rewrite !map_app, !concat_app. cbn [map concat]. rewrite upd_same.
    rewrite !(map_ext_tw G (<[idx x := _]> G)).
    + rewrite Hd, HxG. solve_Permutation.
    + intros w Hw. apply upd_other. intros ->. done.
    + intros w Hw. apply upd_other. intros ->. apply (H12 (idx x)); [done|by left].
  - cbn. rewrite Hix. split; [exact Hn0|]. intros y [->|Hy]%elem_of_cons; [by rewrite Hix|apply Hown; by right].
  - intros y [->|Hy]%elem_of_cons.
    + rewrite Hix, upd_same, Hm. split_and!; [done|lia|done].
    + pose proof (Hne y Hy). assert (idx y ∈ tw) as Hyt by (apply Hown; by right).
      rewrite upd_other, (packet_other bufs) by (try apply Hoth; auto).
      destruct (c_items0 y) as (? & ? & ?); [by right|]. split_and!; [done|lia|done].
  - intros w Hw Hno. assert (w <> idx x) by (rewrite <- Hix; intros ->; by apply (Hno x'); [left|]).
    rewrite upd_other, (packet_other bufs), (total_other bufs) by (try apply Hoth; auto).
    apply c_plain0; [done|]. intros y [->|Hy]%elem_of_cons; [congruence|apply Hno; by right].
Qed.
End batch.
