(* ===== verification/GROSteps.v ===== *)
(** * Receive offload: every packet keeps the invariant *)
From stdpp Require Import functions.
From S2P Require Import Prelude GoNet GoBytes Checksum Offload GRO OffloadProofs GROProofs GROInv.
Open Scope Z_scope.

(** ** The tables as lists of items *)
Lemma table_items_lookup {K A} `{Countable K} (t : gmap K (list A)) k l : t !! k = Some l ->
  table_items t ≡ₚ l ++ table_items (delete k t).
Proof.
  intros Hl. unfold table_items. rewrite <- (insert_delete_id t k l Hl) at 1.
  rewrite map_to_list_insert by apply lookup_delete_eq. done.
Qed.
Lemma table_items_insert {K A} `{Countable K} (t : gmap K (list A)) k l :
  table_items (<[k := l]> t) ≡ₚ l ++ table_items (delete k t).
Proof. rewrite (table_items_lookup _ k l) by apply lookup_insert_eq. by rewrite delete_insert_eq. Qed.
Lemma table_items_app {K A} `{Countable K} (t : gmap K (list A)) k x :
  table_items (<[k := default [] (t !! k) ++ [x]]> t) ≡ₚ x :: table_items t.
Proof.
  rewrite table_items_insert. destruct (t !! k) as [l|] eqn:El; cbn [default].
  - rewrite (table_items_lookup t k l El). solve_Permutation.
  - rewrite delete_id by done. done.
Qed.
Lemma split_nth {A} (l : list A) n x : l !! n = Some x -> l = take n l ++ x :: drop (S n) l.
Proof. intros. by rewrite (take_drop_middle l n x). Qed.
Lemma table_items_nth {K A} `{Countable K} (t : gmap K (list A)) k l n x : t !! k = Some l -> l !! n = Some x ->
  table_items t ≡ₚ x :: table_items (<[k := take n l ++ drop (S n) l]> t).
Proof.
  intros Hl Hx. rewrite table_items_insert, (table_items_lookup t k l Hl). rewrite (split_nth l n x Hx) at 1. solve_Permutation.
Qed.
Lemma table_items_update {K A} `{Countable K} (t : gmap K (list A)) k l n x y : t !! k = Some l -> l !! n = Some x ->
  table_items (<[k := <[n := y]> l]> t) ≡ₚ y :: table_items (<[k := take n l ++ drop (S n) l]> t).
Proof.
  intros Hl Hx. rewrite !table_items_insert. rewrite insert_take_drop by by eapply lookup_lt_Some. solve_Permutation.
Qed.
Lemma table_items_elem {K A} `{Countable K} (t : gmap K (list A)) k l x : t !! k = Some l -> x ∈ l -> x ∈ table_items t.
Proof. intros Hl Hx. rewrite (table_items_lookup t k l Hl). apply elem_of_app. by left. Qed.

(** Every flow holds its own items. *)
Definition tkeyed (t : tcpGROTable) : Prop := forall k l, t !! k = Some l -> Forall (fun it => ti_key it = k) l.
Definition ukeyed (u : udpGROTable) : Prop := forall k l, u !! k = Some l -> Forall (fun it => ui_key it = k) l.
Lemma tkeyed_insert t k l : tkeyed t -> Forall (fun it => ti_key it = k) l -> tkeyed (<[k := l]> t).
Proof.
  intros Ht Hl k' l' Hk'. destruct (decide (k = k')) as [<-|Hne].
  - rewrite lookup_insert_eq in Hk'. by injection Hk' as <-.
  - rewrite lookup_insert_ne in Hk' by done. by apply (Ht k').
Qed.
Lemma ukeyed_insert u k l : ukeyed u -> Forall (fun it => ui_key it = k) l -> ukeyed (<[k := l]> u).
Proof.
  intros Ht Hl k' l' Hk'. destruct (decide (k = k')) as [<-|Hne].
  - rewrite lookup_insert_eq in Hk'. by injection Hk' as <-.
  - rewrite lookup_insert_ne in Hk' by done. by apply (Ht k').
Qed.

(** ** Merging two TCP packets *)
Lemma u16_id z : 0 <= z < 65536 -> u16 z = z.
Proof. intros. unfold u16. by rewrite Z.mod_small. Qed.
Lemma mul_bound n g l tail : 0 <= n -> 0 < g -> 0 < tail -> l = n * g + tail -> l <= 65535 -> n <= 65535 /\ n * g <= 65535.
Proof. intros. nia. Qed.

Lemma tcp_can_append pkt iphLen tcphLen seq psh gso it bufs offset :
  tcpPacketsCanCoalesce pkt iphLen tcphLen seq psh gso it bufs offset = coalesceAppend ->
  tcp_ok (packet bufs offset (ti_bufsIndex it)) it -> iphLen = ti_iphLen it ->
  tcphLen = ti_tcphLen it /\ gso <= ti_gsoSize it /\
  len (packet bufs offset (ti_bufsIndex it)) - (ti_iphLen it + ti_tcphLen it) = (ti_numMerged it + 1) * ti_gsoSize it /\
  seq = u32 (ti_sentSeq it + (ti_numMerged it + 1) * ti_gsoSize it).
Proof.
  intros Hc (Hsh & Hip & Hkey & Hseq & Hg & Hm & (tail & Ht & Hl) & _) ->. set (P := packet bufs offset (ti_bufsIndex it)) in *.
  unfold tcpPacketsCanCoalesce in Hc. fold P in Hc.
  destruct (Z.eqb_spec tcphLen (ti_tcphLen it)) as [->|]; cbn [negb] in Hc; [|done].
  destruct ((20 <? ti_tcphLen it) && _); [done|]. destruct (ipHeadersCanCoalesce pkt P); cbn [negb] in Hc; [|done].
  pose proof (tsh_len _ _ _ Hsh) as Hlen. pose proof (tsh_bounds _ _ _ Hsh) as Hbd. unfold maxUint16 in Hlen.
  pose proof (ip_len_cases (tk_isV6 (ti_key it))) as Hcs. rewrite Hip in *.
  destruct (mul_bound _ _ _ _ Hm (proj1 Hg) (proj1 Ht) Hl ltac:(lia)) as [Hm1 Hm2].
  assert (u8 (ip_len (tk_isV6 (ti_key it)) + ti_tcphLen it) = ip_len (tk_isV6 (ti_key it)) + ti_tcphLen it) as Hu8 by (apply u8_small; lia).
  destruct (Z.eqb_spec seq (u32 (ti_sentSeq it + u16 (ti_gsoSize it + u16 (ti_numMerged it * ti_gsoSize it))))) as [Hs|].
  - destruct (ti_pshSet it); [done|]. rewrite Hu8, len_from in Hc by lia.
    destruct (Z.eqb_spec ((len P - (ip_len (tk_isV6 (ti_key it)) + ti_tcphLen it)) mod ti_gsoSize it) 0) as [Hmod|]; cbn [negb] in Hc; [|done].
    destruct (Z.ltb_spec (ti_gsoSize it) gso); [done|]. rewrite Hl, Z.add_comm, Z_mod_plus_full in Hmod.
    assert (tail = ti_gsoSize it) as ->.
    { destruct (decide (tail = ti_gsoSize it)); [done|]. rewrite Z.mod_small in Hmod; lia. }
    split; [done|]. split; [lia|]. split; [lia|]. rewrite Hs, (u16_id (_ * _)), u16_id by lia. f_equal. lia.
  - repeat case_match; done.
Qed.
Lemma tcp_can_prepend pkt iphLen tcphLen seq psh gso it bufs offset :
  tcpPacketsCanCoalesce pkt iphLen tcphLen seq psh gso it bufs offset = coalescePrepend ->
  tcphLen = ti_tcphLen it /\ u32 (seq + gso) = ti_sentSeq it /\ ti_gsoSize it <= gso /\
  (ti_gsoSize it < gso -> ti_numMerged it <= 0).
Proof.
  intros Hc. unfold tcpPacketsCanCoalesce in Hc.
  destruct (Z.eqb_spec tcphLen (ti_tcphLen it)) as [->|]; cbn [negb] in Hc; [|done].
  destruct ((20 <? ti_tcphLen it) && _); [done|]. destruct (ipHeadersCanCoalesce pkt _); cbn [negb] in Hc; [|done].
  destruct (seq =? u32 _); [repeat case_match; done|].
  destruct (Z.eqb_spec (u32 (seq + gso)) (ti_sentSeq it)); [|done]. destruct psh; [done|].
  destruct (Z.ltb_spec gso (ti_gsoSize it)); [done|]. destruct ((ti_gsoSize it <? gso) && (0 <? ti_numMerged it)) eqn:Ea; [done|].
  apply andb_false_iff in Ea as [Ea%Z.ltb_ge|Ea%Z.ltb_ge]; split_and!; try done; lia.
Qed.

(** The head of an append: the packet, with PSH when the tail has it. *)
Definition head_psh (psh isV6 : bool) (p : list Z) : list Z := if psh then set_psh (ip_len isV6 + 13) p else p.
Lemma head_psh_ok psh isV6 tcphLen p : tcp_shape isV6 tcphLen p ->
  flow_agree isV6 true (head_psh psh isV6 p) p /\ len (head_psh psh isV6 p) = len p /\ bytes_ok (head_psh psh isV6 p) /\
  (at_ (head_psh psh isV6 p) (ip_len isV6 + 13) = tcpFlagACK \/
   at_ (head_psh psh isV6 p) (ip_len isV6 + 13) = Z.lor tcpFlagACK tcpFlagPSH) /\
  tcp_seq isV6 (head_psh psh isV6 p) = tcp_seq isV6 p /\
  from (ip_len isV6 + tcphLen) (head_psh psh isV6 p) = from (ip_len isV6 + tcphLen) p.
Proof.
  intros [Hb Hk Ht Hbd Hf Hl]. pose proof (ip_len_cases isV6). unfold head_psh. destruct psh; [|split_and!; try done; apply agree_refl].
  assert (len (set_psh (ip_len isV6 + 13) p) = len p) as Hlp by apply len_copy_at.
  assert (is_byte (Z.lor (at_ p (ip_len isV6 + 13)) tcpFlagPSH)) as Hby by (destruct Hf as [-> | ->]; by split).
  split_and!; [apply agree_psh; lia|done|apply bytes_copy_at; [by apply Forall_singleton|done]|..].
  - right. unfold set_psh. rewrite at_copy_same by lia. by destruct Hf as [-> | ->].
  - unfold tcp_seq, get32. apply (f_equal be_val). unfold set_psh. apply range_copy_other; change (len [_]) with 1; lia.
  - destruct (split_at (ip_len isV6 + 13) 1 p) as (a & x & c & -> & Ha & Hx); [lia..|]. unfold set_psh.
    rewrite <- Ha, copy_at_mid by done. rewrite !app_assoc. rewrite !from_app_ge by (rewrite ?len_app; unfold len in *; cbn; lia).
    f_equal. rewrite !len_app. unfold len. cbn. lia.
Qed.

Lemma tcp_seq_app isV6 p x : ip_len isV6 + 20 <= len p -> tcp_seq isV6 (p ++ x) = tcp_seq isV6 p.
Proof. intros. unfold tcp_seq, get32. pose proof (ip_len_cases isV6). by rewrite range_app_l by lia. Qed.
Lemma at_flags_app isV6 p x : ip_len isV6 + 20 <= len p -> at_ (p ++ x) (ip_len isV6 + 13) = at_ p (ip_len isV6 + 13).
Proof. intros. apply at_app_l. pose proof (ip_len_cases isV6). lia. Qed.
Lemma from_app_le i a b : 0 <= i <= len a -> from i (a ++ b) = from i a ++ b.
Proof. intros. unfold from, len in *. apply drop_app_le. lia. Qed.

(** A packet with payload appended keeps its shape and its flow. *)
Lemma tcp_shape_app isV6 tcphLen p q x : tcp_shape isV6 tcphLen p -> flow_agree isV6 true q p -> bytes_ok q -> bytes_ok x ->
  len q = len p -> len p + len x <= maxUint16 ->
  at_ q (ip_len isV6 + 13) = tcpFlagACK \/ at_ q (ip_len isV6 + 13) = Z.lor tcpFlagACK tcpFlagPSH ->
  tcp_shape isV6 tcphLen (q ++ x) /\ tcp_key isV6 (q ++ x) = tcp_key isV6 p.
Proof.
  intros Hs Ha Hbq Hbx Hl Hm Hf. pose proof (tsh_bounds _ _ _ Hs). pose proof (tsh_len _ _ _ Hs). pose proof (len_nonneg x).
  assert (flow_agree isV6 true (q ++ x) p) as Ha'.
  { eapply agree_trans; [apply agree_app; cbn; lia|done]. }
  split; [|by apply agree_tcp_key]. eapply agree_tcp_shape; [exact Ha'|done|by apply bytes_app|rewrite len_app; lia|].
  by rewrite at_flags_app by lia.
Qed.

Lemma merge_append_ok P it pkt psh b : tcp_ok P it -> let v6 := tk_isV6 (ti_key it) in let hl := ip_len v6 + ti_tcphLen it in
  tcp_shape v6 (ti_tcphLen it) pkt -> tcp_key v6 pkt = ti_key it -> len pkt - hl <= ti_gsoSize it ->
  len P - hl = (ti_numMerged it + 1) * ti_gsoSize it ->
  tcp_seq v6 pkt = u32 (ti_sentSeq it + (ti_numMerged it + 1) * ti_gsoSize it) -> len P + (len pkt - hl) <= maxUint16 ->
  let it' := tcp_merged (ti_sentSeq it) (len pkt - hl) b it in
  let P' := head_psh psh v6 P ++ from hl pkt in
  tcp_ok P' it' /\ ti_numMerged it' = ti_numMerged it + 1 /\
  item_data P' (Tcp it') = item_data P (Tcp it) ++ tcp_data (ti_key it) (tcp_seq v6 pkt) (from hl pkt).
Proof.
  intros (Hsh & Hip & Hkey & Hseq & Hg & Hm & (tail & Ht & Hl) & Hlf) v6 hl Hpk Hkk Hgso Hfull Hsq Htot it' P'.
  fold v6 in Hsh, Hip, Hkey, Hseq, Hl, Hlf. pose proof (tsh_bounds _ _ _ Hsh). pose proof (tsh_len _ _ _ Hsh). pose proof (tsh_len _ _ _ Hpk).
  unfold maxUint16 in *. fold hl in H0, H1, Hl. destruct (head_psh_ok psh v6 _ _ Hsh) as (Ha & Hlh & Hbh & Hf & Hs' & Hfr). fold hl in Hfr.
  pose proof (ip_len_cases v6). pose proof (len_nonneg pkt).
  assert (len (from hl pkt) = len pkt - hl) as Hlx by (apply len_from; lia).
  destruct (tcp_shape_app v6 (ti_tcphLen it) P (head_psh psh v6 P) (from hl pkt)) as [Hsh' Hkey']; try done.
  { apply bytes_from. by destruct Hpk. } { unfold maxUint16. lia. }
  destruct (mul_bound (ti_numMerged it) _ _ _ Hm (proj1 Hg) (proj1 Ht) Hl ltac:(lia)) as [Hm1 Hm2].
  assert (ti_numMerged it < 65535) as Hm3 by nia.
  assert (ti_gsoSize it' = ti_gsoSize it) as Eg by (subst it'; cbn; by rewrite (proj2 (Z.ltb_ge _ _)) by lia).
  assert (ti_numMerged it' = ti_numMerged it + 1) as Em by (subst it'; cbn; apply u16_id; lia).
  assert (tk_isV6 (ti_key it') = v6) as Ev by done.
  split; [|split; [done|]].
  - unfold tcp_ok. rewrite Ev, Eg, Em. cbn [ti_tcphLen ti_iphLen ti_key ti_sentSeq it' tcp_merged].
    split_and!; try done; try lia.
    + subst P'. by rewrite Hkey'.
    + subst P'. by rewrite tcp_seq_app, Hs' by lia.
    + exists (len pkt - hl). fold hl. subst P'. rewrite len_app, Hlx, Hlh. lia.
  - cbn [item_data ti_key ti_sentSeq ti_iphLen ti_tcphLen it' tcp_merged]. rewrite Hip. fold hl. subst P'.
    rewrite from_app_le, Hfr, tcp_data_app by lia. f_equal. apply tcp_data_mod.
    rewrite Hsq. rewrite len_from by lia. rewrite Hfull. unfold u32. by rewrite Z.mod_mod.
Qed.
Lemma merge_prepend_ok P it pkt b : tcp_ok P it -> let v6 := tk_isV6 (ti_key it) in let hl := ip_len v6 + ti_tcphLen it in
  tcp_shape v6 (ti_tcphLen it) pkt -> tcp_key v6 pkt = ti_key it -> ti_gsoSize it <= len pkt - hl ->
  (ti_gsoSize it < len pkt - hl -> ti_numMerged it <= 0) ->
  u32 (tcp_seq v6 pkt + (len pkt - hl)) = ti_sentSeq it -> len P + (len pkt - hl) <= maxUint16 ->
  let it' := tcp_merged (tcp_seq v6 pkt) (len pkt - hl) b it in
  let P' := pkt ++ from hl P in
  tcp_ok P' it' /\ ti_numMerged it' = ti_numMerged it + 1 /\
  item_data P' (Tcp it') = tcp_data (ti_key it) (tcp_seq v6 pkt) (from hl pkt) ++ item_data P (Tcp it).
Proof.
  intros (Hsh & Hip & Hkey & Hseq & Hg & Hm & (tail & Ht & Hl) & Hlf) v6 hl Hpk Hkk Hgso Hbig Hsq Htot it' P'.
  fold v6 in Hsh, Hip, Hkey, Hseq, Hl, Hlf. pose proof (tsh_bounds _ _ _ Hsh). pose proof (tsh_len _ _ _ Hsh). pose proof (tsh_len _ _ _ Hpk).
  unfold maxUint16 in *. fold hl in H0, H1, Hl. pose proof (ip_len_cases v6). pose proof (len_nonneg P).
  assert (len (from hl P) = len P - hl) as Hlx by (apply len_from; lia).
  destruct (tcp_shape_app v6 (ti_tcphLen it) pkt pkt (from hl P)) as [Hsh' Hkey']; try done.
  { apply agree_refl. } { by destruct Hpk. } { apply bytes_from. by destruct Hsh. } { unfold maxUint16. lia. } { by destruct Hpk. }
  destruct (mul_bound (ti_numMerged it) _ _ _ Hm (proj1 Hg) (proj1 Ht) Hl ltac:(lia)) as [Hm1 Hm2].
  assert (ti_numMerged it < 65535) as Hm3 by nia.
  assert (ti_gsoSize it' = len pkt - hl) as Eg.
  { subst it'; cbn. destruct (Z.ltb_spec (ti_gsoSize it) (len pkt - hl)); lia. }
  assert (ti_numMerged it' = ti_numMerged it + 1) as Em by (subst it'; cbn; apply u16_id; lia).
  assert (tk_isV6 (ti_key it') = v6) as Ev by done.
  split; [|split; [done|]].
  - unfold tcp_ok. rewrite Ev, Eg, Em. cbn [ti_tcphLen ti_iphLen ti_key ti_sentSeq it' tcp_merged].
    split_and!; try done; try lia.
    + subst P'. by rewrite Hkey', Hkk.
    + subst P'. by rewrite tcp_seq_app by lia.
    + exists tail. fold hl. subst P'. rewrite len_app, Hlx.
      destruct (decide (ti_gsoSize it = len pkt - hl)) as [He|Hne]; [rewrite <- He in *; lia|]. specialize (Hbig ltac:(lia)).
      assert (ti_numMerged it = 0) as Hz by lia. rewrite Hz in *. lia.
  - cbn [item_data ti_key ti_sentSeq ti_iphLen ti_tcphLen it' tcp_merged]. rewrite Hip. fold hl. subst P'.
    rewrite from_app_le, tcp_data_app by lia. f_equal. apply tcp_data_mod. rewrite len_from, <- Hsq by lia.
    unfold u32. by rewrite Z.mod_mod.
Qed.

(** ** Buffers *)
Lemma take_from_split o d : 0 <= o <= len d -> d = take (Z.to_nat o) d ++ from o d /\ len (take (Z.to_nat o) d) = o.
Proof. intros H. unfold from, len in *. rewrite take_drop, length_take. split; [done|lia]. Qed.
Lemma from_set_psh o k d : 0 <= o -> 0 <= k -> o + k < len d -> from o (set_psh (o + k) d) = set_psh k (from o d).
Proof.
  intros. destruct (take_from_split o d) as [Hd Hl]; [lia|]. set (a := take _ d) in *. set (p := from o d) in *.
  rewrite Hd. unfold set_psh. rewrite copy_at_app_r by lia. rewrite from_app_ge by lia.
  rewrite Hl, Z.sub_diag, from_0. replace (o + k - o) with k by lia. f_equal. f_equal.
  rewrite <- Hl at 1. by rewrite at_app_r by lia.
Qed.

Lemma lor_psh_byte b : is_byte b -> is_byte (Z.lor b tcpFlagPSH).
Proof.
  intros Hb. assert ((0 <=? Z.lor b tcpFlagPSH) && (Z.lor b tcpFlagPSH <? 256) = true) as H%andb_true_iff.
  { revert b Hb. apply (byte_forall _). by vm_compute. }
  destruct H as [H1%Z.leb_le H2%Z.ltb_lt]. by split.
Qed.

Section steps.
Context {E : NativeEndian} (udp : bool) (offset M : Z) (bufs0 : list Buf) (Hoff : 10 <= offset) (HM : M <= 65535).
Abbreviation Core := (Core udp offset M bufs0).

Lemma wf_lookup bufs j : Forall (wf_buf offset M) bufs -> (j < length bufs)%nat ->
  bytes_ok (b_data (bufs !!! j)) /\ offset < len (b_data (bufs !!! j)) <= b_cap (bufs !!! j) /\ b_cap (bufs !!! j) <= M /\
  len (packet bufs offset j) = len (b_data (bufs !!! j)) - offset /\ bytes_ok (packet bufs offset j).
Proof.
  intros Hwf Hj. destruct (lookup_lt_is_Some_2 _ _ Hj) as [b Hb]. pose proof (Forall_lookup_1 _ _ _ _ Hwf Hb) as (H1 & H2 & H3).
  unfold packet. rewrite list_lookup_total_alt, Hb. cbn. split; [done|]. split; [lia|]. split; [done|].
  split; [apply len_from; lia|by apply bytes_from].
Qed.
Lemma alter_wf bufs j d : Forall (wf_buf offset M) bufs -> (j < length bufs)%nat -> bytes_ok d ->
  offset < len d <= b_cap (bufs !!! j) ->
  let bufs' := alter (set_data d) j bufs in
  length bufs' = length bufs /\ Forall (wf_buf offset M) bufs' /\ (forall k, k <> j -> bufs' !! k = bufs !! k) /\
  packet bufs' offset j = from offset d.
Proof.
  intros Hwf Hj Hd Hl. cbn zeta. destruct (wf_lookup bufs j Hwf Hj) as (_ & _ & Hc & _). split_and!.
  - apply length_alter.
  - apply Forall_alter; [done|]. intros b Hb _. rewrite list_lookup_total_alt, Hb in Hl, Hc. cbn in Hl, Hc. by split; [|split].
  - intros k Hk. by apply list_lookup_alter_ne.
  - unfold packet. by rewrite list_lookup_total_alter_eq by done.
Qed.

Lemma core_item i bufs tw x R G : Core i bufs tw (x :: R) G ->
  item_ok (packet bufs offset (idx x)) x /\ (idx x < i)%nat /\ (idx x < length bufs)%nat /\ Forall (wf_buf offset M) bufs.
Proof.
  intros []. destruct (c_items x) as (? & _ & _); [by left|]. destruct (c_lt (idx x)); [|done].
  destruct c_own as [_ Ho]. apply Ho. by left.
Qed.

(** The packet at hand and an item of its flow. *)
Record tcp_pair (i : nat) (bufs : list Buf) (isV6 : bool) (tcphLen : Z) (it : tcpGROItem) : Prop := {
  tp_shape : tcp_shape isV6 tcphLen (packet bufs offset i);
  tp_input : input udp offset bufs0 i = tcp_data (tcp_key isV6 (packet bufs offset i)) (tcp_seq isV6 (packet bufs offset i))
    (from (ip_len isV6 + tcphLen) (packet bufs offset i));
  tp_key : ti_key it = tcp_key isV6 (packet bufs offset i) }.

Lemma tcp_append_core i bufs tw R G it isV6 tcphLen psh : (i < length bufs)%nat -> Core i bufs tw (Tcp it :: R) G ->
  tcp_pair i bufs isV6 tcphLen it ->
  let pkt := packet bufs offset i in let gso := len pkt - tcphLen - ip_len isV6 in
  tcpPacketsCanCoalesce pkt (ip_len isV6) tcphLen (tcp_seq isV6 pkt) psh gso it bufs offset = coalesceAppend ->
  forall it' bufs', coalesceTCPPackets coalesceAppend pkt i gso (tcp_seq isV6 pkt) psh it bufs offset isV6 = (coalesceSuccess, it', bufs') ->
  exists G', Core (S i) bufs' tw (Tcp it' :: R) G'.
Proof.
  intros Hi HC [Hsh Hin Hkey] pkt gso Hcan it' bufs' Hco. fold pkt in Hsh, Hin, Hkey.
  destruct (core_item _ _ _ _ _ _ HC) as (Hok & Hlt & Hidx & Hwf). cbn [item_ok idx] in Hok, Hlt, Hidx.
  assert (Hv : tk_isV6 (ti_key it) = isV6) by (rewrite Hkey; apply tcp_key_v6).
  pose proof Hok as (HshP & Hip & _). rewrite Hv in Hip, HshP.
  destruct (tcp_can_append _ _ _ _ _ _ _ _ _ Hcan Hok (eq_sym Hip)) as (-> & Hg & Hfull & Hseq).
  destruct (wf_lookup bufs _ Hwf Hidx) as (Hbd & Hcd & HcM & Hlp & _). set (P := packet bufs offset (ti_bufsIndex it)) in *.
  pose proof (tsh_bounds _ _ _ Hsh). pose proof (tsh_len _ _ _ Hsh). pose proof (tsh_len _ _ _ HshP). pose proof (ip_len_cases isV6).
  unfold coalesceTCPPackets in Hco. fold P in Hco. rewrite Hip in Hco.
  rewrite (u8_small (ip_len isV6 + ti_tcphLen it)) in Hco by lia. set (hl := ip_len isV6 + ti_tcphLen it) in *.
  destruct (Z.ltb_spec (b_cap (bufs !!! ti_bufsIndex it) - offset - offset) (len P + len pkt - hl)) as [|Hcap]; [done|].
  destruct (_ && _); [done|]. destruct (negb _); [done|]. injection Hco as <- <-. unfold gso in *.
  replace (len pkt - ti_tcphLen it - ip_len isV6) with (len pkt - hl) in * by lia.
  set (head := if psh then set_psh (offset + ip_len isV6 + tcpFlagsOffset) (b_data (bufs !!! ti_bufsIndex it)) else b_data (bufs !!! ti_bufsIndex it)).
  assert (len head = len (b_data (bufs !!! ti_bufsIndex it)) /\ from offset head = head_psh psh isV6 P /\ bytes_ok head) as (Hlh & Hfh & Hbh).
  { subst head. unfold head_psh. destruct psh; [|done]. split; [apply len_copy_at|]. rewrite <- Z.add_assoc.
    split; [rewrite from_set_psh by (unfold tcpFlagsOffset; lia); done|].
    apply bytes_copy_at; [|done]. apply Forall_singleton.
    apply lor_psh_byte, at_byte, Hbd. }
  destruct (alter_wf bufs (ti_bufsIndex it) (head ++ from hl pkt)) as (Hl' & Hwf' & Hoth & Hpk'); [done|done| | |].
  { apply bytes_app; [done|]. apply bytes_from. by destruct Hsh. } { rewrite len_app, Hlh, len_from by lia. lia. }
  rewrite from_app_le, Hfh in Hpk' by lia.
  destruct (merge_append_ok P it pkt psh (ti_pshSet it || psh) Hok) as (Hok' & Hm' & Hd'); rewrite ?Hv; fold hl; try done; try lia.
  { unfold maxUint16. lia. }
  rewrite Hv in Hok', Hd'. fold hl in Hok', Hm', Hd'. eexists.
  eapply (core_merge udp offset M bufs0 i bufs _ tw R G (Tcp it)); [done|exact HC|exact Hl'|exact Hwf'| |done|exact Hm'|..]; cbn [idx item_ok].
  - intros j Hj _. by apply Hoth.
  - rewrite Hpk'. exact Hok'.
  - rewrite Hpk'. fold P. rewrite Hd', Hin, Hkey. done.
Qed.

Lemma prepend_bufs bufs i j d : Forall (wf_buf offset M) bufs -> (i < length bufs)%nat -> (j < i)%nat -> bytes_ok d ->
  offset < len d <= b_cap (bufs !!! i) ->
  let bufs' := <[i := bufs !!! j]> (<[j := set_data d (bufs !!! i)]> bufs) in
  length bufs' = length bufs /\ Forall (wf_buf offset M) bufs' /\ (forall k, k <> j -> k <> i -> bufs' !! k = bufs !! k) /\
  packet bufs' offset j = from offset d.
Proof.
  intros Hwf Hi Hj Hd Hl. cbn zeta. destruct (wf_lookup bufs i Hwf Hi) as (_ & _ & Hc & _).
  assert (j < length bufs)%nat as Hjl by lia. destruct (wf_lookup bufs j Hwf Hjl) as (H1 & H2 & H3 & _). split_and!.
  - by rewrite !length_insert.
  - apply Forall_insert; [apply Forall_insert; [done|]|]; by split; [|split].
  - intros k Hk1 Hk2. by rewrite !list_lookup_insert_ne by done.
  - unfold packet. rewrite list_lookup_total_insert_ne by lia. by rewrite list_lookup_total_insert_eq by done.
Qed.

Lemma tcp_prepend_core i bufs tw R G it isV6 tcphLen psh : (i < length bufs)%nat -> Core i bufs tw (Tcp it :: R) G ->
  tcp_pair i bufs isV6 tcphLen it ->
  let pkt := packet bufs offset i in let gso := len pkt - tcphLen - ip_len isV6 in
  tcpPacketsCanCoalesce pkt (ip_len isV6) tcphLen (tcp_seq isV6 pkt) psh gso it bufs offset = coalescePrepend ->
  forall it' bufs', coalesceTCPPackets coalescePrepend pkt i gso (tcp_seq isV6 pkt) psh it bufs offset isV6 = (coalesceSuccess, it', bufs') ->
  exists G', Core (S i) bufs' tw (Tcp it' :: R) G'.
Proof.
  intros Hi HC [Hsh Hin Hkey] pkt gso Hcan it' bufs' Hco. fold pkt in Hsh, Hin, Hkey.
  destruct (core_item _ _ _ _ _ _ HC) as (Hok & Hlt & Hidx & Hwf). cbn [item_ok idx] in Hok, Hlt, Hidx.
  assert (Hv : tk_isV6 (ti_key it) = isV6) by (rewrite Hkey; apply tcp_key_v6).
  pose proof Hok as (HshP & Hip & _). rewrite Hv in Hip, HshP.
  destruct (tcp_can_prepend _ _ _ _ _ _ _ _ _ Hcan) as (-> & Hseq & Hg & Hbig).
  destruct (wf_lookup bufs _ Hwf Hidx) as (Hbd & Hcd & HcM & Hlp & _). set (P := packet bufs offset (ti_bufsIndex it)) in *.
  destruct (wf_lookup bufs _ Hwf Hi) as (Hbd2 & Hcd2 & HcM2 & Hlp2 & _). fold pkt in Hlp2.
  pose proof (tsh_bounds _ _ _ Hsh). pose proof (tsh_len _ _ _ Hsh). pose proof (tsh_len _ _ _ HshP). pose proof (ip_len_cases isV6).
  unfold coalesceTCPPackets in Hco. fold P in Hco. rewrite Hip in Hco.
  rewrite (u8_small (ip_len isV6 + ti_tcphLen it)) in Hco by lia. set (hl := ip_len isV6 + ti_tcphLen it) in *.
  destruct (Z.ltb_spec (b_cap (bufs !!! i) - offset - offset) (len P + len pkt - hl)) as [|Hcap]; [done|].
  destruct psh; [done|]. destruct (_ && _); [done|]. destruct (negb _); [done|]. injection Hco as <- <-. unfold gso in *.
  replace (len pkt - ti_tcphLen it - ip_len isV6) with (len pkt - hl) in * by lia.
  destruct (prepend_bufs bufs i (ti_bufsIndex it) (b_data (bufs !!! i) ++ from hl P)) as (Hl' & Hwf' & Hoth & Hpk'); [done|done|done| | |].
  { apply bytes_app; [done|]. apply bytes_from. by destruct HshP. } { rewrite len_app, len_from by lia. lia. }
  rewrite from_app_le in Hpk' by lia. change (from offset (b_data (bufs !!! i))) with pkt in Hpk'.
  destruct (merge_prepend_ok P it pkt (ti_pshSet it) Hok) as (Hok' & Hm' & Hd'); rewrite ?Hv; fold hl; try done; try lia.
  { unfold maxUint16. lia. }
  rewrite Hv in Hok', Hd', Hm'. fold hl in Hok', Hm', Hd'. eexists.
  eapply (core_merge udp offset M bufs0 i bufs _ tw R G (Tcp it)); [done|exact HC|exact Hl'|exact Hwf'|exact Hoth|done|exact Hm'|..]; cbn [idx item_ok].
  - rewrite Hpk'. exact Hok'.
  - rewrite Hpk'. fold P. rewrite Hd', Hin, Hkey. apply Permutation_app_comm.
Qed.

(** ** The search through the items of a flow *)
Abbreviation TcpI t := (map Tcp (table_items t)).

Lemma coalesce_tcp_fail mode pkt i gso seq psh it bufs isV6 r it' bufs' :
  coalesceTCPPackets mode pkt i gso seq psh it bufs offset isV6 = (r, it', bufs') -> r <> coalesceSuccess ->
  bufs' = bufs /\ (r = coalesceItemInvalidCSum -> ti_numMerged it = 0).
Proof.
  intros H Hr. unfold coalesceTCPPackets in H. set (bad := negb (checksumValid (packet bufs offset (ti_bufsIndex it)) _ _ _)) in H.
  assert (forall r0 it0 bufs0, (r0, it0, bufs0) = (r, it', bufs') -> r0 <> coalesceItemInvalidCSum -> bufs0 = bufs ->
    bufs' = bufs /\ (r = coalesceItemInvalidCSum -> ti_numMerged it = 0)) as Hout.
  { intros r0 it0 b0 [= <- <- <-] Hne ->. split; [done|]. intros ->. done. }
  destruct mode; (destruct (b_cap _ - _ - _ <? _); [by apply (Hout _ _ _ H)|]); [destruct psh; [by apply (Hout _ _ _ H)|]|..];
    (destruct ((ti_numMerged it =? 0) && bad) eqn:Eb;
      [injection H as <- <- <-; split; [done|]; intros _; apply andb_true_iff in Eb as [Eb _]; by apply Z.eqb_eq|]);
    (destruct (checksumValid pkt (ti_iphLen it) IPPROTO_TCP isV6); cbn [negb] in H; [|by apply (Hout _ _ _ H)]);
    by injection H as <- <- <-.
Qed.
Lemma tcp_items_nth i bufs tw (t : tcpGROTable) U G key cur n it : Core i bufs tw (TcpI t ++ U) G -> t !! key = Some cur -> cur !! n = Some it ->
  Core i bufs tw (Tcp it :: TcpI (<[key := take n cur ++ drop (S n) cur]> t) ++ U) G.
Proof.
  intros HC Hc Hn. eapply core_perm; [|exact HC]. by rewrite (table_items_nth t key cur n it Hc Hn).
Qed.
Lemma take_app_S {A} (a b : list A) n : take n (take n a ++ b) = take n a \/ (length a < n)%nat.
Proof.
  destruct (decide (length a < n)%nat); [by right|left]. rewrite take_app_le by (rewrite length_take; lia). rewrite take_take. f_equal. lia.
Qed.
Lemma Forall_delete_nth {A} (P : A -> Prop) l n : Forall P l -> Forall P (take n l ++ drop (S n) l).
Proof. intros H. apply Forall_app. split; [by apply Forall_take|by apply Forall_drop]. Qed.

Lemma coalesce_tcp_key mode pkt i gso seq psh it bufs isV6 it' bufs' :
  coalesceTCPPackets mode pkt i gso seq psh it bufs offset isV6 = (coalesceSuccess, it', bufs') -> ti_key it' = ti_key it.
Proof.
  intros H. unfold coalesceTCPPackets in H. destruct mode; (destruct (b_cap _ - _ - _ <? _); [done|]); [destruct psh; [done|]|..];
    (destruct ((ti_numMerged it =? 0) && _); [done|]);
    (destruct (checksumValid pkt (ti_iphLen it) IPPROTO_TCP isV6); cbn [negb] in H; [|done]); by injection H as <- <-.
Qed.
(** An item with a bad checksum leaves its table. *)
Lemma tcp_delete_ok i bufs tw t U G key cur n it : Core i bufs tw (TcpI t ++ U) G -> tkeyed t -> t !! key = Some cur ->
  cur !! n = Some it -> ti_key it = key -> ti_numMerged it = 0 ->
  let bufs' := clear_hdr offset (ti_bufsIndex it) bufs in let t' := <[key := take n cur ++ drop (S n) cur]> t in
  Core i bufs' tw (TcpI t' ++ U) G /\ tkeyed t' /\
  (forall j, (i <= j)%nat -> packet bufs' offset j = packet bufs offset j) /\ length bufs' = length bufs.
Proof.
  intros HC Ht Hcur Hn Hik Hm. cbn zeta. pose proof (tcp_items_nth _ _ _ _ _ _ _ _ _ _ HC Hcur Hn) as HC1.
  destruct (core_item _ _ _ _ _ _ HC1) as (Hok & Hlt & Hidx & Hwf). cbn [item_ok idx] in Hok, Hlt, Hidx.
  destruct (clear_hdr_buf offset M bufs (ti_bufsIndex it) Hoff Hidx Hwf) as (Hl & _ & Hoth & _).
  split_and!.
  - apply (core_delete udp offset M bufs0 i bufs tw _ G (Tcp it)); [done|done|]. cbn [idx item_data].
    destruct Hok as (Hsh & Hip & Hkey & Hseq & _ & _ & _ & Hlf).
    rewrite (tcp_shape_content udp _ _ _ Hsh (Hlf Hm)), <- Hkey, <- Hseq, Hip. done.
  - apply tkeyed_insert; [done|]. apply Forall_delete_nth. by apply (Ht key).
  - intros j Hj. apply packet_other, Hoth. lia.
  - done.
Qed.

Lemma tcp_try_ok n items i bufs t U tw G isV6 tcphLen psh key cur :
  let pkt := packet bufs offset i in
  (i < length bufs)%nat -> Core i bufs tw (TcpI t ++ U) G -> tkeyed t ->
  tcp_shape isV6 tcphLen pkt ->
  input udp offset bufs0 i = tcp_data (tcp_key isV6 pkt) (tcp_seq isV6 pkt) (from (ip_len isV6 + tcphLen) pkt) ->
  key = tcp_key isV6 pkt -> t !! key = Some cur -> take n cur = take n items ->
  match tcp_try n items pkt i (ip_len isV6) tcphLen psh (len pkt - tcphLen - ip_len isV6) (tcp_seq isV6 pkt) isV6 offset bufs t with
  | (Some groResultCoalesced, bufs', t') => exists G', Core (S i) bufs' tw (TcpI t' ++ U) G' /\ tkeyed t'
  | (Some groResultNoop, bufs', t') | (None, bufs', t') =>
      Core i bufs' tw (TcpI t' ++ U) G /\ tkeyed t' /\ packet bufs' offset i = pkt /\ length bufs' = length bufs
  | (Some groResultTableInsert, _, _) => False
  end.
Proof.
  intros pkt. revert bufs t cur pkt. induction n as [|n IH]; intros bufs t cur pkt Hi HC Ht Hsh Hin Hkey Hcur Htake.
  { cbn. done. }
  cbn [tcp_try]. assert (take n cur = take n items) as Htn.
  { apply (f_equal (take n)) in Htake. rewrite !take_take in Htake. by rewrite Nat.min_l in Htake by lia. }
  destruct (items !! n) as [it|] eqn:En; [|by apply (IH bufs t cur)].
  assert (cur !! n = Some it) as Hn.
  { rewrite <- (lookup_take_lt cur (S n)), Htake, lookup_take_lt by lia. done. }
  assert (ti_key it = key) as Hik by (pose proof (Ht _ _ Hcur) as Hf; by eapply Forall_lookup_1 in Hf).
  pose proof (tcp_items_nth _ _ _ _ _ _ _ _ _ _ HC Hcur Hn) as HC1.
  assert (tcp_pair i bufs isV6 tcphLen it) as Hpair by (split; [done|done|by rewrite Hik]).
  pose proof (tsh_bounds _ _ _ Hsh). pose proof (ip_len_cases isV6). rewrite !u8_small by lia.
  destruct (core_item _ _ _ _ _ _ HC1) as (Hok & Hlt & Hidx & Hwf). cbn [item_ok idx] in Hok, Hlt, Hidx.
  (* What each outcome of the merge leaves. *)
  assert (forall mode, mode <> coalesceUnavailable ->
    tcpPacketsCanCoalesce pkt (ip_len isV6) tcphLen (tcp_seq isV6 pkt) psh (len pkt - tcphLen - ip_len isV6) it bufs offset = mode ->
    match (let '(result, item', bufs) := coalesceTCPPackets mode pkt i (len pkt - tcphLen - ip_len isV6) (tcp_seq isV6 pkt) psh it bufs offset isV6 in
           match result with
           | coalesceSuccess => (Some groResultCoalesced, bufs, tcp_updateAt t item' n)
           | coalesceItemInvalidCSum =>
               tcp_try n items pkt i (ip_len isV6) tcphLen psh (len pkt - tcphLen - ip_len isV6) (tcp_seq isV6 pkt) isV6 offset
                 (clear_hdr offset (ti_bufsIndex it) bufs) (tcp_deleteAt t (ti_key it) n)
           | coalescePktInvalidCSum => (Some groResultNoop, bufs, t)
           | _ => tcp_try n items pkt i (ip_len isV6) tcphLen psh (len pkt - tcphLen - ip_len isV6) (tcp_seq isV6 pkt) isV6 offset bufs t
           end) with
    | (Some groResultCoalesced, bufs', t') => exists G', Core (S i) bufs' tw (TcpI t' ++ U) G' /\ tkeyed t'
    | (Some groResultNoop, bufs', t') | (None, bufs', t') =>
        Core i bufs' tw (TcpI t' ++ U) G /\ tkeyed t' /\ packet bufs' offset i = pkt /\ length bufs' = length bufs
    | (Some groResultTableInsert, _, _) => False
    end) as Hout.
  2: { destruct (tcpPacketsCanCoalesce pkt _ _ _ _ _ _ _ _) eqn:Ecan; [by apply Hout|by apply (IH bufs t cur)|by apply Hout]. }
  intros mode Hmode Hcan.
  destruct (coalesceTCPPackets mode pkt i _ _ psh it bufs offset isV6) as [[r it'] bufs'] eqn:Eco.
  destruct (decide (r = coalesceSuccess)) as [->|Hr].
  - assert (exists G', Core (S i) bufs' tw (Tcp it' :: TcpI (<[key := take n cur ++ drop (S n) cur]> t) ++ U) G' /\ ti_key it' = key) as (G' & HC' & Hk').
    { pose proof (coalesce_tcp_key _ _ _ _ _ _ _ _ _ _ _ Eco) as Hk'. rewrite Hik in Hk'. destruct mode; [..|done|].
      - destruct (tcp_prepend_core _ _ _ _ _ _ _ _ _ Hi HC1 Hpair Hcan _ _ Eco) as [G' HG]. eauto.
      - destruct (tcp_append_core _ _ _ _ _ _ _ _ _ Hi HC1 Hpair Hcan _ _ Eco) as [G' HG]. eauto. }
    exists G'. unfold tcp_updateAt. rewrite Hk', Hcur. cbn [default]. split.
    + eapply core_perm; [|exact HC']. by rewrite (table_items_update t key cur n it it' Hcur Hn).
    + apply tkeyed_insert; [done|]. apply Forall_insert; [by apply (Ht key)|done].
  - destruct (coalesce_tcp_fail _ _ _ _ _ _ _ _ _ _ _ _ Eco Hr) as [-> Hbad].
    destruct r; try done; try (by apply (IH bufs t cur)).
    destruct (tcp_delete_ok _ _ _ _ _ _ _ _ _ _ HC Ht Hcur Hn Hik (Hbad eq_refl)) as (HC2 & Ht2 & Hpk2 & Hlen2).
    unfold tcp_deleteAt. rewrite Hik, Hcur. cbn [default].
    pose proof (IH (clear_hdr offset (ti_bufsIndex it) bufs) (<[key := take n cur ++ drop (S n) cur]> t) (take n cur ++ drop (S n) cur)) as IH2.
    cbn zeta in IH2. rewrite (Hpk2 i), Hlen2 in IH2 by lia. fold pkt in IH2. apply IH2; try done.
    + apply lookup_insert_eq.
    + rewrite take_app_le by (rewrite length_take; apply lookup_lt_Some in Hn; lia). by rewrite take_take, Nat.min_id.
Qed.

(** ** A TCP packet *)
Lemma new_tcp_item_ok isV6 tcphLen pkt i : tcp_shape isV6 tcphLen pkt -> length_field_ok pkt isV6 = true ->
  let it := new_tcp_item pkt (src_at isV6) (src_at isV6 + addr_len isV6) (ip_len isV6) tcphLen i in
  tcp_ok pkt it /\ ti_key it = tcp_key isV6 pkt /\
  item_data pkt (Tcp it) = tcp_data (tcp_key isV6 pkt) (tcp_seq isV6 pkt) (from (ip_len isV6 + tcphLen) pkt).
Proof.
  intros Hsh Hl it. pose proof (tsh_bounds _ _ _ Hsh). pose proof (tsh_len _ _ _ Hsh). pose proof (ip_len_cases isV6). unfold maxUint16 in *.
  assert (len (from (ip_len isV6 + tcphLen) pkt) = len pkt - (ip_len isV6 + tcphLen)) as Hlf by (apply len_from; lia).
  assert (ti_key it = tcp_key isV6 pkt) as Hk by done.
  assert (ti_iphLen it = ip_len isV6) as Hip by (apply u8_small; lia). assert (ti_tcphLen it = tcphLen) as Hth by (apply u8_small; lia).
  assert (ti_gsoSize it = len pkt - (ip_len isV6 + tcphLen)) as Hg.
  { change (ti_gsoSize it) with (u16 (len (from (ip_len isV6 + tcphLen) pkt))). rewrite Hlf. apply u16_id. lia. }
  split; [|split; [done|]].
  - unfold tcp_ok. rewrite Hk, tcp_key_v6, Hip, Hth, Hg. split_and!; try done; try lia.
    exists (len pkt - (ip_len isV6 + tcphLen)). change (ti_numMerged it) with 0. lia.
  - cbn [item_data]. rewrite Hk, Hip, Hth. done.
Qed.
Lemma tcp_insert_core i bufs t U tw G isV6 tcphLen : (i < length bufs)%nat -> Core i bufs tw (TcpI t ++ U) G -> tkeyed t ->
  let pkt := packet bufs offset i in
  tcp_shape isV6 tcphLen pkt -> length_field_ok pkt isV6 = true -> input udp offset bufs0 i = content udp pkt ->
  let t' := tcp_insert t pkt (src_at isV6) (src_at isV6 + addr_len isV6) (ip_len isV6) tcphLen i in
  exists G', Core (S i) bufs (tw ++ [i]) (TcpI t' ++ U) G' /\ tkeyed t'.
Proof.
  intros Hi HC Ht pkt Hsh Hlf Hin t'. destruct (new_tcp_item_ok isV6 tcphLen pkt i Hsh Hlf) as (Hok & Hk & Hd).
  subst t'. unfold tcp_insert. set (it := new_tcp_item pkt _ _ _ _ _) in *. eexists. split.
  - eapply core_perm; [|eapply (core_insert udp offset M bufs0 i bufs tw (TcpI t ++ U) G (Tcp it)); [done|exact HC|done|done|exact Hok|]].
    + by rewrite table_items_app.
    + fold pkt. by rewrite Hd, Hin, (tcp_shape_content udp _ _ _ Hsh Hlf).
  - apply tkeyed_insert; [done|]. apply Forall_app. split; [|by apply Forall_singleton].
    destruct (t !! ti_key it) as [l|] eqn:El; [by apply (Ht (ti_key it))|done].
Qed.

Lemma bytes_packet bufs i : Forall (wf_buf offset M) bufs -> (i < length bufs)%nat -> bytes_ok (packet bufs offset i).
Proof. intros H Hi. by destruct (wf_lookup _ _ H Hi) as (_ & _ & _ & _ & ?). Qed.
Lemma input_packet i bufs tw I G : Core i bufs tw I G -> input udp offset bufs0 i = content udp (packet bufs offset i).
Proof. intros []. unfold input. by rewrite (packet_other offset bufs0 bufs i) by by apply c_rest. Qed.

Lemma tcpGRO_ok i bufs t U tw G (isV6 : bool) : (i < length bufs)%nat -> Core i bufs tw (TcpI t ++ U) G -> tkeyed t ->
  packetIsGROCandidate (packet bufs offset i) udp = (if isV6 then tcp6GROCandidate else tcp4GROCandidate) ->
  let '(r, bufs', t') := tcpGRO bufs offset i t isV6 in
  tkeyed t' /\ length bufs' = length bufs /\
  match r with
  | groResultNoop => Core i bufs' tw (TcpI t' ++ U) G
  | groResultTableInsert => exists G', Core (S i) bufs' (tw ++ [i]) (TcpI t' ++ U) G'
  | groResultCoalesced => exists G', Core (S i) bufs' tw (TcpI t' ++ U) G'
  end.
Proof.
  intros Hi HC Ht Hcand. unfold tcpGRO. pose proof (c_wf _ _ _ _ _ _ _ _ _ HC) as Hwf. pose proof (input_packet _ _ _ _ _ HC) as Hin.
  set (pkt := packet bufs offset i) in *. destruct (tcp_candidate pkt isV6) as [[[[[iphLen tcphLen] psh] gso] sq]|] eqn:Ec; [|by split_and!].
  destruct (tcp_candidate_shape isV6 pkt iphLen tcphLen psh gso sq) as (Hsh & Hlf & -> & _ & -> & ->); [by apply bytes_packet| |done|].
  { pose proof (candidate_kind udp pkt _ Hcand) as Hk. destruct isV6; [by left|]. destruct Hk; [by left|by right]. }
  unfold tcp_lookupOrInsert. fold (tcp_key isV6 pkt). destruct (t !! tcp_key isV6 pkt) as [items|] eqn:El.
  - pose proof (tcp_try_ok (length items) items i bufs t U tw G isV6 tcphLen psh (tcp_key isV6 pkt) items Hi HC Ht Hsh) as Htry.
    fold pkt in Htry. rewrite Hin, (tcp_shape_content udp _ _ _ Hsh Hlf) in Htry. specialize (Htry eq_refl eq_refl El eq_refl).
    destruct (tcp_try _ _ _ _ _ _ _ _ _ _ _ _ _) as [[[r|] bufs'] t'].
    + destruct r; [|done|].
      * destruct Htry as (? & ? & _ & ?). by split_and!.
      * destruct Htry as (G' & HC' & ?). split_and!; [done| |by exists G'].
        pose proof (c_len _ _ _ _ _ _ _ _ _ HC). pose proof (c_len _ _ _ _ _ _ _ _ _ HC'). congruence.
    + destruct Htry as (HC' & Ht' & Hp' & Hl'). rewrite <- Hp' in Hsh, Hlf, Hin |- *.
      destruct (tcp_insert_core i bufs' t' U tw G isV6 tcphLen) as (G' & HCi & Hti); [lia|done|done|done|done|done|].
      split_and!; [done|done|by exists G'].
  - destruct (tcp_insert_core i bufs t U tw G isV6 tcphLen Hi HC Ht Hsh Hlf Hin) as (G' & HCi & Hti). split_and!; [done|done|by exists G'].
Qed.

(** ** A UDP packet *)
Abbreviation UdpI u := (map Udp (table_items u)).

Lemma udp_can_append pkt iphLen gso it bufs :
  udpPacketsCanCoalesce pkt iphLen gso it bufs offset = coalesceAppend ->
  udp_ok (packet bufs offset (ui_bufsIndex it)) it -> iphLen = ui_iphLen it ->
  gso <= ui_gsoSize it /\
  len (packet bufs offset (ui_bufsIndex it)) - (ui_iphLen it + udphLen) = (ui_numMerged it + 1) * ui_gsoSize it.
Proof.
  intros Hc (Hsh & Hip & Hkey & Hg & Hm & (tail & Ht & Hl) & _) ->. set (P := packet bufs offset (ui_bufsIndex it)) in *.
  unfold udpPacketsCanCoalesce in Hc. fold P in Hc. destruct (ipHeadersCanCoalesce pkt P); cbn [negb] in Hc; [|done].
  pose proof (ush_len _ _ Hsh). pose proof (ip_len_cases (uk_isV6 (ui_key it))). rewrite Hip in *. unfold udphLen in *.
  rewrite u8_small, len_from in Hc by lia.
  destruct (Z.eqb_spec ((len P - (ip_len (uk_isV6 (ui_key it)) + 8)) mod ui_gsoSize it) 0) as [Hmod|]; cbn [negb] in Hc; [|done].
  destruct (Z.ltb_spec (ui_gsoSize it) gso); [done|]. rewrite Hl, Z.add_comm, Z_mod_plus_full in Hmod. split; [lia|].
  destruct (decide (tail = ui_gsoSize it)); [lia|]. rewrite Z.mod_small in Hmod; lia.
Qed.
Lemma merge_udp_ok P it pkt : udp_ok P it -> let v6 := uk_isV6 (ui_key it) in let hl := ip_len v6 + udphLen in
  udp_shape v6 pkt -> len pkt - hl <= ui_gsoSize it -> len P - hl = (ui_numMerged it + 1) * ui_gsoSize it ->
  len P + (len pkt - hl) <= maxUint16 ->
  let P' := P ++ from hl pkt in
  udp_ok P' (udp_merged it) /\ ui_numMerged (udp_merged it) = ui_numMerged it + 1 /\
  item_data P' (Udp (udp_merged it)) = item_data P (Udp it) ++ [UdpDatagram (ui_key it) (from hl pkt)].
Proof.
  intros (Hsh & Hip & Hkey & Hg & Hm & (tail & Ht & Hl) & Hlf) v6 hl Hpk Hgso Hfull Htot P'.
  fold v6 in Hsh, Hip, Hkey, Hl, Hlf. pose proof (ush_len _ _ Hsh). pose proof (ush_len _ _ Hpk). pose proof (ip_len_cases v6).
  fold hl in H, H0, Hl. unfold maxUint16, udphLen in *. assert (len (from hl pkt) = len pkt - hl) as Hlx by (apply len_from; lia).
  assert (flow_agree v6 false P' P) as Ha by (apply agree_app; cbn; lia).
  assert (udp_shape v6 P') as Hsh'.
  { eapply agree_udp_shape; [exact Ha|done|apply bytes_app; [by destruct Hsh|apply bytes_from; by destruct Hpk]|].
    unfold udphLen, maxUint16. subst P'. rewrite len_app. lia. }
  destruct (mul_bound (ui_numMerged it) _ _ _ Hm (proj1 Hg) (proj1 Ht) Hl ltac:(lia)) as [Hm1 Hm2].
  assert (ui_numMerged it < 65535) as Hm3 by nia.
  assert (ui_numMerged (udp_merged it) = ui_numMerged it + 1) as Em by (cbn; apply u16_id; lia).
  split; [|split; [done|]].
  - unfold udp_ok. rewrite Em. cbn [ui_key udp_merged ui_iphLen ui_gsoSize]. fold v6. split_and!; try done; try lia.
    + by rewrite (agree_udp_key _ _ _ _ Ha).
    + exists (len pkt - hl). unfold udphLen. fold hl. subst P'. rewrite len_app, Hlx. lia.
  - cbn [item_data ui_key udp_merged ui_iphLen ui_gsoSize]. rewrite Hip. unfold udphLen. fold hl. subst P'.
    rewrite from_app_le, (chunks_app _ (ui_numMerged it + 1)), map_app by (rewrite ?len_from; lia). done.
Qed.

Lemma udp_insert_core i bufs u T tw G isV6 b : (i < length bufs)%nat -> Core i bufs tw (T ++ UdpI u) G -> ukeyed u -> udp = true ->
  let pkt := packet bufs offset i in
  udp_shape isV6 pkt -> length_field_ok pkt isV6 = true ->
  let u' := udp_insert u pkt (src_at isV6) (src_at isV6 + addr_len isV6) (ip_len isV6) i b in
  exists G', Core (S i) bufs (tw ++ [i]) (T ++ UdpI u') G' /\ ukeyed u'.
Proof.
  intros Hi HC Ht Hu pkt Hsh Hlf u'. subst u'. unfold udp_insert. fold (udp_key isV6 pkt). set (it := mkUdpItem _ _ _ _ _ _).
  pose proof (ush_len _ _ Hsh). pose proof (ip_len_cases isV6). unfold maxUint16, udphLen in *.
  assert (len (from (ip_len isV6 + 8) pkt) = len pkt - (ip_len isV6 + 8)) as Hlx by (apply len_from; lia).
  assert (ui_iphLen it = ip_len isV6) as Hip by (apply u8_small; lia).
  assert (ui_gsoSize it = len pkt - (ip_len isV6 + 8)) as Hg by (cbn; unfold udphLen; rewrite Hlx; apply u16_id; lia).
  assert (udp_ok pkt it) as Hok.
  { unfold udp_ok. change (ui_key it) with (udp_key isV6 pkt). rewrite udp_key_v6, Hip, Hg. unfold udphLen. split_and!; try done; try lia.
    exists (len pkt - (ip_len isV6 + 8)). change (ui_numMerged it) with 0. lia. }
  eexists. split.
  - eapply core_perm; [|eapply (core_insert udp offset M bufs0 i bufs tw (T ++ UdpI u) G (Udp it)); [done|exact HC|done|done|exact Hok|]].
    + rewrite table_items_app. cbn [map]. solve_Permutation.
    + fold pkt. rewrite (input_packet _ _ _ _ _ HC). fold pkt. rewrite (udp_shape_content udp _ _ Hu Hsh Hlf).
      cbn [item_data]. rewrite Hip, Hg. unfold udphLen. rewrite chunks_one by lia. done.
  - apply ukeyed_insert; [done|]. apply Forall_app. split; [|by apply Forall_singleton].
    destruct (u !! _) as [l|] eqn:El; [by apply (Ht (udp_key isV6 pkt))|done].
Qed.

Lemma udp_append_core i bufs tw R G it isV6 : (i < length bufs)%nat -> Core i bufs tw (Udp it :: R) G ->
  let pkt := packet bufs offset i in
  udp = true -> udp_shape isV6 pkt -> length_field_ok pkt isV6 = true -> ui_key it = udp_key isV6 pkt ->
  udpPacketsCanCoalesce pkt (ip_len isV6) (len pkt - udphLen - ip_len isV6) it bufs offset = coalesceAppend ->
  forall it' bufs', coalesceUDPPackets pkt it bufs offset isV6 = (coalesceSuccess, it', bufs') ->
  exists G', Core (S i) bufs' tw (Udp it' :: R) G' /\ ui_key it' = ui_key it /\ length bufs' = length bufs.
Proof.
  intros Hi HC pkt Hu Hsh Hlf Hkey Hcan it' bufs' Hco.
  destruct (core_item _ _ _ _ _ _ HC) as (Hok & Hlt & Hidx & Hwf). cbn [item_ok idx] in Hok, Hlt, Hidx.
  assert (Hv : uk_isV6 (ui_key it) = isV6) by (rewrite Hkey; apply udp_key_v6).
  pose proof Hok as (HshP & Hip & _). rewrite Hv in Hip, HshP.
  destruct (udp_can_append _ _ _ _ _ Hcan Hok (eq_sym Hip)) as (Hg & Hfull).
  destruct (wf_lookup bufs _ Hwf Hidx) as (Hbd & Hcd & HcM & Hlp & _). set (P := packet bufs offset (ui_bufsIndex it)) in *.
  pose proof (ush_len _ _ Hsh). pose proof (ush_len _ _ HshP). pose proof (ip_len_cases isV6). unfold udphLen, maxUint16 in *.
  unfold coalesceUDPPackets in Hco. fold P in Hco. rewrite Hip in Hco, Hfull. unfold udphLen in Hco.
  rewrite (u8_small (ip_len isV6 + 8)) in Hco by lia. set (hl := ip_len isV6 + 8) in *.
  destruct (Z.ltb_spec (b_cap (bufs !!! ui_bufsIndex it) - offset - offset) (len P + len pkt - hl)) as [|Hcap]; [done|].
  destruct (_ && _); [done|]. destruct (negb _); [done|]. injection Hco as <- <-.
  assert (alter (fun b => set_data (b_data b ++ from hl pkt) b) (ui_bufsIndex it) bufs =
          alter (set_data (b_data (bufs !!! ui_bufsIndex it) ++ from hl pkt)) (ui_bufsIndex it) bufs) as ->.
  { apply list_alter_ext; [|done]. intros b Hb. by rewrite list_lookup_total_alt, Hb. }
  destruct (alter_wf bufs (ui_bufsIndex it) (b_data (bufs !!! ui_bufsIndex it) ++ from hl pkt)) as (Hl' & Hwf' & Hoth & Hpk'); [done|done| | |].
  { apply bytes_app; [done|]. apply bytes_from. by destruct Hsh. } { rewrite len_app, len_from by lia. lia. }
  rewrite from_app_le in Hpk' by lia. change (from offset (b_data (bufs !!! ui_bufsIndex it))) with P in Hpk'.
  destruct (merge_udp_ok P it pkt Hok) as (Hok' & Hm' & Hd'); rewrite ?Hv; unfold udphLen, maxUint16; fold hl; try done; try lia.
  rewrite Hv in Hok', Hd'. unfold udphLen in Hok', Hd'. fold hl in Hok', Hd'. eexists. split; [|by split].
  eapply (core_merge udp offset M bufs0 i bufs _ tw R G (Udp it)); [done|exact HC|exact Hl'|exact Hwf'| |done|exact Hm'|..]; cbn [idx item_ok].
  - intros j Hj _. by apply Hoth.
  - rewrite Hpk'. exact Hok'.
  - rewrite Hpk'. fold P. rewrite Hd', (input_packet _ _ _ _ _ HC). fold pkt.
    rewrite (udp_shape_content udp _ _ Hu Hsh Hlf), Hkey. done.
Qed.

Lemma udpGRO_ok i bufs u T tw G (isV6 : bool) : (i < length bufs)%nat -> Core i bufs tw (T ++ UdpI u) G -> ukeyed u ->
  packetIsGROCandidate (packet bufs offset i) udp = (if isV6 then udp6GROCandidate else udp4GROCandidate) ->
  let '(r, bufs', u') := udpGRO bufs offset i u isV6 in
  ukeyed u' /\ length bufs' = length bufs /\
  match r with
  | groResultNoop => Core i bufs' tw (T ++ UdpI u') G
  | groResultTableInsert => exists G', Core (S i) bufs' (tw ++ [i]) (T ++ UdpI u') G'
  | groResultCoalesced => exists G', Core (S i) bufs' tw (T ++ UdpI u') G'
  end.
Proof.
  intros Hi HC Ht Hcand. unfold udpGRO. pose proof (c_wf _ _ _ _ _ _ _ _ _ HC) as Hwf.
  set (pkt := packet bufs offset i) in *. destruct (udp_candidate pkt isV6) as [[iphLen gso]|] eqn:Ec; [|by split_and!].
  pose proof (candidate_kind udp pkt _ Hcand) as Hk.
  assert (udp = true /\ (ip_kind isV6 IPPROTO_UDP pkt \/ isV6 = false /\ fragmented pkt false = true)) as [Hu Hk'].
  { destruct isV6; destruct Hk as [? Hk]; split; try done; [by left|]. destruct Hk; [by left|by right]. }
  destruct (udp_candidate_shape isV6 pkt iphLen gso) as (Hsh & Hlf & -> & ->); [by apply bytes_packet|done|done|].
  unfold udp_lookupOrInsert. fold (udp_key isV6 pkt).
  assert (forall b, let u' := udp_insert u pkt (src_at isV6) (src_at isV6 + addr_len isV6) (ip_len isV6) i b in
    ukeyed u' /\ length bufs = length bufs /\ exists G', Core (S i) bufs (tw ++ [i]) (T ++ UdpI u') G') as Hins.
  { intros b. destruct (udp_insert_core i bufs u T tw G isV6 b Hi HC Ht Hu Hsh Hlf) as (G' & HCi & Hti). split_and!; [done|done|by exists G']. }
  destruct (u !! udp_key isV6 pkt) as [items|] eqn:El; [|exact (Hins false)].
  destruct (last items) as [it|] eqn:Ela; [|exact (Hins false)].
  assert (items !! (length items - 1)%nat = Some it) as Hn by (rewrite <- Ela, last_lookup; f_equal; lia).
  assert (ui_key it = udp_key isV6 pkt) as Hik by (pose proof (Ht _ _ El) as Hf; by eapply Forall_lookup_1 in Hf).
  pose proof (ip_len_cases isV6). rewrite u8_small by lia.
  destruct (udpPacketsCanCoalesce pkt _ _ it bufs offset) eqn:Ecan; [exact (Hins false)|exact (Hins false)|].
  destruct (coalesceUDPPackets pkt it bufs offset isV6) as [[r it'] bufs'] eqn:Eco.
  destruct r; try (first [exact (Hins false) | exact (Hins true)]).
  set (rest := <[udp_key isV6 pkt := take (length items - 1) items ++ drop (S (length items - 1)) items]> u).
  assert (Core i bufs tw (Udp it :: (UdpI rest ++ T)) G) as HC1.
  { eapply core_perm; [|exact HC]. rewrite (table_items_nth u _ items _ it El Hn). fold rest. cbn [map]. solve_Permutation. }
  destruct (udp_append_core i bufs tw _ G it isV6 Hi HC1 Hu Hsh Hlf Hik Ecan it' bufs' Eco) as (G' & HC' & Hk2 & Hl').
  unfold udp_updateAt. rewrite Hk2, Hik, El. cbn [default]. split_and!; [|done|].
  - apply ukeyed_insert; [done|]. apply Forall_insert; [by apply (Ht (udp_key isV6 pkt))|congruence].
  - exists G'. eapply core_perm; [|exact HC']. rewrite (table_items_update u _ items _ it it' El Hn). fold rest. cbn [map]. solve_Permutation.
Qed.

(** ** A batch *)
Definition Inv (i : nat) (st : groState) : Prop :=
  (exists G, Core i (g_bufs st) (g_toWrite st) (TcpI (g_tcp st) ++ UdpI (g_udp st)) G) /\ tkeyed (g_tcp st) /\ ukeyed (g_udp st) /\
  (udp = false -> table_items (g_udp st) = []).

Lemma inv_noop i bufs t u tw G : (i < length bufs)%nat -> Core i bufs tw (TcpI t ++ UdpI u) G -> tkeyed t -> ukeyed u ->
  (udp = false -> table_items u = []) -> Inv (S i) (mkGro (clear_hdr offset i bufs) t u (tw ++ [i])).
Proof. intros Hi HC Ht Hu Hn. split; [|done]. eexists. by apply (core_noop udp offset M bufs0 i bufs tw _ G). Qed.

Lemma gro_step_ok i st : (i < length (g_bufs st))%nat -> Inv i st ->
  Inv (S i) (gro_step offset udp i st) /\ length (g_bufs (gro_step offset udp i st)) = length (g_bufs st).
Proof.
  intros Hi ([G HC] & Ht & Hu & Hno). destruct st as [bufs t u tw]. cbn [g_bufs g_tcp g_udp g_toWrite] in *.
  assert (forall isV6 : bool, packetIsGROCandidate (packet bufs offset i) udp = (if isV6 then tcp6GROCandidate else tcp4GROCandidate) ->
    Inv (S i) (gro_step offset udp i (mkGro bufs t u tw)) /\ length (g_bufs (gro_step offset udp i (mkGro bufs t u tw))) = length bufs) as Htcp.
  { intros isV6 Hc. unfold gro_step. cbn [g_bufs g_tcp g_udp g_toWrite]. rewrite Hc.
    pose proof (tcpGRO_ok i bufs t (UdpI u) tw G isV6 Hi HC Ht Hc) as Hok.
    destruct isV6; destruct (tcpGRO bufs offset i t _) as [[r bufs'] t']; destruct Hok as (Ht' & Hl & Hr);
      (destruct r; cbn [g_bufs g_tcp g_udp g_toWrite];
        [split; [eapply inv_noop; [lia|exact Hr|done|done|first [exact Hno | intros; by apply Hno']] | unfold clear_hdr; by rewrite length_alter] | by split..]). }
  assert (forall isV6 : bool, packetIsGROCandidate (packet bufs offset i) udp = (if isV6 then udp6GROCandidate else udp4GROCandidate) ->
    Inv (S i) (gro_step offset udp i (mkGro bufs t u tw)) /\ length (g_bufs (gro_step offset udp i (mkGro bufs t u tw))) = length bufs) as Hudp.
  { intros isV6 Hc. unfold gro_step. cbn [g_bufs g_tcp g_udp g_toWrite]. rewrite Hc.
    pose proof (udpGRO_ok i bufs u (TcpI t) tw G isV6 Hi HC Hu Hc) as Hok.
    assert (udp = false -> forall u' : udpGROTable, table_items u' = []) as Hno'.
    { pose proof (candidate_kind udp _ _ Hc) as Hk. destruct isV6; destruct Hk as [-> _]; done. }
    destruct isV6; destruct (udpGRO bufs offset i u _) as [[r bufs'] u']; destruct Hok as (Hu' & Hl & Hr);
      (destruct r; cbn [g_bufs g_tcp g_udp g_toWrite];
        [split; [eapply inv_noop; [lia|exact Hr|done|done|first [exact Hno | intros; by apply Hno']] | unfold clear_hdr; by rewrite length_alter] | (split; [split; [done|split_and!; try done; intros; by apply Hno']|done])..]). }
  destruct (packetIsGROCandidate (packet bufs offset i) udp) eqn:Ec;
    [|exact (Htcp false eq_refl)|exact (Htcp true eq_refl)|exact (Hudp false eq_refl)|exact (Hudp true eq_refl)].
  unfold gro_step. cbn [g_bufs g_tcp g_udp g_toWrite]. rewrite Ec. cbn [g_bufs g_tcp g_udp g_toWrite].
  split; [by eapply inv_noop|]. unfold clear_hdr. by rewrite length_alter.
Qed.
Lemma gro_loop_ok n i st : (i + n = length (g_bufs st))%nat -> Inv i st ->
  exists st', gro_loop n offset udp i st = (st', None) /\ Inv (i + n) st'.
Proof.
  revert i st. induction n as [|n IH]; intros i st Hl HI; cbn [gro_loop]; [exists st; by rewrite Nat.add_0_r|].
  assert (i < length (g_bufs st))%nat as Hi by lia. pose proof HI as ([G HC] & _).
  destruct (wf_lookup _ _ (c_wf _ _ _ _ _ _ _ _ _ HC) Hi) as (_ & Hlen & _). unfold virtioNetHdrLen.
  rewrite (proj2 (Z.ltb_ge _ _)), (proj2 (Z.ltb_ge _ _)) by lia. cbn [orb].
  destruct (gro_step_ok i st Hi HI) as [HI' Hl']. destruct (IH (S i) (gro_step offset udp i st)) as (st' & Hst & Hinv); [lia|done|].
  exists st'. split; [done|]. by replace (i + S n)%nat with (S i + n)%nat by lia.
Qed.
Lemma inv_start : Forall (wf_buf offset M) bufs0 -> Inv 0 (mkGro bufs0 newTCPGROTable newUDPGROTable []).
Proof.
  intros Hwf. split; [|split; [|split]].
  2, 3: intros k l Hl; cbn in Hl; unfold newTCPGROTable, newUDPGROTable in Hl; by rewrite lookup_empty in Hl.
  2: done.
  exists (fun _ => []). split; try done.
  - constructor.
  - intros w Hw. by apply elem_of_nil in Hw.
  - split; [constructor|]. intros x Hx. by apply elem_of_nil in Hx.
  - intros x Hx. by apply elem_of_nil in Hx.
  - intros w Hw. by apply elem_of_nil in Hw.
Qed.
End steps.
