(* ===== verification/GRORoundtrip.v ===== *)
(** * Receive offload: what is written can be read back

    The accounting of the merged packets, and the round trip: the packets a batch
    leaves to be written, split by [handleVirtioRead] as the kernel would split
    them, carry what the packets of the batch carried. *)
From stdpp Require Import functions.
From S2P Require Import Prelude GoNet GoBytes Checksum Offload GRO OffloadProofs GROProofs GROInv GROSteps.
Open Scope Z_scope.

(** ** The header in front of a packet *)
Section header.
Context {E : NativeEndian}.

Lemma native_bytes_length n z : length (native_bytes n z) = n.
Proof. unfold native_bytes. destruct native_big; [apply be_bytes_length|apply le_bytes_length]. Qed.
Lemma native_val_bytes n z : 0 <= z < 2 ^ (8 * Z.of_nat n) -> native_val (native_bytes n z) = z.
Proof. unfold native_val, native_bytes. destruct native_big; [apply be_val_bytes|apply le_val_bytes]. Qed.
Lemma hdr_bytes_length v : length (hdr_bytes v) = 10%nat.
Proof. unfold hdr_bytes. rewrite !length_app, !native_bytes_length. done. Qed.
Definition hdr_ok (v : virtioNetHdr) : Prop :=
  0 <= h_hdrLen v < 65536 /\ 0 <= h_gsoSize v < 65536 /\ 0 <= h_csumStart v < 65536 /\ 0 <= h_csumOffset v < 65536.
Lemma hdr_decode_bytes v p : hdr_ok v -> hdr_decode (hdr_bytes v ++ p) = Ok v /\ from virtioNetHdrLen (hdr_bytes v ++ p) = p.
Proof.
  intros (H1 & H2 & H3 & H4). pose proof (hdr_bytes_length v) as Hl. unfold hdr_decode, virtioNetHdrLen. split.
  - rewrite (proj2 (Z.ltb_ge _ _)) by (unfold len; rewrite length_app, Hl; lia).
    rewrite !range_app_l by (unfold len; rewrite ?Hl; lia). unfold hdr_bytes. rewrite <- !app_assoc.
    assert (forall a x b, len a + 2 = len a + len x -> range (len a) (len a + 2) (a ++ x ++ b) = x) as Hm by (intros a x b ->; by apply range_mid).
    assert (forall z, len (native_bytes 2 z) = 2) as Hn by (intros; unfold len; by rewrite native_bytes_length).
    assert (forall z b a, 0 <= z < 65536 ->
      native_val (range (len a) (len a + 2) (a ++ native_bytes 2 z ++ b)) = z) as Hv.
    { intros z b a Hz. rewrite Hm by by rewrite Hn. by apply native_val_bytes. }
    pose proof (Hv (h_hdrLen v) (native_bytes 2 (h_gsoSize v) ++ native_bytes 2 (h_csumStart v) ++ native_bytes 2 (h_csumOffset v))
      [h_flags v; h_gsoType v] H1) as V1.
    pose proof (Hv (h_gsoSize v) (native_bytes 2 (h_csumStart v) ++ native_bytes 2 (h_csumOffset v))
      ([h_flags v; h_gsoType v] ++ native_bytes 2 (h_hdrLen v)) H2) as V2.
    pose proof (Hv (h_csumStart v) (native_bytes 2 (h_csumOffset v))
      ([h_flags v; h_gsoType v] ++ native_bytes 2 (h_hdrLen v) ++ native_bytes 2 (h_gsoSize v)) H3) as V3.
    pose proof (Hv (h_csumOffset v) [] ([h_flags v; h_gsoType v] ++ native_bytes 2 (h_hdrLen v) ++ native_bytes 2 (h_gsoSize v) ++ native_bytes 2 (h_csumStart v)) H4) as V4.
    rewrite !len_app, !Hn, <- !app_assoc in V2. rewrite !len_app, !Hn, <- !app_assoc in V3.
    rewrite !len_app, !Hn, <- !app_assoc, app_nil_r in V4. change (len [h_flags v; h_gsoType v]) with 2 in *.
    change (2 + 2) with 4 in V1. change (2 + 2 + 2) with 6 in V2. change (2 + 2) with 4 in V2.
    change (2 + (2 + 2) + 2) with 8 in V3. change (2 + (2 + 2)) with 6 in V3.
    change (2 + (2 + (2 + 2)) + 2) with 10 in V4. change (2 + (2 + (2 + 2))) with 8 in V4. rewrite V1, V2, V3, V4. by destruct v.
  - unfold from. change (Z.to_nat 10) with 10%nat. rewrite <- Hl. apply drop_app_length.
Qed.

(** No header, a packet on its own. *)
Lemma read_plain p outs off o : 0 <= off -> off + len p <= len o ->
  handleVirtioRead (replicate 10 0 ++ p) (o :: outs) off = Some (1, None, [(len p, copy_at off p o)]).
Proof.
  intros Ho Hl. set (v := mkHdr 0 0 0 0 0 0). assert (replicate 10 0 = hdr_bytes v) as ->.
  { unfold hdr_bytes, native_bytes, v. by destruct native_big. }
  destruct (hdr_decode_bytes v p) as [Hd Hf]; [by repeat split|]. unfold handleVirtioRead. rewrite Hd, Hf.
  cbn [h_gsoType h_flags v]. change (0 =? VIRTIO_NET_HDR_GSO_NONE) with true. cbn iota.
  change (Z.land 0 VIRTIO_NET_HDR_F_NEEDS_CSUM =? 0) with true. cbn [mbind option_bind head].
  pose proof (len_nonneg p). rewrite guard_range_ok by lia. cbn [mbind option_bind]. rewrite len_from by lia.
  by rewrite (proj2 (Z.ltb_ge _ _)) by lia.
Qed.
Lemma packets_plain p off o : 0 <= off -> off + len p <= len o -> packets_read off [(len p, copy_at off p o)] = [p].
Proof. intros. unfold packets_read. cbn [map fst snd]. f_equal. by apply range_copy_same. Qed.

(** A segmentation header that fits the packet behind it. *)
Record offloaded (v : virtioNetHdr) (isV6 : bool) (p : list Z) : Prop := {
  of_hdr : hdr_ok v;
  of_split : splittable p v isV6;
  of_version : Z.shiftr (at_ p 0) 4 = if isV6 then 6 else 4;
  of_type : h_gsoType v = VIRTIO_NET_HDR_GSO_UDP_L4 /\ h_hdrLen v = h_csumStart v + 8 \/
            h_gsoType v = (if isV6 then VIRTIO_NET_HDR_GSO_TCPV6 else VIRTIO_NET_HDR_GSO_TCPV4) /\
            h_hdrLen v = h_csumStart v + Z.shiftr (at_ p (h_csumStart v + 12)) 4 * 4 /\ h_hdrLen v <= h_csumStart v + 60 }.
Lemma read_offloaded v isV6 p outs off : offloaded v isV6 p ->
  handleVirtioRead (hdr_bytes v ++ p) outs off = gsoSplit p v outs off isV6.
Proof.
  intros [Hok Hs Hver Hty]. destruct (hdr_decode_bytes v p Hok) as [Hd Hf]. unfold handleVirtioRead. rewrite Hd, Hf.
  destruct (splittable_bounds _ _ _ Hs) as (Hst & Ha & Hth & Hhl & Hco & Hco'). destruct Hok as (? & ? & ? & ?).
  assert (set_hdrLen (h_hdrLen v) v = v) as Hset by by destruct v.
  unfold virtio_checked, is_tcp_gso in *. rewrite guard_range_ok by (destruct (_ || _); lia). cbn [mbind option_bind]. rewrite Hver.
  assert (u16 (h_csumStart v + h_csumOffset v) = h_csumStart v + h_csumOffset v) as Hco3 by (apply u16_id; destruct (_ || _); lia).
  destruct Hty as [[Ht Hl]|(Ht & Hl & Hl60)]; rewrite Ht in *.
  - cbn in Hth. change (VIRTIO_NET_HDR_GSO_UDP_L4 =? VIRTIO_NET_HDR_GSO_NONE) with false. cbn iota.
    change (VIRTIO_NET_HDR_GSO_UDP_L4 =? VIRTIO_NET_HDR_GSO_UDP_L4) with true. rewrite orb_true_r. cbn [negb].
    rewrite (u16_id (h_csumStart v + 8)), <- Hl by lia. cbn [mbind result_bind]. cbn zeta. rewrite Hset, Hco3.
    rewrite (proj2 (Z.ltb_ge (len p) _)), (proj2 (Z.ltb_ge (h_hdrLen v) _)), (proj2 (Z.leb_gt (len p) _)) by lia.
    destruct isV6; cbn; done.
  - assert (20 <= h_hdrLen v - h_csumStart v) as H20 by (destruct isV6; cbn in Hth; lia).
    assert (u16 (h_csumStart v + 12) = h_csumStart v + 12) as Hu by (apply u16_id; lia). rewrite Hu.
    set (th := Z.shiftr (at_ p (h_csumStart v + 12)) 4 * 4) in *. cbn zeta.
    rewrite (u16_id (h_csumStart v + th)), <- Hl by lia.
    rewrite (proj2 (Z.leb_gt (len p) (h_csumStart v + 12))), (proj2 (Z.ltb_ge th 20)), (proj2 (Z.ltb_ge 60 th)) by lia.
    cbn [orb]. destruct isV6; cbn [negb orb andb Z.eqb VIRTIO_NET_HDR_GSO_NONE VIRTIO_NET_HDR_GSO_TCPV4 VIRTIO_NET_HDR_GSO_TCPV6 VIRTIO_NET_HDR_GSO_UDP_L4 Pos.eqb mbind result_bind option_bind]; rewrite Hset, Hco3,
      (proj2 (Z.ltb_ge (len p) _)), (proj2 (Z.ltb_ge (h_hdrLen v) _)), (proj2 (Z.leb_gt (len p) _)) by lia; done.
Qed.
End header.

(** ** The segments of a merged packet *)
Lemma packets_chunks (f : list Z -> list datum) (g : nat -> list Z -> list datum) ws n payload : 0 < n ->
  (forall k, (k < length ws)%nat <-> n * Z.of_nat k < len payload) ->
  (forall k s, ws !! k = Some s -> f s = g k (range 0 n (from (n * Z.of_nat k) payload))) ->
  map f ws = imap g (chunks n payload).
Proof.
  intros Hn Hl Hf. apply list_eq. intros k. rewrite list_lookup_fmap, list_lookup_imap.
  destruct (ws !! k) as [s|] eqn:Ek; cbn.
  - pose proof (proj1 (Hl k) (lookup_lt_Some _ _ _ Ek)) as Hk.
    rewrite (proj2 (chunks_lookup n payload k _ Hn) (conj Hk eq_refl)). cbn. by rewrite <- (Hf k s Ek).
  - destruct (chunks n payload !! k) as [c|] eqn:Ec; [|done]. apply chunks_lookup in Ec as [Hk _]; [|done].
    apply Hl in Hk. apply lookup_ge_None in Ek. lia.
Qed.
Lemma tcp_data_chunks fl n l s : 0 < n -> concat (imap (fun k p => tcp_data fl (s + n * Z.of_nat k) p) (chunks n l)) = tcp_data fl s l.
Proof.
  intros Hn. remember (length l) as m eqn:Hm. revert l s Hm. induction m as [m IH] using lt_wf_ind. intros l s ->.
  destruct (decide (l = [])) as [->|Hl]; [done|]. rewrite chunks_cons by done. cbn [imap concat].
  assert (l = range 0 n l ++ from n l) as Hsplit by (unfold range; rewrite from_0, Z.sub_0_r; unfold from; by rewrite take_drop).
  rewrite Z.mul_0_r, Z.add_0_r. rewrite Hsplit at 3. rewrite tcp_data_app. f_equal.
  assert (length (from n l) < length l)%nat as Hlt by (destruct l; [done|unfold from; rewrite length_drop; cbn; lia]).
  rewrite <- (IH _ Hlt (from n l) (s + len (range 0 n l)) eq_refl).
  destruct (decide (len l <= n)) as [Hle|Hgt]; [by rewrite from_all|].
  f_equal. apply imap_ext. intros k p _. cbn. f_equal. rewrite len_range by lia. lia.
Qed.
Lemma map_chunks fl n l : concat (imap (fun _ p => [UdpDatagram fl p]) (chunks n l)) = map (UdpDatagram fl) (chunks n l).
Proof.
  generalize (chunks n l). clear l. intros cs. induction cs as [|c cs IH]; [done|]. cbn. f_equal. by rewrite <- IH.
Qed.

Section content.
Context {E : NativeEndian} (udp : bool).

Definition read_back (off : Z) (outs : list (list Z)) (w : list Z) : list (list Z) :=
  match handleVirtioRead w outs off with Some (_, None, written) => packets_read off written | _ => [] end.

Lemma length_ok_sent inp v isV6 k p last s : sent_alone inp v isV6 k p last s -> h_csumStart v = ip_len isV6 ->
  length_field_ok s isV6 = true.
Proof.
  intros Hs Hc. pose proof (sa_ip _ _ _ _ _ _ _ Hs) as Hi. rewrite Hc in Hi. unfold length_field_ok. destruct isV6.
  - destruct Hi as [-> _]. apply Z.eqb_refl.
  - destruct Hi as (_ & -> & _). apply Z.eqb_refl.
Qed.
Lemma chunk_len n k payload : 0 < n -> n * Z.of_nat k < len payload ->
  0 < len (range 0 n (from (n * Z.of_nat k) payload)) <= len payload - n * Z.of_nat k.
Proof.
  intros Hn Hk. rewrite range_min by lia. rewrite len_from_max by lia. rewrite len_range; [lia|lia|rewrite len_from_max; lia].
Qed.

(** What of the kernel's packet a split needs: the buffers are large enough. *)
Definition room (off : Z) (outs : list (list Z)) (v : virtioNetHdr) (p : list Z) : Prop :=
  0 <= off /\ Forall (fun o => off + len p <= len o) outs /\ len p - h_hdrLen v <= h_gsoSize v * Z.of_nat (length outs).
Lemma split_room off outs v isV6 p : room off outs v p -> splittable p v isV6 ->
  let payload := from (h_hdrLen v) p in
  exists written, gsoSplit p v outs off isV6 = Some (Z.of_nat (length written), None, written) /\
    (forall k, (k < length (packets_read off written))%nat <-> h_gsoSize v * Z.of_nat k < len payload) /\
    forall k s, packets_read off written !! k = Some s ->
      sent_alone p v isV6 (Z.of_nat k) (range 0 (h_gsoSize v) (from (h_gsoSize v * Z.of_nat k) payload))
        (len (from (h_gsoSize v * Z.of_nat (S k)) payload) =? 0) s.
Proof.
  intros (Ho & Hf & Hn) Hs. cbn zeta. destruct (splittable_bounds _ _ _ Hs) as (_ & _ & _ & ? & _). pose proof (sp_gso _ _ _ Hs).
  destruct (gsoSplit_written p v outs off isV6 Hs Ho) as (w & Hw & _ & Hc & Hk); [eapply Forall_impl; [exact Hf|]; cbn; lia|done|].
  exists w. split; [exact Hw|]. unfold packets_read at 1. rewrite length_map. by split.
Qed.

Lemma tcp_segments_content off outs v isV6 p th : room off outs v p -> splittable p v isV6 -> is_tcp_gso v = true ->
  h_csumStart v = ip_len isV6 -> h_hdrLen v = ip_len isV6 + th -> tcp_shape isV6 th p ->
  exists n written, gsoSplit p v outs off isV6 = Some (n, None, written) /\
    concat (map (content udp) (packets_read off written)) =
    tcp_data (tcp_key isV6 p) (tcp_seq isV6 p) (from (h_hdrLen v) p).
Proof.
  intros Hr Hs Ht Hc Hh Hsh. destruct (split_room _ _ _ _ _ Hr Hs) as (w & Hw & Hl & Hk). pose proof (sp_gso _ _ _ Hs) as Hg.
  exists (Z.of_nat (length w)), w. split; [exact Hw|]. set (payload := from (h_hdrLen v) p) in *.
  rewrite (packets_chunks (content udp) (fun k c => tcp_data (tcp_key isV6 p) (tcp_seq isV6 p + h_gsoSize v * Z.of_nat k) c) _
    (h_gsoSize v) payload Hg Hl); [by apply tcp_data_chunks|].
  intros k s Hks. pose proof (Hk k s Hks) as Hsa. pose proof (proj1 (Hl k) (lookup_lt_Some _ _ _ Hks)) as Hkl.
  set (c := range 0 (h_gsoSize v) _) in *. destruct (chunk_len (h_gsoSize v) k payload Hg Hkl) as [Hc1 Hc2]. fold c in Hc1, Hc2.
  pose proof (tsh_len _ _ _ Hsh). pose proof (tsh_bounds _ _ _ Hsh). pose proof (ip_len_cases isV6).
  assert (len payload = len p - h_hdrLen v) as Hlp by (apply len_from; lia).
  pose proof (agree_sent_alone _ _ _ _ _ _ _ Hc Hsa) as Ha. rewrite Ht in Ha.
  pose proof (sa_len _ _ _ _ _ _ _ Hsa) as Hls. pose proof (sa_transport _ _ _ _ _ _ _ Hsa) as Htr. rewrite Ht, Hc in Htr.
  destruct Htr as (Hsq & _ & Hfl). pose proof (tsh_flags _ _ _ Hsh) as Hf.
  assert (tcp_shape isV6 th s) as Hss.
  { eapply agree_tcp_shape; [exact Ha|done|by destruct Hsa|lia|]. rewrite Hfl. destruct (_ =? 0); [done|].
    destruct Hf as [-> | ->]; by left. }
  rewrite (tcp_shape_content udp _ _ _ Hss) by by eapply length_ok_sent.
  rewrite (agree_tcp_key _ _ _ Ha), <- Hh, (sa_payload _ _ _ _ _ _ _ Hsa). apply tcp_data_mod.
  unfold tcp_seq. rewrite Hsq. unfold u32. by rewrite Z.mod_mod.
Qed.
Lemma udp_segments_content off outs v isV6 p : udp = true -> room off outs v p -> splittable p v isV6 -> is_tcp_gso v = false ->
  h_csumStart v = ip_len isV6 -> h_hdrLen v = ip_len isV6 + udphLen -> udp_shape isV6 p ->
  exists n written, gsoSplit p v outs off isV6 = Some (n, None, written) /\
    concat (map (content udp) (packets_read off written)) =
    map (UdpDatagram (udp_key isV6 p)) (chunks (h_gsoSize v) (from (h_hdrLen v) p)).
Proof.
  intros Hu Hr Hs Ht Hc Hh Hsh. destruct (split_room _ _ _ _ _ Hr Hs) as (w & Hw & Hl & Hk). pose proof (sp_gso _ _ _ Hs) as Hg.
  exists (Z.of_nat (length w)), w. split; [exact Hw|]. set (payload := from (h_hdrLen v) p) in *.
  rewrite (packets_chunks (content udp) (fun k c => [UdpDatagram (udp_key isV6 p) c]) _ (h_gsoSize v) payload Hg Hl); [by apply map_chunks|].
  intros k s Hks. pose proof (Hk k s Hks) as Hsa. pose proof (proj1 (Hl k) (lookup_lt_Some _ _ _ Hks)) as Hkl.
  set (c := range 0 (h_gsoSize v) _) in *. destruct (chunk_len (h_gsoSize v) k payload Hg Hkl) as [Hc1 Hc2]. fold c in Hc1, Hc2.
  pose proof (ush_len _ _ Hsh). pose proof (ip_len_cases isV6). unfold udphLen in *.
  assert (len payload = len p - h_hdrLen v) as Hlp by (apply len_from; lia).
  pose proof (agree_sent_alone _ _ _ _ _ _ _ Hc Hsa) as Ha. rewrite Ht in Ha. pose proof (sa_len _ _ _ _ _ _ _ Hsa) as Hls.
  assert (udp_shape isV6 s) as Hss.
  { eapply agree_udp_shape; [exact Ha|done|by destruct Hsa|unfold udphLen; lia]. }
  rewrite (udp_shape_content udp _ _ Hu Hss) by by eapply length_ok_sent. unfold udphLen.
  rewrite (agree_udp_key _ _ _ _ Ha), <- Hh, (sa_payload _ _ _ _ _ _ _ Hsa). done.
Qed.

(** ** Accounting *)

(** What accounting leaves of a packet with headers of [hl] bytes. *)
Record kept (isV6 tcp : bool) (hl : Z) (p q : list Z) : Prop := {
  k_agree : flow_agree isV6 tcp p q;
  k_len : len p = len q;
  k_bytes : bytes_ok q -> bytes_ok p;
  k_tcp : tcp = true -> at_ p (ip_len isV6 + 13) = at_ q (ip_len isV6 + 13) /\ tcp_seq isV6 p = tcp_seq isV6 q /\
    at_ p (ip_len isV6 + 12) = at_ q (ip_len isV6 + 12);
  k_version : at_ p 0 = at_ q 0;
  k_payload : from hl p = from hl q }.
Lemma kept_refl isV6 tcp hl p : kept isV6 tcp hl p p.
Proof. split; try done. apply agree_refl. Qed.
Lemma kept_trans isV6 tcp hl p q r : kept isV6 tcp hl p q -> kept isV6 tcp hl q r -> kept isV6 tcp hl p r.
Proof.
  intros [] []. split; [by eapply agree_trans|congruence|auto| |congruence|congruence].
  intros Ht. destruct (k_tcp0 Ht) as (-> & -> & ->). auto.
Qed.
Lemma from_put16 i k v p : 0 <= k -> k + 2 <= i -> i <= len p -> from i (put16 k v p) = from i p.
Proof.
  intros Hk Hi Hl. pose proof (range_put16 i (len p) k v p ltac:(lia) Hk ltac:(lia) ltac:(lia)) as H.
  unfold range in H. rewrite !take_ge in H; [done|..]; unfold from, put16, len in *; rewrite length_drop, ?copy_at_length; lia.
Qed.
Lemma kept_put16 (isV6 tcp : bool) hl k v p : 2 <= k -> k + 2 <= hl -> hl <= len p -> ip_len isV6 + (if tcp then 20 else 8) <= hl ->
  (k = (if isV6 then 4 else 2) \/ isV6 = false /\ k = 10 \/ k = ip_len isV6 + 4 /\ tcp = false \/
   k = ip_len isV6 + 6 /\ tcp = false \/ k = ip_len isV6 + 16) ->
  kept isV6 tcp hl (put16 k v p) p.
Proof.
  intros Hk Hk2 Hl Hip Hc. pose proof (ip_len_cases isV6). split.
  - apply agree_put16; [lia|lia|done].
  - apply len_put16.
  - intros. by apply bytes_put16.
  - intros ->. assert (k + 2 <= ip_len isV6 + 4 \/ ip_len isV6 + 16 <= k) as Ho.
    { destruct isV6; cbn in *; destruct Hc as [->|[[? ->]|[[-> ?]|[[-> ?]| ->]]]]; try done; lia. }
    split_and!; [apply at_copy_other; rewrite ?be_bytes_len; lia| |apply at_copy_other; rewrite ?be_bytes_len; lia].
    unfold tcp_seq, get32. rewrite range_put16 by lia. done.
  - apply at_copy_other; rewrite ?be_bytes_len; lia.
  - apply from_put16; lia.
Qed.
Lemma account_ip_kept (isV6 tcp : bool) hl p : hl <= len p -> ip_len isV6 + (if tcp then 20 else 8) <= hl ->
  kept isV6 tcp hl (account_ip (ip_len isV6) isV6 p) p.
Proof.
  intros Hl Hip. unfold account_ip. pose proof (ip_len_cases isV6). destruct isV6; [apply kept_put16; try done; cbn in *; destruct tcp; lia|].
  change (copy_at 10 [0; 0] p) with (put16 10 0 p). assert (20 + 8 <= hl) by (cbn in Hip; destruct tcp; lia).
  eapply kept_trans; [apply kept_put16; rewrite ?len_put16; lia || (by destruct tcp) || auto|].
  eapply kept_trans; [apply kept_put16; rewrite ?len_put16; lia || (by destruct tcp) || auto|].
  apply kept_put16; lia || (by destruct tcp) || auto.
Qed.
Lemma account_csum_kept isV6 (tcp : bool) hl p : hl <= len p -> ip_len isV6 + (if tcp then 20 else 8) <= hl ->
  kept isV6 tcp hl (account_csum (if tcp then IPPROTO_TCP else IPPROTO_UDP) (ip_len isV6) (if tcp then 16 else 6) isV6 p) p.
Proof.
  intros Hl Hip. unfold account_csum. pose proof (ip_len_cases isV6).
  rewrite (u16_id (ip_len isV6 + _)) by (destruct tcp; lia). apply kept_put16; try done; destruct tcp; lia || auto 10.
Qed.

(** A merged buffer: the header, and the packet with its headers accounted. *)
Lemma on_packet_app offset f a p : len a = offset -> on_packet offset f (a ++ p) = a ++ f p.
Proof.
  intros <-. unfold on_packet, len. rewrite Nat2Z.id, take_app_length. unfold from. by rewrite Nat2Z.id, drop_app_length.
Qed.
Lemma hdr_encode_app offset v a x p : len a = offset - virtioNetHdrLen -> 10 <= offset -> length x = 10%nat ->
  hdr_encode v (offset - virtioNetHdrLen) (a ++ x ++ p) = Ok (a ++ hdr_bytes v ++ p).
Proof.
  intros Ha Ho Hx. unfold hdr_encode. pose proof (len_nonneg p). rewrite from_app_ge by lia.
  replace (offset - virtioNetHdrLen - len a) with 0 by lia. rewrite from_0.
  rewrite (proj2 (Z.ltb_ge _ _)) by (rewrite len_app; unfold len, virtioNetHdrLen in *; rewrite Hx; lia).
  rewrite <- Ha. by rewrite copy_at_mid by by rewrite hdr_bytes_length.
Qed.
Lemma split_hdr offset d : 10 <= offset -> offset < len d ->
  exists a x, d = a ++ x ++ from offset d /\ len a = offset - virtioNetHdrLen /\ length x = 10%nat.
Proof.
  intros Ho Hl. unfold virtioNetHdrLen. destruct (split_at (offset - 10) 10 d) as (a & x & c & -> & Ha & Hx); [lia..|].
  exists a, x. split; [|done]. rewrite app_assoc, from_app_ge by (rewrite len_app; unfold len in *; lia).
  assert (offset - len (a ++ x) = 0) as -> by (rewrite len_app; unfold len in *; lia). by rewrite from_0, app_assoc.
Qed.

Definition tcp_accounted (it : tcpGROItem) (p : list Z) : list Z :=
  let v6 := tk_isV6 (ti_key it) in account_csum IPPROTO_TCP (ti_iphLen it) 16 v6 (account_ip (ti_iphLen it) v6 p).
Definition udp_accounted (it : udpGROItem) (p : list Z) : list Z :=
  let v6 := uk_isV6 (ui_key it) in
  let p := account_ip (ui_iphLen it) v6 p in
  let p := put16 (ui_iphLen it + 4) (u16 (len (from (ui_iphLen it) p))) p in
  account_csum IPPROTO_UDP (ui_iphLen it) 6 v6 p.

(** The accounting of one item touches its buffer only. *)
Definition wf1 (offset : Z) (bufs : list Buf) (j : nat) : Prop := exists b, bufs !! j = Some b /\ offset < len (b_data b).
Definition only_at (j : nat) (f : list Z -> list Z -> Prop) (offset : Z) (bufs bufs' : list Buf) : Prop :=
  (forall k, k <> j -> bufs' !! k = bufs !! k) /\
  f (from (offset - virtioNetHdrLen) (b_data (bufs' !!! j))) (packet bufs offset j).
Lemma alter_only_at j d offset bufs p : wf1 offset bufs j -> from (offset - virtioNetHdrLen) d = p ->
  only_at j (fun w _ => w = p) offset bufs (alter (set_data d) j bufs).
Proof.
  intros (b & Hb & _) Hd. split; [intros k Hk; by apply list_lookup_alter_ne|].
  rewrite list_lookup_total_alter_eq by by eapply lookup_lt_Some. exact Hd.
Qed.
Lemma from_after a x : from (len a) (a ++ x) = x.
Proof. rewrite from_app_ge by lia. by rewrite Z.sub_diag, from_0. Qed.

Definition tcp_written (it : tcpGROItem) (w p : list Z) : Prop :=
  w = if 0 <? ti_numMerged it then hdr_bytes (tcp_hdr it) ++ tcp_accounted it p else replicate 10 0 ++ p.
Definition udp_written (it : udpGROItem) (w p : list Z) : Prop :=
  w = if 0 <? ui_numMerged it then hdr_bytes (udp_hdr it) ++ udp_accounted it p else replicate 10 0 ++ p.

Lemma clear_written offset bufs j : 10 <= offset -> wf1 offset bufs j ->
  only_at j (fun w p => w = replicate 10 0 ++ p) offset bufs (clear_hdr offset j bufs).
Proof.
  intros Ho (b & Hb & Hl). unfold clear_hdr. split; [intros k Hk; by apply list_lookup_alter_ne|].
  rewrite list_lookup_total_alter_eq by by eapply lookup_lt_Some. unfold packet. rewrite list_lookup_total_alt, Hb. cbn [default id b_data set_data].
  destruct (split_hdr offset (b_data b) Ho Hl) as (a & x & Hd & Ha & Hx). rewrite Hd at 1.
  rewrite <- Ha. rewrite copy_at_mid by by rewrite Hx. by rewrite from_after.
Qed.
Lemma account_tcp_written offset bufs it : 10 <= offset -> wf1 offset bufs (ti_bufsIndex it) ->
  exists bufs', account_tcp_item offset it bufs = Ok bufs' /\ only_at (ti_bufsIndex it) (tcp_written it) offset bufs bufs'.
Proof.
  intros Ho Hwf. pose proof Hwf as (b & Hb & Hl). unfold account_tcp_item, tcp_written. destruct (0 <? ti_numMerged it).
  2: { eexists. split; [done|]. by apply clear_written. }
  assert (bufs !!! ti_bufsIndex it = b) as -> by by rewrite list_lookup_total_alt, Hb.
  destruct (split_hdr offset (b_data b) Ho Hl) as (a & x & Hd & Ha & Hx). set (p := from offset (b_data b)) in *.
  assert (len (a ++ x) = offset) as Hax by (rewrite len_app; unfold len, virtioNetHdrLen in *; lia).
  rewrite Hd, app_assoc, on_packet_app, <- app_assoc by done. rewrite hdr_encode_app by done. cbn [mbind result_bind].
  rewrite (app_assoc a), on_packet_app, <- app_assoc by (rewrite len_app; unfold len, virtioNetHdrLen in *; rewrite hdr_bytes_length; lia).
  eexists. split; [done|].
  destruct (alter_only_at (ti_bufsIndex it) (a ++ hdr_bytes (tcp_hdr it) ++ tcp_accounted it p) offset bufs
    (hdr_bytes (tcp_hdr it) ++ tcp_accounted it p) Hwf) as [H1 H2]; [rewrite <- Ha; by rewrite from_after|].
  assert (packet bufs offset (ti_bufsIndex it) = p) as Hp by (unfold packet; by rewrite list_lookup_total_alt, Hb).
  split; [exact H1|]. cbn beta. rewrite Hp. exact H2.
Qed.
Lemma account_udp_written offset bufs it : 10 <= offset -> wf1 offset bufs (ui_bufsIndex it) ->
  exists bufs', account_udp_item offset it bufs = Ok bufs' /\ only_at (ui_bufsIndex it) (udp_written it) offset bufs bufs'.
Proof.
  intros Ho Hwf. pose proof Hwf as (b & Hb & Hl). unfold account_udp_item, udp_written. destruct (0 <? ui_numMerged it).
  2: { eexists. split; [done|]. by apply clear_written. }
  assert (bufs !!! ui_bufsIndex it = b) as -> by by rewrite list_lookup_total_alt, Hb.
  destruct (split_hdr offset (b_data b) Ho Hl) as (a & x & Hd & Ha & Hx). set (p := from offset (b_data b)) in *.
  assert (len (a ++ x) = offset) as Hax by (rewrite len_app; unfold len, virtioNetHdrLen in *; lia).
  rewrite Hd, app_assoc, on_packet_app, <- app_assoc by done. rewrite hdr_encode_app by done. cbn [mbind result_bind].
  assert (len (a ++ hdr_bytes (udp_hdr it)) = offset) as Hah by (rewrite len_app; unfold len, virtioNetHdrLen in *; rewrite hdr_bytes_length; lia).
  rewrite (app_assoc a), !on_packet_app, <- app_assoc by done.
  eexists. split; [done|].
  destruct (alter_only_at (ui_bufsIndex it) (a ++ hdr_bytes (udp_hdr it) ++ udp_accounted it p) offset bufs
    (hdr_bytes (udp_hdr it) ++ udp_accounted it p) Hwf) as [H1 H2]; [rewrite <- Ha; by rewrite from_after|].
  assert (packet bufs offset (ui_bufsIndex it) = p) as Hp by (unfold packet; by rewrite list_lookup_total_alt, Hb).
  split; [exact H1|]. cbn beta. rewrite Hp. exact H2.
Qed.

Lemma account_all {A} (f : A -> list Buf -> result (list Buf)) (ix : A -> nat) (W : A -> list Z -> list Z -> Prop) offset items bufs :
  NoDup (map ix items) -> (forall it, it ∈ items -> wf1 offset bufs (ix it)) ->
  (forall it bufs, wf1 offset bufs (ix it) -> exists bufs', f it bufs = Ok bufs' /\ only_at (ix it) (W it) offset bufs bufs') ->
  exists bufs', account f items bufs = (bufs', None) /\ (forall j, j ∉ map ix items -> bufs' !! j = bufs !! j) /\
    forall it, it ∈ items -> W it (packet bufs' (offset - virtioNetHdrLen) (ix it)) (packet bufs offset (ix it)).
Proof.
  intros Hn Hwf Hf. revert bufs Hn Hwf. induction items as [|it items IH]; intros bufs Hn Hwf.
  { exists bufs. split_and!; try done. intros it Hit. by apply elem_of_nil in Hit. }
  cbn in Hn. apply NoDup_cons in Hn as [Hni Hn]. destruct (Hf it bufs) as (b1 & H1 & Hoth & HW); [apply Hwf; by left|].
  assert (forall x, x ∈ items -> ix x <> ix it) as Hne.
  { intros x Hx Heq. apply Hni. rewrite <- Heq. apply list_elem_of_fmap. eauto. }
  destruct (IH b1 Hn) as (b2 & H2 & Hoth2 & HW2).
  { intros x Hx. unfold wf1. rewrite Hoth by by apply Hne. apply Hwf. by right. }
  exists b2. cbn [account]. rewrite H1. split; [done|]. split.
  - intros j Hj. cbn in Hj. apply not_elem_of_cons in Hj as [Hj1 Hj2]. rewrite Hoth2 by done. by apply Hoth.
  - intros x [->|Hx]%elem_of_cons.
    + unfold packet at 1. rewrite !list_lookup_total_alt, Hoth2, <- list_lookup_total_alt by done. exact HW.
    + rewrite <- (packet_other offset bufs b1) by by apply Hoth, Hne. by apply HW2.
Qed.

(** ** Reading back an item *)
Definition reads_as (off : Z) (outs : list (list Z)) (w : list Z) (c : list datum) : Prop :=
  exists n written, handleVirtioRead w outs off = Some (n, None, written) /\ concat (map (content udp) (packets_read off written)) = c.

Lemma plain_read off outs p : 0 <= off -> outs <> [] -> Forall (fun o => off + len p <= len o) outs ->
  reads_as off outs (replicate 10 0 ++ p) (content udp p).
Proof.
  intros Ho Hne Hf. destruct outs as [|o outs]; [done|]. apply Forall_cons in Hf as [Hl _].
  do 2 eexists. split; [by apply read_plain|]. rewrite packets_plain by done. cbn. apply app_nil_r.
Qed.

Lemma tcp_item_read off outs P it w : tcp_ok P it -> 0 <= off -> Forall (fun o => off + len P <= len o) outs ->
  ti_numMerged it + 1 <= Z.of_nat (length outs) -> tcp_written it w P -> reads_as off outs w (item_data P (Tcp it)).
Proof.
  intros (Hsh & Hip & Hkey & Hseq & Hg & Hm & (tail & Ht & Hl) & Hlf) Ho Hf Hn ->. set (v6 := tk_isV6 (ti_key it)) in *.
  pose proof (tsh_len _ _ _ Hsh) as Hlen. pose proof (tsh_bounds _ _ _ Hsh) as Hbd. pose proof (ip_len_cases v6) as Hcs. unfold maxUint16 in Hlen.
  destruct (Z.ltb_spec 0 (ti_numMerged it)) as [Hpos|Hz].
  2: { assert (item_data P (Tcp it) = content udp P) as ->.
       { rewrite (tcp_shape_content udp _ _ _ Hsh (Hlf ltac:(lia))), <- Hkey, <- Hseq, <- Hip. done. }
       apply plain_read; [done| |done]. intros ->. cbn in Hn. lia. }
  unfold tcp_accounted. fold v6. rewrite Hip. set (hl := ip_len v6 + ti_tcphLen it) in *.
  assert (kept v6 true hl (account_csum IPPROTO_TCP (ip_len v6) 16 v6 (account_ip (ip_len v6) v6 P)) P) as K.
  { assert (ip_len v6 + 20 <= hl) as H20 by (subst hl; lia).
    pose proof (account_ip_kept v6 true hl P ltac:(lia) H20) as K1. eapply kept_trans; [|exact K1].
    apply (account_csum_kept v6 true hl); [rewrite (k_len _ _ _ _ _ K1); lia|exact H20]. }
  set (P2 := account_csum _ _ _ _ _) in *. destruct K as [Ka Kl Kb Kt Kv Kp]. destruct (Kt eq_refl) as (Kf & Ks & Ko). specialize (Kb (tsh_bytes _ _ _ Hsh)).
  assert (tcp_shape v6 (ti_tcphLen it) P2) as Hsh2.
  { eapply agree_tcp_shape; [exact Ka|done|done|rewrite Kl; unfold maxUint16; lia|]. rewrite Kf. by destruct Hsh. }
  assert (h_hdrLen (tcp_hdr it) = hl) as Hh by (cbn; rewrite Hip; apply u8_small; lia).
  assert (h_csumStart (tcp_hdr it) = ip_len v6) as Hc by done.
  assert (is_tcp_gso (tcp_hdr it) = true) as Hty by (unfold is_tcp_gso, tcp_hdr; cbn; by destruct (tk_isV6 (ti_key it))).
  assert (splittable P2 (tcp_hdr it) v6) as Hs.
  { split; rewrite ?Hty, ?Hh, ?Hc, ?Kl; [done|lia|apply Hg|by destruct v6|lia|split; [lia|done]]. }
  assert (offloaded (tcp_hdr it) v6 P2) as Hof.
  { split; [|exact Hs| |].
    - unfold hdr_ok. rewrite Hh, Hc. cbn [h_gsoSize h_csumOffset tcp_hdr]. lia.
    - rewrite Kv. pose proof (tsh_kind _ _ _ Hsh) as Hk. unfold ip_kind in Hk. destruct v6; by destruct Hk.
    - right. split; [cbn; fold v6; by destruct v6|]. rewrite Hh, Hc, Ko, (tsh_tcph _ _ _ Hsh). lia. }
  destruct (tcp_segments_content off outs (tcp_hdr it) v6 P2 (ti_tcphLen it)) as (n & wr & Hw & Hcon); [|done|done|done|done|done|].
  { split; [done|]. split; [by rewrite Kl|]. rewrite Hh, Kl. cbn [h_gsoSize tcp_hdr]. nia. }
  exists n, wr. split; [by rewrite (read_offloaded _ _ _ _ _ Hof)|]. rewrite Hcon. cbn [item_data].
  by rewrite (agree_tcp_key _ _ _ Ka), Ks, <- Hkey, <- Hseq, Hh, Kp, Hip.
Qed.
Lemma udp_item_read off outs P it w : udp = true -> udp_ok P it -> 0 <= off -> Forall (fun o => off + len P <= len o) outs ->
  ui_numMerged it + 1 <= Z.of_nat (length outs) -> udp_written it w P -> reads_as off outs w (item_data P (Udp it)).
Proof.
  intros Hu (Hsh & Hip & Hkey & Hg & Hm & (tail & Ht & Hl) & Hlf) Ho Hf Hn ->. set (v6 := uk_isV6 (ui_key it)) in *.
  pose proof (ush_len _ _ Hsh) as Hlen. pose proof (ip_len_cases v6) as Hcs. unfold maxUint16, udphLen in *.
  destruct (Z.ltb_spec 0 (ui_numMerged it)) as [Hpos|Hz].
  2: { assert (item_data P (Udp it) = content udp P) as ->.
       { rewrite (udp_shape_content udp _ _ Hu Hsh (Hlf ltac:(lia))), <- Hkey. cbn [item_data]. rewrite Hip. unfold udphLen.
         assert (ui_numMerged it = 0) as Hz0 by lia. rewrite Hz0 in Hl. rewrite chunks_one by (rewrite len_from; lia). done. }
       apply plain_read; [done| |done]. intros ->. cbn in Hn. lia. }
  unfold udp_accounted. fold v6. rewrite Hip. cbn zeta. set (hl := ip_len v6 + 8) in *.
  set (P1 := put16 (ip_len v6 + 4) _ (account_ip (ip_len v6) v6 P)).
  assert (kept v6 false hl (account_csum IPPROTO_UDP (ip_len v6) 6 v6 P1) P) as K.
  { assert (ip_len v6 + 8 <= hl) as H8 by (subst hl; lia).
    pose proof (account_ip_kept v6 false hl P ltac:(lia) H8) as K1.
    assert (kept v6 false hl P1 P) as K2.
    { eapply kept_trans; [|exact K1]. subst P1. apply kept_put16; rewrite ?(k_len _ _ _ _ _ K1); try exact H8; lia || auto 10. }
    eapply kept_trans; [|exact K2]. apply (account_csum_kept v6 false hl); [rewrite (k_len _ _ _ _ _ K2); lia|exact H8]. }
  set (P2 := account_csum _ _ _ _ _) in *. destruct K as [Ka Kl Kb _ Kv Kp]. specialize (Kb (ush_bytes _ _ Hsh)).
  assert (udp_shape v6 P2) as Hsh2.
  { eapply agree_udp_shape; [exact Ka|done|done|rewrite Kl; unfold udphLen, maxUint16; lia]. }
  assert (h_hdrLen (udp_hdr it) = hl) as Hh by (cbn; rewrite Hip; unfold udphLen; apply u8_small; lia).
  assert (h_csumStart (udp_hdr it) = ip_len v6) as Hc by done. assert (is_tcp_gso (udp_hdr it) = false) as Hty by done.
  assert (splittable P2 (udp_hdr it) v6) as Hs.
  { split; rewrite ?Hty, ?Hh, ?Hc, ?Kl; [done|lia|apply Hg|by destruct v6|lia|split; [lia|done]]. }
  assert (offloaded (udp_hdr it) v6 P2) as Hof.
  { split; [|exact Hs| |].
    - unfold hdr_ok. rewrite Hh, Hc. cbn [h_gsoSize h_csumOffset udp_hdr]. lia.
    - rewrite Kv. pose proof (ush_kind _ _ Hsh) as Hk. unfold ip_kind in Hk. destruct v6; by destruct Hk.
    - left. split; [done|]. rewrite Hh, Hc. done. }
  destruct (udp_segments_content off outs (udp_hdr it) v6 P2 Hu) as (n & wr & Hw & Hcon); [|done|done|done|done|done|].
  { split; [done|]. split; [by rewrite Kl|]. rewrite Hh, Kl. cbn [h_gsoSize udp_hdr]. nia. }
  exists n, wr. split; [by rewrite (read_offloaded _ _ _ _ _ Hof)|]. rewrite Hcon. cbn [item_data].
  rewrite (agree_udp_key _ _ _ _ Ka), <- Hkey, Hh, Kp, Hip. done.
Qed.
End content.

(** ** The batch *)
Section batch.
Context {E : NativeEndian} (udp : bool) (offset M : Z) (bufs : list Buf) (off : Z) (outs : list (list Z)).
Context (Hoff : 10 <= offset) (HM : M <= 65535) (Hwf : Forall (wf_buf offset M) bufs).
Context (Hoff' : 0 <= off) (Hn : (length bufs <= length outs)%nat) (Hroom : Forall (fun o => off + M <= len o) outs).

Lemma wf1_core i bf tw I G j : Core udp offset M bufs i bf tw I G -> (j < length bf)%nat -> wf1 offset bf j.
Proof.
  intros HC Hj. pose proof (c_wf _ _ _ _ _ _ _ _ _ HC) as Hw. destruct (lookup_lt_is_Some_2 _ _ Hj) as [b Hb].
  exists b. split; [done|]. pose proof (Forall_lookup_1 _ _ _ _ Hw Hb) as (_ & [? _] & _). done.
Qed.
Lemma room_packet bf j : Forall (wf_buf offset M) bf -> (j < length bf)%nat ->
  Forall (fun o => off + len (packet bf offset j) <= len o) outs.
Proof.
  intros Hw Hj. destruct (lookup_lt_is_Some_2 _ _ Hj) as [b Hb]. pose proof (Forall_lookup_1 _ _ _ _ Hw Hb) as (_ & H1 & H2).
  eapply Forall_impl; [exact Hroom|]. cbn. intros o Ho. unfold packet. rewrite list_lookup_total_alt, Hb. cbn.
  rewrite len_from by lia. lia.
Qed.

Lemma handleGRO_reads : exists bufs' tw G, handleGRO bufs offset newTCPGROTable newUDPGROTable udp [] = (bufs', tw, []) /\
  (forall w, w ∈ tw -> reads_as udp off outs (packet bufs' (offset - virtioNetHdrLen) w) (G w)) /\
  concat (map G tw) ≡ₚ concat (map (input udp offset bufs) (seq 0 (length bufs))).
Proof.
  destruct (gro_loop_ok udp offset M bufs Hoff HM (length bufs) 0 (mkGro bufs newTCPGROTable newUDPGROTable [])) as (st & Hst & ([G HC] & _ & _ & Hno));
    [done|by apply inv_start|].
  unfold handleGRO. rewrite Hst. destruct st as [bf t u tw]. cbn [g_bufs g_tcp g_udp g_toWrite] in *. rewrite Nat.add_0_l in HC.
  destruct (c_own _ _ _ _ _ _ _ _ _ HC) as [Hnd Hown]. pose proof (c_wf _ _ _ _ _ _ _ _ _ HC) as Hw.
  rewrite map_app, !map_map in Hnd. apply NoDup_app in Hnd as (Hnt & Hdis & Hnu). cbn [idx] in Hnt, Hdis, Hnu.
  assert (forall it, it ∈ table_items t -> Tcp it ∈ map Tcp (table_items t) ++ map Udp (table_items u)) as Hint.
  { intros it Hit. apply elem_of_app. left. apply list_elem_of_fmap. eauto. }
  assert (forall it, it ∈ table_items u -> Udp it ∈ map Tcp (table_items t) ++ map Udp (table_items u)) as Hinu.
  { intros it Hit. apply elem_of_app. right. apply list_elem_of_fmap. eauto. }
  assert (forall x, x ∈ map Tcp (table_items t) ++ map Udp (table_items u) -> (idx x < length bf)%nat) as Hlen.
  { intros x Hx. by apply (c_lt _ _ _ _ _ _ _ _ _ HC), Hown. }
  destruct (account_all (account_tcp_item offset) ti_bufsIndex tcp_written offset (table_items t) bf Hnt) as (b1 & H1 & Ho1 & HW1).
  { intros it Hit. eapply wf1_core; [exact HC|]. apply (Hlen (Tcp it)). auto. } { intros. by apply account_tcp_written. }
  assert (forall it, it ∈ table_items u -> b1 !! ui_bufsIndex it = bf !! ui_bufsIndex it) as Hu1.
  { intros it Hit. apply Ho1. intros Hin. apply (Hdis _ Hin). apply list_elem_of_fmap. eauto. }
  destruct (account_all (account_udp_item offset) ui_bufsIndex udp_written offset (table_items u) b1 Hnu) as (b2 & H2 & Ho2 & HW2).
  { intros it Hit. unfold wf1. rewrite Hu1 by done. eapply wf1_core; [exact HC|]. apply (Hlen (Udp it)). auto. } { intros. by apply account_udp_written. }
  unfold applyTCPCoalesceAccounting, applyUDPCoalesceAccounting. rewrite H1, H2. exists b2, tw, G. split; [done|].
  split; [|exact (c_sum _ _ _ _ _ _ _ _ _ HC)]. pose proof (c_len _ _ _ _ _ _ _ _ _ HC) as Hl.
  intros w Hwt. destruct (c_lt _ _ _ _ _ _ _ _ _ HC w Hwt) as [_ Hwl].
  destruct (decide (w ∈ map ti_bufsIndex (table_items t))) as [Ht|Ht]; [|destruct (decide (w ∈ map ui_bufsIndex (table_items u))) as [Hu|Hu]].
  - apply list_elem_of_fmap in Ht as (it & -> & Hit). destruct (c_items _ _ _ _ _ _ _ _ _ HC (Tcp it) (Hint it Hit)) as (Hok & Hm & HG).
    cbn [idx merged item_ok] in *. rewrite HG, (packet_other _ b1) by (apply Ho2; intros Hin; apply (Hdis (ti_bufsIndex it)); [|done]; apply list_elem_of_fmap; eauto).
    apply tcp_item_read; [done|done|by apply room_packet|lia|]. by apply HW1.
  - apply list_elem_of_fmap in Hu as (it & -> & Hit). destruct (c_items _ _ _ _ _ _ _ _ _ HC (Udp it) (Hinu it Hit)) as (Hok & Hm & HG).
    cbn [idx merged item_ok] in *. rewrite HG. assert (udp = true) as Hudp.
    { destruct udp; [done|]. rewrite Hno in Hit by done. by apply elem_of_nil in Hit. }
    apply udp_item_read; [done|done|done|by apply room_packet|lia|]. rewrite <- (packet_other offset bf b1) by by apply Hu1. by apply HW2.
  - destruct (c_plain _ _ _ _ _ _ _ _ _ HC w Hwt) as [Hcl ->].
    { intros x [Hx|Hx]%elem_of_app <-; apply list_elem_of_fmap in Hx as (it & -> & Hit); [apply Ht|apply Hu]; apply list_elem_of_fmap; eauto. }
    rewrite (packet_other _ b1), (packet_other _ bf) by (by apply Ho2 || by apply Ho1).
    destruct (wf1_core _ _ _ _ _ _ HC Hwl) as (b & Hb & Hlb).
    assert (packet bf (offset - virtioNetHdrLen) w = replicate 10 0 ++ packet bf offset w) as ->.
    { unfold cleared, packet in *. rewrite list_lookup_total_alt, Hb in Hcl |- *. cbn [default id] in *.
      destruct (split_hdr offset (b_data b) Hoff Hlb) as (a & x & Hd & Ha & Hx). set (p := from offset (b_data b)) in *. rewrite Hd in Hcl |- *.
      rewrite <- Ha, from_after. rewrite <- Ha in Hcl. f_equal.
      pose proof (range_mid (len a) a x p eq_refl) as Hm. replace (len a + len x) with offset in Hm by (unfold len, virtioNetHdrLen in *; lia). congruence. }
    apply plain_read; [done| |by apply room_packet]. intros ->. cbn in Hn. lia.
Qed.
End batch.

Lemma write_each_all file_write ws done total errs : (forall d p, exists n, file_write d p = Written n) ->
  exists total', write_each file_write ws done total errs = (done ++ ws, total', errs).
Proof.
  intros Hf. revert done total. induction ws as [|w ws IH]; intros done total; cbn [write_each]; [exists total; by rewrite app_nil_r|].
  destruct (Hf done w) as [n ->]. destruct (IH (done ++ [w]) (total + n)) as [t' ->]. exists t'. by rewrite <- app_assoc.
Qed.
Lemma inputs_bufs udp offset bufs : map (input udp offset bufs) (seq 0 (length bufs)) = map (fun b => content udp (from offset (b_data b))) bufs.
Proof.
  apply list_eq. intros k. rewrite !list_lookup_fmap. destruct (decide (k < length bufs)%nat) as [Hk|Hk].
  - rewrite lookup_seq_lt by done. destruct (lookup_lt_is_Some_2 _ _ Hk) as [b Hb]. rewrite Hb. cbn. unfold input, packet.
    by rewrite list_lookup_total_alt, Hb.
  - rewrite lookup_seq_ge, (lookup_ge_None_2 bufs) by lia. done.
Qed.

(** C9: Receive offload loses, repeats and moves nothing. For a batch of packets of
    any kind, in buffers whose capacity is at most 65535, [Write] succeeds and
    every byte string it hands to the device, split by [handleVirtioRead] as the
    kernel splits it, is accepted; and what the resulting packets carry, TCP bytes
    with flow and sequence number, UDP datagrams with their flow, other packets
    unchanged, is exactly what the packets of the batch carried. *)
Theorem gro_roundtrip `{NativeEndian} udp offset M bufs file_write off outs :
  10 <= offset -> M <= 65535 -> Forall (wf_buf offset M) bufs -> (forall d p, exists n, file_write d p = Written n) ->
  0 <= off -> (length bufs <= length outs)%nat -> Forall (fun o => off + M <= len o) outs ->
  exists ws total, NativeTun_Write true udp file_write bufs offset = (ws, total, []) /\
    Forall (fun w => exists n written, handleVirtioRead w outs off = Some (n, None, written)) ws /\
    concat (map (fun w => concat (map (content udp) (read_back off outs w))) ws) ≡ₚ
    concat (map (fun b => content udp (from offset (b_data b))) bufs).
Proof.
  intros Ho HM Hwf Hf Hoff Hn Hr. destruct (handleGRO_reads udp offset M bufs off outs Ho HM Hwf Hoff Hn Hr) as (bufs' & tw & G & Hg & Hw & Hs).
  unfold NativeTun_Write. rewrite Hg. destruct (write_each_all file_write (map (packet bufs' (offset - virtioNetHdrLen)) tw) [] 0 [] Hf) as [t Ht].
  exists (map (packet bufs' (offset - virtioNetHdrLen)) tw), t. split; [exact Ht|]. split.
  - apply Forall_forall. intros w (j & -> & Hj)%list_elem_of_fmap. destruct (Hw j Hj) as (n & wr & Hrd & _). eauto.
  - rewrite <- inputs_bufs, <- Hs, map_map. rewrite (map_ext_in _ G); [done|]. intros j Hj%list_elem_of_In.
    destruct (Hw j Hj) as (n & wr & Hrd & Hc). unfold read_back. by rewrite Hrd.
Qed.
