(* ===== verification/OffloadSample.v ===== *)
(** * Offload: concrete batches

    Packets with valid checksums on a little-endian machine, the witnesses of the
    offload theorems and the cases in which the code departs from what its
    comments promise. *)
From S2P Require Import Prelude GoNet GoBytes Checksum Offload GRO OffloadProofs GROProofs GROInv GRORoundtrip.
Open Scope Z_scope.

#[local] Instance little_endian : NativeEndian := false.

Definition sample_ip (proto total : Z) : list Z :=
  let ip := [0x45; 0] ++ be_bytes 2 total ++ [0; 1; 0x40; 0; 64; proto; 0; 0; 10; 0; 0; 1; 10; 0; 0; 2] in
  put16 10 (not16 (checksum ip 0)) ip.
Definition sample_sealed (proto at_csum : Z) (th payload : list Z) : list Z :=
  let ip := sample_ip proto (20 + len th + len payload) in
  let ps := pseudoHeaderChecksumNoFold proto (range 12 16 ip) (range 16 20 ip) (len th + len payload) in
  ip ++ put16 at_csum (not16 (checksum (th ++ payload) ps)) th ++ payload.
Definition sample_tcp (seq flags : Z) (payload : list Z) : list Z :=
  sample_sealed IPPROTO_TCP 16 ([0x1f; 0x90; 0xc3; 0x50] ++ be_bytes 4 seq ++ be_bytes 4 7 ++ [0x50; flags; 0x20; 0; 0; 0; 0; 0]) payload.
Definition sample_udp (payload : list Z) : list Z :=
  sample_sealed IPPROTO_UDP 6 ([0; 53; 0xc3; 0x50] ++ be_bytes 2 (8 + len payload) ++ [0; 0]) payload.
Definition sample_buf (pkt : list Z) : Buf := mkBuf (replicate 16 0 ++ pkt) 300.
Definition sample_batch : list Buf := Eval vm_compute in
  map sample_buf [sample_tcp 104 0x10 [5; 6; 7; 8]; sample_udp [1; 2; 3]; sample_tcp 100 0x10 [1; 2; 3; 4]; sample_udp [4; 5];
                  sample_tcp 108 0x18 [9; 10]; sample_ip 1 20 ++ [8; 0; 0; 0; 0; 0; 0; 0]].
Definition accept_all (d : list (list Z)) (p : list Z) : write_outcome := Written (len p).
Definition sample_outs : list (list Z) := replicate 6 (replicate 310 0).

(** Three TCP segments out of order, two datagrams and an ICMP packet. *)
Lemma gro_roundtrip_witness : exists ws total, NativeTun_Write true true accept_all sample_batch 16 = (ws, total, []) /\
  Forall (fun w => exists n written, handleVirtioRead w sample_outs 10 = Some (n, None, written)) ws /\
  concat (map (fun w => concat (map (content true) (read_back 10 sample_outs w))) ws) ≡ₚ
  concat (map (fun b => content true (from 16 (b_data b))) sample_batch).
Proof.
  refine (gro_roundtrip true 16 300 sample_batch accept_all 10 sample_outs _ _ _ _ _ _ _); [lia|lia| | |lia| |].
  - repeat (apply Forall_cons; split; [split; [apply bytes_decide; vm_compute; reflexivity|vm_compute; intuition discriminate]|]). constructor.
  - intros d p. exists (len p). reflexivity.
  - vm_compute. lia.
  - repeat (apply Forall_cons; split; [vm_compute; discriminate|]). constructor.
Defined.

(** A TCP packet of ten payload bytes, to be cut every four. *)
Definition sample_gso : list Z := Eval vm_compute in sample_tcp 0xfffffffe 0x18 [0; 1; 2; 3; 4; 5; 6; 7; 8; 9].
Definition sample_hdr : virtioNetHdr := mkHdr 1 VIRTIO_NET_HDR_GSO_TCPV4 40 4 20 16.
Lemma sample_splittable : splittable sample_gso sample_hdr false.
Proof. split; [apply bytes_decide; vm_compute; reflexivity|..]; vm_compute; intuition discriminate. Qed.


Lemma gsoSplit_too_many_witness : exists written,
  gsoSplit sample_gso sample_hdr (replicate 2 (replicate 50 0)) 6 false = Some (1, Some ErrTooManySegments, written) /\ length written = 2%nat.
Proof.
  refine (gsoSplit_too_many sample_gso sample_hdr (replicate 2 (replicate 50 0)) 6 false sample_splittable _ _ _); [lia| |vm_compute; reflexivity].
  repeat (apply Forall_cons; split; [vm_compute; discriminate|]). constructor.
Defined.

(** A pushed segment that arrives before the one it follows: what is put in front
    of it has no PSH, and the merged packet has lost the flag. *)
Definition pushed_batch : list Buf := Eval vm_compute in map sample_buf [sample_tcp 104 0x18 [5; 6; 7; 8]; sample_tcp 100 0x10 [1; 2; 3; 4]].
Lemma prepend_loses_push : exists w total, NativeTun_Write true true accept_all pushed_batch 16 = ([w], total, []) /\
  map (fun b => at_ (from 16 (b_data b)) 33) pushed_batch = [0x18; 0x10] /\
  map (fun s => at_ s 33) (read_back 10 sample_outs w) = [0x10; 0x10].
Proof. do 2 eexists. split; [vm_compute; reflexivity|]. split; vm_compute; reflexivity. Qed.

(** A datagram whose checksum works out as zero is sent with zero, which for UDP
    means that there is none (RFC 768 has 0xffff sent instead). *)
Definition zero_sum_payload : list Z := Eval vm_compute in be_bytes 2 (get16 (sample_udp [0; 0]) 26) ++ [1].
Definition zero_sum_inp : list Z := Eval vm_compute in sample_udp zero_sum_payload.
Lemma udp_zero_checksum_sent : exists n seg rest,
  gsoSplit zero_sum_inp (mkHdr 1 VIRTIO_NET_HDR_GSO_UDP_L4 28 2 20 6) (replicate 2 (replicate 50 0)) 0 false = Some (n, None, seg :: rest) /\
  range 26 28 (range 0 seg.1 seg.2) = [0; 0].
Proof. do 3 eexists. split; vm_compute; reflexivity. Qed.
