(* ===== verification/TcpBind.v ===== *)
(** * wireguard-go/conn/bind_tcp.go: WireGuard over TCP

    [TcpBind] carries datagrams over TCP connections, each as a length of four
    bytes and the bytes. The state is the bind with everything its goroutines
    reach: sockets, one reader per connection, the buffers of the pool with their
    owners, the channels of each [Open]. A goroutine moves in steps ([event]),
    cut where it takes a lock, blocks, or calls the network; what the network
    answers is part of the event. *)
From S2P Require Import Prelude GoStrings GoNet GoBytes.
Open Scope Z_scope.

Definition MaxSegmentSize : Z := 65535.
Definition recvChan_cap : nat := 1024.
Definition IdealBatchSize : nat := 128.

(** [netip.AddrPort.String], for addresses without a zone. *)
Definition AddrPort_String (a : AddrPort) : string :=
  let ip := ap_Addr a in
  (if is_v4 ip then v4_string ip
   else if bool_decide (take 12 ip = v4InV6Prefix) then "[::ffff:" +:+ v4_string (drop 12 ip) +:+ "]"
   else "[" +:+ v6_string ip +:+ "]") +:+ ":" +:+ utoa (ap_Port a).

(** ** Framing *)
Definition reqLen_Len (l : list Z) : Z :=
  l !!! 0%nat + Z.shiftl (l !!! 1%nat) 8 + Z.shiftl (l !!! 2%nat) 16 + Z.shiftl (l !!! 3%nat) 24.
Definition reqLen_FromLen (len : Z) : list Z :=
  [u8 (Z.land len 0xff); u8 (Z.land (Z.shiftr len 8) 0xff); u8 (Z.land (Z.shiftr len 16) 0xff);
   u8 (Z.land (Z.shiftr len 24) 0xff)].
(** What [Send] writes for one buffer ([net.Buffers{l[:], buf}]). *)
Definition frame (buf : list Z) : list Z := reqLen_FromLen (Z.of_nat (length buf)) ++ buf.

(** ** State *)
(** A [net.TCPConn]: its peer, the bytes that have arrived and how many were read, whether
    the other side closed it, and the bytes written. *)
Record Sock := mkSock {
  s_remote : AddrPort; s_open : bool; s_mark : Z; s_arrived : list Z; s_pos : nat; s_hup : bool; s_out : list Z }.
Record recvData := mkRecv { rd_buff : list Z; rd_size : Z; rd_endpoint : AddrPort }.
(** Where the goroutine of [handleConn] stands; a length has been read in
    [PBody], and in [PSend] the operand of the send has been evaluated. *)
Inductive phase := PHeader | PBody (size : Z) | PSend (chan : option nat).
Record Reader := mkReader { r_endpoint : AddrPort; r_closeChan : option nat; r_data : nat; r_phase : phase }.

Record TcpBind := mkBind {
  tcpConnMap : option (gmap string nat);
  dialing : option (gmap string nat);
  listener : option Z;
  closed : bool;
  fwmark : Z;
  dataPool : list nat;
  recvChan : option nat;
  closeChan : option nat }.
(** [NewTCPBind] *)
Definition NewTCPBind : TcpBind := mkBind None None None false 0 [] None None.

(** [w_pending]: connections accepted or dialed and not stored yet, with the dial
    lock to be released; [w_dials]: the locks held during a dial. The logs at the
    end: packets put into a channel, taken from one, and handed to a write. *)
Record World := mkWorld {
  bind : TcpBind;
  socks : gmap nat Sock;
  readers : gmap nat Reader;
  datas : gmap nat recvData;
  queues : gmap nat (list nat);
  closedChans : gset nat;
  w_pending : gmap nat (AddrPort * option nat);
  w_dials : gmap nat AddrPort;
  next : nat;
  delivered : list (nat * nat * (AddrPort * list Z));
  received : list (nat * (AddrPort * list Z));
  attempted : list (nat * list Z) }.
Definition new_world : World := mkWorld NewTCPBind ∅ ∅ ∅ ∅ ∅ ∅ ∅ 0 [] [] [].

Definition set_bind (f : TcpBind -> TcpBind) (w : World) : World :=
  mkWorld (f (bind w)) (socks w) (readers w) (datas w) (queues w) (closedChans w) (w_pending w) (w_dials w) (next w)
    (delivered w) (received w) (attempted w).
Definition set_sock (s : nat) (f : Sock -> Sock) (w : World) : World :=
  mkWorld (bind w) (alter f s (socks w)) (readers w) (datas w) (queues w) (closedChans w) (w_pending w) (w_dials w) (next w)
    (delivered w) (received w) (attempted w).
Definition set_readers (f : gmap nat Reader -> gmap nat Reader) (w : World) : World :=
  mkWorld (bind w) (socks w) (f (readers w)) (datas w) (queues w) (closedChans w) (w_pending w) (w_dials w) (next w)
    (delivered w) (received w) (attempted w).
Definition set_data (d : nat) (f : recvData -> recvData) (w : World) : World :=
  mkWorld (bind w) (socks w) (readers w) (alter f d (datas w)) (queues w) (closedChans w) (w_pending w) (w_dials w) (next w)
    (delivered w) (received w) (attempted w).
Definition set_pending (f : gmap nat (AddrPort * option nat) -> gmap nat (AddrPort * option nat)) (w : World) : World :=
  mkWorld (bind w) (socks w) (readers w) (datas w) (queues w) (closedChans w) (f (w_pending w)) (w_dials w) (next w)
    (delivered w) (received w) (attempted w).
Definition set_dials (f : gmap nat AddrPort -> gmap nat AddrPort) (w : World) : World :=
  mkWorld (bind w) (socks w) (readers w) (datas w) (queues w) (closedChans w) (w_pending w) (f (w_dials w)) (next w)
    (delivered w) (received w) (attempted w).
Definition set_connMap (m : option (gmap string nat)) (t : TcpBind) : TcpBind :=
  mkBind m (dialing t) (listener t) (closed t) (fwmark t) (dataPool t) (recvChan t) (closeChan t).
Definition set_pool (p : list nat) (t : TcpBind) : TcpBind :=
  mkBind (tcpConnMap t) (dialing t) (listener t) (closed t) (fwmark t) p (recvChan t) (closeChan t).

Definition ErrClosed : error := Errorf "use of closed network connection" [].
Definition ErrShortWrite : error := Errorf "short write" [].

(** ** The connection table *)
Definition conn_map (t : TcpBind) : gmap string nat := default ∅ (tcpConnMap t).
Definition loadConn (endpoint : string) (t : TcpBind) : option nat :=
  if closed t then None else m ← tcpConnMap t; m !! endpoint.
(** [entry.conn.Close()]: closing twice is an error. *)
Definition sock_close (s : nat) (w : World) : World * option error :=
  match socks w !! s with
  | Some c => if s_open c then (set_sock s (fun c => mkSock (s_remote c) false (s_mark c) (s_arrived c) (s_pos c) (s_hup c) (s_out c)) w, None)
              else (w, Some ErrClosed)
  | None => (w, Some ErrClosed)
  end.
Definition deleteConn (endpoint : string) (entry : nat) (w : World) : World :=
  match tcpConnMap (bind w) with
  | Some m => if bool_decide (m !! endpoint = Some entry) then set_bind (set_connMap (Some (delete endpoint m))) w else w
  | None => w
  end.
Definition storeConn (endpoint : string) (entry : nat) (w : World) : World :=
  if closed (bind w) then (sock_close entry w).1
  else
    let m := conn_map (bind w) in
    let w := match m !! endpoint with
             | Some old => if bool_decide (old = entry) then w else (sock_close old w).1
             | None => w
             end in
    set_bind (set_connMap (Some (<[endpoint := entry]> m))) w.

(** ** Buffers: [t.dataPool.Get()] and [Put] *)
Definition new_data : recvData := mkRecv (replicate (Z.to_nat MaxSegmentSize) 0) 0 (mkAddrPort [] 0).
Definition pool_Get (w : World) : nat * World :=
  match dataPool (bind w) with
  | d :: p => (d, set_bind (set_pool p) w)
  | [] => (next w, mkWorld (bind w) (socks w) (readers w) (<[next w := new_data]> (datas w)) (queues w) (closedChans w)
             (w_pending w) (w_dials w) (S (next w)) (delivered w) (received w) (attempted w))
  end.
Definition pool_Put (d : nat) (w : World) : World := set_bind (fun t => set_pool (d :: dataPool t) t) w.

(** [go func() {...}] of [handleConn], up to its first read. *)
Definition handleConn (entry : nat) (endpoint : AddrPort) (w : World) : World :=
  let cc := closeChan (bind w) in
  let '(d, w) := pool_Get w in
  set_readers <[entry := mkReader endpoint cc d PHeader]> w.
Definition set_phase (s : nat) (p : phase) (w : World) : World :=
  set_readers (alter (fun r => mkReader (r_endpoint r) (r_closeChan r) (r_data r) p) s) w.
(** The goroutine returns: its buffer goes back, then the deferred clean-up. *)
Definition reader_exit (s : nat) (w : World) : World :=
  match readers w !! s with
  | Some r =>
      let w := set_readers (delete s) (pool_Put (r_data r) w) in
      (sock_close s (deleteConn (AddrPort_String (r_endpoint r)) s w)).1
  | None => w
  end.
Definition unread (c : Sock) : list Z := drop (s_pos c) (s_arrived c).
Definition advance (n : nat) (c : Sock) : Sock :=
  mkSock (s_remote c) (s_open c) (s_mark c) (s_arrived c) (s_pos c + n) (s_hup c) (s_out c).

Section tcp.
(** The socket option of the platform, 0 where there is none. *)
Context (fwmarkIoctl : Z).

(** ** Opening and closing *)
Definition Open (port : Z) (ListenTCP : Z -> result Z) (w : World) : World * result Z :=
  let n := next w in
  let r := ListenTCP port in
  let t := mkBind (Some ∅) (Some ∅) (match r with Ok p => Some p | Err _ => None end) false (fwmark (bind w))
             (dataPool (bind w)) (Some n) (Some n) in
  (mkWorld t (socks w) (readers w) (datas w) (<[n := []]> (queues w)) (closedChans w) (w_pending w) (w_dials w) (S n)
     (delivered w) (received w) (attempted w), r).

(** [for _, entry := range conns { e := entry.conn.Close(); if e != nil { err = e } }] *)
Fixpoint close_all (conns : list nat) (err : option error) (w : World) : World * option error :=
  match conns with
  | [] => (w, err)
  | s :: conns => let '(w, e) := sock_close s w in close_all conns (match e with Some _ => e | None => err end) w
  end.
Definition Close (w : World) : World * option error :=
  let t := bind w in
  if closed t then (w, None)
  else
    let conns := (map_to_list (conn_map t)).*2 in
    let w := set_bind (fun t => mkBind None (dialing t) None true (fwmark t) (dataPool t) (recvChan t) None) w in
    let '(w, err) := close_all conns None w in
    (mkWorld (bind w) (socks w) (readers w) (datas w) (queues w)
       (match closeChan t with Some c => {[c]} ∪ closedChans w | None => closedChans w end) (w_pending w) (w_dials w) (next w)
       (delivered w) (received w) (attempted w), err).

(** ** Marks; [sockopt] is what setting the option on a socket reports. *)
Definition mark_sock (mark : Z) (c : Sock) : Sock := mkSock (s_remote c) (s_open c) mark (s_arrived c) (s_pos c) (s_hup c) (s_out c).
Fixpoint mark_all (mark : Z) (sockopt : nat -> option error) (conns : list nat) (w : World) : World * option error :=
  match conns with
  | [] => (w, None)
  | s :: conns =>
      match sockopt s with
      | Some e => (w, Some e)
      | None => mark_all mark sockopt conns (set_sock s (mark_sock mark) w)
      end
  end.
Definition SetMark (mark : Z) (sockopt : nat -> option error) (w : World) : World * option error :=
  if fwmarkIoctl =? 0 then (w, None)
  else
    let w := set_bind (fun t => mkBind (tcpConnMap t) (dialing t) (listener t) (closed t) mark (dataPool t) (recvChan t) (closeChan t)) w in
    mark_all mark sockopt (map_to_list (conn_map (bind w))).*2 w.
Definition applyMark (s : nat) (sockopt : option error) (w : World) : World * option error :=
  if fwmarkIoctl =? 0 then (w, None)
  else if fwmark (bind w) =? 0 then (w, None)
  else match sockopt with Some e => (w, Some e) | None => (set_sock s (mark_sock (fwmark (bind w))) w, None) end.

(** A connection comes from the network: it is marked, and waits to be stored, or
    closed when the option cannot be set. *)
Definition new_conn (ep : AddrPort) (lock : option nat) (sockopt : option error) (w : World) : World * option error :=
  let s := next w in
  let w := mkWorld (bind w) (<[s := mkSock ep true 0 [] 0 false []]> (socks w)) (readers w) (datas w) (queues w) (closedChans w)
             (w_pending w) (w_dials w) (S s) (delivered w) (received w) (attempted w) in
  match applyMark s sockopt w with
  | (w, Some e) => ((sock_close s w).1, Some e)
  | (w, None) => (set_pending <[s := (ep, lock)]> w, None)
  end.
(** [t.storeConn(...); t.handleConn(entry, endpoint)], and the dial lock is released. *)
Definition store_and_handle (s : nat) (w : World) : option World :=
  '(ep, lock) ← w_pending w !! s;
  let w := set_pending (delete s) w in
  let w := handleConn s ep (storeConn (AddrPort_String ep) s w) in
  Some (match lock with Some m => set_dials (delete m) w | None => w end).

(** ** Sending *)
(** [t.dialLock(endpoint)]: the mutex of the endpoint. *)
Definition dialLock (endpoint : string) (w : World) : nat * World :=
  let d := default ∅ (dialing (bind w)) in
  match d !! endpoint with
  | Some m => (m, w)
  | None =>
      let m := next w in
      (m, mkWorld (mkBind (tcpConnMap (bind w)) (Some (<[endpoint := m]> d)) (listener (bind w)) (closed (bind w)) (fwmark (bind w))
                     (dataPool (bind w)) (recvChan (bind w)) (closeChan (bind w)))
            (socks w) (readers w) (datas w) (queues w) (closedChans w) (w_pending w) (w_dials w) (S m)
            (delivered w) (received w) (attempted w))
  end.
Inductive conn_result := Conn (s : nat) | ConnErr (e : error) | ConnDial (lock : nat).
(** [getConn] up to its call of [Dial]; [None] while another goroutine holds the
    dial lock. *)
Definition getConn (endpoint : AddrPort) (w : World) : option (World * conn_result) :=
  let key := AddrPort_String endpoint in
  match loadConn key (bind w) with
  | Some s => Some (w, Conn s)
  | None =>
      let '(m, w) := dialLock key w in
      match w_dials w !! m with
      | Some _ => None
      | None =>
          if closed (bind w) then Some (w, ConnErr ErrClosed)
          else match loadConn key (bind w) with
               | Some s => Some (w, Conn s)
               | None => Some (set_dials <[m := endpoint]> w, ConnDial m)
               end
      end
  end.
(** [Dial] returns; on an error the lock is released. *)
Definition dialed (m : nat) (dial sockopt : option error) (w : World) : option (World * option error) :=
  ep ← w_dials w !! m;
  match dial with
  | Some e => Some (set_dials (delete m) w, Some e)
  | None => match new_conn ep (Some m) sockopt w with
            | (w, Some e) => Some (set_dials (delete m) w, Some e)
            | (w, None) => Some (w, None)
            end
  end.

(** [msg.WriteTo(entry.conn)] writes [n] bytes and reports an error, or not; a
    closed connection takes none. *)
Definition append_out (b : list Z) (c : Sock) : Sock := mkSock (s_remote c) (s_open c) (s_mark c) (s_arrived c) (s_pos c) (s_hup c) (s_out c ++ b).
Definition log_attempt (s : nat) (buf : list Z) (w : World) : World :=
  mkWorld (bind w) (socks w) (readers w) (datas w) (queues w) (closedChans w) (w_pending w) (w_dials w) (next w)
    (delivered w) (received w) (attempted w ++ [(s, buf)]).
Definition write_frame (s : nat) (buf : list Z) (outcome : nat * option error) (w : World) : World * (nat * option error) :=
  match socks w !! s with
  | Some c =>
      if s_open c then
        let n := (outcome.1 `min` length (frame buf))%nat in
        (log_attempt s buf (set_sock s (append_out (take n (frame buf))) w), (n, outcome.2))
      else (w, (0%nat, Some ErrClosed))
  | None => (w, (0%nat, Some ErrClosed))
  end.
(** The loop of [Send] over the connection it got. *)
Fixpoint send_bufs (bufs : list (list Z)) (outcomes : list (nat * option error)) (endpoint : AddrPort) (s : nat) (w : World)
    : World * option error :=
  match bufs with
  | [] => (w, None)
  | buf :: bufs =>
      let '(w, (n, err)) := write_frame s buf (default (length (frame buf), None) (head outcomes)) w in
      if negb (bool_decide (err = None)) || negb (n =? 4 + length buf)%nat then
        let w := (sock_close s (deleteConn (AddrPort_String endpoint) s w)).1 in
        (w, Some (default ErrShortWrite err))
      else send_bufs bufs (tail outcomes) endpoint s w
  end.

(** ** Receiving *)
Definition chan_closed (cc : option nat) (w : World) : bool :=
  match cc with Some c => bool_decide (c ∈ closedChans w) | None => false end.
(** [copyReceivedData]: what the caller has in its buffer, and the buffer is
    returned to the pool. *)
Definition copyReceivedData (buf : list Z) (d : nat) (w : World) : World * (list Z * Z * AddrPort) :=
  match datas w !! d with
  | Some data =>
      (pool_Put d w, (list_inserts 0 (take (Z.to_nat (rd_size data)) (rd_buff data)) buf, rd_size data, rd_endpoint data))
  | None => (w, (buf, 0, mkAddrPort [] 0))
  end.
Fixpoint receive_from (q : nat) (ds : list nat) (bufs : list (list Z)) (w : World) : World * list (list Z * Z * AddrPort) :=
  match ds, bufs with
  | d :: ds, buf :: bufs =>
      let '(w, x) := copyReceivedData buf d w in
      let w := mkWorld (bind w) (socks w) (readers w) (datas w) (<[q := ds]> (queues w)) (closedChans w) (w_pending w) (w_dials w)
                 (next w) (delivered w) (received w ++ [(q, (x.2, take (Z.to_nat x.1.2) x.1.1))]) (attempted w) in
      let '(w, rest) := receive_from q ds bufs w in
      (w, x :: rest)
  | _, _ => (w, [])
  end.
(** The function [makeReceive] made under the channel [cc]; when both branches of
    its first [select] are ready, either may run ([first]: the close). [None]
    while it blocks. *)
Definition receive (cc : option nat) (first : bool) (bufs : list (list Z)) (w : World)
    : option (World * result (list (list Z * Z * AddrPort))) :=
  match bufs with
  | [] => Some (w, Ok [])
  | _ =>
      let ds := default [] (q ← recvChan (bind w); queues w !! q) in
      let is_closed := chan_closed cc w in
      if is_closed && (first || bool_decide (ds = [])) then Some (w, Err ErrClosed)
      else q ← recvChan (bind w);
           match ds with
           | [] => None
           | _ => let '(w, l) := receive_from q ds bufs w in Some (w, Ok l)
           end
  end.
Definition BatchSize (linux : bool) : nat := if linux then IdealBatchSize else 1.

(** ** The steps *)
Inductive event :=
| EvOpen (port : Z) (ListenTCP : Z -> result Z)
| EvClose
| EvSetMark (mark : Z) (sockopt : nat -> option error)
| EvAccept (ep : AddrPort) (sockopt : option error)
| EvStore (s : nat)
| EvGetConn (ep : AddrPort)
| EvDialed (m : nat) (dial sockopt : option error)
| EvSend (s : nat) (ep : AddrPort) (bufs : list (list Z)) (outcomes : list (nat * option error))
| EvArrive (s : nat) (bytes : list Z)
| EvHangUp (s : nat)
| EvReadHeader (s : nat)
| EvReadBody (s : nat)
| EvDeliver (s : nat)
| EvExit (s : nat)
| EvReceive (cc : option nat) (first : bool) (bufs : list (list Z)).

(** [io.ReadFull] of the four bytes of the length, and the check of the length. *)
Definition read_header (s : nat) (w : World) : option World :=
  r ← readers w !! s; c ← socks w !! s;
  match r_phase r with
  | PHeader =>
      if s_open c && (4 <=? length (unread c))%nat then
        let size := reqLen_Len (take 4 (unread c)) in
        let w := set_sock s (advance 4) w in
        Some (if (size <? 0) || (MaxSegmentSize <? size) then reader_exit s w else set_phase s (PBody size) w)
      else None
  | _ => None
  end.
(** [io.ReadFull] of the packet into the buffer. *)
Definition read_body (s : nat) (w : World) : option World :=
  r ← readers w !! s; c ← socks w !! s;
  match r_phase r with
  | PBody size =>
      let n := Z.to_nat size in
      if s_open c && (n <=? length (unread c))%nat then
        let w := set_sock s (advance n) w in
        let w := set_data (r_data r) (fun d => mkRecv (list_inserts 0 (take n (unread c)) (rd_buff d)) size (r_endpoint r)) w in
        Some (set_phase s (PSend (recvChan (bind w))) w)
      else None
  | _ => None
  end.
(** [t.recvChan <- data], while there is room, and the next buffer. *)
Definition deliver (s : nat) (w : World) : option World :=
  r ← readers w !! s;
  match r_phase r with
  | PSend (Some q) =>
      ds ← queues w !! q; d ← datas w !! r_data r;
      if (length ds <? recvChan_cap)%nat then
        let w := mkWorld (bind w) (socks w) (readers w) (datas w) (<[q := ds ++ [r_data r]]> (queues w)) (closedChans w)
                   (w_pending w) (w_dials w) (next w)
                   (delivered w ++ [(s, q, (rd_endpoint d, take (Z.to_nat (rd_size d)) (rd_buff d)))]) (received w) (attempted w) in
        let '(d', w) := pool_Get w in
        Some (set_readers <[s := mkReader (r_endpoint r) (r_closeChan r) d' PHeader]> w)
      else None
  | _ => None
  end.
(** Whether the goroutine can return: a read that fails, or the close channel. *)
Definition can_exit (s : nat) (w : World) : bool :=
  match readers w !! s, socks w !! s with
  | Some r, Some c =>
      match r_phase r with
      | PHeader => negb (s_open c) || (s_hup c && (length (unread c) <? 4)%nat)
      | PBody size => negb (s_open c) || (s_hup c && (length (unread c) <? Z.to_nat size)%nat)
      | PSend _ => chan_closed (r_closeChan r) w
      end
  | _, _ => false
  end.

Definition step (e : event) (w : World) : option World :=
  match e with
  | EvOpen port listen => Some (Open port listen w).1
  | EvClose => Some (Close w).1
  | EvSetMark mark sockopt => Some (SetMark mark sockopt w).1
  | EvAccept ep sockopt => _ ← listener (bind w); Some (new_conn ep None sockopt w).1
  | EvStore s => store_and_handle s w
  | EvGetConn ep => fst <$> getConn ep w
  | EvDialed m dial sockopt => fst <$> dialed m dial sockopt w
  | EvSend s ep bufs outcomes =>
      c ← socks w !! s;
      if bool_decide (AddrPort_String (s_remote c) = AddrPort_String ep) && bool_decide (w_pending w !! s = None)
      then Some (send_bufs bufs outcomes ep s w).1 else None
  | EvArrive s bytes =>
      c ← socks w !! s;
      if s_hup c then None
      else Some (set_sock s (fun c => mkSock (s_remote c) (s_open c) (s_mark c) (s_arrived c ++ bytes) (s_pos c) (s_hup c) (s_out c)) w)
  | EvHangUp s => _ ← socks w !! s; Some (set_sock s (fun c => mkSock (s_remote c) (s_open c) (s_mark c) (s_arrived c) (s_pos c) true (s_out c)) w)
  | EvReadHeader s => read_header s w
  | EvReadBody s => read_body s w
  | EvDeliver s => deliver s w
  | EvExit s => if can_exit s w then Some (reader_exit s w) else None
  | EvReceive cc first bufs => fst <$> receive cc first bufs w
  end.
End tcp.
