(* ===== verification/TcpBindProofs.v ===== *)
(** * WireGuard over TCP: packets arrive whole, and no connection is left behind

    Over any run of the steps of TcpBind.v: [streams], the accounting of bytes,
    packets and buffers, and [owned], who is responsible for an open connection. *)
From stdpp Require Import functions.
From S2P Require Import Prelude GoStrings GoNet GoBytes TcpBind.
Open Scope Z_scope.

(** ** Framing *)
Definition frames (ps : list (list Z)) : list Z := concat (map frame ps).
#[local] Arguments frames : simpl never.
Lemma frames_one p : frames [p] = frame p.
Proof. apply app_nil_r. Qed.
Lemma frames_app a b : frames (a ++ b) = frames a ++ frames b.
Proof. unfold frames. by rewrite map_app, concat_app. Qed.
Lemma land_ff z : Z.land z 0xff = z mod 256.
Proof. exact (Z.land_ones z 8 ltac:(lia)). Qed.
Lemma FromLen_le n : reqLen_FromLen n = le_bytes 4 n.
Proof.
  unfold reqLen_FromLen, u8. rewrite !land_ff, !Z.shiftr_div_pow2 by lia. cbn [le_bytes]. change (2 ^ 8) with 256.
  rewrite !Zmod_mod, !Zdiv_Zdiv by lia. done.
Qed.
Lemma Len_le b0 b1 b2 b3 : reqLen_Len [b0; b1; b2; b3] = le_val [b0; b1; b2; b3].
Proof. unfold reqLen_Len. cbn. rewrite !Z.shiftl_mul_pow2 by lia. lia. Qed.
Lemma Len_FromLen n : 0 <= n < 2 ^ 32 -> reqLen_Len (reqLen_FromLen n) = n.
Proof. intros Hn. rewrite FromLen_le. etrans; [apply Len_le|]. exact (le_val_bytes 4 n Hn). Qed.
Lemma FromLen_Len h : length h = 4%nat -> bytes_ok h -> reqLen_FromLen (reqLen_Len h) = h /\ 0 <= reqLen_Len h < 2 ^ 32.
Proof.
  intros Hl Hb. destruct h as [|b0 [|b1 [|b2 [|b3 [|]]]]]; try done. rewrite Len_le, FromLen_le.
  repeat (apply Forall_cons in Hb as [? Hb]). unfold is_byte in *. split; [|cbn; lia].
  cbn [le_val le_bytes]. repeat f_equal; div_lia.
Qed.
Lemma frame_length p : length (frame p) = (4 + length p)%nat.
Proof. done. Qed.
Lemma frame_inj p q l l' : Z.of_nat (length p) < 2 ^ 32 -> Z.of_nat (length q) < 2 ^ 32 ->
  frame p ++ l = frame q ++ l' -> p = q /\ l = l'.
Proof.
  intros Hp Hq He. unfold frame in He. rewrite <- !app_assoc in He. apply app_inj_1 in He as [Hh He]; [|done].
  apply (f_equal reqLen_Len) in Hh. rewrite !Len_FromLen in Hh by lia. apply app_inj_1 in He; [done|lia].
Qed.
(** A packet is recovered from the stream once all its bytes are there. *)
Lemma frames_prefix ds ps : Forall (fun p => Z.of_nat (length p) < 2 ^ 32) ds -> Forall (fun p => Z.of_nat (length p) < 2 ^ 32) ps ->
  frames ds `prefix_of` frames ps -> ds `prefix_of` ps.
Proof.
  intros Hd. revert ps. induction Hd as [|d ds Hd Hds IH]; intros ps Hp [l Hl]; [apply prefix_nil|].
  destruct Hp as [|p ps Hp Hps]; [done|]. unfold frames in Hl. cbn [map concat] in Hl. rewrite <- app_assoc in Hl.
  symmetry in Hl. apply frame_inj in Hl as [<- Hl]; [|done..]. apply prefix_cons, IH; [done|]. by exists l.
Qed.

(** ** The packets of a connection and of a channel *)
Definition delivered_by (s : nat) (w : World) : list (list Z) :=
  omap (fun '(s', _, v) => if decide (s' = s) then Some v.2 else None) (delivered w).
Definition delivered_on (q : nat) (w : World) : list (AddrPort * list Z) :=
  omap (fun '(_, q', v) => if decide (q' = q) then Some v else None) (delivered w).
Definition received_on (q : nat) (w : World) : list (AddrPort * list Z) :=
  omap (fun '(q', v) => if decide (q' = q) then Some v else None) (received w).
Definition attempted_by (s : nat) (w : World) : list (list Z) :=
  omap (fun '(s', p) => if decide (s' = s) then Some p else None) (attempted w).
(** What a buffer holds. *)
Definition held (d : recvData) : AddrPort * list Z := (rd_endpoint d, take (Z.to_nat (rd_size d)) (rd_buff d)).
Definition waiting (q : nat) (w : World) : list (AddrPort * list Z) :=
  omap (fun d => held <$> datas w !! d) (default [] (queues w !! q)).

(** ** The accounting of streams and buffers *)
(** Where a buffer is: every buffer is in one place. *)
Inductive place := InPool | AtReader (s : nat) | InQueue (q : nat).
Definition partial (r : Reader) (datas : gmap nat recvData) (l : list Z) : Prop :=
  match r_phase r with
  | PHeader => l = []
  | PBody size => length l = 4%nat /\ reqLen_Len l = size
  | PSend _ => exists d, datas !! r_data r = Some d /\ l = frame (held d).2 /\ rd_endpoint d = r_endpoint r
  end.
Definition phase_ok (r : Reader) : Prop := match r_phase r with PBody size => 0 <= size <= MaxSegmentSize | _ => True end.
Record streams (own : nat -> place) (w : World) : Prop := {
  st_data : forall d x, datas w !! d = Some x -> (d < next w)%nat /\ length (rd_buff x) = Z.to_nat MaxSegmentSize /\ 0 <= rd_size x <= MaxSegmentSize;
  st_pool : NoDup (dataPool (bind w)) /\ forall d, d ∈ dataPool (bind w) -> own d = InPool /\ is_Some (datas w !! d);
  st_reader : forall s r, readers w !! s = Some r -> own (r_data r) = AtReader s /\ is_Some (datas w !! r_data r) /\ is_Some (socks w !! s) /\ phase_ok r;
  st_queue : forall q ds, queues w !! q = Some ds -> (q < next w)%nat /\ NoDup ds /\ forall d, d ∈ ds -> own d = InQueue q /\ is_Some (datas w !! d);
  st_chan : forall q, delivered_on q w = received_on q w ++ waiting q w;
  st_fresh : forall n, (next w <= n)%nat -> socks w !! n = None /\ delivered_on n w = [];
  st_none : forall s, socks w !! s = None -> delivered_by s w = [] /\ attempted_by s w = [];
  st_read : forall s c, socks w !! s = Some c -> bytes_ok (s_arrived c) -> (s_pos c <= length (s_arrived c))%nat /\
    match readers w !! s with
    | Some r => exists l, take (s_pos c) (s_arrived c) = frames (delivered_by s w) ++ l /\ partial r (datas w) l
    | None => frames (delivered_by s w) `prefix_of` s_arrived c
    end;
  st_out : forall s c, socks w !! s = Some c -> s_out c `prefix_of` frames (attempted_by s w) /\
    (s_open c = true -> s_out c = frames (attempted_by s w));
  st_pending : forall s, is_Some (w_pending w !! s) -> readers w !! s = None /\ delivered_by s w = [] /\
    exists c, socks w !! s = Some c /\ s_pos c = 0%nat;
  st_len : Forall (fun x => (length x.2.2 <= Z.to_nat MaxSegmentSize)%nat) (delivered w) }.

(** Steps that touch none of this. *)
Definition sock_le (c c' : Sock) : Prop :=
  s_remote c' = s_remote c /\ s_arrived c' = s_arrived c /\ s_pos c' = s_pos c /\ s_out c' = s_out c /\ (s_open c' = true -> s_open c = true).
Record quiet (w w' : World) : Prop := {
  q_readers : readers w' = readers w; q_datas : datas w' = datas w; q_queues : queues w' = queues w;
  q_pool : dataPool (bind w') = dataPool (bind w);
  q_logs : delivered w' = delivered w /\ received w' = received w /\ attempted w' = attempted w;
  q_next : (next w <= next w')%nat;
  q_pending : forall s, is_Some (w_pending w' !! s) -> is_Some (w_pending w !! s);
  q_socks : forall s, option_Forall2 sock_le (socks w !! s) (socks w' !! s) }.
Lemma sock_le_refl c : sock_le c c.
Proof. by split_and!. Qed.
Lemma same_socks (m : gmap nat Sock) s : option_Forall2 sock_le (m !! s) (m !! s).
Proof. destruct (m !! s); constructor. apply sock_le_refl. Qed.
Lemma quiet_refl w : quiet w w.
Proof. split; try done. intros s. apply same_socks. Qed.
Lemma quiet_trans a b c : quiet a b -> quiet b c -> quiet a c.
Proof.
  intros [A1 A2 A3 A4 (A5 & A5' & A5'') A6 Ap A7] [B1 B2 B3 B4 (B5 & B5' & B5'') B6 Bp B7]. split; try congruence; [split_and!; congruence|lia|auto|].
  intros s. specialize (A7 s). specialize (B7 s). destruct A7 as [x y Hxy|]; inversion B7; subst; constructor.
  unfold sock_le in *. destruct Hxy as (?&?&?&?&?). destruct_and!. split_and!; try congruence. tauto.
Qed.
Lemma quiet_streams own w w' : quiet w w' -> streams own w -> streams own w'.
Proof.
  intros [Hr Hd Hq Hp (Hl1 & Hl2 & Hl3) Hn Hpd Hs] [D P R Q C F N Rd O Pd Ln].
  assert (forall q, waiting q w' = waiting q w) as Hw by (intros; unfold waiting; by rewrite Hd, Hq).
  assert (forall s, delivered_by s w' = delivered_by s w) as Hdb by (intros; unfold delivered_by; by rewrite Hl1).
  assert (forall s, attempted_by s w' = attempted_by s w) as Hab by (intros; unfold attempted_by; by rewrite Hl3).
  assert (forall s, socks w !! s = None <-> socks w' !! s = None) as Hnone by (intros s; destruct (Hs s); done).
  split; rewrite ?Hr, ?Hd, ?Hq, ?Hp.
  - intros d x Hx. destruct (D d x Hx) as (?&?&?). split_and!; [lia|done|lia|lia].
  - exact P.
  - intros s r Hx. destruct (R s r Hx) as (?&?&[c Hc]&?). split_and!; [done..| |done]. specialize (Hs s). rewrite Hc in Hs. inversion Hs; eauto.
  - intros q ds Hx. destruct (Q q ds Hx) as (?&?&?). split_and!; [lia|done..].
  - intros q. rewrite Hw. unfold delivered_on, received_on. rewrite Hl1, Hl2. apply C.
  - intros n ?. destruct (F n ltac:(lia)) as [? ?]. split; [by apply Hnone|]. unfold delivered_on. by rewrite Hl1.
  - intros s ?%Hnone. rewrite Hdb, Hab. by apply N.
  - intros s c Hx. specialize (Hs s). rewrite Hx in Hs. inversion Hs as [c0 ? (E0 & E1 & E2 & E3 & _) E4|]. subst.
    rewrite E1, E2, Hdb. apply Rd. by rewrite <- E4.
  - intros s c Hx. specialize (Hs s). rewrite Hx in Hs. inversion Hs as [c0 ? (E0 & E1 & E2 & E3 & Eo) E4|]. subst.
    rewrite E3, Hab. destruct (O s c0 ltac:(by rewrite <- E4)) as [? ?]. split; [done|]. intros ?%Eo. auto.
  - intros s Hx%Hpd. destruct (Pd s Hx) as (? & ? & c & Hc & ?). rewrite Hdb. split_and!; [done..|].
    specialize (Hs s). rewrite Hc in Hs. inversion Hs as [? c' (E0 & E1 & E2 & _)|]. exists c'. split; [done|congruence].
  - by rewrite Hl1.
Qed.

Create HintDb quiet.
#[local] Hint Resolve quiet_refl : quiet.
Lemma quiet_bind f w : dataPool (f (bind w)) = dataPool (bind w) -> quiet w (set_bind f w).
Proof. intros Hf. split; try done. intros s. apply same_socks. Qed.
Lemma quiet_sock s f w : (forall c, sock_le c (f c)) -> quiet w (set_sock s f w).
Proof.
  intros Hf. split; try done. intros s'. cbn. rewrite lookup_alter. case_decide as Hd; [subst|apply same_socks].
  destruct (socks w !! s'); constructor. apply Hf.
Qed.
Lemma quiet_close s w : quiet w (sock_close s w).1.
Proof.
  unfold sock_close. destruct (socks w !! s) as [c|]; [|apply quiet_refl]. destruct (s_open c); [|apply quiet_refl].
  apply quiet_sock. intros ?. by split_and!.
Qed.
Lemma quiet_delete k s w : quiet w (deleteConn k s w).
Proof. unfold deleteConn. destruct (tcpConnMap (bind w)); [|apply quiet_refl]. case_bool_decide; [by apply quiet_bind|apply quiet_refl]. Qed.
Lemma quiet_store k s w : quiet w (storeConn k s w).
Proof.
  unfold storeConn. destruct (closed (bind w)); [apply quiet_close|]. eapply quiet_trans; [|by apply quiet_bind].
  destruct (conn_map (bind w) !! k); [|apply quiet_refl]. case_bool_decide; [apply quiet_refl|apply quiet_close].
Qed.
Lemma quiet_pending s w : quiet w (set_pending (delete s) w).
Proof. split; try done; [|intros ?; apply same_socks]. intros s' [x Hx]. cbn in Hx. apply lookup_delete_Some in Hx as [_ Hx]. eauto. Qed.
Lemma quiet_dials f w : quiet w (set_dials f w).
Proof. split; try done. intros s. apply same_socks. Qed.
#[local] Hint Resolve quiet_bind quiet_sock quiet_close quiet_delete quiet_store quiet_pending quiet_dials : quiet.
Lemma quiet_close_all l err w : quiet w (close_all l err w).1.
Proof.
  revert err w. induction l as [|s l IH]; intros err w; cbn [close_all]; [apply quiet_refl|].
  pose proof (quiet_close s w) as H. destruct (sock_close s w) as [w' e]. eapply quiet_trans; [exact H|apply IH].
Qed.
Lemma quiet_Close w : quiet w (Close w).1.
Proof.
  unfold Close. destruct (closed (bind w)); [apply quiet_refl|].
  match goal with |- context [close_all ?l ?e ?v] => pose proof (quiet_close_all l e v) as H; destruct (close_all l e v) as [w' err] end.
  eapply quiet_trans; [eapply quiet_trans; [|exact H]; by apply quiet_bind|]. split; try done. intros s. apply same_socks.
Qed.
Lemma quiet_mark mark opt l w : quiet w (mark_all mark opt l w).1.
Proof.
  revert w. induction l as [|s l IH]; intros w; cbn [mark_all]; [apply quiet_refl|]. destruct (opt s); [apply quiet_refl|].
  eapply quiet_trans; [|apply IH]. apply quiet_sock. intros c. by split_and!.
Qed.
Lemma quiet_SetMark fw mark opt w : quiet w (SetMark fw mark opt w).1.
Proof. unfold SetMark. destruct (fw =? 0); [apply quiet_refl|]. eapply quiet_trans; [|apply quiet_mark]. by apply quiet_bind. Qed.
Lemma quiet_applyMark fw s opt w : quiet w (applyMark fw s opt w).1.
Proof.
  unfold applyMark. destruct (fw =? 0); [apply quiet_refl|]. destruct (_ =? 0); [apply quiet_refl|].
  destruct opt; [apply quiet_refl|]. apply quiet_sock. intros c. by split_and!.
Qed.
Lemma quiet_dialLock k w : quiet w (dialLock k w).2.
Proof.
  unfold dialLock. destruct (default ∅ (dialing (bind w)) !! k); [apply quiet_refl|].
  split; try done; [cbn; lia|]. intros s. apply same_socks.
Qed.
Lemma quiet_getConn ep w w' : fst <$> getConn ep w = Some w' -> quiet w w'.
Proof.
  unfold getConn. destruct (loadConn _ (bind w)); [by intros [= <-]; apply quiet_refl|].
  pose proof (quiet_dialLock (AddrPort_String ep) w) as H. destruct (dialLock (AddrPort_String ep) w) as [m w1]. cbn [snd] in H.
  destruct (w_dials w1 !! m); [done|]. destruct (closed (bind w1)); [by intros [= <-]|].
  destruct (loadConn _ (bind w1)); intros [= <-]; [done|]. eapply quiet_trans; [exact H|apply quiet_dials].
Qed.

(** A new connection has carried nothing. *)
Lemma streams_new_sock own w ep : streams own w ->
  streams own (mkWorld (bind w) (<[next w := mkSock ep true 0 [] 0 false []]> (socks w)) (readers w) (datas w) (queues w) (closedChans w)
                 (w_pending w) (w_dials w) (S (next w)) (delivered w) (received w) (attempted w)).
Proof.
  intros [D P R Q C F N Rd O Pd Ln]. destruct (F (next w) ltac:(lia)) as [Hs _]. destruct (N _ Hs) as [Hd Ha].
  split; cbn [bind readers datas queues socks next].
  - intros d x Hx. destruct (D d x Hx) as (?&?&?). split_and!; [lia|done|lia|lia].
  - exact P.
  - intros s r Hx. destruct (R s r Hx) as (?&?&?&?). split_and!; [done..| |done]. rewrite lookup_insert. by case_decide.
  - intros q ds Hx. destruct (Q q ds Hx) as (?&?&?). split_and!; [lia|done..].
  - exact C.
  - intros n Hn. rewrite lookup_insert_ne by lia. apply F. lia.
  - intros s. rewrite lookup_insert. case_decide; [done|]. apply N.
  - intros s c. rewrite lookup_insert. case_decide as He; [subst|apply Rd]. intros [= <-] _. split; [cbn; lia|].
    destruct (readers w !! next w) as [r|] eqn:Hr; [destruct (R _ _ Hr) as (_&_&[? ?]&_); congruence|].
    unfold delivered_by in *. cbn. rewrite Hd. apply prefix_nil.
  - intros s c. rewrite lookup_insert. case_decide as He; [subst|apply O]. intros [= <-]. unfold attempted_by in *. cbn. rewrite Ha.
    split; [apply prefix_nil|done].
  - intros s Hx. destruct (Pd s Hx) as (?&?& c & Hc & ?). split_and!; [done..|]. exists c. split; [|done].
    rewrite lookup_insert_ne; [done|]. intros <-. congruence.
  - exact Ln.
Qed.
Lemma streams_wait own w s x : streams own w -> readers w !! s = None -> delivered_by s w = [] ->
  (exists c, socks w !! s = Some c /\ s_pos c = 0%nat) -> streams own (set_pending <[s := x]> w).
Proof.
  intros [D P R Q C F N Rd O Pd Ln] Hr Hd Hc. split; try done. intros s'. cbn. rewrite lookup_insert. case_decide; [by subst|apply Pd].
Qed.
Lemma streams_new_conn own fw ep lock opt w : streams own w -> streams own (new_conn fw ep lock opt w).1.
Proof.
  intros Hst. pose proof (streams_new_sock _ _ ep Hst) as H. unfold new_conn.
  match type of H with streams _ ?v => pose proof (quiet_applyMark fw (next w) opt v) as Hm; destruct (applyMark fw (next w) opt v) as [w2 [e|]] end.
  - eapply quiet_streams, H. eapply quiet_trans; [exact Hm|apply quiet_close].
  - destruct (st_fresh _ _ Hst (next w) ltac:(lia)) as [Hs _]. cbn [fst] in *. apply streams_wait; [by eapply quiet_streams| | |].
    + rewrite (q_readers _ _ Hm). cbn. destruct (readers w !! next w) eqn:Hr; [|done].
      destruct (st_reader _ _ Hst _ _ Hr) as (_ & _ & [? ?] & _). congruence.
    + unfold delivered_by. destruct (q_logs _ _ Hm) as [-> _]. by apply (st_none _ _ Hst).
    + pose proof (q_socks _ _ Hm (next w)) as Hq. cbn [socks] in Hq. rewrite lookup_insert_eq in Hq. inversion Hq as [? c (_&_&Ep&_) Ec|].
      exists c. split; [done|]. by rewrite Ep.
Qed.

(** ** Buffers change hands *)
Definition nowhere (d : nat) (w : World) : Prop :=
  d ∉ dataPool (bind w) /\ (forall s r, readers w !! s = Some r -> r_data r <> d) /\ (forall q ds, queues w !! q = Some ds -> d ∉ ds).
Lemma streams_own own w d x : streams own w -> nowhere d w -> streams (<[d := x]> own) w.
Proof.
  intros [D P R Q C F N Rd O Pd Ln] (Np & Nr & Nq). split; try done.
  - destruct P as [Hn Hp]. split; [done|]. intros d' Hd. destruct (Hp d' Hd). rewrite fn_lookup_insert_ne; [done|]. by intros ->.
  - intros s r Hr. destruct (R s r Hr) as (?&?&?). rewrite fn_lookup_insert_ne; [done|]. intros He. by apply (Nr s r Hr).
  - intros q ds Hq. destruct (Q q ds Hq) as (?&?&Hd). split_and!; [done..|]. intros d' Hi. rewrite fn_lookup_insert_ne; [by apply Hd|].
    intros ->. by apply (Nq q ds Hq).
Qed.
Lemma streams_new_data own w : streams own w ->
  streams own (mkWorld (bind w) (socks w) (readers w) (<[next w := new_data]> (datas w)) (queues w) (closedChans w)
             (w_pending w) (w_dials w) (S (next w)) (delivered w) (received w) (attempted w)) /\ nowhere (next w) w.
Proof.
  intros [D P R Q C F N Rd O Pd Ln].
  assert (datas w !! next w = None) as Hn.
  { destruct (datas w !! next w) as [x|] eqn:Hx; [|done]. destruct (D _ _ Hx). lia. }
  assert (forall d, is_Some (datas w !! d) -> is_Some (<[next w := new_data]> (datas w) !! d)) as Hi.
  { intros d Hd. rewrite lookup_insert. by case_decide. }
  assert (forall d, is_Some (datas w !! d) -> d <> next w) as Hne by (intros d [? ?] ->; congruence).
  split; [split; cbn [bind readers datas queues socks next w_pending]|split_and!].
  - intros d x. rewrite lookup_insert. case_decide as He; [subst; intros [= <-]; cbn -[replicate]; rewrite length_replicate; unfold MaxSegmentSize; split_and!; lia|].
    intros Hx. destruct (D d x Hx) as (?&?&?). split_and!; [lia|done|lia|lia].
  - destruct P as [? Hp]. split; [done|]. intros d Hd. destruct (Hp d Hd). auto.
  - intros s r Hx. destruct (R s r Hx) as (?&?&?). auto.
  - intros q ds Hx. destruct (Q q ds Hx) as (?&?&Hd). split_and!; [lia|done|]. intros d ?. destruct (Hd d); auto.
  - intros q. unfold waiting. cbn [queues datas]. unfold delivered_on, received_on in *. cbn. rewrite C. f_equal. unfold waiting.
    destruct (queues w !! q) as [ds|] eqn:Hq; [|done]. cbn. destruct (Q q ds Hq) as (_&_&Hd). clear -Hd Hn Hne.
    induction ds as [|d ds IH]; [done|]. cbn. rewrite lookup_insert_ne; [|intros He; apply (Hne d); [apply Hd; left|done]].
    rewrite IH; [done|]. intros d' ?. apply Hd. by right.
  - intros n ?. apply F. lia.
  - exact N.
  - intros s c Hs Hb. destruct (Rd s c Hs Hb) as [? Hr]. split; [done|]. destruct (readers w !! s) as [r|]; [|done].
    destruct Hr as (l & Hl & Hp). exists l. split; [done|]. unfold partial in *. destruct (r_phase r); [done|done|].
    destruct Hp as (d & Hd & ?). exists d. split; [|done]. rewrite lookup_insert_ne; [done|]. intros He. apply (Hne (r_data r)); [by eexists|done].
  - exact O.
  - exact Pd.
  - exact Ln.
  - intros Hp. destruct P as [_ P]. by apply (Hne (next w)); [apply P|].
  - intros s r Hr He. apply (Hne (r_data r)); [apply (R s r Hr)|done].
  - intros q ds Hq Hi'. destruct (Q q ds Hq) as (_&_&Hd). by apply (Hne (next w)); [apply Hd|].
Qed.
Lemma streams_set_pool own w p : streams own w -> NoDup p -> (forall d, d ∈ p -> own d = InPool /\ is_Some (datas w !! d)) ->
  streams own (set_bind (set_pool p) w).
Proof. intros [D P R Q C F N Rd O Pd Ln] Hn Hp. by split. Qed.

(** What [pool_Get] leaves alone. *)
Definition same_but_pool (w w' : World) : Prop :=
  readers w' = readers w /\ socks w' = socks w /\ queues w' = queues w /\ w_pending w' = w_pending w /\ delivered w' = delivered w /\
  (forall d x, datas w !! d = Some x -> datas w' !! d = Some x).
Lemma streams_Get own w s : streams own w -> exists own', streams own' (pool_Get w).2 /\ own' (pool_Get w).1 = AtReader s /\
  is_Some (datas (pool_Get w).2 !! (pool_Get w).1) /\ nowhere (pool_Get w).1 (pool_Get w).2 /\ same_but_pool w (pool_Get w).2.
Proof.
  intros H. unfold pool_Get. destruct (dataPool (bind w)) as [|d p] eqn:Hp; cbn [fst snd].
  - destruct (streams_new_data _ _ H) as [Hs Hn]. exists (<[next w := AtReader s]> own).
    split; [by apply streams_own|]. rewrite fn_lookup_insert. split_and!; [done| |done|].
    + cbn. rewrite lookup_insert_eq. by eexists.
    + split_and!; try done. intros d x Hx. cbn. rewrite lookup_insert_ne; [done|]. destruct (st_data _ _ H _ _ Hx). lia.
  - pose proof (st_pool _ _ H) as [Hn Hin]. rewrite Hp in Hn, Hin. apply NoDup_cons in Hn as [Hd Hn].
    destruct (Hin d ltac:(left)) as [Ho Hx]. exists (<[d := AtReader s]> own).
    assert (nowhere d (set_bind (set_pool p) w)) as Hw.
    { split_and!; [done| |].
      - intros s' r Hr He. destruct (st_reader _ _ H s' r Hr) as [Hr' _]. rewrite He in Hr'. congruence.
      - intros q ds Hq Hi. destruct (st_queue _ _ H q ds Hq) as (_&_&Hds). destruct (Hds d Hi). congruence. }
    split; [apply streams_own; [|done]; apply streams_set_pool; [done|done|]; intros d' ?; apply Hin; by right|].
    rewrite fn_lookup_insert. split_and!; try done.
Qed.
Lemma streams_Put own w d : streams own w -> nowhere d w -> is_Some (datas w !! d) -> streams (<[d := InPool]> own) (pool_Put d w).
Proof.
  intros H Hw Hd. pose proof (streams_own _ _ _ InPool H Hw) as H'. pose proof (st_pool _ _ H') as [Hn Hp].
  unfold pool_Put. refine (quiet_streams _ (set_bind (set_pool (d :: dataPool (bind w))) w) _ _ _).
  { split; try done. intros s. apply same_socks. }
  apply streams_set_pool; [done| |]; [apply NoDup_cons; by destruct Hw|].
  intros d' [->|Hi]%elem_of_cons; [by rewrite fn_lookup_insert|by apply Hp].
Qed.

(** A reader in front of a header, and one that is gone. *)
Lemma streams_install own w s r : streams own w -> own (r_data r) = AtReader s -> is_Some (datas w !! r_data r) ->
  w_pending w !! s = None -> is_Some (socks w !! s) -> phase_ok r ->
  (forall c, socks w !! s = Some c -> bytes_ok (s_arrived c) ->
     exists l, take (s_pos c) (s_arrived c) = frames (delivered_by s w) ++ l /\ partial r (datas w) l) ->
  streams own (set_readers <[s := r]> w).
Proof.
  intros [D P R Q C F N Rd O Pd Ln] Ho Hd Hpn Hs Hph Ht. split; try done; cbn.
  - intros s' r'. rewrite lookup_insert. case_decide; [subst; by intros [= <-]|apply R].
  - intros s' c Hc Hb. destruct (Rd s' c Hc Hb) as [? Hr]. split; [done|]. rewrite lookup_insert. case_decide as He; [subst|done].
    by apply Ht.
  - intros s' Hx. rewrite lookup_insert. case_decide as He; [subst; destruct Hx; congruence|by apply Pd].
Qed.
Lemma streams_gone own w s : streams own w -> streams own (set_readers (delete s) w).
Proof.
  intros [D P R Q C F N Rd O Pd Ln]. split; try done; cbn.
  - intros s' r Hr. apply lookup_delete_Some in Hr as [_ Hr]. by apply R.
  - intros s' c Hc Hb. destruct (Rd s' c Hc Hb) as [? Hr]. split; [done|]. rewrite lookup_delete. case_decide as He; [subst|done].
    destruct (readers w !! s') as [r|]; [|done]. destruct Hr as (l & Hl & _). exists (l ++ drop (s_pos c) (s_arrived c)).
    rewrite <- (take_drop (s_pos c) (s_arrived c)) at 1. rewrite Hl. by rewrite <- app_assoc.
  - intros s' Hx. destruct (Pd s' Hx) as (Hr & ?). split; [|done]. rewrite lookup_delete. by case_decide.
Qed.
(** The clean-up of a goroutine, from the state without it. *)
Lemma streams_cleanup own w s r : readers w !! s = Some r -> streams own (set_readers (delete s) w) ->
  nowhere (r_data r) (set_readers (delete s) w) -> is_Some (datas w !! r_data r) -> exists own', streams own' (reader_exit s w).
Proof.
  intros Hr H Hw Hd. unfold reader_exit. rewrite Hr. eexists.
  eapply quiet_streams; [eapply quiet_trans; [apply quiet_delete|apply quiet_close]|]. exact (streams_Put _ _ _ H Hw Hd).
Qed.
Lemma streams_alone own w s r : streams own w -> readers w !! s = Some r -> nowhere (r_data r) (set_readers (delete s) w).
Proof.
  intros H Hr. destruct (st_reader _ _ H s r Hr) as (Ho & Hd & _). split_and!; cbn.
  - intros Hi. destruct (st_pool _ _ H) as [_ Hp]. destruct (Hp _ Hi). congruence.
  - intros s' r' Hr' He. apply lookup_delete_Some in Hr' as [Hne Hr']. destruct (st_reader _ _ H s' r' Hr') as (Ho' & _).
    rewrite He, Ho in Ho'. by injection Ho' as ->.
  - intros q ds Hq Hi. destruct (st_queue _ _ H q ds Hq) as (_&_&Hds). destruct (Hds _ Hi). congruence.
Qed.
Lemma streams_exit own w s : streams own w -> exists own', streams own' (reader_exit s w).
Proof.
  intros H. destruct (readers w !! s) as [r|] eqn:Hr; [|unfold reader_exit; rewrite Hr; by eexists].
  destruct (st_reader _ _ H s r Hr) as (_ & Hd & _).
  exact (streams_cleanup _ _ _ _ Hr (streams_gone _ _ s H) (streams_alone _ _ _ _ H Hr) Hd).
Qed.

(** ** Reading *)
Lemma set_phase_insert s p w r : readers w !! s = Some r ->
  set_phase s p w = set_readers <[s := mkReader (r_endpoint r) (r_closeChan r) (r_data r) p]> w.
Proof.
  intros Hr. unfold set_phase, set_readers. f_equal. apply map_eq. intros s'. rewrite lookup_alter, lookup_insert.
  case_decide; [subst|done]. by rewrite Hr.
Qed.
Lemma streams_set_sock own w s c f (v := set_sock s f w) : streams own w -> socks w !! s = Some c -> s_out (f c) = s_out c ->
  (s_open (f c) = true -> s_open c = true) -> s_pos c = s_pos (f c) \/ w_pending w !! s = None ->
  (bytes_ok (s_arrived (f c)) -> (s_pos (f c) <= length (s_arrived (f c)))%nat /\
    match readers w !! s with
    | Some r => exists l, take (s_pos (f c)) (s_arrived (f c)) = frames (delivered_by s w) ++ l /\ partial r (datas w) l
    | None => frames (delivered_by s w) `prefix_of` s_arrived (f c)
    end) -> streams own v.
Proof.
  intros [D P R Q C F N Rd O Pd Ln] Hc Ho Hop Hp Ht. subst v.
  assert (forall s', socks (set_sock s f w) !! s' = None <-> socks w !! s' = None) as Hnone.
  { intros s'. cbn. rewrite lookup_alter. case_decide; [subst; by rewrite Hc|done]. }
  split; try done; cbn.
  - intros s' r Hr. destruct (R s' r Hr) as (?&?&[? ?]&?). split_and!; [done..| |done]. rewrite lookup_alter. case_decide; [subst; rewrite Hc|]; by eexists.
  - intros n Hn. destruct (F n Hn) as [? ?]. split; [by apply Hnone|done].
  - intros s' ?%Hnone. by apply N.
  - intros s' c'. rewrite lookup_alter. case_decide as He; [subst; rewrite Hc; intros [= <-]; by apply Ht|apply Rd].
  - intros s' c'. rewrite lookup_alter. case_decide as He; [subst; rewrite Hc; intros [= <-]|apply O].
    destruct (O s' c Hc) as [? Hoo]. rewrite Ho. split; [done|]. intros ?. apply Hoo. auto.
  - intros s' Hx. destruct (Pd s' Hx) as (?&?& c' & Hc' & Hz). split_and!; [done..|]. rewrite lookup_alter.
    case_decide as He; [subst; rewrite Hc|by eexists]. eexists. split; [done|]. rewrite Hc in Hc'. injection Hc' as <-.
    destruct Hp as [<-|Hp]; [done|]. destruct Hx; congruence.
Qed.
Lemma not_pending own w s r : streams own w -> readers w !! s = Some r -> w_pending w !! s = None.
Proof. intros H Hr. destruct (w_pending w !! s) eqn:He; [|done]. destruct (st_pending _ _ H s) as [? _]; [by eexists|congruence]. Qed.
Lemma streams_set_data own w d f : streams own w -> nowhere d w ->
  (forall x, length (rd_buff x) = Z.to_nat MaxSegmentSize -> length (rd_buff (f x)) = Z.to_nat MaxSegmentSize /\ 0 <= rd_size (f x) <= MaxSegmentSize) ->
  streams own (set_data d f w).
Proof.
  intros [D P R Q C F N Rd O Pd Ln] (_ & Nr & Nq) Hf.
  assert (forall d', is_Some (datas w !! d') -> is_Some (alter f d (datas w) !! d')) as Hi.
  { intros d' [x Hx]. rewrite lookup_alter. case_decide; subst; rewrite Hx; by eexists. }
  split; try done; cbn.
  - intros d' x. rewrite lookup_alter. case_decide as He; [subst|apply D]. destruct (datas w !! d') as [x'|] eqn:Hx; [|done].
    intros [= <-]. destruct (D d' x' Hx) as (?&?&?). destruct (Hf x') as [? ?]; [done|]. split_and!; [done|done|lia|lia].
  - destruct P as [? Hp]. split; [done|]. intros d' Hd. destruct (Hp d' Hd). auto.
  - intros s r Hx. destruct (R s r Hx) as (?&?&?). auto.
  - intros q ds Hx. destruct (Q q ds Hx) as (?&?&Hd). split_and!; [done..|]. intros d' ?. destruct (Hd d'); auto.
  - intros q. unfold waiting. cbn [queues datas set_data]. unfold delivered_on, received_on in *. cbn. rewrite C. f_equal. unfold waiting.
    destruct (queues w !! q) as [ds|] eqn:Hq; [|done]. cbn. pose proof (Nq q ds Hq) as Hd. clear -Hd.
    induction ds as [|d' ds IH]; [done|]. cbn. apply not_elem_of_cons in Hd as [? Hd]. rewrite lookup_alter_ne by done. by rewrite IH.
  - intros s c Hs Hb. destruct (Rd s c Hs Hb) as [? Hr]. split; [done|]. destruct (readers w !! s) as [r|] eqn:Hrs; [|done].
    destruct Hr as (l & Hl & Hp). exists l. split; [done|]. unfold partial in *. destruct (r_phase r); [done|done|].
    rewrite lookup_alter_ne; [done|]. intros ->. by eapply Nr.
Qed.

Lemma take_unread c n : take (s_pos c + n) (s_arrived c) = take (s_pos c) (s_arrived c) ++ take n (unread c).
Proof. unfold unread. by rewrite take_take_drop. Qed.
(** Reading on without a reader that has a share in the stream. *)
Lemma streams_advance own w s n c : streams own w -> readers w !! s = None -> w_pending w !! s = None -> socks w !! s = Some c ->
  (n <= length (unread c))%nat -> streams own (set_sock s (advance n) w).
Proof.
  intros H Hr Hp Hc Hn. eapply streams_set_sock; [done|exact Hc|done|done|by right|]. rewrite Hr. cbn. intros Hb.
  destruct (st_read _ _ H s c Hc Hb) as [? Hx]. rewrite Hr in Hx. unfold unread in Hn. rewrite length_drop in Hn. split; [lia|done].
Qed.
Lemma insert_after_delete s r w : set_readers <[s := r]> (set_readers (delete s) w) = set_readers <[s := r]> w.
Proof. unfold set_readers. cbn. f_equal. by rewrite insert_delete_eq. Qed.

Lemma streams_read_header own w s w' : streams own w -> read_header s w = Some w' -> exists own', streams own' w'.
Proof.
  intros H. unfold read_header. destruct (readers w !! s) as [r|] eqn:Hr; [|done]. destruct (socks w !! s) as [c|] eqn:Hc; [|done]. cbn.
  destruct (r_phase r) eqn:Hph; [|done..]. destruct (s_open c && _) eqn:Ho; [|done]. intros [= <-].
  apply andb_true_iff in Ho as [_ Hn%Nat.leb_le]. pose proof (not_pending _ _ _ _ H Hr) as Hp.
  destruct (st_reader _ _ H s r Hr) as (Hown & Hd & _).
  assert (streams own (set_readers (delete s) (set_sock s (advance 4) w))) as Hg.
  { change (streams own (set_sock s (advance 4) (set_readers (delete s) w))).
    apply (streams_advance _ _ s 4 c); [by apply streams_gone| |done..]. cbn. apply lookup_delete_eq. }
  destruct (_ || _) eqn:Hbig.
  - apply (streams_cleanup _ (set_sock s (advance 4) w) s r Hr Hg); [|exact Hd].
    exact (streams_alone _ _ _ _ H Hr).
  - apply orb_false_iff in Hbig as [?%Z.ltb_ge ?%Z.ltb_ge]. exists own. rewrite (set_phase_insert _ _ _ r) by done. rewrite <- insert_after_delete.
    apply streams_install; [exact Hg|done|done|done|cbn; by rewrite lookup_alter_eq, Hc|done|].
    cbn. rewrite lookup_alter_eq, Hc. intros c' [= <-] Hb. destruct (st_read _ _ H s c Hc Hb) as [_ Hx].
    rewrite Hr in Hx. destruct Hx as (l & Hl & Hpa). unfold partial in Hpa. rewrite Hph in Hpa. subst l. rewrite app_nil_r in Hl.
    exists (take 4 (unread c)). cbn. rewrite take_unread, Hl. split; [done|].
    split; [|done]. rewrite length_take. lia.
Qed.

Lemma inserts_front (p b : list Z) : (length p <= length b)%nat -> take (length p) (list_inserts 0 p b) = p.
Proof.
  intros Hl. apply list_eq. intros i. rewrite lookup_take. case_decide as Hi.
  - rewrite list_lookup_inserts by lia. by rewrite Nat.sub_0_r.
  - by rewrite lookup_ge_None_2 by lia.
Qed.
Lemma streams_read_body own w s w' : streams own w -> read_body s w = Some w' -> exists own', streams own' w'.
Proof.
  intros H. unfold read_body. destruct (readers w !! s) as [r|] eqn:Hr; [|done]. destruct (socks w !! s) as [c|] eqn:Hc; [|done]. cbn.
  destruct (r_phase r) as [|size|] eqn:Hph; [done| |done]. destruct (s_open c && _) eqn:Ho; [|done].
  set (fill := fun d : recvData => _). intros [= <-]. exists own.
  apply andb_true_iff in Ho as [_ Hn%Nat.leb_le]. pose proof (not_pending _ _ _ _ H Hr) as Hp.
  destruct (st_reader _ _ H s r Hr) as (Hown & [x Hd] & _ & Hok). destruct (st_data _ _ H _ _ Hd) as (_ & Hlen & _).
  unfold phase_ok in Hok. rewrite Hph in Hok. assert (length (take (Z.to_nat size) (unread c)) = Z.to_nat size) as Hlt by (rewrite length_take; lia).
  rewrite (set_phase_insert _ _ _ r) by done. rewrite <- insert_after_delete.
  apply streams_install; [|done|cbn; rewrite lookup_alter_eq, Hd; by eexists|done|cbn; by rewrite lookup_alter_eq, Hc|done|].
  - change (streams own (set_data (r_data r) fill (set_sock s (advance (Z.to_nat size)) (set_readers (delete s) w)))).
    apply streams_set_data; [|exact (streams_alone _ _ _ _ H Hr)|intros y Hy; cbn; by rewrite length_inserts].
    apply (streams_advance _ _ s _ c); [by apply streams_gone| |done..]. cbn. apply lookup_delete_eq.
  - cbn. rewrite lookup_alter_eq, Hc. intros c' [= <-] Hb. destruct (st_read _ _ H s c Hc Hb) as [_ Hx].
    rewrite Hr in Hx. destruct Hx as (l & Hl & Hpa). unfold partial in Hpa. rewrite Hph in Hpa. destruct Hpa as [Hl4 Hsz].
    exists (l ++ take (Z.to_nat size) (unread c)). cbn. rewrite take_unread, Hl, <- app_assoc. split; [done|].
    assert ((held (fill x)).2 = take (Z.to_nat size) (unread c)) as Hheld.
    { pose proof (inserts_front (take (Z.to_nat size) (unread c)) (rd_buff x)) as Hi. rewrite Hlt in Hi. apply Hi. lia. }
    unfold partial. exists (fill x). cbn [r_data r_phase datas set_data]. rewrite lookup_alter_eq, Hd. split_and!; [done| |done].
    change (l ++ take (Z.to_nat size) (unread c) = frame (held (fill x)).2). rewrite Hheld. unfold frame. rewrite Hlt, Z2Nat.id by lia. f_equal.
    assert (bytes_ok (frames (delivered_by s w) ++ l)) as Hbl by (rewrite <- Hl; by apply Forall_take). apply Forall_app in Hbl as [_ Hbl].
    destruct (FromLen_Len l Hl4 Hbl) as [He _]. by rewrite Hsz in He.
Qed.

(** ** The channel *)
Lemma omap_app {A B} (f : A -> option B) l l' : omap f (l ++ l') = omap f l ++ omap f l'.
Proof. induction l as [|x l IH]; [done|]. cbn. destruct (f x); cbn; by rewrite IH. Qed.
(** A packet goes into a channel, its reader has nothing left. *)
Lemma streams_enqueue own w s q d x ds : streams own w -> readers w !! s = None -> nowhere d w -> datas w !! d = Some x ->
  queues w !! q = Some ds ->
  (forall c, socks w !! s = Some c -> bytes_ok (s_arrived c) -> frames (delivered_by s w) ++ frame (held x).2 `prefix_of` s_arrived c) ->
  is_Some (socks w !! s) -> w_pending w !! s = None ->
  streams (<[d := InQueue q]> own)
    (mkWorld (bind w) (socks w) (readers w) (datas w) (<[q := ds ++ [d]]> (queues w)) (closedChans w)
       (w_pending w) (w_dials w) (next w) (delivered w ++ [(s, q, held x)]) (received w) (attempted w)).
Proof.
  intros H Hr Hn Hd Hq Hpre Hs Hpn. destruct (streams_own _ _ _ (InQueue q) H Hn) as [D P R Q C F N Rd O Pd Ln].
  destruct Hn as (_ & _ & Nq). destruct (Q q ds Hq) as (Hqn & Hnd & Hds).
  split; try done; cbn.
  - intros q' ds'. rewrite lookup_insert. case_decide as He; [subst; intros [= <-]|apply Q]. split_and!; [done| |].
    + apply NoDup_app. split_and!; [done| |apply NoDup_singleton]. intros d' Hi ->%list_elem_of_singleton. by apply (Nq _ _ Hq).
    + intros d' [Hi| ->%list_elem_of_singleton]%elem_of_app; [by apply Hds|]. rewrite fn_lookup_insert. by eexists.
  - intros q'. unfold delivered_on, received_on, waiting in *. cbn. rewrite omap_app, C, lookup_insert. cbn. case_decide as He.
    + subst. rewrite Hq. cbn. rewrite omap_app. cbn. rewrite Hd. cbn. by rewrite <- app_assoc.
    + by rewrite app_nil_r.
  - intros n Hn. destruct (F n Hn) as [? Hdel]. split; [done|]. unfold delivered_on in *. cbn. rewrite omap_app, Hdel. cbn.
    rewrite decide_False; [done|]. lia.
  - intros s' Hs'. destruct (N s' Hs') as [Hdel ?]. split; [|done]. unfold delivered_by in *. cbn. rewrite omap_app, Hdel. cbn.
    rewrite decide_False; [done|]. intros ->. destruct Hs; congruence.
  - intros s' c Hc Hb. destruct (Rd s' c Hc Hb) as [? Hx]. split; [done|]. unfold delivered_by in *. cbn. rewrite omap_app. cbn.
    case_decide as He; [subst; rewrite Hr|by rewrite app_nil_r].
    rewrite frames_app, frames_one. by apply Hpre.
  - intros s' Hx. destruct (Pd s' Hx) as (?&Hdel&?). split_and!; [done| |done]. unfold delivered_by in *. cbn. rewrite omap_app, Hdel. cbn.
    rewrite decide_False; [done|]. intros ->. destruct Hx; congruence.
  - apply Forall_app. split; [done|]. apply Forall_singleton. destruct (D d x Hd) as (_ & Hl & _). unfold held. cbn. rewrite length_take. lia.
Qed.
Lemma pool_Get_readers f w : pool_Get (set_readers f w) = ((pool_Get w).1, set_readers f (pool_Get w).2).
Proof. unfold pool_Get. cbn. by destruct (dataPool (bind w)). Qed.
Lemma streams_deliver own w s w' : streams own w -> deliver s w = Some w' -> exists own', streams own' w'.
Proof.
  intros H. unfold deliver. destruct (readers w !! s) as [r|] eqn:Hr; [|done]. cbn.
  destruct (r_phase r) as [| |[q|]] eqn:Hph; [done|done| |done]. destruct (queues w !! q) as [ds|] eqn:Hq; [|done]. cbn.
  destruct (datas w !! r_data r) as [x|] eqn:Hd; [|done]. cbn. destruct (_ <? _)%nat; [|done].
  match goal with |- context [pool_Get ?v] => set (w1 := v) end. intros Hw.
  destruct (st_reader _ _ H s r Hr) as (Hown & _ & [c Hc] & _). pose proof (not_pending _ _ _ _ H Hr) as Hp.
  assert (forall c, socks w !! s = Some c -> bytes_ok (s_arrived c) -> take (s_pos c) (s_arrived c) = frames (delivered_by s w) ++ frame (held x).2) as Ht.
  { intros c' Hc' Hb. destruct (st_read _ _ H s c' Hc' Hb) as [_ Hx]. rewrite Hr in Hx. destruct Hx as (l & Hl & Hpa).
    unfold partial in Hpa. rewrite Hph in Hpa. destruct Hpa as (x' & Hx' & -> & _). rewrite Hd in Hx'. by injection Hx' as <-. }
  assert (streams (<[r_data r := InQueue q]> own) (set_readers (delete s) w1)) as H1.
  { apply (streams_enqueue own (set_readers (delete s) w) s q (r_data r) x ds (streams_gone _ _ s H));
      [cbn; apply lookup_delete_eq|exact (streams_alone _ _ _ _ H Hr)|done|done| |cbn; by rewrite Hc|done].
    intros c' Hc' Hb. eexists (drop (s_pos c') (s_arrived c')). rewrite <- (take_drop (s_pos c') (s_arrived c')) at 1. f_equal. by apply Ht. }
  destruct (streams_Get _ _ s H1) as (own' & H2 & Ho & Hd' & _ & Hrd & Hsk & _ & Hpn & Hdl & _).
  rewrite pool_Get_readers in *. cbn [fst snd] in *. destruct (pool_Get w1) as [d' w2]. injection Hw as <-. cbn [fst snd] in *.
  exists own'. rewrite <- insert_after_delete. cbn in Hsk, Hpn, Hdl. apply streams_install; try done.
  - cbn. by rewrite Hpn.
  - cbn. rewrite Hsk. by eexists.
  - cbn. rewrite Hsk. intros c' Hc' Hb. exists []. rewrite app_nil_r. split; [|done]. unfold delivered_by. cbn. rewrite Hdl, omap_app. cbn.
    rewrite decide_True by done. rewrite frames_app, frames_one. by apply Ht.
Qed.

(** ** The other steps *)
Lemma streams_handle own w s ep : streams own w -> w_pending w !! s = None -> (exists c, socks w !! s = Some c /\ s_pos c = 0%nat) ->
  delivered_by s w = [] -> exists own', streams own' (handleConn s ep w).
Proof.
  intros H Hp (c & Hc & Hz) Hdel. destruct (streams_Get _ _ s H) as (own' & H2 & Ho & Hd' & _ & Hrd & Hsk & _ & Hpn & Hdl & _).
  unfold handleConn. destruct (pool_Get w) as [d w2]. cbn [fst snd] in *. exists own'.
  apply streams_install; cbn; [done|done|done|by rewrite Hpn|rewrite Hsk; by eexists|done|].
  rewrite Hsk. intros c' Hc' _. exists []. rewrite Hc in Hc'. injection Hc' as <-. rewrite Hz. unfold delivered_by in *. by rewrite Hdl, Hdel.
Qed.
Lemma streams_store own w s w' : streams own w -> store_and_handle s w = Some w' -> exists own', streams own' w'.
Proof.
  intros H. unfold store_and_handle. destruct (w_pending w !! s) as [[ep lock]|] eqn:Hp; [|done]. cbn. intros [= <-].
  destruct (st_pending _ _ H s ltac:(by eexists)) as (Hr & Hdel & c & Hc & Hz).
  pose proof (quiet_trans _ _ _ (quiet_pending s w) (quiet_store (AddrPort_String ep) s (set_pending (delete s) w))) as Hq.
  pose proof (q_pending _ _ (quiet_store (AddrPort_String ep) s (set_pending (delete s) w)) s) as Hpn. cbn in Hpn. rewrite lookup_delete_eq in Hpn.
  set (w1 := storeConn _ _ _) in *.
  destruct (streams_handle own w1 s ep) as (own' & H').
  - by eapply quiet_streams.
  - destruct (w_pending w1 !! s) eqn:He; [|done]. by destruct Hpn as [? ?]; [by eexists|].
  - pose proof (q_socks _ _ Hq s) as Hs. rewrite Hc in Hs. inversion Hs as [? c' (_&_&Ep&_) Ec|]. exists c'. split; [done|congruence].
  - unfold delivered_by. destruct (q_logs _ _ Hq) as [-> _]. exact Hdel.
  - exists own'. destruct lock; [|done]. eapply quiet_streams, H'. apply quiet_dials.
Qed.
Lemma streams_Open own w port listen : streams own w -> streams own (Open port listen w).1.
Proof.
  intros [D P R Q C F N Rd O Pd Ln]. assert (queues w !! next w = None) as Hn.
  { destruct (queues w !! next w) as [ds|] eqn:Hq; [|done]. destruct (Q _ _ Hq). lia. }
  split; try done; cbn.
  - intros d x Hx. destruct (D d x Hx) as (?&?&?). split_and!; [lia|done|lia|lia].
  - intros q ds. rewrite lookup_insert. case_decide; [subst; intros [= <-]; split_and!; [lia|constructor|by intros ? ?%elem_of_nil]|].
    intros Hq. destruct (Q q ds Hq) as (?&?&?). split_and!; [lia|done|done].
  - intros q. specialize (C q). unfold delivered_on, received_on, waiting in *. cbn. rewrite C. f_equal. rewrite lookup_insert.
    case_decide; [subst; by rewrite Hn|done].
  - intros n ?. apply F. lia.
Qed.
Lemma received_buf (p buf : list Z) n : length p = n -> (n <= length buf)%nat -> take n (list_inserts 0 p buf) = p.
Proof. intros <-. apply inserts_front. Qed.
Lemma streams_receive_from own w q ds bufs : streams own w -> queues w !! q = Some ds ->
  Forall (fun buf => (Z.to_nat MaxSegmentSize <= length buf)%nat) bufs -> exists own', streams own' (receive_from q ds bufs w).1.
Proof.
  intros H Hq Hb. revert own w ds H Hq. induction Hb as [|buf bufs Hbuf Hb IH]; intros own w ds H Hq; [destruct ds; by eexists|].
  destruct ds as [|d ds]; [by eexists|]. cbn [receive_from].
  destruct (st_queue _ _ H q _ Hq) as (Hqn & Hnd & Hds). apply NoDup_cons in Hnd as [Hni Hnd].
  destruct (Hds d ltac:(left)) as [Hown [x Hx]]. destruct (st_data _ _ H d x Hx) as (_ & Hlen & Hsz).
  unfold copyReceivedData. rewrite Hx. cbn [snd fst].
  rewrite received_buf; [|rewrite length_take; lia|lia].
  match goal with |- context [receive_from q ds bufs ?v] => set (w1 := v) end.
  assert (exists own', streams own' w1) as [own' H1].
  { set (w0 := mkWorld (bind w) (socks w) (readers w) (datas w) (<[q := ds]> (queues w)) (closedChans w) (w_pending w) (w_dials w)
                 (next w) (delivered w) (received w ++ [(q, held x)]) (attempted w)).
    change w1 with (pool_Put d w0). eexists. apply streams_Put; [|split_and!|by eexists].
    - pose proof (st_chan _ _ H) as Hch. destruct H as [D P R Q C F N Rd O Pd Ln]. split; try done; cbn.
      + intros q' ds'. rewrite lookup_insert. case_decide; [subst; intros [= <-]|apply Q].
        split_and!; [done|done|]. intros d' ?. apply Hds. by right.
      + intros q'. unfold received_on, delivered_on, waiting in *. cbn. rewrite C, omap_app, lookup_insert. cbn. case_decide as He.
        * subst. rewrite Hq. cbn. rewrite Hx. cbn. by rewrite <- app_assoc.
        * by rewrite app_nil_r.
    - cbn. intros Hi. destruct (st_pool _ _ H) as [_ Hp]. destruct (Hp _ Hi). congruence.
    - intros s r Hr He. destruct (st_reader _ _ H s r Hr) as (Ho & _). congruence.
    - cbn. intros q' ds'. rewrite lookup_insert. case_decide; [subst; by intros [= <-]|]. intros Hq' Hi.
      destruct (st_queue _ _ H q' ds' Hq') as (_&_&Hd'). destruct (Hd' d Hi). congruence. }
  destruct (IH own' w1 ds H1) as [own'' H2]; [cbn; by rewrite lookup_insert_eq|].
  destruct (receive_from q ds bufs w1) as [w2 rest]. by exists own''.
Qed.
Lemma streams_receive own cc first bufs w w' : streams own w -> fst <$> receive cc first bufs w = Some w' ->
  Forall (fun buf => (Z.to_nat MaxSegmentSize <= length buf)%nat) bufs -> exists own', streams own' w'.
Proof.
  intros H. unfold receive. destruct bufs as [|b bufs']; [intros [= <-]; by eexists|]. set (bufs := b :: bufs'). cbn zeta.
  destruct (_ && _); [intros [= <-]; by eexists|]. destruct (recvChan (bind w)) as [q|]; [|done]. cbn.
  destruct (queues w !! q) as [ds|] eqn:Hq; [|done]. cbn. destruct ds as [|d ds]; [done|]. intros Hw Hb.
  destruct (streams_receive_from own w q (d :: ds) bufs H Hq Hb) as [own' H'].
  destruct (receive_from q (d :: ds) bufs w) as [w2 l]. injection Hw as <-. by exists own'.
Qed.

Lemma streams_write own w s c n buf : streams own w -> socks w !! s = Some c -> s_out c = frames (attempted_by s w) ->
  n = length (frame buf) \/ s_open c = false -> streams own (log_attempt s buf (set_sock s (append_out (take n (frame buf))) w)).
Proof.
  intros [D P R Q C F N Rd O Pd Ln] Hc Ho Hn.
  assert (forall s', attempted_by s' (log_attempt s buf w) = attempted_by s' w ++ (if decide (s = s') then [buf] else [])) as Hat.
  { intros s'. unfold attempted_by. cbn. rewrite omap_app. cbn. by case_decide. }
  assert (forall s', socks (set_sock s (append_out (take n (frame buf))) w) !! s' = None <-> socks w !! s' = None) as Hnone.
  { intros s'. cbn. rewrite lookup_alter. case_decide; [subst; by rewrite Hc|done]. }
  split; try done.
  - intros s' r Hr. destruct (R s' r Hr) as (?&?&Hs&?). split_and!; [done..| |done]. apply not_eq_None_Some.
    intros Hx%Hnone. destruct Hs; congruence.
  - intros k Hk. destruct (F k Hk) as [? ?]. split; [by apply Hnone|done].
  - intros s' Hs%Hnone. destruct (N s' Hs) as [? Ha]. split; [done|]. etrans; [apply (Hat s')|]. rewrite Ha, decide_False; [done|].
    intros ->. congruence.
  - intros s' c'. cbn. rewrite lookup_alter. case_decide; [subst; rewrite Hc; intros [= <-]; exact (Rd s' c Hc)|exact (Rd s' c')].
  - intros s' c'. cbn [socks log_attempt set_sock]. rewrite lookup_alter.
    change (attempted_by s' (log_attempt s buf (set_sock s (append_out (take n (frame buf))) w))) with (attempted_by s' (log_attempt s buf w)).
    rewrite Hat. case_decide as He; [subst; rewrite Hc; intros [= <-]; cbn|rewrite app_nil_r; apply O].
    rewrite Ho, frames_app, frames_one. split; [apply prefix_app; exists (drop n (frame buf)); by rewrite take_drop|].
    intros Hop. destruct Hn as [->|?]; [|congruence]. by rewrite firstn_all.
  - intros s' Hx. destruct (Pd s' Hx) as (?&?& c' & Hc' & Hz). split_and!; [done..|]. cbn. rewrite lookup_alter.
    case_decide; [subst; rewrite Hc; eexists; split; [done|]; cbn; congruence|by eexists].
Qed.
Lemma close_write s k buf n w c : socks w !! s = Some c -> s_open c = true ->
  (sock_close s (deleteConn k s (log_attempt s buf (set_sock s (append_out (take n (frame buf))) w)))).1 =
  log_attempt s buf (set_sock s (append_out (take n (frame buf))) (sock_close s (deleteConn k s w)).1).
Proof.
  intros Hc Ho.
  assert (forall f g : Sock -> Sock, (forall x, f (g x) = g (f x)) -> alter f s (alter g s (socks w)) = alter g s (alter f s (socks w))) as Hcomm.
  { intros f g Hfg. apply map_eq. intros s'. destruct (decide (s = s')) as [->|?]; [by rewrite !lookup_alter_eq, Hc; cbn; rewrite Hfg|by rewrite !lookup_alter_ne]. }
  unfold deleteConn. cbn [bind tcpConnMap log_attempt set_sock]. destruct (tcpConnMap (bind w)) as [m|]; [case_bool_decide|];
    unfold sock_close; cbn; rewrite lookup_alter_eq, Hc; cbn; rewrite Ho; unfold log_attempt, set_sock; cbn; f_equal; by apply Hcomm.
Qed.
Lemma socks_delete k s w : socks (deleteConn k s w) = socks w.
Proof. unfold deleteConn. destruct (tcpConnMap (bind w)); [|done]. by case_bool_decide. Qed.
Lemma closed_after s w c : socks w !! s = Some c ->
  exists c', socks (sock_close s w).1 !! s = Some c' /\ s_open c' = false /\ s_out c' = s_out c.
Proof. intros Hc. unfold sock_close. rewrite Hc. destruct (s_open c) eqn:Ho; cbn; [rewrite lookup_alter_eq|]; rewrite Hc; eexists; split; done. Qed.
Lemma streams_send own w bufs outs ep s : streams own w -> streams own (send_bufs bufs outs ep s w).1.
Proof.
  revert outs w. induction bufs as [|buf bufs IH]; intros outs w H; [done|]. cbn [send_bufs].
  set (oc := default _ _). unfold write_frame. destruct (socks w !! s) as [c|] eqn:Hc.
  2: { cbn. eapply quiet_streams, H. eapply quiet_trans; [apply quiet_delete|apply quiet_close]. }
  destruct (s_open c) eqn:Ho.
  2: { cbn. eapply quiet_streams, H. eapply quiet_trans; [apply quiet_delete|apply quiet_close]. }
  set (n := (oc.1 `min` length (frame buf))%nat). destruct (st_out _ _ H s c Hc) as [_ Hout]. specialize (Hout Ho).
  destruct (negb _ || negb (n =? 4 + length buf)%nat) eqn:Hf; cbn [fst].
  - rewrite (close_write _ _ _ _ _ c) by done.
    assert (quiet w (sock_close s (deleteConn (AddrPort_String ep) s w)).1) as Hq by (eapply quiet_trans; [apply quiet_delete|apply quiet_close]).
    assert (exists c', socks (sock_close s (deleteConn (AddrPort_String ep) s w)).1 !! s = Some c' /\ s_open c' = false /\ s_out c' = s_out c) as (c' & Hc' & Hcl & Hoc).
    { apply closed_after. by rewrite socks_delete. }
    eapply streams_write; [by eapply quiet_streams|exact Hc'| |by right]. rewrite Hoc, Hout. unfold attempted_by. by destruct (q_logs _ _ Hq) as (_&_&->).
  - apply IH. eapply streams_write; [done|done|done|left]. apply orb_false_iff in Hf as [_ Hf]. apply negb_false_iff, Nat.eqb_eq in Hf. by rewrite frame_length.
Qed.
Lemma streams_dialed own fw m dial opt w w' : streams own w -> fst <$> dialed fw m dial opt w = Some w' -> streams own w'.
Proof.
  intros H. unfold dialed. destruct (w_dials w !! m) as [ep|]; [|done]. cbn. destruct dial as [e|].
  - intros [= <-]. eapply quiet_streams, H. apply quiet_dials.
  - pose proof (streams_new_conn own fw ep (Some m) opt w H) as Hn. destruct (new_conn fw ep (Some m) opt w) as [w1 [e|]]; intros [= <-]; [|done].
    eapply quiet_streams, Hn. apply quiet_dials.
Qed.

(** What a caller passes to the receive function: buffers of the size the device
    uses ([MaxSegmentSize]). *)
Definition roomy (e : event) : Prop :=
  match e with EvReceive _ _ bufs => Forall (fun buf => (Z.to_nat MaxSegmentSize <= length buf)%nat) bufs | _ => True end.
Lemma streams_step own fw e w w' : streams own w -> roomy e -> step fw e w = Some w' -> exists own', streams own' w'.
Proof.
  intros H Hr. destruct e; cbn [step].
  - intros [= <-]. exists own. by apply streams_Open.
  - intros [= <-]. exists own. eapply quiet_streams, H. apply quiet_Close.
  - intros [= <-]. exists own. eapply quiet_streams, H. apply quiet_SetMark.
  - destruct (listener (bind w)); [|done]. intros [= <-]. exists own. by apply streams_new_conn.
  - intros Hs. by eapply streams_store.
  - intros Hs. exists own. eapply quiet_streams, H. by eapply quiet_getConn.
  - intros Hs. exists own. by eapply streams_dialed.
  - destruct (socks w !! s); [|done]. cbn. destruct (_ && _); [|done]. intros [= <-]. exists own. by apply streams_send.
  - destruct (socks w !! s) as [c|] eqn:Hc; [|done]. cbn. destruct (s_hup c); [done|]. intros [= <-]. exists own.
    eapply streams_set_sock; [done|exact Hc|done|done|by left|]. cbn. intros Hb. apply Forall_app in Hb as [Hb _].
    destruct (st_read _ _ H s c Hc Hb) as [Hl Hx]. rewrite length_app. split; [lia|]. rewrite take_app_le by done.
    destruct (readers w !! s); [done|]. by apply prefix_app_r.
  - destruct (socks w !! s) as [c|] eqn:Hc; [|done]. intros [= <-]. exists own. eapply quiet_streams, H. apply quiet_sock. intros ?. by split_and!.
  - intros Hs. by eapply streams_read_header.
  - intros Hs. by eapply streams_read_body.
  - intros Hs. by eapply streams_deliver.
  - destruct (can_exit s w); [|done]. intros [= <-]. by eapply streams_exit.
  - intros Hs. by eapply streams_receive.
Qed.

(** ** Runs *)
Inductive reach (fwmarkIoctl : Z) (ok : event -> World -> Prop) : World -> Prop :=
| reach_new : reach fwmarkIoctl ok new_world
| reach_step e w w' : reach fwmarkIoctl ok w -> ok e w -> step fwmarkIoctl e w = Some w' -> reach fwmarkIoctl ok w'.

Lemma streams_new : streams (fun _ => InPool) new_world.
Proof. split; try done; cbn; [split; [apply NoDup_nil_2|by intros ? ?%elem_of_nil]|by intros ? [? ?]]. Qed.
Lemma reach_streams fw ok w : (forall e w, ok e w -> roomy e) -> reach fw ok w -> exists own, streams own w.
Proof.
  intros Hok. induction 1 as [|e w w' _ [own IH] He Hs]; [eexists; apply streams_new|]. by eapply streams_step; eauto.
Qed.

Lemma frames_ok ps : Forall (fun p => bytes_ok p) ps -> bytes_ok (frames ps).
Proof.
  induction 1 as [|p ps Hp _ IH]; [constructor|]. change (bytes_ok (frame p ++ frames ps)). apply Forall_app. split; [|done].
  unfold frame. apply Forall_app. split; [|done]. rewrite FromLen_le. apply le_bytes_ok.
Qed.
Lemma frames_short ps : (length (frames ps) < 4)%nat -> ps = [].
Proof. destruct ps as [|p ps]; [done|]. change (frames (p :: ps)) with (frame p ++ frames ps). rewrite length_app, frame_length. lia. Qed.

(** C10: Whatever reaches one bind of what another wrote on a connection comes out as
    a prefix of the packets handed to [Send], none changed, lost, repeated or cut,
    in the order of the channel; and once all has arrived and the reader waits for
    more, as exactly these packets. The reader's buffer is never overwritten while
    it waits in the channel. *)
Theorem tcp_packets_intact fw fw' ok ok' a b s s' c c' : (forall e w, ok e w -> roomy e) -> (forall e w, ok' e w -> roomy e) ->
  reach fw ok a -> reach fw' ok' b -> socks a !! s = Some c -> socks b !! s' = Some c' -> s_arrived c' `prefix_of` s_out c ->
  Forall (fun p => bytes_ok p /\ Z.of_nat (length p) < 2 ^ 32) (attempted_by s a) ->
  delivered_by s' b `prefix_of` attempted_by s a /\
  (forall q, delivered_on q b = received_on q b ++ waiting q b) /\
  (s_open c = true -> s_arrived c' = s_out c -> s_open c' = true ->
   forall r, readers b !! s' = Some r -> r_phase r = PHeader -> read_header s' b = None -> delivered_by s' b = attempted_by s a).
Proof.
  intros Ho Ho' Ha Hb Hc Hc' Harr Hps. destruct (reach_streams _ _ _ Ho Ha) as [own Sa]. destruct (reach_streams _ _ _ Ho' Hb) as [own' Sb].
  destruct (st_out _ _ Sa s c Hc) as [Hout Hopen]. apply Forall_and in Hps as [Hby Hln].
  assert (bytes_ok (s_arrived c')) as Hbb.
  { apply frames_ok in Hby. destruct Hout as [l Hl]. rewrite Hl in Hby. apply Forall_app in Hby as [Hby _].
    destruct Harr as [l' Hl']. rewrite Hl' in Hby. by apply Forall_app in Hby as [? _]. }
  assert (frames (delivered_by s' b) `prefix_of` s_arrived c') as Hpre.
  { destruct (st_read _ _ Sb s' c' Hc' Hbb) as [_ Hx]. destruct (readers b !! s') as [r|]; [|done]. destruct Hx as (l & Hl & _).
    exists (l ++ drop (s_pos c') (s_arrived c')). rewrite <- (take_drop (s_pos c') (s_arrived c')) at 1. by rewrite Hl, <- app_assoc. }
  assert (delivered_by s' b `prefix_of` attempted_by s a) as Hdel.
  { apply frames_prefix; [|done|by etrans; [|etrans]]. pose proof (st_len _ _ Sb) as HL. unfold delivered_by. clear -HL.
    induction HL as [|[[s1 q] v] l Hx HL IH]; [constructor|]. cbn. case_decide; [|done]. constructor; [|done]. cbn in Hx. unfold MaxSegmentSize in Hx. lia. }
  split; [done|]. split; [apply (st_chan _ _ Sb)|]. intros Hco Heq Hco' r Hr Hph Hblk.
  destruct (st_read _ _ Sb s' c' Hc' Hbb) as [_ Hx]. rewrite Hr in Hx. destruct Hx as (l & Hl & Hp). unfold partial in Hp. rewrite Hph in Hp. subst l.
  rewrite app_nil_r in Hl. unfold read_header in Hblk. rewrite Hr, Hc' in Hblk. cbn in Hblk. rewrite Hph, Hco' in Hblk.
  destruct (4 <=? _)%nat eqn:Hn; [done|]. apply Nat.leb_gt in Hn. destruct Hdel as [rest Hrest].
  rewrite (frames_short rest) in Hrest; [by rewrite app_nil_r in Hrest|].
  assert (frames (attempted_by s a) = frames (delivered_by s' b) ++ unread c') as Hf.
  { rewrite <- Hopen, <- Heq, <- Hl by done. symmetry. apply take_drop. }
  rewrite Hrest, frames_app in Hf. by apply app_inv_head in Hf as ->.
Qed.
