(* ===== verification/TcpBindOwned.v ===== *)
(** * WireGuard over TCP: every open connection is accounted for

    [owned]: an open connection waits to be stored or stands in the table under
    its peer's address with a goroutine reading it, so closing the bind leaves none
    behind. *)
From S2P Require Import Prelude GoStrings GoNet GoBytes TcpBind TcpBindProofs.
Open Scope Z_scope.

Definition key_of (c : Sock) : string := AddrPort_String (s_remote c).
Record owned (w : World) : Prop := {
  ow_map : forall k s, conn_map (bind w) !! k = Some s -> is_Some (readers w !! s) /\
    exists c, socks w !! s = Some c /\ s_open c = true /\ key_of c = k;
  ow_open : forall s c, socks w !! s = Some c -> s_open c = true ->
    is_Some (w_pending w !! s) \/ conn_map (bind w) !! key_of c = Some s;
  ow_pending : forall s x, w_pending w !! s = Some x -> exists c, socks w !! s = Some c /\ s_open c = true /\ s_remote c = x.1;
  ow_reader : forall s r, readers w !! s = Some r -> exists c, socks w !! s = Some c /\ s_remote c = r_endpoint r;
  ow_closed : closed (bind w) = true -> tcpConnMap (bind w) = None /\ listener (bind w) = None }.

(** Steps that touch neither the table nor who owns what. *)
Definition sock_same (c c' : Sock) : Prop := s_remote c' = s_remote c /\ s_open c' = s_open c.
Definition reader_same (r r' : Reader) : Prop := r_endpoint r' = r_endpoint r.
Record tame (w w' : World) : Prop := {
  t_map : tcpConnMap (bind w') = tcpConnMap (bind w);
  t_closed : closed (bind w') = closed (bind w);
  t_listener : listener (bind w') = listener (bind w);
  t_pending : w_pending w' = w_pending w;
  t_socks : forall s, option_Forall2 sock_same (socks w !! s) (socks w' !! s);
  t_readers : forall s, option_Forall2 reader_same (readers w !! s) (readers w' !! s) }.
#[export] Instance sock_same_refl : Reflexive sock_same.
Proof. by split. Qed.
#[export] Instance reader_same_refl : Reflexive reader_same.
Proof. done. Qed.
Lemma tame_refl w : tame w w.
Proof. by split. Qed.
Lemma tame_trans a b c : tame a b -> tame b c -> tame a c.
Proof.
  intros [A1 A2 A3 A4 A5 A6] [B1 B2 B3 B4 B5 B6]. split; try congruence.
  - intros s. specialize (A5 s). specialize (B5 s). destruct A5 as [x y [? ?]|]; inversion B5 as [? z [? ?]|]; subst; constructor.
    split; congruence.
  - intros s. specialize (A6 s). specialize (B6 s). unfold reader_same in *.
    destruct A6 as [x y ?|]; inversion B6; subst; constructor. congruence.
Qed.
Lemma owned_tame w w' : tame w w' -> owned w -> owned w'.
Proof.
  intros [T1 T2 T3 T4 T5 T6] [M Op P R C].
  assert (conn_map (bind w') = conn_map (bind w)) as Hm by (unfold conn_map; by rewrite T1).
  split; rewrite ?Hm, ?T1, ?T2, ?T3, ?T4.
  - intros k s Hk. destruct (M k s Hk) as ([r Hr] & c & Hc & Ho & He). split.
    + specialize (T6 s). rewrite Hr in T6. inversion T6; eauto.
    + specialize (T5 s). rewrite Hc in T5. inversion T5 as [? c' [E1 E2] E3|]. exists c'. unfold key_of in *. split_and!; congruence.
  - intros s c' Hc' Ho. specialize (T5 s). rewrite Hc' in T5. inversion T5 as [c ? [E1 E2] E3|]. unfold key_of. rewrite E1. apply (Op s c); congruence.
  - intros s x Hx. destruct (P s x Hx) as (c & Hc & Ho & He). specialize (T5 s). rewrite Hc in T5. inversion T5 as [? c' [E1 E2] E3|].
    exists c'. split_and!; congruence.
  - intros s r' Hr'. specialize (T6 s). rewrite Hr' in T6. inversion T6 as [r ? E1 E2|]. destruct (R s r ltac:(congruence)) as (c & Hc & He).
    specialize (T5 s). rewrite Hc in T5. inversion T5 as [? c' [E3 E4] E5|]. exists c'. unfold reader_same in E1. split; congruence.
  - exact C.
Qed.

Lemma tame_bind f w : tcpConnMap (f (bind w)) = tcpConnMap (bind w) -> closed (f (bind w)) = closed (bind w) ->
  listener (f (bind w)) = listener (bind w) -> tame w (set_bind f w).
Proof. by split. Qed.
Lemma tame_sock s f w : (forall c, sock_same c (f c)) -> tame w (set_sock s f w).
Proof.
  intros Hf. split; try done. intros s'. cbn. rewrite lookup_alter. case_decide as Hd; [subst|done].
  destruct (socks w !! s'); constructor. apply Hf.
Qed.
Lemma tame_reader s w r r' : readers w !! s = Some r -> reader_same r r' -> tame w (set_readers <[s := r']> w).
Proof. intros Hr Hs. split; try done. intros s'. cbn. rewrite lookup_insert. case_decide; [subst; rewrite Hr; by constructor|done]. Qed.
Lemma tame_data d f w : tame w (set_data d f w).
Proof. by split. Qed.
Lemma tame_dials f w : tame w (set_dials f w).
Proof. by split. Qed.
Lemma tame_phase s p w : tame w (set_phase s p w).
Proof. split; try done. intros s'. cbn. rewrite lookup_alter. case_decide; [subst|done]. by destruct (readers w !! s'); constructor. Qed.
Lemma tame_Get w : tame w (pool_Get w).2.
Proof. unfold pool_Get. by destruct (dataPool (bind w)). Qed.
Lemma tame_mark mark opt l w : tame w (mark_all mark opt l w).1.
Proof.
  revert w. induction l as [|s l IH]; intros w; cbn [mark_all]; [apply tame_refl|]. destruct (opt s); [apply tame_refl|].
  eapply tame_trans; [|apply IH]. by apply tame_sock.
Qed.
Lemma tame_SetMark fw mark opt w : tame w (SetMark fw mark opt w).1.
Proof. unfold SetMark. destruct (fw =? 0); [apply tame_refl|]. eapply tame_trans; [|apply tame_mark]. by apply tame_bind. Qed.
Lemma tame_applyMark fw s opt w : tame w (applyMark fw s opt w).1.
Proof.
  unfold applyMark. destruct (fw =? 0); [apply tame_refl|]. destruct (_ =? 0); [apply tame_refl|].
  destruct opt; [apply tame_refl|]. by apply tame_sock.
Qed.
Lemma tame_getConn ep w w' : fst <$> getConn ep w = Some w' -> tame w w'.
Proof.
  unfold getConn. destruct (loadConn _ (bind w)); [by intros [= <-]|].
  assert (tame w (dialLock (AddrPort_String ep) w).2) as H by (unfold dialLock; by destruct (default ∅ (dialing (bind w)) !! _)).
  destruct (dialLock (AddrPort_String ep) w) as [m w1]. cbn [snd] in H.
  destruct (w_dials w1 !! m); [done|]. destruct (closed (bind w1)); [by intros [= <-]|].
  destruct (loadConn _ (bind w1)); intros [= <-]; [done|]. eapply tame_trans; [exact H|apply tame_dials].
Qed.
Lemma tame_receive_from q ds bufs w : tame w (receive_from q ds bufs w).1.
Proof.
  revert ds w. induction bufs as [|buf bufs IH]; intros [|d ds] w; try apply tame_refl. cbn [receive_from].
  unfold copyReceivedData. destruct (datas w !! d) as [x|];
    (match goal with |- context [receive_from q ds bufs ?v] => pose proof (IH ds v) as H; assert (tame w v) as H0 by done; destruct (receive_from q ds bufs v) end;
    eapply tame_trans; [exact H0|exact H]).
Qed.
Lemma tame_receive cc first bufs w w' : fst <$> receive cc first bufs w = Some w' -> tame w w'.
Proof.
  unfold receive. destruct bufs as [|b bufs']; [by intros [= <-]|]. set (bufs := b :: bufs'). cbn zeta.
  destruct (_ && _); [by intros [= <-]|]. destruct (recvChan (bind w)) as [q|]; [|done]. cbn.
  destruct (queues w !! q) as [ds|]; [|done]. cbn. destruct ds as [|d ds]; [done|].
  pose proof (tame_receive_from q (d :: ds) bufs w) as H. destruct (receive_from q (d :: ds) bufs w) as [w2 l]. by intros [= <-].
Qed.

(** ** Closing *)
Definition shut (c : Sock) : Sock := mkSock (s_remote c) false (s_mark c) (s_arrived c) (s_pos c) (s_hup c) (s_out c).
Lemma close_socks s w : socks (sock_close s w).1 = alter shut s (socks w).
Proof.
  unfold sock_close. destruct (socks w !! s) as [c|] eqn:Hc; [destruct (s_open c) eqn:Ho|]; [done| |]; cbn; symmetry; apply map_eq; intros s';
    rewrite lookup_alter; case_decide; subst; try done; rewrite Hc; [|done]. cbn. f_equal. destruct c; cbn in *; by subst.
Qed.
Lemma close_rest s w : bind (sock_close s w).1 = bind w /\ readers (sock_close s w).1 = readers w /\ w_pending (sock_close s w).1 = w_pending w.
Proof. unfold sock_close. destruct (socks w !! s) as [c|]; [by destruct (s_open c)|done]. Qed.
Lemma conn_map_delete k s w : (forall k', conn_map (bind w) !! k' = Some s -> k' = k) -> forall k' s',
  conn_map (bind (deleteConn k s w)) !! k' = Some s' <-> conn_map (bind w) !! k' = Some s' /\ s' <> s.
Proof.
  intros Hk k' s'. unfold deleteConn, conn_map in *. destruct (tcpConnMap (bind w)) as [m|] eqn:Hm; cbn in *.
  - case_bool_decide as Hd; cbn; rewrite ?Hm; cbn.
    + rewrite lookup_delete_Some. split; intros [H1 H2]; split; try done.
      * intros ->. by apply H1, eq_sym, Hk.
      * intros <-. congruence.
    + split; [intros H; split; [done|]|by intros [? _]]. intros ->. by rewrite (Hk _ H) in H.
  - rewrite Hm. cbn. rewrite lookup_empty. naive_solver.
Qed.
Lemma delete_rest k s w : socks (deleteConn k s w) = socks w /\ readers (deleteConn k s w) = readers w /\ w_pending (deleteConn k s w) = w_pending w /\
  closed (bind (deleteConn k s w)) = closed (bind w) /\ listener (bind (deleteConn k s w)) = listener (bind w) /\
  (tcpConnMap (bind w) = None -> tcpConnMap (bind (deleteConn k s w)) = None).
Proof. unfold deleteConn. destruct (tcpConnMap (bind w)) eqn:Hm; [case_bool_decide|]; split_and!; try done; by rewrite ?Hm. Qed.

(** A connection is taken from the table and closed, with or without its reader. *)
Lemma owned_cleanup w s k f : owned w -> w_pending w !! s = None -> (forall c, socks w !! s = Some c -> key_of c = k) ->
  (forall s', s' <> s -> f (readers w) !! s' = readers w !! s') -> (forall r, f (readers w) !! s = Some r -> readers w !! s = Some r) ->
  owned (sock_close s (deleteConn k s (set_readers f w))).1.
Proof.
  intros [M Op P R C] Hp Hk Hf Hf'. set (w0 := set_readers f w).
  assert (forall k' s', conn_map (bind (deleteConn k s w0)) !! k' = Some s' <-> conn_map (bind w) !! k' = Some s' /\ s' <> s) as Hm.
  { refine (conn_map_delete k s w0 _). intros k' Hk'. destruct (M _ _ Hk') as (_ & c & Hc & _ & <-). by apply Hk. }
  destruct (delete_rest k s w0) as (Ds & Dr & Dp & Dc & Dl & Dm). destruct (close_rest s (deleteConn k s w0)) as (Cb & Cr & Cp).
  assert (forall s' c', socks (sock_close s (deleteConn k s w0)).1 !! s' = Some c' -> exists c, socks w !! s' = Some c /\ s_remote c' = s_remote c /\
    (s_open c' = true -> s' <> s /\ s_open c = true)) as Hs.
  { intros s' c'. rewrite close_socks, Ds, lookup_alter. case_decide; [subst|intros Hc; exists c'; by split_and!].
    change (socks w0) with (socks w). destruct (socks w !! s') as [c|]; [|done]. intros [= <-]. by exists c. }
  assert (forall s' c, socks w !! s' = Some c -> exists c', socks (sock_close s (deleteConn k s w0)).1 !! s' = Some c' /\ s_remote c' = s_remote c /\
    (s' <> s -> s_open c' = s_open c)) as Hs'.
  { intros s' c Hc. rewrite close_socks, Ds, lookup_alter. change (socks w0) with (socks w). case_decide; [subst|by exists c].
    rewrite Hc. eexists. by split_and!. }
  split; rewrite ?Cb, ?Cr, ?Cp, ?Dr, ?Dp, ?Dc, ?Dl; cbn [readers w_pending w0 set_readers bind].
  - intros k' s' [Hk' Hne]%Hm. destruct (M _ _ Hk') as (Hr & c & Hc & Ho & He). rewrite Hf by done. split; [done|].
    destruct (Hs' _ _ Hc) as (c' & Hc' & Hrm & Hoc). exists c'. unfold key_of in *. rewrite Hrm, Hoc by done. by split_and!.
  - intros s' c' Hc' Ho. destruct (Hs _ _ Hc') as (c & Hc & Hrm & Hoc). destruct (Hoc Ho) as [Hne Hoc'].
    destruct (Op s' c Hc Hoc') as [?|Hin]; [by left|right]. unfold key_of. rewrite Hrm. by apply Hm.
  - intros s' x Hx. destruct (P s' x Hx) as (c & Hc & Ho & He). destruct (Hs' _ _ Hc) as (c' & Hc' & Hrm & Hoc).
    exists c'. rewrite Hrm, Hoc; [by split_and!|]. intros ->. congruence.
  - intros s' r Hr. assert (readers w !! s' = Some r) as Hr' by (destruct (decide (s' = s)) as [->|]; [by apply Hf'|by rewrite <- Hf]).
    destruct (R s' r Hr') as (c & Hc & He). destruct (Hs' _ _ Hc) as (c' & Hc' & Hrm & _). exists c'. by rewrite Hrm.
  - intros Hcl. destruct (C Hcl) as [? ?]. split; [|done]. by apply Dm.
Qed.
Lemma set_readers_id w : set_readers id w = w.
Proof. by destruct w. Qed.
Lemma owned_send w bufs outs ep s : owned w -> w_pending w !! s = None ->
  (forall c, socks w !! s = Some c -> key_of c = AddrPort_String ep) -> owned (send_bufs bufs outs ep s w).1.
Proof.
  revert outs w. induction bufs as [|buf bufs IH]; intros outs w H Hp Hk; [done|]. cbn [send_bufs].
  destruct (write_frame s buf _ w) as [w1 [n err]] eqn:Hw.
  assert (tame w w1) as Ht.
  { unfold write_frame in Hw. destruct (socks w !! s) as [c|]; [destruct (s_open c)|]; injection Hw as <- _ _; try apply tame_refl.
    refine (tame_trans _ _ _ (tame_sock s (append_out _) w _) _); [by intros ?|]. split; try done; intros ?; cbn; done. }
  pose proof (owned_tame _ _ Ht H) as H1.
  assert (w_pending w1 !! s = None) as Hp1 by by rewrite (t_pending _ _ Ht).
  assert (forall c, socks w1 !! s = Some c -> key_of c = AddrPort_String ep) as Hk1.
  { intros c Hc. pose proof (t_socks _ _ Ht s) as Hs. rewrite Hc in Hs. inversion Hs as [c0 ? [E _] E0|]. unfold key_of. rewrite E. by apply Hk. }
  destruct (_ || _); [|by apply IH]. cbn [fst]. rewrite <- (set_readers_id w1). by apply owned_cleanup.
Qed.
Lemma owned_exit w s : owned w -> w_pending w !! s = None -> owned (reader_exit s w).
Proof.
  intros H Hp. unfold reader_exit. destruct (readers w !! s) as [r|] eqn:Hr; [|done].
  assert (tame w (pool_Put (r_data r) w)) as Ht by by apply tame_bind. pose proof (owned_tame _ _ Ht H) as H1.
  destruct (ow_reader _ H s r Hr) as (c & Hc & He).
  apply (owned_cleanup _ s _ (delete s)); [done|done| | |].
  - cbn. intros c' Hc'. unfold key_of. rewrite Hc in Hc'. injection Hc' as <-. by rewrite He.
  - intros s' ?. by apply lookup_delete_ne.
  - intros r' Hr'. by rewrite lookup_delete_eq in Hr'.
Qed.

(** ** New connections *)
Lemma owned_grow w w' s c : owned w -> socks w !! s = None -> tcpConnMap (bind w') = tcpConnMap (bind w) ->
  closed (bind w') = closed (bind w) -> listener (bind w') = listener (bind w) -> readers w' = readers w ->
  (forall s', s' <> s -> option_Forall2 sock_same (socks w !! s') (socks w' !! s')) -> socks w' !! s = Some c ->
  (s_open c = false /\ w_pending w' = w_pending w \/ s_open c = true /\ exists l, w_pending w' = <[s := (s_remote c, l)]> (w_pending w)) ->
  owned w'.
Proof.
  intros [M Op P R C] Hn T1 T2 T3 T4 T5 Hc Hp. assert (conn_map (bind w') = conn_map (bind w)) as Hm by (unfold conn_map; by rewrite T1).
  assert (forall s' c0, socks w !! s' = Some c0 -> exists c', socks w' !! s' = Some c' /\ sock_same c0 c') as Hs.
  { intros s' c0 Hc0. assert (s' <> s) as Hne by congruence. specialize (T5 s' Hne). rewrite Hc0 in T5. inversion T5; eauto. }
  assert (forall s' x, s' <> s -> w_pending w' !! s' = Some x <-> w_pending w !! s' = Some x) as Hpn.
  { intros s' x Hne. destruct Hp as [[_ ->]|[_ [l ->]]]; [done|]. by rewrite lookup_insert_ne. }
  split; rewrite ?Hm, ?T1, ?T2, ?T3, ?T4.
  - intros k s' Hk. destruct (M k s' Hk) as (Hr & c0 & Hc0 & Ho & He). split; [done|]. destruct (Hs _ _ Hc0) as (c' & Hc' & [E1 E2]).
    exists c'. unfold key_of in *. split_and!; congruence.
  - intros s' c' Hc' Ho. destruct (decide (s' = s)) as [->|Hne].
    + rewrite Hc in Hc'. injection Hc' as <-. left. destruct Hp as [[? _]|[_ [l ->]]]; [congruence|]. rewrite lookup_insert_eq. by eexists.
    + specialize (T5 s' Hne). rewrite Hc' in T5. inversion T5 as [c0 ? [E1 E2] E3|]. unfold key_of. rewrite E1.
      destruct (Op s' c0) as [[x Hx]|?]; [congruence..|left|by right]. exists x. by apply Hpn.
  - intros s' x Hx. destruct (decide (s' = s)) as [->|Hne].
    + exists c. destruct Hp as [[_ Hp]|[Ho [l Hp]]]; rewrite Hp in Hx.
      * destruct (P _ _ Hx) as (c0 & Hc0 & _). congruence.
      * rewrite lookup_insert_eq in Hx. by injection Hx as <-.
    + apply Hpn in Hx; [|done]. destruct (P _ _ Hx) as (c0 & Hc0 & Ho & He). destruct (Hs _ _ Hc0) as (c' & Hc' & [E1 E2]).
      exists c'. split_and!; congruence.
  - intros s' r Hr. destruct (R s' r Hr) as (c0 & Hc0 & He). destruct (Hs _ _ Hc0) as (c' & Hc' & [E1 E2]). exists c'. split; congruence.
  - exact C.
Qed.
Lemma readers_applyMark fw s opt w : readers (applyMark fw s opt w).1 = readers w.
Proof. unfold applyMark. destruct (fw =? 0); [done|]. destruct (_ =? 0); [done|]. by destruct opt. Qed.
Lemma owned_new_conn fw ep lock opt w : owned w -> socks w !! next w = None -> owned (new_conn fw ep lock opt w).1.
Proof.
  intros H Hn. unfold new_conn. match goal with |- context [applyMark fw ?s opt ?v] => set (w1 := v) end.
  pose proof (tame_applyMark fw (next w) opt w1) as Ht. destruct (applyMark fw (next w) opt w1) as [w2 e] eqn:Hap. cbn [fst] in Ht.
  destruct Ht as [T1 T2 T3 T4 T5 T6]. pose proof (T5 (next w)) as Hs. cbn [socks w1] in Hs. rewrite lookup_insert_eq in Hs.
  assert (exists c, socks w2 !! next w = Some c /\ s_remote c = ep /\ s_open c = true) as (c & E4 & E1 & E2).
  { inversion Hs as [? c [? ?] E3 E4|]. exists c. subst. by split_and!. }
  assert (forall s', s' <> next w -> option_Forall2 sock_same (socks w !! s') (socks w2 !! s')) as Hsame.
  { intros s' Hne. specialize (T5 s'). cbn [socks w1] in T5. by rewrite lookup_insert_ne in T5. }
  assert (readers w2 = readers w) as Hrd.
  { change (readers w) with (readers w1). by rewrite <- (readers_applyMark fw (next w) opt w1), Hap. }
  destruct e as [e|]; cbn [fst].
  - destruct (close_rest (next w) w2) as (Cb & Cr & Cp).
    apply (owned_grow w _ (next w) (shut c) H Hn); rewrite ?Cb, ?Cr, ?Cp; [done..| | |by left].
    + intros s' Hne. rewrite close_socks, lookup_alter_ne by done. by apply Hsame.
    + by rewrite close_socks, lookup_alter_eq, E4.
  - apply (owned_grow w _ (next w) c H Hn); [done..|]. right. split; [done|]. exists lock. cbn. by rewrite T4, E1.
Qed.
Lemma owned_store w s ep lock r : owned w -> w_pending w !! s = Some (ep, lock) ->
  (forall s', is_Some (w_pending w !! s') -> readers w !! s' = None) -> r_endpoint r = ep ->
  owned (set_readers <[s := r]> (storeConn (AddrPort_String ep) s (set_pending (delete s) w))).
Proof.
  intros [M Op P R C] Hp Hpr He. pose proof (Hpr s ltac:(by eexists)) as Hr. destruct (P _ _ Hp) as (c & Hc & Ho & Hrm). cbn in Hrm.
  assert (forall k, conn_map (bind w) !! k <> Some s) as Hin by (intros k Hk; destruct (M _ _ Hk) as [[? ?] _]; congruence).
  unfold storeConn. cbn [bind set_pending]. destruct (closed (bind w)) eqn:Hcl.
  - set (w0 := set_pending (delete s) w). destruct (close_rest s w0) as (Cb & Cr & Cp).
    assert (conn_map (bind w) = ∅) as Hm by (unfold conn_map; by rewrite (proj1 (C eq_refl))).
    assert (forall s', socks (sock_close s w0).1 !! s' = if decide (s = s') then shut <$> socks w !! s' else socks w !! s') as Hs
      by (intros s'; rewrite close_socks; case_decide; [subst; by rewrite lookup_alter_eq|by rewrite lookup_alter_ne]).
    split; cbn [readers set_readers bind w_pending socks]; rewrite ?Cb, ?Cr, ?Cp; cbn [bind set_pending w0 readers w_pending].
    + rewrite Hm. intros k s' Hk. by rewrite lookup_empty in Hk.
    + intros s' c'. rewrite Hs. case_decide; [subst; rewrite Hc; by intros [= <-]|]. intros Hc' Ho'.
      destruct (Op _ _ Hc' Ho') as [[x Hx]|Hk]; [left|by rewrite Hm, lookup_empty in Hk]. exists x. by rewrite lookup_delete_ne.
    + intros s' x [Hne Hx]%lookup_delete_Some. rewrite Hs, decide_False by done. by apply P.
    + intros s' r'. rewrite lookup_insert. case_decide; [subst; intros [= <-]|intros Hr'].
      * exists (shut c). rewrite Hs, decide_True, Hc by done. by split.
      * rewrite Hs, decide_False by done. by apply R.
    + intros _. exact (C eq_refl).
  - set (w0 := set_pending (delete s) w). set (m := conn_map (bind w)) in *.
    assert (exists w1, match m !! AddrPort_String ep with Some old => if bool_decide (old = s) then w0 else (sock_close old w0).1 | None => w0 end = w1 /\
      bind w1 = bind w /\ readers w1 = readers w /\ w_pending w1 = delete s (w_pending w) /\
      forall s', socks w1 !! s' = if decide (m !! AddrPort_String ep = Some s') then shut <$> socks w !! s' else socks w !! s') as (w1 & -> & B & Rd & Pn & Hs).
    { eexists. split; [done|]. destruct (m !! AddrPort_String ep) as [old|] eqn:Hold; [|by split_and!; try done; intros s'; rewrite decide_False].
      rewrite bool_decide_false; [|intros ->; by eapply Hin]. destruct (close_rest old w0) as (Cb & Cr & Cp). rewrite Cb, Cr, Cp. split_and!; [done..|].
      intros s'. rewrite close_socks. destruct (decide (old = s')) as [->|]; [by rewrite decide_True, lookup_alter_eq|].
      rewrite decide_False, lookup_alter_ne by congruence. done. }
    split; cbn [readers set_readers bind w_pending socks set_bind set_connMap closed listener tcpConnMap]; rewrite ?B, ?Rd, ?Pn; unfold conn_map; cbn [tcpConnMap set_connMap from_option]; unfold id.
    + intros k s' [[<- <-]|[Hne Hk]]%lookup_insert_Some.
      * split; [rewrite lookup_insert_eq; by eexists|]. exists c. rewrite Hs, decide_False by apply Hin. unfold key_of. by rewrite Hrm.
      * destruct (M _ _ Hk) as (Hr' & c' & Hc' & Ho' & Hk'). split.
        -- rewrite lookup_insert_ne; [done|]. intros <-. by eapply Hin.
        -- exists c'. rewrite Hs, decide_False; [done|]. intros Hd. destruct (M _ _ Hd) as (_ & c2 & Hc2 & _ & Hk2). congruence.
    + intros s' c'. rewrite Hs. case_decide as Hd; [destruct (socks w !! s'); [by intros [= <-]|done]|]. intros Hc' Ho'.
      destruct (Op _ _ Hc' Ho') as [[x Hx]|Hk].
      * destruct (decide (s' = s)) as [->|Hne]; [right|left; exists x; by rewrite lookup_delete_ne].
        rewrite Hc in Hc'. injection Hc' as <-. unfold key_of. by rewrite Hrm, lookup_insert_eq.
      * right. rewrite lookup_insert_ne; [done|]. intros Hk'. apply Hd. by rewrite Hk'.
    + intros s' x [Hne Hx]%lookup_delete_Some. destruct (P _ _ Hx) as (c' & Hc' & Ho' & Hrm'). exists c'. rewrite Hs, decide_False; [done|].
      intros Hd. destruct (M _ _ Hd) as ([r' Hr'] & _). rewrite (Hpr s') in Hr'; [done|by eexists].
    + intros s' r'. rewrite lookup_insert. case_decide as Hd; [subst s'; intros [= <-]; exists c; rewrite Hs, decide_False by apply Hin; by rewrite He|].
      intros Hr'. destruct (R _ _ Hr') as (c' & Hc' & Hrm'). rewrite Hs, Hc'. case_decide; [|by exists c']. exists (shut c'). by split.
    + intros Hcl'. congruence.
Qed.
Lemma streams_Get_socks w : socks (pool_Get w).2 = socks w.
Proof. unfold pool_Get. by destruct (dataPool (bind w)). Qed.
Lemma owned_handle w s ep lock : owned w -> w_pending w !! s = Some (ep, lock) ->
  (forall s', is_Some (w_pending w !! s') -> readers w !! s' = None) ->
  owned (handleConn s ep (storeConn (AddrPort_String ep) s (set_pending (delete s) w))).
Proof.
  intros H Hp Hpr. unfold handleConn. set (w1 := storeConn _ _ _). destruct (pool_Get w1) as [d w2] eqn:Hg.
  set (r := mkReader ep (closeChan (bind w1)) d PHeader).
  pose proof (owned_store w s ep lock r H Hp Hpr eq_refl) as Hs. fold w1 in Hs.
  pose proof (tame_Get (set_readers <[s := r]> w1)) as Ht. rewrite pool_Get_readers, Hg in Ht. by eapply owned_tame.
Qed.

(** ** Opening and closing the bind *)
Lemma close_all_socks l err w s : socks (close_all l err w).1 !! s = if decide (s ∈ l) then shut <$> socks w !! s else socks w !! s.
Proof.
  revert err w. induction l as [|s0 l IH]; intros err w; cbn [close_all]; [by rewrite decide_False by by intros ?%elem_of_nil|].
  pose proof (close_socks s0 w) as Hs. destruct (sock_close s0 w) as [w1 e]. cbn [fst] in Hs. rewrite IH, Hs, lookup_alter.
  destruct (decide (s0 = s)) as [->|Hne].
  - rewrite (decide_True (P := s ∈ s :: l)) by by left. destruct (decide (s ∈ l)); [|done]. by destruct (socks w !! s).
  - destruct (decide (s ∈ l)); [by rewrite (decide_True (P := s ∈ s0 :: l)) by by right|].
    rewrite (decide_False (P := s ∈ s0 :: l)); [done|]. by intros [->|?]%elem_of_cons.
Qed.
Lemma close_all_rest l err w : bind (close_all l err w).1 = bind w /\ readers (close_all l err w).1 = readers w /\
  w_pending (close_all l err w).1 = w_pending w.
Proof.
  revert err w. induction l as [|s0 l IH]; intros err w; cbn [close_all]; [done|].
  pose proof (close_rest s0 w) as Hs. destruct (sock_close s0 w) as [w1 e]. cbn [fst] in Hs. destruct Hs as (<- & <- & <-). apply IH.
Qed.
(** Closing different open connections reports nothing. *)
Lemma close_all_ok l w : NoDup l -> (forall s, s ∈ l -> exists c, socks w !! s = Some c /\ s_open c = true) -> (close_all l None w).2 = None.
Proof.
  intros Hn. revert w. induction Hn as [|s l Hs Hn IH]; intros w Ho; cbn [close_all]; [done|].
  destruct (Ho s ltac:(left)) as (c & Hc & Hoc). pose proof (close_socks s w) as Hcs. unfold sock_close in *. rewrite Hc, Hoc in *.
  cbn [fst] in Hcs. apply IH. intros s' Hs'. rewrite Hcs, lookup_alter_ne by (intros ->; done). apply Ho. by right.
Qed.
Lemma owned_Close w : owned w -> (forall s', is_Some (w_pending w !! s') -> readers w !! s' = None) -> owned (Close w).1 /\ (Close w).2 = None /\ closed (bind (Close w).1) = true.
Proof.
  intros H Hpr. pose proof H as [M Op P R C]. unfold Close. destruct (closed (bind w)) eqn:Hcl; [by split_and!|].
  set (conns := (map_to_list (conn_map (bind w))).*2). set (w0 := set_bind _ w).
  pose proof (close_all_rest conns None w0) as (Cb & Cr & Cp). pose proof (close_all_socks conns None w0) as Hs.
  assert (forall s, s ∈ conns <-> exists k, conn_map (bind w) !! k = Some s) as Hin.
  { intros s. unfold conns. rewrite list_elem_of_fmap. split.
    - intros ([k s'] & -> & Hk%elem_of_map_to_list). by exists k.
    - intros [k Hk]. exists (k, s). by rewrite elem_of_map_to_list. }
  assert (forall s x, w_pending w !! s = Some x -> s ∉ conns) as Hpc.
  { intros s x Hx [k Hk]%Hin. destruct (M _ _ Hk) as [[r Hr] _]. rewrite (Hpr s) in Hr; [done|by eexists]. }
  pose proof (close_all_ok conns w0) as Hok. destruct (close_all conns None w0) as [w1 err]. cbn [fst snd] in *.
  split_and!; [|apply Hok|by rewrite Cb].
  - split; cbn [bind readers socks w_pending]; rewrite ?Cb, ?Cr, ?Cp; cbn [w0 bind set_bind conn_map tcpConnMap listener closed readers w_pending from_option].
    + intros k s Hk. by apply lookup_empty_Some in Hk.
    + intros s c. rewrite Hs. case_decide as Hd; [destruct (socks w !! s) eqn:Hc; cbn; rewrite Hc; by try intros [= <-]|].
      intros Hc Ho. destruct (Op s c Hc Ho) as [?|Hk]; [by left|]. exfalso. apply Hd, Hin. by eexists.
    + intros s x Hx. destruct (P s x Hx) as (c & Hc & Ho & He). exists c. rewrite Hs, decide_False; [done|]. by eapply Hpc.
    + intros s r Hr. destruct (R s r Hr) as (c & Hc & He). rewrite Hs. cbn. rewrite Hc. case_decide; [|by exists c]. by exists (shut c).
    + done.
  - apply NoDup_fmap_2_strong; [|apply NoDup_map_to_list]. intros [k s] [k' s'] Hk%elem_of_map_to_list Hk'%elem_of_map_to_list. cbn. intros ->.
    destruct (M _ _ Hk) as (_ & c & Hc & _ & <-). destruct (M _ _ Hk') as (_ & c' & Hc' & _ & <-). congruence.
  - intros s [k Hk]%Hin. destruct (M _ _ Hk) as (_ & c & Hc & Ho & _). by exists c.
Qed.
Lemma owned_Open w port listen : owned w -> conn_map (bind w) = ∅ -> owned (Open port listen w).1.
Proof.
  intros [M Op P R C] Hm. split; cbn.
  - intros k s Hk. by apply lookup_empty_Some in Hk.
  - intros s c Hc Ho. destruct (Op s c Hc Ho) as [?|Hk]; [by left|]. rewrite Hm in Hk. by apply lookup_empty_Some in Hk.
  - exact P.
  - exact R.
  - done.
Qed.

(** The device closes a bind before it opens it again. *)
Definition orderly (e : event) (w : World) : Prop :=
  roomy e /\ match e with EvOpen _ _ => conn_map (bind w) = ∅ | _ => True end.
Lemma owned_step own fw e w w' : streams own w -> owned w -> orderly e w -> step fw e w = Some w' -> owned w'.
Proof.
  intros Hst H [_ Hord]. pose proof (fun s x => proj1 (st_pending _ _ Hst s x)) as Hpr.
  assert (socks w !! next w = None) as Hfresh by (by apply (st_fresh _ _ Hst)). destruct e; cbn [step].
  - intros [= <-]. by apply owned_Open.
  - intros [= <-]. by apply owned_Close.
  - intros [= <-]. eapply owned_tame, H. apply tame_SetMark.
  - destruct (listener (bind w)); [|done]. intros [= <-]. by apply owned_new_conn.
  - unfold store_and_handle. destruct (w_pending w !! s) as [[ep lock]|] eqn:Hp; [|done]. cbn. intros [= <-].
    pose proof (owned_handle w s ep lock H Hp Hpr). destruct lock; [|done]. by eapply owned_tame; [apply tame_dials|].
  - intros Hs. eapply owned_tame, H. by eapply tame_getConn.
  - unfold dialed. destruct (w_dials w !! m) as [ep|]; [|done]. cbn. destruct dial as [e|].
    + intros [= <-]. eapply owned_tame, H. apply tame_dials.
    + pose proof (owned_new_conn fw ep (Some m) sockopt w H Hfresh) as Hn. destruct (new_conn fw ep (Some m) sockopt w) as [w1 [e|]]; intros [= <-]; [|done].
      by eapply owned_tame; [apply tame_dials|].
  - destruct (socks w !! s) as [c|] eqn:Hc; [|done]. cbn. destruct (_ && _) eqn:Hb; [|done]. intros [= <-].
    apply andb_true_iff in Hb as [Hk%bool_decide_eq_true Hp%bool_decide_eq_true]. apply owned_send; [done..|].
    intros c'. rewrite Hc. by intros [= <-].
  - destruct (socks w !! s) as [c|] eqn:Hc; [|done]. cbn. destruct (s_hup c); [done|]. intros [= <-]. eapply owned_tame, H. by apply tame_sock.
  - destruct (socks w !! s) as [c|] eqn:Hc; [|done]. intros [= <-]. eapply owned_tame, H. by apply tame_sock.
  - unfold read_header. destruct (readers w !! s) as [r|] eqn:Hr; [|done]. destruct (socks w !! s) as [c|] eqn:Hc; [|done]. cbn.
    destruct (r_phase r); [|done..]. destruct (_ && _); [|done]. intros [= <-].
    assert (owned (set_sock s (advance 4) w)) as Ha by (eapply owned_tame, H; by apply tame_sock).
    destruct (_ || _); [|eapply owned_tame, Ha; apply tame_phase].
    apply owned_exit; [done|]. exact (not_pending _ _ _ _ Hst Hr).
  - unfold read_body. destruct (readers w !! s) as [r|] eqn:Hr; [|done]. destruct (socks w !! s) as [c|] eqn:Hc; [|done]. cbn.
    destruct (r_phase r); [done| |done]. destruct (_ && _); [|done]. intros [= <-].
    eapply owned_tame, H. eapply tame_trans, tame_phase. eapply tame_trans, tame_data. by apply tame_sock.
  - unfold deliver. destruct (readers w !! s) as [r|] eqn:Hr; [|done]. cbn. destruct (r_phase r) as [| |[q|]]; [done|done| |done].
    destruct (queues w !! q) as [ds|]; [|done]. cbn. destruct (datas w !! r_data r) as [d|]; [|done]. cbn. destruct (_ <? _)%nat; [|done].
    match goal with |- context [pool_Get ?v] => set (w1 := v) end. pose proof (tame_Get w1) as Ht.
    assert (readers (pool_Get w1).2 = readers w1) as Hrd by (unfold pool_Get; by destruct (dataPool (bind w1))).
    destruct (pool_Get w1) as [d' w2]. intros [= <-]. cbn [snd] in *.
    eapply owned_tame, H. eapply (tame_trans _ w1); [by split|]. eapply tame_trans; [exact Ht|]. eapply tame_reader; [rewrite Hrd; exact Hr|done].
  - destruct (can_exit s w) eqn:Hx; [|done]. intros [= <-]. apply owned_exit; [done|]. unfold can_exit in Hx.
    destruct (readers w !! s) as [r|] eqn:Hr; [|done]. exact (not_pending _ _ _ _ Hst Hr).
  - intros Hs. eapply owned_tame, H. by eapply tame_receive.
Qed.
Lemma no_table t k s : conn_map t !! k = Some s -> tcpConnMap t = None -> False.
Proof. unfold conn_map. intros Hk Ht. rewrite Ht in Hk. change ((∅ : gmap string nat) !! k = Some s) in Hk. by apply lookup_empty_Some in Hk. Qed.
Lemma orderly_roomy e w : orderly e w -> roomy e.
Proof. by intros [? _]. Qed.
Lemma reach_owned fw w : reach fw orderly w -> (exists own, streams own w) /\ owned w.
Proof.
  induction 1 as [|e w w' _ [[own Hst] Ho] He Hs].
  - split; [eexists; apply streams_new|]. by split.
  - split; [by eapply streams_step; eauto using orderly_roomy|]. by eapply owned_step.
Qed.

