(* ===== verification/TcpBindSample.v ===== *)
(** * WireGuard over TCP: concrete runs

    A dialed and an accepted connection with packets cut anywhere in the stream,
    the witnesses of the theorems, and two races. *)
From S2P Require Import Prelude GoStrings GoNet GoBytes TcpBind TcpBindProofs TcpBindOwned.
Open Scope Z_scope.

Definition SO_MARK : Z := 36.
Fixpoint run (es : list event) (w : World) : option World :=
  match es with [] => Some w | e :: es => w ← step SO_MARK e w; run es w end.
Fixpoint along (ok : event -> World -> Prop) (es : list event) (w : World) : Prop :=
  match es with [] => True | e :: es => ok e w /\ match step SO_MARK e w with Some w => along ok es w | None => True end end.
Lemma reach_run ok es w w' : reach SO_MARK ok w -> along ok es w -> run es w = Some w' -> reach SO_MARK ok w'.
Proof.
  revert w. induction es as [|e es IH]; intros w Hr Ha; cbn; [by intros [= <-]|]. destruct Ha as [He Ha].
  destruct (step SO_MARK e w) as [w1|] eqn:Hs; [|done]. apply IH; [|done]. by eapply reach_step.
Qed.
Definition ran (es : list event) : World := default new_world (run es new_world).

Lemma reach_ran ok es : along ok es new_world -> match run es new_world with Some _ => true | None => false end = true -> reach SO_MARK ok (ran es).
Proof. intros Ha Hr. apply (reach_run ok es new_world); [apply reach_new|done|]. unfold ran. by destruct (run es new_world). Qed.

Definition server : AddrPort := mkAddrPort [192; 0; 2; 1] 443.
Definition client : AddrPort := mkAddrPort [198; 51; 100; 7] 40000.
Definition listens : Z -> result Z := Ok.
(** The client dials, and sends two packets over its connection, which is the
    third object made; the mark is set in between. *)
Definition client_events : list event :=
  [EvOpen 0 listens; EvGetConn server; EvDialed 1 None None; EvSetMark 7 (fun _ => None); EvStore 2;
   EvSend 2 server [[1; 2; 3]; [4]] []].
Definition stream : list Z := [3; 0; 0; 0; 1; 2; 3; 1; 0; 0; 0; 4].
(** The server accepts, and the stream arrives in three pieces. *)
Definition server_events : list event :=
  [EvOpen 443 listens; EvAccept client None; EvStore 1; EvArrive 1 [3; 0]; EvArrive 1 [0; 0; 1; 2; 3; 1; 0; 0];
   EvReadHeader 1; EvReadBody 1; EvDeliver 1; EvArrive 1 [0; 4]; EvReadHeader 1; EvReadBody 1; EvDeliver 1].

Ltac walk := unfold along, orderly; repeat (split; [by split|destruct (step _ _ _) as [?w|]; [|done]]); done.
Lemma client_reach : reach SO_MARK orderly (ran client_events).
Proof. apply reach_ran; [unfold client_events; walk|vm_compute; reflexivity]. Qed.
Lemma server_reach : reach SO_MARK orderly (ran server_events).
Proof. apply reach_ran; [unfold server_events; walk|vm_compute; reflexivity]. Qed.

(** What the client wrote is what arrives at the server. *)
Definition client_conn : Sock := mkSock server true 0 [] 0 false stream.
Definition server_conn : Sock := mkSock client true 0 stream 12 false [].
Lemma client_sock : socks (ran client_events) !! 2%nat = Some client_conn.
Proof. vm_compute. reflexivity. Qed.
Lemma server_sock : socks (ran server_events) !! 1%nat = Some server_conn.
Proof. vm_compute. reflexivity. Qed.
Lemma server_reader : readers (ran server_events) !! 1%nat = Some (mkReader client (Some 0%nat) 4 PHeader).
Proof. vm_compute. reflexivity. Qed.
Lemma client_sent : attempted_by 2 (ran client_events) = [[1; 2; 3]; [4]].
Proof. vm_compute. reflexivity. Qed.

Lemma tcp_packets_intact_witness : delivered_by 1 (ran server_events) `prefix_of` [[1; 2; 3]; [4]] /\
  (forall q, delivered_on q (ran server_events) = received_on q (ran server_events) ++ waiting q (ran server_events)) /\
  delivered_by 1 (ran server_events) = [[1; 2; 3]; [4]].
Proof.
  pose proof (tcp_packets_intact SO_MARK SO_MARK orderly orderly (ran client_events) (ran server_events) 2 1 client_conn server_conn
    orderly_roomy orderly_roomy client_reach server_reach client_sock server_sock) as H. rewrite client_sent in H.
  destruct H as (Hp & Hq & He); [reflexivity| |].
  - repeat (apply Forall_cons; split; [split; [apply bytes_decide; reflexivity|vm_compute; reflexivity]|]). constructor.
  - split; [exact Hp|]. split; [exact Hq|]. exact (He eq_refl eq_refl eq_refl _ server_reader eq_refl ltac:(vm_compute; reflexivity)).
Defined.

(** Both connections are in their tables; after the bind is closed the one that
    the client was about to store is closed. *)
Definition closing_events : list event :=
  [EvOpen 0 listens; EvGetConn server; EvDialed 1 None None; EvAccept client None; EvStore 3; EvClose].
Lemma closing_reach : reach SO_MARK orderly (ran closing_events).
Proof. apply reach_ran; [unfold closing_events; walk|vm_compute; reflexivity]. Qed.

(** A mark set while a connection is on its way is not applied to it: the socket
    was marked before, and is not in the table yet. *)
Definition race_events : list event :=
  [EvOpen 0 listens; EvAccept client None; EvSetMark 7 (fun _ => None); EvStore 1].
Lemma mark_missed : fwmark (bind (ran race_events)) = 7 /\ loadConn (AddrPort_String client) (bind (ran race_events)) = Some 1%nat /\
  s_mark <$> socks (ran race_events) !! 1%nat = Some 0.
Proof. vm_compute. by split_and!. Qed.

(** A packet that is still in the channel can be received after [Close]. *)
Definition late_events : list event := server_events ++ [EvClose].
Lemma received_after_close : closed (bind (ran late_events)) = true /\
  match receive (Some 0%nat) false [replicate 8 0] (ran late_events) with
  | Some (_, Ok [(buf, size, ep)]) => take (Z.to_nat size) buf = [1; 2; 3] /\ ep = client
  | _ => False
  end /\
  match receive (Some 0%nat) true [replicate 8 0] (ran late_events) with Some (_, Err e) => e = ErrClosed | _ => False end.
Proof. vm_compute. by split_and!. Qed.
