(* ===== verification/RateLimiter.v ===== *)
(** * wireguard-go/ratelimiter: token buckets for handshake messages

    [ratelimiter.go]: per source address a bucket of tokens in nanoseconds,
    refilled with time, [packetCost] per message; a garbage collector drops the
    buckets of idle addresses while its ticker runs. Times are nanoseconds. *)
From S2P Require Import Prelude.
Open Scope Z_scope.

Definition packetsPerSecond : Z := 20.
Definition packetsBurstable : Z := 5.
Definition garbageCollectTime : Z := 1000000000.
Definition packetCost : Z := 1000000000 / packetsPerSecond.
Definition maxTokens : Z := packetCost * packetsBurstable.

(** [time.Time.Sub] saturates. *)
Definition time_Sub (t u : Z) : Z := Z.max (- 2 ^ 63) (Z.min (2 ^ 63 - 1) (t - u)).

Record RatelimiterEntry := mkEntry { lastTime : Z; tokens : Z }.
(** [open]: the channel [stopReset] exists; [ticking]: its goroutine's ticker
    runs. *)
Record Ratelimiter := mkRatelimiter {
  open : bool; ticking : bool; table : gmap (list Z) RatelimiterEntry }.

Definition Init (r : Ratelimiter) : Ratelimiter := mkRatelimiter true false ∅.
Definition Close (r : Ratelimiter) : Ratelimiter := mkRatelimiter false false (table r).
Definition cleanup (now : Z) (r : Ratelimiter) : bool * Ratelimiter :=
  let t := filter (fun x => negb (garbageCollectTime <? time_Sub now (lastTime x.2)) = true) (table r) in
  (bool_decide (t = ∅), mkRatelimiter (open r) (ticking r) t).
(** One tick of the goroutine. *)
Definition tick (now : Z) (r : Ratelimiter) : Ratelimiter :=
  if ticking r then
    let '(empty, r) := cleanup now r in
    if empty : bool then mkRatelimiter (open r) false (table r) else r
  else r.

Definition Allow (now : Z) (ip : list Z) (r : Ratelimiter) : bool * Ratelimiter :=
  match table r !! ip with
  | None =>
      let t := <[ip := mkEntry now (maxTokens - packetCost)]> (table r) in
      (true, mkRatelimiter (open r) (if (size t =? 1)%nat then true else ticking r) t)
  | Some e =>
      let tk := i64 (tokens e + time_Sub now (lastTime e)) in
      let tk := if maxTokens <? tk then maxTokens else tk in
      if packetCost <? tk
      then (true, mkRatelimiter (open r) (ticking r) (<[ip := mkEntry now (tk - packetCost)]> (table r)))
      else (false, mkRatelimiter (open r) (ticking r) (<[ip := mkEntry now tk]> (table r)))
  end.

(** ** Runs: calls and ticks at the times of a clock that does not go back *)
Inductive call := CallAllow (ip : list Z) | CallTick.
#[export] Instance call_eq_dec : EqDecision call.
Proof. solve_decision. Defined.
Definition do_call (now : Z) (c : call) (r : Ratelimiter) : bool * Ratelimiter :=
  match c with CallAllow ip => Allow now ip r | CallTick => (false, tick now r) end.
(** The number of messages of [ip] let through. *)
Fixpoint allowed (ip : list Z) (r : Ratelimiter) (calls : list (Z * call)) : Z :=
  match calls with
  | [] => 0
  | (now, c) :: calls =>
      let '(ok, r) := do_call now c r in
      (if ok && bool_decide (c = CallAllow ip) then 1 else 0) + allowed ip r calls
  end.

(** ** The credit of an address: what its bucket would hold at a time *)
Definition credit (now : Z) (ip : list Z) (r : Ratelimiter) : Z :=
  match table r !! ip with
  | None => maxTokens
  | Some e => Z.min maxTokens (tokens e + (now - lastTime e))
  end.
(** Clocks of about a century of nanoseconds. *)
Definition time_ok (t : Z) : Prop := 0 <= t < 2 ^ 62.
Definition buckets_ok (now : Z) (r : Ratelimiter) : Prop :=
  forall ip e, table r !! ip = Some e -> 0 <= tokens e <= maxTokens /\ time_ok (lastTime e) /\ lastTime e <= now.

Lemma time_Sub_exact t u : time_ok t -> time_ok u -> time_Sub t u = t - u.
Proof. unfold time_ok, time_Sub. lia. Qed.
Lemma credit_later now now' ip r : now <= now' -> credit now' ip r <= credit now ip r + (now' - now).
Proof. intros. unfold credit. destruct (table r !! ip); lia. Qed.
Lemma credit_range now ip r : buckets_ok now r -> 0 <= credit now ip r <= maxTokens.
Proof.
  intros Hb. unfold credit. assert (0 < maxTokens) by done. destruct (table r !! ip) as [e|] eqn:E; [|lia].
  destruct (Hb _ _ E) as (? & ? & ?). lia.
Qed.
Lemma buckets_later now now' r : now <= now' -> buckets_ok now r -> buckets_ok now' r.
Proof. intros Hn Hb ip e E. destruct (Hb _ _ E) as (? & ? & ?). split_and!; lia || done. Qed.

Lemma Allow_credit now ip r : time_ok now -> buckets_ok now r ->
  buckets_ok now (Allow now ip r).2 /\
  (forall ip', credit now ip' (Allow now ip r).2 =
    credit now ip' r - if (Allow now ip r).1 && bool_decide (ip' = ip) then packetCost else 0).
Proof.
  intros Hn Hb. assert (packetCost < maxTokens /\ 0 < packetCost) as [Hcm Hcp] by done.
  unfold Allow. destruct (table r !! ip) as [e|] eqn:E.
  - destruct (Hb _ _ E) as (Ht & Hl & Hle). rewrite time_Sub_exact by done.
    assert (maxTokens < 2 ^ 62) by done. unfold time_ok in Hn, Hl. rewrite i64_small by lia.
    set (tk := if maxTokens <? tokens e + (now - lastTime e) then maxTokens else _). assert (tk = credit now ip r) as Htk.
    { unfold tk, credit. rewrite E. destruct (Z.ltb_spec maxTokens (tokens e + (now - lastTime e))); lia. }
    pose proof (credit_range now ip r Hb) as Hcr. rewrite <- Htk in Hcr.
    destruct (Z.ltb_spec packetCost tk); cbn [fst snd].
    + split.
      * intros ip' e' He'; cbn [table] in He'; apply lookup_insert_Some in He' as [[<- <-]|[_ He']]; [cbn; unfold time_ok; lia|exact (Hb _ _ He')].
      * intros ip'. unfold credit at 1. cbn [table]. destruct (decide (ip = ip')) as [<-|Hne].
        -- rewrite lookup_insert_eq, bool_decide_eq_true_2 by done. cbn. lia.
        -- rewrite lookup_insert_ne, bool_decide_eq_false_2 by done. fold (credit now ip' r). cbn. lia.
    + split.
      * intros ip' e' He'; cbn [table] in He'; apply lookup_insert_Some in He' as [[<- <-]|[_ He']]; [cbn; unfold time_ok; lia|exact (Hb _ _ He')].
      * intros ip'. unfold credit at 1. cbn [table andb]. destruct (decide (ip = ip')) as [<-|Hne].
        -- rewrite lookup_insert_eq. cbn. lia.
        -- rewrite lookup_insert_ne by done. fold (credit now ip' r). lia.
  - cbn [fst snd]. split.
    + intros ip' e' He'; cbn [table] in He'; apply lookup_insert_Some in He' as [[<- <-]|[_ He']]; [cbn; unfold time_ok in *; lia|exact (Hb _ _ He')].
    + intros ip'. unfold credit at 1. cbn [table andb]. destruct (decide (ip = ip')) as [<-|Hne].
      * rewrite lookup_insert_eq, bool_decide_eq_true_2 by done. unfold credit. rewrite E. cbn [tokens lastTime]. lia.
      * rewrite lookup_insert_ne, bool_decide_eq_false_2 by done. fold (credit now ip' r). lia.
Qed.
(** The collector only drops buckets that are full again. *)
Lemma tick_credit now r : time_ok now -> buckets_ok now r ->
  buckets_ok now (tick now r) /\ forall ip, credit now ip (tick now r) = credit now ip r.
Proof.
  intros Hn Hb. unfold tick. destruct (ticking r); [|done]. unfold cleanup.
  set (t := filter _ _).
  assert (table (if bool_decide (t = ∅) then mkRatelimiter (open r) false t else mkRatelimiter (open r) (ticking r) t) = t) as Ht
    by by case_bool_decide.
  unfold buckets_ok, credit. cbn [open table]. rewrite Ht. split.
  - intros ip e [He _]%map_lookup_filter_Some. exact (Hb _ _ He).
  - intros ip. destruct (t !! ip) as [e|] eqn:E.
    + apply map_lookup_filter_Some in E as [-> _]. done.
    + destruct (table r !! ip) as [e|] eqn:E'; [|done]. destruct (Hb _ _ E') as (? & Hl & ?).
      eapply map_lookup_filter_None_1 in E as [E|E]; [congruence|]. specialize (E _ E'). cbn in E.
      rewrite time_Sub_exact in E by done. destruct (Z.ltb_spec garbageCollectTime (now - lastTime e)); [|done].
      assert (maxTokens < garbageCollectTime) by done. lia.
Qed.

(** Calls at the times of a clock. *)
Fixpoint ordered (t0 : Z) (calls : list (Z * call)) : Prop :=
  match calls with [] => True | (t, _) :: calls => t0 <= t /\ time_ok t /\ ordered t calls end.
Definition end_time (t0 : Z) (calls : list (Z * call)) : Z := default t0 (last calls.*1).
Lemma allowed_bound ip r t0 calls : time_ok t0 -> buckets_ok t0 r -> ordered t0 calls ->
  allowed ip r calls * packetCost <= credit t0 ip r + (end_time t0 calls - t0).
Proof.
  revert r t0. induction calls as [|[t c] calls IH]; intros r t0 Ht0 Hb Ho.
  { unfold end_time. cbn. pose proof (credit_range _ ip _ Hb). lia. }
  destruct Ho as (Hle & Ht & Ho). cbn [allowed].
  assert (end_time t0 ((t, c) :: calls) = end_time t calls) as ->.
  { unfold end_time. cbn [fmap list_fmap fst]. rewrite last_cons. by destruct (last calls.*1). }
  pose proof (credit_later t0 t ip r Hle) as Hlater. apply (buckets_later _ t) in Hb; [|done].
  destruct c as [ip'|]; cbn [do_call].
  - destruct (Allow_credit t ip' r Ht Hb) as [Hb' Hc]. destruct (Allow t ip' r) as [ok r'] eqn:E. cbn [fst snd] in *.
    specialize (IH r' t Ht Hb' Ho). specialize (Hc ip).
    assert (bool_decide (CallAllow ip' = CallAllow ip) = bool_decide (ip = ip')) as -> by (apply bool_decide_ext; split; congruence).
    destruct (ok && bool_decide (ip = ip')); lia.
  - destruct (tick_credit t r Ht Hb) as [Hb' Hc]. specialize (IH _ t Ht Hb' Ho). rewrite (Hc ip) in IH. cbn [andb]. lia.
Qed.

Definition sample_calls : list (Z * call) :=
  [(10, CallAllow [1]); (11, CallAllow [1]); (12, CallAllow [2]); (13, CallAllow [1]); (14, CallAllow [1]);
   (15, CallAllow [1]); (16, CallAllow [1]); (2000000000, CallTick); (2000000001, CallAllow [1])].
