(* ===== verification/Replay.v ===== *)
(** * wireguard-go/replay: the anti-replay window

    [replay.go] (RFC 6479): a ring of 128 words of 64 bits remembers which of
    the counters close to the greatest one have been seen. All arithmetic is on
    [uint64]; the loop that clears the words the window moves over is a
    [Fixpoint] on the number of its iterations, which the code caps at 128. *)
From S2P Require Import Prelude.
Open Scope Z_scope.

Definition blockBitLog : Z := 6.
Definition blockBits : Z := Z.shiftl 1 blockBitLog.
Definition ringBlocks : Z := Z.shiftl 1 7.
Definition windowSize : Z := (ringBlocks - 1) * blockBits.
Definition blockMask : Z := ringBlocks - 1.
Definition bitMask : Z := blockBits - 1.

(** The ring as a list of [ringBlocks] words. *)
Record Filter := mkFilter { last : Z; ring : list Z }.
Definition zeroFilter : Filter := mkFilter 0 (replicate (Z.to_nat ringBlocks) 0).

Definition Reset (f : Filter) : Filter := mkFilter 0 (<[0%nat := 0]> (ring f)).

(** [for i := start; i < start + n; i++ { ring[i & blockMask] = 0 }] *)
Fixpoint clear_ring (n : nat) (i : Z) (r : list Z) : list Z :=
  match n with
  | O => r
  | S n => clear_ring n (u64 (i + 1)) (<[Z.to_nat (Z.land i blockMask) := 0]> r)
  end.

Definition ValidateCounter (f : Filter) (counter limit : Z) : bool * Filter :=
  if limit <=? counter then (false, f)
  else
    let indexBlock := Z.shiftr counter blockBitLog in
    let moved :=
      if last f <? counter then
        let current := Z.shiftr (last f) blockBitLog in
        let diff := u64 (indexBlock - current) in
        let diff := if ringBlocks <? diff then ringBlocks else diff in
        Some (mkFilter counter (clear_ring (Z.to_nat diff) (u64 (current + 1)) (ring f)))
      else if windowSize <? u64 (last f - counter) then None
      else Some f in
    match moved with
    | None => (false, f)
    | Some f =>
        let indexBlock := Z.to_nat (Z.land indexBlock blockMask) in
        let indexBit := Z.land counter bitMask in
        let old := nth indexBlock (ring f) 0 in
        let new := Z.lor old (Z.shiftl 1 indexBit) in
        (negb (old =? new), mkFilter (last f) (<[indexBlock := new]> (ring f)))
    end.

(** ** The window as a set of counters

    What the ring promises: a counter of the window is marked exactly when it
    has been accepted before. *)
Definition marked (f : Filter) (c : Z) : bool :=
  Z.testbit (nth (Z.to_nat (c / 64 mod 128)) (ring f) 0) (c mod 64).
(** The words the ring holds: the last 128 blocks up to the last counter's. *)
Definition in_window (f : Filter) (c : Z) : Prop :=
  0 <= c /\ last f / 64 - 127 <= c / 64 <= last f / 64.

(** The reference: the greatest counter and the set of those accepted. *)
Definition reference (s : Z * gset Z) (counter limit : Z) : bool * (Z * gset Z) :=
  let '(greatest, seen) := s in
  if bool_decide (counter < limit) &&
     (bool_decide (greatest < counter) ||
      bool_decide (greatest - counter <= windowSize) && bool_decide (counter ∉ seen))
  then (true, (Z.max greatest counter, {[counter]} ∪ seen))
  else (false, s).

(** The answers to a sequence of (counter, limit). *)
Fixpoint answers {S} (step : S -> Z -> Z -> bool * S) (s : S) (calls : list (Z * Z)) : list bool :=
  match calls with
  | [] => []
  | (c, l) :: calls => let '(b, s) := step s c l in b :: answers step s calls
  end.

(** ** Words of the ring *)
Lemma land_blockMask i : Z.land i blockMask = i mod 128.
Proof. exact (Z.land_ones i 7 ltac:(lia)). Qed.
Lemma land_bitMask i : Z.land i bitMask = i mod 64.
Proof. exact (Z.land_ones i 6 ltac:(lia)). Qed.
Lemma shiftr_block c : Z.shiftr c blockBitLog = c / 64.
Proof. exact (Z.shiftr_div_pow2 c 6 ltac:(lia)). Qed.

Lemma nth_insert (l : list Z) i j v :
  (i < length l)%nat -> nth j (<[i := v]> l) 0 = if decide (i = j) then v else nth j l 0.
Proof.
  intros Hi. rewrite !nth_lookup. destruct (decide (i = j)) as [->|].
  - by rewrite list_lookup_insert_eq.
  - by rewrite list_lookup_insert_ne.
Qed.
Lemma clear_ring_length n i r : length (clear_ring n i r) = length r.
Proof. revert i r. induction n as [|n IH]; intros; cbn; [done|]. by rewrite IH, length_insert. Qed.
Lemma clear_ring_step i r : length r = 128%nat -> 0 <= i -> i + 1 < 2 ^ 64 ->
  u64 (i + 1) = i + 1 /\ forall j, 0 <= j < 128 ->
  nth (Z.to_nat j) (<[Z.to_nat (Z.land i blockMask) := 0]> r) 0 =
  if decide (i mod 128 = j) then 0 else nth (Z.to_nat j) r 0.
Proof.
  intros Hl H0 H1. split; [apply u64_small; lia|]. intros j Hj. rewrite land_blockMask.
  pose proof (Z.mod_pos_bound i 128 ltac:(lia)). rewrite nth_insert by lia.
  destruct (decide (i mod 128 = j)) as [->|]; [by rewrite decide_True|].
  rewrite decide_False; [done|lia].
Qed.
Lemma clear_ring_miss n i r j : length r = 128%nat -> 0 <= i -> i + Z.of_nat n < 2 ^ 64 -> 0 <= j < 128 ->
  (forall k, 0 <= k < Z.of_nat n -> (i + k) mod 128 <> j) ->
  nth (Z.to_nat j) (clear_ring n i r) 0 = nth (Z.to_nat j) r 0.
Proof.
  revert i r. induction n as [|n IH]; intros i r Hl H0 H1 Hj Hk; cbn [clear_ring]; [done|].
  destruct (clear_ring_step i r Hl H0 ltac:(lia)) as [-> Hs].
  rewrite IH, Hs, decide_False; try done; try lia.
  - specialize (Hk 0 ltac:(lia)). by rewrite Z.add_0_r in Hk.
  - by rewrite length_insert.
  - intros k ?. replace (i + 1 + k) with (i + (1 + k)) by lia. apply Hk. lia.
Qed.
Lemma clear_ring_zero n i r j : length r = 128%nat -> 0 <= i -> i + Z.of_nat n < 2 ^ 64 -> 0 <= j < 128 ->
  nth (Z.to_nat j) r 0 = 0 -> nth (Z.to_nat j) (clear_ring n i r) 0 = 0.
Proof.
  revert i r. induction n as [|n IH]; intros i r Hl H0 H1 Hj Hz; cbn [clear_ring]; [done|].
  destruct (clear_ring_step i r Hl H0 ltac:(lia)) as [-> Hs].
  apply IH; try lia; [by rewrite length_insert|]. rewrite Hs by done. by case_decide.
Qed.
Lemma clear_ring_hit n i r j k : length r = 128%nat -> 0 <= i -> i + Z.of_nat n < 2 ^ 64 -> 0 <= j < 128 ->
  0 <= k < Z.of_nat n -> (i + k) mod 128 = j ->
  nth (Z.to_nat j) (clear_ring n i r) 0 = 0.
Proof.
  revert i r k. induction n as [|n IH]; intros i r k Hl H0 H1 Hj Hk Hm; cbn [clear_ring]; [lia|].
  destruct (clear_ring_step i r Hl H0 ltac:(lia)) as [-> Hs].
  assert (length (<[Z.to_nat (Z.land i blockMask) := 0]> r) = 128%nat) as Hl' by by rewrite length_insert.
  destruct (decide (k = 0)) as [->|].
  - apply clear_ring_zero; [done|lia..|]. rewrite Hs by done. rewrite Z.add_0_r in Hm. by rewrite decide_True.
  - apply (IH _ _ (k - 1)); [done|lia..|]. by replace (i + 1 + (k - 1)) with (i + k) by lia.
Qed.

(** ** The refinement relation *)
Definition represents (f : Filter) (s : Z * gset Z) : Prop :=
  last f = s.1 /\ 0 <= last f < 2 ^ 64 /\ length (ring f) = 128%nat /\
  (forall c, in_window f c -> marked f c = bool_decide (c ∈ s.2)) /\
  (forall c, c ∈ s.2 -> 0 <= c <= s.1).

Lemma represents_move f s counter : represents f s -> last f < counter < 2 ^ 64 ->
  let diff := u64 (Z.shiftr counter blockBitLog - Z.shiftr (last f) blockBitLog) in
  represents (mkFilter counter (clear_ring (Z.to_nat (if ringBlocks <? diff then ringBlocks else diff))
    (u64 (Z.shiftr (last f) blockBitLog + 1)) (ring f))) (counter, s.2).
Proof.
  intros (Hla & Hr & Hlen & Hm & Hs) Hc. rewrite !shiftr_block. cbn zeta.
  assert (0 <= last f / 64 <= counter / 64 /\ counter / 64 < 2 ^ 58) as [Hbl Hbc] by div_lia.
  rewrite !u64_small by lia. change ringBlocks with 128.
  assert (exists n, n = Z.min 128 (counter / 64 - last f / 64) /\
    (if 128 <? counter / 64 - last f / 64 then 128 else counter / 64 - last f / 64) = n) as (n & Hn & ->).
  { eexists. split; [done|]. destruct (Z.ltb_spec 128 (counter / 64 - last f / 64)); lia. }
  assert (forall c, last f / 64 < c / 64 -> false = bool_decide (c ∈ s.2)) as Hfresh.
  { intros c Hlt. symmetry. apply bool_decide_eq_false. intros Hin%Hs. rewrite <- Hla in Hin. clear -Hlt Hin. div_lia. }
  repeat split; cbn [last ring fst snd]; [lia..| | | |].
  - by rewrite clear_ring_length.
  - intros c [Hc0 Hw]. cbn [last] in Hw. unfold marked. cbn [ring].
    pose proof (Z.mod_pos_bound (c / 64) 128 ltac:(lia)) as Hj.
    destruct (decide (c / 64 <= last f / 64)) as [Hold|Hnew].
    + rewrite clear_ring_miss; [|done|lia..|].
      * rewrite <- (Hm c); [done|]. split; [done|]. lia.
      * intros k Hk Heq. assert ((last f / 64 + 1 + k - c / 64) mod 128 = 0) as Hz
          by (rewrite Zminus_mod, Heq, Z.sub_diag; done).
        rewrite Z.mod_small in Hz; lia.
    + destruct (decide (n = 128)) as [->|Hn1].
      * rewrite (clear_ring_hit _ _ _ _ ((c / 64 - (last f / 64 + 1)) mod 128)); [|done|lia..| |].
        -- rewrite Z.bits_0. apply Hfresh. lia.
        -- apply Z.mod_pos_bound. lia.
        -- rewrite Zplus_mod_idemp_r. f_equal. lia.
      * rewrite (clear_ring_hit _ _ _ _ (c / 64 - (last f / 64 + 1))); [|done|lia..|f_equal; lia].
        rewrite Z.bits_0. apply Hfresh. lia.
  - specialize (Hs _ H). lia.
  - specialize (Hs _ H). lia.
Qed.

Lemma testbit_set old i j : 0 <= i -> 0 <= j ->
  Z.testbit (Z.lor old (Z.shiftl 1 i)) j = Z.testbit old j || (i =? j).
Proof.
  intros Hi Hj. rewrite Z.lor_spec, Z.shiftl_1_l. f_equal.
  destruct (Z.eqb_spec i j) as [->|]; [by apply Z.pow2_bits_true|by apply Z.pow2_bits_false].
Qed.
Lemma lor_same old i : 0 <= i -> (old =? Z.lor old (Z.shiftl 1 i)) = Z.testbit old i.
Proof.
  intros Hi. destruct (Z.testbit old i) eqn:E.
  - apply Z.eqb_eq, Z.bits_inj'. intros j Hj. rewrite testbit_set by done.
    destruct (Z.eqb_spec i j) as [<-|]; [by rewrite E|by rewrite orb_false_r].
  - apply Z.eqb_neq. intros Heq. apply (f_equal (fun z => Z.testbit z i)) in Heq.
    rewrite testbit_set, E, Z.eqb_refl in Heq by done. done.
Qed.

(** The last lines: check and set the bit of a counter of the window. *)
Definition check_set (f : Filter) (counter : Z) : bool * Filter :=
  let indexBlock := Z.to_nat (Z.land (Z.shiftr counter blockBitLog) blockMask) in
  let indexBit := Z.land counter bitMask in
  let old := nth indexBlock (ring f) 0 in
  let new := Z.lor old (Z.shiftl 1 indexBit) in
  (negb (old =? new), mkFilter (last f) (<[indexBlock := new]> (ring f))).
Lemma check_set_spec f s counter : represents f s -> in_window f counter -> counter <= last f ->
  (check_set f counter).1 = negb (bool_decide (counter ∈ s.2)) /\
  represents (check_set f counter).2 (s.1, {[counter]} ∪ s.2).
Proof.
  intros (Hla & Hr & Hlen & Hm & Hs) Hw Hle. unfold check_set. rewrite shiftr_block, land_blockMask, land_bitMask.
  pose proof (Z.mod_pos_bound counter 64 ltac:(lia)) as Hb.
  pose proof (Z.mod_pos_bound (counter / 64) 128 ltac:(lia)) as Hk. cbn [fst snd]. split.
  { rewrite lor_same by lia. f_equal. by rewrite <- Hm. }
  repeat split; cbn [last ring fst snd]; [done|lia..| | | |].
  - by rewrite length_insert.
  - intros c Hc. unfold marked. cbn [ring]. specialize (Hm c). unfold in_window in *. cbn [last] in *.
    rewrite nth_insert by lia. destruct (decide (_ = _)) as [He|Hne].
    + assert (c / 64 = counter / 64) as Hcc.
      { apply Z2Nat.inj in He; [|lia|by apply Z.mod_pos_bound]. clear -He Hc Hw. div_lia. }
      rewrite testbit_set by (lia || by apply Z.mod_pos_bound).
      unfold marked in Hm. rewrite Hcc in Hm. rewrite Hm by lia.
      destruct (Z.eqb_spec (counter mod 64) (c mod 64)) as [E|E].
      * assert (c = counter) as -> by (clear -E Hcc; div_lia). rewrite orb_true_r. symmetry. apply bool_decide_eq_true. set_solver.
      * rewrite orb_false_r. apply bool_decide_ext. assert (c <> counter) by (intros ->; done). set_solver.
    + unfold marked in Hm. rewrite Hm by done. apply bool_decide_ext.
      assert (c <> counter) by (intros ->; done). set_solver.
  - cbn [snd] in H; apply elem_of_union in H as [->%elem_of_singleton|H%Hs]; [destruct Hw|]; lia.
  - cbn [snd] in H; apply elem_of_union in H as [->%elem_of_singleton|H%Hs]; [destruct Hw|]; lia.
Qed.
Lemma ValidateCounter_unfold f counter limit :
  ValidateCounter f counter limit =
  if limit <=? counter then (false, f)
  else if last f <? counter then
    let current := Z.shiftr (last f) blockBitLog in
    let diff := u64 (Z.shiftr counter blockBitLog - current) in
    check_set (mkFilter counter (clear_ring (Z.to_nat (if ringBlocks <? diff then ringBlocks else diff)) (u64 (current + 1)) (ring f))) counter
  else if windowSize <? u64 (last f - counter) then (false, f) else check_set f counter.
Proof.
  unfold ValidateCounter, check_set. destruct (limit <=? counter); [reflexivity|].
  destruct (last f <? counter); [reflexivity|]. by destruct (windowSize <? _).
Qed.

Lemma ValidateCounter_reference f s counter limit : represents f s -> 0 <= counter < 2 ^ 64 ->
  (ValidateCounter f counter limit).1 = (reference s counter limit).1 /\
  represents (ValidateCounter f counter limit).2 (reference s counter limit).2.
Proof.
  intros Hrep Hc. rewrite ValidateCounter_unfold. unfold reference. destruct s as [g seen].
  pose proof Hrep as (Hla & Hr & Hlen & Hm & Hs). cbn [fst snd] in *. subst g.
  destruct (Z.leb_spec limit counter); [by rewrite bool_decide_eq_false_2 by lia|].
  rewrite (bool_decide_eq_true_2 (counter < limit)) by lia. cbn [andb].
  destruct (Z.ltb_spec (last f) counter).
  - rewrite (bool_decide_eq_true_2 (last f < counter)) by lia. cbn zeta. cbn [orb].
    pose proof (represents_move f _ counter Hrep ltac:(lia)) as Hmv. cbn zeta in Hmv. cbn [snd] in Hmv.
    apply check_set_spec with (counter := counter) in Hmv as [H1 H2]; [|unfold in_window; cbn [last]; lia|cbn [last]; lia].
    cbn [fst snd] in *. rewrite Z.max_r by lia. split; [|done].
    rewrite H1, bool_decide_eq_false_2; [done|]. intros Hin%Hs. lia.
  - rewrite (bool_decide_eq_false_2 (last f < counter)) by lia. cbn [orb]. rewrite u64_small by lia.
    change windowSize with 8128. destruct (Z.ltb_spec 8128 (last f - counter)).
    { by rewrite (bool_decide_eq_false_2 (_ <= 8128)) by lia. }
    rewrite (bool_decide_eq_true_2 (_ <= 8128)) by lia. cbn [andb].
    destruct (check_set_spec f _ counter Hrep) as [E1 H2]; [unfold in_window; div_lia|lia|].
    cbn [fst snd] in *. rewrite Z.max_l by lia. rewrite E1, bool_decide_not. destruct (bool_decide_reflect (counter ∈ seen)) as [Hin|]; cbn.
    + split; [done|]. replace ({[counter]} ∪ seen) with seen in H2; [done|]. clear -Hin. set_solver.
    + done.
Qed.

Lemma represents_zero : represents zeroFilter (0, ∅).
Proof.
  repeat split; try done.
  - intros c [? Hw]. cbn [last zeroFilter] in Hw. unfold marked, zeroFilter. cbn [ring].
    rewrite nth_lookup. rewrite bool_decide_eq_false_2 by set_solver.
    destruct (replicate _ _ !! _) as [x|] eqn:E; [apply lookup_replicate in E as [-> _]|]; cbn; apply Z.bits_0.
Qed.
Lemma represents_Reset f s : represents f s -> represents (Reset f) (0, ∅).
Proof.
  intros (_ & _ & Hlen & _ & _). repeat split; cbn [last ring Reset fst snd]; [done..| | |set_solver|set_solver].
  - by rewrite length_insert.
  - intros c [Hc Hw]. cbn [last] in Hw. rewrite bool_decide_eq_false_2 by set_solver.
    unfold marked. cbn [ring Reset]. replace (c / 64) with 0 by (clear -Hc Hw; cbn [Reset last] in Hw; div_lia).
    rewrite nth_insert by lia. rewrite decide_True by done. apply Z.bits_0.
Qed.
Lemma answers_represents f s calls : represents f s -> Forall (fun c => 0 <= c.1 < 2 ^ 64) calls ->
  answers ValidateCounter f calls = answers reference s calls.
Proof.
  intros Hrep Hall. revert f s Hrep. induction Hall as [|[c l] calls Hc _ IH]; intros; cbn [answers]; [done|].
  destruct (ValidateCounter_reference f s c l Hrep Hc) as [H1 H2].
  destruct (ValidateCounter f c l), (reference s c l). cbn [fst snd] in *. subst. f_equal. by apply IH.
Qed.

(** ** What the receiver relies on *)

(** After any history of calls and resets the filter answers every further
    sequence of 64-bit counters exactly as the reference with the full set of
    accepted counters does: ring, masks and window movement lose nothing. *)
Inductive filter_reached : Filter -> Prop :=
| reach_zero : filter_reached zeroFilter
| reach_reset f : filter_reached f -> filter_reached (Reset f)
| reach_validate f c l : filter_reached f -> 0 <= c < 2 ^ 64 -> filter_reached (ValidateCounter f c l).2.
Lemma reached_represents f : filter_reached f -> exists s, represents f s.
Proof.
  induction 1 as [|f _ [s Hs]|f c l _ [s Hs] Hc].
  - eexists. apply represents_zero.
  - eexists. by eapply represents_Reset.
  - eexists. by apply ValidateCounter_reference.
Qed.

(** The counters of a sequence of calls that were accepted. *)
Definition accepted (bs : list bool) (calls : list (Z * Z)) : list Z :=
  omap (fun x : bool * (Z * Z) => if x.1 then Some x.2.1 else None) (zip bs calls).
Lemma reference_accepted s calls : (forall c, c ∈ s.2 -> c <= s.1) ->
  NoDup (accepted (answers reference s calls) calls) /\
  Forall (fun c => c ∉ s.2) (accepted (answers reference s calls) calls).
Proof.
  revert s. induction calls as [|[c l] calls IH]; intros [g seen] Hs; [by split; constructor|].
  cbn [answers]. destruct (reference (g, seen) c l) as [b s'] eqn:E. unfold reference in E.
  unfold accepted. cbn [zip_with omap list_omap fst snd]. case_match eqn:Hb; simplify_eq; [|by apply IH].
  apply andb_true_iff in Hb as [_ Hb]. cbn [fst snd] in *.
  assert (c ∉ seen) as Hc.
  { apply orb_true_iff in Hb as [Hb|Hb]; [|by apply andb_true_iff in Hb as [_ ?%bool_decide_eq_true]].
    apply bool_decide_eq_true in Hb. intros Hin%Hs. lia. }
  destruct (IH (Z.max g c, {[c]} ∪ seen)) as [Hnd Hall].
  { cbn. intros x [->%elem_of_singleton|Hx%Hs]%elem_of_union; lia. }
  cbn [snd] in Hall. split; constructor; [|done|done|].
  - intros Hin. rewrite Forall_forall in Hall. specialize (Hall _ Hin). set_solver.
  - eapply Forall_impl; [exact Hall|]. intros x Hx. set_solver.
Qed.

(** C20: The anti-replay window. From its zero value, and after [Reset] in whatever
    state the filter is, it answers every sequence of 64-bit counters exactly as
    the reference that keeps the whole set of accepted counters: a counter is
    refused only at its limit, when it is more than [windowSize] behind the
    greatest one, or when it was accepted before; and no counter is ever
    accepted twice. *)
Theorem window_exact f calls :
  filter_reached f -> Forall (fun c => 0 <= c.1 < 2 ^ 64) calls ->
  answers ValidateCounter zeroFilter calls = answers reference (0, ∅) calls /\
  answers ValidateCounter (Reset f) calls = answers reference (0, ∅) calls /\
  NoDup (accepted (answers ValidateCounter zeroFilter calls) calls).
Proof.
  intros [s Hs]%reached_represents Hall.
  rewrite (answers_represents zeroFilter _ _ represents_zero Hall).
  rewrite (answers_represents _ _ _ (represents_Reset _ _ Hs) Hall).
  split_and!; [done..|]. apply reference_accepted. set_solver.
Qed.
Definition sample_calls : list (Z * Z) :=
  [(5, 2^64 - 1); (9000, 2^64 - 1); (5, 2^64 - 1); (900, 2^64 - 1); (900, 2^64 - 1); (2^40, 2^64 - 1); (9001, 2^64 - 1); (2^64 - 1, 2^64 - 1)].
Lemma window_exact_witness :
  answers ValidateCounter zeroFilter sample_calls = [true; true; false; true; false; true; false; false] /\
  NoDup (accepted (answers ValidateCounter zeroFilter sample_calls) sample_calls).
Proof.
  assert (Forall (fun c => 0 <= c.1 < 2 ^ 64) sample_calls) as Hr by (repeat constructor; done).
  destruct (window_exact (ValidateCounter zeroFilter 7 9).2 sample_calls) as (_ & _ & Hnd);
    [by apply reach_validate; [apply reach_zero|]|exact Hr|].
  split; [by vm_compute|exact Hnd].
Defined.
