(* ===== verification/WGCrypto.v ===== *)
(** * wireguard-go/device: keys, key derivation, messages, timestamps

    [noise-types.go], [noise-helpers.go], the message types of
    [noise-protocol.go] and [tai64n.go]. The primitives of golang.org/x/crypto
    (X25519, BLAKE2s, ChaCha20-Poly1305) are the interface [Crypto]; HMAC is the
    standard library's and is defined here over BLAKE2s. Arrays are byte lists of
    the array's length. *)
From S2P Require Import Prelude GoStrings GoNet Encoding GoBytes.
Open Scope string_scope.
Open Scope list_scope.
Open Scope Z_scope.

(** ** Timestamps: [tai64n.Stamp] of a time in nanoseconds since the epoch *)
Definition tai64_base : Z := 0x400000000000000a.
Definition whitenerMask : Z := 0x1000000 - 1.
Definition stamp (t : Z) : list Z :=
  let secs := u64 (tai64_base + u64 (t / 1000000000)) in
  let nano := Z.ldiff (u32 (t mod 1000000000)) whitenerMask in
  be_bytes 8 secs ++ be_bytes 4 nano.
Definition After (t1 t2 : list Z) : bool := bytes_gt t1 t2.

(** ** Primitives *)
Class Crypto := {
  blake2s_Sum256 : list Z -> list Z;
  (** keyed BLAKE2s with a 16-byte digest *)
  blake2s_New128 : list Z -> list Z -> list Z;
  ScalarBaseMult : list Z -> list Z;
  ScalarMult : list Z -> list Z -> list Z;
  (** key, nonce, plaintext or ciphertext, additional data *)
  aead_Seal : list Z -> list Z -> list Z -> list Z -> list Z;
  aead_Open : list Z -> list Z -> list Z -> list Z -> option (list Z);
  aeadX_Seal : list Z -> list Z -> list Z -> list Z -> list Z;
  aeadX_Open : list Z -> list Z -> list Z -> list Z -> option (list Z) }.

(** What their documentation promises: Diffie-Hellman keys agree, and a sealed
    message opens under the same key, nonce and additional data. *)
Class CryptoLaws `{Crypto} := {
  dh_agree : forall a b, ScalarMult a (ScalarBaseMult b) = ScalarMult b (ScalarBaseMult a);
  open_seal : forall k n p ad, bytes_ok p -> aead_Open k n (aead_Seal k n p ad) ad = Some p;
  openX_sealX : forall k n p ad, bytes_ok p -> aeadX_Open k n (aeadX_Seal k n p ad) ad = Some p;
  seal_length : forall k n p ad, length (aead_Seal k n p ad) = (length p + 16)%nat;
  sealX_length : forall k n p ad, length (aeadX_Seal k n p ad) = (length p + 16)%nat;
  base_length : forall a, length (ScalarBaseMult a) = 32%nat;
  mac_length : forall k p, length (blake2s_New128 k p) = 16%nat;
  seal_bytes : forall k n p ad, bytes_ok (aead_Seal k n p ad);
  sealX_bytes : forall k n p ad, bytes_ok (aeadX_Seal k n p ad);
  base_bytes : forall a, bytes_ok (ScalarBaseMult a);
  mac_bytes : forall k p, bytes_ok (blake2s_New128 k p) }.

Definition zeros (n : nat) : list Z := replicate n 0.
Definition isZero (val : list Z) : bool := forallb (fun b => b =? 0) val.
Definition ZeroNonce : list Z := zeros 12.

Section crypto.
Context `{Crypto}.

(** [crypto/hmac] with BLAKE2s-256, whose block has 64 bytes. *)
Definition hmac_key (key : list Z) : list Z :=
  let key := if (64 <? length key)%nat then blake2s_Sum256 key else key in
  key ++ zeros (64 - length key).
Definition hmac (key data : list Z) : list Z :=
  let k := hmac_key key in
  blake2s_Sum256 (map (Z.lxor 0x5c) k ++ blake2s_Sum256 (map (Z.lxor 0x36) k ++ data)).

Definition HMAC1 (key in0 : list Z) : list Z := hmac key in0.
Definition HMAC2 (key in0 in1 : list Z) : list Z := hmac key (in0 ++ in1).
Definition KDF1 (key input : list Z) : list Z :=
  let t0 := HMAC1 key input in HMAC1 t0 [1].
Definition KDF2 (key input : list Z) : list Z * list Z :=
  let prk := HMAC1 key input in
  let t0 := HMAC1 prk [1] in
  let t1 := HMAC2 prk t0 [2] in (t0, t1).
Definition KDF3 (key input : list Z) : list Z * list Z * list Z :=
  let prk := HMAC1 key input in
  let t0 := HMAC1 prk [1] in
  let t1 := HMAC2 prk t0 [2] in
  let t2 := HMAC2 prk t1 [3] in (t0, t1, t2).

Definition mixKey (c data : list Z) : list Z := KDF1 c data.
Definition mixHash (h data : list Z) : list Z := blake2s_Sum256 (h ++ data).

Definition bytes_of (s : string) : list Z := map byte_of (list_ascii_of_string s).
Definition NoiseConstruction : string := "Noise_IKpsk2_25519_ChaChaPoly_BLAKE2s".
Definition WGIdentifier : string := "CorpLink v1 vpn@feilian-----------".
Definition WGLabelMAC1 : string := "mac1----".
Definition WGLabelCookie : string := "cookie--".
Definition InitialChainKey : list Z := blake2s_Sum256 (bytes_of NoiseConstruction).
Definition InitialHash : list Z := mixHash InitialChainKey (bytes_of WGIdentifier).

(** ** Keys *)
Definition clamp (sk : list Z) : list Z :=
  <[31%nat := Z.lor (Z.land (nth 31 sk 0) 127) 64]> (<[0%nat := Z.land (nth 0 sk 0) 248]> sk).
(** [newPrivateKey], given what [rand.Read] wrote and its error. *)
Definition newPrivateKey (rand : list Z * option error) : list Z * option error :=
  (clamp rand.1, rand.2).
Definition publicKey (sk : list Z) : list Z := ScalarBaseMult sk.
Definition errInvalidPublicKey : error := Errorf "invalid public key" [].
Definition sharedSecret (sk pk : list Z) : list Z * option error :=
  let ss := ScalarMult sk pk in
  if isZero ss then (ss, Some errInvalidPublicKey) else (ss, None).
End crypto.

(** [loadExactHex] into an array of 32 bytes; the array keeps its old value on
    error. *)
Definition loadExactHex (dst : list Z) (src : string) : list Z * option error :=
  match hex_DecodeString src with
  | None => (dst, Some (Errorf "hex.InvalidByteError" []))
  | Some l =>
      if (length l =? length dst)%nat then (l, None)
      else (dst, Some (Errorf "hex string does not fit the slice" []))
  end.
Definition PrivateKey_FromMaybeZeroHex (key : list Z) (src : string) : list Z * option error :=
  let '(key, err) := loadExactHex key src in
  if isZero key then (key, err) else (clamp key, err).
Definition PublicKey_FromHex := loadExactHex.
Definition PresharedKey_FromHex := loadExactHex.

(** ** Messages *)
Definition MessageInitiationType : Z := 1.
Definition MessageResponseType : Z := 2.
Definition MessageCookieReplyType : Z := 3.
Definition MessageTransportType : Z := 4.
Definition MessageInitiationSize : nat := 148.
Definition MessageResponseSize : nat := 92.
Definition MessageCookieReplySize : nat := 64.
Definition MessageTransportHeaderSize : nat := 16.
Definition MessageTransportSize : nat := MessageTransportHeaderSize + 16.
Definition MessageKeepaliveSize : nat := MessageTransportSize.

Record MessageInitiation := mkInitiation {
  mi_Type : Z; mi_Sender : Z; mi_Ephemeral : list Z; mi_Static : list Z; mi_Timestamp : list Z;
  mi_MAC1 : list Z; mi_MAC2 : list Z }.
Record MessageResponse := mkResponse {
  mr_Type : Z; mr_Sender : Z; mr_Receiver : Z; mr_Ephemeral : list Z; mr_Empty : list Z;
  mr_MAC1 : list Z; mr_MAC2 : list Z }.
Record MessageCookieReply := mkCookieReply {
  mc_Type : Z; mc_Receiver : Z; mc_Nonce : list Z; mc_Cookie : list Z }.

Definition errMessageLengthMismatch : error := Errorf "message length mismatch" [].

Definition MessageInitiation_unmarshal (b : list Z) : result MessageInitiation :=
  if negb (length b =? MessageInitiationSize)%nat then Err errMessageLengthMismatch
  else Ok (mkInitiation (le_val (slice 0 4 b)) (le_val (slice 4 4 b)) (slice 8 32 b) (slice 40 48 b)
             (slice 88 28 b) (slice 116 16 b) (slice 132 16 b)).
Definition MessageInitiation_marshal (msg : MessageInitiation) : list Z :=
  le_bytes 4 (mi_Type msg) ++ le_bytes 4 (mi_Sender msg) ++ mi_Ephemeral msg ++ mi_Static msg ++
  mi_Timestamp msg ++ mi_MAC1 msg ++ mi_MAC2 msg.
Definition MessageResponse_unmarshal (b : list Z) : result MessageResponse :=
  if negb (length b =? MessageResponseSize)%nat then Err errMessageLengthMismatch
  else Ok (mkResponse (le_val (slice 0 4 b)) (le_val (slice 4 4 b)) (le_val (slice 8 4 b)) (slice 12 32 b)
             (slice 44 16 b) (slice 60 16 b) (slice 76 16 b)).
Definition MessageResponse_marshal (msg : MessageResponse) : list Z :=
  le_bytes 4 (mr_Type msg) ++ le_bytes 4 (mr_Sender msg) ++ le_bytes 4 (mr_Receiver msg) ++
  mr_Ephemeral msg ++ mr_Empty msg ++ mr_MAC1 msg ++ mr_MAC2 msg.
Definition MessageCookieReply_unmarshal (b : list Z) : result MessageCookieReply :=
  if negb (length b =? MessageCookieReplySize)%nat then Err errMessageLengthMismatch
  else Ok (mkCookieReply (le_val (slice 0 4 b)) (le_val (slice 4 4 b)) (slice 8 24 b) (slice 32 32 b)).
Definition MessageCookieReply_marshal (msg : MessageCookieReply) : list Z :=
  le_bytes 4 (mc_Type msg) ++ le_bytes 4 (mc_Receiver msg) ++ mc_Nonce msg ++ mc_Cookie msg.

(** The sizes the Go array types guarantee. *)
Definition initiation_ok (m : MessageInitiation) : Prop :=
  0 <= mi_Type m < 2 ^ 32 /\ 0 <= mi_Sender m < 2 ^ 32 /\ length (mi_Ephemeral m) = 32%nat /\
  length (mi_Static m) = 48%nat /\ length (mi_Timestamp m) = 28%nat /\
  length (mi_MAC1 m) = 16%nat /\ length (mi_MAC2 m) = 16%nat.
Definition response_ok (m : MessageResponse) : Prop :=
  0 <= mr_Type m < 2 ^ 32 /\ 0 <= mr_Sender m < 2 ^ 32 /\ 0 <= mr_Receiver m < 2 ^ 32 /\
  length (mr_Ephemeral m) = 32%nat /\ length (mr_Empty m) = 16%nat /\
  length (mr_MAC1 m) = 16%nat /\ length (mr_MAC2 m) = 16%nat.
Definition cookie_reply_ok (m : MessageCookieReply) : Prop :=
  0 <= mc_Type m < 2 ^ 32 /\ 0 <= mc_Receiver m < 2 ^ 32 /\
  length (mc_Nonce m) = 24%nat /\ length (mc_Cookie m) = 32%nat.

(** Reading the fields back off a concatenation. *)
Ltac slice_solve :=
  repeat (rewrite slice_skip by (rewrite ?le_bytes_length; lia); rewrite ?le_bytes_length);
  rewrite ?length_app, ?le_bytes_length;
  repeat match goal with Hl : length ?a = _ |- context [length ?a] => rewrite Hl end;
  cbn [Nat.sub]; first [apply slice_app | apply slice_all]; rewrite ?le_bytes_length; done.

Lemma initiation_roundtrip m : initiation_ok m ->
  length (MessageInitiation_marshal m) = MessageInitiationSize /\
  MessageInitiation_unmarshal (MessageInitiation_marshal m) = Ok m.
Proof.
  destruct m as [ty se ep st ti m1 m2]. unfold initiation_ok, MessageInitiation_marshal, MessageInitiation_unmarshal.
  cbn [mi_Type mi_Sender mi_Ephemeral mi_Static mi_Timestamp mi_MAC1 mi_MAC2].
  intros (H1 & H2 & H3 & H4 & H5 & H6 & H7).
  rewrite !length_app, !le_bytes_length, H3, H4, H5, H6, H7. split; [done|]. cbn [negb Nat.eqb Nat.add MessageInitiationSize].
  do 2 f_equal; [rewrite <- (le_val_bytes 4 ty) at 2 by done; f_equal|rewrite <- (le_val_bytes 4 se) at 2 by done; f_equal|..];
    slice_solve.
Qed.
Lemma response_roundtrip m : response_ok m ->
  length (MessageResponse_marshal m) = MessageResponseSize /\
  MessageResponse_unmarshal (MessageResponse_marshal m) = Ok m.
Proof.
  destruct m as [ty se re ep em m1 m2]. unfold response_ok, MessageResponse_marshal, MessageResponse_unmarshal.
  cbn [mr_Type mr_Sender mr_Receiver mr_Ephemeral mr_Empty mr_MAC1 mr_MAC2].
  intros (H1 & H2 & H3 & H4 & H5 & H6 & H7).
  rewrite !length_app, !le_bytes_length, H4, H5, H6, H7. split; [done|]. cbn [negb Nat.eqb Nat.add MessageResponseSize].
  do 2 f_equal; [rewrite <- (le_val_bytes 4 ty) at 2 by done; f_equal|rewrite <- (le_val_bytes 4 se) at 2 by done; f_equal|
    rewrite <- (le_val_bytes 4 re) at 2 by done; f_equal|..]; slice_solve.
Qed.
Lemma cookie_reply_roundtrip m : cookie_reply_ok m ->
  length (MessageCookieReply_marshal m) = MessageCookieReplySize /\
  MessageCookieReply_unmarshal (MessageCookieReply_marshal m) = Ok m.
Proof.
  destruct m as [ty re no co]. unfold cookie_reply_ok, MessageCookieReply_marshal, MessageCookieReply_unmarshal.
  cbn [mc_Type mc_Receiver mc_Nonce mc_Cookie]. intros (H1 & H2 & H3 & H4).
  rewrite !length_app, !le_bytes_length, H3, H4. split; [done|]. cbn [negb Nat.eqb Nat.add MessageCookieReplySize].
  do 2 f_equal; [rewrite <- (le_val_bytes 4 ty) at 2 by done; f_equal|rewrite <- (le_val_bytes 4 re) at 2 by done; f_equal|..];
    slice_solve.
Qed.

(** ** Timestamps order as times, to the granularity of the whitener *)
Definition granule (t : Z) : Z := (t / 1000000000) * 2 ^ 32 + 2 ^ 24 * ((t mod 1000000000) / 2 ^ 24).
Lemma whiten x : Z.ldiff x whitenerMask = 2 ^ 24 * (x / 2 ^ 24).
Proof.
  change whitenerMask with (Z.ones 24). rewrite Z.ldiff_ones_r by lia.
  rewrite Z.shiftr_div_pow2, Z.shiftl_mul_pow2 by lia. lia.
Qed.
Lemma stamp_length t : length (stamp t) = 12%nat.
Proof. unfold stamp. by rewrite length_app, !be_bytes_length. Qed.
Lemma stamp_bytes t : bytes_ok (stamp t).
Proof. apply Forall_app; split; apply be_bytes_ok. Qed.
Lemma After_stamp t1 t2 : 0 <= t1 < 2 ^ 90 -> 0 <= t2 < 2 ^ 90 -> After (stamp t1) (stamp t2) = (granule t2 <? granule t1).
Proof.
  intros H1 H2. unfold After. rewrite bytes_gt_val;
    [|by rewrite !stamp_length|unfold stamp; by apply Forall_app; split; apply be_bytes_ok..].
  assert (forall t, 0 <= t < 2 ^ 90 -> be_val (stamp t) = granule t + 2 ^ 32 * tai64_base) as Hv.
  { intros t Ht. assert (0 <= t / 1000000000 < 2 ^ 62) by div_lia. unfold stamp, granule.
    pose proof (Z.mod_pos_bound t 1000000000 ltac:(lia)) as Hm.
    rewrite (u32_small (t mod _)), (u64_small (t / _)), (u64_small (_ + _)) by (unfold tai64_base; lia). rewrite whiten.
    set (s := t / 1000000000) in *. set (ns := t mod 1000000000) in *.
    assert (0 <= 2 ^ 24 * (ns / 2 ^ 24) < 2 ^ 32) by (split; [|]; div_lia).
    assert (forall a b, length b = 4%nat -> be_val (a ++ b) = be_val a * 2 ^ 32 + be_val b) as Happ.
    { clear. intros a b Hb. induction a as [|x a IH]; cbn [be_val app]; [done|].
      rewrite IH, length_app, Hb, Nat2Z.inj_add. rewrite (Z.mul_add_distr_l 8), Z.pow_add_r by lia.
      change (2 ^ (8 * Z.of_nat 4)) with (2 ^ 32). ring. }
    rewrite Happ by apply be_bytes_length. rewrite !be_val_bytes; [lia| |].
    - change (2 ^ (8 * Z.of_nat 4)) with (2 ^ 32). lia.
    - change (2 ^ (8 * Z.of_nat 8)) with (2 ^ 64). unfold tai64_base. lia. }
  rewrite !Hv by done. apply eq_bool_prop_intro. rewrite !Is_true_true, !Z.ltb_lt. lia.
Qed.

(** ** The laws can hold: arithmetic in place of cryptography *)
Definition toy_tag (k n p ad : list Z) : list Z := le_bytes 16 (le_val (k ++ n ++ p ++ ad)).
Definition toy_seal (k n p ad : list Z) : list Z := map u8 p ++ toy_tag k n (map u8 p) ad.
Definition toy_open (k n c ad : list Z) : option (list Z) :=
  let p := take (length c - 16) c in
  if bool_decide (drop (length c - 16) c = toy_tag k n p ad) then Some p else None.
Definition toy_crypto : Crypto := {|
  blake2s_Sum256 l := le_bytes 32 (7 * le_val l + Z.of_nat (length l));
  blake2s_New128 k l := le_bytes 16 (le_val (k ++ l));
  ScalarBaseMult a := le_bytes 32 (le_val a);
  ScalarMult a p := le_bytes 32 (le_val a * le_val p);
  aead_Seal := toy_seal; aead_Open := toy_open; aeadX_Seal := toy_seal; aeadX_Open := toy_open |}.

Lemma le_bytes_mod n z : le_bytes n (z mod 2 ^ (8 * Z.of_nat n)) = le_bytes n z.
Proof.
  revert z. induction n as [|n IH]; intros z; cbn [le_bytes]; [done|].
  replace (8 * Z.of_nat (S n)) with (8 + 8 * Z.of_nat n) by lia. rewrite Z.pow_add_r by lia. change (2 ^ 8) with 256.
  assert (0 < 2 ^ (8 * Z.of_nat n)) by (apply Z.pow_pos_nonneg; lia).
  rewrite Z.rem_mul_r by lia. rewrite <- (IH (z / 256)). set (X := (z / 256) mod _).
  f_equal; [|f_equal]; div_lia.
Qed.
Lemma le_val_mod n z : le_val (le_bytes n z) = z mod 2 ^ (8 * Z.of_nat n).
Proof. rewrite <- le_bytes_mod. apply le_val_bytes, Z.mod_pos_bound, Z.pow_pos_nonneg; lia. Qed.
Lemma map_u8_bytes p : bytes_ok p -> map u8 p = p.
Proof. induction 1 as [|x p Hx _ IH]; cbn; [done|]. by rewrite u8_small, IH. Qed.
Lemma toy_open_seal k n p ad : bytes_ok p -> toy_open k n (toy_seal k n p ad) ad = Some p.
Proof.
  intros Hp. unfold toy_open, toy_seal. rewrite map_u8_bytes by done.
  rewrite length_app, (le_bytes_length 16 _ : length (toy_tag k n p ad) = 16%nat). replace (length p + 16 - 16)%nat with (length p) by lia.
  by rewrite take_app_length, drop_app_length, bool_decide_eq_true_2.
Qed.
Lemma toy_seal_length k n p ad : length (toy_seal k n p ad) = (length p + 16)%nat.
Proof. unfold toy_seal, toy_tag. by rewrite length_app, length_map, le_bytes_length. Qed.
Lemma toy_seal_bytes k n p ad : bytes_ok (toy_seal k n p ad).
Proof.
  apply Forall_app. split; [|apply le_bytes_ok]. apply Forall_map. apply Forall_true. intros x. apply u8_range.
Qed.
Lemma toy_dh a b : le_bytes 32 (le_val a * le_val (le_bytes 32 (le_val b))) = le_bytes 32 (le_val b * le_val (le_bytes 32 (le_val a))).
Proof.
  rewrite !le_val_mod, <- (le_bytes_mod 32 (_ * _)), <- (le_bytes_mod 32 (le_val b * _)).
  f_equal. rewrite !Zmult_mod_idemp_r. f_equal. lia.
Qed.
Lemma toy_laws : @CryptoLaws toy_crypto.
Proof.
  split; intros; first [apply toy_dh | by apply toy_open_seal | apply toy_seal_length | apply toy_seal_bytes
    | apply le_bytes_length | apply le_bytes_ok].
Qed.
