(* ===== verification/WGCookie.v ===== *)
(** * wireguard-go/device: cookies and MACs of handshake messages

    [cookie.go]: every handshake message carries [mac1], keyed by the receiver's
    public key; a receiver under load answers with an encrypted cookie, which the
    sender then has to use as the key of [mac2]. Times are nanoseconds since the
    epoch, [zeroTime] being Go's zero [time.Time]. *)
From S2P Require Import Prelude GoStrings GoNet GoBytes WGCrypto.
From S2P Require RateLimiter.
Open Scope Z_scope.

Definition zeroTime : Z := -62135596800 * 1000000000.
Definition time_Since (now t : Z) : Z := RateLimiter.time_Sub now t.
Definition CookieRefreshTime : Z := 120 * 1000000000.

Record CookieGenerator := mkCookieGenerator {
  cg_mac1_key : list Z;
  cg_cookie : list Z;
  cg_cookieSet : Z;
  cg_hasLastMAC1 : bool;
  cg_lastMAC1 : list Z;
  cg_encryptionKey : list Z }.
Definition set_cg_mac1_key (v : list Z) (r : CookieGenerator) : CookieGenerator :=
  mkCookieGenerator v (cg_cookie r) (cg_cookieSet r) (cg_hasLastMAC1 r) (cg_lastMAC1 r) (cg_encryptionKey r).
Definition set_cg_cookie (v : list Z) (r : CookieGenerator) : CookieGenerator :=
  mkCookieGenerator (cg_mac1_key r) v (cg_cookieSet r) (cg_hasLastMAC1 r) (cg_lastMAC1 r) (cg_encryptionKey r).
Definition set_cg_cookieSet (v : Z) (r : CookieGenerator) : CookieGenerator :=
  mkCookieGenerator (cg_mac1_key r) (cg_cookie r) v (cg_hasLastMAC1 r) (cg_lastMAC1 r) (cg_encryptionKey r).
Definition set_cg_hasLastMAC1 (v : bool) (r : CookieGenerator) : CookieGenerator :=
  mkCookieGenerator (cg_mac1_key r) (cg_cookie r) (cg_cookieSet r) v (cg_lastMAC1 r) (cg_encryptionKey r).
Definition set_cg_lastMAC1 (v : list Z) (r : CookieGenerator) : CookieGenerator :=
  mkCookieGenerator (cg_mac1_key r) (cg_cookie r) (cg_cookieSet r) (cg_hasLastMAC1 r) v (cg_encryptionKey r).
Definition set_cg_encryptionKey (v : list Z) (r : CookieGenerator) : CookieGenerator :=
  mkCookieGenerator (cg_mac1_key r) (cg_cookie r) (cg_cookieSet r) (cg_hasLastMAC1 r) (cg_lastMAC1 r) v.

Record CookieChecker := mkCookieChecker {
  cc_mac1_key : list Z;
  cc_secret : list Z;
  cc_secretSet : Z;
  cc_encryptionKey : list Z }.
Definition set_cc_mac1_key (v : list Z) (r : CookieChecker) : CookieChecker :=
  mkCookieChecker v (cc_secret r) (cc_secretSet r) (cc_encryptionKey r).
Definition set_cc_secret (v : list Z) (r : CookieChecker) : CookieChecker :=
  mkCookieChecker (cc_mac1_key r) v (cc_secretSet r) (cc_encryptionKey r).
Definition set_cc_secretSet (v : Z) (r : CookieChecker) : CookieChecker :=
  mkCookieChecker (cc_mac1_key r) (cc_secret r) v (cc_encryptionKey r).
Definition set_cc_encryptionKey (v : list Z) (r : CookieChecker) : CookieChecker :=
  mkCookieChecker (cc_mac1_key r) (cc_secret r) (cc_secretSet r) v.

Section cookie.
Context `{Crypto}.

Definition cookie_keys (pk : list Z) : list Z * list Z :=
  (blake2s_Sum256 (bytes_of WGLabelMAC1 ++ pk), blake2s_Sum256 (bytes_of WGLabelCookie ++ pk)).

Definition CookieChecker_Init (pk : list Z) (st : CookieChecker) : CookieChecker :=
  let '(mac1, enc) := cookie_keys pk in
  set_cc_secretSet zeroTime (set_cc_encryptionKey enc (set_cc_mac1_key mac1 st)).
Definition CookieGenerator_Init (pk : list Z) (st : CookieGenerator) : CookieGenerator :=
  let '(mac1, enc) := cookie_keys pk in
  set_cg_cookieSet zeroTime (set_cg_encryptionKey enc (set_cg_mac1_key mac1 st)).

Definition smac2 (msg : list Z) : nat := length msg - 16.
Definition smac1 (msg : list Z) : nat := smac2 msg - 16.

Definition CheckMAC1 (st : CookieChecker) (msg : list Z) : bool :=
  let mac1 := blake2s_New128 (cc_mac1_key st) (take (smac1 msg) msg) in
  bool_decide (mac1 = slice (smac1 msg) 16 msg).

Definition CheckMAC2 (now : Z) (st : CookieChecker) (msg src : list Z) : bool :=
  if CookieRefreshTime <? time_Since now (cc_secretSet st) then false
  else
    let cookie := blake2s_New128 (cc_secret st) src in
    let mac2 := blake2s_New128 cookie (take (smac2 msg) msg) in
    bool_decide (mac2 = drop (smac2 msg) msg).

(** [rand_secret] and [rand_nonce] are what the two calls of [rand.Read] give. *)
Definition CreateReply (now : Z) (rand_secret rand_nonce : list Z * option error) (st : CookieChecker)
    (msg : list Z) (recv : Z) (src : list Z) : CookieChecker * result MessageCookieReply :=
  let refreshed :=
    if CookieRefreshTime <? time_Since now (cc_secretSet st) then
      let st := set_cc_secret rand_secret.1 st in
      match rand_secret.2 with
      | Some e => (st, Some e)
      | None => (set_cc_secretSet now st, None)
      end
    else (st, None) in
  match refreshed with
  | (st, Some e) => (st, Err e)
  | (st, None) =>
      let cookie := blake2s_New128 (cc_secret st) src in
      match rand_nonce.2 with
      | Some e => (st, Err e)
      | None =>
          (st, Ok (mkCookieReply MessageCookieReplyType recv rand_nonce.1
                     (aeadX_Seal (cc_encryptionKey st) rand_nonce.1 cookie (slice (smac1 msg) 16 msg))))
      end
  end.

Definition ConsumeReply (now : Z) (st : CookieGenerator) (msg : MessageCookieReply) : bool * CookieGenerator :=
  if negb (cg_hasLastMAC1 st) then (false, st)
  else
    match aeadX_Open (cg_encryptionKey st) (mc_Nonce msg) (mc_Cookie msg) (cg_lastMAC1 st) with
    | None => (false, st)
    | Some cookie => (true, set_cg_cookie cookie (set_cg_cookieSet now st))
    end.

(** The message with its last 32 bytes set. *)
Definition AddMacs (now : Z) (st : CookieGenerator) (msg : list Z) : list Z * CookieGenerator :=
  let s1 := smac1 msg in
  let s2 := smac2 msg in
  let mac1 := blake2s_New128 (cg_mac1_key st) (take s1 msg) in
  let msg := take s1 msg ++ mac1 ++ drop s2 msg in
  let st := set_cg_hasLastMAC1 true (set_cg_lastMAC1 mac1 st) in
  if CookieRefreshTime <? time_Since now (cg_cookieSet st) then (msg, st)
  else (take s2 msg ++ blake2s_New128 (cg_cookie st) (take s2 msg), st).

(** ** The exchange works *)
Context `{!CryptoLaws}.

Lemma AddMacs_parts now st msg : (32 <= length msg)%nat ->
  length (AddMacs now st msg).1 = length msg /\
  take (smac1 msg) (AddMacs now st msg).1 = take (smac1 msg) msg /\
  slice (smac1 msg) 16 (AddMacs now st msg).1 = blake2s_New128 (cg_mac1_key st) (take (smac1 msg) msg) /\
  (AddMacs now st msg).2 = set_cg_hasLastMAC1 true (set_cg_lastMAC1 (blake2s_New128 (cg_mac1_key st) (take (smac1 msg) msg)) st).
Proof.
  intros Hl. unfold AddMacs. set (s1 := smac1 msg). set (s2 := smac2 msg).
  assert (s1 + 16 = s2 /\ s2 + 16 = length msg)%nat as [H12 H2] by (unfold s1, s2, smac1, smac2; lia).
  set (m1 := blake2s_New128 (cg_mac1_key st) (take s1 msg)).
  assert (length m1 = 16%nat) as Hm1 by apply mac_length.
  assert (length (take s1 msg) = s1) as Ht1 by (apply length_take_le; lia).
  assert (take s1 (take s1 msg ++ m1 ++ drop s2 msg) = take s1 msg) as E1 by (rewrite <- Ht1 at 1; apply take_app_length).
  assert (slice s1 16 (take s1 msg ++ m1 ++ drop s2 msg) = m1) as E2.
  { unfold slice. rewrite <- Ht1 at 1. rewrite drop_app_length, <- Hm1. apply take_app_length. }
  assert (forall x, length x = 16%nat ->
    length (take s2 (take s1 msg ++ m1 ++ drop s2 msg) ++ x) = length msg /\
    take s1 (take s2 (take s1 msg ++ m1 ++ drop s2 msg) ++ x) = take s1 msg /\
    slice s1 16 (take s2 (take s1 msg ++ m1 ++ drop s2 msg) ++ x) = m1) as Hx.
  { intros x Hx. assert (take s2 (take s1 msg ++ m1 ++ drop s2 msg) = take s1 msg ++ m1) as ->.
    { rewrite app_assoc. assert (length (take s1 msg ++ m1) = s2) as <- by (rewrite length_app; lia). apply take_app_length. }
    split_and!.
    - rewrite !length_app. lia.
    - rewrite <- app_assoc. rewrite <- Ht1 at 1. apply take_app_length.
    - rewrite <- app_assoc. unfold slice. rewrite <- Ht1 at 1. rewrite drop_app_length, <- Hm1. apply take_app_length. }
  destruct (_ <? _); cbn [fst snd].
  - split_and!; [rewrite !length_app, length_drop; lia|done|done|done].
  - destruct (Hx (blake2s_New128 (cg_cookie (set_cg_hasLastMAC1 true (set_cg_lastMAC1 m1 st))) (take s2 (take s1 msg ++ m1 ++ drop s2 msg))))
      as (? & ? & ?); [apply mac_length|]. by split_and!.
Qed.

(** The keys of the two sides agree when both were set up with one public key. *)
Definition paired (pk : list Z) (g : CookieGenerator) (c : CookieChecker) : Prop :=
  cookie_keys pk = (cg_mac1_key g, cg_encryptionKey g) /\ cookie_keys pk = (cc_mac1_key c, cc_encryptionKey c).

Lemma AddMacs_CheckMAC1 pk now g c msg : paired pk g c -> (32 <= length msg)%nat ->
  CheckMAC1 c (AddMacs now g msg).1 = true.
Proof.
  intros [Hg Hc] Hl. destruct (AddMacs_parts now g msg Hl) as (H1 & H2 & H3 & _).
  assert (smac1 (AddMacs now g msg).1 = smac1 msg) as Hs by (unfold smac1, smac2; by rewrite H1).
  unfold CheckMAC1. rewrite Hs, H2, H3. apply bool_decide_eq_true. congruence.
Qed.
Lemma AddMacs_CheckMAC2 now now' g c msg src : (32 <= length msg)%nat ->
  cg_cookie g = blake2s_New128 (cc_secret c) src ->
  time_Since now (cg_cookieSet g) <= CookieRefreshTime -> time_Since now' (cc_secretSet c) <= CookieRefreshTime ->
  CheckMAC2 now' c (AddMacs now g msg).1 src = true.
Proof.
  intros Hl Hk Hg Hc. destruct (AddMacs_parts now g msg Hl) as (H1 & _).
  assert (smac2 (AddMacs now g msg).1 = smac2 msg) as Hs by (unfold smac2; by rewrite H1).
  unfold CheckMAC2. rewrite (proj2 (Z.ltb_ge _ _)) by done. rewrite Hs. apply bool_decide_eq_true. rewrite <- Hk.
  unfold AddMacs. cbn [cg_cookieSet set_cg_hasLastMAC1 set_cg_lastMAC1]. rewrite (proj2 (Z.ltb_ge _ _)) by done. cbn [fst cg_cookie set_cg_hasLastMAC1 set_cg_lastMAC1].
  set (x := take (smac2 msg) (take (smac1 msg) msg ++ _)). assert (length x = smac2 msg) as Hx.
  { unfold x. rewrite length_take_le; [done|]. unfold smac1, smac2; rewrite !length_app, mac_length, length_take, length_drop; lia. }
  clearbody x. by rewrite <- Hx, take_app_length, drop_app_length.
Qed.

(** C35: The denial-of-service exchange. A handshake message with the macs of its
    sender passes the receiver's first check; the cookie reply to it is accepted
    by the sender; and the next message the sender makes within two minutes,
    coming from the same source, passes the second check as long as the
    receiver's secret has not expired. *)
Theorem cookie_exchange pk g c msg1 msg2 recv src now0 now1 now2 now3 now4 rs rn :
  paired pk g c -> (32 <= length msg1)%nat -> (32 <= length msg2)%nat -> rs.2 = None -> rn.2 = None ->
  let '(packet1, g1) := AddMacs now0 g msg1 in
  CheckMAC1 c packet1 = true /\
  exists c1 reply g2, CreateReply now1 rs rn c packet1 recv src = (c1, Ok reply) /\
    mc_Receiver reply = recv /\
    ConsumeReply now2 g1 reply = (true, g2) /\
    (time_Since now3 now2 <= CookieRefreshTime -> time_Since now4 (cc_secretSet c1) <= CookieRefreshTime ->
     CheckMAC1 c1 (AddMacs now3 g2 msg2).1 = true /\ CheckMAC2 now4 c1 (AddMacs now3 g2 msg2).1 src = true).
Proof.
  intros Hp Hl1 Hl2 Hrs Hrn. pose proof (AddMacs_CheckMAC1 pk now0 g c msg1 Hp Hl1) as Hc1.
  destruct (AddMacs_parts now0 g msg1 Hl1) as (H1 & _ & H3 & Hg).
  destruct (AddMacs now0 g msg1) as [packet1 g1]. cbn [fst snd] in *. split; [done|].
  assert (smac1 packet1 = smac1 msg1) as Hs by (unfold smac1, smac2; by rewrite H1).
  pose proof Hp as [Hpg Hpc].
  assert (exists c1, (if CookieRefreshTime <? time_Since now1 (cc_secretSet c)
      then let st := set_cc_secret rs.1 c in
           match rs.2 with Some e => (st, Some e) | None => (set_cc_secretSet now1 st, None) end
      else (c, None)) = (c1, None) /\ cc_mac1_key c1 = cc_mac1_key c /\ cc_encryptionKey c1 = cc_encryptionKey c)
    as (c1 & Hc & Hm & He) by (destruct (_ <? _); rewrite ?Hrs; eexists; by split_and!).
  unfold CreateReply. cbn zeta in Hc |- *. rewrite Hc, Hrn. exists c1. eexists _, _. split; [done|]. split; [done|]. split.
  - unfold ConsumeReply. rewrite Hg. cbn [cg_hasLastMAC1 set_cg_hasLastMAC1 set_cg_lastMAC1 negb cg_encryptionKey mc_Nonce mc_Cookie cg_lastMAC1].
    rewrite Hs, H3, He. replace (cc_encryptionKey c) with (cg_encryptionKey g) by congruence. rewrite openX_sealX by apply mac_bytes. done.
  - intros H34 Hsec. split.
    + apply (AddMacs_CheckMAC1 pk); [|done]. unfold paired. rewrite Hm, He. done.
    + by apply AddMacs_CheckMAC2.
Qed.
End cookie.

Definition sample_generator : CookieGenerator :=
  CookieGenerator_Init (H := toy_crypto) (zeros 32) (mkCookieGenerator [] [] 0 false [] []).
Definition sample_checker : CookieChecker :=
  CookieChecker_Init (H := toy_crypto) (zeros 32) (mkCookieChecker [] [] 0 []).
Lemma cookie_exchange_witness :
  let m := replicate 148 1 in
  let '(packet, _) := AddMacs (H := toy_crypto) 5 sample_generator m in
  CheckMAC1 (H := toy_crypto) sample_checker packet = true.
Proof.
  pose proof (cookie_exchange (H := toy_crypto) (H0 := toy_laws) (zeros 32) sample_generator sample_checker
    (replicate 148 1) (replicate 92 2) 7 [10; 0; 0; 1] 5 6 7 8 9 (zeros 32, None) (zeros 24, None)) as Hx.
  cbn zeta. destruct (AddMacs _ _ _) as [packet g]. apply Hx; try reflexivity; try (cbn; lia). split; reflexivity.
Defined.
