(* ===== verification/AllowedIPs.v ===== *)
(** * wireguard-go/device: the allowed IPs trie

    [allowedips.go]: a compressed binary trie per address family maps prefixes
    to peers; a packet is routed to (and accepted from) the peer of the longest
    prefix that contains its address.

    A pointer to a node is the node's path from the root: [node.child[bit]] is
    one step of a path and [node.parent] is the path without its last step, so
    the assignments [*trie.parentBit = x], [parent.child[bit] = x] are [put].
    [bitAtByte] and [bitAtShift] are functions of [cidr], as they are in every
    node the code makes. The list [peer.trieEntries] of pointers to a peer's
    nodes is the list of the nodes' (bits, cidr), which name them.

    An out-of-range [ip[node.bitAtByte]] would panic; [choose] is only called
    for a node whose [cidr] is smaller than the address size in bits. *)
From S2P Require Import Prelude GoNet.
Open Scope Z_scope.

(** ** Bits of addresses *)
Definition Len64 (x : Z) : Z := if x =? 0 then 0 else Z.log2 x + 1.
Definition LeadingZeros32 (x : Z) : Z := 32 - Len64 x.
Definition LeadingZeros64 (x : Z) : Z := 64 - Len64 x.
Definition Uint32 (b : list Z) : Z := be_val (take 4 b).
Definition Uint64 (b : list Z) : Z := be_val (take 8 b).

(** 0 stands for the panic on any other size. *)
Definition commonBits (ip1 ip2 : list Z) : Z :=
  if (length ip1 =? 4)%nat then u8 (LeadingZeros32 (Z.lxor (Uint32 ip1) (Uint32 ip2)))
  else if (length ip1 =? 16)%nat then
    let x := Z.lxor (Uint64 ip1) (Uint64 ip2) in
    if negb (x =? 0) then u8 (LeadingZeros64 x)
    else
      let x := Z.lxor (Uint64 (drop 8 ip1)) (Uint64 (drop 8 ip2)) in
      u8 (64 + u8 (LeadingZeros64 x))
  else 0.

Definition choose (cidr : Z) (ip : list Z) : bool :=
  negb (Z.land (Z.shiftr (nth (Z.to_nat (cidr / 8)) ip 0) (7 - cidr mod 8)) 1 =? 0).

Definition maskSelf (bits : list Z) (cidr : Z) : list Z :=
  land_bytes bits (CIDRMask cidr (8 * Z.of_nat (length bits))).

(** (bits, cidr): what a node stands for, a masked prefix. *)
Definition key : Type := list Z * Z.

Section trie.
Context {Peer : Type} `{Countable Peer}.

(** ** The trie *)
Inductive trie :=
| Nil
| Node (peer : option Peer) (bits : list Z) (cidr : Z) (child0 child1 : trie).
Definition child (t : trie) (bit : bool) : trie :=
  match t with Nil => Nil | Node _ _ _ l r => if bit then r else l end.
Definition is_nil (t : trie) : bool := match t with Nil => true | _ => false end.
Definition node_peer (t : trie) : option Peer := match t with Nil => None | Node p _ _ _ _ => p end.
Definition node_bits (t : trie) : list Z := match t with Nil => [] | Node _ b _ _ _ => b end.
Definition node_cidr (t : trie) : Z := match t with Nil => 0 | Node _ _ c _ _ => c end.
Definition set_peer (t : trie) (p : option Peer) : trie :=
  match t with Nil => Nil | Node _ b c l r => Node p b c l r end.
Definition set_child (t : trie) (bit : bool) (x : trie) : trie :=
  match t with Nil => Nil | Node p b c l r => if bit then Node p b c l x else Node p b c x r end.

(** Pointers as paths. *)
Definition path : Type := list bool.
Fixpoint at_path (t : trie) (q : path) : trie :=
  match q with [] => t | bit :: q => at_path (child t bit) q end.
Fixpoint put (t : trie) (q : path) (x : trie) : trie :=
  match q with [] => x | bit :: q => set_child t bit (put (child t bit) q x) end.

(** The last node of the walk, and whether it is the prefix itself. *)
Fixpoint nodePlacement (node : trie) (ip : list Z) (cidr : Z) : option path * bool :=
  match node with
  | Nil => (None, false)
  | Node _ b c l r =>
      if (c <=? cidr) && (c <=? commonBits b ip) then
        if c =? cidr then (Some [], true)
        else
          let bit := choose c ip in
          match nodePlacement (if bit then r else l) ip cidr with
          | (Some q, exact) => (Some (bit :: q), exact)
          | (None, _) => (Some [], false)
          end
      else (None, false)
  end.

(** ** The peers' lists of nodes *)
Definition entries : Type := gmap Peer (list key).
Definition entries_of (E : entries) (p : Peer) : list key := default [] (E !! p).
Definition addToPeerEntries (E : entries) (p : Peer) (k : key) : entries :=
  <[p := entries_of E p ++ [k]]> E.
(** [perPeerElem] is nil in a node without a peer. *)
Definition removeFromPeerEntries (E : entries) (p : option Peer) (k : key) : entries :=
  match p with
  | None => E
  | Some p => <[p := filter (fun k' => k' <> k) (entries_of E p)]> E
  end.

(** ** Operations on one trie *)
Definition insert (t : trie) (E : entries) (ip : list Z) (cidr : Z) (peer : Peer) : trie * entries :=
  let newNode := Node (Some peer) (maskSelf ip cidr) cidr Nil Nil in
  let new_key := (maskSelf ip cidr, cidr) in
  if is_nil t then (newNode, addToPeerEntries E peer new_key)
  else
    match nodePlacement t ip cidr with
    | (Some q, true) =>
        let node := at_path t q in
        let k := (node_bits node, node_cidr node) in
        (put t q (set_peer node (Some peer)),
         addToPeerEntries (removeFromPeerEntries E (node_peer node) k) peer k)
    | (node, _) =>
        let E := addToPeerEntries E peer new_key in
        let slot bits :=
          match node with None => [] | Some q => q ++ [choose (node_cidr (at_path t q)) bits] end in
        let down := at_path t (slot ip) in
        if is_nil down then (put t (slot ip) newNode, E)
        else
          let common := commonBits (node_bits down) ip in
          let cidr' := if common <? cidr then common else cidr in
          if cidr =? cidr' then
            (put t (slot (node_bits newNode)) (set_child newNode (choose cidr (node_bits down)) down), E)
          else
            let node' := Node None (maskSelf (node_bits newNode) cidr') cidr' Nil Nil in
            let node' := set_child node' (choose cidr' (node_bits down)) down in
            let node' := set_child node' (choose cidr' (node_bits newNode)) newNode in
            (put t (slot (node_bits node')) node', E)
    end.

Fixpoint lookup_from (found : option Peer) (node : trie) (ip : list Z) : option Peer :=
  match node with
  | Nil => found
  | Node p b c l r =>
      if c <=? commonBits b ip then
        let found := match p with Some _ => p | None => found end in
        if c / 8 =? u8 (Z.of_nat (length ip)) then found
        else lookup_from found (if choose c ip then r else l) ip
      else found
  end.
Definition lookup (node : trie) (ip : list Z) : option Peer := lookup_from None node ip.

(** [node.remove()] for the node at path [q]. *)
Definition remove (t : trie) (E : entries) (q : path) : trie * entries :=
  let node := at_path t q in
  let E := removeFromPeerEntries E (node_peer node) (node_bits node, node_cidr node) in
  if negb (is_nil (child node false)) && negb (is_nil (child node true)) then
    (put t q (set_peer node None), E)
  else
    let child' := child node (is_nil (child node false)) in
    let t := put t q child' in
    if negb (is_nil child') then (t, E)
    else match rev q with
         | [] => (t, E)
         | bit :: q' =>
             let parent := at_path t (rev q') in
             if bool_decide (node_peer parent = None)
             then (put t (rev q') (child parent (negb bit)), E)
             else (t, E)
         end.

(** ** The table *)
Record AllowedIPs := mkTable { IPv4 : trie; IPv6 : trie; trieEntries : entries }.
Definition emptyTable : AllowedIPs := mkTable Nil Nil ∅.
(** The trie of a prefix of this address length; [netip.Addr.Is6] holds of
    16-byte addresses. *)
Definition trie_of (T : AllowedIPs) (six : bool) : trie := if six then IPv6 T else IPv4 T.
Definition set_trie (T : AllowedIPs) (six : bool) (r : trie * entries) : AllowedIPs :=
  if six then mkTable (IPv4 T) r.1 r.2 else mkTable r.1 (IPv6 T) r.2.
Definition Is6 (ip : list Z) : bool := (length ip =? 16)%nat.

Definition Insert (T : AllowedIPs) (prefix : key) (peer : Peer) : AllowedIPs :=
  let six := Is6 prefix.1 in
  set_trie T six (insert (trie_of T six) (trieEntries T) prefix.1 (u8 prefix.2) peer).
Definition Remove (T : AllowedIPs) (prefix : key) (peer : Peer) : AllowedIPs :=
  let six := Is6 prefix.1 in
  match nodePlacement (trie_of T six) prefix.1 (u8 prefix.2) with
  | (Some q, true) =>
      if bool_decide (node_peer (at_path (trie_of T six) q) = Some peer)
      then set_trie T six (remove (trie_of T six) (trieEntries T) q)
      else T
  | _ => T
  end.
(** [elem.Value.remove()]: the node the element points to. *)
Definition remove_elem (T : AllowedIPs) (k : key) : AllowedIPs :=
  let six := Is6 k.1 in
  match nodePlacement (trie_of T six) k.1 k.2 with
  | (Some q, true) => set_trie T six (remove (trie_of T six) (trieEntries T) q)
  | _ => T
  end.
Definition RemoveByPeer (T : AllowedIPs) (peer : Peer) : AllowedIPs :=
  foldl remove_elem T (entries_of (trieEntries T) peer).
Definition Lookup (T : AllowedIPs) (ip : list Z) : option Peer :=
  if (length ip =? 16)%nat then lookup (IPv6 T) ip
  else if (length ip =? 4)%nat then lookup (IPv4 T) ip else None.
Definition EntriesForPeer (T : AllowedIPs) (peer : Peer) : list key := entries_of (trieEntries T) peer.
End trie.
Arguments trie : clear implicits.
Arguments AllowedIPs Peer {_ _}.
Arguments entries Peer {_ _}.
