(* ===== verification/AllowedIPsProofs.v ===== *)
(** * The allowed IPs trie implements longest-prefix match

    Addresses of [n] bytes are read through [pre]: the number their first [k]
    bits form. The trie is well formed when every child extends the prefix of
    its parent, and [ents] are the prefixes it holds. *)
From S2P Require Import Prelude GoNet AllowedIPs.
Open Scope Z_scope.

(** ** Words *)
Lemma Len64_le x w : 0 <= w -> 0 <= x < 2 ^ w -> 0 <= Len64 x <= w.
Proof.
  intros Hw Hx. unfold Len64. destruct (Z.eqb_spec x 0); [lia|].
  pose proof (Z.log2_nonneg x). pose proof (proj1 (Z.log2_lt_pow2 x w ltac:(lia)) ltac:(lia)). lia.
Qed.
Lemma Len64_lt x m : 0 <= x -> 0 <= m -> (Len64 x <= m <-> x < 2 ^ m).
Proof.
  intros Hx Hm. unfold Len64. destruct (Z.eqb_spec x 0) as [->|].
  - pose proof (Z.pow_pos_nonneg 2 m). lia.
  - pose proof (Z.log2_lt_pow2 x m ltac:(lia)). lia.
Qed.
Lemma lxor_small a b m : 0 <= a -> 0 <= b -> 0 <= m ->
  (Z.lxor a b < 2 ^ m <-> a / 2 ^ m = b / 2 ^ m).
Proof.
  intros Ha Hb Hm. assert (0 < 2 ^ m) by (apply Z.pow_pos_nonneg; lia).
  assert (0 <= Z.lxor a b) by (apply Z.lxor_nonneg; lia).
  rewrite <- !Z.shiftr_div_pow2 by done. transitivity (Z.lxor a b / 2 ^ m = 0).
  - split; intros Hx; [apply Z.div_small; lia|]. apply Z.div_small_iff in Hx; lia.
  - rewrite <- Z.shiftr_div_pow2, Z.shiftr_lxor by done. split; [apply Z.lxor_eq|]. intros ->. apply Z.lxor_nilpotent.
Qed.
Lemma lxor_range a b w : 0 <= w -> 0 <= a < 2 ^ w -> 0 <= b < 2 ^ w -> 0 <= Z.lxor a b < 2 ^ w.
Proof.
  intros Hw Ha Hb. split; [apply Z.lxor_nonneg; lia|].
  apply lxor_small; [lia..|]. by rewrite !Z.div_small.
Qed.
(** Leading zeros of the difference of two [w]-bit words. *)
Lemma leading_zeros a b w k : 0 <= k <= w -> 0 <= a < 2 ^ w -> 0 <= b < 2 ^ w ->
  (k <= w - Len64 (Z.lxor a b) <-> a / 2 ^ (w - k) = b / 2 ^ (w - k)).
Proof.
  intros Hk Ha Hb. pose proof (lxor_range a b w ltac:(lia) Ha Hb).
  rewrite <- lxor_small, <- Len64_lt by lia. lia.
Qed.

(** ** Addresses split in two *)
Lemma be_val_app a b : be_val (a ++ b) = be_val a * 2 ^ (8 * Z.of_nat (length b)) + be_val b.
Proof.
  induction a as [|x a IH]; cbn [be_val app]; [done|]. rewrite IH, length_app, Nat2Z.inj_add.
  rewrite (Z.mul_add_distr_l 8), Z.pow_add_r by lia. ring.
Qed.
Lemma be_val_split i ip : bytes_ok ip -> (i <= length ip)%nat ->
  be_val ip = be_val (take i ip) * 2 ^ (8 * Z.of_nat (length ip - i)) + be_val (drop i ip) /\
  0 <= be_val (take i ip) < 2 ^ (8 * Z.of_nat i) /\
  0 <= be_val (drop i ip) < 2 ^ (8 * Z.of_nat (length ip - i)).
Proof.
  intros Hb Hi. split_and!.
  - rewrite <- (take_drop i ip) at 1. by rewrite be_val_app, length_drop.
  - pose proof (be_val_range (take i ip) (Forall_take _ _ _ Hb)). rewrite length_take_le in * by done. lia.
  - pose proof (be_val_range (take i ip) (Forall_take _ _ _ Hb)). rewrite length_take_le in * by done. lia.
  - pose proof (be_val_range (drop i ip) (Forall_drop _ _ _ Hb)). rewrite length_drop in *. lia.
  - pose proof (be_val_range (drop i ip) (Forall_drop _ _ _ Hb)). rewrite length_drop in *. lia.
Qed.

(** ** Prefixes of addresses *)
Section prefix.
Context (n : nat) (Hn : n = 4%nat \/ n = 16%nat).
Definition addr (ip : list Z) : Prop := length ip = n /\ bytes_ok ip.
Definition width : Z := 8 * Z.of_nat n.
Definition pre (ip : list Z) (k : Z) : Z := be_val ip / 2 ^ (width - k).

Lemma width_cases : width = 32 /\ n = 4%nat \/ width = 128 /\ n = 16%nat.
Proof. unfold width. lia. Qed.

Lemma pre_le a b k j : 0 <= j <= k -> k <= width -> pre a k = pre b k -> pre a j = pre b j.
Proof.
  intros Hj Hk Hp. unfold pre in *.
  assert (forall x, x / 2 ^ (width - j) = x / 2 ^ (width - k) / 2 ^ (k - j)) as Hs.
  { intros x. rewrite Z.div_div, <- Z.pow_add_r; [do 2 f_equal|..]; try lia; apply Z.pow_nonzero || apply Z.pow_pos_nonneg; lia. }
  by rewrite !Hs, Hp.
Qed.

Lemma commonBits_range a b : 0 <= commonBits a b < 256.
Proof. unfold commonBits. repeat case_match; try apply u8_range; lia. Qed.

(** Addresses of 16 bytes as two words. *)
Lemma pre_hi ip k : n = 16%nat -> addr ip -> 0 <= k <= 64 -> pre ip k = Uint64 ip / 2 ^ (64 - k).
Proof.
  intros En [Hl Hb] Hk. unfold pre, Uint64, width. rewrite En in Hl |- *.
  destruct (be_val_split 8 ip Hb ltac:(lia)) as (-> & _ & Hd). rewrite Hl in Hd |- *.
  change (8 * Z.of_nat (16 - 8)) with 64 in *. change (8 * Z.of_nat 16) with 128.
  replace (128 - k) with (64 + (64 - k)) by lia. rewrite Z.pow_add_r by lia.
  rewrite <- Z.div_div by (lia || apply Z.pow_pos_nonneg; lia).
  by rewrite Z.div_add_l, (Z.div_small (be_val (drop 8 ip))), Z.add_0_r by lia.
Qed.
Lemma pre_lo ip k : n = 16%nat -> addr ip -> 64 <= k <= 128 ->
  pre ip k = Uint64 ip * 2 ^ (k - 64) + Uint64 (drop 8 ip) / 2 ^ (128 - k).
Proof.
  intros En [Hl Hb] Hk. unfold pre, Uint64, width. rewrite En in Hl |- *.
  destruct (be_val_split 8 ip Hb ltac:(lia)) as (-> & _ & Hd). rewrite Hl in Hd |- *.
  change (8 * Z.of_nat (16 - 8)) with 64 in *. change (8 * Z.of_nat 16) with 128.
  rewrite (take_ge (drop 8 ip)) by (rewrite length_drop; lia).
  assert (2 ^ 64 = 2 ^ (k - 64) * 2 ^ (128 - k)) as -> by (rewrite <- Z.pow_add_r by lia; f_equal; lia).
  rewrite Z.mul_assoc, Z.div_add_l; [done|]. apply Z.pow_nonzero; lia.
Qed.
Lemma Uint64_range ip i : n = 16%nat -> addr ip -> 0 <= Uint64 (drop i ip) < 2 ^ 64.
Proof.
  intros En [Hl Hb]. unfold Uint64.
  pose proof (be_val_range (take 8 (drop i ip)) (Forall_take _ _ _ (Forall_drop _ _ _ Hb))) as [H0 H1].
  split; [done|]. eapply Z.lt_le_trans; [exact H1|]. apply Z.pow_le_mono_r; [lia|].
  rewrite length_take. lia.
Qed.

(** [commonBits] says how long a prefix two addresses share. *)
Lemma commonBits_pre a b k : addr a -> addr b -> 0 <= k <= width ->
  (k <= commonBits a b <-> pre a k = pre b k).
Proof.
  intros Ha Hb Hk. unfold commonBits. destruct width_cases as [[Hw En]|[Hw En]]; rewrite Hw in Hk.
  - destruct Ha as [La Ba], Hb as [Lb Bb]. rewrite La, En. cbn [Nat.eqb]. unfold Uint32.
    rewrite !take_ge by lia. pose proof (be_val_range a Ba) as Ra. pose proof (be_val_range b Bb) as Rb.
    rewrite La, En in Ra. rewrite Lb, En in Rb. change (8 * Z.of_nat 4) with 32 in *.
    pose proof (Len64_le _ 32 ltac:(lia) (lxor_range _ _ 32 ltac:(lia) Ra Rb)).
    unfold LeadingZeros32. rewrite u8_small by lia. unfold pre. rewrite Hw. by apply leading_zeros.
  - rewrite (proj1 Ha), En. cbn [Nat.eqb].
    pose proof (Uint64_range a 0 En Ha) as Rah. pose proof (Uint64_range b 0 En Hb) as Rbh. rewrite !drop_0 in *.
    pose proof (Uint64_range a 8 En Ha) as Ral. pose proof (Uint64_range b 8 En Hb) as Rbl.
    pose proof (Len64_le _ 64 ltac:(lia) (lxor_range _ _ 64 ltac:(lia) Rah Rbh)).
    pose proof (Len64_le _ 64 ltac:(lia) (lxor_range _ _ 64 ltac:(lia) Ral Rbl)).
    unfold LeadingZeros64. destruct (Z.eqb_spec (Z.lxor (Uint64 a) (Uint64 b)) 0) as [E|E]; cbn [negb].
    + apply Z.lxor_eq in E. rewrite (u8_small (64 - _)), u8_small by lia. destruct (decide (k <= 64)) as [Hs|Hs].
      * rewrite !pre_hi, E by (done || lia). split; [done|lia].
      * rewrite !pre_lo, E by (done || lia). rewrite Z.add_cancel_l.
        replace (128 - k) with (64 - (k - 64)) by lia. rewrite <- leading_zeros by lia. lia.
    + rewrite u8_small by lia. destruct (decide (k <= 64)) as [Hs|Hs].
      * rewrite !pre_hi by (done || lia). apply leading_zeros; lia.
      * split; [lia|]. intros Hp. exfalso. apply E.
        apply (pre_le _ _ _ 64) in Hp; [|lia..]. rewrite !pre_hi in Hp by (done || lia).
        change (2 ^ (64 - 64)) with 1 in Hp. rewrite !Z.div_1_r in Hp. by apply Z.lxor_eq_0_iff.
Qed.

(** [choose] is the next bit. *)
Lemma choose_pre ip c : addr ip -> 0 <= c < width -> pre ip (c + 1) = 2 * pre ip c + Z.b2z (choose c ip).
Proof.
  intros [Hl Hb] Hc. set (i := Z.to_nat (c / 8)).
  assert (i < n)%nat as Hi by (unfold width in Hc; unfold i; div_lia).
  destruct (lookup_lt_is_Some_2 ip i ltac:(lia)) as [x Hx].
  destruct (be_val_split i ip Hb ltac:(lia)) as (Hv & _ & Hd).
  destruct (be_val_split (S i) ip Hb ltac:(lia)) as (_ & _ & Hd').
  rewrite (drop_S _ x) in Hv, Hd by done. cbn [be_val] in Hv, Hd.
  assert (choose c ip = negb ((x / 2 ^ (7 - c mod 8)) mod 2 =? 0)) as ->.
  { unfold choose. fold i. rewrite (nth_lookup_Some _ _ _ _ Hx), Z.shiftr_div_pow2 by div_lia.
    by rewrite (Z.land_ones _ 1) by lia. }
  rewrite length_drop in Hd, Hv. rewrite Hl in *. set (m := 8 * Z.of_nat (n - S i)) in *.
  replace (8 * Z.of_nat (n - i)) with (m + 8) in * by lia.
  rewrite Z.pow_add_r in Hv by lia. set (T := be_val (take i ip)) in *. set (D := be_val (drop (S i) ip)) in *.
  assert (be_val ip = (T * 256 + x) * 2 ^ m + D) as Hv' by (rewrite Hv; change (2 ^ 8) with 256; ring).
  pose proof (Z.mod_pos_bound c 8 ltac:(lia)) as Hs. set (s := c mod 8) in *.
  assert (width - c = m + (8 - s) /\ width - (c + 1) = m + (7 - s)) as [Hw1 Hw2] by (unfold width, m, i, s in *; div_lia).
  assert (0 <= m) by lia. assert (forall d, 0 <= d -> be_val ip / 2 ^ (m + d) = (T * 256 + x) / 2 ^ d) as Hdiv.
  { intros d Hd0. rewrite Hv', Z.pow_add_r, <- Z.div_div by (lia || apply Z.pow_pos_nonneg; lia).
    rewrite Z.div_add_l, (Z.div_small D), Z.add_0_r; [done|lia|]. apply Z.pow_nonzero; lia. }
  unfold pre. rewrite Hw1, Hw2, !Hdiv by lia. set (y := T * 256 + x).
  replace (8 - s) with ((7 - s) + 1) by lia. rewrite Z.pow_add_r, <- Z.div_div by lia. change (2 ^ 1) with 2.
  assert (x / 2 ^ (7 - s) mod 2 = (y / 2 ^ (7 - s)) mod 2) as ->.
  { unfold y. replace 256 with (2 ^ (s + 1) * 2 ^ (7 - s)) by (rewrite <- Z.pow_add_r by lia; by replace (s + 1 + (7 - s)) with 8 by lia).
    rewrite Z.mul_assoc, Z.div_add_l by (apply Z.pow_nonzero; lia).
    rewrite Z.pow_add_r, Z.mul_assoc by lia. change (2 ^ 1) with 2. rewrite Z.add_comm. by rewrite Z_mod_plus_full. }
  rewrite (Z.div_mod (y / 2 ^ (7 - s)) 2) at 1 by lia. f_equal.
  pose proof (Z.mod_pos_bound (y / 2 ^ (7 - s)) 2 ltac:(lia)).
  destruct (Z.eqb_spec ((y / 2 ^ (7 - s)) mod 2) 0); cbn; lia.
Qed.

(** Masking keeps the prefix and nothing else. *)
Lemma maskSelf_addr ip c : addr ip -> 0 <= c <= width -> addr (maskSelf ip c).
Proof.
  intros [Hl Hb] Hc. unfold maskSelf. rewrite Hl, CIDRMask_mask_bytes by (unfold width in *; lia || done).
  split; [by rewrite land_bytes_length, mask_bytes_length, Hl, Nat.min_id|].
  apply bytes_ok_land; [done|apply bytes_ok_mask].
Qed.
Lemma be_val_maskSelf ip c : addr ip -> 0 <= c <= width ->
  be_val (maskSelf ip c) = 2 ^ (width - c) * pre ip c.
Proof.
  intros [Hl Hb] Hc. unfold maskSelf, pre. rewrite Hl, CIDRMask_mask_bytes by (unfold width in *; lia || done).
  rewrite be_val_land_mask by (done || unfold width in *; lia). by rewrite Z2Nat.id by lia.
Qed.
Lemma pre_maskSelf ip c j : addr ip -> 0 <= j <= c -> c <= width -> pre (maskSelf ip c) j = pre ip j.
Proof.
  intros Ha Hj Hc. apply (pre_le _ _ c); [lia..|].
  unfold pre at 1. rewrite be_val_maskSelf by (done || lia). rewrite Z.mul_comm.
  apply Z.div_mul, Z.pow_nonzero; lia.
Qed.
Lemma maskSelf_eq a b c : addr a -> addr b -> 0 <= c <= width ->
  (maskSelf a c = maskSelf b c <-> pre a c = pre b c).
Proof.
  intros Ha Hb Hc. split.
  - intros E. rewrite <- (pre_maskSelf a c c), <- (pre_maskSelf b c c) by (done || lia). by rewrite E.
  - intros E. destruct (maskSelf_addr a c Ha Hc), (maskSelf_addr b c Hb Hc).
    apply be_val_inj; [congruence|done..|]. by rewrite !be_val_maskSelf, E.
Qed.

(** ** Well-formed tries *)
Section trie.
Context {Peer : Type} `{Countable Peer}.
Abbreviation trie := (trie Peer).
Implicit Types (t l r x : trie) (ip b : list Z) (c : Z) (q : path) (E : entries Peer).

(** A child extends its parent's prefix by the bit it hangs on. *)
Definition child_ok b c (bit : bool) t : Prop :=
  match t with
  | Nil => True
  | Node _ b' c' _ _ => c < c' /\ pre b' (c + 1) = 2 * pre b c + Z.b2z bit
  end.
Fixpoint wf t : Prop :=
  match t with
  | Nil => True
  | Node p b c l r =>
      addr b /\ 0 <= c <= width /\ maskSelf b c = b /\
      (p = None -> is_nil l = false /\ is_nil r = false) /\
      child_ok b c false l /\ child_ok b c true r /\ wf l /\ wf r
  end.
Lemma wf_Node p b c l r : addr b -> 0 <= c <= width -> maskSelf b c = b ->
  (p = None -> is_nil l = false /\ is_nil r = false) ->
  child_ok b c false l -> child_ok b c true r -> wf l -> wf r -> wf (Node p b c l r).
Proof. intros ?????? W1 W2. cbn [wf]. split_and!; done || lia. Qed.
Definition own (p : option Peer) (b : list Z) (c : Z) : list (key * Peer) :=
  match p with Some p => [((b, c), p)] | None => [] end.
Fixpoint ents t : list (key * Peer) :=
  match t with Nil => [] | Node p b c l r => own p b c ++ ents l ++ ents r end.

Lemma wf_child t bit : wf t -> wf (child t bit).
Proof. destruct t; [done|]. intros (_ & _ & _ & _ & _ & _ & ? & ?). by destruct bit. Qed.
Lemma elem_of_own p b c e : e ∈ own p b c <-> e.1 = (b, c) /\ p = Some e.2.
Proof.
  destruct p as [p|]; cbn; [|by rewrite elem_of_nil; intuition congruence].
  rewrite list_elem_of_singleton. destruct e as [k p']. cbn. intuition congruence.
Qed.

Lemma child_ok_trans b c bit t b' c' : child_ok b c bit t -> is_nil t = false -> 0 <= c ->
  node_cidr t <= c' <= width -> pre b' (node_cidr t) = pre (node_bits t) (node_cidr t) ->
  c < c' /\ pre b' (c + 1) = 2 * pre b c + Z.b2z bit.
Proof.
  destruct t as [|p0 b0 c0 l r]; [done|]. intros [Hc Hb] _ H0 Hw Hp. cbn [node_cidr node_bits] in *.
  split; [lia|]. rewrite <- Hb. apply (pre_le _ _ c0); [lia..|done].
Qed.
(** Every prefix below a node extends the node's. *)
Lemma ents_below t b c p : wf t -> ((b, c), p) ∈ ents t ->
  addr b /\ 0 <= c <= width /\ maskSelf b c = b /\ is_nil t = false /\
  node_cidr t <= c /\ pre b (node_cidr t) = pre (node_bits t) (node_cidr t).
Proof.
  revert b c p. induction t as [|p0 b0 c0 l IHl r IHr]; intros b c p; [by intros ? ?%elem_of_nil|].
  intros (Ha & Hc & Hm & _ & Hl & Hr & Wl & Wr). cbn [ents]. rewrite !elem_of_app, elem_of_own.
  cbn [node_cidr node_bits is_nil].
  assert (forall t bit, child_ok b0 c0 bit t -> addr b /\ 0 <= c <= width /\ maskSelf b c = b /\ is_nil t = false /\
       node_cidr t <= c /\ pre b (node_cidr t) = pre (node_bits t) (node_cidr t) ->
    addr b /\ 0 <= c <= width /\ maskSelf b c = b /\ false = false /\ c0 <= c /\ pre b c0 = pre b0 c0) as Hstep.
  { intros t bit Hok (? & ? & ? & ? & ? & Hp).
    destruct (child_ok_trans _ _ _ _ _ _ Hok ltac:(done) ltac:(lia) ltac:(split; [done|lia]) Hp) as [? Hp'].
    split_and!; try done; try lia. rewrite (choose_pre b) in Hp' by (done || lia).
    destruct (choose c0 b), bit; cbn in Hp'; lia. }
  intros [[[= -> ->] ->]|[He|He]]; [done|..].
  - apply (Hstep l false Hl), (IHl _ _ _ Wl He).
  - apply (Hstep r true Hr), (IHr _ _ _ Wr He).
Qed.
Lemma ents_child b0 c0 bit t b c p : 0 <= c0 -> child_ok b0 c0 bit t -> wf t -> ((b, c), p) ∈ ents t ->
  c0 < c /\ pre b (c0 + 1) = 2 * pre b0 c0 + Z.b2z bit.
Proof.
  intros H0 Hok W He. destruct (ents_below _ _ _ _ W He) as (? & ? & ? & ? & ? & ?).
  eapply child_ok_trans; [done..|lia|done].
Qed.
Lemma ents_NoDup t : wf t -> NoDup (ents t).*1.
Proof.
  induction t as [|p0 b0 c0 l IHl r IHr]; [constructor|].
  intros (Ha & Hc & Hm & _ & Hl & Hr & Wl & Wr). cbn [ents]. rewrite !fmap_app, !NoDup_app.
  assert (forall (bit : bool) t k, child_ok b0 c0 bit t -> wf t -> k ∈ (ents t).*1 ->
    c0 < k.2 /\ pre k.1 (c0 + 1) = 2 * pre b0 c0 + Z.b2z bit) as Hch.
  { intros bit t k Hok W [[k' p'] [-> Hin]]%list_elem_of_fmap. destruct k' as [b' c']. apply (ents_child b0 c0 bit t b' c' p'); [lia|done..]. }
  split_and!; [destruct p0; repeat constructor; by intros ?%elem_of_nil| |by apply IHl| |by apply IHr].
  - intros k [[k' p'] [-> Ho%elem_of_own]]%list_elem_of_fmap Hk. destruct Ho as [Ho _]. cbn [fst] in Ho, Hk. rewrite Ho in Hk.
    apply elem_of_app in Hk as [Hk|Hk]; [apply (Hch false l _ Hl Wl) in Hk|apply (Hch true r _ Hr Wr) in Hk]; cbn in Hk; lia.
  - intros k Hk Hk'. apply (Hch false l _ Hl Wl) in Hk. apply (Hch true r _ Hr Wr) in Hk'. cbn in *. lia.
Qed.

(** ** Lookup is longest-prefix match *)
Lemma size_byte : u8 (Z.of_nat n) = Z.of_nat n.
Proof. apply u8_small. lia. Qed.
Definition is_best t ip (res : option (key * Peer)) : Prop :=
  match res with
  | None => forall b c p, ((b, c), p) ∈ ents t -> pre b c <> pre ip c
  | Some ((b, c), p) => ((b, c), p) ∈ ents t /\ pre b c = pre ip c /\
      forall b' c' p', ((b', c'), p') ∈ ents t -> pre b' c' = pre ip c' -> c' <= c
  end.
(** The entries that contain an address are on its path. *)
Lemma match_in p0 b0 c0 l r b c p ip : wf (Node p0 b0 c0 l r) -> addr ip ->
  ((b, c), p) ∈ ents (Node p0 b0 c0 l r) -> pre b c = pre ip c ->
  ((b, c), p) ∈ own p0 b0 c0 \/
  c0 < width /\ c0 < c /\ ((b, c), p) ∈ ents (if choose c0 ip then r else l).
Proof.
  intros W Ha He Hp. pose proof W as (Hb & Hc & Hm & _ & Hl & Hr & Wl & Wr).
  destruct (ents_below _ _ _ _ W He) as (? & ? & ? & _ & ? & ?). cbn [node_cidr node_bits] in *.
  cbn [ents] in He. rewrite !elem_of_app in He. destruct He as [He|He]; [by left|]. right.
  assert (exists bit, c0 < c /\ pre b (c0 + 1) = 2 * pre b0 c0 + Z.b2z bit /\ ((b, c), p) ∈ ents (if bit then r else l)) as (bit & Hlt & Hbit & Hin).
  { destruct He as [He|He]; [exists false|exists true].
    - destruct (ents_child b0 c0 false l b c p ltac:(lia) Hl Wl He). done.
    - destruct (ents_child b0 c0 true r b c p ltac:(lia) Hr Wr He). done. }
  apply (pre_le _ _ _ (c0 + 1)) in Hp; [|lia..]. rewrite (choose_pre ip) in Hp by (done || lia).
  assert (pre ip c0 = pre b0 c0) as Hi.
  { destruct (choose c0 ip), bit; cbn [Z.b2z] in *; lia. }
  split_and!; [lia|done|]. replace (choose c0 ip) with bit; [done|].
  destruct (choose c0 ip), bit; cbn [Z.b2z] in *; done || lia.
Qed.
Lemma child_elem p0 b0 c0 l r (bit : bool) e : e ∈ ents (if bit then r else l) -> e ∈ ents (Node p0 b0 c0 l r).
Proof. intros He. cbn. rewrite !elem_of_app. destruct bit; tauto. Qed.
Lemma wf_sub p0 b0 c0 l r (bit : bool) : wf (Node p0 b0 c0 l r) -> wf (if bit then r else l).
Proof. intros (_ & _ & _ & _ & _ & _ & ? & ?). by destruct bit. Qed.

(** Nothing better below: the node itself, if it has a peer, is the best. *)
Lemma own_best p0 b0 c0 l r ip : wf (Node p0 b0 c0 l r) -> addr ip -> pre b0 c0 = pre ip c0 ->
  (c0 < width -> is_best (if choose c0 ip then r else l) ip None) ->
  is_best (Node p0 b0 c0 l r) ip (match p0 with Some p => Some ((b0, c0), p) | None => None end).
Proof.
  intros W Ha Hp Hno.
  assert (forall b c p, ((b, c), p) ∈ ents (Node p0 b0 c0 l r) -> pre b c = pre ip c -> ((b, c), p) ∈ own p0 b0 c0) as Hin.
  { intros b c p He Hpre. destruct (match_in _ _ _ _ _ _ _ _ ip W Ha He Hpre) as [|(Hlt & _ & Hin)]; [done|].
    exfalso. by eapply (Hno Hlt). }
  destruct p0 as [p0|]; cbn [is_best own] in *.
  - split_and!; [by left|done|]. intros b' c' p' He Hpre.
    apply Hin in He as [= -> -> ->]%list_elem_of_singleton; [lia|done].
  - intros b c p He Hpre. by apply Hin in He as ?%elem_of_nil.
Qed.
Lemma lookup_from_best t ip found : wf t -> addr ip ->
  exists res, is_best t ip res /\
    lookup_from found t ip = match res with Some (_, p) => Some p | None => found end.
Proof.
  intros W Ha. revert found W. induction t as [|p0 b0 c0 l IHl r IHr]; intros found W.
  { exists None. split; [|done]. by intros ? ? ? ?%elem_of_nil. }
  pose proof W as (Hb & Hc & Hm & _ & Hl & Hr & Wl & Wr). cbn [lookup_from]. rewrite (proj1 Ha), size_byte.
  destruct (Z.leb_spec c0 (commonBits b0 ip)) as [Hp|Hp].
  2:{ exists None. split; [|done]. intros b c p He Hpre. destruct (ents_below _ _ _ _ W He) as (? & ? & ? & _ & Hle & Hb0).
      cbn [node_cidr node_bits] in *. assert (c0 <= commonBits b0 ip); [|lia].
      apply commonBits_pre; [done..|]. rewrite <- Hb0. apply (pre_le _ _ c); [lia..|done]. }
  apply commonBits_pre in Hp; [|done..]. set (found' := match p0 with Some _ => p0 | None => found end).
  destruct (Z.eqb_spec (c0 / 8) (Z.of_nat n)) as [Hfull|Hfull].
  { eexists. split; [apply own_best; [done..|]|by destruct p0]. unfold width. intros. div_lia. }
  assert (exists res, is_best (if choose c0 ip then r else l) ip res /\
    lookup_from found' (if choose c0 ip then r else l) ip = match res with Some (_, p) => Some p | None => found' end)
    as ([[[b c] p]|] & Hbest & ->) by (destruct (choose c0 ip); [by apply IHr|by apply IHl]).
  - exists (Some ((b, c), p)). split; [|done]. destruct Hbest as (Hin & Hpre & Hmax).
    pose proof (child_elem p0 b0 c0 _ _ _ _ Hin) as Hin'.
    split_and!; [done..|]. intros b' c' p' He' Hpre'.
    destruct (match_in _ _ _ _ _ _ _ _ ip W Ha He' Hpre') as [Ho|(_ & _ & Hd)]; [|by eapply Hmax].
    apply elem_of_own in Ho as [[= -> ->] _].
    destruct (match_in _ _ _ _ _ _ _ _ ip W Ha Hin' Hpre) as [Ho|(_ & Hlt & _)]; [|lia].
    apply elem_of_own in Ho as [[= -> ->] _]. lia.
  - eexists. split; [by apply own_best|]. unfold found'. by destruct p0.
Qed.

(** ** Replacing what hangs at a path *)
Fixpoint valid t q : Prop :=
  match q with [] => True | bit :: q => is_nil t = false /\ valid (child t bit) q end.
(** The entries outside the subtree at a path. *)
Fixpoint rest t q : list (key * Peer) :=
  match q, t with
  | bit :: q, Node p b c l r => own p b c ++ ents (if bit then l else r) ++ rest (if bit then r else l) q
  | _, _ => []
  end.
(** What may hang there. *)
Fixpoint slot_ok t q x : Prop :=
  match q, t with
  | [bit], Node p b c l r => child_ok b c bit x /\ (p = None -> is_nil x = false)
  | bit :: q, Node p b c l r => slot_ok (if bit then r else l) q x
  | _, _ => True
  end.

Lemma ents_put t q x : valid t q ->
  ents t ≡ₚ ents (at_path t q) ++ rest t q /\ ents (put t q x) ≡ₚ ents x ++ rest t q.
Proof.
  revert t. induction q as [|bit q IH]; intros [|p b c l r] Hv; cbn [at_path put rest ents];
    rewrite ?app_nil_r; try done; try by destruct Hv.
  destruct Hv as [_ Hv]. cbn [child] in *. specialize (IH _ Hv) as [H1 H2].
  destruct bit; cbn [set_child ents]; split; rewrite ?H1, ?H2; solve_Permutation.
Qed.
Lemma put_root t q x : valid t q -> q <> [] ->
  is_nil (put t q x) = false /\ node_bits (put t q x) = node_bits t /\
  node_cidr (put t q x) = node_cidr t /\ node_peer (put t q x) = node_peer t.
Proof. destruct q as [|bit q], t; cbn; try done; [by intros []|]. intros _ _. by destruct bit. Qed.
Lemma child_ok_root b c bit t x : is_nil t = false -> is_nil x = false ->
  node_bits x = node_bits t -> node_cidr x = node_cidr t -> child_ok b c bit t -> child_ok b c bit x.
Proof. destruct t, x; cbn; try done. by intros _ _ -> ->. Qed.
Lemma wf_put t q x : wf t -> wf x -> valid t q -> slot_ok t q x -> wf (put t q x).
Proof.
  intros W Wx. revert t W. induction q as [|bit q IH]; intros [|p b c l r] W Hv Hs; try done; try by destruct Hv.
  destruct Hv as [_ Hv]. cbn [child] in Hv.
  pose proof W as (Hb & Hc & Hm & Hg & Hl & Hr & Wl & Wr).
  assert (wf (put (if bit then r else l) q x) /\
    child_ok b c bit (put (if bit then r else l) q x) /\ (p = None -> is_nil (put (if bit then r else l) q x) = false)) as (W' & Hc' & Hg').
  { destruct q as [|bit' q]; [cbn [put]; by destruct Hs|].
    split; [apply IH; [by eapply wf_sub|done|exact Hs]|].
    destruct (put_root _ _ x Hv ltac:(done)) as (H1 & H2 & H3 & _). split; [|done].
    apply (child_ok_root b c bit (if bit then r else l)); [by destruct Hv|done..|by destruct bit]. }
  cbn [put set_child child]. destruct bit; cbn [wf]; split_and!; done || (intros Hp; specialize (Hg Hp); specialize (Hg' Hp); tauto) || lia.
Qed.
Lemma slot_ok_snoc t q bit x : valid t q ->
  slot_ok t (q ++ [bit]) x <->
  match at_path t q with Nil => True | Node p b c _ _ => child_ok b c bit x /\ (p = None -> is_nil x = false) end.
Proof.
  revert t. induction q as [|bit' q IH]; intros [|p b c l r] Hv; cbn [app]; try done.
  - by destruct Hv.
  - destruct Hv as [_ Hv]. cbn [child at_path] in *. rewrite <- IH by done. by destruct q.
Qed.
Lemma slot_ok_here t q : wf t -> valid t q -> is_nil (at_path t q) = false -> slot_ok t q (at_path t q).
Proof.
  revert t. induction q as [|bit q IH]; intros [|p b c l r] W Hv Hnil; try done; try (by destruct Hv).
  destruct Hv as [_ Hv]. cbn [child at_path] in *. destruct q as [|bit' q].
  - destruct W as (_ & _ & _ & _ & Hl & Hr & _ & _). cbn. by destruct bit.
  - apply IH; [by eapply wf_sub|done..].
Qed.
Lemma slot_ok_root t q x y : is_nil x = false -> is_nil y = false ->
  node_bits y = node_bits x -> node_cidr y = node_cidr x -> slot_ok t q x -> slot_ok t q y.
Proof.
  intros Hx Hy Hb Hc. revert t. induction q as [|bit q IH]; intros [|p b c l r]; try done.
  destruct q as [|bit' q]; [|apply IH]. intros [Hok _]. split; [by apply (child_ok_root b c bit x y)|done].
Qed.
Lemma valid_snoc t q bit : valid t (q ++ [bit]) <-> valid t q /\ is_nil (at_path t q) = false.
Proof.
  revert t. induction q as [|bit' q IH]; intros t; cbn [app valid at_path].
  - tauto.
  - rewrite IH. tauto.
Qed.
Lemma at_path_snoc t q bit : at_path t (q ++ [bit]) = child (at_path t q) bit.
Proof. revert t. induction q as [|bit' q IH]; intros t; cbn; [done|apply IH]. Qed.
Lemma wf_at_path t q : wf t -> wf (at_path t q).
Proof. revert t. induction q as [|bit q IH]; intros t W; cbn; [done|]. by apply IH, wf_child. Qed.

(** ** Placement *)
Definition stops ip (cidr : Z) x : Prop :=
  is_nil x = true \/ ~ (node_cidr x <= cidr /\ pre (node_bits x) (node_cidr x) = pre ip (node_cidr x)).
Definition placed t ip cidr (o : option path) (e : bool) : Prop :=
  match o with
  | None => e = false /\ stops ip cidr t
  | Some q => valid t q /\ exists p b c l r, at_path t q = Node p b c l r /\ pre b c = pre ip c /\
      if e then c = cidr else c < cidr /\ stops ip cidr (if choose c ip then r else l)
  end.
Lemma placement_spec t ip cidr o e : wf t -> addr ip -> 0 <= cidr <= width ->
  nodePlacement t ip cidr = (o, e) -> placed t ip cidr o e.
Proof.
  intros W Ha Hcidr. revert o e W. induction t as [|p b c l IHl r IHr]; intros o e W E; cbn [nodePlacement] in E.
  { simplify_eq. split; [done|by left]. }
  pose proof W as (Hb & Hc & _). pose proof (commonBits_pre b ip c Hb Ha Hc) as Hcp.
  destruct (Z.leb_spec c cidr); cbn [andb] in E; [|simplify_eq; split; [done|right; cbn; lia]].
  destruct (Z.leb_spec c (commonBits b ip)).
  2:{ simplify_eq. split; [done|]. right. cbn. rewrite <- Hcp. lia. }
  apply Hcp in H1. destruct (Z.eqb_spec c cidr).
  { simplify_eq. split; [done|]. by eexists _, _, _, _, _. }
  assert (forall (bit : bool) o e, wf (if bit then r else l) -> nodePlacement (if bit then r else l) ip cidr = (o, e) ->
    placed (if bit then r else l) ip cidr o e) as IH by (intros []; [exact IHr|exact IHl]).
  destruct (nodePlacement (if choose c ip then r else l) ip cidr) as [[q|] e'] eqn:E'; simplify_eq.
  - destruct (IH _ _ _ (wf_sub _ _ _ _ _ _ W) E') as (Hv & Hx). cbn [valid is_nil at_path child]. done.
  - destruct (IH _ _ _ (wf_sub _ _ _ _ _ _ W) E') as (_ & Hstop). split; [done|].
    eexists _, _, _, _, _. split_and!; [done..|lia|done].
Qed.
Lemma maskSelf_idem ip c c' : addr ip -> 0 <= c <= c' -> c' <= width -> maskSelf (maskSelf ip c') c = maskSelf ip c.
Proof.
  intros Ha Hc Hc'. apply maskSelf_eq; [by apply maskSelf_addr; [|lia]|done|lia|]. apply pre_maskSelf; done || lia.
Qed.
Lemma choose_ext a b c : addr a -> addr b -> 0 <= c < width -> pre a (c + 1) = pre b (c + 1) -> choose c a = choose c b.
Proof.
  intros Ha Hb Hc E. pose proof (pre_le a b (c + 1) c ltac:(lia) ltac:(lia) E) as E'.
  rewrite !choose_pre, E' in E by done. destruct (choose c a), (choose c b); cbn [Z.b2z] in E; done || lia.
Qed.

(** What the insertion puts in a slot: a node whose prefix is one of the new
    one's, at least one bit longer than the parent's. *)
Definition new_leaf ip cidr (peer : Peer) : trie := Node (Some peer) (maskSelf ip cidr) cidr Nil Nil.
Lemma new_leaf_wf ip cidr peer : addr ip -> 0 <= cidr <= width -> wf (new_leaf ip cidr peer).
Proof.
  intros Ha Hc. cbn. split_and!; try done; [by apply maskSelf_addr|lia..|]. by apply maskSelf_idem; [|lia|lia].
Qed.
Definition extends ip x : Prop := exists c', is_nil x = false /\ node_cidr x = c' /\ node_bits x = maskSelf ip c' /\ 0 <= c' <= width.
(** Joining the new node with what hangs in its slot. *)
Definition joined ip cidr (peer : Peer) down : trie :=
  let newNode := new_leaf ip cidr peer in
  let common := commonBits (node_bits down) ip in
  let cidr' := if common <? cidr then common else cidr in
  if cidr =? cidr' then set_child newNode (choose cidr (node_bits down)) down
  else
    let node' := Node None (maskSelf (node_bits newNode) cidr') cidr' Nil Nil in
    let node' := set_child node' (choose cidr' (node_bits down)) down in
    set_child node' (choose cidr' (node_bits newNode)) newNode.
Lemma joined_spec ip cidr peer down : addr ip -> 0 <= cidr <= width -> wf down ->
  is_nil down = false -> stops ip cidr down ->
  wf (joined ip cidr peer down) /\ extends ip (joined ip cidr peer down) /\
  Z.min cidr (commonBits (node_bits down) ip) = node_cidr (joined ip cidr peer down) /\
  ents (joined ip cidr peer down) ≡ₚ (maskSelf ip cidr, cidr, peer) :: ents down.
Proof.
  intros Ha Hc W Hnil [Hs|Hs]; [congruence|]. destruct down as [|p b c l r]; [done|]. cbn [node_bits node_cidr] in *.
  pose proof W as (Hb & Hcd & _). pose proof (commonBits_range b ip) as Hr.
  rewrite <- commonBits_pre in Hs by done. unfold joined. cbn [node_bits new_leaf].
  set (common := commonBits b ip) in *. cbn zeta.
  destruct (Z.ltb_spec common cidr) as [Hlt|Hge].
  - destruct (Z.eqb_spec cidr common); [lia|]. assert (common < c /\ common < width) as [Hcc Hcw] by lia.
    assert (pre b common = pre ip common) as Hp by (apply commonBits_pre; [done..|lia|fold common; lia]).
    assert (choose common b <> choose common ip) as Hch.
    { intros E. assert (pre b (common + 1) = pre ip (common + 1)) as Hp' by (rewrite !choose_pre, Hp, E by (done || lia); done).
      apply commonBits_pre in Hp'; [fold common in Hp'; lia|done..|lia]. }
    assert (choose common (maskSelf ip cidr) = choose common ip) as Hcm.
    { apply choose_ext; [by apply maskSelf_addr|done|lia|]. apply pre_maskSelf; done || lia. }
    rewrite Hcm, maskSelf_idem by (done || lia).
    assert (child_ok (maskSelf ip common) common (choose common b) (Node p b c l r)) as Hok1.
    { split; [done|]. by rewrite (pre_maskSelf ip common), <- Hp, choose_pre by (done || lia). }
    assert (child_ok (maskSelf ip common) common (choose common ip) (new_leaf ip cidr peer)) as Hok2.
    { split; [done|]. rewrite !pre_maskSelf, choose_pre by (done || lia). done. }
    pose proof (new_leaf_wf ip cidr peer Ha Hc) as Wn.
    assert (addr (maskSelf ip common)) by (apply maskSelf_addr; done || lia).
    assert (maskSelf (maskSelf ip common) common = maskSelf ip common) by (apply maskSelf_idem; done || lia).
    assert (0 <= common <= width) as Hcr by lia.
    destruct (choose common b), (choose common ip); try done; cbn [set_child];
      (split_and!; [by apply wf_Node|exists common; exact (conj eq_refl (conj eq_refl (conj eq_refl Hcr)))|cbn [node_cidr]; lia|]);
      cbn [ents own new_leaf app]; rewrite ?app_nil_r; solve_Permutation.
  - rewrite Z.eqb_refl. assert (cidr < c) as Hcc by lia.
    assert (pre b cidr = pre ip cidr) as Hp by (apply commonBits_pre; [done..|fold common; lia]).
    assert (child_ok (maskSelf ip cidr) cidr (choose cidr b) (Node p b c l r)) as Hok.
    { split; [done|]. by rewrite (pre_maskSelf ip cidr), <- Hp, choose_pre by (done || lia). }
    destruct (new_leaf_wf ip cidr peer Ha Hc) as (? & ? & ? & _).
    destruct (choose cidr b); cbn [set_child new_leaf];
      (split_and!; [by apply wf_Node|exists cidr; exact (conj eq_refl (conj eq_refl (conj eq_refl Hc)))|cbn [node_cidr]; lia|]);
      cbn [ents own new_leaf app]; rewrite ?app_nil_r; solve_Permutation.
Qed.

(** ** Insertion and removal *)

(** The code's last lines of [insert] build [joined] in the slot. *)
Definition slot_of t (o : option path) (bits : list Z) : path :=
  match o with None => [] | Some q => q ++ [choose (node_cidr (at_path t q)) bits] end.
Lemma insert_unfold t E ip cidr peer : is_nil t = false ->
  (forall q, nodePlacement t ip cidr <> (Some q, true)) ->
  insert t E ip cidr peer =
  let slot := slot_of t (nodePlacement t ip cidr).1 in
  let down := at_path t (slot ip) in
  (if is_nil down then put t (slot ip) (new_leaf ip cidr peer)
   else put t (slot (node_bits (joined ip cidr peer down))) (joined ip cidr peer down),
   addToPeerEntries E peer (maskSelf ip cidr, cidr)).
Proof.
  intros Hnil Hne. unfold insert. rewrite Hnil.
  destruct (nodePlacement t ip cidr) as [[q|] []]; [by destruct (Hne q)|..]; unfold slot_of; cbn [fst]; cbn zeta.
  all: case_match; [done|]; unfold joined; cbn zeta; unfold new_leaf; case_match; cbn [set_child node_bits];
    repeat (case_match; cbn [set_child node_bits]); done.
Qed.

Lemma slot_ok_extends t q ip x p b c l r : addr ip -> wf t -> valid t q -> at_path t q = Node p b c l r ->
  pre b c = pre ip c -> extends ip x -> c < node_cidr x ->
  slot_ok t (q ++ [choose c ip]) x /\ choose c (node_bits x) = choose c ip.
Proof.
  intros Ha W Hv Hq Hp (c' & Hnil & Hc' & Hbits & Hr) Hlt.
  assert (wf (Node p b c l r)) as (Hb & Hc & _) by (rewrite <- Hq; by apply wf_at_path).
  assert (pre (maskSelf ip c') (c + 1) = pre ip (c + 1)) as Hpre by (apply pre_maskSelf; done || lia).
  split.
  - rewrite slot_ok_snoc, Hq by done. split; [|done]. destruct x as [|px bx cx lx rx]; [done|].
    cbn [node_cidr node_bits] in *. subst. split; [lia|]. by rewrite Hpre, choose_pre, Hp by (done || lia).
  - rewrite Hbits. apply choose_ext; [apply maskSelf_addr; done || lia|done|lia|done].
Qed.

Lemma insert_spec t E ip cidr peer : wf t -> addr ip -> 0 <= cidr <= width ->
  exists old R, wf (insert t E ip cidr peer).1 /\
    ents t ≡ₚ own old (maskSelf ip cidr) cidr ++ R /\
    ents (insert t E ip cidr peer).1 ≡ₚ (maskSelf ip cidr, cidr, peer) :: R /\
    (insert t E ip cidr peer).2 =
      addToPeerEntries (removeFromPeerEntries E old (maskSelf ip cidr, cidr)) peer (maskSelf ip cidr, cidr).
Proof.
  intros W Ha Hc. pose proof (new_leaf_wf ip cidr peer Ha Hc) as Wn.
  destruct (is_nil t) eqn:Hnil.
  { destruct t; [|done]. exists None, []. by split_and!. }
  destruct (nodePlacement t ip cidr) as [o e] eqn:Hpl.
  pose proof (placement_spec _ _ _ _ _ W Ha Hc Hpl) as Hsp.
  destruct e.
  - destruct o as [q|]; [|by destruct Hsp]. destruct Hsp as (Hv & p & b & c & l & r & Hq & Hp & ->).
    assert (wf (Node p b cidr l r)) as Wq by (rewrite <- Hq; by apply wf_at_path).
    pose proof Wq as (Hb & _ & Hm & _ & Hl & Hr & Wl & Wr).
    assert (maskSelf ip cidr = b) as Hk by (rewrite <- Hm; by apply maskSelf_eq).
    destruct (ents_put t q (set_peer (at_path t q) (Some peer)) Hv) as [H1 H2].
    exists p, (ents l ++ ents r ++ rest t q). unfold insert. rewrite Hnil, Hpl, Hk. cbn [fst snd].
    rewrite Hq in *. cbn [set_peer node_bits node_cidr node_peer ents own] in *. split_and!; [|by rewrite H1, <- !app_assoc|by rewrite H2, <- !app_assoc|done].
    apply wf_put; [done|by apply wf_Node|done|].
    pose proof (slot_ok_here t q W Hv ltac:(by rewrite Hq)) as Hs. rewrite Hq in Hs. by apply (slot_ok_root t q (Node p b cidr l r)).
  - rewrite insert_unfold by (done || intros q; congruence). rewrite Hpl. cbn [fst]. cbn zeta.
    set (slot := slot_of t o).
    assert (valid t (slot ip) /\ stops ip cidr (at_path t (slot ip)) /\
      forall x, extends ip x -> (is_nil (at_path t (slot ip)) = true /\ node_cidr x = cidr \/
        is_nil (at_path t (slot ip)) = false /\ node_cidr x = Z.min cidr (commonBits (node_bits (at_path t (slot ip))) ip)) ->
        slot_ok t (slot ip) x /\ slot (node_bits x) = slot ip) as (Hv & Hst & Hfit).
    { unfold slot, slot_of. destruct o as [q|]; [|by destruct Hsp as [_ ?]; split_and!; [..|split; [by destruct t|]]].
      destruct Hsp as (Hv & p & b & c & l & r & Hq & Hp & Hlt & Hst). rewrite Hq. cbn [node_cidr].
      assert (wf (Node p b c l r)) as Wq by (rewrite <- Hq; by apply wf_at_path).
      rewrite at_path_snoc, valid_snoc, Hq. split_and!; [done..|]. intros x Hx Hcx.
      assert (c < node_cidr x) as Hlt'.
      { destruct Hcx as [[_ ->]|[Hnd ->]]; [done|].
        cbn [child] in *. assert (c + 1 <= commonBits (node_bits (if choose c ip then r else l)) ip); [|lia].
        pose proof Wq as (Hb & Hcr & _ & _ & Hl & Hr & Wl & Wr).
        pose proof (wf_sub _ _ _ _ _ (choose c ip) Wq) as Wd.
        assert (child_ok b c (choose c ip) (if choose c ip then r else l)) as Hok by (by destruct (choose c ip)).
        destruct (if choose c ip then r else l) as [|pd bd cd ld rd]; [done|]. cbn [node_bits].
        apply commonBits_pre; [by destruct Wd|done|lia|]. destruct Hok as [_ ->]. rewrite choose_pre by (done || lia). lia. }
      destruct (slot_ok_extends t q ip x _ _ _ _ _ Ha W Hv Hq Hp Hx Hlt') as [H1 H2]. by rewrite H2. }
    exists None, (ents t). destruct (is_nil (at_path t (slot ip))) eqn:Hdn.
    + destruct (Hfit (new_leaf ip cidr peer)) as [Hs _]; [by exists cidr|by left|].
      destruct (ents_put t (slot ip) (new_leaf ip cidr peer) Hv) as [H1 H2]. cbn [fst snd].
      destruct (at_path t (slot ip)); [|done]. cbn [ents app] in H1. split_and!; [by apply wf_put|done|by rewrite H2, H1|done].
    + destruct (joined_spec ip cidr peer _ Ha Hc (wf_at_path t (slot ip) W) Hdn Hst) as (Wj & Hx & Hmin & Hents).
      destruct (Hfit _ Hx) as [Hs ->]; [by right|].
      destruct (ents_put t (slot ip) (joined ip cidr peer (at_path t (slot ip))) Hv) as [H1 H2]. cbn [fst snd].
      split_and!; [by apply wf_put|done|by rewrite H2, Hents, H1|done].
Qed.

(** A node's child may take the node's place. *)
Lemma slot_ok_promote t q p b c l r (bit : bool) : wf t -> valid t q -> at_path t q = Node p b c l r ->
  is_nil (if bit then r else l) = false -> slot_ok t q (if bit then r else l).
Proof.
  intros W Hv Hq Hnil.
  assert (wf (Node p b c l r)) as Wq by (rewrite <- Hq; by apply wf_at_path).
  destruct q as [|bit' q _] using rev_ind; [by destruct t|].
  pose proof (slot_ok_here t _ W Hv ltac:(by rewrite Hq)) as Hs. rewrite Hq in Hs.
  apply valid_snoc in Hv as [Hv _]. rewrite slot_ok_snoc in Hs |- * by done.
  pose proof (wf_at_path t q W) as Wp.
  destruct (at_path t q) as [|pp pb pc pl pr]; [done|]. split; [|done].
  pose proof Wq as (Hb & Hc & _ & _ & Hl & Hr & _). destruct Hs as [[Hlt Hpre] _]. destruct Wp as (_ & Hpc & _).
  assert (child_ok b c bit (if bit then r else l)) as Hok by (by destruct bit).
  pose proof (wf_sub _ _ _ _ _ bit Wq) as Wx. destruct (if bit then r else l) as [|px bx cx lx rx]; [done|].
  destruct Wx as (Hbx & Hcx & _). destruct Hok as [Hltx Hprex]. split; [lia|].
  rewrite <- Hpre. apply (pre_le _ _ c); [lia|lia|].
  rewrite (choose_pre bx) in Hprex by (done || lia). destruct (choose c bx), bit; cbn [Z.b2z] in Hprex; lia.
Qed.
Lemma at_path_put t q x : valid t q -> at_path (put t q x) q = x.
Proof.
  revert t. induction q as [|bit q IH]; intros [|p b c l r] Hv; try done; try (by destruct Hv).
  destruct Hv as [_ Hv]. specialize (IH _ Hv). cbn [child] in IH. by destruct bit.
Qed.
Lemma put_put t q x y : valid t q -> put (put t q x) q y = put t q y.
Proof.
  revert t. induction q as [|bit q IH]; intros [|p b c l r] Hv; try done; try (by destruct Hv).
  destruct Hv as [_ Hv]. specialize (IH _ Hv). cbn [child] in IH.
  destruct bit; cbn [put set_child child]; by rewrite IH.
Qed.
Lemma put_snoc t q bit x : valid t q -> put t (q ++ [bit]) x = put t q (set_child (at_path t q) bit x).
Proof.
  revert t. induction q as [|bit' q IH]; intros t Hv; [done|].
  destruct Hv as [_ Hv]. cbn [app put at_path]. by rewrite IH.
Qed.

Lemma remove_spec t E q p b c l r : wf t -> valid t q -> at_path t q = Node p b c l r ->
  wf (remove t E q).1 /\ ents t ≡ₚ own p b c ++ ents (remove t E q).1 /\
  (remove t E q).2 = removeFromPeerEntries E p (b, c).
Proof.
  intros W Hv Hq. assert (wf (Node p b c l r)) as Wq by (rewrite <- Hq; by apply wf_at_path).
  pose proof Wq as (Hb & Hc & Hm & _ & Hl & Hr & Wl & Wr).
  unfold remove. rewrite Hq. cbn [node_peer node_bits node_cidr child]. cbn zeta.
  pose proof (fun x => ents_put t q x Hv) as Hents. rewrite Hq in Hents. cbn [ents] in Hents.
  destruct (negb (is_nil l) && negb (is_nil r)) eqn:Hboth.
  { apply andb_true_iff in Hboth as [Hnl%negb_true_iff Hnr%negb_true_iff]. cbn [set_peer fst snd].
    destruct (Hents (Node None b c l r)) as [H1 H2]. split_and!; [|by rewrite H1, H2; cbn [ents own app]; rewrite <- !app_assoc|done].
    apply wf_put; [done|by apply wf_Node|done|].
    pose proof (slot_ok_here t q W Hv ltac:(by rewrite Hq)) as Hs. rewrite Hq in Hs.
    by apply (slot_ok_root t q (Node p b c l r)). }
  assert (ents l ++ ents r = ents (if is_nil l then r else l)) as Hch.
  { destruct l; [done|]. destruct r; [|done]. cbn [ents]. by rewrite app_nil_r. }
  pose proof (slot_ok_promote t q p b c l r (is_nil l) W Hv Hq) as Hpro.
  pose proof (wf_sub p b c l r (is_nil l) Wq) as Wx.
  destruct (Hents (if is_nil l then r else l)) as [H1 H2]. rewrite Hch in H1.
  destruct (is_nil (if is_nil l then r else l)) eqn:Hx; cbn [negb].
  2:{ cbn [fst snd]. split_and!; [apply wf_put; auto|by rewrite H1, H2, <- !app_assoc|done]. }
  destruct (if is_nil l then r else l); [|done]. clear Hx Hpro Hboth. cbn [ents app] in Hch, H1, H2. rewrite app_nil_r in H1.
  destruct q as [|bit q _] using rev_ind; cbn [rev].
  { cbn [fst snd]. split_and!; [done|by rewrite H1, H2|done]. }
  rewrite rev_unit, rev_involutive. apply valid_snoc in Hv as [Hv Hnil].
  rewrite put_snoc in * by done. rewrite at_path_put by done.
  destruct (at_path t q) as [|pp pb pc pl pr] eqn:HP; [done|]. rewrite at_path_snoc, HP in Hq. cbn [child] in Hq.
  pose proof (wf_at_path t q W) as WP. rewrite HP in WP.
  assert (node_peer (set_child (Node pp pb pc pl pr) bit Nil) = pp) as -> by by destruct bit.
  case_bool_decide as Hpp; cbn [fst snd].
  - rewrite put_put by done. subst pp. destruct (ents_put t q (child (set_child (Node None pb pc pl pr) bit Nil) (negb bit)) Hv) as [H3 H4].
    rewrite HP in H3. assert (child (set_child (Node None pb pc pl pr) bit Nil) (negb bit) = if negb bit then pr else pl) as Hsib by by destruct bit.
    rewrite Hsib in *. pose proof WP as (_ & _ & _ & [Hg1 Hg2] & _); [done|]. split_and!; [|..|done].
    + apply wf_put; [done|by eapply wf_sub|done|]. eapply slot_ok_promote; [done..|]. by destruct bit.
    + rewrite H3, H4. cbn [ents own]. destruct bit; cbn [negb]; rewrite Hq; cbn [ents app]; rewrite Hch; solve_Permutation.
  - split_and!; [|by rewrite H1, H2|done]. apply wf_put; [done| |done|].
    + destruct WP as (? & ? & ? & _ & ? & ? & ? & ?). destruct bit; cbn [set_child]; by apply wf_Node.
    + pose proof (slot_ok_here t q W Hv ltac:(by rewrite HP)) as Hs. rewrite HP in Hs.
      apply (slot_ok_root t q (Node pp pb pc pl pr)); by destruct bit.
Qed.

(** A prefix the trie holds is placed exactly, from any of its addresses. *)
Lemma placement_mask t ip cidr : wf t -> addr ip -> 0 <= cidr <= width ->
  nodePlacement t (maskSelf ip cidr) cidr = nodePlacement t ip cidr.
Proof.
  intros W Ha Hcidr. induction t as [|p b c l IHl r IHr]; [done|].
  pose proof W as (Hb & Hc & _ & _ & _ & _ & Wl & Wr). cbn [nodePlacement].
  pose proof (maskSelf_addr ip cidr Ha Hcidr) as Ham.
  destruct (Z.leb_spec c cidr); cbn [andb]; [|done].
  assert ((c <=? commonBits b (maskSelf ip cidr)) = (c <=? commonBits b ip)) as ->.
  { apply eq_bool_prop_intro. rewrite !Is_true_true, !Z.leb_le, !commonBits_pre, pre_maskSelf by (done || lia). done. }
  destruct (c <=? commonBits b ip); [|done]. destruct (Z.eqb_spec c cidr); [done|].
  assert (choose c (maskSelf ip cidr) = choose c ip) as ->.
  { apply choose_ext; [done..|lia|]. apply pre_maskSelf; done || lia. }
  destruct (choose c ip); by rewrite ?IHl, ?IHr.
Qed.
Lemma placement_finds t b c p : wf t -> ((b, c), p) ∈ ents t ->
  exists q l r, nodePlacement t b c = (Some q, true) /\ valid t q /\ at_path t q = Node (Some p) b c l r.
Proof.
  intros W. induction t as [|p0 b0 c0 l IHl r IHr]; intros He; [by apply elem_of_nil in He|].
  destruct (ents_below _ _ _ _ W He) as (Hb & Hc & Hm & _ & Hle & Hpre). cbn [node_bits node_cidr] in *.
  pose proof W as (Hb0 & Hc0 & _ & _ & _ & _ & Wl & Wr). cbn [nodePlacement].
  rewrite (proj2 (Z.leb_le c0 c)) by done. cbn [andb].
  rewrite (proj2 (Z.leb_le c0 (commonBits b0 b))) by (by apply commonBits_pre).
  destruct (match_in _ _ _ _ _ _ _ _ b W Hb He eq_refl) as [[[= <- <-] ->]%elem_of_own|(Hlt & Hlt' & Hin)].
  - rewrite Z.eqb_refl. eexists [], _, _. by split_and!.
  - rewrite (proj2 (Z.eqb_neq c0 c)) by lia.
    assert (exists q l' r', nodePlacement (if choose c0 b then r else l) b c = (Some q, true) /\
      valid (if choose c0 b then r else l) q /\ at_path (if choose c0 b then r else l) q = Node (Some p) b c l' r')
      as (q & l' & r' & -> & Hv & Hq) by (destruct (choose c0 b); [by apply IHr|by apply IHl]).
    exists (choose c0 b :: q), l', r'. by split_and!.
Qed.
End trie.
End prefix.

(** ** The table against a finite map of prefixes *)
Section table.
Context {Peer : Type} `{Countable Peer}.
Implicit Types (m : gmap key Peer) (E : entries Peer) (T : AllowedIPs Peer) (k : key) (p : Peer).

Definition family (n : nat) (t : trie Peer) m : Prop :=
  wf n t /\ forall k p, (k, p) ∈ ents t <-> length k.1 = n /\ m !! k = Some p.
Definition lists_ok E m : Prop :=
  forall p, NoDup (entries_of E p) /\ forall k, k ∈ entries_of E p <-> m !! k = Some p.
Definition table_ok T m : Prop :=
  family 4 (IPv4 T) m /\ family 16 (IPv6 T) m /\ lists_ok (trieEntries T) m /\
  forall k p, m !! k = Some p -> length k.1 = 4%nat \/ length k.1 = 16%nat.

Lemma entries_of_insert E p l p' : entries_of (<[p := l]> E) p' = if decide (p = p') then l else entries_of E p'.
Proof.
  unfold entries_of, entries in *. destruct (decide (p = p')) as [->|]; [by rewrite lookup_insert_eq|by rewrite lookup_insert_ne].
Qed.
Lemma lists_remove E m k old : lists_ok E m -> m !! k = old ->
  lists_ok (removeFromPeerEntries E old k) (delete k m).
Proof.
  intros HE Hk p. destruct (HE p) as [Hnd Hin]. destruct old as [o|]; cbn [removeFromPeerEntries].
  - rewrite entries_of_insert. destruct (decide (o = p)) as [->|Hne].
    + split; [by apply NoDup_filter|]. intros k'.
      rewrite list_elem_of_filter, lookup_delete_Some, Hin. intuition congruence.
    + split; [done|]. intros k'. rewrite lookup_delete_Some, Hin. intuition congruence.
  - rewrite delete_id by done. done.
Qed.
Lemma lists_add E m k p : lists_ok E m -> m !! k = None -> lists_ok (addToPeerEntries E p k) (<[k := p]> m).
Proof.
  intros HE Hk p'. destruct (HE p') as [Hnd Hin]. unfold addToPeerEntries. rewrite entries_of_insert.
  destruct (decide (p = p')) as [->|Hne].
  - split.
    + apply NoDup_app. split_and!; [done| |apply NoDup_singleton].
      intros k' Hk' ->%list_elem_of_singleton. apply Hin in Hk'. congruence.
    + intros k'. rewrite elem_of_app, list_elem_of_singleton, Hin, lookup_insert_Some.
      destruct (decide (k = k')); intuition congruence.
  - split; [done|]. intros k'. rewrite Hin, lookup_insert_Some. intuition congruence.
Qed.

Lemma family_lookup n t m k p R : (n = 4 \/ n = 16)%nat -> family n t m -> ents t ≡ₚ (k, p) :: R ->
  m !! k = Some p /\ (forall k' p', (k', p') ∈ R <-> k' <> k /\ length k'.1 = n /\ m !! k' = Some p').
Proof.
  intros Hn [W Hm] Hp. pose proof (ents_NoDup n Hn _ W) as Hnd. rewrite Hp in Hnd. cbn [fmap list_fmap fst] in Hnd.
  apply NoDup_cons in Hnd as [Hk _].
  assert (m !! k = Some p) as Hkp by (apply Hm; rewrite Hp; by left).
  split; [done|]. intros k' p'. rewrite <- Hm, Hp, elem_of_cons. split; [|intuition congruence].
  intros Hin. split; [|by right]. intros ->. apply Hk, list_elem_of_fmap. by exists (k, p').
Qed.
Lemma family_other n n' t m k p : n <> n' -> length k.1 = n -> family n' t m ->
  family n' t (<[k := p]> m) /\ family n' t (delete k m).
Proof.
  intros Hn Hl [W Hm]. split; (split; [done|]); intros k' p'; rewrite Hm.
  - rewrite lookup_insert_Some. split; [|intuition congruence]. intros [? ?]. split; [done|]. right. split; [congruence|done].
  - rewrite lookup_delete_Some. split; [|intuition congruence]. intros [? ?]. split; [done|]. split; [congruence|done].
Qed.

Lemma family_insert n t m E ip c p : (n = 4 \/ n = 16)%nat -> family n t m -> lists_ok E m ->
  addr n ip -> 0 <= c <= 8 * Z.of_nat n ->
  let k : key := (maskSelf ip c, c) in
  family n (insert t E ip c p).1 (<[k := p]> m) /\ lists_ok (insert t E ip c p).2 (<[k := p]> m) /\ length k.1 = n.
Proof.
  intros Hn Hf HE Ha Hc k. pose proof Hf as [W Hm].
  destruct (insert_spec n Hn t E ip c p W Ha Hc) as (old & R & W' & H1 & H2 & H3). fold k in H2, H3.
  pose proof (maskSelf_addr n Hn ip c Ha Hc) as [Hlk _].
  pose proof (ents_NoDup n Hn _ W') as Hnd. rewrite H2 in Hnd. cbn [fmap list_fmap fst] in Hnd.
  apply NoDup_cons in Hnd as [HkR _].
  assert (m !! k = old) as Hold.
  { destruct old as [o|]; cbn [own app] in H1; [exact (proj1 (family_lookup n t m k o R Hn Hf H1))|].
    destruct (m !! k) as [x|] eqn:Hx; [|done]. exfalso. apply HkR, list_elem_of_fmap. exists (k, x).
    split; [done|]. rewrite <- H1. by apply Hm. }
  assert (forall k' p', (k', p') ∈ R <-> k' <> k /\ length k'.1 = n /\ m !! k' = Some p') as HR.
  { destruct old as [o|]; cbn [own app] in H1; [exact (proj2 (family_lookup n t m k o R Hn Hf H1))|].
    intros k' p'. rewrite <- H1, Hm. split; [|tauto]. intros [Hx Hy]. split; [intros ->; by rewrite Hy in Hold|done]. }
  change (length k.1 = n) in Hlk. clear H1. clearbody k. split_and!; [split; [done|]| |done].
  - intros k' p'. rewrite H2, elem_of_cons, HR, lookup_insert_Some.
    rewrite pair_eq. destruct (decide (k = k')) as [<-|]; intuition congruence.
  - rewrite H3, <- insert_delete_eq. apply lists_add; [by apply lists_remove|apply lookup_delete_eq].
Qed.
Lemma family_remove n t m E q p b c l r : (n = 4 \/ n = 16)%nat -> family n t m -> lists_ok E m ->
  valid t q -> at_path t q = Node (Some p) b c l r ->
  m !! (b, c) = Some p /\ length b = n /\
  family n (remove t E q).1 (delete (b, c) m) /\ lists_ok (remove t E q).2 (delete (b, c) m).
Proof.
  intros Hn Hf HE Hv Hq. pose proof Hf as [W Hm].
  destruct (remove_spec n Hn t E q (Some p) b c l r W Hv Hq) as (W' & H1 & H2). cbn [own app] in H1.
  destruct (family_lookup n t m _ _ _ Hn Hf H1) as [Hk HR].
  split_and!; [done| |split; [done|]|].
  - by apply (Hm (b, c) p); rewrite H1; left.
  - intros k' p'. rewrite HR, lookup_delete_Some. intuition congruence.
  - rewrite H2. by apply lists_remove.
Qed.

(** ** The reference: operations on a map, lookup by decreasing length *)
Definition prefix_ok (k : key) : Prop :=
  (addr 4 k.1 \/ addr 16 k.1) /\ 0 <= k.2 <= 8 * Z.of_nat (length k.1).
Definition masked (k : key) : key := (maskSelf k.1 k.2, k.2).

Inductive op :=
| OpInsert (prefix : key) (p : Peer)
| OpRemove (prefix : key) (p : Peer)
| OpRemoveByPeer (p : Peer).
Definition op_ok (o : op) : Prop :=
  match o with OpInsert k _ | OpRemove k _ => prefix_ok k | OpRemoveByPeer _ => True end.
Definition do_op T (o : op) : AllowedIPs Peer :=
  match o with
  | OpInsert k p => Insert T k p
  | OpRemove k p => Remove T k p
  | OpRemoveByPeer p => RemoveByPeer T p
  end.
Definition ref_op m (o : op) : gmap key Peer :=
  match o with
  | OpInsert k p => <[masked k := p]> m
  | OpRemove k p => if bool_decide (m !! masked k = Some p) then delete (masked k) m else m
  | OpRemoveByPeer p => filter (fun x => x.2 <> p) m
  end.
(** The longest of the prefixes of at most [k] bits that contains [ip]. *)
Fixpoint longest m (ip : list Z) (k : nat) : option Peer :=
  match m !! masked (ip, Z.of_nat k) with
  | Some p => Some p
  | None => match k with O => None | S k => longest m ip k end
  end.

Lemma trie_family T m (six : bool) : table_ok T m -> family (if six then 16 else 4) (trie_of T six) m.
Proof. intros (H4 & H6 & _). by destruct six. Qed.
(** Replacing one trie and the lists, the map changing at one of its keys. *)
Lemma table_set T m m' (six : bool) t E : table_ok T m ->
  family (if six then 16 else 4) t m' -> lists_ok E m' ->
  (forall n', (n' = 4 \/ n' = 16)%nat -> n' <> (if six then 16 else 4)%nat -> forall t, family n' t m -> family n' t m') ->
  (forall k p, m' !! k = Some p -> length k.1 = 4%nat \/ length k.1 = 16%nat) ->
  table_ok (set_trie T six (t, E)) m'.
Proof.
  intros (H4 & H6 & _ & _) Ht HE Ho Hk. destruct six; cbn [set_trie fst snd]; split_and!; cbn [IPv4 IPv6 trieEntries]; try done.
  - apply Ho; [by left|done..].
  - apply Ho; [by right|done..].
Qed.
Lemma Is6_length ip : length ip = (if Is6 ip then 16 else 4)%nat \/ length ip <> 4%nat /\ length ip <> 16%nat.
Proof. unfold Is6. destruct (Nat.eqb_spec (length ip) 16); [by left|]. destruct (decide (length ip = 4%nat)); auto. Qed.
Lemma prefix_addr k : prefix_ok k -> addr (if Is6 k.1 then 16 else 4) k.1 /\ 0 <= k.2 <= 8 * Z.of_nat (if Is6 k.1 then 16 else 4) /\ u8 k.2 = k.2.
Proof.
  intros [Ha Hc]. assert (length k.1 = (if Is6 k.1 then 16 else 4)%nat) as Hl.
  { destruct (Is6_length k.1) as [|[? ?]]; [done|]. destruct Ha as [[? _]|[? _]]; lia. }
  rewrite <- Hl. split_and!; try lia.
  - destruct Ha as [[E Hb]|[E Hb]]; by split.
  - apply u8_small. destruct (Is6 k.1); lia.
Qed.
Lemma width_of six : (if six : bool then 16 else 4)%nat = 4%nat \/ (if six then 16 else 4)%nat = 16%nat.
Proof. destruct six; auto. Qed.

Lemma Insert_ok T m k p : table_ok T m -> prefix_ok k -> table_ok (Insert T k p) (<[masked k := p]> m).
Proof.
  intros HT (Ha & Hc & Hu)%prefix_addr. unfold Insert. rewrite Hu.
  destruct (family_insert _ (trie_of T (Is6 k.1)) m (trieEntries T) k.1 k.2 p (width_of (Is6 k.1)) (trie_family T m (Is6 k.1) HT)
    (proj1 (proj2 (proj2 HT))) Ha Hc) as (Hf & HE & Hl).
  destruct (insert _ _ _ _ _) as [t E]. eapply table_set; [done..| |].
  - intros n' _ Hne t' Hf'. by eapply family_other.
  - intros k' p' [[<- _]|[_ Hk']]%lookup_insert_Some; [cbn [fst] in Hl; cbn [masked fst]; rewrite Hl; destruct (Is6 k.1); auto|].
    destruct HT as (_ & _ & _ & HT). by eapply HT.
Qed.
Lemma remove_ok T m six q p b c l r : table_ok T m -> valid (trie_of T six) q ->
  at_path (trie_of T six) q = Node (Some p) b c l r ->
  m !! (b, c) = Some p /\ table_ok (set_trie T six (remove (trie_of T six) (trieEntries T) q)) (delete (b, c) m).
Proof.
  intros HT Hv Hq.
  destruct (family_remove _ (trie_of T six) m (trieEntries T) q p b c l r (width_of six) (trie_family T m six HT)
    (proj1 (proj2 (proj2 HT))) Hv Hq) as (Hk & Hl & Hf & HE). split; [done|].
  destruct (remove _ _ _) as [t E]. eapply table_set; [done..| |].
  - intros n' _ Hne t' Hf'. apply (family_other (length b) n' t' m (b, c) p); [congruence|done..].
  - intros k' p' [_ Hk']%lookup_delete_Some. destruct HT as (_ & _ & _ & HT). by eapply HT.
Qed.
Lemma Remove_ok T m k p : table_ok T m -> prefix_ok k ->
  table_ok (Remove T k p) (if bool_decide (m !! masked k = Some p) then delete (masked k) m else m).
Proof.
  intros HT Hk. pose proof (prefix_addr _ Hk) as (Ha & Hc & Hu). unfold Remove. rewrite Hu.
  pose proof (trie_family T m (Is6 k.1) HT) as [W Hm]. pose proof (width_of (Is6 k.1)) as Hn.
  pose proof (maskSelf_addr _ Hn _ _ Ha Hc) as [Hlm _].
  case_bool_decide as Hin.
  - destruct (placement_finds _ Hn _ (maskSelf k.1 k.2) k.2 p W) as (q & l & r & Hpl & Hv & Hq); [by apply Hm|].
    rewrite (placement_mask _ Hn) in Hpl by done. rewrite Hpl, Hq. cbn [node_peer]. rewrite bool_decide_eq_true_2 by done.
    by eapply remove_ok.
  - destruct (nodePlacement _ _ _) as [[q|] []] eqn:Hpl; try done. case_bool_decide as Hp; [|done]. exfalso.
    pose proof (placement_spec _ Hn _ _ _ _ _ W Ha Hc Hpl) as (Hv & p' & b & c & l & r & Hq & Hpre & ->).
    rewrite Hq in Hp. cbn [node_peer] in Hp. subst p'.
    destruct (remove_ok T m _ q p b _ l r HT Hv Hq) as [Hbm _]. apply Hin. unfold masked.
    assert (wf (if Is6 k.1 then 16%nat else 4%nat) (Node (Some p) b k.2 l r)) as (Hb & _ & Hmb & _) by (rewrite <- Hq; by apply wf_at_path).
    by replace (maskSelf k.1 k.2) with b by (rewrite <- Hmb; by apply (maskSelf_eq _ Hn)).
Qed.
Lemma remove_elem_ok T m k p : table_ok T m -> m !! k = Some p -> table_ok (remove_elem T k) (delete k m).
Proof.
  intros HT Hk. unfold remove_elem. pose proof (trie_family T m (Is6 k.1) HT) as [W Hm].
  pose proof (width_of (Is6 k.1)) as Hn. destruct k as [b c]. cbn [fst snd] in *.
  assert (length b = (if Is6 b then 16 else 4)%nat) as Hl.
  { destruct (Is6_length b) as [|[? ?]]; [done|]. destruct HT as (_ & _ & _ & HT). destruct (HT _ _ Hk); cbn in *; lia. }
  destruct (placement_finds _ Hn _ b c p W) as (q & l & r & -> & Hv & Hq); [by apply Hm|].
  by eapply remove_ok.
Qed.
Lemma remove_elems_ok ks T m p : table_ok T m -> NoDup ks -> (forall k, k ∈ ks -> m !! k = Some p) ->
  exists m', table_ok (foldl remove_elem T ks) m' /\ forall k, m' !! k = if decide (k ∈ ks) then None else m !! k.
Proof.
  revert T m. induction ks as [|k ks IH]; intros T m HT Hnd Hks; cbn [foldl].
  { exists m. split; [done|]. intros k. by rewrite decide_False by apply not_elem_of_nil. }
  apply NoDup_cons in Hnd as [Hk Hnd].
  destruct (IH (remove_elem T k) (delete k m)) as (m' & HT' & Hm'); [|done|..].
  - apply (remove_elem_ok _ _ _ p); [done|]. apply Hks. by left.
  - intros k' Hk'. rewrite lookup_delete_ne; [apply Hks; by right|]. by intros ->.
  - exists m'. split; [done|]. intros k'. rewrite Hm'. destruct (decide (k' = k)) as [->|Hne].
    + rewrite lookup_delete_eq, (decide_True (P := k ∈ k :: ks)) by left. by case_decide.
    + rewrite lookup_delete_ne by done. repeat case_decide; rewrite ?elem_of_cons in *; tauto.
Qed.
Lemma RemoveByPeer_ok T m p : table_ok T m -> table_ok (RemoveByPeer T p) (filter (fun x => x.2 <> p) m).
Proof.
  intros HT. pose proof HT as (_ & _ & HE & _). destruct (HE p) as [Hnd Hin].
  destruct (remove_elems_ok (entries_of (trieEntries T) p) T m p HT Hnd) as (m' & HT' & Hm'); [by intros k ?%Hin|].
  replace (filter _ m) with m'; [done|]. apply map_eq. intros k. rewrite Hm'. apply option_eq. intros x.
  rewrite map_lookup_filter_Some. cbn [snd]. case_decide as Hk; rewrite Hin in Hk.
  - rewrite Hk. split; [done|]. by intros [[= ->] ?].
  - split; [|by intros []]. intros Hx. split; [done|]. intros ->. done.
Qed.
Lemma do_op_ok T m o : table_ok T m -> op_ok o -> table_ok (do_op T o) (ref_op m o).
Proof. destruct o; [apply Insert_ok|apply Remove_ok|intros ? _; by apply RemoveByPeer_ok]. Qed.
Lemma empty_ok : table_ok emptyTable ∅.
Proof.
  assert (forall n, family n (Nil : trie Peer) ∅) as He.
  { intros n. split; [done|]. intros k p. cbn. rewrite elem_of_nil, lookup_empty. intuition congruence. }
  split_and!; [apply He..| |by intros ? ?; rewrite lookup_empty].
  intros p. change (entries_of (trieEntries emptyTable) p) with (@nil key). split; [constructor|].
  intros k. rewrite elem_of_nil, lookup_empty. intuition congruence.
Qed.
Lemma run_ok ops T m : table_ok T m -> Forall op_ok ops -> table_ok (foldl do_op T ops) (foldl ref_op m ops).
Proof.
  intros HT Hops. revert T m HT. induction Hops as [|o ops Ho _ IH]; intros; cbn [foldl]; [done|].
  by apply IH, do_op_ok.
Qed.

(** Whatever is looked up was inserted. *)
Lemma lookup_from_ents found t ip p : lookup_from found t ip = Some p -> found = Some p \/ exists k, (k, p) ∈ ents t.
Proof.
  revert found. induction t as [|o b c l IHl r IHr]; intros found Hl; cbn [lookup_from ents] in *; [by left|].
  destruct (_ <=? _); [|by left].
  assert (forall f : option Peer, f = match o with Some _ => o | None => found end -> f = Some p ->
    found = Some p \/ exists k, (k, p) ∈ own o b c ++ ents l ++ ents r) as Hf.
  { intros f -> Hf. destruct o as [p'|]; [|by left]. injection Hf as ->. right. exists (b, c). by left. }
  destruct (_ =? _); [by eapply Hf|].
  assert (forall t', t' = l \/ t' = r -> (exists k, (k, p) ∈ ents t') -> exists k, (k, p) ∈ own o b c ++ ents l ++ ents r) as Ht.
  { intros t' Ht' [k Hk]. exists k. rewrite !elem_of_app. destruct Ht' as [-> | ->]; auto. }
  destruct (choose c ip); [apply IHr in Hl as [Hl|Hl]|apply IHl in Hl as [Hl|Hl]].
  - by eapply Hf.
  - right. by apply (Ht r); [right|].
  - by eapply Hf.
  - right. by apply (Ht l); [left|].
Qed.
Lemma Lookup_inserted T m ip p : table_ok T m -> Lookup T ip = Some p -> exists k, m !! k = Some p.
Proof.
  intros ([_ H4] & [_ H6] & _) Hl. unfold Lookup in Hl.
  destruct (_ =? _)%nat; [|destruct (_ =? _)%nat; [|done]]; apply lookup_from_ents in Hl as [?|[k Hk]]; try done; exists k.
  - by apply H6.
  - by apply H4.
Qed.

Lemma lookup_longest n t m ip (k : nat) : (n = 4 \/ n = 16)%nat -> family n t m -> addr n ip -> (k <= 8 * n)%nat ->
  (forall b c p, (b, c, p) ∈ ents t -> pre n b c = pre n ip c -> c <= Z.of_nat k) ->
  lookup t ip = longest m ip k.
Proof.
  intros Hn [W Hm] Ha. induction k as [k IH] using lt_wf_ind. intros Hk Hmax.
  destruct (lookup_from_best n Hn t ip None W Ha) as (res & Hbest & Hl). fold (lookup t ip) in Hl.
  assert (addr n (maskSelf ip (Z.of_nat k))) as Hma by (apply maskSelf_addr; [done..|unfold width; lia]).
  assert (longest m ip k = match m !! masked (ip, Z.of_nat k) with Some p => Some p
    | None => match k with O => None | S k => longest m ip k end end) as -> by by destruct k.
  destruct (m !! masked (ip, Z.of_nat k)) as [p|] eqn:Hmk.
  - assert ((maskSelf ip (Z.of_nat k), Z.of_nat k, p) ∈ ents t) as He by (apply Hm; by destruct Hma).
    assert (pre n (maskSelf ip (Z.of_nat k)) (Z.of_nat k) = pre n ip (Z.of_nat k)) as Hp
      by (apply pre_maskSelf; done || (unfold width; lia)).
    rewrite Hl. destruct res as [[[b c] p']|]; [|by apply Hbest in He].
    destruct Hbest as (Hin & Hpre & Hge). pose proof (Hmax _ _ _ Hin Hpre). pose proof (Hge _ _ _ He Hp).
    assert (c = Z.of_nat k) as -> by lia. destruct (ents_below n Hn _ _ _ _ W Hin) as (Hb & Hc & Hmb & _).
    apply Hm in Hin as [_ Hin]. f_equal.
    assert (b = maskSelf ip (Z.of_nat k)) as -> by (rewrite <- Hmb; by apply (maskSelf_eq n Hn)).
    unfold masked in Hmk. cbn [fst snd] in Hmk. congruence.
  - assert (forall b c p, (b, c, p) ∈ ents t -> pre n b c = pre n ip c -> c <> Z.of_nat k) as Hne.
    { intros b c p Hin Hpre ->. destruct (ents_below n Hn _ _ _ _ W Hin) as (Hb & Hc & Hmb & _).
      apply Hm in Hin as [_ Hin]. unfold masked in Hmk. cbn [fst snd] in Hmk.
      replace (maskSelf ip (Z.of_nat k)) with b in Hmk by (rewrite <- Hmb; by apply (maskSelf_eq n Hn)). congruence. }
    destruct k as [|k].
    + rewrite Hl. destruct res as [[[b c] p']|]; [|done]. destruct Hbest as (Hin & Hpre & _).
      pose proof (Hmax _ _ _ Hin Hpre). pose proof (Hne _ _ _ Hin Hpre).
      destruct (ents_below n Hn _ _ _ _ W Hin) as (_ & ? & _). lia.
    + apply IH; [lia..|]. intros b c p Hin Hpre. pose proof (Hmax _ _ _ Hin Hpre). pose proof (Hne _ _ _ Hin Hpre). lia.
Qed.
End table.

(** C19: The allowed IPs. After any sequence of insertions, removals and removals
    of a peer, over both address families, an address is looked up to the peer
    of the longest inserted prefix that contains it, and a peer's list holds
    exactly its prefixes, each once. *)
Theorem allowed_ips_longest_prefix {Peer} `{Countable Peer} (ops : list op) :
  Forall op_ok ops ->
  let T := foldl do_op emptyTable ops in
  let m : gmap key Peer := foldl ref_op ∅ ops in
  (forall ip, addr 4 ip \/ addr 16 ip -> Lookup T ip = longest m ip (8 * length ip)) /\
  (forall p, NoDup (EntriesForPeer T p) /\ forall k, k ∈ EntriesForPeer T p <-> m !! k = Some p).
Proof.
  intros Hops T m. pose proof (run_ok ops _ _ empty_ok Hops) as HT. fold T m in HT. destruct HT as (H4 & H6 & HE & _).
  split; [|exact HE]. intros ip [Ha|Ha]; pose proof (proj1 Ha) as Hl; unfold Lookup; rewrite Hl; cbn [Nat.eqb].
  - apply (lookup_longest 4); try done; [by left|]. intros b c p Hin _. destruct H4 as [W _].
    destruct (ents_below 4 (or_introl eq_refl) _ _ _ _ W Hin) as (_ & Hc & _). unfold width in Hc. lia.
  - apply (lookup_longest 16); try done; [by right|]. intros b c p Hin _. destruct H6 as [W _].
    destruct (ents_below 16 (or_intror eq_refl) _ _ _ _ W Hin) as (_ & Hc & _). unfold width in Hc. lia.
Qed.
Definition sample_ops : list (@op Z) :=
  [OpInsert ([10; 1; 2; 3], 8) 1; OpInsert ([10; 1; 2; 3], 16) 2; OpInsert ([10; 200; 0; 0], 9) 3;
   OpInsert ([0; 0; 0; 0], 0) 4; OpInsert ([10; 1; 0; 0], 17) 2; OpRemove ([10; 1; 9; 9], 16) 2; OpRemoveByPeer 3].
Lemma allowed_ips_longest_prefix_witness :
  let T := foldl do_op emptyTable sample_ops in
  Lookup T [10; 1; 2; 3] = Some 2 /\ Lookup T [10; 1; 200; 3] = Some 1 /\
  Lookup T [10; 201; 0; 1] = Some 1 /\ Lookup T [11; 0; 0; 1] = Some 4 /\ NoDup (EntriesForPeer T 2).
Proof.
  assert (Forall op_ok sample_ops) as Hok.
  { repeat apply Forall_cons_2; try apply Forall_nil_2; cbn; try done;
      (split; [left; split; [done|repeat constructor; done]|cbn; lia]). }
  destruct (allowed_ips_longest_prefix sample_ops Hok) as [Hl HE].
  assert (forall a b c d, is_byte a -> is_byte b -> is_byte c -> is_byte d -> addr 4 [a; b; c; d]) as Ha
    by (intros; split; [done|]; repeat (apply Forall_cons_2; [done|]); apply Forall_nil_2).
  split_and!; try (rewrite Hl by (left; by apply Ha); by vm_compute). apply (HE 2).
Defined.
