(* ===== verification/WGState.v ===== *)
(** * wireguard-go/device: the state of a device

    The records of [noise-protocol.go] (Handshake), [keypair.go], [timers.go],
    [peer.go], [indextable.go] and [device.go], with the monad the operations run
    in. Pointers to peers and keypairs are numbers ([pid], [kid]) into two stores,
    so a keypair reached through the index table and through its peer is the same
    one; [&peer.handshake] is the handshake of that peer. A lock makes what it
    protects one step, and every operation here is a sequence of such steps run
    without interleaving; the clock does not move during an operation.

    The network is the interface [Bind] (package conn); what the operations send
    through it and write to the TUN device is recorded in [sent] and
    [tun_written]. Random bytes come from [entropy], one call after the other. *)
From S2P Require Import Prelude GoStrings GoNet GoBytes WGCrypto WGCookie.
From S2P Require Replay RateLimiter AllowedIPs.
Open Scope Z_scope.

(** ** The network interface *)
Class Bind := {
  Endpoint : Type;
  BindState : Type;
  (** the receive functions of the new sockets are left out; the result is the port *)
  Bind_Open : Z -> BindState -> BindState * result Z;
  Bind_Close : BindState -> BindState * option error;
  Bind_SetMark : Z -> BindState -> BindState * option error;
  Bind_Send : list (list Z) -> Endpoint -> BindState -> BindState * option error;
  startRouteListener : BindState -> BindState * option error;
  ParseEndpoint : string -> result Endpoint;
  DstToString : Endpoint -> string;
  DstToBytes : Endpoint -> list Z;
  DstIP : Endpoint -> list Z;
  ClearSrc : Endpoint -> Endpoint }.

(** ** Constants (constants.go, queueconstants_default.go) *)
Definition second : Z := 1000000000.
Definition RekeyAfterMessages : Z := 2 ^ 60.
Definition RejectAfterMessages : Z := 2 ^ 64 - 2 ^ 13 - 1.
Definition RekeyAfterTime : Z := 120 * second.
Definition RekeyTimeout : Z := 5 * second.
Definition MaxTimerHandshakes : Z := 90 / 5.
Definition RekeyTimeoutJitterMaxMs : Z := 334.
Definition RejectAfterTime : Z := 180 * second.
Definition KeepaliveTimeout : Z := 10 * second.
Definition HandshakeInitationRate : Z := second / 50.
Definition PaddingMultiple : Z := 16.
Definition UnderLoadAfterTime : Z := second.
Definition MaxPeers : nat := 65536.
Definition QueueStagedSize : nat := 128.
Definition QueueHandshakeSize : nat := 1024.
Definition MinMessageSize : nat := MessageKeepaliveSize.

(** ** Data *)
Definition pid := positive.
Definition kid := positive.

Inductive handshakeState :=
| handshakeZeroed | handshakeInitiationCreated | handshakeInitiationConsumed
| handshakeResponseCreated | handshakeResponseConsumed.
#[export] Instance handshakeState_eq_dec : EqDecision handshakeState.
Proof. solve_decision. Defined.
Inductive deviceState := deviceStateDown | deviceStateUp | deviceStateClosed.
#[export] Instance deviceState_eq_dec : EqDecision deviceState.
Proof. solve_decision. Defined.

Record Handshake := mkHandshake {
  hs_state : handshakeState;
  hs_hash : list Z;
  hs_chainKey : list Z;
  hs_presharedKey : list Z;
  hs_localEphemeral : list Z;
  hs_localIndex : Z;
  hs_remoteIndex : Z;
  hs_remoteStatic : list Z;
  hs_remoteEphemeral : list Z;
  hs_precomputedStaticStatic : list Z;
  hs_lastTimestamp : list Z;
  hs_lastInitiationConsumption : Z;
  hs_lastSentHandshake : Z }.
Definition set_hs_state (v : handshakeState) (r : Handshake) : Handshake :=
  mkHandshake v (hs_hash r) (hs_chainKey r) (hs_presharedKey r) (hs_localEphemeral r) (hs_localIndex r) (hs_remoteIndex r) (hs_remoteStatic r) (hs_remoteEphemeral r) (hs_precomputedStaticStatic r) (hs_lastTimestamp r) (hs_lastInitiationConsumption r) (hs_lastSentHandshake r).
Definition set_hs_hash (v : list Z) (r : Handshake) : Handshake :=
  mkHandshake (hs_state r) v (hs_chainKey r) (hs_presharedKey r) (hs_localEphemeral r) (hs_localIndex r) (hs_remoteIndex r) (hs_remoteStatic r) (hs_remoteEphemeral r) (hs_precomputedStaticStatic r) (hs_lastTimestamp r) (hs_lastInitiationConsumption r) (hs_lastSentHandshake r).
Definition set_hs_chainKey (v : list Z) (r : Handshake) : Handshake :=
  mkHandshake (hs_state r) (hs_hash r) v (hs_presharedKey r) (hs_localEphemeral r) (hs_localIndex r) (hs_remoteIndex r) (hs_remoteStatic r) (hs_remoteEphemeral r) (hs_precomputedStaticStatic r) (hs_lastTimestamp r) (hs_lastInitiationConsumption r) (hs_lastSentHandshake r).
Definition set_hs_presharedKey (v : list Z) (r : Handshake) : Handshake :=
  mkHandshake (hs_state r) (hs_hash r) (hs_chainKey r) v (hs_localEphemeral r) (hs_localIndex r) (hs_remoteIndex r) (hs_remoteStatic r) (hs_remoteEphemeral r) (hs_precomputedStaticStatic r) (hs_lastTimestamp r) (hs_lastInitiationConsumption r) (hs_lastSentHandshake r).
Definition set_hs_localEphemeral (v : list Z) (r : Handshake) : Handshake :=
  mkHandshake (hs_state r) (hs_hash r) (hs_chainKey r) (hs_presharedKey r) v (hs_localIndex r) (hs_remoteIndex r) (hs_remoteStatic r) (hs_remoteEphemeral r) (hs_precomputedStaticStatic r) (hs_lastTimestamp r) (hs_lastInitiationConsumption r) (hs_lastSentHandshake r).
Definition set_hs_localIndex (v : Z) (r : Handshake) : Handshake :=
  mkHandshake (hs_state r) (hs_hash r) (hs_chainKey r) (hs_presharedKey r) (hs_localEphemeral r) v (hs_remoteIndex r) (hs_remoteStatic r) (hs_remoteEphemeral r) (hs_precomputedStaticStatic r) (hs_lastTimestamp r) (hs_lastInitiationConsumption r) (hs_lastSentHandshake r).
Definition set_hs_remoteIndex (v : Z) (r : Handshake) : Handshake :=
  mkHandshake (hs_state r) (hs_hash r) (hs_chainKey r) (hs_presharedKey r) (hs_localEphemeral r) (hs_localIndex r) v (hs_remoteStatic r) (hs_remoteEphemeral r) (hs_precomputedStaticStatic r) (hs_lastTimestamp r) (hs_lastInitiationConsumption r) (hs_lastSentHandshake r).
Definition set_hs_remoteStatic (v : list Z) (r : Handshake) : Handshake :=
  mkHandshake (hs_state r) (hs_hash r) (hs_chainKey r) (hs_presharedKey r) (hs_localEphemeral r) (hs_localIndex r) (hs_remoteIndex r) v (hs_remoteEphemeral r) (hs_precomputedStaticStatic r) (hs_lastTimestamp r) (hs_lastInitiationConsumption r) (hs_lastSentHandshake r).
Definition set_hs_remoteEphemeral (v : list Z) (r : Handshake) : Handshake :=
  mkHandshake (hs_state r) (hs_hash r) (hs_chainKey r) (hs_presharedKey r) (hs_localEphemeral r) (hs_localIndex r) (hs_remoteIndex r) (hs_remoteStatic r) v (hs_precomputedStaticStatic r) (hs_lastTimestamp r) (hs_lastInitiationConsumption r) (hs_lastSentHandshake r).
Definition set_hs_precomputedStaticStatic (v : list Z) (r : Handshake) : Handshake :=
  mkHandshake (hs_state r) (hs_hash r) (hs_chainKey r) (hs_presharedKey r) (hs_localEphemeral r) (hs_localIndex r) (hs_remoteIndex r) (hs_remoteStatic r) (hs_remoteEphemeral r) v (hs_lastTimestamp r) (hs_lastInitiationConsumption r) (hs_lastSentHandshake r).
Definition set_hs_lastTimestamp (v : list Z) (r : Handshake) : Handshake :=
  mkHandshake (hs_state r) (hs_hash r) (hs_chainKey r) (hs_presharedKey r) (hs_localEphemeral r) (hs_localIndex r) (hs_remoteIndex r) (hs_remoteStatic r) (hs_remoteEphemeral r) (hs_precomputedStaticStatic r) v (hs_lastInitiationConsumption r) (hs_lastSentHandshake r).
Definition set_hs_lastInitiationConsumption (v : Z) (r : Handshake) : Handshake :=
  mkHandshake (hs_state r) (hs_hash r) (hs_chainKey r) (hs_presharedKey r) (hs_localEphemeral r) (hs_localIndex r) (hs_remoteIndex r) (hs_remoteStatic r) (hs_remoteEphemeral r) (hs_precomputedStaticStatic r) (hs_lastTimestamp r) v (hs_lastSentHandshake r).
Definition set_hs_lastSentHandshake (v : Z) (r : Handshake) : Handshake :=
  mkHandshake (hs_state r) (hs_hash r) (hs_chainKey r) (hs_presharedKey r) (hs_localEphemeral r) (hs_localIndex r) (hs_remoteIndex r) (hs_remoteStatic r) (hs_remoteEphemeral r) (hs_precomputedStaticStatic r) (hs_lastTimestamp r) (hs_lastInitiationConsumption r) v.

Record Keypair := mkKeypair {
  sendNonce : Z;
  send_key : list Z;
  receive_key : list Z;
  replayFilter : Replay.Filter;
  isInitiator : bool;
  created : Z;
  kp_localIndex : Z;
  kp_remoteIndex : Z }.
Definition set_sendNonce (v : Z) (r : Keypair) : Keypair :=
  mkKeypair v (send_key r) (receive_key r) (replayFilter r) (isInitiator r) (created r) (kp_localIndex r) (kp_remoteIndex r).
Definition set_send_key (v : list Z) (r : Keypair) : Keypair :=
  mkKeypair (sendNonce r) v (receive_key r) (replayFilter r) (isInitiator r) (created r) (kp_localIndex r) (kp_remoteIndex r).
Definition set_receive_key (v : list Z) (r : Keypair) : Keypair :=
  mkKeypair (sendNonce r) (send_key r) v (replayFilter r) (isInitiator r) (created r) (kp_localIndex r) (kp_remoteIndex r).
Definition set_replayFilter (v : Replay.Filter) (r : Keypair) : Keypair :=
  mkKeypair (sendNonce r) (send_key r) (receive_key r) v (isInitiator r) (created r) (kp_localIndex r) (kp_remoteIndex r).
Definition set_isInitiator (v : bool) (r : Keypair) : Keypair :=
  mkKeypair (sendNonce r) (send_key r) (receive_key r) (replayFilter r) v (created r) (kp_localIndex r) (kp_remoteIndex r).
Definition set_created (v : Z) (r : Keypair) : Keypair :=
  mkKeypair (sendNonce r) (send_key r) (receive_key r) (replayFilter r) (isInitiator r) v (kp_localIndex r) (kp_remoteIndex r).
Definition set_kp_localIndex (v : Z) (r : Keypair) : Keypair :=
  mkKeypair (sendNonce r) (send_key r) (receive_key r) (replayFilter r) (isInitiator r) (created r) v (kp_remoteIndex r).
Definition set_kp_remoteIndex (v : Z) (r : Keypair) : Keypair :=
  mkKeypair (sendNonce r) (send_key r) (receive_key r) (replayFilter r) (isInitiator r) (created r) (kp_localIndex r) v.

Record Keypairs := mkKeypairs {
  current : option kid;
  previous : option kid;
  next : option kid }.
Definition set_current (v : option kid) (r : Keypairs) : Keypairs :=
  mkKeypairs v (previous r) (next r).
Definition set_previous (v : option kid) (r : Keypairs) : Keypairs :=
  mkKeypairs (current r) v (next r).
Definition set_next (v : option kid) (r : Keypairs) : Keypairs :=
  mkKeypairs (current r) (previous r) v.

(** A timer that is pending, with the time it fires at. *)
Definition Timer := option Z.
Record Timers := mkTimers {
  retransmitHandshake : Timer;
  sendKeepalive : Timer;
  newHandshake : Timer;
  zeroKeyMaterial : Timer;
  persistentKeepalive : Timer;
  handshakeAttempts : Z;
  needAnotherKeepalive : bool;
  sentLastMinuteHandshake : bool }.
Definition set_retransmitHandshake (v : Timer) (r : Timers) : Timers :=
  mkTimers v (sendKeepalive r) (newHandshake r) (zeroKeyMaterial r) (persistentKeepalive r) (handshakeAttempts r) (needAnotherKeepalive r) (sentLastMinuteHandshake r).
Definition set_sendKeepalive (v : Timer) (r : Timers) : Timers :=
  mkTimers (retransmitHandshake r) v (newHandshake r) (zeroKeyMaterial r) (persistentKeepalive r) (handshakeAttempts r) (needAnotherKeepalive r) (sentLastMinuteHandshake r).
Definition set_newHandshake (v : Timer) (r : Timers) : Timers :=
  mkTimers (retransmitHandshake r) (sendKeepalive r) v (zeroKeyMaterial r) (persistentKeepalive r) (handshakeAttempts r) (needAnotherKeepalive r) (sentLastMinuteHandshake r).
Definition set_zeroKeyMaterial (v : Timer) (r : Timers) : Timers :=
  mkTimers (retransmitHandshake r) (sendKeepalive r) (newHandshake r) v (persistentKeepalive r) (handshakeAttempts r) (needAnotherKeepalive r) (sentLastMinuteHandshake r).
Definition set_persistentKeepalive (v : Timer) (r : Timers) : Timers :=
  mkTimers (retransmitHandshake r) (sendKeepalive r) (newHandshake r) (zeroKeyMaterial r) v (handshakeAttempts r) (needAnotherKeepalive r) (sentLastMinuteHandshake r).
Definition set_handshakeAttempts (v : Z) (r : Timers) : Timers :=
  mkTimers (retransmitHandshake r) (sendKeepalive r) (newHandshake r) (zeroKeyMaterial r) (persistentKeepalive r) v (needAnotherKeepalive r) (sentLastMinuteHandshake r).
Definition set_needAnotherKeepalive (v : bool) (r : Timers) : Timers :=
  mkTimers (retransmitHandshake r) (sendKeepalive r) (newHandshake r) (zeroKeyMaterial r) (persistentKeepalive r) (handshakeAttempts r) v (sentLastMinuteHandshake r).
Definition set_sentLastMinuteHandshake (v : bool) (r : Timers) : Timers :=
  mkTimers (retransmitHandshake r) (sendKeepalive r) (newHandshake r) (zeroKeyMaterial r) (persistentKeepalive r) (handshakeAttempts r) (needAnotherKeepalive r) v.

Record IndexTableEntry := mkIndexEntry {
  ie_peer : pid; ie_handshake : option pid; ie_keypair : option kid }.
Record OutboundElement := mkOutbound {
  oe_packet : list Z; oe_nonce : Z; oe_keypair : kid }.

(** [Handshake.Clear] *)
Definition Handshake_Clear (h : Handshake) : Handshake :=
  set_hs_state handshakeZeroed (set_hs_localIndex 0 (set_hs_hash (zeros 32) (set_hs_chainKey (zeros 32)
    (set_hs_remoteEphemeral (zeros 32) (set_hs_localEphemeral (zeros 32) h))))).
Definition zeroHandshake : Handshake :=
  mkHandshake handshakeZeroed (zeros 32) (zeros 32) (zeros 32) (zeros 32) 0 0 (zeros 32) (zeros 32) (zeros 32)
    (zeros 12) zeroTime zeroTime.
Definition zeroTimers : Timers := mkTimers None None None None None 0 false false.
Definition zeroCookieGenerator : CookieGenerator :=
  mkCookieGenerator (zeros 32) (zeros 16) zeroTime false (zeros 16) (zeros 32).
Definition zeroCookieChecker : CookieChecker :=
  mkCookieChecker (zeros 32) (zeros 32) zeroTime (zeros 32).

Section state.
Context {BI : Bind}.

Record Peer := mkPeer {
  isRunning : bool;
  keypairs : Keypairs;
  handshake : Handshake;
  txBytes : Z;
  rxBytes : Z;
  lastHandshakeNano : Z;
  endpoint_val : option Endpoint;
  clearSrcOnTx : bool;
  disableRoaming : bool;
  timers : Timers;
  staged : list (list (list Z));
  cookieGenerator : CookieGenerator;
  persistentKeepaliveInterval : Z }.
Definition set_isRunning (v : bool) (r : Peer) : Peer :=
  mkPeer v (keypairs r) (handshake r) (txBytes r) (rxBytes r) (lastHandshakeNano r) (endpoint_val r) (clearSrcOnTx r) (disableRoaming r) (timers r) (staged r) (cookieGenerator r) (persistentKeepaliveInterval r).
Definition set_keypairs (v : Keypairs) (r : Peer) : Peer :=
  mkPeer (isRunning r) v (handshake r) (txBytes r) (rxBytes r) (lastHandshakeNano r) (endpoint_val r) (clearSrcOnTx r) (disableRoaming r) (timers r) (staged r) (cookieGenerator r) (persistentKeepaliveInterval r).
Definition set_handshake (v : Handshake) (r : Peer) : Peer :=
  mkPeer (isRunning r) (keypairs r) v (txBytes r) (rxBytes r) (lastHandshakeNano r) (endpoint_val r) (clearSrcOnTx r) (disableRoaming r) (timers r) (staged r) (cookieGenerator r) (persistentKeepaliveInterval r).
Definition set_txBytes (v : Z) (r : Peer) : Peer :=
  mkPeer (isRunning r) (keypairs r) (handshake r) v (rxBytes r) (lastHandshakeNano r) (endpoint_val r) (clearSrcOnTx r) (disableRoaming r) (timers r) (staged r) (cookieGenerator r) (persistentKeepaliveInterval r).
Definition set_rxBytes (v : Z) (r : Peer) : Peer :=
  mkPeer (isRunning r) (keypairs r) (handshake r) (txBytes r) v (lastHandshakeNano r) (endpoint_val r) (clearSrcOnTx r) (disableRoaming r) (timers r) (staged r) (cookieGenerator r) (persistentKeepaliveInterval r).
Definition set_lastHandshakeNano (v : Z) (r : Peer) : Peer :=
  mkPeer (isRunning r) (keypairs r) (handshake r) (txBytes r) (rxBytes r) v (endpoint_val r) (clearSrcOnTx r) (disableRoaming r) (timers r) (staged r) (cookieGenerator r) (persistentKeepaliveInterval r).
Definition set_endpoint_val (v : option Endpoint) (r : Peer) : Peer :=
  mkPeer (isRunning r) (keypairs r) (handshake r) (txBytes r) (rxBytes r) (lastHandshakeNano r) v (clearSrcOnTx r) (disableRoaming r) (timers r) (staged r) (cookieGenerator r) (persistentKeepaliveInterval r).
Definition set_clearSrcOnTx (v : bool) (r : Peer) : Peer :=
  mkPeer (isRunning r) (keypairs r) (handshake r) (txBytes r) (rxBytes r) (lastHandshakeNano r) (endpoint_val r) v (disableRoaming r) (timers r) (staged r) (cookieGenerator r) (persistentKeepaliveInterval r).
Definition set_disableRoaming (v : bool) (r : Peer) : Peer :=
  mkPeer (isRunning r) (keypairs r) (handshake r) (txBytes r) (rxBytes r) (lastHandshakeNano r) (endpoint_val r) (clearSrcOnTx r) v (timers r) (staged r) (cookieGenerator r) (persistentKeepaliveInterval r).
Definition set_timers (v : Timers) (r : Peer) : Peer :=
  mkPeer (isRunning r) (keypairs r) (handshake r) (txBytes r) (rxBytes r) (lastHandshakeNano r) (endpoint_val r) (clearSrcOnTx r) (disableRoaming r) v (staged r) (cookieGenerator r) (persistentKeepaliveInterval r).
Definition set_staged (v : list (list (list Z))) (r : Peer) : Peer :=
  mkPeer (isRunning r) (keypairs r) (handshake r) (txBytes r) (rxBytes r) (lastHandshakeNano r) (endpoint_val r) (clearSrcOnTx r) (disableRoaming r) (timers r) v (cookieGenerator r) (persistentKeepaliveInterval r).
Definition set_cookieGenerator (v : CookieGenerator) (r : Peer) : Peer :=
  mkPeer (isRunning r) (keypairs r) (handshake r) (txBytes r) (rxBytes r) (lastHandshakeNano r) (endpoint_val r) (clearSrcOnTx r) (disableRoaming r) (timers r) (staged r) v (persistentKeepaliveInterval r).
Definition set_persistentKeepaliveInterval (v : Z) (r : Peer) : Peer :=
  mkPeer (isRunning r) (keypairs r) (handshake r) (txBytes r) (rxBytes r) (lastHandshakeNano r) (endpoint_val r) (clearSrcOnTx r) (disableRoaming r) (timers r) (staged r) (cookieGenerator r) v.

Record QueueHandshakeElement := mkHandshakeElement {
  he_msgType : Z; he_packet : list Z; he_endpoint : Endpoint }.
Record InboundElement := mkInbound { ib_packet : list Z; ib_keypair : kid; ib_endpoint : Endpoint }.
Record Device := mkDevice {
  state : deviceState;
  bind_state : BindState;
  net_port : Z;
  net_fwmark : Z;
  brokenRoaming : bool;
  dev_privateKey : list Z;
  dev_publicKey : list Z;
  keyMap : gmap (list Z) pid;
  peers : gmap pid Peer;
  keypair_store : gmap kid Keypair;
  allowedips : AllowedIPs.AllowedIPs pid;
  indexTable : gmap Z IndexTableEntry;
  cookieChecker : CookieChecker;
  underLoadUntil : Z;
  limiter : RateLimiter.Ratelimiter;
  tun_mtu : Z;
  handshake_queue : list QueueHandshakeElement;
  outbound : list (pid * list OutboundElement);
  inbound : list (pid * list InboundElement);
  sent : list (list Z * Endpoint);
  tun_written : list (list Z);
  clock : Z;
  rnd : nat }.
Definition set_state (v : deviceState) (r : Device) : Device :=
  mkDevice v (bind_state r) (net_port r) (net_fwmark r) (brokenRoaming r) (dev_privateKey r) (dev_publicKey r) (keyMap r) (peers r) (keypair_store r) (allowedips r) (indexTable r) (cookieChecker r) (underLoadUntil r) (limiter r) (tun_mtu r) (handshake_queue r) (outbound r) (inbound r) (sent r) (tun_written r) (clock r) (rnd r).
Definition set_bind_state (v : BindState) (r : Device) : Device :=
  mkDevice (state r) v (net_port r) (net_fwmark r) (brokenRoaming r) (dev_privateKey r) (dev_publicKey r) (keyMap r) (peers r) (keypair_store r) (allowedips r) (indexTable r) (cookieChecker r) (underLoadUntil r) (limiter r) (tun_mtu r) (handshake_queue r) (outbound r) (inbound r) (sent r) (tun_written r) (clock r) (rnd r).
Definition set_net_port (v : Z) (r : Device) : Device :=
  mkDevice (state r) (bind_state r) v (net_fwmark r) (brokenRoaming r) (dev_privateKey r) (dev_publicKey r) (keyMap r) (peers r) (keypair_store r) (allowedips r) (indexTable r) (cookieChecker r) (underLoadUntil r) (limiter r) (tun_mtu r) (handshake_queue r) (outbound r) (inbound r) (sent r) (tun_written r) (clock r) (rnd r).
Definition set_net_fwmark (v : Z) (r : Device) : Device :=
  mkDevice (state r) (bind_state r) (net_port r) v (brokenRoaming r) (dev_privateKey r) (dev_publicKey r) (keyMap r) (peers r) (keypair_store r) (allowedips r) (indexTable r) (cookieChecker r) (underLoadUntil r) (limiter r) (tun_mtu r) (handshake_queue r) (outbound r) (inbound r) (sent r) (tun_written r) (clock r) (rnd r).
Definition set_brokenRoaming (v : bool) (r : Device) : Device :=
  mkDevice (state r) (bind_state r) (net_port r) (net_fwmark r) v (dev_privateKey r) (dev_publicKey r) (keyMap r) (peers r) (keypair_store r) (allowedips r) (indexTable r) (cookieChecker r) (underLoadUntil r) (limiter r) (tun_mtu r) (handshake_queue r) (outbound r) (inbound r) (sent r) (tun_written r) (clock r) (rnd r).
Definition set_dev_privateKey (v : list Z) (r : Device) : Device :=
  mkDevice (state r) (bind_state r) (net_port r) (net_fwmark r) (brokenRoaming r) v (dev_publicKey r) (keyMap r) (peers r) (keypair_store r) (allowedips r) (indexTable r) (cookieChecker r) (underLoadUntil r) (limiter r) (tun_mtu r) (handshake_queue r) (outbound r) (inbound r) (sent r) (tun_written r) (clock r) (rnd r).
Definition set_dev_publicKey (v : list Z) (r : Device) : Device :=
  mkDevice (state r) (bind_state r) (net_port r) (net_fwmark r) (brokenRoaming r) (dev_privateKey r) v (keyMap r) (peers r) (keypair_store r) (allowedips r) (indexTable r) (cookieChecker r) (underLoadUntil r) (limiter r) (tun_mtu r) (handshake_queue r) (outbound r) (inbound r) (sent r) (tun_written r) (clock r) (rnd r).
Definition set_keyMap (v : gmap (list Z) pid) (r : Device) : Device :=
  mkDevice (state r) (bind_state r) (net_port r) (net_fwmark r) (brokenRoaming r) (dev_privateKey r) (dev_publicKey r) v (peers r) (keypair_store r) (allowedips r) (indexTable r) (cookieChecker r) (underLoadUntil r) (limiter r) (tun_mtu r) (handshake_queue r) (outbound r) (inbound r) (sent r) (tun_written r) (clock r) (rnd r).
Definition set_peers (v : gmap pid Peer) (r : Device) : Device :=
  mkDevice (state r) (bind_state r) (net_port r) (net_fwmark r) (brokenRoaming r) (dev_privateKey r) (dev_publicKey r) (keyMap r) v (keypair_store r) (allowedips r) (indexTable r) (cookieChecker r) (underLoadUntil r) (limiter r) (tun_mtu r) (handshake_queue r) (outbound r) (inbound r) (sent r) (tun_written r) (clock r) (rnd r).
Definition set_keypair_store (v : gmap kid Keypair) (r : Device) : Device :=
  mkDevice (state r) (bind_state r) (net_port r) (net_fwmark r) (brokenRoaming r) (dev_privateKey r) (dev_publicKey r) (keyMap r) (peers r) v (allowedips r) (indexTable r) (cookieChecker r) (underLoadUntil r) (limiter r) (tun_mtu r) (handshake_queue r) (outbound r) (inbound r) (sent r) (tun_written r) (clock r) (rnd r).
Definition set_allowedips (v : AllowedIPs.AllowedIPs pid) (r : Device) : Device :=
  mkDevice (state r) (bind_state r) (net_port r) (net_fwmark r) (brokenRoaming r) (dev_privateKey r) (dev_publicKey r) (keyMap r) (peers r) (keypair_store r) v (indexTable r) (cookieChecker r) (underLoadUntil r) (limiter r) (tun_mtu r) (handshake_queue r) (outbound r) (inbound r) (sent r) (tun_written r) (clock r) (rnd r).
Definition set_indexTable (v : gmap Z IndexTableEntry) (r : Device) : Device :=
  mkDevice (state r) (bind_state r) (net_port r) (net_fwmark r) (brokenRoaming r) (dev_privateKey r) (dev_publicKey r) (keyMap r) (peers r) (keypair_store r) (allowedips r) v (cookieChecker r) (underLoadUntil r) (limiter r) (tun_mtu r) (handshake_queue r) (outbound r) (inbound r) (sent r) (tun_written r) (clock r) (rnd r).
Definition set_cookieChecker (v : CookieChecker) (r : Device) : Device :=
  mkDevice (state r) (bind_state r) (net_port r) (net_fwmark r) (brokenRoaming r) (dev_privateKey r) (dev_publicKey r) (keyMap r) (peers r) (keypair_store r) (allowedips r) (indexTable r) v (underLoadUntil r) (limiter r) (tun_mtu r) (handshake_queue r) (outbound r) (inbound r) (sent r) (tun_written r) (clock r) (rnd r).
Definition set_underLoadUntil (v : Z) (r : Device) : Device :=
  mkDevice (state r) (bind_state r) (net_port r) (net_fwmark r) (brokenRoaming r) (dev_privateKey r) (dev_publicKey r) (keyMap r) (peers r) (keypair_store r) (allowedips r) (indexTable r) (cookieChecker r) v (limiter r) (tun_mtu r) (handshake_queue r) (outbound r) (inbound r) (sent r) (tun_written r) (clock r) (rnd r).
Definition set_limiter (v : RateLimiter.Ratelimiter) (r : Device) : Device :=
  mkDevice (state r) (bind_state r) (net_port r) (net_fwmark r) (brokenRoaming r) (dev_privateKey r) (dev_publicKey r) (keyMap r) (peers r) (keypair_store r) (allowedips r) (indexTable r) (cookieChecker r) (underLoadUntil r) v (tun_mtu r) (handshake_queue r) (outbound r) (inbound r) (sent r) (tun_written r) (clock r) (rnd r).
Definition set_tun_mtu (v : Z) (r : Device) : Device :=
  mkDevice (state r) (bind_state r) (net_port r) (net_fwmark r) (brokenRoaming r) (dev_privateKey r) (dev_publicKey r) (keyMap r) (peers r) (keypair_store r) (allowedips r) (indexTable r) (cookieChecker r) (underLoadUntil r) (limiter r) v (handshake_queue r) (outbound r) (inbound r) (sent r) (tun_written r) (clock r) (rnd r).
Definition set_handshake_queue (v : list QueueHandshakeElement) (r : Device) : Device :=
  mkDevice (state r) (bind_state r) (net_port r) (net_fwmark r) (brokenRoaming r) (dev_privateKey r) (dev_publicKey r) (keyMap r) (peers r) (keypair_store r) (allowedips r) (indexTable r) (cookieChecker r) (underLoadUntil r) (limiter r) (tun_mtu r) v (outbound r) (inbound r) (sent r) (tun_written r) (clock r) (rnd r).
Definition set_outbound (v : list (pid * list OutboundElement)) (r : Device) : Device :=
  mkDevice (state r) (bind_state r) (net_port r) (net_fwmark r) (brokenRoaming r) (dev_privateKey r) (dev_publicKey r) (keyMap r) (peers r) (keypair_store r) (allowedips r) (indexTable r) (cookieChecker r) (underLoadUntil r) (limiter r) (tun_mtu r) (handshake_queue r) v (inbound r) (sent r) (tun_written r) (clock r) (rnd r).
Definition set_inbound (v : list (pid * list InboundElement)) (r : Device) : Device :=
  mkDevice (state r) (bind_state r) (net_port r) (net_fwmark r) (brokenRoaming r) (dev_privateKey r) (dev_publicKey r) (keyMap r) (peers r) (keypair_store r) (allowedips r) (indexTable r) (cookieChecker r) (underLoadUntil r) (limiter r) (tun_mtu r) (handshake_queue r) (outbound r) v (sent r) (tun_written r) (clock r) (rnd r).
Definition set_sent (v : list (list Z * Endpoint)) (r : Device) : Device :=
  mkDevice (state r) (bind_state r) (net_port r) (net_fwmark r) (brokenRoaming r) (dev_privateKey r) (dev_publicKey r) (keyMap r) (peers r) (keypair_store r) (allowedips r) (indexTable r) (cookieChecker r) (underLoadUntil r) (limiter r) (tun_mtu r) (handshake_queue r) (outbound r) (inbound r) v (tun_written r) (clock r) (rnd r).
Definition set_tun_written (v : list (list Z)) (r : Device) : Device :=
  mkDevice (state r) (bind_state r) (net_port r) (net_fwmark r) (brokenRoaming r) (dev_privateKey r) (dev_publicKey r) (keyMap r) (peers r) (keypair_store r) (allowedips r) (indexTable r) (cookieChecker r) (underLoadUntil r) (limiter r) (tun_mtu r) (handshake_queue r) (outbound r) (inbound r) (sent r) v (clock r) (rnd r).
Definition set_clock (v : Z) (r : Device) : Device :=
  mkDevice (state r) (bind_state r) (net_port r) (net_fwmark r) (brokenRoaming r) (dev_privateKey r) (dev_publicKey r) (keyMap r) (peers r) (keypair_store r) (allowedips r) (indexTable r) (cookieChecker r) (underLoadUntil r) (limiter r) (tun_mtu r) (handshake_queue r) (outbound r) (inbound r) (sent r) (tun_written r) v (rnd r).
Definition set_rnd (v : nat) (r : Device) : Device :=
  mkDevice (state r) (bind_state r) (net_port r) (net_fwmark r) (brokenRoaming r) (dev_privateKey r) (dev_publicKey r) (keyMap r) (peers r) (keypair_store r) (allowedips r) (indexTable r) (cookieChecker r) (underLoadUntil r) (limiter r) (tun_mtu r) (handshake_queue r) (outbound r) (inbound r) (sent r) (tun_written r) (clock r) v.

Definition zeroPeer : Peer :=
  mkPeer false (mkKeypairs None None None) zeroHandshake 0 0 0 None false false zeroTimers [] zeroCookieGenerator 0.

(** ** The monad: [None] is an operation that does not come to an end *)
Definition M (A : Type) : Type := Device -> option (A * Device).
#[export] Instance M_ret : MRet M := fun A a d => Some (a, d).
#[export] Instance M_bind : MBind M :=
  fun A B f m d => match m d with Some (a, d) => f a d | None => None end.
#[export] Instance M_fmap : FMap M :=
  fun A B f m d => match m d with Some (a, d) => Some (f a, d) | None => None end.
Definition gets {A} (f : Device -> A) : M A := fun d => Some (f d, d).
Definition modify (f : Device -> Device) : M unit := fun d => Some (tt, f d).
Definition unless (b : bool) (m : M unit) : M unit := if b then mret tt else m.
Definition when (b : bool) (m : M unit) : M unit := if b then m else mret tt.
(** A loop over a list fixed before it starts. *)
Fixpoint forM {A} (l : list A) (f : A -> M unit) : M unit :=
  match l with [] => mret tt | x :: l => _ ← f x; forM l f end.

(** Following a pointer; the stores keep every object ever made. *)
Definition get_peer (p : pid) : M Peer :=
  fun d => match peers d !! p with Some x => Some (x, d) | None => None end.
Definition modify_peer (p : pid) (f : Peer -> Peer) : M unit :=
  modify (fun d => set_peers (alter f p (peers d)) d).
Definition get_keypair (k : kid) : M Keypair :=
  fun d => match keypair_store d !! k with Some x => Some (x, d) | None => None end.
Definition modify_keypair (k : kid) (f : Keypair -> Keypair) : M unit :=
  modify (fun d => set_keypair_store (alter f k (keypair_store d)) d).
Definition on_handshake (f : Handshake -> Handshake) (x : Peer) : Peer := set_handshake (f (handshake x)) x.
Definition on_keypairs (f : Keypairs -> Keypairs) (x : Peer) : Peer := set_keypairs (f (keypairs x)) x.
Definition on_timers (f : Timers -> Timers) (x : Peer) : Peer := set_timers (f (timers x)) x.

(** ** Random numbers *)
Context (entropy : nat -> list Z * option error).
Definition rand_Read : M (list Z * option error) :=
  fun d => Some (entropy (rnd d), set_rnd (S (rnd d)) d).
(** [runtime.fastrandn] *)
Definition fastrandn (n : Z) : M Z :=
  r ← rand_Read; mret (le_val (take 4 r.1) mod n).
(** [randUint32] *)
Definition randUint32 : M (Z * option error) :=
  r ← rand_Read; mret (le_val (take 4 r.1), r.2).

(** ** The state of the device *)
Definition isClosed : M bool := gets (fun d => bool_decide (state d = deviceStateClosed)).
Definition isUp : M bool := gets (fun d => bool_decide (state d = deviceStateUp)).
Definition since (t : Z) : M Z := gets (fun d => time_Since (clock d) t).

(** ** The index table (indextable.go) *)
Definition IndexTable_Delete (index : Z) : M unit :=
  modify (fun d => set_indexTable (delete index (indexTable d)) d).
Definition SwapIndexForKeypair (index : Z) (keypair : kid) : M unit :=
  modify (fun d =>
    match indexTable d !! index with
    | None => d
    | Some entry => set_indexTable (<[index := mkIndexEntry (ie_peer entry) None (Some keypair)]> (indexTable d)) d
    end).
(** The loop draws until an index is free; [draws] bounds the number of draws
    looked at. *)
Fixpoint NewIndexForHandshake (draws : nat) (peer : pid) : M (Z * option error) :=
  match draws with
  | O => fun _ => None
  | S draws =>
      r ← randUint32;
      match r.2 with
      | Some err => mret r
      | None =>
          used ← gets (fun d => bool_decide (is_Some (indexTable d !! r.1)));
          if used : bool then NewIndexForHandshake draws peer
          else
            _ ← modify (fun d => set_indexTable (<[r.1 := mkIndexEntry peer (Some peer) None]> (indexTable d)) d);
            mret (r.1, None)
      end
  end.
Definition IndexTable_Lookup (id : Z) : M (option IndexTableEntry) := gets (fun d => indexTable d !! id).

(** ** Keypairs (keypair.go) *)
Definition DeleteKeypair (key : option kid) : M unit :=
  match key with
  | None => mret tt
  | Some k => kp ← get_keypair k; IndexTable_Delete (kp_localIndex kp)
  end.
Definition Keypairs_Current (p : pid) : M (option kid) := x ← get_peer p; mret (current (keypairs x)).
End state.

(** ** Reading a field of an updated record *)
Ltac is_setter s :=
  lazymatch s with
  | set_hs_state => idtac
  | set_hs_hash => idtac
  | set_hs_chainKey => idtac
  | set_hs_presharedKey => idtac
  | set_hs_localEphemeral => idtac
  | set_hs_localIndex => idtac
  | set_hs_remoteIndex => idtac
  | set_hs_remoteStatic => idtac
  | set_hs_remoteEphemeral => idtac
  | set_hs_precomputedStaticStatic => idtac
  | set_hs_lastTimestamp => idtac
  | set_hs_lastInitiationConsumption => idtac
  | set_hs_lastSentHandshake => idtac
  | set_sendNonce => idtac
  | set_send_key => idtac
  | set_receive_key => idtac
  | set_replayFilter => idtac
  | set_isInitiator => idtac
  | set_created => idtac
  | set_kp_localIndex => idtac
  | set_kp_remoteIndex => idtac
  | set_current => idtac
  | set_previous => idtac
  | set_next => idtac
  | set_retransmitHandshake => idtac
  | set_sendKeepalive => idtac
  | set_newHandshake => idtac
  | set_zeroKeyMaterial => idtac
  | set_persistentKeepalive => idtac
  | set_handshakeAttempts => idtac
  | set_needAnotherKeepalive => idtac
  | set_sentLastMinuteHandshake => idtac
  | @set_isRunning _ => idtac
  | @set_keypairs _ => idtac
  | @set_handshake _ => idtac
  | @set_txBytes _ => idtac
  | @set_rxBytes _ => idtac
  | @set_lastHandshakeNano _ => idtac
  | @set_endpoint_val _ => idtac
  | @set_clearSrcOnTx _ => idtac
  | @set_disableRoaming _ => idtac
  | @set_timers _ => idtac
  | @set_staged _ => idtac
  | @set_cookieGenerator _ => idtac
  | @set_persistentKeepaliveInterval _ => idtac
  | @set_state _ => idtac
  | @set_bind_state _ => idtac
  | @set_net_port _ => idtac
  | @set_net_fwmark _ => idtac
  | @set_brokenRoaming _ => idtac
  | @set_dev_privateKey _ => idtac
  | @set_dev_publicKey _ => idtac
  | @set_keyMap _ => idtac
  | @set_peers _ => idtac
  | @set_keypair_store _ => idtac
  | @set_allowedips _ => idtac
  | @set_indexTable _ => idtac
  | @set_cookieChecker _ => idtac
  | @set_underLoadUntil _ => idtac
  | @set_limiter _ => idtac
  | @set_tun_mtu _ => idtac
  | @set_handshake_queue _ => idtac
  | @set_outbound _ => idtac
  | @set_inbound _ => idtac
  | @set_sent _ => idtac
  | @set_tun_written _ => idtac
  | @set_clock _ => idtac
  | @set_rnd _ => idtac
  end.
Ltac dsimp_step p s v r :=
  is_setter s; first [change (p (s v r)) with v | change (p (s v r)) with (p r)].
Ltac dsimp := repeat match goal with |- context [?p (?s ?v ?r)] => dsimp_step p s v r end.
Ltac dsimp_in H :=
  repeat match type of H with context [?p (?s ?v ?r)] =>
    is_setter s; first [change (p (s v r)) with v in H | change (p (s v r)) with (p r) in H] end.
(** Evaluating the updates of a handshake given by its fields. *)
Ltac hs_eval H := cbv beta zeta iota delta [hs_state hs_hash hs_chainKey hs_presharedKey hs_localEphemeral hs_localIndex hs_remoteIndex hs_remoteStatic hs_remoteEphemeral hs_precomputedStaticStatic hs_lastTimestamp hs_lastInitiationConsumption hs_lastSentHandshake set_hs_state set_hs_hash set_hs_chainKey set_hs_presharedKey set_hs_localEphemeral set_hs_localIndex set_hs_remoteIndex set_hs_remoteStatic set_hs_remoteEphemeral set_hs_precomputedStaticStatic set_hs_lastTimestamp set_hs_lastInitiationConsumption set_hs_lastSentHandshake] in H.

(** ** Running the monad *)
Section run.
Context {BI : Bind}.
Implicit Types (d : Device).

Lemma bind_run {A B} (m : M A) (f : A -> M B) d :
  (m ≫= f) d = match m d with Some (a, d') => f a d' | None => None end.
Proof. done. Qed.
Lemma bind_inv {A B} (m : M A) (f : A -> M B) d b d' :
  (m ≫= f) d = Some (b, d') -> exists a d1, m d = Some (a, d1) /\ f a d1 = Some (b, d').
Proof. rewrite bind_run. destruct (m d) as [[a d1]|]; [eauto|done]. Qed.
Lemma gets_bind {A B} (g : Device -> A) (f : A -> M B) d : (gets g ≫= f) d = f (g d) d.
Proof. done. Qed.
Lemma modify_bind {B} g (f : unit -> M B) d : (modify g ≫= f) d = f tt (g d).
Proof. done. Qed.
Lemma ret_bind {A B} (a : A) (f : A -> M B) d : (mret a ≫= f) d = f a d.
Proof. done. Qed.
Lemma get_peer_bind {B} p x (f : Peer -> M B) d : peers d !! p = Some x -> (get_peer p ≫= f) d = f x d.
Proof. intros Hp. rewrite bind_run. unfold get_peer. by rewrite Hp. Qed.
Lemma bind_assoc {A B D} (m : M A) (f : A -> M B) (g : B -> M D) d :
  ((m ≫= f) ≫= g) d = (m ≫= fun a => f a ≫= g) d.
Proof. rewrite !bind_run. by destruct (m d) as [[a d1]|]. Qed.
Lemma forM_nil {A} (f : A -> M unit) : forM [] f = mret tt.
Proof. done. Qed.
Lemma forM_cons {A} x l (f : A -> M unit) d : forM (x :: l) f d = (f x ≫= fun _ => forM l f) d.
Proof. done. Qed.

(** A free index among the next draws is found. *)
Lemma NewIndex_inv entropy draws p d i err d' :
  NewIndexForHandshake entropy draws p d = Some ((i, err), d') ->
  exists n, match err with
  | None => indexTable d !! i = None /\
      d' = set_indexTable (<[i := mkIndexEntry p (Some p) None]> (indexTable d)) (set_rnd n d)
  | Some _ => d' = set_rnd n d
  end.
Proof.
  revert d. induction draws as [|k IH]; intros d H; [done|]. cbn [NewIndexForHandshake] in H.
  rewrite bind_run in H. change (randUint32 entropy d) with
    (Some ((le_val (take 4 (entropy (rnd d)).1), (entropy (rnd d)).2), set_rnd (S (rnd d)) d)) in H.
  cbv beta iota in H. cbn [fst snd] in H.
  destruct ((entropy (rnd d)).2) as [e|]; [injection H as _ <- <-; by exists (S (rnd d))|].
  rewrite gets_bind in H. case_bool_decide as Hu.
  - apply IH in H as [n Hn]. exists n. destruct err; [by rewrite Hn|]. destruct Hn as [? ->]. done.
  - rewrite modify_bind in H. injection H as <- <- <-. exists (S (rnd d)). split; [|done].
    by apply eq_None_not_Some.
Qed.

(** The index drawn [j] calls from now. *)
Definition drawn (entropy : nat -> list Z * option error) d (j : nat) : Z := le_val (take 4 (entropy (rnd d + j)%nat).1).
End run.

(** ** A network and a device to run the model on

    A network of one socket that is open or not; an address is its bytes. *)
Definition toy_bind : Bind := {|
  Endpoint := list Z; BindState := bool;
  Bind_Open port b := if b then (b, Err (Errorf "bind is already open" []))
                      else (true, Ok (if port =? 0 then 51820 else port));
  Bind_Close _ := (false, None); Bind_SetMark _ b := (b, None);
  Bind_Send _ _ b := if b then (b, None) else (b, Some (Errorf "use of closed connection" []));
  startRouteListener b := (b, None);
  ParseEndpoint s := if String.eqb s "" then Err (Errorf "invalid endpoint" []) else Ok (bytes_of s);
  DstToString ep := str_of_bytes ep; DstToBytes ep := ep; DstIP ep := ep; ClearSrc ep := ep |}.
Definition toy_entropy (n : nat) : list Z * option error := (le_bytes 32 (Z.of_nat n + 65539 * (Z.of_nat n + 1)), None).
Definition sample_device : @Device toy_bind :=
  @mkDevice toy_bind deviceStateDown false 0 0 false (zeros 32) (zeros 32) ∅ ∅ ∅ AllowedIPs.emptyTable ∅ zeroCookieChecker
    0 (RateLimiter.mkRatelimiter true false ∅) 1420 [] [] [] [] [] 1700000000000000000 0.
