(* ===== verification/Handshake.v ===== *)
(** * wireguard-go/device: the Noise handshake

    [noise-protocol.go]: an initiation and a response, each created by one side
    and consumed by the other, after which both derive the keys of a session
    ([BeginSymmetricSession]); key pairs rotate through the slots of the peer.
    A partial run leaves the handshake the way the code does. *)
From S2P Require Import Prelude GoStrings GoNet GoBytes WGCrypto WGCookie WGState.
From S2P Require Replay.
Open Scope Z_scope.

Section handshake.
Context {C : Crypto} {BI : Bind} (entropy : nat -> list Z * option error) (draws : nat).

Definition hs_mixHash (data : list Z) (h : Handshake) : Handshake := set_hs_hash (mixHash (hs_hash h) data) h.
Definition hs_mixKey (data : list Z) (h : Handshake) : Handshake := set_hs_chainKey (mixKey (hs_chainKey h) data) h.
(** [KDF2(&handshake.chainKey, &key, handshake.chainKey, input)] *)
Definition hs_KDF2 (input : list Z) (h : Handshake) : list Z * Handshake :=
  let '(chainKey, key) := KDF2 (hs_chainKey h) input in (key, set_hs_chainKey chainKey h).

Definition get_handshake (p : pid) : M Handshake := x ← get_peer p; mret (handshake x).
Definition put_handshake (p : pid) (h : Handshake) : M unit := modify_peer p (set_handshake h).

(** The messages are computed on the handshake alone: the new handshake, and
    the ephemeral key with the boxes unless something failed on the way. *)
Definition initiation_boxes (pk : list Z) (now : Z) (r : list Z * option error) (h : Handshake)
    : Handshake * result (list Z * list Z * list Z) :=
  let h := set_hs_chainKey InitialChainKey (set_hs_hash InitialHash h) in
  let '(sk, err) := newPrivateKey r in
  let h := set_hs_localEphemeral sk h in
  match err with
  | Some e => (h, Err e)
  | None =>
      let h := hs_mixHash (hs_remoteStatic h) h in
      let ephemeral := publicKey (hs_localEphemeral h) in
      let h := hs_mixKey ephemeral h in
      let h := hs_mixHash ephemeral h in
      let '(ss, err) := sharedSecret (hs_localEphemeral h) (hs_remoteStatic h) in
      match err with
      | Some e => (h, Err e)
      | None =>
          let '(key, h) := hs_KDF2 ss h in
          let static := aead_Seal key ZeroNonce pk (hs_hash h) in
          let h := hs_mixHash static h in
          if isZero (hs_precomputedStaticStatic h) then (h, Err errInvalidPublicKey)
          else
            let '(key, h) := hs_KDF2 (hs_precomputedStaticStatic h) h in
            let timestamp := aead_Seal key ZeroNonce (stamp now) (hs_hash h) in
            (h, Ok (ephemeral, static, timestamp))
      end
  end.

Definition CreateMessageInitiation (p : pid) : M (result MessageInitiation) :=
  pk ← gets dev_publicKey;
  now ← gets clock;
  h ← get_handshake p;
  r ← rand_Read entropy;
  let '(h, boxes) := initiation_boxes pk now r h in
  _ ← put_handshake p h;
  match boxes with
  | Err e => mret (Err e)
  | Ok (ephemeral, static, timestamp) =>
      _ ← IndexTable_Delete (hs_localIndex h);
      index ← NewIndexForHandshake entropy draws p;
      match index.2 with
      | Some e => mret (Err e)
      | None =>
          _ ← put_handshake p (set_hs_state handshakeInitiationCreated
                                 (hs_mixHash timestamp (set_hs_localIndex index.1 h)));
          mret (Ok (mkInitiation MessageInitiationType index.1 ephemeral static timestamp (zeros 16) (zeros 16)))
      end
  end.

Definition LookupPeer (pk : list Z) : M (option pid) := gets (fun d => keyMap d !! pk).

(** The transcript of an initiation as its receiver computes it: the peer's
    static key, and what verifies the timestamp. *)
Definition consume_static (sk pk : list Z) (msg : MessageInitiation) : option (list Z * list Z * list Z) :=
  let hash := mixHash InitialHash pk in
  let hash := mixHash hash (mi_Ephemeral msg) in
  let chainKey := mixKey InitialChainKey (mi_Ephemeral msg) in
  match sharedSecret sk (mi_Ephemeral msg) with
  | (_, Some _) => None
  | (ss, None) =>
      let '(chainKey, key) := KDF2 chainKey ss in
      match aead_Open key ZeroNonce (mi_Static msg) hash with
      | None => None
      | Some peerPK => Some (peerPK, mixHash hash (mi_Static msg), chainKey)
      end
  end.

Definition ConsumeMessageInitiation (msg : MessageInitiation) : M (option pid) :=
  if negb (mi_Type msg =? MessageInitiationType) then mret None
  else
    sk ← gets dev_privateKey;
    pk ← gets dev_publicKey;
    match consume_static sk pk msg with
    | None => mret None
    | Some (peerPK, hash, chainKey) =>
        found ← LookupPeer peerPK;
        match found with
        | None => mret None
        | Some p =>
            x ← get_peer p;
            let h := handshake x in
            if negb (isRunning x) then mret None
            else if isZero (hs_precomputedStaticStatic h) then mret None
            else
              let '(chainKey, key) := KDF2 chainKey (hs_precomputedStaticStatic h) in
              match aead_Open key ZeroNonce (mi_Timestamp msg) hash with
              | None => mret None
              | Some timestamp =>
                  let hash := mixHash hash (mi_Timestamp msg) in
                  now ← gets clock;
                  let replay := negb (After timestamp (hs_lastTimestamp h)) in
                  let flood := time_Since now (hs_lastInitiationConsumption h) <=? HandshakeInitationRate in
                  if replay then mret None
                  else if flood then mret None
                  else
                    let h := set_hs_chainKey chainKey (set_hs_hash hash h) in
                    let h := set_hs_remoteEphemeral (mi_Ephemeral msg) (set_hs_remoteIndex (mi_Sender msg) h) in
                    let h := if After timestamp (hs_lastTimestamp h) then set_hs_lastTimestamp timestamp h else h in
                    let h := if hs_lastInitiationConsumption h <? now then set_hs_lastInitiationConsumption now h else h in
                    _ ← put_handshake p (set_hs_state handshakeInitiationConsumed h);
                    mret (Some p)
              end
        end
    end.

Definition response_boxes (r : list Z * option error) (h : Handshake) : Handshake * result (list Z * list Z) :=
  let '(sk, err) := newPrivateKey r in
  let h := set_hs_localEphemeral sk h in
  match err with
  | Some e => (h, Err e)
  | None =>
      let ephemeral := publicKey (hs_localEphemeral h) in
      let h := hs_mixHash ephemeral h in
      let h := hs_mixKey ephemeral h in
      match sharedSecret (hs_localEphemeral h) (hs_remoteEphemeral h) with
      | (_, Some e) => (h, Err e)
      | (ss, None) =>
          let h := hs_mixKey ss h in
          match sharedSecret (hs_localEphemeral h) (hs_remoteStatic h) with
          | (_, Some e) => (h, Err e)
          | (ss, None) =>
              let h := hs_mixKey ss h in
              let '(chainKey, tau, key) := KDF3 (hs_chainKey h) (hs_presharedKey h) in
              let h := set_hs_chainKey chainKey h in
              let h := hs_mixHash tau h in
              let empty := aead_Seal key ZeroNonce [] (hs_hash h) in
              (hs_mixHash empty h, Ok (ephemeral, empty))
          end
      end
  end.

Definition CreateMessageResponse (p : pid) : M (result MessageResponse) :=
  h ← get_handshake p;
  if negb (bool_decide (hs_state h = handshakeInitiationConsumed)) then
    mret (Err (Errorf "handshake initiation must be consumed first" []))
  else
    _ ← IndexTable_Delete (hs_localIndex h);
    index ← NewIndexForHandshake entropy draws p;
    let h := set_hs_localIndex index.1 h in
    match index.2 with
    | Some e => _ ← put_handshake p h; mret (Err e)
    | None =>
        r ← rand_Read entropy;
        let '(h, boxes) := response_boxes r h in
        match boxes with
        | Err e => _ ← put_handshake p h; mret (Err e)
        | Ok (ephemeral, empty) =>
            _ ← put_handshake p (set_hs_state handshakeResponseCreated h);
            mret (Ok (mkResponse MessageResponseType (hs_localIndex h) (hs_remoteIndex h) ephemeral empty
                        (zeros 16) (zeros 16)))
        end
    end.

(** The closure of [ConsumeMessageResponse]: the transcript and chaining key,
    if the response is authentic. *)
Definition consume_response (sk : list Z) (h : Handshake) (msg : MessageResponse) : option (list Z * list Z) :=
  if negb (bool_decide (hs_state h = handshakeInitiationCreated)) then None
  else
    let hash := mixHash (hs_hash h) (mr_Ephemeral msg) in
    let chainKey := mixKey (hs_chainKey h) (mr_Ephemeral msg) in
    match sharedSecret (hs_localEphemeral h) (mr_Ephemeral msg) with
    | (_, Some _) => None
    | (ss, None) =>
        let chainKey := mixKey chainKey ss in
        match sharedSecret sk (mr_Ephemeral msg) with
        | (_, Some _) => None
        | (ss, None) =>
            let chainKey := mixKey chainKey ss in
            let '(chainKey, tau, key) := KDF3 chainKey (hs_presharedKey h) in
            let hash := mixHash hash tau in
            match aead_Open key ZeroNonce (mr_Empty msg) hash with
            | None => None
            | Some _ => Some (mixHash hash (mr_Empty msg), chainKey)
            end
        end
    end.

Definition ConsumeMessageResponse (msg : MessageResponse) : M (option pid) :=
  if negb (mr_Type msg =? MessageResponseType) then mret None
  else
    lookup ← IndexTable_Lookup (mr_Receiver msg);
    match lookup with
    | Some (mkIndexEntry peer (Some hp) _) =>
        h ← get_handshake hp;
        sk ← gets dev_privateKey;
        match consume_response sk h msg with
        | None => mret None
        | Some (hash, chainKey) =>
            let h := set_hs_remoteIndex (mr_Sender msg) (set_hs_chainKey chainKey (set_hs_hash hash h)) in
            _ ← put_handshake hp (set_hs_state handshakeResponseConsumed h);
            mret (Some peer)
        end
    | _ => mret None
    end.

(** A fresh keypair object. *)
Definition new_keypair (kp : Keypair) : M kid :=
  fun d => let k := fresh (dom (keypair_store d)) in
           Some (k, set_keypair_store (<[k := kp]> (keypair_store d)) d).

(** The keys of the two directions, sending key first. *)
Definition session_keys (h : Handshake) : option (bool * list Z * list Z) :=
  match hs_state h with
  | handshakeResponseConsumed => let '(s, r) := KDF2 (hs_chainKey h) [] in Some (true, s, r)
  | handshakeResponseCreated => let '(r, s) := KDF2 (hs_chainKey h) [] in Some (false, s, r)
  | _ => None
  end.

(** The slots after a new keypair, and the keypairs to delete, in order. *)
Definition rotate (init : bool) (keypair : kid) (s : Keypairs) : Keypairs * list (option kid) :=
  if init then
    match next s with
    | Some nx => (mkKeypairs (Some keypair) (Some nx) None, [current s; previous s])
    | None => (mkKeypairs (Some keypair) (current s) None, [previous s])
    end
  else (mkKeypairs (current s) None (Some keypair), [next s; previous s]).

Definition BeginSymmetricSession (p : pid) : M (option error) :=
  h ← get_handshake p;
  match session_keys h with
  | None => mret (Some (Errorf "invalid state for keypair derivation: %v" []))
  | Some (init, sendKey, recvKey) =>
      let h := set_hs_localEphemeral (zeros 32) (set_hs_hash (zeros 32) (set_hs_chainKey (zeros 32) h)) in
      let h := set_hs_state handshakeZeroed h in
      now ← gets clock;
      keypair ← new_keypair (mkKeypair 0 sendKey recvKey (Replay.Reset Replay.zeroFilter) init now
                               (hs_localIndex h) (hs_remoteIndex h));
      _ ← SwapIndexForKeypair (hs_localIndex h) keypair;
      _ ← put_handshake p (set_hs_localIndex 0 h);
      x ← get_peer p;
      let '(slots, deleted) := rotate init keypair (keypairs x) in
      _ ← forM deleted DeleteKeypair;
      _ ← modify_peer p (set_keypairs slots);
      mret None
  end.

Definition ReceivedWithKeypair (p : pid) (receivedKeypair : kid) : M bool :=
  x ← get_peer p;
  let s := keypairs x in
  if negb (bool_decide (next s = Some receivedKeypair)) then mret false
  else
    let old := previous s in
    _ ← DeleteKeypair old;
    _ ← modify_peer p (set_keypairs (mkKeypairs (next s) (current s) None));
    mret true.
End handshake.
