(* ===== verification/HandshakeProofs.v ===== *)
(** * The handshake: both sides agree

    The messages of one run as functions of the two sides' secrets, the
    operations of Handshake.v computing exactly these, and the agreement of the
    keys and indices the two sides end up with. *)
From S2P Require Import Prelude GoStrings GoNet GoBytes WGCrypto WGCookie WGState Handshake.
From S2P Require Replay.
Open Scope Z_scope.

(** Running the monad over a hypothesis. *)
Ltac mstep H :=
  first [rewrite gets_bind in H | rewrite modify_bind in H | rewrite ret_bind in H | rewrite bind_assoc in H];
  cbv beta in H.
Ltac mgoal := first [rewrite gets_bind | rewrite modify_bind | rewrite ret_bind | rewrite bind_assoc]; cbv beta.

Section transcript.
Context {C : Crypto}.

(** ** The transcript of a run

    [pkR]: the responder's static public key; [E]: the initiator's ephemeral
    public key; [ss1]: ephemeral-static secret; [ss2]: static-static secret. *)
Definition hash1 (pkR E : list Z) : list Z := mixHash (mixHash InitialHash pkR) E.
Definition keys1 (E ss1 : list Z) : list Z * list Z := KDF2 (mixKey InitialChainKey E) ss1.
Definition static_box (pkR E ss1 pkI : list Z) : list Z := aead_Seal (keys1 E ss1).2 ZeroNonce pkI (hash1 pkR E).
Definition hash2 (pkR E ss1 pkI : list Z) : list Z := mixHash (hash1 pkR E) (static_box pkR E ss1 pkI).
Definition keys2 (E ss1 ss2 : list Z) : list Z * list Z := KDF2 (keys1 E ss1).1 ss2.
Definition time_box (pkR E ss1 ss2 pkI ts : list Z) : list Z :=
  aead_Seal (keys2 E ss1 ss2).2 ZeroNonce ts (hash2 pkR E ss1 pkI).
Definition hash3 (pkR E ss1 ss2 pkI ts : list Z) : list Z :=
  mixHash (hash2 pkR E ss1 pkI) (time_box pkR E ss1 ss2 pkI ts).
(** The response: [h], [ck] the state after the initiation, [F] the responder's
    ephemeral public key, [ss3] ephemeral-ephemeral, [ss4] ephemeral-static. *)
Definition keys3 (ck F ss3 ss4 psk : list Z) : list Z * list Z * list Z :=
  KDF3 (mixKey (mixKey (mixKey ck F) ss3) ss4) psk.
Definition hash4 (h ck F ss3 ss4 psk : list Z) : list Z := mixHash (mixHash h F) (keys3 ck F ss3 ss4 psk).1.2.
Definition empty_box (h ck F ss3 ss4 psk : list Z) : list Z :=
  aead_Seal (keys3 ck F ss3 ss4 psk).2 ZeroNonce [] (hash4 h ck F ss3 ss4 psk).
Definition hash5 (h ck F ss3 ss4 psk : list Z) : list Z :=
  mixHash (hash4 h ck F ss3 ss4 psk) (empty_box h ck F ss3 ss4 psk).
End transcript.

Section secrets.
Context {C : Crypto}.
Lemma sharedSecret_None sk pk ss : sharedSecret sk pk = (ss, None) -> ss = ScalarMult sk pk /\ isZero ss = false.
Proof. unfold sharedSecret. destruct (isZero (ScalarMult sk pk)) eqn:E; intros [= <-]; done. Qed.
Lemma sharedSecret_ok sk pk : isZero (ScalarMult sk pk) = false -> sharedSecret sk pk = (ScalarMult sk pk, None).
Proof. unfold sharedSecret. by intros ->. Qed.
End secrets.

(** Cryptography is never computed in these proofs. *)
#[local] Opaque sharedSecret isZero ZeroNonce mixHash mixKey KDF1 KDF2 KDF3 InitialHash InitialChainKey clamp stamp publicKey zeros.

Section sides.
Context {C : Crypto} {BI : Bind} (entropy : nat -> list Z * option error) (draws : nat).
Implicit Types (d : Device) (p : pid) (x : Peer).

Lemma put_handshake_bind {B} p h (f : unit -> M B) d :
  (put_handshake p h ≫= f) d = f tt (set_peers (alter (set_handshake h) p (peers d)) d).
Proof. done. Qed.
Lemma get_handshake_bind {B} p x (f : Handshake -> M B) d : peers d !! p = Some x ->
  (get_handshake p ≫= f) d = f (handshake x) d.
Proof. intros Hx. unfold get_handshake. by rewrite bind_assoc, (get_peer_bind _ _ _ _ Hx), ret_bind. Qed.
Lemma rand_bind {B} (f : list Z * option error -> M B) d :
  (rand_Read entropy ≫= f) d = f (entropy (rnd d)) (set_rnd (S (rnd d)) d).
Proof. done. Qed.
Lemma delete_bind {B} i (f : unit -> M B) d :
  (IndexTable_Delete i ≫= f) d = f tt (set_indexTable (delete i (indexTable d)) d).
Proof. done. Qed.
Lemma alter_lookup p x (f : Peer -> Peer) (m : gmap pid Peer) : m !! p = Some x -> alter f p m !! p = Some (f x).
Proof. intros H. by rewrite lookup_alter_eq, H. Qed.

(** What the boxes of an initiation contain. *)
Lemma initiation_boxes_inv pk now r h h' E static timestamp :
  initiation_boxes pk now r h = (h', Ok (E, static, timestamp)) ->
  let e := clamp r.1 in let pkR := hs_remoteStatic h in let ss1 := ScalarMult e pkR in
  let ss2 := hs_precomputedStaticStatic h in
  isZero ss1 = false /\ isZero ss2 = false /\ E = publicKey e /\
  static = static_box pkR E ss1 pk /\ timestamp = time_box pkR E ss1 ss2 pk (stamp now) /\
  hs_localIndex h' = hs_localIndex h /\ hs_localEphemeral h' = e /\ hs_hash h' = hash2 pkR E ss1 pk /\
  hs_chainKey h' = (keys2 E ss1 ss2).1 /\ hs_presharedKey h' = hs_presharedKey h /\ hs_remoteStatic h' = pkR.
Proof.
  intros H. cbn zeta. unfold initiation_boxes, newPrivateKey, hs_mixHash, hs_mixKey, hs_KDF2 in H.
  destruct h as [hst hh hck psk le li ri pkR re ss2 lt lc ls]. destruct r as [r [err|]]; [by inversion H|]. cbn [fst snd] in *.
  hs_eval H. set (e := clamp r) in *.
  destruct (sharedSecret e pkR) as [ss [err|]] eqn:Ess; [by inversion H|]. apply sharedSecret_None in Ess as [-> Hz1].
  fold (keys1 (publicKey e) (ScalarMult e pkR)) in H. destruct (keys1 (publicKey e) (ScalarMult e pkR)) as [ck1 k1] eqn:Ek1.
  hs_eval H. destruct (isZero ss2) eqn:Hz2; [by inversion H|].
  destruct (KDF2 ck1 ss2) as [ck2 k2] eqn:Ek2. hs_eval H. injection H as <- <- <- <-.
  cbn [hs_remoteStatic hs_precomputedStaticStatic hs_presharedKey hs_localIndex hs_localEphemeral hs_hash hs_chainKey].
  assert (keys2 (publicKey e) (ScalarMult e pkR) ss2 = (ck2, k2)) as Hk2 by (unfold keys2; by rewrite Ek1).
  assert (static_box pkR (publicKey e) (ScalarMult e pkR) pk =
    aead_Seal k1 ZeroNonce pk (hash1 pkR (publicKey e))) as Hst by (unfold static_box; by rewrite Ek1).
  unfold time_box, hash2. rewrite Hk2, Hst. by split_and!.
Qed.

Lemma CreateMessageInitiation_inv p x d msg d' : peers d !! p = Some x ->
  CreateMessageInitiation entropy draws p d = Some (Ok msg, d') ->
  let h := handshake x in let e := clamp (entropy (rnd d)).1 in let E := publicKey e in
  let pkR := hs_remoteStatic h in let ss1 := ScalarMult e pkR in let ss2 := hs_precomputedStaticStatic h in
  isZero ss1 = false /\ isZero ss2 = false /\
  msg = mkInitiation MessageInitiationType (mi_Sender msg) E (static_box pkR E ss1 (dev_publicKey d))
          (time_box pkR E ss1 ss2 (dev_publicKey d) (stamp (clock d))) (zeros 16) (zeros 16) /\
  (exists h', peers d' !! p = Some (set_handshake h' x) /\
    hs_state h' = handshakeInitiationCreated /\ hs_localIndex h' = mi_Sender msg /\ hs_localEphemeral h' = e /\
    hs_hash h' = hash3 pkR E ss1 ss2 (dev_publicKey d) (stamp (clock d)) /\ hs_chainKey h' = (keys2 E ss1 ss2).1 /\
    hs_presharedKey h' = hs_presharedKey h /\ hs_remoteStatic h' = pkR) /\
  indexTable d' !! mi_Sender msg = Some (mkIndexEntry p (Some p) None) /\
  dev_privateKey d' = dev_privateKey d /\ dev_publicKey d' = dev_publicKey d /\
  keypair_store d' = keypair_store d /\ clock d' = clock d.
Proof.
  intros Hx H. cbn zeta. unfold CreateMessageInitiation in H. do 2 mstep H.
  rewrite (get_handshake_bind _ _ _ _ Hx) in H. rewrite rand_bind in H.
  destruct (initiation_boxes _ _ _ _) as [h [[[E st] ti]|err]] eqn:Eb; rewrite put_handshake_bind in H; [|by inversion H].
  apply initiation_boxes_inv in Eb as (Hz1 & Hz2 & -> & -> & -> & Hli & He & Hh & Hck & Hpsk & Hrs).
  rewrite delete_bind in H.
  apply bind_inv in H as ([i err] & d1 & Hi & H). apply NewIndex_inv in Hi as [n Hi]. cbn [snd] in H.
  destruct err as [err|]; [by inversion H|]. destruct Hi as [_ ->]. rewrite put_handshake_bind in H. injection H as <- <-.
  cbn [mi_Sender fst]. split_and!; [done|done|done| |dsimp; apply lookup_insert_eq|reflexivity..].
  eexists. split; [dsimp; rewrite (alter_lookup _ (set_handshake h x)) by (by apply alter_lookup); reflexivity|].
  unfold hs_mixHash. dsimp. rewrite Hh, Hck, Hpsk, Hrs. by split_and!.
Qed.

(** ** Consuming an initiation *)
Context {L : CryptoLaws}.
Lemma consume_static_ok sk e pkI msg :
  let pkR := publicKey sk in let E := publicKey e in let ss1 := ScalarMult e pkR in
  isZero ss1 = false -> bytes_ok pkI -> mi_Ephemeral msg = E -> mi_Static msg = static_box pkR E ss1 pkI ->
  consume_static sk pkR msg = Some (pkI, hash2 pkR E ss1 pkI, (keys1 E ss1).1).
Proof.
  intros pkR E ss1 Hz Hpk HE Hst. unfold consume_static. rewrite HE, Hst.
  assert (ScalarMult sk E = ss1) as Hss by apply dh_agree.
  rewrite sharedSecret_ok, Hss by (by rewrite Hss). fold (keys1 E ss1). unfold hash2, static_box.
  destruct (keys1 E ss1) as [ck k]. cbn [fst snd]. fold (hash1 pkR E). by rewrite open_seal.
Qed.

Definition accepts (now : Z) (ts : list Z) (h : Handshake) : Prop :=
  After ts (hs_lastTimestamp h) = true /\ HandshakeInitationRate < time_Since now (hs_lastInitiationConsumption h).

Lemma ConsumeMessageInitiation_ok p x d e msg ts :
  let pkR := publicKey (dev_privateKey d) in let E := publicKey e in let ss1 := ScalarMult e pkR in
  let h := handshake x in let pkI := hs_remoteStatic h in let ss2 := hs_precomputedStaticStatic h in
  dev_publicKey d = pkR -> keyMap d !! pkI = Some p -> peers d !! p = Some x -> isRunning x = true ->
  isZero ss1 = false -> isZero ss2 = false -> bytes_ok pkI -> bytes_ok ts -> accepts (clock d) ts h ->
  mi_Type msg = MessageInitiationType -> mi_Ephemeral msg = E -> mi_Static msg = static_box pkR E ss1 pkI ->
  mi_Timestamp msg = time_box pkR E ss1 ss2 pkI ts ->
  exists h', ConsumeMessageInitiation msg d = Some (Some p, set_peers (alter (set_handshake h') p (peers d)) d) /\
    hs_state h' = handshakeInitiationConsumed /\ hs_hash h' = hash3 pkR E ss1 ss2 pkI ts /\
    hs_chainKey h' = (keys2 E ss1 ss2).1 /\ hs_remoteIndex h' = mi_Sender msg /\ hs_remoteEphemeral h' = E /\
    hs_remoteStatic h' = pkI /\ hs_presharedKey h' = hs_presharedKey h /\ hs_lastTimestamp h' = ts /\
    hs_localIndex h' = hs_localIndex h /\ hs_precomputedStaticStatic h' = ss2.
Proof.
  intros pkR E ss1 h pkI ss2 Hpk Hmap Hx Hrun Hz1 Hz2 Hb1 Hb2 [Haf Hfl] Hty HE Hst Hti.
  unfold ConsumeMessageInitiation. rewrite Hty, Z.eqb_refl. cbn [negb]. do 2 mgoal. rewrite Hpk.
  pose proof (consume_static_ok (dev_privateKey d) e pkI msg Hz1 Hb1 HE Hst) as Hcs. cbn zeta in Hcs. fold pkR E ss1 in Hcs.
  rewrite Hcs. cbv beta iota. unfold LookupPeer. mgoal. rewrite Hmap. rewrite (get_peer_bind _ _ _ _ Hx).
  cbv zeta. rewrite Hrun. cbn [negb]. fold h ss2. rewrite Hz2. fold (keys2 E ss1 ss2). unfold time_box in Hti. unfold hash3, time_box.
  destruct (keys2 E ss1 ss2) as [ck k]. cbn [fst snd] in Hti |- *. rewrite Hti, open_seal by done. mgoal.
  dsimp. rewrite !Haf. cbn [negb]. dsimp. rewrite (proj2 (Z.leb_gt _ _)) by done.
  rewrite put_handshake_bind. eexists. split; [reflexivity|]. rewrite HE.
  destruct (hs_lastInitiationConsumption h <? clock d); dsimp; by split_and!.
Qed.

(** ** The response *)
Lemma response_boxes_inv r h h' F empty : response_boxes r h = (h', Ok (F, empty)) ->
  let f := clamp r.1 in let ss3 := ScalarMult f (hs_remoteEphemeral h) in let ss4 := ScalarMult f (hs_remoteStatic h) in
  isZero ss3 = false /\ isZero ss4 = false /\ F = publicKey f /\
  empty = empty_box (hs_hash h) (hs_chainKey h) F ss3 ss4 (hs_presharedKey h) /\
  hs_hash h' = hash5 (hs_hash h) (hs_chainKey h) F ss3 ss4 (hs_presharedKey h) /\
  hs_chainKey h' = (keys3 (hs_chainKey h) F ss3 ss4 (hs_presharedKey h)).1.1 /\
  hs_localIndex h' = hs_localIndex h /\ hs_remoteIndex h' = hs_remoteIndex h.
Proof.
  intros H. cbn zeta. unfold response_boxes, newPrivateKey, hs_mixHash, hs_mixKey in H.
  destruct h as [hst hh hck psk le li ri rs re ss2 lt lc ls]. destruct r as [r [err|]]; [by inversion H|]. cbn [fst snd] in *.
  hs_eval H. set (f := clamp r) in *.
  destruct (sharedSecret f re) as [ss3 [err|]] eqn:E3; [by inversion H|]. apply sharedSecret_None in E3 as [-> Hz3].
  hs_eval H. destruct (sharedSecret f rs) as [ss4 [err|]] eqn:E4; [by inversion H|]. apply sharedSecret_None in E4 as [-> Hz4].
  hs_eval H. fold (keys3 hck (publicKey f) (ScalarMult f re) (ScalarMult f rs) psk) in H.
  cbn [hs_remoteStatic hs_remoteEphemeral hs_presharedKey hs_localIndex hs_remoteIndex hs_hash hs_chainKey].
  unfold hash5, empty_box, hash4.
  destruct (keys3 hck (publicKey f) (ScalarMult f re) (ScalarMult f rs) psk) as [[ck tau] k] eqn:Ek. hs_eval H.
  injection H as <- <- <-. rewrite !Ek. by split_and!.
Qed.

Lemma CreateMessageResponse_inv p x d msg d' : peers d !! p = Some x ->
  CreateMessageResponse entropy draws p d = Some (Ok msg, d') ->
  let h := handshake x in let E := hs_remoteEphemeral h in
  exists f n, let F := publicKey f in let ss3 := ScalarMult f E in let ss4 := ScalarMult f (hs_remoteStatic h) in
  isZero ss3 = false /\ isZero ss4 = false /\
  msg = mkResponse MessageResponseType (mr_Sender msg) (hs_remoteIndex h) F
          (empty_box (hs_hash h) (hs_chainKey h) F ss3 ss4 (hs_presharedKey h)) (zeros 16) (zeros 16) /\
  (exists h', d' = set_peers (alter (set_handshake h') p (peers d))
        (set_rnd n (set_indexTable (<[mr_Sender msg := mkIndexEntry p (Some p) None]> (delete (hs_localIndex h) (indexTable d))) d)) /\
    hs_state h' = handshakeResponseCreated /\ hs_localIndex h' = mr_Sender msg /\
    hs_remoteIndex h' = hs_remoteIndex h /\
    hs_chainKey h' = (keys3 (hs_chainKey h) F ss3 ss4 (hs_presharedKey h)).1.1).
Proof.
  intros Hx H. cbn zeta. unfold CreateMessageResponse in H.
  rewrite (get_handshake_bind _ _ _ _ Hx) in H. case_bool_decide as Hst; cbn [negb] in H; [|by inversion H].
  rewrite delete_bind in H. apply bind_inv in H as ([i err] & d1 & Hi & H). apply NewIndex_inv in Hi as [n Hi]. cbn [fst snd] in H.
  destruct err as [err|]; [rewrite put_handshake_bind in H; by inversion H|]. destruct Hi as [_ ->]. rewrite rand_bind in H.
  destruct (response_boxes _ _) as [h [[F em]|err]] eqn:Eb; rewrite put_handshake_bind in H; [|by inversion H].
  apply response_boxes_inv in Eb. cbn zeta in Eb. dsimp_in Eb. destruct Eb as (Hz3 & Hz4 & -> & -> & Hh & Hck & Hli & Hri).
  injection H as <- <-. eexists _, _. cbn [mr_Sender]. rewrite Hri, Hli. split_and!; [exact Hz3|exact Hz4|reflexivity|].
  exists (set_hs_state handshakeResponseCreated h). split; [reflexivity|]. dsimp. by split_and!.
Qed.

Lemma consume_response_ok sk h f msg :
  let E := publicKey (hs_localEphemeral h) in let F := publicKey f in
  let ss3 := ScalarMult f E in let ss4 := ScalarMult f (publicKey sk) in
  hs_state h = handshakeInitiationCreated -> isZero ss3 = false -> isZero ss4 = false ->
  mr_Ephemeral msg = F -> mr_Empty msg = empty_box (hs_hash h) (hs_chainKey h) F ss3 ss4 (hs_presharedKey h) ->
  consume_response sk h msg = Some (hash5 (hs_hash h) (hs_chainKey h) F ss3 ss4 (hs_presharedKey h),
    (keys3 (hs_chainKey h) F ss3 ss4 (hs_presharedKey h)).1.1).
Proof.
  intros E F ss3 ss4 Hst Hz3 Hz4 HF Hem. unfold consume_response. rewrite bool_decide_eq_true_2 by done. cbn [negb].
  rewrite HF, Hem. assert (ScalarMult (hs_localEphemeral h) F = ss3) as H3 by apply dh_agree.
  assert (ScalarMult sk F = ss4) as H4 by apply dh_agree.
  rewrite sharedSecret_ok, H3 by (by rewrite H3). rewrite sharedSecret_ok, H4 by (by rewrite H4).
  fold (keys3 (hs_chainKey h) F ss3 ss4 (hs_presharedKey h)). unfold hash5, empty_box, hash4.
  destruct (keys3 _ _ _ _ _) as [[ck tau] k]. cbn [fst snd]. by rewrite open_seal by constructor.
Qed.
Lemma ConsumeMessageResponse_ok p x d f msg :
  let h := handshake x in let E := publicKey (hs_localEphemeral h) in let F := publicKey f in
  let ss3 := ScalarMult f E in let ss4 := ScalarMult f (publicKey (dev_privateKey d)) in
  peers d !! p = Some x -> indexTable d !! mr_Receiver msg = Some (mkIndexEntry p (Some p) None) ->
  hs_state h = handshakeInitiationCreated -> isZero ss3 = false -> isZero ss4 = false ->
  mr_Type msg = MessageResponseType ->
  mr_Ephemeral msg = F -> mr_Empty msg = empty_box (hs_hash h) (hs_chainKey h) F ss3 ss4 (hs_presharedKey h) ->
  exists h', ConsumeMessageResponse msg d = Some (Some p, set_peers (alter (set_handshake h') p (peers d)) d) /\
    hs_state h' = handshakeResponseConsumed /\ hs_remoteIndex h' = mr_Sender msg /\ hs_localIndex h' = hs_localIndex h /\
    hs_chainKey h' = (keys3 (hs_chainKey h) F ss3 ss4 (hs_presharedKey h)).1.1.
Proof.
  intros h E F ss3 ss4 Hx Hi Hst Hz3 Hz4 Hty HF Hem. unfold ConsumeMessageResponse. rewrite Hty, Z.eqb_refl. cbn [negb].
  unfold IndexTable_Lookup. mgoal. rewrite Hi. rewrite (get_handshake_bind _ _ _ _ Hx). mgoal. fold h.
  rewrite (consume_response_ok (dev_privateKey d) h f msg Hst Hz3 Hz4 HF Hem).
  rewrite put_handshake_bind. eexists. split; [reflexivity|]. dsimp. by split_and!.
Qed.
End sides.

(** ** Sessions *)
Section session.
Context {C : Crypto} {BI : Bind}.
Implicit Types (d : Device) (p : pid) (x : Peer).

Definition slots (s : Keypairs) : list (option kid) := [current s; previous s; next s].
(** The keypairs of a peer exist. *)
Definition slots_ok d x : Prop := forall k, Some k ∈ slots (keypairs x) -> is_Some (keypair_store d !! k).
(** No session of the peer uses the index. *)
Definition unused_index d x (i : Z) : Prop :=
  forall k kp, Some k ∈ slots (keypairs x) -> keypair_store d !! k = Some kp -> kp_localIndex kp <> i.

Definition del_keypair (st : gmap kid Keypair) (t : gmap Z IndexTableEntry) (o : option kid) : gmap Z IndexTableEntry :=
  match o with
  | Some k => match st !! k with Some kp => delete (kp_localIndex kp) t | None => t end
  | None => t
  end.
Lemma DeleteKeypairs_run ks d : (forall k, Some k ∈ ks -> is_Some (keypair_store d !! k)) ->
  forM ks DeleteKeypair d = Some (tt, set_indexTable (foldl (del_keypair (keypair_store d)) (indexTable d) ks) d).
Proof.
  revert d. induction ks as [|o ks IH]; intros d Hks; [by destruct d|]. cbn [forM foldl]. rewrite bind_run.
  destruct o as [k|]; cbn [DeleteKeypair del_keypair].
  - destruct (Hks k ltac:(by left)) as [kp Hk]. rewrite bind_run. unfold get_keypair. rewrite Hk.
    unfold IndexTable_Delete, modify. rewrite IH; [done|]. intros k' Hk'. apply Hks. by right.
  - cbn [mret M_ret]. apply IH. intros k' Hk'. apply Hks. by right.
Qed.
Lemma del_keypairs_lookup st t ks i e : foldl (del_keypair st) t ks !! i = Some e <->
  t !! i = Some e /\ forall k kp, Some k ∈ ks -> st !! k = Some kp -> kp_localIndex kp <> i.
Proof.
  revert t. induction ks as [|o ks IH]; intros t; cbn [foldl].
  { split; [|by intros []]. intros H. split; [done|]. by intros ? ? ?%elem_of_nil. }
  rewrite IH. assert (del_keypair st t o !! i = Some e <-> t !! i = Some e /\
    forall k kp, Some k = o -> st !! k = Some kp -> kp_localIndex kp <> i) as ->.
  { destruct o as [k|]; cbn [del_keypair]; [|split; [intros H; split; [done|by intros ? ? [=]]|by intros []]].
    destruct (st !! k) as [kp|] eqn:Hk.
    - rewrite lookup_delete_Some. split; [intros [Hne H]|intros [H Hne]].
      + split; [done|]. intros ? ? [= ->] ?. congruence.
      + split; [by apply (Hne k)|done].
    - split; [|by intros []]. intros H. split; [done|]. intros ? ? [= ->] ?. congruence. }
  split.
  - intros [[H1 H2] H3]. split; [done|]. intros k kp [Ho|Hin]%elem_of_cons; [by apply H2|by apply H3].
  - intros [H1 H2]. split_and!; [done| |]; intros k kp Hin; apply H2; [by rewrite Hin; left|by right].
Qed.

(** [SwapIndexForKeypair] *)
Definition swap_entry (i : Z) (k : kid) (t : gmap Z IndexTableEntry) : gmap Z IndexTableEntry :=
  match t !! i with Some e => <[i := mkIndexEntry (ie_peer e) None (Some k)]> t | None => t end.
Lemma rotate_deleted init k s o : o ∈ (rotate init k s).2 -> o ∈ slots s.
Proof.
  unfold rotate, slots. destruct init, (next s); cbn [snd]; rewrite !elem_of_cons, elem_of_nil; tauto.
Qed.
Lemma BeginSymmetricSession_ok p x d init s r :
  peers d !! p = Some x -> slots_ok d x -> session_keys (handshake x) = Some (init, s, r) ->
  let k := fresh (dom (keypair_store d)) in
  let i := hs_localIndex (handshake x) in
  let kp := mkKeypair 0 s r (Replay.Reset Replay.zeroFilter) init (clock d) i (hs_remoteIndex (handshake x)) in
  exists d' x', BeginSymmetricSession p d = Some (None, d') /\
    keypair_store d' = <[k := kp]> (keypair_store d) /\ peers d' = <[p := x']> (peers d) /\
    keypairs x' = (rotate init k (keypairs x)).1 /\ hs_state (handshake x') = handshakeZeroed /\
    hs_localIndex (handshake x') = 0 /\ isRunning x' = isRunning x /\
    (unused_index d x i -> is_Some (indexTable d !! i) ->
     exists e, indexTable d' !! i = Some e /\ ie_keypair e = Some k /\ ie_handshake e = None /\
       option_map ie_peer (indexTable d !! i) = Some (ie_peer e)) /\
    dev_privateKey d' = dev_privateKey d /\ dev_publicKey d' = dev_publicKey d /\ clock d' = clock d /\
    indexTable d' = foldl (del_keypair (keypair_store d')) (swap_entry i k (indexTable d)) (rotate init k (keypairs x)).2 /\
    hs_remoteStatic (handshake x') = hs_remoteStatic (handshake x) /\
    keyMap d' = keyMap d /\ allowedips d' = allowedips d /\ outbound d' = outbound d /\ inbound d' = inbound d /\ state d' = state d.
Proof.
  intros Hx Hs Hk k i kp. unfold BeginSymmetricSession.
  rewrite (get_handshake_bind _ _ _ _ Hx), Hk. cbv zeta. rewrite gets_bind. rewrite bind_run. unfold new_keypair.
  fold k. dsimp. fold i. fold kp. set (st := <[k := kp]> (keypair_store d)).
  unfold SwapIndexForKeypair. rewrite modify_bind. cbv beta.
  set (t := swap_entry i k (indexTable d)).
  set (d1 := set_indexTable t (set_keypair_store st d)).
  assert ((match indexTable (set_keypair_store st d) !! i with
    | Some entry => set_indexTable (<[i:=mkIndexEntry (ie_peer entry) None (Some k)]> (indexTable (set_keypair_store st d))) (set_keypair_store st d)
    | None => set_keypair_store st d end) = d1) as Hd1.
  { unfold d1, t, swap_entry. dsimp. destruct (indexTable d !! i); [done|]. by destruct d. }
  set (h0 := set_hs_state handshakeZeroed _). 
  assert (hs_localIndex h0 = i) as Hi0 by done. rewrite ?Hi0, Hd1. rewrite put_handshake_bind.
  set (h := set_hs_localIndex 0 h0). set (d2 := set_peers (alter (set_handshake h) p (peers d1)) d1).
  assert (peers d2 !! p = Some (set_handshake h x)) as Hx2 by (by apply (alter_lookup p x (set_handshake h) (peers d1))).
  rewrite (get_peer_bind _ _ _ _ Hx2). assert (keypairs (set_handshake h x) = keypairs x) as -> by done.
  destruct (rotate init k (keypairs x)) as [sl del] eqn:Er. rewrite bind_run, DeleteKeypairs_run.
  2:{ intros k' Hin. assert (Some k' ∈ slots (keypairs x)) as Hin' by (apply (rotate_deleted init k); by rewrite Er).
      change (is_Some (st !! k')). unfold st. destruct (decide (k' = k)) as [->|]; [by rewrite lookup_insert_eq|].
      rewrite lookup_insert_ne by done. by apply Hs. }
  unfold modify_peer. rewrite modify_bind. eexists _, (set_keypairs sl (set_handshake h x)). split; [reflexivity|].
  split; [reflexivity|]. split.
  { change (alter (set_keypairs sl) p (alter (set_handshake h) p (peers d)) = <[p := set_keypairs sl (set_handshake h x)]> (peers d)).
    apply map_eq. intros q. destruct (decide (q = p)) as [->|].
    - by rewrite lookup_insert_eq, !lookup_alter_eq, Hx.
    - by rewrite lookup_insert_ne, !lookup_alter_ne by done. }
  split; [reflexivity|]. split; [reflexivity|]. split; [reflexivity|]. split; [reflexivity|].
  split; [|by split_and!].
  intros Hun [e He]. exists (mkIndexEntry (ie_peer e) None (Some k)). rewrite He. split; [|by split_and!].
  change (foldl (del_keypair st) t del !! i = Some (mkIndexEntry (ie_peer e) None (Some k))).
  apply del_keypairs_lookup. split; [unfold t, swap_entry; rewrite He; apply lookup_insert_eq|].
  intros k' kp' Hin Hst. assert (Some k' ∈ slots (keypairs x)) as Hin' by (apply (rotate_deleted init k); by rewrite Er).
  destruct (Hs _ Hin') as [kp'' Hk'']. assert (k' <> k) as Hne.
  { intros ->. apply (is_fresh (dom (keypair_store d))). apply elem_of_dom. by exists kp''. }
  unfold st in Hst. rewrite lookup_insert_ne in Hst by done. by eapply Hun.
Qed.
End session.

(** ** Agreement *)
Section agreement.
Context {C : Crypto} {L : CryptoLaws} {BI : Bind}.
Implicit Types (d : Device) (p : pid) (x : Peer).

(** A device with the identity [sk] whose peer [p] is configured for the holder
    of [sk']. *)
Definition configured d p x (sk sk' psk : list Z) : Prop :=
  dev_privateKey d = sk /\ dev_publicKey d = publicKey sk /\ peers d !! p = Some x /\ slots_ok d x /\
  hs_remoteStatic (handshake x) = publicKey sk' /\
  hs_precomputedStaticStatic (handshake x) = ScalarMult sk (publicKey sk') /\
  hs_presharedKey (handshake x) = psk.
(** The session of a peer, in the slot read by [slot]. *)
Definition session_at d p (slot : Keypairs -> option kid) (k : kid) (K : Keypair) : Prop :=
  exists x, peers d !! p = Some x /\ slot (keypairs x) = Some k /\ keypair_store d !! k = Some K.
(** The index table leads from the session's index to it. *)
Definition indexed d p (k : kid) (K : Keypair) : Prop :=
  exists e, indexTable d !! kp_localIndex K = Some e /\ ie_keypair e = Some k /\ ie_peer e = p.

(** C3: The Noise handshake. When two devices are configured for each other, the
    responder accepts every initiation its peer creates (fresh and not too soon
    after the last one), the initiator accepts the response to it, and after
    deriving the session both hold the same two keys, crossed, each knows the
    other's index, and the index table leads to the new session. *)
Theorem handshake_agreement entA entB draws pA pB xA xB dA dB skA skB psk m1 dA1 :
  configured dA pA xA skA skB psk -> configured dB pB xB skB skA psk ->
  keyMap dB !! publicKey skA = Some pB -> isRunning xB = true ->
  accepts (clock dB) (stamp (clock dA)) (handshake xB) ->
  CreateMessageInitiation entA draws pA dA = Some (Ok m1, dA1) ->
  exists dB1, ConsumeMessageInitiation m1 dB = Some (Some pB, dB1) /\
    forall m2 dB2, CreateMessageResponse entB draws pB dB1 = Some (Ok m2, dB2) ->
    exists dA2 dA3 dB3 kA kB KA KB,
      ConsumeMessageResponse m2 dA1 = Some (Some pA, dA2) /\
      BeginSymmetricSession pA dA2 = Some (None, dA3) /\ BeginSymmetricSession pB dB2 = Some (None, dB3) /\
      session_at dA3 pA current kA KA /\ session_at dB3 pB next kB KB /\
      send_key KA = receive_key KB /\ receive_key KA = send_key KB /\
      kp_localIndex KA = kp_remoteIndex KB /\ kp_remoteIndex KA = kp_localIndex KB /\
      (unused_index dA xA (kp_localIndex KA) -> indexed dA3 pA kA KA) /\
      (unused_index dB xB (kp_localIndex KB) -> indexed dB3 pB kB KB).
Proof.
  intros (HskA & HpkA & HxA & HslA & HrsA & HssA & HpskA) (HskB & HpkB & HxB & HslB & HrsB & HssB & HpskB) Hmap Hrun Hacc H1.
  apply (CreateMessageInitiation_inv _ _ _ _ _ _ _ HxA) in H1. cbn zeta in H1.
  rewrite HrsA, HssA, HpkA in H1. set (e := clamp (entA (rnd dA)).1) in *.
  destruct H1 as (Hz1 & Hz2 & Hm1 & (hA & HxA1 & HstA & HliA & HeA & HhA & HckA & HpA & _) & HtA1 & HskA1 & HpkA1 & HstoreA & _).
  assert (ScalarMult skB (publicKey skA) = ScalarMult skA (publicKey skB)) as Hdh by apply dh_agree. rewrite Hdh in HssB.
  destruct (ConsumeMessageInitiation_ok pB xB dB e m1 (stamp (clock dA))) as (hB & HB1 & HstB & HhB & HckB & HriB & HreB & HrsB1 & HpB & _).
  all: rewrite ?HskB, ?HrsB, ?HssB; try done; try (by rewrite Hm1); try apply base_bytes; try apply stamp_bytes.
  exists (set_peers (alter (set_handshake hB) pB (peers dB)) dB). split; [exact HB1|]. intros m2 dB2 H2.
  rewrite HrsB in HrsB1. rewrite HskB, HrsB, HssB in HhB. rewrite HskB, HssB in HckB.
  assert (peers (set_peers (alter (set_handshake hB) pB (peers dB)) dB) !! pB = Some (set_handshake hB xB)) as HxB1 by by apply alter_lookup.
  apply (CreateMessageResponse_inv _ _ _ _ _ _ _ HxB1) in H2 as (f & nB & H2). cbn zeta in H2.
  change (handshake (set_handshake hB xB)) with hB in H2. rewrite HreB, HrsB1, HhB, HckB, HpB, HpskB, HriB in H2.
  destruct H2 as (Hz3 & Hz4 & Hm2 & hB2 & -> & HstB2 & HliB2 & HriB2 & HckB2).
  set (E := publicKey e) in *. set (F := publicKey f) in *.
  set (H3 := hash3 _ _ _ _ _ _) in *. set (CK := (keys2 _ _ _).1) in *.
  assert (mr_Receiver m2 = mi_Sender m1) as Hrec by (by rewrite Hm2).
  destruct (ConsumeMessageResponse_ok pA (set_handshake hA xA) dA1 f m2) as (hA2 & HA2 & HstA2 & HriA2 & HliA2 & HckA2);
    change (handshake (set_handshake hA xA)) with hA in *; rewrite ?HskA1, ?HskA, ?HeA, ?HhA, ?HckA, ?HpA, ?HpskA; try done.
  { by rewrite Hrec. }
  { by rewrite Hm2. }
  { by rewrite Hm2. }
  { by rewrite Hm2. }
  rewrite HskA1, HskA, HeA, HckA, HpA, HpskA in HckA2. fold F E in HckA2.
  set (CK3 := (keys3 _ _ _ _ _).1.1) in *.
  exists (set_peers (alter (set_handshake hA2) pA (peers dA1)) dA1).
  set (dA2 := set_peers (alter (set_handshake hA2) pA (peers dA1)) dA1).
  set (dB2 := set_peers (alter (set_handshake hB2) pB _) _).
  assert (peers dA2 !! pA = Some (set_handshake hA2 (set_handshake hA xA))) as HxA2 by by apply alter_lookup.
  assert (peers dB2 !! pB = Some (set_handshake hB2 (set_handshake hB xB))) as HxB2 by by apply alter_lookup.
  assert (indexTable dB2 !! mr_Sender m2 = Some (mkIndexEntry pB (Some pB) None)) as HtB by apply lookup_insert_eq.
  assert (indexTable dA2 !! mi_Sender m1 = Some (mkIndexEntry pA (Some pA) None)) as HtA by done.
  assert (slots_ok dA2 (set_handshake hA2 (set_handshake hA xA))) as HslA2.
  { intros k Hk. change (is_Some (keypair_store dA1 !! k)). rewrite HstoreA. by apply HslA. }
  assert (slots_ok dB2 (set_handshake hB2 (set_handshake hB xB))) as HslB2 by exact HslB.
  assert (keypair_store dA2 = keypair_store dA) as HstA3 by exact HstoreA.
  assert (keypair_store dB2 = keypair_store dB) as HstB3 by done.
  destruct (KDF2 CK3 []) as [K1 K2] eqn:Hkdf.
  destruct (BeginSymmetricSession_ok pA _ dA2 true K1 K2 HxA2 HslA2) as (dA3 & xA3 & HbA & HsA & HpA3 & HkA & _ & _ & _ & HiA & _).
  { change (session_keys hA2 = Some (true, K1, K2)). unfold session_keys. by rewrite HstA2, HckA2, Hkdf. }
  destruct (BeginSymmetricSession_ok pB _ dB2 false K2 K1 HxB2 HslB2) as (dB3 & xB3 & HbB & HsB & HpB3 & HkB & _ & _ & _ & HiB & _).
  { change (session_keys hB2 = Some (false, K2, K1)). unfold session_keys. by rewrite HstB2, HckB2, Hkdf. }
  change (ConsumeMessageResponse m2 dA1 = Some (Some pA, dA2)) in HA2. clearbody dA2 dB2. dsimp_in HiA. dsimp_in HiB. rewrite HliA2, HliA in HiA. rewrite HliB2 in HiB.
  eexists dA3, dB3, _, _, _, _. split; [exact HA2|]. split; [exact HbA|]. split; [exact HbB|].
  split; [exists xA3; rewrite HpA3, HsA, HkA; split_and!; [apply lookup_insert_eq|cbn; by destruct (next _)|apply lookup_insert_eq]|].
  split; [exists xB3; rewrite HpB3, HsB, HkB; split_and!; [apply lookup_insert_eq|done|apply lookup_insert_eq]|].
  cbn [send_key receive_key kp_localIndex kp_remoteIndex]. dsimp. rewrite HliA2, HliA, HriA2, HliB2, HriB2.
  split_and!; [done..| |].
  - intros Hun. unfold unused_index in Hun. rewrite <- HstA3 in Hun.
    destruct (HiA Hun (mk_is_Some _ _ HtA)) as (e' & He & Hk & _ & Hp). rewrite HtA in Hp. cbn in Hp. injection Hp as Hp.
    unfold indexed. cbn [kp_localIndex]. dsimp. rewrite ?HliA2, ?HliA. exists e'. by split_and!.
  - intros Hun. unfold unused_index in Hun. rewrite <- HstB3 in Hun.
    destruct (HiB Hun (mk_is_Some _ _ HtB)) as (e' & He & Hk & _ & Hp). rewrite HtB in Hp. cbn in Hp. injection Hp as Hp.
    unfold indexed. cbn [kp_localIndex]. dsimp. rewrite ?HliB2. exists e'. by split_and!.
Qed.
End agreement.
