(* ===== verification/WGPeer.v ===== *)
(** * wireguard-go/device: timers, sending, and the life of a peer

    [timers.go], [send.go] and [peer.go]. Queues are lists: [staged] the packets
    of a peer that wait for a session (one list of packets per container),
    [outbound] the containers with their nonces assigned, which the encryption
    workers and the peer's sequential sender take in order. *)
From S2P Require Import Prelude GoStrings GoNet GoBytes WGCrypto WGCookie WGState Handshake.
From S2P Require AllowedIPs.
Open Scope Z_scope.

(** [calculatePaddingSize]; Go's [^] on an [int]. *)
Definition round16 (n : Z) : Z := Z.land (n + PaddingMultiple - 1) (Z.lnot (PaddingMultiple - 1)).
Definition calculatePaddingSize (packetSize mtu : Z) : Z :=
  let lastUnit := packetSize in
  if mtu =? 0 then round16 lastUnit - lastUnit
  else
    let lastUnit := if mtu <? lastUnit then Z.rem lastUnit mtu else lastUnit in
    let paddedSize := round16 lastUnit in
    let paddedSize := if mtu <? paddedSize then mtu else paddedSize in
    paddedSize - lastUnit.

(** One container per peer, in the order of the first packets: [elemsByPeer]. *)
Definition add_to_group {A} (p : pid) (x : A) (groups : list (pid * list A)) : list (pid * list A) :=
  if existsb (fun g => bool_decide (g.1 = p)) groups
  then map (fun g => if bool_decide (g.1 = p) then (p, g.2 ++ [x]) else g) groups
  else groups ++ [(p, [x])].

Section peer.
Context {C : Crypto} {BI : Bind} (entropy : nat -> list Z * option error) (draws : nat).

(** ** Timers *)
Definition timersActive (p : pid) : M bool :=
  x ← get_peer p; up ← isUp; mret (isRunning x && up).
(** [Timer.Mod] for the timer written by [set]. *)
Definition Timer_Mod (p : pid) (set : Timer -> Timers -> Timers) (dur : Z) : M unit :=
  now ← gets clock; modify_peer p (on_timers (set (Some (now + dur)))).
Definition Timer_Del (p : pid) (set : Timer -> Timers -> Timers) : M unit := modify_peer p (on_timers (set None)).
Definition IsPending (p : pid) (get : Timers -> Timer) : M bool :=
  x ← get_peer p; mret (bool_decide (is_Some (get (timers x)))).
Definition millisecond : Z := 1000000.

Definition timersDataSent (p : pid) : M unit :=
  active ← timersActive p;
  pending ← IsPending p newHandshake;
  if active && negb pending then
    j ← fastrandn entropy RekeyTimeoutJitterMaxMs;
    Timer_Mod p set_newHandshake (KeepaliveTimeout + RekeyTimeout + millisecond * j)
  else mret tt.
Definition timersDataReceived (p : pid) : M unit :=
  active ← timersActive p;
  if active : bool then
    pending ← IsPending p sendKeepalive;
    if negb pending then Timer_Mod p set_sendKeepalive KeepaliveTimeout
    else modify_peer p (on_timers (set_needAnotherKeepalive true))
  else mret tt.
Definition timersAnyAuthenticatedPacketSent (p : pid) : M unit :=
  active ← timersActive p; when active (Timer_Del p set_sendKeepalive).
Definition timersAnyAuthenticatedPacketReceived (p : pid) : M unit :=
  active ← timersActive p; when active (Timer_Del p set_newHandshake).
Definition timersHandshakeInitiated (p : pid) : M unit :=
  active ← timersActive p;
  if active : bool then
    j ← fastrandn entropy RekeyTimeoutJitterMaxMs;
    Timer_Mod p set_retransmitHandshake (RekeyTimeout + millisecond * j)
  else mret tt.
Definition timersHandshakeComplete (p : pid) : M unit :=
  active ← timersActive p;
  _ ← when active (Timer_Del p set_retransmitHandshake);
  _ ← modify_peer p (on_timers (set_handshakeAttempts 0));
  _ ← modify_peer p (on_timers (set_sentLastMinuteHandshake false));
  now ← gets clock;
  modify_peer p (set_lastHandshakeNano now).
Definition timersSessionDerived (p : pid) : M unit :=
  active ← timersActive p; when active (Timer_Mod p set_zeroKeyMaterial (RejectAfterTime * 3)).
Definition timersAnyAuthenticatedPacketTraversal (p : pid) : M unit :=
  x ← get_peer p;
  let keepalive := persistentKeepaliveInterval x in
  active ← timersActive p;
  when ((0 <? keepalive) && active) (Timer_Mod p set_persistentKeepalive (keepalive * second)).
Definition timersStart (p : pid) : M unit :=
  modify_peer p (on_timers (fun t =>
    set_needAnotherKeepalive false (set_sentLastMinuteHandshake false (set_handshakeAttempts 0 t)))).
Definition timersStop (p : pid) : M unit :=
  modify_peer p (on_timers (fun t =>
    set_persistentKeepalive None (set_zeroKeyMaterial None (set_newHandshake None
      (set_sendKeepalive None (set_retransmitHandshake None t)))))).

(** ** The endpoint and the socket *)
Definition total_len (buffers : list (list Z)) : Z := u64 (fold_right (fun b n => Z.of_nat (length b) + n) 0 buffers).
(** [clearSrcOnTx] makes the next transmission forget the cached source
    address of the endpoint. *)
Definition clear_src (x : Peer) : Peer :=
  if clearSrcOnTx x
  then set_clearSrcOnTx false (set_endpoint_val (option_map ClearSrc (endpoint_val x)) x) else x.
Definition SendBuffers (p : pid) (buffers : list (list Z)) : M (option error) :=
  closed ← isClosed;
  if closed : bool then mret None
  else
    x ← get_peer p;
    match endpoint_val x with
    | None => mret (Some (Errorf "no known endpoint for peer" []))
    | Some _ =>
        _ ← modify_peer p clear_src;
        x ← get_peer p;
        match endpoint_val x with
        | None => mret None
        | Some ep =>
            bs ← gets bind_state;
            let '(bs, err) := Bind_Send buffers ep bs in
            _ ← modify (set_bind_state bs);
            match err with
            | Some e => mret (Some e)
            | None =>
                _ ← modify (fun d => set_sent (sent d ++ map (fun b => (b, ep)) buffers) d);
                _ ← modify_peer p (fun x => set_txBytes (u64 (txBytes x + total_len buffers)) x);
                mret None
            end
        end
    end.
Definition SetEndpointFromPacket (p : pid) (ep : Endpoint) : M unit :=
  modify_peer p (fun x =>
    if disableRoaming x then x else set_endpoint_val (Some ep) (set_clearSrcOnTx false x)).
Definition markEndpointSrcForClearing (p : pid) : M unit :=
  modify_peer p (fun x => match endpoint_val x with None => x | Some _ => set_clearSrcOnTx true x end).

(** ** Staged packets *)

(** A full queue loses its oldest container. *)
Definition stage (elems : list (list Z)) (q : list (list (list Z))) : list (list (list Z)) :=
  if (length q <? QueueStagedSize)%nat then q ++ [elems] else tail q ++ [elems].
Definition StagePackets (p : pid) (elems : list (list Z)) : M unit :=
  modify_peer p (fun x => set_staged (stage elems (staged x)) x).
Definition FlushStagedPackets (p : pid) : M unit := modify_peer p (set_staged []).

(** ** Handshake messages *)
Definition add_macs (p : pid) (packet : list Z) : M (list Z) :=
  now ← gets clock;
  x ← get_peer p;
  let '(packet, g) := AddMacs now (cookieGenerator x) packet in
  _ ← modify_peer p (set_cookieGenerator g);
  mret packet.
Definition SendHandshakeInitiation (p : pid) (isRetry : bool) : M (option error) :=
  _ ← unless isRetry (modify_peer p (on_timers (set_handshakeAttempts 0)));
  h ← get_handshake p;
  age ← since (hs_lastSentHandshake h);
  if age <? RekeyTimeout then mret None
  else
    now ← gets clock;
    _ ← modify_peer p (on_handshake (set_hs_lastSentHandshake now));
    r ← CreateMessageInitiation entropy draws p;
    match r with
    | Err err => mret (Some err)
    | Ok msg =>
        packet ← add_macs p (MessageInitiation_marshal msg);
        _ ← timersAnyAuthenticatedPacketTraversal p;
        _ ← timersAnyAuthenticatedPacketSent p;
        err ← SendBuffers p [packet];
        _ ← timersHandshakeInitiated p;
        mret err
    end.
Definition SendHandshakeResponse (p : pid) : M (option error) :=
  now ← gets clock;
  _ ← modify_peer p (on_handshake (set_hs_lastSentHandshake now));
  r ← CreateMessageResponse entropy draws p;
  match r with
  | Err err => mret (Some err)
  | Ok response =>
      packet ← add_macs p (MessageResponse_marshal response);
      err ← BeginSymmetricSession p;
      match err with
      | Some err => mret (Some err)
      | None =>
          _ ← timersSessionDerived p;
          _ ← timersAnyAuthenticatedPacketTraversal p;
          _ ← timersAnyAuthenticatedPacketSent p;
          SendBuffers p [packet]
      end
  end.
Definition keepKeyFreshSending (p : pid) : M unit :=
  k ← Keypairs_Current p;
  match k with
  | None => mret tt
  | Some k =>
      kp ← get_keypair k;
      age ← since (created kp);
      if (RekeyAfterMessages <? sendNonce kp) || (isInitiator kp && (RekeyAfterTime <? age))
      then _ ← SendHandshakeInitiation p false; mret tt
      else mret tt
  end.

(** ** Packets *)

(** Assigning nonces to the packets of a container: those that get one, those
    that come too late, and the keypair's counter. *)
Fixpoint assign_nonces (k : kid) (nonce : Z) (elems : list (list Z)) : list OutboundElement * list (list Z) * Z :=
  match elems with
  | [] => ([], [], nonce)
  | e :: elems =>
      let next := u64 (nonce + 1) in
      let n := u64 (next - 1) in
      if RejectAfterMessages <=? n then
        let '(ok, late, nonce) := assign_nonces k RejectAfterMessages elems in (ok, e :: late, nonce)
      else
        let '(ok, late, nonce) := assign_nonces k next elems in (mkOutbound e n k :: ok, late, nonce)
  end.

(** [SendStagedPackets], at the label [top] or, with the keypair in hand, in the
    loop. Every turn of the loop takes a container off the queue; only packets
    beyond the nonce limit are staged again, and then [top] sees the limit
    reached: twice the length of the queue and three turns are enough. *)
Fixpoint SendStagedPackets_loop (fuel : nat) (p : pid) (keypair : option kid) : M unit :=
  match fuel with
  | O => fun _ => None
  | S fuel =>
      x ← get_peer p;
      match keypair with
      | None =>
          up ← isUp;
          if bool_decide (staged x = []) || negb up then mret tt
          else
            match current (keypairs x) with
            | None => _ ← SendHandshakeInitiation p false; mret tt
            | Some k =>
                kp ← get_keypair k;
                age ← since (created kp);
                if (RejectAfterMessages <=? sendNonce kp) || (RejectAfterTime <=? age)
                then _ ← SendHandshakeInitiation p false; mret tt
                else SendStagedPackets_loop fuel p (Some k)
            end
      | Some k =>
          match staged x with
          | [] => mret tt
          | elems :: queue =>
              kp ← get_keypair k;
              let '(ok, late, nonce) := assign_nonces k (sendNonce kp) elems in
              _ ← modify_peer p (set_staged queue);
              _ ← modify_keypair k (set_sendNonce nonce);
              _ ← unless (bool_decide (late = [])) (StagePackets p late);
              if bool_decide (ok = []) then SendStagedPackets_loop fuel p None
              else
                _ ← when (isRunning x) (modify (fun d => set_outbound (outbound d ++ [(p, ok)]) d));
                SendStagedPackets_loop fuel p (if bool_decide (late = []) then Some k else None)
          end
      end
  end.
Definition SendStagedPackets (p : pid) : M unit :=
  x ← get_peer p; SendStagedPackets_loop (2 * length (staged x) + 3) p None.

Definition SendKeepalive (p : pid) : M unit :=
  x ← get_peer p;
  _ ← when (bool_decide (staged x = []) && isRunning x) (modify_peer p (fun x => set_staged (staged x ++ [[[]]]) x));
  SendStagedPackets p.

(** [RoutineEncryption] on one element: the transport message. *)
Definition nonce_bytes (n : Z) : list Z := zeros 4 ++ le_bytes 8 n.
Definition encrypt (mtu : Z) (kp : Keypair) (e : OutboundElement) : list Z :=
  let paddingSize := calculatePaddingSize (Z.of_nat (length (oe_packet e))) mtu in
  let packet := oe_packet e ++ zeros (Z.to_nat paddingSize) in
  le_bytes 4 MessageTransportType ++ le_bytes 4 (kp_remoteIndex kp) ++ le_bytes 8 (oe_nonce e) ++
  aead_Seal (send_key kp) (nonce_bytes (oe_nonce e)) packet [].
Fixpoint encrypt_all (elems : list OutboundElement) : M (list (list Z)) :=
  match elems with
  | [] => mret []
  | e :: elems =>
      kp ← get_keypair (oe_keypair e);
      mtu ← gets tun_mtu;
      bufs ← encrypt_all elems;
      mret (encrypt mtu kp e :: bufs)
  end.
(** [RoutineEncryption] and [RoutineSequentialSender] on a container, and on
    the first one of the queue. *)
Definition send_container (p : pid) (elems : list OutboundElement) : M unit :=
  bufs ← encrypt_all elems;
  x ← get_peer p;
  if negb (isRunning x) then mret tt
  else
    let dataSent := existsb (fun b => negb (length b =? MessageKeepaliveSize)%nat) bufs in
    _ ← timersAnyAuthenticatedPacketTraversal p;
    _ ← timersAnyAuthenticatedPacketSent p;
    err ← SendBuffers p bufs;
    _ ← when dataSent (timersDataSent p);
    match err with
    | Some _ => mret tt
    | None => keepKeyFreshSending p
    end.
Definition SequentialSender_step : M unit :=
  q ← gets outbound;
  match q with
  | [] => mret tt
  | (p, elems) :: rest => _ ← modify (set_outbound rest); send_container p elems
  end.

(** ** Packets from the TUN device *)

(** [RoutineReadFromTUN]: the peer of one packet. *)
Definition route_packet (packet : list Z) : M (option pid) :=
  T ← gets allowedips;
  match packet with
  | [] => mret None
  | b :: _ =>
      let version := Z.shiftr b 4 in
      if version =? 4 then
        if (length packet <? 20)%nat then mret None
        else mret (AllowedIPs.Lookup T (slice 16 4 packet))
      else if version =? 6 then
        if (length packet <? 40)%nat then mret None
        else mret (AllowedIPs.Lookup T (slice 24 16 packet))
      else mret None
  end.
Fixpoint group_by_peer (packets : list (list Z)) (groups : list (pid * list (list Z))) : M (list (pid * list (list Z))) :=
  match packets with
  | [] => mret groups
  | packet :: packets =>
      peer ← route_packet packet;
      match peer with
      | None => group_by_peer packets groups
      | Some p =>
          group_by_peer packets (add_to_group p packet groups)
      end
  end.
(** One batch read from the TUN device. The order in which the peers of a batch
    are served is that of a Go map; here it is that of their first packets. *)
Definition ReadFromTUN_step (packets : list (list Z)) : M unit :=
  groups ← group_by_peer packets [];
  forM groups (fun g =>
    x ← get_peer g.1;
    if isRunning x then _ ← StagePackets g.1 g.2; SendStagedPackets g.1 else mret tt).

(** ** Timers firing *)
Definition ZeroAndFlushAll (p : pid) : M unit :=
  x ← get_peer p;
  let s := keypairs x in
  _ ← DeleteKeypair (previous s);
  _ ← DeleteKeypair (current s);
  _ ← DeleteKeypair (next s);
  _ ← modify_peer p (set_keypairs (mkKeypairs None None None));
  h ← get_handshake p;
  _ ← IndexTable_Delete (hs_localIndex h);
  _ ← modify_peer p (on_handshake Handshake_Clear);
  FlushStagedPackets p.
Definition ExpireCurrentKeypairs (p : pid) : M unit :=
  h ← get_handshake p;
  now ← gets clock;
  _ ← IndexTable_Delete (hs_localIndex h);
  _ ← modify_peer p (on_handshake (fun h => set_hs_lastSentHandshake (now - (RekeyTimeout + second)) (Handshake_Clear h)));
  x ← get_peer p;
  _ ← match current (keypairs x) with Some k => modify_keypair k (set_sendNonce RejectAfterMessages) | None => mret tt end;
  match next (keypairs x) with Some k => modify_keypair k (set_sendNonce RejectAfterMessages) | None => mret tt end.

Definition expiredRetransmitHandshake (p : pid) : M unit :=
  x ← get_peer p;
  if MaxTimerHandshakes <? handshakeAttempts (timers x) then
    active ← timersActive p;
    _ ← when active (Timer_Del p set_sendKeepalive);
    _ ← FlushStagedPackets p;
    pending ← IsPending p zeroKeyMaterial;
    when (active && negb pending) (Timer_Mod p set_zeroKeyMaterial (RejectAfterTime * 3))
  else
    _ ← modify_peer p (on_timers (fun t => set_handshakeAttempts (u32 (handshakeAttempts t + 1)) t));
    _ ← markEndpointSrcForClearing p;
    _ ← SendHandshakeInitiation p true;
    mret tt.
Definition expiredSendKeepalive (p : pid) : M unit :=
  _ ← SendKeepalive p;
  x ← get_peer p;
  if needAnotherKeepalive (timers x) then
    _ ← modify_peer p (on_timers (set_needAnotherKeepalive false));
    active ← timersActive p;
    when active (Timer_Mod p set_sendKeepalive KeepaliveTimeout)
  else mret tt.
Definition expiredNewHandshake (p : pid) : M unit :=
  _ ← markEndpointSrcForClearing p; _ ← SendHandshakeInitiation p false; mret tt.
Definition expiredZeroKeyMaterial (p : pid) : M unit := ZeroAndFlushAll p.
Definition expiredPersistentKeepalive (p : pid) : M unit :=
  x ← get_peer p;
  if 0 <? persistentKeepaliveInterval x then SendKeepalive p else mret tt.

(** The function of the goroutine of a timer ([NewTimer]) when it fires. *)
Inductive timer_name := TRetransmit | TSendKeepalive | TNewHandshake | TZeroKeyMaterial | TPersistentKeepalive.
Definition timer_get (n : timer_name) : Timers -> Timer :=
  match n with TRetransmit => retransmitHandshake | TSendKeepalive => sendKeepalive | TNewHandshake => newHandshake
  | TZeroKeyMaterial => zeroKeyMaterial | TPersistentKeepalive => persistentKeepalive end.
Definition timer_set (n : timer_name) : Timer -> Timers -> Timers :=
  match n with TRetransmit => set_retransmitHandshake | TSendKeepalive => set_sendKeepalive | TNewHandshake => set_newHandshake
  | TZeroKeyMaterial => set_zeroKeyMaterial | TPersistentKeepalive => set_persistentKeepalive end.
Definition expirationFunction (n : timer_name) : pid -> M unit :=
  match n with TRetransmit => expiredRetransmitHandshake | TSendKeepalive => expiredSendKeepalive
  | TNewHandshake => expiredNewHandshake | TZeroKeyMaterial => expiredZeroKeyMaterial
  | TPersistentKeepalive => expiredPersistentKeepalive end.
Definition timer_fires (p : pid) (n : timer_name) : M unit :=
  pending ← IsPending p (timer_get n);
  if pending : bool then _ ← Timer_Del p (timer_set n); expirationFunction n p else mret tt.

(** ** Starting and stopping *)
Definition Peer_Start (p : pid) : M unit :=
  closed ← isClosed;
  x ← get_peer p;
  if (closed : bool) || isRunning x then mret tt
  else
    now ← gets clock;
    _ ← modify_peer p (on_handshake (set_hs_lastSentHandshake (now - (RekeyTimeout + second))));
    _ ← timersStart p;
    _ ← modify (fun d => set_inbound (filter (fun c => c.1 <> p) (inbound d)) d);
    _ ← modify (fun d => set_outbound (filter (fun c => c.1 <> p) (outbound d)) d);
    modify_peer p (set_isRunning true).
Definition Peer_Stop (p : pid) : M unit :=
  x ← get_peer p;
  if negb (isRunning x) then mret tt
  else
    _ ← modify_peer p (set_isRunning false);
    _ ← timersStop p;
    ZeroAndFlushAll p.
End peer.
