(* ===== verification/WGRecv.v ===== *)
(** * wireguard-go/device: receiving

    [receive.go]: sorting the datagrams, the handshake worker with its defences
    against load, the decryption of transport messages and what is let through
    to the TUN device. A received packet of a batch is an [InboundElement];
    [RoutineDecryption] and [RoutineSequentialReceiver] run on one container. *)
From S2P Require Import Prelude GoStrings GoNet GoBytes WGCrypto WGCookie WGState Handshake WGPeer.
From S2P Require AllowedIPs Replay RateLimiter.
Open Scope Z_scope.

Section recv.
Context {C : Crypto} {BI : Bind} (entropy : nat -> list Z * option error) (draws : nat).

Definition IsUnderLoad : M bool :=
  now ← gets clock;
  q ← gets (fun d => length (handshake_queue d));
  if (QueueHandshakeSize / 8 <=? q)%nat then _ ← modify (set_underLoadUntil (now + UnderLoadAfterTime)); mret true
  else u ← gets underLoadUntil; mret (now <? u).

(** ** Datagrams *)
(** [RoutineReceiveIncoming] on one datagram: the peer and element of a
    transport message; handshake messages go to the queue of the workers. *)
Definition receive_datagram (packet : list Z) (ep : Endpoint) : M (option (pid * InboundElement)) :=
  if (length packet <? MinMessageSize)%nat then mret None
  else
    let msgType := le_val (slice 0 4 packet) in
    if msgType =? MessageTransportType then
      if (length packet <? MessageTransportSize)%nat then mret None
      else
        value ← IndexTable_Lookup (le_val (slice 4 4 packet));
        match value with
        | Some (mkIndexEntry peer _ (Some keypair)) =>
            kp ← get_keypair keypair;
            now ← gets clock;
            if created kp + RejectAfterTime <? now then mret None
            else mret (Some (peer, mkInbound packet keypair ep))
        | _ => mret None
        end
    else
      let size_ok :=
        if msgType =? MessageInitiationType then (length packet =? MessageInitiationSize)%nat
        else if msgType =? MessageResponseType then (length packet =? MessageResponseSize)%nat
        else if msgType =? MessageCookieReplyType then (length packet =? MessageCookieReplySize)%nat
        else false in
      if negb size_ok then mret None
      else
        q ← gets handshake_queue;
        _ ← when (length q <? QueueHandshakeSize)%nat
              (modify (set_handshake_queue (q ++ [mkHandshakeElement msgType packet ep])));
        mret None.

(** A batch: the containers put in the inbound queues of running peers. *)
Fixpoint receive_batch (batch : list (list Z * Endpoint)) (groups : list (pid * list InboundElement))
    : M (list (pid * list InboundElement)) :=
  match batch with
  | [] => mret groups
  | (packet, ep) :: batch =>
      r ← receive_datagram packet ep;
      receive_batch batch (match r with Some (p, elem) => add_to_group p elem groups | None => groups end)
  end.
Fixpoint running_groups {A} (groups : list (pid * list A)) : M (list (pid * list A)) :=
  match groups with
  | [] => mret []
  | g :: groups =>
      x ← get_peer g.1;
      rest ← running_groups groups;
      mret (if isRunning x then g :: rest else rest)
  end.
Definition ReceiveIncoming_step (batch : list (list Z * Endpoint)) : M unit :=
  groups ← receive_batch batch [];
  groups ← running_groups groups;
  modify (fun d => set_inbound (inbound d ++ groups) d).

(** ** The handshake worker *)
Definition SendHandshakeCookie (elem : QueueHandshakeElement) : M (option error) :=
  let sender := le_val (slice 4 4 (he_packet elem)) in
  now ← gets clock;
  c ← gets cookieChecker;
  secret ← (if CookieRefreshTime <? time_Since now (cc_secretSet c) then rand_Read entropy else mret (cc_secret c, None));
  nonce ← rand_Read entropy;
  let '(c, reply) := CreateReply now secret (take 24 nonce.1, nonce.2) c (he_packet elem) sender (DstToBytes (he_endpoint elem)) in
  _ ← modify (set_cookieChecker c);
  match reply with
  | Err err => mret (Some err)
  | Ok reply =>
      bs ← gets bind_state;
      let packet := MessageCookieReply_marshal reply in
      let '(bs, err) := Bind_Send [packet] (he_endpoint elem) bs in
      _ ← modify (set_bind_state bs);
      _ ← when (bool_decide (err = None)) (modify (fun d => set_sent (sent d ++ [(packet, he_endpoint elem)]) d));
      mret None
  end.

(** Whether the worker goes on with an initiation or response. *)
Definition admission (elem : QueueHandshakeElement) : M bool :=
  c ← gets cookieChecker;
  if negb (CheckMAC1 c (he_packet elem)) then mret false
  else
    load ← IsUnderLoad;
    if negb load then mret true
    else
      now ← gets clock;
      if negb (CheckMAC2 now c (he_packet elem) (DstToBytes (he_endpoint elem))) then
        _ ← SendHandshakeCookie elem; mret false
      else
        r ← gets limiter;
        let '(ok, r) := RateLimiter.Allow now (DstIP (he_endpoint elem)) r in
        _ ← modify (set_limiter r);
        mret ok.

Definition add_rx (p : pid) (n : nat) : M unit :=
  modify_peer p (fun x => set_rxBytes (u64 (rxBytes x + Z.of_nat n)) x).

Definition handle_initiation (packet : list Z) (ep : Endpoint) : M unit :=
  match MessageInitiation_unmarshal packet with
  | Err _ => mret tt
  | Ok msg =>
      peer ← ConsumeMessageInitiation msg;
      match peer with
      | None => mret tt
      | Some p =>
          _ ← timersAnyAuthenticatedPacketTraversal p;
          _ ← timersAnyAuthenticatedPacketReceived p;
          _ ← SetEndpointFromPacket p ep;
          _ ← add_rx p (length packet);
          _ ← SendHandshakeResponse entropy draws p;
          mret tt
      end
  end.
Definition handle_response (packet : list Z) (ep : Endpoint) : M unit :=
  match MessageResponse_unmarshal packet with
  | Err _ => mret tt
  | Ok msg =>
      peer ← ConsumeMessageResponse msg;
      match peer with
      | None => mret tt
      | Some p =>
          _ ← SetEndpointFromPacket p ep;
          _ ← add_rx p (length packet);
          _ ← timersAnyAuthenticatedPacketTraversal p;
          _ ← timersAnyAuthenticatedPacketReceived p;
          err ← BeginSymmetricSession p;
          match err with
          | Some _ => mret tt
          | None =>
              _ ← timersSessionDerived p;
              _ ← timersHandshakeComplete p;
              SendKeepalive entropy draws p
          end
      end
  end.
Definition handle_cookie_reply (packet : list Z) : M unit :=
  match MessageCookieReply_unmarshal packet with
  | Err _ => mret tt
  | Ok reply =>
      entry ← IndexTable_Lookup (mc_Receiver reply);
      match entry with
      | None => mret tt
      | Some e =>
          x ← get_peer (ie_peer e);
          now ← gets clock;
          when (isRunning x)
            (modify_peer (ie_peer e) (fun x => set_cookieGenerator (ConsumeReply now (cookieGenerator x) reply).2 x))
      end
  end.
(** [RoutineHandshake] on the first element of its queue. *)
Definition Handshake_step : M unit :=
  q ← gets handshake_queue;
  match q with
  | [] => mret tt
  | elem :: q =>
      _ ← modify (set_handshake_queue q);
      if he_msgType elem =? MessageCookieReplyType then handle_cookie_reply (he_packet elem)
      else if (he_msgType elem =? MessageInitiationType) || (he_msgType elem =? MessageResponseType) then
        ok ← admission elem;
        if negb ok then mret tt
        else if he_msgType elem =? MessageInitiationType
        then handle_initiation (he_packet elem) (he_endpoint elem)
        else handle_response (he_packet elem) (he_endpoint elem)
      else mret tt
  end.

(** ** Transport messages *)
Definition keepKeyFreshReceiving (p : pid) : M unit :=
  x ← get_peer p;
  if sentLastMinuteHandshake (timers x) then mret tt
  else
    match current (keypairs x) with
    | None => mret tt
    | Some k =>
        kp ← get_keypair k;
        age ← since (created kp);
        if isInitiator kp && (RejectAfterTime - KeepaliveTimeout - RekeyTimeout <? age) then
          _ ← modify_peer p (on_timers (set_sentLastMinuteHandshake true));
          _ ← SendHandshakeInitiation entropy draws p false;
          mret tt
        else mret tt
    end.

(** [RoutineDecryption]: the counter, and the content if it is authentic. *)
Definition decrypt (kp : Keypair) (packet : list Z) : Z * option (list Z) :=
  let counter := le_val (slice 8 8 packet) in
  (counter, aead_Open (receive_key kp) (nonce_bytes counter) (drop 16 packet) []).

(** What of a decrypted packet is written to the TUN device: the packet cut to
    the length its header gives, if its source address belongs to the peer. The
    length of an IPv6 packet is computed in a [uint16]. *)
Definition inner_packet (T : AllowedIPs.AllowedIPs pid) (p : pid) (packet : list Z) : option (list Z) :=
  match packet with
  | [] => None
  | b :: _ =>
      let version := Z.shiftr b 4 in
      if version =? 4 then
        if (length packet <? 20)%nat then None
        else
          let len := be_val (slice 2 2 packet) in
          if (Z.of_nat (length packet) <? len) || (len <? 20) then None
          else
            let src := slice 12 4 packet in
            if bool_decide (AllowedIPs.Lookup T src = Some p) then Some (take (Z.to_nat len) packet) else None
      else if version =? 6 then
        if (length packet <? 40)%nat then None
        else
          let len := u16 (be_val (slice 4 2 packet) + 40) in
          if Z.of_nat (length packet) <? len then None
          else
            let src := slice 8 16 packet in
            if bool_decide (AllowedIPs.Lookup T src = Some p) then Some (take (Z.to_nat len) packet) else None
      else None
  end.

(** What the loop of [RoutineSequentialReceiver] accumulates: the endpoint of
    the last valid packet, whether one carried data, the bytes received, and
    what to write. *)
Record received := mkReceived {
  rc_tail : option Endpoint; rc_data : bool; rc_rx : Z; rc_bufs : list (list Z) }.

Definition receive_element (p : pid) (elem : InboundElement) (acc : received) : M received :=
  kp ← get_keypair (ib_keypair elem);
  match decrypt kp (ib_packet elem) with
  | (_, None) => mret acc
  | (counter, Some packet) =>
      let '(fresh, filter) := Replay.ValidateCounter (replayFilter kp) counter RejectAfterMessages in
      _ ← modify_keypair (ib_keypair elem) (set_replayFilter filter);
      if negb fresh then mret acc
      else
        confirmed ← ReceivedWithKeypair p (ib_keypair elem);
        _ ← (if confirmed : bool then
               _ ← SetEndpointFromPacket p (ib_endpoint elem);
               _ ← timersHandshakeComplete p;
               SendStagedPackets entropy draws p
             else mret tt);
        let rx := u64 (rc_rx acc + Z.of_nat (length packet + MinMessageSize)) in
        if bool_decide (packet = []) then mret (mkReceived (Some (ib_endpoint elem)) (rc_data acc) rx (rc_bufs acc))
        else
          T ← gets allowedips;
          let bufs := match inner_packet T p packet with Some b => rc_bufs acc ++ [b] | None => rc_bufs acc end in
          mret (mkReceived (Some (ib_endpoint elem)) true rx bufs)
  end.
Fixpoint receive_elements (p : pid) (elems : list InboundElement) (acc : received) : M received :=
  match elems with
  | [] => mret acc
  | e :: elems => acc ← receive_element p e acc; receive_elements p elems acc
  end.
(** One container of transport messages of peer [p]; it is dropped when the
    peer does not run. *)
Definition receive_container (p : pid) (elems : list InboundElement) : M unit :=
  x ← get_peer p;
  if negb (isRunning x) then mret tt
  else
    acc ← receive_elements p elems (mkReceived None false 0 []);
    _ ← modify_peer p (fun x => set_rxBytes (u64 (rxBytes x + rc_rx acc)) x);
    _ ← match rc_tail acc with
        | None => mret tt
        | Some ep =>
            _ ← SetEndpointFromPacket p ep;
            _ ← keepKeyFreshReceiving p;
            _ ← timersAnyAuthenticatedPacketTraversal p;
            timersAnyAuthenticatedPacketReceived p
        end;
    _ ← when (rc_data acc) (timersDataReceived p);
    modify (fun d => set_tun_written (tun_written d ++ rc_bufs acc) d).
(** [RoutineDecryption] and [RoutineSequentialReceiver] on the first container. *)
Definition SequentialReceiver_step : M unit :=
  q ← gets inbound;
  match q with
  | [] => mret tt
  | (p, elems) :: rest => _ ← modify (set_inbound rest); receive_container p elems
  end.
End recv.
