(* ===== verification/Device.v ===== *)
(** * wireguard-go/device: the device

    [device.go], [NewPeer] of [peer.go], [tun.go] and [mobilequirks.go]: the
    states of a device, its sockets, its identity and its peers. The loops over
    the map of peers run in the order of the model's map, in Go in any order. *)
From S2P Require Import Prelude GoStrings GoNet GoBytes WGCrypto WGCookie WGState Handshake WGPeer.
From S2P Require AllowedIPs RateLimiter.
Open Scope Z_scope.

Definition DefaultMTU : Z := 1420.
Definition MaxContentSize : Z := 65535 - 32.
(** The conversion to [int32]. *)
Definition i32 (z : Z) : Z := (z + 2 ^ 31) mod 2 ^ 32 - 2 ^ 31.

Section device.
Context {C : Crypto} {BI : Bind} (entropy : nat -> list Z * option error) (draws : nat).

(** The peers of the map, with their keys. *)
Definition peers_in_map : M (list (list Z * pid)) := gets (fun d => map_to_list (keyMap d)).
Definition for_peers (f : list Z -> pid -> M unit) : M unit :=
  l ← peers_in_map; forM l (fun kp => f kp.1 kp.2).

(** ** Sockets *)
Definition closeBindLocked : M (option error) :=
  bs ← gets bind_state;
  let '(bs, err) := Bind_Close bs in
  _ ← modify (set_bind_state bs);
  mret err.
Definition BindClose : M (option error) := closeBindLocked.

Definition BindSetMark (mark : Z) : M (option error) :=
  old ← gets net_fwmark;
  if old =? mark then mret None
  else
    _ ← modify (set_net_fwmark mark);
    up ← isUp;
    err ← (if up : bool then
             bs ← gets bind_state;
             let '(bs, err) := Bind_SetMark mark bs in
             _ ← modify (set_bind_state bs); mret err
           else mret None);
    match err with
    | Some e => mret (Some e)
    | None => _ ← for_peers (fun _ p => markEndpointSrcForClearing p); mret None
    end.

Definition BindUpdate : M (option error) :=
  err ← closeBindLocked;
  match err with
  | Some e => mret (Some e)
  | None =>
      up ← isUp;
      if negb up then mret None
      else
        port ← gets net_port;
        bs ← gets bind_state;
        let '(bs, opened) := Bind_Open port bs in
        _ ← modify (set_bind_state bs);
        match opened with
        | Err e => _ ← modify (set_net_port 0); mret (Some e)
        | Ok port =>
            _ ← modify (set_net_port port);
            let '(bs, err) := startRouteListener bs in
            _ ← modify (set_bind_state bs);
            match err with
            | Some e =>
                _ ← modify (set_bind_state (Bind_Close bs).1);
                _ ← modify (set_net_port 0);
                mret (Some e)
            | None =>
                mark ← gets net_fwmark;
                err ← (if negb (mark =? 0) then
                         bs ← gets bind_state;
                         let '(bs, err) := Bind_SetMark mark bs in
                         _ ← modify (set_bind_state bs); mret err
                       else mret None);
                match err with
                | Some e => mret (Some e)
                | None => _ ← for_peers (fun _ p => markEndpointSrcForClearing p); mret None
                end
            end
        end
  end.

(** ** Up and down *)
Definition downLocked : M (option error) :=
  err ← BindClose;
  _ ← for_peers (fun _ p => Peer_Stop p);
  mret err.
Definition upLocked : M (option error) :=
  err ← BindUpdate;
  match err with
  | Some e => mret (Some e)
  | None =>
      _ ← for_peers (fun _ p =>
            _ ← Peer_Start p;
            x ← get_peer p;
            when (0 <? persistentKeepaliveInterval x) (SendKeepalive entropy draws p));
      mret None
  end.
(** [changeState]; a failed start falls through to the way down. *)
Definition go_down (err : option error) : M (option error) :=
  _ ← modify (set_state deviceStateDown);
  errDown ← downLocked;
  mret (match err with None => errDown | Some _ => err end).
Definition changeState (want : deviceState) : M (option error) :=
  old ← gets state;
  if bool_decide (old = deviceStateClosed) then mret None
  else if bool_decide (want = old) then mret None
  else
    match want with
    | deviceStateUp =>
        _ ← modify (set_state deviceStateUp);
        err ← upLocked;
        match err with
        | None => mret None
        | Some _ => go_down err
        end
    | deviceStateDown => go_down None
    | deviceStateClosed => mret None
    end.
Definition Device_Up : M (option error) := changeState deviceStateUp.
Definition Device_Down : M (option error) := changeState deviceStateDown.

(** ** Peers *)
Definition removePeerLocked (p : pid) (key : list Z) : M unit :=
  _ ← modify (fun d => set_allowedips (AllowedIPs.RemoveByPeer (allowedips d) p) d);
  _ ← Peer_Stop p;
  modify (fun d => set_keyMap (delete key (keyMap d)) d).
Definition RemovePeer (key : list Z) : M unit :=
  found ← LookupPeer key;
  match found with Some p => removePeerLocked p key | None => mret tt end.
Definition RemoveAllPeers : M unit :=
  _ ← for_peers (fun key p => removePeerLocked p key);
  modify (set_keyMap ∅).

(** A peer that is not yet in use: [&Peer{}], then what [NewPeer] sets. *)
Definition init_peer (sk pk : list Z) : Peer :=
  set_cookieGenerator (CookieGenerator_Init pk (cookieGenerator zeroPeer))
    (on_handshake (fun h => set_hs_remoteStatic pk (set_hs_precomputedStaticStatic (sharedSecret sk pk).1 h)) zeroPeer).
Definition NewPeer (pk : list Z) : M (result pid) :=
  closed ← isClosed;
  if closed : bool then mret (Err (Errorf "device closed" []))
  else
    m ← gets keyMap;
    if (MaxPeers <=? size m)%nat then mret (Err (Errorf "too many peers" []))
    else if bool_decide (is_Some (m !! pk)) then mret (Err (Errorf "adding existing peer" []))
    else
      sk ← gets dev_privateKey;
      store ← gets peers;
      let p := fresh (dom store) in
      _ ← modify (fun d => set_peers (<[p := init_peer sk pk]> (peers d)) d);
      _ ← modify (fun d => set_keyMap (<[pk := p]> (keyMap d)) d);
      mret (Ok p).

(** ** Identity *)
Definition SetPrivateKey (sk : list Z) : M unit :=
  old ← gets dev_privateKey;
  if bool_decide (sk = old) then mret tt
  else
    let pk := publicKey sk in
    _ ← for_peers (fun key p =>
          h ← get_handshake p;
          if bool_decide (hs_remoteStatic h = pk) then removePeerLocked p key else mret tt);
    _ ← modify (set_dev_privateKey sk);
    _ ← modify (set_dev_publicKey pk);
    _ ← modify (fun d => set_cookieChecker (CookieChecker_Init pk (cookieChecker d)) d);
    _ ← for_peers (fun _ p =>
          modify_peer p (on_handshake (fun h => set_hs_precomputedStaticStatic (sharedSecret sk (hs_remoteStatic h)).1 h)));
    for_peers (fun _ p => ExpireCurrentKeypairs p).

(** ** The life of a device *)
Definition NewDevice (mtu : result Z) (bs : BindState) (now : Z) (n : nat) : Device :=
  mkDevice deviceStateDown bs 0 0 false (zeros 32) (zeros 32) ∅ ∅ ∅ AllowedIPs.emptyTable ∅ zeroCookieChecker 0
    (RateLimiter.Init (RateLimiter.mkRatelimiter false false ∅)) (i32 (match mtu with Ok m => m | Err _ => DefaultMTU end))
    [] [] [] [] [] now n.
Definition Device_Close : M unit :=
  closed ← isClosed;
  if closed : bool then mret tt
  else
    _ ← modify (set_state deviceStateClosed);
    _ ← downLocked;
    _ ← RemoveAllPeers;
    modify (fun d => set_limiter (RateLimiter.Close (limiter d)) d).
Definition SendKeepalivesToPeersWithCurrentKeypair : M unit :=
  up ← isUp;
  if negb up then mret tt
  else
    for_peers (fun _ p =>
      k ← Keypairs_Current p;
      match k with
      | None => mret tt
      | Some k =>
          kp ← get_keypair k;
          now ← gets clock;
          when (negb (created kp + RejectAfterTime <? now)) (SendKeepalive entropy draws p)
      end).
Definition DisableSomeRoamingForBrokenMobileSemantics : M unit :=
  _ ← modify (set_brokenRoaming true);
  for_peers (fun _ p =>
    modify_peer p (fun x => set_disableRoaming (bool_decide (is_Some (endpoint_val x))) x)).

(** [RoutineTUNEventReader] on one event: its three bits, and the MTU then. *)
Definition TUNEvent_step (mtu_update up down : bool) (mtu : result Z) : M unit :=
  let rest :=
    _ ← when up (_ ← Device_Up; mret tt);
    when down (_ ← Device_Down; mret tt) in
  if mtu_update then
    match mtu with
    | Err _ => mret tt
    | Ok m =>
        if m <? 0 then mret tt
        else _ ← modify (set_tun_mtu (i32 (if MaxContentSize <? m then MaxContentSize else m))); rest
    end
  else rest.
End device.
