(* ===== verification/UAPI.v ===== *)
(** * wireguard-go/device: the configuration protocol

    [uapi.go]: [IpcSetOperation] reads a configuration line by line and changes
    the device as it goes; [IpcGetOperation] prints the device. [IpcHandle],
    which serves the protocol on a socket, is I/O around them. The placeholder
    [&Peer{}] of a removed or ignored peer is an object of the store that the
    map of peers does not reach. *)
From S2P Require Import Prelude GoStrings GoNet GoBytes WGCrypto WGCookie WGState Handshake WGPeer Device.
From S2P Require AllowedIPs WGDevice.
Open Scope string_scope.
Open Scope list_scope.
Open Scope Z_scope.

(** The error numbers of package ipc ([uapi_unix.go], on Linux). *)
Definition IpcErrorIO : Z := -5.
Definition IpcErrorProtocol : Z := -71.
Definition IpcErrorInvalid : Z := -22.
Definition IpcErrorPortInUse : Z := -98.
Record IPCError := ipcErrorf { code : Z; err : error }.
Definition invalid (msg : string) (args : list string) : option IPCError := Some (ipcErrorf IpcErrorInvalid (Errorf msg args)).

(** ** Standard library *)

(** [netip.ParsePrefix]: the address and the number of bits. *)
Definition ParsePrefix (s : string) : option (list Z * Z) :=
  match CutLast s "/" with
  | None => None
  | Some (ip, bits) =>
      match ParseAddr ip with
      | None => None
      | Some a =>
          let bad := match bits with
            | String c (String _ _) => negb ((49 <=? byte_of c) && (byte_of c <=? 57))
            | _ => false end in
          if bad : bool then None
          else match Atoi bits with
               | Some n => if (n <? 0) || (8 * Z.of_nat (length a) <? n) then None else Some (a, n)
               | None => None
               end
      end
  end.
(** [netip.Prefix.String] *)
Definition Prefix_String (k : list Z * Z) : string := WGDevice.Addr_String k.1 +:+ "/" +:+ itoa k.2.

(** [bufio.Scanner]: the lines, and whether it then stops at one too long for
    its buffer. *)
Definition MaxScanTokenSize : Z := 65536.
Definition drop_cr (line : string) : string := TrimSuffix line (String (ascii_of_nat 13) "").
Fixpoint scan_lines (lines : list string) : list string * bool :=
  match lines with
  | [] => ([], false)
  | line :: rest =>
      if bool_decide (rest = [] /\ line = "") then ([], false)
      else if MaxScanTokenSize <=? Z.of_nat (String.length line) then ([], true)
      else let '(ls, long) := scan_lines rest in (drop_cr line :: ls, long)
  end.
Definition Scan (input : string) : list string * bool := scan_lines (Split input WGDevice.nl).

Section uapi.
Context {C : Crypto} {BI : Bind} (entropy : nat -> list Z * option error) (draws : nat).

(** [ipcSetPeer]: the peer being configured; [dummy], [created] and [pkaOn]
    as in the code, [pkaOn] staying set until a keepalive line changes it. *)
Record ipcSetPeer := mkSetPeer { sp_Peer : option pid; dummy : bool; sp_created : bool; pkaOn : bool }.
(** [&Peer{}] *)
Definition new_object : M pid :=
  fun d => let p := fresh (dom (peers d)) in Some (p, set_peers (<[p := zeroPeer]> (peers d)) d).

Definition handlePostConfig (peer : ipcSetPeer) : M unit :=
  match sp_Peer peer with
  | None => mret tt
  | Some p =>
      if dummy peer then mret tt
      else
        broken ← gets brokenRoaming;
        _ ← when (sp_created peer)
              (modify_peer p (fun x => set_disableRoaming (broken && bool_decide (is_Some (endpoint_val x))) x));
        up ← isUp;
        when up (
          _ ← Peer_Start p;
          _ ← when (pkaOn peer) (SendKeepalive entropy draws p);
          SendStagedPackets entropy draws p)
  end.

Definition handlePublicKeyLine (peer : ipcSetPeer) (value : string) : M (ipcSetPeer * option IPCError) :=
  let '(pk, err) := PublicKey_FromHex (zeros 32) value in
  match err with
  | Some e => mret (peer, invalid "failed to get peer by public key: %w" [])
  | None =>
      own ← gets dev_publicKey;
      let dummy := bool_decide (own = pk) in
      found ← (if dummy then p ← new_object; mret (Some p) else LookupPeer pk);
      match found with
      | Some p => mret (mkSetPeer (Some p) dummy false (pkaOn peer), None)
      | None =>
          r ← NewPeer pk;
          match r with
          | Err e => mret (mkSetPeer None dummy true (pkaOn peer), invalid "failed to create new peer: %w" [])
          | Ok p => mret (mkSetPeer (Some p) dummy true (pkaOn peer), None)
          end
      end
  end.

Definition handleDeviceLine (key value : string) : M (option IPCError) :=
  if bool_decide (key = "private_key") then
    let '(sk, err) := PrivateKey_FromMaybeZeroHex (zeros 32) value in
    match err with
    | Some e => mret (invalid "failed to set private_key: %w" [])
    | None => _ ← SetPrivateKey sk; mret None
    end
  else if bool_decide (key = "listen_port") then
    match ParseUint value 16 with
    | None => mret (invalid "failed to parse listen_port: %w" [])
    | Some port =>
        _ ← modify (set_net_port port);
        e ← BindUpdate;
        match e with
        | Some e => mret (Some (ipcErrorf IpcErrorPortInUse (Wrapf "failed to set listen_port: %w" [] e)))
        | None => mret None
        end
    end
  else if bool_decide (key = "fwmark") then
    match ParseUint value 32 with
    | None => mret (invalid "invalid fwmark: %w" [])
    | Some mark =>
        e ← BindSetMark mark;
        match e with
        | Some e => mret (Some (ipcErrorf IpcErrorPortInUse (Wrapf "failed to update fwmark: %w" [] e)))
        | None => mret None
        end
    end
  else if bool_decide (key = "replace_peers") then
    if negb (bool_decide (value = "true")) then mret (invalid "failed to set replace_peers, invalid value: %v" [value])
    else _ ← RemoveAllPeers; mret None
  else mret (invalid "invalid UAPI device key: %v" [key]).

(** The peer is removed and the lines that follow go to a placeholder. *)
Definition to_dummy (peer : ipcSetPeer) : M ipcSetPeer :=
  p ← new_object; mret (mkSetPeer (Some p) true (sp_created peer) (pkaOn peer)).
Definition handlePeerLine (peer : ipcSetPeer) (p : pid) (key value : string) : M (ipcSetPeer * option IPCError) :=
  if bool_decide (key = "update_only") then
    if negb (bool_decide (value = "true")) then mret (peer, invalid "failed to set update only, invalid value: %v" [value])
    else if sp_created peer && negb (dummy peer) then
      h ← get_handshake p;
      _ ← RemovePeer (hs_remoteStatic h);
      peer ← to_dummy peer;
      mret (peer, None)
    else mret (peer, None)
  else if bool_decide (key = "remove") then
    if negb (bool_decide (value = "true")) then mret (peer, invalid "failed to set remove, invalid value: %v" [value])
    else
      _ ← (if negb (dummy peer) then h ← get_handshake p; RemovePeer (hs_remoteStatic h) else mret tt);
      peer ← to_dummy peer;
      mret (peer, None)
  else if bool_decide (key = "preshared_key") then
    h ← get_handshake p;
    let '(psk, err) := PresharedKey_FromHex (hs_presharedKey h) value in
    _ ← modify_peer p (on_handshake (set_hs_presharedKey psk));
    match err with
    | Some e => mret (peer, invalid "failed to set preshared key: %w" [])
    | None => mret (peer, None)
    end
  else if bool_decide (key = "endpoint") then
    match ParseEndpoint value with
    | Err e => mret (peer, invalid "failed to set endpoint %v: %w" [value])
    | Ok ep => _ ← modify_peer p (set_endpoint_val (Some ep)); mret (peer, None)
    end
  else if bool_decide (key = "persistent_keepalive_interval") then
    match ParseUint value 16 with
    | None => mret (peer, invalid "failed to set persistent keepalive interval: %w" [])
    | Some secs =>
        x ← get_peer p;
        _ ← modify_peer p (set_persistentKeepaliveInterval secs);
        mret (mkSetPeer (sp_Peer peer) (dummy peer) (sp_created peer)
                ((persistentKeepaliveInterval x =? 0) && negb (secs =? 0)), None)
    end
  else if bool_decide (key = "replace_allowed_ips") then
    if negb (bool_decide (value = "true")) then mret (peer, invalid "failed to replace allowedips, invalid value: %v" [value])
    else
      _ ← unless (dummy peer) (modify (fun d => set_allowedips (AllowedIPs.RemoveByPeer (allowedips d) p) d));
      mret (peer, None)
  else if bool_decide (key = "allowed_ip") then
    let '(add, value) := match value with String "-" v => (false, v) | v => (true, v) end in
    match ParsePrefix value with
    | None => mret (peer, invalid "failed to set allowed ip: %w" [])
    | Some prefix =>
        _ ← unless (dummy peer)
              (modify (fun d => set_allowedips ((if add then AllowedIPs.Insert else AllowedIPs.Remove) (allowedips d) prefix p) d));
        mret (peer, None)
    end
  else if bool_decide (key = "protocol_version") then
    if negb (bool_decide (value = "1")) then mret (peer, invalid "invalid protocol version: %v" [value])
    else mret (peer, None)
  else mret (peer, invalid "invalid UAPI peer key: %v" [key]).

(** The loop over the lines; [deviceConfig] until the first public key. *)
Fixpoint set_lines (lines : list string) (long : bool) (deviceConfig : bool) (peer : ipcSetPeer) : M (option IPCError) :=
  match lines with
  | [] =>
      _ ← handlePostConfig peer;
      mret (if long then Some (ipcErrorf IpcErrorIO (Errorf "failed to read input: %w" [])) else None)
  | line :: lines =>
      if bool_decide (line = "") then _ ← handlePostConfig peer; mret None
      else
        match Cut line "=" with
        | None => mret (Some (ipcErrorf IpcErrorProtocol (Errorf "failed to parse line %q" [line])))
        | Some (key, value) =>
            if bool_decide (key = "public_key") then
              _ ← handlePostConfig peer;
              r ← handlePublicKeyLine peer value;
              match r.2 with
              | Some e => mret (Some e)
              | None => set_lines lines long false r.1
              end
            else if deviceConfig then
              e ← handleDeviceLine key value;
              match e with
              | Some e => mret (Some e)
              | None => set_lines lines long true peer
              end
            else
              match sp_Peer peer with
              | None => fun _ => None
              | Some p =>
                  r ← handlePeerLine peer p key value;
                  match r.2 with
                  | Some e => mret (Some e)
                  | None => set_lines lines long false r.1
                  end
              end
        end
  end.
Definition IpcSetOperation (input : string) : M (option IPCError) :=
  let '(lines, long) := Scan input in
  set_lines lines long true (mkSetPeer None false false false).

(** ** Get *)
Definition nanos : Z := 1000000000.
Definition get_peer_lines (d : Device) (p : pid) (x : Peer) : list string :=
  let h := handshake x in
  ["public_key=" +:+ hexString (hs_remoteStatic h);
   "preshared_key=" +:+ hexString (hs_presharedKey h);
   "protocol_version=1"] ++
  (match endpoint_val x with Some ep => ["endpoint=" +:+ DstToString ep] | None => [] end) ++
  ["last_handshake_time_sec=" +:+ itoa (Z.quot (lastHandshakeNano x) nanos);
   "last_handshake_time_nsec=" +:+ itoa (Z.rem (lastHandshakeNano x) nanos);
   "tx_bytes=" +:+ utoa (txBytes x);
   "rx_bytes=" +:+ utoa (rxBytes x);
   "persistent_keepalive_interval=" +:+ utoa (persistentKeepaliveInterval x)] ++
  map (fun prefix => "allowed_ip=" +:+ Prefix_String prefix) (AllowedIPs.EntriesForPeer (allowedips d) p).
Definition get_lines (d : Device) : list string :=
  (if isZero (dev_privateKey d) then [] else ["private_key=" +:+ hexString (dev_privateKey d)]) ++
  (if net_port d =? 0 then [] else ["listen_port=" +:+ utoa (net_port d)]) ++
  (if net_fwmark d =? 0 then [] else ["fwmark=" +:+ utoa (net_fwmark d)]) ++
  concat (map (fun kp => match peers d !! kp.2 with Some x => get_peer_lines d kp.2 x | None => [] end)
            (map_to_list (keyMap d))).
Definition IpcGet (d : Device) : string := fold_right (fun l s => l +:+ WGDevice.nl +:+ s) "" (get_lines d).
End uapi.
