(* ===== verification/WGInv.v ===== *)
(** * wireguard-go/device: the invariant of a device, and how it is kept

    [sound]: what holds of a device between any two operations. Every entry of
    the index table leads to a running peer and to one of its sessions or its
    handshake; pointers are valid; running peers are in the map; allowed IPs
    belong to peers of the map; a queued nonce is below its session's counter.
    [ext] is how a device may develop under operations that neither stop nor
    remove a peer, [evolves] under any. [keeps] is the program logic over the
    monad: the operation comes to an end, and keeps both. *)
From S2P Require Import Prelude GoStrings GoNet GoBytes WGCrypto WGCookie WGState Handshake HandshakeProofs WGPeer.
From S2P Require AllowedIPs AllowedIPsProofs.
Open Scope Z_scope.

Section inv.
Context {BI : Bind}.
Implicit Types (d : Device) (p : pid) (x : Peer).

(** ** Facts about a state *)
Definition known p d : Prop := is_Some (peers d !! p).
Definition in_map p d : Prop := exists pk, keyMap d !! pk = Some p.
Definition running p d : Prop := exists x, peers d !! p = Some x /\ isRunning x = true.
Definition valid (k : kid) d : Prop := is_Some (keypair_store d !! k).
Definition up d : Prop := state d = deviceStateUp.

(** ** Nonces *)
Definition pairs (q : list (pid * list OutboundElement)) : list (kid * Z) :=
  concat (map (fun c => map (fun e => (oe_keypair e, oe_nonce e)) c.2) q).
(** [P]: the pairs already used. *)
Definition nonces_ok (P : list (kid * Z)) d : Prop :=
  NoDup (P ++ pairs (outbound d)) /\
  forall k n, (k, n) ∈ P ++ pairs (outbound d) -> exists kp, keypair_store d !! k = Some kp /\ n < sendNonce kp.

(** ** The invariant *)
Definition idle (t : Timers) : Prop :=
  retransmitHandshake t = None /\ sendKeepalive t = None /\ newHandshake t = None /\
  zeroKeyMaterial t = None /\ persistentKeepalive t = None.
Definition no_keypairs : Keypairs := mkKeypairs None None None.
Definition peer_ok d p x : Prop :=
  (forall k, Some k ∈ slots (keypairs x) -> valid k d) /\
  (if isRunning x then keyMap d !! hs_remoteStatic (handshake x) = Some p
   else keypairs x = no_keypairs /\ idle (timers x)).
(** An entry of the index table, at [i]. *)
Definition entry_of d (i : Z) (e : IndexTableEntry) x : Prop :=
  isRunning x = true /\
  ((ie_handshake e = Some (ie_peer e) /\ ie_keypair e = None /\ hs_localIndex (handshake x) = i) \/
   (ie_handshake e = None /\ exists k kp, ie_keypair e = Some k /\ Some k ∈ slots (keypairs x) /\
      keypair_store d !! k = Some kp /\ kp_localIndex kp = i)).
Definition owned d (i : Z) (e : IndexTableEntry) : Prop :=
  exists x, peers d !! ie_peer e = Some x /\ entry_of d i e x.
(** Received containers: of peers and sessions that exist. *)
Definition groups_ok (groups : list (pid * list InboundElement)) d : Prop :=
  forall g, g ∈ groups -> known g.1 d /\ forall e, e ∈ g.2 -> valid (ib_keypair e) d.
Record sound d : Prop := mkSound {
  s_index : forall i e, indexTable d !! i = Some e -> owned d i e;
  s_peer : forall p x, peers d !! p = Some x -> peer_ok d p x;
  s_map : forall pk p, keyMap d !! pk = Some p -> exists x, peers d !! p = Some x /\ hs_remoteStatic (handshake x) = pk;
  s_size : (size (keyMap d) <= MaxPeers)%nat;
  s_allowed : exists m, AllowedIPsProofs.table_ok (allowedips d) m /\ forall k p, m !! k = Some p -> in_map p d;
  s_counter : forall k kp, keypair_store d !! k = Some kp -> 0 <= sendNonce kp <= RejectAfterMessages;
  s_nonces : nonces_ok [] d;
  s_queue : forall c, c ∈ outbound d -> known c.1 d;
  s_inbound : groups_ok (inbound d) d }.

(** ** How a device develops *)
Record evolves d d' : Prop := mkEvolves {
  e_known : forall p, known p d -> known p d';
  e_valid : forall k, valid k d -> valid k d';
  e_nonces : forall P, nonces_ok P d -> nonces_ok P d' }.
Record ext d d' : Prop := mkExt {
  x_evolves : evolves d d';
  x_map : keyMap d' = keyMap d;
  x_running : forall p, running p d -> running p d';
  x_state : state d' = state d;
  (** only a device that is up starts peers *)
  x_started : forall p, running p d' -> running p d \/ up d }.
#[export] Instance evolves_preorder : PreOrder evolves.
Proof. split; [by split|]. intros ??? [] []. split; auto. Qed.
#[export] Instance ext_preorder : PreOrder ext.
Proof.
  split; [split; try done; by left|]. intros d1 d2 d3 [H1 ? ? E1 S1] [H2 ? ? E2 S2].
  split; [by trans d2| | | |]; [congruence|auto|congruence|].
  intros p Hp. destruct (S2 p Hp) as [Hp2|Hu]; [by apply S1|right]. unfold up in *. congruence.
Qed.

(** Facts that stay true. *)
Class Stable (P : Device -> Prop) := stable : forall d d', ext d d' -> P d -> P d'.
#[export] Instance known_stable p : Stable (known p).
Proof. intros d d' [[] _ _ _ _]. auto. Qed.
#[export] Instance valid_stable k : Stable (valid k).
Proof. intros d d' [[] _ _ _ _]. auto. Qed.
#[export] Instance in_map_stable p : Stable (in_map p).
Proof. intros d d' [_ H _ _ _] [pk Hp]. exists pk. by rewrite H. Qed.
#[export] Instance running_stable p : Stable (running p).
Proof. intros d d' [_ _ H _ _]. auto. Qed.
#[export] Instance up_stable : Stable up.
Proof. intros d d' [_ _ _ H _] Hu. unfold up in *. congruence. Qed.
#[export] Instance and_stable P Q : Stable P -> Stable Q -> Stable (fun d => P d /\ Q d).
Proof. intros HP HQ d d' He [H1 H2]. split; [by eapply HP|by eapply HQ]. Qed.
#[export] Instance impl_stable (A : Prop) P : Stable P -> Stable (fun d => A -> P d).
Proof. intros HP d d' He H1 Ha. eapply HP; [done|auto]. Qed.
#[export] Instance all_stable {A} (P : A -> Device -> Prop) : (forall a, Stable (P a)) -> Stable (fun d => forall a, P a d).
Proof. intros HP d d' He H1 a. eapply HP; [done|auto]. Qed.
#[export] Instance pure_stable (A : Prop) : Stable (fun _ => A).
Proof. by intros d d' _. Qed.

#[export] Instance groups_ok_stable groups : Stable (groups_ok groups).
Proof. unfold groups_ok. apply _. Qed.
Lemma groups_ok_evolves groups d d' : evolves d d' -> groups_ok groups d -> groups_ok groups d'.
Proof. intros [H1 H2 _] Hg g Hin. destruct (Hg g Hin) as [Hk Hv]. split; [auto|]. intros e He. auto. Qed.
Lemma running_known p d : running p d -> known p d.
Proof. intros (x & Hx & _). by exists x. Qed.
Lemma running_in_map p d : sound d -> running p d -> in_map p d.
Proof.
  intros HS (x & Hx & Hr). pose proof (proj2 (s_peer d HS p x Hx)) as H. rewrite Hr in H. by eexists.
Qed.
Lemma in_map_known p d : sound d -> in_map p d -> known p d.
Proof. intros HS [pk H]. destruct (s_map d HS pk p H) as (x & Hx & _). by exists x. Qed.

(** ** The logic *)
Definition wp {A} (m : M A) (Q : A -> Device -> Prop) d : Prop := exists a d', m d = Some (a, d') /\ Q a d'.
Lemma wp_bind {A B} (m : M A) (f : A -> M B) Q d : wp m (fun a d' => wp (f a) Q d') d -> wp (m ≫= f) Q d.
Proof. intros (a & d1 & H1 & b & d2 & H2 & HQ). exists b, d2. rewrite bind_run, H1. done. Qed.
Lemma wp_mono {A} (m : M A) (Q Q' : A -> Device -> Prop) d :
  wp m Q d -> (forall a d', Q a d' -> Q' a d') -> wp m Q' d.
Proof. intros (a & d1 & H1 & HQ) H. exists a, d1. auto. Qed.
Lemma wp_ret {A} (a : A) (Q : A -> Device -> Prop) d : Q a d -> wp (mret a) Q d.
Proof. intros H. by exists a, d. Qed.
Lemma wp_run {A} (m : M A) (Q : A -> Device -> Prop) a d d' : m d = Some (a, d') -> Q a d' -> wp m Q d.
Proof. intros H1 H2. by exists a, d'. Qed.

Definition good d d' : Prop := sound d' /\ ext d d'.
Definition keeps {A} (P : Device -> Prop) (m : M A) : Prop :=
  forall d, sound d -> P d -> wp m (fun _ d' => good d d') d.

Lemma keeps_weaken {A} (P P' : Device -> Prop) (m : M A) :
  keeps P' m -> (forall d, sound d -> P d -> P' d) -> keeps P m.
Proof. intros H1 H2 d HS HP. apply H1; auto. Qed.
Lemma keeps_ret {A} P (a : A) : keeps P (mret a).
Proof. intros d HS HP. by apply wp_ret. Qed.
Lemma keeps_bind {A B} P (m : M A) (f : A -> M B) : Stable P ->
  keeps P m -> (forall a, keeps P (f a)) -> keeps P (m ≫= f).
Proof.
  intros St H1 H2 d HS HP. apply wp_bind. eapply wp_mono; [by apply H1|]. intros a d1 [HS1 He1]. cbn beta in *.
  eapply wp_mono; [apply H2; [done|by eapply St]|]. intros b d2 [HS2 He2]. split; [done|by trans d1].
Qed.
Lemma keeps_gets {A B} P (g : Device -> A) (f : A -> M B) : (forall a, keeps P (f a)) -> keeps P (gets g ≫= f).
Proof. intros H d HS HP. destruct (H (g d) d HS HP) as (b & d' & ? & ?). exists b, d'. by rewrite gets_bind. Qed.
(** What was read is remembered. *)
Lemma keeps_gets_eq {A B} P (Q : A -> Device -> Prop) (g : Device -> A) (f : A -> M B) :
  (forall d, sound d -> P d -> Q (g d) d) -> (forall a, keeps (fun d => P d /\ Q a d) (f a)) -> keeps P (gets g ≫= f).
Proof. intros HQ H d HS HP. destruct (H (g d) d HS (conj HP (HQ d HS HP))) as (b & d' & ? & ?). exists b, d'. by rewrite gets_bind. Qed.
Lemma keeps_modify P g : (forall d, sound d -> P d -> good d (g d)) -> keeps P (modify g).
Proof. intros H d HS HP. by eapply wp_run; [reflexivity|apply H]. Qed.
Lemma keeps_when P b m : (b = true -> keeps P m) -> keeps P (when b m).
Proof. intros H. destruct b; [by apply H|apply keeps_ret]. Qed.
Lemma keeps_unless P b m : (b = false -> keeps P m) -> keeps P (unless b m).
Proof. intros H. destruct b; [apply keeps_ret|by apply H]. Qed.
Lemma keeps_forM {A} P (l : list A) f : Stable P -> (forall a, a ∈ l -> keeps P (f a)) -> keeps P (forM l f).
Proof.
  intros St H. induction l as [|a l IH]; [apply keeps_ret|]. cbn [forM].
  apply keeps_bind; [done|apply H; by left|]. intros []. apply IH. intros b Hb. apply H. by right.
Qed.

(** What is known of a peer that was read. *)
Definition view p x d : Prop :=
  known p d /\ (forall k, Some k ∈ slots (keypairs x) -> valid k d /\ running p d) /\
  (isRunning x = true -> running p d) /\ (~ idle (timers x) -> running p d).
#[export] Instance view_stable p x : Stable (view p x).
Proof. unfold view. apply _. Qed.
Lemma view_read p x d : sound d -> peers d !! p = Some x -> view p x d.
Proof.
  intros HS Hx. destruct (s_peer d HS p x Hx) as [Hv Hr].
  assert (isRunning x = true -> running p d) as Hrun by (intros; by exists x).
  split_and!; [by exists x| |done|].
  - intros k Hk. split; [auto|]. destruct (isRunning x) eqn:E; [by apply Hrun|].
    destruct Hr as [Hn _]. rewrite Hn in Hk. unfold slots in Hk. cbn in Hk. set_solver.
  - intros Hi. destruct (isRunning x) eqn:E; [by apply Hrun|]. destruct Hr as [_ ?]. done.
Qed.
Lemma keeps_peer {B} P p (f : Peer -> M B) : (forall d, sound d -> P d -> known p d) ->
  (forall x, keeps (fun d => P d /\ view p x d) (f x)) -> keeps P (get_peer p ≫= f).
Proof.
  intros Hk H d HS HP. destruct (Hk d HS HP) as [x Hx]. destruct (H x d HS (conj HP (view_read p x d HS Hx))) as (b & d' & H1 & H2).
  exists b, d'. by rewrite (get_peer_bind _ _ _ _ Hx).
Qed.
Lemma keeps_keypair {B} P k (f : Keypair -> M B) : (forall d, sound d -> P d -> valid k d) ->
  (forall kp, keeps P (f kp)) -> keeps P (get_keypair k ≫= f).
Proof.
  intros Hk H d HS HP. destruct (Hk d HS HP) as [kp Hkp]. destruct (H kp d HS HP) as (b & d' & H1 & H2).
  exists b, d'. rewrite bind_run. unfold get_keypair. by rewrite Hkp.
Qed.

(** ** Steps that leave what matters alone *)
Definition core_eq x x' : Prop :=
  isRunning x' = isRunning x /\ keypairs x' = keypairs x /\
  hs_localIndex (handshake x') = hs_localIndex (handshake x) /\
  hs_remoteStatic (handshake x') = hs_remoteStatic (handshake x) /\
  (isRunning x = false -> idle (timers x) -> idle (timers x')).
Lemma core_refl x : core_eq x x.
Proof. by split_and!. Qed.
Lemma entry_core d d' i e x x' : core_eq x x' -> keypair_store d' = keypair_store d -> entry_of d i e x -> entry_of d' i e x'.
Proof. intros (H1 & H2 & H3 & _) Hs [He Hc]. unfold entry_of. rewrite H1, H2, H3, Hs. by split. Qed.
Lemma peer_core d d' p x x' : core_eq x x' -> keypair_store d' = keypair_store d -> keyMap d' = keyMap d ->
  peer_ok d p x -> peer_ok d' p x'.
Proof.
  intros (H1 & H2 & _ & H4 & H5) Hs Hm [Hv Hr]. unfold peer_ok, valid. rewrite H1, H2, H4, Hs, Hm. split; [done|].
  destruct (isRunning x); [done|]. destruct Hr. auto.
Qed.
Lemma nonces_eq P d d' : keypair_store d' = keypair_store d -> outbound d' = outbound d -> nonces_ok P d -> nonces_ok P d'.
Proof. intros Hs Ho. unfold nonces_ok. by rewrite Hs, Ho. Qed.
Lemma frame_good d d' :
  indexTable d' ⊆ indexTable d -> keypair_store d' = keypair_store d -> outbound d' = outbound d -> inbound d' = inbound d ->
  keyMap d' = keyMap d -> allowedips d' = allowedips d -> state d' = state d ->
  (forall p x, peers d !! p = Some x -> exists x', peers d' !! p = Some x' /\ core_eq x x') ->
  (forall p, is_Some (peers d' !! p) -> is_Some (peers d !! p)) -> sound d -> good d d'.
Proof.
  intros Ht Hs Ho Hib Hm Ha Hst Hp Hp' HS.
  assert (forall p x', peers d' !! p = Some x' -> exists x, peers d !! p = Some x /\ core_eq x x') as Hback.
  { intros p x' Hx'. destruct (Hp' p) as [x Hx]; [by eexists|]. destruct (Hp p x Hx) as (x2 & H2 & Hc).
    exists x. split; [done|]. congruence. }
  assert (forall p, running p d -> running p d') as Hrun.
  { intros p (x & Hx & Hr). destruct (Hp p x Hx) as (x' & Hx' & Hc). exists x'. split; [done|]. by rewrite (proj1 Hc). }
  assert (forall P, nonces_ok P d -> nonces_ok P d') as Hn by (intros P; by apply nonces_eq).
  assert (evolves d d') as Hev.
  { split; [|intros k Hk; unfold valid; by rewrite Hs|done]. intros p [x Hx]. destruct (Hp p x Hx) as (x' & Hx' & _). by exists x'. }
  split; [split|split]; try done.
  - intros i e Hi. pose proof (lookup_weaken _ _ _ _ Hi Ht) as Hi0. destruct (s_index d HS _ _ Hi0) as (x & Hx & He).
    destruct (Hp _ _ Hx) as (x' & Hx' & Hc). exists x'. split; [done|]. by eapply entry_core.
  - intros p x' Hx'. destruct (Hback p x' Hx') as (x & Hx & Hc). eapply peer_core; try done. by apply (s_peer d HS).
  - intros pk p Hk. rewrite Hm in Hk. destruct (s_map d HS _ _ Hk) as (x & Hx & Hr).
    destruct (Hp _ _ Hx) as (x' & Hx' & Hc). exists x'. split; [done|]. rewrite <- Hr. apply Hc.
  - rewrite Hm. apply HS.
  - rewrite Ha. destruct (s_allowed d HS) as (m & Hok & Hin). exists m. split; [done|].
    intros k p Hk. destruct (Hin k p Hk) as [pk Hpk]. exists pk. by rewrite Hm.
  - rewrite Hs. apply HS.
  - apply Hn, HS.
  - intros c Hc. rewrite Ho in Hc. by apply (e_known _ _ Hev), (s_queue d HS).
  - rewrite Hib. by eapply groups_ok_evolves, HS.
  - intros p (x' & Hx' & Hr). destruct (Hback p x' Hx') as (x & Hx & Hc). left. exists x. split; [done|]. by rewrite <- (proj1 Hc).
Qed.

(** Fields the invariant does not speak of. *)
Definition same d d' : Prop :=
  indexTable d' = indexTable d /\ keypair_store d' = keypair_store d /\ outbound d' = outbound d /\ inbound d' = inbound d /\
  keyMap d' = keyMap d /\ allowedips d' = allowedips d /\ state d' = state d /\ peers d' = peers d.
Lemma same_good d d' : same d d' -> sound d -> good d d'.
Proof.
  intros (H1 & H2 & H3 & H4 & H5 & H6 & H7 & H8) HS. apply frame_good; try done; [by rewrite H1|..]; rewrite H8; [|done].
  intros p x Hx. exists x. split; [done|apply core_refl].
Qed.
Lemma keeps_set P g : (forall d, same d (g d)) -> keeps P (modify g).
Proof. intros H. apply keeps_modify. intros d HS _. by apply same_good. Qed.
Lemma keeps_rand P entropy : keeps P (rand_Read entropy).
Proof. intros d HS _. eapply wp_run; [reflexivity|]. by apply same_good. Qed.
Lemma keeps_alter P p f : (forall d x, sound d -> P d -> peers d !! p = Some x -> core_eq x (f x)) ->
  keeps P (modify_peer p f).
Proof.
  intros H. apply keeps_modify. intros d HS HP. apply frame_good; try done; dsimp.
  - intros q x Hx. destruct (decide (q = p)) as [->|].
    + exists (f x). split; [by apply alter_lookup|by apply (H d)].
    + exists x. split; [by rewrite lookup_alter_ne|apply core_refl].
  - intros q. destruct (decide (q = p)) as [->|]; [rewrite lookup_alter_eq|by rewrite lookup_alter_ne by done].
    by destruct (peers d !! p).
Qed.
Lemma keeps_alter_all P p f : (forall x, core_eq x (f x)) -> keeps P (modify_peer p f).
Proof. intros H. apply keeps_alter. auto. Qed.
Lemma keeps_delete P i : keeps P (IndexTable_Delete i).
Proof.
  apply keeps_modify. intros d HS _. apply frame_good; try done; dsimp; [apply delete_subseteq|].
  intros p x Hx. exists x. split; [done|apply core_refl].
Qed.
Lemma keeps_put_handshake P p h :
  (forall d x, sound d -> P d -> peers d !! p = Some x -> hs_localIndex h = hs_localIndex (handshake x) /\
     hs_remoteStatic h = hs_remoteStatic (handshake x)) -> keeps P (put_handshake p h).
Proof. intros H. apply keeps_alter. intros d x HS HP Hx. destruct (H d x HS HP Hx). by split_and!. Qed.

(** A keypair whose counter goes up. *)
Definition counter_up (f : Keypair -> Keypair) : Prop :=
  forall kp, kp_localIndex (f kp) = kp_localIndex kp /\
    (0 <= sendNonce kp <= RejectAfterMessages -> sendNonce kp <= sendNonce (f kp) <= RejectAfterMessages).
Lemma keypairs_good d d' :
  (forall k kp, keypair_store d !! k = Some kp -> exists kp', keypair_store d' !! k = Some kp' /\
     kp_localIndex kp' = kp_localIndex kp /\ sendNonce kp <= sendNonce kp') ->
  (forall k kp, keypair_store d' !! k = Some kp -> 0 <= sendNonce kp <= RejectAfterMessages) ->
  indexTable d' = indexTable d -> outbound d' = outbound d -> inbound d' = inbound d -> keyMap d' = keyMap d ->
  allowedips d' = allowedips d -> state d' = state d -> peers d' = peers d -> sound d -> good d d'.
Proof.
  intros Hk Hr Ht Ho Hib Hm Ha Hst Hp HS.
  assert (forall P, nonces_ok P d -> nonces_ok P d') as Hn.
  { intros P [Hnd Hlt]. unfold nonces_ok. rewrite Ho. split; [done|]. intros k n Hin.
    destruct (Hlt k n Hin) as (kp & Hkp & Hl). destruct (Hk k kp Hkp) as (kp' & Hkp' & _ & Hle). exists kp'. split; [done|lia]. }
  assert (forall k, valid k d -> valid k d') as Hv.
  { intros k [kp Hkp]. destruct (Hk k kp Hkp) as (kp' & ? & _). by exists kp'. }
  assert (evolves d d') as Hev by (split; [intros p; unfold known; by rewrite Hp|done..]).
  split; [split|split]; try done.
  - intros i e Hi. rewrite Ht in Hi. destruct (s_index d HS _ _ Hi) as (x & Hx & Hr1 & Hc). exists x.
    rewrite Hp. split; [done|]. split; [done|]. destruct Hc as [Hc|(H1 & k & kp & H2 & H3 & H4 & H5)]; [by left|right].
    split; [done|]. destruct (Hk k kp H4) as (kp' & ? & ? & _). exists k, kp'. split_and!; try done. congruence.
  - intros p x Hx. rewrite Hp in Hx. destruct (s_peer d HS p x Hx) as [H1 H2]. split; [auto|]. by rewrite Hm.
  - intros pk p. rewrite Hm, Hp. apply HS.
  - rewrite Hm. apply HS.
  - rewrite Ha. destruct (s_allowed d HS) as (m & Hok & Hin). exists m. split; [done|].
    intros k p Hkp. destruct (Hin k p Hkp) as [pk Hpk]. exists pk. by rewrite Hm.
  - apply Hn, HS.
  - intros c. unfold known. rewrite Ho, Hp. apply HS.
  - rewrite Hib. by eapply groups_ok_evolves, HS.
  - intros p. unfold running. by rewrite Hp.
  - intros p. unfold running. rewrite Hp. by left.
Qed.
Lemma keeps_modify_keypair P k f : counter_up f -> keeps P (modify_keypair k f).
Proof.
  intros Hf. apply keeps_modify. intros d HS _. apply keypairs_good; try done; dsimp.
  - intros k' kp Hkp. destruct (decide (k' = k)) as [->|].
    + exists (f kp). rewrite lookup_alter_eq, Hkp. split; [done|]. split; [apply Hf|]. apply Hf. by eapply s_counter.
    + exists kp. by rewrite lookup_alter_ne.
  - intros k' kp Hkp. destruct (decide (k' = k)) as [->|].
    + rewrite lookup_alter_eq in Hkp. apply fmap_Some in Hkp as (kp0 & H0 & ->). pose proof (s_counter d HS k kp0 H0).
      pose proof (proj2 (Hf kp0)). lia.
    + rewrite lookup_alter_ne in Hkp by done. by eapply s_counter.
Qed.
End inv.
