(* ===== verification/WGInvSession.v ===== *)
(** * wireguard-go/device: sessions keep the invariant

    The operations that create, rotate and delete sessions and handshakes, and
    the start and stop of a peer. *)
From S2P Require Import Prelude GoStrings GoNet GoBytes WGCrypto WGCookie WGState Handshake HandshakeProofs WGPeer WGInv.
From S2P Require AllowedIPs AllowedIPsProofs Replay.
Open Scope Z_scope.

Section session.
Context {BI : Bind}.
Implicit Types (d : Device) (p : pid) (x : Peer).

(** ** A step of one peer *)
Lemma nonces_sub P d d' : pairs (outbound d') `sublist_of` pairs (outbound d) ->
  (forall k kp, keypair_store d !! k = Some kp -> keypair_store d' !! k = Some kp) -> nonces_ok P d -> nonces_ok P d'.
Proof.
  intros Hsub Hs [Hnd Hlt].
  assert (P ++ pairs (outbound d') `sublist_of` P ++ pairs (outbound d)) as Hall by by apply sublist_app.
  split; [by eapply sublist_NoDup|]. intros k n Hin. destruct (Hlt k n) as (kp & Hkp & Hl); [by eapply elem_of_sublist|].
  exists kp. auto.
Qed.
Lemma peer_step d d' p x x' : sound d -> peers d !! p = Some x -> peers d' = <[p := x']> (peers d) ->
  keyMap d' = keyMap d -> allowedips d' = allowedips d -> pairs (outbound d') `sublist_of` pairs (outbound d) -> outbound d' ⊆ outbound d -> inbound d' ⊆ inbound d ->
  (forall k kp, keypair_store d !! k = Some kp -> keypair_store d' !! k = Some kp) ->
  (forall k kp, keypair_store d' !! k = Some kp -> 0 <= sendNonce kp <= RejectAfterMessages) ->
  hs_remoteStatic (handshake x') = hs_remoteStatic (handshake x) -> peer_ok d' p x' ->
  (forall i e, indexTable d' !! i = Some e ->
     (ie_peer e <> p /\ indexTable d !! i = Some e) \/ (ie_peer e = p /\ entry_of d' i e x')) ->
  sound d' /\ evolves d d' /\ forall q, q <> p -> running q d <-> running q d'.
Proof.
  intros HS Hx Hp Hm Ha Hsub Hsub' Hib Hs Hc Hrs Hok Ht.
  assert (forall P, nonces_ok P d -> nonces_ok P d') as Hn by (intros P; by apply nonces_sub).
  assert (forall k, valid k d -> valid k d') as Hv by (intros k [kp Hk]; exists kp; auto).
  assert (forall q, known q d -> known q d') as Hk.
  { intros q [y Hy]. unfold known. rewrite Hp. destruct (decide (q = p)) as [->|].
    + by rewrite lookup_insert_eq.
    + rewrite lookup_insert_ne by done. by exists y. }
  split; [split|split; [split|]]; try done.
  - intros i e Hi. destruct (Ht i e Hi) as [[Hne Hi0]|[He Hent]].
    + destruct (s_index d HS i e Hi0) as (y & Hy & Hr & Hcase). exists y. rewrite Hp, lookup_insert_ne by done. split; [done|].
      split; [done|]. destruct Hcase as [?|(H1 & k & kp & H2 & H3 & H4 & H5)]; [by left|right]. split; [done|].
      exists k, kp. auto.
    + exists x'. rewrite Hp, He, lookup_insert_eq. done.
  - intros q y Hy. rewrite Hp in Hy. destruct (decide (q = p)) as [->|].
    + rewrite lookup_insert_eq in Hy. by injection Hy as <-.
    + rewrite lookup_insert_ne in Hy by done. destruct (s_peer d HS q y Hy) as [H1 H2]. split; [auto|]. by rewrite Hm.
  - intros pk q Hpk. rewrite Hm in Hpk. destruct (s_map d HS pk q Hpk) as (y & Hy & Hr). rewrite Hp.
    destruct (decide (q = p)) as [->|].
    + rewrite lookup_insert_eq. exists x'. split; [done|]. rewrite Hrs. congruence.
    + rewrite lookup_insert_ne by done. by exists y.
  - rewrite Hm. apply HS.
  - rewrite Ha. destruct (s_allowed d HS) as (m & Hok' & Hin). exists m. split; [done|].
    intros k q Hkq. destruct (Hin k q Hkq) as [pk Hpk]. exists pk. by rewrite Hm.
  - apply Hn, HS.
  - intros c Hin. by apply Hk, (s_queue d HS), Hsub'.
  - intros c Hin. destruct (s_inbound d HS c (Hib c Hin)). auto.
  - intros q Hq. unfold running. by rewrite Hp, lookup_insert_ne.
Qed.
Lemma peer_step_good d d' p x x' : sound d -> peers d !! p = Some x -> peers d' = <[p := x']> (peers d) ->
  keyMap d' = keyMap d -> allowedips d' = allowedips d -> outbound d' = outbound d -> inbound d' = inbound d -> state d' = state d ->
  (forall k kp, keypair_store d !! k = Some kp -> keypair_store d' !! k = Some kp) ->
  (forall k kp, keypair_store d' !! k = Some kp -> 0 <= sendNonce kp <= RejectAfterMessages) ->
  isRunning x = true -> isRunning x' = true -> hs_remoteStatic (handshake x') = hs_remoteStatic (handshake x) ->
  (forall k, Some k ∈ slots (keypairs x') -> valid k d') ->
  (forall i e, indexTable d' !! i = Some e ->
     (ie_peer e <> p /\ indexTable d !! i = Some e) \/ (ie_peer e = p /\ entry_of d' i e x')) ->
  good d d'.
Proof.
  intros HS Hx Hp Hm Ha Ho Hib Hst Hs Hc Hr Hr' Hrs Hsl Ht.
  destruct (peer_step d d' p x x') as (H1 & H2 & H3); try done; [by rewrite Ho|by rewrite Ho|by rewrite Hib| |].
  { split; [done|]. rewrite Hr', Hm, Hrs. pose proof (proj2 (s_peer d HS p x Hx)) as H. by rewrite Hr in H. }
  split; [done|]. split; try done.
  - intros q Hq. destruct (decide (q = p)) as [->|]; [|by apply H3]. exists x'. by rewrite Hp, lookup_insert_eq.
  - intros q Hq. left. destruct (decide (q = p)) as [->|]; [by exists x|by apply H3].
Qed.
(** The entries of another peer, and those of this one. *)
Lemma entry_self d i e p x : sound d -> peers d !! p = Some x -> indexTable d !! i = Some e ->
  ie_peer e <> p \/ ie_peer e = p /\ entry_of d i e x.
Proof.
  intros HS Hx Hi. destruct (s_index d HS i e Hi) as (y & Hy & He). destruct (decide (ie_peer e = p)) as [E|]; [right|by left].
  split; [done|]. rewrite E in Hy. congruence.
Qed.

(** ** Indices *)
Definition indices_of d x : list Z :=
  hs_localIndex (handshake x) :: omap (fun o => k ← o; kp_localIndex <$> keypair_store d !! k) (slots (keypairs x)).
Lemma indices_length d x : (length (indices_of d x) <= 4)%nat.
Proof.
  unfold indices_of, slots. cbn. repeat match goal with |- context [match ?o with Some _ => _ | None => _ end] => destruct o end; cbn; lia.
Qed.
Lemma concat_length_le {A} (n : nat) (l : list (list A)) : (forall y, y ∈ l -> (length y <= n)%nat) -> (length (concat l) <= n * length l)%nat.
Proof.
  induction l as [|y l IH]; intros H; cbn; [lia|]. rewrite length_app.
  pose proof (H y ltac:(by left)). specialize (IH (fun z Hz => H z (list_elem_of_further _ _ _ Hz))). lia.
Qed.
Lemma table_size d : sound d -> (size (indexTable d) <= 4 * MaxPeers)%nat.
Proof.
  intros HS. set (f := fun kp : list Z * pid => match peers d !! kp.2 with Some x => indices_of d x | None => [] end).
  set (l := concat (map f (map_to_list (keyMap d)))).
  trans (length l).
  - rewrite <- (size_dom (indexTable d)). unfold size, set_size. apply submseteq_length, NoDup_submseteq; [apply NoDup_elements|].
    intros i [e Hi]%elem_of_elements%elem_of_dom.
    destruct (s_index d HS i e Hi) as (x & Hx & Hr & Hc). pose proof (proj2 (s_peer d HS _ _ Hx)) as Hm. rewrite Hr in Hm.
    apply list_elem_of_In, in_concat. exists (indices_of d x). split.
    + apply in_map_iff. exists (hs_remoteStatic (handshake x), ie_peer e). unfold f. cbn [snd]. rewrite Hx. split; [done|].
      by apply list_elem_of_In, elem_of_map_to_list.
    + apply list_elem_of_In. unfold indices_of. destruct Hc as [(_ & _ & <-)|(_ & k & kp & _ & Hk & Hkp & <-)]; [by left|right].
      apply list_elem_of_omap. exists (Some k). split; [done|]. cbn. by rewrite Hkp.
  - etrans; [apply (concat_length_le 4)|].
    + intros y Hy. apply list_elem_of_fmap in Hy as (kp & -> & _). unfold f. destruct (peers d !! kp.2); [apply indices_length|cbn; lia].
    + rewrite length_map, length_map_to_list. pose proof (s_size d HS). lia.
Qed.

(** Enough draws: among the numbers of that many calls there is an error, or
    more different indices than can be in use. *)
Definition generator_ok (entropy : nat -> list Z * option error) (draws : nat) : Prop :=
  forall n, (exists i, (i < draws)%nat /\ (entropy (n + i)%nat).2 <> None) \/
    (4 * MaxPeers < length (remove_dups (map (fun i => le_val (take 4 (entropy (n + i)%nat).1)) (seq 0 draws))))%nat.
Lemma NewIndex_stops entropy draws p d j : (j < draws)%nat ->
  (entropy (rnd d + j)%nat).2 <> None \/ indexTable d !! drawn entropy d j = None ->
  exists r d', NewIndexForHandshake entropy draws p d = Some (r, d').
Proof.
  revert d j. induction draws as [|m IH]; intros d j Hj Hor; [lia|]. cbn [NewIndexForHandshake].
  rewrite bind_run. change (randUint32 entropy d) with
    (Some ((le_val (take 4 (entropy (rnd d)).1), (entropy (rnd d)).2), set_rnd (S (rnd d)) d)).
  cbv beta iota. cbn [fst snd]. destruct ((entropy (rnd d)).2) as [er|] eqn:He; [by eexists _, _|].
  rewrite gets_bind. case_bool_decide as Hu; [|by eexists _, _].
  destruct j as [|j].
  - unfold drawn in Hor. rewrite Nat.add_0_r in Hor. destruct Hor as [?|Hn]; [congruence|]. apply eq_None_not_Some in Hn. done.
  - apply (IH _ j); [lia|]. unfold drawn in *. cbn [rnd set_rnd]. by rewrite Nat.add_succ_r in Hor.
Qed.
Lemma NewIndex_total entropy draws p d : generator_ok entropy draws -> sound d ->
  exists r d', NewIndexForHandshake entropy draws p d = Some (r, d').
Proof.
  intros Hg HS. destruct (Hg (rnd d)) as [(i & Hi & He)|Hlen]; [by apply (NewIndex_stops _ _ _ _ i); [|left]|].
  destruct (decide (Exists (fun j => indexTable d !! drawn entropy d j = None) (seq 0 draws))) as [Hex|Hno].
  - apply Exists_exists in Hex as (j & Hj%elem_of_seq & Hf). apply (NewIndex_stops _ _ _ _ j); [lia|by right].
  - exfalso. pose proof (table_size d HS) as Hsz. apply Nat.lt_nge in Hlen. apply Hlen. etrans; [|exact Hsz].
    rewrite <- (size_dom (indexTable d)), <- (size_list_to_set (C := gset Z)) by apply NoDup_remove_dups.
    apply subseteq_size. intros i Hi%elem_of_list_to_set. apply elem_of_remove_dups, list_elem_of_fmap in Hi as (j & -> & Hj).
    apply elem_of_dom. apply not_eq_None_Some. intros Hf. apply Hno, Exists_exists. by exists j.
Qed.

(** ** Handshakes *)
Lemma alter_insert (f : Peer -> Peer) p x (m : gmap pid Peer) : m !! p = Some x -> alter f p m = <[p := f x]> m.
Proof.
  intros H. apply map_eq. intros q. destruct (decide (q = p)) as [->|].
  - by rewrite lookup_insert_eq, lookup_alter_eq, H.
  - by rewrite lookup_insert_ne, lookup_alter_ne by done.
Qed.
(** A handshake whose old index is out of the table, with a new index or none. *)
Lemma new_handshake_good d d' p x h : sound d -> peers d !! p = Some x -> isRunning x = true ->
  indexTable d !! hs_localIndex (handshake x) = None -> hs_remoteStatic h = hs_remoteStatic (handshake x) ->
  peers d' = alter (set_handshake h) p (peers d) -> keyMap d' = keyMap d -> allowedips d' = allowedips d ->
  outbound d' = outbound d -> inbound d' = inbound d -> state d' = state d -> keypair_store d' = keypair_store d ->
  indexTable d' = indexTable d \/ indexTable d' = <[hs_localIndex h := mkIndexEntry p (Some p) None]> (indexTable d) ->
  good d d'.
Proof.
  intros HS Hx Hr Hfree Hrs Hp Hm Ha Ho Hib Hst Hs Ht. rewrite (alter_insert _ _ x) in Hp by done.
  apply (peer_step_good d d' p x (set_handshake h x)); try done.
  - by intros k kp; rewrite Hs.
  - rewrite Hs. apply HS.
  - intros k Hk. unfold valid. rewrite Hs. by apply (s_peer d HS p x Hx).
  - assert (forall i e, indexTable d !! i = Some e -> (ie_peer e <> p /\ indexTable d !! i = Some e) \/
      (ie_peer e = p /\ entry_of d' i e (set_handshake h x))) as Hold.
    { intros i e Hi. destruct (entry_self d i e p x HS Hx Hi) as [?|[? [_ Hc]]]; [by left|right]. split; [done|]. split; [done|].
      destruct Hc as [(_ & _ & <-)|Hc]; [congruence|]. right. by rewrite Hs. }
    intros i e. destruct Ht as [->| ->]; [apply Hold|]. intros [[<- <-]|[_ Hi]]%lookup_insert_Some; [|by apply Hold].
    right. split; [done|]. split; [done|]. by left.
Qed.

Context {C : Crypto} (entropy : nat -> list Z * option error) (draws : nat) (Hgen : generator_ok entropy draws).

Lemma good_trans d1 d2 d3 : good d1 d2 -> good d2 d3 -> good d1 d3.
Proof. intros [_ H1] [H2 H3]. split; [done|by trans d2]. Qed.
Lemma initiation_boxes_frame pk now r h : let h' := (initiation_boxes pk now r h).1 in
  hs_localIndex h' = hs_localIndex h /\ hs_remoteStatic h' = hs_remoteStatic h.
Proof.
  unfold initiation_boxes, hs_mixHash, hs_mixKey, hs_KDF2. destruct (newPrivateKey r) as [sk [e|]]; [done|].
  destruct (sharedSecret _ _) as [ss [e|]]; [done|]. destruct (KDF2 _ _) as [ck k].
  destruct (isZero _); [done|]. by destruct (KDF2 _ _).
Qed.
Lemma response_boxes_frame r h : let h' := (response_boxes r h).1 in
  hs_localIndex h' = hs_localIndex h /\ hs_remoteStatic h' = hs_remoteStatic h.
Proof.
  unfold response_boxes, hs_mixHash, hs_mixKey. destruct (newPrivateKey r) as [sk [e|]]; [done|].
  destruct (sharedSecret _ _) as [ss3 [e|]]; [done|]. destruct (sharedSecret _ _) as [ss4 [e|]]; [done|].
  by destruct (KDF3 _ _) as [[ck tau] k].
Qed.

Lemma wp_keeps_bind {A B} P (m : M A) (f : A -> M B) (Q : B -> Device -> Prop) d : keeps P m -> sound d -> P d ->
  (forall a d1, m d = Some (a, d1) -> good d d1 -> wp (f a) Q d1) -> wp (m ≫= f) Q d.
Proof.
  intros Hm HS HP Hf. destruct (Hm d HS HP) as (a & d1 & Hr & Hg). destruct (Hf a d1 Hr Hg) as (b & d2 & Hb & HQ).
  exists b, d2. split; [|done]. by rewrite bind_run, Hr.
Qed.
(** The tail shared by the two messages: the old index goes, a new one comes. *)
Lemma new_index_wp {A} p x (f : Z * option error -> M A) d : sound d -> peers d !! p = Some x -> isRunning x = true ->
  (forall i e d2, let d1 := set_indexTable (delete (hs_localIndex (handshake x)) (indexTable d)) d in
     (match e with
      | Some _ => exists n, d2 = set_rnd n d1
      | None => exists n, d2 = set_indexTable (<[i := mkIndexEntry p (Some p) None]> (indexTable d1)) (set_rnd n d1)
      end) -> good d d1 -> indexTable d1 !! hs_localIndex (handshake x) = None -> wp (f (i, e)) (fun _ d' => good d1 d') d2) ->
  wp (IndexTable_Delete (hs_localIndex (handshake x)) ≫= fun _ => NewIndexForHandshake entropy draws p ≫= f)
    (fun _ d' => good d d') d.
Proof.
  intros HS Hx Hr H. set (d1 := set_indexTable (delete (hs_localIndex (handshake x)) (indexTable d)) d).
  apply (wp_keeps_bind (fun _ => True)); [apply keeps_delete|done..|]. intros [] d1' Hd1 Hg.
  assert (d1' = d1) as -> by (by injection Hd1 as <-).
  destruct (NewIndex_total entropy draws p d1 Hgen (proj1 Hg)) as ([i e] & d2 & Hn).
  destruct (H i e d2) as (a & d' & Hf & Hg'); fold d1; try done.
  - apply NewIndex_inv in Hn as [n Hn]. destruct e; [by exists n|]. destruct Hn as [_ ->]. by exists n.
  - apply lookup_delete_eq.
  - exists a, d'. split; [by rewrite bind_run, Hn|by eapply good_trans].
Qed.
Lemma keeps_CreateMessageInitiation p : keeps (running p) (CreateMessageInitiation entropy draws p).
Proof.
  intros d HS (x & Hx & Hr). unfold CreateMessageInitiation. apply wp_bind. exists (dev_publicKey d), d. split; [done|].
  apply wp_bind. exists (clock d), d. split; [done|]. unfold wp. rewrite (get_handshake_bind _ _ _ _ Hx), rand_bind.
  pose proof (initiation_boxes_frame (dev_publicKey d) (clock d) (entropy (rnd d)) (handshake x)) as Hf.
  destruct (initiation_boxes _ _ _ _) as [h boxes]. cbn in Hf. destruct Hf as [Hli Hrs].
  assert (good d (set_rnd (S (rnd d)) d)) as Hg0 by by apply same_good. set (d0 := set_rnd (S (rnd d)) d) in *.
  assert (keeps (fun d => peers d !! p = Some x) (put_handshake p h)) as Hput.
  { apply keeps_put_handshake. intros d' x' _ Hx' Hx''. replace x' with x by congruence. done. }
  apply (wp_mono _ (fun _ d' => good d0 d')); [|by intros; eapply good_trans].
  eapply (wp_keeps_bind _ _ _ _ _ Hput); [apply Hg0|done|]. intros [] d1 Hd1 Hg1.
  assert (peers d1 !! p = Some (set_handshake h x)) as Hx1 by (injection Hd1 as <-; by apply (alter_lookup p x (set_handshake h))).
  destruct boxes as [[[E st] ti]|e]; [|by apply wp_ret].
  assert (hs_localIndex h = hs_localIndex (handshake (set_handshake h x))) as -> by done.
  apply (wp_mono _ (fun _ d' => good d1 d')); [|by intros; eapply good_trans].
  apply (new_index_wp p (set_handshake h x) _ d1); [apply Hg1|done|done|].
  intros i er d2 d3 Hd2 Hg2 Hfree. cbn [snd fst]. destruct er as [er|].
  - destruct Hd2 as [n ->]. apply wp_ret, same_good; [done|apply Hg2].
  - destruct Hd2 as [n ->]. eapply wp_run; [by rewrite put_handshake_bind|].
    eapply (new_handshake_good d3 _ p (set_handshake h x) (set_hs_state handshakeInitiationCreated
                                 (hs_mixHash ti (set_hs_localIndex i h)))); try done.
    + apply Hg2.
    + by right.
Qed.
Lemma keeps_CreateMessageResponse p : keeps (running p) (CreateMessageResponse entropy draws p).
Proof.
  intros d HS (x & Hx & Hr). unfold CreateMessageResponse, wp. rewrite (get_handshake_bind _ _ _ _ Hx).
  case_bool_decide; cbn [negb]; [|by apply wp_ret].
  apply (new_index_wp p x _ d); [done..|]. intros i er d2 d1 Hd2 Hg Hfree. cbn [fst snd].
  assert (forall h, hs_remoteStatic h = hs_remoteStatic (handshake x) -> hs_localIndex h = i ->
    forall n d', peers d' = alter (set_handshake h) p (peers d1) -> d' = set_peers (peers d') (set_rnd n d2) -> good d1 d') as Hput.
  { intros h H1 H2 n d' H3 ->. apply (new_handshake_good d1 _ p x h); try done; [apply Hg|..];
      destruct er; destruct Hd2 as [m ->]; try done; [by left|right; by rewrite H2]. }
  destruct er as [er|].
  - destruct Hd2 as [n ->]. eapply wp_run; [by rewrite put_handshake_bind|].
    by apply (Hput (set_hs_localIndex i (handshake x)) eq_refl eq_refl n).
  - unfold wp. rewrite rand_bind.
    pose proof (response_boxes_frame (entropy (rnd d2)) (set_hs_localIndex i (handshake x))) as Hf.
    destruct (response_boxes _ _) as [h boxes]. cbn in Hf. destruct Hf as [Hli Hrs].
    destruct boxes as [[F em]|e]; (eapply wp_run; [by rewrite put_handshake_bind|]); destruct Hd2 as [n ->].
    + by apply (Hput (set_hs_state handshakeResponseCreated h) Hrs Hli (S n)).
    + by apply (Hput h Hrs Hli (S n)).
Qed.

End session.

(** ** Sessions *)
Section rotation.
Context {BI : Bind} {C : Crypto}.
Implicit Types (d : Device) (p : pid) (x : Peer).
Lemma slots_valid d p x : sound d -> peers d !! p = Some x -> slots_ok d x.
Proof. intros HS Hx. exact (proj1 (s_peer d HS p x Hx)). Qed.
(** The index of the handshake is not another peer's. *)
Definition own_index p d : Prop :=
  forall x e, peers d !! p = Some x -> indexTable d !! hs_localIndex (handshake x) = Some e -> ie_peer e = p.
Lemma rotate_slots init k s o : o ∈ slots (rotate init k s).1 -> o = Some k \/ o ∈ slots s \/ o = None.
Proof.
  unfold rotate, slots. destruct init, (next s) as [n|] eqn:E; cbn; rewrite ?E; rewrite !elem_of_cons, elem_of_nil; tauto.
Qed.
Lemma rotate_kept init k s o : o ∈ slots s -> o ∈ (rotate init k s).2 \/ o ∈ slots (rotate init k s).1 \/ o = None.
Proof.
  unfold rotate, slots. destruct init, (next s) as [n|] eqn:E; cbn; rewrite ?E; rewrite !elem_of_cons, !elem_of_nil; tauto.
Qed.
Lemma rotate_new init k s : Some k ∈ slots (rotate init k s).1.
Proof. unfold rotate, slots. destruct init, (next s); cbn; set_solver. Qed.
Lemma keeps_BeginSymmetricSession p : keeps (fun d => running p d /\ own_index p d) (BeginSymmetricSession p).
Proof.
  intros d HS [(x & Hx & Hr) Hown]. destruct (session_keys (handshake x)) as [[[init sk] rk]|] eqn:Hk.
  2:{ unfold BeginSymmetricSession, wp. rewrite (get_handshake_bind _ _ _ _ Hx), Hk. by eexists _, _. }
  pose proof (slots_valid d p x HS Hx) as Hsl.
  destruct (BeginSymmetricSession_ok p x d init sk rk Hx Hsl Hk)
    as (d' & x' & Hrun & Hst & Hp & Hkp & Hhs & Hli & Hr' & _ & _ & _ & _ & Ht & Hrs & Hm & Ha & Ho & Hib & Hs).
  set (k := fresh (dom (keypair_store d))) in *. set (i := hs_localIndex (handshake x)) in *.
  assert (keypair_store d !! k = None) as Hfr by apply (not_elem_of_dom (D := gset kid)), is_fresh.
  eapply wp_run; [exact Hrun|].
  assert (forall k' kp, keypair_store d !! k' = Some kp -> keypair_store d' !! k' = Some kp) as Hext.
  { intros k' kp Hk'. rewrite Hst, lookup_insert_ne; congruence. }
  apply (peer_step_good d d' p x x'); try done.
  - intros k' kp. rewrite Hst. intros [[<- <-]|[_ H]]%lookup_insert_Some; [cbn; unfold RejectAfterMessages; lia|by eapply s_counter].
  - congruence.
  - intros k' Hk'. rewrite Hkp in Hk'. unfold valid. rewrite Hst. apply rotate_slots in Hk' as [[= ->]|[Hk'|]]; [by rewrite lookup_insert_eq| |done].
    destruct (Hsl _ Hk') as [kp ?]. rewrite <- Hst. exists kp. auto.
  - intros j e. rewrite Ht. intros [Hj Hdel]%del_keypairs_lookup. unfold swap_entry in Hj.
    assert (forall e, indexTable d !! j = Some e -> (j = i -> ie_keypair e = None -> False) ->
      ie_peer e <> p /\ indexTable d !! j = Some e \/ ie_peer e = p /\ entry_of d' j e x') as Hold.
    { intros e0 He0 Hno. destruct (entry_self d j e0 p x HS Hx He0) as [?|[? [_ Hc]]]; [by left|right]. split; [done|].
      split; [congruence|]. destruct Hc as [(_ & Hn & Hji)|(Hh & k' & kp & H1 & H2 & H3 & H4)]; [by destruct (Hno (eq_sym Hji))|].
      right. split; [done|]. exists k', kp. split_and!; auto. rewrite Hkp.
      destruct (rotate_kept init k _ _ H2) as [Hd|[?|?]]; [|done|done]. by destruct (Hdel k' kp Hd (Hext _ _ H3)). }
    destruct (indexTable d !! i) as [e0|] eqn:Hi.
    + apply lookup_insert_Some in Hj as [[<- <-]|[Hne Hj]]; [|by apply Hold].
      right. cbn [ie_peer]. split; [by eapply Hown|]. split; [congruence|]. right. split; [done|].
      eexists k, _. split; [done|]. rewrite Hkp. split; [apply rotate_new|]. rewrite Hst, lookup_insert_eq. done.
    + apply Hold; [done|]. intros ->. congruence.
Qed.

Lemma DeleteKeypair_run o d : (forall k, o = Some k -> valid k d) ->
  DeleteKeypair o d = Some (tt, set_indexTable (del_keypair (keypair_store d) (indexTable d) o) d).
Proof.
  intros Hv. destruct o as [k|]; [|by destruct d]. cbn. unfold DeleteKeypair. destruct (Hv k eq_refl) as [kp Hk].
  rewrite bind_run. unfold get_keypair. by rewrite Hk.
Qed.
Lemma keeps_ReceivedWithKeypair p k : keeps (running p) (ReceivedWithKeypair p k).
Proof.
  intros d HS (x & Hx & Hr). pose proof (slots_valid d p x HS Hx) as Hsl.
  unfold ReceivedWithKeypair, wp. rewrite (get_peer_bind _ _ _ _ Hx). case_bool_decide as Hn; cbn [negb]; [|by apply wp_ret].
  apply wp_bind. eapply wp_run; [apply DeleteKeypair_run|].
  { intros k' Hk'. apply Hsl. rewrite <- Hk'. unfold slots. set_solver. }
  eapply wp_run; [reflexivity|]. set (s' := mkKeypairs (next (keypairs x)) (current (keypairs x)) None).
  apply (peer_step_good d _ p x (set_keypairs s' x)); try done.
  - dsimp. by rewrite (alter_insert _ _ x).
  - apply HS.
  - intros k' Hk'. apply Hsl. unfold slots, s' in *. cbn in Hk'. set_solver.
  - intros i e Hi. dsimp_in Hi. pose proof (proj1 (del_keypairs_lookup (keypair_store d) (indexTable d) [previous (keypairs x)] i e) Hi) as [Hi0 Hdel].
    destruct (entry_self d i e p x HS Hx Hi0) as [?|[? [_ Hc]]]; [by left|right]. split; [done|]. split; [done|].
    destruct Hc as [Hc|(Hh & k' & kp & H1 & H2 & H3 & H4)]; [by left|right]. split; [done|]. exists k', kp. split_and!; try done.
    dsimp. unfold slots in H2 |- *. cbn. rewrite !elem_of_cons, elem_of_nil in H2. destruct H2 as [H2|[H2|[H2|[]]]].
    + rewrite H2. set_solver.
    + destruct (Hdel k' kp); [rewrite H2; by left|done..].
    + rewrite H2. set_solver.
Qed.

(** ** Forgetting sessions, stopping and starting *)
Definition zeroed x : Peer := set_staged [] (on_handshake Handshake_Clear (set_keypairs no_keypairs x)).
(** What remains of the table when a peer's indices are deleted. *)
Definition table_without d x : gmap Z IndexTableEntry :=
  delete (hs_localIndex (handshake x))
    (foldl (del_keypair (keypair_store d)) (indexTable d) [previous (keypairs x); current (keypairs x); next (keypairs x)]).
Lemma modify_peer_run p f x d : peers d !! p = Some x ->
  modify_peer p f d = Some (tt, set_peers (<[p := f x]> (peers d)) d).
Proof. intros Hx. unfold modify_peer, modify. by rewrite (alter_insert _ _ x). Qed.
Lemma ZeroAndFlushAll_run p x d : peers d !! p = Some x -> slots_ok d x ->
  ZeroAndFlushAll p d = Some (tt, set_peers (<[p := zeroed x]> (peers d)) (set_indexTable (table_without d x) d)).
Proof.
  intros Hx Hsl. unfold ZeroAndFlushAll. rewrite (get_peer_bind _ _ _ _ Hx). cbv zeta.
  assert (forall o, o ∈ slots (keypairs x) -> forall k, o = Some k -> valid k d) as Hv by (intros o Hin k ->; by apply Hsl).
  assert (previous (keypairs x) ∈ slots (keypairs x) /\ current (keypairs x) ∈ slots (keypairs x) /\
    next (keypairs x) ∈ slots (keypairs x)) as (Hin1 & Hin2 & Hin3) by (unfold slots; set_solver).
  rewrite bind_run, DeleteKeypair_run by exact (Hv _ Hin1). rewrite bind_run, DeleteKeypair_run by exact (Hv _ Hin2).
  rewrite bind_run, DeleteKeypair_run by exact (Hv _ Hin3). dsimp.
  set (d1 := set_indexTable _ _). assert (peers d1 !! p = Some x) as Hx1 by done.
  rewrite bind_run, (modify_peer_run _ _ _ _ Hx1). set (d2 := set_peers _ d1).
  assert (peers d2 !! p = Some (set_keypairs no_keypairs x)) as Hx2 by apply lookup_insert_eq.
  rewrite (get_handshake_bind _ _ _ _ Hx2), bind_run. change (IndexTable_Delete ?i d2) with (Some (tt, set_indexTable (delete i (indexTable d2)) d2)).
  cbv beta iota. set (d3 := set_indexTable _ d2). assert (peers d3 !! p = Some (set_keypairs no_keypairs x)) as Hx3 by apply lookup_insert_eq.
  rewrite bind_run, (modify_peer_run _ _ _ _ Hx3). unfold FlushStagedPackets.
  rewrite (modify_peer_run _ _ (on_handshake Handshake_Clear (set_keypairs no_keypairs x))) by (dsimp; apply lookup_insert_eq).
  do 2 f_equal. unfold d3, d2, d1, zeroed, table_without. dsimp. cbn [foldl]. rewrite !insert_insert_eq. by destruct d.
Qed.
Lemma table_without_other d p x i e : sound d -> peers d !! p = Some x -> table_without d x !! i = Some e ->
  ie_peer e <> p /\ indexTable d !! i = Some e.
Proof.
  intros HS Hx. unfold table_without. intros [Hne [Hi Hdel]%del_keypairs_lookup]%lookup_delete_Some.
  destruct (entry_self d i e p x HS Hx Hi) as [?|[? [_ Hc]]]; [done|exfalso].
  destruct Hc as [(_ & _ & ?)|(_ & k & kp & _ & H2 & H3 & H4)]; [done|]. apply (Hdel k kp); try done. unfold slots in H2. set_solver.
Qed.
Lemma keeps_ZeroAndFlushAll p : keeps (running p) (ZeroAndFlushAll p).
Proof.
  intros d HS (x & Hx & Hr). eapply wp_run; [apply (ZeroAndFlushAll_run _ _ _ Hx); by eapply slots_valid|].
  apply (peer_step_good d _ p x (zeroed x)); try done; dsimp; [apply HS| |].
  - intros k. unfold slots. cbn. set_solver.
  - intros i e Hi. left. by apply (table_without_other _ _ x).
Qed.

Lemma Peer_Stop_ok p d : sound d -> known p d ->
  wp (Peer_Stop p) (fun _ d' => sound d' /\ evolves d d' /\ ~ running p d' /\
    (forall q, q <> p -> running q d <-> running q d') /\
    keyMap d' = keyMap d /\ allowedips d' = allowedips d /\ state d' = state d /\ dev_privateKey d' = dev_privateKey d) d.
Proof.
  intros HS [x Hx]. unfold Peer_Stop, wp. rewrite (get_peer_bind _ _ _ _ Hx). destruct (isRunning x) eqn:Hr; cbn [negb].
  2:{ eexists _, _. split; [reflexivity|]. split_and!; try done. intros (y & Hy & ?). congruence. }
  apply wp_bind. eapply wp_run; [by apply modify_peer_run|]. set (x1 := set_isRunning false x). set (d1 := set_peers _ d).
  assert (peers d1 !! p = Some x1) as Hx1 by apply lookup_insert_eq.
  apply wp_bind. unfold timersStop. eapply wp_run; [by apply modify_peer_run|].
  set (x2 := on_timers _ x1). set (d2 := set_peers _ d1). assert (peers d2 !! p = Some x2) as Hx2 by apply lookup_insert_eq.
  eapply wp_run; [apply (ZeroAndFlushAll_run _ _ _ Hx2)|].
  { intros k Hk. by apply (slots_valid d p x HS Hx). }
  set (d' := set_peers _ _). assert (peers d' = <[p := zeroed x2]> (peers d)) as Hp'.
  { unfold d', d2, d1. dsimp. by rewrite !insert_insert_eq. }
  destruct (peer_step d d' p x (zeroed x2)) as (H1 & H2 & H3); try done; [apply HS| | |].
  - split; [intros k; unfold slots; cbn; set_solver|]. split; [done|]. by split_and!.
  - intros i e Hi. left. apply (table_without_other _ _ x); [done..|]. exact Hi.
  - split_and!; try done. intros (y & Hy & Hy'). rewrite Hp', lookup_insert_eq in Hy. injection Hy as <-. done.
Qed.

Lemma filter_pairs_sub (f : pid * list OutboundElement -> Prop) `{forall c, Decision (f c)} q : pairs (filter f q) `sublist_of` pairs q.
Proof.
  induction q as [|c q IH]; [done|]. rewrite filter_cons. unfold pairs in *. destruct (decide (f c)); cbn [map concat].
  - by apply sublist_app.
  - by apply sublist_inserts_l.
Qed.
(** A peer of the map of a device that is up runs afterwards. *)
Lemma Peer_Start_ok p d : sound d -> in_map p d -> up d ->
  wp (Peer_Start p) (fun _ d' => good d d' /\ running p d') d.
Proof.
  intros HS [pk Hpk] Hup. destruct (s_map d HS pk p Hpk) as (x & Hx & Hrs). unfold Peer_Start, isClosed.
  unfold wp. rewrite gets_bind, (get_peer_bind _ _ _ _ Hx). case_bool_decide as Hc; cbn [orb].
  { unfold up in Hup. congruence. }
  destruct (isRunning x) eqn:Hr.
  { eexists _, _. split; [reflexivity|]. split; [done|]. by exists x. }
  rewrite gets_bind. apply wp_bind. eapply wp_run; [by apply modify_peer_run|]. set (x1 := on_handshake _ x). set (d1 := set_peers _ d).
  assert (peers d1 !! p = Some x1) as Hx1 by apply lookup_insert_eq.
  apply wp_bind. unfold timersStart. eapply wp_run; [by apply modify_peer_run|]. set (x2 := on_timers _ x1). set (d2 := set_peers _ d1).
  unfold wp. rewrite !modify_bind. set (d3 := set_outbound _ (set_inbound _ d2)). assert (peers d3 !! p = Some x2) as Hx3 by apply lookup_insert_eq.
  eapply wp_run; [by apply modify_peer_run|]. set (d' := set_peers _ d3).
  assert (peers d' = <[p := set_isRunning true x2]> (peers d)) as Hp' by (unfold d', d3, d2, d1; dsimp; by rewrite !insert_insert_eq).
  pose proof (s_peer d HS p x Hx) as [Hsl Hst]. rewrite Hr in Hst.
  destruct (peer_step d d' p x (set_isRunning true x2)) as (H1 & H2 & H3); try done; [apply filter_pairs_sub|by intros c [_ ?]%list_elem_of_filter|by intros c [_ ?]%list_elem_of_filter|apply HS|..].
  - split; [done|]. dsimp. cbn. congruence.
  - intros i e Hi. left. destruct (entry_self d i e p x HS Hx Hi) as [?|[? [? _]]]; [done|congruence].
  - assert (running p d') as Hrun by (exists (set_isRunning true x2); by rewrite Hp', lookup_insert_eq).
    split; [|done]. split; [done|]. split; try done; [|by right].
    intros q Hq. destruct (decide (q = p)) as [->|]; [done|by apply H3].
Qed.

Lemma clear_handshake_good d p x h : sound d -> peers d !! p = Some x ->
  indexTable d !! hs_localIndex (handshake x) = None -> hs_remoteStatic h = hs_remoteStatic (handshake x) ->
  good d (set_peers (<[p := set_handshake h x]> (peers d)) d).
Proof.
  intros HS Hx Hfree Hrs. set (d' := set_peers _ d).
  destruct (peer_step d d' p x (set_handshake h x)) as (H1 & H2 & H3); try done; [apply HS| | |].
  - destruct (s_peer d HS p x Hx) as [Hv Hr]. split; [done|]. dsimp. change (keyMap d') with (keyMap d). by rewrite Hrs.
  - intros i e Hi. destruct (entry_self d i e p x HS Hx Hi) as [?|[? [Hr Hc]]]; [by left|right]. split; [done|]. split; [done|].
    destruct Hc as [(_ & _ & <-)|Hc]; [|by right]. change (indexTable d !! hs_localIndex (handshake x) = Some e) in Hi. congruence.
  - assert (peers d' !! p = Some (set_handshake h x)) as Hx' by apply lookup_insert_eq.
    split; [done|]. split; try done; intros q (y & Hy & Hr); (destruct (decide (q = p)) as [->|]; [|try left; by apply H3; [|exists y]]).
    + exists (set_handshake h x). split; [done|]. change (isRunning x = true). congruence.
    + left. exists x. split; [done|]. replace y with (set_handshake h x) in Hr by congruence. done.
Qed.
Lemma counter_up_Reject : counter_up (set_sendNonce RejectAfterMessages).
Proof. intros kp. split; [done|]. cbn. lia. Qed.
Lemma keeps_ExpireCurrentKeypairs p : keeps (known p) (ExpireCurrentKeypairs p).
Proof.
  intros d HS [x Hx]. unfold ExpireCurrentKeypairs, wp. rewrite (get_handshake_bind _ _ _ _ Hx), gets_bind.
  apply (wp_keeps_bind (fun d => peers d !! p = Some x)); [apply keeps_delete|done..|].
  intros [] d1 Hd1 Hg1. assert (d1 = set_indexTable (delete (hs_localIndex (handshake x)) (indexTable d)) d) as -> by by injection Hd1.
  set (d1 := set_indexTable _ d) in *. assert (peers d1 !! p = Some x) as Hx1 by done.
  apply wp_bind. eapply wp_run; [by apply modify_peer_run|].
  set (h := set_hs_lastSentHandshake (clock d - (RekeyTimeout + second)) (Handshake_Clear (handshake x))).
  set (d2 := set_peers (<[p := set_handshake h x]> (peers d1)) d1).
  assert (good d1 d2) as Hg2 by (apply clear_handshake_good; [apply Hg1|done|apply lookup_delete_eq|done]).
  apply (wp_mono _ (fun _ d' => good d2 d')); [|intros; by eapply good_trans; [|eapply good_trans]].
  assert (peers d2 !! p = Some (set_handshake h x)) as Hx2 by apply lookup_insert_eq.
  unfold wp. rewrite (get_peer_bind _ _ _ _ Hx2).
  assert (forall o, keeps (fun _ => True) (match o with Some k => modify_keypair k (set_sendNonce RejectAfterMessages) | None => mret tt end)) as Hk.
  { intros []; [apply keeps_modify_keypair, counter_up_Reject|apply keeps_ret]. }
  apply (keeps_bind (fun _ => True)); [apply _|apply Hk|intros []; apply Hk|apply Hg2|done].
Qed.
End rotation.
