(* ===== verification/WGInvOps.v ===== *)
(** * wireguard-go/device: sending and receiving keep the invariant

    Every operation of WGPeer.v and WGRecv.v on a running peer comes to an end
    and keeps the device sound. The tactic [keep] walks over the monad with the
    rules of WGInv.v; the hint database [keeps] holds what is proved of the
    operations on the way. *)
From S2P Require Import Prelude GoStrings GoNet GoBytes WGCrypto WGCookie WGState Handshake HandshakeProofs WGPeer WGRecv WGInv WGInvSession.
From S2P Require AllowedIPs AllowedIPsProofs Replay RateLimiter.
Open Scope Z_scope.

Create HintDb keeps.
(** Facts about the state from those at hand. *)
Ltac kside :=
  intros; unfold view in *;
  repeat match goal with
  | H : _ /\ _ |- _ => destruct H
  | H : forall k, Some ?a = Some k -> _ |- _ => specialize (H a eq_refl)
  | H : _ && _ = true |- _ => apply andb_prop in H
  | H : bool_decide _ = true |- _ => apply bool_decide_eq_true_1 in H
  end;
  repeat match goal with |- _ /\ _ => split end;
  eauto 6 using running_known, in_map_known, running_in_map.
Ltac core := intros; split_and!; done.

Section rules.
Context {BI : Bind}.
Lemma keeps_active {B} P p (f : bool -> M B) : (forall d, sound d -> P d -> known p d) ->
  (forall b, keeps (fun d => P d /\ (b = true -> running p d)) (f b)) -> keeps P (timersActive p ≫= f).
Proof.
  intros Hk H d HS HP. destruct (Hk d HS HP) as [x Hx]. pose proof (view_read p x d HS Hx) as (_ & _ & Hr & _).
  assert (timersActive p d = Some (isRunning x && bool_decide (state d = deviceStateUp), d)) as Ha.
  { unfold timersActive. by rewrite (get_peer_bind _ _ _ _ Hx). }
  destruct (H (isRunning x && bool_decide (state d = deviceStateUp)) d HS) as (b & d' & H1 & H2).
  - split; [done|]. intros [? _]%andb_prop. auto.
  - exists b, d'. by rewrite bind_run, Ha.
Qed.
(** A pending timer is a running peer's. *)
Lemma keeps_pending {B} P p (n : timer_name) (f : bool -> M B) : (forall d, sound d -> P d -> known p d) ->
  (forall b, keeps (fun d => P d /\ (b = true -> running p d)) (f b)) -> keeps P (IsPending p (timer_get n) ≫= f).
Proof.
  intros Hk H d HS HP. destruct (Hk d HS HP) as [x Hx]. pose proof (view_read p x d HS Hx) as (_ & _ & _ & Hi).
  set (b := bool_decide (is_Some (timer_get n (timers x)))).
  assert (IsPending p (timer_get n) d = Some (b, d)) as Ha by (unfold IsPending; by rewrite (get_peer_bind _ _ _ _ Hx)).
  destruct (H b d HS) as (c & d' & H1 & H2).
  - split; [done|]. intros [v Hv]%bool_decide_eq_true_1. apply Hi. intros (?&?&?&?&?). destruct n; cbn in Hv; congruence.
  - exists c, d'. by rewrite bind_run, Ha.
Qed.
Lemma keeps_handshake {B} P p (f : Handshake -> M B) : (forall d, sound d -> P d -> known p d) ->
  (forall h, keeps P (f h)) -> keeps P (get_handshake p ≫= f).
Proof.
  intros Hk H d HS HP. destruct (Hk d HS HP) as [x Hx]. destruct (H (handshake x) d HS HP) as (b & d' & H1 & H2).
  exists b, d'. by rewrite (get_handshake_bind _ _ _ _ Hx).
Qed.
Lemma keeps_Current {B} P p (f : option kid -> M B) : (forall d, sound d -> P d -> known p d) ->
  (forall o, keeps (fun d => P d /\ (forall k, o = Some k -> valid k d /\ running p d)) (f o)) -> keeps P (Keypairs_Current p ≫= f).
Proof.
  intros Hk H d HS HP. destruct (Hk d HS HP) as [x Hx]. pose proof (view_read p x d HS Hx) as (_ & Hc & _).
  destruct (H (current (keypairs x)) d HS) as (b & d' & H1 & H2).
  - split; [done|]. intros k Hcur. apply Hc. rewrite <- Hcur. unfold slots. set_solver.
  - exists b, d'. unfold Keypairs_Current. by rewrite bind_assoc, (get_peer_bind _ _ _ _ Hx), ret_bind.
Qed.
Lemma keeps_Timer_Mod p set dur : keeps (running p) (Timer_Mod p set dur).
Proof.
  apply keeps_gets. intros now. apply keeps_alter. intros d x HS (y & Hy & Hr) Hx.
  split_and!; try done. intros ?. congruence.
Qed.
Lemma keeps_Timer_Del P p (set : Timer -> Timers -> Timers) : (forall t, idle t -> idle (set None t)) ->
  keeps P (Timer_Del p set).
Proof. intros H. apply keeps_alter_all. intros x. split_and!; try done. intros _. apply H. Qed.
Lemma keeps_timers P p f : (forall t, idle t -> idle (f t)) -> keeps P (modify_peer p (on_timers f)).
Proof. intros H. apply keeps_alter_all. intros x. split_and!; try done. intros _. apply H. Qed.
Lemma keeps_on_handshake P p f : (forall h, hs_localIndex (f h) = hs_localIndex h /\ hs_remoteStatic (f h) = hs_remoteStatic h) ->
  keeps P (modify_peer p (on_handshake f)).
Proof. intros H. apply keeps_alter_all. intros x. destruct (H (handshake x)). by split_and!. Qed.
Lemma keeps_fastrandn P entropy n : keeps P (fastrandn entropy n).
Proof. apply (keeps_weaken P (fun _ => True)); [|done]. apply keeps_bind; [apply _|apply keeps_rand|intros; apply keeps_ret]. Qed.
End rules.
#[export] Hint Resolve keeps_Timer_Mod keeps_rand keeps_fastrandn keeps_delete : keeps.
#[export] Hint Extern 1 (keeps _ (Timer_Del _ _)) => (apply keeps_Timer_Del; intros ? (?&?&?&?&?); by split_and!) : keeps.

Ltac keep1 :=
  cbv beta;
  lazymatch goal with
  | |- keeps _ (mret _) => apply keeps_ret
  | |- keeps _ (timersActive _ ≫= _) => apply keeps_active; [kside|intros ?]
  | |- keeps _ (get_peer _ ≫= _) => apply keeps_peer; [kside|intros ?]
  | |- keeps _ (get_handshake _ ≫= _) => apply keeps_handshake; [kside|intros ?]
  | |- keeps _ (get_keypair _ ≫= _) => apply keeps_keypair; [kside|intros ?]
  | |- keeps _ (Keypairs_Current _ ≫= _) => apply keeps_Current; [kside|intros ?]
  | |- keeps _ (IsPending ?p newHandshake ≫= _) => apply (keeps_pending _ p TNewHandshake); [kside|intros ?]
  | |- keeps _ (IsPending ?p sendKeepalive ≫= _) => apply (keeps_pending _ p TSendKeepalive); [kside|intros ?]
  | |- keeps _ (IsPending ?p zeroKeyMaterial ≫= _) => apply (keeps_pending _ p TZeroKeyMaterial); [kside|intros ?]
  | |- keeps _ (gets _ ≫= _) => apply keeps_gets; intros ?
  | |- keeps _ (isUp ≫= _) => apply keeps_gets; intros ?
  | |- keeps _ (isClosed ≫= _) => apply keeps_gets; intros ?
  | |- keeps _ (since _ ≫= _) => apply keeps_gets; intros ?
  | |- keeps _ (LookupPeer _ ≫= _) => apply keeps_gets; intros ?
  | |- keeps _ (IndexTable_Lookup _ ≫= _) => apply keeps_gets; intros ?
  | |- keeps _ (_ ≫= _) => apply keeps_bind; [apply _| |intros ?]
  | |- keeps _ (when _ _) => apply keeps_when; intros ?
  | |- keeps _ (unless _ _) => apply keeps_unless; intros ?
  | |- keeps _ (let _ := _ in _) => cbv zeta
  | |- keeps _ (match ?x with _ => _ end) => destruct x eqn:?
  | |- keeps _ (modify_peer _ (on_timers _)) => first [apply keeps_timers; intros ? (?&?&?&?&?); by split_and! | eapply keeps_weaken; [solve [auto with keeps]|kside]]
  | |- keeps _ (modify_peer _ (on_handshake _)) => apply keeps_on_handshake; intros []; done
  | |- keeps _ (modify_peer _ _) => apply keeps_alter_all; core
  | |- keeps _ (modify _) => apply keeps_set; intros []; split_and!; done
  | |- keeps _ _ => eapply keeps_weaken; [solve [auto 2 with keeps]|kside]
  end.
Ltac keep := repeat keep1.

Section ops.
Context {C : Crypto} {BI : Bind} (entropy : nat -> list Z * option error) (draws : nat) (Hgen : generator_ok entropy draws).
Implicit Types (d : Device) (p : pid) (x : Peer).

Lemma keeps_timersDataSent p : keeps (known p) (timersDataSent entropy p).
Proof. unfold timersDataSent. keep. Qed.
Lemma keeps_timersDataReceived p : keeps (known p) (timersDataReceived p).
Proof. unfold timersDataReceived. keep. Qed.
Lemma keeps_PacketSent p : keeps (known p) (timersAnyAuthenticatedPacketSent p).
Proof. unfold timersAnyAuthenticatedPacketSent. keep. Qed.
Lemma keeps_PacketReceived p : keeps (known p) (timersAnyAuthenticatedPacketReceived p).
Proof. unfold timersAnyAuthenticatedPacketReceived. keep. Qed.
Lemma keeps_HandshakeInitiated p : keeps (known p) (timersHandshakeInitiated entropy p).
Proof. unfold timersHandshakeInitiated. keep. Qed.
Lemma keeps_HandshakeComplete p : keeps (known p) (timersHandshakeComplete p).
Proof. unfold timersHandshakeComplete. keep. Qed.
Lemma keeps_SessionDerived p : keeps (known p) (timersSessionDerived p).
Proof. unfold timersSessionDerived. keep. Qed.
Lemma keeps_PacketTraversal p : keeps (known p) (timersAnyAuthenticatedPacketTraversal p).
Proof. unfold timersAnyAuthenticatedPacketTraversal. keep. Qed.
End ops.
#[export] Hint Resolve keeps_timersDataSent keeps_timersDataReceived keeps_PacketSent keeps_PacketReceived
  keeps_HandshakeInitiated keeps_HandshakeComplete keeps_SessionDerived keeps_PacketTraversal
  keeps_ReceivedWithKeypair keeps_ZeroAndFlushAll keeps_ExpireCurrentKeypairs keeps_CreateMessageInitiation
  keeps_CreateMessageResponse : keeps.

Section sending.
Context {C : Crypto} {BI : Bind} (entropy : nat -> list Z * option error) (draws : nat) (Hgen : generator_ok entropy draws).
Implicit Types (d : Device) (p : pid) (x : Peer).

Lemma keeps_clear_src P p : keeps P (modify_peer p clear_src).
Proof. apply keeps_alter_all. intros x. unfold clear_src. destruct (clearSrcOnTx x); [core|apply core_refl]. Qed.
Lemma keeps_SendBuffers p buffers : keeps (known p) (SendBuffers p buffers).
Proof. unfold SendBuffers. keep. all: try apply keeps_clear_src. Qed.
Lemma keeps_SetEndpointFromPacket P p ep : keeps P (SetEndpointFromPacket p ep).
Proof. apply keeps_alter_all. intros x. destruct (disableRoaming x); [apply core_refl|core]. Qed.
Lemma keeps_markEndpoint P p : keeps P (markEndpointSrcForClearing p).
Proof. apply keeps_alter_all. intros x. destruct (endpoint_val x); [core|apply core_refl]. Qed.
Lemma keeps_StagePackets P p elems : keeps P (StagePackets p elems).
Proof. unfold StagePackets. keep. Qed.
Lemma keeps_FlushStagedPackets P p : keeps P (FlushStagedPackets p).
Proof. unfold FlushStagedPackets. keep. Qed.
Lemma keeps_add_macs p packet : keeps (known p) (add_macs p packet).
Proof. unfold add_macs. keep. Qed.
#[local] Hint Resolve keeps_SendBuffers keeps_SetEndpointFromPacket keeps_markEndpoint keeps_StagePackets
  keeps_FlushStagedPackets keeps_add_macs : keeps.
Lemma keeps_SendHandshakeInitiation p retry : keeps (running p) (SendHandshakeInitiation entropy draws p retry).
Proof. unfold SendHandshakeInitiation. keep. Qed.
#[local] Hint Resolve keeps_SendHandshakeInitiation : keeps.
Lemma keeps_keepKeyFreshSending p : keeps (known p) (keepKeyFreshSending entropy draws p).
Proof. unfold keepKeyFreshSending. keep. Qed.

(** ** Packets get nonces *)
Lemma assign_nonces_spec k : forall elems n ok late n', 0 <= n <= RejectAfterMessages ->
  assign_nonces k n elems = (ok, late, n') ->
  n <= n' <= RejectAfterMessages /\
  map (fun e => (oe_keypair e, oe_nonce e)) ok = map (fun i => (k, n + Z.of_nat i)) (seq 0 (length ok)) /\
  n + Z.of_nat (length ok) <= n' /\ (late <> [] -> n' = RejectAfterMessages) /\
  (late = [] -> map oe_packet ok = elems).
Proof.
  assert (RejectAfterMessages < 2 ^ 64 - 1) as HR by done.
  induction elems as [|e elems IH]; intros n ok late n' Hn H; cbn [assign_nonces] in H.
  { injection H as <- <- <-. cbn. split_and!; try done; lia. }
  rewrite (u64_small (n + 1)) in H by lia. rewrite (u64_small (n + 1 - 1)) in H by lia.
  replace (n + 1 - 1) with n in H by lia. destruct (Z.leb_spec RejectAfterMessages n).
  - destruct (assign_nonces k RejectAfterMessages elems) as [[ok1 late1] n1] eqn:E. injection H as <- <- <-.
    apply IH in E as (H1 & H2 & H3 & H4 & H5); [|unfold RejectAfterMessages in *; lia].
    assert (ok1 = []) as -> by (destruct ok1; [done|cbn in H3; lia]). cbn in *. split_and!; try done; lia.
  - destruct (assign_nonces k (n + 1) elems) as [[ok1 late1] n1] eqn:E. injection H as <- <- <-.
    apply IH in E as (H1 & H2 & H3 & H4 & H5); [|lia]. cbn [length map seq oe_keypair oe_nonce oe_packet].
    split_and!; try done; try lia.
    + rewrite Z.add_0_r, H2. f_equal. rewrite <- seq_shift, map_map. apply map_ext. intros i. f_equal. lia.
    + intros ->. f_equal. by apply H5.
Qed.
Lemma pairs_snoc q p elems : pairs (q ++ [(p, elems)]) = pairs q ++ map (fun e => (oe_keypair e, oe_nonce e)) elems.
Proof. unfold pairs. rewrite map_app, concat_app. cbn [map concat]. by rewrite app_nil_r. Qed.
Lemma nonces_send P d d' k kp n' ok : keypair_store d !! k = Some kp ->
  keypair_store d' = <[k := set_sendNonce n' kp]> (keypair_store d) -> pairs (outbound d') = pairs (outbound d) ++ map (fun e => (oe_keypair e, oe_nonce e)) ok ->
  map (fun e => (oe_keypair e, oe_nonce e)) ok = map (fun i => (k, sendNonce kp + Z.of_nat i)) (seq 0 (length ok)) ->
  sendNonce kp + Z.of_nat (length ok) <= n' -> nonces_ok P d -> nonces_ok P d'.
Proof.
  intros Hk Hs Ho Hok Hle [Hnd Hlt]. unfold nonces_ok. rewrite Ho, Hok, (assoc_L (++)). split.
  - apply NoDup_app. split; [done|]. split.
    + intros [k' m] Hin Hm. apply list_elem_of_fmap in Hm as (i & [= -> ->] & _).
      destruct (Hlt _ _ Hin) as (kp0 & H0 & Hl). rewrite Hk in H0. injection H0 as <-. lia.
    + apply (NoDup_fmap_2_strong (fun i => (k, sendNonce kp + Z.of_nat i))); [|apply NoDup_seq]. intros i j _ _ [= H]. lia.
  - intros k' m [Hin|Hm]%elem_of_app.
    + destruct (Hlt _ _ Hin) as (kp0 & H0 & Hl). rewrite Hs. destruct (decide (k' = k)) as [->|].
      * rewrite lookup_insert_eq. eexists. split; [done|]. cbn. assert (kp0 = kp) as -> by congruence. lia.
      * rewrite lookup_insert_ne by done. by exists kp0.
    + apply list_elem_of_fmap in Hm as (i & [= -> ->] & [_ Hi]%elem_of_seq). rewrite Hs, lookup_insert_eq.
      eexists. split; [done|]. cbn. lia.
Qed.
(** Sending a container: the counter of the keypair and the queue move together. *)
Lemma send_good d d' k kp n' p x x' ok : sound d -> keypair_store d !! k = Some kp -> peers d !! p = Some x -> core_eq x x' ->
  sendNonce kp <= n' <= RejectAfterMessages ->
  keypair_store d' = <[k := set_sendNonce n' kp]> (keypair_store d) ->
  pairs (outbound d') = pairs (outbound d) ++ map (fun e => (oe_keypair e, oe_nonce e)) ok ->
  (forall c, c ∈ outbound d' -> c ∈ outbound d \/ c.1 = p) ->
  map (fun e => (oe_keypair e, oe_nonce e)) ok = map (fun i => (k, sendNonce kp + Z.of_nat i)) (seq 0 (length ok)) ->
  sendNonce kp + Z.of_nat (length ok) <= n' ->
  peers d' = <[p := x']> (peers d) -> indexTable d' = indexTable d -> inbound d' = inbound d -> keyMap d' = keyMap d ->
  allowedips d' = allowedips d -> state d' = state d -> good d d'.
Proof.
  intros HS Hk Hx Hc Hn Hs Ho Hob Hok Hle Hp Ht Hib Hm Ha Hst.
  assert (forall P, nonces_ok P d -> nonces_ok P d') as Hnn by (intros P; by eapply nonces_send).
  set (d1 := set_outbound (outbound d) d').
  assert (good d d1) as Hg.
  { set (d0 := set_keypair_store (keypair_store d') d). assert (good d d0) as Hg0.
    { apply keypairs_good; try done; unfold d0; dsimp; rewrite Hs.
      - intros k' kp0 H0. destruct (decide (k' = k)) as [->|].
        + rewrite lookup_insert_eq. eexists. split; [done|]. assert (kp0 = kp) as -> by congruence. cbn. lia.
        + rewrite lookup_insert_ne by done. by exists kp0.
      - intros k' kp0. pose proof (s_counter d HS k kp Hk). intros [[_ <-]|[_ H0]]%lookup_insert_Some; [cbn; lia|by eapply s_counter]. }
    apply (good_trans d d0); [done|]. apply frame_good; try done; unfold d1, d0; dsimp; [by rewrite Ht|..|apply Hg0]; rewrite Hp.
    - intros q y Hy. destruct (decide (q = p)) as [->|].
      + rewrite lookup_insert_eq. exists x'. split; [done|]. congruence.
      + rewrite lookup_insert_ne by done. exists y. split; [done|apply core_refl].
    - intros q. destruct (decide (q = p)) as [->|]; [by rewrite Hx|by rewrite lookup_insert_ne]. }
  destruct Hg as [HS1 [[E1 E2 _] E4 E5 E6 E7]].
  split; [|split; [split; [exact E1|exact E2|exact Hnn]|exact E4|exact E5|exact E6|exact E7]].
  split; [apply (s_index d1 HS1)|apply (s_peer d1 HS1)|apply (s_map d1 HS1)|apply (s_size d1 HS1)|apply (s_allowed d1 HS1)|
    apply (s_counter d1 HS1)|apply Hnn, HS| |apply (s_inbound d1 HS1)].
  intros c Hin. apply (E1 c.1). destruct (Hob c Hin) as [Hin'| ->]; [by apply (s_queue d HS)|by exists x].
Qed.

(** One container: what the turn of the loop does to the device. *)
Definition requeued (late : list (list Z)) (queue : list (list (list Z))) : list (list (list Z)) :=
  match late with [] => queue | _ => stage late queue end.
Lemma send_turn fuel p x k kp elems queue ok late n' d : peers d !! p = Some x -> isRunning x = true ->
  staged x = elems :: queue -> keypair_store d !! k = Some kp -> assign_nonces k (sendNonce kp) elems = (ok, late, n') ->
  exists d', SendStagedPackets_loop entropy draws (S fuel) p (Some k) d =
      SendStagedPackets_loop entropy draws fuel p (match ok, late with _ :: _, [] => Some k | _, _ => None end) d' /\
    peers d' = <[p := set_staged (requeued late queue) x]> (peers d) /\
    keypair_store d' = <[k := set_sendNonce n' kp]> (keypair_store d) /\
    outbound d' = (match ok with [] => outbound d | _ => outbound d ++ [(p, ok)] end) /\
    indexTable d' = indexTable d /\ inbound d' = inbound d /\ keyMap d' = keyMap d /\ allowedips d' = allowedips d /\ state d' = state d.
Proof.
  intros Hx Hr Hq Hk Ha. cbn [SendStagedPackets_loop]. rewrite (get_peer_bind _ _ _ _ Hx), Hq.
  rewrite bind_run. unfold get_keypair at 1. rewrite Hk. cbv beta iota. rewrite Ha.
  rewrite bind_run, (modify_peer_run _ _ _ _ Hx). unfold modify_keypair at 1. rewrite modify_bind. dsimp.
  assert (alter (set_sendNonce n') k (keypair_store d) = <[k := set_sendNonce n' kp]> (keypair_store d)) as ->.
  { apply map_eq. intros q. destruct (decide (q = k)) as [->|]; [by rewrite lookup_insert_eq, lookup_alter_eq, Hk|].
    by rewrite lookup_insert_ne, lookup_alter_ne. }
  set (d1 := set_keypair_store _ _). assert (peers d1 !! p = Some (set_staged queue x)) as Hx1 by apply lookup_insert_eq.
  assert (exists d2, unless (bool_decide (late = [])) (StagePackets p late) d1 = Some (tt, d2) /\
    peers d2 = <[p := set_staged (requeued late queue) x]> (peers d) /\ d2 = set_peers (peers d2) d1) as (d2 & Hd2 & Hp2 & Hd2').
  { destruct late as [|e late]; cbn [requeued]; [rewrite bool_decide_eq_true_2 by done; by exists d1|].
    rewrite bool_decide_eq_false_2 by done. unfold StagePackets. eexists. split; [by apply modify_peer_run|].
    split; [|done]. unfold d1. dsimp. by rewrite insert_insert_eq. }
  rewrite bind_run, Hd2. destruct ok as [|e ok].
  - rewrite bool_decide_eq_true_2 by done. exists d2. split; [done|]. rewrite Hd2'. dsimp. rewrite Hp2. done.
  - rewrite bool_decide_eq_false_2 by done. rewrite Hr. cbn [when]. rewrite modify_bind. eexists.
    split; [by destruct late|]. rewrite Hd2'. dsimp. rewrite Hp2. done.
Qed.
(** Fuel: two turns a container, and a last look. *)
Definition loop_fuel (o : option kid) d x : nat :=
  match o with
  | Some _ => 2 * length (staged x) + 1
  | None =>
      match current (keypairs x) with
      | Some k => match keypair_store d !! k with
                  | Some kp => if RejectAfterMessages <=? sendNonce kp then 1 else 2 * length (staged x) + 2
                  | None => 1 end
      | None => 1
      end
  end.
Lemma stage_length elems q : (length (stage elems q) <= S (length q))%nat.
Proof. unfold stage. destruct (_ <? _)%nat; rewrite length_app; [cbn; lia|]. destruct q; cbn; lia. Qed.
Lemma SendStagedPackets_loop_ok p fuel d x o : sound d -> peers d !! p = Some x -> isRunning x = true ->
  (forall k, o = Some k -> current (keypairs x) = Some k) -> (loop_fuel o d x <= fuel)%nat ->
  wp (SendStagedPackets_loop entropy draws fuel p o) (fun _ d' => good d d') d.
Proof.
  revert d x o. induction fuel as [|fuel IH]; intros d x o HS Hx Hr Ho Hf.
  { exfalso. unfold loop_fuel in Hf. destruct o; [lia|]. repeat case_match; lia. }
  assert (running p d) as Hrun by by exists x.
  pose proof (keeps_SendHandshakeInitiation p false d HS Hrun) as (r & dh & Hh & Hgh).
  destruct o as [k|].
  - pose proof (Ho k eq_refl) as Hc. destruct (slots_valid d p x HS Hx k) as [kp Hk]; [rewrite <- Hc; unfold slots; set_solver|].
    destruct (staged x) as [|elems queue] eqn:Hq.
    { unfold wp. cbn [SendStagedPackets_loop]. rewrite (get_peer_bind _ _ _ _ Hx), Hq. by eexists _, _. }
    destruct (assign_nonces k (sendNonce kp) elems) as [[ok late] n'] eqn:Ha.
    pose proof (s_counter d HS k kp Hk) as Hb. apply assign_nonces_spec in Ha as Hspec; [|done]. destruct Hspec as (H1 & H2 & H3 & H4 & _).
    destruct (send_turn fuel p x k kp elems queue ok late n' d Hx Hr Hq Hk Ha) as (d' & Hrun' & Hp & Hs & Hob & Ht & Hib & Hm & Hal & Hst).
    assert (good d d') as Hg.
    { apply (send_good d d' k kp n' p x (set_staged (requeued late queue) x) ok); try done; rewrite Hob.
      - destruct ok; [by rewrite app_nil_r|apply pairs_snoc].
      - intros c Hin. destruct ok; [by left|]. apply elem_of_app in Hin as [?|Hin%list_elem_of_singleton]; [by left|right]. by subst c. }
    unfold wp. rewrite Hrun'. clear Hrun' Hh. apply (wp_mono _ (fun _ d1 => good d' d1)); [|by intros; eapply good_trans].
    apply (IH d' (set_staged (requeued late queue) x)); [apply Hg|by rewrite Hp, lookup_insert_eq|done|..].
    + intros k' Hk'. destruct ok, late; try done. by injection Hk' as <-.
    + unfold loop_fuel in Hf |- *. rewrite Hq in Hf. cbn [length] in Hf. dsimp. rewrite Hc, Hs, lookup_insert_eq.
      destruct late as [|e late]; [destruct ok; cbn [requeued sendNonce set_sendNonce]; [case_match|]; lia|].
      assert (RejectAfterMessages <=? n' = true) as Hn by (apply Z.leb_le; rewrite H4 by done; lia).
      destruct ok; cbn [sendNonce set_sendNonce]; rewrite Hn; lia.
  - cbn [SendStagedPackets_loop]. unfold wp. rewrite (get_peer_bind _ _ _ _ Hx). unfold isUp at 1. rewrite gets_bind.
    destruct (_ || _); [by apply wp_ret|]. unfold loop_fuel in Hf.
    destruct (current (keypairs x)) as [k|] eqn:Hc; [|apply wp_bind; by eapply wp_run; [exact Hh|apply wp_ret]].
    destruct (slots_valid d p x HS Hx k) as [kp Hk]; [rewrite <- Hc; unfold slots; set_solver|]. rewrite Hk in Hf.
    rewrite bind_run. unfold get_keypair at 1. rewrite Hk. cbv beta iota. unfold since at 1. rewrite gets_bind.
    destruct (RejectAfterMessages <=? sendNonce kp); cbn [orb]; [apply wp_bind; by eapply wp_run; [exact Hh|apply wp_ret]|].
    destruct (_ <=? _); [apply wp_bind; by eapply wp_run; [exact Hh|apply wp_ret]|].
    apply (IH d x); try done; [by intros k' [= <-]|]. cbn [loop_fuel]. lia.
Qed.
Lemma keeps_SendStagedPackets p : keeps (running p) (SendStagedPackets entropy draws p).
Proof.
  intros d HS (x & Hx & Hr). unfold SendStagedPackets, wp. rewrite (get_peer_bind _ _ _ _ Hx).
  apply (SendStagedPackets_loop_ok p _ d x); try done. unfold loop_fuel. repeat case_match; lia.
Qed.
End sending.
#[export] Hint Resolve keeps_clear_src keeps_SendBuffers keeps_SetEndpointFromPacket keeps_markEndpoint keeps_StagePackets
  keeps_FlushStagedPackets keeps_add_macs keeps_SendHandshakeInitiation keeps_keepKeyFreshSending keeps_SendStagedPackets : keeps.

(** ** Steps that leave the indices alone *)
Section calm.
Context {BI : Bind}.
Implicit Types (d : Device) (p : pid) (x : Peer).
Definition calm d d' : Prop :=
  indexTable d' = indexTable d /\
  forall p x', peers d' !! p = Some x' -> exists x, peers d !! p = Some x /\
    hs_localIndex (handshake x) = hs_localIndex (handshake x').
#[export] Instance calm_preorder : PreOrder calm.
Proof.
  split; [intros d; split; [done|]; intros p y; by exists y|]. intros d1 d2 d3 [H1 H2] [H3 H4]. split; [congruence|].
  intros p x' Hx'. destruct (H4 p x' Hx') as (x2 & Hx2 & E2). destruct (H2 p x2 Hx2) as (x1 & ? & ?). exists x1. split; [done|congruence].
Qed.
Lemma own_index_calm p d d' : calm d d' -> own_index p d -> own_index p d'.
Proof.
  intros [Ht Hp] Ho x' e Hx' He. destruct (Hp p x' Hx') as (x & Hx & E). rewrite Ht, <- E in He. by eapply Ho.
Qed.
(** [along R m]: a run of [m] is in [R]. *)
Definition along (R : Device -> Device -> Prop) {A} (m : M A) : Prop := forall d a d', m d = Some (a, d') -> R d d'.
Section along.
Context (R : Device -> Device -> Prop) {HR : PreOrder R}.
Lemma along_ret {A} (a : A) : along R (mret a).
Proof. intros d b d' [= _ <-]. done. Qed.
Lemma along_gets {A B} (g : Device -> A) (f : A -> M B) : (forall a, along R (f a)) -> along R (gets g ≫= f).
Proof. intros H d b d' Hr. rewrite gets_bind in Hr. by eapply H. Qed.
Lemma along_peer {B} p (f : Peer -> M B) : (forall x, along R (f x)) -> along R (get_peer p ≫= f).
Proof.
  intros H d b d' Hr. apply bind_inv in Hr as (x & d1 & Hx & Hf). unfold get_peer in Hx.
  destruct (peers d !! p); [|done]. injection Hx as <- <-. by eapply H.
Qed.
Lemma along_bind {A B} (m : M A) (f : A -> M B) : along R m -> (forall a, along R (f a)) -> along R (m ≫= f).
Proof. intros H1 H2 d b d' Hr. apply bind_inv in Hr as (a & d1 & Ha & Hf). trans d1; [by eapply H1|by eapply H2]. Qed.
Lemma along_modify f : (forall d, R d (f d)) -> along R (modify f).
Proof. intros H d a d' [= _ <-]. apply H. Qed.
Lemma along_rand entropy : (forall d n, R d (set_rnd n d)) -> along R (rand_Read entropy).
Proof. intros H d a d' [= _ <-]. apply H. Qed.
Lemma along_when b m : along R m -> along R (when b m).
Proof. intros H. destruct b; [done|apply along_ret]. Qed.
Lemma along_forM {A} (l : list A) f : (forall a, along R (f a)) -> along R (forM l f).
Proof. intros H. induction l; [apply along_ret|]. cbn. apply along_bind; auto. Qed.
End along.
Abbreviation calmly := (along calm).
Lemma calmly_set f : (forall d, indexTable (f d) = indexTable d /\ peers (f d) = peers d) -> calmly (modify f).
Proof. intros H. apply along_modify. intros d. destruct (H d) as [H1 H2]. split; [done|]. rewrite H2. intros p x. by exists x. Qed.
Lemma calmly_alter p f : (forall x, hs_localIndex (handshake (f x)) = hs_localIndex (handshake x)) -> calmly (modify_peer p f).
Proof.
  intros H d a d' [= _ <-]. split; [done|]. dsimp. intros q x' Hx'. destruct (decide (q = p)) as [->|].
  - rewrite lookup_alter_eq in Hx'. apply fmap_Some in Hx' as (x & Hx & ->). by exists x.
  - rewrite lookup_alter_ne in Hx' by done. by exists x'.
Qed.
Lemma calmly_rand entropy : calmly (rand_Read entropy).
Proof. apply along_rand. intros d n. split; [done|]. intros p x. by exists x. Qed.
End calm.
Abbreviation calmly := (along calm).
Ltac along1 t_alter t_set t_rand :=
  cbv beta;
  lazymatch goal with
  | |- along _ (mret _) => apply along_ret; apply _
  | |- along _ (get_peer _ ≫= _) => apply along_peer; intros ?
  | |- along _ (gets _ ≫= _) => apply along_gets; intros ?
  | |- along _ (isUp ≫= _) => apply along_gets; intros ?
  | |- along _ (rand_Read _) => t_rand
  | |- along _ (when _ _) => apply along_when; [apply _|]
  | |- along _ (_ ≫= _) => apply along_bind; [apply _| |intros ?]
  | |- along _ (forM _ _) => apply along_forM; [apply _|intros ?]
  | |- along _ (modify_peer _ _) => t_alter
  | |- along _ (let _ := _ in _) => cbv zeta
  | |- along _ (match ?x with _ => _ end) => destruct x eqn:?
  | |- along _ (modify _) => t_set
  end.
Ltac calms := repeat along1 ltac:(apply calmly_alter; intros ?; repeat case_match; done) ltac:(apply calmly_set; done) ltac:(apply calmly_rand).

Section receiving.
Context {C : Crypto} {BI : Bind} (entropy : nat -> list Z * option error) (draws : nat) (Hgen : generator_ok entropy draws).
Implicit Types (d : Device) (p : pid) (x : Peer).

Lemma calmly_add_macs p packet : calmly (add_macs p packet).
Proof. unfold add_macs. calms. Qed.
Lemma calmly_received p ep n : calmly (SetEndpointFromPacket p ep ≫= fun _ => add_rx p n ≫= fun _ =>
  timersAnyAuthenticatedPacketTraversal p ≫= fun _ => timersAnyAuthenticatedPacketReceived p).
Proof.
  unfold SetEndpointFromPacket, add_rx, timersAnyAuthenticatedPacketTraversal, timersAnyAuthenticatedPacketReceived,
    timersActive, Timer_Mod, Timer_Del, on_timers. calms.
Qed.
(** What a sequence of calm steps leaves. *)
Lemma wp_calm_bind {A B} P (m : M A) (f : A -> M B) (Q : B -> Device -> Prop) d : keeps P m -> calmly m -> sound d -> P d ->
  (forall a d1, good d d1 -> calm d d1 -> wp (f a) Q d1) -> wp (m ≫= f) Q d.
Proof. intros Hm Hc HS HP Hf. eapply wp_keeps_bind; [done..|]. intros a d1 Hr Hg. apply Hf; [done|by eapply Hc]. Qed.

Lemma CreateMessageResponse_own p d msg d' : running p d ->
  CreateMessageResponse entropy draws p d = Some (Ok msg, d') -> own_index p d'.
Proof.
  intros (x & Hx & _) H. apply (CreateMessageResponse_inv _ _ _ _ _ _ _ Hx) in H as (f & n & _ & _ & _ & h' & -> & _ & Hli & _).
  intros x' e Hx' He. dsimp_in Hx'. rewrite (alter_lookup p x) in Hx' by done. injection Hx' as <-. dsimp_in He.
  rewrite Hli in He. rewrite lookup_insert_eq in He. by injection He as <-.
Qed.
Lemma keeps_SendHandshakeResponse p : keeps (running p) (SendHandshakeResponse entropy draws p).
Proof.
  unfold SendHandshakeResponse. keep1. keep1; [keep1|]. intros d HS Hr.
  eapply wp_keeps_bind; [by apply keeps_CreateMessageResponse|done|done|]. intros [msg|er] d1 Hc Hg1; [|by apply wp_ret].
  apply (wp_mono _ (fun _ d' => good d1 d')); [|by intros; eapply good_trans].
  assert (running p d1) as Hr1 by (eapply running_stable; [apply Hg1|done]).
  pose proof (CreateMessageResponse_own p d msg d1 Hr Hc) as Ho1.
  eapply (wp_calm_bind (known p)); [by apply keeps_add_macs|apply calmly_add_macs|apply Hg1|by apply running_known|].
  intros packet d2 Hg2 Hc2. apply (wp_mono _ (fun _ d' => good d2 d')); [|by intros; eapply good_trans].
  assert (running p d2) as Hr2 by (eapply running_stable; [apply Hg2|done]).
  eapply (wp_keeps_bind (fun d => running p d /\ own_index p d)); [apply keeps_BeginSymmetricSession|apply Hg2|split; [done|by eapply own_index_calm]|].
  intros er d3 _ Hg3. apply (wp_mono _ (fun _ d' => good d3 d')); [|by intros; eapply good_trans].
  assert (keeps (running p) (match er with Some e => mret (Some e) | None =>
    timersSessionDerived p ≫= fun _ => timersAnyAuthenticatedPacketTraversal p ≫= fun _ =>
    timersAnyAuthenticatedPacketSent p ≫= fun _ => SendBuffers p [packet] end)) as Hk by keep.
  apply Hk; [apply Hg3|]. eapply running_stable; [apply Hg3|done].
Qed.
End receiving.
#[export] Hint Resolve keeps_SendHandshakeResponse : keeps.

(** ** Timers, and the packets of a peer *)
Section traffic.
Context {C : Crypto} {BI : Bind} (entropy : nat -> list Z * option error) (draws : nat) (Hgen : generator_ok entropy draws).
Implicit Types (d : Device) (p : pid) (x : Peer).

Lemma keeps_SendKeepalive p : keeps (running p) (SendKeepalive entropy draws p).
Proof. unfold SendKeepalive. keep. Qed.
#[local] Hint Resolve keeps_SendKeepalive : keeps.
Lemma keeps_expired p n : keeps (running p) (expirationFunction entropy draws n p).
Proof.
  destruct n; cbn [expirationFunction]; unfold expiredRetransmitHandshake, expiredSendKeepalive, expiredNewHandshake,
    expiredZeroKeyMaterial, expiredPersistentKeepalive; keep.
Qed.
Lemma keeps_timer_fires p n : keeps (known p) (timer_fires entropy draws p n).
Proof.
  unfold timer_fires. apply keeps_pending; [done|]. intros b. destruct b; [|apply keeps_ret].
  apply keeps_bind; [apply _| |intros []].
  - destruct n; cbn [timer_set]; apply keeps_Timer_Del; intros ? (?&?&?&?&?); by split_and!.
  - eapply keeps_weaken; [apply keeps_expired|kside].
Qed.
Lemma keeps_keepKeyFreshReceiving p : keeps (running p) (keepKeyFreshReceiving entropy draws p).
Proof.
  unfold keepKeyFreshReceiving. apply keeps_peer; [kside|]. intros x. destruct (sentLastMinuteHandshake (timers x)); [apply keeps_ret|].
  destruct (current (keypairs x)) as [k|] eqn:Hc; [|apply keeps_ret].
  apply keeps_keypair; [|intros kp; keep]. intros d HS [Hr (_ & Hv & _)]. apply Hv. rewrite <- Hc. unfold slots. set_solver.
Qed.

(** ** Handshake messages *)
Lemma ConsumeMessageInitiation_keeps msg d : sound d ->
  wp (ConsumeMessageInitiation msg) (fun r d' => good d d' /\ forall p, r = Some p -> running p d') d.
Proof.
  intros HS. assert (forall d', d' = d -> wp (mret None) (fun r d' => good d d' /\ forall p, r = Some p -> running p d') d') as Hno.
  { intros d' ->. by apply wp_ret. }
  unfold ConsumeMessageInitiation. destruct (negb _); [by apply Hno|]. unfold wp. rewrite !gets_bind.
  destruct (consume_static _ _ _) as [[[pk hash] ck]|]; [|by apply Hno]. unfold LookupPeer. rewrite gets_bind.
  destruct (keyMap d !! pk) as [p|] eqn:Hp; [|by apply Hno]. destruct (s_map d HS pk p Hp) as (x & Hx & _).
  rewrite (get_peer_bind _ _ _ _ Hx). cbv zeta. destruct (isRunning x) eqn:Hr; cbn [negb]; [|by apply Hno].
  destruct (isZero _); [by apply Hno|]. destruct (KDF2 _ _) as [ck' key]. destruct (aead_Open _ _ _ _) as [ts|]; [|by apply Hno].
  rewrite gets_bind. destruct (negb _); [by apply Hno|]. destruct (_ <=? _); [by apply Hno|].
  set (h := set_hs_state handshakeInitiationConsumed _).
  assert (keeps (fun d => peers d !! p = Some x) (put_handshake p h)) as Hk.
  { apply keeps_put_handshake. intros d' x' _ H1 H2. replace x' with x by congruence. unfold h. repeat case_match; done. }
  destruct (Hk d HS Hx) as ([] & d1 & Hd1 & Hg). apply wp_bind. eapply wp_run; [exact Hd1|]. apply wp_ret. split; [done|].
  intros q [= <-]. eapply running_stable; [apply Hg|]. by exists x.
Qed.
Lemma ConsumeMessageResponse_keeps msg d : sound d ->
  wp (ConsumeMessageResponse msg) (fun r d' => good d d' /\ forall p, r = Some p -> running p d' /\ own_index p d') d.
Proof.
  intros HS. assert (wp (mret None) (fun r d' => good d d' /\ forall p, r = Some p -> running p d' /\ own_index p d') d) as Hno by by apply wp_ret.
  unfold ConsumeMessageResponse. destruct (negb _); [done|]. unfold wp, IndexTable_Lookup. rewrite gets_bind.
  destruct (indexTable d !! mr_Receiver msg) as [[q [hp|] ok]|] eqn:He; [|done..].
  destruct (s_index d HS _ _ He) as (x & Hx & Hr & Hc). cbn [ie_peer ie_handshake] in *.
  destruct Hc as [([= ->] & _ & Hli)|([=] & _)]. rewrite (get_handshake_bind _ _ _ _ Hx), gets_bind.
  destruct (consume_response _ _ _) as [[hash ck]|]; [|done]. set (h := set_hs_state handshakeResponseConsumed _).
  assert (keeps (fun d => peers d !! q = Some x) (put_handshake q h)) as Hk.
  { apply keeps_put_handshake. intros d' x' _ H1 H2. replace x' with x by congruence. done. }
  destruct (Hk d HS Hx) as ([] & d1 & Hd1 & Hg). apply wp_bind. eapply wp_run; [exact Hd1|]. apply wp_ret. split; [done|].
  intros p [= <-]. split; [eapply running_stable; [apply Hg|]; by exists x|].
  intros x' e Hx' He'. injection Hd1 as <-. dsimp_in Hx'. dsimp_in He'. rewrite (alter_lookup q x) in Hx' by done.
  injection Hx' as <-. change (indexTable d !! hs_localIndex (handshake x) = Some e) in He'. rewrite Hli, He in He'. by injection He' as <-.
Qed.
Lemma keeps_handle_initiation packet ep : keeps (fun _ => True) (handle_initiation entropy draws packet ep).
Proof.
  intros d HS _. unfold handle_initiation. destruct (MessageInitiation_unmarshal packet) as [msg|]; [|by apply wp_ret].
  apply wp_bind. eapply wp_mono; [by apply ConsumeMessageInitiation_keeps|]. cbv beta. intros [p|] d1 [Hg1 Hp]; [|by apply wp_ret].
  apply (wp_mono _ (fun _ d' => good d1 d')); [|by intros; eapply good_trans].
  assert (keeps (running p) (timersAnyAuthenticatedPacketTraversal p ≫= fun _ => timersAnyAuthenticatedPacketReceived p ≫= fun _ =>
    SetEndpointFromPacket p ep ≫= fun _ => add_rx p (length packet) ≫= fun _ =>
    SendHandshakeResponse entropy draws p ≫= fun _ => mret tt)) as Hk by (unfold add_rx; keep).
  apply Hk; [apply Hg1|by apply Hp].
Qed.
Lemma keeps_handle_response packet ep : keeps (fun _ => True) (handle_response entropy draws packet ep).
Proof.
  intros d HS _. unfold handle_response. destruct (MessageResponse_unmarshal packet) as [msg|]; [|by apply wp_ret].
  apply wp_bind. eapply wp_mono; [by apply ConsumeMessageResponse_keeps|]. cbv beta. intros [p|] d1 [Hg1 Hp]; [|by apply wp_ret].
  destruct (Hp p eq_refl) as [Hr1 Ho1]. apply (wp_mono _ (fun _ d' => good d1 d')); [|by intros; eapply good_trans].
  set (m := SetEndpointFromPacket p ep ≫= fun _ => add_rx p (length packet) ≫= fun _ =>
    timersAnyAuthenticatedPacketTraversal p ≫= fun _ => timersAnyAuthenticatedPacketReceived p).
  assert (keeps (running p) m) as Hm by (unfold m, add_rx; keep).
  set (f := fun _ : unit => BeginSymmetricSession p ≫= fun er => match er with Some _ => mret tt | None =>
    timersSessionDerived p ≫= fun _ => timersHandshakeComplete p ≫= fun _ => SendKeepalive entropy draws p end).
  assert (wp (m ≫= f) (fun _ d' => good d1 d') d1) as Hw.
  2:{ destruct Hw as (a & d' & Hrun & Hg'). exists a, d'. split; [|done]. unfold m, f in Hrun. rewrite bind_assoc, bind_run in Hrun.
      rewrite bind_run. destruct (SetEndpointFromPacket p ep d1) as [[[] d2]|]; [|done]. rewrite bind_assoc, bind_run in Hrun.
      rewrite bind_run. destruct (add_rx p (length packet) d2) as [[[] d3]|]; [|done]. by rewrite bind_assoc in Hrun. }
  eapply wp_calm_bind; [exact Hm|apply calmly_received|apply Hg1|done|]. intros [] d2 Hg2 Hc2.
  apply (wp_mono _ (fun _ d' => good d2 d')); [|by intros; eapply good_trans].
  assert (running p d2) as Hr2 by (eapply running_stable; [apply Hg2|done]). unfold f.
  eapply (wp_keeps_bind (fun d => running p d /\ own_index p d)); [apply keeps_BeginSymmetricSession|apply Hg2|split; [done|by eapply own_index_calm]|].
  intros er d3 _ Hg3. apply (wp_mono _ (fun _ d' => good d3 d')); [|by intros; eapply good_trans].
  assert (keeps (running p) (match er with Some _ => mret tt | None =>
    timersSessionDerived p ≫= fun _ => timersHandshakeComplete p ≫= fun _ => SendKeepalive entropy draws p end)) as Hk by keep.
  apply Hk; [apply Hg3|]. eapply running_stable; [apply Hg3|done].
Qed.
Lemma keeps_handle_cookie_reply packet : keeps (fun _ => True) (handle_cookie_reply packet).
Proof.
  unfold handle_cookie_reply. destruct (MessageCookieReply_unmarshal packet) as [reply|]; [|apply keeps_ret].
  apply (keeps_gets_eq _ (fun o d => forall e, o = Some e -> known (ie_peer e) d)).
  { intros d HS _ e He. destruct (s_index d HS _ e He) as (x & Hx & _). by exists x. }
  intros o. destruct o as [e|]; [|apply keeps_ret]. apply keeps_peer; [intros d _ [_ Hk]; by apply Hk|]. intros x. keep.
Qed.
Lemma keeps_SendHandshakeCookie elem : keeps (fun _ => True) (SendHandshakeCookie entropy elem).
Proof. unfold SendHandshakeCookie. keep. Qed.
Lemma keeps_admit elem : keeps (fun _ => True) (admission entropy elem).
Proof. unfold admission, IsUnderLoad. keep. all: try apply keeps_SendHandshakeCookie. Qed.
Lemma keeps_Handshake_step : keeps (fun _ => True) (Handshake_step entropy draws).
Proof.
  unfold Handshake_step. apply keeps_gets. intros q. destruct q as [|elem q]; [apply keeps_ret|].
  apply keeps_bind; [apply _|keep|intros []]. destruct (_ =? _); [apply keeps_handle_cookie_reply|].
  destruct (_ || _); [|apply keeps_ret]. apply keeps_bind; [apply _|apply keeps_admit|intros ok].
  destruct (negb ok); [apply keeps_ret|]. destruct (_ =? _); [apply keeps_handle_initiation|apply keeps_handle_response].
Qed.

(** ** Datagrams and transport messages *)
Definition deliverable (g : pid * InboundElement) d : Prop := known g.1 d /\ valid (ib_keypair g.2) d.
(** A transport message comes from a running peer and names one of its
    sessions, which is not too old; the device only changes its handshake queue. *)
Lemma receive_datagram_ok packet ep d : sound d ->
  wp (receive_datagram packet ep) (fun r d' => good d d' /\ peers d' = peers d /\ keypair_store d' = keypair_store d /\
    forall p e, r = Some (p, e) -> exists x kp, peers d !! p = Some x /\ isRunning x = true /\
      Some (ib_keypair e) ∈ slots (keypairs x) /\ keypair_store d !! ib_keypair e = Some kp /\
      kp_localIndex kp = le_val (slice 4 4 packet) /\ clock d <= created kp + RejectAfterTime) d.
Proof.
  intros HS. unfold receive_datagram. destruct (_ <? _)%nat; [by apply wp_ret|]. cbv zeta.
  destruct (le_val (slice 0 4 packet) =? MessageTransportType).
  - unfold wp, IndexTable_Lookup. rewrite gets_bind.
    cbv beta. set (i := le_val (slice 4 4 packet)). destruct (indexTable d !! i) as [[q oh [k|]]|] eqn:He; [|by apply wp_ret..].
    destruct (s_index d HS _ _ He) as (x & Hx & Hr & Hc). cbn [ie_peer ie_handshake ie_keypair] in *.
    destruct Hc as [(_ & [=] & _)|(_ & k' & kp & [= <-] & Hk & Hkp & Hi)].
    rewrite bind_run. unfold get_keypair. rewrite Hkp. cbv beta iota. rewrite gets_bind.
    destruct (Z.ltb_spec (created kp + RejectAfterTime) (clock d)); [by apply wp_ret|]. apply wp_ret. split_and!; try done.
    intros p e [= <- <-]. exists x, kp. by split_and!.
  - destruct (negb _); [by apply wp_ret|]. unfold wp. rewrite gets_bind. cbv beta.
    destruct (_ <? _)%nat; cbn [when]; (eexists _, _; split; [reflexivity|]); (split; [by apply same_good|done]).
Qed.
Lemma receive_datagram_deliverable packet ep d : sound d ->
  wp (receive_datagram packet ep) (fun r d' => good d d' /\ forall g, r = Some g -> deliverable g d') d.
Proof.
  intros HS. eapply wp_mono; [by apply receive_datagram_ok|]. cbv beta. intros r d' (Hg & Hp & Hs & H). split; [done|].
  intros [p e] Hr. destruct (H p e Hr) as (x & kp & ? & _ & _ & ? & _). unfold deliverable, known, valid. cbn.
  rewrite Hp, Hs. by split; [exists x|exists kp].
Qed.
Lemma add_to_group_in {A} p (e : A) groups g : g ∈ add_to_group p e groups ->
  g.1 = p /\ (forall y, y ∈ g.2 -> y = e \/ exists g', g' ∈ groups /\ g'.1 = p /\ y ∈ g'.2) \/ g ∈ groups.
Proof.
  unfold add_to_group. destruct (existsb _ _).
  - intros (g' & -> & Hg')%list_elem_of_fmap. case_bool_decide as E; [left|by right]. split; [done|]. cbn.
    intros y [Hy|Hy%list_elem_of_singleton]%elem_of_app; [|by left]. right. by exists g'.
  - intros [Hg|Hg%list_elem_of_singleton]%elem_of_app; [by right|left]. subst g. split; [done|].
    intros y Hy%list_elem_of_singleton. by left.
Qed.
Lemma receive_batch_ok batch groups d : sound d -> groups_ok groups d ->
  wp (receive_batch batch groups) (fun gs d' => good d d' /\ groups_ok gs d') d.
Proof.
  revert groups d. induction batch as [|[packet ep] batch IH]; intros groups d HS Hgs; [by apply wp_ret|]. cbn [receive_batch].
  apply wp_bind. eapply wp_mono; [by apply receive_datagram_deliverable|]. cbv beta. intros r d1 [Hg1 Hr].
  assert (groups_ok groups d1) as Hgs1 by (eapply groups_ok_stable; [apply Hg1|done]).
  eapply wp_mono; [apply IH; [apply Hg1|]|cbv beta; intros gs d' [Hg' ?]; split; [by eapply good_trans|done]].
  destruct r as [[p e]|]; [|done]. destruct (Hr _ eq_refl) as [Hk Hv]. cbn in Hk, Hv.
  intros g [[Hp Hy]|Hin]%add_to_group_in; [|by apply Hgs1]. rewrite Hp. split; [done|].
  intros y [->|(g' & Hg' & _ & Hin)]%Hy; [done|]. by apply (Hgs1 g').
Qed.
Lemma running_groups_ok groups d : sound d -> groups_ok groups d ->
  wp (running_groups groups) (fun gs d' => d' = d /\ groups_ok gs d') d.
Proof.
  intros HS. induction groups as [|g groups IH]; intros Hgs; [by apply wp_ret|]. cbn [running_groups].
  destruct (Hgs g ltac:(by left)) as [[x Hx] Hv]. unfold wp. rewrite (get_peer_bind _ _ _ _ Hx).
  destruct IH as (gs & d' & Hrun & -> & Hok); [intros g' Hg'; apply Hgs; by right|].
  apply wp_bind. eapply wp_run; [exact Hrun|]. apply wp_ret. split; [done|]. destruct (isRunning x); [|done].
  intros g' [->|Hg']%elem_of_cons; [by apply Hgs; left|by apply Hok].
Qed.
Lemma keeps_ReceiveIncoming batch : keeps (fun _ => True) (ReceiveIncoming_step batch).
Proof.
  intros d HS _. apply wp_bind. eapply wp_mono; [apply receive_batch_ok; [done|by intros g ?%elem_of_nil]|]. cbv beta.
  intros gs d1 [Hg1 Hok]. apply wp_bind. eapply wp_mono; [by apply running_groups_ok; [apply Hg1|]|]. cbv beta. intros gs' d' [-> Hok'].
  eapply wp_run; [reflexivity|]. eapply good_trans; [done|]. destruct (proj1 Hg1) as [H1 H2 H3 H4 H5 H6 H7 H8 H9].
  split; [|split; try done; by left]. split; try done. dsimp. intros c [Hc|Hc]%elem_of_app; [by apply H9|by apply Hok'].
Qed.

Lemma keeps_replay P k filter : keeps P (modify_keypair k (set_replayFilter filter)).
Proof. apply keeps_modify_keypair. intros kp. split; [done|]. cbn. lia. Qed.
#[local] Hint Resolve keeps_replay keeps_SendKeepalive keeps_keepKeyFreshReceiving : keeps.
Lemma keeps_receive_element p elem acc :
  keeps (fun d => running p d /\ valid (ib_keypair elem) d) (receive_element entropy draws p elem acc).
Proof. unfold receive_element. keep. Qed.
Lemma keeps_receive_elements p elems acc :
  keeps (fun d => running p d /\ forall e, e ∈ elems -> valid (ib_keypair e) d) (receive_elements entropy draws p elems acc).
Proof.
  revert acc. induction elems as [|e elems IH]; intros acc; [apply keeps_ret|]. cbn [receive_elements].
  apply keeps_bind; [apply _| |intros acc'].
  - eapply keeps_weaken; [apply keeps_receive_element|]. intros d _ [? Hv]. split; [done|]. apply Hv. by left.
  - eapply keeps_weaken; [apply IH|]. intros d _ [? Hv]. split; [done|]. intros e' He'. apply Hv. by right.
Qed.
Lemma keeps_receive_container p elems :
  keeps (fun d => known p d /\ forall e, e ∈ elems -> valid (ib_keypair e) d) (receive_container entropy draws p elems).
Proof.
  unfold receive_container. apply keeps_peer; [kside|]. intros x. destruct (isRunning x) eqn:Hr; cbn [negb]; [|apply keeps_ret].
  apply keeps_bind; [apply _| |intros acc]; [eapply keeps_weaken; [apply keeps_receive_elements|kside]|].
  eapply (keeps_weaken _ (running p)); [|kside]. keep.
Qed.

(** ** Sending *)
Lemma encrypt_all_ok elems d : (forall e, e ∈ elems -> valid (oe_keypair e) d) ->
  exists bufs, encrypt_all elems d = Some (bufs, d).
Proof.
  induction elems as [|e elems IH]; intros Hv; [by exists []|]. destruct (Hv e ltac:(by left)) as [kp Hkp].
  destruct IH as [bufs Hb]; [intros e' He'; apply Hv; by right|]. cbn [encrypt_all]. rewrite bind_run. unfold get_keypair at 1.
  rewrite Hkp. cbv beta iota. rewrite gets_bind, bind_run, Hb. by eexists.
Qed.
Lemma keeps_send_container p elems :
  keeps (fun d => known p d /\ forall e, e ∈ elems -> valid (oe_keypair e) d) (send_container entropy draws p elems).
Proof.
  intros d HS [Hk Hv]. destruct (encrypt_all_ok elems d Hv) as [bufs Hb]. unfold send_container, wp. rewrite bind_run, Hb.
  set (m := get_peer p ≫= _). assert (keeps (known p) m) as Hm by (unfold m; keep). by apply Hm.
Qed.
(** Taking the first container: its nonces are used from then on. *)
Lemma pop_good c rest d : sound d -> outbound d = c :: rest -> good d (set_outbound rest d) /\
  (forall P, nonces_ok P d -> nonces_ok (P ++ pairs [c]) (set_outbound rest d)).
Proof.
  intros HS Ho. assert (pairs (outbound d) = pairs [c] ++ pairs rest) as Hp.
  { rewrite Ho. unfold pairs. cbn. by rewrite app_nil_r. }
  assert (forall P, nonces_ok P d -> nonces_ok P (set_outbound rest d)) as Hn.
  { intros P. apply nonces_sub; [|done]. dsimp. rewrite Hp. by apply sublist_inserts_l. }
  split.
  - split; [|split; [split|..]]; try done; [|by left]. destruct HS as [H1 H2 H3 H4 H5 H6 H7 H8 H9]. split; try done; [by apply Hn|].
    intros c' Hc'. apply (H8 c'). rewrite Ho. by right.
  - intros P [Hnd Hlt]. unfold nonces_ok. dsimp. rewrite Hp, (assoc_L (++)) in Hnd, Hlt. done.
Qed.
Lemma queued_valid d c e : sound d -> c ∈ outbound d -> e ∈ c.2 -> valid (oe_keypair e) d.
Proof.
  intros HS Hc He. destruct (proj2 (s_nonces d HS) (oe_keypair e) (oe_nonce e)) as (kp & Hkp & _); [|by exists kp].
  cbn [app]. unfold pairs. apply list_elem_of_In, in_concat. eexists. split.
  - apply in_map_iff. exists c. split; [done|by apply list_elem_of_In].
  - apply in_map_iff. exists e. split; [done|by apply list_elem_of_In].
Qed.

(** ** The TUN device *)
Lemma Lookup_known ip p d : sound d -> AllowedIPs.Lookup (allowedips d) ip = Some p -> in_map p d.
Proof.
  intros HS Hl. destruct (s_allowed d HS) as (m & Hok & Hin).
  destruct (AllowedIPsProofs.Lookup_inserted _ _ _ _ Hok Hl) as [k Hk]. by eapply Hin.
Qed.
Lemma route_packet_ok packet d : sound d ->
  wp (route_packet packet) (fun r d' => d' = d /\ forall p, r = Some p -> known p d) d.
Proof.
  intros HS. unfold route_packet, wp. rewrite gets_bind.
  assert (forall ip p, AllowedIPs.Lookup (allowedips d) ip = Some p -> known p d) as Hk.
  { intros ip p H. eapply in_map_known; [done|]. by eapply Lookup_known. }
  destruct packet as [|b l]; [by apply wp_ret|]. cbv zeta.
  repeat case_match; apply wp_ret; (split; [done|]); try done; intros p; apply Hk.
Qed.
Lemma group_by_peer_ok packets groups d : sound d -> (forall g, g ∈ groups -> known g.1 d) ->
  wp (group_by_peer packets groups) (fun gs d' => d' = d /\ forall g, g ∈ gs -> known g.1 d) d.
Proof.
  revert groups. induction packets as [|packet packets IH]; intros groups HS Hg; [by apply wp_ret|]. cbn [group_by_peer].
  apply wp_bind. eapply wp_mono; [by apply route_packet_ok|]. cbv beta. intros r d' [-> Hr]. destruct r as [p|]; [|by apply IH].
  apply IH; [done|]. intros g [[-> _]|Hin]%add_to_group_in; [by apply Hr|by apply Hg].
Qed.
Lemma keeps_ReadFromTUN packets : keeps (fun _ => True) (ReadFromTUN_step entropy draws packets).
Proof.
  intros d HS _. apply wp_bind. eapply wp_mono; [apply group_by_peer_ok; [done|by intros g ?%elem_of_nil]|]. cbv beta.
  intros gs d' [-> Hg]. apply (keeps_forM (fun d => forall g, g ∈ gs -> known g.1 d)); [apply _| |done|done].
  intros g Hin. keep.
Qed.

(** ** The workers that take from the queues *)
Lemma keeps_SequentialReceiver : keeps (fun _ => True) (SequentialReceiver_step entropy draws).
Proof.
  intros d HS _. unfold SequentialReceiver_step, wp. rewrite gets_bind. destruct (inbound d) as [|[p elems] rest] eqn:Hib; [by apply wp_ret|].
  rewrite modify_bind. destruct (s_inbound d HS (p, elems)) as [Hk Hv]; [rewrite Hib; by left|].
  assert (good d (set_inbound rest d)) as Hg.
  { pose proof HS as [H1 H2 H3 H4 H5 H6 H7 H8 H9]. split; [|split; try done; by left]. split; try done. dsimp.
    intros c Hc. apply H9. rewrite Hib. by right. }
  eapply wp_mono; [apply (keeps_receive_container p elems); [apply Hg|done]|]. cbv beta. intros [] d' Hg'. by eapply good_trans.
Qed.
Lemma SequentialSender_ok d : sound d ->
  wp (SequentialSender_step entropy draws) (fun _ d' => good d d' /\
    forall P, nonces_ok P d -> nonces_ok (P ++ pairs (take 1 (outbound d))) d') d.
Proof.
  intros HS. unfold SequentialSender_step, wp. rewrite gets_bind. destruct (outbound d) as [|[p elems] rest] eqn:Hob.
  { apply wp_ret. split; [done|]. intros P. by rewrite app_nil_r. }
  rewrite modify_bind. destruct (pop_good _ _ d HS Hob) as [Hg Hn].
  eapply wp_mono; [apply (keeps_send_container p elems); [apply Hg|]|].
  - split; [apply (s_queue d HS (p, elems)); rewrite Hob; by left|]. intros e He.
    apply (queued_valid d (p, elems) e HS); [rewrite Hob; by left|done].
  - cbv beta. intros [] d' Hg'. split; [by eapply good_trans|]. intros P HP.
    apply (e_nonces _ _ (x_evolves _ _ (proj2 Hg'))). by apply Hn.
Qed.
End traffic.
