(* ===== verification/WGInvDevice.v ===== *)
(** * wireguard-go/device: the device keeps its invariant

    Device.v and UAPI.v: going up and down, adding and removing peers, changing
    the identity, configuring. These stop and remove peers, so they develop the
    device by [evolves] only. *)
From S2P Require Import Prelude GoStrings GoNet GoBytes WGCrypto WGCookie WGState Handshake HandshakeProofs WGPeer WGRecv Device.
From S2P Require Import WGInv WGInvSession WGInvOps.
From S2P Require AllowedIPs AllowedIPsProofs RateLimiter UAPI.
Open Scope Z_scope.

Section device.
Context {C : Crypto} {BI : Bind} (entropy : nat -> list Z * option error) (draws : nat) (Hgen : generator_ok entropy draws).
Implicit Types (d : Device) (p : pid) (x : Peer).

(** Peers run only while the device is up. *)
Definition quiet d : Prop := forall p, running p d -> up d.
Definition fair d d' : Prop := sound d' /\ evolves d d'.
Lemma fair_refl d : sound d -> fair d d.
Proof. by split. Qed.
Lemma fair_trans d1 d2 d3 : fair d1 d2 -> fair d2 d3 -> fair d1 d3.
Proof. intros [_ H1] [H2 H3]. split; [done|by trans d2]. Qed.
Lemma good_fair d d' : good d d' -> fair d d'.
Proof. intros [H1 [H2 _ _ _ _]]. by split. Qed.
Lemma good_quiet d d' : good d d' -> quiet d -> quiet d'.
Proof.
  intros [_ [_ _ _ Hst Hs]] Hq p Hr. unfold up in *. rewrite Hst. destruct (Hs p Hr) as [H|H]; [|done]. by apply (Hq p).
Qed.
(** No peer runs, no index leads anywhere. *)
Definition silent d : Prop := (forall p, ~ running p d) /\ indexTable d = ∅.
Lemma none_running_silent d : sound d -> (forall p, ~ running p d) -> silent d.
Proof.
  intros HS H. split; [done|]. apply map_empty. intros i. apply eq_None_not_Some. intros [e He].
  destruct (s_index d HS i e He) as (x & Hx & Hr & _). apply (H (ie_peer e)). by exists x.
Qed.

(** ** Sockets *)
Lemma for_peers_bind {B} f (k : unit -> M B) d :
  (for_peers f ≫= k) d = (forM (map_to_list (keyMap d)) (fun kp => f kp.1 kp.2) ≫= k) d.
Proof. unfold for_peers, peers_in_map. by rewrite bind_assoc, gets_bind. Qed.
Lemma keeps_for_peers P f : Stable P -> (forall key p, keeps (fun d => P d /\ keyMap d !! key = Some p) (f key p)) -> keeps P (for_peers f).
Proof.
  intros St H d HS HP. unfold for_peers, peers_in_map, wp. rewrite gets_bind.
  apply (keeps_forM (fun d' => P d' /\ keyMap d' = keyMap d)); [|..|done|done].
  - intros d1 d2 He [H1 H2]. split; [by eapply St|]. by rewrite (x_map _ _ He).
  - intros [key p] Hin%elem_of_map_to_list. eapply keeps_weaken; [apply H|]. intros d' _ [HP' Hm]. by rewrite Hm.
Qed.
Lemma keeps_closeBind : keeps (fun _ => True) closeBindLocked.
Proof. unfold closeBindLocked. keep. Qed.
#[local] Hint Resolve keeps_closeBind : keeps.
Lemma keeps_mark_all : keeps (fun _ => True) (for_peers (fun _ p => markEndpointSrcForClearing p)).
Proof. apply keeps_for_peers; [apply _|]. intros. keep. Qed.
#[local] Hint Resolve keeps_mark_all : keeps.
Lemma keeps_BindSetMark mark : keeps (fun _ => True) (BindSetMark mark).
Proof. unfold BindSetMark. keep. Qed.
Lemma keeps_BindUpdate : keeps (fun _ => True) BindUpdate.
Proof. unfold BindUpdate. keep. Qed.

(** ** Up and down *)
Definition rest_same d d' : Prop :=
  keyMap d' = keyMap d /\ allowedips d' = allowedips d /\ state d' = state d /\ dev_privateKey d' = dev_privateKey d.
Lemma stop_all_ok (l : list (list Z * pid)) d : sound d -> (forall kp, kp ∈ l -> known kp.2 d) ->
  wp (forM l (fun kp => Peer_Stop kp.2)) (fun _ d' => fair d d' /\ rest_same d d' /\
    forall q, running q d' -> running q d /\ q ∉ l.*2) d.
Proof.
  revert d. induction l as [|[key p] l IH]; intros d HS Hl.
  { apply wp_ret. split_and!; try done. intros q Hq. split; [done|by intros ?%elem_of_nil]. }
  cbn [forM]. apply wp_bind. eapply wp_mono; [apply Peer_Stop_ok; [done|by apply (Hl (key, p)); left]|]. cbv beta.
  intros [] d1 (HS1 & He1 & Hp1 & Hq1 & Hm1 & Ha1 & Hst1 & Hpk1). cbn [snd] in *.
  eapply wp_mono; [apply IH; [done|]|].
  { intros kp Hkp. apply (e_known _ _ He1), Hl. by right. }
  cbv beta. intros [] d2 (Hf & (Hm2 & Ha2 & Hst2 & Hpk2) & Hq2). split; [by eapply fair_trans|]. split; [split_and!; congruence|].
  intros q Hq. destruct (Hq2 q Hq) as [Hr Hn]. assert (q <> p) as Hne by by intros ->.
  split; [by apply Hq1|]. cbn. by rewrite not_elem_of_cons.
Qed.
Lemma map_peers_known d kp : sound d -> kp ∈ map_to_list (keyMap d) -> known kp.2 d.
Proof. destruct kp as [key p]. intros HS Hin%elem_of_map_to_list. eapply in_map_known; [done|]. by exists key. Qed.
Lemma downLocked_ok d : sound d ->
  wp downLocked (fun _ d' => fair d d' /\ silent d' /\ keyMap d' = keyMap d /\ state d' = state d) d.
Proof.
  intros HS. unfold downLocked, BindClose. eapply wp_keeps_bind; [apply keeps_closeBind|done|done|].
  intros r d1 _ Hg1. unfold wp. rewrite for_peers_bind. apply wp_bind.
  eapply wp_mono; [apply stop_all_ok; [apply Hg1|intros kp; by apply map_peers_known; apply Hg1]|]. cbv beta.
  intros [] d2 (Hf & (Hm & _ & Hst & _) & Hq). destruct Hg1 as [HS1 [He1 Hm1 _ Hst1 _]]. apply wp_ret.
  split; [by eapply fair_trans|]. split; [|split; congruence]. apply none_running_silent; [apply Hf|].
  intros q Hr. destruct (Hq q Hr) as [Hr1 Hn]. destruct (running_in_map q d1 HS1 Hr1) as [pk Hpk]. apply Hn.
  apply list_elem_of_fmap. exists (pk, q). split; [done|]. by apply elem_of_map_to_list.
Qed.
#[local] Hint Resolve keeps_SendKeepalive : keeps.
Lemma start_peer_ok p d : sound d -> in_map p d -> up d ->
  wp (_ ← Peer_Start p; x ← get_peer p; when (0 <? persistentKeepaliveInterval x) (SendKeepalive entropy draws p))
    (fun _ d' => good d d' /\ running p d') d.
Proof.
  intros HS Hin Hup. apply wp_bind. eapply wp_mono; [by apply Peer_Start_ok|]. cbv beta. intros [] d1 [Hg1 Hr1].
  assert (keeps (running p) (x ← get_peer p; when (0 <? persistentKeepaliveInterval x) (SendKeepalive entropy draws p))) as Hk by keep.
  eapply wp_mono; [apply Hk; [apply Hg1|done]|]. cbv beta. intros [] d2 Hg2.
  split; [by eapply good_trans|]. by eapply running_stable; [apply Hg2|].
Qed.
Lemma start_all_ok (l : list (list Z * pid)) d : sound d -> up d -> (forall kp, kp ∈ l -> in_map kp.2 d) ->
  wp (forM l (fun kp => _ ← Peer_Start kp.2; x ← get_peer kp.2;
        when (0 <? persistentKeepaliveInterval x) (SendKeepalive entropy draws kp.2)))
    (fun _ d' => good d d' /\ forall kp, kp ∈ l -> running kp.2 d') d.
Proof.
  revert d. induction l as [|[key p] l IH]; intros d HS Hup Hl; [by apply wp_ret; split; [|intros ? ?%elem_of_nil]|].
  cbn [forM]. apply wp_bind. eapply wp_mono; [apply (start_peer_ok p); [done|apply (Hl (key, p)); by left|done]|].
  cbv beta. intros [] d1 [Hg1 Hr1]. eapply wp_mono; [apply IH; [apply Hg1|by eapply up_stable; [apply Hg1|]|]|].
  { intros kp Hkp. eapply in_map_stable; [apply Hg1|]. apply Hl. by right. }
  cbv beta. intros [] d2 [Hg2 Hr2]. split; [by eapply good_trans|]. intros kp [->|Hkp]%elem_of_cons; [|auto].
  by eapply running_stable; [apply Hg2|].
Qed.
Lemma upLocked_ok d : sound d -> up d ->
  wp (upLocked entropy draws) (fun r d' => good d d' /\ (r = None -> forall p, in_map p d' -> running p d')) d.
Proof.
  intros HS Hup. unfold upLocked. eapply wp_keeps_bind; [apply keeps_BindUpdate|done|done|]. intros [e|] d1 _ Hg1; [by apply wp_ret|].
  unfold wp. rewrite for_peers_bind. apply wp_bind.
  eapply wp_mono; [apply start_all_ok; [apply Hg1|by eapply up_stable; [apply Hg1|]|]|].
  { intros [pk p] Hin%elem_of_map_to_list. by exists pk. }
  cbv beta. intros [] d2 [Hg2 Hr2]. apply wp_ret. split; [by eapply good_trans|]. intros _ p [pk Hp].
  rewrite (x_map _ _ (proj2 Hg2)) in Hp. apply (Hr2 (pk, p)). by apply elem_of_map_to_list.
Qed.
Lemma set_state_fair s d : sound d -> fair d (set_state s d).
Proof. intros HS. split; [by destruct HS|]. by split. Qed.
Lemma go_down_ok er d : sound d ->
  wp (go_down er) (fun r d' => fair d d' /\ state d' = deviceStateDown /\ silent d' /\ keyMap d' = keyMap d /\
    (er <> None -> r = er)) d.
Proof.
  intros HS. unfold go_down, wp. rewrite modify_bind. pose proof (set_state_fair deviceStateDown d HS) as Hf0.
  apply wp_bind. eapply wp_mono; [apply downLocked_ok, Hf0|]. cbv beta. intros r d1 (Hf1 & Hs & Hm & Hst).
  apply wp_ret. split_and!; try done; [by eapply fair_trans|]. by destruct er.
Qed.
(** What a change of state comes to. *)
Lemma changeState_ok want d : sound d -> quiet d ->
  wp (changeState entropy draws want) (fun r d' => fair d d' /\ quiet d' /\ keyMap d' = keyMap d /\
    (if bool_decide (state d = deviceStateClosed \/ want = state d \/ want = deviceStateClosed) then d' = d /\ r = None
     else match want, r with
          | deviceStateUp, None => up d' /\ forall p, in_map p d' -> running p d'
          | _, _ => state d' = deviceStateDown /\ silent d'
          end)) d.
Proof.
  intros HS Hq. unfold changeState, wp. rewrite gets_bind. case_bool_decide as H1.
  { rewrite bool_decide_eq_true_2 by auto. by apply wp_ret. }
  case_bool_decide as H2. { rewrite bool_decide_eq_true_2 by auto. by apply wp_ret. }
  assert (forall d', silent d' -> quiet d') as Hsq by (intros d' [Hn _] p Hr; by destruct (Hn p)).
  destruct want.
  - rewrite bool_decide_eq_false_2 by naive_solver. eapply wp_mono; [by apply go_down_ok|]. cbv beta.
    intros r d' (Hf & Hst & Hs & Hm & _). split_and!; auto.
  - rewrite bool_decide_eq_false_2 by naive_solver. rewrite modify_bind. pose proof (set_state_fair deviceStateUp d HS) as Hf0.
    set (d0 := set_state deviceStateUp d) in *. apply wp_bind. eapply wp_mono; [apply upLocked_ok; [apply Hf0|done]|].
    cbv beta. intros r d1 [Hg1 Hr1]. pose proof (good_fair _ _ Hg1) as Hf1. destruct r as [e|].
    + eapply wp_mono; [apply go_down_ok, Hf1|]. cbv beta. intros r d2 (Hf2 & Hst & Hs & Hm & Hr).
      pose proof (x_map _ _ (proj2 Hg1)) as Hm1. change (keyMap d0) with (keyMap d) in Hm1. rewrite (Hr ltac:(done)).
      split_and!; auto; [|congruence]. apply (fair_trans d d0); [done|]. by apply (fair_trans d0 d1).
    + apply wp_ret. assert (up d1) as Hu1 by (by eapply up_stable; [apply Hg1|]).
      split_and!; auto; [by eapply fair_trans|by intros ? _|exact (x_map _ _ (proj2 Hg1))].
  - rewrite bool_decide_eq_true_2 by auto. by apply wp_ret.
Qed.

(** ** Removing and adding peers *)
Definition removed (key : list Z) p d d' : Prop :=
  fair d d' /\ keyMap d' = delete key (keyMap d) /\ state d' = state d /\ dev_privateKey d' = dev_privateKey d /\
  (forall q, running q d' -> running q d /\ q <> p).
Lemma allowed_fair T d : (exists m, AllowedIPsProofs.table_ok T m /\ forall k p, m !! k = Some p -> in_map p d) ->
  sound d -> good d (set_allowedips T d).
Proof.
  intros HT HS. split; [by destruct HS|]. split; try done. by left.
Qed.
Lemma map_inj d pk pk' p : sound d -> keyMap d !! pk = Some p -> keyMap d !! pk' = Some p -> pk = pk'.
Proof. intros HS H1 H2. destruct (s_map d HS _ _ H1) as (x & ? & ?), (s_map d HS _ _ H2) as (x' & ? & ?). congruence. Qed.
Lemma removePeerLocked_ok key p d : sound d -> keyMap d !! key = Some p ->
  wp (removePeerLocked p key) (fun _ d' => removed key p d d') d.
Proof.
  intros HS Hp. destruct (s_allowed d HS) as (m & Hok & Hin).
  pose proof (AllowedIPsProofs.RemoveByPeer_ok _ m p Hok) as Hok'. set (m' := filter _ m) in Hok'.
  assert (forall k q, m' !! k = Some q -> in_map q d /\ q <> p) as Hin'.
  { intros k q [Hk Hne]%map_lookup_filter_Some. split; [by eapply Hin|done]. }
  unfold removePeerLocked, wp. rewrite modify_bind. set (d1 := set_allowedips _ d).
  assert (good d d1) as Hg1 by (apply allowed_fair; [exists m'; split; [done|]; intros k q Hk; by apply (Hin' k)|done]).
  apply wp_bind. eapply wp_mono; [apply (Peer_Stop_ok p); [apply Hg1|eapply in_map_known; [apply Hg1|by exists key]]|].
  cbv beta. intros [] d2 (HS2 & He2 & Hp2 & Hq2 & Hm2 & Ha2 & Hst2 & Hpk2). eapply wp_run; [reflexivity|].
  set (d3 := set_keyMap _ d2). assert (keyMap d2 = keyMap d) as Hm by done.
  assert (forall q, running q d2 -> q <> p) as Hne by (intros q Hq ->; done).
  split_and!; try done; [split|by unfold d3; dsimp; rewrite Hm|].
  - split; try apply HS2; unfold d3; dsimp.
    + intros q x Hx. destruct (s_peer d2 HS2 q x Hx) as [Hv Hr]. split; [done|]. dsimp. destruct (isRunning x) eqn:E; [|done].
      rewrite lookup_delete_ne; [done|]. intros ->. rewrite Hm, Hp in Hr. injection Hr as <-. apply (Hne p); [by exists x|done].
    + intros pk q [_ H]%lookup_delete_Some. by apply (s_map d2 HS2).
    + rewrite map_size_delete. pose proof (s_size d2 HS2) as Hsz. destruct (keyMap d2 !! key); [|done]. etrans; [apply Nat.le_pred_l|done].
    + exists m'. split; [by rewrite Ha2|]. intros k q Hk. destruct (Hin' k q Hk) as [[pk Hpk] Hqp]. exists pk.
      dsimp. rewrite Hm, lookup_delete_ne; [done|]. intros ->. congruence.
  - trans d1; [apply Hg1|]. trans d2; [done|]. by split.
  - intros q Hq. split; [|by apply Hne]. change (running q d1). by apply Hq2; [apply Hne|].
Qed.
Lemma RemovePeer_ok key d : sound d ->
  wp (RemovePeer key) (fun _ d' => fair d d' /\ keyMap d' = delete key (keyMap d) /\ state d' = state d /\
    forall q, running q d' -> running q d) d.
Proof.
  intros HS. unfold RemovePeer, LookupPeer, wp. rewrite gets_bind. destruct (keyMap d !! key) as [p|] eqn:Hp.
  - eapply wp_mono; [by apply removePeerLocked_ok|]. cbv beta. intros [] d' (Hf & Hm & Hst & _ & Hq). split_and!; try done.
    intros q Hr. by apply Hq.
  - apply wp_ret. split_and!; try done. by rewrite delete_id.
Qed.
(** Removing the peers of a list that a test picks. *)
Definition removed_all (l : list (list Z * pid)) d d' : Prop :=
  fair d d' /\ keyMap d' = foldl (fun m kp => delete kp.1 m) (keyMap d) l /\ state d' = state d /\
  dev_privateKey d' = dev_privateKey d /\ forall q, running q d' -> running q d.
Lemma remove_list_ok (l : list (list Z * pid)) (f : list Z -> pid -> M unit) (test : list Z * pid -> bool) d : sound d ->
  NoDup l.*1 -> (forall kp, kp ∈ l -> keyMap d !! kp.1 = Some kp.2) ->
  (forall kp d', kp ∈ l -> sound d' -> keyMap d' !! kp.1 = Some kp.2 ->
     f kp.1 kp.2 d' = (if test kp then removePeerLocked kp.2 kp.1 else mret tt) d') ->
  wp (forM l (fun kp => f kp.1 kp.2)) (fun _ d' => removed_all (filter (fun kp => test kp = true) l) d d') d.
Proof.
  revert d. induction l as [|[key p] l IH]; intros d HS Hnd Hl Hf.
  { apply wp_ret. rewrite filter_nil. by split_and!. }
  cbn [forM]. apply wp_bind. unfold wp at 1.
  assert (keyMap d !! key = Some p) as Hkp by (apply (Hl (key, p)); by left).
  pose proof (Hf (key, p) d ltac:(by left) HS Hkp) as Hfd. cbn [fst snd] in Hfd |- *. rewrite Hfd.
  apply NoDup_cons in Hnd as [Hnin Hnd].
  assert (wp (if test (key, p) then removePeerLocked p key else mret tt)
    (fun _ d' => removed_all (if test (key, p) then [(key, p)] else []) d d') d) as Hone.
  { destruct (test (key, p)); [|by apply wp_ret]. eapply wp_mono; [by apply removePeerLocked_ok|].
    cbv beta. intros [] d' (H1 & H2 & H3 & H4 & H5). split_and!; try done. intros q Hq. by apply H5. }
  eapply wp_mono; [exact Hone|]. cbv beta. intros [] d1 (Hf1 & Hm1 & Hst1 & Hpk1 & Hq1).
  eapply wp_mono; [apply IH; [apply Hf1|done|..]|].
  - intros kp Hin. rewrite Hm1. assert (keyMap d !! kp.1 = Some kp.2) as Hd by (apply Hl; by right).
    destruct (test (key, p)); [|done]. cbn. rewrite lookup_delete_ne; [done|]. intros ->. apply Hnin.
    apply list_elem_of_fmap. by exists kp.
  - intros kp d' Hin. apply Hf. by right.
  - cbv beta. intros [] d2 (Hf2 & Hm2 & Hst2 & Hpk2 & Hq2). rewrite filter_cons.
    split_and!; [by eapply fair_trans| |congruence|congruence|auto].
    rewrite Hm2, Hm1. destruct (test (key, p)); [rewrite decide_True by done|rewrite decide_False by done]; done.
Qed.
Lemma foldl_delete_lookup (l : list (list Z * pid)) (m : gmap (list Z) pid) pk p :
  foldl (fun m kp => delete kp.1 m) m l !! pk = Some p <-> m !! pk = Some p /\ pk ∉ l.*1.
Proof.
  revert m. induction l as [|[key q] l IH]; intros m; cbn [foldl fmap list_fmap fst].
  { split; [intros H; split; [done|by intros ?%elem_of_nil]|by intros []]. }
  rewrite IH, lookup_delete_Some, not_elem_of_cons. naive_solver.
Qed.
Lemma RemoveAllPeers_ok d : sound d ->
  wp RemoveAllPeers (fun _ d' => fair d d' /\ keyMap d' = ∅ /\ state d' = state d /\ silent d') d.
Proof.
  intros HS. unfold RemoveAllPeers, wp. rewrite for_peers_bind. apply wp_bind.
  eapply wp_mono; [apply (remove_list_ok _ (fun key p => removePeerLocked p key) (fun _ => true)); try done|].
  { apply NoDup_fst_map_to_list. }
  { intros [pk p] Hin%elem_of_map_to_list. done. }
  cbv beta. intros [] d1 (Hf & Hm & Hst & Hpk & Hq). eapply wp_run; [reflexivity|].
  assert (keyMap d1 = ∅) as He.
  { apply map_empty. intros pk. apply eq_None_not_Some. intros [p Hp]. rewrite Hm in Hp. apply foldl_delete_lookup in Hp as [Hp Hn].
    apply Hn. apply list_elem_of_fmap. exists (pk, p). split; [done|]. apply list_elem_of_filter. split; [done|]. by apply elem_of_map_to_list. }
  assert (set_keyMap ∅ d1 = d1) as -> by (rewrite <- He; by destruct d1).
  split_and!; try done. apply none_running_silent; [apply Hf|]. intros p Hr.
  destruct (running_in_map p d1 (proj1 Hf) Hr) as [pk Hpk']. by rewrite He in Hpk'.
Qed.

(** A new object, not yet running. *)
Definition inert x : Prop := isRunning x = false /\ keypairs x = no_keypairs /\ idle (timers x).
Lemma add_object_good p x d : sound d -> p ∉ dom (peers d) -> inert x -> good d (set_peers (<[p := x]> (peers d)) d).
Proof.
  intros HS Hp (Hx1 & Hx2 & Hx3). set (d' := set_peers _ d). apply not_elem_of_dom in Hp.
  assert (forall q y, peers d !! q = Some y -> peers d' !! q = Some y) as Hk.
  { intros q y Hy. unfold d'. dsimp. rewrite lookup_insert_ne; [done|]. intros ->. congruence. }
  assert (forall q, running q d' -> running q d) as Hr.
  { intros q (y & Hy & Hr). unfold d' in Hy. dsimp_in Hy. apply lookup_insert_Some in Hy as [[-> <-]|[_ Hy]]; [congruence|by exists y]. }
  assert (forall q, known q d -> known q d') as Hkn by (intros q [y Hy]; exists y; auto).
  split; [split|split; [split|..]]; try done; try apply HS.
  - intros i e He. destruct (s_index d HS i e He) as (y & Hy & Hent). exists y. split; [auto|done].
  - intros q y Hy. unfold d' in Hy. dsimp_in Hy. apply lookup_insert_Some in Hy as [[<- <-]|[_ Hy]]; [|by apply (s_peer d HS)].
    split; [intros k; rewrite Hx2; unfold slots; cbn; set_solver|]. by rewrite Hx1.
  - intros pk q Hq. destruct (s_map d HS pk q Hq) as (y & Hy & ?). exists y. split; [auto|done].
  - intros c Hc. apply Hkn. by apply (s_queue d HS).
  - intros c Hc. destruct (s_inbound d HS c Hc). auto.
  - intros q (y & Hy & ?). exists y. split; [auto|done].
  - intros q Hq. left. auto.
Qed.
Lemma NewPeer_ok pk d : sound d ->
  wp (NewPeer pk) (fun r d' => fair d d' /\ state d' = state d /\ (forall q, running q d' -> running q d) /\
    (forall q, in_map q d -> in_map q d') /\
    match r with
    | Ok p => keyMap d' = <[pk := p]> (keyMap d) /\ peers d' !! p = Some (init_peer (dev_privateKey d) pk) /\
        keyMap d !! pk = None /\ state d <> deviceStateClosed
    | Err _ => d' = d
    end) d.
Proof.
  intros HS. unfold NewPeer, isClosed, wp. rewrite gets_bind.
  assert (forall er : error, wp (mret (Err er)) (fun r d' => fair d d' /\ state d' = state d /\ (forall q, running q d' -> running q d) /\
    (forall q, in_map q d -> in_map q d') /\ match r with
    | Ok p => keyMap d' = <[pk := p]> (keyMap d) /\ peers d' !! p = Some (init_peer (dev_privateKey d) pk) /\
        keyMap d !! pk = None /\ state d <> deviceStateClosed
    | Err _ => d' = d end) d) as Hno by (intros er; by apply wp_ret).
  case_bool_decide; [apply Hno|]. rewrite gets_bind. destruct (MaxPeers <=? size (keyMap d))%nat eqn:Hsz; [apply Hno|].
  case_bool_decide as Hex; [apply Hno|]. rewrite !gets_bind. apply eq_None_not_Some in Hex. apply Nat.leb_gt in Hsz.
  set (p := fresh (dom (peers d))). rewrite modify_bind. set (d1 := set_peers _ d). rewrite modify_bind. set (d2 := set_keyMap _ d1).
  assert (p ∉ dom (peers d)) as Hp by apply is_fresh.
  assert (good d d1) as Hg1 by (apply add_object_good; [done|done|by split_and!]). pose proof (proj1 Hg1) as HS1.
  assert (peers d1 !! p = Some (init_peer (dev_privateKey d) pk)) as Hx by apply lookup_insert_eq.
  assert (keyMap d1 !! pk = None) as Hf by done.
  assert (forall q, in_map q d1 -> in_map q d2) as Hin.
  { intros q [pk' Hq]. exists pk'. unfold d2. dsimp. rewrite lookup_insert_ne; [done|]. intros ->. congruence. }
  assert (fair d1 d2) as Hf2.
  { split; [|by split]. split; try apply HS1.
    - intros q y Hy. destruct (s_peer d1 HS1 q y Hy) as [Hv Hr]. split; [done|]. destruct (isRunning y); [|done].
      unfold d2. dsimp. rewrite lookup_insert_ne; [done|]. intros E. rewrite <- E in Hr. congruence.
    - intros pk' q Hq. unfold d2 in Hq. dsimp_in Hq. apply lookup_insert_Some in Hq as [[<- <-]|[_ Hq]]; [|by apply (s_map d1 HS1)].
      eexists. split; [exact Hx|done].
    - unfold d2. dsimp. rewrite map_size_insert_None by done. change (keyMap d1) with (keyMap d). lia.
    - destruct (s_allowed d1 HS1) as (m & Hok & Hm). exists m. split; [done|]. intros k q Hk. apply Hin. by eapply Hm. }
  apply wp_ret. split_and!; try done.
  - eapply fair_trans; [by apply good_fair|done].
  - intros q Hq. change (running q d1) in Hq. destruct Hq as (y & Hy & Hr). unfold d1 in Hy. dsimp_in Hy.
    apply lookup_insert_Some in Hy as [[<- <-]|[_ Hy]]; [done|by exists y].
Qed.

(** ** Identity *)
Definition same_id d d' : Prop := dev_privateKey d' = dev_privateKey d /\ dev_publicKey d' = dev_publicKey d.
#[local] Instance same_id_preorder : PreOrder same_id.
Proof. split; [done|]. intros d1 d2 d3 [] []. split; congruence. Qed.
Ltac ids := repeat along1 ltac:(by intros ? ? ? [= _ <-]) ltac:(by intros ? ? ? [= _ <-]) ltac:(by intros ? ? ? [= _ <-]).
Lemma id_ExpireCurrentKeypairs p : along same_id (ExpireCurrentKeypairs p).
Proof. unfold ExpireCurrentKeypairs, get_handshake, IndexTable_Delete, modify_keypair. ids. all: try (by intros ? ? ? [= _ <-]). Qed.
Lemma SetPrivateKey_ok sk d : sound d ->
  wp (SetPrivateKey sk) (fun _ d' => fair d d' /\ state d' = state d /\ (forall q, running q d' -> running q d \/ up d) /\
    dev_privateKey d' = sk /\ keyMap d' ⊆ keyMap d /\ (sk <> dev_privateKey d -> dev_publicKey d' = publicKey sk /\
      forall pk p, keyMap d' !! pk = Some p <-> keyMap d !! pk = Some p /\ pk <> publicKey sk)) d.
Proof.
  intros HS. unfold SetPrivateKey, wp. rewrite gets_bind. case_bool_decide as He.
  { apply wp_ret. split_and!; try done. by left. }
  cbv zeta. set (pk := publicKey sk). rewrite for_peers_bind. apply wp_bind.
  set (test := fun kp : list Z * pid => bool_decide (kp.1 = pk)).
  eapply wp_mono; [apply (remove_list_ok _ (fun key p => get_handshake p ≫= fun h =>
    if bool_decide (hs_remoteStatic h = pk) then removePeerLocked p key else mret tt) test); try done|].
  { apply NoDup_fst_map_to_list. }
  { by intros [pk' p] Hin%elem_of_map_to_list. }
  { intros [key p] d' _ HS' Hkp. cbn [fst snd] in *. destruct (s_map d' HS' _ _ Hkp) as (x & Hx & Hrs).
    rewrite (get_handshake_bind _ _ _ _ Hx), Hrs. unfold test. cbn [fst]. by case_bool_decide. }
  cbv beta. intros [] d1 (Hf1 & Hm1 & Hst1 & Hpk1 & Hq1). pose proof (proj1 Hf1) as HS1.
  unfold wp. rewrite !modify_bind. set (d2 := set_cookieChecker _ _).
  assert (good d1 d2) as Hg2 by by apply same_good.
  set (rest := for_peers _ ≫= _). assert (keeps (fun _ => True) rest) as Hrest.
  { unfold rest. apply keeps_bind; [apply _| |intros []]; apply keeps_for_peers; try apply _; intros key p.
    - apply keeps_on_handshake. by intros [].
    - eapply keeps_weaken; [apply keeps_ExpireCurrentKeypairs|]. intros d' HS' [_ Hkp]. eapply in_map_known; [done|by exists key]. }
  destruct (Hrest d2 (proj1 Hg2) I) as ([] & d3 & Hr3 & Hg3).
  assert (dev_privateKey d3 = sk /\ dev_publicKey d3 = pk) as [Hsk Hpk].
  { assert (along same_id rest) as Hid by (unfold rest, for_peers, peers_in_map; ids; apply id_ExpireCurrentKeypairs).
    exact (Hid _ _ _ Hr3). }
  exists tt, d3. split; [done|]. assert (keyMap d3 = keyMap d1) as Hm3 by exact (x_map _ _ (proj2 Hg3)).
  split_and!; try done.
  - eapply fair_trans; [done|]. eapply fair_trans; [by apply good_fair|by apply good_fair].
  - rewrite <- Hst1. exact (x_state _ _ (proj2 Hg3)).
  - intros q Hq. destruct (x_started _ _ (proj2 Hg3) q Hq) as [Hr|Hu]; [left; by apply Hq1|right].
    unfold up in *. rewrite <- Hst1. done.
  - apply map_subseteq_spec. intros pk' p. rewrite Hm3, Hm1, foldl_delete_lookup. by intros [].
  - intros _. split; [done|]. intros pk' p. rewrite Hm3, Hm1, foldl_delete_lookup.
    split; intros [Hp Hn]; (split; [done|]).
    + intros ->. apply Hn, list_elem_of_fmap. exists (pk, p). split; [done|]. apply list_elem_of_filter.
      split; [unfold test; by apply bool_decide_eq_true_2|by apply elem_of_map_to_list].
    + intros ([k q] & -> & [Ht _]%list_elem_of_filter)%list_elem_of_fmap. by apply bool_decide_eq_true_1 in Ht.
Qed.

(** ** Steps that do not change the state of the device *)
Record steady d d' : Prop := mkSteady {
  t_fair : fair d d';
  t_state : state d' = state d;
  t_started : forall q, running q d' -> running q d \/ up d;
  t_closed : state d = deviceStateClosed -> keyMap d = ∅ -> keyMap d' = ∅ }.
Lemma steady_refl d : sound d -> steady d d.
Proof. intros HS. split; try done. by left. Qed.
Lemma steady_trans d1 d2 d3 : steady d1 d2 -> steady d2 d3 -> steady d1 d3.
Proof.
  intros [F1 S1 R1 C1] [F2 S2 R2 C2]. split; [by eapply fair_trans|congruence| |].
  - intros q Hq. destruct (R2 q Hq) as [Hr|Hu]; [auto|right]. unfold up in *. congruence.
  - intros Hc He. apply C2; [congruence|auto].
Qed.
Lemma good_steady d d' : good d d' -> steady d d'.
Proof.
  intros Hg. split; [by apply good_fair|apply Hg|apply Hg|]. intros _ He. by rewrite (x_map _ _ (proj2 Hg)).
Qed.
Lemma RemovePeer_steady key d : sound d -> wp (RemovePeer key) (fun _ d' => steady d d') d.
Proof.
  intros HS. eapply wp_mono; [by apply RemovePeer_ok|]. cbv beta. intros [] d' (Hf & Hm & Hst & Hr).
  split; try done; [by left; auto|]. intros _ He. rewrite Hm, He. apply delete_empty.
Qed.
Lemma SetPrivateKey_steady sk d : sound d -> wp (SetPrivateKey sk) (fun _ d' => steady d d') d.
Proof.
  intros HS. eapply wp_mono; [by apply SetPrivateKey_ok|]. cbv beta. intros [] d' (Hf & Hst & Hr & Hsk & Hsub & _).
  split; try done. intros _ He. rewrite He in Hsub. apply map_empty. intros k.
  apply eq_None_not_Some. intros [p Hp]. pose proof (lookup_weaken _ _ _ _ Hp Hsub) as H. by rewrite lookup_empty in H.
Qed.

(** ** The whole device *)
Lemma Device_Close_ok d : sound d ->
  wp Device_Close (fun _ d' => fair d d' /\ state d' = deviceStateClosed /\
    (if bool_decide (state d = deviceStateClosed) then d' = d else silent d' /\ keyMap d' = ∅)) d.
Proof.
  intros HS. unfold Device_Close, isClosed, wp. rewrite gets_bind. case_bool_decide as Hc; [by apply wp_ret|].
  rewrite modify_bind. pose proof (set_state_fair deviceStateClosed d HS) as Hf0. set (d0 := set_state _ d) in *.
  apply wp_bind. eapply wp_mono; [apply downLocked_ok, Hf0|]. cbv beta. intros r d1 (Hf1 & _ & _ & Hst1).
  apply wp_bind. eapply wp_mono; [apply RemoveAllPeers_ok, Hf1|]. cbv beta. intros [] d2 (Hf2 & Hm2 & Hst2 & Hs2).
  eapply wp_run; [reflexivity|]. set (d3 := set_limiter _ d2). assert (good d2 d3) as Hg3 by (apply same_good; [done|apply Hf2]).
  split_and!; try done; [|by change (state d2 = deviceStateClosed); rewrite Hst2, Hst1].
  apply (fair_trans d d0); [done|]. apply (fair_trans d0 d1); [done|]. apply (fair_trans d1 d2); [done|]. by apply good_fair.
Qed.
Lemma keeps_Keepalives : keeps (fun _ => True) (SendKeepalivesToPeersWithCurrentKeypair entropy draws).
Proof.
  unfold SendKeepalivesToPeersWithCurrentKeypair. keep1. destruct (negb _); [apply keeps_ret|].
  apply keeps_for_peers; [apply _|]. intros key p.
  apply keeps_Current; [intros d HS [_ Hk]; eapply in_map_known; [done|by exists key]|]. intros o. keep.
Qed.
Lemma keeps_Disable : keeps (fun _ => True) DisableSomeRoamingForBrokenMobileSemantics.
Proof.
  unfold DisableSomeRoamingForBrokenMobileSemantics. keep1; [keep|]. apply keeps_for_peers; [apply _|]. intros key p. keep.
Qed.

(** ** Configuring *)
Definition config_ok (sp : UAPI.ipcSetPeer) (deviceConfig : bool) d : Prop :=
  match UAPI.sp_Peer sp with
  | None => deviceConfig = true
  | Some p => known p d /\ (UAPI.dummy sp = false -> in_map p d)
  end.
#[local] Hint Resolve keeps_SendStagedPackets : keeps.
Lemma handlePostConfig_ok sp dc d : sound d -> config_ok sp dc d ->
  wp (UAPI.handlePostConfig entropy draws sp) (fun _ d' => good d d') d.
Proof.
  intros HS Hc. unfold UAPI.handlePostConfig, config_ok in *. destruct (UAPI.sp_Peer sp) as [p|]; [|by apply wp_ret].
  destruct (UAPI.dummy sp); [by apply wp_ret|]. destruct Hc as [Hk Hin]. specialize (Hin eq_refl).
  unfold wp. rewrite gets_bind.
  set (m := when (UAPI.sp_created sp) _). assert (keeps (in_map p) m) as Hm by (unfold m; keep).
  eapply wp_keeps_bind; [exact Hm|done|done|]. intros [] d1 _ Hg1. unfold isUp, wp. rewrite gets_bind.
  apply (wp_mono _ (fun _ d' => good d1 d')); [|by intros; eapply good_trans].
  case_bool_decide as Hup; cbn [when]; [|by apply wp_ret; split; [apply Hg1|]].
  apply wp_bind. eapply wp_mono; [apply Peer_Start_ok; [apply Hg1|by eapply in_map_stable; [apply Hg1|]|done]|].
  cbv beta. intros [] d2 [Hg2 Hr2]. apply (wp_mono _ (fun _ d' => good d2 d')); [|by intros; eapply good_trans].
  assert (keeps (running p) (_ ← when (UAPI.pkaOn sp) (SendKeepalive entropy draws p); SendStagedPackets entropy draws p)) as Hk2 by keep.
  apply Hk2; [apply Hg2|done].
Qed.
Lemma new_object_ok d : sound d -> wp UAPI.new_object (fun p d' => good d d' /\ known p d') d.
Proof.
  intros HS. eapply wp_run; [reflexivity|]. split; [apply add_object_good; [done|apply is_fresh|by split_and!]|].
  eexists. apply lookup_insert_eq.
Qed.
Lemma handlePublicKeyLine_ok sp value d : sound d ->
  wp (UAPI.handlePublicKeyLine sp value) (fun r d' => steady d d' /\ (r.2 = None -> config_ok r.1 false d')) d.
Proof.
  intros HS. unfold UAPI.handlePublicKeyLine. destruct (PublicKey_FromHex _ _) as [pk [er|]].
  { apply wp_ret. split; [by apply steady_refl|done]. }
  unfold wp. rewrite gets_bind. cbv zeta. case_bool_decide as Hd.
  - rewrite bind_assoc. apply wp_bind. eapply wp_mono; [by apply new_object_ok|]. cbv beta. intros p d1 [Hg1 Hk].
    unfold wp. rewrite ret_bind. apply wp_ret. cbn [fst snd]. split; [by apply good_steady|]. done.
  - unfold LookupPeer. rewrite gets_bind. destruct (keyMap d !! pk) as [p|] eqn:Hp.
    + apply wp_ret. cbn [fst snd]. split; [by apply steady_refl|]. intros _.
      assert (in_map p d) as Hin by by exists pk. split; [by eapply in_map_known|done].
    + apply wp_bind. eapply wp_mono; [by apply NewPeer_ok|]. cbv beta. intros r d1 (Hf1 & Hst1 & Hr1 & Hin1 & Hres).
      destruct r as [p|er]; apply wp_ret; cbn [fst snd]; [|subst d1; split; [by apply steady_refl|done]].
      destruct Hres as (Hm & Hx & Hn & Hnc). split.
      * split; try done. intros q Hq. left. auto.
      * intros _. split; [by eexists|]. intros _. exists pk. rewrite Hm. apply lookup_insert_eq.
Qed.
Lemma handleDeviceLine_ok key value d : sound d -> wp (UAPI.handleDeviceLine key value) (fun _ d' => steady d d') d.
Proof.
  intros HS. unfold UAPI.handleDeviceLine.
  assert (forall o : option UAPI.IPCError, wp (mret o) (fun _ d' => steady d d') d) as Hno by (intros o; by apply wp_ret, steady_refl).
  assert (forall {A} (m : M A) (f : A -> M (option UAPI.IPCError)), wp m (fun _ d' => steady d d') d ->
    (forall a d', f a d' = Some (match f a d' with Some (o, _) => o | None => None end, d')) ->
    wp (m ≫= f) (fun _ d' => steady d d') d) as Hthen.
  { intros A m f (a & d1 & Hr & Hs) Hf. apply wp_bind. eapply wp_run; [exact Hr|]. eapply wp_run; [apply Hf|done]. }
  case_bool_decide.
  { destruct (PrivateKey_FromMaybeZeroHex _ _) as [sk [er|]]; [done|]. apply Hthen; [by apply SetPrivateKey_steady|done]. }
  case_bool_decide.
  { destruct (ParseUint _ _) as [port|]; [|done].
    assert (keeps (fun _ => True) (_ ← modify (set_net_port port); BindUpdate)) as Hk by (keep; apply keeps_BindUpdate).
    destruct (Hk d HS I) as (r & d1 & Hr & Hg). rewrite bind_run in Hr. unfold wp. rewrite bind_run.
    destruct (modify (set_net_port port) d) as [[[] d0]|]; [|done]. rewrite bind_run, Hr.
    destruct r; eexists _, _; (split; [reflexivity|]); by apply good_steady. }
  case_bool_decide.
  { destruct (ParseUint _ _) as [mark|]; [|done]. apply Hthen; [|by intros []].
    eapply wp_mono; [by apply keeps_BindSetMark|]. intros. by apply good_steady. }
  case_bool_decide; [|done]. destruct (negb _); [done|]. apply Hthen; [|done].
  eapply wp_mono; [by apply RemoveAllPeers_ok|]. cbv beta. intros [] d1 (Hf & Hm & Hst & Hs & _). split; try done.
  intros q Hq. by destruct (Hs q).
Qed.

Lemma ParsePrefix_ok s k : UAPI.ParsePrefix s = Some k -> AllowedIPsProofs.prefix_ok k.
Proof.
  unfold UAPI.ParsePrefix. destruct (CutLast s "/") as [[ip bits]|]; [|done].
  destruct (ParseAddr ip) as [a|] eqn:Ha; [|done]. apply ParseAddr_ok in Ha as [Hl Hb].
  destruct (match bits with String c (String _ _) => _ | _ => _ end); [done|].
  destruct (Atoi bits) as [n|]; [|done]. destruct (_ || _) eqn:Hn; [done|]. intros [= <-].
  apply orb_false_iff in Hn as [H1 H2]. apply Z.ltb_ge in H1, H2. unfold AllowedIPsProofs.prefix_ok, AllowedIPsProofs.addr. cbn [fst snd].
  split; [destruct Hl; [left|right]; done|lia].
Qed.
Lemma Insert_good k p d : sound d -> in_map p d -> AllowedIPsProofs.prefix_ok k ->
  good d (set_allowedips (AllowedIPs.Insert (allowedips d) k p) d).
Proof.
  intros HS Hin Hk. destruct (s_allowed d HS) as (m & Hok & Hm). apply allowed_fair; [|done].
  eexists. split; [by apply AllowedIPsProofs.Insert_ok|]. intros k' q [[_ <-]|[_ Hq]]%lookup_insert_Some; [done|by eapply Hm].
Qed.
Lemma Remove_good k p d : sound d -> AllowedIPsProofs.prefix_ok k ->
  good d (set_allowedips (AllowedIPs.Remove (allowedips d) k p) d).
Proof.
  intros HS Hk. destruct (s_allowed d HS) as (m & Hok & Hm). apply allowed_fair; [|done].
  eexists. split; [by apply AllowedIPsProofs.Remove_ok|]. intros k' q Hq. case_bool_decide; [apply lookup_delete_Some in Hq as [_ Hq]|]; by eapply Hm.
Qed.
Lemma RemoveByPeer_good p d : sound d -> good d (set_allowedips (AllowedIPs.RemoveByPeer (allowedips d) p) d).
Proof.
  intros HS. destruct (s_allowed d HS) as (m & Hok & Hm). apply allowed_fair; [|done].
  eexists. split; [by apply AllowedIPsProofs.RemoveByPeer_ok|]. intros k' q [Hq _]%map_lookup_filter_Some. by eapply Hm.
Qed.
#[export] Instance config_ok_stable sp dc : Stable (config_ok sp dc).
Proof. unfold config_ok. destruct (UAPI.sp_Peer sp); apply _. Qed.
Lemma to_dummy_ok sp d d0 : sound d -> steady d0 d ->
  wp (sp' ← UAPI.to_dummy sp; mret (sp', None)) (fun r d' => steady d0 d' /\ (r.2 = @None UAPI.IPCError -> config_ok r.1 false d')) d.
Proof.
  intros HS Ht. unfold UAPI.to_dummy. unfold wp. rewrite bind_assoc. apply wp_bind.
  eapply wp_mono; [by apply new_object_ok|]. cbv beta. intros p d1 [Hg1 Hk]. unfold wp. rewrite ret_bind. apply wp_ret.
  split; [eapply steady_trans; [done|by apply good_steady]|]. done.
Qed.
Lemma handlePeerLine_ok sp p key value d : sound d -> UAPI.sp_Peer sp = Some p -> config_ok sp false d ->
  wp (UAPI.handlePeerLine sp p key value) (fun r d' => steady d d' /\ (r.2 = None -> config_ok r.1 false d')) d.
Proof.
  intros HS Hp Hc. pose proof Hc as Hc'. unfold config_ok in Hc'. rewrite Hp in Hc'. destruct Hc' as [[x Hx] Hin].
  set (Q := fun (r : UAPI.ipcSetPeer * option UAPI.IPCError) d' => steady d d' /\ (r.2 = None -> config_ok r.1 false d')).
  assert (forall o, wp (mret (sp, o)) Q d) as Hno by (intros o; by apply wp_ret; split; [apply steady_refl|]).
  assert (forall sp' o d', UAPI.sp_Peer sp' = UAPI.sp_Peer sp -> UAPI.dummy sp' = UAPI.dummy sp -> good d d' -> Q (sp', o) d') as Hgood.
  { intros sp' o d' H1 H2 Hg. split; [by apply good_steady|]. intros _. cbn [fst]. unfold config_ok. rewrite H1, H2.
    apply (config_ok_stable sp false d d'); [apply Hg|done]. }
  assert (forall f o, (forall y, core_eq y (f y)) -> wp (_ ← modify_peer p f; mret (sp, o)) Q d) as Hmod.
  { intros f o Hf. destruct (keeps_alter_all (fun _ => True) p f Hf d HS I) as ([] & d1 & Hr & Hg). apply wp_bind.
    eapply wp_run; [exact Hr|]. apply wp_ret. by apply Hgood. }
  assert (forall f, (UAPI.dummy sp = false -> good d (f d)) -> wp (_ ← unless (UAPI.dummy sp) (modify f); mret (sp, None)) Q d) as Hset.
  { intros f Hf. destruct (UAPI.dummy sp) eqn:Hd; cbn [unless]; unfold wp; [rewrite ret_bind; apply Hno|].
    rewrite modify_bind. apply wp_ret, Hgood; auto. }
  assert (wp (_ ← (h ← get_handshake p; RemovePeer (hs_remoteStatic h)); sp' ← UAPI.to_dummy sp; mret (sp', None)) Q d) as Hrem.
  { apply wp_bind. unfold wp at 1. rewrite (get_handshake_bind _ _ _ _ Hx).
    eapply wp_mono; [by apply RemovePeer_steady|]. cbv beta. intros [] d1 Ht. apply to_dummy_ok; [apply Ht|done]. }
  unfold UAPI.handlePeerLine.
  case_bool_decide. { destruct (negb (bool_decide (value = "true"%string))); [done|]. destruct (_ && _); [|done].
    unfold wp. rewrite <- bind_assoc in *. exact Hrem. }
  case_bool_decide. { destruct (negb (bool_decide (value = "true"%string))); [done|]. destruct (UAPI.dummy sp) eqn:Hd; cbn [negb]; [|exact Hrem].
    unfold wp. rewrite ret_bind. apply to_dummy_ok; [done|by apply steady_refl]. }
  case_bool_decide. { unfold wp. rewrite (get_handshake_bind _ _ _ _ Hx). destruct (PresharedKey_FromHex _ _) as [psk er].
    assert (forall y, core_eq y (on_handshake (set_hs_presharedKey psk) y)) as Hf by (intros; by split_and!).
    destruct er; by apply Hmod. }
  case_bool_decide. { destruct (ParseEndpoint value) as [ep|er]; [|done]. apply Hmod. intros; by split_and!. }
  case_bool_decide. { destruct (ParseUint value 16) as [secs|]; [|done]. unfold wp. rewrite (get_peer_bind _ _ _ _ Hx).
    assert (forall y, core_eq y (set_persistentKeepaliveInterval secs y)) as Hf by (intros; by split_and!).
    destruct (keeps_alter_all (fun _ => True) p _ Hf d HS I) as ([] & d1 & Hr & Hg). apply wp_bind. eapply wp_run; [exact Hr|].
    apply wp_ret. by apply Hgood. }
  case_bool_decide. { destruct (negb (bool_decide (value = "true"%string))); [done|]. apply Hset. intros _. by apply RemoveByPeer_good. }
  case_bool_decide.
  { destruct (match value with String _ _ => _ | _ => _ end) as [add v]. destruct (UAPI.ParsePrefix v) as [k|] eqn:Hk; [|done].
    apply ParsePrefix_ok in Hk. apply Hset. intros Hd. destruct add; [apply Insert_good; auto|by apply Remove_good]. }
  case_bool_decide; [|done]. by destruct (negb _).
Qed.
Lemma set_lines_ok lines long dc sp d : sound d -> config_ok sp dc d -> (UAPI.sp_Peer sp <> None -> dc = false) ->
  wp (UAPI.set_lines entropy draws lines long dc sp) (fun _ d' => steady d d') d.
Proof.
  revert dc sp d. induction lines as [|line lines IH]; intros dc sp d HS Hc Hdc; cbn [UAPI.set_lines].
  { apply wp_bind. eapply wp_mono; [by eapply handlePostConfig_ok|]. cbv beta. intros [] d1 Hg. by apply wp_ret, good_steady. }
  case_bool_decide.
  { apply wp_bind. eapply wp_mono; [by eapply handlePostConfig_ok|]. cbv beta. intros [] d1 Hg. by apply wp_ret, good_steady. }
  destruct (Cut line "=") as [[key value]|]; [|by apply wp_ret, steady_refl]. case_bool_decide.
  - apply wp_bind. eapply wp_mono; [by eapply handlePostConfig_ok|]. cbv beta. intros [] d1 Hg1.
    apply wp_bind. eapply wp_mono; [apply handlePublicKeyLine_ok, Hg1|]. cbv beta. intros [sp' er] d2 [Hs2 Hc2]. cbn [fst snd] in *.
    assert (steady d d2) as Hs by (eapply steady_trans; [by apply good_steady|done]).
    destruct er as [er|]; [by apply wp_ret|]. specialize (Hc2 eq_refl).
    eapply wp_mono; [apply (IH false sp' d2); [apply Hs2|done|done]|]. cbv beta. intros r d3 Hs3. by eapply steady_trans.
  - destruct dc.
    + apply wp_bind. eapply wp_mono; [by apply handleDeviceLine_ok|]. cbv beta. intros er d1 Hs1.
      destruct er as [er|]; [by apply wp_ret|]. eapply wp_mono; [apply (IH true sp d1); [apply Hs1| |done]|].
      * unfold config_ok in *. destruct (UAPI.sp_Peer sp) as [p|] eqn:Hp; [|done]. by specialize (Hdc ltac:(done)).
      * cbv beta. intros r d2 Hs2. by eapply steady_trans.
    + destruct (UAPI.sp_Peer sp) as [p|] eqn:Hp; [|unfold config_ok in Hc; rewrite Hp in Hc; done].
      apply wp_bind. eapply wp_mono; [by apply handlePeerLine_ok|]. cbv beta. intros [sp' er] d1 [Hs1 Hc1]. cbn [fst snd] in *.
      destruct er as [er|]; [by apply wp_ret|]. specialize (Hc1 eq_refl).
      eapply wp_mono; [apply (IH false sp' d1); [apply Hs1|done|done]|]. cbv beta. intros r d3 Hs3. by eapply steady_trans.
Qed.
Lemma IpcSet_ok input d : sound d -> wp (UAPI.IpcSetOperation entropy draws input) (fun _ d' => steady d d') d.
Proof. intros HS. unfold UAPI.IpcSetOperation. destruct (UAPI.Scan input) as [lines long]. by apply set_lines_ok. Qed.
Lemma NewDevice_ok mtu bs now n : let d := NewDevice mtu bs now n in sound d /\ quiet d.
Proof.
  split; [|intros p (x & Hx & _); unfold NewDevice in Hx; cbn [peers] in Hx; by rewrite lookup_empty in Hx].
  split; cbn [NewDevice indexTable peers keyMap keypair_store allowedips outbound inbound].
  - intros i e. by rewrite lookup_empty.
  - intros p x. by rewrite lookup_empty.
  - intros pk p. by rewrite lookup_empty.
  - rewrite map_size_empty. lia.
  - exists ∅. split; [apply AllowedIPsProofs.empty_ok|]. intros k p. by rewrite lookup_empty.
  - intros k kp. by rewrite lookup_empty.
  - split; [constructor|]. by intros k n' ?%elem_of_nil.
  - by intros c ?%elem_of_nil.
  - by intros c ?%elem_of_nil.
Qed.
End device.
