(* ===== verification/WGTunnel.v ===== *)
(** * wireguard-go/device: a packet through the tunnel

    [RoutineEncryption] on one side, [RoutineDecryption] and the checks of
    [RoutineSequentialReceiver] on the other. *)
From S2P Require Import Prelude GoStrings GoNet GoBytes WGCrypto WGState WGPeer WGRecv.
From S2P Require AllowedIPs.
Open Scope Z_scope.

(** ** Padding *)
Lemma round16_div n : round16 n = 16 * ((n + 15) / 16).
Proof.
  unfold round16. change (Z.lnot (PaddingMultiple - 1)) with (Z.lnot (Z.ones 4)).
  replace (n + PaddingMultiple - 1) with (n + 15) by (unfold PaddingMultiple; lia).
  rewrite <- Z.ldiff_land, Z.ldiff_ones_r by lia. rewrite Z.shiftl_mul_pow2, Z.shiftr_div_pow2 by lia. change (2 ^ 4) with 16. lia.
Qed.
Lemma padding_bounds n mtu : 0 <= n -> 0 <= mtu -> 0 <= calculatePaddingSize n mtu < 16.
Proof.
  intros Hn Hm. unfold calculatePaddingSize. destruct (Z.eqb_spec mtu 0) as [->|Hne]; [rewrite round16_div; div_lia|].
  set (last := if mtu <? n then Z.rem n mtu else n).
  assert (0 <= last <= mtu) as Hl.
  { unfold last. destruct (Z.ltb_spec mtu n); [|lia]. pose proof (Z.rem_bound_pos n mtu). lia. }
  rewrite round16_div. assert (last <= 16 * ((last + 15) / 16) < last + 16) by div_lia.
  destruct (Z.ltb_spec mtu (16 * ((last + 15) / 16))); lia.
Qed.
(** The padded packet is a multiple of 16 bytes, unless that goes beyond the MTU. *)
Lemma padding_multiple n mtu : 0 <= n <= mtu ->
  (n + calculatePaddingSize n mtu) mod 16 = 0 \/ n + calculatePaddingSize n mtu = mtu.
Proof.
  intros Hn. unfold calculatePaddingSize. destruct (Z.eqb_spec mtu 0) as [->|Hne].
  - left. rewrite round16_div. replace (n + (16 * ((n + 15) / 16) - n)) with ((n + 15) / 16 * 16) by lia. by rewrite Z.mod_mul.
  - destruct (Z.ltb_spec mtu n); [lia|]. rewrite round16_div. destruct (Z.ltb_spec mtu (16 * ((n + 15) / 16))); [right; lia|left].
    replace (n + (16 * ((n + 15) / 16) - n)) with ((n + 15) / 16 * 16) by lia. by rewrite Z.mod_mul.
Qed.

(** ** IP packets whose header tells their length, with their source *)
Definition ip_packet (packet : list Z) (src : list Z) : Prop :=
  bytes_ok packet /\
  ((Z.shiftr (nth 0 packet 0) 4 = 4 /\ (20 <= length packet)%nat /\ be_val (slice 2 2 packet) = Z.of_nat (length packet) /\
      src = slice 12 4 packet) \/
   (Z.shiftr (nth 0 packet 0) 4 = 6 /\ (40 <= length packet)%nat /\ be_val (slice 4 2 packet) + 40 = Z.of_nat (length packet) /\
      Z.of_nat (length packet) < 2 ^ 16 /\ src = slice 8 16 packet)).
Lemma slice_prefix off n a b : (off + n <= length a)%nat -> slice off n (a ++ b) = slice off n a.
Proof. intros H. unfold slice. rewrite drop_app_le by lia. rewrite take_app_le; [done|]. rewrite length_drop. lia. Qed.

Section tunnel.
Context {C : Crypto} {L : CryptoLaws} {BI : Bind}.

Lemma inner_packet_ok T (p : pid) packet src pad : ip_packet packet src -> AllowedIPs.Lookup T src = Some p ->
  inner_packet T p (packet ++ pad) = Some packet.
Proof.
  intros [Hb Hv] Hl. destruct packet as [|b packet]; [by destruct Hv as [(? & ? & _)|(? & ? & _)]; cbn in *; lia|].
  unfold inner_packet. cbn [app nth] in *. change (b :: packet ++ pad) with ((b :: packet) ++ pad).
  set (q := b :: packet) in *. assert (length (q ++ pad) = (length q + length pad)%nat) as Hlen by apply length_app.
  destruct Hv as [(-> & Hsz & Htot & ->)|(-> & Hsz & Htot & Hmax & ->)]; cbn [Z.eqb Pos.eqb].
  - rewrite (proj2 (Nat.ltb_ge _ _)) by lia. rewrite slice_prefix by lia. rewrite Htot.
    rewrite (proj2 (Z.ltb_ge _ _)), (proj2 (Z.ltb_ge _ _)) by lia. cbn [orb]. rewrite slice_prefix by lia.
    rewrite bool_decide_eq_true_2 by done. f_equal. rewrite Nat2Z.id. apply take_app_length.
  - rewrite (proj2 (Nat.ltb_ge _ _)) by lia. rewrite slice_prefix by lia. rewrite Htot.
    unfold u16. rewrite Z.mod_small by lia. rewrite (proj2 (Z.ltb_ge _ _)) by lia. rewrite slice_prefix by lia.
    rewrite bool_decide_eq_true_2 by done. f_equal. rewrite Nat2Z.id. apply take_app_length.
Qed.

(** C8: Through the tunnel. A packet encrypted under a session is, for the holder
    of the session's other end, a transport message with the session's index
    and the packet's nonce; it opens to the packet with less than 16 bytes of
    padding, and if the packet is an IP packet whose source belongs to the
    peer, exactly the packet is written to the TUN device. *)
Theorem tunnel_delivers mtu KA KB e T p :
  send_key KA = receive_key KB -> 0 <= mtu -> 0 <= oe_nonce e < 2 ^ 64 -> 0 <= kp_remoteIndex KA < 2 ^ 32 ->
  bytes_ok (oe_packet e) ->
  let wire := encrypt mtu KA e in
  exists pad, (pad < 16)%nat /\ length wire = (MessageTransportSize + length (oe_packet e) + pad)%nat /\
    le_val (slice 0 4 wire) = MessageTransportType /\ le_val (slice 4 4 wire) = kp_remoteIndex KA /\
    decrypt KB wire = (oe_nonce e, Some (oe_packet e ++ zeros pad)) /\
    (forall src, ip_packet (oe_packet e) src -> AllowedIPs.Lookup T src = Some p ->
       inner_packet T p (oe_packet e ++ zeros pad) = Some (oe_packet e)).
Proof.
  intros Hkey Hmtu Hnonce Hidx Hb wire. pose proof (padding_bounds (Z.of_nat (length (oe_packet e))) mtu ltac:(lia) Hmtu) as Hpad.
  unfold wire, encrypt. set (pad := Z.to_nat (calculatePaddingSize _ _)). exists pad.
  set (box := aead_Seal _ _ _ _). assert (pad < 16)%nat as Hp by (unfold pad; lia).
  assert (bytes_ok (oe_packet e ++ zeros pad)) as Hbp.
  { apply Forall_app. split; [done|]. apply Forall_replicate. done. }
  assert (le_val (slice 8 8 (le_bytes 4 MessageTransportType ++ le_bytes 4 (kp_remoteIndex KA) ++ le_bytes 8 (oe_nonce e) ++ box)) = oe_nonce e) as Hn.
  { rewrite <- (le_val_bytes 8 (oe_nonce e)) at 2 by done. done. }
  split_and!; [done|..].
  - rewrite !length_app, !le_bytes_length. unfold box. rewrite seal_length, length_app. unfold zeros. rewrite length_replicate.
    unfold MessageTransportSize, MessageTransportHeaderSize. rewrite !Nat.add_assoc. cbn. lia.
  - rewrite <- (le_val_bytes 4 MessageTransportType) at 2 by done. done.
  - rewrite <- (le_val_bytes 4 (kp_remoteIndex KA)) at 2 by done. done.
  - unfold decrypt. rewrite Hn. f_equal.
    assert (drop 16 (le_bytes 4 MessageTransportType ++ le_bytes 4 (kp_remoteIndex KA) ++ le_bytes 8 (oe_nonce e) ++ box) = box) as -> by done.
    unfold box. rewrite Hkey. by apply open_seal.
  - intros src Hip Hl. by eapply inner_packet_ok.
Qed.

(** An IPv6 packet whose header gives more than 65495 bytes of payload gets
    through the length check and is written cut to fewer bytes than a header:
    the sum of the payload length and the header's is computed in 16 bits. *)
Theorem ipv6_length_wraps T (p : pid) packet : Z.shiftr (nth 0 packet 0) 4 = 6 -> (40 <= length packet)%nat ->
  65496 <= be_val (slice 4 2 packet) < 2 ^ 16 -> AllowedIPs.Lookup T (slice 8 16 packet) = Some p ->
  exists out, inner_packet T p packet = Some out /\ (length out < 40)%nat.
Proof.
  intros Hv Hsz Hlen Hl. destruct packet as [|b packet]; [cbn in Hsz; lia|]. unfold inner_packet. cbn [nth] in Hv. rewrite Hv.
  cbn [Z.eqb Pos.eqb]. set (q := b :: packet) in *. rewrite (proj2 (Nat.ltb_ge _ _)) by lia.
  assert (u16 (be_val (slice 4 2 q) + 40) = be_val (slice 4 2 q) - 65496) as ->.
  { unfold u16. replace (be_val (slice 4 2 q) + 40) with (be_val (slice 4 2 q) - 65496 + 1 * 2 ^ 16) by lia.
    rewrite Z.mod_add by lia. apply Z.mod_small. lia. }
  rewrite (proj2 (Z.ltb_ge _ _)) by lia. rewrite bool_decide_eq_true_2 by done. eexists. split; [done|].
  rewrite length_take. lia.
Qed.
End tunnel.
