(* ===== verification/WGRun.v ===== *)
(** * wireguard-go/device: the runs of a device

    An [event] is one step of one of the device's goroutines or one call of its
    API; a run is a sequence of events in any order, from [NewDevice]. What
    holds along every run: no operation gets stuck, sessions belong to running
    peers, no nonce is used twice, and the life cycle of the device. *)
From S2P Require Import Prelude GoStrings GoNet GoBytes WGCrypto WGCookie WGState Handshake HandshakeProofs WGPeer WGRecv Device.
From S2P Require Import WGInv WGInvSession WGInvOps WGInvDevice.
From S2P Require AllowedIPs AllowedIPsProofs RateLimiter UAPI.
Open Scope Z_scope.

Section run.
Context {C : Crypto} {BI : Bind} (entropy : nat -> list Z * option error) (draws : nat).
Implicit Types (d : Device) (p : pid) (x : Peer).

Inductive event :=
| EvDatagrams (batch : list (list Z * Endpoint))
| EvHandshake | EvReceive | EvSend
| EvReadTUN (packets : list (list Z))
| EvTimer (p : pid) (n : timer_name)
| EvTick (dt : N)
| EvTUN (mtu_update up down : bool) (mtu : result Z)
| EvUp | EvDown | EvClose
| EvRemovePeer (key : list Z)
| EvSetPrivateKey (sk : list Z)
| EvBindUpdate | EvBindSetMark (mark : Z)
| EvKeepalives | EvDisableRoaming
| EvIpcSet (conf : string).

(** A timer fires when it is pending and its time has come. *)
Definition due p (n : timer_name) d : bool :=
  match peers d !! p with
  | Some x => match timer_get n (timers x) with Some t => t <=? clock d | None => false end
  | None => false
  end.
Definition do_event (e : event) : M unit :=
  match e with
  | EvDatagrams batch => ReceiveIncoming_step batch
  | EvHandshake => Handshake_step entropy draws
  | EvReceive => SequentialReceiver_step entropy draws
  | EvSend => SequentialSender_step entropy draws
  | EvReadTUN packets => ReadFromTUN_step entropy draws packets
  | EvTimer p n => b ← gets (due p n); when b (timer_fires entropy draws p n)
  | EvTick dt => modify (fun d => set_clock (clock d + Z.of_N dt) d)
  | EvTUN mtu_update up down mtu => TUNEvent_step entropy draws mtu_update up down mtu
  | EvUp => _ ← Device_Up entropy draws; mret tt
  | EvDown => _ ← Device_Down entropy draws; mret tt
  | EvClose => Device_Close
  | EvRemovePeer key => RemovePeer key
  | EvSetPrivateKey sk => SetPrivateKey sk
  | EvBindUpdate => _ ← BindUpdate; mret tt
  | EvBindSetMark mark => _ ← BindSetMark mark; mret tt
  | EvKeepalives => SendKeepalivesToPeersWithCurrentKeypair entropy draws
  | EvDisableRoaming => DisableSomeRoamingForBrokenMobileSemantics
  | EvIpcSet conf => _ ← UAPI.IpcSetOperation entropy draws conf; mret tt
  end.
Fixpoint do_events (evs : list event) : M unit :=
  match evs with [] => mret tt | e :: evs => _ ← do_event e; do_events evs end.
(** The keypairs and nonces a run encrypts with, in order. *)
Definition event_nonces (e : event) d : list (kid * Z) :=
  match e with EvSend => pairs (take 1 (outbound d)) | _ => [] end.
Fixpoint used_nonces (evs : list event) d : list (kid * Z) :=
  match evs with
  | [] => []
  | e :: evs =>
      event_nonces e d ++ match do_event e d with Some (_, d') => used_nonces evs d' | None => [] end
  end.

(** ** Every event keeps the device safe *)
Definition safe d : Prop := sound d /\ quiet d /\ (state d = deviceStateClosed -> keyMap d = ∅).
Definition nonces_step (e : event) d d' : Prop := forall P, nonces_ok P d -> nonces_ok (P ++ event_nonces e d) d'.
Definition closed_step d d' : Prop := state d = deviceStateClosed -> state d' = deviceStateClosed.

Lemma steady_safe d d' : steady d d' -> safe d -> safe d' /\ closed_step d d'.
Proof.
  intros [[HS He] Hst Hr Hc] (_ & Hq & Hk). unfold closed_step. rewrite Hst. split; [split; [done|split]|done].
  - intros p Hp. unfold up in *. rewrite Hst. destruct (Hr p Hp) as [H|H]; [by apply (Hq p)|done].
  - intros H. rewrite Hst in H. auto.
Qed.
Lemma steady_event e d d' : steady d d' -> event_nonces e d = [] -> safe d ->
  safe d' /\ closed_step d d' /\ nonces_step e d d'.
Proof.
  intros Ht He Hs. destruct (steady_safe _ _ Ht Hs). split_and!; try done. intros P HP. rewrite He, app_nil_r.
  by apply (e_nonces _ _ (proj2 (t_fair _ _ Ht))).
Qed.

Lemma closed_refl d : closed_step d d.
Proof. by intros ?. Qed.
Lemma safe_refl d : safe d -> safe d /\ closed_step d d /\ evolves d d.
Proof. intros Hs. split; [done|]. split; [apply closed_refl|done]. Qed.

Context (Hgen : generator_ok entropy draws).
Lemma changeState_safe want d : safe d ->
  wp (changeState entropy draws want) (fun _ d' => safe d' /\ closed_step d d' /\ evolves d d') d.
Proof.
  intros (HS & Hq & Hk). eapply wp_mono; [by apply changeState_ok|]. cbv beta. intros r d' ([HS' He] & Hq' & Hm & Hres).
  case_bool_decide as Hb; [destruct Hres as [-> _]; split_and!; [by split_and!|by intros ?|done]|].
  assert (state d <> deviceStateClosed /\ want <> deviceStateClosed) as [Hnc Hw] by (split; intros H; apply Hb; auto).
  assert (state d' <> deviceStateClosed) as Hnc'.
  { destruct want; [|destruct r|done]; destruct Hres as [H _]; unfold up in *; congruence. }
  split_and!; [split_and!; done|by intros ?|done].
Qed.
Lemma keeps_event e (m : M unit) d : keeps (fun _ => True) m -> event_nonces e d = [] -> safe d ->
  wp m (fun _ d' => safe d' /\ closed_step d d' /\ nonces_step e d d') d.
Proof.
  intros Hk He Hs. eapply wp_mono; [by apply Hk; [apply Hs|]|]. intros a d' Hg. by apply steady_event; [apply good_steady|..].
Qed.
Lemma steady_wp e {A} (m : M A) d : wp m (fun _ d' => steady d d') d -> event_nonces e d = [] -> safe d ->
  wp m (fun _ d' => safe d' /\ closed_step d d' /\ nonces_step e d d') d.
Proof. intros Hw He Hs. eapply wp_mono; [exact Hw|]. intros a d' Ht. by apply steady_event. Qed.
Lemma then_ret {A} (m : M A) (Q : Device -> Prop) d : wp m (fun _ => Q) d -> wp (_ ← m; mret tt) (fun _ => Q) d.
Proof. intros H. apply wp_bind. eapply wp_mono; [exact H|]. intros a d' HQ. by apply wp_ret. Qed.
Lemma evolves_event e d d' : safe d' /\ closed_step d d' /\ evolves d d' -> event_nonces e d = [] ->
  safe d' /\ closed_step d d' /\ nonces_step e d d'.
Proof. intros (H1 & H2 & H3) He. split_and!; try done. intros P HP. rewrite He, app_nil_r. by apply (e_nonces _ _ H3). Qed.
Lemma TUNEvent_safe u1 u2 u3 mtu d : safe d ->
  wp (TUNEvent_step entropy draws u1 u2 u3 mtu) (fun _ d' => safe d' /\ closed_step d d' /\ evolves d d') d.
Proof.
  intros Hs. unfold TUNEvent_step. cbv zeta. set (rest := _ ← when u2 _; when u3 _).
  assert (forall d, safe d -> wp rest (fun _ d' => safe d' /\ closed_step d d' /\ evolves d d') d) as Hrest.
  { clear d Hs. intros d Hs. assert (forall b want d, safe d -> wp (when b (_ ← changeState entropy draws want; mret tt))
      (fun _ d' => safe d' /\ closed_step d d' /\ evolves d d') d) as Hone.
    { intros b want d0 H0. destruct b; [|by apply wp_ret, safe_refl]. by apply then_ret, changeState_safe. }
    apply wp_bind. eapply wp_mono; [by apply (Hone u2 deviceStateUp)|]. cbv beta. intros [] d1 (H1 & H2 & H3).
    eapply wp_mono; [by apply (Hone u3 deviceStateDown)|]. cbv beta. intros [] d2 (H4 & H5 & H6).
    split_and!; [done|intros H; auto|by trans d1]. }
  destruct u1; [|by apply Hrest]. destruct mtu as [m|]; [|by apply wp_ret, safe_refl]. destruct (m <? 0); [by apply wp_ret, safe_refl|].
  unfold wp. rewrite modify_bind. set (d0 := set_tun_mtu _ d). assert (steady d d0) as Ht by (by apply good_steady, same_good; [|apply Hs]).
  destruct (steady_safe _ _ Ht Hs) as [Hs0 Hc0]. eapply wp_mono; [by apply Hrest|]. cbv beta. intros [] d2 (H4 & H5 & H6).
  split_and!; [done|intros H; auto|]. trans d0; [apply (t_fair _ _ Ht)|done].
Qed.
Lemma do_event_safe e d : safe d ->
  wp (do_event e) (fun _ d' => safe d' /\ closed_step d d' /\ nonces_step e d d') d.
Proof.
  intros Hs. pose proof Hs as (HS & Hq & Hk). destruct e; cbn [do_event].
  - apply keeps_event; [apply keeps_ReceiveIncoming|done..].
  - apply keeps_event; [by apply keeps_Handshake_step|done..].
  - apply keeps_event; [by apply keeps_SequentialReceiver|done..].
  - eapply wp_mono; [by apply SequentialSender_ok|]. cbv beta. intros [] d' [Hg Hn].
    destruct (steady_safe _ _ (good_steady _ _ Hg) Hs). by split_and!.
  - apply keeps_event; [by apply keeps_ReadFromTUN|done..].
  - unfold wp. rewrite gets_bind. destruct (due p n d) eqn:Hd; cbn [when].
    + eapply wp_mono; [apply (keeps_timer_fires entropy draws Hgen p n); [done|]|].
      * unfold due in Hd. destruct (peers d !! p) as [x|] eqn:Hx; [by exists x|done].
      * cbv beta. intros a d' Hg. by apply steady_event; [apply good_steady|..].
    + apply wp_ret. by apply steady_event; [apply steady_refl|..].
  - apply keeps_event; [by apply keeps_set|done..].
  - eapply wp_mono; [by apply TUNEvent_safe|]. intros [] d' H. by apply evolves_event.
  - apply then_ret. eapply wp_mono; [by apply changeState_safe|]. intros r d' H. by apply evolves_event.
  - apply then_ret. eapply wp_mono; [by apply changeState_safe|]. intros r d' H. by apply evolves_event.
  - eapply wp_mono; [by apply Device_Close_ok|]. cbv beta. intros [] d' ([HS' He] & Hst & Hres). apply evolves_event; [|done].
    case_bool_decide; [subst d'; by apply safe_refl|]. destruct Hres as [[Hn _] Hm].
    split; [split; [done|split; [by intros p Hp; destruct (Hn p)|done]]|]. split; [by intros _|done].
  - apply (steady_wp (EvRemovePeer key)); [by apply RemovePeer_steady|done..].
  - apply (steady_wp (EvSetPrivateKey sk)); [by apply SetPrivateKey_steady|done..].
  - apply then_ret. apply (steady_wp EvBindUpdate); [|done..]. eapply wp_mono; [by apply keeps_BindUpdate|]. intros. by apply good_steady.
  - apply then_ret. apply (steady_wp (EvBindSetMark mark)); [|done..]. eapply wp_mono; [by apply keeps_BindSetMark|]. intros. by apply good_steady.
  - apply keeps_event; [by apply keeps_Keepalives|done..].
  - apply keeps_event; [by apply keeps_Disable|done..].
  - apply then_ret. apply (steady_wp (EvIpcSet conf)); [|done..]. by apply IpcSet_ok.
Qed.
Lemma do_events_safe evs d P : safe d -> nonces_ok P d ->
  wp (do_events evs) (fun _ d' => safe d' /\ closed_step d d' /\ nonces_ok (P ++ used_nonces evs d) d') d.
Proof.
  revert d P. induction evs as [|e evs IH]; intros d P Hs HP; cbn [do_events used_nonces].
  { apply wp_ret. split; [done|]. split; [apply closed_refl|by rewrite app_nil_r]. }
  apply wp_bind. destruct (do_event_safe e d Hs) as ([] & d1 & Hr & Hs1 & Hc1 & Hn1). eapply wp_run; [exact Hr|]. rewrite Hr.
  eapply wp_mono; [by apply IH; [|apply Hn1]|]. cbv beta. intros [] d2 (H1 & H2 & H3).
  split_and!; [done|intros H; auto|]. by rewrite (assoc_L (++)).
Qed.
End run.

(** ** What holds along every run *)
Section theorems.
Context {C : Crypto} {BI : Bind} (entropy : nat -> list Z * option error) (draws : nat).
Implicit Types (d : Device) (p : pid) (x : Peer).
(** The devices that a run can lead to. *)
Definition reached evs mtu bs now n d : Prop := do_events entropy draws evs (NewDevice mtu bs now n) = Some (tt, d).

Lemma run_safe evs mtu bs now n : generator_ok entropy draws ->
  exists d, reached evs mtu bs now n d /\ safe d /\ nonces_ok (used_nonces entropy draws evs (NewDevice mtu bs now n)) d.
Proof.
  intros Hgen. destruct (NewDevice_ok mtu bs now n) as [HS Hq].
  destruct (do_events_safe entropy draws Hgen evs (NewDevice mtu bs now n) []) as ([] & d & Hr & Hs & _ & Hn); try done.
  { apply HS. }
  by exists d.
Qed.
Lemma reached_safe evs mtu bs now n d : generator_ok entropy draws -> reached evs mtu bs now n d -> safe d.
Proof. intros Hgen Hr. destruct (run_safe evs mtu bs now n Hgen) as (d' & Hr' & Hs & _). unfold reached in *. congruence. Qed.
Lemma not_up_silent d : safe d -> state d <> deviceStateUp -> silent d.
Proof. intros (HS & Hq & _) Hn. apply none_running_silent; [done|]. intros p Hp. by apply Hn, (Hq p). Qed.

(** C13: The device never gets stuck: from a new device every sequence of events
    runs to its end. No loop goes on for ever (the drawing of an index stops
    although indices are in use, the sending of staged packets although packets
    are staged again), and no pointer leads nowhere. *)
Theorem device_never_stuck evs mtu bs now n : generator_ok entropy draws ->
  exists d, do_events entropy draws evs (NewDevice mtu bs now n) = Some (tt, d).
Proof. intros Hgen. destruct (run_safe evs mtu bs now n Hgen) as (d & Hr & _). by exists d. Qed.

(** C1: No nonce is used twice. Over every run, no two transport messages are
    encrypted with the same keypair and the same nonce, and no nonce reaches
    the limit. *)
Theorem nonce_never_reused evs mtu bs now n : generator_ok entropy draws ->
  let used := used_nonces entropy draws evs (NewDevice mtu bs now n) in
  NoDup used /\ forall k i, (k, i) ∈ used -> i < RejectAfterMessages.
Proof.
  intros Hgen used. destruct (run_safe evs mtu bs now n Hgen) as (d & _ & (HS & _) & Hnd & Hlt). fold used in Hnd, Hlt.
  split; [by apply NoDup_app in Hnd as [? _]|]. intros k i Hin. destruct (Hlt k i) as (kp & Hkp & Hl); [apply elem_of_app; by left|].
  pose proof (s_counter d HS k kp Hkp). lia.
Qed.

(** C12: Only sessions of running peers receive. Whatever the events before, a
    datagram that is taken for a transport message is given to a peer that is
    in the device's map and runs, on a device that is up, and under one of the
    peer's three sessions, the one whose index it names, not older than the
    limit; and a packet is only ever routed to a peer of the map. *)
Theorem sessions_of_running_peers evs mtu bs now n d packet ep : generator_ok entropy draws -> reached evs mtu bs now n d ->
  (exists r d', receive_datagram packet ep d = Some (r, d') /\ forall p elem, r = Some (p, elem) ->
     state d = deviceStateUp /\ exists x kp, peers d !! p = Some x /\ isRunning x = true /\
       keyMap d !! hs_remoteStatic (handshake x) = Some p /\ Some (ib_keypair elem) ∈ slots (keypairs x) /\
       keypair_store d !! ib_keypair elem = Some kp /\ kp_localIndex kp = le_val (slice 4 4 packet) /\
       clock d <= created kp + RejectAfterTime) /\
  (exists r, route_packet packet d = Some (r, d) /\ forall p, r = Some p -> exists pk, keyMap d !! pk = Some p).
Proof.
  intros Hgen Hr. pose proof (reached_safe _ _ _ _ _ _ Hgen Hr) as (HS & Hq & _). split.
  - destruct (receive_datagram_ok packet ep d HS) as (r & d' & Hrun & _ & _ & _ & H). exists r, d'. split; [done|].
    intros p elem Hre. destruct (H p elem Hre) as (x & kp & Hx & Hrx & Hsl & Hkp & Hi & Hc).
    split; [apply (Hq p); by exists x|]. exists x, kp. split_and!; try done.
    pose proof (proj2 (s_peer d HS p x Hx)) as Hm. by rewrite Hrx in Hm.
  - unfold route_packet. rewrite gets_bind.
    assert (forall ip, exists r, (mret (AllowedIPs.Lookup (allowedips d) ip) : M (option pid)) d = Some (r, d) /\
      forall p, r = Some p -> exists pk, keyMap d !! pk = Some p) as Hl.
    { intros ip. eexists. split; [reflexivity|]. intros p. by apply Lookup_known. }
    assert (exists r, (mret None : M (option pid)) d = Some (r, d) /\ forall p, r = Some p -> exists pk, keyMap d !! pk = Some p) as Hn by by exists None.
    destruct packet as [|b l]; [done|]. cbv zeta. repeat case_match; done.
Qed.

(** C27: The life cycle. A device that is not up runs no peer and its index table is
    empty. Going up either succeeds, and then every peer runs, or leaves the
    device down; going down always leaves it down. Once closed it stays closed,
    without peers, whatever happens. *)
Theorem device_life_cycle evs mtu bs now n d : generator_ok entropy draws -> reached evs mtu bs now n d ->
  (state d <> deviceStateUp -> silent d) /\
  (exists r d', Device_Up entropy draws d = Some (r, d') /\
     match state d, r with
     | deviceStateDown, None => state d' = deviceStateUp /\ forall pk p, keyMap d' !! pk = Some p -> running p d'
     | deviceStateDown, Some _ => state d' = deviceStateDown /\ silent d'
     | _, _ => d' = d /\ r = None
     end) /\
  (exists r d', Device_Down entropy draws d = Some (r, d') /\
     (state d <> deviceStateClosed -> state d' = deviceStateDown /\ silent d')) /\
  (forall evs' d', do_events entropy draws (EvClose :: evs') d = Some (tt, d') ->
     state d' = deviceStateClosed /\ keyMap d' = ∅ /\ silent d').
Proof.
  intros Hgen Hr. pose proof (reached_safe _ _ _ _ _ _ Hgen Hr) as Hs. pose proof Hs as (HS & Hq & Hk).
  split; [by apply not_up_silent|]. split; [|split].
  - destruct (changeState_ok entropy draws Hgen deviceStateUp d HS Hq) as (r & d' & Hrun & _ & _ & _ & Hres).
    exists r, d'. split; [exact Hrun|]. destruct (state d) eqn:Hst.
    + rewrite bool_decide_eq_false_2 in Hres by (intros [|[|]]; done). destruct r; [done|]. destruct Hres as [Hu Hall].
      split; [done|]. intros pk p Hp. apply Hall. by exists pk.
    + by rewrite bool_decide_eq_true_2 in Hres by auto.
    + by rewrite bool_decide_eq_true_2 in Hres by auto.
  - destruct (changeState_ok entropy draws Hgen deviceStateDown d HS Hq) as (r & d' & Hrun & _ & _ & _ & Hres).
    exists r, d'. split; [exact Hrun|]. intros Hnc. destruct (state d) eqn:Hst.
    + rewrite bool_decide_eq_true_2 in Hres by auto. destruct Hres as [-> _]. split; [done|]. apply not_up_silent; [done|congruence].
    + rewrite bool_decide_eq_false_2 in Hres by (intros [|[|]]; done). by destruct r.
    + done.
  - intros evs' d' Hrun. cbn [do_events] in Hrun. apply bind_inv in Hrun as ([] & d1 & H1 & H2).
    destruct (do_event_safe entropy draws Hgen EvClose d Hs) as ([] & d1' & H1' & Hs1 & _ & _).
    assert (d1' = d1) as -> by congruence.
    assert (state d1 = deviceStateClosed) as Hst1.
    { destruct (Device_Close_ok d HS) as (u & d2 & Hc & _ & Hst & _). cbn [do_event] in H1. congruence. }
    destruct (do_events_safe entropy draws Hgen evs' d1 []) as (u & d2 & H3 & Hs2 & Hc2 & _); [done|apply Hs1|].
    assert (d2 = d') as -> by congruence. specialize (Hc2 Hst1). split_and!; [done|by apply Hs2|].
    apply not_up_silent; [done|congruence].
Qed.

(** C23: A removed peer is gone. After [RemovePeer] it does not run, nothing in the
    index table leads to it (its sessions and its handshake can no longer be
    reached from the network), and no address is routed to it. *)
Theorem removed_peer_gone evs mtu bs now n d key p : generator_ok entropy draws -> reached evs mtu bs now n d ->
  keyMap d !! key = Some p ->
  exists d', RemovePeer key d = Some (tt, d') /\ ~ running p d' /\ keyMap d' = delete key (keyMap d) /\
    (forall i e, indexTable d' !! i = Some e -> ie_peer e <> p) /\
    (forall ip, AllowedIPs.Lookup (allowedips d') ip <> Some p).
Proof.
  intros Hgen Hr Hp. pose proof (reached_safe _ _ _ _ _ _ Hgen Hr) as (HS & _ & _).
  destruct (removePeerLocked_ok key p d HS Hp) as ([] & d' & Hrun & [HS' _] & Hm & _ & _ & Hq).
  exists d'. unfold RemovePeer, LookupPeer. rewrite gets_bind, Hp. split; [exact Hrun|].
  assert (~ running p d') as Hn by (intros H; by destruct (Hq p H)). split_and!; try done.
  - intros i e He Hep. destruct (s_index d' HS' i e He) as (x & Hx & Hrx & _). apply Hn. rewrite <- Hep. by exists x.
  - intros ip Hl. destruct (Lookup_known ip p d' HS' Hl) as [pk Hpk]. rewrite Hm in Hpk.
    apply lookup_delete_Some in Hpk as [Hne Hpk]. apply Hne. by apply (map_inj d key pk p).
Qed.
End theorems.
