(* ===== verification/UAPIProofs.v ===== *)
(** * The configuration protocol between wgdevice and the device

    WGDevice.v writes a configuration that UAPI.v reads, and reads counters that
    UAPI.v prints: what the one side means is what the other side does. *)
From S2P Require Import Prelude GoStrings GoNet Encoding GoBytes WGCrypto WGCookie WGState Handshake HandshakeProofs WGPeer Device UAPI.
From S2P Require Import WGInv WGInvSession WGInvOps WGInvDevice WGRun.
From S2P Require AllowedIPs AllowedIPsProofs WGDevice RateLimiter.
Open Scope string_scope.
Open Scope list_scope.
Open Scope Z_scope.
Import WGDevice (nl).

(** ** Lines of text *)
Definition lf : ascii := ascii_of_nat 10.
Definition cr : ascii := ascii_of_nat 13.
Definition joined (ls : list string) : string := fold_right (fun l s => l +:+ nl +:+ s) "" ls.
Definition line_ok (l : string) : Prop :=
  no_char lf l = true /\ no_char cr l = true /\ Z.of_nat (String.length l) < MaxScanTokenSize.
Lemma SplitN_joined ls k : Forall (fun l => no_char lf l = true) ls ->
  SplitN (joined ls) nl (S (length ls + k)) = ls ++ [""].
Proof.
  induction 1 as [|l ls Hl _ IH]; cbn [joined fold_right length Nat.add app].
  - destruct k as [|k]; [done|]. cbn [SplitN]. done.
  - fold (joined ls). cbn [SplitN]. unfold nl at 1 2. cbn [String.append]. fold lf. rewrite Cut_char_app by done.
    f_equal. exact IH.
Qed.
Lemma joined_length ls : (length ls <= String.length (joined ls))%nat.
Proof.
  induction ls as [|l ls IH]; cbn [joined fold_right length]; [lia|]. fold (joined ls). rewrite !slength_app. cbn. lia.
Qed.
Lemma Split_joined ls : Forall (fun l => no_char lf l = true) ls -> Split (joined ls) nl = ls ++ [""].
Proof.
  intros H. unfold Split. pose proof (joined_length ls).
  replace (S (String.length (joined ls))) with (S (length ls + (String.length (joined ls) - length ls))) by lia.
  by apply SplitN_joined.
Qed.
Lemma no_cr_drop l : no_char cr l = true -> drop_cr l = l.
Proof.
  intros H. apply TrimSuffix_no, not_true_is_false. intros [t ->]%HasSuffix_spec. rewrite no_char_app in H.
  apply andb_true_iff in H as [_ H]. done.
Qed.
Lemma Scan_joined ls : Forall line_ok ls -> Scan (joined ls) = (ls, false).
Proof.
  intros H. unfold Scan. rewrite Split_joined by (eapply Forall_impl; [exact H|]; by intros l []).
  induction H as [|l ls (H1 & H2 & H3) _ IH]; [done|]. cbn [app scan_lines].
  rewrite bool_decide_eq_false_2 by (intros [? _]; by destruct ls). rewrite (proj2 (Z.leb_gt _ _)) by done.
  rewrite IH, no_cr_drop by done. done.
Qed.
Lemma hexString_line l : bytes_ok l -> no_char lf (hexString l) = true /\ no_char cr (hexString l) = true /\
  String.length (hexString l) = (2 * length l)%nat.
Proof.
  induction 1 as [|b l Hb _ (IH1 & IH2 & IH3)]; [done|]. rewrite hexString_cons. unfold is_byte in Hb.
  destruct (hex_digit_plain (b / 16)) as (A1 & A2 & _); [div_lia|]. destruct (hex_digit_plain (b mod 16)) as (B1 & B2 & _); [div_lia|].
  unfold no_char in *. cbn [all_chars String.length length]. rewrite IH1, IH2, IH3.
  rewrite !bool_decide_eq_true_2 by done. split_and!; try done. lia.
Qed.

(** ** Reading a configuration *)
Section set.
Context {C : Crypto} {BI : Bind} (entropy : nat -> list Z * option error) (draws : nat).
Abbreviation set_lines := (set_lines entropy draws).

Lemma device_line key v lines long sp d : no_char "=" key = true -> key <> "public_key" ->
  set_lines ((key +:+ "=" +:+ v) :: lines) long true sp d =
  (e ← handleDeviceLine key v; match e with Some e => mret (Some e) | None => set_lines lines long true sp end) d.
Proof.
  intros Hk Hp. cbn [UAPI.set_lines]. rewrite bool_decide_eq_false_2 by (by destruct key).
  change ("=" +:+ v) with (String "=" v). rewrite Cut_char_app by done. by rewrite bool_decide_eq_false_2.
Qed.
Lemma peer_line key v lines long sp p d : no_char "=" key = true -> key <> "public_key" -> sp_Peer sp = Some p ->
  set_lines ((key +:+ "=" +:+ v) :: lines) long false sp d =
  (r ← handlePeerLine sp p key v; match r.2 with Some e => mret (Some e) | None => set_lines lines long false r.1 end) d.
Proof.
  intros Hk Hp Hs. cbn [UAPI.set_lines]. rewrite bool_decide_eq_false_2 by (by destruct key).
  change ("=" +:+ v) with (String "=" v). rewrite Cut_char_app by done. rewrite bool_decide_eq_false_2 by done. by rewrite Hs.
Qed.
Lemma key_line v lines long dc sp d :
  set_lines (("public_key=" +:+ v) :: lines) long dc sp d =
  (_ ← handlePostConfig entropy draws sp; r ← handlePublicKeyLine sp v;
   match r.2 with Some e => mret (Some e) | None => set_lines lines long false r.1 end) d.
Proof.
  cbn [UAPI.set_lines]. rewrite bool_decide_eq_false_2 by done.
  change ("public_key=" +:+ v) with ("public_key" +:+ String "=" v). rewrite Cut_char_app by done.
  by rewrite bool_decide_eq_true_2.
Qed.

Lemma loadExactHex_hex dst l : bytes_ok l -> length l = length dst -> loadExactHex dst (hexString l) = (l, None).
Proof. intros Hb Hl. unfold loadExactHex. rewrite hex_roundtrip by done. by rewrite Hl, Nat.eqb_refl. Qed.
Lemma clamp_nonzero sk : length sk = 32%nat -> clamp sk <> zeros 32.
Proof.
  intros Hl He. assert (nth 31 (clamp sk) 0 = 0) as H0 by by rewrite He.
  unfold clamp in H0. rewrite nth_lookup, list_lookup_insert_eq in H0 by (rewrite length_insert; lia). cbn [default from_option id] in H0.
  apply Z.lor_eq_0_iff in H0. lia.
Qed.

(** The lines of [WGDevice.buildIPC]. *)
Definition config_lines (sk pk : list Z) (endpoint : string) : list string :=
  ["private_key" +:+ "=" +:+ hexString sk; "replace_peers" +:+ "=" +:+ "true"; "public_key=" +:+ hexString pk;
   "endpoint" +:+ "=" +:+ endpoint; "persistent_keepalive_interval" +:+ "=" +:+ "25"; "replace_allowed_ips" +:+ "=" +:+ "true";
   "allowed_ip" +:+ "=" +:+ "0.0.0.0/0"; "allowed_ip" +:+ "=" +:+ "::/0"; ""].
Lemma buildIPC_lines sk pk endpoint : WGDevice.buildIPC sk pk endpoint = joined (config_lines sk pk endpoint).
Proof. done. Qed.
Lemma config_lines_ok sk pk endpoint : bytes_ok sk -> bytes_ok pk -> length sk = 32%nat -> length pk = 32%nat ->
  line_ok ("endpoint=" +:+ endpoint) -> Forall line_ok (config_lines sk pk endpoint).
Proof.
  intros Hs Hp Ls Lp He. destruct (hexString_line sk Hs) as (S1 & S2 & S3). destruct (hexString_line pk Hp) as (P1 & P2 & P3).
  assert (forall key v, line_ok key -> no_char lf v = true -> no_char cr v = true ->
    Z.of_nat (String.length key) + Z.of_nat (String.length v) < MaxScanTokenSize -> line_ok (key +:+ v)) as Hl.
  { intros key v (K1 & K2 & K3) V1 V2 V3. split_and!; rewrite ?no_char_app, ?slength_app; [by rewrite K1|by rewrite K2|lia]. }
  assert (line_ok ("private_key=" +:+ hexString sk)) as H1 by (apply Hl; [by vm_compute|done|done|rewrite S3, Ls; by vm_compute]).
  assert (line_ok ("public_key=" +:+ hexString pk)) as H2 by (apply Hl; [by vm_compute|done|done|rewrite P3, Lp; by vm_compute]).
  apply Forall_cons_2; [exact H1|]. apply Forall_cons_2; [by vm_compute|]. apply Forall_cons_2; [exact H2|].
  apply Forall_cons_2; [exact He|]. repeat (apply Forall_cons_2; [by vm_compute|]). by apply Forall_nil_2.
Qed.

Lemma SetPrivateKey_run sk d : keyMap d = ∅ -> sk <> dev_privateKey d ->
  SetPrivateKey sk d = Some (tt, set_cookieChecker (CookieChecker_Init (publicKey sk) (cookieChecker d))
    (set_dev_publicKey (publicKey sk) (set_dev_privateKey sk d))).
Proof.
  intros Hm Hk. unfold SetPrivateKey. rewrite gets_bind, bool_decide_eq_false_2 by done. cbv zeta.
  unfold for_peers, peers_in_map. rewrite bind_assoc, gets_bind, Hm, map_to_list_empty. cbn [forM]. rewrite ret_bind, !modify_bind.
  rewrite bind_assoc, gets_bind. cbn [keyMap set_dev_privateKey set_dev_publicKey set_cookieChecker]. rewrite Hm, map_to_list_empty. cbn [forM].
  rewrite ret_bind, gets_bind. cbn [keyMap set_dev_privateKey set_dev_publicKey set_cookieChecker]. by rewrite Hm, map_to_list_empty.
Qed.
Lemma RemoveAllPeers_run d : keyMap d = ∅ -> RemoveAllPeers d = Some (tt, set_keyMap ∅ d).
Proof.
  intros Hm. unfold RemoveAllPeers, for_peers, peers_in_map. by rewrite bind_assoc, gets_bind, Hm, map_to_list_empty.
Qed.
Lemma public_key_line_run sp pk d : bytes_ok pk -> length pk = 32%nat -> dev_publicKey d <> pk -> keyMap d = ∅ ->
  state d <> deviceStateClosed ->
  let p := fresh (dom (peers d)) in
  handlePublicKeyLine sp (hexString pk) d =
    Some ((mkSetPeer (Some p) false true (pkaOn sp), None),
      set_keyMap {[pk := p]} (set_peers (<[p := init_peer (dev_privateKey d) pk]> (peers d)) d)).
Proof.
  intros Hb Hl Hne Hm Hst p. unfold handlePublicKeyLine, PublicKey_FromHex. rewrite loadExactHex_hex by done.
  rewrite gets_bind, bool_decide_eq_false_2 by done. cbv zeta. unfold LookupPeer. rewrite gets_bind, Hm, lookup_empty.
  unfold NewPeer, isClosed. rewrite bind_assoc, gets_bind, bool_decide_eq_false_2 by done.
  rewrite bind_assoc, gets_bind, Hm. rewrite map_size_empty, (eq_refl : (MaxPeers <=? 0)%nat = false).
  rewrite lookup_empty, bool_decide_eq_false_2 by (by intros []). rewrite !bind_assoc, gets_bind, bind_assoc, gets_bind. cbv zeta.
  rewrite bind_assoc, modify_bind, bind_assoc, modify_bind, ret_bind. cbn [keyMap set_peers]. by rewrite Hm.
Qed.

(** Every address is the peer's after its prefixes 0.0.0.0/0 and ::/0. *)
Definition everything (p : pid) : AllowedIPs.AllowedIPs pid :=
  AllowedIPs.Insert (AllowedIPs.Insert AllowedIPs.emptyTable (zeros 4, 0) p) (zeros 16, 0) p.
Lemma everything_lookup p ip : length ip = 4%nat \/ length ip = 16%nat -> AllowedIPs.Lookup (everything p) ip = Some p.
Proof.
  intros Hl. assert (AllowedIPs.lookup (AllowedIPs.Node (Some p) (AllowedIPs.maskSelf (zeros (length ip)) 0) 0 AllowedIPs.Nil AllowedIPs.Nil) ip = Some p) as H.
  { unfold AllowedIPs.lookup. cbn [AllowedIPs.lookup_from]. rewrite (proj2 (Z.leb_le _ _)) by (pose proof (AllowedIPsProofs.commonBits_range 4 (or_introl eq_refl) (AllowedIPs.maskSelf (zeros (length ip)) 0) ip); lia).
    by destruct Hl as [-> | ->]; destruct (AllowedIPs.choose _ _). }
  unfold AllowedIPs.Lookup. by destruct Hl as [Hl|Hl]; rewrite Hl in *.
Qed.

(** The lines that follow a peer's key, one by one. *)
Lemma endpoint_run sp p x v ep d : ParseEndpoint v = Ok ep -> peers d !! p = Some x ->
  handlePeerLine sp p "endpoint" v d = Some ((sp, None), set_peers (<[p := set_endpoint_val (Some ep) x]> (peers d)) d).
Proof.
  intros Hep Hx. unfold handlePeerLine. rewrite !(bool_decide_eq_false_2 (_ = _)) by done. rewrite bool_decide_eq_true_2 by done.
  by rewrite Hep, bind_run, (modify_peer_run _ _ x).
Qed.
Lemma keepalive_run sp p x v secs d : ParseUint v 16 = Some secs -> peers d !! p = Some x ->
  handlePeerLine sp p "persistent_keepalive_interval" v d =
    Some ((mkSetPeer (sp_Peer sp) (dummy sp) (sp_created sp) ((persistentKeepaliveInterval x =? 0) && negb (secs =? 0)), None),
      set_peers (<[p := set_persistentKeepaliveInterval secs x]> (peers d)) d).
Proof.
  intros Hp Hx. unfold handlePeerLine. rewrite !(bool_decide_eq_false_2 (_ = _)) by done. rewrite bool_decide_eq_true_2 by done.
  by rewrite Hp, (get_peer_bind _ x), bind_run, (modify_peer_run _ _ x).
Qed.
Lemma replace_allowed_run sp p d : dummy sp = false ->
  handlePeerLine sp p "replace_allowed_ips" "true" d = Some ((sp, None), set_allowedips (AllowedIPs.RemoveByPeer (allowedips d) p) d).
Proof.
  intros Hd. unfold handlePeerLine. rewrite !(bool_decide_eq_false_2 (_ = _)) by done. rewrite !bool_decide_eq_true_2 by done.
  by rewrite Hd.
Qed.
Lemma allowed_ip_run sp p v k d : dummy sp = false -> ParsePrefix v = Some k -> HasPrefix v "-" = false ->
  handlePeerLine sp p "allowed_ip" v d = Some ((sp, None), set_allowedips (AllowedIPs.Insert (allowedips d) k p) d).
Proof.
  intros Hd Hk Hv. unfold handlePeerLine. rewrite !(bool_decide_eq_false_2 (_ = _)) by done. rewrite bool_decide_eq_true_2 by done.
  assert (match v with String "-" v => (false, v) | v => (true, v) end = (true, v)) as ->.
  { destruct v as [|[[] [] [] [] [] [] [] []] v]; done. }
  by rewrite Hk, Hd.
Qed.
(** One line of a peer, and the rest. *)
Lemma peer_line_run key v lines long sp sp' p d d' : no_char "=" key = true -> key <> "public_key" -> sp_Peer sp = Some p ->
  handlePeerLine sp p key v d = Some ((sp', None), d') ->
  set_lines ((key +:+ "=" +:+ v) :: lines) long false sp d = set_lines lines long false sp' d'.
Proof. intros Hk Hp Hs Hr. rewrite (peer_line _ _ _ _ _ p) by done. by rewrite bind_run, Hr. Qed.

(** The lines that follow the server's key. *)
Definition server_peer (d : Device) (ep : Endpoint) (x : Peer) : Peer :=
  set_disableRoaming (brokenRoaming d && true) (set_persistentKeepaliveInterval 25 (set_endpoint_val (Some ep) x)).
Lemma server_lines_run endpoint ep p x d : ParseEndpoint endpoint = Ok ep -> peers d !! p = Some x ->
  allowedips d = AllowedIPs.emptyTable -> state d = deviceStateDown ->
  set_lines ["endpoint" +:+ "=" +:+ endpoint; "persistent_keepalive_interval" +:+ "=" +:+ "25";
             "replace_allowed_ips" +:+ "=" +:+ "true"; "allowed_ip" +:+ "=" +:+ "0.0.0.0/0"; "allowed_ip" +:+ "=" +:+ "::/0"; ""]
    false false (mkSetPeer (Some p) false true false) d =
  Some (None, set_peers (<[p := server_peer d ep x]> (peers d)) (set_allowedips (everything p) d)).
Proof.
  intros Hep Hx Ht Hst.
  erewrite (peer_line_run "endpoint"); [|done..|by eapply endpoint_run].
  erewrite (peer_line_run "persistent_keepalive_interval"); [|done..|apply (keepalive_run _ _ (set_endpoint_val (Some ep) x) _ 25);
    [done|apply lookup_insert_eq]].
  erewrite (peer_line_run "replace_allowed_ips"); [|done..|by apply replace_allowed_run].
  erewrite (peer_line_run "allowed_ip"); [|done..|by apply (allowed_ip_run _ _ _ (zeros 4, 0))].
  erewrite (peer_line_run "allowed_ip"); [|done..|by apply (allowed_ip_run _ _ _ (zeros 16, 0))].
  cbn [UAPI.set_lines]. rewrite bool_decide_eq_true_2 by done. rewrite bind_run. unfold handlePostConfig. cbn [sp_Peer dummy sp_created when].
  rewrite gets_bind, bind_run, (modify_peer_run _ _ (set_persistentKeepaliveInterval 25 (set_endpoint_val (Some ep) x))).
  2: { cbn. by rewrite lookup_insert_eq. }
  unfold isUp. rewrite gets_bind. cbn [state set_peers set_allowedips]. rewrite Hst. cbn. rewrite Ht, !insert_insert_eq. done.
Qed.

(** The device that [WGDevice.buildIPC] configures. *)
Definition with_key (sk : list Z) (d : Device) : Device :=
  set_cookieChecker (CookieChecker_Init (publicKey sk) (cookieChecker d)) (set_dev_publicKey (publicKey sk) (set_dev_privateKey sk d)).
Definition server_config (sk pk : list Z) (ep : Endpoint) (d : Device) : Device :=
  let p := fresh (dom (peers d)) in
  set_allowedips (everything p)
    (set_peers (<[p := server_peer d ep (init_peer sk pk)]> (peers d)) (set_keyMap {[pk := p]} (with_key sk d))).
Definition good_keys (sk pk : list Z) : Prop :=
  (bytes_ok sk /\ length sk = 32%nat /\ isZero sk = false) /\ (bytes_ok pk /\ length pk = 32%nat) /\ publicKey (clamp sk) <> pk.
Lemma buildIPC_run sk pk endpoint ep mtu bs now n : good_keys sk pk ->
  line_ok ("endpoint=" +:+ endpoint) -> ParseEndpoint endpoint = Ok ep ->
  IpcSetOperation entropy draws (WGDevice.buildIPC sk pk endpoint) (NewDevice mtu bs now n) =
    Some (None, server_config (clamp sk) pk ep (NewDevice mtu bs now n)).
Proof.
  intros ((Hsb & Hsl & Hsz) & (Hpb & Hpl) & Hne) Hline Hep.
  unfold IpcSetOperation. rewrite buildIPC_lines, Scan_joined by by apply config_lines_ok.
  unfold config_lines. rewrite device_line by done. unfold handleDeviceLine at 1.
  rewrite bool_decide_eq_true_2 by done. unfold PrivateKey_FromMaybeZeroHex. rewrite loadExactHex_hex, Hsz by done.
  rewrite bind_assoc, bind_run, SetPrivateKey_run by (done || by apply clamp_nonzero). rewrite ret_bind.
  rewrite device_line by done. unfold handleDeviceLine at 1. rewrite !(bool_decide_eq_false_2 (_ = _)) by done.
  rewrite bool_decide_eq_true_2 by done. change (negb (bool_decide ("true" = "true"))) with false. cbv iota.
  rewrite bind_assoc, bind_run, RemoveAllPeers_run by done. rewrite ret_bind.
  rewrite key_line. unfold handlePostConfig at 1. cbn [sp_Peer]. rewrite ret_bind, bind_run.
  rewrite public_key_line_run by done. cbn [fst snd]. set (p := fresh _). set (d2 := set_keyMap _ _).
  rewrite (server_lines_run _ ep p (init_peer (clamp sk) pk)) by (done || apply lookup_insert_eq).
  unfold d2, server_config. cbn [peers set_keyMap set_peers]. by rewrite insert_insert_eq.
Qed.

(** What [WGDevice.New] relies on. The configuration it builds, applied to a
    new device, is accepted, and leaves a device that is still down, with the
    key pair given (clamped), and with exactly one peer: the server, at its
    endpoint, not running, with the static-static secret computed, a keepalive
    of 25 seconds and every IPv4 and IPv6 address. *)
Theorem IpcSet_buildIPC sk pk endpoint ep mtu bs now n : good_keys sk pk ->
  line_ok ("endpoint=" +:+ endpoint) -> ParseEndpoint endpoint = Ok ep ->
  exists d p x,
    IpcSetOperation entropy draws (WGDevice.buildIPC sk pk endpoint) (NewDevice mtu bs now n) = Some (None, d) /\
    state d = deviceStateDown /\ dev_privateKey d = clamp sk /\ dev_publicKey d = publicKey (clamp sk) /\
    keyMap d = {[pk := p]} /\ peers d !! p = Some x /\ isRunning x = false /\
    hs_remoteStatic (handshake x) = pk /\ hs_precomputedStaticStatic (handshake x) = (sharedSecret (clamp sk) pk).1 /\
    endpoint_val x = Some ep /\ persistentKeepaliveInterval x = 25 /\
    forall ip, length ip = 4%nat \/ length ip = 16%nat -> AllowedIPs.Lookup (allowedips d) ip = Some p.
Proof.
  intros Hk Hline Hep. eexists _, _, _. split; [by apply buildIPC_run|].
  split_and!; try done. apply everything_lookup.
Qed.
End set.

(** ** Reading the counters *)

(** Texts without a line feed. *)
Lemma no_lf_Join l sep : no_char lf sep = true -> Forall (fun s => no_char lf s = true) l -> no_char lf (Join l sep) = true.
Proof.
  intros Hs. induction 1 as [|s l H1 H2 IH]; [done|]. cbn [Join]. destruct l; [done|]. by rewrite !no_char_app, H1, Hs, IH.
Qed.
Lemma digits_plain s : all_chars is_digit s = true -> no_char lf s = true.
Proof.
  unfold no_char. induction s as [|c s IH]; cbn; [done|]. intros [Hc Hs]%andb_true_iff. rewrite IH by done.
  rewrite bool_decide_eq_true_2; [done|by intros ->].
Qed.
Lemma utoa_go_plain fuel z acc : all_chars is_digit acc = true -> all_chars is_digit (utoa_go fuel z acc) = true.
Proof.
  revert z acc. induction fuel as [|f IH]; intros z acc Ha; cbn [utoa_go].
  all: assert (all_chars is_digit (String (digit_char (z mod 10)) acc) = true) as Hd
    by (cbn; destruct (digit_char_val (z mod 10)) as [-> _]; [apply Z.mod_pos_bound; lia|done]).
  - done.
  - destruct (z <? 10); [done|]. by apply IH.
Qed.
Lemma no_lf_utoa z : no_char lf (utoa z) = true.
Proof. by apply digits_plain, utoa_go_plain. Qed.
Lemma no_lf_itoa z : no_char lf (itoa z) = true.
Proof. unfold itoa. destruct (z <? 0); [rewrite no_char_app|]; by rewrite no_lf_utoa. Qed.
Lemma no_lf_digit x : no_char lf (String (hex_digit (x mod 16)) "") = true.
Proof.
  destruct (hex_digit_plain (x mod 16)) as (H & _); [apply Z.mod_pos_bound; lia|]. unfold no_char. cbn.
  by rewrite bool_decide_eq_true_2.
Qed.
Lemma no_lf_hex16 x : no_char lf (hex16 x) = true.
Proof. unfold hex16. cbv zeta. rewrite !no_char_app, !no_lf_digit. by repeat case_match; rewrite ?no_lf_digit. Qed.
Lemma no_lf_map {A} (f : A -> string) l sep : no_char lf sep = true -> (forall a, no_char lf (f a) = true) ->
  no_char lf (Join (map f l) sep) = true.
Proof. intros Hs Hf. apply no_lf_Join; [done|]. apply Forall_map, Forall_true. exact Hf. Qed.
Lemma no_lf_hexString l : bytes_ok l -> no_char lf (hexString l) = true.
Proof. intros H. by destruct (hexString_line l H). Qed.
Lemma no_lf_v4 a : no_char lf (v4_string a) = true.
Proof. by apply no_lf_map; [|apply no_lf_utoa]. Qed.
Lemma no_lf_v6 a : no_char lf (v6_string a) = true.
Proof.
  unfold v6_string. destruct (longest_zeros (words16 a)) as [z n]. cbv zeta. destruct (n =? 0)%nat; [by apply no_lf_map, no_lf_hex16|].
  rewrite !no_char_app. by rewrite !(no_lf_map hex16) by (done || apply no_lf_hex16).
Qed.
Lemma no_lf_IP ip : length ip = 4%nat \/ length ip = 16%nat -> no_char lf (IP_String ip) = true.
Proof.
  intros Hl. unfold IP_String. destruct ip as [|b l]; [done|]. assert (is_v4 (b :: l) || is_v6len (b :: l) = true) as ->.
  { unfold is_v4, is_v6len. by destruct Hl as [-> | ->]. }
  cbn [negb]. destruct (To4 (b :: l)); [apply no_lf_v6|apply no_lf_v4].
Qed.
Lemma no_lf_Prefix k : length k.1 = 4%nat \/ length k.1 = 16%nat -> no_char lf (Prefix_String k) = true.
Proof.
  intros Hl. unfold Prefix_String. rewrite !no_char_app, no_lf_itoa. unfold WGDevice.Addr_String.
  case_bool_decide; [done|].
  destruct ((length k.1 =? 16)%nat && _); [by rewrite no_char_app, no_lf_v4|by rewrite no_lf_IP].
Qed.

(** A number is trimmed. *)
Lemma digit_no_space (f : string -> bool) c s seqs : is_digit c = true -> f = HasPrefix (String c s) ->
  Forall (fun q => match q with String a _ => is_digit a = false | "" => False end) seqs -> find_first f seqs = None.
Proof.
  intros Hc -> Hs. apply find_first_None. eapply Forall_impl; [exact Hs|]. cbv beta. intros q Hq. destruct q as [|a q]; [done|].
  apply not_true_is_false. intros [t Ht]%HasPrefix_spec. injection Ht as <- _. congruence.
Qed.
Lemma all_chars_srev f s : all_chars f (srev s) = all_chars f s.
Proof. induction s as [|c s IH]; [done|]. rewrite srev_cons, all_chars_app, IH. cbn. by rewrite andb_true_r, andb_comm. Qed.
Lemma digits_trimmed s : all_chars is_digit s = true -> trimmed s.
Proof.
  intros Hs. unfold trimmed. pose proof Hs as Hr. rewrite <- all_chars_srev in Hr.
  split; [destruct s as [|c s]|destruct (srev s) as [|c t]]; try (by vm_compute);
    eapply digit_no_space; [by apply andb_true_iff in Hs as []|done|by repeat constructor|by apply andb_true_iff in Hr as []|done|by repeat constructor].
Qed.
Lemma TrimSpace_utoa z : TrimSpace (utoa z) = utoa z.
Proof. by apply TrimSpace_id, digits_trimmed, utoa_go_plain. Qed.

(** What a line adds to the counters. *)
Import WGDevice (stats_line, mkStats, TxBytes, RxBytes, LastHandshakeSec).
Lemma other_line s key v : no_char "=" key = true -> key <> "tx_bytes" -> key <> "rx_bytes" -> key <> "last_handshake_time_sec" ->
  stats_line s (key +:+ "=" +:+ v) = s.
Proof.
  intros Hk H1 H2 H3. unfold stats_line. change ("=" +:+ v) with (String "=" v). rewrite Cut_char_app by done.
  destruct (Atoi _); [|done]. by rewrite !bool_decide_eq_false_2.
Qed.
Lemma number_line s key n : no_char "=" key = true -> 0 <= n < 2 ^ 63 -> stats_line s (key +:+ "=" +:+ utoa n) =
  if bool_decide (key = "tx_bytes") then mkStats (i64 (TxBytes s + n)) (RxBytes s) (LastHandshakeSec s)
  else if bool_decide (key = "rx_bytes") then mkStats (TxBytes s) (i64 (RxBytes s + n)) (LastHandshakeSec s)
  else if bool_decide (key = "last_handshake_time_sec") then
    mkStats (TxBytes s) (RxBytes s) (if LastHandshakeSec s <? n then n else LastHandshakeSec s)
  else s.
Proof.
  intros Hk Hn. unfold stats_line. change ("=" +:+ utoa n) with (String "=" (utoa n)). rewrite Cut_char_app by done.
  by rewrite TrimSpace_utoa, Atoi_utoa.
Qed.
Definition no_effect (l : string) : Prop := forall s, stats_line s l = s.
Lemma no_effects ls s : Forall no_effect ls -> foldl stats_line s ls = s.
Proof. intros H. revert s. induction H as [|l ls Hl _ IH]; intros s; [done|]. cbn [foldl]. by rewrite Hl. Qed.
Lemma other_no_effect key v : no_char "=" key = true -> key <> "tx_bytes" -> key <> "rx_bytes" -> key <> "last_handshake_time_sec" ->
  no_effect (key +:+ "=" +:+ v).
Proof. intros ???? s. by apply other_line. Qed.

Ltac split_key k :=
  let k' := eval cbv in (k +:+ "=") in change (k' +:+ ?v) with (k +:+ "=" +:+ v).

Section get.
Context {BI : Bind}.
(** A peer whose text has one line per item: keys of bytes, an endpoint without
    a line feed, and counters that [int64] holds. *)
Definition readable (x : Peer) : Prop :=
  bytes_ok (hs_remoteStatic (handshake x)) /\ bytes_ok (hs_presharedKey (handshake x)) /\
  (forall ep, endpoint_val x = Some ep -> no_char lf (DstToString ep) = true) /\
  0 <= txBytes x < 2 ^ 63 /\ 0 <= rxBytes x < 2 ^ 63 /\ 0 <= lastHandshakeNano x < 2 ^ 63.
Lemma peer_lines_effect d p x s : readable x -> foldl stats_line s (get_peer_lines d p x) =
  mkStats (i64 (TxBytes s + txBytes x)) (i64 (RxBytes s + rxBytes x)) (Z.max (LastHandshakeSec s) (lastHandshakeNano x / nanos)).
Proof.
  intros (_ & _ & _ & Htx & Hrx & Hh). unfold get_peer_lines. cbv zeta. rewrite !foldl_app.
  rewrite (no_effects [_; _; _]).
  2: { apply Forall_cons_2; [by apply (other_no_effect "public_key")|]. apply Forall_cons_2; [by apply (other_no_effect "preshared_key")|].
       apply Forall_cons_2; [by apply (other_no_effect "protocol_version")|by apply Forall_nil_2]. }
  rewrite (no_effects (match endpoint_val x with Some _ => _ | None => _ end)).
  2: { destruct (endpoint_val x); [|by apply Forall_nil_2]. apply Forall_cons_2; [by apply (other_no_effect "endpoint")|by apply Forall_nil_2]. }
  rewrite (no_effects (map _ _)) by (apply Forall_map, Forall_true; intros k; by apply (other_no_effect "allowed_ip")).
  rewrite Z.quot_div_nonneg by (unfold nanos; lia). cbn [foldl].
  assert (0 <= lastHandshakeNano x / nanos < 2 ^ 63) as Hsec by (unfold nanos; div_lia).
  assert (itoa (lastHandshakeNano x / nanos) = utoa (lastHandshakeNano x / nanos)) as ->
    by (unfold itoa; by rewrite (proj2 (Z.ltb_ge _ _)) by lia).
  split_key "last_handshake_time_sec". split_key "last_handshake_time_nsec". split_key "tx_bytes". split_key "rx_bytes".
  split_key "persistent_keepalive_interval".
  rewrite (number_line s "last_handshake_time_sec") by done.
  rewrite (other_no_effect "last_handshake_time_nsec") by done.
  rewrite (number_line _ "tx_bytes"), (number_line _ "rx_bytes") by done.
  rewrite (other_no_effect "persistent_keepalive_interval") by done.
  repeat match goal with |- context [bool_decide (?a = ?b)] =>
    let r := eval vm_compute in (bool_decide (a = b)) in change (bool_decide (a = b)) with r end.
  cbn [TxBytes RxBytes LastHandshakeSec]. f_equal.
  destruct (Z.ltb_spec (LastHandshakeSec s) (lastHandshakeNano x / nanos)); lia.
Qed.

(** The peers that the device prints. *)
Definition map_peers (d : Device) : list Peer := omap (fun kp => peers d !! kp.2) (map_to_list (keyMap d)).
Definition total (f : Peer -> Z) (d : Device) : Z := fold_right Z.add 0 (map f (map_peers d)).
Definition latest (d : Device) : Z := fold_right Z.max 0 (map (fun x => lastHandshakeNano x / nanos) (map_peers d)).
Lemma i64_add a b : i64 (i64 a + b) = i64 (a + b).
Proof.
  unfold i64. cbv zeta. assert (u64 (i64 a + b) = u64 (a + b)) as H.
  { unfold i64, u64. cbv zeta. destruct (Z.ltb_spec (a mod 2 ^ 64) (2 ^ 63)).
    - by rewrite Zplus_mod_idemp_l.
    - replace (a mod 2 ^ 64 - 2 ^ 64 + b) with (a mod 2 ^ 64 + b + (-1) * 2 ^ 64) by lia.
      by rewrite Z.mod_add, Zplus_mod_idemp_l by lia. }
  unfold i64 in H. cbv zeta in H. by rewrite H.
Qed.
Lemma all_peers_effect d l t r h : (forall kp x, kp ∈ l -> peers d !! kp.2 = Some x -> readable x) ->
  foldl stats_line (mkStats (i64 t) (i64 r) h)
    (concat (map (fun kp : list Z * pid => match peers d !! kp.2 with Some x => get_peer_lines d kp.2 x | None => [] end) l)) =
  let xs := omap (fun kp : list Z * pid => peers d !! kp.2) l in
  mkStats (i64 (t + fold_right Z.add 0 (map txBytes xs))) (i64 (r + fold_right Z.add 0 (map rxBytes xs)))
    (Z.max h (fold_right Z.max h (map (fun x => lastHandshakeNano x / nanos) xs))).
Proof.
  revert t r h. induction l as [|kp l IH]; intros t r h Hl; cbv zeta.
  { cbn. by rewrite !Z.add_0_r, Z.max_id. }
  cbn [map concat omap list_omap]. rewrite foldl_app. assert (forall kp' x, kp' ∈ l -> peers d !! kp'.2 = Some x -> readable x) as Hl'.
  { intros kp' x Hin. apply Hl. by right. }
  destruct (peers d !! kp.2) as [x|] eqn:Hx; [|by apply IH].
  rewrite peer_lines_effect by (apply (Hl kp); [by left|done]). cbn [TxBytes RxBytes LastHandshakeSec]. rewrite !i64_add, IH by done. cbv zeta.
  cbn [map fold_right]. f_equal; [f_equal; lia..|]. set (a := lastHandshakeNano x / nanos).
  induction (map _ (omap _ l)) as [|b bs IHb]; cbn [fold_right]; lia.
Qed.

Definition no_lf (l : string) : Prop := no_char lf l = true.
Lemma no_lf_line key v : no_lf key -> no_lf v -> no_lf (key +:+ v).
Proof. unfold no_lf. intros H1 H2. by rewrite no_char_app, H1, H2. Qed.
Lemma get_peer_lines_no_lf d p x : sound d -> readable x -> Forall no_lf (get_peer_lines d p x).
Proof.
  intros HS (Hr & Hp & He & _). unfold get_peer_lines. cbv zeta. destruct (s_allowed d HS) as (m & (_ & _ & HE & Hlen) & _).
  repeat apply Forall_app_2.
  - repeat apply Forall_cons_2; [by apply (no_lf_line "public_key="), no_lf_hexString|by apply (no_lf_line "preshared_key="), no_lf_hexString|done|].
    by apply Forall_nil_2.
  - destruct (endpoint_val x) as [ep|]; [|by apply Forall_nil_2]. apply Forall_cons_2; [by apply (no_lf_line "endpoint="), He|by apply Forall_nil_2].
  - repeat apply Forall_cons_2; [by apply no_lf_line, no_lf_itoa|by apply no_lf_line, no_lf_itoa|by apply no_lf_line, no_lf_utoa..|by apply Forall_nil_2].
  - apply Forall_map, Forall_forall. intros k Hk. apply (no_lf_line "allowed_ip="); [done|]. apply no_lf_Prefix.
    apply (Hlen k p), (proj2 (HE p)), Hk.
Qed.
Lemma get_lines_no_lf (d : Device) : sound d -> bytes_ok (dev_privateKey d) ->
  (forall kp x, kp ∈ map_to_list (keyMap d) -> peers d !! kp.2 = Some x -> readable x) -> Forall no_lf (get_lines d).
Proof.
  intros HS Hb Hx. unfold get_lines. repeat apply Forall_app_2.
  - destruct (isZero _); [by apply Forall_nil_2|]. apply Forall_cons_2; [by apply (no_lf_line "private_key="), no_lf_hexString|by apply Forall_nil_2].
  - destruct (_ =? _); [by apply Forall_nil_2|]. apply Forall_cons_2; [by apply no_lf_line, no_lf_utoa|by apply Forall_nil_2].
  - destruct (_ =? _); [by apply Forall_nil_2|]. apply Forall_cons_2; [by apply no_lf_line, no_lf_utoa|by apply Forall_nil_2].
  - apply Forall_concat, Forall_map, Forall_forall. intros kp Hkp. destruct (peers d !! kp.2) as [x|] eqn:E; [|by apply Forall_nil_2].
    apply get_peer_lines_no_lf; [done|by eapply Hx].
Qed.
Lemma if_no_effect (b : bool) l : no_effect l -> Forall no_effect (if b then [] else [l]).
Proof. intros H. destruct b; [by apply Forall_nil_2|]. by apply Forall_cons_2; [|apply Forall_nil_2]. Qed.
Lemma max_fold l : Z.max 0 (fold_right Z.max 0 l) = fold_right Z.max 0 l.
Proof. induction l as [|a l IH]; cbn [fold_right]; lia. Qed.
End get.

Section counters.
Context {C : Crypto} {BI : Bind} (entropy : nat -> list Z * option error) (draws : nat).
(** C34: The counters. After any run, what [WGDevice.GetStats] reads back from the
    text of [IpcGet] are the sums of the bytes sent to and received from the
    peers, and the second of the latest handshake with any of them. *)
Theorem counters_read_back evs mtu bs now n d : generator_ok entropy draws -> reached entropy draws evs mtu bs now n d ->
  bytes_ok (dev_privateKey d) -> (forall pk p x, keyMap d !! pk = Some p -> peers d !! p = Some x -> readable x) ->
  WGDevice.parse_stats (IpcGet d) = mkStats (i64 (total txBytes d)) (i64 (total rxBytes d)) (latest d).
Proof.
  intros Hgen Hr Hb Hx. pose proof (reached_safe _ _ _ _ _ _ _ _ Hgen Hr) as (HS & _ & _).
  assert (forall kp x, kp ∈ map_to_list (keyMap d) -> peers d !! kp.2 = Some x -> readable x) as Hx'.
  { intros [pk p] x Hin%elem_of_map_to_list. by apply Hx with pk. }
  unfold WGDevice.parse_stats. change (IpcGet d) with (joined (get_lines d)).
  rewrite Split_joined by by apply get_lines_no_lf. rewrite foldl_app. unfold get_lines. rewrite !foldl_app.
  rewrite (no_effects (if isZero _ then _ else _)) by by apply if_no_effect, (other_no_effect "private_key").
  rewrite (no_effects (if net_port _ =? 0 then _ else _)) by by apply if_no_effect, (other_no_effect "listen_port").
  rewrite (no_effects (if net_fwmark _ =? 0 then _ else _)) by by apply if_no_effect, (other_no_effect "fwmark").
  rewrite (no_effects [""]) by (by apply Forall_cons_2; [|apply Forall_nil_2]).
  change (mkStats 0 0 0) with (mkStats (i64 0) (i64 0) 0). rewrite (all_peers_effect d _ 0 0 0 Hx'). cbv zeta. by rewrite max_fold.
Qed.
End counters.
