(* ===== verification/WGInstance.v ===== *)
(** * internal/wgdevice over the modelled device

    WGDevice.v sees wireguard-go through the interface [WireGuard]. Here the
    device of Device.v and UAPI.v is an instance of that interface, so that
    [WGDevice.New] can be followed down to the device. The network stack of
    [netstack.CreateNetTUN] stays a parameter, with the MTU its TUN reports. *)
From S2P Require Import Prelude GoStrings GoNet Encoding GoBytes WGCrypto WGCookie WGState Handshake WGPeer Device UAPI.
From S2P Require Import WGInv WGInvSession WGInvOps WGInvDevice WGRun UAPIProofs.
From S2P Require AllowedIPs WGDevice.
Open Scope string_scope.
Open Scope list_scope.
Open Scope Z_scope.

(** ** Going up leaves the identity and the allowed IPs alone *)
Section same.
Context {C : Crypto} {BI : Bind} (entropy : nat -> list Z * option error) (draws : nat).
Definition same_config (d d' : Device) : Prop :=
  dev_privateKey d' = dev_privateKey d /\ dev_publicKey d' = dev_publicKey d /\ allowedips d' = allowedips d.
#[local] Instance same_config_preorder : PreOrder same_config.
Proof. split; [done|]. intros d1 d2 d3 (?&?&?) (?&?&?). split_and!; congruence. Qed.
Lemma same_run {A} (f : Device -> option (A * Device)) : (forall d a d', f d = Some (a, d') -> same_config d d') -> along same_config f.
Proof. done. Qed.
Ltac same_step := first [done | by intros ? ? ? [= _ <-] | eauto with same nocore].
Ltac same := repeat along1 ltac:(by intros ? ? ? [= _ <-]) ltac:(by intros ? ? ? [= _ <-]) ltac:(by intros ? ? ? [= _ <-]); try same_step.
Create HintDb same.
Lemma same_get_peer p : along same_config (get_peer p).
Proof. intros d a d' H. unfold get_peer in H. destruct (peers d !! p); [|done]. by injection H as _ <-. Qed.
Lemma same_get_keypair k : along same_config (get_keypair k).
Proof. intros d a d' H. unfold get_keypair in H. destruct (keypair_store d !! k); [|done]. by injection H as _ <-. Qed.
Hint Resolve same_get_peer same_get_keypair : same.
Lemma same_SendBuffers p buffers : along same_config (SendBuffers p buffers).
Proof. unfold SendBuffers. same. Qed.
Lemma same_NewIndex peer : along same_config (NewIndexForHandshake entropy draws peer).
Proof. induction draws as [|n IH]; cbn [NewIndexForHandshake]; [done|]. unfold randUint32. same. Qed.
Hint Resolve same_SendBuffers same_NewIndex : same.
Lemma same_SendHandshakeInitiation p b : along same_config (SendHandshakeInitiation entropy draws p b).
Proof.
  unfold SendHandshakeInitiation, CreateMessageInitiation, add_macs, get_handshake, put_handshake, since, IndexTable_Delete,
    timersAnyAuthenticatedPacketTraversal, timersAnyAuthenticatedPacketSent, timersHandshakeInitiated, timersActive,
    Timer_Mod, Timer_Del, fastrandn, unless. same.
Qed.
Hint Resolve same_SendHandshakeInitiation : same.
Lemma same_SendStaged_loop fuel p k : along same_config (SendStagedPackets_loop entropy draws fuel p k).
Proof.
  revert k. induction fuel as [|n IH]; intros k; cbn [SendStagedPackets_loop]; [done|]. unfold StagePackets, since, unless. same.
Qed.
Hint Resolve same_SendStaged_loop : same.
Lemma same_SendKeepalive p : along same_config (SendKeepalive entropy draws p).
Proof. unfold SendKeepalive, SendStagedPackets. same. Qed.
Lemma same_Peer_Start p : along same_config (Peer_Start p).
Proof. unfold Peer_Start, timersStart. same. Qed.
Lemma same_ZeroAndFlushAll p : along same_config (ZeroAndFlushAll p).
Proof. unfold ZeroAndFlushAll, DeleteKeypair, FlushStagedPackets, IndexTable_Delete, get_handshake. same. Qed.
Hint Resolve same_SendKeepalive same_Peer_Start same_ZeroAndFlushAll : same.
Lemma same_Peer_Stop p : along same_config (Peer_Stop p).
Proof. unfold Peer_Stop, timersStop, Timer_Del. same. Qed.
Hint Resolve same_Peer_Stop : same.
Lemma same_BindUpdate : along same_config BindUpdate.
Proof. unfold BindUpdate, closeBindLocked, for_peers, peers_in_map, markEndpointSrcForClearing. same. Qed.
Hint Resolve same_BindUpdate : same.
Lemma same_Up d r d' : Device_Up entropy draws d = Some (r, d') -> same_config d d'.
Proof.
  enough (along same_config (Device_Up entropy draws)) as H by apply H.
  unfold Device_Up, changeState, upLocked, go_down, downLocked, BindClose, closeBindLocked, for_peers, peers_in_map. same.
Qed.

End same.

Section instance.
Context {C : Crypto} {BI : Bind} (entropy : nat -> list Z * option error) (draws : nat).
(** The netstack, the two kinds of binds, and when the device is made. *)
Context {N : Type} (CreateNetTUN : list WGDevice.Addr -> list WGDevice.Addr -> Z -> result N) (tun_MTU : N -> result Z)
  (bind_of : WGDevice.bind_kind -> BindState) (now : Z) (rnd0 : nat).

(** An operation that comes to an end; [WGRun.device_never_stuck] shows that they all do. *)
Definition run {A} (m : M A) (default : A) (d : Device) : Device * A :=
  match m d with Some (a, d') => (d', a) | None => (d, default) end.
Definition ipc_error (e : IPCError) : error := Wrapf "IPC error %d: %w" [itoa (code e)] (err e).
#[export] Instance wireguard_go : WGDevice.WireGuard := {|
  WGDevice.Dev := Device;
  WGDevice.Net := N;
  WGDevice.CreateNetTUN := CreateNetTUN;
  WGDevice.NewDevice tnet bind := NewDevice (tun_MTU tnet) (bind_of bind) now rnd0;
  WGDevice.IpcSet conf d := let '(d, e) := run (IpcSetOperation entropy draws conf) None d in (d, ipc_error <$> e);
  WGDevice.Up := run (Device_Up entropy draws) None;
  WGDevice.Close d := (run Device_Close tt d).1;
  WGDevice.IpcGet d := Ok (IpcGet d) |}.

Lemma configured_safe sk pk endpoint ep mtu bs n : generator_ok entropy draws -> good_keys sk pk ->
  line_ok ("endpoint=" +:+ endpoint) -> ParseEndpoint endpoint = Ok ep ->
  safe (server_config (clamp sk) pk ep (NewDevice mtu bs now n)).
Proof.
  intros Hgen Hk Hl He. destruct (NewDevice_ok mtu bs now n) as [HS Hq].
  destruct (do_event_safe entropy draws Hgen (EvIpcSet (WGDevice.buildIPC sk pk endpoint)) (NewDevice mtu bs now n))
    as ([] & d' & Hr & Hs & _); [by split_and!|].
  cbn [do_event] in Hr. rewrite bind_run, (buildIPC_run _ _ _ _ _ ep) in Hr by done. by injection Hr as <-.
Qed.

(** C5: [WGDevice.New] on the device. With keys of 32 bytes, a server key that is
    not one's own and an endpoint that the bind understands, it leaves either
    a device that is up, with the configured identity and with one peer, the
    server, which runs and to which every address is routed; or an error and
    a closed device, without peers and silent. *)
Theorem New_connects cfg sk pk ep tnet : generator_ok entropy draws ->
  StdEncoding_DecodeString (WGDevice.PrivateKeyB64 cfg) = Some sk ->
  StdEncoding_DecodeString (WGDevice.ServerPublicKeyB64 cfg) = Some pk ->
  good_keys sk pk -> line_ok ("endpoint=" +:+ WGDevice.ServerEndpoint cfg) -> ParseEndpoint (WGDevice.ServerEndpoint cfg) = Ok ep ->
  (forall dns, CreateNetTUN [WGDevice.VpnIP cfg] dns (if WGDevice.MTU cfg =? 0 then 1420 else WGDevice.MTU cfg) = Ok tnet) ->
  match WGDevice.New cfg with
  | (Ok D, rest) =>
      rest = None /\ WGDevice.tnet D = tnet /\
      let d : Device := WGDevice.dev D in
      safe d /\ state d = deviceStateUp /\
      dev_privateKey d = clamp sk /\ dev_publicKey d = publicKey (clamp sk) /\
      exists p, keyMap d = {[pk := p]} /\ running p d /\
        forall ip, length ip = 4%nat \/ length ip = 16%nat -> AllowedIPs.Lookup (allowedips d) ip = Some p
  | (Err e, rest) =>
      exists d : Device, rest = Some d /\ state d = deviceStateClosed /\ keyMap d = ∅ /\ silent d
  end.
Proof.
  intros Hgen Hsk Hpk Hk Hl Hep Htun. unfold WGDevice.New. rewrite Hsk, Hpk, Htun.
  set (b := if _ =? 1 then _ else _). cbn [WGDevice.NewDevice wireguard_go WGDevice.IpcSet]. unfold run at 1.
  rewrite (buildIPC_run _ _ _ _ _ ep) by done. cbn [fmap option_fmap option_map].
  pose proof (configured_safe sk pk _ _ (tun_MTU tnet) (bind_of b) rnd0 Hgen Hk Hl Hep) as Hs.
  set (d := server_config _ _ _ _) in *. cbn [WGDevice.Up wireguard_go].
  destruct (changeState_ok entropy draws Hgen deviceStateUp d) as (r & d' & Hrun & Hf & Hq & Hm & Hres); [apply Hs..|].
  change (Device_Up entropy draws d = Some (r, d')) in Hrun. unfold run at 1. rewrite Hrun.
  pose proof (same_Up entropy draws d r d' Hrun) as (Hid1 & Hid2 & Hid3).
  rewrite bool_decide_eq_false_2 in Hres by (intros [?|[?|?]]; done). destruct r as [e|].
  - destruct (Device_Close_ok d') as ([] & d2 & Hclose & _ & Hst & Hc); [apply Hf|]. exists d2.
    cbn [WGDevice.Close wireguard_go]. unfold run. rewrite Hclose. destruct Hres as [Hdown Hsil].
    rewrite bool_decide_eq_false_2 in Hc by congruence. by destruct Hc.
  - destruct Hres as [Hup Hrunning]. split_and!; [done..| | | | |].
    + split; [apply Hf|]. split; [done|]. unfold up in Hup. cbn [WGDevice.dev]. congruence.
    + done.
    + exact Hid1.
    + exact Hid2.
    + exists (fresh (dom (peers (NewDevice (tun_MTU tnet) (bind_of b) now rnd0)))). split_and!; [done| |].
      * apply Hrunning. exists pk. rewrite Hm. apply lookup_insert_eq.
      * intros ip Hip. cbn [WGDevice.dev]. rewrite Hid3. by apply everything_lookup.
Qed.
End instance.
