(* ===== verification/WGSample.v ===== *)
(** * wireguard-go/device: two devices at work

    Two devices over toy cryptography and a toy network: a handshake, a packet
    from one TUN device to the other, the counters afterwards. The runs show
    that the theorems' hypotheses can hold, and what the definitions compute. *)
From S2P Require Import Prelude GoStrings GoNet Encoding GoBytes WGCrypto WGCookie WGState Handshake HandshakeProofs WGPeer WGRecv Device UAPI.
From S2P Require Import WGInv WGInvSession WGInvDevice WGTunnel WGRun UAPIProofs WGInstance.
From S2P Require AllowedIPs WGDevice.
Open Scope string_scope.
Open Scope list_scope.
Open Scope Z_scope.
#[local] Existing Instance toy_crypto.
#[local] Existing Instance toy_bind.
#[local] Existing Instance toy_laws.

(** ** A generator that counts *)
Definition counter_entropy (k : Z) (n : nat) : list Z * option error := (le_bytes 32 (k + Z.of_nat n), None).
Definition draws : nat := S (4 * MaxPeers).
Lemma counter_ok k : generator_ok (counter_entropy k) draws.
Proof.
  intros n. right. set (f := fun i : nat => _).
  assert (forall i, f i = (k + Z.of_nat (n + i)) mod 2 ^ 32) as Hf.
  { intros i. unfold f. change (take 4 (counter_entropy k (n + i)).1) with (le_bytes 4 (k + Z.of_nat (n + i))). apply (le_val_mod 4). }
  assert (NoDup (map f (seq 0 draws))) as Hnd.
  { apply NoDup_fmap_2_strong; [|apply NoDup_seq]. intros i j Hi%elem_of_seq Hj%elem_of_seq. rewrite !Hf. intros E.
    assert (Z.of_nat draws <= 2 ^ 32) as Hd by (by vm_compute).
    apply (f_equal (fun z => (z - (k + Z.of_nat n)) mod 2 ^ 32)) in E.
    rewrite !Zminus_mod_idemp_l in E. rewrite !Z.mod_small in E; lia. }
  assert (remove_dups (map f (seq 0 draws)) = map f (seq 0 draws)) as ->.
  { generalize (map f (seq 0 draws)) Hnd. clear. induction l as [|x l IH]; intros Hnd; [done|].
    apply NoDup_cons in Hnd as [Hx Hl]. cbn [remove_dups]. destruct (decide_rel _ x l); [done|by rewrite IH]. }
  rewrite length_map, length_seq. unfold draws. lia.
Qed.

(** ** The run

    A is configured for B and starts; B is configured for A, and starts after
    the time that its guard against floods asks for. *)
Definition skA : list Z := clamp (le_bytes 32 1234567).
Definition skB : list Z := clamp (le_bytes 32 987654321).
Definition start : Z := 1700000000000000000.
Definition new_device : Device := NewDevice (Ok 1420) false start 0.
Definition entA := counter_entropy 17.
Definition entB := counter_entropy 100000.
Definition after {A} (m : M A) (d : Device) : Device := match m d with Some (_, d') => d' | None => d end.
Definition eventsA : list event := [EvIpcSet (WGDevice.buildIPC skA (publicKey skB) "B"); EvUp].
Definition eventsB : list event := [EvIpcSet (WGDevice.buildIPC skB (publicKey skA) "A"); EvUp; EvTick 100000000].
Definition A1 : Device := Eval vm_compute in after (do_events entA draws eventsA) new_device.
Definition B1 : Device := Eval vm_compute in after (do_events entB draws eventsB) new_device.
(** The initiation reaches B, the response A, and then a packet of 24 bytes. *)
Definition arrive (from : string) (ps : list (list Z * Endpoint)) : event := EvDatagrams (map (fun s => (s.1, bytes_of from)) ps).
Definition eventsB2 : list event := [arrive "A" (sent A1); EvHandshake].
Definition B2 : Device := Eval vm_compute in after (do_events entB draws eventsB2) B1.
Definition pkt : list Z := [69; 0; 0; 24; 0; 0; 0; 0; 64; 17; 0; 0; 10; 0; 0; 1; 10; 0; 0; 2; 1; 2; 3; 4].
Definition eventsA2 : list event :=
  [arrive "B" (drop (length (sent B1)) (sent B2)); EvHandshake; EvSend; EvReadTUN [pkt]; EvSend].
Definition A2 : Device := Eval vm_compute in after (do_events entA draws eventsA2) A1.
Definition eventsB3 : list event := [arrive "A" (drop (length (sent A1)) (sent A2)); EvReceive].
Definition B3 : Device := Eval vm_compute in after (do_events entB draws eventsB3) B2.

(** The packet arrives; both sides count. *)
Example tunnel_runs : tun_written B3 = [pkt] /\
  WGDevice.parse_stats (IpcGet A2) = WGDevice.mkStats 244 92 1700000000 /\
  WGDevice.parse_stats (IpcGet B3) = WGDevice.mkStats 240 244 1700000000.
Proof. by vm_compute. Qed.
Lemma A2_reached : reached entA draws (eventsA ++ eventsA2) (Ok 1420) false start 0 A2.
Proof. unfold reached. vm_compute. reflexivity. Qed.
Lemma B2_reached : reached entB draws (eventsB ++ eventsB2) (Ok 1420) false start 0 B2.
Proof. unfold reached. vm_compute. reflexivity. Qed.
Definition data : list Z := Eval vm_compute in (nth 2 (sent A2) ([], [])).1.
Lemma data_received : is_Some (receive_datagram data (bytes_of "A") B2 ≫= fst).
Proof. vm_compute. by eexists. Qed.
Lemma B3_reached : reached entB draws (eventsB ++ eventsB2 ++ eventsB3) (Ok 1420) false start 0 B3.
Proof. unfold reached. vm_compute. reflexivity. Qed.

(** ** The theorems at this run *)
Definition pA : pid := 1%positive.
Lemma device_never_stuck_witness : exists d, do_events entA draws (eventsA ++ eventsA2) new_device = Some (tt, d).
Proof. exact (device_never_stuck entA draws (eventsA ++ eventsA2) (Ok 1420) false start 0 (counter_ok 17)). Defined.
Lemma nonce_never_reused_witness :
  let used := used_nonces entA draws (eventsA ++ eventsA2) new_device in
  used = [(1%positive, 0); (1%positive, 1)] /\ NoDup used.
Proof.
  intros used. split; [by vm_compute|]. exact (proj1 (nonce_never_reused entA draws (eventsA ++ eventsA2) (Ok 1420) false start 0 (counter_ok 17))).
Defined.
Lemma sessions_of_running_peers_witness :
  exists p elem d', receive_datagram data (bytes_of "A") B2 = Some (Some (p, elem), d') /\ state B2 = deviceStateUp.
Proof.
  destruct (sessions_of_running_peers entB draws (eventsB ++ eventsB2) (Ok 1420) false start 0 B2
    data (bytes_of "A") (counter_ok 100000) B2_reached) as [(r & d' & H & Hp) _].
  pose proof data_received as Hd. rewrite H in Hd. destruct r as [[p elem]|]; [|by destruct Hd].
  exists p, elem, d'. split; [exact H|]. by apply (Hp p elem).
Defined.
Lemma device_life_cycle_witness :
  (exists r d', Device_Down entA draws A2 = Some (r, d') /\ state d' = deviceStateDown /\ silent d') /\
  state (after (do_events entA draws [EvClose; EvUp; EvReadTUN [pkt]]) A2) = deviceStateClosed.
Proof.
  destruct (device_life_cycle entA draws _ _ _ _ _ A2 (counter_ok 17) A2_reached) as (_ & _ & (r & d' & H & Hd) & Hc). split.
  - exists r, d'. split; [exact H|]. apply Hd. by vm_compute.
  - by vm_compute.
Defined.
Lemma removed_peer_gone_witness :
  exists d', RemovePeer (publicKey skB) A2 = Some (tt, d') /\ ~ running pA d' /\ running pA A2.
Proof.
  destruct (removed_peer_gone entA draws _ _ _ _ _ A2 (publicKey skB) pA (counter_ok 17) A2_reached) as (d' & H & Hn & _).
  { by vm_compute. }
  exists d'. split_and!; [exact H|exact Hn|]. eexists. split; [by vm_compute|done].
Defined.

(** A session that two devices share: what A sends, B delivers. *)
Definition KA : Keypair := default (mkKeypair 0 [] [] Replay.zeroFilter false 0 0 0) (keypair_store A2 !! pA).
Definition KB : Keypair := default (mkKeypair 0 [] [] Replay.zeroFilter false 0 0 0) (keypair_store B3 !! pA).
Lemma tunnel_delivers_witness :
  let e := mkOutbound pkt 1 pA in
  inner_packet (allowedips B3) pA (pkt ++ zeros 8) = Some pkt /\ decrypt KB (encrypt 1420 KA e) = (1, Some (pkt ++ zeros 8)).
Proof.
  intros e. assert (bytes_ok pkt) as Hb by (repeat constructor; done).
  destruct (tunnel_delivers 1420 KA KB e (allowedips B3) pA) as (pad & Hpad & Hlen & _ & _ & Hdec & Hin);
    [by vm_compute|done|done|by vm_compute|exact Hb|].
  assert (pad = 8%nat) as -> by (vm_compute in Hlen; lia).
  split; [|exact Hdec]. apply (Hin [10; 0; 0; 1]); [|by vm_compute].
  split; [exact Hb|left]. split_and!; [done|cbn; lia|done|done].
Defined.
Lemma ipv6_length_wraps_witness :
  exists out, inner_packet (allowedips B3) pA (96 :: zeros 3 ++ [255; 255] ++ zeros 100) = Some out /\ length out = 39%nat.
Proof.
  destruct (ipv6_length_wraps (allowedips B3) pA (96 :: zeros 3 ++ [255; 255] ++ zeros 100)) as (out & H & Hl);
    [done|cbn; lia|by vm_compute|by vm_compute|].
  exists out. split; [exact H|]. vm_compute in H. by injection H as <-.
Defined.

(** The handshake between A as configured, before it starts, and B. *)
Definition A0 : Device := Eval vm_compute in after (do_events entA draws (take 1 eventsA)) new_device.
Definition peer_of (d : Device) : Peer := default zeroPeer (peers d !! pA).
Definition created_by_A : option (MessageInitiation * Device) := Eval vm_compute in
  match CreateMessageInitiation entA draws pA A0 with Some (Ok m, d) => Some (m, d) | _ => None end.
Definition answered_by_B (dB1 : Device) : bool :=
  match CreateMessageResponse entB draws pA dB1 with Some (Ok _, _) => true | _ => false end.
Lemma no_slots d x : keypairs x = no_keypairs -> slots_ok d x.
Proof. intros H k Hk. rewrite H in Hk. apply list_elem_of_In in Hk. by destruct Hk as [?|[?|[?|[]]]]. Qed.
Lemma A0_configured : HandshakeProofs.configured A0 pA (peer_of A0) skA skB (zeros 32).
Proof. split_and!; [by vm_compute..|by apply no_slots; vm_compute|by vm_compute|by vm_compute|by vm_compute]. Qed.
Lemma B1_configured : HandshakeProofs.configured B1 pA (peer_of B1) skB skA (zeros 32).
Proof. split_and!; [by vm_compute..|by apply no_slots; vm_compute|by vm_compute|by vm_compute|by vm_compute]. Qed.
Lemma handshake_agreement_witness :
  match created_by_A with
  | Some (m1, dA1) => exists dB1, ConsumeMessageInitiation m1 B1 = Some (Some pA, dB1)
  | None => False
  end.
Proof.
  assert (match created_by_A with Some (m1, dA1) => CreateMessageInitiation entA draws pA A0 = Some (Ok m1, dA1) | None => False end) as H1
    by (vm_compute; reflexivity).
  destruct created_by_A as [[m1 dA1]|]; [|done].
  destruct (handshake_agreement entA entB draws pA pA (peer_of A0) (peer_of B1) A0 B1 skA skB (zeros 32) m1 dA1) as (dB1 & HB1 & _);
    [apply A0_configured|apply B1_configured|by vm_compute|by vm_compute|split; by vm_compute|exact H1|].
  by exists dB1.
Defined.

(** ** Configuration and counters *)
Lemma keys_good : good_keys skA (publicKey skB).
Proof. split_and!; [by apply bytes_decide; vm_compute|done|done|by apply bytes_decide; vm_compute|done|by vm_compute]. Qed.
Lemma endpoint_line : line_ok ("endpoint=" +:+ "B").
Proof. by vm_compute. Qed.
Lemma IpcSet_buildIPC_witness :
  exists d p, IpcSetOperation entA draws (WGDevice.buildIPC skA (publicKey skB) "B") new_device = Some (None, d) /\
    keyMap d = {[publicKey skB := p]} /\ AllowedIPs.Lookup (allowedips d) [192; 0; 2; 1] = Some p.
Proof.
  destruct (IpcSet_buildIPC entA draws skA (publicKey skB) "B" (bytes_of "B" : @Endpoint toy_bind) (Ok 1420) false start 0 keys_good endpoint_line eq_refl)
    as (d & p & x & H & _ & _ & _ & Hm & _ & _ & _ & _ & _ & _ & Hl).
  exists d, p. split_and!; [exact H|exact Hm|]. apply Hl. by left.
Defined.
Lemma A2_readable pk p x : keyMap A2 !! pk = Some p -> peers A2 !! p = Some x -> readable x.
Proof.
  intros Hk Hx. assert (p = pA) as ->.
  { assert (map_to_list (keyMap A2) = [(publicKey skB, pA)]) as Hl by by vm_compute.
    apply elem_of_map_to_list in Hk. rewrite Hl in Hk. apply list_elem_of_singleton in Hk. by injection Hk. }
  assert (x = peer_of A2) as -> by (unfold peer_of; by rewrite Hx).
  split_and!; [by apply bytes_decide; vm_compute|by apply bytes_decide; vm_compute| |by vm_compute..].
  intros ep Hep. assert (ep = (bytes_of "B" : @Endpoint toy_bind)) as -> by (vm_compute in Hep; by injection Hep as <-). done.
Qed.
Lemma counters_read_back_witness :
  WGDevice.parse_stats (IpcGet A2) = WGDevice.mkStats (i64 (total txBytes A2)) (i64 (total rxBytes A2)) (latest A2) /\
  total txBytes A2 = 244 /\ total rxBytes A2 = 92.
Proof.
  split; [|by vm_compute]. apply (counters_read_back entA draws (eventsA ++ eventsA2) (Ok 1420) false start 0 A2 (counter_ok 17) A2_reached).
  - by apply bytes_decide; vm_compute.
  - exact A2_readable.
Defined.

(** [New] over these toys; the netstack is its MTU. *)
Definition sample_cfg : WGDevice.Config :=
  WGDevice.mkConfig (StdEncoding_EncodeToString skA) (StdEncoding_EncodeToString (publicKey skB)) "B" 0 [10; 0; 0; 1] [] [] 0.
Definition sample_wireguard : WGDevice.WireGuard :=
  wireguard_go entA draws (fun _ _ mtu => Ok mtu) (fun mtu => Ok mtu) (fun _ => false) start 0.
Lemma sample_ok : is_ok (@WGDevice.New sample_wireguard sample_cfg).1 = true.
Proof. by vm_compute. Qed.
Lemma New_connects_witness :
  exists D : @WGDevice.Device sample_wireguard, WGDevice.New sample_cfg = (Ok D, None) /\ state (WGDevice.dev D : Device) = deviceStateUp.
Proof.
  assert (StdEncoding_DecodeString (WGDevice.PrivateKeyB64 sample_cfg) = Some skA) as H1 by by vm_compute.
  assert (StdEncoding_DecodeString (WGDevice.ServerPublicKeyB64 sample_cfg) = Some (publicKey skB)) as H2 by by vm_compute.
  pose proof (New_connects entA draws (fun _ _ mtu => Ok mtu) (fun mtu => Ok mtu) (fun _ => false) start 0 sample_cfg skA (publicKey skB)
    (bytes_of "B" : @Endpoint toy_bind) 1420 (counter_ok 17) H1 H2 keys_good endpoint_line eq_refl (fun _ => eq_refl)) as H.
  fold sample_wireguard in H. destruct (@WGDevice.New sample_wireguard sample_cfg) as [[D|e] rest] eqn:E.
  - destruct H as (Hrest & _ & _ & Hup & _). exists D. split; [by rewrite Hrest|exact Hup].
  - pose proof sample_ok as Hok. rewrite E in Hok. discriminate Hok.
Defined.
