(* ===== verification/Totp.v ===== *)
(** * internal/corplink: one-time passwords, keys and password encryption

    [totp.go], [wgkey.go] and the pure functions of [api.go]. SHA-1 and HMAC are
    executable, so that the codes can be compared with those of RFC 4226 and
    RFC 6238; the other primitives of [crypto/...] are parameters. *)
From S2P Require Import Prelude GoStrings GoNet Encoding GoBytes.
From S2P Require WGCrypto.
Open Scope string_scope.
Open Scope list_scope.
Open Scope Z_scope.

Definition bytes_of (s : string) : list Z := map byte_of (String.list_ascii_of_string s).

(** ** [encoding/base32], standard alphabet with padding *)
Definition b32_val (c : ascii) : option Z :=
  let b := byte_of c in
  if (65 <=? b) && (b <=? 90) then Some (b - 65)
  else if (50 <=? b) && (b <=? 55) then Some (b - 24)
  else None.
(** One quantum: [j] values read so far, [acc] in reverse. Padding is accepted
    from the third character on, at the end, and fills the quantum. *)
Fixpoint b32_quantum (left : nat) (s : string) (acc : list Z) : option (list Z * string * bool) :=
  match left with
  | O => Some (rev acc, s, false)
  | S left' =>
      match s with
      | EmptyString => None
      | String c s' =>
          let j := (8 - left)%nat in
          if Ascii.eqb c "=" && (2 <=? j)%nat && (String.length s' <? 8)%nat then
            if (String.length s' + j <? 7)%nat then None
            else if negb (all_chars (fun d => Ascii.eqb d "=") (stake (7 - j) s')) then None
            else if (j =? 3)%nat || (j =? 6)%nat then None
            else Some (rev acc, s', true)
          else v ← b32_val c; b32_quantum left' s' (v :: acc)
      end
  end.
(** The bytes of a quantum of 2, 4, 5, 7 or 8 values. *)
Definition b32_pack (d : list Z) : list Z :=
  let v i := nth i d 0 in
  take (length d * 5 / 8)
    [u8 (Z.lor (Z.shiftl (v 0%nat) 3) (Z.shiftr (v 1%nat) 2));
     u8 (Z.lor (Z.lor (Z.shiftl (v 1%nat) 6) (Z.shiftl (v 2%nat) 1)) (Z.shiftr (v 3%nat) 4));
     u8 (Z.lor (Z.shiftl (v 3%nat) 4) (Z.shiftr (v 4%nat) 1));
     u8 (Z.lor (Z.lor (Z.shiftl (v 4%nat) 7) (Z.shiftl (v 5%nat) 2)) (Z.shiftr (v 6%nat) 3));
     u8 (Z.lor (Z.shiftl (v 6%nat) 5) (v 7%nat))].
Fixpoint b32_decode (fuel : nat) (s : string) : option (list Z) :=
  match fuel with
  | O => None
  | S fuel =>
      match s with
      | EmptyString => Some []
      | _ =>
          '(d, rest, stop) ← b32_quantum 8 s [];
          if stop : bool then Some (b32_pack d) else l ← b32_decode fuel rest; Some (b32_pack d ++ l)
      end
  end.
Definition base32_DecodeString (s : string) : option (list Z) :=
  let s := strip_crlf s in b32_decode (S (String.length s)) s.

(** ** SHA-1 and HMAC *)
Definition rotl32 (x n : Z) : Z := u32 (Z.lor (Z.shiftl x n) (Z.shiftr x (32 - n))).
Definition not32 (x : Z) : Z := 4294967295 - x.
Fixpoint words32 (l : list Z) : list Z :=
  match l with a :: b :: c :: d :: l => be_val [a; b; c; d] :: words32 l | _ => [] end.
(** The message schedule, the last word first. *)
Fixpoint sha1_expand (n : nat) (w : list Z) : list Z :=
  match n with
  | O => w
  | S n =>
      let x i := nth i w 0 in
      sha1_expand n (rotl32 (Z.lxor (Z.lxor (x 2%nat) (x 7%nat)) (Z.lxor (x 13%nat) (x 15%nat))) 1 :: w)
  end.
Record sha1_state := mkSha1 { s_a : Z; s_b : Z; s_c : Z; s_d : Z; s_e : Z }.
Definition sha1_round (f : Z -> Z -> Z -> Z) (k : Z) (s : sha1_state) (w : Z) : sha1_state :=
  mkSha1 (u32 (rotl32 (s_a s) 5 + f (s_b s) (s_c s) (s_d s) + s_e s + k + w)) (s_a s) (rotl32 (s_b s) 30) (s_c s) (s_d s).
Definition choose b c d : Z := Z.lor (Z.land b c) (Z.land (not32 b) d).
Definition parity b c d : Z := Z.lxor (Z.lxor b c) d.
Definition majority b c d : Z := Z.lor (Z.lor (Z.land b c) (Z.land b d)) (Z.land c d).
Definition sha1_block (s : sha1_state) (block : list Z) : sha1_state :=
  let w := rev (sha1_expand 64 (rev (words32 block))) in
  let t := foldl (sha1_round choose 0x5a827999) s (take 20 w) in
  let t := foldl (sha1_round parity 0x6ed9eba1) t (take 20 (drop 20 w)) in
  let t := foldl (sha1_round majority 0x8f1bbcdc) t (take 20 (drop 40 w)) in
  let t := foldl (sha1_round parity 0xca62c1d6) t (drop 60 w) in
  mkSha1 (u32 (s_a s + s_a t)) (u32 (s_b s + s_b t)) (u32 (s_c s + s_c t)) (u32 (s_d s + s_d t)) (u32 (s_e s + s_e t)).
Definition sha1_pad (m : list Z) : list Z :=
  m ++ 0x80 :: replicate ((119 - length m mod 64) mod 64) 0 ++ be_bytes 8 (8 * Z.of_nat (length m)).
Fixpoint sha1_blocks (n : nat) (s : sha1_state) (m : list Z) : sha1_state :=
  match n with O => s | S n => sha1_blocks n (sha1_block s (take 64 m)) (drop 64 m) end.
Definition sha1 (m : list Z) : list Z :=
  let p := sha1_pad m in
  let s := sha1_blocks (length p / 64) (mkSha1 0x67452301 0xefcdab89 0x98badcfe 0x10325476 0xc3d2e1f0) p in
  be_bytes 4 (s_a s) ++ be_bytes 4 (s_b s) ++ be_bytes 4 (s_c s) ++ be_bytes 4 (s_d s) ++ be_bytes 4 (s_e s).
Definition hmac_sha1 (key m : list Z) : list Z :=
  let key := if (64 <? length key)%nat then sha1 key else key in
  let key := key ++ replicate (64 - length key) 0 in
  sha1 (map (Z.lxor 0x5c) key ++ sha1 (map (Z.lxor 0x36) key ++ m)).

Example sha1_abc : hexString (sha1 (bytes_of "abc")) = "a9993e364706816aba3e25717850c26c9cd0d89d".
Proof. vm_compute. reflexivity. Qed.
Example sha1_long : hexString (sha1 (bytes_of "abcdbcdecdefdefgefghfghighijhijkijkljklmklmnlmnomnopnopq"))
  = "84983e441c3bd26ebaae4aa1f95129e5e54670f1".
Proof. vm_compute. reflexivity. Qed.

(** ** totp.go *)
(** [fmt.Sprintf("%06d", n)] *)
Definition pad06 (n : Z) : string :=
  let s := utoa n in str_of_bytes (replicate (6 - String.length s) 48) +:+ s.
Fixpoint srepeat (n : nat) (s : string) : string :=
  match n with O => "" | S n => s +:+ srepeat n s end.

Section totp.
Context {U : Unicode}.

(** The secret as it is decoded. *)
Definition totp_secret (secret : string) : string :=
  let secret := ToUpper (ReplaceAll secret " " "") in
  let rem := (String.length secret mod 8)%nat in
  if (rem =? 0)%nat then secret else secret +:+ srepeat (8 - rem) "=".
Definition totp_truncate (h : list Z) : Z :=
  let offset := Z.to_nat (Z.land (nth (length h - 1) h 0) 0x0f) in
  let at_ i := nth (offset + i) h 0 in
  Z.lor (Z.lor (Z.lor (Z.shiftl (Z.land (at_ 0%nat) 0x7f) 24) (Z.shiftl (at_ 1%nat) 16)) (Z.shiftl (at_ 2%nat) 8)) (at_ 3%nat).
(** [now] is [time.Now().Unix()]. *)
Definition TOTPWithOffset (now : Z) (secret : string) (offsetSec : Z) : result string :=
  match base32_DecodeString (totp_secret secret) with
  | None => Err (Errorf "totp: decode secret: %w" [])
  | Some key =>
      let counter := u64 (i64 (now + offsetSec)) / 30 in
      Ok (pad06 (totp_truncate (hmac_sha1 key (be_bytes 8 counter)) mod 1000000))
  end.
Definition TOTP (now : Z) (secret : string) : result string := TOTPWithOffset now secret 0.
End totp.

(** RFC 4226, appendix D, and RFC 6238, appendix B, the last six digits. *)
Example hotp_vectors :
  map (fun c => pad06 (totp_truncate (hmac_sha1 (bytes_of "12345678901234567890") (be_bytes 8 c)) mod 1000000))
    [0; 1; 2; 3; 4; 5; 6; 7; 8; 9]
  = ["755224"; "287082"; "359152"; "969429"; "338314"; "254676"; "287922"; "162583"; "399871"; "520489"].
Proof. vm_compute. reflexivity. Qed.
Example totp_vectors :
  map (fun t => @TOTPWithOffset ascii_only t "gezd gnbv gy3t qojq gezd gnbv gy3t qojq" 0) [59; 1111111109; 20000000000]
  = [Ok "287082"; Ok "081804"; Ok "353130"].
Proof. vm_compute. reflexivity. Qed.
Example totp_bad : @TOTP ascii_only 0 "not-valid!!!" = Err (Errorf "totp: decode secret: %w" []).
Proof. vm_compute. reflexivity. Qed.

(** ** wgkey.go *)
Section keys.
Context {C : WGCrypto.Crypto}.
(** What [rand.Read] wrote, or its error. The base point times a clamped scalar
    is never the point that [curve25519.X25519] refuses. *)
Definition clampKey (priv : list Z) : list Z :=
  <[31%nat := Z.lor (Z.land (nth 31 priv 0) 127) 64]> (<[0%nat := Z.land (nth 0 priv 0) 248]> priv).
Definition GenerateKeyPair (rand : result (list Z)) : result (string * string) :=
  match rand with
  | Err e => Err (Wrapf "generate keypair: %w" [] e)
  | Ok bytes =>
      let priv := clampKey bytes in
      Ok (StdEncoding_EncodeToString priv, StdEncoding_EncodeToString (WGCrypto.ScalarBaseMult priv))
  end.
End keys.

(** ** The password of the feilian_v1 login *)
Definition pkcs7Pad (data : list Z) (blockSize : Z) : list Z :=
  let padding := blockSize - Z.of_nat (length data) mod blockSize in
  data ++ replicate (Z.to_nat padding) (u8 padding).
(** What a receiver does with the padding. *)
Definition pkcs7Unpad (data : list Z) : list Z := take (length data - Z.to_nat (List.last data 0)) data.

(** The primitives of [crypto/md5], [crypto/sha256] and [crypto/aes] in CBC mode
    (key, initial vector, data). *)
Class Digests := {
  md5_Sum : list Z -> list Z;
  sha256_Sum : list Z -> list Z;
  aes_cbc : list Z -> list Z -> list Z -> list Z }.
Definition feilianV1EncryptPassword {D : Digests} (password : string) : string :=
  let key := hexString (md5_Sum (bytes_of "9007199254740991")) in
  let iv := stake 16 (hexString (sha1 (bytes_of key))) in
  hexString (aes_cbc (bytes_of key) (bytes_of iv) (pkcs7Pad (bytes_of password) 16)).

(** ** Proofs *)
Lemma sha1_length m : length (sha1 m) = 20%nat.
Proof. unfold sha1. by rewrite !length_app, !be_bytes_length. Qed.
Lemma sha1_bytes m : bytes_ok (sha1 m).
Proof. unfold sha1, bytes_ok. rewrite !Forall_app. split_and!; apply be_bytes_ok. Qed.

(** The dynamic truncation of RFC 4226: four bytes from the offset that the low
    half of the last byte gives, without the sign bit. *)
Lemma land_low a n : 0 <= n -> Z.land a (2 ^ n - 1) = a mod 2 ^ n.
Proof. intros. rewrite <- Z.land_ones by done. by rewrite Z.ones_equiv, Z.sub_1_r. Qed.
Lemma lor_shift a b n : 0 <= n -> 0 <= b < 2 ^ n -> Z.lor (Z.shiftl a n) b = a * 2 ^ n + b.
Proof.
  intros Hn Hb. assert (Z.land (Z.shiftl a n) b = 0) as H0.
  { rewrite <- (Z.mod_small b (2 ^ n)), <- Z.land_ones by done. apply Z.bits_inj'. intros i Hi.
    rewrite !Z.land_spec, Z.bits_0, Z.testbit_ones_nonneg by done. destruct (Z.ltb_spec i n).
    - by rewrite Z.shiftl_spec_low.
    - by rewrite !andb_false_r. }
  by rewrite <- Z.lxor_lor, <- Z.add_nocarry_lxor, Z.shiftl_mul_pow2.
Qed.
Lemma nth_byte l i : bytes_ok l -> 0 <= nth i l 0 < 256.
Proof.
  intros H. destruct (nth_in_or_default i l 0) as [Hi| ->]; [|lia].
  unfold bytes_ok in H. rewrite List.Forall_forall in H. by apply H.
Qed.
Lemma slice4 l o : (o + 4 <= length l)%nat ->
  slice o 4 l = [nth o l 0; nth (o + 1) l 0; nth (o + 2) l 0; nth (o + 3) l 0].
Proof.
  intros H. unfold slice. apply (nth_ext _ _ 0 0); [rewrite length_take, length_drop; cbn [length]; lia|].
  intros i Hi. rewrite length_take, length_drop in Hi.
  destruct i as [| [| [| [|i] ] ] ]; [..|lia]; rewrite nth_firstn, nth_skipn; cbn [nth Nat.ltb Nat.leb]; f_equal; lia.
Qed.
Definition hotp_offset (h : list Z) : nat := Z.to_nat (List.last h 0 mod 16).
Lemma totp_truncate_spec h : bytes_ok h -> length h = 20%nat ->
  totp_truncate h = be_val (slice (hotp_offset h) 4 h) mod 2 ^ 31.
Proof.
  intros Hb Hl. assert (nth (length h - 1) h 0 = List.last h 0) as E.
  { destruct (exists_last (l := h)) as (l & x & ->); [by intros ->|].
    rewrite last_last, length_app, Nat.add_sub, app_nth2, Nat.sub_diag by lia. done. }
  unfold totp_truncate. rewrite E. change 15 with (2 ^ 4 - 1). rewrite land_low by lia. change (2 ^ 4) with 16.
  fold (hotp_offset h). cbn zeta.
  assert (hotp_offset h + 4 <= length h)%nat as Ho.
  { unfold hotp_offset. pose proof (Z.mod_pos_bound (List.last h 0) 16). lia. }
  rewrite slice4, Nat.add_0_r by done. set (o := hotp_offset h) in *.
  pose proof (nth_byte h o Hb). pose proof (nth_byte h (o + 1) Hb).
  pose proof (nth_byte h (o + 2) Hb). pose proof (nth_byte h (o + 3) Hb).
  change 127 with (2 ^ 7 - 1). rewrite land_low by lia.
  generalize dependent (nth o h 0); intros a Ha. generalize dependent (nth (o + 1) h 0); intros b Hb'.
  generalize dependent (nth (o + 2) h 0); intros c Hc. generalize dependent (nth (o + 3) h 0); intros d Hd.
  pose proof (Z.mod_pos_bound a (2 ^ 7)).
  replace (Z.lor (Z.lor (Z.lor (Z.shiftl (a mod 2 ^ 7) 24) (Z.shiftl b 16)) (Z.shiftl c 8)) d)
    with (Z.lor (Z.shiftl (Z.lor (Z.shiftl (Z.lor (Z.shiftl (a mod 2 ^ 7) 8) b) 8) c) 8) d)
    by (rewrite !Z.shiftl_lor, !Z.shiftl_shiftl by lia; reflexivity).
  rewrite !lor_shift by lia. cbn [be_val length]. div_lia.
Qed.
Lemma utoa_go_length fuel z acc k : 0 <= z < 10 ^ (Z.of_nat k + 1) ->
  (String.length (utoa_go fuel z acc) <= S k + String.length acc)%nat.
Proof.
  revert z acc k. induction fuel as [|f IH]; intros z acc k Hz; cbn [utoa_go String.length]; [lia|].
  destruct (Z.ltb_spec z 10); [cbn [String.length]; lia|]. destruct k as [|k]; [cbn in Hz; lia|].
  etransitivity; [apply (IH _ _ k)|cbn [String.length]; lia]. split; [apply Z.div_pos; lia|].
  apply Z.div_lt_upper_bound; [lia|]. rewrite <- Z.pow_succ_r by lia.
  replace (Z.succ (Z.of_nat k + 1)) with (Z.of_nat (S k) + 1) by lia. lia.
Qed.
Lemma zeros_digits n s :
  String.length (str_of_bytes (replicate n 48) +:+ s) = (n + String.length s)%nat /\
  all_chars is_digit (str_of_bytes (replicate n 48) +:+ s) = all_chars is_digit s /\
  parse_digits 0 (str_of_bytes (replicate n 48) +:+ s) = parse_digits 0 s.
Proof.
  induction n as [|n (IH1 & IH2 & IH3)]; [done|].
  change (str_of_bytes (replicate (S n) 48) +:+ s) with (String "0" (str_of_bytes (replicate n 48) +:+ s)).
  cbn [String.length]. rewrite IH1. split_and!; [done|exact IH2|exact IH3].
Qed.
Lemma pad06_spec n : 0 <= n < 1000000 ->
  String.length (pad06 n) = 6%nat /\ all_chars is_digit (pad06 n) = true /\ ParseUint (pad06 n) 64 = Some n.
Proof.
  intros Hn. unfold pad06. destruct (zeros_digits (6 - String.length (utoa n)) (utoa n)) as (E1 & E2 & E3).
  pose proof (utoa_go_length 20 n "" 5 ltac:(cbn; lia)) as Hl. cbn [String.length] in Hl. fold (utoa n) in Hl.
  pose proof (ParseUint_utoa n 64 ltac:(lia) ltac:(lia)) as Hp. unfold ParseUint in *.
  rewrite E1, E2, E3. split_and!; [lia | apply utoa_digits; lia|].
  rewrite bool_decide_eq_false_2 in Hp by apply utoa_go_ne. rewrite bool_decide_eq_false_2; [done|].
  intros E. rewrite E in E1. cbn in E1. lia.
Qed.

Section codes.
Context {U : Unicode}.
(** C26: The code for a secret is the one of RFC 4226 and RFC 6238: whatever the
    clock, the offset and the spelling of the secret, a secret that decodes to
    [key] gives six digits that spell the four bytes at the offset, without the
    sign bit, modulo a million; the offset never leads past the hash. Every
    other secret is refused. *)
Theorem totp_code now secret offsetSec :
  match base32_DecodeString (totp_secret secret) with
  | None => exists e, TOTPWithOffset now secret offsetSec = Err e
  | Some key =>
      let h := hmac_sha1 key (be_bytes 8 (u64 (i64 (now + offsetSec)) / 30)) in
      (hotp_offset h + 4 <= length h)%nat /\
      exists code, TOTPWithOffset now secret offsetSec = Ok code /\
        String.length code = 6%nat /\ all_chars is_digit code = true /\
        ParseUint code 64 = Some (be_val (slice (hotp_offset h) 4 h) mod 2 ^ 31 mod 1000000)
  end.
Proof.
  unfold TOTPWithOffset. destruct (base32_DecodeString _) as [key|]; [|by eexists]. cbn zeta.
  set (h := hmac_sha1 _ _). assert (length h = 20%nat) as Hl by apply sha1_length. split.
  - unfold hotp_offset. pose proof (Z.mod_pos_bound (List.last h 0) 16). lia.
  - eexists. split; [reflexivity|]. rewrite totp_truncate_spec by (done || apply sha1_bytes).
    apply pad06_spec. apply Z.mod_pos_bound. lia.
Qed.
End codes.

(** Fuel: the decoder of a string reads at most its characters. *)
Lemma b32_quantum_length left s acc d rest stop :
  b32_quantum left s acc = Some (d, rest, stop) ->
  (String.length rest + (if stop then 1 else left) <= String.length s)%nat.
Proof.
  revert s acc. induction left as [|left IH]; intros s acc; cbn [b32_quantum].
  { intros [= <- <- <-]. lia. }
  destruct s as [|c s]; [done|]. cbn [String.length].
  destruct (_ && _) eqn:Ec.
  - repeat match goal with |- context [if ?b then _ else _] => destruct b; [done|] end.
    intros [= <- <- <-]. lia.
  - destruct (b32_val c); [|done]. cbn. intros H%IH. destruct stop; lia.
Qed.
Lemma b32_decode_fuel fuel fuel' s : (String.length s < fuel)%nat -> (fuel <= fuel')%nat ->
  b32_decode fuel' s = b32_decode fuel s.
Proof.
  revert fuel' s. induction fuel as [|fuel IH]; intros [|fuel'] s Hs Hf; try lia. cbn [b32_decode].
  destruct s as [|c s]; [done|]. destruct (b32_quantum _ _ _) as [[[d rest] stop]|] eqn:E; [|done]. cbn.
  apply b32_quantum_length in E. cbn [String.length] in *. destruct stop; [done|]. rewrite IH by lia. done.
Qed.

(** The padding comes off again, and the padded password fills whole blocks. *)
Lemma pkcs7_roundtrip data b : 0 < b < 256 -> bytes_ok data ->
  pkcs7Unpad (pkcs7Pad data b) = data /\ Z.of_nat (length (pkcs7Pad data b)) mod b = 0.
Proof.
  intros Hb Hd. unfold pkcs7Pad, pkcs7Unpad. set (p := b - _).
  pose proof (Z.mod_pos_bound (Z.of_nat (length data)) b).
  assert (0 < p <= b) by lia. rewrite length_app, length_replicate. split.
  - destruct (Z.to_nat p) as [|k] eqn:Ek; [lia|]. rewrite <- Ek.
    assert (List.last (data ++ replicate (Z.to_nat p) (u8 p)) 0 = u8 p) as ->.
    { rewrite Ek, replicate_S_end, app_assoc. apply last_last. }
    rewrite u8_small, Nat.add_sub by lia. apply take_app_length.
  - rewrite Nat2Z.inj_add, Z2Nat.id by lia. unfold p.
    rewrite (Z.div_mod (Z.of_nat (length data)) b) at 1 by lia.
    replace (_ + _) with ((Z.of_nat (length data) / b + 1) * b) by lia. apply Z_mod_mult.
Qed.

(** A generated key pair is in the form WireGuard keeps: the private key decodes
    to the clamped bytes, which a device does not change, and the public key to
    the point of that key. *)
Section pairs.
Context {C : WGCrypto.Crypto} {CL : WGCrypto.CryptoLaws}.
Lemma clamp_byte_idem x : is_byte x ->
  Z.land (Z.land x 248) 248 = Z.land x 248 /\ Z.lor (Z.land (Z.lor (Z.land x 127) 64) 127) 64 = Z.lor (Z.land x 127) 64 /\
  is_byte (Z.land x 248) /\ is_byte (Z.lor (Z.land x 127) 64).
Proof.
  revert x. apply (byte_forall (fun x => Z.land (Z.land x 248) 248 = Z.land x 248 /\ Z.lor (Z.land (Z.lor (Z.land x 127) 64) 127) 64 = Z.lor (Z.land x 127) 64 /\
  (0 <= Z.land x 248 < 256) /\ (0 <= Z.lor (Z.land x 127) 64 < 256))). by vm_compute.
Qed.
Lemma GenerateKeyPair_ok bytes : bytes_ok bytes -> length bytes = 32%nat ->
  exists priv pub sk, GenerateKeyPair (Ok bytes) = Ok (priv, pub) /\
    StdEncoding_DecodeString priv = Some sk /\ length sk = 32%nat /\ WGCrypto.clamp sk = sk /\
    StdEncoding_DecodeString pub = Some (WGCrypto.publicKey sk).
Proof.
  intros Hb Hl. cbn [GenerateKeyPair]. set (sk := clampKey bytes).
  pose proof (clamp_byte_idem (nth 0 bytes 0) (nth_byte bytes 0 Hb)) as (A1 & _ & A3 & _).
  pose proof (clamp_byte_idem (nth 31 bytes 0) (nth_byte bytes 31 Hb)) as (_ & B2 & _ & B4).
  assert (bytes_ok sk) as Hsk by (unfold sk, clampKey; apply Forall_insert; [by apply Forall_insert|done]).
  exists (StdEncoding_EncodeToString sk), (StdEncoding_EncodeToString (WGCrypto.ScalarBaseMult sk)), sk.
  split_and!; [done|by apply base64_roundtrip|unfold sk, clampKey; by rewrite !length_insert| |
    apply base64_roundtrip; apply WGCrypto.base_bytes].
  do 32 (destruct bytes as [|? bytes]; [done|]). destruct bytes; [|done].
  unfold sk, WGCrypto.clamp, clampKey. cbn -[Z.land Z.lor]. cbn [nth] in *. by rewrite A1, B2.
Qed.
End pairs.
