(* ===== verification/Corplink.v ===== *)
(** * internal/corplink: the client of the company's server

    [session.go], [api.go], [auth.go], [vpn.go], [manager.go]: the session with
    its file and cookie jar, the HTTP exchange [do] with its logging rules, the
    login operations and the operations of a VPN connection. Cookie jars are
    shared by pointer (the session's and the HTTP client's may be different
    ones): they live in a store. URLs, cookie jars, the network and the primitives of
    [crypto/...] are parameters; the network answers a request knowing all
    that were sent before. *)
From S2P Require Import Prelude GoStrings GoNet Json Totp.
From S2P Require Config WGDevice.
Open Scope string_scope.
Open Scope list_scope.
Open Scope Z_scope.

(** ** The standard library *)
(** [net/url]: parsing, the parts that the code reads, and those it replaces. *)
Class URLLib := {
  url : Type;
  url_Parse : string -> option url;
  u_Scheme : url -> string;
  u_Host : url -> string;
  u_Hostname : url -> string;
  u_Query : url -> string -> string;
  u_clear_User : url -> url;
  u_set_Host : string -> url -> url;
  u_String : url -> string }.
Record SerialCookie := mkCookie { ck_Name : string; ck_Value : string; ck_Domain : string; ck_Path : string }.
(** [net/http/cookiejar]; a [http.Cookie] has more fields, none of which the
    code sets or reads. *)
Class CookieJar `{URLLib} := {
  jar : Type;
  jar_New : jar;
  SetCookies : url -> list SerialCookie -> jar -> jar;
  Cookies : url -> jar -> list SerialCookie }.
(** The documented behaviour for the root of a web server: a cookie for this
    host alone that nothing in the same call replaces is returned, stripped to
    its name and value; and the jar has one cookie of a name for a host. *)
Class CookieJarLaws `{CookieJar} (root : url -> Prop) := {
  jar_keeps : forall u l1 c l2 j, root u ->
    ck_Name c <> "" -> ck_Domain c = "" -> (ck_Path c = "" \/ ck_Path c = "/") ->
    Forall (fun d => ck_Name d <> ck_Name c) l2 ->
    mkCookie (ck_Name c) (ck_Value c) "" "" ∈ Cookies u (SetCookies u (l1 ++ c :: l2) j);
  jar_stripped : forall u j c, c ∈ Cookies u j -> ck_Name c <> "" /\ ck_Domain c = "" /\ ck_Path c = "";
  jar_names : forall u j, root u -> NoDup (map ck_Name (Cookies u j)) }.

(** ** Data *)
Record apiResp (T : Type) := mkApiResp { Code : Z; Action : string; Message : string; Data : T }.
Arguments mkApiResp {T}. Arguments Code {T}. Arguments Action {T}. Arguments Message {T}. Arguments Data {T}.
Record Session := mkSession {
  CompanyName : string; Server : string; DeviceID : string; DeviceName : string; TOTPSecret : string;
  SavedCookies : list SerialCookie; path : string; ses_jar : nat }.
Record LoginMethodInfo := mkLoginMethodInfo {
  Methods : list string; VerifyTypes : list string; LoginOrders : list string; LoginEnableLDAP : bool }.
Record QRCodeResult := mkQRCodeResult { LoginURL : string; Token : string }.
Record VPNNode := mkVPNNode {
  ID : Z; Name : string; IP_ : string; APIPort : Z; VPNPort : Z; ProtocolMode : Z; Timeout_ : Z; LatencyMs : Z }.
Record WGConnInfo := mkWGConnInfo {
  VpnIP : WGDevice.Addr; ServerPublicKey : string; MTU : Z; DNSServers : list WGDevice.Addr;
  SplitRoutes : list string; DomainSuffixes : list string; info_ProtocolMode : Z; ServerEndpoint : string }.
Record wgConnRespData := mkWgConnRespData {
  d_IP : string; d_PublicKey : string; VpnMTU : Z; VpnDNS : string; VpnDNSBackup : string;
  VpnDNSDomainSplit : list string; VpnRouteSplit : list string }.
Record VPNSettings := mkVPNSettings { set_SplitRoutes : list string; set_DomainSuffixes : list string }.

(** ** What may be logged *)
Section redact.
Context {U : Unicode}.
Definition sensitive_names : list string :=
  ["authorization"; "code"; "cookie"; "cookies"; "csrf-token"; "jwt"; "login-url"; "password"; "private-key";
   "public-key"; "qr-token"; "server-public-key"; "set-cookie"; "token"; "totp-secret"; "user-name"; "vpn-ip"].
Definition sensitiveHTTPLogKey (key : string) : bool :=
  let key := ReplaceAll (ToLower (TrimSpace key)) "_" "-" in
  bool_decide (key ∈ sensitive_names) ||
  (Contains key "token" || Contains key "secret" || Contains key "cookie").
(** A [map[string]any] from the members of a JSON object: the last one of a name. *)
Fixpoint last_wins {A} (kvs : list (string * A)) : list (string * A) :=
  match kvs with
  | [] => []
  | (k, v) :: l => if bool_decide (k ∈ l.*1) then last_wins l else (k, v) :: last_wins l
  end.
Definition set_member (k : string) (v : json) (kvs : list (string * json)) : list (string * json) :=
  filter (fun kv => kv.1 <> k) kvs ++ [(k, v)].
Fixpoint redactJSONValue (v : json) : json :=
  match v with
  | JObj kvs =>
      let children := last_wins (map (fun '(k, child) => (k, redactJSONValue child)) kvs) in
      let kept := filter (fun kv => sensitiveHTTPLogKey kv.1 = false) children in
      if forallb (fun kv => negb (sensitiveHTTPLogKey kv.1)) children then JObj kept
      else JObj (set_member "redacted" (JStr "[masked]") kept)
  | JArr l => JArr (map redactJSONValue l)
  | _ => v
  end.
Definition ellipsis : string := str_of_bytes [226; 128; 166].
Definition truncate (b : string) (max : nat) : string :=
  if (max <? String.length b)%nat then stake max b +:+ ellipsis else b.
Definition redactHTTPLogBody (parse : string -> option json) (marshal : json -> string) (body : string) (max : nat) : string :=
  match parse body with
  | None => "<redacted non-json body>"
  | Some v => truncate (marshal (redactJSONValue v)) max
  end.

(** The pattern [\b(?:\d{1,3}\.){3}\d{1,3}\b]: a run of digits has its length
    from what follows it, so there is nothing to backtrack over. *)
Definition is_word (c : ascii) : bool :=
  is_digit c || is_lower_char c || is_upper_char c || Ascii.eqb c "_".
Fixpoint digits_run (s : string) : nat * string :=
  match s with
  | String c s' => if is_digit c then let '(n, r) := digits_run s' in (S n, r) else (O, s)
  | EmptyString => (O, s)
  end.
Fixpoint match_groups (n : nat) (s : string) : option string :=
  let '(k, r) := digits_run s in
  if negb ((1 <=? k)%nat && (k <=? 3)%nat) then None
  else match n, r with
       | O, String c _ => if is_word c then None else Some r
       | O, EmptyString => Some r
       | S n, String "." r => match_groups n r
       | S _, _ => None
       end.
Fixpoint redact_ipv4 (fuel : nat) (prev_word : bool) (s : string) : string :=
  match fuel, s with
  | S fuel, String c s' =>
      match (if prev_word then None else match_groups 3 s) with
      | Some r => "<redacted-ip>" +:+ redact_ipv4 fuel true r
      | None => String c (redact_ipv4 fuel (is_word c) s')
      end
  | _, _ => ""
  end.
Definition ipv4LogPattern_replace (s : string) : string := redact_ipv4 (S (String.length s)) false s.

Context {L : URLLib}.
Definition redactURLForLog (rawURL : string) : string :=
  match url_Parse rawURL with
  | None => "<redacted-url>"
  | Some u =>
      let u := u_clear_User u in
      u_String (if bool_decide (u_Host u = "") then u else u_set_Host "<redacted-host>" u)
  end.
Definition redactHostForLog (host : string) : string := if bool_decide (host = "") then "" else "<redacted-host>".
Definition redactErrorForLog (rawURL msg : string) : string :=
  let msg := if bool_decide (rawURL = "") then msg else ReplaceAll msg rawURL (redactURLForLog rawURL) in
  ipv4LogPattern_replace msg.
End redact.
Example redact_ip_text :
  ipv4LogPattern_replace "dial 203.0.113.10:443 x1.2.3.4 1.2.3.4567 1.2.3.4.5 to 10.0.0.1" =
  "dial <redacted-ip>:443 x1.2.3.4 1.2.3.4567 <redacted-ip>.5 to <redacted-ip>".
Proof. vm_compute. reflexivity. Qed.

(** ** The client and what it works on *)
Section client.
Context {U : Unicode} {L : URLLib} {J : CookieJar} {H : Digests} {D : Type}.
(** JSON text; whether the session's directory can be written; the network. *)
Context (json_parse : string -> option json) (json_print : json -> string) (writable : bool).

Record Client := mkClient {
  hc_Jar : nat; hc_insecure : bool; hc_dial : option D;
  debugBody : bool; insecureTLS : bool; dialContext : option D;
  matchURLOverride : string; platform : string; dateOffsetSec : Z }.
Record request := mkRequest {
  r_method : string; r_url : string; r_cookies : list (string * string); r_csrf : option string;
  r_body : option json; r_insecure : bool; r_dial : option D }.
(** [Date] is the time of the response's Date header less the clock, in whole
    seconds, when there is one that parses. *)
Record response := mkResponse {
  StatusCode : Z; Date : option Z; SetCookie : list SerialCookie; Body : result (option json) }.
Context (http : list request -> request -> string + response).

Record State := mkState {
  session : Session; client : Client; jars : list jar; disk : gmap string string; sent : list request }.

Definition with_session (f : Session -> Session) (s : State) : State :=
  mkState (f (session s)) (client s) (jars s) (disk s) (sent s).
Definition with_client (f : Client -> Client) (s : State) : State :=
  mkState (session s) (f (client s)) (jars s) (disk s) (sent s).
Definition get_jar (s : State) (p : nat) : jar := default jar_New (jars s !! p).

Definition M A := State -> State * result A.
Definition ret {A} (a : A) : M A := fun s => (s, Ok a).
Definition fail {A} (e : error) : M A := fun s => (s, Err e).
Definition bind {A B} (c : M A) (k : A -> M B) : M B :=
  fun s => let '(s, r) := c s in match r with Ok a => k a s | Err e => (s, Err e) end.
Definition gets {A} (f : State -> A) : M A := fun s => (s, Ok (f s)).
Definition modify (f : State -> State) : M unit := fun s => (f s, Ok tt).
(** The result of a call whose error is handled on the spot. *)
Definition try {A} (c : M A) : M (result A) := fun s => let '(s, r) := c s in (s, Ok r).
Notation "x <~ c ;; k" := (bind c (fun x => k)) (at level 100, c at next level, right associativity).
Notation "c ;;; k" := (bind c (fun _ => k)) (at level 100, right associativity).

(** *** session.go *)
Definition newUUID (random : list Z) : string :=
  let b := <[8%nat := Z.lor (Z.land (nth 8 random 0) 0x3f) 0x80]> (<[6%nat := Z.lor (Z.land (nth 6 random 0) 0x0f) 0x40]> random) in
  let hex i n := hexString (take n (drop i b)) in
  hex 0%nat 4%nat +:+ "-" +:+ hex 4%nat 2%nat +:+ "-" +:+ hex 6%nat 2%nat +:+ "-" +:+ hex 8%nat 2%nat +:+ "-" +:+ hex 10%nat 6%nat.
Definition machineName (hostname : result string) : string :=
  match hostname with Ok host => "macOS-" +:+ host | Err _ => "macOS-device" end.

Definition session_cookies (s : Session) : list SerialCookie :=
  (if bool_decide (DeviceID s = "") then [] else [mkCookie "device_id" (DeviceID s) "" "/"]) ++
  (if bool_decide (DeviceName s = "") then [] else [mkCookie "device_name" (DeviceName s) "" "/"]) ++
  SavedCookies s.
Definition set_jar (p : nat) (s : Session) : Session :=
  mkSession (CompanyName s) (Server s) (DeviceID s) (DeviceName s) (TOTPSecret s) (SavedCookies s) (path s) p.
Definition set_cookies (l : list SerialCookie) (s : Session) : Session :=
  mkSession (CompanyName s) (Server s) (DeviceID s) (DeviceName s) (TOTPSecret s) l (path s) (ses_jar s).
Definition set_secret (x : string) (s : Session) : Session :=
  mkSession (CompanyName s) (Server s) (DeviceID s) (DeviceName s) x (SavedCookies s) (path s) (ses_jar s).
(** A new jar with the device's and the saved cookies. *)
Definition built_jar (s : Session) : jar :=
  if bool_decide (Server s = "") then jar_New
  else match url_Parse (Server s) with
       | None => jar_New
       | Some serverURL => SetCookies serverURL (session_cookies s) jar_New
       end.
Definition rebuildJar (s : State) : State :=
  mkState (set_jar (length (jars s)) (session s)) (client s) (jars s ++ [built_jar (session s)]) (disk s) (sent s).
Definition syncCookiesFromJar (s : State) : State :=
  if bool_decide (Server (session s) = "") then s
  else match url_Parse (Server (session s)) with
       | None => s
       | Some serverURL => with_session (set_cookies (Cookies serverURL (get_jar s (ses_jar (session s))))) s
       end.

Definition cookie_json (c : SerialCookie) : json :=
  JObj [("name", JStr (ck_Name c)); ("value", JStr (ck_Value c)); ("domain", JStr (ck_Domain c)); ("path", JStr (ck_Path c))].
Definition session_json (s : Session) : json :=
  JObj ([("company_name", JStr (CompanyName s)); ("server", JStr (Server s));
         ("device_id", JStr (DeviceID s)); ("device_name", JStr (DeviceName s))] ++
        (if bool_decide (TOTPSecret s = "") then [] else [("totp_secret", JStr (TOTPSecret s))]) ++
        (if bool_decide (SavedCookies s = []) then [] else [("cookies", JArr (map cookie_json (SavedCookies s)))])).
Definition Save (s : State) : State * option error :=
  let s := syncCookiesFromJar s in
  if negb writable then (s, Some (Errorf "save session" []))
  else (mkState (session s) (client s) (jars s)
          (<[path (session s) := json_print (session_json (session s))]> (disk s)) (sent s), None).

(** [LoadSession] ignores what [json.Unmarshal] returns: a member of the wrong
    type leaves its field as it was. A null among the cookies, which [Save]
    never writes, is read as an empty cookie. *)
Definition lenient {A} (d : decoder A) : A -> json -> A := fun a j => match d a j with Ok b => b | Err _ => a end.
Definition lenient_struct {A} (fields : list (field A)) : A -> json -> A := fun a j =>
  match j with
  | JObj kvs => foldl (fun a '(k, v) => match find_field fields k with Some f => lenient f.2 a v | None => a end) a kvs
  | _ => a
  end.
Fixpoint lenient_elems {A} (d : A -> json -> A) (zero : A) (old : list A) (l : list json) : list A :=
  match l with [] => [] | j :: l => d (default zero (head old)) j :: lenient_elems d zero (tail old) l end.
Definition zeroCookie : SerialCookie := mkCookie "" "" "" "".
Definition dec_cookie : SerialCookie -> json -> SerialCookie := lenient_struct [
  ("name", via ck_Name (fun v c => mkCookie v (ck_Value c) (ck_Domain c) (ck_Path c)) dec_string);
  ("value", via ck_Value (fun v c => mkCookie (ck_Name c) v (ck_Domain c) (ck_Path c)) dec_string);
  ("domain", via ck_Domain (fun v c => mkCookie (ck_Name c) (ck_Value c) v (ck_Path c)) dec_string);
  ("path", via ck_Path (fun v c => mkCookie (ck_Name c) (ck_Value c) (ck_Domain c) v) dec_string)].
Definition dec_cookies : decoder (list SerialCookie) := fun old j =>
  match j with
  | JNull => Ok []
  | JArr l => Ok (lenient_elems dec_cookie zeroCookie old l)
  | _ => type_error "slice"
  end.
Definition dec_Session : Session -> json -> Session := lenient_struct [
  ("company_name", via CompanyName (fun v s => mkSession v (Server s) (DeviceID s) (DeviceName s) (TOTPSecret s) (SavedCookies s) (path s) (ses_jar s)) dec_string);
  ("server", via Server (fun v s => mkSession (CompanyName s) v (DeviceID s) (DeviceName s) (TOTPSecret s) (SavedCookies s) (path s) (ses_jar s)) dec_string);
  ("device_id", via DeviceID (fun v s => mkSession (CompanyName s) (Server s) v (DeviceName s) (TOTPSecret s) (SavedCookies s) (path s) (ses_jar s)) dec_string);
  ("device_name", via DeviceName (fun v s => mkSession (CompanyName s) (Server s) (DeviceID s) v (TOTPSecret s) (SavedCookies s) (path s) (ses_jar s)) dec_string);
  ("totp_secret", via TOTPSecret set_secret dec_string);
  ("cookies", via SavedCookies set_cookies dec_cookies)].
(** The session of a file, before its jar is built. *)
Definition read_session (p : string) (files : gmap string string) (random : list Z) (hostname : result string) : Session :=
  let s := mkSession "" "" "" "" "" [] p 0 in
  let s := match files !! p with
           | Some text => match json_parse text with Some j => dec_Session s j | None => s end
           | None => s
           end in
  mkSession (CompanyName s) (Server s)
    (if bool_decide (DeviceID s = "") then newUUID random else DeviceID s)
    (if bool_decide (DeviceName s = "") then machineName hostname else DeviceName s)
    (TOTPSecret s) (SavedCookies s) p (ses_jar s).

Definition IsAuthenticated (s : State) : bool :=
  negb (bool_decide (Server (session s) = "")) && (0 <? length (SavedCookies (session s)))%nat.

(** *** The client's settings *)
Definition newHTTPClientLocked (p : nat) (c : Client) : Client :=
  mkClient p (insecureTLS c) (dialContext c) (debugBody c) (insecureTLS c) (dialContext c)
    (matchURLOverride c) (platform c) (dateOffsetSec c).
Definition NewClientWithConfig (p : nat) (cfg : Config.CorplinkConfig) : Client :=
  newHTTPClientLocked p (mkClient 0 false None (Config.DebugHTTPBody cfg) (Config.InsecureSkipVerify cfg) None "" (Config.Platform cfg) 0).
Definition Configure (cfg : Config.CorplinkConfig) (s : State) : State :=
  with_client (fun c => newHTTPClientLocked (ses_jar (session s))
    (mkClient (hc_Jar c) (hc_insecure c) (hc_dial c) (Config.DebugHTTPBody cfg) (Config.InsecureSkipVerify cfg) (dialContext c)
       (matchURLOverride c) (Config.Platform cfg) (dateOffsetSec c))) s.
Definition SetDialContext (dial : option D) (s : State) : State :=
  with_client (fun c => newHTTPClientLocked (ses_jar (session s))
    (mkClient (hc_Jar c) (hc_insecure c) (hc_dial c) (debugBody c) (insecureTLS c) dial
       (matchURLOverride c) (platform c) (dateOffsetSec c))) s.
Definition set_offset (z : Z) (c : Client) : Client :=
  mkClient (hc_Jar c) (hc_insecure c) (hc_dial c) (debugBody c) (insecureTLS c) (dialContext c) (matchURLOverride c) (platform c) z.
(** [LoadSession] and [NewManagerWithConfig]: the session and its client. *)
Definition NewManagerWithConfig (p : string) (files : gmap string string) (random : list Z) (hostname : result string)
    (cfg : Config.CorplinkConfig) : State :=
  let ses := read_session p files random hostname in
  mkState (set_jar 0 ses) (NewClientWithConfig 0 cfg) [built_jar ses] files [].

(** *** The exchange *)
Definition pair_of (c : SerialCookie) : string * string := (ck_Name c, ck_Value c).
(** The cookies that [do] puts into the header itself. *)
Definition injected_cookies (s : State) : list SerialCookie :=
  if bool_decide (Server (session s) = "") then []
  else match url_Parse (Server (session s)) with
       | None => []
       | Some serverURL => Cookies serverURL (get_jar s (ses_jar (session s)))
       end.
Definition csrf_of (l : list SerialCookie) : option string :=
  ck_Value <$> last (filter (fun c => ck_Name c = "csrf-token") l).
(** [http.Client] adds the cookies its own jar has for the request. *)
Definition make_request (method rawURL : string) (u : url) (body : option json) (s : State) : request :=
  let own := injected_cookies s in
  mkRequest method rawURL (map pair_of own ++ map pair_of (Cookies u (get_jar s (hc_Jar (client s))))) (csrf_of own)
    body (hc_insecure (client s)) (hc_dial (client s)).
Definition ErrSessionExpired : error := Errorf "session expired" [].
Definition dec_apiResp {T} (d : decoder T) : decoder (apiResp T) := dec_struct [
  ("code", via Code (fun v r => mkApiResp v (Action r) (Message r) (Data r)) dec_int);
  ("action", via Action (fun v r => mkApiResp (Code r) v (Message r) (Data r)) dec_string);
  ("message", via Message (fun v r => mkApiResp (Code r) (Action r) v (Data r)) dec_string);
  ("data", via Data (fun v r => mkApiResp (Code r) (Action r) (Message r) v) d)].
(** The envelope of an expired session; [None] where it does not decode. *)
Definition envelope (j : json) : option (Z * string) :=
  match dec_struct [("code", via fst (fun v (r : Z * string) => (v, r.2)) dec_int);
                    ("message", via snd (fun v (r : Z * string) => (r.1, v)) dec_string)] (0, "") j with
  | Ok r => Some r | Err _ => None end.
Definition read_response {T} (d : decoder T) (zero : T) (r : response) : result (apiResp T) :=
  match Body r with
  | Err e => Err (Wrapf "read response: %w" [] e)
  | Ok body =>
      if negb (StatusCode r =? 200) then Err (Errorf "HTTP %d" [itoa (StatusCode r)])
      else match body with
           | None => Err (Errorf "invalid JSON" [])
           | Some j =>
               out ← dec_apiResp d (mkApiResp 0 "" "" zero) j;
               match envelope j with
               | Some (code, message) =>
                   if (code =? 101) || (code =? 10220002) then Err (Wrapf "%w: %s" [message] ErrSessionExpired) else Ok out
               | None => Ok out
               end
           end
  end.
Definition do {T} (method rawURL : string) (body : option json) (d : decoder T) (zero : T) : M (apiResp T) := fun s =>
  match url_Parse rawURL with
  | None => (s, Err (Errorf "parse %q" [rawURL]))
  | Some u =>
      let r := make_request method rawURL u body s in
      let s' := mkState (session s) (client s) (jars s) (disk s) (sent s ++ [r]) in
      match http (sent s) r with
      | inl why => (s', Err (Errorf "%s" [redactErrorForLog rawURL why]))
      | inr resp =>
          let p := hc_Jar (client s) in
          let jars' := <[p := SetCookies u (SetCookie resp) (get_jar s p)]> (jars s) in
          let c := match Date resp with Some off => set_offset off (client s) | None => client s end in
          (mkState (session s) c jars' (disk s) (sent s'), read_response d zero resp)
      end
  end.
Definition post {T} (rawURL : string) (body : json) (d : decoder T) (zero : T) : M (apiResp T) := do "POST" rawURL (Some body) d zero.
Definition get {T} (rawURL : string) (d : decoder T) (zero : T) : M (apiResp T) := do "GET" rawURL None d zero.
Definition dec_any : decoder unit := fun _ _ => Ok tt.
Definition strings : decoder (list string) := dec_slice dec_string "".
(** An error code other than 0 is an error of the operation [what]. *)
Definition check_code {T} (what : string) (r : apiResp T) : M T :=
  if Code r =? 0 then ret (Data r) else fail (Errorf (what +:+ ": %s") [Message r]).

Definition osQuery : string := "os=Android&os_version=2".
Definition matchURL : string := "https://corplink.volcengine.cn/api/match".
Definition apiURL (p : string) : M string := gets (fun s => Server (session s) +:+ p +:+ "?" +:+ osQuery).
Definition CopySessionCookiesToURL (nodeBaseURL : string) : State -> State := fun s =>
  if bool_decide (Server (session s) = "") then s
  else match url_Parse (Server (session s)), url_Parse nodeBaseURL with
       | Some serverURL, Some nodeURL =>
           let p := ses_jar (session s) in
           let cookies := Cookies serverURL (get_jar s p) in
           if bool_decide (cookies = []) then s
           else
             let stripped := map (fun c => mkCookie (ck_Name c) (ck_Value c) "" "/") cookies in
             mkState (session s) (client s) (<[p := SetCookies nodeURL stripped (get_jar s p)]> (jars s)) (disk s) (sent s)
       | _, _ => s
       end.

(** *** Logging in *)
Definition DiscoverCompany (code : string) : M unit :=
  target <~ gets (fun s => if bool_decide (matchURLOverride (client s) = "") then matchURL else matchURLOverride (client s)) ;;
  resp <~ post target (JObj [("code", JStr code)])
    (dec_struct [("domain", via (fun x => x) (fun v _ => v) dec_string)]) "" ;;
  domain <~ check_code "discover company" resp ;;
  if bool_decide (domain = "") then fail (Errorf "discover company: empty domain in response" [])
  else modify (fun s =>
    let s := rebuildJar (with_session (fun x => mkSession code domain (DeviceID x) (DeviceName x) (TOTPSecret x)
                                                  (SavedCookies x) (path x) (ses_jar x)) s) in
    with_client (fun c => mkClient (ses_jar (session s)) (hc_insecure c) (hc_dial c) (debugBody c) (insecureTLS c)
                            (dialContext c) (matchURLOverride c) (platform c) (dateOffsetSec c)) s).

Record loginSetting := mkLoginSetting {
  ls_orders : list string; ls_account : list string; ls_scan : bool; ls_tps : list string;
  ls_verify : list string; ls_ldap : bool }.
Definition dec_loginSetting : decoder loginSetting := dec_struct [
  ("login_orders", via ls_orders (fun v r => mkLoginSetting v (ls_account r) (ls_scan r) (ls_tps r) (ls_verify r) (ls_ldap r)) strings);
  ("login_account", via ls_account (fun v r => mkLoginSetting (ls_orders r) v (ls_scan r) (ls_tps r) (ls_verify r) (ls_ldap r)) strings);
  ("scan_code_login_enable", via ls_scan (fun v r => mkLoginSetting (ls_orders r) (ls_account r) v (ls_tps r) (ls_verify r) (ls_ldap r)) dec_bool);
  ("scan_code_tps", via ls_tps (fun v r => mkLoginSetting (ls_orders r) (ls_account r) (ls_scan r) v (ls_verify r) (ls_ldap r)) strings);
  ("login_verify_type", via ls_verify (fun v r => mkLoginSetting (ls_orders r) (ls_account r) (ls_scan r) (ls_tps r) v (ls_ldap r)) strings);
  ("login_enable_ldap", via ls_ldap (fun v r => mkLoginSetting (ls_orders r) (ls_account r) (ls_scan r) (ls_tps r) (ls_verify r) v) dec_bool)].
(** What one login order adds, in order, before duplicates go. *)
Definition order_methods (d : loginSetting) (order : string) : list string :=
  let password := if bool_decide ("password" ∈ ls_verify d) then ["password"] else [] in
  if bool_decide (order = "ldap") then (if ls_ldap d then password else [])
  else if bool_decide (order ∈ ["feilian"; "feilian_v1"; "mobile_auth"]) then
    password ++ filter (fun acc => acc = "email" \/ acc = "mobile") (ls_account d)
  else if bool_decide (order = "lark") then ["lark"] else [].
Definition login_methods (d : loginSetting) : list string :=
  dedup_with ∅ (concat (map (order_methods d) (ls_orders d)) ++
                if ls_scan d then filter (fun tps => tps = "lark") (ls_tps d) else []).
Definition LoginMethods : M LoginMethodInfo :=
  u <~ apiURL "/api/login/setting" ;;
  resp <~ get u dec_loginSetting (mkLoginSetting [] [] false [] [] false) ;;
  d <~ check_code "login setting" resp ;;
  ret (mkLoginMethodInfo (login_methods d) (ls_verify d) (ls_orders d) (ls_ldap d)).

Definition dec_url : decoder string := dec_struct [("url", via (fun x => x) (fun v _ => v) dec_string)].
Definition RequestOTP : M string :=
  u <~ apiURL "/api/v2/p/otp" ;;
  resp <~ post u (JObj [])
    (dec_struct [("url", via fst (fun v (r : string * string) => (v, r.2)) dec_string);
                 ("code", via snd (fun v (r : string * string) => (r.1, v)) dec_string)]) ("", "") ;;
  d <~ check_code "request otp" resp ;; ret d.1.
Definition ExtractTOTPSecretFromURL (uri : string) : string :=
  match url_Parse uri with
  | None => ""
  | Some u => if bool_decide (u_Scheme u = "otpauth") then u_Query u "secret" else ""
  end.
Definition extractAndSaveTOTPSecret (loginURL : string) : M unit :=
  let secret := if bool_decide (loginURL = "") then "" else ExtractTOTPSecretFromURL loginURL in
  secret <~ (if bool_decide (secret = "") then
               r <~ try RequestOTP ;;
               ret match r with
                   | Ok otpURL => if bool_decide (otpURL = "") then "" else ExtractTOTPSecretFromURL otpURL
                   | Err _ => ""
                   end
             else ret secret) ;;
  if bool_decide (secret = "") then ret tt else modify (with_session (set_secret secret)).

Definition CorplinkLoginMethods (account : string) : M (bool * list string) :=
  u <~ apiURL "/api/lookup" ;;
  resp <~ post u (JObj [("forget_password", JBool false); ("user_name", JStr account)])
    (dec_struct [("mfa", via fst (fun v (r : bool * list string) => (v, r.2)) dec_bool);
                 ("auth", via snd (fun v (r : bool * list string) => (r.1, v)) strings)]) (false, []) ;;
  check_code "lookup login methods" resp.
(** The password as it is sent. *)
Definition hashed (password : string) : string :=
  if (String.length password =? 64)%nat then password else hexString (sha256_Sum (bytes_of password)).
Definition loginWithPassword (account password : string) (ldap : bool) : M unit :=
  let account := TrimSpace account in
  req <~ (if ldap then
            methods <~ CorplinkLoginMethods account ;;
            if bool_decide ("password" ∈ methods.2)
            then ret (JObj [("password", JStr password); ("user_name", JStr account); ("platform", JStr "ldap")])
            else fail (Errorf "lookup login methods: password auth unavailable" [])
          else ret (JObj [("password", JStr (hashed password)); ("user_name", JStr account)])) ;;
  u <~ apiURL "/api/login" ;;
  resp <~ post u req dec_url "" ;;
  loginURL <~ check_code "login" resp ;;
  extractAndSaveTOTPSecret loginURL.
Definition LoginWithPassword (account password : string) : M unit :=
  p <~ gets (fun s => platform (client s)) ;; loginWithPassword account password (bool_decide (p = "ldap")).
Definition LoginWithLDAPPassword (account password : string) : M unit := loginWithPassword account password true.
Definition LoginV1 (account password : string) : M unit :=
  u <~ apiURL "/api/v1/login" ;;
  resp <~ post (u +:+ "&client_source=FeiLian")
    (JObj [("login_scene", JStr "feilian"); ("account_type", JStr "userid"); ("account", JStr account);
           ("password", JStr (feilianV1EncryptPassword password))])
    (dec_struct [("result", via (fun x => x) (fun v _ => v) dec_string)]) "" ;;
  res <~ check_code "v1 login" resp ;;
  if bool_decide (res = "success") then extractAndSaveTOTPSecret ""
  else fail (Errorf "v1 login returned unexpected result: %s" [res]).

(** *** auth.go *)
Definition SendCode (codeType account : string) : M unit :=
  u <~ apiURL "/api/login/code/send" ;;
  resp <~ post u (JObj [("forget_password", JBool false); ("code_type", JStr codeType); ("user_name", JStr account)]) dec_any tt ;;
  check_code "send code" resp.
Definition VerifyCode (codeType account code : string) : M unit :=
  u <~ apiURL "/api/login/code/verify" ;;
  resp <~ post u (JObj [("forget_password", JBool false); ("code_type", JStr codeType); ("user_name", JStr account);
                        ("code", JStr code)]) dec_url "" ;;
  loginURL <~ check_code "verify code" resp ;;
  extractAndSaveTOTPSecret loginURL.
Definition zeroTps : string * string * string := ("", "", "").
Definition dec_tpsItem : decoder (string * string * string) := dec_struct [
  ("alias_key", via (fun r => r.1.1) (fun v (r : string * string * string) => (v, r.1.2, r.2)) dec_string);
  ("login_url", via (fun r => r.1.2) (fun v (r : string * string * string) => (r.1.1, v, r.2)) dec_string);
  ("token", via snd (fun v (r : string * string * string) => (r.1, v)) dec_string)].
Definition GetQRCode : M QRCodeResult :=
  u <~ apiURL "/api/tpslogin/link" ;;
  resp <~ get u (dec_slice dec_tpsItem zeroTps) [] ;;
  items <~ check_code "get qr code" resp ;;
  match items with
  | [] => fail (Errorf "get qr code: no TPS items returned" [])
  | item :: _ => ret (mkQRCodeResult item.1.2 item.2)
  end.
(** [rounds]: what the clock shows at the start of each round and whether the
    context is done by the end of its wait; [None] if the rounds end first. *)
Fixpoint poll (token : string) (deadline : Z) (rounds : list (Z * bool)) : M (option unit) :=
  match rounds with
  | [] => ret None
  | (now, done) :: rounds =>
      if deadline <? now then fail (Errorf "QR login timed out after 3 minutes" [])
      else if done : bool then fail (Errorf "context canceled" [])
      else
        u <~ apiURL "/api/tpslogin/token/check" ;;
        r <~ try (post u (JObj [("token", JStr token)]) dec_url "") ;;
        match r with
        | Err _ => poll token deadline rounds
        | Ok resp =>
            if Code resp =? 0 then extractAndSaveTOTPSecret (Data resp) ;;; ret (Some tt)
            else if Code resp =? 101 then poll token deadline rounds
            else fail (Errorf "qr login error: %s" [Message resp])
        end
  end.
Definition PollQRLogin (token : string) (start : Z) (rounds : list (Z * bool)) : M (option unit) :=
  poll token (start + 180 * 1000000000) rounds.
Definition Logout : M unit :=
  u <~ apiURL "/api/logout" ;;
  _r <~ try (get (u +:+ "&logout_all=false") dec_any tt) ;;
  modify (fun s => rebuildJar (with_session (fun x => set_secret "" (set_cookies [] x)) s)).

(** *** vpn.go *)
Definition zeroNode : VPNNode := mkVPNNode 0 "" "" 0 0 0 0 0.
Definition dec_node : decoder VPNNode := dec_struct [
  ("id", via ID (fun v n => mkVPNNode v (Name n) (IP_ n) (APIPort n) (VPNPort n) (ProtocolMode n) (Timeout_ n) (LatencyMs n)) dec_int);
  ("name", via Name (fun v n => mkVPNNode (ID n) v (IP_ n) (APIPort n) (VPNPort n) (ProtocolMode n) (Timeout_ n) (LatencyMs n)) dec_string);
  ("ip", via IP_ (fun v n => mkVPNNode (ID n) (Name n) v (APIPort n) (VPNPort n) (ProtocolMode n) (Timeout_ n) (LatencyMs n)) dec_string);
  ("api_port", via APIPort (fun v n => mkVPNNode (ID n) (Name n) (IP_ n) v (VPNPort n) (ProtocolMode n) (Timeout_ n) (LatencyMs n)) dec_int);
  ("vpn_port", via VPNPort (fun v n => mkVPNNode (ID n) (Name n) (IP_ n) (APIPort n) v (ProtocolMode n) (Timeout_ n) (LatencyMs n)) dec_int);
  ("protocol_mode", via ProtocolMode (fun v n => mkVPNNode (ID n) (Name n) (IP_ n) (APIPort n) (VPNPort n) v (Timeout_ n) (LatencyMs n)) dec_int);
  ("timeout", via Timeout_ (fun v n => mkVPNNode (ID n) (Name n) (IP_ n) (APIPort n) (VPNPort n) (ProtocolMode n) v (LatencyMs n)) dec_int)].
Definition ListNodes : M (list VPNNode) :=
  u <~ apiURL "/api/vpn/list" ;;
  resp <~ get u (dec_slice dec_node zeroNode) [] ;;
  check_code "list nodes" resp.
Definition node_url (node : VPNNode) : string := "https://" +:+ IP_ node +:+ ":" +:+ itoa (APIPort node).
(** The latency, 9999 on failure, and the error; [elapsed] in milliseconds. *)
Definition PingNode (node : VPNNode) (elapsed : Z) : M (Z * option error) :=
  modify (CopySessionCookiesToURL (node_url node)) ;;;
  r <~ try (get (node_url node +:+ "/vpn/ping?" +:+ osQuery) dec_any tt) ;;
  ret match r with Err e => (9999, Some e) | Ok _ => (elapsed, None) end.

Definition zeroConn : wgConnRespData := mkWgConnRespData "" "" 0 "" "" [] [].
Definition dec_setting : decoder wgConnRespData := dec_struct [
  ("vpn_mtu", via VpnMTU (fun v r => mkWgConnRespData (d_IP r) (d_PublicKey r) v (VpnDNS r) (VpnDNSBackup r) (VpnDNSDomainSplit r) (VpnRouteSplit r)) dec_int);
  ("vpn_dns", via VpnDNS (fun v r => mkWgConnRespData (d_IP r) (d_PublicKey r) (VpnMTU r) v (VpnDNSBackup r) (VpnDNSDomainSplit r) (VpnRouteSplit r)) dec_string);
  ("vpn_dns_backup", via VpnDNSBackup (fun v r => mkWgConnRespData (d_IP r) (d_PublicKey r) (VpnMTU r) (VpnDNS r) v (VpnDNSDomainSplit r) (VpnRouteSplit r)) dec_string);
  ("vpn_dns_domain_split", via VpnDNSDomainSplit (fun v r => mkWgConnRespData (d_IP r) (d_PublicKey r) (VpnMTU r) (VpnDNS r) (VpnDNSBackup r) v (VpnRouteSplit r)) strings);
  ("vpn_route_split", via VpnRouteSplit (fun v r => mkWgConnRespData (d_IP r) (d_PublicKey r) (VpnMTU r) (VpnDNS r) (VpnDNSBackup r) (VpnDNSDomainSplit r) v) strings)].
Definition dec_conn : decoder wgConnRespData := dec_struct [
  ("ip", via d_IP (fun v r => mkWgConnRespData v (d_PublicKey r) (VpnMTU r) (VpnDNS r) (VpnDNSBackup r) (VpnDNSDomainSplit r) (VpnRouteSplit r)) dec_string);
  ("public_key", via d_PublicKey (fun v r => mkWgConnRespData (d_IP r) v (VpnMTU r) (VpnDNS r) (VpnDNSBackup r) (VpnDNSDomainSplit r) (VpnRouteSplit r)) dec_string);
  ("setting", dec_setting)].
(** [netip.ParseAddr]; addresses with a zone are not in the model. *)
Definition netip_addr (s : string) : option WGDevice.Addr := ParseAddr s.
Definition conn_info (node : VPNNode) (d : wgConnRespData) : result WGConnInfo :=
  match netip_addr (d_IP d) with
  | None => Err (Errorf "parse vpn ip %q: %w" [d_IP d])
  | Some vpnIP =>
      let dns := omap (fun s => if bool_decide (s = "") then None else netip_addr s) [VpnDNS d; VpnDNSBackup d] in
      Ok (mkWGConnInfo vpnIP (d_PublicKey d) (VpnMTU d) dns (VpnRouteSplit d) (VpnDNSDomainSplit d)
            (ProtocolMode node) (IP_ node +:+ ":" +:+ itoa (VPNPort node)))
  end.
Definition GetWGConfig (now : Z) (node : VPNNode) (clientPublicKeyB64 totpSecret : string) : M WGConnInfo :=
  modify (CopySessionCookiesToURL (node_url node)) ;;;
  otp <~ (if bool_decide (totpSecret = "") then ret ""
          else
            offset <~ gets (fun s => dateOffsetSec (client s)) ;;
            match TOTPWithOffset now totpSecret offset with
            | Ok otp => ret otp
            | Err e => fail (Wrapf "totp: %w" [] e)
            end) ;;
  resp <~ post (node_url node +:+ "/vpn/conn?" +:+ osQuery)
    (JObj [("public_key", JStr clientPublicKeyB64); ("otp", JStr otp)]) dec_conn zeroConn ;;
  d <~ check_code "get wg config" resp ;;
  match conn_info node d with Ok i => ret i | Err e => fail e end.
(** [None] is the nil answer of an alert. *)
Definition ReportVPN (node : VPNNode) (vpnIP publicKeyB64 : string) : M (option VPNSettings) :=
  modify (CopySessionCookiesToURL (node_url node)) ;;;
  resp <~ post (node_url node +:+ "/vpn/report?" +:+ osQuery)
    (JObj [("ip", JStr vpnIP); ("public_key", JStr publicKeyB64); ("mode", JStr "Split"); ("type", JStr "100")]) dec_conn zeroConn ;;
  if Code resp =? 0 then ret (Some (mkVPNSettings (VpnRouteSplit (Data resp)) (VpnDNSDomainSplit (Data resp))))
  else if (Code resp =? 1000) && bool_decide (Action resp = "alert") then ret None
  else fail (Errorf "vpn report: %s" [Message resp]).
End client.
