(* ===== verification/CorplinkProofs.v ===== *)
(** * internal/corplink: what the session, the log and the login promise *)
From S2P Require Import Prelude GoStrings GoNet Json Totp Corplink.
From S2P Require Config.
Open Scope string_scope.
Open Scope list_scope.
Open Scope Z_scope.

(** ** The log of bodies *)
Section redacted.
Context {U : Unicode}.
(** No member at any depth has a sensitive name. *)
Fixpoint clean (v : json) : bool :=
  match v with
  | JObj kvs => forallb (fun '(k, child) => negb (sensitiveHTTPLogKey k) && clean child) kvs
  | JArr l => forallb clean l
  | _ => true
  end.
Section json_induction.
Variable P : json -> Prop.
Hypothesis Hnull : P JNull.
Hypothesis Hbool : forall b, P (JBool b).
Hypothesis Hnum : forall s, P (JNum s).
Hypothesis Hstr : forall s, P (JStr s).
Hypothesis Harr : forall l, Forall P l -> P (JArr l).
Hypothesis Hobj : forall kvs, Forall (fun kv => P kv.2) kvs -> P (JObj kvs).
Fixpoint json_induction (v : json) : P v :=
  match v with
  | JNull => Hnull
  | JBool b => Hbool b
  | JNum s => Hnum s
  | JStr s => Hstr s
  | JArr l => Harr l ((fix go l : Forall P l :=
      match l with [] => List.Forall_nil _ | x :: l => @List.Forall_cons _ _ x l (json_induction x) (go l) end) l)
  | JObj kvs => Hobj kvs ((fix go l : Forall (fun kv => P kv.2) l :=
      match l with [] => List.Forall_nil _ | x :: l => @List.Forall_cons _ _ x l (json_induction x.2) (go l) end) kvs)
  end.
End json_induction.

Lemma last_wins_elem {A} (kvs : list (string * A)) kv : kv ∈ last_wins kvs -> kv ∈ kvs.
Proof.
  induction kvs as [|[k v] l IH]; cbn [last_wins]; [done|].
  case_bool_decide; rewrite ?elem_of_cons; intuition.
Qed.
Lemma last_wins_nodup {A} (kvs : list (string * A)) : NoDup kvs.*1 -> last_wins kvs = kvs.
Proof.
  induction kvs as [|[k v] l IH]; cbn [last_wins fmap list_fmap]; [done|].
  intros [Hk Hl]%NoDup_cons. by rewrite bool_decide_eq_false_2, IH.
Qed.
Lemma redact_clean v : clean (redactJSONValue v) = true.
Proof.
  induction v as [| | | |l IH|kvs IH] using json_induction; try done; cbn [redactJSONValue].
  - cbn [clean]. apply forallb_forall. intros x (y & <- & Hy)%in_map_iff. rewrite Forall_forall in IH. apply IH. by apply list_elem_of_In.
  - set (children := last_wins _). assert (forall k c, (k, c) ∈ children -> clean c = true) as Hc.
    { intros k c Hi%last_wins_elem. apply list_elem_of_In, in_map_iff in Hi as ([k' c'] & [= -> <-] & Hy).
      rewrite Forall_forall in IH. apply (IH (k, c')). by apply list_elem_of_In. }
    set (kept := filter _ children).
    assert (clean (JObj kept) = true) as Hk.
    { cbn [clean]. apply forallb_forall. intros [k c] Hi%list_elem_of_In.
      apply list_elem_of_filter in Hi as [Hs Hi]. cbn in Hs. by rewrite Hs, (Hc _ _ Hi). }
    destruct (forallb _ _); [done|]. unfold set_member. cbn [clean] in *. rewrite forallb_app. apply andb_true_iff.
    split; [|done]. rewrite forallb_forall in *. intros x Hi%list_elem_of_In. apply list_elem_of_filter in Hi as [_ Hi].
    apply Hk. by apply list_elem_of_In.
Qed.

End redacted.

(** ** The session *)
Section session.
Context {U : Unicode} {L : URLLib} {J : CookieJar} {Hd : Digests} {D : Type}.
Context (root : url -> Prop) {JL : CookieJarLaws root}.
Context (json_parse : string -> option json) (json_print : json -> string).
Context (http : list (@request D) -> @request D -> string + response).
Abbreviation State := (@State L J D).
Implicit Types s : State.

Lemma dec_cookie_json c : dec_cookie zeroCookie (cookie_json c) = c.
Proof. by destruct c. Qed.
Lemma dec_cookies_json l : dec_cookies [] (JArr (map cookie_json l)) = Ok l.
Proof.
  cbn [dec_cookies]. f_equal. induction l as [|c l IH]; [done|]. cbn [map lenient_elems head tail default].
  by rewrite dec_cookie_json, IH.
Qed.
Lemma dec_session_json ses p :
  dec_Session (mkSession "" "" "" "" "" [] p 0) (session_json ses) =
  mkSession (CompanyName ses) (Server ses) (DeviceID ses) (DeviceName ses) (TOTPSecret ses) (SavedCookies ses) p 0.
Proof.
  destruct ses as [cn sv di dn ts ck q j]. unfold session_json. cbn [CompanyName Server DeviceID DeviceName TOTPSecret SavedCookies].
  pose proof (dec_cookies_json ck) as E.
  destruct (decide (ts = "")) as [->|Ht]; destruct (decide (ck = [])) as [->|Hc];
    rewrite ?(bool_decide_eq_true_2 _ eq_refl), ?(bool_decide_eq_false_2 (ts = "")), ?(bool_decide_eq_false_2 (ck = [])) by done;
    lazy -[dec_cookies cookie_json map]; rewrite ?E; reflexivity.
Qed.

Lemma session_cookies_split ses : exists l, session_cookies ses = l ++ SavedCookies ses.
Proof. unfold session_cookies. rewrite app_assoc. by eexists. Qed.
(** The jar of a session whose saved cookies came out of a jar has them all. *)
Lemma built_jar_keeps ses u c : Server ses <> "" -> url_Parse (Server ses) = Some u -> root u ->
  NoDup (map ck_Name (SavedCookies ses)) -> c ∈ SavedCookies ses ->
  ck_Name c <> "" -> ck_Domain c = "" -> ck_Path c = "" -> c ∈ Cookies u (built_jar ses).
Proof.
  intros Hs Hu Hr Hn Hc H1 H2 H3. unfold built_jar. rewrite bool_decide_eq_false_2, Hu by done.
  destruct (session_cookies_split ses) as [l ->]. apply list_elem_of_split in Hc as (l1 & l2 & E). rewrite E in *.
  rewrite app_assoc. replace c with (mkCookie (ck_Name c) (ck_Value c) "" "") at 1 by (destruct c; cbn in *; by subst).
  apply (jar_keeps (root := root)); try done; [by left|].
  rewrite map_app in Hn. apply NoDup_app in Hn as (_ & _ & Hn). cbn [map] in Hn. apply NoDup_cons in Hn as [Hn _].
  apply Forall_forall. intros d Hd' Hdn. apply Hn. rewrite <- Hdn. by apply list_elem_of_fmap_2.
Qed.


(** [IsAuthenticated] does not tell a session that is logged in from one that
    was logged out: the device's own cookies are in every jar. *)
Lemma saved_is_authenticated s u : Server (session s) <> "" -> url_Parse (Server (session s)) = Some u -> root u ->
  get_jar s (ses_jar (session s)) = built_jar (session s) -> DeviceID (session s) <> "" -> SavedCookies (session s) = [] ->
  IsAuthenticated (fst (Save json_print true s)) = true.
Proof.
  intros Hs Hu Hr Hj Hi Hc. unfold Save, IsAuthenticated. cbn [negb fst session]. unfold syncCookiesFromJar.
  rewrite (bool_decide_eq_false_2 (Server (session s) = "")), Hu by done. cbn [session with_session].
  unfold set_cookies. cbn [Server SavedCookies]. rewrite bool_decide_eq_false_2 by done. cbn [negb andb].
  apply Nat.ltb_lt. enough (Cookies u (get_jar s (ses_jar (session s))) <> []) by (destruct (Cookies _ _); [done|cbn; lia]).
  rewrite Hj. unfold built_jar. rewrite bool_decide_eq_false_2, Hu by done. unfold session_cookies.
  rewrite Hc, app_nil_r, (bool_decide_eq_false_2 (DeviceID _ = "")) by done. cbn [app].
  intros E. apply (not_elem_of_nil (mkCookie "device_id" (DeviceID (session s)) "" "")). rewrite <- E.
  apply (jar_keeps (root := root) u [] (mkCookie "device_id" (DeviceID (session s)) "" "/")); try done; [by right|].
  case_bool_decide; [constructor|]. by apply Forall_singleton.
Qed.
Lemma get_jar_rebuilt s : get_jar (rebuildJar s) (length (jars s)) = built_jar (session s).
Proof. unfold get_jar, rebuildJar. cbn [jars]. by rewrite lookup_app_r, Nat.sub_diag by lia. Qed.
Lemma do_session {T} method u body (d : decoder T) z s : session (fst (do http method u body d z s)) = session s.
Proof. unfold do. destruct (url_Parse u); [|done]. by destruct (http _ _). Qed.
Lemma logged_out_still_authenticated s u : url_Parse (Server (session s)) = Some u -> root u ->
  Server (session s) <> "" -> DeviceID (session s) <> "" ->
  let s1 := fst (Logout http s) in
  TOTPSecret (session s1) = "" /\ IsAuthenticated (fst (Save json_print true s1)) = true.
Proof.
  intros Hu Hr Hs Hi. cbn zeta.
  assert (exists s0, session s0 = session s /\
    fst (Logout http s) = rebuildJar (with_session (fun x => set_secret "" (set_cookies [] x)) s0)) as (s0 & E0 & ->).
  { unfold Logout, apiURL, gets, bind, try, get, modify.
    match goal with |- context [do http ?m ?a ?b dec_any tt s] => pose proof (do_session m a b dec_any tt s) as E;
      destruct (do http m a b dec_any tt s) as [s0 r0] end. by exists s0. }
  split; [done|].
  apply (saved_is_authenticated _ u); cbn [session rebuildJar with_session]; rewrite ?E0; try done.
  rewrite <- E0. match goal with |- get_jar (rebuildJar ?x) _ = _ => exact (get_jar_rebuilt x) end.
Qed.

(** Another company: the cookies saved from the old server go to the new one,
    since [rebuildJar] gives them no host. *)
Lemma discover_session code s s' : DiscoverCompany http code s = (s', Ok tt) ->
  exists domain s0, domain <> "" /\ session s0 = session s /\
    session s' = set_jar (length (jars s0)) (mkSession code domain (DeviceID (session s)) (DeviceName (session s))
      (TOTPSecret (session s)) (SavedCookies (session s)) (path (session s)) (ses_jar (session s))) /\
    get_jar s' (ses_jar (session s')) = built_jar (session s').
Proof.
  unfold DiscoverCompany, bind, gets, post.
  match goal with |- context [do http ?m ?a ?b ?d ?z s] => pose proof (do_session m a b d z s) as E;
    destruct (do http m a b d z s) as [s0 [resp|e] ] end; [|done].
  unfold check_code. destruct (Code resp =? 0); [|done]. cbn [ret]. case_bool_decide as Hdom; [done|].
  cbn [modify fst]. intros [= <-]. cbn [fst] in E. exists (Data resp), s0. split_and!; try done.
  - cbn. by rewrite E.
  - cbn [session with_client]. unfold get_jar. cbn [jars with_client rebuildJar session ses_jar set_jar with_session].
    by rewrite lookup_app_r, Nat.sub_diag by lia.
Qed.
Lemma company_switch_sends_cookies code s s' u c : DiscoverCompany http code s = (s', Ok tt) ->
  url_Parse (Server (session s')) = Some u -> root u ->
  NoDup (map ck_Name (SavedCookies (session s))) -> c ∈ SavedCookies (session s) ->
  ck_Name c <> "" -> ck_Domain c = "" -> ck_Path c = "" ->
  c ∈ injected_cookies s'.
Proof.
  intros (domain & s0 & Hdom & E0 & E & Ej)%discover_session Hu Hr Hn Hc H1 H2 H3.
  unfold injected_cookies. rewrite Hu, Ej. rewrite bool_decide_eq_false_2 by (rewrite E; done).
  apply built_jar_keeps; rewrite ?E; try done. by rewrite <- Hu, E.
Qed.
(** After a logout the HTTP client keeps the old jar, into which answers put
    their cookies, until the client is configured again. *)
Lemma logout_splits_jars s : (hc_Jar (client s) < length (jars s))%nat ->
  let s1 := fst (Logout http s) in
  hc_Jar (client s1) <> ses_jar (session s1) /\
  forall dial, hc_Jar (client (SetDialContext dial s1)) = ses_jar (session (SetDialContext dial s1)).
Proof.
  intros Hlt. cbn zeta. split; [|done]. unfold Logout, apiURL, gets, bind, try, get, modify, do.
  assert (forall x, (hc_Jar (client s) < length (<[hc_Jar (client s) := x]> (jars s)))%nat) as Hl
    by (intros x; by rewrite length_insert).
  destruct (url_Parse _); cbn; [|lia]. destruct (http _ _) as [why|resp]; cbn; [lia|].
  rewrite length_insert. destruct (Date resp); cbn; lia.
Qed.
End session.

(** ** Logging in *)
Section login.
Context {U : Unicode} {L : URLLib} {J : CookieJar} {Hd : Digests} {D : Type}.
Context (http : list (@request D) -> @request D -> string + response).

Lemma login_methods_spec d : NoDup (login_methods d) /\
  (forall m, m ∈ login_methods d -> m ∈ ["password"; "email"; "mobile"; "lark"]) /\
  ("password" ∈ login_methods d -> "password" ∈ ls_verify d).
Proof.
  unfold login_methods. split; [apply NoDup_dedup_with|].
  assert (forall m, m ∈ concat (map (order_methods d) (ls_orders d)) ++ (if ls_scan d then filter (fun tps => tps = "lark") (ls_tps d) else []) ->
    m ∈ ["password"; "email"; "mobile"; "lark"] /\ (m = "password" -> "password" ∈ ls_verify d)) as H.
  { intros m [Hm|Hm]%elem_of_app.
    - apply list_elem_of_In, in_concat in Hm as (l & (o & <- & _)%in_map_iff & Hm%list_elem_of_In).
      unfold order_methods in Hm. repeat case_bool_decide; try destruct (ls_ldap d);
        rewrite ?elem_of_app, ?list_elem_of_filter, ?elem_of_cons, ?elem_of_nil in Hm; set_solver.
    - destruct (ls_scan d); [|by apply elem_of_nil in Hm]. apply list_elem_of_filter in Hm as [-> _]. set_solver. }
  split; [intros m Hm | intros Hm]; apply elem_of_dedup_with in Hm as [Hm _]; by apply H in Hm as [? Hp]; auto.
Qed.

(** A QR login ends: rounds are two seconds apart, and by the ninety-second one
    the deadline has passed. *)
Theorem qr_login_ends token start rounds s :
  (forall i now dn, rounds !! i = Some (now, dn) -> start + 2000000000 * Z.of_nat i <= now) ->
  (92 <= length rounds)%nat -> snd (PollQRLogin http token start rounds s) <> Ok None.
Proof.
  intros Ht Hl. unfold PollQRLogin. set (deadline := start + _).
  assert (exists now dn, (now, dn) ∈ rounds /\ deadline < now) as Hlate.
  { destruct (lookup_lt_is_Some_2 rounds 91) as [ [now dn] Hi]; [lia|]. exists now, dn.
    split; [by eapply list_elem_of_lookup_2|]. specialize (Ht _ _ _ Hi). unfold deadline. lia. }
  clear Ht Hl. revert s. induction rounds as [|[now dn] rounds IH]; intros s.
  { destruct Hlate as (? & ? & H%elem_of_nil & _). done. }
  cbn [poll]. destruct (Z.ltb_spec deadline now); [done|]. destruct dn; [done|].
  assert (exists now dn, (now, dn) ∈ rounds /\ deadline < now) as Hlate'.
  { destruct Hlate as (n & e & [Heq|Hin]%elem_of_cons & ?); [|by exists n, e]. injection Heq as -> ->. lia. }
  specialize (IH Hlate'). unfold apiURL, gets, bind, try.
  destruct (post http _ _ _ _ s) as [s0 [resp|e] ]; [|apply IH]. destruct (Code resp =? 0).
  - destruct (extractAndSaveTOTPSecret _ _ _) as [s1 [x|e] ]; done.
  - destruct (Code resp =? 101); [apply IH | done].
Qed.
End login.
