(* ===== verification/CorplinkSample.v ===== *)
(** * internal/corplink on concrete servers

    A parser of simple URLs and a jar of host cookies with their laws, and the
    client at work: the hypotheses of CorplinkProofs.v hold, and what the
    client does that its comments do not say. *)
From S2P Require Import Prelude GoStrings GoNet Json Totp Corplink CorplinkProofs.
From S2P Require Config.
Open Scope string_scope.
Open Scope list_scope.
Open Scope Z_scope.

(** scheme, host, the rest *)
#[local] Instance sample_url : URLLib := {|
  url := string * string * string;
  url_Parse := fun s =>
    match Cut s "://" with
    | None => None
    | Some (scheme, rest) => match Cut rest "/" with Some (h, p) => Some (scheme, h, "/" +:+ p) | None => Some (scheme, rest, "") end
    end;
  u_Scheme := fun u => u.1.1;
  u_Host := fun u => u.1.2;
  u_Hostname := fun u => u.1.2;
  u_Query := fun u k => match Cut u.2 (k +:+ "=") with
                        | Some (_, v) => match Cut v "&" with Some (v, _) => v | None => v end
                        | None => "" end;
  u_clear_User := fun u => u;
  u_set_Host := fun h u => (u.1.1, h, u.2);
  u_String := fun u => u.1.1 +:+ "://" +:+ u.1.2 +:+ u.2 |}.
Definition host_cookie (c : SerialCookie) : bool :=
  negb (bool_decide (ck_Name c = "")) && bool_decide (ck_Domain c = "") && (bool_decide (ck_Path c = "") || bool_decide (ck_Path c = "/")).
Definition put_cookie (m : gmap string string) (c : SerialCookie) : gmap string string :=
  if host_cookie c then <[ck_Name c := ck_Value c]> m else m.
Definition host_cookies (j : gmap string (gmap string string)) (u : string * string * string) : gmap string string := default ∅ (j !! u.1.2).
Definition set_host (u : string * string * string) (l : list SerialCookie) (j : gmap string (gmap string string))
  : gmap string (gmap string string) := <[u.1.2 := foldl put_cookie (host_cookies j u) l]> j.
Definition list_host (u : string * string * string) (j : gmap string (gmap string string)) : list SerialCookie :=
  (fun '(k, v) => mkCookie k v "" "") <$> filter (fun kv => kv.1 <> "") (map_to_list (host_cookies j u)).
#[local] Instance sample_jar : CookieJar := {|
  jar := gmap string (gmap string string); jar_New := ∅; SetCookies := set_host; Cookies := list_host |}.
Lemma put_other l m k : Forall (fun d => ck_Name d <> k) l -> foldl put_cookie m l !! k = m !! k.
Proof.
  revert m. induction l as [|c l IH]; intros m; [done|]. intros [Hc Hl]%Forall_cons. cbn. rewrite IH by done.
  unfold put_cookie. destruct (host_cookie c); [by rewrite lookup_insert_ne|done].
Qed.
Lemma host_set u l j : host_cookies (set_host u l j) u = foldl put_cookie (host_cookies j u) l.
Proof. unfold host_cookies at 1, set_host. by rewrite (lookup_insert_eq (M := gmap string) j). Qed.
#[local] Instance sample_jar_laws : CookieJarLaws (fun _ => True).
Proof.
  split.
  - intros u l1 c l2 j _ H1 H2 H3 H4. change (mkCookie (ck_Name c) (ck_Value c) "" "" ∈ list_host u (set_host u (l1 ++ c :: l2) j)).
    apply list_elem_of_fmap. exists (ck_Name c, ck_Value c). split; [done|].
    apply list_elem_of_filter. split; [done|]. apply elem_of_map_to_list. rewrite host_set, foldl_app. cbn [foldl].
    rewrite put_other by done. unfold put_cookie, host_cookie.
    rewrite bool_decide_eq_false_2, (bool_decide_eq_true_2 (ck_Domain c = "")) by done.
    destruct H3 as [-> | ->]; apply (lookup_insert_eq (M := gmap string)).
  - intros u j c ([k v] & -> & [Hk _]%list_elem_of_filter)%list_elem_of_fmap. done.
  - intros u j _. change (NoDup (map ck_Name (list_host u j))). unfold list_host.
    pose proof (NoDup_fst_map_to_list (host_cookies j u)) as Hn.
    induction (map_to_list (host_cookies j u)) as [|[k v] l IH]; [constructor|].
    cbn in Hn. apply NoDup_cons in Hn as [Hk Hn]. specialize (IH Hn). rewrite filter_cons. case_decide; [|done].
    cbn. apply NoDup_cons. split; [|done]. intros (c & Hck & ([k' v'] & -> & [_ Hi]%list_elem_of_filter)%list_elem_of_fmap)%list_elem_of_fmap.
    cbn in Hck. subst. apply Hk. apply list_elem_of_fmap. by exists (k', v').
Qed.
#[local] Instance sample_digests : Digests := {|
  md5_Sum := sha1; sha256_Sum := sha1; aes_cbc := fun _ _ m => m |}.
#[local] Existing Instance ascii_only.

(** ** The session of a logged-in user *)
Definition ses : Session := mkSession "acme" "https://vpn.acme.example" "id-1" "laptop" "JBSWY3DPEHPK3PXP"
  [mkCookie "session" "s3cret" "" ""; mkCookie "csrf-token" "t0ken" "" ""] "s.json" 0.
Definition start : @State _ _ unit :=
  mkState ses (NewClientWithConfig 0 (Config.mkCorplinkConfig "" "" true false)) [built_jar ses] ∅ [].
Definition saved : json := session_json (session (syncCookiesFromJar start)).
Definition saved_text : string -> option json := fun text => if bool_decide (text = "saved") then Some saved else None.


(** ** The login answer holds the secret, and the log shows it *)
Definition login_answer : json :=
  JObj [("code", JNum "0"); ("data", JObj [("url", JStr "otpauth://totp/acme:me?secret=JBSWY3DPEHPK3PXP")])].
(** The sensitive word is in the value: the code alone is masked. *)
Lemma otp_secret_logged :
  redactJSONValue login_answer =
  JObj [("data", JObj [("url", JStr "otpauth://totp/acme:me?secret=JBSWY3DPEHPK3PXP")]); ("redacted", JStr "[masked]")] /\
  ExtractTOTPSecretFromURL "otpauth://totp/acme:me?secret=JBSWY3DPEHPK3PXP" = "JBSWY3DPEHPK3PXP".
Proof. by vm_compute. Qed.
(** A password of 64 characters, whatever they are, is sent as it is. *)
Lemma long_password_unhashed :
  let password := srepeat 16 "p@ss" in hashed password = password.
Proof. by vm_compute. Qed.

(** ** Login over a recorded server *)
Definition answer (j : json) (cookies : list SerialCookie) : string + response := inr (mkResponse 200 None cookies (Ok (Some j))).
Definition server (_ : list (@request unit)) (r : @request unit) : string + response :=
  if Contains (r_url r) "/api/login?" then answer login_answer [mkCookie "session" "new" "" "/"]
  else answer (JObj [("code", JNum "0")]) [].
Lemma login_after_logout_is_lost :
  let s1 := fst (Logout server start) in
  let '(s2, r) := LoginWithPassword server "me" "pw" s1 in
  r = Ok tt /\ TOTPSecret (session s2) = "JBSWY3DPEHPK3PXP" /\
  map ck_Name (injected_cookies s2) = ["device_id"; "device_name"] /\
  let s1 := SetDialContext None s1 in
  map ck_Name (injected_cookies (fst (LoginWithPassword server "me" "pw" s1))) = ["session"; "device_id"; "device_name"].
Proof. by vm_compute. Qed.

Lemma qr_login_ends_witness :
  snd (PollQRLogin (fun _ _ => inl "refused") "t" 0 ((fun i => (2000000000 * Z.of_nat i, false)) <$> seq 0 92) start) <> Ok None.
Proof.
  apply (qr_login_ends _ "t" 0 ((fun i => (2000000000 * Z.of_nat i, false)) <$> seq 0 92) start); [|done].
  intros i now dn. rewrite list_lookup_fmap. intros (j & Hj & [= -> ->])%fmap_Some. apply lookup_seq in Hj as [-> _]. lia.
Defined.
