(* ===== verification/SystemDNS.v ===== *)
(** * cmd/ecorplink-daemon: the system's DNS configuration

    [system_dns.go] (macOS), [system_dns_linux.go], [system_dns_windows.go]:
    pointing the system's resolver at the tunnel's DNS server, and what is
    saved and restored. The file system is a map of contents, a command sees
    which commands ran before it; on macOS the goroutine that keeps
    resolv.conf in place is a state of its own with its reading and its writing
    as separate steps. *)
From S2P Require Import Prelude GoStrings GoNet Json.
Open Scope string_scope.
Open Scope list_scope.
Open Scope Z_scope.

(** ** scutil's output and scripts *)
Definition nl : string := String (ascii_of_nat 10) "".
Definition dq : string := String (ascii_of_nat 34) "".
(** Lines trimmed, as every reader here wants them. *)
Definition lines_of (raw : string) : list string := map TrimSpace (Split raw nl).
(** The two sides of the first colon, trimmed. *)
Definition colon (line : string) : option (string * string) :=
  match Cut line ":" with Some (a, b) => Some (TrimSpace a, TrimSpace b) | None => None end.
(** The elements of an array up to its closing brace, and the lines after it. *)
Fixpoint array_vals (lines : list string) : list string * list string :=
  match lines with
  | [] => ([], [])
  | l :: lines =>
      if bool_decide (l = "}") then ([], lines)
      else let '(vals, rest) := array_vals lines in
           (match colon l with Some (_, v) => v :: vals | None => vals end, rest)
  end.
Fixpoint array_from (lines : list string) (name : string) : list string :=
  match lines with
  | [] => []
  | l :: lines => if HasPrefix l (name +:+ " : <array>") then fst (array_vals lines) else array_from lines name
  end.
Definition scutilArray (raw name : string) : list string := array_from (lines_of raw) name.
Fixpoint scalar_from (lines : list string) (name : string) : string :=
  match lines with
  | [] => ""
  | l :: lines =>
      match colon l with
      | Some (k, v) => if bool_decide (k = name) then v else scalar_from lines name
      | None => scalar_from lines name
      end
  end.
Definition scutilScalar (raw name : string) : string := scalar_from (lines_of raw) name.
(** [subKey \[\d+\] = (.+)], the dot stopping at a line break. *)
Fixpoint digits_then (s : string) (some : bool) : option string :=
  match s with
  | String c s' =>
      if is_digit c then digits_then s' true
      else if some && HasPrefix s "] = " then Some (sdrop 4 s) else None
  | EmptyString => None
  end.
Fixpoint first_subkey (fuel : nat) (line : string) : option string :=
  match fuel with
  | O => None
  | S fuel =>
      match Cut line "subKey [" with
      | None => None
      | Some (_, rest) =>
          match digits_then rest false with
          | Some key => if bool_decide (key = "") then first_subkey fuel rest else Some key
          | None => first_subkey fuel rest
          end
      end
  end.
Definition scutilSubkeys (out : string) : list string :=
  omap (fun line => TrimSpace <$> first_subkey (S (String.length line)) line) (Split out nl).

Definition isDecimal (s : string) : bool := negb (bool_decide (s = "")) && all_chars is_digit s.
Definition needs_quotes (s : string) : bool :=
  negb (all_chars (fun c => negb (bool_decide (c ∈ [" "%char; ascii_of_nat 9; ascii_of_nat 10; ascii_of_nat 34]))) s).
Definition scutilQuote (s : string) : string :=
  if bool_decide (s = "") then dq +:+ dq
  else if needs_quotes s then dq +:+ ReplaceAll s dq ("\" +:+ dq) +:+ dq else s.
(** The loop of [scutilRestoreScript]; an array takes several lines at once. *)
Fixpoint restore_lines (fuel : nat) (lines : list string) : string :=
  match fuel, lines with
  | S fuel, l :: lines =>
      if bool_decide (l ∈ [""; "<dictionary> {"; "}"]) then restore_lines fuel lines
      else match colon l with
           | None => restore_lines fuel lines
           | Some (name, value) =>
               if bool_decide (value = "<array> {") then
                 let '(vals, rest) := array_vals lines in
                 "d.add " +:+ name +:+ " *" +:+ fold_right (fun v s => " " +:+ scutilQuote v +:+ s) "" vals +:+ nl +:+
                 restore_lines fuel rest
               else
                 (if isDecimal value then "d.add " +:+ name +:+ " # " +:+ value +:+ nl
                  else "d.add " +:+ name +:+ " " +:+ scutilQuote value +:+ nl) +:+ restore_lines fuel lines
           end
  | _, _ => ""
  end.
Definition scutilRestoreScript (key raw : string) : string :=
  "open" +:+ nl +:+ "d.init" +:+ nl +:+ restore_lines (length (lines_of raw)) (lines_of raw) +:+
  "set " +:+ key +:+ nl +:+ "quit" +:+ nl.

Definition ownServiceDNSKey (tunName : string) : string := "State:/Network/Service/" +:+ tunName +:+ "/DNS".
Definition ownServiceDNSScript (tunName serverIP : string) (ifIndex : Z) : string :=
  Join ["open"; "d.init"; "d.add ConfirmedServiceID " +:+ tunName; "d.add SearchOrder # 0";
        "d.add ServerAddresses * " +:+ serverIP; "d.add ServerPort # 53"; "d.add SupplementalMatchDomains * " +:+ dq +:+ dq;
        "d.add __CONFIGURATION_ID__ " +:+ dq +:+ "Supplemental: " +:+ tunName +:+ " 0" +:+ dq; "d.add __FLAGS__ # 16390";
        "d.add __IF_INDEX__ # " +:+ itoa ifIndex; "d.add __ORDER__ # 0"; "set " +:+ ownServiceDNSKey tunName; "quit"; ""] nl.
Definition resolvConfContent (serverIP : string) : string :=
  "# ecorplink managed; restored on stop" +:+ nl +:+ "nameserver " +:+ serverIP +:+ nl +:+ "options timeout:1 attempts:2" +:+ nl.
Definition pfDNSRedirectRules (serverIP : string) : string :=
  let rule proto := "rdr pass on lo0 inet proto " +:+ proto +:+ " from any to 127.0.0.1 port 53 -> " +:+ serverIP +:+ " port 53" +:+ nl in
  rule "udp" +:+ rule "tcp".
Definition firstUsableSystemDNSUpstream (raw : string) : string :=
  let port := scutilScalar raw "ServerPort" in
  let port := if bool_decide (port = "") then "53" else port in
  match find_first (fun addr => negb (bool_decide (ParseIP addr = [])) && negb (IsLoopback (ParseIP addr)))
          (scutilArray raw "ServerAddresses") with
  | Some addr => JoinHostPort addr port
  | None => ""
  end.

(** ** The machine *)
(** A command line and its standard input. *)
Definition command := (list string * string)%type.
Record World := mkWorld {
  files : gmap string string;
  ran : list command;
  (** the goroutine of [startResolvConfMaintainer]: the server it writes for,
      and whether it read a file that it is about to replace *)
  maintainer : option string;
  writing : option string }.
Record Host := mkHost {
  exec : list command -> command -> result string;
  LookPath : string -> bool;
  writable : string -> bool;
  statePath : string;
  interfaces : list (Z * list IP) }.

Section dns.
Context {U : Unicode} (json_parse : string -> option json) (json_print : json -> string) (h : Host).

Definition set_files (f : gmap string string) (w : World) : World := mkWorld f (ran w) (maintainer w) (writing w).
Definition run (c : command) (w : World) : World * result string :=
  (mkWorld (files w) (ran w ++ [c]) (maintainer w) (writing w), exec h (ran w) c).
Definition ReadFile (p : string) (w : World) : result string :=
  match files w !! p with Some s => Ok s | None => Err (Errorf "open %s" [p]) end.
Definition WriteFile (p content : string) (w : World) : World * option error :=
  if writable h p then (set_files (<[p := content]> (files w)) w, None) else (w, Some (Errorf "open %s" [p])).
Definition Remove (p : string) (w : World) : World := set_files (delete p (files w)) w.
Definition resolvConf : string := "/etc/resolv.conf".
Definition first_error (r : World * option error) (k : World -> World * option error) : World * option error :=
  match r with (w, None) => k w | (w, Some e) => (w, Some e) end.
Definition forget {A} (r : World * A) : World := fst r.
Definition save_state (j : json) (w : World) : World * option error := WriteFile (statePath h) (json_print j) w.
Definition load_state {A} (d : decoder A) (zero : A) (w : World) : result A :=
  s ← ReadFile (statePath h) w;
  match json_parse s with Some j => d zero j | None => Err (Errorf "invalid JSON" []) end.

(** *** macOS *)
Record darwinState := mkDarwinState {
  ServiceKey : string; ManagedServiceKey : bool; GlobalScutil : string; PFEnabled : bool;
  ResolvConfPath : string; ResolvConfContent : string; Applied : bool }.
Definition zeroDarwin : darwinState := mkDarwinState "" false "" false "" "" false.
Definition darwin_json (s : darwinState) : json :=
  JObj [("service_key", JStr (ServiceKey s)); ("managed_service_key", JBool (ManagedServiceKey s));
        ("global_scutil", JStr (GlobalScutil s)); ("pf_enabled", JBool (PFEnabled s));
        ("resolv_conf_path", JStr (ResolvConfPath s)); ("resolv_conf_content", JStr (ResolvConfContent s));
        ("applied", JBool (Applied s))].
Definition dec_darwin : decoder darwinState := dec_struct [
  ("service_key", via ServiceKey (fun v s => mkDarwinState v (ManagedServiceKey s) (GlobalScutil s) (PFEnabled s) (ResolvConfPath s) (ResolvConfContent s) (Applied s)) dec_string);
  ("managed_service_key", via ManagedServiceKey (fun v s => mkDarwinState (ServiceKey s) v (GlobalScutil s) (PFEnabled s) (ResolvConfPath s) (ResolvConfContent s) (Applied s)) dec_bool);
  ("global_scutil", via GlobalScutil (fun v s => mkDarwinState (ServiceKey s) (ManagedServiceKey s) v (PFEnabled s) (ResolvConfPath s) (ResolvConfContent s) (Applied s)) dec_string);
  ("pf_enabled", via PFEnabled (fun v s => mkDarwinState (ServiceKey s) (ManagedServiceKey s) (GlobalScutil s) v (ResolvConfPath s) (ResolvConfContent s) (Applied s)) dec_bool);
  ("resolv_conf_path", via ResolvConfPath (fun v s => mkDarwinState (ServiceKey s) (ManagedServiceKey s) (GlobalScutil s) (PFEnabled s) v (ResolvConfContent s) (Applied s)) dec_string);
  ("resolv_conf_content", via ResolvConfContent (fun v s => mkDarwinState (ServiceKey s) (ManagedServiceKey s) (GlobalScutil s) (PFEnabled s) (ResolvConfPath s) v (Applied s)) dec_string);
  ("applied", via Applied (fun v s => mkDarwinState (ServiceKey s) (ManagedServiceKey s) (GlobalScutil s) (PFEnabled s) (ResolvConfPath s) (ResolvConfContent s) v) dec_bool)].

Definition runScutil (script : string) : World -> World * result string := run (["scutil"], script).
Definition no_result (r : World * result string) : World * option error :=
  (fst r, match snd r with Ok _ => None | Err e => Some e end).
Definition showScutilKey (key : string) := runScutil ("open" +:+ nl +:+ "show " +:+ key +:+ nl +:+ "quit" +:+ nl).
Definition removeScutilKey (key : string) (w : World) :=
  no_result (runScutil ("open" +:+ nl +:+ "remove " +:+ key +:+ nl +:+ "quit" +:+ nl) w).
Definition restoreScutilDictionary (key raw : string) (w : World) := no_result (runScutil (scutilRestoreScript key raw) w).
Fixpoint supplemental_key (keys : list string) (w : World) : World * result (string * string) :=
  match keys with
  | [] => (w, Err (Errorf "no supplemental DNS service found" []))
  | key :: keys =>
      let '(w, r) := showScutilKey key w in
      match r with
      | Err _ => supplemental_key keys w
      | Ok raw => if Contains raw "SupplementalMatchDomains" && Contains raw "127.0.0.1" then (w, Ok (key, raw))
                  else supplemental_key keys w
      end
  end.
Definition findSupplementalDNSKey (w : World) : World * result (string * string) :=
  let '(w, r) := runScutil ("list State:/Network/Service/.*/DNS" +:+ nl) w in
  match r with Err e => (w, Err e) | Ok out => supplemental_key (scutilSubkeys out) w end.
Definition systemDNSOriginalUpstream (w : World) : World * string :=
  let '(w, r) := findSupplementalDNSKey w in
  (w, match r with Err _ => "" | Ok (_, raw) => firstUsableSystemDNSUpstream raw end).
Definition interfaceIndexForIP (ip : string) : result Z :=
  let target := ParseIP ip in
  if bool_decide (target = []) then Err (Errorf "invalid interface IP %q" [ip])
  else match find_first (fun '(_, addrs) => existsb (fun a => IP_Equal a target) addrs) (interfaces h) with
       | Some (i, _) => Ok i
       | None => Err (Errorf "no interface owns IP %s" [ip])
       end.

(** [ensureResolvConfDNS] in its two halves, the check and the write. *)
Definition needs_write (p serverIP : string) (w : World) : bool :=
  match ReadFile p w with Ok got => negb (bool_decide (got = resolvConfContent serverIP)) | Err _ => true end.
Definition write_checked (p serverIP : string) (w : World) : World * option error :=
  first_error (WriteFile p (resolvConfContent serverIP) w) (fun w =>
    match ReadFile p w with
    | Err e => (w, Some e)
    | Ok got => if bool_decide (got = resolvConfContent serverIP) then (w, None)
                else (w, Some (Errorf "resolv.conf write did not persist" []))
    end).
Definition ensureResolvConfDNS (p serverIP : string) (w : World) : World * option error :=
  if needs_write p serverIP w then write_checked p serverIP w else (w, None).
Definition setupResolvConfDNS (serverIP : string) : World -> World * option error := ensureResolvConfDNS resolvConf serverIP.
Definition stopResolvConfMaintainer (w : World) : World := mkWorld (files w) (ran w) None (writing w).
Definition startResolvConfMaintainer (serverIP : string) (w : World) : World :=
  mkWorld (files w) (ran w) (Some serverIP) (writing w).
(** The goroutine: a tick checks the file, the write comes later. *)
Definition maintainer_tick (w : World) : World :=
  match maintainer w with
  | Some ip => if needs_write resolvConf ip w then mkWorld (files w) (ran w) (maintainer w) (Some ip) else w
  | None => w
  end.
Definition maintainer_write (w : World) : World :=
  match writing w with
  | Some ip => forget (write_checked resolvConf ip (mkWorld (files w) (ran w) (maintainer w) None))
  | None => w
  end.

Definition setupPFDNSRedirect (serverIP : string) (w : World) : World * option error :=
  first_error (no_result (run (["pfctl"; "-a"; "com.ecorplink"; "-f"; "-"], pfDNSRedirectRules serverIP) w))
    (fun w => (forget (run (["pfctl"; "-E"], "") w), None)).
Definition cleanupPFDNSRedirect (w : World) : World := forget (run (["pfctl"; "-a"; "com.ecorplink"; "-F"; "all"], "") w).
Definition globalKey : string := "State:/Network/Global/DNS".
Definition darwin_cleanup (w : World) : World :=
  let w := stopResolvConfMaintainer w in
  match load_state dec_darwin zeroDarwin w with
  | Err _ => w
  | Ok s =>
      let w := if negb (bool_decide (GlobalScutil s = "")) then forget (restoreScutilDictionary globalKey (GlobalScutil s) w)
               else if negb (ManagedServiceKey s) then forget (removeScutilKey globalKey w) else w in
      let w := if ManagedServiceKey s && negb (bool_decide (ServiceKey s = "")) then forget (removeScutilKey (ServiceKey s) w) else w in
      let w := if PFEnabled s then cleanupPFDNSRedirect w else w in
      let w := if bool_decide (ResolvConfPath s = "") then w else forget (WriteFile (ResolvConfPath s) (ResolvConfContent s) w) in
      Remove (statePath h) w
  end.
Definition darwin_setup (tunName serverIP : string) (w : World) : World * option error :=
  if bool_decide (TrimSpace tunName = "") then (w, Some (Errorf "empty TUN name" []))
  else if bool_decide (ParseIP serverIP = []) then (w, Some (Errorf "invalid DNS server IP %q" [serverIP]))
  else
    let w := darwin_cleanup w in
    match interfaceIndexForIP serverIP with
    | Err e => (w, Some e)
    | Ok ifIndex =>
        match ReadFile resolvConf w with
        | Err e => (w, Some e)
        | Ok content =>
            first_error (save_state (darwin_json (mkDarwinState (ownServiceDNSKey tunName) true "" false resolvConf content true)) w) (fun w =>
            first_error (no_result (runScutil (ownServiceDNSScript tunName serverIP ifIndex) w)) (fun w =>
            first_error (setupResolvConfDNS serverIP w) (fun w =>
            (startResolvConfMaintainer serverIP (stopResolvConfMaintainer w), None))))
        end
    end.
Definition darwin_flush (w : World) : World :=
  forget (run (["killall"; "-HUP"; "mDNSResponder"], "") (forget (run (["dscacheutil"; "-flushcache"], "") w))).

(** *** Linux *)
Record linuxState := mkLinuxState { Method : string; TunName : string; Path : string; Content : string; l_Applied : bool }.
Definition linux_json (s : linuxState) : json :=
  let opt k v := if bool_decide (v = "") then [] else [(k, JStr v)] in
  JObj ([("method", JStr (Method s))] ++ opt "tun_name" (TunName s) ++ opt "path" (Path s) ++ opt "content" (Content s) ++
        [("applied", JBool (l_Applied s))]).
Definition zeroLinux : linuxState := mkLinuxState "" "" "" "" false.
Definition dec_linux : decoder linuxState := dec_struct [
  ("method", via Method (fun v s => mkLinuxState v (TunName s) (Path s) (Content s) (l_Applied s)) dec_string);
  ("tun_name", via TunName (fun v s => mkLinuxState (Method s) v (Path s) (Content s) (l_Applied s)) dec_string);
  ("path", via Path (fun v s => mkLinuxState (Method s) (TunName s) v (Content s) (l_Applied s)) dec_string);
  ("content", via Content (fun v s => mkLinuxState (Method s) (TunName s) (Path s) v (l_Applied s)) dec_string);
  ("applied", via l_Applied (fun v s => mkLinuxState (Method s) (TunName s) (Path s) (Content s) v) dec_bool)].
Definition resolvectl_path : option string := find_first (LookPath h) ["resolvectl"; "systemd-resolve"].
Fixpoint run_all (cmds : list command) (w : World) : World * option error :=
  match cmds with [] => (w, None) | c :: cmds => first_error (no_result (run c w)) (run_all cmds) end.
Definition setupSystemDNSResolved (tunName serverIP : string) (w : World) : World * option error :=
  match resolvectl_path with
  | None => (w, Some (Errorf "executable file not found in $PATH" ["systemd-resolve"]))
  | Some resolvectl =>
      first_error (save_state (linux_json (mkLinuxState "resolvectl" tunName "" "" true)) w)
        (run_all (map (fun args => (resolvectl :: args, "")) [["dns"; tunName; serverIP]; ["domain"; tunName; "~."]; ["default-route"; tunName; "yes"]]))
  end.
Definition setupSystemDNSResolvConf (serverIP : string) (w : World) : World * option error :=
  match ReadFile resolvConf w with
  | Err e => (w, Some e)
  | Ok data =>
      first_error (save_state (linux_json (mkLinuxState "resolv_conf" "" resolvConf data true)) w)
        (WriteFile resolvConf (resolvConfContent serverIP))
  end.
Definition linux_setup (tunName serverIP : string) (w : World) : World * option error :=
  if bool_decide (ParseIP serverIP = []) then (w, Some (Errorf "invalid DNS server IP %q" [serverIP]))
  else if bool_decide (tunName = "") then setupSystemDNSResolvConf serverIP w
  else match setupSystemDNSResolved tunName serverIP w with
       | (w, None) => (w, None)
       | (w, Some _) => setupSystemDNSResolvConf serverIP w
       end.
Definition linux_cleanup (w : World) : World :=
  match load_state dec_linux zeroLinux w with
  | Err _ => w
  | Ok s =>
      let w :=
        if bool_decide (Method s = "resolvectl") then
          if bool_decide (TunName s = "") then w
          else match resolvectl_path with Some r => forget (run ([r; "revert"; TunName s], "") w) | None => w end
        else if bool_decide (Path s = "") then w else forget (WriteFile (Path s) (Content s) w) in
      Remove (statePath h) w
  end.
Definition linux_flush (w : World) : World :=
  match run (["systemd-resolve"; "--flush-caches"], "") w with
  | (w, Ok _) => w
  | (w, Err _) => forget (run (["nscd"; "-i"; "hosts"], "") w)
  end.

(** *** Windows *)
Record windowsDNSRecord := mkRecord { InterfaceIndex : Z; ServerAddresses : list string }.
Definition zeroRecord : windowsDNSRecord := mkRecord 0 [].
Definition record_json (r : windowsDNSRecord) : json :=
  JObj [("interface_index", JNum (itoa (InterfaceIndex r))); ("server_addresses", JArr (map JStr (ServerAddresses r)))].
Definition dec_record : decoder windowsDNSRecord := dec_struct [
  ("interface_index", via InterfaceIndex (fun v r => mkRecord v (ServerAddresses r)) dec_int);
  ("server_addresses", via ServerAddresses (fun v r => mkRecord (InterfaceIndex r) v) (dec_slice dec_string ""))].
Definition dec_records : decoder (list windowsDNSRecord) := dec_slice dec_record zeroRecord.
Definition windows_json (l : list windowsDNSRecord) : json := JObj [("records", JArr (map record_json l)); ("applied", JBool true)].
Definition dec_windows : decoder (list windowsDNSRecord) := dec_struct [
  ("records", via (fun l => l) (fun v _ => v) dec_records); ("applied", fun l j => _b ← dec_bool false j; Ok l)].
Definition powershell (script : string) : World -> World * result string := run (["powershell"; "-NoProfile"; "-Command"; script], "").
Definition readWindowsDNS (w : World) : World * result (list windowsDNSRecord) :=
  let '(w, r) := powershell "Get-DnsClientServerAddress -AddressFamily IPv4 | Select-Object InterfaceIndex,ServerAddresses | ConvertTo-Json -Compress" w in
  (w, out ← r;
      let raw := TrimSpace out in
      if bool_decide (raw = "") then Ok []
      else match json_parse raw with
           | None => Err (Errorf "invalid JSON" [])
           | Some j => if HasPrefix raw "[" then dec_records [] j else x ← dec_record zeroRecord j; Ok [x]
           end).
(** [%q] of an address without characters that need escapes. *)
Definition quoted (s : string) : string := dq +:+ s +:+ dq.
Definition windows_setup (serverIP : string) (w : World) : World * option error :=
  if bool_decide (ParseIP serverIP = []) then (w, Some (Errorf "invalid DNS server IP %q" [serverIP]))
  else
    let '(w, r) := readWindowsDNS w in
    match r with
    | Err e => (w, Some e)
    | Ok records =>
        first_error (save_state (windows_json records) w) (fun w =>
          no_result (powershell ("Get-NetAdapter | Where-Object {$_.Status -eq 'Up'} | ForEach-Object { Set-DnsClientServerAddress -InterfaceIndex $_.ifIndex -ServerAddresses "
            +:+ quoted serverIP +:+ " }") w))
    end.
Definition restore_record (r : windowsDNSRecord) : World -> World := fun w =>
  forget (powershell ("Set-DnsClientServerAddress -InterfaceIndex " +:+ itoa (InterfaceIndex r) +:+
    (if bool_decide (ServerAddresses r = []) then " -ResetServerAddresses"
     else " -ServerAddresses @(" +:+ Join (map quoted (ServerAddresses r)) "," +:+ ")")) w).
Definition windows_cleanup (w : World) : World :=
  match load_state dec_windows [] w with
  | Err _ => w
  | Ok records => Remove (statePath h) (foldl (fun w r => restore_record r w) w records)
  end.
Definition windows_flush (w : World) : World := forget (run (["ipconfig"; "/flushdns"], "") w).
End dns.

(** ** What is restored *)
Section restored.
Context {U : Unicode} (json_parse : string -> option json) (json_print : json -> string) (h : Host).
Context (resolv_writable : writable h resolvConf = true) (state_writable : writable h (statePath h) = true)
  (state_apart : statePath h <> resolvConf).

Lemma dec_darwin_json s : dec_darwin zeroDarwin (darwin_json s) = Ok s.
Proof. by destruct s. Qed.
Lemma dec_linux_json s : dec_linux zeroLinux (linux_json s) = Ok s.
Proof.
  destruct s as [m t p c a]. unfold linux_json. cbn [Method TunName Path Content l_Applied].
  destruct (decide (t = "")) as [->|Ht]; destruct (decide (p = "")) as [->|Hp]; destruct (decide (c = "")) as [->|Hc];
    rewrite ?(bool_decide_eq_true_2 _ eq_refl), ?(bool_decide_eq_false_2 (t = "")), ?(bool_decide_eq_false_2 (p = "")),
      ?(bool_decide_eq_false_2 (c = "")) by done; reflexivity.
Qed.
Lemma WriteFile_ok p content w : writable h p = true ->
  WriteFile h p content w = (set_files (<[p := content]> (files w)) w, None).
Proof. intros Hp. unfold WriteFile. by rewrite Hp. Qed.

(** *** macOS: any history of the operations *)
Inductive dns_op := DSetup (tunName serverIP : string) | DCleanup | DMaintain.
Definition dns_step (w : World) (o : dns_op) : World :=
  match o with
  | DSetup tun ip => fst (darwin_setup json_parse json_print h tun ip w)
  | DCleanup => darwin_cleanup json_parse h w
  | DMaintain => maintainer_write h (maintainer_tick w)
  end.
Context (darwin_text : forall s, json_parse (json_print (darwin_json s)) = Some (darwin_json s)).

(** Untouched, or taken over with the original content in the state file. *)
Definition untouched (orig : string) (w : World) : Prop :=
  files w !! statePath h = None /\ files w !! resolvConf = Some orig /\ maintainer w = None.
Definition taken (orig : string) (w : World) : Prop :=
  exists s, files w !! statePath h = Some (json_print (darwin_json s)) /\
    ResolvConfPath s = resolvConf /\ ResolvConfContent s = orig /\ is_Some (files w !! resolvConf).
Definition kept (orig : string) (w : World) : Prop := writing w = None /\ (untouched orig w \/ taken orig w).

Lemma taken_write orig c w : taken orig w -> taken orig (set_files (<[resolvConf := c]> (files w)) w).
Proof.
  intros (s & H1 & H2 & H3 & _). exists s. cbn [files set_files]. split_and!; try done.
  - by rewrite lookup_insert_ne.
  - rewrite lookup_insert_eq. by eexists.
Qed.
Lemma taken_run orig c w : taken orig w -> taken orig (fst (run h c w)).
Proof. done. Qed.
Lemma darwin_cleanup_kept orig w : kept orig w ->
  let w' := darwin_cleanup json_parse h w in writing w' = None /\ untouched orig w'.
Proof.
  intros [Hw [(H1 & H2 & _)|(s & H1 & H2 & H3 & _)]]; cbn zeta; unfold darwin_cleanup, load_state, ReadFile;
    cbn [files stopResolvConfMaintainer]; rewrite H1; cbn [mbind result_bind]; [done|].
  rewrite darwin_text, dec_darwin_json, H2, H3. rewrite bool_decide_eq_false_2 by done.
  match goal with |- context [WriteFile h resolvConf orig ?x] => set (w1 := x) end.
  assert (writing w1 = None /\ maintainer w1 = None) as [E1 E2].
  { unfold w1, cleanupPFDNSRedirect. destruct (PFEnabled s), (ManagedServiceKey s); repeat case_bool_decide; done. }
  rewrite WriteFile_ok by done. cbn [forget fst Remove set_files files writing maintainer].
  unfold Remove, set_files. cbn [files]. split; [done|]. split_and!; cbn [files]; [apply lookup_delete_eq| |done].
  by rewrite lookup_delete_ne, lookup_insert_eq.
Qed.
Lemma write_checked_taken orig ip w : taken orig w ->
  taken orig (fst (write_checked h resolvConf ip w)) /\ writing (fst (write_checked h resolvConf ip w)) = writing w.
Proof.
  intros Hw. unfold write_checked. rewrite WriteFile_ok by done. cbn [first_error].
  set (w1 := set_files _ w). assert (taken orig w1) by by apply taken_write.
  unfold ReadFile. cbn [files w1 set_files]. rewrite lookup_insert_eq. by case_bool_decide.
Qed.
Lemma darwin_setup_kept orig tun ip w : kept orig w -> kept orig (fst (darwin_setup json_parse json_print h tun ip w)).
Proof.
  intros Hw. unfold darwin_setup. case_bool_decide; [done|]. case_bool_decide; [done|].
  destruct (darwin_cleanup_kept orig w Hw) as [Hwr Hu]. set (w1 := darwin_cleanup json_parse h w) in *.
  assert (kept orig w1) by (by split; [|left]). destruct (interfaceIndexForIP h ip); [|done].
  destruct Hu as (_ & Hread & _). unfold ReadFile. rewrite Hread. unfold save_state. rewrite WriteFile_ok by done. cbn [first_error].
  set (w2 := set_files _ w1). assert (taken orig w2) as Ht.
  { eexists. cbn [files w2 set_files]. rewrite lookup_insert_eq, lookup_insert_ne by done.
    split_and!; [reflexivity|done|done|by eexists]. }
  unfold no_result, runScutil. set (w3 := fst (run h _ w2)). assert (taken orig w3) as Ht3 by done.
  assert (writing w3 = None) as Hw3 by done.
  destruct (snd _); cbn [first_error]; [|by split; [|right]].
  unfold setupResolvConfDNS, ensureResolvConfDNS. destruct (needs_write resolvConf ip w3); cbn [first_error]; [|by split; [|right]].
  destruct (write_checked_taken orig ip w3 Ht3) as [Ht4 Hw4].
  destruct (write_checked h resolvConf ip w3) as [w4 [e|] ]; cbn [fst] in *; (split; [cbn; congruence|by right]).
Qed.
Lemma dns_step_kept orig o w : kept orig w -> kept orig (dns_step w o).
Proof.
  intros Hw. destruct o; cbn [dns_step].
  - by apply darwin_setup_kept.
  - destruct (darwin_cleanup_kept orig w Hw). by split; [|left].
  - destruct Hw as [Hn Hw]. unfold maintainer_tick. destruct (maintainer w) as [ip|] eqn:Em; [|unfold maintainer_write; by rewrite Hn].
    destruct (needs_write resolvConf ip w); [|unfold maintainer_write; by rewrite Hn].
    unfold maintainer_write. cbn [writing files ran maintainer]. destruct Hw as [(_ & _ & ?)|Hw]; [congruence|].
    destruct (write_checked_taken orig ip (mkWorld (files w) (ran w) (Some ip) None) Hw) as [Ht Hwr].
    split; [exact Hwr|by right].
Qed.

(** *** Linux: one takeover *)
Context (linux_text : forall s, json_parse (json_print (linux_json s)) = Some (linux_json s)).
Lemma linux_cleanup_of s w : files w !! statePath h = Some (json_print (linux_json s)) ->
  files (linux_cleanup json_parse h w) =
  delete (statePath h) (if bool_decide (Method s = "resolvectl") then files w
    else if bool_decide (Path s = "") then files w
    else if writable h (Path s) then <[Path s := Content s]> (files w) else files w).
Proof.
  intros H1. unfold linux_cleanup, load_state, ReadFile. rewrite H1. cbn [mbind result_bind]. rewrite linux_text, dec_linux_json.
  cbn [Remove set_files files]. f_equal. case_bool_decide.
  - case_bool_decide; [done|]. by destruct (resolvectl_path h).
  - case_bool_decide; [done|]. unfold WriteFile. destruct (writable h (Path s)); reflexivity.
Qed.
Lemma run_all_files cmds w : files (fst (run_all h cmds w)) = files w.
Proof.
  revert w. induction cmds as [|c cmds IH]; intros w; [done|]. cbn [run_all]. unfold no_result.
  destruct (snd (run h c w)); cbn [first_error]; [by etransitivity; [apply IH|]|done].
Qed.
Lemma linux_resolv_conf_cleanup orig ip w : files w !! resolvConf = Some orig ->
  let w' := linux_cleanup json_parse h (fst (setupSystemDNSResolvConf json_print h ip w)) in
  files w' !! resolvConf = Some orig /\ files w' !! statePath h = None.
Proof.
  intros H2. cbn zeta. unfold setupSystemDNSResolvConf, ReadFile. rewrite H2. unfold save_state.
  rewrite WriteFile_ok by done. cbn [first_error]. rewrite WriteFile_ok by done. cbn [fst].
  rewrite (linux_cleanup_of (mkLinuxState "resolv_conf" "" resolvConf orig true))
    by (cbn [files set_files]; by rewrite lookup_insert_ne, lookup_insert_eq). cbn [Method Path Content].
  rewrite !bool_decide_eq_false_2, resolv_writable by done.
  split; [by rewrite lookup_delete_ne, lookup_insert_eq | apply lookup_delete_eq].
Qed.
Lemma linux_setup_cleanup orig tun ip w : files w !! statePath h = None -> files w !! resolvConf = Some orig ->
  let w' := linux_cleanup json_parse h (fst (linux_setup json_print h tun ip w)) in
  files w' !! resolvConf = Some orig /\ files w' !! statePath h = None.
Proof.
  intros H1 H2. cbn zeta. assert (forall w1, w1 = w -> files (linux_cleanup json_parse h w1) !! resolvConf = Some orig /\
    files (linux_cleanup json_parse h w1) !! statePath h = None) as Hsame.
  { intros w1 ->. unfold linux_cleanup, load_state, ReadFile. rewrite H1. done. }
  unfold linux_setup. case_bool_decide; [by apply Hsame|]. case_bool_decide as Ht; [by apply linux_resolv_conf_cleanup|].
  destruct (setupSystemDNSResolved json_print h tun ip w) as [w1 [e|] ] eqn:E.
  - apply linux_resolv_conf_cleanup. unfold setupSystemDNSResolved in E. destruct (resolvectl_path h); [|by injection E as <- _].
    unfold save_state in E. rewrite WriteFile_ok in E by done. cbn [first_error] in E.
    pose proof (f_equal (fun r => files (fst r)) E) as Ef. cbn [fst] in Ef. rewrite run_all_files in Ef.
    rewrite <- Ef. cbn [files set_files]. by rewrite lookup_insert_ne.
  - unfold setupSystemDNSResolved in E. destruct (resolvectl_path h); [|done].
    unfold save_state in E. rewrite WriteFile_ok in E by done. cbn [first_error] in E. cbn [fst].
    pose proof (f_equal (fun r => files (fst r)) E) as Ef. cbn [fst] in Ef. rewrite run_all_files in Ef. cbn [files set_files] in Ef.
    rewrite (linux_cleanup_of (mkLinuxState "resolvectl" tun "" "" true)) by (by rewrite <- Ef, lookup_insert_eq).
    cbn [Method]. rewrite bool_decide_eq_true_2, <- Ef by done.
    split; [by rewrite lookup_delete_ne, lookup_insert_ne | apply lookup_delete_eq].
Qed.

End restored.
