(* ===== verification/SystemDNSSample.v ===== *)
(** * The system's DNS configuration on concrete machines

    A text form of the state files, the restoration of SystemDNS.v at work, and
    three ways in which the resolver is not given back. *)
From S2P Require Import Prelude GoStrings GoNet Json SystemDNS.
Open Scope string_scope.
Open Scope list_scope.
Open Scope Z_scope.

#[local] Existing Instance ascii_only.
Fixpoint bits_text (p : positive) : string :=
  match p with xH => "" | xO p => String "0" (bits_text p) | xI p => String "1" (bits_text p) end.
Fixpoint text_bits (s : string) : positive :=
  match s with EmptyString => xH | String c s => if Ascii.eqb c "0" then xO (text_bits s) else xI (text_bits s) end.
Lemma text_bits_text p : text_bits (bits_text p) = p.
Proof. induction p as [p IH|p IH|]; cbn; congruence. Qed.

Definition darwin_tuple (s : darwinState) :=
  (ServiceKey s, ManagedServiceKey s, GlobalScutil s, PFEnabled s, ResolvConfPath s, ResolvConfContent s, Applied s).
Definition linux_tuple (s : linuxState) := (Method s, TunName s, Path s, Content s, l_Applied s).
Definition tuple_darwin (t : string * bool * string * bool * string * string * bool) : darwinState :=
  let '(a, b, c, d, e, f, g) := t in mkDarwinState a b c d e f g.
Definition tuple_linux (t : string * string * string * string * bool) : linuxState :=
  let '(a, b, c, d, e) := t in mkLinuxState a b c d e.
Definition print (j : json) : string :=
  match j with
  | JObj (("service_key", _) :: _) =>
      match dec_darwin zeroDarwin j with Ok s => String "D" (bits_text (encode (darwin_tuple s))) | Err _ => "" end
  | _ => match dec_linux zeroLinux j with Ok s => String "L" (bits_text (encode (linux_tuple s))) | Err _ => "" end
  end.
Definition parse (s : string) : option json :=
  match s with
  | String c s =>
      if Ascii.eqb c "D" then (fun t => darwin_json (tuple_darwin t)) <$> decode (text_bits s)
      else if Ascii.eqb c "L" then (fun t => linux_json (tuple_linux t)) <$> decode (text_bits s)
      else None
  | EmptyString => None
  end.
Lemma sample_darwin_text s : parse (print (darwin_json s)) = Some (darwin_json s).
Proof.
  unfold print. change (match darwin_json s with JObj (("service_key", _) :: _) => ?x | _ => ?y end) with x.
  cbn -[dec_darwin darwin_json encode]. rewrite dec_darwin_json. cbn -[encode decode darwin_json].
  rewrite text_bits_text, decode_encode. by destruct s.
Qed.
Lemma sample_linux_text s : parse (print (linux_json s)) = Some (linux_json s).
Proof.
  assert (print (linux_json s) = String "L" (bits_text (encode (linux_tuple s)))) as ->.
  { unfold print. rewrite dec_linux_json. reflexivity. }
  cbn -[encode decode linux_json]. rewrite text_bits_text, decode_encode. by destruct s.
Qed.

Definition machine (look : string -> bool) : Host := mkHost (fun _ _ => Ok "") look (fun _ => true) "dns-state.json" [(7, [ParseIP "172.30.77.1"])].
Definition fresh : World := mkWorld {[ resolvConf := "nameserver 10.1.1.1" ]} [] None None.


(** *** Linux: a second takeover saves what the first one wrote *)
Definition content_after (w : World) : option string := files w !! resolvConf.
Lemma linux_second_setup_keeps_ours :
  let h := machine (fun _ => false) in
  let w := fst (linux_setup print h "tun0" "172.30.77.1" (fst (linux_setup print h "tun0" "172.30.77.1" fresh))) in
  content_after (linux_cleanup parse h w) = Some (resolvConfContent "172.30.77.1").
Proof. by vm_compute. Qed.

(** *** Windows: PowerShell's member names are not those of the state file *)
Lemma windows_records_empty :
  dec_record zeroRecord (JObj [("InterfaceIndex", JNum "12"); ("ServerAddresses", JArr [JStr "10.1.1.1"])]) = Ok zeroRecord.
Proof. by vm_compute. Qed.
Lemma windows_restores_nothing :
  let listing := JObj [("InterfaceIndex", JNum "12"); ("ServerAddresses", JArr [JStr "10.1.1.1"])] in
  let parse s := if bool_decide (s = "listing") then Some listing else if bool_decide (s = "state") then Some (windows_json [zeroRecord]) else None in
  let h := mkHost (fun _ c => Ok (if bool_decide (length c.1 = 4%nat) then "listing" else "")) (fun _ => true) (fun _ => true) "dns-state.json" [] in
  let w := fst (windows_setup parse (fun _ => "state") h "172.30.77.1" fresh) in
  last (ran (windows_cleanup parse h w)) =
  Some (["powershell"; "-NoProfile"; "-Command"; "Set-DnsClientServerAddress -InterfaceIndex 0 -ResetServerAddresses"], "").
Proof. by vm_compute. Qed.

(** *** macOS: the goroutine is stopped, not waited for *)
Lemma maintainer_writes_after_cleanup :
  let h := machine (fun _ => true) in
  let w := fst (darwin_setup parse print h "utun4" "172.30.77.1" fresh) in
  let w := maintainer_tick (set_files (<[resolvConf := "nameserver 10.2.2.2"]> (files w)) w) in
  let w := darwin_cleanup parse h w in
  content_after w = Some "nameserver 10.1.1.1" /\
  content_after (maintainer_write h w) = Some (resolvConfContent "172.30.77.1").
Proof. by vm_compute. Qed.

Definition raw_dns : string := Join
  ["<dictionary> {"; "  ConfirmedServiceID : utun4"; "  SearchDomains : <array> {"; "  }"; "  ServerAddresses : <array> {";
   "    0 : 127.0.0.1"; "    1 : 10.9.9.9"; "  }"; "  ServerPort : 53"; "  SupplementalMatchDomains : <array> {"; "    0 : "; "  }"; "}"] nl.
Example restore_script : scutilRestoreScript "State:/Network/Service/utun4/DNS" raw_dns = Join
  ["open"; "d.init"; "d.add ConfirmedServiceID utun4"; "d.add SearchDomains *"; "d.add ServerAddresses * 127.0.0.1 10.9.9.9";
   "d.add ServerPort # 53"; "d.add SupplementalMatchDomains * " +:+ dq +:+ dq; "set State:/Network/Service/utun4/DNS"; "quit"; ""] nl.
Proof. by vm_compute. Qed.
Example usable_upstream : firstUsableSystemDNSUpstream raw_dns = "10.9.9.9:53".
Proof. by vm_compute. Qed.
Example subkeys : scutilSubkeys (Join ["  subKey [0] = State:/A/DNS"; "x"; "  subKey [12] = State:/B/DNS "] nl) = ["State:/A/DNS"; "State:/B/DNS"].
Proof. by vm_compute. Qed.
