(* ===== verification/Daemon.v ===== *)
(** * cmd/ecorplink-daemon: requests, connections and their supervision

    [main.go], [connection_supervisor.go], [system_dns_policy.go]: the handler of
    the daemon's requests, the building of a connection, the two goroutines
    that keep it alive and reconnect it, and the supervisor that tells them
    whether they are still wanted.

    Goroutines are threads of a machine whose steps are what runs between two
    points where another goroutine can come in: a call to the connection
    manager (which has a lock of its own), a call to the server, a check of the
    supervisor. The connection manager is met through the interface
    [VPNManager]; the configuration is the manager's, with which the daemon
    shares it by pointer. *)
From S2P Require Import Prelude GoStrings GoNet Json.
From S2P Require Config Outbound WGDevice WGCrypto VPN Corplink Totp.
Open Scope string_scope.
Open Scope list_scope.
Open Scope Z_scope.

(** ** connection_supervisor.go *)
(** A context is the list of the cancellable contexts it derives from, itself
    first; [context.Background()] is the empty one. *)
Definition context := list nat.
Record contexts := mkContexts { made : nat; canceled : gset nat }.
Definition WithCancel (parent : context) (cs : contexts) : contexts * context :=
  (mkContexts (S (made cs)) (canceled cs), made cs :: parent).
Definition Done (cs : contexts) (c : context) : bool := existsb (fun i => bool_decide (i ∈ canceled cs)) c.
Definition cancel_ctx (f : option nat) (cs : contexts) : contexts :=
  match f with Some i => mkContexts (made cs) ({[i]} ∪ canceled cs) | None => cs end.

(** [cancel] names the context that the function cancels. *)
Record connectionSupervisor := mkSupervisor { cancel : option nat; gen : Z }.
Definition Start (parent : context) (s : connectionSupervisor) (cs : contexts)
  : connectionSupervisor * contexts * (context * Z) :=
  let cs := cancel_ctx (cancel s) cs in
  let '(cs, ctx) := WithCancel parent cs in
  let g := u64 (gen s + 1) in
  (mkSupervisor (head ctx) g, cs, (ctx, g)).
Definition Stop (s : connectionSupervisor) (cs : contexts) : connectionSupervisor * contexts :=
  (mkSupervisor None (u64 (gen s + 1)), cancel_ctx (cancel s) cs).
Definition IsCurrent (s : connectionSupervisor) (g : Z) : bool :=
  negb (g =? 0) && (gen s =? g) && bool_decide (is_Some (cancel s)).

(** ** The connection manager, as the daemon sees it *)
Class VPNManager := {
  Mgr : Type;
  ConnEnv : Type;
  vm_cfg : Mgr -> Config.Config;
  vm_set_cfg : Config.Config -> Mgr -> Mgr;
  vm_Connect : ConnEnv -> Z -> string -> VPN.ConnectConfig -> Mgr -> Mgr * option error;
  vm_Disconnect : Mgr -> Mgr;
  vm_GetStatus : Mgr -> VPN.Status;
  vm_GetStats : Mgr -> WGDevice.Stats;
  vm_SetReconnecting : bool -> Mgr -> Mgr;
  vm_IsConnectionDead : Z -> Mgr -> Mgr * bool;
  vm_UpdateSplitRoutes : list string -> list string -> Mgr -> Mgr;
  vm_SetFollowSplitRoutes : bool -> Mgr -> Mgr;
  vm_UpdateSOCKS5 : Config.SOCKS5Config -> Mgr -> Mgr * option error;
  (** the functions of packages forwarder and router that act on the same
      machine: a scoped host route, its removal by address, and the removal of
      the persisted host and capture routes *)
  fw_AddScopedHostRoute : string -> string -> Mgr -> Mgr;
  fw_CleanupHostRoutesByIP : list IP -> Mgr -> Mgr;
  rt_CleanupPersisted : Mgr -> Mgr }.
(** What the daemon relies on: [idle] is a manager without a connection. *)
Class VPNManagerLaws `{VPNManager} := {
  idle : Mgr -> Prop;
  idle_not_connected : forall m, idle m -> VPN.Connected (vm_GetStatus m) = false;
  disconnect_idle : forall m, idle (vm_Disconnect m);
  connect_ok : forall e now n cc m m', vm_Connect e now n cc m = (m', None) -> VPN.Connected (vm_GetStatus m') = true;
  connect_failed : forall e now n cc m m' err, idle m -> vm_Connect e now n cc m = (m', Some err) -> idle m';
  idle_set_cfg : forall c m, idle m -> idle (vm_set_cfg c m);
  idle_reconnecting : forall b m, idle m -> idle (vm_SetReconnecting b m);
  idle_dead : forall now m, idle m -> idle (fst (vm_IsConnectionDead now m));
  idle_routes : forall r s m, idle m -> idle (vm_UpdateSplitRoutes r s m);
  idle_follow : forall b m, idle m -> idle (vm_SetFollowSplitRoutes b m);
  idle_socks : forall c m, idle m -> idle (fst (vm_UpdateSOCKS5 c m));
  idle_route : forall ip i m, idle m -> idle (fw_AddScopedHostRoute ip i m);
  idle_unroute : forall ips m, idle m -> idle (fw_CleanupHostRoutesByIP ips m);
  idle_persisted : forall m, idle m -> idle (rt_CleanupPersisted m);
  reconnecting_set : forall b m, VPN.Reconnecting (vm_GetStatus (vm_SetReconnecting b m)) = b;
  reconnecting_connected : forall b m, VPN.Connected (vm_GetStatus (vm_SetReconnecting b m)) = VPN.Connected (vm_GetStatus m);
  reconnecting_kept : forall m, VPN.Reconnecting (vm_GetStatus (vm_Disconnect m)) = VPN.Reconnecting (vm_GetStatus m) }.
(** The system's DNS configuration of SystemDNS.v, one platform's. *)
Class SysDNS := {
  Sys : Type;
  setupSystemDNS : string -> string -> Sys -> Sys * option error;
  cleanupSystemDNS : Sys -> Sys;
  flushDNSCache : Sys -> Sys }.

(** ** Requests and answers *)
Inductive Cmd :=
| ADiscover (company : string)
| ALoginMethods
| ASendCode (codeType account : string)
| AVerifyCode (codeType account code : string)
| ALoginPassword (account password : string)
| AGetQRCode
| APollQR (token : string) (start : Z) (rounds : list (Z * bool))
| ALogout
| AIsAuthenticated
| AListNodes
| APingNodes (elapsed : Corplink.VPNNode -> Z)
| APingSingle (nodeID elapsed : Z)
| ASetFollowSplitRoutes (follow : bool)
| AReloadConfig
| AConnect (nodeID : Z) (follow : bool)
| ADisconnect
| ACleanupRoutes
| AStatus
| AGetStats
| AShutdown
| AUnknown (action : string).
Inductive data :=
| DNone
| DBool (b : bool)
| DLogin (info : Corplink.LoginMethodInfo)
| DQRCode (qr : Corplink.QRCodeResult)
| DNodes (l : list Corplink.VPNNode)
| DNode (n : Corplink.VPNNode)
| DStatus (s : VPN.Status)
| DStats (tx rx : Z).
Record Response := mkResponse { OK : bool; Error : option error; Data_ : data }.
Definition ok (d : data) : Response := mkResponse true None d.
Definition failed (e : error) : Response := mkResponse false (Some e) DNone.

Record loginCapabilities := mkCaps { VerifyTypes : list string; LoginOrders : list string; LoginEnableLDAP : bool }.
Definition noCaps : loginCapabilities := mkCaps [] [] false.
Definition cache_Store (info : Corplink.LoginMethodInfo) : loginCapabilities :=
  mkCaps (Corplink.VerifyTypes info) (Corplink.LoginOrders info) (Corplink.LoginEnableLDAP info).
Definition firstLoginOrderIs (values : list string) (want : string) : bool :=
  match find_first (fun v => negb (bool_decide (v = ""))) values with Some v => bool_decide (v = want) | None => false end.
Definition shouldUseLDAPPassword (cfg : Config.Config) (caps : loginCapabilities) : bool :=
  bool_decide (Config.Platform (Config.Corplink cfg) = "ldap") ||
  (LoginEnableLDAP caps && bool_decide ("password" ∈ VerifyTypes caps) && firstLoginOrderIs (LoginOrders caps) "ldap").
Definition actionUsesCorplinkNetwork (c : Cmd) : bool :=
  match c with
  | ADiscover _ | ALoginMethods | ASendCode _ _ | AVerifyCode _ _ _ | ALoginPassword _ _ | AGetQRCode | APollQR _ _ _
  | ALogout | AListNodes | APingNodes _ | APingSingle _ _ | AConnect _ _ => true
  | _ => false
  end.

(** ** Small functions *)
Definition firstNonSystem (upstream : list string) : string := VPN.firstNonSystem upstream.
Definition shouldSetupSystemDNS (cfg : Config.Config) : bool := Config.SystemHijack (Config.DNS cfg).
Definition daemonCommandFromArgs (args : list string) : string :=
  match args with
  | _ :: a :: _ =>
      if HasPrefix a "-" then ""
      else if bool_decide (a ∈ ["start"; "stop"; "restart"; "status"; "install-service"; "uninstall-service"]) then a else ""
  | _ => ""
  end.
Definition daemonArgs (args : list string) : list string :=
  match args with
  | a0 :: a :: rest => if bool_decide (a = "start") || bool_decide (a = "restart") then a0 :: rest else args
  | _ => args
  end.
(** [polls]: what the clock shows after each look at the process; [running]
    says what each look finds. [None] where they end first. *)
Fixpoint waitForProcessExit (deadline : Z) (looks : list (bool * Z)) : option bool :=
  match looks with
  | [] => None
  | (running, now) :: looks =>
      if negb running then Some true else if deadline <? now then Some false else waitForProcessExit deadline looks
  end.
Section pure.
Context {U : Unicode} {L : Corplink.URLLib}.
(** [fmt.Sscanf(s, "%d", &n)]: an optional sign and the digits that follow. *)
Fixpoint scan_digits (acc : option Z) (s : string) : option Z :=
  match s with
  | String c s' => if is_digit c then scan_digits (Some (default 0 acc * 10 + digit_val c)) s' else acc
  | EmptyString => acc
  end.
Definition scan_int (s : string) : option Z :=
  let '(neg, s) := match s with
                   | String "-" s' => (true, s') | String "+" s' => (false, s') | _ => (false, s) end in
  n ← scan_digits None s;
  let n := if neg : bool then - n else n in
  if bool_decide (- 2 ^ 63 <= n < 2 ^ 63) then Some n else None.
Definition parseSizeMB (s : string) : Z :=
  let s := TrimSpace (ToUpper s) in
  let '(mul, s) := if HasSuffix s "GB" then (1024, TrimSuffix s "GB")
                   else if HasSuffix s "MB" then (1, TrimSuffix s "MB") else (1, s) in
  let n := default 0 (scan_int (TrimSpace s)) in
  if n <=? 0 then 100 else i64 (n * mul).
Definition isLoopbackServer (rawURL : string) : bool :=
  match Corplink.url_Parse rawURL with
  | None => false
  | Some u =>
      let host := Corplink.u_Hostname u in
      bool_decide (host = "localhost") || (negb (bool_decide (ParseIP host = [])) && IsLoopback (ParseIP host))
  end.
Definition resolveHostnameWithResolver (LookupHost : string -> result (list string)) (rawURL : string) : result string :=
  match Corplink.url_Parse rawURL with
  | None => Err (Errorf "parse %q" [rawURL])
  | Some u =>
      let host := Corplink.u_Hostname u in
      if bool_decide (host = "") then Err (Errorf "empty host in %q" [rawURL])
      else if negb (bool_decide (ParseIP host = [])) then Ok host
      else match LookupHost host with
           | Ok (a :: _) => Ok a
           | _ => Err (Errorf "resolve %q: %w" [host])
           end
  end.
Definition is_ipv4 (ip : IP) : bool := negb (bool_decide (ip = [])) && negb (bool_decide (To4 ip = [])).
Definition resolveCleanupHostIPs (LookupHost : string -> result (list string)) (rawURL : string) : list IP :=
  match Corplink.url_Parse rawURL with
  | None => []
  | Some u =>
      let host := Corplink.u_Hostname u in
      if bool_decide (host = "") then []
      else if is_ipv4 (ParseIP host) then [ParseIP host]
      else match LookupHost host with
           | Err _ => []
           | Ok addrs => filter (fun ip => is_ipv4 ip = true) (map ParseIP addrs)
           end
  end.
Fixpoint unique_from (seen : gset string) (ips : list IP) : list IP :=
  match ips with
  | [] => []
  | ip :: ips =>
      if negb (is_ipv4 ip) then unique_from seen ips
      else if bool_decide (IP_String ip ∈ seen) then unique_from seen ips
      else ip :: unique_from ({[IP_String ip]} ∪ seen) ips
  end.
Definition uniqueIPv4s (ips : list IP) : list IP := unique_from ∅ ips.
Definition upstream_host (upstream : string) : option string :=
  match SplitHostPort upstream with Ok (host, _) => Some host | Err _ => None end.
Definition knownCleanupHostIPs (cfg : Config.Config) (server : string) (LookupHost : string -> result (list string)) : list IP :=
  uniqueIPv4s
    (filter (fun ip => is_ipv4 ip = true) (map ParseIP (omap upstream_host (Config.Upstream (Config.DNS cfg)))) ++
     resolveCleanupHostIPs LookupHost server).
(** The first upstream whose host is an address; [[]] is the zero value. *)
Definition fallback_dns (upstreams : list string) : WGDevice.Addr :=
  default [] (head (omap (fun u => host ← upstream_host u; ParseAddr host) upstreams)).
End pure.

(** ** The machine *)
Section daemon.
Context {U : Unicode} {L : Corplink.URLLib} {J : Corplink.CookieJar} {Dg : Totp.Digests} {C : WGCrypto.Crypto}.
Context {V : VPNManager} {SD : SysDNS}.
Context (json_parse : string -> option json) (json_print : json -> string) (session_writable : bool).
Context (goos configPath : string).
Context (http : list (@Corplink.request Outbound.NetDialer) -> @Corplink.request Outbound.NetDialer -> string + Corplink.response).

(** What a step sees of the outside. *)
Record Env := mkEnv {
  e_os : Outbound.OS;
  e_lookup : string -> result (list string);
  e_rand : result (list Z);
  e_now : Z;
  e_conn : ConnEnv;
  e_files : string -> option (result string) }.

(** The parts of [connectVPNOnce] between its calls. *)
Inductive conn_pc :=
| CBegin
| CNodes (physIface : string)
| CConfig (node : Corplink.VPNNode) (priv pub : string)
| CPrepare (node : Corplink.VPNNode) (info : Corplink.WGConnInfo) (priv pub : string)
| CManager (node : Corplink.VPNNode) (info : Corplink.WGConnInfo) (priv pub : string) (physIface : string)
| CSystem (node : Corplink.VPNNode) (info : Corplink.WGConnInfo) (pub : string).
(** What it returns on success. *)
Record connectDetails := mkDetails { node : Corplink.VPNNode; wgInfo : Corplink.WGConnInfo; pubB64 : string }.

Inductive keep_pc := KWait | KStatus | KReport | KCheck (settings : Corplink.VPNSettings) | KUpdate (settings : Corplink.VPNSettings).
Inductive reco_pc :=
| RWait | RStatus | RDead | RAlive
| RFlag | RDisconnect | RClean
| RAttempt | RPrepare | ROnce (pc : conn_pc) | RDone
| RGiveUp | RGiveUpDNS.
Inductive disc_pc := DStop | DManager | DSystem.
Inductive clean_pc := LStop | LManager | LPersisted | LKnown.
Inductive shut_pc := SStop | SMainStop | SManager.
Inductive thread :=
| TConnect (nodeID : Z) (follow : bool) (pc : conn_pc)
| TDisconnect (pc : disc_pc)
| TCleanup (pc : clean_pc)
| TShutdown (pc : shut_pc)
| TKeep (c : nat) (pc : keep_pc)
| TReconnect (c : nat) (attempts : nat) (reconnecting : bool) (pc : reco_pc)
| TDone.
(** What the two goroutines of a connection share: parameters of
    [startConnectionLoops], some of which the second one assigns. *)
Record connection := mkConnection {
  c_ctx : context; c_gen : Z; c_nodeID : Z; c_follow : bool;
  c_node : Corplink.VPNNode; c_vpnIP : string; c_pubB64 : string }.

Record daemon := mkDaemon {
  vm : Mgr;
  api : @Corplink.State L J Outbound.NetDialer;
  activeConnection : connectionSupervisor;
  ctxs : contexts;
  sys : Sys;
  loginCache : loginCapabilities;
  conns : list connection;
  threads : list thread;
  replies : list (nat * Response) }.

Definition cfg (d : daemon) : Config.Config := vm_cfg (vm d).
Definition set_vm (m : Mgr) d := mkDaemon m (api d) (activeConnection d) (ctxs d) (sys d) (loginCache d) (conns d) (threads d) (replies d).
Definition set_api a d := mkDaemon (vm d) a (activeConnection d) (ctxs d) (sys d) (loginCache d) (conns d) (threads d) (replies d).
Definition set_sup s cs d := mkDaemon (vm d) (api d) s cs (sys d) (loginCache d) (conns d) (threads d) (replies d).
Definition set_sys s d := mkDaemon (vm d) (api d) (activeConnection d) (ctxs d) s (loginCache d) (conns d) (threads d) (replies d).
Definition set_cache c d := mkDaemon (vm d) (api d) (activeConnection d) (ctxs d) (sys d) c (conns d) (threads d) (replies d).
Definition set_conns l d := mkDaemon (vm d) (api d) (activeConnection d) (ctxs d) (sys d) (loginCache d) l (threads d) (replies d).
Definition set_threads l d := mkDaemon (vm d) (api d) (activeConnection d) (ctxs d) (sys d) (loginCache d) (conns d) l (replies d).
Definition reply i r d := mkDaemon (vm d) (api d) (activeConnection d) (ctxs d) (sys d) (loginCache d) (conns d) (threads d) (replies d ++ [(i, r)]).
Definition on_vm (f : Mgr -> Mgr) d := set_vm (f (vm d)) d.
Definition on_sys (f : Sys -> Sys) d := set_sys (f (sys d)) d.
Definition goto (i : nat) (t : thread) d := set_threads (<[i := t]> (threads d)) d.
Definition finish (i : nat) (r : Response) d := reply i r (goto i TDone d).
(** A call to the server under a context: done, the client sends nothing. *)
Definition call {A} (ctx : context) (op : (list (@Corplink.request Outbound.NetDialer) -> @Corplink.request Outbound.NetDialer -> string + Corplink.response)
    -> Corplink.M (D := Outbound.NetDialer) A) (d : daemon) : daemon * result A :=
  let net := if Done (ctxs d) ctx then (fun _ _ => inl "context canceled") else http in
  let '(a, r) := op net (api d) in (set_api a d, r).
Definition save_session (d : daemon) : daemon := set_api (fst (Corplink.Save json_print session_writable (api d))) d.
Definition server (d : daemon) : string := Corplink.Server (Corplink.session (api d)).

(** *** The network of the control plane *)
Definition configureCorplinkClientNetwork (e : Env) (d : daemon) : daemon * string :=
  let '(direct, err) := Outbound.Init (e_os e) (Outbound.NewDirect (Config.Interface (Config.DirectOutbound (cfg d))) (Config.Upstream (Config.DNS (cfg d)))) in
  match err with
  | Some _ => (set_api (Corplink.SetDialContext None (api d)) d, "")
  | None =>
      let '(direct, dialer) := Outbound.DialerWithDNS (e_os e) direct in
      (set_api (Corplink.SetDialContext (Some dialer) (api d)) d, snd (Outbound.ResolvedIfaceName (e_os e) direct))
  end.
Definition ensureCorplinkAPIRoute (e : Env) (apiServer physIface : string) (d : daemon) : daemon :=
  if bool_decide (apiServer = "") || bool_decide (physIface = "") then d
  else match resolveHostnameWithResolver (e_lookup e) apiServer with
       | Err _ => d
       | Ok apiHost => on_vm (fw_AddScopedHostRoute apiHost physIface) d
       end.
Definition ensureControlPlaneRoutes (e : Env) (apiServer physIface : string) (upstream : list string) (d : daemon) : daemon :=
  if bool_decide (physIface = "") then d
  else
    let d := foldl (fun d u =>
      match upstream_host u with
      | Some host => if bool_decide (ParseIP host = []) then d else on_vm (fw_AddScopedHostRoute host physIface) d
      | None => d
      end) d upstream in
    ensureCorplinkAPIRoute e apiServer physIface d.
Definition prepareCorplinkControlPlane (e : Env) (d : daemon) : daemon * string :=
  if isLoopbackServer (server d) then (set_api (Corplink.SetDialContext None (api d)) d, "")
  else
    let '(d, physIface) := configureCorplinkClientNetwork e d in
    if bool_decide (physIface = "") then (d, physIface)
    else (ensureControlPlaneRoutes e (server d) physIface (Config.Upstream (Config.DNS (cfg d))) d, physIface).
Definition ensureNodeAPIRoute (n : Corplink.VPNNode) (physIface : string) (d : daemon) : daemon :=
  if bool_decide (physIface = "") || bool_decide (ParseIP (Corplink.IP_ n) = []) then d
  else on_vm (fw_AddScopedHostRoute (Corplink.IP_ n) physIface) d.
Definition ensureCorplinkNodeRoute (n : Corplink.VPNNode) (physIface : string) (d : daemon) : daemon :=
  if bool_decide (physIface = "") || bool_decide (To4 (ParseIP (Corplink.IP_ n)) = []) then d
  else on_vm (fw_AddScopedHostRoute (Corplink.IP_ n) physIface) d.
Definition cleanupPersistedRoutes (d : daemon) : daemon :=
  on_sys (fun s => flushDNSCache (cleanupSystemDNS s)) (on_vm rt_CleanupPersisted d).
Definition cleanupKnownHostRoutes (e : Env) (d : daemon) : daemon :=
  let ips := knownCleanupHostIPs (cfg d) (server d) (e_lookup e) in
  if bool_decide (ips = []) then d else on_vm (fw_CleanupHostRoutesByIP ips) d.
Definition cleanupAfterReconnectDisconnect : daemon -> daemon := cleanupPersistedRoutes.

(** *** connectVPNOnce *)
Definition find_node (nodes : list Corplink.VPNNode) (id : Z) : option Corplink.VPNNode :=
  find_first (fun n => Corplink.ID n =? id) nodes.
Definition no_interface : error := Errorf "direct outbound init: no physical interface" [].
Definition connect_config (d : daemon) (i : Corplink.WGConnInfo) (priv physIface : string) (follow : bool) : VPN.ConnectConfig :=
  VPN.mkConnectConfig
    (WGDevice.mkConfig priv (Corplink.ServerPublicKey i) (Corplink.ServerEndpoint i) (Corplink.info_ProtocolMode i)
       (Corplink.VpnIP i) (Corplink.DNSServers i) (fallback_dns (Config.Upstream (Config.DNS (cfg d)))) (Corplink.MTU i))
    (Corplink.SplitRoutes i) (Corplink.DomainSuffixes i) physIface
    (default "" (upstream_host (Corplink.ServerEndpoint i))) follow.
Definition connected_status (n : Corplink.VPNNode) (i : Corplink.WGConnInfo) (now : Z) : VPN.Status :=
  VPN.mkStatus true false (Corplink.Name n) (WGDevice.Addr_String (Corplink.VpnIP i))
    (match Corplink.DNSServers i with a :: _ => WGDevice.Addr_String a | [] => "" end)
    (if Corplink.ProtocolMode n =? 1 then "TCP" else "UDP") now.
Definition setup_dns (d : daemon) : daemon :=
  let t := Config.TUN (cfg d) in
  let tunIP := if bool_decide (Config.tun_IP t = "") then "172.30.77.1" else Config.tun_IP t in
  if shouldSetupSystemDNS (cfg d) && negb (bool_decide (Config.Name t = ""))
  then on_sys (fun s => fst (setupSystemDNS (Config.Name t) tunIP s)) d else d.
(** One part of [connectVPNOnce]: the next part, or what it returns. *)
Definition conn_step (e : Env) (ctx : context) (nodeID : Z) (follow : bool) (pc : conn_pc) (d : daemon)
  : daemon * (conn_pc + Response * option connectDetails) :=
  let fail d err := (d, inr (failed err, None)) in
  match pc with
  | CBegin =>
      let '(d, physIface) := prepareCorplinkControlPlane e d in
      if bool_decide (physIface = "") then fail d no_interface else (d, inl (CNodes physIface))
  | CNodes physIface =>
      let '(d, r) := call ctx Corplink.ListNodes d in
      match r with
      | Err err => fail d (Wrapf "list nodes: " [] err)
      | Ok nodes =>
          match find_node nodes nodeID with
          | None => fail d (Errorf "node %d not found" [itoa nodeID])
          | Some n =>
              let d := ensureCorplinkNodeRoute n physIface d in
              match Totp.GenerateKeyPair (e_rand e) with
              | Err err => fail d (Wrapf "keygen: " [] err)
              | Ok (priv, pub) => (d, inl (CConfig n priv pub))
              end
          end
      end
  | CConfig n priv pub =>
      let '(d, r) := call ctx (fun net => Corplink.GetWGConfig net (e_now e) n pub (Corplink.TOTPSecret (Corplink.session (api d)))) d in
      match r with
      | Err err => fail d (Wrapf "wg config: " [] err)
      | Ok i => (d, inl (CPrepare n i priv pub))
      end
  | CPrepare n i priv pub =>
      let '(d, physIface) := prepareCorplinkControlPlane e d in
      if bool_decide (physIface = "") then fail d no_interface else (d, inl (CManager n i priv pub physIface))
  | CManager n i priv pub physIface =>
      let '(m, err) := vm_Connect (e_conn e) (e_now e) (Corplink.Name n) (connect_config d i priv physIface follow) (vm d) in
      let d := set_vm m d in
      match err with
      | Some err => fail d (Wrapf "connect: " [] err)
      | None => (d, inl (CSystem n i pub))
      end
  | CSystem n i pub =>
      (setup_dns (on_sys flushDNSCache d), inr (ok (DStatus (connected_status n i (e_now e))), Some (mkDetails n i pub)))
  end.

(** *** The goroutines of a connection *)
Definition startConnectionLoops (ctx : context) (g : Z) (nodeID : Z) (follow : bool) (det : connectDetails) (d : daemon) : daemon :=
  let c := length (conns d) in
  let d := set_conns (conns d ++ [mkConnection ctx g nodeID follow (node det) (WGDevice.Addr_String (Corplink.VpnIP (wgInfo det))) (pubB64 det)]) d in
  set_threads (threads d ++ [TKeep c KWait; TReconnect c 0 false RWait]) d.
Definition maxAttempts : nat := 10.
(** [tick]: the ticker's channel wins the select. A step that cannot be taken
    changes nothing. *)
Definition keep_step (e : Env) (tick : bool) (i c : nat) (cn : connection) (pc : keep_pc) (d : daemon) : daemon :=
  match pc with
  | KWait =>
      if tick then (if IsCurrent (activeConnection d) (c_gen cn) then goto i (TKeep c KStatus) d else goto i TDone d)
      else if Done (ctxs d) (c_ctx cn) then goto i TDone d else d
  | KStatus => if VPN.Connected (vm_GetStatus (vm d)) then goto i (TKeep c KReport) d else goto i TDone d
  | KReport =>
      let '(d, physIface) := prepareCorplinkControlPlane e d in
      let d := ensureNodeAPIRoute (c_node cn) physIface d in
      let '(d, r) := call (c_ctx cn) (fun net => Corplink.ReportVPN net (c_node cn) (c_vpnIP cn) (c_pubB64 cn)) d in
      match r with
      | Ok (Some s) => goto i (TKeep c (KCheck s)) d
      | _ => goto i (TKeep c KWait) d
      end
  | KCheck s => if IsCurrent (activeConnection d) (c_gen cn) then goto i (TKeep c (KUpdate s)) d else goto i (TKeep c KWait) d
  | KUpdate s =>
      goto i (TKeep c KWait) (on_vm (vm_UpdateSplitRoutes (Corplink.set_SplitRoutes s) (Corplink.set_DomainSuffixes s)) d)
  end.
Definition reco_step (e : Env) (tick : bool) (i c : nat) (cn : connection) (att : nat) (rec : bool) (pc : reco_pc) (d : daemon) : daemon :=
  let at_ pc := TReconnect c att rec pc in
  match pc with
  | RWait =>
      if tick then (if IsCurrent (activeConnection d) (c_gen cn) then goto i (at_ RStatus) d else goto i TDone d)
      else if Done (ctxs d) (c_ctx cn) then goto i TDone d else d
  | RStatus =>
      if VPN.Connected (vm_GetStatus (vm d)) then goto i (at_ RDead) d
      else if rec then goto i (at_ RAttempt) d else goto i TDone d
  | RDead =>
      let '(m, dead) := vm_IsConnectionDead (e_now e) (vm d) in
      goto i (if dead then at_ RFlag else TReconnect c 0 false RAlive) (set_vm m d)
  | RAlive => goto i (at_ RWait) (on_vm (vm_SetReconnecting false) d)
  | RFlag => goto i (at_ RDisconnect) (on_vm (vm_SetReconnecting true) d)
  | RDisconnect => goto i (at_ RClean) (on_vm vm_Disconnect d)
  | RClean => goto i (at_ RAttempt) (cleanupAfterReconnectDisconnect d)
  | RAttempt =>
      if (maxAttempts <=? att)%nat then goto i (at_ RGiveUp) d
      else goto i (TReconnect c (S att) true RPrepare) d
  | RPrepare => goto i (at_ (ROnce CBegin)) (fst (prepareCorplinkControlPlane e d))
  | ROnce pc =>
      let '(d, r) := conn_step e (c_ctx cn) (c_nodeID cn) (c_follow cn) pc d in
      match r with
      | inl pc => goto i (at_ (ROnce pc)) d
      | inr (resp, Some det) =>
          let cn := mkConnection (c_ctx cn) (c_gen cn) (c_nodeID cn) (c_follow cn) (node det)
                      (WGDevice.Addr_String (Corplink.VpnIP (wgInfo det))) (pubB64 det) in
          goto i (TReconnect c 0 false RDone) (set_conns (<[c := cn]> (conns d)) d)
      | inr (_, None) => goto i (at_ RWait) d
      end
  | RDone => goto i (at_ RWait) (on_vm (vm_SetReconnecting false) d)
  | RGiveUp => goto i (at_ RGiveUpDNS) (on_vm (vm_SetReconnecting false) d)
  | RGiveUpDNS => goto i TDone (on_sys (fun s => flushDNSCache (cleanupSystemDNS s)) d)
  end.

(** *** The requests with several steps *)
Definition stop_connection (d : daemon) : daemon :=
  let '(s, cs) := Stop (activeConnection d) (ctxs d) in set_sup s cs d.
Definition handleConnect_step (e : Env) (i : nat) (nodeID : Z) (follow : bool) (pc : conn_pc) (d : daemon) : daemon :=
  let '(d, r) := conn_step e [] nodeID follow pc d in
  match r with
  | inl pc => goto i (TConnect nodeID follow pc) d
  | inr (resp, None) => finish i resp d
  | inr (resp, Some det) =>
      let '(s, cs, (ctx, g)) := Start [] (activeConnection d) (ctxs d) in
      finish i resp (startConnectionLoops ctx g nodeID follow det (set_sup s cs d))
  end.
Definition disconnect_step (i : nat) (pc : disc_pc) (d : daemon) : daemon :=
  match pc with
  | DStop => goto i (TDisconnect DManager) (stop_connection d)
  | DManager => goto i (TDisconnect DSystem) (on_vm vm_Disconnect d)
  | DSystem => finish i (ok DNone) (on_sys (fun s => flushDNSCache (cleanupSystemDNS s)) d)
  end.
Definition cleanup_step (e : Env) (i : nat) (pc : clean_pc) (d : daemon) : daemon :=
  match pc with
  | LStop => goto i (TCleanup LManager) (stop_connection d)
  | LManager => goto i (TCleanup LPersisted) (on_vm vm_Disconnect d)
  | LPersisted => goto i (TCleanup LKnown) (cleanupPersistedRoutes d)
  | LKnown => finish i (ok DNone) (cleanupKnownHostRoutes e d)
  end.
(** The request, then what [runWithContext] does before it returns. *)
Definition shutdown_step (i : nat) (pc : shut_pc) (d : daemon) : daemon :=
  match pc with
  | SStop => reply i (ok DNone) (goto i (TShutdown SMainStop) (stop_connection d))
  | SMainStop => goto i (TShutdown SManager) (stop_connection d)
  | SManager => goto i TDone (on_vm vm_Disconnect d)
  end.
Definition thread_step (e : Env) (tick : bool) (i : nat) (d : daemon) : daemon :=
  match threads d !! i with
  | Some (TConnect nodeID follow pc) => handleConnect_step e i nodeID follow pc d
  | Some (TDisconnect pc) => disconnect_step i pc d
  | Some (TCleanup pc) => cleanup_step e i pc d
  | Some (TShutdown pc) => shutdown_step i pc d
  | Some (TKeep c pc) => match conns d !! c with Some cn => keep_step e tick i c cn pc d | None => d end
  | Some (TReconnect c att rec pc) =>
      match conns d !! c with Some cn => reco_step e tick i c cn att rec pc d | None => d end
  | Some TDone | None => d
  end.

(** *** The other requests, one step each *)
Definition answer {A} (i : nat) (r : daemon * result A) (k : A -> daemon -> daemon) : daemon :=
  match r with (d, Ok a) => k a d | (d, Err e) => finish i (failed e) d end.
Definition saved (i : nat) (r : daemon * result unit) : daemon := answer i r (fun _ d => finish i (ok DNone) (save_session d)).
Definition node_dto (n : Corplink.VPNNode) (lat : Z) : Corplink.VPNNode :=
  Corplink.mkVPNNode (Corplink.ID n) (Corplink.Name n) "" 0 0 (Corplink.ProtocolMode n) 0 lat.
Definition ping (n : Corplink.VPNNode) (physIface : string) (elapsed : Z) (d : daemon) : daemon * Corplink.VPNNode :=
  let '(d, r) := call [] (fun net => Corplink.PingNode net n elapsed) (ensureNodeAPIRoute n physIface d) in
  (d, node_dto n (match r with Ok (lat, _) => lat | Err _ => 9999 end)).
Fixpoint ping_all (nodes : list Corplink.VPNNode) (physIface : string) (elapsed : Corplink.VPNNode -> Z) (d : daemon)
  : daemon * list Corplink.VPNNode :=
  match nodes with
  | [] => (d, [])
  | n :: nodes =>
      let '(d, n') := ping n physIface (elapsed n) d in
      let '(d, l) := ping_all nodes physIface elapsed d in (d, n' :: l)
  end.
Definition reload (e : Env) (i : nat) (d : daemon) : daemon :=
  match Config.LoadConfig json_parse goos (e_files e) configPath with
  | Err err => finish i (failed (Wrapf "reload config: " [] err)) d
  | Ok updated =>
      let d := on_vm (vm_set_cfg updated) d in
      let d := set_api (Corplink.Configure (Config.Corplink updated) (api d)) d in
      let d := fst (configureCorplinkClientNetwork e d) in
      let '(m, err) := vm_UpdateSOCKS5 (Config.SOCKS5 updated) (vm d) in
      finish i (match err with Some err => failed (Wrapf "reload socks5: " [] err) | None => ok DNone end) (set_vm m d)
  end.
Definition dispatchHandler (e : Env) (i : nat) (c : Cmd) (d : daemon) : daemon :=
  match c with
  | AShutdown => goto i (TShutdown SStop) d
  | ADisconnect => goto i (TDisconnect DStop) d
  | ACleanupRoutes => goto i (TCleanup LStop) d
  | AConnect nodeID follow => goto i (TConnect nodeID follow CBegin) d
  | ADiscover company =>
      answer i (call [] (fun net => Corplink.DiscoverCompany net company) d) (fun _ d =>
        finish i (ok DNone) (save_session (set_cache noCaps d)))
  | ALoginMethods =>
      match call [] Corplink.LoginMethods d with
      | (d, Err err) => finish i (failed err) (set_cache noCaps d)
      | (d, Ok info) => finish i (ok (DLogin info)) (set_cache (cache_Store info) d)
      end
  | ASendCode t a => answer i (call [] (fun net => Corplink.SendCode net t a) d) (fun _ d => finish i (ok DNone) d)
  | AVerifyCode t a code => saved i (call [] (fun net => Corplink.VerifyCode net t a code) d)
  | ALoginPassword a p =>
      saved i (call [] (fun net =>
        if bool_decide (Config.Platform (Config.Corplink (cfg d)) = "feilian_v1") then Corplink.LoginV1 net a p
        else if shouldUseLDAPPassword (cfg d) (loginCache d) then Corplink.LoginWithLDAPPassword net a p
        else Corplink.LoginWithPassword net a p) d)
  | AGetQRCode => answer i (call [] Corplink.GetQRCode d) (fun qr d => finish i (ok (DQRCode qr)) d)
  | APollQR token start rounds =>
      answer i (call [] (fun net => Corplink.PollQRLogin net token start rounds) d) (fun r d =>
        match r with Some _ => finish i (ok DNone) (save_session d) | None => d end)
  | ALogout => saved i (call [] Corplink.Logout d)
  | AIsAuthenticated => finish i (ok (DBool (Corplink.IsAuthenticated (api d)))) d
  | AListNodes =>
      answer i (call [] Corplink.ListNodes d) (fun nodes d => finish i (ok (DNodes (map (fun n => node_dto n 0) nodes))) d)
  | APingNodes elapsed =>
      answer i (call [] Corplink.ListNodes d) (fun nodes d =>
        let '(d, physIface) := prepareCorplinkControlPlane e d in
        let '(d, l) := ping_all nodes physIface elapsed d in finish i (ok (DNodes l)) d)
  | APingSingle nodeID elapsed =>
      match call [] Corplink.ListNodes d with
      | (d, Err err) => finish i (failed (Wrapf "list nodes: " [] err)) d
      | (d, Ok nodes) =>
          match find_node nodes nodeID with
          | None => finish i (failed (Errorf "node %d not found" [itoa nodeID])) d
          | Some n =>
              let '(d, physIface) := prepareCorplinkControlPlane e d in
              let '(d, n') := ping n physIface elapsed d in finish i (ok (DNode n')) d
          end
      end
  | ASetFollowSplitRoutes follow => finish i (ok DNone) (on_vm (vm_SetFollowSplitRoutes follow) d)
  | AReloadConfig => reload e i d
  | AStatus => finish i (ok (DStatus (vm_GetStatus (vm d)))) d
  | AGetStats => let s := vm_GetStats (vm d) in finish i (ok (DStats (WGDevice.TxBytes s) (WGDevice.RxBytes s))) d
  | AUnknown action => finish i (failed (Errorf "unknown action: %s" [action])) d
  end.

(** *** Runs: a request arrives, or a thread takes a step *)
Inductive event := ERequest (c : Cmd) (e : Env) | EStep (i : nat) (tick : bool) (e : Env).
Definition step (d : daemon) (ev : event) : daemon :=
  match ev with
  | ERequest c e =>
      let i := length (threads d) in
      let d := set_threads (threads d ++ [TDone]) d in
      let d := if actionUsesCorplinkNetwork c then fst (prepareCorplinkControlPlane e d) else d in
      dispatchHandler e i c d
  | EStep i tick e => thread_step e tick i d
  end.
Definition runs (d : daemon) (evs : list event) : daemon := foldl step d evs.
(** [runWithContext] before it serves requests. *)
Definition boot (m : Mgr) (a : @Corplink.State L J Outbound.NetDialer) (s : Sys) (e : Env) : daemon :=
  let d := mkDaemon m a (mkSupervisor None 0) (mkContexts 0 ∅) s noCaps [] [] [] in
  fst (configureCorplinkClientNetwork e (cleanupKnownHostRoutes e (cleanupPersistedRoutes d))).
End daemon.
