(* ===== verification/DaemonProofs.v ===== *)
(** * cmd/ecorplink-daemon: what the supervision of connections guarantees *)
From S2P Require Import Prelude GoStrings GoNet Json Daemon.
From S2P Require Config Outbound WGDevice WGCrypto VPN Corplink Totp.
Open Scope string_scope.
Open Scope list_scope.
Open Scope Z_scope.

Section daemon.
Context {U : Unicode} {L : Corplink.URLLib} {J : Corplink.CookieJar} {Dg : Totp.Digests} {C : WGCrypto.Crypto}.
Context {V : VPNManager} {VL : VPNManagerLaws} {SD : SysDNS}.
Context (json_parse : string -> option json) (json_print : json -> string) (session_writable : bool).
Context (goos configPath : string).
Context (http : list (@Corplink.request Outbound.NetDialer) -> @Corplink.request Outbound.NetDialer -> string + Corplink.response).

Abbreviation daemon := (@daemon L J V SD).
Abbreviation step := (Daemon.step json_parse json_print session_writable goos configPath http).
Abbreviation runs := (Daemon.runs json_parse json_print session_writable goos configPath http).
Implicit Types d : daemon.

(** ** Steps that leave the supervision alone *)
Record same_control d d' : Prop := {
  same_sup : activeConnection d' = activeConnection d;
  same_ctxs : ctxs d' = ctxs d;
  same_conns : conns d' = conns d;
  same_threads : threads d' = threads d }.
(** ... and an idle manager idle. *)
Record calm d d' : Prop := { calm_same : same_control d d'; calm_idle : idle (vm d) -> idle (vm d') }.
#[local] Instance same_preorder : PreOrder same_control.
Proof. split; [by split|]. intros a b c [] []. split; congruence. Qed.
#[local] Instance calm_preorder : PreOrder calm.
Proof. split; [by split; [split|]|]. intros a b c [H1 ?] [H2 ?]. split; [by rewrite H1|auto]. Qed.
Create HintDb calm.

Lemma calm_on_vm f d : (forall m, idle m -> idle (f m)) -> calm d (on_vm f d).
Proof. intros Hf. by split; [split|apply Hf]. Qed.
Lemma calm_set_vm m d : (idle (vm d) -> idle m) -> calm d (set_vm m d).
Proof. intros Hf. by split; [split|]. Qed.
Lemma calm_api a d : calm d (set_api a d).
Proof. by split; [split|]. Qed.
Lemma calm_on_sys f d : calm d (on_sys f d).
Proof. by split; [split|]. Qed.
Lemma calm_cache c d : calm d (set_cache c d).
Proof. by split; [split|]. Qed.
Lemma calm_route ip i d : calm d (on_vm (fw_AddScopedHostRoute ip i) d).
Proof. apply calm_on_vm. intros. by apply idle_route. Qed.
#[local] Hint Resolve calm_api calm_on_sys calm_cache calm_route : calm.
Lemma calm_call {A} ctx op d : calm d (fst (call (A := A) http ctx op d)).
Proof. unfold call. destruct (op _ _). apply calm_api. Qed.
Lemma calm_configure e d : calm d (fst (configureCorplinkClientNetwork e d)).
Proof.
  unfold configureCorplinkClientNetwork. destruct (Outbound.Init _ _) as [? [?|] ]; [apply calm_api|].
  destruct (Outbound.DialerWithDNS _ _). apply calm_api.
Qed.
Lemma calm_control e api iface ups d : calm d (ensureControlPlaneRoutes e api iface ups d).
Proof.
  unfold ensureControlPlaneRoutes. case_bool_decide; [done|]. set (d1 := foldl _ _ _).
  assert (calm d d1) as H1.
  { unfold d1. clear d1. revert d. induction ups as [|u ups IH]; intros d; [done|]. cbn [foldl]. etransitivity; [|apply IH].
    destruct (upstream_host u); [|done]. case_bool_decide; [done|apply calm_route]. }
  etransitivity; [exact H1|]. unfold ensureCorplinkAPIRoute. destruct (_ || _); [done|].
  destruct (resolveHostnameWithResolver _ _); [apply calm_route|done].
Qed.
Lemma calm_prepare e d : calm d (fst (prepareCorplinkControlPlane e d)).
Proof.
  unfold prepareCorplinkControlPlane. destruct (isLoopbackServer _); [apply calm_api|].
  pose proof (calm_configure e d) as H1. destruct (configureCorplinkClientNetwork e d) as [d1 i]. cbn [fst] in H1.
  case_bool_decide; [done|]. etransitivity; [exact H1|apply calm_control].
Qed.
Lemma calm_node n i d : calm d (ensureNodeAPIRoute n i d) /\ calm d (ensureCorplinkNodeRoute n i d).
Proof.
  unfold ensureNodeAPIRoute, ensureCorplinkNodeRoute.
  split; destruct (_ || _); [done|apply calm_route|done|apply calm_route].
Qed.
Lemma calm_persisted d : calm d (cleanupPersistedRoutes d).
Proof. unfold cleanupPersistedRoutes. etransitivity; [apply calm_on_vm; intros; by apply idle_persisted|apply calm_on_sys]. Qed.
Lemma calm_known e d : calm d (cleanupKnownHostRoutes e d).
Proof. unfold cleanupKnownHostRoutes. case_bool_decide; [done|]. apply calm_on_vm. intros. by apply idle_unroute. Qed.
Lemma calm_save d : calm d (save_session json_print session_writable d).
Proof. apply calm_api. Qed.

(** A part of [connectVPNOnce] leaves the supervision alone, and an idle manager
    idle unless the manager connects. *)
Lemma conn_step_calm e ctx id fl pc d :
  let '(d', r) := conn_step http e ctx id fl pc d in
  same_control d d' /\
  ((forall n i p, r <> inl (CSystem n i p)) -> idle (vm d) -> idle (vm d')) /\
  ((forall n i p, pc <> CSystem n i p) -> forall resp det, r <> inr (resp, Some det)).
Proof.
  assert (forall d1 (r : conn_pc + Response * option connectDetails), calm d d1 -> (forall resp det, r <> inr (resp, Some det)) -> same_control d d1 /\
    ((forall n i p, r <> inl (CSystem n i p)) -> idle (vm d) -> idle (vm d1)) /\
    ((forall n i p, pc <> CSystem n i p) -> forall resp det, r <> inr (resp, Some det))) as Hc.
  { intros d1 r [Hs Hi] Hr. split_and!; auto. }
  destruct pc as [|iface|n priv pub|n i priv pub|n i priv pub iface|n i pub]; cbn [conn_step].
  - pose proof (calm_prepare e d) as H1. destruct (prepareCorplinkControlPlane e d) as [d1 i1]. case_bool_decide; by apply Hc.
  - pose proof (calm_call ctx Corplink.ListNodes d) as H1. destruct (call http ctx Corplink.ListNodes d) as [d1 [nodes|err] ]; [|by apply Hc].
    destruct (find_node nodes id) as [n|]; [|by apply Hc].
    assert (calm d (ensureCorplinkNodeRoute n iface d1)) as H2 by (etransitivity; [exact H1|apply calm_node]).
    destruct (Totp.GenerateKeyPair _) as [ [priv pub]|]; by apply Hc.
  - match goal with |- context [call http ctx ?op d] => pose proof (calm_call ctx op d) as H1; destruct (call http ctx op d) as [d1 [i|err] ] end;
      by apply Hc.
  - pose proof (calm_prepare e d) as H1. destruct (prepareCorplinkControlPlane e d) as [d1 i1]. case_bool_decide; by apply Hc.
  - destruct (vm_Connect _ _ _ _ _) as [m [err|] ] eqn:E.
    + apply Hc; [|done]. apply calm_set_vm. intros Hi. by apply connect_failed in E.
    + split_and!; [done| |done]. intros Hr. by destruct (Hr n i pub).
  - split_and!; [| |intros Hn; by destruct (Hn n i pub)].
    + unfold setup_dns. destruct (_ && _); by split.
    + intros _. unfold setup_dns. by destruct (_ && _).
Qed.

(** ** Which generation is current

    The supervisor, the contexts and, of every connection ever started, its
    context and its generation. *)
Record core := mkCore { k_sup : connectionSupervisor; k_ctxs : contexts; k_conns : list (context * Z) }.
Definition key (cn : connection) : context * Z := (c_ctx cn, c_gen cn).
Definition core_of d : core := mkCore (activeConnection d) (ctxs d) (map key (conns d)).
(** A step leaves it alone, stops the current generation or starts one. *)
Inductive moves (k : core) : core -> Prop :=
| MSame : moves k k
| MStop : let '(s, cs) := Stop (k_sup k) (k_ctxs k) in moves k (mkCore s cs (k_conns k))
| MStart : let '(s, cs, (ctx, g)) := Start [] (k_sup k) (k_ctxs k) in moves k (mkCore s cs (k_conns k ++ [(ctx, g)])).

Lemma same_core d d' : same_control d d' -> core_of d' = core_of d.
Proof. intros []. unfold core_of. congruence. Qed.
Lemma core_goto i t d : core_of (goto i t d) = core_of d.
Proof. done. Qed.
Lemma core_finish i r d : core_of (finish i r d) = core_of d.
Proof. done. Qed.
Lemma moves_same d d' : core_of d' = core_of d -> moves (core_of d) (core_of d').
Proof. intros ->. constructor. Qed.
Lemma moves_stop d d' : core_of d' = core_of (stop_connection d) -> moves (core_of d) (core_of d').
Proof. intros ->. exact (MStop (core_of d)). Qed.

Lemma conn_step_core e ctx id fl pc d : core_of (fst (conn_step http e ctx id fl pc d)) = core_of d.
Proof.
  pose proof (conn_step_calm e ctx id fl pc d) as H. destruct (conn_step http e ctx id fl pc d) as [d' r].
  by apply same_core, H.
Qed.
Lemma ping_calm n i el d : calm d (fst (ping http n i el d)).
Proof.
  unfold ping. match goal with |- context [call http [] ?op ?x] => pose proof (calm_call [] op x) as H1; destruct (call http [] op x) end.
  etransitivity; [apply (proj1 (calm_node n i d))|exact H1].
Qed.
Lemma ping_all_calm nodes i el d : calm d (fst (ping_all http nodes i el d)).
Proof.
  revert d. induction nodes as [|n nodes IH]; intros d; [done|]. cbn [ping_all].
  pose proof (ping_calm n i (el n) d) as H1.
  destruct (ping http n i (el n) d) as [d1 n1]. specialize (IH d1). destruct (ping_all http nodes i el d1) as [d2 l].
  by etransitivity; [exact H1|].
Qed.

(** ** Threads that connect nothing any more *)
Definition settled (t : thread) : Prop :=
  match t with
  | TConnect _ _ _ => False
  | TReconnect _ _ _ pc => match pc with RWait | RAlive | RDone | RGiveUp | RGiveUpDNS => True | _ => False end
  | _ => True
  end.
(** What a request of one step does: its own thread aside, nothing. *)
Record served (i : nat) d d' : Prop := {
  served_core : core_of d' = core_of d;
  served_idle : idle (vm d) -> idle (vm d');
  served_threads : threads d' = threads d \/ exists t, settled t /\ threads d' = <[i := t]> (threads d) }.
Lemma served_finish i r d d' : calm d d' -> served i d (finish i r d').
Proof.
  intros [Hs Hi]. split; [by rewrite core_finish; apply same_core|done|]. right. exists TDone. split; [done|].
  cbn. by rewrite (same_threads _ _ Hs).
Qed.
Lemma served_calm i d d' : calm d d' -> served i d d'.
Proof. intros [Hs Hi]. split; [by apply same_core|done|]. left. apply Hs. Qed.
Lemma served_answer {A} d i (r : daemon * result A) k : calm d (fst r) ->
  (forall a d', calm d d' -> served i d (k a d')) -> served i d (answer i r k).
Proof. intros Hc Hk. destruct r as [d' [a|e] ]; cbn [answer fst] in *; [by apply Hk|by apply served_finish]. Qed.
Lemma served_saved d i r : calm d (fst r) -> served i d (saved json_print session_writable i r).
Proof.
  intros Hr. apply served_answer; [done|]. intros _ d' H1. apply served_finish. etransitivity; [exact H1|apply calm_save].
Qed.
Lemma reload_served e i d : served i d (reload json_parse goos configPath e i d).
Proof.
  unfold reload. destruct (Config.LoadConfig _ _ _ _) as [updated|err]; [|by apply served_finish].
  set (d1 := set_api _ _). assert (calm d d1) as H1.
  { unfold d1. etransitivity; [apply (calm_on_vm (vm_set_cfg updated)); intros; by apply idle_set_cfg|apply calm_api]. }
  pose proof (calm_configure e d1) as H2. set (d2 := fst _) in *. pose proof (idle_socks (Config.SOCKS5 updated) (vm d2)) as H3.
  destruct (vm_UpdateSOCKS5 _ _) as [m err]. apply served_finish. etransitivity; [exact H1|]. etransitivity; [exact H2|].
  by apply calm_set_vm.
Qed.
Definition is_connect (c : Cmd) : bool := match c with AConnect _ _ => true | _ => false end.
Lemma dispatch_served e i c d : is_connect c = false ->
  served i d (dispatchHandler json_parse json_print session_writable goos configPath http e i c d).
Proof.
  intros Hc. pose proof (@calm_call) as CC. destruct c; cbn [dispatchHandler];
    try done; try (by apply served_finish); try (by apply served_saved, calm_call).
  - apply served_answer; [apply calm_call|]. intros _ d' H1. apply served_finish.
    etransitivity; [exact H1|]. etransitivity; [apply calm_cache|apply calm_save].
  - pose proof (calm_call [] Corplink.LoginMethods d) as H1. destruct (call http [] _ d) as [d1 [info|e1] ]; apply served_finish;
      (etransitivity; [exact H1|apply calm_cache]).
  - apply served_answer; [apply calm_call|]. intros _ d' H1. by apply served_finish.
  - apply served_answer; [apply calm_call|]. intros qr d' H1. by apply served_finish.
  - apply served_answer; [apply calm_call|]. intros [r|] d' H1; [|by apply served_calm]. apply served_finish.
    etransitivity; [exact H1|apply calm_save].
  - apply served_answer; [apply calm_call|]. intros nodes d' H1. by apply served_finish.
  - apply served_answer; [apply calm_call|]. intros nodes d' H1. pose proof (calm_prepare e d') as H2.
    destruct (prepareCorplinkControlPlane e d') as [d2 iface]. pose proof (ping_all_calm nodes iface elapsed d2) as H3.
    destruct (ping_all http nodes iface elapsed d2) as [d3 l]. apply served_finish.
    etransitivity; [exact H1|]. by etransitivity.
  - pose proof (calm_call [] Corplink.ListNodes d) as H1. destruct (call http [] _ d) as [d1 [nodes|e1] ]; [|by apply served_finish].
    destruct (find_node nodes nodeID) as [n|]; [|by apply served_finish].
    pose proof (calm_prepare e d1) as H2. destruct (prepareCorplinkControlPlane e d1) as [d2 iface].
    pose proof (ping_calm n iface elapsed d2) as H3. destruct (ping http n iface elapsed d2) as [d3 n'].
    apply served_finish. etransitivity; [exact H1|]. by etransitivity.
  - apply served_finish, calm_on_vm. intros. by apply idle_follow.
  - apply reload_served.
  - split; [done|done|]. right. by exists (TDisconnect DStop).
  - split; [done|done|]. right. by exists (TCleanup LStop).
  - split; [done|done|]. right. by exists (TShutdown SStop).
Qed.

(** ** Every step is a move *)
Lemma keep_step_core e tick i c cn pc d : core_of (keep_step http e tick i c cn pc d) = core_of d.
Proof.
  destruct pc; cbn [keep_step].
  - destruct tick; [by destruct (IsCurrent _ _)|by destruct (Done _ _)].
  - by destruct (VPN.Connected _).
  - pose proof (calm_prepare e d) as H1. destruct (prepareCorplinkControlPlane e d) as [d1 iface].
    match goal with |- context [call http _ ?op ?x] => pose proof (calm_call (c_ctx cn) op x) as H2; destruct (call http (c_ctx cn) op x) as [d2 r] end.
    assert (core_of d2 = core_of d) as Hd.
    { apply same_core. apply calm_same. etransitivity; [exact H1|]. etransitivity; [apply (proj1 (calm_node (c_node cn) iface d1))|exact H2]. }
    by destruct r as [ [s|]|].
  - by destruct (IsCurrent _ _).
  - done.
Qed.
Lemma map_key_update (l : list connection) c cn cn' : l !! c = Some cn -> key cn' = key cn -> map key (<[c := cn']> l) = map key l.
Proof.
  intros Hl Hk. change (key <$> <[c := cn']> l = key <$> l). rewrite list_fmap_insert, Hk. apply list_insert_id.
  by rewrite list_lookup_fmap, Hl.
Qed.
Lemma reco_step_core e tick i c cn att rec pc d : conns d !! c = Some cn ->
  core_of (reco_step http e tick i c cn att rec pc d) = core_of d.
Proof.
  intros Hc. destruct pc; cbn [reco_step]; try done.
  - destruct tick; [by destruct (IsCurrent _ _)|by destruct (Done _ _)].
  - by destruct (VPN.Connected _), rec.
  - by destruct (vm_IsConnectionDead _ _) as [m []].
  - by destruct (_ <=? _)%nat.
  - rewrite core_goto. apply same_core, calm_prepare.
  - pose proof (conn_step_calm e (c_ctx cn) (c_nodeID cn) (c_follow cn) pc d) as H1.
    destruct (conn_step http e _ _ _ pc d) as [d1 [pc'|[resp [det|]]]]; destruct H1 as [H1 _];
      cbn beta iota zeta; rewrite core_goto; try by apply same_core.
    rewrite <- (same_core _ _ H1). unfold core_of. cbn [set_conns activeConnection ctxs conns]. f_equal.
    apply (map_key_update _ _ cn); [|done]. by rewrite (same_conns _ _ H1).
Qed.
Lemma thread_step_moves e tick i d : moves (core_of d) (core_of (thread_step http e tick i d)).
Proof.
  unfold thread_step. destruct (threads d !! i) as [t|]; [|constructor].
  destruct t as [id fl pc|pc|pc|pc|c pc|c att rec pc|]; try constructor.
  - unfold handleConnect_step. pose proof (conn_step_core e [] id fl pc d) as H1.
    destruct (conn_step http e [] id fl pc d) as [d1 [pc'|[resp [det|]]]]; cbn [fst] in H1; try by apply moves_same.
    rewrite <- H1. pose proof (MStart (core_of d1)) as Hm. cbn [core_of k_sup k_ctxs k_conns] in Hm.
    destruct (Start [] (activeConnection d1) (ctxs d1)) as [[s cs] [ctx g]]. cbn beta iota zeta. rewrite core_finish.
    unfold startConnectionLoops, core_of. cbn [conns set_threads set_conns set_sup activeConnection ctxs].
    by rewrite map_app.
  - destruct pc; cbn [disconnect_step]; [by apply moves_stop|by apply moves_same|by apply moves_same].
  - destruct pc; cbn [cleanup_step]; [by apply moves_stop|by apply moves_same| |]; apply moves_same;
      [apply (same_core _ _ (calm_same _ _ (calm_persisted d)))|apply (same_core _ _ (calm_same _ _ (calm_known e d)))].
  - destruct pc; cbn [shutdown_step]; [by apply moves_stop|by apply moves_stop|by apply moves_same].
  - destruct (conns d !! c); [|constructor]. apply moves_same, keep_step_core.
  - destruct (conns d !! c) eqn:Ec; [|constructor]. by apply moves_same, reco_step_core.
Qed.
Definition requested (d : daemon) (c : Cmd) (e : Env) : daemon :=
  let d := set_threads (threads d ++ [TDone]) d in
  if actionUsesCorplinkNetwork c then fst (prepareCorplinkControlPlane e d) else d.
Lemma requested_calm d c e : calm (set_threads (threads d ++ [TDone]) d) (requested d c e).
Proof. unfold requested. destruct (actionUsesCorplinkNetwork c); [apply calm_prepare|done]. Qed.
Lemma step_moves d ev : moves (core_of d) (core_of (step d ev)).
Proof.
  destruct ev as [c e|i tick e]; [|apply thread_step_moves]. apply moves_same. cbn [Daemon.step]. fold (requested d c e).
  assert (core_of (requested d c e) = core_of d) as H1 by apply (same_core _ _ (calm_same _ _ (requested_calm d c e))).
  destruct (is_connect c) eqn:Ec.
  - by destruct c.
  - etransitivity; [|exact H1]. by apply (served_core (length (threads d))), dispatch_served.
Qed.
Lemma runs_core (P : core -> Prop) : (forall k k', moves k k' -> P k -> P k') ->
  forall evs d, P (core_of d) -> P (core_of (runs d evs)).
Proof.
  intros HP evs. induction evs as [|ev evs IH]; intros d Hd; [done|]. cbn. apply IH. by eapply HP; [apply step_moves|].
Qed.

(** ** One current connection *)
Definition currentk (k : core) (g : Z) : bool := IsCurrent (k_sup k) g.
(** [n] bounds the number of moves so far, below the wrap of the counter. *)
Record supervised (n : Z) (k : core) : Prop := {
  gen_range : 0 <= gen (k_sup k) <= n;
  sup_live : forall i, cancel (k_sup k) = Some i -> (i < made (k_ctxs k))%nat /\ i ∉ canceled (k_ctxs k) /\ 1 <= gen (k_sup k);
  sup_fresh : forall i, i ∈ canceled (k_ctxs k) -> (i < made (k_ctxs k))%nat;
  sup_conns : forall c ctx g, k_conns k !! c = Some (ctx, g) -> 1 <= g <= gen (k_sup k) /\ exists i, ctx = [i] /\ (i < made (k_ctxs k))%nat /\
    if currentk k g then cancel (k_sup k) = Some i else i ∈ canceled (k_ctxs k);
  sup_order : forall c c' ctx ctx' g g', k_conns k !! c = Some (ctx, g) -> k_conns k !! c' = Some (ctx', g') -> (c < c')%nat -> g < g' }.

Lemma IsCurrent_true s g : IsCurrent s g = true <-> g <> 0 /\ gen s = g /\ is_Some (cancel s).
Proof. unfold IsCurrent. rewrite !andb_true_iff, negb_true_iff, Z.eqb_neq, Z.eqb_eq, bool_decide_eq_true. tauto. Qed.
Lemma canceled_after s cs i : i ∈ canceled (cancel_ctx (cancel s) cs) <-> cancel s = Some i \/ i ∈ canceled cs.
Proof. unfold cancel_ctx. destruct (cancel s) as [j|]; cbn; set_solver. Qed.
Lemma made_after f cs : made (cancel_ctx f cs) = made cs.
Proof. by destruct f. Qed.

(** Cancelling what is current: every generation so far is stale and its
    context done. *)
Lemma all_stale n k c ctx g : supervised n k -> k_conns k !! c = Some (ctx, g) ->
  exists i, ctx = [i] /\ (i < made (k_ctxs k))%nat /\ i ∈ canceled (cancel_ctx (cancel (k_sup k)) (k_ctxs k)).
Proof.
  intros Hk Hc. destruct (sup_conns n k Hk c ctx g Hc) as (_ & i & -> & Hi & Hcur). exists i. split_and!; try done.
  apply canceled_after. destruct (currentk k g); [by left|by right].
Qed.
Lemma supervised_move n k k' : n + 1 < 2 ^ 64 -> moves k k' -> supervised n k -> supervised (n + 1) k'.
Proof.
  intros Hn Hm Hk. pose proof (gen_range n k Hk) as Hg. destruct Hm as [| |]; cbn beta iota zeta.
  - split; try apply Hk. lia.
  - unfold Stop. rewrite u64_small by lia. split; cbn [k_sup k_ctxs k_conns gen cancel].
    + lia.
    + done.
    + intros i. rewrite made_after, canceled_after. intros [Hi|Hi]; [by apply (sup_live n k Hk)|by apply (sup_fresh n k Hk)].
    + intros c ctx g Hc. destruct (all_stale n k c ctx g Hk Hc) as (i & -> & Hi & Hic).
      destruct (sup_conns n k Hk c [i] g Hc) as (Hgr & _). split; [lia|]. exists i. rewrite made_after. split_and!; try done.
      unfold currentk. destruct (IsCurrent _ g) eqn:Ec; [|done]. apply IsCurrent_true in Ec as (_ & _ & [? [=] ]).
    + apply (sup_order n k Hk).
  - unfold Start, WithCancel. rewrite u64_small by lia. cbn [head]. split; cbn [k_sup k_ctxs k_conns gen cancel made canceled].
    + lia.
    + intros i [= <-]. rewrite made_after, canceled_after. split_and!; [lia| |lia].
      intros [Hi|Hi]; [apply (sup_live n k Hk) in Hi|apply (sup_fresh n k Hk) in Hi]; lia.
    + intros i. rewrite made_after, canceled_after. intros [Hi|Hi]; [apply (sup_live n k Hk) in Hi|apply (sup_fresh n k Hk) in Hi]; lia.
    + intros c ctx g Hc. apply lookup_app_Some in Hc as [Hc|[Hl Hc] ].
      * destruct (all_stale n k c ctx g Hk Hc) as (i & -> & Hi & Hic). destruct (sup_conns n k Hk c [i] g Hc) as (Hgr & _).
        split; [lia|]. exists i. rewrite made_after. split_and!; [done|lia|]. unfold currentk.
        destruct (IsCurrent _ g) eqn:Ec; [|done]. apply IsCurrent_true in Ec as (_ & Ec & _). cbn in Ec. lia.
      * apply list_lookup_singleton_Some in Hc as [_ [= <- <-] ]. split; [lia|]. exists (made (k_ctxs k)).
        rewrite made_after. split_and!; [done|lia|]. unfold currentk, IsCurrent. cbn [gen cancel k_sup].
        rewrite Z.eqb_refl, (proj2 (Z.eqb_neq _ _)) by lia. by cbn.
    + intros c c' ctx ctx' g g' Hc Hc' Hlt. apply lookup_app_Some in Hc as [Hc|[Hl Hc] ].
      * apply lookup_app_Some in Hc' as [Hc'|[Hl' Hc'] ]; [by apply (sup_order n k Hk c c' ctx ctx')|].
        apply list_lookup_singleton_Some in Hc' as [_ [= <- <-] ]. destruct (sup_conns n k Hk c ctx g Hc) as (? & _). lia.
      * apply lookup_app_Some in Hc' as [Hc'|[Hl' Hc'] ]; [apply lookup_lt_Some in Hc'; lia|].
        assert (c' = length (k_conns k)) by (apply lookup_lt_Some in Hc'; cbn in Hc'; lia). lia.
Qed.
Lemma stale_move n k k' c ctx g : n + 1 < 2 ^ 64 -> moves k k' -> supervised n k ->
  k_conns k !! c = Some (ctx, g) -> currentk k g = false -> k_conns k' !! c = Some (ctx, g) /\ currentk k' g = false.
Proof.
  intros Hn Hm Hk Hc Hs. destruct (sup_conns n k Hk c ctx g Hc) as (Hg & _). pose proof (gen_range n k Hk).
  destruct Hm as [| |]; [done| |]; cbn beta iota zeta.
  - split; [done|]. unfold currentk, IsCurrent. cbn. by rewrite andb_false_r.
  - unfold Start, WithCancel. rewrite u64_small by lia. split; [by apply lookup_app_l_Some|].
    unfold currentk, IsCurrent. cbn [k_sup gen]. rewrite (proj2 (Z.eqb_neq _ g)) by lia. by rewrite andb_false_r.
Qed.
Lemma runs_supervised (Q : core -> Prop) : (forall n k k', n + 1 < 2 ^ 64 -> moves k k' -> supervised n k -> Q k -> Q k') ->
  forall evs n d, n + Z.of_nat (length evs) < 2 ^ 64 -> supervised n (core_of d) -> Q (core_of d) ->
  supervised (n + Z.of_nat (length evs)) (core_of (runs d evs)) /\ Q (core_of (runs d evs)).
Proof.
  intros HQ evs. induction evs as [|ev evs IH]; intros n d Hn Hk Hq.
  { cbn [length Z.of_nat]. by rewrite Z.add_0_r. }
  cbn [length] in *. rewrite Nat2Z.inj_succ in *. replace (n + Z.succ (Z.of_nat (length evs))) with (n + 1 + Z.of_nat (length evs)) in * by lia.
  apply (IH (n + 1) (step d ev)); [lia| |].
  - apply (supervised_move n (core_of d)); [lia|apply step_moves|done].
  - apply (HQ n (core_of d)); [lia|apply step_moves|done|done].
Qed.
Lemma boot_core m a s e : core_of (boot m a s e) = mkCore (mkSupervisor None 0) (mkContexts 0 ∅) [].
Proof.
  unfold boot. etransitivity; [apply (same_core _ _ (calm_same _ _ (calm_configure e _)))|].
  etransitivity; [apply (same_core _ _ (calm_same _ _ (calm_known e _)))|].
  by etransitivity; [apply (same_core _ _ (calm_same _ _ (calm_persisted _)))|].
Qed.
Lemma boot_supervised m a s e : supervised 0 (core_of (boot m a s e)).
Proof. rewrite boot_core. by split. Qed.

(** C7: At any moment of the daemon's life at most one connection is current, and
    what a goroutine asks the supervisor agrees with what its context says: a
    connection is current exactly while its context is not done. A connection
    that is not current never becomes so again, whatever is requested and
    however the goroutines interleave, so a goroutine that was told to end ends
    at its next look. (The counter of generations has 64 bits; the theorem is
    about lives of fewer than 2^64 - 1 steps.) *)
Theorem one_current_connection m a s e evs evs' :
  Z.of_nat (length evs + length evs') < 2 ^ 64 - 1 ->
  let d := runs (boot m a s e) evs in
  (forall c cn, conns d !! c = Some cn -> IsCurrent (activeConnection d) (c_gen cn) = negb (Done (ctxs d) (c_ctx cn))) /\
  (forall c c' cn cn', conns d !! c = Some cn -> conns d !! c' = Some cn' ->
     IsCurrent (activeConnection d) (c_gen cn) = true -> IsCurrent (activeConnection d) (c_gen cn') = true -> c = c') /\
  (forall c cn, conns d !! c = Some cn -> IsCurrent (activeConnection d) (c_gen cn) = false ->
     exists cn', conns (runs d evs') !! c = Some cn' /\ c_gen cn' = c_gen cn /\
       IsCurrent (activeConnection (runs d evs')) (c_gen cn') = false).
Proof.
  intros Hlen d. destruct (runs_supervised (fun _ => True) (fun _ _ _ _ _ _ H => H) evs 0 (boot m a s e)) as [Hk _];
    [lia|apply boot_supervised|done|]. fold d in Hk. rewrite Z.add_0_l in Hk. set (n := Z.of_nat (length evs)) in *.
  assert (forall c cn, conns d !! c = Some cn -> k_conns (core_of d) !! c = Some (key cn)) as Hc.
  { intros c cn E. cbn [core_of k_conns]. change (map key (conns d)) with (key <$> conns d). by rewrite list_lookup_fmap, E. }
  split_and!.
  - intros c cn E. destruct (sup_conns n _ Hk c _ _ (Hc _ _ E)) as (_ & i & Ei & _ & Hi). rewrite Ei. unfold Done. cbn [existsb].
    rewrite orb_false_r. unfold currentk in Hi. cbn [core_of k_sup k_ctxs] in Hi.
    destruct (IsCurrent _ (c_gen cn)) eqn:E1.
    + symmetry. apply negb_true_iff, bool_decide_eq_false. by apply (sup_live n _ Hk).
    + symmetry. by apply negb_false_iff, bool_decide_eq_true.
  - intros c c' cn cn' E E' H1 H2. apply IsCurrent_true in H1 as (_ & H1 & _), H2 as (_ & H2 & _).
    pose proof (sup_order n _ Hk c c' _ _ _ _ (Hc _ _ E) (Hc _ _ E')). pose proof (sup_order n _ Hk c' c _ _ _ _ (Hc _ _ E') (Hc _ _ E)).
    destruct (Nat.lt_trichotomy c c') as [?|[?|?]]; [lia|done|lia].
  - intros c cn E Hs.
    destruct (runs_supervised (fun k => k_conns k !! c = Some (key cn) /\ currentk k (c_gen cn) = false)) with (evs := evs') (n := n) (d := d)
      as [_ [H1 H2]]; try done; [|lia|by split; [apply Hc|]|].
    + intros n' k k' Hn' Hm Hk' [H1 H2]. by apply (stale_move n' k k').
    + cbn [core_of k_conns] in H1. change (map key ?l) with (key <$> l) in H1. rewrite list_lookup_fmap in H1.
      apply fmap_Some in H1 as (cn' & E' & Ek). exists cn'. injection Ek as _ Eg. rewrite <- Eg. done.
Qed.

(** ** After a disconnect *)
Definition connects (ev : event) : bool := match ev with ERequest c _ => is_connect c | EStep _ _ _ => false end.
Definition steps_thread (i : nat) (ev : event) : bool := match ev with EStep j _ _ => (j =? i)%nat | ERequest _ _ => false end.
(** Nothing is current, and no thread has a connection under way. *)
Definition quiet d : Prop := cancel (activeConnection d) = None /\ Forall settled (threads d).

Lemma settled_goto i t d : settled t -> Forall settled (threads d) -> Forall settled (threads (goto i t d)).
Proof. intros. by apply Forall_insert. Qed.
Lemma quiet_stale d g : cancel (activeConnection d) = None -> IsCurrent (activeConnection d) g = false.
Proof. intros Hc. unfold IsCurrent. by rewrite Hc, andb_false_r. Qed.
Lemma core_cancel d d' : core_of d' = core_of d -> cancel (activeConnection d') = cancel (activeConnection d).
Proof. intros E. by rewrite (f_equal (fun k => cancel (k_sup k)) E : cancel (activeConnection d') = _). Qed.

Lemma keep_step_settled e tick i c cn pc d : Forall settled (threads d) ->
  Forall settled (threads (keep_step http e tick i c cn pc d)) /\ (idle (vm d) -> idle (vm (keep_step http e tick i c cn pc d))).
Proof.
  intros Ht. destruct pc; cbn [keep_step].
  - destruct tick; [destruct (IsCurrent _ _)|destruct (Done _ _)]; (split; [try by apply settled_goto|done]). done.
  - destruct (VPN.Connected _); (split; [by apply settled_goto|done]).
  - pose proof (calm_prepare e d) as H1. destruct (prepareCorplinkControlPlane e d) as [d1 iface].
    match goal with |- context [call http _ ?op ?x] => pose proof (calm_call (c_ctx cn) op x) as H2; destruct (call http (c_ctx cn) op x) as [d2 r] end.
    assert (calm d d2) as [ [_ _ _ Hs] Hi].
    { etransitivity; [exact H1|]. etransitivity; [apply (proj1 (calm_node (c_node cn) iface d1))|exact H2]. }
    destruct r as [ [s|]|]; (split; [apply settled_goto; [done|by rewrite Hs]|done]).
  - destruct (IsCurrent _ _); (split; [by apply settled_goto|done]).
  - split; [by apply (settled_goto i (TKeep c KWait) d)|]. intros. by apply idle_routes.
Qed.
Lemma thread_step_quiet e tick i d : quiet d ->
  quiet (thread_step http e tick i d) /\ (idle (vm d) -> idle (vm (thread_step http e tick i d))).
Proof.
  intros [Hc Ht]. assert (cancel (activeConnection (thread_step http e tick i d)) = None /\
    Forall settled (threads (thread_step http e tick i d)) /\ (idle (vm d) -> idle (vm (thread_step http e tick i d))))
    as (?&?&?); [|done].
  unfold thread_step. destruct (threads d !! i) as [t|] eqn:Ei; [|done].
  pose proof (Forall_lookup_1 _ _ _ _ Ht Ei) as Hst. destruct t as [id fl pc|pc|pc|pc|c pc|c att rec pc|]; [done| | | | | |done].
  - destruct pc; cbn [disconnect_step]; (split_and!; [done|by apply (settled_goto i)|done || (intros; apply disconnect_idle)]).
  - destruct pc; cbn [cleanup_step].
    + split_and!; [done|by apply (settled_goto i)|done].
    + split_and!; [done|by apply (settled_goto i)|intros; apply disconnect_idle].
    + pose proof (calm_persisted d) as [Hs Hi]. split_and!; [by rewrite (core_cancel d) by (rewrite core_goto; by apply same_core)| |done].
      apply settled_goto; [done|]. by rewrite (same_threads _ _ Hs).
    + pose proof (calm_known e d) as [Hs Hi]. split_and!; [by rewrite (core_cancel d) by (rewrite core_finish; by apply same_core)| |done].
      apply (settled_goto i TDone (cleanupKnownHostRoutes e d)); [done|]. by rewrite (same_threads _ _ Hs).
  - destruct pc; cbn [shutdown_step]; (split_and!; [done|by apply (settled_goto i)|done || (intros; apply disconnect_idle)]).
  - destruct (conns d !! c) as [cn|]; [|done]. destruct (keep_step_settled e tick i c cn pc d Ht). split_and!; [|done|done].
    rewrite (core_cancel d); [done|apply keep_step_core].
  - destruct (conns d !! c) as [cn|]; [|done]. destruct pc; try done; cbn [reco_step].
    + rewrite quiet_stale by done. destruct tick; [|destruct (Done _ _)]; (split_and!; [done|try by apply settled_goto|done]). done.
    + split_and!; [done|by apply (settled_goto i)|intros; by apply idle_reconnecting].
    + split_and!; [done|by apply (settled_goto i)|intros; by apply idle_reconnecting].
    + split_and!; [done|by apply (settled_goto i)|intros; by apply idle_reconnecting].
    + split_and!; [done|by apply (settled_goto i)|done].
Qed.
Lemma request_quiet c e d : is_connect c = false -> Forall settled (threads d) ->
  let d' := step d (ERequest c e) in
  core_of d' = core_of d /\ Forall settled (threads d') /\ (idle (vm d) -> idle (vm d')).
Proof.
  intros Hc Ht. cbn [Daemon.step]. fold (requested d c e). destruct (requested_calm d c e) as [Hs Hi].
  destruct (dispatch_served e (length (threads d)) c (requested d c e) Hc) as [H1 H2 H3].
  assert (Forall settled (threads (requested d c e))) as Hr
    by (rewrite (same_threads _ _ Hs); apply Forall_app; split; [done|by apply Forall_singleton]).
  split_and!; [rewrite H1; exact (same_core _ _ Hs)| |auto].
  destruct H3 as [->|(t & Hst & ->)]; [done|by apply Forall_insert].
Qed.
Lemma runs_quiet evs d : Forall (fun ev => connects ev = false) evs -> quiet d ->
  quiet (runs d evs) /\ (idle (vm d) -> idle (vm (runs d evs))).
Proof.
  revert d. induction evs as [|ev evs IH]; intros d Hev Hq; [done|]. apply Forall_cons in Hev as [Hev Hevs].
  assert (quiet (step d ev) /\ (idle (vm d) -> idle (vm (step d ev)))) as [H1 H2].
  { destruct ev as [c e|i tick e]; [|by apply thread_step_quiet]. destruct Hq as [Hq1 Hq2].
    destruct (request_quiet c e d Hev Hq2) as (Hk & ? & ?). split; [split; [by rewrite (core_cancel d)|done]|done]. }
  destruct (IH _ Hevs H1) as [H3 H4]. split; [done|auto].
Qed.

(** C6: A disconnect is final: it is carried out while no connection attempt is
    under way (no connect request and no reconnect past its check of the
    supervisor); then, until somebody asks for a connection, the manager stays
    without one and no connection is current, whatever else is requested - the
    status, a mode, a configuration, nodes, logins, a cleanup - and however
    many ticks the goroutines of earlier connections still see. *)
Theorem disconnect_is_final d e e1 e2 evs :
  Forall settled (threads d) -> Forall (fun ev => connects ev = false) evs ->
  let i := length (threads d) in
  let d' := runs d (ERequest ADisconnect e :: EStep i false e1 :: EStep i false e2 :: evs) in
  idle (vm d') /\ VPN.Connected (vm_GetStatus (vm d')) = false /\
  forall c cn, conns d' !! c = Some cn -> IsCurrent (activeConnection d') (c_gen cn) = false.
Proof.
  intros Ht Hev. cbn zeta. set (i := length (threads d)).
  change (runs d (?a :: ?b :: ?c :: evs)) with (runs (step (step (step d a) b) c) evs).
  set (d1 := step d (ERequest ADisconnect e)).
  assert (d1 = goto i (TDisconnect DStop) (set_threads (threads d ++ [TDone]) d)) as E1 by done.
  assert (threads d1 !! i = Some (TDisconnect DStop)) as Hi1.
  { rewrite E1. cbn. apply list_lookup_insert_eq. rewrite length_app. cbn. lia. }
  set (d2 := step d1 (EStep i false e1)).
  assert (d2 = goto i (TDisconnect DManager) (stop_connection d1)) as E2.
  { unfold d2. cbn [Daemon.step]. unfold thread_step. by rewrite Hi1. }
  assert (quiet d2) as H2.
  { rewrite E2. split; [done|]. apply settled_goto; [done|]. cbn [stop_connection threads set_sup].
    unfold stop_connection. destruct (Stop _ _). cbn [threads set_sup]. rewrite E1. apply settled_goto; [done|].
    cbn. apply Forall_app. split; [done|by apply Forall_singleton]. }
  assert (threads d2 !! i = Some (TDisconnect DManager)) as Hi2.
  { rewrite E2. cbn. apply list_lookup_insert_eq. by apply lookup_lt_Some in Hi1. }
  set (d3 := step d2 (EStep i false e2)).
  assert (idle (vm d3)) as Hidle.
  { unfold d3. cbn [Daemon.step]. unfold thread_step. rewrite Hi2. apply disconnect_idle. }
  destruct (thread_step_quiet e2 false i d2 H2) as [H3 _]. destruct (runs_quiet evs d3 Hev H3) as [ [Hc _] H5].
  split_and!; [auto|by apply idle_not_connected, H5|]. intros c cn _. by apply quiet_stale.
Qed.

(** ** Giving up *)
Definition connect_fails : Prop := forall e now n cc m, exists err, snd (vm_Connect e now n cc m) = Some err.
Definition server_fails : Prop := forall sent r, exists why, http sent r = inl why.
Definition rank (pc : reco_pc) : nat :=
  match pc with
  | RGiveUpDNS => 1 | RGiveUp => 2 | RAttempt => 3 | RClean | RStatus => 4 | RDisconnect | RWait => 5 | RFlag => 6
  | ROnce (CManager _ _ _ _ _) => 6 | ROnce (CPrepare _ _ _ _) => 7 | ROnce (CConfig _ _ _) => 8 | ROnce (CNodes _) => 9
  | ROnce CBegin => 10 | RPrepare => 11 | _ => 0
  end.
Definition distance (att : nat) (pc : reco_pc) : nat := 9 * (10 - att) + rank pc.
(** Where the goroutine can be on its way, and what holds there. *)
Definition on_its_way (att : nat) (rec : bool) (pc : reco_pc) (m : Mgr) : Prop :=
  (att <= 10)%nat /\
  match pc with
  | RFlag | RDisconnect => True
  | RWait | RStatus => rec = true /\ idle m
  | ROnce (CBegin | CNodes _) => rec = true /\ idle m
  | ROnce (CConfig _ _ _ | CPrepare _ _ _ _ | CManager _ _ _ _ _) => rec = true /\ idle m /\ connect_fails
  | RPrepare => rec = true /\ idle m
  | RClean | RAttempt => idle m
  | RGiveUp => idle m
  | RGiveUpDNS => idle m /\ VPN.Reconnecting (vm_GetStatus m) = false
  | _ => False
  end.
Definition gave_up (i : nat) d : Prop :=
  threads d !! i = Some TDone /\ idle (vm d) /\ VPN.Reconnecting (vm_GetStatus (vm d)) = false.
Record giving_up (i c : nat) (cn : connection) (k : nat) d : Prop := {
  gu_where : exists att rec pc, threads d !! i = Some (TReconnect c att rec pc) /\ on_its_way att rec pc (vm d) /\ distance att pc = k;
  gu_conn : conns d !! c = Some cn;
  gu_current : IsCurrent (activeConnection d) (c_gen cn) = true }.
Definition towards (i c : nat) (cn : connection) (k : nat) d : Prop :=
  gave_up i d \/ exists k', (k' < k)%nat /\ giving_up i c cn k' d.

Lemma server_fails_list ctx d : server_fails -> exists err, snd (call http ctx Corplink.ListNodes d) = Err err.
Proof.
  intros Hf. unfold call, Corplink.ListNodes, Corplink.apiURL, Corplink.gets, Corplink.bind, Corplink.get, Corplink.do.
  destruct (Corplink.url_Parse _); [|by eexists]. destruct (Done _ _); [by eexists|].
  match goal with |- context [http ?s ?r] => destruct (Hf s r) as [why ->] end. by eexists.
Qed.
Lemma towards_goto i c cn k d d' att rec pc : (i < length (threads d))%nat -> same_control d d' ->
  conns d !! c = Some cn -> IsCurrent (activeConnection d) (c_gen cn) = true ->
  on_its_way att rec pc (vm d') -> (distance att pc < k)%nat -> towards i c cn k (goto i (TReconnect c att rec pc) d').
Proof.
  intros Hi [S1 S2 S3 S4] Hc Hcur Hw Hk. right. exists (distance att pc). split; [done|]. split.
  - exists att, rec, pc. split_and!; try done. cbn. apply list_lookup_insert_eq. by rewrite S4.
  - cbn. by rewrite S3.
  - cbn. by rewrite S1.
Qed.
Lemma conn_step_on_its_way e ctx id fl pc d att : (connect_fails \/ server_fails) ->
  (att <= 10)%nat -> on_its_way att true (ROnce pc) (vm d) ->
  let '(d', r) := conn_step http e ctx id fl pc d in
  same_control d d' /\
  match r with
  | inl pc' => on_its_way att true (ROnce pc') (vm d') /\ (rank (ROnce pc') < rank (ROnce pc))%nat
  | inr (_, None) => idle (vm d')
  | inr (_, Some _) => False
  end.
Proof.
  intros Hf Ha [_ Hw]. pose proof (conn_step_calm e ctx id fl pc d) as H1.
  assert (match pc with CSystem _ _ _ => False | _ => True end /\ idle (vm d)) as [Hpc Hid] by (destruct pc; naive_solver).
  destruct (conn_step http e ctx id fl pc d) as [d' r] eqn:E. destruct H1 as (H1 & H2 & H3). split; [done|].
  assert ((forall n i p, r <> inl (CSystem n i p)) -> idle (vm d')) as Hidle by auto. clear H2.
  assert (forall resp det, r <> inr (resp, Some det)) as Hnd by (apply H3; intros n i p ->; done). clear H3.
  destruct pc as [|iface|n priv pub|n i priv pub|n i priv pub iface|n i pub]; cbn [conn_step] in E; [..|done].
  - destruct (prepareCorplinkControlPlane e d) as [d1 i1]. revert E. case_bool_decide; intros [= <- <-]; [by apply Hidle|].
    unfold on_its_way. split_and!; [done|done|by apply Hidle|cbn; lia].
  - destruct Hf as [Hf|Hf].
    + destruct (call http ctx Corplink.ListNodes d) as [d1 [nodes|err] ]; [|injection E as <- <-; by apply Hidle].
      destruct (find_node nodes id) as [n|]; [|injection E as <- <-; by apply Hidle].
      destruct (Totp.GenerateKeyPair _) as [ [priv pub]|]; injection E as <- <-; [|by apply Hidle].
      unfold on_its_way. split_and!; [done|done|by apply Hidle|done|cbn; lia].
    + destruct (server_fails_list ctx d Hf) as [err Herr]. destruct (call http ctx Corplink.ListNodes d) as [d1 r1]. cbn in Herr. subst r1.
      injection E as <- <-. by apply Hidle.
  - destruct Hw as (_ & _ & Hcf). match type of E with context [call http ctx ?op d] => destruct (call http ctx op d) as [d1 [i|err] ] end;
      injection E as <- <-; [|by apply Hidle]. unfold on_its_way. split_and!; [done|done|by apply Hidle|done|cbn; lia].
  - destruct Hw as (_ & _ & Hcf). destruct (prepareCorplinkControlPlane e d) as [d1 i1]. revert E.
    case_bool_decide; intros [= <- <-]; [by apply Hidle|]. unfold on_its_way. split_and!; [done|done|by apply Hidle|done|cbn; lia].
  - destruct Hw as (_ & _ & Hcf).
    match type of E with context [vm_Connect ?a ?b ?x ?y ?z] => destruct (Hcf a b x y z) as [err Herr]; destruct (vm_Connect a b x y z) as [m oe] end.
    cbn in Herr. subst oe. injection E as <- <-. by apply Hidle.
Qed.
Lemma giving_up_step e i c cn k d : connect_fails \/ server_fails -> giving_up i c cn k d ->
  towards i c cn k (step d (EStep i true e)).
Proof.
  intros Hf [(att & rec & pc & Hi & Hw & <-) Hc Hcur]. cbn [Daemon.step]. unfold thread_step. rewrite Hi, Hc.
  pose proof (lookup_lt_Some _ _ _ Hi) as Hlt. destruct Hw as [Ha Hw].
  assert (forall att' rec' pc' d', same_control d d' -> on_its_way att' rec' pc' (vm d') -> (distance att' pc' < distance att pc)%nat ->
    towards i c cn (distance att pc) (goto i (TReconnect c att' rec' pc') d')) as Hgo by (intros; by apply towards_goto with (d := d)).
  destruct pc; cbn [reco_step]; try done.
  - rewrite Hcur. apply Hgo; [done|by split|cbn; lia].
  - destruct Hw as [-> Hid]. rewrite (idle_not_connected _ Hid). apply Hgo; [done|by split|cbn; lia].
  - apply (Hgo att rec RDisconnect (on_vm (vm_SetReconnecting true) d)); [by split|by split|cbn; lia].
  - apply (Hgo att rec RClean (on_vm vm_Disconnect d)); [by split|split; [done|apply disconnect_idle]|cbn; lia].
  - pose proof (calm_persisted d) as [Hs Hid]. apply Hgo; [done|split; [done|by apply Hid]|cbn; lia].
  - unfold maxAttempts. destruct (Nat.leb_spec 10 att); apply Hgo; try done; try by split; [lia|].
    + cbn. lia.
    + unfold distance. cbn [rank]. lia.
  - destruct Hw as [-> Hid]. pose proof (calm_prepare e d) as [Hs Hi']. apply Hgo; [done|split; [done|by split; [|apply Hi']]|cbn; lia].
  - assert (rec = true) as -> by (destruct pc; naive_solver).
    pose proof (conn_step_on_its_way e (c_ctx cn) (c_nodeID cn) (c_follow cn) pc d att Hf Ha (conj Ha Hw)) as Hst.
    assert (6 <= rank (ROnce pc))%nat by (destruct pc; cbn; naive_solver lia).
    destruct (conn_step http e _ _ _ pc d) as [d' [pc'|[resp [det|] ] ] ]; destruct Hst as [Hs Hst]; cbn beta iota zeta; [|done|].
    + destruct Hst. apply Hgo; [done|done|unfold distance; lia].
    + apply Hgo; [done|by split|change (distance att RWait) with (9 * (10 - att) + 5)%nat; unfold distance; lia].
  - apply (Hgo att rec RGiveUpDNS (on_vm (vm_SetReconnecting false) d)); [by split| |cbn; lia].
    split; [done|]. split; [by apply idle_reconnecting|apply reconnecting_set].
  - left. destruct Hw as [Hid Hr]. split; [cbn; by apply list_lookup_insert_eq|done].
Qed.

(** C14: The reconnect loop ends. Once it has found the tunnel dead, and as long as
    no attempt gets through - the server cannot be reached, or the manager
    refuses every configuration -, ninety-six of its own steps are enough: it
    tears the tunnel down, uses up its attempts and gives up, leaving a
    manager without a connection that does not claim to be reconnecting. *)
Theorem reconnect_gives_up i c cn d es :
  connect_fails \/ server_fails ->
  threads d !! i = Some (TReconnect c 0 false RFlag) -> conns d !! c = Some cn ->
  IsCurrent (activeConnection d) (c_gen cn) = true -> (96 <= length es)%nat ->
  let d' := runs d (map (EStep i true) es) in
  threads d' !! i = Some TDone /\ idle (vm d') /\ VPN.Connected (vm_GetStatus (vm d')) = false /\
  VPN.Reconnecting (vm_GetStatus (vm d')) = false.
Proof.
  intros Hf Hi Hc Hcur Hl. cbn zeta.
  assert (giving_up i c cn 96 d) as Hg.
  { split; [|done|done]. exists 0%nat, false, RFlag. split_and!; [done|split; [lia|done]|done]. }
  assert (forall k es d, (k <= length es)%nat -> giving_up i c cn k d -> gave_up i (runs d (map (EStep i true) es))) as H.
  { clear - Hf VL. assert (forall es d, gave_up i d -> gave_up i (runs d (map (EStep i true) es))) as Hdone.
    { intros es. induction es as [|e es IH]; intros d Hd; [done|]. cbn. apply IH. unfold thread_step. by rewrite (proj1 Hd). }
    intros k. induction (lt_wf k) as [k _ IH]. intros [|e es] d Hl Hg.
    - destruct Hg as [(att & rec & pc & _ & [_ Hw] & Hd) _ _]. exfalso. cbn in Hl. unfold distance in Hd.
      destruct pc as [| | | | | | | | |pc| | | ]; cbn in Hd, Hw; try done; try lia; destruct pc; naive_solver lia.
    - change (runs d (map (EStep i true) (e :: es))) with (runs (step d (EStep i true e)) (map (EStep i true) es)).
      destruct (giving_up_step e i c cn k d Hf Hg) as [Hd|(k' & Hk & Hg')]; [by apply Hdone|]. apply (IH k'); [done|cbn in Hl; lia|done]. }
  destruct (H 96%nat es d Hl Hg) as (H1 & H2 & H3). split_and!; try done. by apply idle_not_connected.
Qed.
End daemon.
