(* ===== verification/DaemonVPN.v ===== *)
(** * The connection manager of VPN.v behind the daemon's interface

    The instance of [VPNManager] that the daemon runs with, and the laws that
    DaemonProofs.v relies on, from the invariants of VPNProofs.v; the system's
    DNS of SystemDNS.v, one instance for each platform. *)
From S2P Require Import Prelude GoStrings GoNet Json VPN VPNProofs Daemon.
From S2P Require Config Rule FakeIP RouteTable Router Outbound HostRoute Forwarder Socks5 Tun WGDevice SystemDNS.
Open Scope string_scope.
Open Scope list_scope.
Open Scope Z_scope.

Section instance.
Context {U : Unicode} {S : SliceSort} {WGo : WGDevice.WireGuard} {K RK W : Type} {HR : Router.Router W}.
Context (ops : HostRoute.host_ops K).
Context (NewPlatformRouter : string -> RK -> W) (router_kernel : W -> RK).
Context (goos : Tun.goos) (CreateTUN : string -> Z -> gset string -> result string)
  (tun_fails : list string -> list (list string) -> option error).
Context (Listen : string -> gset string -> result string).
Abbreviation manager := (@Manager WGo K RK W).
Implicit Types m : manager.

(** The host routes are the forwarder's while there is one. *)
Definition on_hosts (g : HostRoute.host_world K -> HostRoute.host_world K) (m : manager) : manager :=
  match fwd m with
  | Some f => set_fwd m (Some (Forwarder.set_hosts f (Forwarder.routeCache f) (g (Forwarder.hosts f)))) (world m)
  | None => set_fwd m None (w_hosts (world m) (g (host_routes (world m))))
  end.
(** [cleanupPersistedRoutes] without the DNS: a route manager of its own over
    the kernel's table and the state file, which a live connection's route
    manager shares. *)
Definition cleanup_captures (m : manager) : manager :=
  match rm m with
  | None =>
      let r := Router.Cleanup (Router.NewRouteManager (NewPlatformRouter "" (routes (world m))) (routes_file (world m)) (routes_writable (world m))) in
      set_rm m None (w_routes (world m) (router_kernel (Router.router r)) (Router.state r) (Router.writable r))
  | Some live =>
      let w := Router.router live in
      let r := Router.Cleanup (Router.NewRouteManager (NewPlatformRouter "" (router_kernel w)) (Router.state live) (Router.writable live)) in
      set_rm m (Some (Router.mkRouteManager (NewPlatformRouter (Router.TunName w) (router_kernel (Router.router r)))
                        (Router.managed live) (Router.state r) (Router.writable r))) (world m)
  end.

#[local] Instance vpn_manager : VPNManager := {|
  Mgr := manager;
  ConnEnv := StartEnv;
  vm_cfg := VPN.cfg;
  vm_set_cfg := fun c m => set_cfg m c;
  vm_Connect := Connect ops NewPlatformRouter router_kernel goos CreateTUN tun_fails Listen;
  vm_Disconnect := Disconnect ops router_kernel;
  vm_GetStatus := GetStatus;
  vm_GetStats := GetStats;
  vm_SetReconnecting := SetReconnecting;
  vm_IsConnectionDead := IsConnectionDead;
  vm_UpdateSplitRoutes := UpdateSplitRoutes;
  vm_SetFollowSplitRoutes := SetFollowSplitRoutes;
  vm_UpdateSOCKS5 := UpdateSOCKS5 Listen;
  fw_AddScopedHostRoute := fun ip iface => on_hosts (fun w => fst (HostRoute.AddScopedHostRoute ops ip iface w));
  fw_CleanupHostRoutesByIP := fun ips => on_hosts (HostRoute.CleanupHostRoutesByIP ops ips);
  rt_CleanupPersisted := fun m => on_hosts (HostRoute.CleanupPersistedHostRoutes ops) (cleanup_captures m) |}.

(** Without a connection: no part is present and nothing claims to be active. *)
Definition no_connection (m : manager) : Prop := down m /\ active m = false /\ Connected (status m) = false.
Lemma no_connection_live m : no_connection m -> live m = false.
Proof. intros (_ & Ha & _). unfold live. by rewrite Ha. Qed.
Lemma on_hosts_idle g m : no_connection m -> no_connection (on_hosts g m).
Proof. intros (Hd & Ha & Hs). unfold on_hosts. pose proof Hd as (H1 & H2 & H3 & H4 & H5 & H6 & H7). rewrite H3.
  split; [|by split]. unfold down. cbn. by rewrite H1, H2, H4, H5, H6, H7.
Qed.
Lemma cleanup_captures_idle m : no_connection m -> no_connection (cleanup_captures m).
Proof.
  intros (Hd & Ha & Hs). unfold cleanup_captures. pose proof Hd as (H1 & H2 & H3 & H4 & H5 & H6 & H7). rewrite H6.
  split; [|by split]. unfold down. cbn. by rewrite H1, H2, H3, H4, H5, H7.
Qed.
Lemma Connect_ok_status e now n cc m m' :
  Connect ops NewPlatformRouter router_kernel goos CreateTUN tun_fails Listen e now n cc m = (m', None) ->
  Connected (status m') = true.
Proof.
  unfold Connect. set (m0 := if active m then _ else m).
  destruct (startLocked ops NewPlatformRouter goos CreateTUN tun_fails Listen e n cc m0) as [m1 [x|err] ]; [|done].
  intros [= <-]. reflexivity.
Qed.
#[local] Instance vpn_manager_laws : VPNManagerLaws.
Proof.
  refine {| idle := no_connection |}.
  - intros m (_ & _ & Hs). exact Hs.
  - intros m. pose proof (cleanup_down ops router_kernel m) as Hd.
    change (vm_Disconnect m) with (set_active (cleanupLocked ops router_kernel m) false zeroStatus).
    revert Hd. generalize (cleanupLocked ops router_kernel m). intros m' Hd. split; [exact Hd|done].
  - intros e now n cc m m' Hc. exact (Connect_ok_status e now n cc m m' Hc).
  - intros e now n cc m m' err (_ & Ha & Hs) Hc.
    destruct (Connect_error ops NewPlatformRouter router_kernel goos CreateTUN tun_fails Listen _ _ _ _ _ _ _ Hc) as ((m1 & ->) & H1 & H2).
    pose proof (cleanup_down ops router_kernel m1) as Hd. revert H1 H2 Hd. generalize (cleanupLocked ops router_kernel m1).
    intros m' H1 H2 Hd. split; [exact Hd|]. rewrite H1, H2. done.
  - done.
  - done.
  - intros now m (Hd & Ha & Hs). cbn. unfold IsConnectionDead. pose proof Hd as (_ & Hw & _). by rewrite Hw.
  - intros r s m Hi. cbn. unfold UpdateSplitRoutes. by rewrite (no_connection_live m Hi).
  - intros b m Hi. cbn. unfold SetFollowSplitRoutes. by rewrite (no_connection_live m Hi).
  - intros c m (Hd & Ha & Hs). cbn. unfold UpdateSOCKS5. cbn [active set_cfg]. rewrite Ha. done.
  - intros ip i m. apply on_hosts_idle.
  - intros ips m. apply on_hosts_idle.
  - intros m Hi. by apply on_hosts_idle, cleanup_captures_idle.
  - done.
  - done.
  - intros m. destruct (cleanup_settings ops router_kernel m) as (_ & _ & Hr & _).
    change (reconnecting (cleanupLocked ops router_kernel m) = reconnecting m). exact Hr.
Qed.
End instance.

(** ** The platforms' DNS *)
Section platforms.
Context {U : Unicode} (json_parse : string -> option json) (json_print : json -> string) (h : SystemDNS.Host).
Definition darwin_dns : SysDNS := {|
  Sys := SystemDNS.World;
  setupSystemDNS := SystemDNS.darwin_setup json_parse json_print h;
  cleanupSystemDNS := SystemDNS.darwin_cleanup json_parse h;
  flushDNSCache := SystemDNS.darwin_flush h |}.
Definition linux_dns : SysDNS := {|
  Sys := SystemDNS.World;
  setupSystemDNS := SystemDNS.linux_setup json_print h;
  cleanupSystemDNS := SystemDNS.linux_cleanup json_parse h;
  flushDNSCache := SystemDNS.linux_flush h |}.
Definition windows_dns : SysDNS := {|
  Sys := SystemDNS.World;
  setupSystemDNS := fun _ => SystemDNS.windows_setup json_parse json_print h;
  cleanupSystemDNS := SystemDNS.windows_cleanup json_parse h;
  flushDNSCache := SystemDNS.windows_flush h |}.
(** Every other platform. *)
Definition stub_dns : SysDNS := {|
  Sys := unit;
  setupSystemDNS := fun _ _ s => (s, None);
  cleanupSystemDNS := fun s => s;
  flushDNSCache := fun s => s |}.
End platforms.
