(* ===== verification/DaemonSample.v ===== *)
(** * The daemon at work

    The daemon over the connection manager of VPN.v on the concrete host of
    VPNProofs.v, with a server that knows one node: the theorems of
    DaemonProofs.v on real runs, and three interleavings that go wrong. *)
From S2P Require Import Prelude GoStrings GoNet Json Totp Corplink CorplinkSample VPN VPNProofs Daemon DaemonProofs DaemonVPN.
From S2P Require Config Outbound Router Tun WGDevice WGCrypto WGState.
Open Scope string_scope.
Open Scope list_scope.
Open Scope Z_scope.

#[local] Existing Instance ascii_only.
#[local] Existing Instance insertion_SliceSort.
#[local] Existing Instance Router.map_router.
#[local] Existing Instance toy_wg.
#[local] Existing Instance sample_url.
#[local] Existing Instance sample_jar.
#[local] Existing Instance sample_digests.
#[local] Existing Instance WGCrypto.toy_crypto.
#[local] Instance sample_manager : VPNManager :=
  vpn_manager toy_ops toy_router Router.mw_routes Tun.Other toy_CreateTUN (fun _ _ => None) toy_Listen.
#[local] Instance sample_laws : VPNManagerLaws :=
  vpn_manager_laws toy_ops toy_router Router.mw_routes Tun.Other toy_CreateTUN (fun _ _ => None) toy_Listen.
#[local] Existing Instance stub_dns.

Definition node_list : json := JObj [("code", JNum "0"); ("data", JArr [JObj
  [("id", JNum "1"); ("name", JStr "hk"); ("ip", JStr "203.0.113.9"); ("api_port", JNum "443"); ("vpn_port", JNum "51820");
   ("protocol_mode", JNum "2")]])].
Definition conn_answer : json := JObj [("code", JNum "0"); ("data", JObj
  [("ip", JStr "10.8.0.2"); ("public_key", JStr "AAAA"); ("setting", JObj [("vpn_route_split", JArr [JStr "10.0.0.0/8"])])])].
Definition vpn_server (_ : list (@request Outbound.NetDialer)) (r : @request Outbound.NetDialer) : string + response :=
  if Contains (r_url r) "/api/vpn/list" then CorplinkSample.answer node_list []
  else if Contains (r_url r) "/vpn/conn" then CorplinkSample.answer conn_answer []
  else CorplinkSample.answer (JObj [("code", JNum "0")]) [].
Definition down_server (_ : list (@request Outbound.NetDialer)) (_ : @request Outbound.NetDialer) : string + response := inl "refused".

Definition env (now : Z) : @Env sample_manager :=
  mkEnv toy_os (fun _ => Ok ["198.51.100.1"]) (Ok (replicate 32 7)) now (toy_env true) (fun _ => None).
Definition client_state : @Corplink.State _ _ Outbound.NetDialer :=
  mkState ses (NewClientWithConfig 0 (Config.mkCorplinkConfig "" "" true false)) [built_jar ses] ∅ [].
Definition booted := boot (SD := stub_dns) (VPN.New toy_config toy_world) client_state tt (env 1000).
Definition go http := runs (SD := stub_dns) (fun _ => None) (fun _ => "") true "linux" "c.json" http.
(** [n] steps of a thread, its ticker firing. *)
Definition steps (n i : nat) (now : Z) : list (@Daemon.event sample_manager) := replicate n (EStep i true (env now)).
Definition summary (d : @daemon _ _ sample_manager stub_dns) :=
  let s := vm_GetStatus (vm d) in
  (VPN.Connected s, VPN.Reconnecting s, bool_decide (is_Some (cancel (activeConnection d))),
   map (fun t => match t with TDone => true | _ => false end) (threads d)).
Definition connect : list (@Daemon.event sample_manager) := ERequest (AConnect 1 true) (env 1000) :: steps 6 0 1000.
Definition disconnect (i : nat) : list (@Daemon.event sample_manager) := ERequest ADisconnect (env 3000) :: steps 3 i 3000.

Example connected : summary (go vpn_server booted connect) = (true, false, true, [true; false; false]).
Proof. vm_compute. reflexivity. Qed.

(** *** The keep-alive goroutine ends during a reconnect

    A tick of its own that falls between the teardown and the new connection
    makes it return; the reconnect succeeds, with new values for it to report,
    but nothing reports them. *)
Definition keepalive_run : list (@Daemon.event sample_manager) :=
  connect ++ steps 6 2 2000 ++ steps 2 1 2000 ++ steps 9 2 2000.
Lemma keepalive_ends_in_reconnect :
  let d := go vpn_server booted keepalive_run in
  summary d = (true, false, true, [true; true; false]) /\
  threads d !! 1%nat = Some TDone /\ threads d !! 2%nat = Some (TReconnect 0 0 false RWait).
Proof. vm_compute. auto. Qed.

(** *** A disconnect during a reconnect is undone

    The attempt has passed its last check of the supervisor: the user
    disconnects, is told so, and the attempt connects. *)
Definition undone_run : list (@Daemon.event sample_manager) :=
  connect ++ steps 12 2 2000 ++ disconnect 3 ++ steps 4 2 2000.
Lemma reconnect_undoes_disconnect :
  let d := go vpn_server booted undone_run in
  summary d = (true, false, false, [true; false; true; true]) /\ last (replies d) = Some (3%nat, ok DNone).
Proof. vm_compute. auto. Qed.

(** *** A disconnect during a reconnect leaves "reconnecting" *)
Definition flag_run : list (@Daemon.event sample_manager) :=
  connect ++ steps 9 2 2000.
Lemma disconnect_leaves_reconnecting :
  let d := go vpn_server booted flag_run in
  let d := go down_server d (steps 1 2 2000 ++ disconnect 3 ++ steps 2 2 3000) in
  summary d = (false, true, false, [true; false; true; true]).
Proof. vm_compute. auto. Qed.

(** *** The theorems *)
Lemma disconnect_is_final_witness :
  VPN.Connected (vm_GetStatus (vm (go vpn_server (go vpn_server booted connect)
    (ERequest ADisconnect (env 3000) :: EStep 3 false (env 3000) :: EStep 3 false (env 3000) ::
     ERequest AStatus (env 3000) :: steps 2 2 4000 ++ steps 2 1 4000)))) = false.
Proof.
  refine (proj1 (proj2 (disconnect_is_final (SD := stub_dns) (fun _ => None) (fun _ => "") true "linux" "c.json" vpn_server
    (go vpn_server booted connect) (env 3000) (env 3000) (env 3000)
    (ERequest AStatus (env 3000) :: steps 2 2 4000 ++ steps 2 1 4000) _ _))).
  - assert (threads (go vpn_server booted connect) = [TDone; TKeep 0 KWait; TReconnect 0 0 false RWait]) as -> by (vm_compute; reflexivity).
    by repeat constructor.
  - by repeat constructor.
Defined.
Abbreviation reconnected := (runs (V := sample_manager) (SD := stub_dns) (fun _ => None) (fun _ => "") true "linux" "c.json" vpn_server
  (boot (SD := stub_dns) (VPN.New toy_config toy_world) client_state tt (env 1000)) (connect ++ connect)).
Lemma one_current_connection_witness :
  exists cn, conns reconnected !! 0%nat = Some cn /\
    IsCurrent (activeConnection reconnected) (c_gen cn) = negb (Done (ctxs reconnected) (c_ctx cn)).
Proof.
  assert (exists cn, conns reconnected !! 0%nat = Some cn) as [cn E].
  { eexists. vm_compute. reflexivity. }
  exists cn. split; [exact E|]. revert E.
  refine (proj1 (one_current_connection (V := sample_manager) (SD := stub_dns) (fun _ => None) (fun _ => "") true "linux" "c.json" vpn_server
    (VPN.New toy_config toy_world) client_state tt (env 1000) (connect ++ connect) [] _) 0%nat cn). vm_compute. reflexivity.
Defined.
Definition dead_run : list (@Daemon.event sample_manager) := connect ++ steps 3 2 2000.
Lemma reconnect_gives_up_witness :
  let d' := go down_server (go vpn_server booted dead_run) (map (EStep 2 true) (replicate 96 (env 2000))) in
  threads d' !! 2%nat = Some TDone /\ VPN.Connected (vm_GetStatus (vm d')) = false.
Proof.
  assert (exists cn, conns (go vpn_server booted dead_run) !! 0%nat = Some cn /\
    IsCurrent (activeConnection (go vpn_server booted dead_run)) (c_gen cn) = true) as (cn & H1 & H2).
  { eexists. split; vm_compute; reflexivity. }
  destruct (reconnect_gives_up (SD := stub_dns) (fun _ => None) (fun _ => "") true "linux" "c.json" down_server 2 0 cn
    (go vpn_server booted dead_run) (replicate 96 (env 2000))) as (H3 & _ & H4 & _).
  - right. intros sent r. by exists "refused".
  - vm_compute. reflexivity.
  - exact H1.
  - exact H2.
  - by rewrite length_replicate.
  - by split.
Defined.
